(* ===== verification/_CoqProject ===== *)
-Q . S2P
Prelude.v
GoStrings.v
Model.v
ChainModel.v
Lifecycle.v
StoreCore.v
Store.v
StoreSpec.v
StoreRefine.v
StoreSecurity.v
StoreQueries.v
NodeHealth.v
AutoRelocate.v
Alloc.v
Caddy.v
Presets.v
Roles.v
ManualRules.v
Shell.v
MergedRoute.v
AwgPath.v
MergedConfig.v
Push.v
Keygen.v
KeygenSpec.v
KeygenAddresses.v
Codec.v
AwgConf.v
PeerSync.v
Traffic.v
Migrate.v
AwgMaterial.v
ProfileDeploy.v
EntryMaterial.v
Clone.v
AwgPush.v
AwgDeploy.v
Json.v
BoxInstall.v
DeployChain.v
DeployNode.v
ClientConf.v
HopWire.v
Links.v
ConfFields.v
VpnUri.v
OutboundConf.v
Subscription.v
Pool.v
PanelAuth.v
BackupBlob.v
Backup.v
AwgImport.v
JsonDecode.v
TakeoverConvert.v
TakeoverRender.v
TakeoverDetect.v
Takeover.v
PanelImport.v
StoreUsers.v
Bot.v
WebForm.v
WebUsers.v
