(* ===== verification/Prelude.v ===== *)
(** * angry-box: a verification development

    angry-box is an orchestrator for proxy servers.  A panel process (cmd/,
    internal/web, internal/bot) keeps everything it knows in one JSON file (the
    store, internal/chain/store.go), derives from it the configuration of every
    server (internal/chain/merged_config.go and its neighbours) and of every
    user (clientconfig.go, internal/web/users.go, subscription.go), and pushes
    the result over SSH (internal/ssh).  Servers are grouped in chains: an
    ordered list of hop levels that user traffic crosses from an entry to an
    exit.  This library models the orchestrator's own logic, the Go packages
    internal/chain, internal/domain/model, internal/awg/vpnuri, internal/takeover,
    internal/bot and parts of internal/ssh, internal/backend and internal/web, and
    proves what makes it correct.

    ** Parts, files and their Go sources

    - The foundations.  [Prelude]: notations, record update, slices searched by
      a key, shared tactics.  [GoStrings]: the functions of packages strings and
      net the program uses.  [Codec]: hexadecimal, base64 and the packet strings
      of awgcps_format.go and awg_cps.go.  [Json]: what is used of encoding/json.
    - The data (internal/domain/model).  [Model]: every record, field by field.
      [ChainModel]: the methods of [Chain] over the two shapes of a chain (flat
      list and levels).  [Lifecycle]: user status, AWG protocol versions, node
      utilities.
    - The store (chain/store.go, store_crypto.go, atomicwrite.go,
      store_utilities.go).  [StoreCore]: the disk, the key file, symbolic
      encryption, the atomic write with a fault at each system call, [readStore]
      and [writeStore].  [Store]: one definition per store method.
      [StoreSpec]: sequences of operations and the invariant of the file.
      [StoreRefine]: the abstract store of finite maps and the refinement.
      [StoreSecurity]: error atomicity, encryption at rest, host keys.
      [StoreQueries]: listing order, chain resolution, stale utilities.
      [Migrate] (store.go, migrate_v2.go): the schema migrations.
    - Node health, relocation, cloning.  [NodeHealth] (nodehealth.go, the
      metrics loop and handlers of internal/web): the hysteresis state machine
      and its writers.  [AutoRelocate] (autorelocate.go, relocate.go): the
      decision, the spare pool and the move of a node.  [Clone] (clone.go): a
      node duplicated onto a new server.  The deployer is the interface
      [ChainApplier].
    - Allocation.  [Alloc] (cryptogen.go): tunnel addresses and user
      credentials.  [Caddy] (utilities.go, inbound_source.go): ports and names
      behind the SNI router.
    - Configuration of a node.  [Presets] (presets.go): the preset registry.
      [Roles] (merged_config.go, strategygroup.go, frozen.go): the role of a
      node in its chains, tags, group outbounds, topology; whether a hop can be
      built is the interface [HopBuilder].  [ManualRules] (routing.go,
      routingpresets.go): the operator's route rules.  [MergedRoute]
      (merged_config.go, awg_tun_overlay.go): the route section.  [AwgPath]: the
      route sections of the nodes of a chain put together; sing-box's matching
      is the interface [RouteMatcher].  [MergedConfig]: port conflicts and
      outbounds.  [HopWire] (applier_build.go, merged_config.go): the
      listeners, outbounds and endpoints of a chain; Curve25519 is the interface
      [Curve].  [AwgMaterial] (awg_cps.go, awg_inbound_material.go): the
      obfuscation of AWG listeners, whose draws are [CPSGen].  [ProfileDeploy]
      (profile_deploy.go) and [EntryMaterial] (chain_entry_material.go): the
      inbounds that profiles and chain entries put on nodes.
    - Kernel interfaces.  [AwgConf] (awg_server.go): the awg-quick files.
      [AwgDeploy] (awg_deploy.go, awg_outbound.go): which files a node runs and
      which interfaces must go.  [PeerSync] (awg_peersync.go): peers of a live
      interface; what awg-quick makes of a file is the interface [AwgQuick].
      [AwgPush] (awg_push.go): interfaces and configuration deployed together.
      [Traffic] (awgtraffic.go): the traffic of the users.
    - Deployment (applier_build.go, applier_push.go, ssh/quote.go).  [Keygen]:
      entry credentials and the pass that gives every node of a chain its keys
      and addresses.  [KeygenSpec]: the pass completes nodes and stops there.
      [KeygenAddresses]: addresses stay distinct, and the properties of the
      pass.  [Push]: the push of a configuration, with a fault at each remote
      command; the checks of sing-box are the interface [NodeEnv].  [BoxInstall]
      (backend/singbox/singbox.go): the installation that comes before it, which
      replaces the configuration and restarts the service.
      [DeployChain]: a chain is applied to its nodes; [DeployNode]: one node.
      The text of a configuration and its hash are the interfaces [NodeRenderer]
      and [ConfigHasher].  [Shell]: quoting for the remote shell, whose reading
      of a word is the interface [ShellReader].
    - Users.  [ClientConf] (clientconfig.go, web/users.go): client files and the
      TUIC client.  [Links] (merged_config.go, web/users.go, subscription.go):
      standalone listeners and the links of the users.  [ConfFields]
      (vpnuri.go, web/sub_singbox.go, sub_clash.go, awg_outbound.go): client
      files and links read back.  [VpnUri] (awg/vpnuri/vpnuri.go): vpn:// links;
      zlib is the interface [Zlib].  [OutboundConf] (awg_outbound.go): outbounds
      read from a file.  [Subscription] (web/subscription.go, sub_singbox.go,
      sub_clash.go, subpush.go): the documents of a user, the endpoint that
      serves them and the files a node serves.  [StoreUsers]: what saving a user
      does to the store.  [WebForm] (net/http, web/users.go, autoapply.go): form
      values, dates and scheduled deploys.  [WebUsers] (web/users.go): the
      handlers that create, change, delete and show users.
    - Backups.  [BackupBlob] (backup_crypto.go): the encrypted blob; scrypt and
      AES-GCM are an interface with the law that opening undoes sealing.
      [Backup] (backup.go, backup_offsite.go, web/backups.go, main.go): export,
      import and off-site copies of the store and of a node.
    - Foreign servers (internal/takeover, awgimport.go, awgimport_foreign.go,
      awg_takeover_users.go, takeover_helpers.go).  [JsonDecode]: decoding into
      structs.  [AwgImport]: the files and containers of an AWG server, and the
      users made of its peers.  [TakeoverDetect]: what runs on a machine.
      [TakeoverConvert], [TakeoverRender]: configurations of Xray and sing-box
      converted, and rendered again.  [Takeover]: the cutover with its way back.
      [PanelImport] (panel_db.go, panel_import.go, web/panelimport.go): the rows
      of a 3x-ui database.
    - The bot.  [Bot] (bot/bot.go, notify.go): commands, binding codes and their
      limiter, reports and the hourly tick.
    - The panel process.  [Pool] (ssh/pool.go): the connection pool and its
      interleavings.  [PanelAuth] (web/authlimiter.go, auth.go, csrf.go,
      server.go): the login gate; bcrypt, net and net/url are [AuthLibs].

    ** How the code is modelled

    - A record has the fields of its Go struct, prefixed by the struct's name; a
      slice of pointers is the list of the values (the program stores no nil
      entry); a Go map is a [gmap].  Where the order of a map iteration can be
      observed, the definition says so: it is a list in the order of the result,
      or ([PushEnv]) any permutation.
    - [int] and [int64] are [Z]; [wrap64] is applied where the program
      increments a counter (revision, consecutive probes, traffic).
    - The clock and the random generators are arguments.  A random identifier
      comes as the argument [freshID]; an absent value is the generator's error.
    - Each store method holds the mutex of its [Store] value for its whole body,
      so it is one function [World -> Result A * World]; interleavings are
      sequences of operations.  The panel makes a [Store] value per request, so
      two requests are not excluded from one another by that mutex: the theorems
      about the store speak of the methods one after the other.  A [World] is
      the disk: store file, temporary files, key file, fault.  The file content
      is what it decodes to: JSON and AES-GCM are symbolic (only the right key
      opens an encrypted file).  The store file and the key file can also be
      there and not readable.
    - A node is the state of what the program can change on it (configuration,
      backup, service, interfaces, subscription files); what a remote command
      does, and whether its reply arrives, is an oracle with every outcome.
      Theorems that promise an undo say which commands of the undo must work.
    - An error is a constructor of [StoreErr]; [errors_is] relates it to the
      sentinels of errors.go.  A Go panic is [None].
    - String functions (TrimSpace, Fields, ToLower) act on ASCII.  Where names of
      users and e-mail addresses are compared or lower-cased, the Unicode tables
      are the parameter [UnicodeCase].  Key file permissions are checked as on
      Unix.

    ** What is proved

    - Store: the file reached by any sequence of operations is well formed
      ([reachable_WF]); each saving operation is accepted exactly when the
      abstract store accepts it and has its effect ([run_refines]); failures
      change nothing ([failed_op_unchanged]); with a valid key nothing is ever
      written in plaintext ([encrypted_at_rest]); the migrations of files with a
      version from 0 on terminate, keep the chains and give inbounds their
      profiles ([migrateOnce_terminates], [chain_migration_keeps],
      [standalone_inbounds_profiled]).
    - Configuration: with AB_ROUTE_DNS=1 and a kernel entry a pinned user leaves
      the chain at the pinned node ([awg_pin_egress]); no outbound dangles but
      those the operator typed ([config_outbounds_declared]); no index panic
      ([nodeRoute_total]); the port check is exact ([port_conflicts_exact]); two
      neighbours agree about their hop ([hop_agrees], [tunnel_agrees], and
      [exit_tunnel_agrees] for stored material, the first decoy packet apart
      where each rendering draws it).
    - Deployment: what a push leaves in each of its outcomes
      ([push_success_or_rollback]), also with kernel interfaces, where an undo
      needs working rollback commands ([awg_push_symmetric]); the report of a
      chain is what happened to its nodes ([apply_chain_report]), and one node
      gets all of its parts ([merged_deploy]), the installation included;
      interfaces are stopped exactly when nothing keeps them
      ([awg_teardown_exact]); synchronised peers are those of a restart
      ([peer_sync_matches_restart]); exactly the served users have peers
      ([awg_access], per interface and with their keys); keys are only ever filled in, and a second key pass is
      idle ([prepareKeys_only_completes], [keygen_complete_idempotent]).
    - Users: client files agree with their servers ([client_conf_agrees], for
      stored material, [tuic_client_admitted]); links open their listeners
      ([standalone_link_admitted], for the kinds of [linkable],
      [fronted_link_routed]), also through the
      sing-box document ([singbox_client_agrees], [singbox_vless_admitted]);
      vpn:// links and outbounds are read back ([vpn_link_roundtrip],
      [outbound_conf_roundtrip]); the files of a node are those of subscribed
      users ([subscription_push_exact]) and those of the endpoint
      ([subscription_static_agrees]); bytes of a peer on one interface are billed
      once ([traffic_billed]); the user form keeps identities and addresses
      distinct ([user_update_exact], [user_create_exact],
      [user_addresses_distinct]); binding codes cannot be guessed or used twice
      ([bot_binding_exact]).
    - Backups: what was pushed is restored ([offsite_backup_restores]); a blob is
      opened exactly with its passphrase ([backup_blob_exact]); the rotation keeps
      the newest ([rotation_keeps_newest]); what an import of a node changes
      ([import_node_exact]).
    - Foreign servers: a take-over ends with the new server or the old one
      ([takeover_or_old_vpn]); an AWG server keeps its clients
      ([takeover_awg_exact], [takeover_keeps_server]); the users of a panel are
      those its rows describe ([panel_clients_become_users]).
    - Nodes: hysteresis ([hysteresis]); relocation and placement have their
      effect on the records ([relocate_records], [profile_placement]).
    - The panel: no connection is shared between identities ([pool_identity]);
      the login gate is exact ([login_gate_exact]).

    The other theorems of the files (material of chains, cloning, chain
    entries, operator rules, allocation, host keys, quoting, packet strings) are
    results the ones above rest on or stand beside.  Lemmas named in the comments
    as deviations ([external_default_panics], [singbox_null_outbound], ...) are
    concrete inputs on which the code does not do what it says.

    ** Fuel and bounds

    - [RemapInboundPorts] searches free ports with fuel [2 * n + 6] for [n]
      inbounds: at most [2 * n + 5] ports can be busy ([remapFrom_spec]), so the
      search always succeeds.
    - [AwgPath.egress] follows a connection with fuel the length of the chain,
      one unit per node; [awg_pin_egress] shows that it leaves within it.
    - [Migrate] counts up from the stored version with fuel for the three steps
      there are, and looks for a free name with one more candidate than there
      are names in use; both always end.
    - [Json.unmarshal] has the length of the text as fuel; [fuel_enough] shows
      that the text of a value needs no more.
    - Everything else is structural recursion.

    ** What is not modelled

    The other HTTP handlers, the templates and the translations; the SSH transport
    and the key files of SSH; the Telegram API; the shell scripts that install
    utilities, sing-box and the kernel module; the reading of a SQLite database;
    the audit log, which is a file of its own; the generation of decoy packets;
    and the JSON encoding of configurations: rendering, input/output or
    third-party formats.  Two [Store] values at work at once are not modelled;
    of the automatic apply after an edit (autoapply.go) only what is scheduled
    is. *)

From Stdlib Require Export Lia Ascii.
From stdpp Require Export base gmap strings list numbers option pretty.

(** ** Strings and numbers of the Go program *)

#[global] Open Scope string_scope.
#[global] Open Scope list_scope.
#[global] Open Scope Z_scope.

#[global] Arguments String.append !s1 s2 : simpl nomatch.

Declare Scope go_scope.
Delimit Scope go_scope with go.

(** Go's [==] on strings, integers and booleans, as a boolean. *)
Notation "x == y" := (bool_decide (x = y)) (at level 70, no associativity) : go_scope.
Notation "x != y" := (negb (bool_decide (x = y))) (at level 70, no associativity) : go_scope.
#[global] Open Scope go_scope.

(** Wrap-around of Go's 64-bit signed [int] and [int64]. *)
Definition wrap64 (z : Z) : Z := (z + 2 ^ 63) `mod` 2 ^ 64 - 2 ^ 63.

Lemma wrap64_id z : - 2 ^ 63 <= z < 2 ^ 63 -> wrap64 z = z.
Proof. intros H. unfold wrap64. rewrite Z.mod_small; lia. Qed.

(** A [time.Time] is its instant in nanoseconds relative to the Unix epoch;
    [zeroTime] is Go's zero value (year 1), [IsZero] the test for it. *)
Abbreviation Time := Z (only parsing).
Definition zeroTime : Time := -62135596800 * 10 ^ 9.
Definition IsZero (t : Time) : bool := t =? zeroTime.

(** A [float64] is its bit pattern: the program only copies them. *)
Abbreviation float64 := Z (only parsing).

(** ** Record update

    [Eta R] gives the expansion of a record into its projections; from it
    [Update] derives, for every projection, the function that changes this
    field only. *)
Class Eta (R : Type) := eta : R -> R.
Class Update {R E : Type} (proj : R -> E) := update : (E -> E) -> R -> R.
Arguments update {R E} proj {_} f r.

Ltac derive_update R proj :=
  unfold Update;
  let f := fresh "f" in let r := fresh "r" in intros f r;
  let b := constr:(eta r) in
  let b := eval hnf in b in
  let p := eval pattern (proj r) in b in
  lazymatch p with
  | ?g _ => let res := eval cbv beta in (g (f (proj r))) in exact res
  end.

#[export] Hint Extern 1 (@Update ?R _ ?proj) => derive_update R proj : typeclass_instances.

Notation "r <| p := v |>" := (update p (fun _ => v) r)
  (at level 1, left associativity, p at level 99, v at level 200,
   format "r  <| p  :=  v |>").


(** ** Tactics *)

(** Case analysis on the innermost boolean test or match of the goal. *)
Ltac case_step :=
  match goal with
  | |- context [match ?x with _ => _ end] =>
      lazymatch x with
      | context [match _ with _ => _ end] => fail
      | _ => let E := fresh "E" in destruct x eqn:E
      end
  end.

(** The same in a hypothesis. *)
Ltac case_step_in H :=
  match type of H with
  | context [match ?x with _ => _ end] =>
      lazymatch x with
      | context [match _ with _ => _ end] => fail
      | _ => let E := fresh "E" in destruct x eqn:E
      end
  end.

(** Turn boolean tests in the context into propositions. *)
Ltac bool_to_prop :=
  repeat match goal with
  | H : bool_decide _ = true |- _ => apply bool_decide_eq_true in H
  | H : bool_decide _ = false |- _ => apply bool_decide_eq_false in H
  | H : negb _ = true |- _ => apply negb_true_iff in H
  | H : negb _ = false |- _ => apply negb_false_iff in H
  | H : _ && _ = true |- _ => apply andb_true_iff in H as [? ?]
  | H : _ || _ = false |- _ => apply orb_false_iff in H as [? ?]
  | H : (_ =? _) = true |- _ => apply Z.eqb_eq in H
  | H : (_ =? _) = false |- _ => apply Z.eqb_neq in H
  | H : (_ <? _) = true |- _ => apply Z.ltb_lt in H
  | H : (_ <? _) = false |- _ => apply Z.ltb_ge in H
  | H : (_ <=? _) = true |- _ => apply Z.leb_le in H
  | H : (_ <=? _) = false |- _ => apply Z.leb_gt in H
  end.

(** Records of a list with distinct keys are told apart by their key. *)
Lemma NoDup_map_inj {A B} (f : A -> B) (l : list A) x y :
  NoDup (map f l) -> x ∈ l -> y ∈ l -> f x = f y -> x = y.
Proof.
  induction l as [|z l IH]; [by intros _ ?%not_elem_of_nil|]. cbn [map].
  intros [Hz Hnd]%NoDup_cons [->|Hx]%elem_of_cons [->|Hy]%elem_of_cons E; [done|..|by apply IH];
    destruct Hz; [rewrite E|rewrite <- E]; by apply list_elem_of_fmap_2.
Qed.

(** ** Slices searched by a string key

    The store keeps each collection as a slice and finds records by a linear
    scan on a string key: [key_of]. *)
Class Keyed (A : Type) := key_of : A -> string.

Section keyed.
Context {A : Type} `{Keyed A}.

(** The scan [for _, x := range l { if x.key == k { return x } }]. *)
Definition find_key (k : string) (l : list A) : option A :=
  List.find (fun x => key_of x == k) l.

(** Replace the first record with the key of [x], append [x] when there is none. *)
Fixpoint upsert (x : A) (l : list A) : list A :=
  match l with
  | [] => [x]
  | y :: l' => if key_of y == key_of x then x :: l' else y :: upsert x l'
  end.

(** The in-place filter [filtered := l[:0]; ...] that drops every record keyed [k]. *)
Definition remove_key (k : string) (l : list A) : list A :=
  List.filter (fun x => key_of x != k) l.

(** [append(l[:i], l[i+1:]...)] for the first index [i] whose key is [k]. *)
Fixpoint remove_first (k : string) (l : list A) : list A :=
  match l with
  | [] => []
  | y :: l' => if key_of y == k then l' else y :: remove_first k l'
  end.

Definition has_key (k : string) (l : list A) : bool :=
  existsb (fun x => key_of x == k) l.

(** The finite map a slice stands for: the first record with a key wins. *)
Definition to_map (l : list A) : gmap string A :=
  list_to_map (map (fun x => (key_of x, x)) l).

Definition keys (l : list A) : list string := map key_of l.

Lemma lookup_to_map k l : to_map l !! k = find_key k l.
Proof.
  unfold to_map, find_key. induction l as [|x l IH]; [done|]. simpl.
  case_bool_decide as E.
  - subst k. by rewrite lookup_insert_eq.
  - by rewrite lookup_insert_ne.
Qed.

Lemma find_key_Some k l x : find_key k l = Some x -> x ∈ l /\ key_of x = k.
Proof.
  intros [Hin Hk]%List.find_some. apply bool_decide_eq_true in Hk.
  split; [by apply list_elem_of_In|done].
Qed.

Lemma find_key_elem x l : NoDup (keys l) -> x ∈ l -> find_key (key_of x) l = Some x.
Proof.
  unfold find_key, keys. induction l as [|y l IH]; intros Hn Hx; [by apply elem_of_nil in Hx|].
  cbn [map] in Hn. apply NoDup_cons in Hn as [Hy Hn]. cbn [List.find]. apply elem_of_cons in Hx as [-> | Hx].
  - by rewrite bool_decide_eq_true_2.
  - rewrite bool_decide_eq_false_2; [by apply IH|]. intros He. apply Hy. rewrite He.
    apply list_elem_of_fmap. by exists x.
Qed.

Lemma find_key_None k l : find_key k l = None <-> k ∉ keys l.
Proof.
  unfold find_key, keys. induction l as [|y l IH]; simpl.
  - split; [intros _; apply not_elem_of_nil | done].
  - case_bool_decide as E; split; intros Hk; try done.
    + subst. exfalso. apply Hk. by left.
    + apply not_elem_of_cons. split; [done|by apply IH].
    + apply not_elem_of_cons in Hk as [_ Hk]. by apply IH.
Qed.

Lemma has_key_spec k l : has_key k l = true <-> k ∈ keys l.
Proof.
  unfold has_key, keys. rewrite existsb_exists, list_elem_of_In, in_map_iff.
  split; intros (x & H1 & H2); exists x.
  - split; [by apply bool_decide_eq_true in H2 | done].
  - split; [done | by apply bool_decide_eq_true].
Qed.

Lemma to_map_upsert x l : to_map (upsert x l) = <[key_of x := x]> (to_map l).
Proof.
  unfold to_map. induction l as [|y l IH]; [done|]. simpl.
  case_bool_decide as E; simpl.
  - by rewrite <- E, insert_insert_eq.
  - rewrite IH. by rewrite insert_insert_ne.
Qed.

Lemma find_upsert_eq x l : find_key (key_of x) (upsert x l) = Some x.
Proof. by rewrite <- lookup_to_map, to_map_upsert, lookup_insert_eq. Qed.

Lemma find_upsert_ne x k l :
  k <> key_of x -> find_key k (upsert x l) = find_key k l.
Proof.
  intros Hk. rewrite <- !lookup_to_map, to_map_upsert, lookup_insert_ne by done.
  done.
Qed.

Lemma to_map_remove_key k l : to_map (remove_key k l) = delete k (to_map l).
Proof.
  unfold to_map, remove_key. induction l as [|y l IH]; [simpl; by rewrite delete_empty|].
  simpl. case_bool_decide as E; simpl.
  - rewrite IH, E. by rewrite delete_insert_eq.
  - rewrite IH. by rewrite delete_insert_ne.
Qed.

Lemma elem_of_upsert y x l : y ∈ upsert x l -> y = x \/ y ∈ l.
Proof.
  induction l as [|z l IH]; simpl.
  - intros ->%list_elem_of_singleton. by left.
  - case_bool_decide; intros [->|Hy]%elem_of_cons.
    + by left.
    + right. by right.
    + right. by left.
    + destruct (IH Hy); [by left|right; by right].
Qed.

Lemma elem_of_keys_upsert k x l :
  k ∈ keys (upsert x l) <-> k = key_of x \/ k ∈ keys l.
Proof.
  unfold keys. induction l as [|z l IH]; simpl.
  - rewrite elem_of_cons. done.
  - case_bool_decide as E; simpl; rewrite ?elem_of_cons, ?IH; [rewrite E|]; tauto.
Qed.

Lemma NoDup_keys_upsert x l : NoDup (keys l) -> NoDup (keys (upsert x l)).
Proof.
  induction l as [|z l IH]; simpl; intros Hl.
  - apply NoDup_singleton.
  - apply NoDup_cons in Hl as [Hz Hl]. case_bool_decide as E; simpl.
    + apply NoDup_cons. by rewrite <- E.
    + apply NoDup_cons. split; [|by apply IH].
      intros [?|?]%elem_of_keys_upsert; done.
Qed.

Lemma elem_of_remove_key x k l : x ∈ remove_key k l <-> x ∈ l /\ key_of x <> k.
Proof.
  unfold remove_key. rewrite !list_elem_of_In, filter_In, negb_true_iff,
    bool_decide_eq_false. done.
Qed.

Lemma NoDup_keys_filter (P : A -> bool) l :
  NoDup (keys l) -> NoDup (keys (List.filter P l)).
Proof.
  unfold keys. induction l as [|z l IH]; simpl; intros Hl; [done|].
  apply NoDup_cons in Hl as [Hz Hl]. destruct (P z); simpl; [|by apply IH].
  apply NoDup_cons. split; [|by apply IH].
  rewrite list_elem_of_In, in_map_iff. intros (y & Ey & [Hy _]%filter_In).
  apply Hz. rewrite <- Ey. by apply list_elem_of_In, in_map.
Qed.

Lemma NoDup_keys_remove_key k l : NoDup (keys l) -> NoDup (keys (remove_key k l)).
Proof. apply NoDup_keys_filter. Qed.

Lemma remove_key_absent k l : has_key k l = false -> remove_key k l = l.
Proof.
  unfold has_key, remove_key. induction l as [|z l IH]; [done|]. simpl.
  intros [E1 E2]%orb_false_iff. rewrite E1. simpl. by rewrite IH.
Qed.

Lemma elem_of_remove_first x k l : x ∈ remove_first k l -> x ∈ l.
Proof.
  induction l as [|z l IH]; simpl; [done|]. case_bool_decide.
  - intros ?. by right.
  - rewrite !elem_of_cons. intros [?|?]; auto.
Qed.

Lemma remove_first_key k l :
  NoDup (keys l) -> remove_first k l = remove_key k l.
Proof.
  unfold remove_key. induction l as [|z l IH]; [done|]. simpl.
  intros [Hz Hl]%NoDup_cons. case_bool_decide as E; simpl.
  - subst k. symmetry. apply (remove_key_absent (key_of z)).
    apply not_true_is_false. by rewrite has_key_spec.
  - by rewrite IH.
Qed.

Lemma has_key_find k l : has_key k l = match find_key k l with Some _ => true | None => false end.
Proof.
  unfold has_key, find_key. induction l as [|z l IH]; [done|]. simpl.
  by case_bool_decide.
Qed.
End keyed.

Create HintDb keyed.
#[export] Hint Resolve NoDup_keys_upsert NoDup_keys_remove_key NoDup_keys_filter
  find_upsert_eq : keyed.
Create Rewrite HintDb keyed_rw.
#[export] Hint Rewrite @find_upsert_eq @to_map_upsert @to_map_remove_key : keyed_rw.
