(* ===== verification/GoStrings.v ===== *)
(** * GoStrings: the string functions of Go's standard library the program uses

    Strings are byte sequences.  [strings.TrimSpace] and [strings.Fields] are
    modelled on ASCII white space, which is all the texts they are applied to
    (configuration files, command output) contain. *)

From S2P Require Import Prelude.

(** ** Characters *)

Definition is_space (c : ascii) : bool :=
  let n := Ascii.nat_of_ascii c in
  Nat.eqb n 32 || (Nat.leb 9 n && Nat.leb n 13).

Definition to_lower_ascii (c : ascii) : ascii :=
  let n := Ascii.nat_of_ascii c in
  if Nat.leb 65 n && Nat.leb n 90 then Ascii.ascii_of_nat (n + 32) else c.

Definition newline : ascii := Ascii.ascii_of_nat 10.

(** ** Searching *)

(** [strings.IndexByte]: the prefix before the first [c] and the rest after it. *)
Fixpoint cut_at (c : ascii) (s : string) : option (string * string) :=
  match s with
  | EmptyString => None
  | String a s' =>
      if Ascii.eqb a c then Some (EmptyString, s')
      else match cut_at c s' with
           | Some (p, r) => Some (String a p, r)
           | None => None
           end
  end.

(** [strings.LastIndexByte], as the two sides of the last [c]. *)
Fixpoint cut_last (c : ascii) (s : string) : option (string * string) :=
  match s with
  | EmptyString => None
  | String a s' =>
      match cut_last c s' with
      | Some (p, r) => Some (String a p, r)
      | None => if Ascii.eqb a c then Some (EmptyString, s') else None
      end
  end.

Fixpoint contains_byte (c : ascii) (s : string) : bool :=
  match s with
  | EmptyString => false
  | String a s' => Ascii.eqb a c || contains_byte c s'
  end.

(** [strings.HasPrefix] and [strings.TrimPrefix]. *)
Definition HasPrefix (s p : string) : bool := String.prefix p s.

Fixpoint drop_string (n : nat) (s : string) : string :=
  match n, s with
  | O, _ => s
  | S n', String _ s' => drop_string n' s'
  | S _, EmptyString => EmptyString
  end.

Fixpoint take_string (n : nat) (s : string) : string :=
  match n, s with
  | S n', String c s' => String c (take_string n' s')
  | _, _ => EmptyString
  end.

Definition TrimPrefix (s p : string) : string :=
  if HasPrefix s p then drop_string (String.length p) s else s.

(** [strings.HasSuffix]. *)
Definition HasSuffix (s p : string) : bool :=
  Nat.leb (String.length p) (String.length s) &&
  String.eqb (drop_string (String.length s - String.length p) s) p.

(** [strings.Contains]. *)
Fixpoint Contains (s sub : string) : bool :=
  String.prefix sub s ||
  match s with EmptyString => false | String _ s' => Contains s' sub end.

(** ** Splitting and trimming *)

(** [strings.Split] on a one-byte separator. *)
Fixpoint Split (c : ascii) (s : string) : list string :=
  match s with
  | EmptyString => [EmptyString]
  | String a s' =>
      if Ascii.eqb a c then EmptyString :: Split c s'
      else match Split c s' with
           | [] => [String a EmptyString]
           | p :: ps => String a p :: ps
           end
  end.

Fixpoint trim_left (s : string) : string :=
  match s with
  | EmptyString => EmptyString
  | String a s' => if is_space a then trim_left s' else s
  end.

Fixpoint trim_right (s : string) : string :=
  match s with
  | EmptyString => EmptyString
  | String a s' =>
      match trim_right s' with
      | EmptyString => if is_space a then EmptyString else String a EmptyString
      | t => String a t
      end
  end.

Definition TrimSpace (s : string) : string := trim_left (trim_right s).

(** [strings.Fields]. *)
Fixpoint fields_from (cur : string) (s : string) : list string :=
  match s with
  | EmptyString => match cur with EmptyString => [] | _ => [cur] end
  | String a s' =>
      if is_space a then
        match cur with
        | EmptyString => fields_from EmptyString s'
        | _ => cur :: fields_from EmptyString s'
        end
      else fields_from (cur +:+ String a EmptyString) s'
  end.

Definition Fields (s : string) : list string := fields_from EmptyString s.

(** [strings.Join]. *)
Fixpoint Join (sep : string) (l : list string) : string :=
  match l with
  | [] => ""
  | [s] => s
  | s :: l' => s +:+ sep +:+ Join sep l'
  end.

(** [strings.ToLower] on ASCII. *)
Fixpoint ToLower (s : string) : string :=
  match s with
  | EmptyString => EmptyString
  | String a s' => String (to_lower_ascii a) (ToLower s')
  end.

(** [strings.EqualFold] and [strings.ToLower] on text that may be outside ASCII
    (names of users, e-mail addresses) follow the Unicode tables of the standard
    library, which are a parameter.  [asciiCase] is what they do on ASCII. *)
Class UnicodeCase := { equalFold : string -> string -> bool; lowerText : string -> string }.
Definition asciiCase : UnicodeCase := {| equalFold := fun a b => ToLower a == ToLower b; lowerText := ToLower |}.

(** [strings.ReplaceAll] of a one-byte pattern. *)
Fixpoint ReplaceByte (c : ascii) (by_ : string) (s : string) : string :=
  match s with
  | EmptyString => EmptyString
  | String a s' =>
      (if Ascii.eqb a c then by_ else String a EmptyString) +:+ ReplaceByte c by_ s'
  end.

(** [fmt.Sprintf("%d")] of an integer. *)
Definition itoa (z : Z) : string := pretty z.

(** ** Host and port (package net) *)

Definition colon : ascii := ":"%char.
Definition lbracket : ascii := "["%char.
Definition rbracket : ascii := "]"%char.

(** [net.SplitHostPort]; [None] is its error. *)
Definition SplitHostPort (hostport : string) : option (string * string) :=
  match cut_last colon hostport with
  | None => None
  | Some (before, port) =>
      match hostport with
      | String a rest =>
          if Ascii.eqb a lbracket then
            match cut_at rbracket rest with
            | None => None
            | Some (host, after) =>
                (* the last colon must follow the bracket immediately *)
                match after with
                | String b port' =>
                    if Ascii.eqb b colon && negb (contains_byte colon port') then
                      if contains_byte lbracket host || contains_byte lbracket port' ||
                         contains_byte rbracket port' then None
                      else Some (host, port')
                    else None
                | EmptyString => None
                end
            end
          else if contains_byte colon before then None
          else if contains_byte lbracket hostport || contains_byte rbracket hostport then None
          else Some (before, port)
      | EmptyString => None
      end
  end.

(** [net.JoinHostPort]. *)
Definition JoinHostPort (host port : string) : string :=
  if contains_byte colon host then "[" +:+ host +:+ "]:" +:+ port
  else host +:+ ":" +:+ port.

(** ** Lemmas *)

Lemma cut_at_app c p r : contains_byte c p = false -> cut_at c (p +:+ String c r) = Some (p, r).
Proof.
  induction p as [|a p IH]; simpl.
  - by rewrite Ascii.eqb_refl.
  - intros [Ha Hp]%orb_false_iff. by rewrite Ha, (IH Hp).
Qed.

Lemma cut_at_None c s : contains_byte c s = false -> cut_at c s = None.
Proof.
  induction s as [|a s IH]; [done|]. simpl. intros [Ha Hs]%orb_false_iff.
  by rewrite Ha, (IH Hs).
Qed.

Lemma cut_last_None c s : contains_byte c s = false -> cut_last c s = None.
Proof.
  induction s as [|a s IH]; [done|]. simpl. intros [Ha Hs]%orb_false_iff.
  by rewrite (IH Hs), Ha.
Qed.

Lemma cut_last_app c p r : contains_byte c r = false -> cut_last c (p +:+ String c r) = Some (p, r).
Proof.
  intros Hr. induction p as [|a p IH]; simpl.
  - by rewrite (cut_last_None _ _ Hr), Ascii.eqb_refl.
  - by rewrite IH.
Qed.

Lemma contains_byte_app c s t :
  contains_byte c (s +:+ t) = contains_byte c s || contains_byte c t.
Proof. induction s as [|a s IH]; [done|]. simpl. by rewrite IH, orb_assoc. Qed.

Lemma string_app_assoc (a b c : string) : a +:+ (b +:+ c) = (a +:+ b) +:+ c.
Proof. induction a as [|x a IH]; [done|]. simpl. by rewrite IH. Qed.

(** A plain host (no colon, no bracket) survives joining and splitting. *)
Lemma SplitHostPort_Join host port :
  contains_byte colon host = false -> contains_byte lbracket host = false ->
  contains_byte rbracket host = false -> contains_byte colon port = false ->
  contains_byte lbracket port = false -> contains_byte rbracket port = false ->
  SplitHostPort (JoinHostPort host port) = Some (host, port).
Proof.
  intros Hc Hl Hr Pc Pl Pr. unfold JoinHostPort. rewrite Hc.
  unfold SplitHostPort. change (":" +:+ port) with (String colon port).
  rewrite cut_last_app by done. rewrite !contains_byte_app. simpl contains_byte.
  rewrite Hl, Hr, Pl, Pr, Hc. simpl.
  destruct host as [|a host]; [done|]. simpl in Hl. apply orb_false_iff in Hl as [Ha _].
  simpl. by rewrite Ha.
Qed.

Lemma itoa_inj : Inj (=) (=) itoa.
Proof. apply pretty_Z_inj. Qed.

(** Decimal numbers contain digits and a sign only. *)
Definition decimalChars : string := "-0123456789".

Lemma pretty_N_char_no c x : contains_byte c decimalChars = false -> Ascii.eqb (pretty_N_char x) c = false.
Proof.
  intros Hc. unfold decimalChars in Hc. cbn [contains_byte] in Hc. rewrite !orb_false_iff in Hc.
  unfold pretty_N_char. repeat case_match; tauto.
Qed.

Lemma pretty_N_go_no c x s :
  contains_byte c decimalChars = false -> contains_byte c s = false -> contains_byte c (pretty_N_go x s) = false.
Proof.
  intros Hc. revert s. induction (N.lt_wf_0 x) as [x _ IH]; intros s Hs.
  destruct (decide (x = 0%N)) as [->|Hx]; [by rewrite pretty_N_go_0|].
  rewrite pretty_N_go_step by lia. apply IH; [apply N.div_lt; lia|].
  cbn [contains_byte]. by rewrite pretty_N_char_no.
Qed.

Lemma pretty_N_no c x : contains_byte c decimalChars = false -> contains_byte c (pretty (x : N)) = false.
Proof.
  intros Hc. unfold pretty, pretty_N. destruct (decide (x = 0%N)).
  - unfold decimalChars in Hc. cbn [contains_byte] in Hc. rewrite !orb_false_iff in Hc.
    change (Ascii.eqb "0" c || false = false). rewrite orb_false_r. tauto.
  - by apply pretty_N_go_no.
Qed.

Lemma itoa_no c z : contains_byte c decimalChars = false -> contains_byte c (itoa z) = false.
Proof.
  intros Hc. unfold itoa, pretty, pretty_Z. destruct z as [|p|p].
  - by apply (pretty_N_no c 0%N).
  - by apply (pretty_N_no c (N.pos p)).
  - change ("-" +:+ pretty p) with (String "-" (pretty (N.pos p))). cbn [contains_byte].
    rewrite (pretty_N_no c (N.pos p)) by done.
    unfold decimalChars in Hc. cbn [contains_byte] in Hc. rewrite !orb_false_iff in Hc.
    rewrite orb_false_r. tauto.
Qed.

Lemma append_inj_l (p a b : string) : p +:+ a = p +:+ b -> a = b.
Proof. induction p as [|c p IH]; simpl; [done|]. intros [= H]. by apply IH. Qed.

Lemma length_append (a b : string) : String.length (a +:+ b) = (String.length a + String.length b)%nat.
Proof. induction a as [|c a IH]; simpl; [done|by rewrite IH]. Qed.

Lemma append_inj_r (a b p : string) : a +:+ p = b +:+ p -> a = b.
Proof.
  revert b. induction a as [|c a IH]; intros [|d b] H; simpl in H; [done| | |].
  - apply (f_equal String.length) in H. simpl in H. rewrite length_append in H. lia.
  - apply (f_equal String.length) in H. simpl in H. rewrite length_append in H. lia.
  - injection H as -> H. f_equal. by apply IH.
Qed.

(** ** Lemmas: prefixes and suffixes *)

Lemma string_app_nil (s : string) : s +:+ "" = s.
Proof. induction s as [|c s IH]; [done|]. simpl. by rewrite IH. Qed.

Lemma drop_string_app (p s : string) : drop_string (String.length p) (p +:+ s) = s.
Proof. by induction p. Qed.

Lemma take_string_app (p s : string) : take_string (String.length p) (p +:+ s) = p.
Proof. induction p as [|c p IH]; simpl; [by destruct s|by rewrite IH]. Qed.

Lemma HasPrefix_app (p s : string) : HasPrefix (p +:+ s) p = true.
Proof.
  unfold HasPrefix. induction p as [|c p IH]; simpl; [by destruct s|].
  destruct (ascii_dec c c); [exact IH|done].
Qed.

Lemma TrimPrefix_app (p s : string) : TrimPrefix (p +:+ s) p = s.
Proof. unfold TrimPrefix. by rewrite HasPrefix_app, drop_string_app. Qed.

Lemma HasSuffix_app (s p : string) : HasSuffix (s +:+ p) p = true.
Proof.
  unfold HasSuffix. rewrite length_append. rewrite (proj2 (Nat.leb_le _ _)) by lia. simpl.
  replace (String.length s + String.length p - String.length p)%nat with (String.length s) by lia.
  rewrite drop_string_app. apply String.eqb_refl.
Qed.

(** ** Lemmas: trimming *)

Lemma trim_right_app (s t : string) : trim_right t <> "" -> trim_right (s +:+ t) = s +:+ trim_right t.
Proof.
  intros Ht. induction s as [|c s IH]; simpl; [done|]. rewrite IH.
  destruct (s +:+ trim_right t) as [|d r] eqn:E; [|done]. destruct s; simpl in E; congruence.
Qed.

Lemma trim_left_id c s : is_space c = false -> trim_left (String c s) = String c s.
Proof. simpl. by intros ->. Qed.

(** Text that starts and ends with a printable character. *)
Definition solid (s : string) : Prop := TrimSpace s = s.

Lemma TrimSpace_ends a s b :
  is_space a = false -> is_space b = false -> solid (String a (s +:+ String b "")).
Proof.
  intros Ha Hb. unfold solid, TrimSpace.
  assert (trim_right (String b "") = String b "") as E by (simpl; by rewrite Hb).
  change (String a (s +:+ String b "")) with ((String a s) +:+ String b "").
  rewrite trim_right_app by (by rewrite E). rewrite E. simpl. by rewrite Ha.
Qed.

(** Text without white space is solid. *)
Fixpoint noSpace (s : string) : bool :=
  match s with EmptyString => true | String c s' => negb (is_space c) && noSpace s' end.

Lemma trim_right_noSpace s : noSpace s = true -> trim_right s = s.
Proof.
  induction s as [|c s IH]; simpl; [done|]. intros [Hc%negb_true_iff Hs]%andb_true_iff. rewrite (IH Hs).
  destruct s; [by rewrite Hc|done].
Qed.

Lemma noSpace_solid s : noSpace s = true -> solid s.
Proof.
  intros H. unfold solid, TrimSpace. rewrite trim_right_noSpace by done. destruct s as [|c s]; [done|].
  simpl in *. apply andb_true_iff in H as [Hc%negb_true_iff _]. by rewrite Hc.
Qed.

Lemma noSpace_app a b : noSpace (a +:+ b) = noSpace a && noSpace b.
Proof. induction a as [|c a IH]; simpl; [done|]. by rewrite IH, andb_assoc. Qed.

Lemma TrimSpace_leading c s : is_space c = true -> TrimSpace (String c s) = TrimSpace s.
Proof.
  intros Hc. unfold TrimSpace. simpl. destruct (trim_right s) as [|d r] eqn:E; [by rewrite Hc|].
  simpl. by rewrite Hc.
Qed.

Lemma trim_right_space s c : is_space c = true -> trim_right (s +:+ String c "") = trim_right s.
Proof. intros Hc. induction s as [|d s IH]; simpl; [by rewrite Hc|by rewrite IH]. Qed.

Lemma TrimSpace_trailing s c : is_space c = true -> TrimSpace (s +:+ String c "") = TrimSpace s.
Proof. intros Hc. unfold TrimSpace. by rewrite trim_right_space. Qed.

Lemma trim_right_idem s : trim_right (trim_right s) = trim_right s.
Proof.
  induction s as [|c s IH]; simpl; [done|]. destruct (trim_right s) as [|d r] eqn:E.
  - destruct (is_space c) eqn:Ec; simpl; [done|by rewrite Ec].
  - change (trim_right (String c (String d r))) with
      (match trim_right (String d r) with EmptyString => if is_space c then "" else String c "" | t => String c t end).
    by rewrite IH.
Qed.

Lemma trim_left_right s : trim_right s = s -> trim_right (trim_left s) = trim_left s.
Proof.
  induction s as [|c s IH]; [done|]. intros H. simpl trim_left. destruct (is_space c) eqn:Ec; [|exact H].
  apply IH. simpl in H. rewrite Ec in H. destruct (trim_right s) as [|d r]; [discriminate|by injection H as <-].
Qed.

Lemma trim_left_idem s : trim_left (trim_left s) = trim_left s.
Proof. induction s as [|c s IH]; simpl; [done|]. destruct (is_space c) eqn:E; [done|]. simpl. by rewrite E. Qed.

Lemma TrimSpace_solid s : solid (TrimSpace s).
Proof.
  unfold solid, TrimSpace. rewrite (trim_left_right (trim_right s)) by apply trim_right_idem. apply trim_left_idem.
Qed.

(** ** Lemmas: splitting *)

Lemma Split_none c s : contains_byte c s = false -> Split c s = [s].
Proof.
  induction s as [|a s IH]; simpl; [done|]. intros [Ha Hs]%orb_false_iff. by rewrite Ha, (IH Hs).
Qed.

Lemma Split_app c l r : contains_byte c l = false -> Split c (l +:+ String c r) = l :: Split c r.
Proof.
  induction l as [|a l IH]; simpl; [by rewrite Ascii.eqb_refl|].
  intros [Ha Hl]%orb_false_iff. by rewrite Ha, (IH Hl).
Qed.

(** Text made of lines. *)
Definition unlines (ls : list string) : string := fold_right (fun l acc => l +:+ String newline acc) "" ls.

Lemma Split_unlines ls :
  Forall (fun l => contains_byte newline l = false) ls -> Split newline (unlines ls) = ls ++ [""].
Proof. induction 1 as [|l ls Hl _ IH]; simpl; [done|]. by rewrite Split_app, IH. Qed.

Lemma unlines_app a b : unlines (a ++ b) = unlines a +:+ unlines b.
Proof.
  induction a as [|l a IH]; simpl; [done|]. rewrite IH.
  change (String newline (unlines a +:+ unlines b)) with (String newline (unlines a) +:+ unlines b).
  by rewrite string_app_assoc.
Qed.

Lemma noSpace_newline s : noSpace s = true -> contains_byte newline s = false.
Proof.
  induction s as [|c s IH]; simpl; [done|]. intros [Hc Hs]%andb_true_iff. rewrite (IH Hs), orb_false_r.
  destruct (Ascii.eqb_spec c newline) as [->|]; [by vm_compute in Hc|done].
Qed.
