(* ===== verification/Model.v ===== *)
(** * Model: the data of internal/domain/model

    Every struct of the Go package is a record with the same fields, prefixed
    by the struct's name; the zero value of each struct is [zero<Struct>].  The
    string-based Go types ([Strategy], [ChainNodeRole], [UserProtocol],
    [TransportType]) are strings with named constants, as in the source.
    Slices of values and slices of pointers are both lists: the program never
    stores a nil pointer in them.  Raw JSON is carried as a string. *)

From S2P Require Import Prelude.

(** The string-based enumerations. *)
Abbreviation Strategy := string (only parsing).
Abbreviation ChainNodeRole := string (only parsing).
Abbreviation UserProtocol := string (only parsing).
Abbreviation TransportType := string (only parsing).

Definition StrategyURLTest : Strategy := "urltest".
Definition StrategyFailover : Strategy := "failover".
Definition StrategySelector : Strategy := "selector".
Definition StrategyBond : Strategy := "bond".
Definition StrategyFallback : Strategy := "fallback".

Definition NodeRoleEntry : ChainNodeRole := "entry".
Definition NodeRoleTransit : ChainNodeRole := "transit".
Definition NodeRoleExit : ChainNodeRole := "exit".

Definition UserProtocolVLESSReality : UserProtocol := "vless-reality".
Definition UserProtocolTUIC : UserProtocol := "tuic".
Definition UserProtocolAWG : UserProtocol := "awg".
Definition UserProtocolMTProxy : UserProtocol := "mtproxy".

Definition TransportReality : TransportType := "reality".
Definition TransportXHTTP : TransportType := "xhttp".
Definition TransportAWG : TransportType := "awg".
Definition TransportHysteria2 : TransportType := "hysteria2".

Definition NodeStateHealthy : string := "healthy".
Definition NodeStateSuspect : string := "suspect".
Definition NodeStateDown : string := "down".
Definition NodeStateUnreachable : string := "unreachable".
Definition NodeStateBlocked : string := "blocked".
Definition NodeStateUnknown : string := "unknown".

(** [Host] (backend.go). *)
Record Host := mkHost {
  Host_ID : string;
  Host_Addr : string;
  Host_User : string;
  Host_KeyPath : string }.
#[export] Instance eta_Host : Eta Host := fun r =>
  mkHost (Host_ID r) (Host_Addr r) (Host_User r) (Host_KeyPath r).
(** The Go zero value [Host{}]. *)
Definition zeroHost : Host :=
  mkHost "" "" "" "".

(** [KnownHost] (backend.go). *)
Record KnownHost := mkKnownHost {
  KnownHost_Addr : string;
  KnownHost_Fingerprint : string;
  KnownHost_FirstSeen : Time;
  KnownHost_Trusted : bool }.
#[export] Instance eta_KnownHost : Eta KnownHost := fun r =>
  mkKnownHost (KnownHost_Addr r) (KnownHost_Fingerprint r) (KnownHost_FirstSeen r)
    (KnownHost_Trusted r).
(** The Go zero value [KnownHost{}]. *)
Definition zeroKnownHost : KnownHost :=
  mkKnownHost "" "" zeroTime false.

(** [AWGExitLink] (chain.go). *)
Record AWGExitLink := mkAWGExitLink {
  AWGExitLink_TargetID : string;
  AWGExitLink_InterfaceName : string;
  AWGExitLink_ClientPriv : string;
  AWGExitLink_ClientPub : string;
  AWGExitLink_Address : string;
  AWGExitLink_ClientPort : Z }.
#[export] Instance eta_AWGExitLink : Eta AWGExitLink := fun r =>
  mkAWGExitLink (AWGExitLink_TargetID r) (AWGExitLink_InterfaceName r)
    (AWGExitLink_ClientPriv r) (AWGExitLink_ClientPub r) (AWGExitLink_Address r)
    (AWGExitLink_ClientPort r).
(** The Go zero value [AWGExitLink{}]. *)
Definition zeroAWGExitLink : AWGExitLink :=
  mkAWGExitLink "" "" "" "" "" 0.

(** [NodeInbound] (panel.go). *)
Record NodeInbound := mkNodeInbound {
  NodeInbound_Protocol : string;
  NodeInbound_Port : Z;
  NodeInbound_Obfuscation : string;
  NodeInbound_ForUsers : list string;
  NodeInbound_OutboundTag : string;
  NodeInbound_Source : string;
  NodeInbound_Tag : string;
  NodeInbound_ProfileID : string;
  NodeInbound_UUID : string;
  NodeInbound_ServerPrivKey : string;
  NodeInbound_ServerPubKey : string;
  NodeInbound_ShortID : string;
  NodeInbound_ServerName : string;
  NodeInbound_ObfsPassword : string;
  NodeInbound_TLSCertificate : string;
  NodeInbound_TLSPrivateKey : string;
  NodeInbound_AWGClientPub : string;
  NodeInbound_AWGClientPriv : string;
  NodeInbound_AWGServerAddress : string;
  NodeInbound_AWGCPSLevel : Z;
  NodeInbound_AWGCPSMimicry : string;
  NodeInbound_AWGCPSI1 : string;
  NodeInbound_AWGCPSI2 : string;
  NodeInbound_AWGCPSI3 : string;
  NodeInbound_AWGCPSI4 : string;
  NodeInbound_AWGCPSI5 : string;
  NodeInbound_AWGH1 : string;
  NodeInbound_AWGH2 : string;
  NodeInbound_AWGH3 : string;
  NodeInbound_AWGH4 : string;
  NodeInbound_AWGVersion : string;
  NodeInbound_AWG3Mode : bool;
  NodeInbound_AWG3HeaderProtectionKey : string;
  NodeInbound_AWG3ContentPaddingAddition : string;
  NodeInbound_AWG3RekeyAfterTime : string;
  NodeInbound_MieruTransport : string }.
#[export] Instance eta_NodeInbound : Eta NodeInbound := fun r =>
  mkNodeInbound (NodeInbound_Protocol r) (NodeInbound_Port r) (NodeInbound_Obfuscation r)
    (NodeInbound_ForUsers r) (NodeInbound_OutboundTag r) (NodeInbound_Source r)
    (NodeInbound_Tag r) (NodeInbound_ProfileID r) (NodeInbound_UUID r)
    (NodeInbound_ServerPrivKey r) (NodeInbound_ServerPubKey r)
    (NodeInbound_ShortID r) (NodeInbound_ServerName r)
    (NodeInbound_ObfsPassword r) (NodeInbound_TLSCertificate r)
    (NodeInbound_TLSPrivateKey r) (NodeInbound_AWGClientPub r)
    (NodeInbound_AWGClientPriv r) (NodeInbound_AWGServerAddress r)
    (NodeInbound_AWGCPSLevel r) (NodeInbound_AWGCPSMimicry r)
    (NodeInbound_AWGCPSI1 r) (NodeInbound_AWGCPSI2 r) (NodeInbound_AWGCPSI3 r)
    (NodeInbound_AWGCPSI4 r) (NodeInbound_AWGCPSI5 r) (NodeInbound_AWGH1 r)
    (NodeInbound_AWGH2 r) (NodeInbound_AWGH3 r) (NodeInbound_AWGH4 r)
    (NodeInbound_AWGVersion r) (NodeInbound_AWG3Mode r)
    (NodeInbound_AWG3HeaderProtectionKey r)
    (NodeInbound_AWG3ContentPaddingAddition r) (NodeInbound_AWG3RekeyAfterTime r)
    (NodeInbound_MieruTransport r).
(** The Go zero value [NodeInbound{}]. *)
Definition zeroNodeInbound : NodeInbound :=
  mkNodeInbound "" 0 "" [] "" "" "" "" "" "" "" "" "" "" "" "" "" "" "" 0 "" "" "" "" "" ""
    "" "" "" "" "" false "" "" "" "".

(** [ChainNode] (chain.go). *)
Record ChainNode := mkChainNode {
  ChainNode_ID : string;
  ChainNode_Addr : string;
  ChainNode_User : string;
  ChainNode_KeyPath : string;
  ChainNode_Port : Z;
  ChainNode_Role : string;
  ChainNode_TransitPrivKey : string;
  ChainNode_TransitShortID : string;
  ChainNode_TransitUUID : string;
  ChainNode_TransitAWGServerPriv : string;
  ChainNode_TransitAWGServerPub : string;
  ChainNode_TransitAWGClientPriv : string;
  ChainNode_TransitAWGClientPub : string;
  ChainNode_TransitAWGAddress : string;
  ChainNode_TransitAWGClientPort : Z;
  ChainNode_ExitTargets : list string;
  ChainNode_ExitAWGLinks : list AWGExitLink;
  ChainNode_ExitAWGServerPriv : string;
  ChainNode_ExitAWGServerPub : string;
  ChainNode_ExitAWGListenPort : Z;
  ChainNode_InboundRef : string;
  ChainNode_Inbounds : list NodeInbound }.
#[export] Instance eta_ChainNode : Eta ChainNode := fun r =>
  mkChainNode (ChainNode_ID r) (ChainNode_Addr r) (ChainNode_User r) (ChainNode_KeyPath r)
    (ChainNode_Port r) (ChainNode_Role r) (ChainNode_TransitPrivKey r)
    (ChainNode_TransitShortID r) (ChainNode_TransitUUID r)
    (ChainNode_TransitAWGServerPriv r) (ChainNode_TransitAWGServerPub r)
    (ChainNode_TransitAWGClientPriv r) (ChainNode_TransitAWGClientPub r)
    (ChainNode_TransitAWGAddress r) (ChainNode_TransitAWGClientPort r)
    (ChainNode_ExitTargets r) (ChainNode_ExitAWGLinks r)
    (ChainNode_ExitAWGServerPriv r) (ChainNode_ExitAWGServerPub r)
    (ChainNode_ExitAWGListenPort r) (ChainNode_InboundRef r)
    (ChainNode_Inbounds r).
(** The Go zero value [ChainNode{}]. *)
Definition zeroChainNode : ChainNode :=
  mkChainNode "" "" "" "" 0 "" "" "" "" "" "" "" "" "" 0 [] [] "" "" 0 "" [].

(** [ChainLevel] (inbound.go). *)
Record ChainLevel := mkChainLevel {
  ChainLevel_ID : string;
  ChainLevel_Strategy : string;
  ChainLevel_Nodes : list ChainNode }.
#[export] Instance eta_ChainLevel : Eta ChainLevel := fun r =>
  mkChainLevel (ChainLevel_ID r) (ChainLevel_Strategy r) (ChainLevel_Nodes r).
(** The Go zero value [ChainLevel{}]. *)
Definition zeroChainLevel : ChainLevel :=
  mkChainLevel "" "" [].

(** [Chain] (chain.go). *)
Record Chain := mkChain {
  Chain_Name : string;
  Chain_Nodes : list ChainNode;
  Chain_Levels : list ChainLevel;
  Chain_Strategy : string;
  Chain_Transport : string;
  Chain_UserProtocol : string;
  Chain_ObfuscationProfile : string;
  Chain_UserEntryPort : Z;
  Chain_AWGEntryServerPriv : string;
  Chain_AWGEntryServerPub : string;
  Chain_AWGEntryClientPub : string;
  Chain_AWGCPSLevel : Z;
  Chain_AWGCPSMimicry : string;
  Chain_AWGCPSCaptureDomain : string;
  Chain_AWGCPSCapturedDomain : string;
  Chain_AWGCPSCaptureFailedDomain : string;
  Chain_AWGCPSI1 : string;
  Chain_AWGCPSI2 : string;
  Chain_AWGCPSI3 : string;
  Chain_AWGCPSI4 : string;
  Chain_AWGCPSI5 : string;
  Chain_AWGH1 : string;
  Chain_AWGH2 : string;
  Chain_AWGH3 : string;
  Chain_AWGH4 : string;
  Chain_TUICEntryUserUUID : string;
  Chain_TUICEntryUserPassword : string }.
#[export] Instance eta_Chain : Eta Chain := fun r =>
  mkChain (Chain_Name r) (Chain_Nodes r) (Chain_Levels r) (Chain_Strategy r)
    (Chain_Transport r) (Chain_UserProtocol r) (Chain_ObfuscationProfile r)
    (Chain_UserEntryPort r) (Chain_AWGEntryServerPriv r)
    (Chain_AWGEntryServerPub r) (Chain_AWGEntryClientPub r) (Chain_AWGCPSLevel r)
    (Chain_AWGCPSMimicry r) (Chain_AWGCPSCaptureDomain r)
    (Chain_AWGCPSCapturedDomain r) (Chain_AWGCPSCaptureFailedDomain r)
    (Chain_AWGCPSI1 r) (Chain_AWGCPSI2 r) (Chain_AWGCPSI3 r) (Chain_AWGCPSI4 r)
    (Chain_AWGCPSI5 r) (Chain_AWGH1 r) (Chain_AWGH2 r) (Chain_AWGH3 r)
    (Chain_AWGH4 r) (Chain_TUICEntryUserUUID r) (Chain_TUICEntryUserPassword r).
(** The Go zero value [Chain{}]. *)
Definition zeroChain : Chain :=
  mkChain "" [] [] "" "" "" "" 0 "" "" "" 0 "" "" "" "" "" "" "" "" "" "" "" "" "" ""
    "".

(** [InboundProfile] (inbound.go). *)
Record InboundProfile := mkInboundProfile {
  InboundProfile_ID : string;
  InboundProfile_Name : string;
  InboundProfile_Protocol : string;
  InboundProfile_Port : Z;
  InboundProfile_Obfuscation : string;
  InboundProfile_AWGCPSCaptureDomain : string;
  InboundProfile_AWGCPSMimicry : string;
  InboundProfile_AWGCPSLevel : Z;
  InboundProfile_AWGCPSI1 : string;
  InboundProfile_AWGCPSI2 : string;
  InboundProfile_AWGCPSI3 : string;
  InboundProfile_AWGCPSI4 : string;
  InboundProfile_AWGCPSI5 : string;
  InboundProfile_AWGH1 : string;
  InboundProfile_AWGH2 : string;
  InboundProfile_AWGH3 : string;
  InboundProfile_AWGH4 : string;
  InboundProfile_AWGCPSCapturedDomain : string;
  InboundProfile_AWGCPSCaptureFailedDomain : string;
  InboundProfile_AWGVersion : string;
  InboundProfile_AWG3Mode : bool;
  InboundProfile_AWG3HeaderProtectionKey : string;
  InboundProfile_AWG3ContentPaddingAddition : string;
  InboundProfile_AWG3RekeyAfterTime : string;
  InboundProfile_MieruTransport : string;
  InboundProfile_ServerName : string;
  InboundProfile_CreatedAt : Time }.
#[export] Instance eta_InboundProfile : Eta InboundProfile := fun r =>
  mkInboundProfile (InboundProfile_ID r) (InboundProfile_Name r) (InboundProfile_Protocol r)
    (InboundProfile_Port r) (InboundProfile_Obfuscation r)
    (InboundProfile_AWGCPSCaptureDomain r) (InboundProfile_AWGCPSMimicry r)
    (InboundProfile_AWGCPSLevel r) (InboundProfile_AWGCPSI1 r)
    (InboundProfile_AWGCPSI2 r) (InboundProfile_AWGCPSI3 r)
    (InboundProfile_AWGCPSI4 r) (InboundProfile_AWGCPSI5 r)
    (InboundProfile_AWGH1 r) (InboundProfile_AWGH2 r) (InboundProfile_AWGH3 r)
    (InboundProfile_AWGH4 r) (InboundProfile_AWGCPSCapturedDomain r)
    (InboundProfile_AWGCPSCaptureFailedDomain r) (InboundProfile_AWGVersion r)
    (InboundProfile_AWG3Mode r) (InboundProfile_AWG3HeaderProtectionKey r)
    (InboundProfile_AWG3ContentPaddingAddition r)
    (InboundProfile_AWG3RekeyAfterTime r) (InboundProfile_MieruTransport r)
    (InboundProfile_ServerName r) (InboundProfile_CreatedAt r).
(** The Go zero value [InboundProfile{}]. *)
Definition zeroInboundProfile : InboundProfile :=
  mkInboundProfile "" "" "" 0 "" "" "" 0 "" "" "" "" "" "" "" "" "" "" "" "" false "" "" "" ""
    "" zeroTime.

(** [User] (panel.go). *)
Record User := mkUser {
  User_ID : string;
  User_Name : string;
  User_Telegram : string;
  User_TelegramID : Z;
  User_TelegramBindCode : string;
  User_TelegramBindCodeAt : Time;
  User_Email : string;
  User_ExpiresAt : Time;
  User_Active : bool;
  User_Protocols : list string;
  User_ImportedSecret : string;
  User_SecretType : string;
  User_ChainNames : list string;
  User_VLESSUUID : string;
  User_TUICUUID : string;
  User_TUICPassword : string;
  User_Hysteria2Password : string;
  User_NaiveUsername : string;
  User_NaivePassword : string;
  User_MieruUsername : string;
  User_MieruPassword : string;
  User_TrustTunnelUsername : string;
  User_TrustTunnelPassword : string;
  User_AWGPrivateKey : string;
  User_AWGPublicKey : string;
  User_AWGAddress : string;
  User_AWGPresharedKey : string;
  User_AWGRxBytes : Z;
  User_AWGTxBytes : Z;
  User_AWGRxRate : Z;
  User_AWGTxRate : Z;
  User_AWGTrafficAt : Time;
  User_MTProxySecret : string;
  User_MTProxyDomain : string;
  User_MTProxyOrderIndex : Z;
  User_MTProxyNodes : list string;
  User_ChainExit : gmap string string;
  User_CreatedAt : Time;
  User_SubscriptionToken : string;
  User_ExpireStrategy : string;
  User_UsageDuration : Z;
  User_ActivationDeadline : Time;
  User_DataLimit : Z;
  User_DataLimitResetStrategy : string;
  User_UsedTraffic : Z;
  User_LifetimeUsedTraffic : Z;
  User_FirstUseAt : Time;
  User_Status : string;
  User_ServiceID : string;
  User_ExpiryNotifiedAt : Time }.
#[export] Instance eta_User : Eta User := fun r =>
  mkUser (User_ID r) (User_Name r) (User_Telegram r) (User_TelegramID r)
    (User_TelegramBindCode r) (User_TelegramBindCodeAt r) (User_Email r)
    (User_ExpiresAt r) (User_Active r) (User_Protocols r) (User_ImportedSecret r)
    (User_SecretType r) (User_ChainNames r) (User_VLESSUUID r) (User_TUICUUID r)
    (User_TUICPassword r) (User_Hysteria2Password r) (User_NaiveUsername r)
    (User_NaivePassword r) (User_MieruUsername r) (User_MieruPassword r)
    (User_TrustTunnelUsername r) (User_TrustTunnelPassword r)
    (User_AWGPrivateKey r) (User_AWGPublicKey r) (User_AWGAddress r)
    (User_AWGPresharedKey r) (User_AWGRxBytes r) (User_AWGTxBytes r)
    (User_AWGRxRate r) (User_AWGTxRate r) (User_AWGTrafficAt r)
    (User_MTProxySecret r) (User_MTProxyDomain r) (User_MTProxyOrderIndex r)
    (User_MTProxyNodes r) (User_ChainExit r) (User_CreatedAt r)
    (User_SubscriptionToken r) (User_ExpireStrategy r) (User_UsageDuration r)
    (User_ActivationDeadline r) (User_DataLimit r)
    (User_DataLimitResetStrategy r) (User_UsedTraffic r)
    (User_LifetimeUsedTraffic r) (User_FirstUseAt r) (User_Status r)
    (User_ServiceID r) (User_ExpiryNotifiedAt r).
(** The Go zero value [User{}]. *)
Definition zeroUser : User :=
  mkUser "" "" "" 0 "" zeroTime "" zeroTime false [] "" "" [] "" "" "" "" "" "" "" ""
    "" "" "" "" "" "" 0 0 0 0 zeroTime "" "" 0 [] ∅ zeroTime "" "" 0 zeroTime 0
    "" 0 0 zeroTime "" "" zeroTime.

(** [TelegramBotConfig] (panel.go). *)
Record TelegramBotConfig := mkTelegramBotConfig {
  TelegramBotConfig_Enabled : bool;
  TelegramBotConfig_Token : string;
  TelegramBotConfig_AdminIDs : list Z;
  TelegramBotConfig_NotifyChatID : Z }.
#[export] Instance eta_TelegramBotConfig : Eta TelegramBotConfig := fun r =>
  mkTelegramBotConfig (TelegramBotConfig_Enabled r) (TelegramBotConfig_Token r)
    (TelegramBotConfig_AdminIDs r) (TelegramBotConfig_NotifyChatID r).
(** The Go zero value [TelegramBotConfig{}]. *)
Definition zeroTelegramBotConfig : TelegramBotConfig :=
  mkTelegramBotConfig false "" [] 0.

(** [AutoRelocateConfig] (panel.go). *)
Record AutoRelocateConfig := mkAutoRelocateConfig {
  AutoRelocateConfig_Enabled : bool;
  AutoRelocateConfig_CooldownHours : Z }.
#[export] Instance eta_AutoRelocateConfig : Eta AutoRelocateConfig := fun r =>
  mkAutoRelocateConfig (AutoRelocateConfig_Enabled r) (AutoRelocateConfig_CooldownHours r).
(** The Go zero value [AutoRelocateConfig{}]. *)
Definition zeroAutoRelocateConfig : AutoRelocateConfig :=
  mkAutoRelocateConfig false 0.

(** [OffsiteBackupConfig] (panel.go). *)
Record OffsiteBackupConfig := mkOffsiteBackupConfig {
  OffsiteBackupConfig_Enabled : bool;
  OffsiteBackupConfig_Host : string;
  OffsiteBackupConfig_User : string;
  OffsiteBackupConfig_SSHKeyID : string;
  OffsiteBackupConfig_RemotePath : string;
  OffsiteBackupConfig_Passphrase : string;
  OffsiteBackupConfig_IntervalMin : Z;
  OffsiteBackupConfig_LastBackupAt : Time;
  OffsiteBackupConfig_Retention : Z;
  OffsiteBackupConfig_ScryptN : Z }.
#[export] Instance eta_OffsiteBackupConfig : Eta OffsiteBackupConfig := fun r =>
  mkOffsiteBackupConfig (OffsiteBackupConfig_Enabled r) (OffsiteBackupConfig_Host r)
    (OffsiteBackupConfig_User r) (OffsiteBackupConfig_SSHKeyID r)
    (OffsiteBackupConfig_RemotePath r) (OffsiteBackupConfig_Passphrase r)
    (OffsiteBackupConfig_IntervalMin r) (OffsiteBackupConfig_LastBackupAt r)
    (OffsiteBackupConfig_Retention r) (OffsiteBackupConfig_ScryptN r).
(** The Go zero value [OffsiteBackupConfig{}]. *)
Definition zeroOffsiteBackupConfig : OffsiteBackupConfig :=
  mkOffsiteBackupConfig false "" "" "" "" "" 0 zeroTime 0 0.

(** [SSHKeyEntry] (panel.go). *)
Record SSHKeyEntry := mkSSHKeyEntry {
  SSHKeyEntry_ID : string;
  SSHKeyEntry_Name : string;
  SSHKeyEntry_KeyPath : string;
  SSHKeyEntry_KeyData : string;
  SSHKeyEntry_Source : string;
  SSHKeyEntry_Fingerprint : string }.
#[export] Instance eta_SSHKeyEntry : Eta SSHKeyEntry := fun r =>
  mkSSHKeyEntry (SSHKeyEntry_ID r) (SSHKeyEntry_Name r) (SSHKeyEntry_KeyPath r)
    (SSHKeyEntry_KeyData r) (SSHKeyEntry_Source r) (SSHKeyEntry_Fingerprint r).
(** The Go zero value [SSHKeyEntry{}]. *)
Definition zeroSSHKeyEntry : SSHKeyEntry :=
  mkSSHKeyEntry "" "" "" "" "" "".

(** [PanelSettings] (panel.go). *)
Record PanelSettings := mkPanelSettings {
  PanelSettings_AdminPasswordHash : string;
  PanelSettings_PanelCountry : string;
  PanelSettings_Language : string;
  PanelSettings_MetricsInterval : Z;
  PanelSettings_SSHKeys : list SSHKeyEntry;
  PanelSettings_DefaultProtocol : string;
  PanelSettings_CustomPresets : string;
  PanelSettings_DefaultPresetByProtocol : gmap string string;
  PanelSettings_DefaultSSHKeyID : string;
  PanelSettings_DefaultRealitySNI : string;
  PanelSettings_Services : string;
  PanelSettings_OffsiteBackup : option OffsiteBackupConfig;
  PanelSettings_AutoRelocate : option AutoRelocateConfig;
  PanelSettings_TelegramBot : option TelegramBotConfig }.
#[export] Instance eta_PanelSettings : Eta PanelSettings := fun r =>
  mkPanelSettings (PanelSettings_AdminPasswordHash r) (PanelSettings_PanelCountry r)
    (PanelSettings_Language r) (PanelSettings_MetricsInterval r)
    (PanelSettings_SSHKeys r) (PanelSettings_DefaultProtocol r)
    (PanelSettings_CustomPresets r) (PanelSettings_DefaultPresetByProtocol r)
    (PanelSettings_DefaultSSHKeyID r) (PanelSettings_DefaultRealitySNI r)
    (PanelSettings_Services r) (PanelSettings_OffsiteBackup r)
    (PanelSettings_AutoRelocate r) (PanelSettings_TelegramBot r).
(** The Go zero value [PanelSettings{}]. *)
Definition zeroPanelSettings : PanelSettings :=
  mkPanelSettings "" "" "" 0 [] "" "" ∅ "" "" "" None None None.

(** [HysteresisConfig] (panel.go). *)
Record HysteresisConfig := mkHysteresisConfig {
  HysteresisConfig_DownThreshold : Z;
  HysteresisConfig_RecoverThreshold : Z }.
#[export] Instance eta_HysteresisConfig : Eta HysteresisConfig := fun r =>
  mkHysteresisConfig (HysteresisConfig_DownThreshold r) (HysteresisConfig_RecoverThreshold r).
(** The Go zero value [HysteresisConfig{}]. *)
Definition zeroHysteresisConfig : HysteresisConfig :=
  mkHysteresisConfig 0 0.

(** [NodeMetrics] (panel.go). *)
Record NodeMetrics := mkNodeMetrics {
  NodeMetrics_HostID : string;
  NodeMetrics_Online : bool;
  NodeMetrics_State : string;
  NodeMetrics_StateReason : string;
  NodeMetrics_Version : string;
  NodeMetrics_LatencyMs : Z;
  NodeMetrics_BytesSent : Z;
  NodeMetrics_BytesRecv : Z;
  NodeMetrics_LastChecked : Time;
  NodeMetrics_StateChangedAt : Time;
  NodeMetrics_ConsecutiveFails : Z;
  NodeMetrics_ConsecutiveOKs : Z;
  NodeMetrics_OS : string;
  NodeMetrics_SingBoxInstalled : bool;
  NodeMetrics_AWGModuleInstalled : bool;
  NodeMetrics_AWGPeerTransfer : gmap string (Z * Z) }.
#[export] Instance eta_NodeMetrics : Eta NodeMetrics := fun r =>
  mkNodeMetrics (NodeMetrics_HostID r) (NodeMetrics_Online r) (NodeMetrics_State r)
    (NodeMetrics_StateReason r) (NodeMetrics_Version r) (NodeMetrics_LatencyMs r)
    (NodeMetrics_BytesSent r) (NodeMetrics_BytesRecv r)
    (NodeMetrics_LastChecked r) (NodeMetrics_StateChangedAt r)
    (NodeMetrics_ConsecutiveFails r) (NodeMetrics_ConsecutiveOKs r)
    (NodeMetrics_OS r) (NodeMetrics_SingBoxInstalled r)
    (NodeMetrics_AWGModuleInstalled r) (NodeMetrics_AWGPeerTransfer r).
(** The Go zero value [NodeMetrics{}]. *)
Definition zeroNodeMetrics : NodeMetrics :=
  mkNodeMetrics "" false "" "" "" 0 0 0 zeroTime zeroTime 0 0 "" false false ∅.

(** [TakeoverState] (panel.go). *)
Record TakeoverState := mkTakeoverState {
  TakeoverState_DetectedType : string;
  TakeoverState_OldServiceName : string;
  TakeoverState_OldConfigPath : string;
  TakeoverState_OldConfigBackup : string;
  TakeoverState_OldUnitBackup : string;
  TakeoverState_OldEnabled : bool;
  TakeoverState_ConvertedInbounds : Z;
  TakeoverState_ConvertedAt : Time;
  TakeoverState_Status : string;
  TakeoverState_SynthesizedUserIDs : list string }.
#[export] Instance eta_TakeoverState : Eta TakeoverState := fun r =>
  mkTakeoverState (TakeoverState_DetectedType r) (TakeoverState_OldServiceName r)
    (TakeoverState_OldConfigPath r) (TakeoverState_OldConfigBackup r)
    (TakeoverState_OldUnitBackup r) (TakeoverState_OldEnabled r)
    (TakeoverState_ConvertedInbounds r) (TakeoverState_ConvertedAt r)
    (TakeoverState_Status r) (TakeoverState_SynthesizedUserIDs r).
(** The Go zero value [TakeoverState{}]. *)
Definition zeroTakeoverState : TakeoverState :=
  mkTakeoverState "" "" "" "" "" false 0 zeroTime "" [].

(** [AWGOutbound] (panel.go). *)
Record AWGOutbound := mkAWGOutbound {
  AWGOutbound_ID : string;
  AWGOutbound_Tag : string;
  AWGOutbound_Enabled : bool;
  AWGOutbound_PrivateKey : string;
  AWGOutbound_Address : string;
  AWGOutbound_MTU : Z;
  AWGOutbound_PublicKey : string;
  AWGOutbound_PresharedKey : string;
  AWGOutbound_Endpoint : string;
  AWGOutbound_AllowedIPs : string;
  AWGOutbound_Keepalive : Z;
  AWGOutbound_Jc : Z;
  AWGOutbound_Jmin : Z;
  AWGOutbound_Jmax : Z;
  AWGOutbound_S1 : Z;
  AWGOutbound_S2 : Z;
  AWGOutbound_S3 : Z;
  AWGOutbound_S4 : Z;
  AWGOutbound_H1 : string;
  AWGOutbound_H2 : string;
  AWGOutbound_H3 : string;
  AWGOutbound_H4 : string;
  AWGOutbound_HeaderProtectionKey : string;
  AWGOutbound_AWGVersion : string }.
#[export] Instance eta_AWGOutbound : Eta AWGOutbound := fun r =>
  mkAWGOutbound (AWGOutbound_ID r) (AWGOutbound_Tag r) (AWGOutbound_Enabled r)
    (AWGOutbound_PrivateKey r) (AWGOutbound_Address r) (AWGOutbound_MTU r)
    (AWGOutbound_PublicKey r) (AWGOutbound_PresharedKey r)
    (AWGOutbound_Endpoint r) (AWGOutbound_AllowedIPs r) (AWGOutbound_Keepalive r)
    (AWGOutbound_Jc r) (AWGOutbound_Jmin r) (AWGOutbound_Jmax r)
    (AWGOutbound_S1 r) (AWGOutbound_S2 r) (AWGOutbound_S3 r) (AWGOutbound_S4 r)
    (AWGOutbound_H1 r) (AWGOutbound_H2 r) (AWGOutbound_H3 r) (AWGOutbound_H4 r)
    (AWGOutbound_HeaderProtectionKey r) (AWGOutbound_AWGVersion r).
(** The Go zero value [AWGOutbound{}]. *)
Definition zeroAWGOutbound : AWGOutbound :=
  mkAWGOutbound "" "" false "" "" 0 "" "" "" "" 0 0 0 0 0 0 0 0 "" "" "" "" "" "".

(** [UtilityState] (utility.go). *)
Record UtilityState := mkUtilityState {
  UtilityState_Name : string;
  UtilityState_Installed : bool;
  UtilityState_Version : string;
  UtilityState_InstalledAt : Time;
  UtilityState_Revision : Z;
  UtilityState_Status : string }.
#[export] Instance eta_UtilityState : Eta UtilityState := fun r =>
  mkUtilityState (UtilityState_Name r) (UtilityState_Installed r) (UtilityState_Version r)
    (UtilityState_InstalledAt r) (UtilityState_Revision r)
    (UtilityState_Status r).
(** The Go zero value [UtilityState{}]. *)
Definition zeroUtilityState : UtilityState :=
  mkUtilityState "" false "" zeroTime 0 "".

(** [NodeInfo] (panel.go). *)
Record NodeInfo := mkNodeInfo {
  NodeInfo_Host : Host;
  NodeInfo_Country : string;
  NodeInfo_Bandwidth : string;
  NodeInfo_Source : string;
  NodeInfo_AutoApply : bool;
  NodeInfo_UseSudo : bool;
  NodeInfo_LastDeployedHash : string;
  NodeInfo_LastDeployedAt : Time;
  NodeInfo_PosX : float64;
  NodeInfo_PosY : float64;
  NodeInfo_Inbounds : list NodeInbound;
  NodeInfo_AWGOutbounds : list AWGOutbound;
  NodeInfo_PendingHostKeyFingerprint : string;
  NodeInfo_Takeover : option TakeoverState;
  NodeInfo_Spare : bool;
  NodeInfo_AutoRelocate : bool;
  NodeInfo_LastAutoRelocateAt : Time;
  NodeInfo_TLSDomain : string;
  NodeInfo_Utilities : list UtilityState;
  NodeInfo_PanelRelay : bool;
  NodeInfo_KernelAWG3Supported : bool }.
#[export] Instance eta_NodeInfo : Eta NodeInfo := fun r =>
  mkNodeInfo (NodeInfo_Host r) (NodeInfo_Country r) (NodeInfo_Bandwidth r)
    (NodeInfo_Source r) (NodeInfo_AutoApply r) (NodeInfo_UseSudo r)
    (NodeInfo_LastDeployedHash r) (NodeInfo_LastDeployedAt r) (NodeInfo_PosX r)
    (NodeInfo_PosY r) (NodeInfo_Inbounds r) (NodeInfo_AWGOutbounds r)
    (NodeInfo_PendingHostKeyFingerprint r) (NodeInfo_Takeover r)
    (NodeInfo_Spare r) (NodeInfo_AutoRelocate r) (NodeInfo_LastAutoRelocateAt r)
    (NodeInfo_TLSDomain r) (NodeInfo_Utilities r) (NodeInfo_PanelRelay r)
    (NodeInfo_KernelAWG3Supported r).
(** The Go zero value [NodeInfo{}]. *)
Definition zeroNodeInfo : NodeInfo :=
  mkNodeInfo zeroHost "" "" "" false false "" zeroTime 0 0 [] [] "" None false false
    zeroTime "" [] false false.

(** [ConnectionLink] (panel.go). *)
Record ConnectionLink := mkConnectionLink {
  ConnectionLink_ID : string;
  ConnectionLink_FromNodeID : string;
  ConnectionLink_ToNodeID : string;
  ConnectionLink_Transport : string;
  ConnectionLink_ChainName : string;
  ConnectionLink_Label : string }.
#[export] Instance eta_ConnectionLink : Eta ConnectionLink := fun r =>
  mkConnectionLink (ConnectionLink_ID r) (ConnectionLink_FromNodeID r)
    (ConnectionLink_ToNodeID r) (ConnectionLink_Transport r)
    (ConnectionLink_ChainName r) (ConnectionLink_Label r).
(** The Go zero value [ConnectionLink{}]. *)
Definition zeroConnectionLink : ConnectionLink :=
  mkConnectionLink "" "" "" "" "" "".

(** [AuditLog] (panel.go). *)
Record AuditLog := mkAuditLog {
  AuditLog_ID : string;
  AuditLog_Actor : string;
  AuditLog_Action : string;
  AuditLog_TargetType : string;
  AuditLog_TargetID : string;
  AuditLog_PayloadJSON : string;
  AuditLog_TS : Time }.
#[export] Instance eta_AuditLog : Eta AuditLog := fun r =>
  mkAuditLog (AuditLog_ID r) (AuditLog_Actor r) (AuditLog_Action r)
    (AuditLog_TargetType r) (AuditLog_TargetID r) (AuditLog_PayloadJSON r)
    (AuditLog_TS r).
(** The Go zero value [AuditLog{}]. *)
Definition zeroAuditLog : AuditLog :=
  mkAuditLog "" "" "" "" "" "" zeroTime.

(** [RouteRule] (panel.go). *)
Record RouteRule := mkRouteRule {
  RouteRule_ID : string;
  RouteRule_NodeID : string;
  RouteRule_Priority : Z;
  RouteRule_MatchType : string;
  RouteRule_MatchValues : string;
  RouteRule_Action : string;
  RouteRule_OutboundTag : string;
  RouteRule_UserIDs : list string;
  RouteRule_Comment : string;
  RouteRule_Enabled : bool;
  RouteRule_CreatedAt : Time }.
#[export] Instance eta_RouteRule : Eta RouteRule := fun r =>
  mkRouteRule (RouteRule_ID r) (RouteRule_NodeID r) (RouteRule_Priority r)
    (RouteRule_MatchType r) (RouteRule_MatchValues r) (RouteRule_Action r)
    (RouteRule_OutboundTag r) (RouteRule_UserIDs r) (RouteRule_Comment r)
    (RouteRule_Enabled r) (RouteRule_CreatedAt r).
(** The Go zero value [RouteRule{}]. *)
Definition zeroRouteRule : RouteRule :=
  mkRouteRule "" "" 0 "" "" "" "" [] "" false zeroTime.

(** [MtproxyUser] (panel.go). *)
Record MtproxyUser := mkMtproxyUser {
  MtproxyUser_ID : string;
  MtproxyUser_NodeID : string;
  MtproxyUser_Name : string;
  MtproxyUser_SecretHex : string;
  MtproxyUser_FakeTLSDomain : string;
  MtproxyUser_OrderIndex : Z;
  MtproxyUser_Enabled : bool;
  MtproxyUser_CreatedAt : Time }.
#[export] Instance eta_MtproxyUser : Eta MtproxyUser := fun r =>
  mkMtproxyUser (MtproxyUser_ID r) (MtproxyUser_NodeID r) (MtproxyUser_Name r)
    (MtproxyUser_SecretHex r) (MtproxyUser_FakeTLSDomain r)
    (MtproxyUser_OrderIndex r) (MtproxyUser_Enabled r) (MtproxyUser_CreatedAt r).
(** The Go zero value [MtproxyUser{}]. *)
Definition zeroMtproxyUser : MtproxyUser :=
  mkMtproxyUser "" "" "" "" "" 0 false zeroTime.

(** [NodeInfo] embeds [Host]: the promoted fields. *)
Definition NodeInfo_ID (n : NodeInfo) : string := Host_ID (NodeInfo_Host n).
Definition NodeInfo_Addr (n : NodeInfo) : string := Host_Addr (NodeInfo_Host n).
Definition NodeInfo_User (n : NodeInfo) : string := Host_User (NodeInfo_Host n).
Definition NodeInfo_KeyPath (n : NodeInfo) : string := Host_KeyPath (NodeInfo_Host n).

(** [DefaultHysteresis]. *)
Definition DefaultHysteresis : HysteresisConfig := mkHysteresisConfig 3 2.

(** The key each collection of the store is scanned by. *)
#[export] Instance keyed_Host : Keyed Host := Host_ID.
#[export] Instance keyed_Chain : Keyed Chain := Chain_Name.
#[export] Instance keyed_User : Keyed User := User_ID.
#[export] Instance keyed_InboundProfile : Keyed InboundProfile := InboundProfile_ID.
#[export] Instance keyed_NodeInfo : Keyed NodeInfo := NodeInfo_ID.
#[export] Instance keyed_NodeMetrics : Keyed NodeMetrics := NodeMetrics_HostID.
#[export] Instance keyed_RouteRule : Keyed RouteRule := RouteRule_ID.
#[export] Instance keyed_ConnectionLink : Keyed ConnectionLink := ConnectionLink_ID.
#[export] Instance keyed_KnownHost : Keyed KnownHost := KnownHost_Addr.

(** [ChainNode.Host]: a chain node as an SSH host. *)
Definition ChainNode_Host (n : ChainNode) : Host :=
  mkHost (ChainNode_ID n) (ChainNode_Addr n) (ChainNode_User n) (ChainNode_KeyPath n).
