(* ===== verification/ChainModel.v ===== *)
(** * ChainModel: the methods of [model.Chain]

    A chain is an ordered list of hop levels, each a group of nodes; chains
    written before the levels existed have only the flat node list.  The
    methods of domain/model/chain.go read and rewrite both shapes. *)

From S2P Require Import Prelude Model.

(** [IsLevelized]. *)
Definition IsLevelized (c : Chain) : bool :=
  match Chain_Levels c with [] => false | _ => true end.

(** [AllNodes]: level 0 first, then each level in order. *)
Fixpoint flattenLevels (lvs : list ChainLevel) : list ChainNode :=
  match lvs with
  | [] => []
  | lv :: lvs' => ChainLevel_Nodes lv ++ flattenLevels lvs'
  end.

Definition AllNodes (c : Chain) : list ChainNode :=
  if negb (IsLevelized c) then Chain_Nodes c else flattenLevels (Chain_Levels c).

(** [NodeByID]: the first node with the ID, levels first. *)
Definition findNode (id : string) (ns : list ChainNode) : option ChainNode :=
  List.find (fun n => ChainNode_ID n == id) ns.

Fixpoint findInLevels (id : string) (lvs : list ChainLevel) : option ChainNode :=
  match lvs with
  | [] => None
  | lv :: lvs' =>
      match findNode id (ChainLevel_Nodes lv) with
      | Some n => Some n
      | None => findInLevels id lvs'
      end
  end.

Definition NodeByID (c : Chain) (id : string) : option ChainNode :=
  if IsLevelized c then findInLevels id (Chain_Levels c)
  else findNode id (Chain_Nodes c).

(** [LevelIndexOf]: the level index, -1 when absent; the position in the flat
    list for a legacy chain. *)
Fixpoint nodeIndexFrom (i : Z) (id : string) (ns : list ChainNode) : Z :=
  match ns with
  | [] => -1
  | n :: ns' => if ChainNode_ID n == id then i else nodeIndexFrom (i + 1) id ns'
  end.

Fixpoint levelIndexFrom (li : Z) (id : string) (lvs : list ChainLevel) : Z :=
  match lvs with
  | [] => -1
  | lv :: lvs' =>
      if existsb (fun n => ChainNode_ID n == id) (ChainLevel_Nodes lv) then li
      else levelIndexFrom (li + 1) id lvs'
  end.

Definition LevelIndexOf (c : Chain) (nodeID : string) : Z :=
  if negb (IsLevelized c) then nodeIndexFrom 0 nodeID (Chain_Nodes c)
  else levelIndexFrom 0 nodeID (Chain_Levels c).

(** [NextLevelNodes]: the group of the level after the node's. *)
Definition NextLevelNodes (c : Chain) (nodeID : string) : list ChainNode :=
  let li := LevelIndexOf c nodeID in
  if li <? 0 then []
  else if IsLevelized c then
    match Chain_Levels c !! Z.to_nat (li + 1) with
    | None => []
    | Some lv => ChainLevel_Nodes lv
    end
  else
    match Chain_Nodes c !! Z.to_nat (li + 1) with
    | None => []
    | Some n => [n]
    end.

(** [LevelStrategy]. *)
Definition LevelStrategy (c : Chain) (nodeID : string) : Strategy :=
  if negb (IsLevelized c) then Chain_Strategy c
  else
    let li := LevelIndexOf c nodeID in
    if 0 <=? li then
      match Chain_Levels c !! Z.to_nat li with
      | Some lv => ChainLevel_Strategy lv
      | None => ""
      end
    else "".

(** [EachNode]: the callback gets the flat index and may rewrite the node in
    the backing store; [S] is the state the callback's closure carries. *)
Section each.
Context {S : Type} (fn : S -> Z -> ChainNode -> S * ChainNode).

Fixpoint eachNodes (s : S) (i : Z) (ns : list ChainNode) : S * Z * list ChainNode :=
  match ns with
  | [] => (s, i, [])
  | n :: ns' =>
      let '(s1, n1) := fn s i n in
      let '(s2, i2, ns2) := eachNodes s1 (i + 1) ns' in
      (s2, i2, n1 :: ns2)
  end.

Fixpoint eachLevels (s : S) (i : Z) (lvs : list ChainLevel) : S * Z * list ChainLevel :=
  match lvs with
  | [] => (s, i, [])
  | lv :: lvs' =>
      let '(s1, i1, ns1) := eachNodes s i (ChainLevel_Nodes lv) in
      let '(s2, i2, lvs2) := eachLevels s1 i1 lvs' in
      (s2, i2, lv <| ChainLevel_Nodes := ns1 |> :: lvs2)
  end.

Definition EachNode (s : S) (c : Chain) : S * Chain :=
  if IsLevelized c then
    let '(s1, _, lvs) := eachLevels s 0 (Chain_Levels c) in
    (s1, c <| Chain_Levels := lvs |>)
  else
    let '(s1, _, ns) := eachNodes s 0 (Chain_Nodes c) in
    (s1, c <| Chain_Nodes := ns |>).
End each.

(** [SetAllNodes]: redistribute a flat list over the levels; a level slot keeps
    its node when the list runs out. *)
Fixpoint refillNodes (old : list ChainNode) (nodes : list ChainNode)
    : list ChainNode * list ChainNode :=
  match old with
  | [] => ([], nodes)
  | o :: old' =>
      match nodes with
      | n :: nodes' => let '(ns, rest) := refillNodes old' nodes' in (n :: ns, rest)
      | [] => (o :: old', [])
      end
  end.

Fixpoint refillLevels (lvs : list ChainLevel) (nodes : list ChainNode) : list ChainLevel :=
  match lvs with
  | [] => []
  | lv :: lvs' =>
      let '(ns, rest) := refillNodes (ChainLevel_Nodes lv) nodes in
      lv <| ChainLevel_Nodes := ns |> :: refillLevels lvs' rest
  end.

Definition SetAllNodes (c : Chain) (nodes : list ChainNode) : Chain :=
  if negb (IsLevelized c) then c <| Chain_Nodes := nodes |>
  else c <| Chain_Levels := refillLevels (Chain_Levels c) nodes |>.

(** The shape of a levelized chain: what [SetAllNodes] may not change. *)
Definition levelShape (lv : ChainLevel) : string * Strategy * nat :=
  (ChainLevel_ID lv, ChainLevel_Strategy lv, length (ChainLevel_Nodes lv)).

(** ** Lemmas *)

Lemma AllNodes_levelized c :
  IsLevelized c = true -> AllNodes c = flattenLevels (Chain_Levels c).
Proof. unfold AllNodes. by intros ->. Qed.

Lemma AllNodes_legacy c : IsLevelized c = false -> AllNodes c = Chain_Nodes c.
Proof. unfold AllNodes. by intros ->. Qed.

Lemma findNode_app id l1 l2 :
  findNode id (l1 ++ l2) =
  match findNode id l1 with Some n => Some n | None => findNode id l2 end.
Proof.
  unfold findNode. induction l1 as [|n l1 IH]; [done|]. simpl.
  by case_bool_decide.
Qed.

Lemma findInLevels_flatten id lvs : findInLevels id lvs = findNode id (flattenLevels lvs).
Proof.
  induction lvs as [|lv lvs IH]; [done|]. simpl. by rewrite findNode_app, IH.
Qed.

Lemma refillNodes_app old nodes extra :
  length old = length nodes -> refillNodes old (nodes ++ extra) = (nodes, extra).
Proof.
  revert nodes. induction old as [|o old IH]; intros [|n nodes] Hlen; try done.
  simpl. injection Hlen as Hlen. by rewrite (IH nodes Hlen).
Qed.

Lemma refillLevels_flatten lvs nodes :
  length nodes = length (flattenLevels lvs) ->
  flattenLevels (refillLevels lvs nodes) = nodes /\
  map levelShape (refillLevels lvs nodes) = map levelShape lvs.
Proof.
  revert nodes. induction lvs as [|lv lvs IH]; intros nodes Hlen.
  - by destruct nodes.
  - simpl in *. rewrite length_app in Hlen.
    set (k := length (ChainLevel_Nodes lv)) in *.
    rewrite <- (take_drop k nodes).
    rewrite refillNodes_app by (rewrite length_take; lia).
    destruct (IH (drop k nodes)) as [H1 H2]; [rewrite length_drop; lia|].
    simpl. rewrite H1, H2. split; [done|].
    unfold levelShape at 1. simpl. rewrite length_take, Nat.min_l by lia. done.
Qed.

Lemma IsLevelized_refill c nodes :
  IsLevelized c = true ->
  IsLevelized (c <| Chain_Levels := refillLevels (Chain_Levels c) nodes |>) = true.
Proof.
  unfold IsLevelized. destruct (Chain_Levels c) as [|lv lvs] eqn:E; [done|].
  intros _. simpl. by destruct (refillNodes _ _).
Qed.

Lemma levelIndexFrom_spec li id lvs :
  0 <= li ->
  let k := levelIndexFrom li id lvs in
  (k = -1 /\ findInLevels id lvs = None) \/
  (li <= k /\ exists lv, lvs !! Z.to_nat (k - li) = Some lv /\
    is_Some (findNode id (ChainLevel_Nodes lv)) /\
    forall j lv', (j < Z.to_nat (k - li))%nat -> lvs !! j = Some lv' ->
      findNode id (ChainLevel_Nodes lv') = None).
Proof.
  revert li. induction lvs as [|lv lvs IH]; intros li Hli; simpl; [by left|].
  assert (Hex : existsb (fun n => ChainNode_ID n == id) (ChainLevel_Nodes lv) =
    match findNode id (ChainLevel_Nodes lv) with Some _ => true | None => false end).
  { unfold findNode. induction (ChainLevel_Nodes lv) as [|n ns IHn]; [done|].
    simpl. by case_bool_decide. }
  rewrite Hex. destruct (findNode id (ChainLevel_Nodes lv)) as [n|] eqn:En.
  - right. split; [lia|]. exists lv. rewrite Z.sub_diag. split; [done|].
    split; [by rewrite En|]. intros j lv' Hj. lia.
  - destruct (IH (li + 1)) as [[Hk Hf]|(Hk & lv' & Hl & Hs & Hb)]; [lia| |].
    + left. by rewrite Hk.
    + right. split; [lia|]. exists lv'.
      replace (Z.to_nat (levelIndexFrom (li + 1) id lvs - li)) with
        (S (Z.to_nat (levelIndexFrom (li + 1) id lvs - (li + 1)))) by lia.
      split; [done|]. split; [done|].
      intros [|j] lv'' Hj Hlook; simpl in Hlook.
      * injection Hlook as <-. done.
      * apply (Hb j); [lia|done].
Qed.

(** The nodes a traversal leaves behind, with their flat indices. *)
Lemma eachNodes_spec {S} (fn : S -> Z -> ChainNode -> S * ChainNode) s i ns :
  let '(s', i', ns') := eachNodes fn s i ns in
  i' = i + Z.of_nat (length ns) /\ length ns' = length ns /\
  forall tl, eachNodes fn s i (ns ++ tl) =
    (let '(s2, i2, tl') := eachNodes fn s' i' tl in (s2, i2, ns' ++ tl')).
Proof.
  revert s i. induction ns as [|n ns IH]; intros s i; simpl.
  - split; [lia|]. split; [done|]. intros tl. by destruct (eachNodes fn s i tl) as [[??]?].
  - destruct (fn s i n) as [s1 n1]. specialize (IH s1 (i + 1)).
    destruct (eachNodes fn s1 (i + 1) ns) as [[s2 i2] ns2].
    destruct IH as (-> & Hlen & IH). split; [simpl length; lia|]. split; [simpl; by rewrite Hlen|].
    intros tl. rewrite IH. by destruct (eachNodes fn s2 _ tl) as [[??]?].
Qed.

Lemma eachLevels_flatten {S} (fn : S -> Z -> ChainNode -> S * ChainNode) s i lvs :
  let '(s', i', lvs') := eachLevels fn s i lvs in
  eachNodes fn s i (flattenLevels lvs) = (s', i', flattenLevels lvs') /\
  map levelShape lvs' = map levelShape lvs.
Proof.
  revert s i. induction lvs as [|lv lvs IH]; intros s i; simpl; [done|].
  pose proof (eachNodes_spec fn s i (ChainLevel_Nodes lv)) as Hn.
  destruct (eachNodes fn s i (ChainLevel_Nodes lv)) as [[s1 i1] ns1].
  destruct Hn as (_ & Hlen & Happ). rewrite Happ.
  specialize (IH s1 i1). destruct (eachLevels fn s1 i1 lvs) as [[s2 i2] lvs2].
  destruct IH as [-> Hshape]. split; [done|].
  simpl. rewrite Hshape. f_equal. unfold levelShape. simpl. by rewrite Hlen.
Qed.

Lemma AllNodes_eachNodes {S} (fn : S -> Z -> ChainNode -> S * ChainNode) s c :
  let '(s', c') := EachNode fn s c in
  fst (fst (eachNodes fn s 0 (AllNodes c))) = s' /\
  snd (eachNodes fn s 0 (AllNodes c)) = AllNodes c' /\
  map levelShape (Chain_Levels c') = map levelShape (Chain_Levels c).
Proof.
  unfold EachNode. destruct (IsLevelized c) eqn:El.
  - pose proof (eachLevels_flatten fn s 0 (Chain_Levels c)) as H.
    destruct (eachLevels fn s 0 (Chain_Levels c)) as [[s' i'] lvs'].
    destruct H as [H Hs]. rewrite AllNodes_levelized, H by done.
    split; [done|]. split; [|done]. rewrite AllNodes_levelized; [done|].
    unfold IsLevelized in *. simpl. destruct (Chain_Levels c); [done|].
    by destruct lvs'.
  - rewrite AllNodes_legacy by done.
    destruct (eachNodes fn s 0 (Chain_Nodes c)) as [[s' i'] ns'] eqn:E.
    rewrite AllNodes_legacy; [done|]. by unfold IsLevelized in *.
Qed.

Lemma findNode_Some id ns n : findNode id ns = Some n -> n ∈ ns /\ ChainNode_ID n = id.
Proof.
  intros [Hin Hid]%List.find_some. apply bool_decide_eq_true in Hid.
  split; [by apply list_elem_of_In|done].
Qed.

Lemma NodeByID_AllNodes c id : NodeByID c id = findNode id (AllNodes c).
Proof.
  unfold NodeByID, AllNodes. destruct (IsLevelized c); simpl; [|done].
  apply findInLevels_flatten.
Qed.

(** ** Properties *)

Lemma AllNodes_SetAllNodes c nodes :
  length nodes = length (AllNodes c) ->
  AllNodes (SetAllNodes c nodes) = nodes /\
  map levelShape (Chain_Levels (SetAllNodes c nodes)) = map levelShape (Chain_Levels c).
Proof.
  intros Hlen. unfold SetAllNodes. destruct (IsLevelized c) eqn:El; simpl.
  - rewrite AllNodes_levelized in Hlen by done.
    destruct (refillLevels_flatten _ _ Hlen) as [H1 H2].
    rewrite AllNodes_levelized by (by apply IsLevelized_refill). done.
  - split; [|done]. apply AllNodes_legacy. by unfold IsLevelized in *.
Qed.

Lemma refillLevels_self lvs : refillLevels lvs (flattenLevels lvs) = lvs.
Proof.
  induction lvs as [|lv lvs IH]; simpl; [done|]. rewrite refillNodes_app by done. rewrite IH. by destruct lv.
Qed.

Lemma SetAllNodes_self c : SetAllNodes c (AllNodes c) = c.
Proof.
  unfold SetAllNodes, AllNodes. destruct (IsLevelized c); simpl; [rewrite refillLevels_self|]; by destruct c.
Qed.

(** Writing a flat node list of the right length back with [SetAllNodes]
    and reading it with [AllNodes] gives that list, and keeps the level
    structure (number, IDs, strategies and sizes of the levels). *)
Theorem SetAllNodes_roundtrip (c : Chain) (nodes : list ChainNode)
    (Hlen : length nodes = length (AllNodes c)) :
  AllNodes (SetAllNodes c nodes) = nodes /\
  map levelShape (Chain_Levels (SetAllNodes c nodes)) = map levelShape (Chain_Levels c).
Proof. by apply AllNodes_SetAllNodes. Qed.

(** [LevelIndexOf] returns -1 exactly when no node of the chain has the ID;
    otherwise, on a levelized chain, it is the first level holding such a node,
    and [NextLevelNodes] is the whole group of the following level (empty on
    the last level). *)
Theorem LevelIndexOf_spec (c : Chain) (id : string) (Hlev : IsLevelized c = true) :
  (LevelIndexOf c id = -1 /\ NodeByID c id = None /\ NextLevelNodes c id = []) \/
  (exists li lv n, LevelIndexOf c id = Z.of_nat li /\
     Chain_Levels c !! li = Some lv /\ n ∈ ChainLevel_Nodes lv /\ ChainNode_ID n = id /\
     (forall j lv', (j < li)%nat -> Chain_Levels c !! j = Some lv' ->
        forall m, m ∈ ChainLevel_Nodes lv' -> ChainNode_ID m <> id) /\
     NextLevelNodes c id =
       match Chain_Levels c !! S li with Some nx => ChainLevel_Nodes nx | None => [] end).
Proof.
  unfold NextLevelNodes, NodeByID, LevelIndexOf. rewrite Hlev. simpl.
  destruct (levelIndexFrom_spec 0 id (Chain_Levels c)) as [[-> Hf]|(Hk & lv & Hl & Hs & Hb)];
    [lia|left; by rewrite Hf|right].
  destruct Hs as [n Hn]. apply findNode_Some in Hn as [Hin Hid].
  set (k := levelIndexFrom 0 id (Chain_Levels c)) in *. rewrite Z.sub_0_r in *.
  exists (Z.to_nat k), lv, n. split; [lia|]. do 3 (split; [done|]). split.
  - intros j lv' Hj Hlook m Hm Hmid. specialize (Hb j lv' Hj Hlook).
    eapply List.find_none in Hb; [|by apply list_elem_of_In].
    by apply bool_decide_eq_false in Hb.
  - destruct (Z.ltb_spec k 0); [lia|].
    replace (Z.to_nat (k + 1)) with (S (Z.to_nat k)) by lia. done.
Qed.

(** [EachNode] visits exactly the nodes of [AllNodes], in flat order with
    flat indices, and leaves the rewritten nodes where [AllNodes] reads them,
    on levelized and legacy chains alike. *)
Theorem EachNode_visits_AllNodes (f : Z -> ChainNode -> ChainNode) (c : Chain) :
  let '(visited, c') :=
    EachNode (fun seen i n => (seen ++ [(i, n)], f i n)) [] c in
  visited = imap (fun i n => (Z.of_nat i, n)) (AllNodes c) /\
  AllNodes c' = imap (fun i n => f (Z.of_nat i) n) (AllNodes c).
Proof.
  pose proof (AllNodes_eachNodes (fun seen i n => (seen ++ [(i, n)], f i n)) [] c) as H.
  destruct (EachNode _ [] c) as [vis c']. destruct H as (<- & <- & _).
  assert (Hgen : forall ns k acc,
    eachNodes (fun seen i n => (seen ++ [(i, n)], f i n)) acc (Z.of_nat k) ns =
    (acc ++ imap (fun i n => (Z.of_nat (k + i), n)) ns, Z.of_nat (k + length ns),
     imap (fun i n => f (Z.of_nat (k + i)) n) ns)).
  { intros ns. induction ns as [|n ns IH]; intros k acc; simpl.
    - by rewrite app_nil_r, Nat.add_0_r.
    - replace (Z.of_nat k + 1) with (Z.of_nat (S k)) by lia.
      rewrite IH, <- app_assoc. simpl. rewrite Nat.add_0_r.
      apply (f_equal2 pair); [apply (f_equal2 pair); [|lia]|].
      + do 2 apply f_equal. apply imap_ext. intros i m _. simpl. do 2 f_equal. lia.
      + apply (f_equal (cons _)). apply imap_ext. intros i m _. simpl. f_equal. lia. }
  pose proof (Hgen (AllNodes c) 0%nat []) as Hg. simpl in Hg.
  change (Z.of_nat 0) with 0 in Hg. rewrite Hg. done.
Qed.

Definition sampleLevels : Chain :=
  zeroChain <| Chain_Name := "c" |>
    <| Chain_Levels :=
       [zeroChainLevel <| ChainLevel_ID := "l0" |>
          <| ChainLevel_Nodes := [zeroChainNode <| ChainNode_ID := "a" |>] |>;
        zeroChainLevel <| ChainLevel_ID := "l1" |>
          <| ChainLevel_Nodes := [zeroChainNode <| ChainNode_ID := "b" |>;
                                  zeroChainNode <| ChainNode_ID := "d" |>] |>] |>.

Lemma SetAllNodes_roundtrip_witness :
  let ns := [zeroChainNode; zeroChainNode <| ChainNode_ID := "x" |>; zeroChainNode] in
  AllNodes (SetAllNodes sampleLevels ns) = ns /\
  map levelShape (Chain_Levels (SetAllNodes sampleLevels ns)) =
  map levelShape (Chain_Levels sampleLevels).
Proof. apply (SetAllNodes_roundtrip sampleLevels). reflexivity. Defined.

Lemma LevelIndexOf_spec_witness :
  LevelIndexOf sampleLevels "a" = 0 /\ length (NextLevelNodes sampleLevels "a") = 2%nat.
Proof.
  destruct (LevelIndexOf_spec sampleLevels "a" eq_refl) as [(H & _)|(li & _ & _ & H & _)].
  - split; reflexivity.
  - split; reflexivity.
Defined.
