(* ===== verification/Lifecycle.v ===== *)
(** * Lifecycle: user status, AWG versions and node utilities

    The small decision functions of domain/model: [User.ComputeStatus]
    (panel.go), the AWG protocol version resolution (awg_version.go) and the
    utility catalogue (utility.go).  [now] is the value [time.Now()] returns. *)

From S2P Require Import Prelude Model.

(** [User.IsExpired]: [time.Now().After(u.ExpiresAt)] is strict. *)
Definition IsExpired (now : Time) (u : User) : bool :=
  negb (IsZero (User_ExpiresAt u)) && (User_ExpiresAt u <? now).

(** [User.ComputeStatus]. *)
Definition ComputeStatus (now : Time) (u : User) : string :=
  if negb (User_Active u) then "disabled"
  else if (User_ExpireStrategy u != "never") && IsExpired now u then "expired"
  else if (User_ExpireStrategy u == "start_on_first_use") && IsZero (User_FirstUseAt u)
  then "on_hold"
  else "active".

Definition AWGVersion1x : string := "1.5".
Definition AWGVersion2 : string := "2".
Definition AWGVersion3 : string := "3".
Definition AWGVersion31 : string := "3.1".

(** [effectiveAWGVersion]. *)
Definition effectiveAWGVersion (awg3Mode : bool) (version : string) : string :=
  if version == AWGVersion31 then AWGVersion31
  else if awg3Mode || (version == AWGVersion3) then AWGVersion3
  else if (version == AWGVersion1x) || (version == AWGVersion2) then version
  else AWGVersion2.

(** The two exported forms, on a profile and on a materialized inbound. *)
Definition InboundProfile_EffectiveAWGVersion (p : InboundProfile) : string :=
  effectiveAWGVersion (InboundProfile_AWG3Mode p) (InboundProfile_AWGVersion p).
Definition NodeInbound_EffectiveAWGVersion (ib : NodeInbound) : string :=
  effectiveAWGVersion (NodeInbound_AWG3Mode ib) (NodeInbound_AWGVersion ib).

(** [IsKnownAWGVersion]. *)
Definition IsKnownAWGVersion (v : string) : bool :=
  (v == AWGVersion1x) || (v == AWGVersion2) || (v == AWGVersion3) || (v == AWGVersion31).

(** [IsAWG3Family]. *)
Definition IsAWG3Family (v : string) : bool :=
  let e := effectiveAWGVersion false v in
  (e == AWGVersion3) || (e == AWGVersion31).

(** [awgVersionOrder]. *)
Definition awgVersionOrder (v : string) : Z :=
  if v == AWGVersion1x then 1
  else if v == AWGVersion3 then 3
  else if v == AWGVersion31 then 4
  else 2.

(** [AWGVersionAtLeast]. *)
Definition AWGVersionAtLeast (v floor : string) : bool :=
  awgVersionOrder floor <=? awgVersionOrder (effectiveAWGVersion false v).

Definition UtilityCaddy : string := "caddy".
Definition UtilityACME : string := "acme".
Definition UtilityFakesite : string := "fakesite".
Definition UtilitySub : string := "sub".

(** [AllUtilities]: install order. *)
Definition AllUtilities : list string :=
  [UtilityCaddy; UtilityACME; UtilityFakesite; UtilitySub].

(** [FindUtility]. *)
Definition FindUtility (l : list UtilityState) (name : string) : option UtilityState :=
  List.find (fun u => UtilityState_Name u == name) l.

(** [NodeInfo.UtilityInstalled]; [None] is the nil receiver. *)
Definition UtilityInstalled (n : option NodeInfo) (name : string) : bool :=
  match n with
  | None => false
  | Some n =>
      match FindUtility (NodeInfo_Utilities n) name with
      | Some u => UtilityState_Installed u
      | None => false
      end
  end.

(** [AWGOutbound.IfaceName]. *)
Definition IfaceName (o : AWGOutbound) : string :=
  let id := AWGOutbound_ID o in
  let id := if id == "" then AWGOutbound_Tag o else id in
  if id == "" then "awgo-1" else "awgo-" +:+ id.

(** ** Lemmas *)

Lemma effectiveAWGVersion_cases m v :
  effectiveAWGVersion m v = AWGVersion1x \/ effectiveAWGVersion m v = AWGVersion2 \/
  effectiveAWGVersion m v = AWGVersion3 \/ effectiveAWGVersion m v = AWGVersion31.
Proof.
  unfold effectiveAWGVersion. repeat case_bool_decide; destruct m; simpl; subst; auto.
Qed.

Lemma effectiveAWGVersion_known v :
  IsKnownAWGVersion v = true -> effectiveAWGVersion false v = v.
Proof.
  unfold IsKnownAWGVersion, effectiveAWGVersion. repeat case_bool_decide; by subst.
Qed.

Lemma IsKnownAWGVersion_cases v :
  IsKnownAWGVersion v = true ->
  v = AWGVersion1x \/ v = AWGVersion2 \/ v = AWGVersion3 \/ v = AWGVersion31.
Proof. unfold IsKnownAWGVersion. rewrite !orb_true_iff, !bool_decide_eq_true. tauto. Qed.

(** ** Properties *)

(** The version resolution always yields a known version, is idempotent,
    keeps every known version when the legacy flag is off, and with the flag on
    yields the 3 family: ["3"], or ["3.1"] when that version is selected. *)
Theorem effectiveAWGVersion_canonical (awg3Mode : bool) (v : string) :
  let e := effectiveAWGVersion awg3Mode v in
  IsKnownAWGVersion e = true /\ effectiveAWGVersion false e = e /\
  (IsKnownAWGVersion v = true -> awg3Mode = false -> e = v) /\
  (awg3Mode = true -> e = if v == AWGVersion31 then AWGVersion31 else AWGVersion3).
Proof.
  simpl. split_and!.
  - destruct (effectiveAWGVersion_cases awg3Mode v) as [->|[->|[->| ->]]]; reflexivity.
  - destruct (effectiveAWGVersion_cases awg3Mode v) as [->|[->|[->| ->]]]; reflexivity.
  - intros Hk ->. by apply effectiveAWGVersion_known.
  - intros ->. reflexivity.
Qed.

(** [AWGVersionAtLeast] orders the versions 1.5 < 2 < 3 < 3.1: it holds of
    a version against itself, is transitive and total on the known versions,
    and treats an unknown version as 2. *)
Theorem AWGVersionAtLeast_order (a b c : string)
    (Ha : IsKnownAWGVersion a = true) (Hb : IsKnownAWGVersion b = true)
    (Hc : IsKnownAWGVersion c = true) :
  AWGVersionAtLeast a a = true /\
  (AWGVersionAtLeast a b = true -> AWGVersionAtLeast b c = true ->
   AWGVersionAtLeast a c = true) /\
  (AWGVersionAtLeast a b = true \/ AWGVersionAtLeast b a = true) /\
  (AWGVersionAtLeast a b = true -> AWGVersionAtLeast b a = true -> a = b) /\
  (forall u, IsKnownAWGVersion u = false ->
     AWGVersionAtLeast u a = AWGVersionAtLeast AWGVersion2 a).
Proof.
  unfold AWGVersionAtLeast.
  rewrite (effectiveAWGVersion_known a Ha), (effectiveAWGVersion_known b Hb).
  split_and!.
  - apply Z.leb_refl.
  - rewrite !Z.leb_le. lia.
  - rewrite !Z.leb_le. lia.
  - apply IsKnownAWGVersion_cases in Ha, Hb.
    destruct Ha as [->|[->|[->| ->]]], Hb as [->|[->|[->| ->]]]; done.
  - intros u Hu. f_equal. unfold IsKnownAWGVersion in Hu. unfold effectiveAWGVersion.
    repeat case_bool_decide; simplify_eq/=; done.
Qed.

Lemma AWGVersionAtLeast_order_witness :
  AWGVersionAtLeast "3" "2" = true /\ AWGVersionAtLeast "2" "1.5" = true /\
  AWGVersionAtLeast "3" "1.5" = true.
Proof.
  split; [reflexivity|]. split; [reflexivity|].
  apply (AWGVersionAtLeast_order "3" "2" "1.5"); reflexivity.
Defined.

(** The lifecycle status is decided in the order disabled, expired, on
    hold, active; a user whose strategy is ["never"] is never expired, and an
    expired or disabled user is never reported active. *)
Theorem ComputeStatus_spec (now : Time) (u : User) :
  (ComputeStatus now u = "disabled" <-> User_Active u = false) /\
  (ComputeStatus now u = "expired" <->
     User_Active u = true /\ User_ExpireStrategy u <> "never" /\
     User_ExpiresAt u <> zeroTime /\ User_ExpiresAt u < now) /\
  (ComputeStatus now u = "on_hold" <->
     User_Active u = true /\ User_ExpireStrategy u = "start_on_first_use" /\
     User_FirstUseAt u = zeroTime /\ IsExpired now u = false) /\
  (ComputeStatus now u ∈ ["disabled"; "expired"; "on_hold"; "active"]).
Proof.
  assert (Hexp : IsExpired now u = true <->
    User_ExpiresAt u <> zeroTime /\ User_ExpiresAt u < now).
  { unfold IsExpired, IsZero. rewrite andb_true_iff, negb_true_iff, Z.eqb_neq, Z.ltb_lt. done. }
  assert (Hz : IsZero (User_FirstUseAt u) = true <-> User_FirstUseAt u = zeroTime)
    by (unfold IsZero; apply Z.eqb_eq).
  unfold ComputeStatus.
  destruct (bool_decide (User_ExpireStrategy u = "never")) eqn:E1,
    (bool_decide (User_ExpireStrategy u = "start_on_first_use")) eqn:E2;
    bool_to_prop; try (exfalso; congruence);
    destruct (User_Active u), (IsExpired now u), (IsZero (User_FirstUseAt u)); simpl;
    (split_and!; [| | |rewrite !elem_of_cons; tauto]);
    (split; [intros Hs; first [discriminate Hs | tauto]
            | intros Hs; first [reflexivity | tauto | exfalso; intuition congruence]]).
Qed.

(** The legacy flag does not win over an explicit version 3.1. *)
Lemma awg31_beats_legacy_flag : effectiveAWGVersion true AWGVersion31 = AWGVersion31.
Proof. done. Qed.
