(* ===== verification/StoreCore.v ===== *)
(** * StoreCore: the store file, its encryption at rest and its atomic write

    internal/chain/store.go ([storeFile], [readStore], [writeStore],
    [newStoreFile]), store_crypto.go, atomicwrite.go and errors.go.

    The disk is the state [World]: the store file, the master-key file next to
    it, the two one-shot backups of the migrations and the temporary files of
    the atomic write.  A file's bytes are represented by what they decode to:
    JSON text of a store, that text sealed with AES-256-GCM under a key, or
    bytes that are neither.  Every operation of the store runs under its
    mutex, so an operation is one function from a world to a result and a
    world. *)

From S2P Require Import Prelude Model.

(** ** Data *)

(** [storeFile]. *)
Record storeFile := mkStoreFile {
  sf_SchemaVersion : Z;
  sf_Revision : Z;
  sf_Hosts : list Host;
  sf_Chains : list Chain;
  sf_Users : list User;
  sf_Settings : option PanelSettings;
  sf_NodeInfos : list NodeInfo;
  sf_Metrics : list NodeMetrics;
  sf_KnownHosts : list KnownHost;
  sf_RouteRules : list RouteRule;
  sf_AuditLogs : list AuditLog;
  sf_MtproxyUsers : list MtproxyUser;
  sf_Links : list ConnectionLink;
  sf_InboundProfiles : list InboundProfile }.
#[export] Instance eta_storeFile : Eta storeFile := fun r =>
  mkStoreFile (sf_SchemaVersion r) (sf_Revision r) (sf_Hosts r) (sf_Chains r)
    (sf_Users r) (sf_Settings r) (sf_NodeInfos r) (sf_Metrics r) (sf_KnownHosts r)
    (sf_RouteRules r) (sf_AuditLogs r) (sf_MtproxyUsers r) (sf_Links r)
    (sf_InboundProfiles r).

Definition currentSchemaVersion : Z := 3.

(** [newStoreFile]: stamped at the current schema version. *)
Definition newStoreFile : storeFile :=
  mkStoreFile currentSchemaVersion 0 [] [] [] None [] [] [] [] [] [] [] [].

(** What the bytes of a store file decode to.  [Garbage true] carries the
    encryption header but does not authenticate under any key.  [Unreadable d] is a
    file with the bytes of [d] that [os.ReadFile] fails on, for another reason than
    that it does not exist. *)
Inductive FileData :=
  | Plain (sf : storeFile)
  | Encrypted (key : string) (sf : storeFile)
  | Garbage (magic : bool)
  | Unreadable (d : FileData).

(** The master-key file: its permission bits and its bytes; a file that cannot be
    read; one of which not even the permission bits can be had. *)
Inductive KeyFile :=
  | mkKeyFile (perm : Z) (data : string)
  | KeyUnreadable (perm : Z)
  | KeyNoStat.

(** The system calls of [atomicWriteFile] that can fail. *)
Inductive WriteStep := Mkdir | CreateTemp | WriteTemp | ChmodTemp | CloseTemp | Rename.

Record World := mkWorld {
  w_store : option FileData;        (* store.json *)
  w_key : option KeyFile;           (* store.json.key *)
  w_prebmigrate : option FileData;  (* store.json.prebmigrate.bak *)
  w_preorphan : option FileData;    (* store.json.preorphan.bak *)
  w_tmp : list FileData;            (* temporary files beside the store *)
  w_fault : option WriteStep }.     (* the call the next write fails at, if any *)
#[export] Instance eta_World : Eta World := fun r =>
  mkWorld (w_store r) (w_key r) (w_prebmigrate r) (w_preorphan r) (w_tmp r) (w_fault r).

(** ** Errors *)

Inductive KeyErr := KeyStatErr | BadKeyMode | KeyReadErr | ErrShortMasterKey.

(** The errors of [readStore]; [NotExist] is what [os.IsNotExist] recognises. *)
Inductive ReadErr :=
  | NotExist
  | ReadFileErr
  | KeyUnavailable (e : KeyErr)
  | KeyMissing
  | DecryptErr
  | ParseErr.

(** The errors of the store's operations, with the values they report. *)
Inductive StoreErr :=
  | ERead (e : ReadErr)
  | EMasterKeyInvalid (e : KeyErr)
  | EWrite (s : WriteStep)
  | EHostNotFound (id : string)
  | EHostReferenced (id chain : string)
  | EChainNotFound (name : string)
  | EUserNotFound (id : string)
  | EProfileNotFound (id : string)
  | EProfileInUse (id chain node : string)
  | EMtproxySecretUsed (node : string)
  | ENodeInfoNotFound (id : string)
  | EMetricsNotFound (id : string)
  | EKnownHostNotFound
  | ERouteRuleNotFound (id : string)
  | ELinkExists (from to chain : string)
  | ELinkNotFound (id : string)
  | EUtilityNoName
  | EResolveNode (id : string) (e : StoreErr)
  | EListNodes (e : StoreErr).

(** The sentinel errors of errors.go. *)
Inductive Sentinel :=
  | ErrHostNotFound | ErrChainNotFound | ErrUserNotFound
  | ErrInboundProfileNotFound | ErrInboundProfileInUse.

(** [errors.Is(err, sentinel)] through the [%w] wrappers. *)
Fixpoint errors_is (e : StoreErr) (s : Sentinel) : bool :=
  match e, s with
  | EHostNotFound _, ErrHostNotFound => true
  | EChainNotFound _, ErrChainNotFound => true
  | EUserNotFound _, ErrUserNotFound => true
  | EProfileNotFound _, ErrInboundProfileNotFound => true
  | EProfileInUse _ _ _, ErrInboundProfileInUse => true
  | EResolveNode _ e', _ => errors_is e' s
  | EListNodes e', _ => errors_is e' s
  | _, _ => false
  end.

Inductive Result (A : Type) := Ok (a : A) | Err (e : StoreErr).
Arguments Ok {A} a.
Arguments Err {A} e.

(** An operation that may write the disk. *)
Definition Op (A : Type) : Type := World -> Result A * World.

Notation "'let!' x ':=' e 'in' k" :=
  (match e with Ok x => k | Err er => Err er end)
  (at level 200, x pattern, e at level 100, right associativity) : go_scope.

(** ** Encryption at rest *)

Definition masterKeySize : nat := 32.

(** [loadMasterKey]: [inr None] when there is no key file (plaintext mode). *)
Definition badKeyMode (perm : Z) : bool := negb (Z.land perm 0x3f =? 0).
Definition loadMasterKey (kf : option KeyFile) : KeyErr + option string :=
  match kf with
  | None => inr None
  | Some KeyNoStat => inl KeyStatErr
  | Some (KeyUnreadable perm) => if badKeyMode perm then inl BadKeyMode else inl KeyReadErr
  | Some (mkKeyFile perm data) =>
      if badKeyMode perm then inl BadKeyMode
      else if negb (Nat.eqb (String.length data) masterKeySize) then inl ErrShortMasterKey
      else inr (Some data)
  end.

(** [isEncrypted]: the header test on the file's first bytes. *)
Fixpoint isEncrypted (d : FileData) : bool :=
  match d with
  | Plain _ => false
  | Encrypted _ _ => true
  | Garbage magic => magic
  | Unreadable d => isEncrypted d
  end.

(** [encryptStore] and [decryptStore]: authenticated encryption opens under the
    sealing key only. *)
Definition encryptStore (sf : storeFile) (key : string) : FileData := Encrypted key sf.

Definition decryptStore (d : FileData) (key : string) : option storeFile :=
  match d with
  | Encrypted k sf => if k == key then Some sf else None
  | _ => None
  end.

(** ** Reading and writing *)

(** [readStore]. *)
Definition readStore (w : World) : ReadErr + storeFile :=
  match w_store w with
  | None => inl NotExist
  | Some (Unreadable _) => inl ReadFileErr
  | Some data =>
      if isEncrypted data then
        match loadMasterKey (w_key w) with
        | inl e => inl (KeyUnavailable e)
        | inr None => inl KeyMissing
        | inr (Some key) =>
            match decryptStore data key with
            | None => inl DecryptErr
            | Some sf => inr sf
            end
        end
      else
        match data with
        | Plain sf => inr sf
        | _ => inl ParseErr
        end
  end.

(** [atomicWriteFile]: a temporary file is written beside the target and
    renamed over it; every failing path removes the temporary file. *)
Definition faultAt (w : World) (s : WriteStep) : bool :=
  match w_fault w, s with
  | Some Mkdir, Mkdir | Some CreateTemp, CreateTemp | Some WriteTemp, WriteTemp
  | Some ChmodTemp, ChmodTemp | Some CloseTemp, CloseTemp | Some Rename, Rename => true
  | _, _ => false
  end.

Definition atomicWriteFile (data : FileData) : Op unit := fun w =>
  if faultAt w Mkdir then (Err (EWrite Mkdir), w)
  else if faultAt w CreateTemp then (Err (EWrite CreateTemp), w)
  else
    let w1 := w <| w_tmp := data :: w_tmp w |> in
    let cleanup (w' : World) := w' <| w_tmp := tail (w_tmp w') |> in
    if faultAt w WriteTemp then (Err (EWrite WriteTemp), cleanup w1)
    else if faultAt w ChmodTemp then (Err (EWrite ChmodTemp), cleanup w1)
    else if faultAt w CloseTemp then (Err (EWrite CloseTemp), cleanup w1)
    else if faultAt w Rename then (Err (EWrite Rename), cleanup w1)
    else (Ok tt, (cleanup w1) <| w_store := Some data |>).

(** [writeStore]: bump the revision, encrypt when a key is present, refuse a
    present but invalid key, write atomically. *)
Definition writeStore (sf : storeFile) : Op unit := fun w =>
  let sf := sf <| sf_Revision := wrap64 (sf_Revision sf + 1) |> in
  match loadMasterKey (w_key w) with
  | inr (Some key) => atomicWriteFile (encryptStore sf key) w
  | inl kerr => (Err (EMasterKeyInvalid kerr), w)
  | inr None => atomicWriteFile (Plain sf) w
  end.

(** [GetRevision]: 0 when the store is unreadable. *)
Definition GetRevision (w : World) : Z :=
  match readStore w with inl _ => 0 | inr sf => sf_Revision sf end.

(** The opening of every saving operation: an absent file is a new store. *)
Definition readOrNew (w : World) : Result storeFile :=
  match readStore w with
  | inr sf => Ok sf
  | inl NotExist => Ok newStoreFile
  | inl e => Err (ERead e)
  end.

(** The opening of the operations for which an absent file is [e]. *)
Definition readOrErr (e : StoreErr) (w : World) : Result storeFile :=
  match readStore w with
  | inr sf => Ok sf
  | inl NotExist => Err e
  | inl e' => Err (ERead e')
  end.

(** The opening of the operations that do not distinguish an absent file. *)
Definition readAny (w : World) : Result storeFile :=
  match readStore w with inr sf => Ok sf | inl e => Err (ERead e) end.

(** A read-modify-write cycle: [f] computes what to write. *)
Definition modifyStore {A : Type} (opened : Result storeFile)
    (f : storeFile -> Result (A * storeFile)) : Op A := fun w =>
  match opened with
  | Err e => (Err e, w)
  | Ok sf =>
      match f sf with
      | Err e => (Err e, w)
      | Ok (a, sf') =>
          match writeStore sf' w with
          | (Err e, w') => (Err e, w')
          | (Ok _, w') => (Ok a, w')
          end
      end
  end.

(** ** Lemmas *)

(** The bytes a store is written as under the present key file. *)
Definition sealAs (kf : option KeyFile) (sf : storeFile) : option FileData :=
  match loadMasterKey kf with
  | inr (Some key) => Some (Encrypted key sf)
  | inr None => Some (Plain sf)
  | inl _ => None
  end.

Lemma atomicWriteFile_cases d w :
  (exists s, atomicWriteFile d w = (Err (EWrite s), w)) \/
  (w_fault w = None /\ atomicWriteFile d w = (Ok tt, w <| w_store := Some d |>)).
Proof.
  destruct w as [st ky pb po tmp [[]|]]; cbn; eauto.
Qed.

Lemma atomicWriteFile_ok d w :
  w_fault w = None -> atomicWriteFile d w = (Ok tt, w <| w_store := Some d |>).
Proof. destruct w as [st ky pb po tmp f]. simpl. intros ->. done. Qed.

Definition bump (sf : storeFile) : storeFile :=
  sf <| sf_Revision := wrap64 (sf_Revision sf + 1) |>.

Lemma writeStore_cases sf w :
  (exists e, writeStore sf w = (Err e, w)) \/
  (exists d, sealAs (w_key w) (bump sf) = Some d /\ w_fault w = None /\
     writeStore sf w = (Ok tt, w <| w_store := Some d |>)).
Proof.
  unfold writeStore, sealAs. destruct (loadMasterKey (w_key w)) as [e|[key|]].
  - left. eauto.
  - destruct (atomicWriteFile_cases (encryptStore (bump sf) key) w) as [[s H]|[Hf H]];
      [left|right]; eauto.
  - destruct (atomicWriteFile_cases (Plain (bump sf)) w) as [[s H]|[Hf H]];
      [left|right]; eauto.
Qed.

Lemma readStore_sealed w d sf :
  sealAs (w_key w) sf = Some d -> readStore (w <| w_store := Some d |>) = inr sf.
Proof.
  unfold sealAs, readStore. simpl.
  destruct (loadMasterKey (w_key w)) as [e|[key|]] eqn:E; intros [= <-]; simpl.
  - by rewrite bool_decide_eq_true_2.
  - done.
Qed.

(** The two outcomes of a read-modify-write cycle. *)
Lemma modifyStore_cases {A} opened (f : storeFile -> Result (A * storeFile)) w :
  (exists e, modifyStore opened f w = (Err e, w)) \/
  (exists sf a sf' d, opened = Ok sf /\ f sf = Ok (a, sf') /\
     sealAs (w_key w) (bump sf') = Some d /\
     modifyStore opened f w = (Ok a, w <| w_store := Some d |>)).
Proof.
  unfold modifyStore. destruct opened as [sf|e]; [|left; eauto].
  destruct (f sf) as [[a sf']|e] eqn:Ef; [|left; eauto].
  destruct (writeStore_cases sf' w) as [[e He]|(d & Hd & Hf & Hw)].
  - rewrite He. left. eauto.
  - rewrite Hw. right. exists sf, a, sf', d. auto.
Qed.

Lemma modifyStore_Ok {A} opened (f : storeFile -> Result (A * storeFile)) w a w' :
  modifyStore opened f w = (Ok a, w') ->
  exists sf sf', opened = Ok sf /\ f sf = Ok (a, sf') /\ readStore w' = inr (bump sf') /\
    w_key w' = w_key w /\ w_fault w' = w_fault w /\
    w_prebmigrate w' = w_prebmigrate w /\ w_preorphan w' = w_preorphan w.
Proof.
  intros H. destruct (modifyStore_cases opened f w) as [[e He]|(sf & a' & sf' & d & H1 & H2 & H3 & H4)].
  - congruence.
  - rewrite H4 in H. injection H as <- <-. exists sf, sf'.
    split_and!; auto. by apply readStore_sealed.
Qed.

Lemma modifyStore_Err {A} opened (f : storeFile -> Result (A * storeFile)) w e w' :
  modifyStore opened f w = (Err e, w') -> w' = w.
Proof.
  intros H. destruct (modifyStore_cases opened f w) as [[e' He]|(sf & a' & sf' & d & H1 & H2 & H3 & H4)].
  - rewrite He in H. by injection H.
  - congruence.
Qed.

(** A writable world: no fault pending and no invalid key file. *)
Definition writable (w : World) : Prop :=
  w_fault w = None /\ match loadMasterKey (w_key w) with inl _ => False | inr _ => True end.

Lemma modifyStore_writable {A} opened (f : storeFile -> Result (A * storeFile)) w sf a sf' :
  writable w -> opened = Ok sf -> f sf = Ok (a, sf') ->
  exists w', modifyStore opened f w = (Ok a, w').
Proof.
  intros [Hf Hk] -> Hfs. unfold modifyStore. rewrite Hfs. unfold writeStore.
  destruct (loadMasterKey (w_key w)) as [?|[key|]]; [done| |];
    rewrite atomicWriteFile_ok by done; eauto.
Qed.
