(* ===== verification/Store.v ===== *)
(** * Store: the operations of the JSON store

    One definition per method of internal/chain/store.go and
    store_utilities.go.  Reading methods are functions of the world; saving
    methods are [Op]s.  The values the methods obtain from the clock and from
    crypto/rand ([timeNow], [newID]) are arguments.  A method that completes
    its argument in place (an ID, a timestamp, a normalised address) returns
    the completed value. *)

From S2P Require Import Prelude GoStrings Model ChainModel Lifecycle StoreCore.

(** ** Hosts *)

(** [SaveHost]. *)
Definition SaveHost (h : Host) : Op unit := fun w =>
  modifyStore (readOrNew w)
    (fun sf => Ok (tt, sf <| sf_Hosts := upsert h (sf_Hosts sf) |>)) w.

(** [GetHost]. *)
Definition GetHost (id : string) (w : World) : Result Host :=
  let! sf := readOrErr (EHostNotFound id) w in
  match find_key id (sf_Hosts sf) with
  | Some h => Ok h
  | None => Err (EHostNotFound id)
  end.

(** The shape shared by the listing methods: an absent file is an empty list. *)
Definition listStore {A : Type} (f : storeFile -> list A) (w : World) : Result (list A) :=
  match readStore w with
  | inr sf => Ok (f sf)
  | inl NotExist => Ok []
  | inl e => Err (ERead e)
  end.

(** [ListHosts]. *)
Definition ListHosts (w : World) : Result (list Host) := listStore sf_Hosts w.

(** The chain that still holds a node with the ID, in store order. *)
Definition chainHolding (id : string) (chains : list Chain) : option Chain :=
  List.find (fun c => existsb (fun n => ChainNode_ID n == id) (AllNodes c)) chains.

(** [DeleteHost]: refused while a chain references the host; cascades to the
    node info and the metrics. *)
Definition DeleteHost (id : string) : Op unit := fun w =>
  modifyStore (readOrErr (EHostNotFound id) w)
    (fun sf =>
       match chainHolding id (sf_Chains sf) with
       | Some c => Err (EHostReferenced id (Chain_Name c))
       | None =>
           if negb (has_key id (sf_Hosts sf)) then Err (EHostNotFound id)
           else Ok (tt, sf <| sf_Hosts := remove_key id (sf_Hosts sf) |>
                           <| sf_NodeInfos := remove_key id (sf_NodeInfos sf) |>
                           <| sf_Metrics := remove_key id (sf_Metrics sf) |>)
       end) w.

(** ** Chains *)

(** [SaveChain]: the flat list of a levelized chain is re-derived. *)
Definition SaveChain (chain : Chain) : Op Chain := fun w =>
  let chain :=
    if IsLevelized chain then chain <| Chain_Nodes := AllNodes chain |> else chain in
  modifyStore (readOrNew w)
    (fun sf => Ok (chain, sf <| sf_Chains := upsert chain (sf_Chains sf) |>)) w.

(** [GetChain]. *)
Definition GetChain (name : string) (w : World) : Result Chain :=
  let! sf := readOrErr (EChainNotFound name) w in
  match find_key name (sf_Chains sf) with
  | Some c => Ok c
  | None => Err (EChainNotFound name)
  end.

(** [ListChains]. *)
Definition ListChains (w : World) : Result (list Chain) := listStore sf_Chains w.

(** [GetChainsForNode]. *)
Definition chainHasNode (nodeID : string) (c : Chain) : bool :=
  existsb (fun n => ChainNode_ID n == nodeID) (AllNodes c).

Definition GetChainsForNode (nodeID : string) (w : World) : Result (list Chain) :=
  let! chains := ListChains w in
  Ok (List.filter (chainHasNode nodeID) chains).

(** [DeleteChain]. *)
Definition DeleteChain (name : string) : Op unit := fun w =>
  modifyStore (readOrErr (EChainNotFound name) w)
    (fun sf =>
       if negb (has_key name (sf_Chains sf)) then Err (EChainNotFound name)
       else Ok (tt, sf <| sf_Chains := remove_key name (sf_Chains sf) |>)) w.

(** ** Inbound profiles *)

(** [SaveInboundProfile]. *)
Definition SaveInboundProfile (now : Time) (p : InboundProfile) : Op InboundProfile := fun w =>
  let p := if IsZero (InboundProfile_CreatedAt p)
           then p <| InboundProfile_CreatedAt := now |> else p in
  modifyStore (readOrNew w)
    (fun sf => Ok (p, sf <| sf_InboundProfiles := upsert p (sf_InboundProfiles sf) |>)) w.

(** [GetInboundProfile]. *)
Definition GetInboundProfile (id : string) (w : World) : Result InboundProfile :=
  let! sf := readOrErr (EProfileNotFound id) w in
  match find_key id (sf_InboundProfiles sf) with
  | Some p => Ok p
  | None => Err (EProfileNotFound id)
  end.

(** [ListInboundProfiles]. *)
Definition ListInboundProfiles (w : World) : Result (list InboundProfile) :=
  listStore sf_InboundProfiles w.

(** The first chain, and its first node, whose [InboundRef] is the profile. *)
Fixpoint profileUser (id : string) (chains : list Chain) : option (string * string) :=
  match chains with
  | [] => None
  | c :: chains' =>
      match List.find (fun n => ChainNode_InboundRef n == id) (AllNodes c) with
      | Some n => Some (Chain_Name c, ChainNode_ID n)
      | None => profileUser id chains'
      end
  end.

(** [DeleteInboundProfile]. *)
Definition DeleteInboundProfile (id : string) : Op unit := fun w =>
  modifyStore (readAny w)
    (fun sf =>
       if negb (has_key id (sf_InboundProfiles sf)) then Err (EProfileNotFound id)
       else match profileUser id (sf_Chains sf) with
            | Some (chain, node) => Err (EProfileInUse id chain node)
            | None =>
                Ok (tt, sf <| sf_InboundProfiles := remove_key id (sf_InboundProfiles sf) |>)
            end) w.

(** [ProfileNodes]: where a profile is deployed. *)
Definition ProfileNodes (profileID : string) (w : World) : list string :=
  match readStore w with
  | inl _ => []
  | inr sf =>
      map NodeInfo_ID
        (List.filter
           (fun ni => existsb (fun ib => NodeInbound_ProfileID ib == profileID)
                        (NodeInfo_Inbounds ni)) (sf_NodeInfos sf))
  end.

(** [ProfileInboundOn]: the scan goes on past a node info without the profile. *)
Fixpoint profileInboundIn (nodeID profileID : string) (infos : list NodeInfo)
    : option NodeInbound :=
  match infos with
  | [] => None
  | ni :: infos' =>
      if NodeInfo_ID ni != nodeID then profileInboundIn nodeID profileID infos'
      else match List.find (fun ib => NodeInbound_ProfileID ib == profileID)
                   (NodeInfo_Inbounds ni) with
           | Some ib => Some ib
           | None => profileInboundIn nodeID profileID infos'
           end
  end.

Definition ProfileInboundOn (nodeID profileID : string) (w : World) : option NodeInbound :=
  match readStore w with
  | inl _ => None
  | inr sf => profileInboundIn nodeID profileID (sf_NodeInfos sf)
  end.

(** ** Users *)

(** The MTProxy clash test of [SaveUser]: another user with the same secret on
    a common node; the first such node, scanned in the order of the loops. *)
Fixpoint mtproxyClash (u : User) (users : list User) : option string :=
  match users with
  | [] => None
  | ex :: users' =>
      if User_ID ex == User_ID u then mtproxyClash u users'
      else if User_MTProxySecret ex != User_MTProxySecret u then mtproxyClash u users'
      else
        match List.find (fun n => existsb (fun en => en == n) (User_MTProxyNodes ex))
                (User_MTProxyNodes u) with
        | Some n => Some n
        | None => mtproxyClash u users'
        end
  end.

(** [SaveUser]. *)
Definition SaveUser (now : Time) (u : User) : Op User := fun w =>
  modifyStore (readOrNew w)
    (fun sf =>
       let u := if IsZero (User_CreatedAt u) then u <| User_CreatedAt := now |> else u in
       let sf := sf <| sf_Users := upsert u (sf_Users sf) |> in
       if (User_MTProxySecret u != "") && negb (Nat.eqb (length (User_MTProxyNodes u)) 0) then
         match mtproxyClash u (sf_Users sf) with
         | Some n => Err (EMtproxySecretUsed n)
         | None => Ok (u, sf)
         end
       else Ok (u, sf)) w.

(** [GetUser]. *)
Definition GetUser (id : string) (w : World) : Result User :=
  let! sf := readOrErr (EUserNotFound id) w in
  match find_key id (sf_Users sf) with
  | Some u => Ok u
  | None => Err (EUserNotFound id)
  end.

(** [GetUserBySubscriptionToken]: an empty token never matches. *)
Definition GetUserBySubscriptionToken (token : string) (w : World) : Result User :=
  if token == "" then Err (EUserNotFound token)
  else
    let! sf := readAny w in
    match List.find (fun u => User_SubscriptionToken u == token) (sf_Users sf) with
    | Some u => Ok u
    | None => Err (EUserNotFound token)
    end.

(** [ListUsers]. *)
Definition ListUsers (w : World) : Result (list User) := listStore sf_Users w.

(** [ListMTProxyUsers] and [ListMTProxyUsersForNode] drop the read error. *)
Definition ListMTProxyUsers (w : World) : list User :=
  match ListUsers w with
  | Ok all => List.filter (fun u => User_MTProxySecret u != "") all
  | Err _ => []
  end.

Definition ListMTProxyUsersForNode (nodeID : string) (w : World) : list User :=
  match ListUsers w with
  | Ok all => List.filter (fun u => existsb (fun n => n == nodeID) (User_MTProxyNodes u)) all
  | Err _ => []
  end.

(** [DeleteUser]. *)
Definition DeleteUser (id : string) : Op unit := fun w =>
  modifyStore (readAny w)
    (fun sf =>
       if negb (has_key id (sf_Users sf)) then Err (EUserNotFound id)
       else Ok (tt, sf <| sf_Users := remove_key id (sf_Users sf) |>)) w.

(** ** Settings *)

(** [GetSettings]. *)
Definition defaultSettings : PanelSettings :=
  zeroPanelSettings <| PanelSettings_MetricsInterval := 15 |>.

Definition GetSettings (w : World) : Result PanelSettings :=
  match readStore w with
  | inl NotExist => Ok defaultSettings
  | inl e => Err (ERead e)
  | inr sf =>
      match sf_Settings sf with
      | None => Ok defaultSettings
      | Some s =>
          Ok (if PanelSettings_MetricsInterval s <=? 0
              then s <| PanelSettings_MetricsInterval := 15 |> else s)
      end
  end.

(** [SaveSettings]. *)
Definition SaveSettings (s : PanelSettings) : Op unit := fun w =>
  modifyStore (readOrNew w) (fun sf => Ok (tt, sf <| sf_Settings := Some s |>)) w.

(** ** Node infos and metrics *)

(** [SaveNodeInfo]. *)
Definition SaveNodeInfo (ni : NodeInfo) : Op unit := fun w =>
  modifyStore (readOrNew w)
    (fun sf => Ok (tt, sf <| sf_NodeInfos := upsert ni (sf_NodeInfos sf) |>)) w.

(** [GetNodeInfo]. *)
Definition GetNodeInfo (id : string) (w : World) : Result NodeInfo :=
  let! sf := readAny w in
  match find_key id (sf_NodeInfos sf) with
  | Some n => Ok n
  | None => Err (ENodeInfoNotFound id)
  end.

(** [ListNodeInfos]: only the nodes whose host still exists. *)
Definition liveInfos (sf : storeFile) : list NodeInfo :=
  List.filter (fun ni => has_key (NodeInfo_ID ni) (sf_Hosts sf)) (sf_NodeInfos sf).

Definition ListNodeInfos (w : World) : Result (list NodeInfo) := listStore liveInfos w.

(** [DeleteNodeInfo]: idempotent; nothing is written when nothing changed. *)
Definition DeleteNodeInfo (id : string) : Op unit := fun w =>
  match readStore w with
  | inl NotExist => (Ok tt, w)
  | inl e => (Err (ERead e), w)
  | inr sf =>
      let changed := has_key id (sf_NodeInfos sf) || has_key id (sf_Metrics sf) in
      let sf := sf <| sf_NodeInfos := remove_key id (sf_NodeInfos sf) |>
                   <| sf_Metrics := remove_key id (sf_Metrics sf) |> in
      if negb changed then (Ok tt, w) else writeStore sf w
  end.

(** [SaveMetrics]. *)
Definition SaveMetrics (now : Time) (m : NodeMetrics) : Op NodeMetrics := fun w =>
  modifyStore (readOrNew w)
    (fun sf =>
       let m := m <| NodeMetrics_LastChecked := now |> in
       Ok (m, sf <| sf_Metrics := upsert m (sf_Metrics sf) |>)) w.

(** [GetMetrics]. *)
Definition GetMetrics (hostID : string) (w : World) : Result NodeMetrics :=
  let! sf := readAny w in
  match find_key hostID (sf_Metrics sf) with
  | Some m => Ok m
  | None => Err (EMetricsNotFound hostID)
  end.

(** [ListMetrics]. *)
Definition ListMetrics (w : World) : Result (list NodeMetrics) := listStore sf_Metrics w.

(** ** Node resolution *)

(** [ResolveNodes]: the live host fields over the stored chain node. *)
Definition resolveNode (host : Host) (info : option NodeInfo) (n : ChainNode) : ChainNode :=
  let rn := n <| ChainNode_ID := Host_ID host |>
              <| ChainNode_Addr := Host_Addr host |>
              <| ChainNode_User := Host_User host |>
              <| ChainNode_KeyPath := Host_KeyPath host |> in
  match info with
  | Some i => rn <| ChainNode_Inbounds := NodeInfo_Inbounds i |>
  | None => rn
  end.

Fixpoint resolveNodesFrom (ns : list ChainNode) (w : World) : Result (list ChainNode) :=
  match ns with
  | [] => Ok []
  | n :: ns' =>
      match GetHost (ChainNode_ID n) w with
      | Err e => Err (EResolveNode (ChainNode_ID n) e)
      | Ok host =>
          let info := match GetNodeInfo (ChainNode_ID n) w with
                      | Ok i => Some i | Err _ => None end in
          let! rest := resolveNodesFrom ns' w in
          Ok (resolveNode host info n :: rest)
      end
  end.

Definition ResolveNodes (c : Chain) (w : World) : Result (list ChainNode) :=
  resolveNodesFrom (AllNodes c) w.

(** ** Known hosts (trust on first use) *)

(** The addresses [GetKnownHost] tries, in order. *)
Definition knownHostCandidates (addr : string) : list string :=
  addr :: match SplitHostPort addr with
          | Some (host, _) => [host]
          | None => [JoinHostPort addr "22"]
          end.

Fixpoint firstKnownHost (cands : list string) (khs : list KnownHost) : option KnownHost :=
  match cands with
  | [] => None
  | c :: cands' =>
      match find_key c khs with
      | Some kh => Some kh
      | None => firstKnownHost cands' khs
      end
  end.

(** [GetKnownHost]. *)
Definition GetKnownHost (addr : string) (w : World) : Result KnownHost :=
  let! sf := readOrErr EKnownHostNotFound w in
  match firstKnownHost (knownHostCandidates addr) (sf_KnownHosts sf) with
  | Some kh => Ok kh
  | None => Err EKnownHostNotFound
  end.

(** [SaveKnownHost]: the address is normalised to carry a port. *)
Definition normalizeAddr (addr : string) : string :=
  match SplitHostPort addr with Some _ => addr | None => JoinHostPort addr "22" end.

Definition SaveKnownHost (kh : KnownHost) : Op KnownHost := fun w =>
  modifyStore (readOrNew w)
    (fun sf =>
       let kh := kh <| KnownHost_Addr := normalizeAddr (KnownHost_Addr kh) |> in
       Ok (kh, sf <| sf_KnownHosts := upsert kh (sf_KnownHosts sf) |>)) w.

(** [HostKeyError] of internal/ssh. *)
Record HostKeyError := mkHostKeyError { RemoteFingerprint : string; Changed : bool }.

(** [CheckHostKey]; the fingerprint of the remote key is computed by the SSH
    library.  [None] accepts the key.  A failing save is only logged. *)
Definition CheckHostKey (now : Time) (addr fingerprint : string) (w : World)
    : option HostKeyError * World :=
  match GetKnownHost addr w with
  | Err _ =>
      let newKH := mkKnownHost addr fingerprint now false in
      (Some (mkHostKeyError fingerprint false), snd (SaveKnownHost newKH w))
  | Ok kh =>
      if KnownHost_Fingerprint kh != fingerprint then (Some (mkHostKeyError fingerprint true), w)
      else if negb (KnownHost_Trusted kh) then (Some (mkHostKeyError fingerprint false), w)
      else (None, w)
  end.

(** ** Route rules *)

(** [SaveRouteRule]. *)
Definition SaveRouteRule (freshID : string) (now : Time) (r : RouteRule) : Op RouteRule :=
  fun w =>
  modifyStore (readOrNew w)
    (fun sf =>
       let r := if RouteRule_ID r == "" then r <| RouteRule_ID := freshID |> else r in
       let r := if IsZero (RouteRule_CreatedAt r)
                then r <| RouteRule_CreatedAt := now |> else r in
       Ok (r, sf <| sf_RouteRules := upsert r (sf_RouteRules sf) |>)) w.

(** The inner loop of the sort: [out[j]] sinks while its priority is lower. *)
Fixpoint sinkRule (j : nat) (out : list RouteRule) : list RouteRule :=
  match j with
  | O => out
  | S j' =>
      match out !! j, out !! j' with
      | Some a, Some b =>
          if RouteRule_Priority a <? RouteRule_Priority b
          then sinkRule j' (<[j := b]> (<[j' := a]> out))
          else out
      | _, _ => out
      end
  end.

Definition sortRules (out : list RouteRule) : list RouteRule :=
  fold_left (fun o i => sinkRule i o) (seq 1 (length out - 1)) out.

(** [ListRouteRulesForNode]. *)
Definition ListRouteRulesForNode (nodeID : string) (w : World) : Result (list RouteRule) :=
  match readStore w with
  | inl NotExist => Ok []
  | inl e => Err (ERead e)
  | inr sf => Ok (sortRules (List.filter (fun r => RouteRule_NodeID r == nodeID) (sf_RouteRules sf)))
  end.

(** [DeleteRouteRule]. *)
Definition DeleteRouteRule (id : string) : Op unit := fun w =>
  modifyStore (readAny w)
    (fun sf =>
       if has_key id (sf_RouteRules sf)
       then Ok (tt, sf <| sf_RouteRules := remove_first id (sf_RouteRules sf) |>)
       else Err (ERouteRuleNotFound id)) w.

(** ** Links (the edges of the topology editor) *)

Definition sameEdge (a b : ConnectionLink) : bool :=
  (ConnectionLink_FromNodeID a == ConnectionLink_FromNodeID b) &&
  (ConnectionLink_ToNodeID a == ConnectionLink_ToNodeID b) &&
  (ConnectionLink_ChainName a == ConnectionLink_ChainName b).

(** [SaveLink]: a second link with the same edge is rejected. *)
Definition SaveLink (freshID : string) (l : ConnectionLink) : Op ConnectionLink := fun w =>
  modifyStore (readOrNew w)
    (fun sf =>
       let l := if ConnectionLink_ID l == "" then l <| ConnectionLink_ID := freshID |> else l in
       if existsb (fun ex => sameEdge ex l && (ConnectionLink_ID ex != ConnectionLink_ID l))
            (sf_Links sf)
       then Err (ELinkExists (ConnectionLink_FromNodeID l) (ConnectionLink_ToNodeID l)
                   (ConnectionLink_ChainName l))
       else Ok (l, sf <| sf_Links := upsert l (sf_Links sf) |>)) w.

(** [ListLinks], [ListLinksForChain], [GetLink], [DeleteLink]. *)
Definition ListLinks (w : World) : Result (list ConnectionLink) := listStore sf_Links w.

Definition ListLinksForChain (chainName : string) (w : World) : Result (list ConnectionLink) :=
  let! all := ListLinks w in
  Ok (List.filter (fun l => ConnectionLink_ChainName l == chainName) all).

Definition GetLink (id : string) (w : World) : Result ConnectionLink :=
  let! sf := readAny w in
  match find_key id (sf_Links sf) with
  | Some l => Ok l
  | None => Err (ELinkNotFound id)
  end.

Definition DeleteLink (id : string) : Op unit := fun w =>
  modifyStore (readAny w)
    (fun sf =>
       if has_key id (sf_Links sf)
       then Ok (tt, sf <| sf_Links := remove_first id (sf_Links sf) |>)
       else Err (ELinkNotFound id)) w.

(** ** Node positions and utilities *)

(** [info, err := GetNodeInfo(id); if err != nil { info = &NodeInfo{} }; info.ID = id]. *)
Definition infoOrNew (nodeID : string) (w : World) : NodeInfo :=
  let info := match GetNodeInfo nodeID w with Ok i => i | Err _ => zeroNodeInfo end in
  info <| NodeInfo_Host := (NodeInfo_Host info) <| Host_ID := nodeID |> |>.

(** [SaveNodePosition]. *)
Definition SaveNodePosition (nodeID : string) (x y : float64) : Op unit := fun w =>
  SaveNodeInfo ((infoOrNew nodeID w) <| NodeInfo_PosX := x |> <| NodeInfo_PosY := y |>) w.

(** [GetUtilityState]: a read error counts as "never touched". *)
Definition GetUtilityState (nodeID name : string) (w : World) : option UtilityState :=
  match GetNodeInfo nodeID w with
  | Err _ => None
  | Ok info => FindUtility (NodeInfo_Utilities info) name
  end.

(** [SetUtilityState]. *)
#[export] Instance keyed_UtilityState : Keyed UtilityState := UtilityState_Name.

Definition SetUtilityState (nodeID : string) (u : UtilityState) : Op unit := fun w =>
  if UtilityState_Name u == "" then (Err EUtilityNoName, w)
  else
    let info := infoOrNew nodeID w in
    SaveNodeInfo (info <| NodeInfo_Utilities := upsert u (NodeInfo_Utilities info) |>) w.

(** [UtilityIsStale]: tolerates the one revision its own save adds. *)
Definition UtilityIsStale (nodeID name : string) (w : World) : bool :=
  match GetUtilityState nodeID name w with
  | None => false
  | Some u =>
      if negb (UtilityState_Installed u) || (UtilityState_Revision u =? 0) then false
      else wrap64 (UtilityState_Revision u + 1) <? GetRevision w
  end.
