(* ===== verification/StoreSpec.v ===== *)
(** * StoreSpec: what the store promises

    The saving operations as one type [StoreOp] with its interpreter [run], the
    well-formedness invariant [WF] of the store file and its preservation over
    every reachable disk. *)

From S2P Require Import Prelude GoStrings Model ChainModel Lifecycle StoreCore Store.

(** ** The operations as data *)

Inductive StoreOp :=
  | OSaveHost (h : Host)
  | ODeleteHost (id : string)
  | OSaveChain (c : Chain)
  | ODeleteChain (name : string)
  | OSaveInboundProfile (now : Time) (p : InboundProfile)
  | ODeleteInboundProfile (id : string)
  | OSaveUser (now : Time) (u : User)
  | ODeleteUser (id : string)
  | OSaveSettings (s : PanelSettings)
  | OSaveNodeInfo (ni : NodeInfo)
  | ODeleteNodeInfo (id : string)
  | OSaveMetrics (now : Time) (m : NodeMetrics)
  | OSaveKnownHost (kh : KnownHost)
  | OCheckHostKey (now : Time) (addr fingerprint : string)
  | OSaveRouteRule (freshID : string) (now : Time) (r : RouteRule)
  | ODeleteRouteRule (id : string)
  | OSaveLink (freshID : string) (l : ConnectionLink)
  | ODeleteLink (id : string)
  | OSaveNodePosition (id : string) (x y : float64)
  | OSetUtilityState (id : string) (u : UtilityState).

Definition outcome {A} (r : Result A * World) : option StoreErr * World :=
  (match r.1 with Ok _ => None | Err e => Some e end, r.2).

(** Run an operation: its error, if any, and the disk after it. *)
Definition run (op : StoreOp) (w : World) : option StoreErr * World :=
  match op with
  | OSaveHost h => outcome (SaveHost h w)
  | ODeleteHost id => outcome (DeleteHost id w)
  | OSaveChain c => outcome (SaveChain c w)
  | ODeleteChain name => outcome (DeleteChain name w)
  | OSaveInboundProfile now p => outcome (SaveInboundProfile now p w)
  | ODeleteInboundProfile id => outcome (DeleteInboundProfile id w)
  | OSaveUser now u => outcome (SaveUser now u w)
  | ODeleteUser id => outcome (DeleteUser id w)
  | OSaveSettings s => outcome (SaveSettings s w)
  | OSaveNodeInfo ni => outcome (SaveNodeInfo ni w)
  | ODeleteNodeInfo id => outcome (DeleteNodeInfo id w)
  | OSaveMetrics now m => outcome (SaveMetrics now m w)
  | OSaveKnownHost kh => outcome (SaveKnownHost kh w)
  | OCheckHostKey now addr fp => (None, snd (CheckHostKey now addr fp w))
  | OSaveRouteRule f now r => outcome (SaveRouteRule f now r w)
  | ODeleteRouteRule id => outcome (DeleteRouteRule id w)
  | OSaveLink f l => outcome (SaveLink f l w)
  | ODeleteLink id => outcome (DeleteLink id w)
  | OSaveNodePosition id x y => outcome (SaveNodePosition id x y w)
  | OSetUtilityState id u => outcome (SetUtilityState id u w)
  end.

(** ** Well-formed store files *)

Definition sharesNode (u v : User) : Prop :=
  exists n, n ∈ User_MTProxyNodes u /\ n ∈ User_MTProxyNodes v.

(** Two distinct users never share an MTProxy secret on a common node. *)
Definition mtproxyUnique (users : list User) : Prop :=
  forall u v, u ∈ users -> v ∈ users -> User_ID u <> User_ID v ->
    User_MTProxySecret u = User_MTProxySecret v -> User_MTProxySecret u <> "" ->
    ~ sharesNode u v.

Definition linksUnique (links : list ConnectionLink) : Prop :=
  forall a b, a ∈ links -> b ∈ links -> sameEdge a b = true ->
    ConnectionLink_ID a = ConnectionLink_ID b.

(** The flat list of a stored levelized chain is the flattening of its levels. *)
Definition chainSynced (c : Chain) : Prop := Chain_Nodes c = AllNodes c.

Record WF (sf : storeFile) : Prop := mkWF {
  wf_version : sf_SchemaVersion sf = currentSchemaVersion;
  wf_hosts : NoDup (keys (sf_Hosts sf));
  wf_chains : NoDup (keys (sf_Chains sf));
  wf_users : NoDup (keys (sf_Users sf));
  wf_infos : NoDup (keys (sf_NodeInfos sf));
  wf_metrics : NoDup (keys (sf_Metrics sf));
  wf_known : NoDup (keys (sf_KnownHosts sf));
  wf_rules : NoDup (keys (sf_RouteRules sf));
  wf_links : NoDup (keys (sf_Links sf));
  wf_profiles : NoDup (keys (sf_InboundProfiles sf));
  wf_mtproxy : mtproxyUnique (sf_Users sf);
  wf_edges : linksUnique (sf_Links sf);
  wf_synced : forall c, c ∈ sf_Chains sf -> chainSynced c;
  wf_addrs : forall kh, kh ∈ sf_KnownHosts sf ->
    exists a, KnownHost_Addr kh = normalizeAddr a }.

(** The store content of a file, whatever the key. *)
Fixpoint contentOf (d : FileData) : option storeFile :=
  match d with Plain sf | Encrypted _ sf => Some sf | Garbage _ => None | Unreadable d => contentOf d end.

(** Disks reachable from an absent store by operations, with the environment
    free to change the key file, to inject write faults and to make the store file
    unreadable and readable again between them. *)
Inductive reachable : World -> Prop :=
  | reach_init w : w_store w = None -> reachable w
  | reach_op op w : reachable w -> reachable (snd (run op w))
  | reach_env k f w : reachable w -> reachable (w <| w_key := k |> <| w_fault := f |>)
  | reach_lock d w : reachable w -> w_store w = Some d -> reachable (w <| w_store := Some (Unreadable d) |>)
  | reach_unlock d w : reachable w -> w_store w = Some (Unreadable d) -> reachable (w <| w_store := Some d |>).

(** ** Lemmas: what an operation does to the store file *)

(** One read-modify-write step of the file, as a relation. *)
Inductive fileStep : storeFile -> storeFile -> Prop :=
  | fs_hosts h sf : fileStep sf (sf <| sf_Hosts := upsert h (sf_Hosts sf) |>)
  | fs_delete_host id sf :
      fileStep sf (sf <| sf_Hosts := remove_key id (sf_Hosts sf) |>
                      <| sf_NodeInfos := remove_key id (sf_NodeInfos sf) |>
                      <| sf_Metrics := remove_key id (sf_Metrics sf) |>)
  | fs_chain c sf : chainSynced c ->
      fileStep sf (sf <| sf_Chains := upsert c (sf_Chains sf) |>)
  | fs_delete_chain n sf : fileStep sf (sf <| sf_Chains := remove_key n (sf_Chains sf) |>)
  | fs_profile p sf :
      fileStep sf (sf <| sf_InboundProfiles := upsert p (sf_InboundProfiles sf) |>)
  | fs_delete_profile id sf :
      fileStep sf (sf <| sf_InboundProfiles := remove_key id (sf_InboundProfiles sf) |>)
  | fs_user u sf :
      (User_MTProxySecret u <> "" -> User_MTProxyNodes u <> [] ->
       mtproxyClash u (upsert u (sf_Users sf)) = None) ->
      fileStep sf (sf <| sf_Users := upsert u (sf_Users sf) |>)
  | fs_delete_user id sf : fileStep sf (sf <| sf_Users := remove_key id (sf_Users sf) |>)
  | fs_settings s sf : fileStep sf (sf <| sf_Settings := Some s |>)
  | fs_info ni sf : fileStep sf (sf <| sf_NodeInfos := upsert ni (sf_NodeInfos sf) |>)
  | fs_delete_info id sf :
      fileStep sf (sf <| sf_NodeInfos := remove_key id (sf_NodeInfos sf) |>
                      <| sf_Metrics := remove_key id (sf_Metrics sf) |>)
  | fs_metrics m sf : fileStep sf (sf <| sf_Metrics := upsert m (sf_Metrics sf) |>)
  | fs_known kh a sf : KnownHost_Addr kh = normalizeAddr a ->
      fileStep sf (sf <| sf_KnownHosts := upsert kh (sf_KnownHosts sf) |>)
  | fs_rule r sf : fileStep sf (sf <| sf_RouteRules := upsert r (sf_RouteRules sf) |>)
  | fs_delete_rule id sf :
      fileStep sf (sf <| sf_RouteRules := remove_first id (sf_RouteRules sf) |>)
  | fs_link l sf :
      existsb (fun ex => sameEdge ex l && (ConnectionLink_ID ex != ConnectionLink_ID l))
        (sf_Links sf) = false ->
      fileStep sf (sf <| sf_Links := upsert l (sf_Links sf) |>)
  | fs_delete_link id sf : fileStep sf (sf <| sf_Links := remove_first id (sf_Links sf) |>).

(** The content an operation starts from: the stored file or a new one. *)
Definition base (w : World) : option storeFile :=
  match readStore w with
  | inr sf => Some sf
  | inl NotExist => Some newStoreFile
  | inl _ => None
  end.

(** An operation either leaves the disk alone or replaces the store file by
    one file step of its content, sealed under the present key. *)
Definition stepsTo (w w' : World) : Prop :=
  w' = w \/
  exists sf sf' d, base w = Some sf /\ fileStep sf sf' /\
    sealAs (w_key w) (bump sf') = Some d /\ w' = w <| w_store := Some d |>.

Lemma modify_steps {A} opened (f : storeFile -> Result (A * storeFile)) w :
  (forall sf, opened = Ok sf -> base w = Some sf) ->
  (forall sf a sf', f sf = Ok (a, sf') -> fileStep sf sf') ->
  stepsTo w (snd (modifyStore opened f w)).
Proof.
  intros Ho Hf. destruct (modifyStore_cases opened f w) as
    [[e He]|(sf & a & sf' & d & H1 & H2 & H3 & H4)].
  - left. by rewrite He.
  - right. exists sf, sf', d. rewrite H4. split_and!; eauto.
Qed.

Lemma base_readOrNew w sf : readOrNew w = Ok sf -> base w = Some sf.
Proof. unfold readOrNew, base. destruct (readStore w) as [[]|]; congruence. Qed.

Lemma base_readOrErr e w sf : readOrErr e w = Ok sf -> base w = Some sf.
Proof. unfold readOrErr, base. destruct (readStore w) as [[]|]; congruence. Qed.

Lemma base_readAny w sf : readAny w = Ok sf -> base w = Some sf.
Proof. unfold readAny, base. destruct (readStore w) as [[]|]; congruence. Qed.

Create HintDb steps.
#[export] Hint Resolve base_readOrNew base_readOrErr base_readAny : steps.
#[export] Hint Constructors fileStep : steps.

(** The common proof: an operation that is one [modifyStore]. *)
Ltac modify_op :=
  apply modify_steps; [by eauto with steps|];
  intros sf a sf' Hf; repeat (case_step_in Hf; try discriminate Hf);
  injection Hf as <- <-; eauto with steps.

Lemma SaveNodeInfo_steps ni w : stepsTo w (snd (SaveNodeInfo ni w)).
Proof. unfold SaveNodeInfo. modify_op. Qed.

Lemma SaveKnownHost_steps kh w : stepsTo w (snd (SaveKnownHost kh w)).
Proof. unfold SaveKnownHost. modify_op. Qed.

Lemma SaveChain_steps c w : stepsTo w (snd (SaveChain c w)).
Proof.
  unfold SaveChain. apply modify_steps; [by eauto with steps|].
  intros sf a sf' Hf. injection Hf as <- <-. apply fs_chain. unfold chainSynced.
  destruct (IsLevelized c) eqn:E.
  - unfold AllNodes at 2. unfold IsLevelized in *. simpl. rewrite E. simpl.
    rewrite AllNodes_levelized; done.
  - by rewrite AllNodes_legacy.
Qed.

Lemma SaveUser_steps now u w : stepsTo w (snd (SaveUser now u w)).
Proof.
  unfold SaveUser. apply modify_steps; [by eauto with steps|].
  intros sf a sf' Hf. simpl in Hf.
  set (u' := if IsZero (User_CreatedAt u) then _ else u) in *.
  destruct ((User_MTProxySecret u' != "") && negb (length (User_MTProxyNodes u') =? 0)%nat) eqn:E.
  - destruct (mtproxyClash u' _) eqn:Ec; [discriminate|]. injection Hf as <- <-.
    apply fs_user. done.
  - injection Hf as <- <-. apply fs_user. intros H1 H2. exfalso.
    apply andb_false_iff in E as [E|E].
    + by apply negb_false_iff, bool_decide_eq_true in E.
    + apply negb_false_iff, Nat.eqb_eq, nil_length_inv in E. done.
Qed.

Lemma DeleteNodeInfo_steps id w : stepsTo w (snd (DeleteNodeInfo id w)).
Proof.
  unfold DeleteNodeInfo. destruct (readStore w) as [e|sf] eqn:Er.
  - left. by destruct e.
  - destruct (negb _); [by left|].
    destruct (writeStore_cases (sf <| sf_NodeInfos := remove_key id (sf_NodeInfos sf) |>
      <| sf_Metrics := remove_key id (sf_Metrics sf) |>) w) as [[e He]|(d & Hd & Hf & Hw)].
    + left. by rewrite He.
    + right. exists sf. eexists _, d. rewrite Hw. unfold base. rewrite Er.
      split_and!; [done|apply fs_delete_info|done|done].
Qed.

Lemma run_steps op w : stepsTo w (snd (run op w)).
Proof.
  destruct op; unfold run, outcome; simpl snd;
    try first [apply SaveNodeInfo_steps | apply SaveKnownHost_steps | apply SaveChain_steps
          | apply SaveUser_steps | apply DeleteNodeInfo_steps].
  - unfold SaveHost. modify_op.
  - unfold DeleteHost. modify_op.
  - unfold DeleteChain. modify_op.
  - unfold SaveInboundProfile. modify_op.
  - unfold DeleteInboundProfile. modify_op.
  - unfold DeleteUser. modify_op.
  - unfold SaveSettings. modify_op.
  - unfold SaveMetrics. modify_op.
  - unfold CheckHostKey. destruct (GetKnownHost addr w).
    + destruct (_ != _); [by left|]. destruct (negb _); by left.
    + apply SaveKnownHost_steps.
  - unfold SaveRouteRule. modify_op.
  - unfold DeleteRouteRule. modify_op.
  - unfold SaveLink. modify_op.
  - unfold DeleteLink. modify_op.
  - unfold SetUtilityState. case_bool_decide; [by left|apply SaveNodeInfo_steps].
Qed.

(** ** Preservation of well-formedness *)

Lemma mtproxyClash_None u users v :
  mtproxyClash u users = None -> v ∈ users -> User_ID v <> User_ID u ->
  User_MTProxySecret v = User_MTProxySecret u -> ~ sharesNode u v.
Proof.
  induction users as [|x users IH]; simpl; intros Hc Hv Hid Hs.
  - by apply not_elem_of_nil in Hv.
  - apply elem_of_cons in Hv as [<-|Hv].
    + rewrite (bool_decide_eq_false_2 (User_ID v = User_ID u)) in Hc by done.
      rewrite (bool_decide_eq_true_2 (User_MTProxySecret v = User_MTProxySecret u)) in Hc by done.
      simpl in Hc. destruct (List.find _ _) as [n|] eqn:Ef; [discriminate|].
      intros (n & Hnu & Hnv). apply list_elem_of_In in Hnu.
      pose proof (List.find_none _ _ Ef n Hnu) as Hn. simpl in Hn.
      assert (existsb (fun en => en == n) (User_MTProxyNodes v) = true) as Ht; [|congruence].
      apply existsb_exists. exists n. split; [by apply list_elem_of_In|].
      by apply bool_decide_eq_true.
    + destruct (User_ID x == User_ID u); [by apply IH|].
      destruct (User_MTProxySecret x != User_MTProxySecret u); [by apply IH|].
      destruct (List.find _ _); [discriminate|by apply IH].
Qed.

Lemma sharesNode_sym u v : sharesNode u v -> sharesNode v u.
Proof. intros (n & ? & ?). by exists n. Qed.

Lemma mtproxyUnique_sub l l' :
  mtproxyUnique l -> (forall u, u ∈ l' -> u ∈ l) -> mtproxyUnique l'.
Proof. intros H Hs u v Hu Hv. apply H; auto. Qed.

Lemma mtproxyUnique_upsert u l :
  mtproxyUnique l ->
  (User_MTProxySecret u <> "" -> User_MTProxyNodes u <> [] ->
   mtproxyClash u (upsert u l) = None) ->
  mtproxyUnique (upsert u l).
Proof.
  intros Hl Hc.
  assert (forall v, v ∈ upsert u l -> User_ID v <> User_ID u ->
    User_MTProxySecret v = User_MTProxySecret u -> User_MTProxySecret u <> "" ->
    ~ sharesNode u v) as Hu.
  { intros v Hv Hid Hs Hne Hsh. assert (User_MTProxyNodes u <> []) as Hn.
    { destruct Hsh as (n & Hn & _). intros E. rewrite E in Hn. by apply not_elem_of_nil in Hn. }
    by apply (mtproxyClash_None u (upsert u l) v (Hc Hne Hn) Hv Hid Hs). }
  intros v w Hv Hw Hid Hs Hne.
  destruct (elem_of_upsert _ _ _ Hv) as [->|Hv']; [apply Hu; congruence|].
  destruct (elem_of_upsert _ _ _ Hw) as [->|Hw'].
  - intros Hsh%sharesNode_sym. revert Hsh. apply Hu; congruence.
  - by apply Hl.
Qed.

Lemma sameEdge_sym a b : sameEdge a b = sameEdge b a.
Proof. unfold sameEdge. repeat (case_bool_decide; simpl); congruence. Qed.

Lemma linksUnique_sub l l' :
  linksUnique l -> (forall u, u ∈ l' -> u ∈ l) -> linksUnique l'.
Proof. intros H Hs u v Hu Hv. apply H; auto. Qed.

Lemma linksUnique_upsert l ls :
  linksUnique ls ->
  existsb (fun ex => sameEdge ex l && (ConnectionLink_ID ex != ConnectionLink_ID l)) ls = false ->
  linksUnique (upsert l ls).
Proof.
  intros Hls Hx.
  assert (forall a, a ∈ ls -> sameEdge a l = true -> ConnectionLink_ID a = ConnectionLink_ID l) as Hl.
  { intros a Ha He. destruct (decide (ConnectionLink_ID a = ConnectionLink_ID l)) as [|Hne]; [done|].
    exfalso. enough (existsb (fun ex => sameEdge ex l && (ConnectionLink_ID ex != ConnectionLink_ID l)) ls = true) by congruence.
    apply existsb_exists. exists a. split; [by apply list_elem_of_In|].
    rewrite He. simpl. by rewrite bool_decide_eq_false_2. }
  intros a b Ha Hb He.
  destruct (elem_of_upsert _ _ _ Ha) as [->|Ha'], (elem_of_upsert _ _ _ Hb) as [->|Hb']; auto.
  symmetry. apply Hl; [done|]. by rewrite sameEdge_sym.
Qed.

Lemma keys_remove_first_NoDup `{Keyed A} k (l : list A) :
  NoDup (keys l) -> NoDup (keys (remove_first k l)).
Proof. intros Hl. rewrite remove_first_key by done. by apply NoDup_keys_remove_key. Qed.

Lemma WF_new : WF newStoreFile.
Proof.
  constructor; try apply NoDup_nil_2; unfold mtproxyUnique, linksUnique; simpl; set_solver.
Qed.

Lemma bump_WF sf : WF sf -> WF (bump sf).
Proof. intros []. constructor; done. Qed.

#[export] Hint Resolve keys_remove_first_NoDup mtproxyUnique_upsert linksUnique_upsert : keyed.

Lemma fileStep_WF sf sf' : fileStep sf sf' -> WF sf -> WF sf'.
Proof.
  intros Hs []. destruct Hs; constructor; simpl; auto with keyed.
  - intros c' Hc. apply elem_of_upsert in Hc as [->|Hc]; auto.
  - intros c' [Hc _]%elem_of_remove_key. auto.
  - eapply mtproxyUnique_sub; [done|]. by intros ? [? _]%elem_of_remove_key.
  - intros k Hk. apply elem_of_upsert in Hk as [->|Hk]; eauto.
  - eapply linksUnique_sub; [done|]. intros ? ?%elem_of_remove_first. done.
Qed.

Lemma sealAs_content kf sf d : sealAs kf sf = Some d -> contentOf d = Some sf.
Proof.
  unfold sealAs. destruct (loadMasterKey kf) as [?|[key|]]; intros [= <-]; done.
Qed.

Lemma readStore_content w sf :
  readStore w = inr sf -> exists d, w_store w = Some d /\ contentOf d = Some sf.
Proof.
  unfold readStore. destruct (w_store w) as [d|]; [|done].
  destruct d as [sf0|k sf0|[]|d]; simpl; [| | | |done].
  - intros [= <-]. by eexists.
  - destruct (loadMasterKey (w_key w)) as [?|[key|]]; try done.
    case_bool_decide; [|done]. intros [= <-]. by eexists.
  - destruct (loadMasterKey (w_key w)) as [?|[key|]]; done.
  - done.
Qed.

Lemma base_WF w sf :
  (forall d sf, w_store w = Some d -> contentOf d = Some sf -> WF sf) ->
  base w = Some sf -> WF sf.
Proof.
  intros Hw. unfold base. destruct (readStore w) as [[]|sf0] eqn:E; intros [= <-].
  - apply WF_new.
  - destruct (readStore_content w _ E) as (d & Hd & Hc). eauto.
Qed.

(** C1: the store's invariant.  On every disk reachable from an absent store by
    the saving operations of the store, in any order and with any outcome, with
    the master key replaced, removed, corrupted or unreadable, the store file
    unreadable for a while and write faults injected between them, the content of the store file is well formed: identifiers
    are unique in every collection, no two users share an MTProxy secret on a
    node, no two links share an edge, the flat node list of every stored chain
    is the flattening of its levels, and every pinned address carries a port. *)
Theorem reachable_WF w d sf :
  reachable w -> w_store w = Some d -> contentOf d = Some sf -> WF sf.
Proof.
  intros Hr. revert d sf. induction Hr as [w Hw|op w Hr IH|k f w Hr IH|d0 w Hr IH Hd0|d0 w Hr IH Hd0]; intros d sf Hd Hc.
  - congruence.
  - destruct (run_steps op w) as [E|(sf0 & sf1 & d' & Hb & Hs & Hse & E)];
      rewrite E in Hd; [eauto|].
    injection Hd as <-. rewrite (sealAs_content _ _ _ Hse) in Hc. injection Hc as <-.
    apply bump_WF. eapply fileStep_WF; [done|]. by eapply base_WF.
  - eauto.
  - injection Hd as <-. by apply (IH d0).
  - injection Hd as <-. by apply (IH (Unreadable d0)).
Qed.

Lemma reachable_WF_witness :
  let w0 := mkWorld None None None None [] None in
  let u := zeroUser <| User_ID := "u" |> in
  let w := snd (run (OSaveUser 7 u) (snd (run (OSaveHost (zeroHost <| Host_ID := "h" |>)) w0))) in
  match w_store w with
  | Some (Plain sf) => WF sf /\ length (sf_Users sf) = 1%nat /\ sf_Revision sf = 2
  | _ => False
  end.
Proof.
  split; [|split; reflexivity].
  eapply (reachable_WF (snd (run (OSaveUser 7 (zeroUser <| User_ID := "u" |>))
    (snd (run (OSaveHost (zeroHost <| Host_ID := "h" |>)) (mkWorld None None None None [] None))))));
    [|reflexivity|reflexivity].
  apply reach_op, reach_op, reach_init. reflexivity.
Defined.
