(* ===== verification/StoreRefine.v ===== *)
(** * StoreRefine: the store refines an abstract store of finite maps

    [AbsStore] is the contract of internal/chain/store.go as its callers see
    it: a finite map per collection, the settings and a revision.  [accepts]
    says which operations succeed, [effect] what they do.  The theorem
    [run_refines] proves that the file implementation, with its slices scanned
    in order, its encryption and its atomic write, does exactly that. *)

From S2P Require Import Prelude GoStrings Model ChainModel Lifecycle StoreCore Store StoreSpec.

(** ** The abstract store *)

Record AbsStore := mkAbsStore {
  a_revision : Z;
  a_hosts : gmap string Host;
  a_chains : gmap string Chain;
  a_users : gmap string User;
  a_settings : option PanelSettings;
  a_infos : gmap string NodeInfo;
  a_metrics : gmap string NodeMetrics;
  a_known : gmap string KnownHost;
  a_rules : gmap string RouteRule;
  a_links : gmap string ConnectionLink;
  a_profiles : gmap string InboundProfile }.
#[export] Instance eta_AbsStore : Eta AbsStore := fun r =>
  mkAbsStore (a_revision r) (a_hosts r) (a_chains r) (a_users r) (a_settings r)
    (a_infos r) (a_metrics r) (a_known r) (a_rules r) (a_links r) (a_profiles r).

(** The abstraction function. *)
Definition absOf (sf : storeFile) : AbsStore :=
  mkAbsStore (sf_Revision sf) (to_map (sf_Hosts sf)) (to_map (sf_Chains sf))
    (to_map (sf_Users sf)) (sf_Settings sf) (to_map (sf_NodeInfos sf))
    (to_map (sf_Metrics sf)) (to_map (sf_KnownHosts sf)) (to_map (sf_RouteRules sf))
    (to_map (sf_Links sf)) (to_map (sf_InboundProfiles sf)).

Definition put `{Keyed A} (x : A) (m : gmap string A) : gmap string A := <[key_of x := x]> m.

(** The completed forms of the saved records. *)
Definition stampUser (now : Time) (u : User) : User :=
  if IsZero (User_CreatedAt u) then u <| User_CreatedAt := now |> else u.
Definition stampProfile (now : Time) (p : InboundProfile) : InboundProfile :=
  if IsZero (InboundProfile_CreatedAt p) then p <| InboundProfile_CreatedAt := now |> else p.
Definition stampRule (freshID : string) (now : Time) (r : RouteRule) : RouteRule :=
  let r := if RouteRule_ID r == "" then r <| RouteRule_ID := freshID |> else r in
  if IsZero (RouteRule_CreatedAt r) then r <| RouteRule_CreatedAt := now |> else r.
Definition nameLink (freshID : string) (l : ConnectionLink) : ConnectionLink :=
  if ConnectionLink_ID l == "" then l <| ConnectionLink_ID := freshID |> else l.
Definition syncChain (c : Chain) : Chain :=
  if IsLevelized c then c <| Chain_Nodes := AllNodes c |> else c.
Definition absInfo (id : string) (s : AbsStore) : NodeInfo :=
  let info := default zeroNodeInfo (a_infos s !! id) in
  info <| NodeInfo_Host := (NodeInfo_Host info) <| Host_ID := id |> |>.

(** The pinned key a connection to [addr] is checked against. *)
Definition pinned (s : AbsStore) (addr : string) : option KnownHost :=
  (fix go cands := match cands with
   | [] => None
   | c :: cands' => match a_known s !! c with Some kh => Some kh | None => go cands' end
   end) (knownHostCandidates addr).

(** When an operation succeeds. *)
Definition accepts (op : StoreOp) (s : AbsStore) : Prop :=
  match op with
  | ODeleteHost id =>
      is_Some (a_hosts s !! id) /\
      forall name c n, a_chains s !! name = Some c -> n ∈ AllNodes c -> ChainNode_ID n <> id
  | ODeleteChain name => is_Some (a_chains s !! name)
  | ODeleteInboundProfile id =>
      is_Some (a_profiles s !! id) /\
      forall name c n, a_chains s !! name = Some c -> n ∈ AllNodes c ->
        ChainNode_InboundRef n <> id
  | OSaveUser now u =>
      forall id v, a_users s !! id = Some v -> id <> User_ID u ->
        User_MTProxySecret v = User_MTProxySecret u -> User_MTProxySecret u <> "" ->
        ~ sharesNode u v
  | ODeleteUser id => is_Some (a_users s !! id)
  | ODeleteRouteRule id => is_Some (a_rules s !! id)
  | OSaveLink f l =>
      forall id ex, a_links s !! id = Some ex -> sameEdge ex (nameLink f l) = true ->
        id = ConnectionLink_ID (nameLink f l)
  | ODeleteLink id => is_Some (a_links s !! id)
  | OSetUtilityState _ u => UtilityState_Name u <> ""
  | _ => True
  end.

Definition tick (s : AbsStore) : AbsStore := s <| a_revision := wrap64 (a_revision s + 1) |>.

(** What a successful operation does. *)
Definition effect (op : StoreOp) (s : AbsStore) : AbsStore :=
  match op with
  | OSaveHost h => tick (s <| a_hosts := put h (a_hosts s) |>)
  | ODeleteHost id =>
      tick (s <| a_hosts := delete id (a_hosts s) |>
              <| a_infos := delete id (a_infos s) |>
              <| a_metrics := delete id (a_metrics s) |>)
  | OSaveChain c => tick (s <| a_chains := put (syncChain c) (a_chains s) |>)
  | ODeleteChain name => tick (s <| a_chains := delete name (a_chains s) |>)
  | OSaveInboundProfile now p =>
      tick (s <| a_profiles := put (stampProfile now p) (a_profiles s) |>)
  | ODeleteInboundProfile id => tick (s <| a_profiles := delete id (a_profiles s) |>)
  | OSaveUser now u => tick (s <| a_users := put (stampUser now u) (a_users s) |>)
  | ODeleteUser id => tick (s <| a_users := delete id (a_users s) |>)
  | OSaveSettings x => tick (s <| a_settings := Some x |>)
  | OSaveNodeInfo ni => tick (s <| a_infos := put ni (a_infos s) |>)
  | ODeleteNodeInfo id =>
      match a_infos s !! id, a_metrics s !! id with
      | None, None => s
      | _, _ => tick (s <| a_infos := delete id (a_infos s) |>
                        <| a_metrics := delete id (a_metrics s) |>)
      end
  | OSaveMetrics now m =>
      tick (s <| a_metrics := put (m <| NodeMetrics_LastChecked := now |>) (a_metrics s) |>)
  | OSaveKnownHost kh =>
      tick (s <| a_known := put (kh <| KnownHost_Addr := normalizeAddr (KnownHost_Addr kh) |>)
                                (a_known s) |>)
  | OCheckHostKey now addr fp =>
      match pinned s addr with
      | Some _ => s
      | None => tick (s <| a_known := put (mkKnownHost (normalizeAddr addr) fp now false) (a_known s) |>)
      end
  | OSaveRouteRule f now r => tick (s <| a_rules := put (stampRule f now r) (a_rules s) |>)
  | ODeleteRouteRule id => tick (s <| a_rules := delete id (a_rules s) |>)
  | OSaveLink f l => tick (s <| a_links := put (nameLink f l) (a_links s) |>)
  | ODeleteLink id => tick (s <| a_links := delete id (a_links s) |>)
  | OSaveNodePosition id x y =>
      tick (s <| a_infos := put ((absInfo id s) <| NodeInfo_PosX := x |> <| NodeInfo_PosY := y |>)
                                (a_infos s) |>)
  | OSetUtilityState id u =>
      tick (s <| a_infos :=
        put ((absInfo id s) <| NodeInfo_Utilities := upsert u (NodeInfo_Utilities (absInfo id s)) |>)
            (a_infos s) |>)
  end.

(** ** Lemmas *)

Lemma elem_to_map `{Keyed A} (l : list A) x :
  NoDup (keys l) -> x ∈ l -> to_map l !! key_of x = Some x.
Proof.
  intros Hl Hx. rewrite lookup_to_map. unfold find_key.
  induction l as [|y l IH]; [by apply not_elem_of_nil in Hx|].
  apply NoDup_cons in Hl as [Hy Hl]. simpl. apply elem_of_cons in Hx as [->|Hx].
  - by rewrite bool_decide_eq_true_2.
  - rewrite bool_decide_eq_false_2; [by apply IH|].
    intros E. apply Hy. rewrite E. by apply list_elem_of_In, in_map, list_elem_of_In.
Qed.

Lemma to_map_elem `{Keyed A} (l : list A) k x :
  to_map l !! k = Some x -> x ∈ l /\ key_of x = k.
Proof. rewrite lookup_to_map. apply find_key_Some. Qed.

Lemma elem_of_upsert_other `{Keyed A} (l : list A) x y :
  y ∈ l -> key_of y <> key_of x -> y ∈ upsert x l.
Proof.
  induction l as [|z l IH]; simpl; [by intros ?%not_elem_of_nil|].
  intros [->|Hy]%elem_of_cons Hk.
  - rewrite bool_decide_eq_false_2 by done. by left.
  - case_bool_decide; [by right|]. right. by apply IH.
Qed.

Lemma has_key_lookup `{Keyed A} k (l : list A) :
  has_key k l = bool_decide (is_Some (to_map l !! k)).
Proof.
  rewrite has_key_find, lookup_to_map. destruct (find_key k l).
  - symmetry. by apply bool_decide_eq_true_2.
  - symmetry. apply bool_decide_eq_false_2. by intros [? ?].
Qed.

Lemma to_map_remove_first `{Keyed A} k (l : list A) :
  NoDup (keys l) -> to_map (remove_first k l) = delete k (to_map l).
Proof. intros Hl. rewrite remove_first_key by done. apply to_map_remove_key. Qed.

(** A modification that succeeds on the content the operation starts from. *)
Lemma modify_succeeds {A} opened (f : storeFile -> Result (A * storeFile)) w sf a sf' :
  writable w -> opened = Ok sf -> f sf = Ok (a, sf') ->
  exists w', outcome (modifyStore opened f w) = (None, w') /\
    base w' = Some (bump sf') /\ writable w'.
Proof.
  intros Hw Ho Hf. destruct (modifyStore_writable _ _ _ _ _ _ Hw Ho Hf) as [w' E].
  exists w'. unfold outcome. rewrite E. destruct (modifyStore_Ok _ _ _ _ _ E)
    as (sf0 & sf1 & E1 & E2 & E3 & E4 & E5 & _).
  rewrite Ho in E1. injection E1 as <-. rewrite Hf in E2. injection E2 as <-.
  split_and!; [done| unfold base; by rewrite E3 |].
  unfold writable in *. by rewrite E4, E5.
Qed.

Lemma modify_fails {A} opened (f : storeFile -> Result (A * storeFile)) w :
  (forall sf, opened = Ok sf -> exists e, f sf = Err e) ->
  exists e, outcome (modifyStore opened f w) = (Some e, w).
Proof.
  intros H. unfold outcome, modifyStore. destruct opened as [sf|e]; [|eauto].
  destruct (H sf eq_refl) as [e ->]. eauto.
Qed.

Lemma base_opens w sf :
  base w = Some sf ->
  readOrNew w = Ok sf /\
  ((readStore w = inr sf) \/ (readStore w = inl NotExist /\ sf = newStoreFile)).
Proof.
  unfold base, readOrNew. destruct (readStore w) as [[]|]; intros [= <-]; auto.
Qed.

(** A read-modify-write cycle on a disk that can be written. *)
Lemma modifyNew_writable {A} (f : storeFile -> Result (A * storeFile)) w sf a sf' :
  writable w -> base w = Some sf -> f sf = Ok (a, sf') ->
  exists w', modifyStore (readOrNew w) f w = (Ok a, w') /\ base w' = Some (bump sf') /\ writable w'.
Proof.
  intros Hw Hb Hf. destruct (base_opens _ _ Hb) as [Ho _].
  destruct (modifyStore_writable (readOrNew w) f w sf a sf' Hw Ho Hf) as [w' Hm]. exists w'. split; [done|].
  destruct (modifyStore_Ok _ _ _ _ _ Hm) as (s & s' & Ho' & Hf' & Hr & Hk & Hfa & _). rewrite Ho in Ho'. injection Ho' as <-.
  rewrite Hf in Hf'. injection Hf' as <-. unfold base, writable in *. by rewrite Hr, Hk, Hfa.
Qed.

Lemma firstKnownHost_pinned cands (khs : list KnownHost) :
  firstKnownHost cands khs =
  (fix go cands := match cands with
   | [] => None
   | c :: cands' => match to_map khs !! c with Some kh => Some kh | None => go cands' end
   end) cands.
Proof.
  induction cands as [|c cands IH]; [done|]. simpl. rewrite lookup_to_map.
  by destruct (find_key c khs).
Qed.

Lemma GetKnownHost_base w sf addr :
  base w = Some sf ->
  GetKnownHost addr w = match pinned (absOf sf) addr with
                        | Some kh => Ok kh | None => Err EKnownHostNotFound end.
Proof.
  intros H. destruct (base_opens _ _ H) as [_ [E|[E ->]]]; unfold GetKnownHost, readOrErr; rewrite E.
  - rewrite firstKnownHost_pinned. done.
  - unfold pinned, knownHostCandidates. simpl. by destruct (SplitHostPort addr) as [[]|].
Qed.

Lemma infoOrNew_base w sf id : base w = Some sf -> infoOrNew id w = absInfo id (absOf sf).
Proof.
  intros H. unfold infoOrNew, absInfo, GetNodeInfo, readAny. simpl.
  destruct (base_opens _ _ H) as [_ [E|[E ->]]]; rewrite E; [|done].
  rewrite lookup_to_map. by destruct (find_key id (sf_NodeInfos sf)).
Qed.

(** The guards of the operations, as the conditions of [accepts]. *)
Lemma chainHolding_spec sf id :
  WF sf ->
  chainHolding id (sf_Chains sf) = None <->
  (forall name c n, a_chains (absOf sf) !! name = Some c -> n ∈ AllNodes c -> ChainNode_ID n <> id).
Proof.
  intros Hwf. unfold chainHolding. simpl. split.
  - intros Hn name c n [Hc _]%to_map_elem Hin E. apply list_elem_of_In in Hc.
    pose proof (List.find_none _ _ Hn c Hc) as Hx. simpl in Hx.
    enough (existsb (fun m => ChainNode_ID m == id) (AllNodes c) = true) by congruence.
    apply existsb_exists. exists n. split; [by apply list_elem_of_In|by apply bool_decide_eq_true].
  - intros Hall. destruct (List.find _ _) as [c|] eqn:E; [exfalso|done].
    apply List.find_some in E as [Hc Hx]. apply existsb_exists in Hx as (n & Hn & Hid).
    apply list_elem_of_In in Hc, Hn. apply bool_decide_eq_true in Hid.
    by apply (Hall (key_of c) c n); [apply elem_to_map; [apply wf_chains|]| |].
Qed.

Lemma profileUser_None id l :
  profileUser id l = None <->
  (forall c n, c ∈ l -> n ∈ AllNodes c -> ChainNode_InboundRef n <> id).
Proof.
  induction l as [|c l IH]; simpl.
  - split; [|done]. intros _ c n Hc. by apply not_elem_of_nil in Hc.
  - destruct (List.find _ _) as [m|] eqn:E.
    + split; [done|]. intros Hall. exfalso. apply List.find_some in E as [Hm Hid].
      apply list_elem_of_In in Hm. apply bool_decide_eq_true in Hid.
      by apply (Hall c m); [left| |].
    + rewrite IH. split.
      * intros Hl c' n [->|Hc]%elem_of_cons Hn; [|by apply (Hl c' n)].
        intros Eid. apply list_elem_of_In in Hn.
        pose proof (List.find_none _ _ E n Hn) as Hx. simpl in Hx.
        by rewrite bool_decide_eq_true_2 in Hx.
      * intros Hall c' n Hc. apply Hall. by right.
Qed.

Lemma mtproxyClash_complete u users :
  (forall v, v ∈ users -> User_ID v <> User_ID u ->
     User_MTProxySecret v = User_MTProxySecret u -> ~ sharesNode u v) ->
  mtproxyClash u users = None.
Proof.
  induction users as [|x users IH]; intros Hall; [done|]. simpl.
  case_bool_decide as E1; [apply IH; intros v Hv; apply Hall; by right|].
  destruct (bool_decide (User_MTProxySecret x = User_MTProxySecret u)) eqn:E2; simpl.
  2:{ apply IH. intros v Hv. apply Hall. by right. }
  apply bool_decide_eq_true in E2.
  destruct (List.find _ _) as [n|] eqn:Ef; [exfalso|apply IH; intros v Hv; apply Hall; by right].
  apply List.find_some in Ef as [Hn Hx]. apply existsb_exists in Hx as (m & Hm & Em).
  apply bool_decide_eq_true in Em as ->. apply (Hall x); [by left|done|done|].
  exists n. split; by apply list_elem_of_In.
Qed.

(** ** The refinement *)

Definition refines (op : StoreOp) (w : World) (sf : storeFile) : Prop :=
  (accepts op (absOf sf) ->
     exists w' sf', run op w = (None, w') /\ base w' = Some sf' /\
       absOf sf' = effect op (absOf sf) /\ writable w') /\
  (~ accepts op (absOf sf) -> exists e, run op w = (Some e, w)).

(** An operation that is one [modifyStore] with the guard [accepts]. *)
Lemma refines_modify {A} op opened (f : storeFile -> Result (A * storeFile)) w sf :
  run op w = outcome (modifyStore opened f w) ->
  writable w ->
  (accepts op (absOf sf) -> opened = Ok sf /\
     exists a sf', f sf = Ok (a, sf') /\ absOf (bump sf') = effect op (absOf sf)) ->
  (~ accepts op (absOf sf) -> forall sf0, opened = Ok sf0 -> exists e, f sf0 = Err e) ->
  refines op w sf.
Proof.
  intros Hr Hw Hs Hf. split; intros Ha; rewrite Hr.
  - destruct (Hs Ha) as (Ho & a & sf' & E & Ee).
    destruct (modify_succeeds _ _ _ _ _ _ Hw Ho E) as (w' & ? & ? & ?). eauto 10.
  - apply modify_fails. auto.
Qed.

Ltac abs_maps := unfold absOf, put, tick, bump; simpl; f_equal;
  rewrite ?to_map_upsert, ?to_map_remove_key; done.

(** Operations that always succeed. *)
Ltac refine_save H :=
  eapply refines_modify; [reflexivity|done| |by intros []];
  intros _; split; [by apply (proj1 (base_opens _ _ H))|];
  do 2 eexists; split; [reflexivity|abs_maps].

(** Operations on an existing record: an absent file has none. *)
Lemma opened_content (e : StoreErr) w sf :
  base w = Some sf ->
  (readOrErr e w = Ok sf /\ readAny w = Ok sf) \/
  (sf = newStoreFile /\ (forall sf0, readOrErr e w <> Ok sf0) /\ (forall sf0, readAny w <> Ok sf0)).
Proof.
  intros H. unfold readOrErr, readAny.
  destruct (base_opens _ _ H) as [_ [E|[E ->]]]; rewrite E; auto.
Qed.

Lemma refines_delete {A} op opened (f : storeFile -> Result (A * storeFile)) w sf :
  run op w = outcome (modifyStore opened f w) ->
  writable w -> base w = Some sf ->
  (exists e, opened = readOrErr e w) \/ opened = readAny w ->
  ~ accepts op (absOf newStoreFile) ->
  (accepts op (absOf sf) ->
     exists a sf', f sf = Ok (a, sf') /\ absOf (bump sf') = effect op (absOf sf)) ->
  (~ accepts op (absOf sf) -> exists e, f sf = Err e) ->
  refines op w sf.
Proof.
  intros Hr Hw Hb Ho Hn Hs Hf.
  destruct (opened_content EKnownHostNotFound _ _ Hb) as [[_ E]|(-> & _ & E)].
  - assert (opened = Ok sf) as ->.
    { destruct Ho as [[e ->]| ->]; [|done].
      destruct (opened_content e _ _ Hb) as [[? _]|(-> & _ & H)]; [done|]. by destruct (H _ E). }
    eapply refines_modify; eauto. intros Hna sf0 [= <-]. auto.
  - eapply refines_modify; [done|done|done|]. intros _ sf0 Hopen. exfalso.
    destruct Ho as [[e ->]| ->]; [|by apply (E sf0)].
    destruct (opened_content e _ _ Hb) as [[_ H]|(_ & H & _)]; [by apply (E _ H)|by apply (H sf0)].
Qed.

Lemma not_accept_empty {A} (k : string) : is_Some ((∅ : gmap string A) !! k) -> False.
Proof. rewrite lookup_empty. by intros [? ?]. Qed.

Lemma DeleteHost_refines id w sf :
  writable w -> base w = Some sf -> WF sf -> refines (ODeleteHost id) w sf.
Proof.
  intros Hw Hb Hwf. eapply refines_delete; [reflexivity|done|done|eauto| | |].
  - intros [H _]. by apply not_accept_empty in H.
  - intros [Hh Hc]. apply (chainHolding_spec sf id Hwf) in Hc. rewrite Hc.
    rewrite has_key_lookup, bool_decide_eq_true_2 by done. do 2 eexists.
    split; [reflexivity|abs_maps].
  - intros Hna. cbv beta. destruct (chainHolding id (sf_Chains sf)) eqn:Ec; [eauto|].
    rewrite has_key_lookup. case_bool_decide as Eh; [|eauto].
    exfalso. apply Hna. split; [done|]. by apply (chainHolding_spec sf id Hwf).
Qed.

Lemma DeleteInboundProfile_refines id w sf :
  writable w -> base w = Some sf -> WF sf -> refines (ODeleteInboundProfile id) w sf.
Proof.
  intros Hw Hb Hwf. eapply refines_delete; [reflexivity|done|done|eauto| | |].
  - intros [H _]. by apply not_accept_empty in H.
  - intros [Hp Hc]. rewrite has_key_lookup, bool_decide_eq_true_2 by done. simpl negb.
    assert (profileUser id (sf_Chains sf) = None) as ->.
    { apply profileUser_None. intros c n Hin. apply (Hc (key_of c)).
      apply elem_to_map; [by apply wf_chains|done]. }
    do 2 eexists. split; [reflexivity|abs_maps].
  - intros Hna. cbv beta. rewrite has_key_lookup. case_bool_decide as Eh; [|eauto]. simpl negb.
    destruct (profileUser id (sf_Chains sf)) as [[]|] eqn:Ec; [eauto|].
    exfalso. apply Hna. split; [done|]. intros name c n [Hin _]%to_map_elem.
    by apply (proj1 (profileUser_None id _) Ec).
Qed.

(** The deletions whose only guard is existence. *)
Ltac refine_delete Hwf :=
  eapply refines_delete; [reflexivity|done|done|by eauto|intros Ha; by apply not_accept_empty in Ha| |];
  simpl accepts; intros Ha; cbv beta; rewrite has_key_lookup;
  [rewrite bool_decide_eq_true_2 by done|rewrite bool_decide_eq_false_2 by done; by eauto];
  do 2 eexists; split; [reflexivity|
    unfold absOf, tick, bump; simpl; f_equal;
    rewrite ?to_map_remove_key, ?to_map_remove_first by apply Hwf; done].

Lemma SaveUser_refines now u w sf :
  writable w -> base w = Some sf -> WF sf -> refines (OSaveUser now u) w sf.
Proof.
  intros Hw Hb Hwf. eapply refines_modify; [reflexivity|done| |].
  - intros Ha. split; [by apply (proj1 (base_opens _ _ Hb))|]. cbv zeta beta.
    fold (stampUser now u).
    assert (User_MTProxySecret (stampUser now u) <> "" ->
      mtproxyClash (stampUser now u) (upsert (stampUser now u) (sf_Users sf)) = None) as Hc.
    { intros Hne. apply mtproxyClash_complete. intros v Hv Hid Hs.
      destruct (elem_of_upsert _ _ _ Hv) as [->|Hv']; [done|].
      assert (sharesNode (stampUser now u) v <-> sharesNode u v) as ->
        by (unfold stampUser; by destruct (IsZero _)).
      revert Hid Hs Hne. unfold stampUser.
      destruct (IsZero _); simpl; intros Hid Hs Hne; apply (Ha (key_of v) v); try done;
        apply elem_to_map; try done; apply Hwf. }
    destruct (bool_decide (User_MTProxySecret (stampUser now u) = "")) eqn:E; simpl.
    + do 2 eexists. split; [reflexivity|]. abs_maps.
    + apply bool_decide_eq_false in E. rewrite Hc by done.
      destruct (Nat.eqb _ 0); (do 2 eexists; split; [reflexivity|abs_maps]).
  - intros Hna sf0 Ho. assert (sf0 = sf) as ->.
    { destruct (base_opens _ _ Hb) as [E _]. congruence. }
    cbv zeta beta. fold (stampUser now u).
    destruct ((User_MTProxySecret (stampUser now u) != "") && negb (length (User_MTProxyNodes (stampUser now u)) =? 0)%nat) eqn:E.
    + destruct (mtproxyClash _ _) eqn:Ec; [eauto|]. exfalso. apply Hna.
      intros id v [Hv Hk]%to_map_elem Hid Hs Hne. subst id.
      assert (sharesNode (stampUser now u) v <-> sharesNode u v) as <-
        by (unfold stampUser; by destruct (IsZero _)).
      eapply mtproxyClash_None; [exact Ec| | |].
      * simpl. apply elem_of_upsert_other; [done|].
        unfold stampUser. by destruct (IsZero _).
      * unfold stampUser. by destruct (IsZero _).
      * unfold stampUser. by destruct (IsZero _).
    + exfalso. apply Hna. intros id v _ _ _ Hne (n & Hn & _).
      apply andb_false_iff in E as [E|E].
      * apply negb_false_iff, bool_decide_eq_true in E. revert E. unfold stampUser. by destruct (IsZero _).
      * apply negb_false_iff, Nat.eqb_eq, nil_length_inv in E. revert E. unfold stampUser.
        destruct (IsZero _); simpl; intros E; rewrite E in Hn; by apply not_elem_of_nil in Hn.
Qed.

Lemma SaveLink_refines f l w sf :
  writable w -> base w = Some sf -> WF sf -> refines (OSaveLink f l) w sf.
Proof.
  intros Hw Hb Hwf. eapply refines_modify; [reflexivity|done| |].
  - intros Ha. split; [by apply (proj1 (base_opens _ _ Hb))|]. cbv zeta beta.
    fold (nameLink f l).
    destruct (existsb _ _) eqn:E.
    + exfalso. apply existsb_exists in E as (ex & Hin & [He Hid]%andb_true_iff).
      apply list_elem_of_In in Hin. apply negb_true_iff, bool_decide_eq_false in Hid.
      apply Hid. apply (Ha (key_of ex) ex); [|done].
      apply elem_to_map; [apply Hwf|done].
    + do 2 eexists. split; [reflexivity|abs_maps].
  - intros Hna sf0 Ho. assert (sf0 = sf) as ->.
    { destruct (base_opens _ _ Hb) as [E _]. congruence. }
    cbv zeta beta. fold (nameLink f l). destruct (existsb _ _) eqn:E; [eauto|].
    exfalso. apply Hna. intros id ex [Hin Hk]%to_map_elem He. subst id.
    apply not_true_iff_false in E.
    destruct (decide (key_of ex = ConnectionLink_ID (nameLink f l))) as [|Hne]; [done|].
    exfalso. apply E, existsb_exists. exists ex. split; [by apply list_elem_of_In|].
    rewrite He. simpl. apply negb_true_iff. by apply bool_decide_eq_false.
Qed.

Lemma writeStore_succeeds sf w :
  writable w -> exists w', writeStore sf w = (Ok tt, w') /\ base w' = Some (bump sf) /\ writable w'.
Proof.
  intros Hw. destruct (modify_succeeds (Ok sf) (fun sf => Ok (tt, sf)) w sf tt sf Hw eq_refl eq_refl)
    as (w' & E & Hb & Hw'). exists w'. split; [|done].
  revert E. unfold outcome, modifyStore. by destruct (writeStore sf w) as [[[]|] ?]; intros [= ->].
Qed.

Lemma DeleteNodeInfo_refines id w sf :
  writable w -> base w = Some sf -> refines (ODeleteNodeInfo id) w sf.
Proof.
  intros Hw Hb. split; [intros _|by intros []].
  unfold run, outcome, DeleteNodeInfo. destruct (base_opens _ _ Hb) as [_ [E|[E ->]]]; rewrite E;
    [|by exists w, newStoreFile].
  rewrite !has_key_lookup. simpl effect.
  set (sf' := sf <| sf_NodeInfos := remove_key id (sf_NodeInfos sf) |>
                 <| sf_Metrics := remove_key id (sf_Metrics sf) |>).
  destruct (writeStore_succeeds sf' w Hw) as (w' & Ew & Hb' & Hw').
  destruct (to_map (sf_NodeInfos sf) !! id) eqn:E1;
    [|destruct (to_map (sf_Metrics sf) !! id) eqn:E2].
  - simpl. rewrite Ew. exists w', (bump sf'). split_and!; [done|done|abs_maps|done].
  - simpl. rewrite Ew. exists w', (bump sf'). split_and!; [done|done|abs_maps|done].
  - rewrite !bool_decide_eq_false_2 by (by intros [? ?]). simpl. exists w, sf. done.
Qed.

Lemma SaveNodeInfo_refines ni w sf :
  writable w -> base w = Some sf ->
  exists w' sf', outcome (SaveNodeInfo ni w) = (None, w') /\ base w' = Some sf' /\
    absOf sf' = tick ((absOf sf) <| a_infos := put ni (a_infos (absOf sf)) |>) /\ writable w'.
Proof.
  intros Hw Hb. assert (refines (OSaveNodeInfo ni) w sf) as H; [refine_save Hb|].
  by apply (proj1 H).
Qed.

Lemma CheckHostKey_refines now addr fp w sf :
  writable w -> base w = Some sf -> refines (OCheckHostKey now addr fp) w sf.
Proof.
  intros Hw Hb. split; [intros _|by intros []]. simpl run. simpl effect.
  unfold CheckHostKey. rewrite (GetKnownHost_base _ _ _ Hb).
  destruct (pinned (absOf sf) addr) as [kh|].
  - exists w, sf. split_and!; try done. destruct (_ != _); [done|]. by destruct (negb _).
  - assert (refines (OSaveKnownHost (mkKnownHost addr fp now false)) w sf) as H; [refine_save Hb|].
    destruct (proj1 H I) as (w' & sf' & Hr & H1 & H2 & H3). exists w', sf'. split_and!; try done.
    simpl in *. unfold outcome in Hr. by injection Hr as _ ->.
Qed.

(** C2: the store refines its abstract specification.  On a disk that can be
    written and read, with well-formed content, every saving operation of the
    store succeeds exactly when the abstract store of finite maps accepts it
    (a host or profile that a chain references cannot be deleted, an MTProxy
    secret cannot be shared on a node, an edge cannot be linked twice, a
    missing record cannot be deleted); it then has exactly the abstract effect,
    revision included, and the disk stays writable; when it is not accepted it
    returns an error and leaves the disk as it was. *)
Theorem run_refines op w sf :
  writable w -> base w = Some sf -> WF sf -> refines op w sf.
Proof.
  intros Hw Hb Hwf. destruct op.
  - refine_save Hb.
  - by apply DeleteHost_refines.
  - refine_save Hb.
  - refine_delete Hwf.
  - refine_save Hb.
  - by apply DeleteInboundProfile_refines.
  - by apply SaveUser_refines.
  - refine_delete Hwf.
  - refine_save Hb.
  - refine_save Hb.
  - by apply DeleteNodeInfo_refines.
  - refine_save Hb.
  - refine_save Hb.
  - by apply CheckHostKey_refines.
  - refine_save Hb.
  - refine_delete Hwf.
  - by apply SaveLink_refines.
  - refine_delete Hwf.
  - split; [intros _|by intros []]. simpl run. unfold SaveNodePosition.
    rewrite (infoOrNew_base _ _ _ Hb). by apply SaveNodeInfo_refines.
  - split; simpl run; simpl accepts; unfold SetUtilityState.
    + intros Ha. rewrite bool_decide_eq_false_2 by done.
      rewrite (infoOrNew_base _ _ _ Hb). by apply SaveNodeInfo_refines.
    + intros Ha. case_bool_decide; [by eexists|done].
Qed.

Lemma run_refines_witness :
  let h := zeroHost <| Host_ID := "h" |> in
  let w := mkWorld (Some (Plain (newStoreFile <| sf_Hosts := [h] |>))) None None None [] None in
  writable w /\ refines (ODeleteHost "h") w (newStoreFile <| sf_Hosts := [h] |>).
Proof.
  split; [done|]. apply run_refines; [done|reflexivity|].
  destruct WF_new. constructor; try done. apply NoDup_singleton.
Defined.
