(* ===== verification/StoreSecurity.v ===== *)
(** * StoreSecurity: atomicity, encryption at rest and host-key pinning

    What the store guarantees whatever fails: a failed operation leaves the
    disk as it was, a configured master key seals every write, an encrypted
    store that cannot be opened is never overwritten, and connections alone
    never make a host key trusted. *)

From S2P Require Import Prelude GoStrings Model ChainModel Lifecycle StoreCore Store StoreSpec StoreRefine.

(** ** Failure atomicity *)

Lemma outcome_unchanged {A} (r : Result A * World) w e w' :
  outcome r = (Some e, w') -> (forall e w', r = (Err e, w') -> w' = w) -> w' = w.
Proof.
  unfold outcome. destruct r as [[a|e0] w0]; simpl; [done|].
  intros [= <- <-] H. by apply (H e0).
Qed.

Lemma SaveNodeInfo_Err ni w e w' : SaveNodeInfo ni w = (Err e, w') -> w' = w.
Proof. apply modifyStore_Err. Qed.

Lemma DeleteNodeInfo_Err id w e w' : DeleteNodeInfo id w = (Err e, w') -> w' = w.
Proof.
  unfold DeleteNodeInfo. destruct (readStore w) as [er|sf].
  - by destruct er; intros [= _ <-].
  - destruct (negb _); [done|].
    destruct (writeStore_cases (sf <| sf_NodeInfos := remove_key id (sf_NodeInfos sf) |>
      <| sf_Metrics := remove_key id (sf_Metrics sf) |>) w) as [[e0 ->]|(d & _ & _ & ->)];
      by intros [= _ <-].
Qed.

(** C14: failure atomicity.  An operation of the store that returns an error has
    changed nothing on the disk: not the store file, not the key, not the
    backups, and it has left no temporary file behind, whichever system call of
    the atomic write failed. *)
Theorem failed_op_unchanged op w e w' : run op w = (Some e, w') -> w' = w.
Proof.
  destruct op; unfold run; intros H; try done;
    try (by apply (outcome_unchanged _ w _ _ H), modifyStore_Err).
  - apply (outcome_unchanged _ w _ _ H), DeleteNodeInfo_Err.
  - revert H. unfold SetUtilityState. case_bool_decide; [by intros [= _ <-]|].
    intros H'. apply (outcome_unchanged _ w _ _ H'), SaveNodeInfo_Err.
Qed.

(** ** Encryption at rest *)

(** Any sequence of operations, whatever each returns. *)
Definition runs (ops : list StoreOp) (w : World) : World :=
  fold_left (fun w op => snd (run op w)) ops w.

Lemma stepsTo_key w w' : stepsTo w w' -> w_key w' = w_key w /\ w_tmp w' = w_tmp w /\
  w_fault w' = w_fault w /\ w_prebmigrate w' = w_prebmigrate w /\ w_preorphan w' = w_preorphan w.
Proof. intros [->|(? & ? & ? & _ & _ & _ & ->)]; done. Qed.

Lemma sealAs_encrypted kf key sf d :
  loadMasterKey kf = inr (Some key) -> sealAs kf sf = Some d -> d = Encrypted key sf.
Proof. unfold sealAs. intros ->. by intros [= <-]. Qed.

(** An encrypted file that the present key does not open blocks every step. *)
Lemma stepsTo_blocked w w' d e :
  stepsTo w w' -> w_store w = Some d -> readStore w = inl e -> w' = w.
Proof.
  intros [->|(sf & sf' & d' & Hb & _)] Hd He; [done|]. exfalso.
  unfold base in Hb. rewrite He in Hb. destruct e; try done.
  unfold readStore in He. rewrite Hd in He. destruct d as [sf0|k sf0|[]|d0]; cbn [isEncrypted] in He; try done.
  all: destruct (loadMasterKey _) as [?|[?|]]; [done| |done]; by destruct (decryptStore _ _).
Qed.

Definition storeEncrypted (w : World) : Prop :=
  forall d, w_store w = Some d -> isEncrypted d = true.

(** C10: encryption at rest.  While a valid master key is present, any sequence
    of store operations, each failing or succeeding, keeps an absent or
    encrypted store file encrypted, leaves no plaintext in temporary files, and
    does not touch a file sealed under another key or that fails to
    authenticate. *)
Theorem encrypted_at_rest ops w key :
  loadMasterKey (w_key w) = inr (Some key) -> storeEncrypted w ->
  storeEncrypted (runs ops w) /\ w_tmp (runs ops w) = w_tmp w /\
  (forall d, w_store w = Some d -> decryptStore d key = None -> runs ops w = w).
Proof.
  revert w. induction ops as [|op ops IH]; intros w Hk He; [by split_and!|].
  simpl. pose proof (run_steps op w) as Hs. set (w1 := snd (run op w)) in *.
  destruct (stepsTo_key _ _ Hs) as (Hk1 & Ht1 & _).
  assert (storeEncrypted w1) as He1.
  { destruct Hs as [->|(sf & sf' & d & _ & _ & Hse & ->)]; [done|].
    intros d' [= <-]. by rewrite (sealAs_encrypted _ _ _ _ Hk Hse). }
  destruct (IH w1) as (H1 & H2 & H3); [by rewrite Hk1|done|].
  split_and!; [done|by rewrite H2|]. intros d Hd Hdec.
  assert (w1 = w) as E; [|rewrite E in *; by apply (H3 d)].
  assert (exists e, readStore w = inl e) as [e Hr]; [|by apply (stepsTo_blocked w w1 d e)].
  unfold readStore. rewrite Hd, (He d Hd), Hk, Hdec. destruct d; by eexists.
Qed.

Definition key32 : string := "0123456789abcdef0123456789abcdef".

Lemma encrypted_at_rest_witness :
  let w := mkWorld None (Some (mkKeyFile 0x180 key32)) None None [] None in
  w_store (runs [OSaveHost zeroHost] w) <> None /\ storeEncrypted (runs [OSaveHost zeroHost] w).
Proof.
  split; [done|]. refine (proj1 (encrypted_at_rest [OSaveHost zeroHost] _ key32 _ _)); done.
Defined.

Lemma failed_op_unchanged_witness :
  let w := mkWorld None (Some (mkKeyFile 0x1a4 key32)) None None [] None in
  fst (run (OSaveHost zeroHost) w) = Some (EMasterKeyInvalid BadKeyMode) /\
  snd (run (OSaveHost zeroHost) w) = w.
Proof.
  split; [reflexivity|].
  apply (failed_op_unchanged (OSaveHost zeroHost) _ (EMasterKeyInvalid BadKeyMode)). reflexivity.
Defined.

(** ** Host keys: trust on first use *)

(** The pinned keys of a disk; unreadable or absent, there are none. *)
Definition knownHosts (w : World) : list KnownHost :=
  match base w with Some sf => sf_KnownHosts sf | None => [] end.

(** Connection attempts: the time, the address and the key presented. *)
Definition attempts (l : list (Time * string * string)) (w : World) : World :=
  fold_left (fun w a => snd (CheckHostKey a.1.1 a.1.2 a.2 w)) l w.

Lemma GetKnownHost_knownHosts addr w :
  match readStore w with inl e => e = NotExist | _ => True end ->
  GetKnownHost addr w = match firstKnownHost (knownHostCandidates addr) (knownHosts w) with
                        | Some kh => Ok kh | None => Err EKnownHostNotFound end.
Proof.
  unfold GetKnownHost, readOrErr, knownHosts, base. destruct (readStore w) as [e|sf]; [|done].
  intros ->. assert (forall cands, firstKnownHost cands [] = None) as Hn; [|by rewrite Hn].
  induction cands; done.
Qed.

Lemma firstKnownHost_None c cands khs :
  firstKnownHost cands khs = None -> c ∈ cands -> find_key c khs = None.
Proof.
  induction cands as [|c' cands IH]; simpl; [by intros _ ?%not_elem_of_nil|].
  destruct (find_key c' khs) eqn:E; [done|].
  intros H [->|Hc]%elem_of_cons; [done|by apply IH].
Qed.

Lemma normalizeAddr_candidate addr : normalizeAddr addr ∈ knownHostCandidates addr.
Proof.
  unfold normalizeAddr, knownHostCandidates. destruct (SplitHostPort addr) as [[h p]|].
  - by left.
  - right. by left.
Qed.

Lemma elem_of_upsert_fresh `{Keyed A} (x y : A) l :
  find_key (key_of x) l = None -> y ∈ upsert x l <-> y = x \/ y ∈ l.
Proof.
  induction l as [|z l IH]; simpl; intros Hf.
  - rewrite list_elem_of_singleton. rewrite elem_of_nil. tauto.
  - unfold find_key in *. simpl in Hf. case_bool_decide; [done|].
    rewrite !elem_of_cons, IH by done. tauto.
Qed.

Lemma firstKnownHost_upsert_fresh kh cands khs :
  firstKnownHost cands khs = None -> key_of kh ∈ cands ->
  firstKnownHost cands (upsert kh khs) = Some kh.
Proof.
  induction cands as [|c cands IH]; simpl; [by intros _ ?%not_elem_of_nil|].
  destruct (find_key c khs) eqn:E; [done|]. intros Hn Hin.
  destruct (decide (c = key_of kh)) as [->|Hne]; [by rewrite find_upsert_eq|].
  rewrite find_upsert_ne, E by done. apply IH; [done|]. set_solver.
Qed.

(** The first attempt on an unknown address: refused without a write, or the
    key is pinned, untrusted. *)
Lemma CheckHostKey_unknown now addr fp w e :
  GetKnownHost addr w = Err e ->
  let new := mkKnownHost (normalizeAddr addr) fp now false in
  let w' := snd (CheckHostKey now addr fp w) in
  w' = w \/
  (firstKnownHost (knownHostCandidates addr) (knownHosts w) = None /\
   knownHosts w' = upsert new (knownHosts w) /\ GetKnownHost addr w' = Ok new).
Proof.
  intros Eg. cbv zeta. unfold CheckHostKey. rewrite Eg. simpl. unfold SaveKnownHost.
  set (f := fun sf : storeFile => _).
  destruct (modifyStore_cases (readOrNew w) f w) as [[e' ->]|(sf & a & sf' & d & H1 & H2 & H3 & H4)];
    [by left|right]. rewrite H4. simpl. injection H2 as <- <-.
  assert (knownHosts w = sf_KnownHosts sf) as Hkh
    by (unfold knownHosts; by rewrite (base_readOrNew _ _ H1)).
  assert (firstKnownHost (knownHostCandidates addr) (knownHosts w) = None) as Hn.
  { rewrite GetKnownHost_knownHosts in Eg by (revert H1; unfold readOrNew; by destruct (readStore w) as [[]|]).
    by destruct (firstKnownHost _ _). }
  pose proof (readStore_sealed _ _ _ H3) as Hr.
  assert (knownHosts (w <| w_store := Some d |>)
    = upsert (mkKnownHost (normalizeAddr addr) fp now false) (knownHosts w)) as Hk'.
  { unfold knownHosts at 1, base. rewrite Hr, Hkh. done. }
  split_and!; [done|done|].
  rewrite GetKnownHost_knownHosts by (by rewrite Hr).
  rewrite Hk', firstKnownHost_upsert_fresh; [done|done|apply normalizeAddr_candidate].
Qed.

(** The verdict on a host key.  A connection is accepted exactly when the
    address has a pinned key that is trusted and equal to the presented one,
    and then nothing is written.  A different pinned key is reported as changed
    and nothing is written; an unknown key is refused, not reported as changed,
    and all that can be written is its pin, untrusted, under the normalised
    address, which is what the next attempt is checked against. *)
Theorem CheckHostKey_verdict now addr fp w :
  let w' := snd (CheckHostKey now addr fp w) in
  match fst (CheckHostKey now addr fp w), GetKnownHost addr w with
  | None, Ok kh => w' = w /\ KnownHost_Trusted kh = true /\ KnownHost_Fingerprint kh = fp
  | Some err, Ok kh =>
      w' = w /\ RemoteFingerprint err = fp /\
      (KnownHost_Trusted kh = false \/ KnownHost_Fingerprint kh <> fp) /\
      (Changed err = true <-> KnownHost_Fingerprint kh <> fp)
  | Some err, Err _ =>
      err = mkHostKeyError fp false /\
      (w' = w \/ GetKnownHost addr w' = Ok (mkKnownHost (normalizeAddr addr) fp now false))
  | None, Err _ => False
  end.
Proof.
  cbv zeta. destruct (GetKnownHost addr w) as [kh|e] eqn:Eg.
  - unfold CheckHostKey. rewrite Eg. destruct (KnownHost_Fingerprint kh != fp) eqn:E1; bool_to_prop.
    + simpl. tauto.
    + destruct (KnownHost_Trusted kh) eqn:E2; simpl; [done|]. split_and!; auto. done.
  - pose proof (CheckHostKey_unknown now addr fp w e Eg) as Hu. cbv zeta in Hu.
    assert (fst (CheckHostKey now addr fp w) = Some (mkHostKeyError fp false)) as ->
      by (unfold CheckHostKey; by rewrite Eg).
    split; [done|]. tauto.
Qed.

(** Connections never make a key trusted.  After any sequence of connection
    attempts, whatever keys the servers presented, the trusted pinned keys are
    exactly those that were trusted before: none is added, replaced or lost, so
    only an operator's save can trust a key. *)
Theorem attempts_keep_trust l w kh :
  KnownHost_Trusted kh = true -> (kh ∈ knownHosts (attempts l w) <-> kh ∈ knownHosts w).
Proof.
  intros Ht. revert w. induction l as [|[[now addr] fp] l IH]; intros w; [done|].
  simpl. rewrite IH. simpl. destruct (GetKnownHost addr w) as [kh'|e] eqn:Eg.
  - assert (snd (CheckHostKey now addr fp w) = w) as ->; [|done].
    unfold CheckHostKey. rewrite Eg. destruct (_ != _); [done|]. by destruct (negb _).
  - destruct (CheckHostKey_unknown now addr fp w e Eg) as [->|(Hn & -> & _)]; [done|].
    rewrite elem_of_upsert_fresh.
    + split; [|by right]. intros [->|?]; [discriminate Ht|done].
    + eapply firstKnownHost_None; [done|apply normalizeAddr_candidate].
Qed.

Lemma attempts_keep_trust_witness :
  let kh := mkKnownHost "10.0.0.1:22" "SHA256:a" 1 true in
  let w := mkWorld (Some (Plain (newStoreFile <| sf_KnownHosts := [kh] |>))) None None None [] None in
  let tries := [(5, "10.0.0.1:22", "SHA256:evil"); (6, "10.0.0.2", "SHA256:b")] in
  length (knownHosts (attempts tries w)) = 2%nat /\
  (kh ∈ knownHosts (attempts tries w) <-> kh ∈ knownHosts w).
Proof. split; [reflexivity|]. apply attempts_keep_trust. reflexivity. Defined.
