(* ===== verification/StoreQueries.v ===== *)
(** * StoreQueries: what the reading operations of the store return

    The order of the route rules, the staleness of utilities and the
    resolution of chain nodes against the live hosts. *)

From stdpp Require Import sorting.
From S2P Require Import Prelude GoStrings Model ChainModel Lifecycle StoreCore Store StoreSpec StoreRefine.

(** ** Route rules in evaluation order *)

(** Two rules in evaluation order: the lower priority number first. *)
Definition ruleLe (a b : RouteRule) : Prop := RouteRule_Priority a <= RouteRule_Priority b.

#[export] Instance ruleLe_trans : Transitive ruleLe.
Proof. intros a b c. unfold ruleLe. lia. Qed.

Definition samePriority (p : Z) (l : list RouteRule) : list RouteRule :=
  List.filter (fun r => RouteRule_Priority r =? p) l.

(** [out] is [l] in evaluation order, equal priorities in stored order. *)
Record stableSortOf (out l : list RouteRule) : Prop := mkStableSortOf {
  ss_sorted : StronglySorted ruleLe out;
  ss_perm : Permutation out l;
  ss_stable : forall p, samePriority p out = samePriority p l }.

Lemma samePriority_app p l1 l2 : samePriority p (l1 ++ l2) = samePriority p l1 ++ samePriority p l2.
Proof. apply List.filter_app. Qed.

Lemma StronglySorted_snoc l x :
  StronglySorted ruleLe (l ++ [x]) -> StronglySorted ruleLe l /\ Forall (fun y => ruleLe y x) l.
Proof.
  induction l as [|y l IH]; simpl; [by split; constructor|].
  intros [Hs Hf]%StronglySorted_inv. destruct (IH Hs). split.
  - constructor; [done|]. by apply Forall_app in Hf as [? _].
  - constructor; [|done]. apply Forall_app in Hf as [_ Hx]. by inversion Hx.
Qed.

(** One pass of the inner loop inserts the next rule into the sorted prefix. *)
Lemma sinkRule_insert l1 : forall x l2,
  StronglySorted ruleLe l1 ->
  exists a b, l1 = a ++ b /\ sinkRule (length l1) (l1 ++ x :: l2) = a ++ x :: b ++ l2 /\
    Forall (fun y => ruleLe y x) a /\
    Forall (fun y => RouteRule_Priority x < RouteRule_Priority y) b.
Proof.
  induction l1 as [|y l IH] using rev_ind; intros x l2 Hs.
  - by exists [], [].
  - destruct (StronglySorted_snoc _ _ Hs) as [Hl Hy].
    rewrite length_app, Nat.add_comm. simpl.
    rewrite <- app_assoc. simpl.
    rewrite (lookup_app_r l) by lia. rewrite Nat.sub_succ_l, Nat.sub_diag by done. simpl.
    rewrite list_lookup_middle by done.
    destruct (RouteRule_Priority x <? RouteRule_Priority y) eqn:E; bool_to_prop.
    + rewrite insert_app_r_alt by lia. rewrite Nat.sub_diag. simpl.
      rewrite insert_app_r_alt by lia. rewrite Nat.sub_succ_l, Nat.sub_diag by done. simpl.
      destruct (IH x (y :: l2) Hl) as (a & b & -> & Hk & Ha & Hb).
      exists a, (b ++ [y]). rewrite Hk, <- !app_assoc. split_and!; try done.
      apply Forall_app. split; [done|]. by constructor.
    + exists (l ++ [y]), []. rewrite app_nil_r, <- app_assoc. split_and!; try done.
      apply Forall_app. split; [|by constructor; [unfold ruleLe; lia|]].
      eapply Forall_impl; [exact Hy|]. intros z Hz. unfold ruleLe in *. lia.
Qed.

Lemma StronglySorted_insert a x b :
  StronglySorted ruleLe (a ++ b) -> Forall (fun y => ruleLe y x) a ->
  Forall (fun y => RouteRule_Priority x < RouteRule_Priority y) b ->
  StronglySorted ruleLe (a ++ x :: b).
Proof.
  induction a as [|y a IH]; simpl; intros Hs Ha Hb.
  - constructor; [done|]. eapply Forall_impl; [exact Hb|]. intros z Hz. unfold ruleLe. simpl in *. lia.
  - apply StronglySorted_inv in Hs as [Hs Hf]. apply Forall_cons in Ha as [Hy Ha].
    constructor; [by apply IH|]. apply Forall_app in Hf as [? ?].
    apply Forall_app. split; [done|]. by constructor.
Qed.

Lemma samePriority_above p b x :
  Forall (fun y => RouteRule_Priority x < RouteRule_Priority y) b ->
  RouteRule_Priority x = p -> samePriority p b = [].
Proof.
  intros Hb <-. induction b as [|y b IH]; [done|]. apply Forall_cons in Hb as [Hy Hb].
  simpl. rewrite (proj2 (Z.eqb_neq _ _)) by lia. by apply IH.
Qed.

Lemma stableSort_step l1 x l2 l0 :
  stableSortOf l1 l0 ->
  exists l1', sinkRule (length l1) (l1 ++ x :: l2) = l1' ++ l2 /\
    length l1' = S (length l1) /\ stableSortOf l1' (l0 ++ [x]).
Proof.
  intros [Hs Hp Hst]. destruct (sinkRule_insert l1 x l2 Hs) as (a & b & -> & -> & Ha & Hb).
  exists (a ++ x :: b). split_and!.
  - by rewrite <- app_assoc.
  - rewrite !length_app. simpl. lia.
  - constructor.
    + by apply StronglySorted_insert.
    + rewrite <- Permutation_middle, Hp. by rewrite <- Permutation_cons_append.
    + intros p. rewrite (samePriority_app p l0), <- Hst, !samePriority_app.
      change (x :: b) with ([x] ++ b). rewrite samePriority_app. simpl.
      destruct (RouteRule_Priority x =? p) eqn:E.
      * rewrite (samePriority_above p b x) by (done || by apply Z.eqb_eq).
        by rewrite !app_nil_r.
      * by rewrite !app_nil_r.
Qed.

Lemma sort_loop rest : forall l1 l0,
  stableSortOf l1 l0 ->
  stableSortOf (fold_left (fun o i => sinkRule i o) (seq (length l1) (length rest)) (l1 ++ rest))
    (l0 ++ rest).
Proof.
  induction rest as [|x rest IH]; intros l1 l0 H; simpl; [by rewrite !app_nil_r|].
  destruct (stableSort_step l1 x rest l0 H) as (l1' & -> & Hlen & H').
  rewrite <- Hlen. replace (l0 ++ x :: rest) with ((l0 ++ [x]) ++ rest) by by rewrite <- app_assoc.
  by apply IH.
Qed.

Lemma sortRules_stable l : stableSortOf (sortRules l) l.
Proof.
  unfold sortRules. destruct l as [|x l]; simpl; [by repeat constructor|].
  rewrite Nat.sub_0_r. apply (sort_loop l [x] [x]). by repeat constructor.
Qed.

(** Route rules in evaluation order.  Listing the rules of a node returns
    exactly the stored rules of that node, each once, in ascending priority
    number, and rules of equal priority in the order they are stored. *)
Theorem ListRouteRules_sorted nodeID w out :
  ListRouteRulesForNode nodeID w = Ok out ->
  exists sf, base w = Some sf /\
    stableSortOf out (List.filter (fun r => RouteRule_NodeID r == nodeID) (sf_RouteRules sf)).
Proof.
  unfold ListRouteRulesForNode, base. destruct (readStore w) as [[]|sf]; intros [= <-].
  - exists newStoreFile. split; [done|]. by repeat constructor.
  - exists sf. split; [done|]. apply sortRules_stable.
Qed.

Lemma ListRouteRules_sorted_witness :
  let r i p := zeroRouteRule <| RouteRule_ID := i |> <| RouteRule_NodeID := "n" |>
                             <| RouteRule_Priority := p |> in
  let w := mkWorld (Some (Plain (newStoreFile <| sf_RouteRules := [r "a" 20; r "b" 10; r "c" 20] |>)))
             None None None [] None in
  exists sf, base w = Some sf /\
    stableSortOf [r "b" 10; r "a" 20; r "c" 20]
      (List.filter (fun r => RouteRule_NodeID r == "n") (sf_RouteRules sf)).
Proof. apply ListRouteRules_sorted. reflexivity. Defined.

(** ** Resolving chain nodes against the live hosts *)

(** The chain-specific material of a node: everything the host does not give. *)
Definition material (n : ChainNode) : ChainNode :=
  n <| ChainNode_ID := "" |> <| ChainNode_Addr := "" |> <| ChainNode_User := "" |>
    <| ChainNode_KeyPath := "" |> <| ChainNode_Inbounds := [] |>.

Lemma GetHost_id id w h : GetHost id w = Ok h -> Host_ID h = id.
Proof.
  unfold GetHost. destruct (readOrErr _ w) as [sf|]; [|done].
  destruct (find_key id (sf_Hosts sf)) as [h'|] eqn:E; [|done].
  intros [= <-]. by apply find_key_Some in E as [_ E].
Qed.

Lemma resolveNode_host h info n :
  Host_ID h = ChainNode_ID n -> ChainNode_Host (resolveNode h info n) = h.
Proof. intros E. unfold resolveNode. destruct info, h; done. Qed.

Lemma resolveNode_material h info n : material (resolveNode h info n) = material n.
Proof. unfold resolveNode. by destruct info. Qed.

(** The relation between a stored chain node and its resolved form. *)
Definition resolves (w : World) (n r : ChainNode) : Prop :=
  GetHost (ChainNode_ID n) w = Ok (ChainNode_Host r) /\ material r = material n /\
  ChainNode_Inbounds r = match GetNodeInfo (ChainNode_ID n) w with
                         | Ok i => NodeInfo_Inbounds i
                         | Err _ => ChainNode_Inbounds n
                         end.

Lemma resolveNodesFrom_spec w ns :
  match resolveNodesFrom ns w with
  | Ok rs => Forall2 (resolves w) ns rs
  | Err e => exists n e', n ∈ ns /\ GetHost (ChainNode_ID n) w = Err e' /\
      e = EResolveNode (ChainNode_ID n) e'
  end.
Proof.
  induction ns as [|n ns IH]; simpl; [by repeat constructor|].
  destruct (GetHost (ChainNode_ID n) w) as [h|e'] eqn:Eh; [|exists n, e'; set_solver].
  destruct (resolveNodesFrom ns w) as [rs|e].
  - constructor; [|done]. split_and!.
    + rewrite resolveNode_host by by eapply GetHost_id. done.
    + apply resolveNode_material.
    + unfold resolveNode. by destruct (GetNodeInfo _ _).
  - destruct IH as (n' & e' & Hin & He & ->). exists n', e'. set_solver.
Qed.

(** Node resolution.  Resolving a chain succeeds exactly when every node of
    every level has a live host; each resolved node then has the host's current
    identity, address and login and the node's current inbounds, and keeps all
    of its chain-specific key material; otherwise the error names a node
    whose host is missing or unreadable. *)
Theorem ResolveNodes_live c w :
  match ResolveNodes c w with
  | Ok rs => Forall2 (resolves w) (AllNodes c) rs
  | Err e => exists n e', n ∈ AllNodes c /\ GetHost (ChainNode_ID n) w = Err e' /\
      e = EResolveNode (ChainNode_ID n) e'
  end.
Proof. apply resolveNodesFrom_spec. Qed.

(** ** Staleness of pushed utilities *)

Lemma find_upsert_at `{Keyed A} k (x : A) l : key_of x = k -> find_key k (upsert x l) = Some x.
Proof. intros <-. apply find_upsert_eq. Qed.

Lemma SetUtilityState_content id u w w' :
  SetUtilityState id u w = (Ok tt, w') ->
  exists sf sf', base w = Some sf /\ readStore w' = inr sf' /\
    sf_Revision sf' = wrap64 (sf_Revision sf + 1) /\
    GetUtilityState id (UtilityState_Name u) w' = Some u.
Proof.
  unfold SetUtilityState. case_bool_decide as En; [done|]. unfold SaveNodeInfo.
  intros H. destruct (modifyStore_Ok _ _ _ _ _ H) as (sf & sf1 & Ho & Hf & Hr & _).
  injection Hf as <-. exists sf. eexists. split_and!; [by apply base_readOrNew|exact Hr|done|].
  unfold GetUtilityState, GetNodeInfo, readAny. rewrite Hr. simpl.
  rewrite (find_upsert_at id) by done. unfold FindUtility. simpl.
  apply (find_upsert_eq u).
Qed.

Lemma GetRevision_read w sf : readStore w = inr sf -> GetRevision w = sf_Revision sf.
Proof. unfold GetRevision. by intros ->. Qed.

(** Staleness of a pushed utility.  A utility recorded as installed at the
    store's current revision is fresh right after its own save, although that
    save itself advances the revision, and is stale after the next operation
    that changes the store in any way and leaves its record as it is. *)
Theorem UtilityIsStale_tracks id u w sf w1 :
  base w = Some sf -> SetUtilityState id u w = (Ok tt, w1) ->
  UtilityState_Installed u = true -> UtilityState_Revision u = sf_Revision sf ->
  0 < sf_Revision sf < 2 ^ 62 ->
  UtilityIsStale id (UtilityState_Name u) w1 = false /\
  forall op w2, run op w1 = (None, w2) -> w2 <> w1 ->
    GetUtilityState id (UtilityState_Name u) w2 = Some u ->
    UtilityIsStale id (UtilityState_Name u) w2 = true.
Proof.
  intros Hb Hset Hi Hrev Hrange.
  destruct (SetUtilityState_content _ _ _ _ Hset) as (sf0 & sf1 & Hb0 & Hr1 & Hv1 & Hg1).
  assert (sf0 = sf) as -> by congruence. rewrite wrap64_id in Hv1 by lia.
  unfold UtilityIsStale. split.
  - rewrite Hg1, Hi, Hrev, (GetRevision_read _ _ Hr1), Hv1, wrap64_id by lia.
    rewrite (proj2 (Z.eqb_neq _ _)) by lia. simpl. apply Z.ltb_ge. lia.
  - intros op w2 Hrun Hne ->. rewrite Hi, Hrev, (proj2 (Z.eqb_neq _ _)) by lia. simpl.
    pose proof (run_steps op w1) as [Hs|(sf2 & sf3 & d & Hb2 & Hst & Hse & Hs)];
      rewrite Hrun in Hs; simpl in Hs; [done|]. subst w2.
    rewrite (GetRevision_read _ _ (readStore_sealed _ _ _ Hse)).
    assert (sf2 = sf1) as -> by (unfold base in Hb2; rewrite Hr1 in Hb2; congruence).
    assert (sf_Revision sf3 = sf_Revision sf1) as Hk by by destruct Hst.
    simpl. rewrite Hk, Hv1, !wrap64_id by lia. apply Z.ltb_lt. lia.
Qed.

Lemma UtilityIsStale_tracks_witness :
  let u := zeroUtilityState <| UtilityState_Name := "caddy" |> <| UtilityState_Installed := true |>
                            <| UtilityState_Revision := 4 |> in
  let sf := newStoreFile <| sf_Revision := 4 |> in
  let w := mkWorld (Some (Plain sf)) None None None [] None in
  let w1 := snd (SetUtilityState "n" u w) in
  UtilityIsStale "n" (UtilityState_Name u) w1 = false /\
  forall op w2, run op w1 = (None, w2) -> w2 <> w1 ->
    GetUtilityState "n" (UtilityState_Name u) w2 = Some u ->
    UtilityIsStale "n" (UtilityState_Name u) w2 = true.
Proof.
  intros u sf w w1. by apply (UtilityIsStale_tracks "n" u w sf w1).
Defined.
