(* ===== verification/NodeHealth.v ===== *)
(** * NodeHealth: the health state machine of a node

    internal/chain/nodehealth.go, with the three writers of the metrics record:
    the background loop ([collectAllMetrics] of internal/web/server.go), the
    manual check (internal/web/misc.go) and the operator's block and unblock
    handlers (internal/web/nodes.go).  [NextState] mutates the record it is
    given; here it returns the new record.  [now] is [timeNow()]. *)

From S2P Require Import Prelude GoStrings Model StoreCore Store StoreSpec StoreRefine.

(** ** Probes *)

(** [model.Status]. *)
Record Status := mkStatus {
  Status_Running : bool;
  Status_Version : string;
  Status_PID : Z;
  Status_Uptime : string;
  Status_Error : string;
  Status_OS : string;
  Status_SingBoxInstalled : bool;
  Status_AWGModuleInstalled : bool }.

Record ProbeOutcome := mkProbeOutcome { SSHOK : bool; Running : bool; Reason : string }.

(** [shortErr], on the text of the error. *)
Definition shortErr (err : string) : string :=
  let s := TrimSpace err in
  let s := match cut_at newline s with Some (line, _) => TrimSpace line | None => s end in
  if Nat.ltb 80 (String.length s) then take_string 80 s else s.

(** [ClassifyProbe]; an error is given by its text, [None] is a nil status. *)
Definition ClassifyProbe (err : option string) (status : option Status) : ProbeOutcome :=
  match err with
  | Some e => mkProbeOutcome false false ("ssh dial: " +:+ shortErr e)
  | None =>
      match status with
      | Some s => if Status_Running s then mkProbeOutcome true true ""
                  else mkProbeOutcome true false "sing-box inactive"
      | None => mkProbeOutcome true false "sing-box inactive"
      end
  end.

(** ** The state machine *)

Definition transition (now : Time) (state reason : string) (m : NodeMetrics) : NodeMetrics :=
  m <| NodeMetrics_State := state |> <| NodeMetrics_StateReason := reason |>
    <| NodeMetrics_StateChangedAt := now |>.

(** The counter cap at the end of [NextState]. *)
Definition capCounters (m : NodeMetrics) : NodeMetrics :=
  let m := if 1000 <? NodeMetrics_ConsecutiveFails m
           then m <| NodeMetrics_ConsecutiveFails := 1000 |> else m in
  if 1000 <? NodeMetrics_ConsecutiveOKs m then m <| NodeMetrics_ConsecutiveOKs := 1000 |> else m.

Definition effDown (cfg : HysteresisConfig) : Z :=
  if HysteresisConfig_DownThreshold cfg <=? 0
  then HysteresisConfig_DownThreshold DefaultHysteresis else HysteresisConfig_DownThreshold cfg.
Definition effRecover (cfg : HysteresisConfig) : Z :=
  if HysteresisConfig_RecoverThreshold cfg <=? 0
  then HysteresisConfig_RecoverThreshold DefaultHysteresis
  else HysteresisConfig_RecoverThreshold cfg.

(** [NextState]: whether the state changed, and the record after the probe. *)
Definition NextState (now : Time) (m : NodeMetrics) (probe : ProbeOutcome)
    (cfg : HysteresisConfig) : bool * NodeMetrics :=
  let D := effDown cfg in
  let R := effRecover cfg in
  let prev := NodeMetrics_State m in
  let finish (m : NodeMetrics) :=
    let m := capCounters m in (prev != NodeMetrics_State m, m) in
  if prev == NodeStateBlocked then (false, m)
  else if SSHOK probe && Running probe then
    let m := m <| NodeMetrics_ConsecutiveFails := 0 |>
               <| NodeMetrics_ConsecutiveOKs := wrap64 (NodeMetrics_ConsecutiveOKs m + 1) |> in
    if (prev == NodeStateHealthy) || (prev == "") || (prev == NodeStateUnknown)
    then finish (transition now NodeStateHealthy "" m)
    else if NodeMetrics_ConsecutiveOKs m <? R then (false, m)
    else finish (transition now NodeStateHealthy "" m)
  else if negb (SSHOK probe) then
    let m := m <| NodeMetrics_ConsecutiveOKs := 0 |>
               <| NodeMetrics_ConsecutiveFails := wrap64 (NodeMetrics_ConsecutiveFails m + 1) |> in
    if prev == NodeStateUnreachable then (false, m)
    else if prev == NodeStateDown then
      (true, transition now NodeStateUnreachable (Reason probe) m)
    else if (prev == NodeStateUnknown) || (prev == "") then
      if NodeMetrics_ConsecutiveFails m <? D then
        let m := if prev == "" then transition now NodeStateSuspect (Reason probe) m else m in
        (prev != NodeMetrics_State m, m)
      else finish (transition now NodeStateUnreachable (Reason probe) m)
    else
      if NodeMetrics_ConsecutiveFails m <? D then
        let m := if prev != NodeStateSuspect
                 then transition now NodeStateSuspect (Reason probe) m else m in
        (prev != NodeMetrics_State m, m)
      else finish (transition now NodeStateUnreachable (Reason probe) m)
  else
    let m := m <| NodeMetrics_ConsecutiveOKs := 0 |>
               <| NodeMetrics_ConsecutiveFails := wrap64 (NodeMetrics_ConsecutiveFails m + 1) |> in
    if prev == NodeStateDown then (false, m)
    else if prev == NodeStateUnreachable then
      (true, transition now NodeStateDown (Reason probe) m)
    else if (prev == NodeStateUnknown) || (prev == "") then
      if NodeMetrics_ConsecutiveFails m <? D then
        let m := if prev == "" then transition now NodeStateSuspect (Reason probe) m else m in
        (prev != NodeMetrics_State m, m)
      else finish (transition now NodeStateDown (Reason probe) m)
    else
      if NodeMetrics_ConsecutiveFails m <? D then
        let m := if prev != NodeStateSuspect
                 then transition now NodeStateSuspect (Reason probe) m else m in
        (prev != NodeMetrics_State m, m)
      else finish (transition now NodeStateDown (Reason probe) m).

(** [SetNodeState]. *)
Definition SetNodeState (now : Time) (state reason : string) (m : NodeMetrics) : NodeMetrics :=
  m <| NodeMetrics_State := state |> <| NodeMetrics_StateReason := reason |>
    <| NodeMetrics_StateChangedAt := now |> <| NodeMetrics_ConsecutiveFails := 0 |>
    <| NodeMetrics_ConsecutiveOKs := 0 |>.

(** ** The writers of the metrics record *)

(** [m, _ := st.GetMetrics(id); if m == nil { m = &NodeMetrics{...Unknown} }]. *)
Definition metricsOrNew (id : string) (w : World) : NodeMetrics :=
  match GetMetrics id w with
  | Ok m => m
  | Err _ => zeroNodeMetrics <| NodeMetrics_HostID := id |> <| NodeMetrics_State := NodeStateUnknown |>
  end.

(** What a successful status query records. *)
Definition recordStatus (err : option string) (status : option Status) (m : NodeMetrics) : NodeMetrics :=
  match err, status with
  | None, Some s => m <| NodeMetrics_Version := Status_Version s |> <| NodeMetrics_OS := Status_OS s |>
                      <| NodeMetrics_SingBoxInstalled := Status_SingBoxInstalled s |>
                      <| NodeMetrics_AWGModuleInstalled := Status_AWGModuleInstalled s |>
  | _, _ => m
  end.

(** The body of the metrics loop for one host, up to the save; [latency] is
    [None] in the manual check, which does not measure it. *)
Definition probeHost (now : Time) (latency : option Z) (err : option string)
    (status : option Status) (id : string) (w : World) : NodeMetrics * World :=
  let probe := ClassifyProbe err status in
  let m := metricsOrNew id w in
  let m := m <| NodeMetrics_LastChecked := now |> in
  let m := match latency with Some l => m <| NodeMetrics_LatencyMs := l |> | None => m end in
  let m := recordStatus err status m in
  let m := snd (NextState now m probe DefaultHysteresis) in
  let m := m <| NodeMetrics_Online := NodeMetrics_State m == NodeStateHealthy |> in
  (m, snd (SaveMetrics now m w)).

(** The audit test of the loop: only an incident-class transition is logged. *)
Definition auditTransition (oldState newState : string) : bool :=
  (newState != oldState) && (oldState != "") && (oldState != NodeStateUnknown).

(** The auto-relocation trigger of the loop. *)
Definition relocateTrigger (oldState newState : string) : bool :=
  (newState != oldState) && ((newState == NodeStateDown) || (newState == NodeStateUnreachable)).

(** [handleMarkNodeBlocked] and [handleClearNodeBlocked]: the HTTP status and
    the disk. *)
Definition handleMarkNodeBlocked (now : Time) (id formReason : string) (w : World) : Z * World :=
  match GetHost id w with
  | Err _ => (404, w)
  | Ok _ =>
      let reason := TrimSpace formReason in
      let reason := if reason == "" then "operator marked" else reason in
      let m := SetNodeState now NodeStateBlocked reason (metricsOrNew id w) in
      let m := m <| NodeMetrics_Online := false |> in
      match SaveMetrics now m w with
      | (Err _, w') => (500, w')
      | (Ok _, w') => (200, w')
      end
  end.

Definition handleClearNodeBlocked (now : Time) (id : string) (w : World) : Z * World :=
  match GetHost id w with
  | Err _ => (404, w)
  | Ok _ =>
      match GetMetrics id w with
      | Err _ => (409, w)
      | Ok m =>
          if NodeMetrics_State m != NodeStateBlocked then (409, w)
          else
            match SaveMetrics now (SetNodeState now NodeStateUnknown "operator cleared" m) w with
            | (Err _, w') => (500, w')
            | (Ok _, w') => (200, w')
            end
      end
  end.

(** ** Lemmas on one step *)

Definition failing (p : ProbeOutcome) : bool := negb (SSHOK p && Running p).

(** The state a failing probe leads to once the threshold is reached. *)
Definition downKind (p : ProbeOutcome) : string :=
  if SSHOK p then NodeStateDown else NodeStateUnreachable.

Definition knownStates : list string :=
  [NodeStateHealthy; NodeStateSuspect; NodeStateDown; NodeStateUnreachable;
   NodeStateBlocked; NodeStateUnknown].

Lemma effDown_pos cfg : 0 < effDown cfg.
Proof. unfold effDown. destruct (_ <=? 0) eqn:E; bool_to_prop; simpl; lia. Qed.

Lemma effRecover_pos cfg : 0 < effRecover cfg.
Proof. unfold effRecover. destruct (_ <=? 0) eqn:E; bool_to_prop; simpl; lia. Qed.

Lemma capCounters_state m : NodeMetrics_State (capCounters m) = NodeMetrics_State m.
Proof. unfold capCounters. by repeat case_step. Qed.

Ltac next_cases :=
  unfold NextState; cbv zeta; repeat (case_step; simpl in *);
  rewrite ?capCounters_state; simpl; try done.

(** The reported change is the change of the state. *)
Lemma NextState_changed now m p cfg :
  fst (NextState now m p cfg) = (NodeMetrics_State m != NodeMetrics_State (snd (NextState now m p cfg))).
Proof.
  unfold NextState. cbv zeta. simpl.
  assert (forall s : string, false = negb (bool_decide (s = s))) as Hs
    by (intros s; by rewrite bool_decide_eq_true_2).
  destruct (NodeMetrics_State m == NodeStateBlocked) eqn:E0; [apply Hs|].
  destruct (SSHOK p && Running p).
  - repeat case_step; simpl; rewrite ?capCounters_state; auto.
  - destruct (negb (SSHOK p)).
    + repeat case_step; simpl; rewrite ?capCounters_state; auto; bool_to_prop.
      all: try (by rewrite bool_decide_eq_false_2 by congruence).
    + repeat case_step; simpl; rewrite ?capCounters_state; auto; bool_to_prop.
      all: try (by rewrite bool_decide_eq_false_2 by congruence).
Qed.

Definition isOutage (s : string) : bool := (s == NodeStateDown) || (s == NodeStateUnreachable).

(** A failing probe, in one equation per field. *)
Lemma NextState_fail now m p cfg :
  failing p = true -> NodeMetrics_State m <> NodeStateBlocked ->
  let m' := snd (NextState now m p cfg) in
  let fails := wrap64 (NodeMetrics_ConsecutiveFails m + 1) in
  NodeMetrics_ConsecutiveOKs m' = 0 /\
  NodeMetrics_State m' =
    (if isOutage (NodeMetrics_State m) then downKind p
     else if fails <? effDown cfg
          then if NodeMetrics_State m == NodeStateUnknown then NodeStateUnknown else NodeStateSuspect
          else downKind p) /\
  NodeMetrics_ConsecutiveFails m' =
    (if isOutage (NodeMetrics_State m) || (fails <? effDown cfg) then fails else Z.min 1000 fails).
Proof.
  destruct m as [id on s rs ver lat bs br lc sc fl ok os sb aw tr].
  unfold failing, NextState, isOutage, downKind. simpl. intros Hf Hb.
  rewrite (bool_decide_eq_false_2 _ Hb).
  apply negb_true_iff in Hf. rewrite Hf.
  assert (forall z, (if 1000 <? z then 1000 else z) = Z.min 1000 z) as Hmin.
  { intros z. destruct (1000 <? z) eqn:E; bool_to_prop; lia. }
  unfold capCounters. rewrite <- Hmin. generalize (wrap64 (fl + 1)). intros fails.
  destruct (decide (s = NodeStateDown)) as [->|H1]; [by destruct (SSHOK p)|].
  destruct (decide (s = NodeStateUnreachable)) as [->|H2]; [by destruct (SSHOK p)|].
  rewrite (bool_decide_eq_false_2 _ H1), (bool_decide_eq_false_2 _ H2).
  destruct (decide (s = NodeStateUnknown)) as [->|H3];
    [|rewrite (bool_decide_eq_false_2 _ H3)];
    (destruct (decide (s = "")) as [->|H4] || idtac);
    try rewrite (bool_decide_eq_false_2 _ H4);
    (destruct (decide (s = NodeStateSuspect)) as [->|H5] || idtac);
    try rewrite (bool_decide_eq_false_2 _ H5);
    destruct (SSHOK p); simpl; destruct (fails <? effDown cfg); simpl; try done;
    by destruct (1000 <? fails).
Qed.

(** A successful probe. *)
Lemma NextState_ok now m p cfg :
  failing p = false -> NodeMetrics_State m <> NodeStateBlocked ->
  let m' := snd (NextState now m p cfg) in
  let oks := wrap64 (NodeMetrics_ConsecutiveOKs m + 1) in
  let hold := (isOutage (NodeMetrics_State m) || (NodeMetrics_State m != NodeStateHealthy) &&
                (NodeMetrics_State m != "") && (NodeMetrics_State m != NodeStateUnknown)) &&
              (oks <? effRecover cfg) in
  NodeMetrics_ConsecutiveFails m' = 0 /\
  NodeMetrics_State m' = (if hold then NodeMetrics_State m else NodeStateHealthy) /\
  NodeMetrics_ConsecutiveOKs m' = (if hold then oks else Z.min 1000 oks).
Proof.
  destruct m as [id on s rs ver lat bs br lc sc fl ok os sb aw tr].
  unfold failing, NextState, isOutage. simpl. intros Hf Hb.
  rewrite (bool_decide_eq_false_2 _ Hb).
  apply negb_false_iff in Hf. rewrite Hf.
  assert (forall z, (if 1000 <? z then 1000 else z) = Z.min 1000 z) as Hmin.
  { intros z. destruct (1000 <? z) eqn:E; bool_to_prop; lia. }
  unfold capCounters. rewrite <- Hmin. generalize (wrap64 (ok + 1)). intros oks.
  destruct (decide (s = NodeStateHealthy)) as [->|H1]; [simpl; by destruct (1000 <? oks)|].
  rewrite (bool_decide_eq_false_2 _ H1).
  destruct (decide (s = "")) as [->|H2]; [simpl; by destruct (1000 <? oks)|].
  rewrite (bool_decide_eq_false_2 _ H2).
  destruct (decide (s = NodeStateUnknown)) as [->|H3]; [simpl; by destruct (1000 <? oks)|].
  rewrite (bool_decide_eq_false_2 _ H3). simpl. rewrite orb_true_r. simpl.
  destruct (oks <? effRecover cfg); simpl; [done|]. by destruct (1000 <? oks).
Qed.

Lemma NextState_blocked now m p cfg :
  NodeMetrics_State m = NodeStateBlocked -> NextState now m p cfg = (false, m).
Proof. intros E. unfold NextState. rewrite E. by rewrite bool_decide_eq_true_2. Qed.

(** ** Hysteresis over a series of probes *)

(** The metrics record after a series of probes. *)
Definition observe (cfg : HysteresisConfig) (l : list (Time * ProbeOutcome)) (m : NodeMetrics) : NodeMetrics :=
  fold_left (fun m x => snd (NextState x.1 m x.2 cfg)) l m.

Lemma observe_snoc cfg l x m :
  observe cfg (l ++ [x]) m = snd (NextState x.1 (observe cfg l m) x.2 cfg).
Proof. unfold observe. by rewrite fold_left_app. Qed.

Lemma suspect_not_special : isOutage NodeStateSuspect = false /\ NodeStateSuspect <> NodeStateBlocked.
Proof. done. Qed.

Lemma downKind_outage p : isOutage (downKind p) = true /\ downKind p <> NodeStateBlocked.
Proof. unfold downKind. by destruct (SSHOK p). Qed.

(** The record while probes fail: suspect with an exact count below the
    threshold, the kind of the last failure from the threshold on. *)
Lemma observe_failing cfg l m :
  NodeMetrics_State m = NodeStateHealthy -> NodeMetrics_ConsecutiveFails m = 0 ->
  Forall (fun x => failing x.2 = true) l -> Z.of_nat (length l) < 2 ^ 63 ->
  match last l with
  | None => observe cfg l m = m
  | Some x =>
      if Z.of_nat (length l) <? effDown cfg
      then NodeMetrics_State (observe cfg l m) = NodeStateSuspect /\
           NodeMetrics_ConsecutiveFails (observe cfg l m) = Z.of_nat (length l)
      else NodeMetrics_State (observe cfg l m) = downKind x.2
  end.
Proof.
  intros Hs Hc. induction l as [|x l IH] using rev_ind; [done|]. intros Hf Hlen.
  apply Forall_app in Hf as [Hf Hx]. rewrite Forall_singleton in Hx.
  rewrite length_app in Hlen |- *. simpl in Hlen |- *.
  rewrite last_snoc, observe_snoc. specialize (IH Hf ltac:(lia)).
  destruct (last l) as [y|] eqn:El.
  - destruct (Z.of_nat (length l) <? effDown cfg) eqn:E.
    + destruct IH as [IHs IHc].
      destruct (NextState_fail x.1 (observe cfg l m) x.2 cfg Hx) as (_ & H1 & H2); [by rewrite IHs|].
      rewrite IHs, IHc, wrap64_id in H1, H2 by lia. simpl in H1, H2.
      replace (Z.of_nat (length l + 1)) with (Z.of_nat (length l) + 1) by lia.
      destruct (_ + 1 <? _); [split|]; done.
    + destruct (downKind_outage y.2) as [Ho Hb].
      destruct (NextState_fail x.1 (observe cfg l m) x.2 cfg Hx) as (_ & H1 & _); [by rewrite IH|].
      rewrite IH, Ho in H1. bool_to_prop.
      rewrite (proj2 (Z.ltb_ge _ _)) by lia. done.
  - apply last_None in El as ->. change (Z.of_nat (length [] + 1)) with 1. simpl observe.
    destruct (NextState_fail x.1 m x.2 cfg Hx) as (_ & H1 & H2); [by rewrite Hs|].
    rewrite Hs, Hc, wrap64_id in H1, H2 by lia. simpl in H1, H2.
    change (0 + 1) with 1 in H1, H2. destruct (1 <? effDown cfg) eqn:E; [split|]; done.
Qed.

Lemma observe_ok cfg l m s :
  NodeMetrics_State m = s -> isOutage s || (s == NodeStateSuspect) = true ->
  NodeMetrics_ConsecutiveOKs m = 0 ->
  Forall (fun x => failing x.2 = false) l -> Z.of_nat (length l) < 2 ^ 63 ->
  if Z.of_nat (length l) <? effRecover cfg
  then NodeMetrics_State (observe cfg l m) = s /\
       NodeMetrics_ConsecutiveOKs (observe cfg l m) = Z.of_nat (length l)
  else NodeMetrics_State (observe cfg l m) = NodeStateHealthy.
Proof.
  intros Hs Ho Hc. pose proof (effRecover_pos cfg) as Hpos.
  assert (s <> NodeStateBlocked /\ (isOutage s || (s != NodeStateHealthy) && (s != "") &&
    (s != NodeStateUnknown)) = true) as [Hnb Hhold].
  { unfold isOutage in *. repeat (rewrite orb_true_iff in Ho || rewrite bool_decide_eq_true in Ho).
    destruct Ho as [[->| ->]| ->]; done. }
  induction l as [|x l IH] using rev_ind; intros Hf Hlen.
  { simpl. by rewrite (proj2 (Z.ltb_lt _ _)). }
  apply Forall_app in Hf as [Hf Hx]. rewrite Forall_singleton in Hx.
  rewrite length_app in Hlen |- *. simpl in Hlen |- *.
  rewrite observe_snoc. specialize (IH Hf ltac:(lia)).
  destruct (Z.of_nat (length l) <? effRecover cfg) eqn:E.
  - destruct IH as [IHs IHc].
    destruct (NextState_ok x.1 (observe cfg l m) x.2 cfg Hx) as (_ & H1 & H2); [by rewrite IHs|].
    rewrite IHs, IHc, wrap64_id, Hhold in H1, H2 by lia.
    replace (Z.of_nat (length l + 1)) with (Z.of_nat (length l) + 1) by lia.
    destruct (_ + 1 <? _); [split|]; done.
  - destruct (NextState_ok x.1 (observe cfg l m) x.2 cfg Hx) as (_ & H1 & _); [by rewrite IH|].
    rewrite IH in H1. bool_to_prop. rewrite (proj2 (Z.ltb_ge _ _)) by lia. done.
Qed.

(** Hysteresis.  From a healthy record, a series of failing probes shorter
    than the down threshold leaves the node suspect, and one at least as long
    leaves it in the state of the last failure (down when SSH answered,
    unreachable when it did not), so a transient failure never takes a node
    out; a following series of good probes shorter than the recover threshold
    keeps that state, and one at least as long makes the node healthy again. *)
Theorem hysteresis cfg bad good m x :
  NodeMetrics_State m = NodeStateHealthy -> NodeMetrics_ConsecutiveFails m = 0 ->
  Forall (fun x => failing x.2 = true) (bad ++ [x]) ->
  Forall (fun x => failing x.2 = false) good ->
  Z.of_nat (length bad) + 1 < 2 ^ 63 -> Z.of_nat (length good) < 2 ^ 63 ->
  let outage := if Z.of_nat (length bad) + 1 <? effDown cfg then NodeStateSuspect else downKind x.2 in
  NodeMetrics_State (observe cfg (bad ++ [x]) m) = outage /\
  NodeMetrics_State (observe cfg good (observe cfg (bad ++ [x]) m)) =
    (if Z.of_nat (length good) <? effRecover cfg then outage else NodeStateHealthy).
Proof.
  intros Hs Hc Hbad Hgood Hl1 Hl2 outage.
  assert (NodeMetrics_State (observe cfg (bad ++ [x]) m) = outage) as Ho.
  { pose proof (observe_failing cfg (bad ++ [x]) m Hs Hc Hbad) as H.
    rewrite last_snoc, length_app in H. simpl in H.
    replace (Z.of_nat (length bad + 1)) with (Z.of_nat (length bad) + 1) in H by lia.
    specialize (H Hl1). unfold outage. by destruct (_ <? _); [destruct H|]. }
  split; [done|].
  assert (NodeMetrics_ConsecutiveOKs (observe cfg (bad ++ [x]) m) = 0) as Hoks.
  { rewrite observe_snoc. apply Forall_app in Hbad as [Hb Hx]. rewrite Forall_singleton in Hx.
    destruct (decide (NodeMetrics_State (observe cfg bad m) = NodeStateBlocked)) as [Eb|Eb].
    - exfalso. rewrite observe_snoc, NextState_blocked in Ho by done. simpl in Ho.
      rewrite Eb in Ho. unfold outage, downKind in Ho. destruct (_ <? _), (SSHOK x.2); done.
    - by destruct (NextState_fail x.1 _ x.2 cfg Hx Eb) as (H & _). }
  assert (isOutage outage || (outage == NodeStateSuspect) = true) as Hk.
  { unfold outage, downKind. destruct (_ <? _), (SSHOK x.2); done. }
  pose proof (observe_ok cfg good _ outage Ho Hk Hoks Hgood Hl2) as H.
  destruct (_ <? effRecover cfg); [by destruct H|done].
Qed.

Lemma hysteresis_witness :
  let m := zeroNodeMetrics <| NodeMetrics_State := NodeStateHealthy |> in
  let p := mkProbeOutcome false false "ssh dial: timeout" in
  let ok := mkProbeOutcome true true "" in
  let m3 := observe DefaultHysteresis [(1, p); (2, p); (3, p)] m in
  NodeMetrics_State m3 = NodeStateUnreachable /\
  NodeMetrics_State (observe DefaultHysteresis [(4, ok)] m3) = NodeStateUnreachable.
Proof.
  intros m p ok m3.
  by apply (hysteresis DefaultHysteresis [(1, p); (2, p)] [(4, ok)] m (3, p)); repeat constructor.
Defined.

(** ** The metrics records on disk *)

(** What writes a metrics record. *)
Inductive HealthEvent :=
  | EvProbe (now : Time) (latency : option Z) (err : option string)
            (status : option Status) (id : string)
  | EvMark (now : Time) (id reason : string)
  | EvClear (now : Time) (id : string).

Definition handle (e : HealthEvent) (w : World) : World :=
  match e with
  | EvProbe now lat err st id => snd (probeHost now lat err st id w)
  | EvMark now id reason => snd (handleMarkNodeBlocked now id reason w)
  | EvClear now id => snd (handleClearNodeBlocked now id w)
  end.

Definition clears (id : string) (e : HealthEvent) : bool :=
  match e with EvClear _ id' => id' == id | _ => false end.

Lemma GetMetrics_id id w m : GetMetrics id w = Ok m -> NodeMetrics_HostID m = id.
Proof.
  unfold GetMetrics. destruct (readAny w) as [sf|]; [|done].
  destruct (find_key id (sf_Metrics sf)) as [m'|] eqn:E; [|done]. intros [= <-].
  by apply find_key_Some in E as [_ E].
Qed.

Lemma metricsOrNew_id id w : NodeMetrics_HostID (metricsOrNew id w) = id.
Proof.
  unfold metricsOrNew. destruct (GetMetrics id w) eqn:E; [|done]. by eapply GetMetrics_id.
Qed.

(** Reading back after a save: the saved record, or the disk is unchanged. *)
Lemma SaveMetrics_get now m w :
  snd (SaveMetrics now m w) = w \/
  forall id, GetMetrics id (snd (SaveMetrics now m w)) =
    (if NodeMetrics_HostID m == id then Ok (m <| NodeMetrics_LastChecked := now |>)
     else match GetMetrics id w with
          | Ok m' => Ok m'
          | Err _ => Err (EMetricsNotFound id)
          end).
Proof.
  unfold SaveMetrics. set (f := fun sf : storeFile => _).
  destruct (modifyStore_cases (readOrNew w) f w) as [[e ->]|(sf & a & sf' & d & H1 & H2 & H3 & ->)];
    [by left|right]. intros id. simpl. injection H2 as <- <-.
  unfold GetMetrics at 1, readAny. rewrite (readStore_sealed _ _ _ H3). simpl.
  set (m' := m <| NodeMetrics_LastChecked := now |>).
  case_bool_decide as E.
  - subst id. change (NodeMetrics_HostID m) with (key_of m'). by rewrite find_upsert_eq.
  - rewrite (find_upsert_ne m') by (intros ->; by apply E).
    revert H1. unfold readOrNew, GetMetrics, readAny.
    destruct (readStore w) as [[]|sf0]; try done; intros [= <-]; [done|].
    by destruct (find_key id (sf_Metrics sf0)).
Qed.

(** The state recorded for a node. *)
Definition stateOf (id : string) (w : World) : option string :=
  match GetMetrics id w with Ok m => Some (NodeMetrics_State m) | Err _ => None end.

Lemma SaveMetrics_state now m w id :
  snd (SaveMetrics now m w) = w \/
  stateOf id (snd (SaveMetrics now m w)) =
    (if NodeMetrics_HostID m == id then Some (NodeMetrics_State m) else stateOf id w).
Proof.
  destruct (SaveMetrics_get now m w) as [H|H]; [by left|right].
  unfold stateOf. rewrite H. case_bool_decide; [done|]. by destruct (GetMetrics id w).
Qed.

Lemma NextState_HostID now m p cfg :
  NodeMetrics_HostID (snd (NextState now m p cfg)) = NodeMetrics_HostID m.
Proof. destruct m. unfold NextState, capCounters. simpl. by repeat (case_step; simpl). Qed.

(** The state a probe records, from the state on disk. *)
Lemma probeHost_state now lat err st id w id' :
  snd (probeHost now lat err st id w) = w \/
  exists m, NodeMetrics_State m = NodeMetrics_State (metricsOrNew id w) /\
    NodeMetrics_ConsecutiveFails m = NodeMetrics_ConsecutiveFails (metricsOrNew id w) /\
    stateOf id' (snd (probeHost now lat err st id w)) =
    (if id == id' then Some (NodeMetrics_State (snd (NextState now m (ClassifyProbe err st) DefaultHysteresis)))
     else stateOf id' w).
Proof.
  unfold probeHost. cbv zeta. simpl snd.
  set (m := recordStatus err st _).
  set (m' := snd (NextState now m _ _)).
  destruct (SaveMetrics_state now (m' <| NodeMetrics_Online := NodeMetrics_State m' == NodeStateHealthy |>) w id')
    as [->| ->]; [by left|right].
  exists m. split_and!.
  - unfold m, recordStatus. by destruct err, st, lat.
  - unfold m, recordStatus. by destruct err, st, lat.
  - simpl. unfold m'. rewrite NextState_HostID.
    assert (NodeMetrics_HostID m = id) as ->; [|done].
    transitivity (NodeMetrics_HostID (metricsOrNew id w)); [|apply metricsOrNew_id].
    unfold m, recordStatus. by destruct err, st, lat.
Qed.

Lemma metricsOrNew_state id w s :
  stateOf id w = Some s -> NodeMetrics_State (metricsOrNew id w) = s.
Proof. unfold stateOf, metricsOrNew. destruct (GetMetrics id w); [|done]. by intros [= <-]. Qed.

Lemma handle_blocked id e w :
  stateOf id w = Some NodeStateBlocked -> clears id e = false ->
  stateOf id (handle e w) = Some NodeStateBlocked.
Proof.
  intros Hb Hc. destruct e as [now lat err st id0|now id0 reason|now id0]; cbn [handle].
  - destruct (probeHost_state now lat err st id0 w id) as [->|(m & Hm & _ & ->)]; [done|].
    case_bool_decide; [|done]. subst id0. rewrite (metricsOrNew_state _ _ _ Hb) in Hm.
    rewrite NextState_blocked by done. simpl. by rewrite Hm.
  - unfold handleMarkNodeBlocked. destruct (GetHost id0 w); [|done]. cbv zeta.
    match goal with |- context [SaveMetrics now ?m w] =>
      pose proof (SaveMetrics_state now m w id) as H; destruct (SaveMetrics now m w) as [[]?] end;
      simpl in *; destruct H as [->|H]; try done; rewrite H; by case_bool_decide.
  - simpl in Hc. unfold handleClearNodeBlocked. destruct (GetHost id0 w); [|done].
    destruct (GetMetrics id0 w) as [m|] eqn:E; [|done].
    destruct (_ != _); [done|].
    match goal with |- context [SaveMetrics now ?m w] =>
      pose proof (SaveMetrics_state now m w id) as H; destruct (SaveMetrics now m w) as [[]?] end;
      simpl in *; destruct H as [->|H]; try done; rewrite H, (GetMetrics_id _ _ _ E), Hc; done.
Qed.

(** A block mark is sticky.  Once a node is recorded as blocked, no series
    of probes, manual checks and operator marks, on this or any other node and
    with any outcome, changes that, as long as the operator does not clear this
    node's block. *)
Theorem blocked_until_cleared id events w :
  stateOf id w = Some NodeStateBlocked ->
  Forall (fun e => clears id e = false) events ->
  stateOf id (fold_left (fun w e => handle e w) events w) = Some NodeStateBlocked.
Proof.
  revert w. induction events as [|e events IH]; intros w Hb Hf; [done|].
  apply Forall_cons in Hf as [He Hf]. simpl. apply IH; [|done]. by apply handle_blocked.
Qed.

Definition blockedWorld : World :=
  mkWorld (Some (Plain (newStoreFile
    <| sf_Hosts := [zeroHost <| Host_ID := "n" |>] |>
    <| sf_Metrics := [zeroNodeMetrics <| NodeMetrics_HostID := "n" |>
                        <| NodeMetrics_State := NodeStateBlocked |>] |>))) None None None [] None.

Lemma blocked_until_cleared_witness :
  stateOf "n" (fold_left (fun w e => handle e w)
    [EvProbe 1 None None (Some (mkStatus true "1.12" 1 "" "" "debian" true true)) "n";
     EvMark 2 "n" "dpi"] blockedWorld) = Some NodeStateBlocked.
Proof. by apply blocked_until_cleared; repeat constructor. Defined.

(** The invariant of a recorded node: a known state, online exactly when
    healthy, and no failure pending while healthy. *)
Record recordOK (m : NodeMetrics) : Prop := mkRecordOK {
  rec_state : NodeMetrics_State m ∈ knownStates;
  rec_online : NodeMetrics_Online m = (NodeMetrics_State m == NodeStateHealthy);
  rec_fails : NodeMetrics_State m = NodeStateHealthy -> NodeMetrics_ConsecutiveFails m = 0 }.

Definition recordsOK (w : World) : Prop := forall id m, GetMetrics id w = Ok m -> recordOK m.

Lemma NextState_known now m p cfg :
  NodeMetrics_State m ∈ knownStates -> NodeMetrics_State (snd (NextState now m p cfg)) ∈ knownStates.
Proof.
  intros Hk. destruct (decide (NodeMetrics_State m = NodeStateBlocked)) as [Eb|Eb].
  { by rewrite NextState_blocked. }
  destruct (failing p) eqn:Ef.
  - destruct (NextState_fail now m p cfg Ef Eb) as (_ & -> & _). unfold downKind, knownStates.
    repeat case_step; set_solver.
  - destruct (NextState_ok now m p cfg Ef Eb) as (_ & -> & _).
    case_step; [done|]. unfold knownStates. set_solver.
Qed.

Lemma NextState_fails now m p cfg :
  (NodeMetrics_State m = NodeStateHealthy -> NodeMetrics_ConsecutiveFails m = 0) ->
  NodeMetrics_State (snd (NextState now m p cfg)) = NodeStateHealthy ->
  NodeMetrics_ConsecutiveFails (snd (NextState now m p cfg)) = 0.
Proof.
  intros Hk. destruct (decide (NodeMetrics_State m = NodeStateBlocked)) as [Eb|Eb].
  { rewrite NextState_blocked by done. done. }
  destruct (failing p) eqn:Ef.
  - destruct (NextState_fail now m p cfg Ef Eb) as (_ & -> & _). unfold downKind.
    repeat case_step; done.
  - by destruct (NextState_ok now m p cfg Ef Eb) as (-> & _).
Qed.

Lemma metricsOrNew_OK id w :
  recordsOK w -> recordOK (metricsOrNew id w).
Proof.
  intros H. unfold metricsOrNew. destruct (GetMetrics id w) eqn:E; [by eapply H|].
  split; [unfold knownStates; set_solver|done|done].
Qed.

Lemma SaveMetrics_OK now m w :
  recordsOK w -> recordOK m -> recordsOK (snd (SaveMetrics now m w)).
Proof.
  intros Hw Hm id m'. destruct (SaveMetrics_get now m w) as [->|H]; [by apply Hw|].
  rewrite H. case_bool_decide.
  - intros [= <-]. by destruct Hm.
  - destruct (GetMetrics id w) eqn:E; [|done]. intros [= <-]. by eapply Hw.
Qed.

Lemma snd_saved {A} (r : Result A * World) (c1 c2 : Z) :
  snd (match r with (Err _, w') => (c1, w') | (Ok _, w') => (c2, w') end) = snd r.
Proof. by destruct r as [[]]. Qed.

Lemma handle_OK e w : recordsOK w -> recordsOK (handle e w).
Proof.
  intros Hw. destruct e as [now lat err st id|now id reason|now id]; cbn [handle].
  - unfold probeHost. cbv zeta. simpl snd. apply SaveMetrics_OK; [done|].
    set (m := recordStatus err st _).
    assert (NodeMetrics_State m = NodeMetrics_State (metricsOrNew id w) /\
      NodeMetrics_ConsecutiveFails m = NodeMetrics_ConsecutiveFails (metricsOrNew id w)) as [H1 H2]
      by (unfold m, recordStatus; by destruct err, st, lat).
    destruct (metricsOrNew_OK id w Hw) as [Hs Ho Hf]. split; simpl; [|done|].
    + apply NextState_known. by rewrite H1.
    + apply NextState_fails. by rewrite H1, H2.
  - unfold handleMarkNodeBlocked. destruct (GetHost id w); [|done].
    rewrite snd_saved. apply SaveMetrics_OK; [done|].
    split; simpl; [unfold knownStates; set_solver|done|done].
  - unfold handleClearNodeBlocked. destruct (GetHost id w); [|done].
    destruct (GetMetrics id w) as [m|] eqn:E; [|done].
    destruct (NodeMetrics_State m != NodeStateBlocked) eqn:Eb; [done|]. bool_to_prop.
    rewrite snd_saved. apply SaveMetrics_OK; [done|].
    destruct (Hw _ _ E) as [Hs Ho Hf].
    split; simpl; [unfold knownStates; set_solver| |done]. by rewrite Ho, Eb.
Qed.

(** The invariant of the health records.  Starting from records in order
    (none, on a fresh store), any series of probes, marks and clears with any
    outcome keeps every record in one of the six states, online exactly when
    healthy, and without pending failures while healthy, which is where the
    hysteresis counts from. *)
Theorem health_records_OK events w :
  recordsOK w -> recordsOK (fold_left (fun w e => handle e w) events w).
Proof.
  revert w. induction events as [|e events IH]; intros w Hw; [done|].
  simpl. by apply IH, handle_OK.
Qed.

Lemma health_records_OK_witness :
  let w := mkWorld (Some (Plain (newStoreFile <| sf_Hosts := [zeroHost <| Host_ID := "n" |>] |>)))
             None None None [] None in
  let w' := fold_left (fun w e => handle e w)
    [EvProbe 1 (Some 9) None (Some (mkStatus true "1.12" 1 "" "" "debian" true true)) "n";
     EvMark 2 "n" "dpi"; EvClear 3 "n"; EvProbe 4 None (Some "timeout") None "n"] w in
  stateOf "n" w' = Some NodeStateUnknown /\ recordsOK w'.
Proof. intros w w'. split; [reflexivity|]. apply health_records_OK. by intros id m. Defined.

(** The closing cap of [NextState] is skipped by the early return of an ongoing
    outage: the failure counter of a node that stays unreachable passes it. *)
Lemma counters_not_capped now p cfg m :
  SSHOK p = false -> NodeMetrics_State m = NodeStateUnreachable ->
  1000 <= NodeMetrics_ConsecutiveFails m < 2 ^ 63 - 1 ->
  1000 < NodeMetrics_ConsecutiveFails (snd (NextState now m p cfg)).
Proof.
  intros Hp Hs Hr. assert (failing p = true) as Hf by (unfold failing; by rewrite Hp).
  destruct (NextState_fail now m p cfg Hf) as (_ & _ & H2); [by rewrite Hs|].
  rewrite Hs, wrap64_id in H2 by lia. simpl in H2. rewrite H2. lia.
Qed.

(** A good probe of a healthy node rewrites the time the state was entered. *)
Lemma healthy_restamped now p cfg m :
  failing p = false -> NodeMetrics_State m = NodeStateHealthy ->
  NodeMetrics_StateChangedAt (snd (NextState now m p cfg)) = now /\
  fst (NextState now m p cfg) = false.
Proof.
  intros Hf Hs. rewrite NextState_changed. destruct m. simpl in Hs. subst.
  unfold failing in Hf. apply negb_false_iff in Hf. unfold NextState, capCounters. simpl.
  rewrite Hf. by repeat (case_step; simpl).
Qed.
