(* ===== verification/AutoRelocate.v ===== *)
(** * AutoRelocate: moving a node to a new server

    internal/chain/autorelocate.go (the guardrails, the choice of a spare and
    its consumption) and relocate.go (the move itself).  The applier that
    redeploys a chain is the interface [ChainApplier], as in the source. *)

From S2P Require Import Prelude GoStrings Model ChainModel StoreCore Store StoreSpec StoreRefine.

(** ** Spares *)

(** [PickSpare]: the scan over the live node infos, in store order. *)
Fixpoint pickSpareFrom (exclude : string) (nodes : list NodeInfo) (w : World) : Result (option NodeInfo) :=
  match nodes with
  | [] => Ok None
  | n :: nodes' =>
      if negb (NodeInfo_Spare n) || (NodeInfo_ID n == exclude) then pickSpareFrom exclude nodes' w
      else if Nat.ltb 0 (length (NodeInfo_Inbounds n)) then pickSpareFrom exclude nodes' w
      else
        match GetChainsForNode (NodeInfo_ID n) w with
        | Err e => Err e
        | Ok chains =>
            if Nat.ltb 0 (length chains) then pickSpareFrom exclude nodes' w else Ok (Some n)
        end
  end.

Definition PickSpare (excludeNodeID : string) (w : World) : Result (option NodeInfo) :=
  match ListNodeInfos w with
  | Err e => Err (EListNodes e)
  | Ok nodes => pickSpareFrom excludeNodeID nodes w
  end.

(** The reasons of the decision, with the errors they report. *)
Inductive DecisionReason :=
  | RSettingsError (e : StoreErr)
  | RDisabledGlobal
  | RNodeError (e : StoreErr)
  | RIsSpare
  | RDisabledNode
  | RCooldown
  | RSpareError (e : StoreErr)
  | RNoSpare
  | RGo.

Definition hour : Z := 3600 * 10 ^ 9.
Definition DefaultAutoRelocateCooldown : Z := 6 * hour.

(** [time.Time.Sub]: the difference, saturated to a [Duration]. *)
Definition timeSub (a b : Time) : Z := Z.max (- 2 ^ 63) (Z.min (2 ^ 63 - 1) (a - b)).

(** [AutoRelocateDecision]. *)
Definition AutoRelocateDecision (nodeID : string) (now : Time) (w : World)
    : option NodeInfo * DecisionReason * bool :=
  match GetSettings w with
  | Err e => (None, RSettingsError e, false)
  | Ok settings =>
      match PanelSettings_AutoRelocate settings with
      | None => (None, RDisabledGlobal, false)
      | Some ar =>
          if negb (AutoRelocateConfig_Enabled ar) then (None, RDisabledGlobal, false)
          else
            match GetNodeInfo nodeID w with
            | Err e => (None, RNodeError e, false)
            | Ok node =>
                if NodeInfo_Spare node then (None, RIsSpare, false)
                else if negb (NodeInfo_AutoRelocate node) then (None, RDisabledNode, false)
                else
                  let cooldown :=
                    if 0 <? AutoRelocateConfig_CooldownHours ar
                    then wrap64 (AutoRelocateConfig_CooldownHours ar * hour)
                    else DefaultAutoRelocateCooldown in
                  if negb (IsZero (NodeInfo_LastAutoRelocateAt node)) &&
                     (timeSub now (NodeInfo_LastAutoRelocateAt node) <? cooldown)
                  then (None, RCooldown, false)
                  else
                    match PickSpare nodeID w with
                    | Err e => (None, RSpareError e, false)
                    | Ok None => (None, RNoSpare, false)
                    | Ok (Some spare) => (Some spare, RGo, true)
                    end
            end
      end
  end.

(** [ConsumeSpare]. *)
Definition ConsumeSpare (spareID : string) : Op unit := fun w =>
  match DeleteNodeInfo spareID w with
  | (Err e, w1) => (Err e, w1)
  | (Ok _, w1) =>
      match DeleteHost spareID w1 with
      | (Err e, w2) => if errors_is e ErrHostNotFound then (Ok tt, w2) else (Err e, w2)
      | (Ok _, w2) => (Ok tt, w2)
      end
  end.

(** ** The move *)

(** The result of deploying one node, and a chain's deployment report. *)
Record NodeResult := mkNodeResult {
  NodeResult_ID : string;
  NodeResult_Success : bool;
  NodeResult_Error : string }.

(** [chainApplier]: deploying a chain may write the store and the chain.  It
    returns a report whenever it returns no error. *)
Class ChainApplier := ApplyChain :
  Chain -> string -> World -> (option (list NodeResult) * option StoreErr) * Chain * World.

Record RelocateChainResult := mkRelocateChainResult {
  RelocateChainResult_Name : string;
  RelocateChainResult_Success : bool;
  RelocateChainResult_Error : option StoreErr;
  RelocateChainResult_Nodes : list NodeResult }.

Record RelocateReport := mkRelocateReport {
  RelocateReport_NodeID : string;
  RelocateReport_OldAddr : string;
  RelocateReport_NewAddr : string;
  RelocateReport_Chains : list RelocateChainResult }.

(** The new address, and the new login where one is given. *)
Definition movedHost (newAddr newUser newKeyPath : string) (h : Host) : Host :=
  let h := h <| Host_Addr := newAddr |> in
  let h := if newUser != "" then h <| Host_User := newUser |> else h in
  if newKeyPath != "" then h <| Host_KeyPath := newKeyPath |> else h.

Definition movedNode (nodeID newAddr newUser newKeyPath : string) (n : ChainNode) : ChainNode :=
  if ChainNode_ID n == nodeID then
    let n := n <| ChainNode_Addr := newAddr |> in
    let n := if newUser != "" then n <| ChainNode_User := newUser |> else n in
    if newKeyPath != "" then n <| ChainNode_KeyPath := newKeyPath |> else n
  else n.

Definition movedChain (nodeID newAddr newUser newKeyPath : string) (c : Chain) : Chain :=
  c <| Chain_Nodes := map (movedNode nodeID newAddr newUser newKeyPath) (Chain_Nodes c) |>.

(** The snapshot loop: the chains are saved one by one, the first error stops. *)
Fixpoint saveMoved (nodeID newAddr newUser newKeyPath : string) (cs : list Chain)
    : Op (list Chain) := fun w =>
  match cs with
  | [] => (Ok [], w)
  | c :: cs' =>
      match SaveChain (movedChain nodeID newAddr newUser newKeyPath c) w with
      | (Err e, w1) => (Err e, w1)
      | (Ok c', w1) =>
          match saveMoved nodeID newAddr newUser newKeyPath cs' w1 with
          | (Err e, w2) => (Err e, w2)
          | (Ok rest, w2) => (Ok (c' :: rest), w2)
          end
      end
  end.

(** The first phase: host, node info and chain snapshots. *)
Definition relocateRecords (nodeID newAddr newUser newKeyPath : string)
    : Op (string * list Chain) := fun w =>
  match GetHost nodeID w with
  | Err e => (Err e, w)
  | Ok host0 =>
      let host := movedHost newAddr newUser newKeyPath host0 in
      match SaveHost host w with
      | (Err e, w1) => (Err e, w1)
      | (Ok _, w1) =>
          let infoSaved :=
            match GetNodeInfo nodeID w1 with
            | Ok info => SaveNodeInfo (info <| NodeInfo_Host := host |>) w1
            | Err _ => (Ok tt, w1)
            end in
          match infoSaved with
          | (Err e, w2) => (Err e, w2)
          | (Ok _, w2) =>
              match GetChainsForNode nodeID w2 with
              | Err e => (Err e, w2)
              | Ok affected =>
                  match saveMoved nodeID newAddr newUser newKeyPath affected w2 with
                  | (Err e, w3) => (Err e, w3)
                  | (Ok cs, w3) => (Ok (Host_Addr host0, cs), w3)
                  end
              end
          end
      end
  end.

(** The second phase: every affected chain is re-applied, none aborts the rest. *)
Section reapply.
Context `{ChainApplier}.

Fixpoint reapply (awgClientPubKey : string) (cs : list Chain) (w : World)
    : list RelocateChainResult * World :=
  match cs with
  | [] => ([], w)
  | c :: cs' =>
      let '(res, w1) :=
        match ResolveNodes c w with
        | Err e => (mkRelocateChainResult (Chain_Name c) false (Some e) [], w)
        | Ok resolved =>
            let c := c <| Chain_Nodes := resolved |> in
            match ApplyChain c awgClientPubKey w with
            | ((rep, Some e), _, w1) =>
                (mkRelocateChainResult (Chain_Name c) false (Some e) (default [] rep), w1)
            | ((rep, None), c', w1) =>
                (mkRelocateChainResult (Chain_Name c) true None (default [] rep),
                 snd (SaveChain c' w1))
            end
        end in
      let '(rest, w2) := reapply awgClientPubKey cs' w1 in
      (res :: rest, w2)
  end.

(** [RelocateNode]; [inl] is its argument check. *)
Definition RelocateNode (nodeID newAddr newUser newKeyPath awgClientPubKey : string) (w : World)
    : (unit + Result RelocateReport) * World :=
  let newAddr := TrimSpace newAddr in
  if (nodeID == "") || (newAddr == "") then (inl tt, w)
  else
    match relocateRecords nodeID newAddr newUser newKeyPath w with
    | (Err e, w1) => (inr (Err e), w1)
    | (Ok (oldAddr, affected), w1) =>
        let '(chains, w2) := reapply awgClientPubKey affected w1 in
        (inr (Ok (mkRelocateReport nodeID oldAddr newAddr chains)), w2)
    end.
End reapply.

(** [countSuccess] and [chainNames]. *)
Definition countSuccess (results : list RelocateChainResult) : nat :=
  length (List.filter RelocateChainResult_Success results).
Definition chainNames (chains : list Chain) : string := Join "," (map Chain_Name chains).

(** ** Lemmas and properties: the choice of a spare *)

(** A spare that may be consumed for [exclude]. *)
Definition eligible (exclude : string) (w : World) (n : NodeInfo) : Prop :=
  NodeInfo_Spare n = true /\ NodeInfo_ID n <> exclude /\ NodeInfo_Inbounds n = [] /\
  GetChainsForNode (NodeInfo_ID n) w = Ok [].

Lemma pickSpareFrom_spec exclude w nodes :
  match pickSpareFrom exclude nodes w with
  | Err e => exists id, GetChainsForNode id w = Err e
  | Ok None => forall n, n ∈ nodes -> ~ eligible exclude w n
  | Ok (Some n) => exists l1 l2, nodes = l1 ++ n :: l2 /\ eligible exclude w n /\
      forall n', n' ∈ l1 -> ~ eligible exclude w n'
  end.
Proof.
  induction nodes as [|n nodes IH]; simpl; [by intros n ?%not_elem_of_nil|].
  assert (~ eligible exclude w n ->
    match pickSpareFrom exclude nodes w with
    | Err e => exists id, GetChainsForNode id w = Err e
    | Ok None => forall m, m ∈ n :: nodes -> ~ eligible exclude w m
    | Ok (Some x) => exists l1 l2, n :: nodes = l1 ++ x :: l2 /\ eligible exclude w x /\
        forall m, m ∈ l1 -> ~ eligible exclude w m
    end) as Hskip.
  { intros Hn. destruct (pickSpareFrom exclude nodes w) as [[x|]|e]; [| |done].
    - destruct IH as (l1 & l2 & -> & He & Hl). exists (n :: l1), l2. split; [done|].
      split; [done|]. intros m [->|Hm]%elem_of_cons; [done|by apply Hl].
    - intros m [->|Hm]%elem_of_cons; [done|by apply IH]. }
  destruct (negb (NodeInfo_Spare n)) eqn:E1; simpl; bool_to_prop.
  { apply Hskip. intros (H & _). congruence. }
  case_bool_decide as E2; [apply Hskip; by intros (_ & H & _)|].
  destruct (NodeInfo_Inbounds n) eqn:E3; simpl; [|apply Hskip; intros (_ & _ & H & _); congruence].
  destruct (GetChainsForNode (NodeInfo_ID n) w) as [[|c cs]|e] eqn:E4; simpl.
  - exists [], nodes. split; [done|]. split; [done|]. by intros ? ?%not_elem_of_nil.
  - apply Hskip. intros (_ & _ & _ & H). congruence.
  - by eexists.
Qed.

(** The cooldown in force. *)
Definition cooldownOf (ar : AutoRelocateConfig) : Z :=
  if 0 <? AutoRelocateConfig_CooldownHours ar
  then wrap64 (AutoRelocateConfig_CooldownHours ar * hour) else DefaultAutoRelocateCooldown.

(** The guardrails of an automatic relocation. *)
Record relocationAllowed (nodeID : string) (now : Time) (w : World) (spare : NodeInfo) : Prop :=
  mkRelocationAllowed {
    ra_settings : exists s ar, GetSettings w = Ok s /\ PanelSettings_AutoRelocate s = Some ar /\
      AutoRelocateConfig_Enabled ar = true /\
      exists node, GetNodeInfo nodeID w = Ok node /\ NodeInfo_Spare node = false /\
        NodeInfo_AutoRelocate node = true /\
        (NodeInfo_LastAutoRelocateAt node = zeroTime \/
         cooldownOf ar <= timeSub now (NodeInfo_LastAutoRelocateAt node));
    ra_spare : exists l1 l2, ListNodeInfos w = Ok (l1 ++ spare :: l2) /\
      eligible nodeID w spare /\ forall n, n ∈ l1 -> ~ eligible nodeID w n }.

(** A branch that refuses: its reason is not [RGo] and the guardrail it tests
    is one of [relocationAllowed]. *)
Ltac refuse H :=
  injection H as <- <- <-; split_and!; [by split|by split; [|intros [? ?]]|];
  intros sp [(s' & ar' & Hs' & Har' & Hen' & node' & Hn' & Hsp' & Hop' & Hc') (l1 & l2 & Hl & He & Hf)];
  try congruence.

(** The guardrails of auto-relocation.  The decision is to go, with a
    spare, exactly when it is enabled globally and for the node, the node is
    not itself inventory, the cooldown has passed, and the spare is the first
    in store order that is marked, is another node, carries no inbound and is
    in no chain; in every other case no spare is returned. *)
Theorem AutoRelocateDecision_guardrails nodeID now w spare reason ok :
  AutoRelocateDecision nodeID now w = (spare, reason, ok) ->
  (ok = true <-> reason = RGo) /\ (ok = true <-> is_Some spare) /\
  match spare with
  | Some sp => relocationAllowed nodeID now w sp
  | None => forall sp, ~ relocationAllowed nodeID now w sp
  end.
Proof.
  unfold AutoRelocateDecision. intros H.
  destruct (GetSettings w) as [s|e] eqn:Es; [|by refuse H].
  destruct (PanelSettings_AutoRelocate s) as [ar|] eqn:Ea; [|by refuse H].
  destruct (AutoRelocateConfig_Enabled ar) eqn:Een; simpl in H; [|by refuse H].
  destruct (GetNodeInfo nodeID w) as [node|e] eqn:En; [|by refuse H].
  destruct (NodeInfo_Spare node) eqn:E1; [by refuse H|].
  destruct (NodeInfo_AutoRelocate node) eqn:E2; simpl in H; [|by refuse H].
  fold (cooldownOf ar) in H. unfold IsZero in H.
  destruct (negb (NodeInfo_LastAutoRelocateAt node =? zeroTime) && _) eqn:Ec.
  { apply andb_true_iff in Ec as [Ec1 Ec2]. bool_to_prop. refuse H.
    assert (s' = s) as -> by congruence. assert (ar' = ar) as -> by congruence.
    assert (node' = node) as -> by congruence. destruct Hc' as [?|?]; [done|lia]. }
  assert (NodeInfo_LastAutoRelocateAt node = zeroTime \/
    cooldownOf ar <= timeSub now (NodeInfo_LastAutoRelocateAt node)) as Hc.
  { apply andb_false_iff in Ec as [Ec|Ec]; bool_to_prop; [by left|by right]. }
  unfold PickSpare in H. destruct (ListNodeInfos w) as [nodes|e] eqn:El; [|by refuse H].
  pose proof (pickSpareFrom_spec nodeID w nodes) as Hp.
  destruct (pickSpareFrom nodeID nodes w) as [[sp|]|e].
  - injection H as <- <- <-. split_and!; [done|by split; [eexists|]|].
    destruct Hp as (l1 & l2 & -> & He & Hf). split; [|by exists l1, l2].
    exists s, ar. split_and!; [done|done|done|]. by exists node.
  - refuse H. assert (nodes = l1 ++ sp :: l2) as -> by congruence.
    apply (Hp sp); [apply elem_of_app; right; by left|done].
  - destruct Hp as [id Hid]. refuse H.
    revert Hid. unfold GetChainsForNode.
    destruct He as (_ & _ & _ & He). unfold GetChainsForNode in He.
    by destruct (ListChains w).
Qed.

Lemma AutoRelocateDecision_guardrails_witness :
  let node := zeroNodeInfo <| NodeInfo_Host := zeroHost <| Host_ID := "n" |> |>
                           <| NodeInfo_AutoRelocate := true |> in
  let sp := zeroNodeInfo <| NodeInfo_Host := zeroHost <| Host_ID := "s" |> |>
                         <| NodeInfo_Spare := true |> in
  let w := mkWorld (Some (Plain (newStoreFile
    <| sf_Hosts := [zeroHost <| Host_ID := "n" |>; zeroHost <| Host_ID := "s" |>] |>
    <| sf_NodeInfos := [node; sp] |>
    <| sf_Settings := Some (zeroPanelSettings <| PanelSettings_AutoRelocate :=
         Some (zeroAutoRelocateConfig <| AutoRelocateConfig_Enabled := true |>) |>) |>)))
    None None None [] None in
  relocationAllowed "n" 5 w sp.
Proof.
  intros node sp w.
  apply (AutoRelocateDecision_guardrails "n" 5 w (Some sp) RGo true). reflexivity.
Defined.

(** ** Lemmas and properties: the move *)

(** What a successful save leaves on disk. *)
Lemma SaveChain_Ok c w c' w' :
  SaveChain c w = (Ok c', w') ->
  c' = syncChain c /\
  exists sf, base w = Some sf /\ base w' = Some (bump (sf <| sf_Chains := upsert c' (sf_Chains sf) |>)).
Proof.
  unfold SaveChain. fold (syncChain c). intros H.
  destruct (modifyStore_Ok _ _ _ _ _ H) as (sf & sf' & Ho & Hf & Hr & _).
  injection Hf as <- <-. split; [done|]. exists sf. split; [by apply base_readOrNew|].
  unfold base. by rewrite Hr.
Qed.

Lemma SaveHost_Ok h w u w' :
  SaveHost h w = (Ok u, w') ->
  exists sf, base w = Some sf /\ base w' = Some (bump (sf <| sf_Hosts := upsert h (sf_Hosts sf) |>)).
Proof.
  unfold SaveHost. intros H.
  destruct (modifyStore_Ok _ _ _ _ _ H) as (sf & sf' & Ho & Hf & Hr & _).
  injection Hf as _ <-. exists sf. split; [by apply base_readOrNew|]. unfold base. by rewrite Hr.
Qed.

Lemma SaveNodeInfo_Ok ni w u w' :
  SaveNodeInfo ni w = (Ok u, w') ->
  exists sf, base w = Some sf /\
    base w' = Some (bump (sf <| sf_NodeInfos := upsert ni (sf_NodeInfos sf) |>)).
Proof.
  unfold SaveNodeInfo. intros H.
  destruct (modifyStore_Ok _ _ _ _ _ H) as (sf & sf' & Ho & Hf & Hr & _).
  injection Hf as _ <-. exists sf. split; [by apply base_readOrNew|]. unfold base. by rewrite Hr.
Qed.

(** Readers in terms of the content. *)
Lemma GetHost_base w sf id h : base w = Some sf -> GetHost id w = Ok h <-> find_key id (sf_Hosts sf) = Some h.
Proof.
  intros Hb. unfold GetHost, readOrErr. destruct (base_opens _ _ Hb) as [_ [E|[E ->]]]; rewrite E; simpl; [|done].
  destruct (find_key id (sf_Hosts sf)); split; by intros [= ->].
Qed.

Lemma GetChain_base w sf name c :
  base w = Some sf -> GetChain name w = Ok c <-> find_key name (sf_Chains sf) = Some c.
Proof.
  intros Hb. unfold GetChain, readOrErr. destruct (base_opens _ _ Hb) as [_ [E|[E ->]]]; rewrite E; simpl; [|done].
  destruct (find_key name (sf_Chains sf)); split; by intros [= ->].
Qed.

Lemma GetNodeInfo_base w sf id i :
  base w = Some sf -> GetNodeInfo id w = Ok i <-> find_key id (sf_NodeInfos sf) = Some i.
Proof.
  intros Hb. unfold GetNodeInfo, readAny. destruct (base_opens _ _ Hb) as [_ [E|[E ->]]]; rewrite E; simpl; [|done].
  destruct (find_key id (sf_NodeInfos sf)); split; by intros [= ->].
Qed.

Lemma ListChains_base w sf : base w = Some sf -> ListChains w = Ok (sf_Chains sf).
Proof. intros Hb. unfold ListChains, listStore. by destruct (base_opens _ _ Hb) as [_ [E|[E ->]]]; rewrite E. Qed.

Lemma GetChainsForNode_base w sf id :
  base w = Some sf -> GetChainsForNode id w = Ok (List.filter (chainHasNode id) (sf_Chains sf)).
Proof. intros Hb. unfold GetChainsForNode. by rewrite (ListChains_base _ _ Hb). Qed.

Lemma syncChain_name c : Chain_Name (syncChain c) = Chain_Name c.
Proof. unfold syncChain. by destruct (IsLevelized c). Qed.

Lemma find_key_filter `{Keyed A} (P : A -> bool) k l :
  NoDup (keys l) ->
  find_key k (List.filter P l) =
  match find_key k l with Some c => if P c then Some c else None | None => None end.
Proof.
  induction l as [|x l IH]; simpl; intros Hnd; [done|].
  apply NoDup_cons in Hnd as [Hx Hnd]. unfold find_key in *. simpl.
  case_bool_decide as E.
  - subst k. destruct (P x) eqn:Ep; simpl.
    + by rewrite bool_decide_eq_true_2.
    + rewrite IH by done. apply (find_key_None (key_of x) l) in Hx. unfold find_key in Hx. by rewrite Hx.
  - destruct (P x); simpl; [rewrite bool_decide_eq_false_2 by done|]; by apply IH.
Qed.

Section moved.
Context (nodeID newAddr newUser newKeyPath : string).

Let moved : Chain -> Chain := movedChain nodeID newAddr newUser newKeyPath.

Lemma AllNodes_sync_moved c :
  AllNodes (syncChain (moved c)) =
  if negb (IsLevelized c) then map (movedNode nodeID newAddr newUser newKeyPath) (AllNodes c)
  else AllNodes c.
Proof.
  unfold syncChain, moved, movedChain. destruct (IsLevelized c) eqn:E;
    unfold AllNodes; unfold IsLevelized in *; simpl; by rewrite E; simpl; rewrite ?E.
Qed.

Lemma saveMoved_Ok cs : forall w sf cs' w',
  base w = Some sf -> saveMoved nodeID newAddr newUser newKeyPath cs w = (Ok cs', w') ->
  cs' = map (fun c => syncChain (moved c)) cs /\
  exists sf', base w' = Some sf' /\ sf_Hosts sf' = sf_Hosts sf /\ sf_NodeInfos sf' = sf_NodeInfos sf /\
    forall k, NoDup (keys cs) ->
      find_key k (sf_Chains sf') =
      match find_key k cs with
      | Some c => Some (syncChain (moved c))
      | None => find_key k (sf_Chains sf)
      end.
Proof.
  induction cs as [|c cs IH]; intros w sf cs' w' Hb H; simpl in H.
  - injection H as <- <-. split; [done|]. by exists sf.
  - destruct (SaveChain (movedChain nodeID newAddr newUser newKeyPath c) w) as [[c1|e] w1] eqn:E; [|done].
    destruct (SaveChain_Ok _ _ _ _ E) as (-> & sf0 & Hb0 & Hb1).
    assert (sf0 = sf) as -> by congruence.
    destruct (saveMoved _ _ _ _ cs w1) as [[rest|e] w2] eqn:E2; [|done]. injection H as <- <-.
    destruct (IH _ _ _ _ Hb1 E2) as (-> & sf' & Hb2 & Hh & Hi & Hk).
    split; [done|]. exists sf'. split_and!; [done|done|done|].
    intros k Hnd. apply NoDup_cons in Hnd as [Hc Hnd]. rewrite (Hk k Hnd). simpl.
    unfold find_key at 3. simpl. fold (find_key k cs).
    set (c1 := syncChain (movedChain nodeID newAddr newUser newKeyPath c)).
    assert (key_of c1 = key_of c) as Hkey
      by (unfold c1, key_of, keyed_Chain; by rewrite syncChain_name).
    case_bool_decide as Ek.
    + subst k. rewrite (proj2 (find_key_None (key_of c) cs)) by done.
      rewrite <- Hkey. apply find_upsert_eq.
    + destruct (find_key k cs); [done|]. apply find_upsert_ne. congruence.
Qed.

(** Relocating a node rewrites its records.  When the first phase of
    [RelocateNode] succeeds on well-formed content, the host has the new
    address (and login where given), its node info embeds exactly that host,
    chains without the node are untouched, and in a legacy chain that contains
    it the snapshot of the node, and only that, is moved while all key
    material stays.  In a levelized chain the snapshot keeps the old address:
    the flat list that was edited is re-derived from the levels by the save. *)
Theorem relocate_records w sf old cs w' :
  base w = Some sf -> WF sf ->
  relocateRecords nodeID newAddr newUser newKeyPath w = (Ok (old, cs), w') ->
  exists h0, GetHost nodeID w = Ok h0 /\ old = Host_Addr h0 /\
    GetHost nodeID w' = Ok (movedHost newAddr newUser newKeyPath h0) /\
    (forall i, GetNodeInfo nodeID w' = Ok i -> NodeInfo_Host i = movedHost newAddr newUser newKeyPath h0) /\
    forall name c, GetChain name w = Ok c ->
      exists c', GetChain name w' = Ok c' /\
        AllNodes c' = (if chainHasNode nodeID c && negb (IsLevelized c)
                       then map (movedNode nodeID newAddr newUser newKeyPath) (AllNodes c)
                       else AllNodes c).
Proof.
  intros Hb Hwf. unfold relocateRecords.
  destruct (GetHost nodeID w) as [h0|] eqn:Eh; [|done].
  set (host := movedHost newAddr newUser newKeyPath h0).
  assert (Host_ID host = nodeID) as Hid.
  { apply (GetHost_base _ _ _ _ Hb), find_key_Some in Eh as [_ Eh].
    unfold host, movedHost. by destruct (newUser != ""), (newKeyPath != ""). }
  destruct (SaveHost host w) as [[u|] w1] eqn:E1; [|done].
  destruct (SaveHost_Ok _ _ _ _ E1) as (sf0 & Hb0 & Hb1). assert (sf0 = sf) as -> by congruence.
  match goal with |- context [match ?s with _ => _ end] => set (saved := s) end.
  destruct saved as [[u2|] w2] eqn:E2; [|done].
  assert (exists sf2, base w2 = Some sf2 /\ sf_Hosts sf2 = upsert host (sf_Hosts sf) /\
    sf_Chains sf2 = sf_Chains sf /\
    forall i, find_key nodeID (sf_NodeInfos sf2) = Some i -> NodeInfo_Host i = host) as
    (sf2 & Hb2 & Hh2 & Hc2 & Hi2).
  { unfold saved in E2. destruct (GetNodeInfo nodeID w1) as [info|] eqn:Ei.
    - destruct (SaveNodeInfo_Ok _ _ _ _ E2) as (sf1 & Hb1' & Hb2).
      rewrite Hb1 in Hb1'. injection Hb1' as <-. eexists. split_and!; [exact Hb2|done|done|].
      simpl. set (info' := info <| NodeInfo_Host := host |>). intros i.
      rewrite <- Hid. change (Host_ID host) with (key_of info') at 1.
      rewrite find_upsert_eq. by intros [= <-].
    - injection E2 as <- <-. eexists. split_and!; [exact Hb1|done|done|].
      intros i Hi. exfalso. apply (GetNodeInfo_base _ _ _ _ Hb1) in Hi. congruence. }
  rewrite (GetChainsForNode_base _ _ _ Hb2).
  destruct (saveMoved _ _ _ _ _ w2) as [[cs'|] w3] eqn:E3; [|done]. intros [= <- <- <-].
  destruct (saveMoved_Ok _ _ _ _ _ Hb2 E3) as (_ & sf3 & Hb3 & Hh3 & Hi3 & Hk).
  exists h0. split_and!; [done|done| | |].
  - apply (GetHost_base _ _ _ _ Hb3). rewrite Hh3, Hh2. fold host. rewrite <- Hid.
    apply (find_upsert_eq host).
  - intros i Hi. apply Hi2. rewrite <- Hi3. by apply (GetNodeInfo_base _ _ _ _ Hb3).
  - intros name c Hc. apply (GetChain_base _ _ _ _ Hb) in Hc.
    rewrite Hc2 in Hk. specialize (Hk name (NoDup_keys_filter _ _ (wf_chains _ Hwf))).
    rewrite find_key_filter, Hc in Hk by apply (wf_chains _ Hwf).
    destruct (chainHasNode nodeID c) eqn:Ep; simpl.
    + exists (syncChain (moved c)). split; [by apply (GetChain_base _ _ _ _ Hb3)|].
      apply AllNodes_sync_moved.
    + exists c. split; [|done]. apply (GetChain_base _ _ _ _ Hb3). by rewrite Hk.
Qed.
End moved.

(** A store with host "a" in a legacy chain and in a levelized one. *)
Definition sampleNode (id : string) : ChainNode :=
  zeroChainNode <| ChainNode_ID := id |> <| ChainNode_Addr := "1.1.1.1:22" |>
                <| ChainNode_TransitUUID := "u" |>.
Definition sampleFile : storeFile :=
  newStoreFile
    <| sf_Hosts := [mkHost "a" "1.1.1.1:22" "root" ""] |>
    <| sf_Chains :=
       [zeroChain <| Chain_Name := "flat" |> <| Chain_Nodes := [sampleNode "a"; sampleNode "b"] |>;
        zeroChain <| Chain_Name := "lev" |> <| Chain_Nodes := [sampleNode "a"] |>
                  <| Chain_Levels := [zeroChainLevel <| ChainLevel_Nodes := [sampleNode "a"] |>] |>] |>.
Definition sampleWorld : World := mkWorld (Some (Plain sampleFile)) None None None [] None.

Lemma sampleFile_WF : WF sampleFile.
Proof.
  destruct WF_new. constructor; simpl; try done; [apply NoDup_singleton| |].
  - apply NoDup_cons. split; [|apply NoDup_singleton]. by intros ?%list_elem_of_singleton.
  - intros c [->|[->|Hn%not_elem_of_nil]%elem_of_cons]%elem_of_cons; done.
Qed.

Lemma relocate_records_witness :
  exists h0, GetHost "a" sampleWorld = Ok h0 /\
  exists c', GetChain "lev" (snd (relocateRecords "a" "2.2.2.2:22" "" "" sampleWorld)) = Ok c' /\
    AllNodes c' = [sampleNode "a"].
Proof.
  destruct (relocateRecords "a" "2.2.2.2:22" "" "" sampleWorld) as [[[old cs]|e] w'] eqn:E.
  - destruct (relocate_records "a" "2.2.2.2:22" "" "" sampleWorld sampleFile old cs w'
      eq_refl sampleFile_WF E) as (h0 & Hh & _ & _ & _ & H).
    exists h0. split; [exact Hh|]. exact (H "lev" _ eq_refl).
  - exfalso. vm_compute in E. discriminate E.
Defined.
