(* ===== verification/Alloc.v ===== *)
(** * Alloc: tunnel addresses and per-user credentials

    internal/chain/cryptogen.go.  The address allocators of the AmneziaWG
    subnets, and [EnsureUserCreds], which completes a user's credentials.  The
    values drawn from crypto/rand are arguments: [CredGen] holds what each
    generator returns during one call. *)

From S2P Require Import Prelude GoStrings Model.

(** ** Tunnel addresses *)

Definition slash : ascii := "/"%char.
Definition dot : ascii := "."%char.

(** [awgIPKey]: the address before the first slash. *)
Definition awgIPKey (a : string) : string :=
  match cut_at slash a with Some (ip, _) => ip | None => a end.

(** [awgServerPrefix]. *)
Definition awgServerPrefix (serverAddr : string) : string :=
  let a := match cut_at slash serverAddr with Some (ip, _) => ip | None => serverAddr end in
  match Split dot a with
  | p0 :: p1 :: p2 :: _ => p0 +:+ "." +:+ p1 +:+ "." +:+ p2
  | _ => "10.8.0"
  end.

(** The integers of a Go loop [for i := lo; i <= hi; i++]. *)
Definition zrange (lo : Z) (n : nat) : list Z := map (fun i => lo + Z.of_nat i) (seq 0 n).

Definition occupiedBy (key : string -> string) (taken : list string) (k : string) : bool :=
  existsb (fun a => key a == k) taken.

Definition hostIP (prefix : string) (host : Z) : string := prefix +:+ "." +:+ itoa host +:+ "/32".

(** [allocateAWGHostIP]: the first free host part 2..254, "" when exhausted. *)
Definition allocateAWGHostIP (prefix : string) (taken : list string) : string :=
  match List.find (fun h => negb (occupiedBy awgIPKey taken (awgIPKey (hostIP prefix h))))
          (zrange 2 253) with
  | Some h => hostIP prefix h
  | None => ""
  end.

(** [allocateAWGPeerIPInSubnet] has the same body. *)
Definition allocateAWGPeerIPInSubnet (prefix : string) (taken : list string) : string :=
  match List.find (fun h => negb (occupiedBy awgIPKey taken (awgIPKey (hostIP prefix h))))
          (zrange 2 253) with
  | Some h => hostIP prefix h
  | None => ""
  end.

Definition allocateAWGPeerIP (taken : list string) : string := allocateAWGPeerIPInSubnet "10.8.0" taken.
Definition allocateAWGTransitIP (taken : list string) : string := allocateAWGHostIP "10.9.0" taken.
Definition allocateAWGExitIP (taken : list string) : string := allocateAWGHostIP "10.10.0" taken.

(** [allocateAWGServerSubnet]: the first free 10.8.X.1/24, X = 1..250. *)
Definition serverPrefix (sub : Z) : string := "10.8." +:+ itoa sub.
Definition allocateAWGServerSubnet (taken : list string) : string :=
  match List.find (fun s => negb (occupiedBy awgServerPrefix taken (serverPrefix s))) (zrange 1 250) with
  | Some s => serverPrefix s +:+ ".1/24"
  | None => "10.8.0.1/24"
  end.

(** [EnsureUserAWGAddressPrefix] and [EnsureUserAWGAddress]. *)
Definition hasProtocol (u : User) (p : string) : bool := existsb (fun x => x == p) (User_Protocols u).

Definition EnsureUserAWGAddressPrefix (u : User) (existing : list string) (prefix : string) : User :=
  if User_AWGAddress u != "" then u
  else if negb (hasProtocol u "awg") then u
  else
    let prefix := if prefix == "" then "10.8.0" else prefix in
    u <| User_AWGAddress := allocateAWGPeerIPInSubnet prefix existing |>.

Definition EnsureUserAWGAddress (u : User) (existing : list string) : User :=
  EnsureUserAWGAddressPrefix u existing "10.8.0".

(** ** Credentials *)

(** [sanitizeProxyUsername]: every kept rune is one ASCII byte. *)
Definition proxyChar (c : ascii) : bool :=
  let n := Ascii.nat_of_ascii c in
  (Nat.leb 97 n && Nat.leb n 122) || (Nat.leb 65 n && Nat.leb n 90) ||
  (Nat.leb 48 n && Nat.leb n 57) || Nat.eqb n 95 || Nat.eqb n 45.

Fixpoint filterString (f : ascii -> bool) (s : string) : string :=
  match s with
  | EmptyString => EmptyString
  | String c s' => if f c then String c (filterString f s') else filterString f s'
  end.

Definition sanitizeProxyUsername (name : string) : string :=
  let b := filterString proxyChar name in
  if Nat.eqb (String.length b) 0 then "user" else b.

(** What the generators return during one call; [None] is an error. *)
Record CredGen := mkCredGen {
  gen_vlessUUID : string;
  gen_tuicUUID : string;
  gen_tuicPassword : option string;
  gen_hysteria2 : string;
  gen_wgKeypair : option (string * string);
  gen_psk : option string;
  gen_naivePassword : option string;
  gen_mieruPassword : option string;
  gen_ttPassword : option string }.

(** [if field == "" { v, err := gen(); if err != nil { return err }; field = v }],
    continued by [k]. *)
Definition fillOr (cur : string) (gen : option string) (set : string -> User -> User) (u : User)
    (k : User -> User * bool) : User * bool :=
  if cur == "" then
    match gen with Some v => k (set v u) | None => (u, false) end
  else k u.

Definition setNaivePassword v (u : User) := u <| User_NaivePassword := v |>.
Definition setMieruPassword v (u : User) := u <| User_MieruPassword := v |>.
Definition setTTPassword v (u : User) := u <| User_TrustTunnelPassword := v |>.
Definition setTUICPassword v (u : User) := u <| User_TUICPassword := v |>.
Definition setPSK v (u : User) := u <| User_AWGPresharedKey := v |>.

(** [ensureTunnelUserCreds]: the user so far, and whether it returned nil. *)
Definition ensureTunnelUserCreds (g : CredGen) (u : User) : User * bool :=
  let u := if User_NaiveUsername u == ""
           then u <| User_NaiveUsername := sanitizeProxyUsername (User_Name u) |> else u in
  fillOr (User_NaivePassword u) (gen_naivePassword g) setNaivePassword u (fun u =>
  let u := if User_MieruUsername u == ""
           then u <| User_MieruUsername := sanitizeProxyUsername (User_Name u) |> else u in
  fillOr (User_MieruPassword u) (gen_mieruPassword g) setMieruPassword u (fun u =>
  let u := if User_TrustTunnelUsername u == ""
           then u <| User_TrustTunnelUsername := sanitizeProxyUsername (User_Name u) |> else u in
  fillOr (User_TrustTunnelPassword u) (gen_ttPassword g) setTTPassword u (fun u => (u, true)))).

(** [EnsureUserCreds], after the TUIC credentials and as a whole. *)
Definition ensureLaterCreds (g : CredGen) (u : User) : User * bool :=
  let u := if hasProtocol u "hysteria2" && (User_Hysteria2Password u == "")
           then u <| User_Hysteria2Password := gen_hysteria2 g |> else u in
  let u := if hasProtocol u "awg" && (User_AWGPrivateKey u == "")
           then match gen_wgKeypair g with
                | Some (priv, pub) => u <| User_AWGPrivateKey := priv |> <| User_AWGPublicKey := pub |>
                | None => u
                end
           else u in
  if hasProtocol u "awg"
  then fillOr (User_AWGPresharedKey u) (gen_psk g) setPSK u (ensureTunnelUserCreds g)
  else ensureTunnelUserCreds g u.

Definition EnsureUserCreds (g : CredGen) (u : User) : User * bool :=
  let u := if hasProtocol u "vless-reality" && (User_VLESSUUID u == "")
           then u <| User_VLESSUUID := gen_vlessUUID g |> else u in
  if hasProtocol u "tuic" then
    let u := if User_TUICUUID u == "" then u <| User_TUICUUID := gen_tuicUUID g |> else u in
    fillOr (User_TUICPassword u) (gen_tuicPassword g) setTUICPassword u (ensureLaterCreds g)
  else ensureLaterCreds g u.

(** ** Lemmas: the allocators *)

Lemma elem_of_zrange x lo n : x ∈ zrange lo n <-> lo <= x < lo + Z.of_nat n.
Proof.
  unfold zrange. rewrite list_elem_of_In, in_map_iff. split.
  - intros (i & <- & Hi%in_seq). lia.
  - intros H. exists (Z.to_nat (x - lo)). split; [lia|]. apply in_seq. lia.
Qed.

Lemma occupiedBy_spec key taken k : occupiedBy key taken k = true <-> k ∈ map key taken.
Proof.
  unfold occupiedBy. rewrite existsb_exists, list_elem_of_In, in_map_iff.
  split; intros (a & H1 & H2); exists a; [apply bool_decide_eq_true in H2|rewrite bool_decide_eq_true]; done.
Qed.

(** A linear search over a range returns the least element that passes. *)
Lemma find_zrange_Some f lo n x :
  List.find f (zrange lo n) = Some x ->
  lo <= x < lo + Z.of_nat n /\ f x = true /\ forall y, lo <= y < x -> f y = false.
Proof.
  unfold zrange. revert lo. induction n as [|n IH]; intros lo; simpl; [done|].
  rewrite Z.add_0_r. destruct (f lo) eqn:E.
  - intros [= <-]. split; [lia|]. split; [done|]. intros y Hy. lia.
  - rewrite <- seq_shift, map_map.
    erewrite map_ext; [intros H; destruct (IH (lo + 1) H) as (H1 & H2 & H3)|intros; simpl; lia].
    split; [lia|]. split; [done|]. intros y Hy.
    destruct (decide (y = lo)) as [->|]; [done|]. apply H3. lia.
Qed.

Lemma find_zrange_None f lo n :
  List.find f (zrange lo n) = None -> forall y, lo <= y < lo + Z.of_nat n -> f y = false.
Proof.
  intros H y Hy. apply (List.find_none _ _ H), list_elem_of_In, elem_of_zrange, Hy.
Qed.

(** A subnet prefix as the program passes it: no slash. *)
Definition plainPrefix (prefix : string) : Prop := contains_byte slash prefix = false.

(** The bare address a host part stands for. *)
Definition bareIP (prefix : string) (h : Z) : string := prefix +:+ "." +:+ itoa h.

Lemma awgIPKey_hostIP prefix h : plainPrefix prefix -> awgIPKey (hostIP prefix h) = bareIP prefix h.
Proof.
  intros Hp. unfold awgIPKey, hostIP, bareIP.
  replace (prefix +:+ "." +:+ itoa h +:+ "/32") with ((prefix +:+ "." +:+ itoa h) +:+ String slash "32")
    by (by rewrite <- !string_app_assoc).
  rewrite cut_at_app; [done|].
  rewrite !contains_byte_app, Hp. simpl. by rewrite itoa_no.
Qed.

Lemma bareIP_inj prefix h1 h2 : bareIP prefix h1 = bareIP prefix h2 -> h1 = h2.
Proof. unfold bareIP. intros H%append_inj_l%append_inj_l. by apply itoa_inj. Qed.

(** The contract of the host allocators. *)
Record firstFree (prefix : string) (taken : list string) (ip : string) : Prop := mkFirstFree {
  ff_host : exists h, 2 <= h <= 254 /\ ip = hostIP prefix h /\ awgIPKey ip = bareIP prefix h /\
    forall h', 2 <= h' < h -> bareIP prefix h' ∈ map awgIPKey taken;
  ff_free : awgIPKey ip ∉ map awgIPKey taken }.

Lemma hostIP_nonempty prefix h : hostIP prefix h <> "".
Proof. unfold hostIP. by destruct prefix. Qed.

Lemma allocateAWGHostIP_spec prefix taken :
  plainPrefix prefix ->
  (firstFree prefix taken (allocateAWGHostIP prefix taken)) \/
  (allocateAWGHostIP prefix taken = "" /\
   forall h, 2 <= h <= 254 -> bareIP prefix h ∈ map awgIPKey taken).
Proof.
  intros Hp. unfold allocateAWGHostIP. destruct (List.find _ _) as [h|] eqn:E.
  - left. destruct (find_zrange_Some _ _ _ _ E) as (Hr & Hf & Hmin).
    apply negb_true_iff, not_true_iff_false in Hf. rewrite occupiedBy_spec in Hf.
    split; [|done]. exists h. split; [lia|]. rewrite awgIPKey_hostIP by done. split_and!; [done|done|].
    intros h' Hh'. specialize (Hmin h' Hh'). apply negb_false_iff, occupiedBy_spec in Hmin.
    by rewrite awgIPKey_hostIP in Hmin.
  - right. split; [done|]. intros h Hh. pose proof (find_zrange_None _ _ _ E h ltac:(lia)) as Hf.
    apply negb_false_iff, occupiedBy_spec in Hf. by rewrite awgIPKey_hostIP in Hf.
Qed.

Lemma allocateAWGHostIP_free prefix taken :
  plainPrefix prefix -> (length taken < 253)%nat -> firstFree prefix taken (allocateAWGHostIP prefix taken).
Proof.
  intros Hp Hlen. destruct (allocateAWGHostIP_spec prefix taken Hp) as [H|[_ Hall]]; [done|exfalso].
  assert (incl (map (bareIP prefix) (zrange 2 253)) (map awgIPKey taken)) as Hincl.
  { intros x (h & <- & Hh)%in_map_iff. apply list_elem_of_In, elem_of_zrange in Hh.
    apply list_elem_of_In, Hall. lia. }
  apply NoDup_incl_length in Hincl.
  - rewrite !length_map in Hincl. unfold zrange in Hincl. rewrite length_map, length_seq in Hincl. lia.
  - apply Finite.Injective_map_NoDup; [intros a b; apply bareIP_inj|].
    unfold zrange. apply Finite.Injective_map_NoDup; [intros a b; lia|]. apply seq_NoDup.
Qed.

(** The subnets of servers: the prefix of an allocated one is its own. *)
Lemma awgServerPrefix_subnet s : awgServerPrefix (serverPrefix s +:+ ".1/24") = serverPrefix s.
Proof.
  unfold awgServerPrefix, serverPrefix.
  replace (("10.8." +:+ itoa s) +:+ ".1/24") with (("10.8." +:+ itoa s +:+ ".1") +:+ String slash "24")
    by (by rewrite <- !string_app_assoc).
  rewrite cut_at_app by (rewrite !contains_byte_app; cbn; by rewrite itoa_no).
  change ("10.8." +:+ itoa s +:+ ".1") with ("10" +:+ String dot ("8" +:+ String dot (itoa s +:+ String dot "1"))).
  rewrite !Split_app by (try done; by apply itoa_no). reflexivity.
Qed.

Lemma serverPrefix_inj s t : serverPrefix s = serverPrefix t -> s = t.
Proof. unfold serverPrefix. intros H%append_inj_l. by apply itoa_inj. Qed.

Lemma allocateAWGServerSubnet_free taken :
  (length taken < 250)%nat ->
  awgServerPrefix (allocateAWGServerSubnet taken) ∉ map awgServerPrefix taken /\
  exists s, 1 <= s <= 250 /\ allocateAWGServerSubnet taken = serverPrefix s +:+ ".1/24".
Proof.
  intros Hlen. unfold allocateAWGServerSubnet. destruct (List.find _ _) as [s|] eqn:E.
  - destruct (find_zrange_Some _ _ _ _ E) as (Hr & Hf & _).
    apply negb_true_iff, not_true_iff_false in Hf. rewrite occupiedBy_spec in Hf.
    rewrite awgServerPrefix_subnet. split; [done|]. exists s. split; [lia|done].
  - exfalso. assert (incl (map serverPrefix (zrange 1 250)) (map awgServerPrefix taken)) as Hincl.
    { intros x (s & <- & Hs)%in_map_iff. apply list_elem_of_In, elem_of_zrange in Hs.
      pose proof (find_zrange_None _ _ _ E s ltac:(lia)) as Hf.
      apply negb_false_iff, occupiedBy_spec in Hf. by apply list_elem_of_In. }
    apply NoDup_incl_length in Hincl.
    + rewrite !length_map in Hincl. unfold zrange in Hincl. rewrite length_map, length_seq in Hincl. lia.
    + apply Finite.Injective_map_NoDup; [intros a b; apply serverPrefix_inj|].
      unfold zrange. apply Finite.Injective_map_NoDup; [intros a b; lia|]. apply seq_NoDup.
Qed.

(** Allocating one address after the other, each added to the taken ones. *)
Fixpoint allocateMany (alloc : list string -> string) (n : nat) (taken : list string) : list string :=
  match n with
  | O => []
  | S n' => let ip := alloc taken in ip :: allocateMany alloc n' (taken ++ [ip])
  end.

Lemma allocateMany_spec prefix n : forall taken,
  plainPrefix prefix -> (n + length taken <= 253)%nat ->
  let ips := allocateMany (allocateAWGHostIP prefix) n taken in
  NoDup (map awgIPKey ips) /\
  forall ip, ip ∈ ips -> (exists h, 2 <= h <= 254 /\ ip = hostIP prefix h) /\
    awgIPKey ip ∉ map awgIPKey taken.
Proof.
  induction n as [|n IH]; intros taken Hp Hlen; simpl.
  { split; [apply NoDup_nil_2|]. by intros ip ?%not_elem_of_nil. }
  destruct (allocateAWGHostIP_free prefix taken Hp ltac:(lia)) as [(h & Hh & Hip & _ & _) Hfree].
  set (ip := allocateAWGHostIP prefix taken) in *.
  destruct (IH (taken ++ [ip])) as [Hnd Hall]; [done|rewrite length_app; simpl; lia|].
  split.
  - apply NoDup_cons. split; [|done]. rewrite list_elem_of_In, in_map_iff.
    intros (ip' & Hk & Hin). apply list_elem_of_In in Hin. destruct (Hall _ Hin) as [_ Hn].
    apply Hn. rewrite map_app, Hk. apply elem_of_app. right. by left.
  - intros ip' [->|Hin]%elem_of_cons; [by split; [exists h|]|].
    destruct (Hall _ Hin) as [Hex Hn]. split; [done|]. intros Hk. apply Hn.
    rewrite map_app. apply elem_of_app. by left.
Qed.

(** Address allocation.  As long as a /24 is not exhausted, each allocation
    in a pool returns the first host part 2..254 whose address is not taken in
    any notation, and addresses allocated one after the other are pairwise
    different; the pools of peers, transit links and exit links are disjoint. *)
Theorem allocation_unique n taken :
  (n + length taken <= 253)%nat ->
  let peers := allocateMany allocateAWGPeerIP n taken in
  let transits := allocateMany allocateAWGTransitIP n taken in
  let exits := allocateMany allocateAWGExitIP n taken in
  NoDup (map awgIPKey (peers ++ transits ++ exits)) /\
  (forall ip, ip ∈ peers ++ transits ++ exits -> ip <> "" /\ awgIPKey ip ∉ map awgIPKey taken).
Proof.
  intros Hlen peers transits exits.
  destruct (allocateMany_spec "10.8.0" n taken eq_refl Hlen) as [H1 H1'].
  destruct (allocateMany_spec "10.9.0" n taken eq_refl Hlen) as [H2 H2'].
  destruct (allocateMany_spec "10.10.0" n taken eq_refl Hlen) as [H3 H3'].
  change (allocateMany (allocateAWGHostIP "10.8.0") n taken) with peers in *.
  change (allocateMany (allocateAWGHostIP "10.9.0") n taken) with transits in *.
  change (allocateMany (allocateAWGHostIP "10.10.0") n taken) with exits in *.
  assert (forall p l x, plainPrefix p ->
    (forall ip, ip ∈ l -> (exists h, 2 <= h <= 254 /\ ip = hostIP p h) /\ awgIPKey ip ∉ map awgIPKey taken) ->
    x ∈ map awgIPKey l -> exists h, x = bareIP p h) as Hpool.
  { intros p l x Hp Hl Hx. apply list_elem_of_In, in_map_iff in Hx as (ip & <- & Hin).
    apply list_elem_of_In in Hin. destruct (Hl _ Hin) as [(h & _ & ->) _].
    exists h. by apply awgIPKey_hostIP. }
  split.
  - rewrite !map_app. apply NoDup_app. split; [done|]. split; [|apply NoDup_app; split; [done|split; [|done]]].
    + intros x Hx Hy. destruct (Hpool "10.8.0" peers x eq_refl H1' Hx) as [h ->].
      apply elem_of_app in Hy as [Hy|Hy];
        [destruct (Hpool "10.9.0" transits _ eq_refl H2' Hy) as [h' E]
        |destruct (Hpool "10.10.0" exits _ eq_refl H3' Hy) as [h' E]]; by unfold bareIP in E.
    + intros x Hx Hy. destruct (Hpool "10.9.0" transits x eq_refl H2' Hx) as [h ->].
      destruct (Hpool "10.10.0" exits _ eq_refl H3' Hy) as [h' E]. by unfold bareIP in E.
  - intros ip [Hin|[Hin|Hin]%elem_of_app]%elem_of_app;
      [destruct (H1' _ Hin) as [(h & _ & ->) Hn]|destruct (H2' _ Hin) as [(h & _ & ->) Hn]
      |destruct (H3' _ Hin) as [(h & _ & ->) Hn]]; split; try done; apply hostIP_nonempty.
Qed.

Lemma allocation_unique_witness :
  let taken := ["10.8.0.2"; "10.9.0.3/32"; "10.8.0.3/32"] in
  allocateMany allocateAWGPeerIP 2 taken = ["10.8.0.4/32"; "10.8.0.5/32"] /\
  (forall ip, ip ∈ allocateMany allocateAWGPeerIP 2 taken ++ allocateMany allocateAWGTransitIP 2 taken ++
     allocateMany allocateAWGExitIP 2 taken -> ip <> "" /\ awgIPKey ip ∉ map awgIPKey taken).
Proof.
  intros taken. split; [vm_compute; reflexivity|].
  apply (allocation_unique 2 taken). simpl. lia.
Defined.

(** ** Lemmas: credentials *)

(** The credential fields that are generated once. *)
Definition credFields : list (User -> string) :=
  [User_VLESSUUID; User_TUICUUID; User_TUICPassword; User_Hysteria2Password; User_AWGPrivateKey;
   User_AWGPresharedKey; User_NaiveUsername; User_NaivePassword; User_MieruUsername;
   User_MieruPassword; User_TrustTunnelUsername; User_TrustTunnelPassword].

(** A user without its credentials: what [EnsureUserCreds] must not touch. *)
Definition clearCreds (u : User) : User :=
  u <| User_VLESSUUID := "" |> <| User_TUICUUID := "" |> <| User_TUICPassword := "" |>
    <| User_Hysteria2Password := "" |> <| User_AWGPrivateKey := "" |> <| User_AWGPublicKey := "" |>
    <| User_AWGPresharedKey := "" |> <| User_NaiveUsername := "" |> <| User_NaivePassword := "" |>
    <| User_MieruUsername := "" |> <| User_MieruPassword := "" |>
    <| User_TrustTunnelUsername := "" |> <| User_TrustTunnelPassword := "" |>.

(** Existing credentials are kept, and nothing else changes. *)
Record keepsCreds (u u' : User) : Prop := mkKeepsCreds {
  kc_fields : Forall (fun f => f u <> "" -> f u' = f u) credFields;
  kc_pub : User_AWGPrivateKey u <> "" -> User_AWGPublicKey u' = User_AWGPublicKey u;
  kc_rest : clearCreds u' = clearCreds u }.

(** The credentials the protocols of a user require are present. *)
Definition credsComplete (u : User) : Prop :=
  (hasProtocol u "vless-reality" = true -> User_VLESSUUID u <> "") /\
  (hasProtocol u "tuic" = true -> User_TUICUUID u <> "" /\ User_TUICPassword u <> "") /\
  (hasProtocol u "hysteria2" = true -> User_Hysteria2Password u <> "") /\
  (hasProtocol u "awg" = true -> User_AWGPrivateKey u <> "" /\ User_AWGPresharedKey u <> "") /\
  User_NaiveUsername u <> "" /\ User_NaivePassword u <> "" /\
  User_MieruUsername u <> "" /\ User_MieruPassword u <> "" /\
  User_TrustTunnelUsername u <> "" /\ User_TrustTunnelPassword u <> "".

(** Generators that work: no error, no empty value. *)
Definition genWorks (g : CredGen) : Prop :=
  gen_vlessUUID g <> "" /\ gen_tuicUUID g <> "" /\ gen_hysteria2 g <> "" /\
  (exists v, gen_tuicPassword g = Some v /\ v <> "") /\
  (exists p q, gen_wgKeypair g = Some (p, q) /\ p <> "") /\
  (exists v, gen_psk g = Some v /\ v <> "") /\
  (exists v, gen_naivePassword g = Some v /\ v <> "") /\
  (exists v, gen_mieruPassword g = Some v /\ v <> "") /\
  (exists v, gen_ttPassword g = Some v /\ v <> "").

#[export] Instance keepsCreds_refl : Reflexive keepsCreds.
Proof. intros u. split; [|done|done]. by apply Forall_true. Qed.

#[export] Instance keepsCreds_trans : Transitive keepsCreds.
Proof.
  intros u v w [H1 P1 R1] [H2 P2 R2]. split.
  - rewrite Forall_forall in H1, H2 |- *. intros f Hf Hu.
    specialize (H1 f Hf Hu). rewrite <- H1. apply H2; [done|congruence].
  - intros Hu. rewrite P2; [by apply P1|]. rewrite Forall_forall in H1.
    rewrite (H1 User_AWGPrivateKey); [done| |done]. unfold credFields. set_solver.
  - by rewrite R2.
Qed.

Lemma keeps_protocol u v p : keepsCreds u v -> hasProtocol v p = hasProtocol u p.
Proof.
  intros [_ _ Hr]. unfold hasProtocol.
  assert (User_Protocols (clearCreds v) = User_Protocols (clearCreds u)) as Hp by by rewrite Hr.
  simpl in Hp. by rewrite Hp.
Qed.

Lemma keeps_field f u v : f ∈ credFields -> keepsCreds u v -> f u <> "" -> f v <> "".
Proof. intros Hf [H _ _] Hu. rewrite Forall_forall in H. by rewrite (H f Hf Hu). Qed.

Lemma sanitize_nonempty n : sanitizeProxyUsername n <> "".
Proof. unfold sanitizeProxyUsername. by destruct (filterString proxyChar n). Qed.

(** One completion step: the field is non-empty afterwards. *)
Ltac keep_step := split; [unfold credFields; repeat constructor; simpl; congruence|simpl; congruence|reflexivity].

Lemma fillOr_keeps f gen set u k : (forall v, f u = "" -> keepsCreds u (set v u)) -> (forall u', keepsCreds u' (fst (k u'))) ->
  keepsCreds u (fst (fillOr (f u) gen set u k)).
Proof.
  intros Hs Hk. unfold fillOr. destruct (bool_decide_reflect (f u = "")) as [E|]; [|done]. destruct gen as [v|]; [|done].
  etransitivity; [by apply Hs|done].
Qed.

Lemma if_keeps (b : bool) u v (k : User -> User * bool) : (b = true -> keepsCreds u v) -> (forall u', keepsCreds u' (fst (k u'))) ->
  keepsCreds u (fst (k (if b then v else u))).
Proof. intros Hv Hk. destruct b; [|done]. etransitivity; [by apply Hv|done]. Qed.

Ltac creds_step := intros; bool_to_prop; split; [unfold credFields; repeat constructor; simpl; congruence|simpl; congruence|reflexivity].

(** Whatever the generators do, existing credentials stay. *)
Lemma ensureTunnelUserCreds_keeps g u : keepsCreds u (fst (ensureTunnelUserCreds g u)).
Proof.
  unfold ensureTunnelUserCreds. cbv zeta.
  apply (if_keeps _ u _ (fun u => fillOr (User_NaivePassword u) _ _ u _)); [creds_step|clear u; intros u]. apply fillOr_keeps; [creds_step|clear u; intros u].
  apply (if_keeps _ u _ (fun u => fillOr (User_MieruPassword u) _ _ u _)); [creds_step|clear u; intros u]. apply fillOr_keeps; [creds_step|clear u; intros u].
  apply (if_keeps _ u _ (fun u => fillOr (User_TrustTunnelPassword u) _ _ u _)); [creds_step|clear u; intros u]. apply fillOr_keeps; [creds_step|done].
Qed.

Lemma ensureLaterCreds_keeps g u : keepsCreds u (fst (ensureLaterCreds g u)).
Proof.
  unfold ensureLaterCreds. cbv zeta.
  match goal with |- context [if ?b then u <| User_Hysteria2Password := ?v |> else u] =>
    assert (keepsCreds u (if b then u <| User_Hysteria2Password := v |> else u)) as H1 by (destruct b eqn:E; [|done]; creds_step);
    set (u1 := if b then u <| User_Hysteria2Password := v |> else u) in * end.
  transitivity u1; [done|]. clearbody u1. clear H1 u.
  match goal with |- context [if hasProtocol u1 "awg" && (User_AWGPrivateKey u1 == "") then ?a else u1] =>
    set (u2 := if hasProtocol u1 "awg" && (User_AWGPrivateKey u1 == "") then a else u1) end.
  assert (keepsCreds u1 u2) as H2. { unfold u2. destruct (_ && _) eqn:E; [|done]. destruct (gen_wgKeypair g) as [[priv pub]|]; [|done]. creds_step. }
  transitivity u2; [done|]. clearbody u2. destruct (hasProtocol u2 "awg"); [|apply ensureTunnelUserCreds_keeps].
  apply fillOr_keeps; [creds_step|apply ensureTunnelUserCreds_keeps].
Qed.

Lemma EnsureUserCreds_keeps g u : keepsCreds u (fst (EnsureUserCreds g u)).
Proof.
  unfold EnsureUserCreds. cbv zeta.
  match goal with |- context [if hasProtocol ?u1 "tuic" then _ else _] => assert (keepsCreds u u1) as H1 by (destruct (_ && _) eqn:E; [|done]; creds_step); set (u1' := u1) in * end.
  transitivity u1'; [done|]. clearbody u1'. destruct (hasProtocol u1' "tuic"); [|apply ensureLaterCreds_keeps].
  match goal with |- context [fillOr (User_TUICPassword ?u2)] => assert (keepsCreds u1' u2) as H2 by (destruct (_ == _) eqn:E; [|done]; creds_step); set (u2' := u2) in * end.
  transitivity u2'; [done|]. apply fillOr_keeps; [creds_step|apply ensureLaterCreds_keeps].
Qed.

Lemma fillOr_works cur f gen set u k (Q : User * bool -> Prop) :
  cur = f u -> f ∈ credFields ->
  (exists v, gen = Some v /\ v <> "") ->
  (forall v, v <> "" -> f u = "" -> keepsCreds u (set v u) /\ f (set v u) <> "") ->
  (forall u', keepsCreds u u' -> f u' <> "" -> Q (k u')) ->
  Q (fillOr cur gen set u k).
Proof.
  intros -> Hf (v & -> & Hv) Hset Hk. unfold fillOr. case_bool_decide as E.
  - destruct (Hset v Hv E). by apply Hk.
  - apply Hk; [reflexivity|done].
Qed.

Lemma name_step f (set : string -> User -> User) v u (Q : User -> Prop) :
  v <> "" ->
  (f u = "" -> keepsCreds u (set v u) /\ f (set v u) <> "") ->
  (forall u', keepsCreds u u' -> f u' <> "" -> Q u') ->
  Q (if f u == "" then set v u else u).
Proof.
  intros Hv Hset Hk. case_bool_decide as E; [destruct (Hset E); by apply Hk|by apply Hk].
Qed.

Definition setNaiveUsername v (u : User) := u <| User_NaiveUsername := v |>.
Definition setMieruUsername v (u : User) := u <| User_MieruUsername := v |>.
Definition setTTUsername v (u : User) := u <| User_TrustTunnelUsername := v |>.
Definition setVLESS v (u : User) := u <| User_VLESSUUID := v |>.
Definition setTUICUUID v (u : User) := u <| User_TUICUUID := v |>.
Definition setHysteria2 v (u : User) := u <| User_Hysteria2Password := v |>.

Ltac in_creds := unfold credFields; repeat (first [by left | right]).

Lemma tunnel_works g u :
  genWorks g ->
  let r := ensureTunnelUserCreds g u in
  snd r = true /\ keepsCreds u (fst r) /\
  Forall (fun f => f (fst r) <> "") [User_NaiveUsername; User_NaivePassword; User_MieruUsername;
    User_MieruPassword; User_TrustTunnelUsername; User_TrustTunnelPassword].
Proof.
  intros (_ & _ & _ & _ & _ & _ & Hn & Hm & Ht). unfold ensureTunnelUserCreds. cbv zeta beta.
  set (Q := fun r : User * bool => snd r = true /\ keepsCreds u (fst r) /\
    Forall (fun f => f (fst r) <> "") [User_NaiveUsername; User_NaivePassword; User_MieruUsername;
    User_MieruPassword; User_TrustTunnelUsername; User_TrustTunnelPassword]).
  match goal with |- snd ?r = true /\ _ => change (Q r) end.
  apply (name_step User_NaiveUsername setNaiveUsername (sanitizeProxyUsername (User_Name u)) u
    (fun u => Q (fillOr (User_NaivePassword u) _ _ u _)));
    [apply sanitize_nonempty|intros E; split; [keep_step|apply sanitize_nonempty]|intros u1 K1 N1].
  apply (fillOr_works _ User_NaivePassword); [done|in_creds|done|intros v Hv E; split; [keep_step|done]|].
  intros u2 K2 N2.
  apply (name_step User_MieruUsername setMieruUsername (sanitizeProxyUsername (User_Name u2)) u2
    (fun u => Q (fillOr (User_MieruPassword u) _ _ u _)));
    [apply sanitize_nonempty|intros E; split; [keep_step|apply sanitize_nonempty]|intros u3 K3 N3].
  apply (fillOr_works _ User_MieruPassword); [done|in_creds|done|intros v Hv E; split; [keep_step|done]|].
  intros u4 K4 N4.
  apply (name_step User_TrustTunnelUsername setTTUsername (sanitizeProxyUsername (User_Name u4)) u4
    (fun u => Q (fillOr (User_TrustTunnelPassword u) _ _ u _)));
    [apply sanitize_nonempty|intros E; split; [keep_step|apply sanitize_nonempty]|intros u5 K5 N5].
  apply (fillOr_works _ User_TrustTunnelPassword); [done|in_creds|done|intros v Hv E; split; [keep_step|done]|].
  intros u6 K6 N6. unfold Q. simpl.
  split; [done|]. split; [by transitivity u1; [|transitivity u2; [|transitivity u3; [|transitivity u4; [|transitivity u5]]]]|].
  assert (keepsCreds u5 u6 /\ keepsCreds u4 u6 /\ keepsCreds u3 u6 /\ keepsCreds u2 u6 /\ keepsCreds u1 u6)
    as (? & ? & ? & ? & ?).
  { assert (keepsCreds u4 u6) by by transitivity u5. assert (keepsCreds u3 u6) by by transitivity u4.
    assert (keepsCreds u2 u6) by by transitivity u3. split_and!; try done. by transitivity u2. }
  repeat constructor.
  - apply (keeps_field User_NaiveUsername u1); [in_creds|done|done].
  - apply (keeps_field User_NaivePassword u2); [in_creds|done|done].
  - apply (keeps_field User_MieruUsername u3); [in_creds|done|done].
  - apply (keeps_field User_MieruPassword u4); [in_creds|done|done].
  - apply (keeps_field User_TrustTunnelUsername u5); [in_creds|done|done].
  - done.
Qed.

(** The steps of [EnsureUserCreds] that depend on a protocol. *)
Lemma proto_step p f (set : string -> User -> User) v u (Q : User -> Prop) :
  f ∈ credFields -> v <> "" ->
  (f u = "" -> keepsCreds u (set v u) /\ f (set v u) <> "") ->
  (forall u', keepsCreds u u' -> (hasProtocol u' p = true -> f u' <> "") -> Q u') ->
  Q (if hasProtocol u p && (f u == "") then set v u else u).
Proof.
  intros Hf Hv Hset Hk. destruct (hasProtocol u p) eqn:Ep; simpl.
  - case_bool_decide as E; [destruct (Hset E); by apply Hk|by apply Hk].
  - apply Hk; [done|congruence].
Qed.

Lemma keeps_required f p u v :
  f ∈ credFields -> keepsCreds u v -> (hasProtocol u p = true -> f u <> "") ->
  hasProtocol v p = true -> f v <> "".
Proof.
  intros Hf Hk Hu Hp. rewrite (keeps_protocol u v p Hk) in Hp.
  by apply (keeps_field f u v); [| |apply Hu].
Qed.

Lemma creds_tail g u :
  genWorks g ->
  (hasProtocol u "vless-reality" = true -> User_VLESSUUID u <> "") ->
  (hasProtocol u "tuic" = true -> User_TUICUUID u <> "" /\ User_TUICPassword u <> "") ->
  (hasProtocol u "hysteria2" = true -> User_Hysteria2Password u <> "") ->
  (hasProtocol u "awg" = true -> User_AWGPrivateKey u <> "" /\ User_AWGPresharedKey u <> "") ->
  let r := ensureTunnelUserCreds g u in
  snd r = true /\ keepsCreds u (fst r) /\ credsComplete (fst r).
Proof.
  intros Hg Hv Ht Hh Ha r. destruct (tunnel_works g u Hg) as (H1 & H2 & H3). fold r in H1, H2, H3.
  split; [done|]. split; [done|]. unfold credsComplete.
  rewrite !(keeps_protocol _ _ _ H2). rewrite !Forall_cons in H3.
  destruct H3 as (? & ? & ? & ? & ? & ? & _).
  split_and!; try done; intros Hp.
  - apply (keeps_field User_VLESSUUID u); [in_creds|done|auto].
  - destruct (Ht Hp). split; [apply (keeps_field User_TUICUUID u)|apply (keeps_field User_TUICPassword u)];
      try done; in_creds.
  - apply (keeps_field User_Hysteria2Password u); [in_creds|done|auto].
  - destruct (Ha Hp). split; [apply (keeps_field User_AWGPrivateKey u)|apply (keeps_field User_AWGPresharedKey u)];
      try done; in_creds.
Qed.

Definition credsDone (u : User) (r : User * bool) : Prop :=
  snd r = true /\ keepsCreds u (fst r) /\ credsComplete (fst r).

Lemma credsDone_from u v r : keepsCreds u v -> credsDone v r -> credsDone u r.
Proof. intros Hk (H1 & H2 & H3). split_and!; [done|by transitivity v|done]. Qed.

Lemma later_works g u :
  genWorks g ->
  (hasProtocol u "vless-reality" = true -> User_VLESSUUID u <> "") ->
  (hasProtocol u "tuic" = true -> User_TUICUUID u <> "" /\ User_TUICPassword u <> "") ->
  credsDone u (ensureLaterCreds g u).
Proof.
  intros Hg Hv Ht. pose proof Hg as (_ & _ & Hh & _ & (priv & pub & Hwg & Hpriv) & Hpsk & _).
  unfold ensureLaterCreds. cbv zeta. rewrite Hwg.
  pattern (if hasProtocol u "hysteria2" && (User_Hysteria2Password u == "")
           then u <| User_Hysteria2Password := gen_hysteria2 g |> else u).
  apply (proto_step "hysteria2" User_Hysteria2Password setHysteria2 (gen_hysteria2 g) u);
    [in_creds|done|intros E; split; [keep_step|done]|intros u1 K1 N1].
  pattern (if hasProtocol u1 "awg" && (User_AWGPrivateKey u1 == "")
           then u1 <| User_AWGPrivateKey := priv |> <| User_AWGPublicKey := pub |> else u1).
  apply (proto_step "awg" User_AWGPrivateKey
    (fun v u => u <| User_AWGPrivateKey := v |> <| User_AWGPublicKey := pub |>) priv u1);
    [in_creds|done|intros E; split; [keep_step|done]|intros u2 K2 N2].
  assert (keepsCreds u u2) as K by by transitivity u1.
  assert (hasProtocol u2 "vless-reality" = true -> User_VLESSUUID u2 <> "") as Hv2
    by (apply (keeps_required User_VLESSUUID _ u); [in_creds|done|done]).
  assert (hasProtocol u2 "tuic" = true -> User_TUICUUID u2 <> "" /\ User_TUICPassword u2 <> "") as Ht2.
  { intros Hp. split; [apply (keeps_required User_TUICUUID "tuic" u)|apply (keeps_required User_TUICPassword "tuic" u)];
      try done; try in_creds; intros Hq; by apply Ht. }
  assert (hasProtocol u2 "hysteria2" = true -> User_Hysteria2Password u2 <> "") as Hh2
    by (apply (keeps_required User_Hysteria2Password _ u1); [in_creds|done|done]).
  destruct (hasProtocol u2 "awg") eqn:Ea.
  - apply (fillOr_works _ User_AWGPresharedKey); [done|in_creds|done|intros v Hvv E; split; [keep_step|done]|].
    intros u3 K3 N3. apply (credsDone_from u u3); [by transitivity u2|].
    apply creds_tail; [done| | | |].
    + apply (keeps_required User_VLESSUUID _ u2); [in_creds|done|done].
    + intros Hp. split; [apply (keeps_required User_TUICUUID "tuic" u2)|apply (keeps_required User_TUICPassword "tuic" u2)];
        try done; try in_creds; intros Hq; by apply Ht2.
    + apply (keeps_required User_Hysteria2Password _ u2); [in_creds|done|done].
    + intros Hp. split; [|done]. apply (keeps_required User_AWGPrivateKey "awg" u2); [in_creds|done|intros _; by apply N2|done].
  - apply (credsDone_from u u2); [done|]. apply creds_tail; try done. by rewrite Ea.
Qed.

(** With complete credentials nothing is generated. *)
Lemma EnsureUserCreds_complete g u :
  credsComplete u -> EnsureUserCreds g u = (u, true).
Proof.
  intros (Hv & Ht & Hh & Ha & H1 & H2 & H3 & H4 & H5 & H6).
  assert (ensureTunnelUserCreds g u = (u, true)) as Et.
  { unfold ensureTunnelUserCreds, fillOr.
    by do 6 (rewrite (bool_decide_eq_false_2 (_ u = "")) by done; cbv zeta). }
  assert (forall p f, (hasProtocol u p = true -> f u <> "") -> hasProtocol u p && (f u == "") = false) as Hs.
  { intros p f Hf. destruct (hasProtocol u p); [|done]. simpl. by apply bool_decide_eq_false_2, Hf. }
  assert (ensureLaterCreds g u = (u, true)) as El.
  { unfold ensureLaterCreds. cbv zeta.
    rewrite (Hs "hysteria2" User_Hysteria2Password) by done.
    rewrite (Hs "awg" User_AWGPrivateKey) by (intros; by apply Ha).
    destruct (hasProtocol u "awg") eqn:E2; [|done]. unfold fillOr.
    rewrite (bool_decide_eq_false_2 (User_AWGPresharedKey u = "")); [done|by apply Ha]. }
  unfold EnsureUserCreds. cbv zeta. rewrite (Hs "vless-reality" User_VLESSUUID) by done.
  destruct (hasProtocol u "tuic") eqn:E1; [|done]. destruct (Ht eq_refl). unfold fillOr.
  rewrite (bool_decide_eq_false_2 (User_TUICUUID u = "")) by done.
  by rewrite (bool_decide_eq_false_2 (User_TUICPassword u = "")).
Qed.

(** User credentials.  With working generators, [EnsureUserCreds] returns
    nil and leaves the user with every credential its protocols require; it
    keeps every credential the user already had and every other field; and
    applying it again, whatever is drawn then, changes nothing, so
    re-applying never breaks a client that is already configured. *)
Theorem EnsureUserCreds_stable g u :
  genWorks g ->
  snd (EnsureUserCreds g u) = true /\ keepsCreds u (fst (EnsureUserCreds g u)) /\
  credsComplete (fst (EnsureUserCreds g u)) /\
  forall g', EnsureUserCreds g' (fst (EnsureUserCreds g u)) = (fst (EnsureUserCreds g u), true).
Proof.
  intros Hg. enough (credsDone u (EnsureUserCreds g u)) as (H1 & H2 & H3).
  { split_and!; try done. intros g'. by apply EnsureUserCreds_complete. }
  pose proof Hg as (Hv & Ht & _ & Htp & _). unfold EnsureUserCreds. cbv zeta.
  pattern (if hasProtocol u "vless-reality" && (User_VLESSUUID u == "")
           then u <| User_VLESSUUID := gen_vlessUUID g |> else u).
  apply (proto_step "vless-reality" User_VLESSUUID setVLESS (gen_vlessUUID g) u);
    [in_creds|done|intros E; split; [keep_step|done]|intros u1 K1 N1].
  destruct (hasProtocol u1 "tuic") eqn:Et.
  - apply (name_step User_TUICUUID setTUICUUID (gen_tuicUUID g) u1
      (fun u2 => credsDone u (fillOr (User_TUICPassword u2) _ _ u2 _)));
      [done|intros E; split; [keep_step|done]|intros u2 K2 N2].
    apply (fillOr_works _ User_TUICPassword); [done|in_creds|done|intros v Hvv E; split; [keep_step|done]|].
    intros u3 K3 N3. assert (keepsCreds u1 u3) by by transitivity u2.
    apply (credsDone_from u u3); [by transitivity u1|]. apply later_works; [done| |].
    + apply (keeps_required User_VLESSUUID _ u1); [in_creds|done|done].
    + intros _. split; [|done]. apply (keeps_field User_TUICUUID u2); [in_creds|done|done].
  - apply (credsDone_from u u1); [done|]. apply later_works; [done|done|]. by rewrite Et.
Qed.

Lemma EnsureUserCreds_stable_witness :
  let g := mkCredGen "v" "t" (Some "p") "h" (Some ("priv", "pub")) (Some "psk") (Some "n") (Some "m") (Some "tt") in
  let u := zeroUser <| User_Name := "Ann B." |> <| User_Protocols := ["awg"; "tuic"] |>
                    <| User_AWGPrivateKey := "mine" |> in
  User_AWGPrivateKey (fst (EnsureUserCreds g u)) = "mine" /\
  User_NaiveUsername (fst (EnsureUserCreds g u)) = "AnnB" /\
  credsComplete (fst (EnsureUserCreds g u)).
Proof.
  intros g u. split; [reflexivity|]. split; [reflexivity|].
  apply (EnsureUserCreds_stable g u). unfold genWorks, g. simpl. split_and!; try done; eauto.
Defined.
