(* ===== verification/Caddy.v ===== *)
(** * Caddy: the listen ports of a node behind the SNI router

    internal/chain/utilities.go (the caddy utility owns the public TCP ports;
    inbounds are remapped behind it) and inbound_source.go (which inbounds of a
    node belong to a chain).  A Go [map[int]int] keyed by the slice index is
    the list of its values. *)

From S2P Require Import Prelude GoStrings Model ChainModel Lifecycle.

(** ** Chain-owned inbounds *)

(** [IsChainSourcedInbound]. *)
Definition IsChainSourcedInbound (ib : NodeInbound) : bool := HasPrefix (NodeInbound_Source ib) "chain:".

(** [IsChainEntryInbound]: the profile is referenced by an entry-level node. *)
Definition IsChainEntryInbound (nodeChains : list Chain) (nodeID : string) (ib : NodeInbound) : bool :=
  if NodeInbound_ProfileID ib == "" then false
  else existsb (fun c =>
    match Chain_Levels c with
    | [] => false
    | lv :: _ => existsb (fun n => (ChainNode_ID n == nodeID) &&
                                   (ChainNode_InboundRef n == NodeInbound_ProfileID ib))
                   (ChainLevel_Nodes lv)
    end) nodeChains.

(** [inboundByProfileID]. *)
Definition inboundByProfileID (nodeInfo : NodeInfo) (profileID : string) : option NodeInbound :=
  if profileID == "" then None
  else List.find (fun ib => NodeInbound_ProfileID ib == profileID) (NodeInfo_Inbounds nodeInfo).

(** [chainEntryAWG3Inbound]. *)
Definition chainEntryAWG3Inbound (nodeInfo : NodeInfo) (c : Chain) (entry : ChainNode) : option NodeInbound :=
  List.find (fun ib =>
    (NodeInbound_Protocol ib == "awg") &&
    (((ChainNode_InboundRef entry != "") && (NodeInbound_ProfileID ib == ChainNode_InboundRef entry)) ||
     (NodeInbound_Source ib == ("chain:" +:+ Chain_Name c))) &&
    IsAWG3Family (NodeInbound_EffectiveAWGVersion ib)) (NodeInfo_Inbounds nodeInfo).

(** ** Ports *)

Definition CaddyInternalHTTPSPort : Z := 8443.
Definition CaddyInternalHTTPPort : Z := 8080.
Definition PanelRelayPort : Z := 8900.

(** [caddyOwnedPorts]. *)
Definition caddyOwned (port : Z) : bool :=
  existsb (Z.eqb port) [80; 443; CaddyInternalHTTPPort; CaddyInternalHTTPSPort; PanelRelayPort].

(** [strings.EqualFold] with an ASCII constant. *)
Definition EqualFold (a b : string) : bool := ToLower a == ToLower b.

(** [udpOnlyInbound]. *)
Definition udpOnlyInbound (ib : NodeInbound) : bool :=
  if NodeInbound_Protocol ib == "awg" then true
  else (NodeInbound_Protocol ib == "mieru") && EqualFold (NodeInbound_MieruTransport ib) "UDP".

(** The search [for caddyOwnedPorts[next] || native[next] > 0 || taken[next]
    { next++ }], with fuel; [busy] is the test. *)
Fixpoint nextFree (fuel : nat) (busy : Z -> bool) (next : Z) : option Z :=
  match fuel with
  | O => None
  | S f => if busy next then nextFree f busy (next + 1) else Some next
  end.

Definition busyPort (native taken : list Z) (p : Z) : bool :=
  caddyOwned p || existsb (Z.eqb p) native || existsb (Z.eqb p) taken.

(** The loop of [RemapInboundPorts] over the inbounds. *)
Fixpoint remapFrom (fuel : nat) (native taken : list Z) (next : Z) (ibs : list NodeInbound)
    : option (list Z) :=
  match ibs with
  | [] => Some []
  | ib :: ibs' =>
      if udpOnlyInbound ib || negb (caddyOwned (NodeInbound_Port ib)) then
        match remapFrom fuel native taken next ibs' with
        | Some r => Some (NodeInbound_Port ib :: r)
        | None => None
        end
      else
        match nextFree fuel (busyPort native taken) next with
        | None => None
        | Some p =>
            match remapFrom fuel native (p :: taken) p ibs' with
            | Some r => Some (p :: r)
            | None => None
            end
        end
  end.

Definition remapFuel (ibs : list NodeInbound) : nat := 2 * length ibs + 6.

(** [RemapInboundPorts]; [remap_total] shows that the fuel is enough. *)
Definition RemapInboundPorts (ibs : list NodeInbound) : option (list Z) :=
  remapFrom (remapFuel ibs) (map NodeInbound_Port ibs) [] 11000 ibs.

(** [CaddyMode]. *)
Definition CaddyMode (info : NodeInfo) : bool :=
  (TrimSpace (NodeInfo_TLSDomain info) != "") && UtilityInstalled (Some info) UtilityCaddy.

(** [CaddyEvictPort]. *)
Definition CaddyEvictPort (port : Z) : Z :=
  if negb (caddyOwned port) then port else 12000 + Z.rem port 1000.

(** [mtproxyInboundPort] (mtproxy.go). *)
Definition mtproxyInboundPort (port : Z) : Z := if 0 <? port then port else 443.

(** ** The routing plan *)

(** [TLSUtilityProtocols]. *)
Definition TLSUtilityProtocol (p : string) : bool := (p == "naive") || (p == "trusttunnel").

Record SNIRoute := mkSNIRoute { SNIRoute_Host : string; SNIRoute_Port : Z }.

Record CaddyPlan := mkCaddyPlan {
  CaddyPlan_Domain : string;
  CaddyPlan_RelayPort : Z;
  CaddyPlan_RealityPort : Z;
  CaddyPlan_SNIRoutes : list SNIRoute;
  CaddyPlan_Revision : Z }.

(** [sniSubdomain]: the label, and the counters after it. *)
Definition sniSubdomain (seen : gmap string Z) (proto : string) : string * gmap string Z :=
  let n := default 0 (seen !! proto) in
  (if n =? 0 then proto else proto +:+ "-" +:+ itoa n, <[proto := n + 1]> seen).

(** The loop of [BuildCaddyPlan]. *)
Fixpoint caddyPlanFrom (domain : string) (seen : gmap string Z) (reality : Z)
    (ibs : list NodeInbound) (ports : list Z) : Z * list SNIRoute :=
  match ibs, ports with
  | ib :: ibs', port :: ports' =>
      if IsChainSourcedInbound ib then caddyPlanFrom domain seen reality ibs' ports'
      else if NodeInbound_Protocol ib == "vless-reality" then
        caddyPlanFrom domain seen (if reality =? 0 then port else reality) ibs' ports'
      else if TLSUtilityProtocol (NodeInbound_Protocol ib) then
        let '(label, seen') := sniSubdomain seen (NodeInbound_Protocol ib) in
        let '(r, routes) := caddyPlanFrom domain seen' reality ibs' ports' in
        (r, mkSNIRoute (label +:+ "." +:+ domain) port :: routes)
      else caddyPlanFrom domain seen reality ibs' ports'
  | _, _ => (reality, [])
  end.

(** [BuildCaddyPlan]; [None] is its error (no TLS domain). *)
Definition BuildCaddyPlan (info : NodeInfo) (revision : Z) : option CaddyPlan :=
  let domain := TrimSpace (NodeInfo_TLSDomain info) in
  if domain == "" then None
  else
    match RemapInboundPorts (NodeInfo_Inbounds info) with
    | None => None
    | Some ports =>
        let '(reality, routes) := caddyPlanFrom domain ∅ 0 (NodeInfo_Inbounds info) ports in
        Some (mkCaddyPlan domain PanelRelayPort reality routes revision)
    end.

(** [CaddySANs]. *)
Definition CaddySANs (p : CaddyPlan) : list string :=
  [CaddyPlan_Domain p; "panel." +:+ CaddyPlan_Domain p] ++ map SNIRoute_Host (CaddyPlan_SNIRoutes p).

(** The loop of [CaddyFrontedHosts]: index and host. *)
Fixpoint frontedFrom (domain : string) (i : nat) (seen : gmap string Z) (ibs : list NodeInbound)
    : list (nat * string) :=
  match ibs with
  | [] => []
  | ib :: ibs' =>
      if IsChainSourcedInbound ib || negb (TLSUtilityProtocol (NodeInbound_Protocol ib))
      then frontedFrom domain (S i) seen ibs'
      else
        let '(label, seen') := sniSubdomain seen (NodeInbound_Protocol ib) in
        (i, label +:+ "." +:+ domain) :: frontedFrom domain (S i) seen' ibs'
  end.

(** [CaddyFrontedHosts]; [None] outside caddy mode. *)
Definition CaddyFrontedHosts (info : NodeInfo) : option (list (nat * string)) :=
  if negb (CaddyMode info) then None
  else Some (frontedFrom (TrimSpace (NodeInfo_TLSDomain info)) 0 ∅ (NodeInfo_Inbounds info)).

(** ** Lemmas *)

Lemma existsb_Zeqb p l : existsb (Z.eqb p) l = true <-> p ∈ l.
Proof.
  rewrite existsb_exists, list_elem_of_In. split.
  - by intros (x & Hx & ->%Z.eqb_eq).
  - intros Hp. exists p. split; [done|apply Z.eqb_refl].
Qed.

Lemma nextFree_spec fuel busy next :
  match nextFree fuel busy next with
  | Some p => next <= p < next + Z.of_nat fuel /\ busy p = false /\
              forall q, next <= q < p -> busy q = true
  | None => forall q, next <= q < next + Z.of_nat fuel -> busy q = true
  end.
Proof.
  revert next. induction fuel as [|fuel IH]; intros next; simpl nextFree.
  { cbv iota. intros q Hq. exfalso. lia. }
  destruct (busy next) eqn:E.
  - specialize (IH (next + 1)). destruct (nextFree fuel busy (next + 1)).
    + destruct IH as (H1 & H2 & H3). split; [lia|]. split; [done|].
      intros q Hq. destruct (decide (q = next)) as [->|]; [done|apply H3; lia].
    + intros q Hq. destruct (decide (q = next)) as [->|]; [done|apply IH; lia].
  - split; [lia|]. split; [done|]. intros; exfalso; lia.
Qed.

(** At most [length l] of the integers are busy when busy means being in [l]. *)
Lemma nextFree_total fuel busy next (l : list Z) :
  (forall q, busy q = true -> q ∈ l) -> (length l < fuel)%nat -> is_Some (nextFree fuel busy next).
Proof.
  intros Hl Hf. pose proof (nextFree_spec fuel busy next) as H.
  destruct (nextFree fuel busy next); [eauto|exfalso].
  assert (incl (map (fun i => next + Z.of_nat i) (seq 0 fuel)) l) as Hincl.
  { intros x (i & <- & Hi%in_seq)%in_map_iff. apply list_elem_of_In, Hl, H. lia. }
  apply NoDup_incl_length in Hincl.
  - rewrite length_map, length_seq in Hincl. lia.
  - apply Finite.Injective_map_NoDup; [intros a b; lia|apply seq_NoDup].
Qed.

Definition ownedPorts : list Z := [80; 443; CaddyInternalHTTPPort; CaddyInternalHTTPSPort; PanelRelayPort].

Lemma busyPort_elem native taken q :
  busyPort native taken q = true <-> q ∈ ownedPorts ++ native ++ taken.
Proof.
  unfold busyPort, caddyOwned. fold ownedPorts.
  rewrite !orb_true_iff, !existsb_Zeqb, !elem_of_app. tauto.
Qed.

(** The ports of the loop, with what each of them guarantees. *)
Definition remapped (ib : NodeInbound) : bool :=
  negb (udpOnlyInbound ib) && caddyOwned (NodeInbound_Port ib).

Lemma remapFrom_spec fuel native ibs : forall taken next,
  (length native + length taken + length ibs + 5 < fuel)%nat ->
  exists ports, remapFrom fuel native taken next ibs = Some ports /\ length ports = length ibs /\
    (forall i ib p, ibs !! i = Some ib -> ports !! i = Some p ->
       if remapped ib then busyPort native taken p = false /\ next <= p else p = NodeInbound_Port ib) /\
    (forall i j ib p, ibs !! i = Some ib -> remapped ib = true -> ports !! i = Some p ->
       ports !! j = Some p -> (exists jb, ibs !! j = Some jb /\ remapped jb = true) -> i = j).
Proof.
  induction ibs as [|ib ibs IH]; intros taken next Hfuel; simpl remapFrom.
  { exists []. split_and!; [done|done| |]; by intros. }
  assert (udpOnlyInbound ib || negb (caddyOwned (NodeInbound_Port ib)) = negb (remapped ib)) as ->.
  { unfold remapped. by destruct (udpOnlyInbound ib), (caddyOwned (NodeInbound_Port ib)). }
  destruct (remapped ib) eqn:Er; simpl negb.
  - destruct (nextFree_total fuel (busyPort native taken) next (ownedPorts ++ native ++ taken)) as [p Hp].
    { intros q. apply busyPort_elem. }
    { rewrite !length_app. simpl in *. lia. }
    rewrite Hp. pose proof (nextFree_spec fuel (busyPort native taken) next) as Hs. rewrite Hp in Hs.
    destruct Hs as (Hr & Hb & _).
    destruct (IH (p :: taken) p) as (ports & -> & Hlen & H1 & H2); [simpl in *; lia|].
    exists (p :: ports). split_and!; [done|simpl; by rewrite Hlen| |].
    + intros [|i] ib' p' Hi Hpi; simpl in *.
      * injection Hi as <-. injection Hpi as <-. rewrite Er. split; [done|lia].
      * specialize (H1 i ib' p' Hi Hpi). destruct (remapped ib'); [|done].
        destruct H1 as [Hb' Hle]. split; [|lia].
        apply not_true_iff_false. intros Hb2. apply not_true_iff_false in Hb'. apply Hb'.
        rewrite busyPort_elem in *. rewrite !elem_of_app, ?elem_of_cons in *. tauto.
    + assert (forall j jb q, ibs !! j = Some jb -> remapped jb = true -> ports !! j = Some q -> q <> p) as Hne.
      { intros j jb q Hj Hrj Hq ->. specialize (H1 j jb p Hj Hq). rewrite Hrj in H1.
        destruct H1 as [Hb' _]. apply not_true_iff_false in Hb'. apply Hb', busyPort_elem. rewrite !elem_of_app, elem_of_cons. tauto. }
      intros [|i] [|j] ib' p' Hi Hri Hpi Hpj (jb & Hj & Hrj); simpl in *; try done.
      * injection Hpi as <-. exfalso. by apply (Hne j jb p).
      * injection Hpj as <-. exfalso. by apply (Hne i ib' p).
      * f_equal. eapply H2; eauto.
  - destruct (IH taken next) as (ports & -> & Hlen & H1 & H2); [simpl in *; lia|].
    exists (NodeInbound_Port ib :: ports). split_and!; [done|simpl; by rewrite Hlen| |].
    + intros [|i] ib' p' Hi Hpi; simpl in *; [|exact (H1 i ib' p' Hi Hpi)].
      injection Hi as <-. injection Hpi as <-. by rewrite Er.
    + intros [|i] [|j] ib' p' Hi Hri Hpi Hpj (jb & Hj & Hrj); simpl in *; try congruence.
      f_equal. eapply H2; eauto.
Qed.

Lemma RemapInboundPorts_ok ibs :
  exists ports, RemapInboundPorts ibs = Some ports /\ length ports = length ibs.
Proof.
  destruct (remapFrom_spec (remapFuel ibs) (map NodeInbound_Port ibs) ibs [] 11000)
    as (ports & Hr & Hlen & _); [rewrite length_map; unfold remapFuel; simpl; lia|].
  by exists ports.
Qed.

(** Port remapping.  [RemapInboundPorts] always terminates and gives every
    inbound a listen port: an inbound that does not compete for a caddy-owned
    TCP port keeps its own; every other one moves to a port from 11000 up that
    caddy does not own, that no inbound is configured on, and that no other
    moved inbound has. *)
Theorem RemapInboundPorts_sound ibs :
  exists ports, RemapInboundPorts ibs = Some ports /\ length ports = length ibs /\
    (forall i ib p, ibs !! i = Some ib -> ports !! i = Some p ->
       if remapped ib
       then 11000 <= p /\ caddyOwned p = false /\ p ∉ map NodeInbound_Port ibs
       else p = NodeInbound_Port ib) /\
    (forall i j ib jb p, ibs !! i = Some ib -> ibs !! j = Some jb ->
       remapped ib = true -> ports !! i = Some p -> ports !! j = Some p -> i = j).
Proof.
  unfold RemapInboundPorts.
  destruct (remapFrom_spec (remapFuel ibs) (map NodeInbound_Port ibs) ibs [] 11000)
    as (ports & Hr & Hlen & H1 & H2).
  { rewrite length_map. unfold remapFuel. simpl. lia. }
  exists ports. split_and!; [done|done| |].
  - intros i ib p Hi Hp. specialize (H1 i ib p Hi Hp). destruct (remapped ib); [|done].
    destruct H1 as [Hb Hle]. unfold busyPort in Hb. rewrite !orb_false_iff in Hb.
    destruct Hb as [[Ho Hn] _]. split_and!; [done|done|]. intros Hin.
    apply existsb_Zeqb in Hin. congruence.
  - intros i j ib jb p Hi Hj Hri Hpi Hpj. destruct (remapped jb) eqn:Erj; [eapply H2; eauto|].
    exfalso. pose proof (H1 i ib p Hi Hpi) as Hb. rewrite Hri in Hb. destruct Hb as [Hb _].
    pose proof (H1 j jb p Hj Hpj) as Hp. rewrite Erj in Hp. subst p.
    apply not_true_iff_false in Hb. apply Hb, busyPort_elem.
    rewrite !elem_of_app. right. left. apply list_elem_of_In, in_map, list_elem_of_In.
    by eapply list_elem_of_lookup_2.
Qed.

(** ** The hosts of the plan *)

Lemma frontedFrom_plan domain all ibs : forall k seen reality,
  length (drop k all) = length ibs ->
  (caddyPlanFrom domain seen reality ibs (drop k all)).2 =
    map (fun x => mkSNIRoute x.2 (nth x.1 all 0)) (frontedFrom domain k seen ibs).
Proof.
  induction ibs as [|ib ibs IH]; intros k seen reality Hlen; simpl; [done|].
  destruct (drop k all) as [|port ports] eqn:Hd; [done|].
  assert (all !! k = Some port) as Hk by (rewrite <- (Nat.add_0_r k), <- lookup_drop; by rewrite Hd).
  rewrite (drop_S all port k Hk) in Hd. injection Hd as <-.
  assert (port = nth k all 0) as Hp by by rewrite nth_lookup, Hk.
  simpl in Hlen. injection Hlen as Hlen.
  destruct (IsChainSourcedInbound ib); simpl; [by apply IH|].
  case_bool_decide as Ev; simpl.
  { rewrite Ev. simpl. by apply IH. }
  destruct (TLSUtilityProtocol (NodeInbound_Protocol ib)); simpl; [|by apply IH].
  destruct (caddyPlanFrom _ _ _ _ _) as [r routes] eqn:Ec. simpl.
  rewrite Hp. f_equal. by rewrite <- (IH (S k) _ reality Hlen), Ec.
Qed.

(** The [n]-th label of a protocol. *)
Definition labelOf (proto : string) (n : Z) : string :=
  if n =? 0 then proto else proto +:+ "-" +:+ itoa n.

Lemma labelOf_inj p q m n :
  TLSUtilityProtocol p = true -> TLSUtilityProtocol q = true ->
  labelOf p m = labelOf q n -> p = q /\ m = n.
Proof.
  unfold TLSUtilityProtocol, labelOf. rewrite !orb_true_iff, !bool_decide_eq_true.
  intros [->| ->] [->| ->]; destruct (m =? 0) eqn:Em, (n =? 0) eqn:En;
    bool_to_prop; try discriminate; intros H; split; try done; try lia.
  all: by apply append_inj_l, append_inj_l, itoa_inj in H.
Qed.

(** Every host of the loop is a label past the counters, and no two are equal. *)
Lemma frontedFrom_hosts domain ibs : forall k seen,
  (forall p n, seen !! p = Some n -> 0 <= n) ->
  NoDup (map snd (frontedFrom domain k seen ibs)) /\
  (forall h, h ∈ map snd (frontedFrom domain k seen ibs) ->
     exists p n, TLSUtilityProtocol p = true /\ default 0 (seen !! p) <= n /\
       h = labelOf p n +:+ "." +:+ domain).
Proof.
  induction ibs as [|ib ibs IH]; intros k seen Hseen; simpl frontedFrom.
  { split; [apply NoDup_nil_2|by intros ? ?%elem_of_nil]. }
  destruct (IsChainSourcedInbound ib || negb (TLSUtilityProtocol (NodeInbound_Protocol ib))) eqn:Eg;
    [by apply IH|].
  bool_to_prop. set (p := NodeInbound_Protocol ib) in *. set (n := default 0 (seen !! p)).
  assert (0 <= n) as Hn. { unfold n. destruct (seen !! p) eqn:Es; [by eapply Hseen|done]. }
  destruct (IH (S k) (<[p := n + 1]> seen)) as [Hnd Hh].
  { intros q m. rewrite lookup_insert. case_decide; [intros [= <-]; lia|apply Hseen]. }
  simpl. change (if n =? 0 then p else p +:+ "-" +:+ itoa n) with (labelOf p n). split.
  - apply NoDup_cons. split; [|done]. intros (q & m & Hq & Hm & He)%Hh.
    apply (append_inj_r _ _ ("." +:+ domain)) in He.
    apply labelOf_inj in He as [<- <-]; [|done|done].
    rewrite lookup_insert_eq in Hm. simpl in Hm. lia.
  - intros h [->|(q & m & Hq & Hm & ->)%Hh]%elem_of_cons; [by exists p, n|].
    exists q, m. split_and!; [done| |done]. rewrite lookup_insert in Hm. case_decide; [|done].
    subst q. fold n. simpl in Hm. lia.
Qed.

(** One naming for the certificate, the router and the configuration.  On
    a node in caddy mode the SNI routes of [BuildCaddyPlan] are exactly the
    hosts that [CaddyFrontedHosts] gives to the configuration renderer, in the
    same order, each routed to the remapped listen port of its inbound; the
    hosts are pairwise distinct and all of them are on the certificate. *)
Theorem BuildCaddyPlan_hosts info revision hosts :
  CaddyFrontedHosts info = Some hosts ->
  exists p ports,
    BuildCaddyPlan info revision = Some p /\ RemapInboundPorts (NodeInfo_Inbounds info) = Some ports /\
    CaddyPlan_SNIRoutes p = map (fun x => mkSNIRoute x.2 (nth x.1 ports 0)) hosts /\
    NoDup (map SNIRoute_Host (CaddyPlan_SNIRoutes p)) /\
    (forall x, x ∈ hosts -> x.2 ∈ CaddySANs p).
Proof.
  unfold CaddyFrontedHosts, CaddyMode, BuildCaddyPlan. intros H.
  destruct (UtilityInstalled (Some info) UtilityCaddy); [|by rewrite andb_false_r in H].
  case_bool_decide as Ed; simpl in H; [done|]. injection H as <-.
  set (domain := TrimSpace (NodeInfo_TLSDomain info)).
  destruct (RemapInboundPorts_ok (NodeInfo_Inbounds info)) as (ports & Hr & Hlen).
  rewrite Hr. pose proof (frontedFrom_plan domain ports (NodeInfo_Inbounds info) 0 ∅ 0 Hlen) as Hf.
  destruct (frontedFrom_hosts domain (NodeInfo_Inbounds info) 0 ∅) as [Hnd _]; [done|].
  rewrite drop_0 in Hf. destruct (caddyPlanFrom _ _ _ _ _) as [reality routes]. simpl in Hf.
  exists (mkCaddyPlan domain PanelRelayPort reality routes revision), ports.
  split_and!; [done|done|done| |]; simpl; rewrite Hf.
  - by rewrite map_map.
  - intros x Hx. unfold CaddySANs. simpl. right. right. rewrite map_map. simpl.
    apply list_elem_of_In, in_map, list_elem_of_In, Hx.
Qed.

Definition caddyInfo : NodeInfo :=
  zeroNodeInfo <| NodeInfo_TLSDomain := "node.example.com" |>
    <| NodeInfo_Utilities := [mkUtilityState UtilityCaddy true "" 0 0 ""] |>
    <| NodeInfo_Inbounds :=
         [zeroNodeInbound <| NodeInbound_Protocol := "naive" |> <| NodeInbound_Port := 443 |>;
          zeroNodeInbound <| NodeInbound_Protocol := "vless-reality" |> <| NodeInbound_Port := 443 |>;
          zeroNodeInbound <| NodeInbound_Protocol := "naive" |> <| NodeInbound_Port := 8443 |>] |>.

Lemma BuildCaddyPlan_hosts_witness :
  CaddyFrontedHosts caddyInfo =
    Some [(0%nat, "naive.node.example.com"); (2%nat, "naive-1.node.example.com")] /\
  exists p ports, BuildCaddyPlan caddyInfo 7 = Some p /\
    RemapInboundPorts (NodeInfo_Inbounds caddyInfo) = Some ports /\ ports = [11000; 11001; 11002] /\
    NoDup (map SNIRoute_Host (CaddyPlan_SNIRoutes p)).
Proof.
  split; [by vm_compute|].
  destruct (BuildCaddyPlan_hosts caddyInfo 7
    [(0%nat, "naive.node.example.com"); (2%nat, "naive-1.node.example.com")])
    as (p & ports & Hp & Hr & _ & Hnd & _); [by vm_compute|].
  exists p, ports. split_and!; [done|done| |done].
  assert (RemapInboundPorts (NodeInfo_Inbounds caddyInfo) = Some [11000; 11001; 11002]) as E
    by by vm_compute.
  congruence.
Defined.

(** [CaddyEvictPort] sends two owned ports to the same eviction port. *)
Lemma evict_collides : CaddyEvictPort 443 = CaddyEvictPort 8443 /\ CaddyEvictPort 80 = CaddyEvictPort 8080.
Proof. by vm_compute. Qed.
