(* ===== verification/Presets.v ===== *)
(** * Presets: the obfuscation preset registry

    internal/chain/presets.go and the default SNI of protocolpresets.go.  The
    Go package keeps the registry, the name of the default profile and the
    operator's SNI in package variables: here they are one [PresetState].  The
    embedded default_presets.json is the parameter [builtin].  [None] is the
    panic of [MustGetPreset]. *)

From S2P Require Import Prelude Model Lifecycle.

(** ** Presets *)

Record RealityPreset := mkRealityPreset {
  RealityPreset_ServerNames : list string;
  RealityPreset_Fingerprints : list string;
  RealityPreset_ShortIDLen : Z }.

Record XHTTPPreset := mkXHTTPPreset {
  XHTTPPreset_Methods : list string;
  XHTTPPreset_Paths : list string;
  XHTTPPreset_Hosts : list string;
  XHTTPPreset_Headers : gmap string (list string);
  XHTTPPreset_IdleTimeout : string;
  XHTTPPreset_PingTimeout : string;
  XHTTPPreset_PaddingBytes : string;
  XHTTPPreset_Multiplex : bool;
  XHTTPPreset_MaxConcurrency : string;
  XHTTPPreset_UpstreamHost : string;
  XHTTPPreset_DownstreamHost : string;
  XHTTPPreset_UpstreamAlpn : string;
  XHTTPPreset_DownstreamAlpn : string;
  XHTTPPreset_StealthLevel : Z }.

Record TUICPreset := mkTUICPreset {
  TUICPreset_CongestionControls : list string;
  TUICPreset_AuthTimeout : string }.

Record AWGPreset := mkAWGPreset {
  AWGPreset_JC : Z;
  AWGPreset_JMIN : Z;
  AWGPreset_JMAX : Z;
  AWGPreset_S1 : Z;
  AWGPreset_S2 : Z;
  AWGPreset_S3 : Z;
  AWGPreset_S4 : Z;
  AWGPreset_H1 : Z;
  AWGPreset_H2 : Z;
  AWGPreset_H3 : Z;
  AWGPreset_H4 : Z;
  AWGPreset_ITime : Z;
  AWGPreset_CPSLevel : Z;
  AWGPreset_Mimicry : string;
  AWGPreset_I1Packet : string;
  AWGPreset_Version : string }.

(** The embedded [Routing] struct. *)
Record PresetRouting := mkPresetRouting {
  DirectGeoIP : list string;
  DirectGeoSite : list string;
  DirectDomains : list string;
  BlockGeoSite : list string }.

Record ConnectionPreset := mkConnectionPreset {
  ConnectionPreset_Name : string;
  ConnectionPreset_Protocol : string;
  ConnectionPreset_Description : string;
  ConnectionPreset_Reality : option RealityPreset;
  ConnectionPreset_XHTTP : option XHTTPPreset;
  ConnectionPreset_TUIC : option TUICPreset;
  ConnectionPreset_AWG : option AWGPreset;
  ConnectionPreset_CPSLevel : Z;
  ConnectionPreset_AWGMimicry : string;
  ConnectionPreset_Routing : PresetRouting }.

Definition zeroConnectionPreset : ConnectionPreset :=
  mkConnectionPreset "" "" "" None None None None 0 "" (mkPresetRouting [] [] [] []).

(** ** The registry *)

Record PresetState := mkPresetState {
  presets : gmap string ConnectionPreset;
  defaultPresetName : string;
  globalDefaultSNI : string }.
#[export] Instance eta_PresetState : Eta PresetState := fun r =>
  mkPresetState (presets r) (defaultPresetName r) (globalDefaultSNI r).

(** [for _, p := range l { presets[p.Name] = p }]. *)
Fixpoint register (l : list ConnectionPreset) (m : gmap string ConnectionPreset)
    : gmap string ConnectionPreset :=
  match l with
  | [] => m
  | p :: l' => register l' (<[ConnectionPreset_Name p := p]> m)
  end.

(** [LoadPresets]: the registry is cleared first. *)
Definition LoadPresets (builtin external : list ConnectionPreset) (s : PresetState) : PresetState :=
  s <| presets := register external (register builtin ∅) |>.

(** [GetPreset]. *)
Definition GetPreset (s : PresetState) (name : string) : option ConnectionPreset := presets s !! name.

(** [SetDefaultProfile]. *)
Definition SetDefaultProfile (name : string) (s : PresetState) : PresetState :=
  match GetPreset s name with
  | Some _ => s <| defaultPresetName := name |>
  | None => s
  end.

(** The package variables before [init], and after it. *)
Definition uninitState : PresetState := mkPresetState ∅ "maximum_stealth_2026" "".
Definition initState (builtin : list ConnectionPreset) : PresetState := LoadPresets builtin [] uninitState.

Definition SetDefaultSNI (sni : string) (s : PresetState) : PresetState := s <| globalDefaultSNI := sni |>.

Definition DefaultRealitySNI : string := "www.cloudflare.com".

(** [EffectiveDefaultSNI]. *)
Definition EffectiveDefaultSNI (s : PresetState) : string :=
  if globalDefaultSNI s != "" then globalDefaultSNI s else DefaultRealitySNI.

(** [MustGetPreset]; [None] is the panic. *)
Definition MustGetPreset (s : PresetState) (name : string) : option ConnectionPreset := GetPreset s name.

Definition GetDefaultPreset (s : PresetState) : option ConnectionPreset :=
  MustGetPreset s (defaultPresetName s).

(** [defaultPresetForProtocol]. *)
Definition defaultPresetForProtocol (protocol : string) : string :=
  if protocol == "awg" then "maximum_stealth_2026_awg"
  else if protocol == "vless-reality" then "maximum_stealth_2026_reality"
  else if (protocol == "xhttp") || (protocol == "") then "xhttp_max_stealth_2026"
  else "".

(** [GetDefaultPresetForProtocol]. *)
Definition GetDefaultPresetForProtocol (s : PresetState) (protocol : string) : option ConnectionPreset :=
  let name := defaultPresetForProtocol protocol in
  if name != "" then
    match GetPreset s name with
    | Some p => Some p
    | None => GetDefaultPreset s
    end
  else GetDefaultPreset s.

(** [GetEffectivePreset] of a chain. *)
Definition GetEffectivePreset (s : PresetState) (c : Chain) : option ConnectionPreset :=
  match (if Chain_ObfuscationProfile c != "" then GetPreset s (Chain_ObfuscationProfile c) else None) with
  | Some p => Some p
  | None =>
      if Chain_UserProtocol c != "" then GetDefaultPresetForProtocol s (Chain_UserProtocol c)
      else GetDefaultPreset s
  end.

(** [resolveChainPreset] (merged_config.go). *)
Definition resolveChainPreset (s : PresetState) (c : Chain) : option ConnectionPreset :=
  match (if Chain_ObfuscationProfile c != "" then GetPreset s (Chain_ObfuscationProfile c) else None) with
  | Some p => Some p
  | None => GetEffectivePreset s c
  end.

(** [ResolveServerName] (merged_config.go). *)
Definition ResolveServerName (s : PresetState) (preset : ConnectionPreset) : string :=
  match ConnectionPreset_Reality preset with
  | Some (mkRealityPreset (sn :: _) _ _) => sn
  | _ =>
      match ConnectionPreset_XHTTP preset with
      | Some x =>
          match XHTTPPreset_Hosts x with
          | h :: _ => h
          | [] => EffectiveDefaultSNI s
          end
      | None => EffectiveDefaultSNI s
      end
  end.

(** [presetSupportsProtocol]. *)
Definition presetSupportsProtocol (p : ConnectionPreset) (protocol : string) : bool :=
  if protocol == "awg" then bool_decide (is_Some (ConnectionPreset_AWG p))
  else if protocol == "tuic" then bool_decide (is_Some (ConnectionPreset_TUIC p))
  else if protocol == "vless-reality" then bool_decide (is_Some (ConnectionPreset_Reality p))
  else if (protocol == "naive") || (protocol == "mieru") || (protocol == "mtproxy") ||
          (protocol == "trusttunnel") then false
  else bool_decide (is_Some (ConnectionPreset_XHTTP p)).

(** [defaultPresetForAWGVersion]. *)
Definition defaultPresetForAWGVersion (version : string) : string :=
  if (version == AWGVersion3) || (version == AWGVersion31) then "maximum_stealth_2026_awg3"
  else "maximum_stealth_2026_awg".

(** [PresetSupportsAWGVersion]. *)
Definition PresetSupportsAWGVersion (p : ConnectionPreset) (version : string) : bool :=
  match ConnectionPreset_AWG p with
  | None => false
  | Some a =>
      let presetVer := if AWGPreset_Version a == "" then AWGVersion2 else AWGPreset_Version a in
      let version := if version == "" then AWGVersion2 else version in
      if IsAWG3Family version then presetVer == AWGVersion3 else presetVer != AWGVersion3
  end.

(** ** Lemmas *)

(** The last registration of a name wins; other names are untouched. *)
Lemma register_lookup l : forall m name,
  register l m !! name =
    match List.find (fun p => ConnectionPreset_Name p == name) (rev l) with
    | Some p => Some p
    | None => m !! name
    end.
Proof.
  induction l as [|p l IH]; intros m name; simpl; [done|].
  rewrite IH. clear IH.
  assert (forall l', List.find (fun p => ConnectionPreset_Name p == name) (l' ++ [p]) =
    match List.find (fun p => ConnectionPreset_Name p == name) l' with
    | Some q => Some q
    | None => if ConnectionPreset_Name p == name then Some p else None
    end) as ->.
  { induction l' as [|q l' IHl]; simpl; [done|]. by destruct (ConnectionPreset_Name q == name). }
  destruct (List.find _ (rev l)); [done|]. rewrite lookup_insert. case_decide; by case_bool_decide.
Qed.

Definition registered (l : list ConnectionPreset) (name : string) : Prop :=
  name ∈ map ConnectionPreset_Name l.

Lemma register_is_Some l m name :
  is_Some (register l m !! name) <-> registered l name \/ is_Some (m !! name).
Proof.
  rewrite register_lookup. unfold registered.
  destruct (List.find _ (rev l)) as [p|] eqn:E.
  - apply List.find_some in E as [Hin Hn]. apply bool_decide_eq_true in Hn.
    split; [|by eexists]. intros _. left. subst name.
    apply list_elem_of_In, in_map. by apply in_rev.
  - split; [tauto|]. intros [Hin|]; [exfalso|done].
    apply list_elem_of_In, in_map_iff in Hin as (p & Hn & Hp).
    apply in_rev, (List.find_none _ _ E), bool_decide_eq_false in Hp. done.
Qed.

(** ** Operations on the registry, in any order *)

Inductive PresetOp :=
| OpLoad (external : list ConnectionPreset)
| OpSetDefault (name : string)
| OpSetSNI (sni : string).

Definition applyPresetOp (builtin : list ConnectionPreset) (s : PresetState) (o : PresetOp) : PresetState :=
  match o with
  | OpLoad ext => LoadPresets builtin ext s
  | OpSetDefault name => SetDefaultProfile name s
  | OpSetSNI sni => SetDefaultSNI sni s
  end.

Definition runPresets (builtin : list ConnectionPreset) (ops : list PresetOp) : PresetState :=
  foldl (applyPresetOp builtin) (initState builtin) ops.

(** The default profile never names an external preset. *)
Definition builtinDefaults (builtin : list ConnectionPreset) (ops : list PresetOp) : Prop :=
  Forall (fun o => match o with OpSetDefault n => registered builtin n | _ => True end) ops.

Section registry.
Context (builtin : list ConnectionPreset).
Hypothesis builtin_default : registered builtin "maximum_stealth_2026".

Definition registryOK (s : PresetState) : Prop :=
  registered builtin (defaultPresetName s) /\
  (forall name, registered builtin name -> is_Some (presets s !! name)).

Lemma LoadPresets_registered ext s name :
  registered builtin name -> is_Some (presets (LoadPresets builtin ext s) !! name).
Proof. intros H. apply register_is_Some. right. apply register_is_Some. by left. Qed.

Lemma runPresets_OK ops : builtinDefaults builtin ops -> registryOK (runPresets builtin ops).
Proof using builtin_default.
  unfold runPresets. assert (registryOK (initState builtin)) as H0.
  { split; [done|]. intros name. apply LoadPresets_registered. }
  revert H0. generalize (initState builtin). induction ops as [|o ops IH]; intros s Hs Hops; [done|].
  apply Forall_cons in Hops as [Ho Hops]. simpl. apply IH; [|done]. destruct Hs as [H1 H2].
  destruct o as [ext|name|sni]; simpl.
  - split; [done|apply LoadPresets_registered].
  - unfold SetDefaultProfile. by destruct (GetPreset s name).
  - done.
Qed.
End registry.

(** The preset a chain resolves to, by priority. *)
Definition presetPriority (s : PresetState) (c : Chain) : list string :=
  (if Chain_ObfuscationProfile c != "" then [Chain_ObfuscationProfile c] else []) ++
  (if (Chain_UserProtocol c != "") && (defaultPresetForProtocol (Chain_UserProtocol c) != "")
   then [defaultPresetForProtocol (Chain_UserProtocol c)] else []) ++
  [defaultPresetName s].

Fixpoint firstPreset (s : PresetState) (names : list string) : option ConnectionPreset :=
  match names with
  | [] => None
  | n :: names' => match GetPreset s n with Some p => Some p | None => firstPreset s names' end
  end.

Lemma resolveChainPreset_priority s c :
  resolveChainPreset s c = firstPreset s (presetPriority s c).
Proof.
  unfold resolveChainPreset, GetEffectivePreset, GetDefaultPresetForProtocol, presetPriority,
    GetDefaultPreset, MustGetPreset.
  repeat (case_bool_decide; simpl); repeat case_step; simpl; try congruence;
    destruct (GetPreset s (defaultPresetName s)); congruence.
Qed.

Lemma resolveChainPreset_total builtin ops c :
  registered builtin "maximum_stealth_2026" -> builtinDefaults builtin ops ->
  is_Some (resolveChainPreset (runPresets builtin ops) c).
Proof.
  intros Hb Hops. rewrite resolveChainPreset_priority.
  destruct (runPresets_OK builtin Hb ops Hops) as [H1 H2]. apply H2 in H1 as [p Hp].
  unfold presetPriority. generalize (runPresets builtin ops) p Hp. intros s q Hq.
  assert (forall l, is_Some (firstPreset s (l ++ [defaultPresetName s]))) as H.
  { induction l as [|n l IH]; simpl; [unfold GetPreset; by rewrite Hq|].
    destruct (GetPreset s n); [by eexists|done]. }
  rewrite app_assoc. apply H.
Qed.

(** The preset of a chain.  Whatever external presets are loaded, and
    whatever built-in profile is made the default, in any order, every chain
    resolves to a preset without a panic, and it is the first one registered
    among: the profile of the chain, the default of its user protocol, the
    default profile. *)
Theorem chain_preset_resolves builtin ops c :
  registered builtin "maximum_stealth_2026" -> builtinDefaults builtin ops ->
  exists p, resolveChainPreset (runPresets builtin ops) c = Some p /\
    firstPreset (runPresets builtin ops) (presetPriority (runPresets builtin ops) c) = Some p.
Proof.
  intros Hb Hops. destruct (resolveChainPreset_total builtin ops c Hb Hops) as [p Hp].
  exists p. by rewrite <- resolveChainPreset_priority.
Qed.

Definition sampleBuiltin : list ConnectionPreset :=
  [mkConnectionPreset "maximum_stealth_2026" "" "" None None None None 3 "" (mkPresetRouting [] [] [] []);
   mkConnectionPreset "maximum_stealth_2026_awg" "awg" "" None None None None 1 "" (mkPresetRouting [] [] [] [])].

Definition customPreset : ConnectionPreset :=
  mkConnectionPreset "mine" "" "" None None None None 0 "" (mkPresetRouting [] [] [] []).

Lemma chain_preset_resolves_witness :
  let s := runPresets sampleBuiltin [OpLoad [customPreset]; OpSetDefault "maximum_stealth_2026_awg"] in
  let c := zeroChain <| Chain_ObfuscationProfile := "mine" |> in
  presetPriority s c = ["mine"; "maximum_stealth_2026_awg"] /\
  exists p, resolveChainPreset s c = Some p /\ firstPreset s (presetPriority s c) = Some p.
Proof.
  intros s c. split; [by vm_compute|].
  apply (chain_preset_resolves sampleBuiltin
    [OpLoad [customPreset]; OpSetDefault "maximum_stealth_2026_awg"] c).
  - by left.
  - apply Forall_cons. split; [done|]. apply Forall_singleton. right. by left.
Defined.

(** The restriction to built-in defaults is needed: a default profile taken
    from the external file is lost by the next reload of the registry, which
    the preset pages of the panel do with the custom presets only. *)
Lemma external_default_panics :
  let s := runPresets sampleBuiltin [OpLoad [customPreset]; OpSetDefault "mine"; OpLoad []] in
  GetDefaultPreset s = None /\ resolveChainPreset s zeroChain = None.
Proof. by vm_compute. Qed.
