(* ===== verification/Roles.v ===== *)
(** * Roles: the roles of a node in its chains

    internal/chain/merged_config.go ([resolveChainRoles], the entry helpers and
    the tags), strategygroup.go (group outbounds and the topology check) and
    frozen.go (paused protocols). *)

From S2P Require Import Prelude GoStrings Model ChainModel Lifecycle Presets.

(** ** Roles *)

Record chainRole := mkChainRole {
  role_Chain : Chain;
  role_NodeIndex : nat;
  role_Node : ChainNode;
  role_IsEntry : bool;
  role_IsTransit : bool;
  role_HasOutbound : bool;
  role_Preset : ConnectionPreset;
  role_LevelIndex : Z;
  role_NextNodes : list ChainNode }.

(** The scan of one level: the flat index and the node found, or the flat
    index after the level. *)
Fixpoint scanNodes (nodeID : string) (flatIdx : nat) (ns : list ChainNode) : nat * option ChainNode :=
  match ns with
  | [] => (flatIdx, None)
  | n :: ns' => if ChainNode_ID n == nodeID then (flatIdx, Some n) else scanNodes nodeID (S flatIdx) ns'
  end.

(** The role of a node in a levelized chain. *)
Fixpoint scanLevels (c : Chain) (p : ConnectionPreset) (nodeID : string) (li : Z) (flatIdx : nat)
    (lvs : list ChainLevel) : option chainRole :=
  match lvs with
  | [] => None
  | lv :: lvs' =>
      match scanNodes nodeID flatIdx (ChainLevel_Nodes lv) with
      | (i, Some n) =>
          Some (mkChainRole c i n (li =? 0) ((0 <? li) && (ChainNode_Role n != NodeRoleExit))
            (match lvs' with [] => false | _ => true end) p li
            (match lvs' with [] => [] | next :: _ => ChainLevel_Nodes next end))
      | (i, None) => scanLevels c p nodeID (li + 1) i lvs'
      end
  end.

(** The role of a node in a flat chain. *)
Fixpoint scanFlat (c : Chain) (p : ConnectionPreset) (nodeID : string) (i : nat)
    (ns : list ChainNode) : option chainRole :=
  match ns with
  | [] => None
  | n :: ns' =>
      if ChainNode_ID n != nodeID then scanFlat c p nodeID (S i) ns'
      else
        let isEntry := (ChainNode_Role n == NodeRoleEntry) || ((ChainNode_Role n == "") && (Z.of_nat i =? 0)) in
        let isTransit := (ChainNode_Role n == NodeRoleTransit) || ((ChainNode_Role n == "") && (0 <? Z.of_nat i)) in
        Some (mkChainRole c i n isEntry isTransit (match ns' with [] => false | _ => true end) p (-1)
          (match ns' with [] => [] | next :: _ => [next] end))
  end.

(** One turn of the loop of [resolveChainRoles]; the preset is resolved only
    when the node is found ([None] is the panic of the default preset). *)
Definition chainRoleIn (s : PresetState) (nodeID : string) (c : Chain) : option (option chainRole) :=
  let scan p := if IsLevelized c then scanLevels c p nodeID 0 0 (Chain_Levels c)
                else scanFlat c p nodeID 0 (Chain_Nodes c) in
  match scan zeroConnectionPreset with
  | None => Some None
  | Some _ =>
      match resolveChainPreset s c with
      | None => None
      | Some p => Some (scan p)
      end
  end.

(** [resolveChainRoles]. *)
Fixpoint resolveChainRoles (s : PresetState) (nodeID : string) (chains : list Chain)
    : option (list chainRole) :=
  match chains with
  | [] => Some []
  | c :: chains' =>
      match chainRoleIn s nodeID c, resolveChainRoles s nodeID chains' with
      | Some None, Some rs => Some rs
      | Some (Some r), Some rs => Some (r :: rs)
      | _, _ => None
      end
  end.

(** ** Entries, ports and tags *)

Definition defaultUserPort : Z := 8443.
Definition defaultTransportPort : Z := 443.

(** [chainUserPort]. *)
Definition chainUserPort (c : Chain) : Z :=
  if 0 <? Chain_UserEntryPort c then Chain_UserEntryPort c else defaultUserPort.

(** [chainEntryNodes]. *)
Definition chainEntryNodes (c : Chain) : list ChainNode :=
  match Chain_Levels c with
  | lv :: _ => ChainLevel_Nodes lv
  | [] =>
      match List.filter (fun n => ChainNode_Role n == NodeRoleEntry) (Chain_Nodes c) with
      | [] => match Chain_Nodes c with [] => [] | n :: _ => [n] end
      | entries => entries
      end
  end.

(** [chainEntryIndex]: the ordinal of the node, 0 when it is not an entry. *)
Definition chainEntryIndex (c : Chain) (nodeID : string) : Z :=
  let i := nodeIndexFrom 0 nodeID (chainEntryNodes c) in
  if i =? -1 then 0 else i.

(** [chainEntryPort]. *)
Definition chainEntryPort (c : Chain) (nodeID : string) : Z := chainUserPort c + chainEntryIndex c nodeID.

(** [chainUserInboundTag]. *)
Definition chainUserInboundTag (c : Chain) (nodeID : string) : string :=
  if (1 <? length (chainEntryNodes c))%nat
  then "ch-" +:+ Chain_Name c +:+ "-user-in-" +:+ nodeID
  else "ch-" +:+ Chain_Name c +:+ "-user-in".

(** The tag of the inter-node inbound. *)
Definition transportInTag (c : Chain) : string := "ch-" +:+ Chain_Name c +:+ "-transport-in".

(** [levelGroupTag] (strategygroup.go). *)
Definition levelGroupTag (chainName : string) (downstreamLevel : Z) : string :=
  "ch-" +:+ chainName +:+ "-grp-l" +:+ itoa downstreamLevel.

(** [safeSNILabel]. *)
Definition safeSNILabel (sni : string) : string :=
  match cut_at "."%char sni with
  | Some (String c l, _) => String c l
  | _ => if (16 <? String.length sni)%nat then take_string 16 sni else sni
  end.

(** [transportOutTag]. *)
Definition transportOutTag (chainName serverName targetID : string) (group : bool) : string :=
  let base := "ch-" +:+ chainName +:+ "-out-" +:+ safeSNILabel serverName in
  if group then base +:+ "-" +:+ safeSNILabel targetID else base.

(** The tag of an AWG hop. *)
Definition awgOutTag (chainName nextID : string) : string :=
  "ch-" +:+ chainName +:+ "-out-awg-" +:+ safeSNILabel nextID.

(** [chainInterNodeOutboundTag]. *)
Definition chainInterNodeOutboundTag (s : PresetState) (role : chainRole) : string :=
  let c := role_Chain role in
  if (1 <? length (role_NextNodes role))%nat then levelGroupTag (Chain_Name c) (role_LevelIndex role + 1)
  else if Chain_Transport c == TransportAWG then
    awgOutTag (Chain_Name c)
      (if role_HasOutbound role
       then match Chain_Nodes c !! S (role_NodeIndex role) with Some n => ChainNode_ID n | None => "" end
       else "")
  else "ch-" +:+ Chain_Name c +:+ "-out-" +:+ safeSNILabel (ResolveServerName s (role_Preset role)).

(** ** Group outbounds (strategygroup.go) *)

(** The group outbounds of the configuration; the other outbounds by tag. *)
Inductive Outbound :=
| FallbackOutbound (tag : string) (members : list string) (blacklistTimeout : string)
| StrategyOutbound (type tag : string) (members : list string) (default_ url interval : string) (tolerance : Z)
| HopOutbound (tag : string) (next : ChainNode)
| DirectOutbound (tag bindInterface : string)
| BlockOutbound (tag : string).

(** [extractTag]. *)
Definition extractTag (o : Outbound) : string :=
  match o with
  | FallbackOutbound tag _ _ | StrategyOutbound _ tag _ _ _ _ _ | HopOutbound tag _
  | DirectOutbound tag _ | BlockOutbound tag => tag
  end.

Definition urlTestProbeURL : string := "https://www.gstatic.com/generate_204".

(** [buildStrategyGroupOutbound]; [None] is its error. *)
Definition buildStrategyGroupOutbound (strategy : Strategy) (tag : string) (members : list string)
    : option Outbound :=
  match members with
  | [] => None
  | m0 :: _ =>
      if (strategy == "") || (strategy == StrategyFallback) then
        Some (FallbackOutbound tag members "30s")
      else if strategy == StrategyURLTest then
        Some (StrategyOutbound "urltest" tag members "" urlTestProbeURL "3m" 50)
      else if strategy == StrategyFailover then
        Some (StrategyOutbound "urltest" tag members "" urlTestProbeURL "1m" 0)
      else if strategy == StrategySelector then
        Some (StrategyOutbound "selector" tag members m0 "" "" 0)
      else None
  end.

(** [effectiveGroupStrategy]. *)
Definition effectiveGroupStrategy (s : Strategy) : Strategy := if s == "" then StrategyFallback else s.

(** [ValidateChainTopology]: the two reasons to refuse a chain. *)
Inductive TopologyError := EmptyLevel (level : nat) | AWGGroupedLevel (level : nat).

Fixpoint firstLevel (P : nat -> bool) (i : nat) (lvs : list ChainLevel) : option nat :=
  match lvs with
  | [] => None
  | lv :: lvs' => if P (length (ChainLevel_Nodes lv)) then Some i else firstLevel P (S i) lvs'
  end.

Definition ValidateChainTopology (c : Chain) : option TopologyError :=
  if negb (IsLevelized c) then None
  else
    match firstLevel (fun n => (n =? 0)%nat) 0 (Chain_Levels c) with
    | Some i => Some (EmptyLevel i)
    | None =>
        if Chain_Transport c == TransportAWG then
          match firstLevel (fun n => negb (n =? 1)%nat) 0 (Chain_Levels c) with
          | Some i => Some (AWGGroupedLevel i)
          | None => None
          end
        else None
    end.

(** ** Paused protocols (frozen.go) *)

(** [ValidateChainTransport], [ValidateChainUserProtocol] and
    [ValidateStandaloneProtocol]: [true] is "no error". *)
Definition ValidateChainTransport (t : TransportType) : bool := t != TransportHysteria2.
Definition ValidateChainUserProtocol (p : UserProtocol) : bool := p != UserProtocolTUIC.
Definition ValidateStandaloneProtocol (proto : string) : bool := negb ((proto == "tuic") || (proto == "hysteria2")).
Definition IsFrozenStandaloneProtocol (proto : string) : bool := (proto == "tuic") || (proto == "hysteria2").

(** ** The outbounds of one role ([buildChainRoleInOut]) *)

(** The hop outbounds and endpoints of a role.  [build] is the JSON rendering
    of one hop (the wire format of sing-box); it may fail, and the Go code then
    drops the hop. *)
Class HopBuilder := buildHop : chainRole -> ChainNode -> bool.

(** Tags of the outbounds, of the endpoints, and the warnings. *)
Record HopsOut := mkHopsOut {
  hops_outbounds : list Outbound;
  hops_endpoints : list string;
  hops_members : list string;
  hops_warnings : nat }.

Definition hopTargets (role : chainRole) : list ChainNode :=
  match role_NextNodes role with
  | [] => match Chain_Nodes (role_Chain role) !! S (role_NodeIndex role) with Some n => [n] | None => [] end
  | ns => ns
  end.

Definition hopServerName (s : PresetState) (role : chainRole) : string :=
  let sn := ResolveServerName s (role_Preset role) in
  if sn == "" then EffectiveDefaultSNI s else sn.

Section hops.
Context `{HopBuilder} (s : PresetState) (role : chainRole) (group : bool).

Definition addHop (acc : HopsOut) (next : ChainNode) : HopsOut :=
  let c := role_Chain role in
  let cn := Chain_Name c in
  let '(mkHopsOut outs eps mem w) := acc in
  if Chain_Transport c == TransportHysteria2 then mkHopsOut outs eps mem (S w)
  else if negb (buildHop role next) then acc
  else if Chain_Transport c == TransportAWG then
    mkHopsOut outs (eps ++ [awgOutTag cn (ChainNode_ID next)]) mem w
  else
    let tag := transportOutTag cn (hopServerName s role) (ChainNode_ID next) group in
    mkHopsOut (outs ++ [HopOutbound tag next]) eps (mem ++ [tag]) w.
End hops.

Definition buildRoleHops `{HopBuilder} (s : PresetState) (role : chainRole) : HopsOut :=
  if negb (role_HasOutbound role) then mkHopsOut [] [] [] 0
  else
    let next := hopTargets role in
    let group := (1 <? length next)%nat in
    let '(mkHopsOut outs eps mem w) := foldl (addHop s role group) (mkHopsOut [] [] [] 0) next in
    if (1 <? length mem)%nat then
      match buildStrategyGroupOutbound
              (effectiveGroupStrategy (LevelStrategy (role_Chain role) (ChainNode_ID (role_Node role))))
              (levelGroupTag (Chain_Name (role_Chain role)) (role_LevelIndex role + 1)) mem with
      | None => mkHopsOut outs eps mem (S w)
      | Some g => mkHopsOut (outs ++ [g]) eps mem w
      end
    else mkHopsOut outs eps mem w.

(** ** Lemmas: roles and the accessors of the model *)

Lemma scanNodes_spec id k ns :
  match scanNodes id k ns with
  | (i, Some n) => exists j, i = (k + j)%nat /\ ns !! j = Some n /\ findNode id ns = Some n /\
                     existsb (fun n => ChainNode_ID n == id) ns = true
  | (i, None) => i = (k + length ns)%nat /\ findNode id ns = None /\
                 existsb (fun n => ChainNode_ID n == id) ns = false
  end.
Proof.
  revert k. induction ns as [|n ns IH]; intros k; simpl; [split_and!; [lia|done|done]|].
  unfold findNode. simpl. case_bool_decide as E; simpl.
  - exists 0%nat. split_and!; [lia|done|done|done].
  - specialize (IH (S k)). unfold findNode in IH. destruct (scanNodes id (S k) ns) as [i [m|]].
    + destruct IH as (j & -> & H1 & H2 & H3). exists (S j). split_and!; [lia|done|done|done].
    + destruct IH as (-> & H1 & H2). split_and!; [lia|done|done].
Qed.

(** What the role of a node says, in terms of the remaining levels. *)
Lemma scanLevels_spec c p id lvs : forall li k,
  match scanLevels c p id li k lvs with
  | Some r =>
      role_Chain r = c /\ role_Preset r = p /\
      findInLevels id lvs = Some (role_Node r) /\
      (exists j a, role_NodeIndex r = (k + j)%nat /\ flattenLevels lvs !! j = Some (role_Node r) /\
        (length (flattenLevels (take a lvs)) <= j < length (flattenLevels (take (S a) lvs)))%nat /\
        role_LevelIndex r = li + Z.of_nat a /\ levelIndexFrom li id lvs = li + Z.of_nat a /\
        role_HasOutbound r = bool_decide (is_Some (lvs !! S a)) /\
        role_NextNodes r = match lvs !! S a with Some lv => ChainLevel_Nodes lv | None => [] end) /\
      role_IsEntry r = (role_LevelIndex r =? 0) /\
      role_IsTransit r = (0 <? role_LevelIndex r) && (ChainNode_Role (role_Node r) != NodeRoleExit)
  | None => findInLevels id lvs = None /\ levelIndexFrom li id lvs = -1
  end.
Proof.
  induction lvs as [|lv lvs IH]; intros li k; [done|].
  cbn [scanLevels flattenLevels findInLevels levelIndexFrom].
  pose proof (scanNodes_spec id k (ChainLevel_Nodes lv)) as Hs.
  destruct (scanNodes id k (ChainLevel_Nodes lv)) as [i [n|]]; simpl in Hs.
  - destruct Hs as (j & -> & H1 & H2 & H3). rewrite H2, H3. simpl.
    split_and!; [done|done|done| |done|done].
    exists j, 0%nat. split_and!; [done|by apply lookup_app_l_Some|simpl; lia| |lia|lia|by destruct lvs|by destruct lvs].
    apply lookup_lt_Some in H1. simpl. rewrite ?length_app. simpl. lia.
  - destruct Hs as (-> & H1 & H2). rewrite H1, H2. simpl.
    specialize (IH (li + 1) (k + length (ChainLevel_Nodes lv))%nat).
    destruct (scanLevels _ _ _ _ _ _) as [r|]; [|done].
    destruct IH as (E1 & E2 & E5 & (j & a & E3 & E4 & E6 & E7 & E8 & E9 & E9') & E10 & E11).
    split_and!; [done|done|done| |done|done].
    exists (length (ChainLevel_Nodes lv) + j)%nat, (S a).
    split_and!; [lia| | | |lia|lia|done|done]; simpl; rewrite ?length_app; simpl in *; try lia.
    rewrite lookup_app_r by lia. by rewrite Nat.add_comm, Nat.add_sub.
Qed.

Lemma scanFlat_spec c p id ns : forall k,
  match scanFlat c p id k ns with
  | Some r =>
      role_Chain r = c /\ role_Preset r = p /\
      (exists j, role_NodeIndex r = (k + j)%nat /\ ns !! j = Some (role_Node r) /\
        nodeIndexFrom (Z.of_nat k) id ns = Z.of_nat (k + j) /\
        role_HasOutbound r = bool_decide (is_Some (ns !! S j)) /\
        role_NextNodes r = match ns !! S j with Some n => [n] | None => [] end) /\
      findNode id ns = Some (role_Node r) /\ role_LevelIndex r = -1 /\
      role_IsEntry r = (ChainNode_Role (role_Node r) == NodeRoleEntry) ||
        ((ChainNode_Role (role_Node r) == "") && (Z.of_nat (role_NodeIndex r) =? 0)) /\
      role_IsTransit r = (ChainNode_Role (role_Node r) == NodeRoleTransit) ||
        ((ChainNode_Role (role_Node r) == "") && (0 <? Z.of_nat (role_NodeIndex r)))
  | None => findNode id ns = None /\ nodeIndexFrom (Z.of_nat k) id ns = -1
  end.
Proof.
  induction ns as [|n ns IH]; intros k; [done|]. cbn [scanFlat nodeIndexFrom]. unfold findNode. simpl.
  case_bool_decide as E; simpl.
  - split_and!; [done|done| |done|done|done|done]. exists 0%nat.
    split_and!; [lia|done|lia|by destruct ns|by destruct ns].
  - specialize (IH (S k)). replace (Z.of_nat (S k)) with (Z.of_nat k + 1) in IH by lia.
    unfold findNode in IH. destruct (scanFlat _ _ _ _ _) as [r|]; [|done].
    destruct IH as (E1 & E2 & (j & E3 & E4 & E5 & E6 & E7) & E8 & E9 & E10 & E11).
    split_and!; [done|done| |done|done|done|done]. exists (S j). split_and!; [lia|done|lia|done|done].
Qed.

(** A role agrees with the accessors of the model. *)
Record roleAgrees (s : PresetState) (nodeID : string) (c : Chain) (r : chainRole) : Prop := mkRoleAgrees {
  agree_chain : role_Chain r = c;
  agree_preset : resolveChainPreset s c = Some (role_Preset r);
  agree_node : NodeByID c nodeID = Some (role_Node r);
  agree_index : AllNodes c !! role_NodeIndex r = Some (role_Node r);
  agree_next : role_NextNodes r = NextLevelNodes c nodeID;
  agree_level : if IsLevelized c then role_LevelIndex r = LevelIndexOf c nodeID
                else role_LevelIndex r = -1 /\ Z.of_nat (role_NodeIndex r) = LevelIndexOf c nodeID;
  agree_out : role_HasOutbound r = false -> role_NextNodes r = [];
  agree_entry : IsLevelized c = true -> role_IsEntry r = true <-> LevelIndexOf c nodeID = 0 }.

Lemma chainRoleIn_agrees s id c r : chainRoleIn s id c = Some (Some r) -> roleAgrees s id c r.
Proof.
  unfold chainRoleIn. intros H.
  destruct (if IsLevelized c then _ else _) eqn:E0 in H; [|done].
  destruct (resolveChainPreset s c) as [p|] eqn:Ep; [|done]. injection H as H.
  destruct (IsLevelized c) eqn:El.
  - pose proof (scanLevels_spec c p id (Chain_Levels c) 0 0) as Hs. rewrite H in Hs.
    destruct Hs as (E1 & E2 & E5 & (j & a & E3 & E4 & _ & E6 & E7 & E8 & E9) & E10 & E11).
    split; rewrite ?El; try done.
    + by rewrite Ep, E2.
    + unfold NodeByID. by rewrite El.
    + unfold AllNodes. rewrite El. simpl. by rewrite E3.
    + unfold NextLevelNodes, LevelIndexOf. rewrite El. cbv [negb]. rewrite E7, E9.
      rewrite (proj2 (Z.ltb_ge _ _)) by lia. by replace (Z.to_nat (0 + Z.of_nat a + 1)) with (S a) by lia.
    + unfold LevelIndexOf. rewrite El. cbv [negb]. by rewrite E6, E7.
    + rewrite E8, E9. intros Hf%bool_decide_eq_false. destruct (Chain_Levels c !! S a); [|done].
      exfalso. apply Hf. by eexists.
    + intros _. rewrite E10, Z.eqb_eq. unfold LevelIndexOf. rewrite El. cbv [negb]. by rewrite E6, E7.
  - pose proof (scanFlat_spec c p id (Chain_Nodes c) 0) as Hs. rewrite H in Hs.
    destruct Hs as (E1 & E2 & (j & E3 & E4 & E5 & E6 & E7) & E8 & E9 & _). change (Z.of_nat 0) with 0 in E5; change (0 + j)%nat with j in *.
    split; rewrite ?El; try done.
    + by rewrite Ep, E2.
    + unfold NodeByID. by rewrite El.
    + unfold AllNodes. rewrite El. simpl. by rewrite E3.
    + unfold NextLevelNodes, LevelIndexOf. rewrite El. cbv [negb]. rewrite E5, E7.
      rewrite (proj2 (Z.ltb_ge _ _)) by lia. by replace (Z.to_nat (Z.of_nat j + 1)) with (S j) by lia.
    + split; [done|]. unfold LevelIndexOf. rewrite El. cbv [negb]. rewrite E5, E3. lia.
    + rewrite E6, E7. intros Hf%bool_decide_eq_false. destruct (Chain_Nodes c !! S j); [|done].
      exfalso. apply Hf. by eexists.
Qed.

Lemma chainRoleIn_None s id c : chainRoleIn s id c = Some None <-> NodeByID c id = None.
Proof.
  unfold chainRoleIn, NodeByID. destruct (IsLevelized c).
  - pose proof (scanLevels_spec c zeroConnectionPreset id (Chain_Levels c) 0 0) as Hs.
    destruct (scanLevels _ _ _ _ _ _) as [r|].
    + destruct Hs as (_ & _ & E & _). rewrite E. destruct (resolveChainPreset s c) as [p|]; [|done].
      split; [|done]. intros [= H]. pose proof (scanLevels_spec c p id (Chain_Levels c) 0 0) as Hs.
      rewrite H, E in Hs. by destruct Hs.
    + by destruct Hs as [-> _].
  - pose proof (scanFlat_spec c zeroConnectionPreset id (Chain_Nodes c) 0) as Hs.
    destruct (scanFlat _ _ _ _ _) as [r|].
    + destruct Hs as (_ & _ & _ & E & _). rewrite E. destruct (resolveChainPreset s c) as [p|]; [|done].
      split; [|done]. intros [= H]. pose proof (scanFlat_spec c p id (Chain_Nodes c) 0) as Hs.
      rewrite H, E in Hs. by destruct Hs.
    + by destruct Hs as [-> _].
Qed.

(** Roles of a node.  When the presets resolve, a node gets exactly one
    role per chain that contains it, in the order of the chains, and each role
    agrees with the accessors of the model: the node is the one [NodeByID]
    finds, at its index in the flattened chain, its group of next nodes is
    [NextLevelNodes] and the entry level is level 0. *)
Theorem resolveChainRoles_agree s id chains roles :
  resolveChainRoles s id chains = Some roles ->
  map role_Chain roles = List.filter (fun c => bool_decide (is_Some (NodeByID c id))) chains /\
  Forall (fun r => roleAgrees s id (role_Chain r) r) roles.
Proof.
  revert roles. induction chains as [|c chains IH]; intros roles; simpl; [by intros [= <-]|].
  destruct (chainRoleIn s id c) as [[r|]|] eqn:Ec; [| |done];
    (destruct (resolveChainRoles s id chains) as [rs|]; [|done]); intros [= <-];
    destruct (IH rs eq_refl) as [IH1 IH2].
  - apply chainRoleIn_agrees in Ec as Ha. pose proof (agree_chain _ _ _ _ Ha) as Hc. subst c.
    rewrite bool_decide_eq_true_2 by (rewrite (agree_node _ _ _ _ Ha); by eexists).
    simpl. rewrite IH1. split; [done|]. by constructor.
  - apply chainRoleIn_None in Ec. rewrite bool_decide_eq_false_2; [done|].
    rewrite Ec. by intros [? ?].
Qed.

(** ** The forward target of a role exists *)

Lemma firstLevel_None P i lvs :
  firstLevel P i lvs = None <-> Forall (fun lv => P (length (ChainLevel_Nodes lv)) = false) lvs.
Proof.
  revert i. induction lvs as [|lv lvs IH]; intros i; simpl; [by split|].
  rewrite Forall_cons, <- (IH (S i)). destruct (P (length (ChainLevel_Nodes lv))); split; try done.
  - by intros [? ?].
  - by intros [_ ?].
Qed.

Lemma ValidateChainTopology_ok c :
  ValidateChainTopology c = None <->
  Forall (fun lv => ChainLevel_Nodes lv <> [] /\
            (Chain_Transport c = TransportAWG -> length (ChainLevel_Nodes lv) = 1%nat)) (Chain_Levels c).
Proof.
  unfold ValidateChainTopology, IsLevelized.
  destruct (Chain_Levels c) as [|lv0 lvs0] eqn:El; [by split|]. simpl negb. cbv iota.
  rewrite <- El. clear El lv0 lvs0. rewrite Forall_and.
  assert (forall lvs, Forall (fun lv => ((length (ChainLevel_Nodes lv) =? 0)%nat) = false) lvs <->
    Forall (fun lv => ChainLevel_Nodes lv <> []) lvs) as H1.
  { intros lvs. apply Forall_iff. intros lv. by destruct (ChainLevel_Nodes lv). }
  destruct (firstLevel _ 0 (Chain_Levels c)) eqn:E1.
  - split; [done|]. intros [H _]. apply H1 in H.
    apply (firstLevel_None (fun n => (n =? 0)%nat) 0) in H. congruence.
  - apply firstLevel_None in E1. apply H1 in E1. case_bool_decide as Et.
    + destruct (firstLevel _ 0 (Chain_Levels c)) eqn:E2.
      * split; [done|]. intros [_ H]. exfalso.
        assert (firstLevel (fun n => negb (n =? 1)%nat) 0 (Chain_Levels c) = None); [|congruence].
        apply firstLevel_None. eapply Forall_impl; [exact H|]. intros lv Hl.
        rewrite negb_false_iff, Nat.eqb_eq. by apply Hl.
      * apply firstLevel_None in E2. split; [intros _|done]. split; [done|].
        eapply Forall_impl; [exact E2|]. intros lv Hl _.
        by apply negb_false_iff, Nat.eqb_eq in Hl.
    + split; [intros _|done]. split; [done|]. apply Forall_forall. by intros.
Qed.

Section hopLemmas.
Context `{HopBuilder} (s : PresetState) (role : chainRole) (group : bool).
Hypothesis buildable : forall n, n ∈ hopTargets role -> buildHop role n = true.
Hypothesis not_frozen : Chain_Transport (role_Chain role) <> TransportHysteria2.

Lemma addHop_all next : forall outs eps mem w,
  (forall n, n ∈ next -> buildHop role n = true) ->
  foldl (addHop s role group) (mkHopsOut outs eps mem w) next =
    if Chain_Transport (role_Chain role) == TransportAWG then
      mkHopsOut outs (eps ++ map (fun n => awgOutTag (Chain_Name (role_Chain role)) (ChainNode_ID n)) next) mem w
    else
      let tag n := transportOutTag (Chain_Name (role_Chain role)) (hopServerName s role) (ChainNode_ID n) group in
      mkHopsOut (outs ++ map (fun n => HopOutbound (tag n) n) next) eps (mem ++ map tag next) w.
Proof using not_frozen.
  induction next as [|n next IH]; intros outs eps mem w Hb; simpl.
  - case_bool_decide; simpl; by rewrite ?app_nil_r.
  - rewrite (bool_decide_eq_false_2 (_ = TransportHysteria2)) by done.
    rewrite (Hb n) by by left. simpl.
    destruct (Chain_Transport (role_Chain role) == TransportAWG) eqn:Et;
      (rewrite IH by (intros m Hm; apply Hb; by right)); simpl; rewrite ?Et, <- ?app_assoc; done.
Qed.
End hopLemmas.

(** A levelized chain as the store keeps it: the flat list is in step with the
    levels ([SaveChain] re-derives it). *)
Definition synced (c : Chain) : Prop := Chain_Nodes c = AllNodes c.

(** [chainInterNodeOutboundTag] when the next hop is a single node. *)
Lemma flatten_singletons lvs a :
  Forall (fun lv => length (ChainLevel_Nodes lv) = 1%nat) lvs ->
  length (flattenLevels (take a lvs)) = Nat.min a (length lvs) /\
  flattenLevels lvs !! a = (lv ← lvs !! a; head (ChainLevel_Nodes lv)).
Proof.
  revert a. induction lvs as [|lv lvs IH]; intros a; [by destruct a|].
  intros [Hl Hls]%Forall_cons. destruct (ChainLevel_Nodes lv) as [|n [|]] eqn:En; [done| |done].
  destruct a as [|a]; simpl; rewrite En; [done|]. destruct (IH a Hls) as [IH1 IH2]. simpl.
  split; [by rewrite IH1|done].
Qed.

Lemma role_targets s id c r :
  chainRoleIn s id c = Some (Some r) -> ValidateChainTopology c = None ->
  role_HasOutbound r = true -> role_NextNodes r <> [].
Proof.
  unfold chainRoleIn. intros H Ht Ho.
  destruct (if IsLevelized c then _ else _) eqn:E0 in H; [|done].
  destruct (resolveChainPreset s c) as [p|] eqn:Ep; [|done]. injection H as H.
  destruct (IsLevelized c) eqn:El.
  - pose proof (scanLevels_spec c p id (Chain_Levels c) 0 0) as Hs. rewrite H in Hs.
    destruct Hs as (_ & _ & _ & (j & a & _ & _ & _ & _ & _ & E8 & E9) & _).
    rewrite E8 in Ho. apply bool_decide_eq_true in Ho as [lv Hlv]. rewrite E9, Hlv.
    apply ValidateChainTopology_ok in Ht. by apply (Forall_lookup_1 _ _ _ _ Ht) in Hlv as [? _].
  - pose proof (scanFlat_spec c p id (Chain_Nodes c) 0) as Hs. rewrite H in Hs.
    destruct Hs as (_ & _ & (j & _ & _ & _ & E8 & E9) & _).
    rewrite E8 in Ho. apply bool_decide_eq_true in Ho as [n Hn]. by rewrite E9, Hn.
Qed.

Lemma role_awg_next s id c r :
  chainRoleIn s id c = Some (Some r) -> ValidateChainTopology c = None -> synced c ->
  Chain_Transport c = TransportAWG -> role_HasOutbound r = true ->
  exists next, role_NextNodes r = [next] /\ Chain_Nodes c !! S (role_NodeIndex r) = Some next.
Proof.
  unfold chainRoleIn. intros H Ht Hsync Ha Ho.
  destruct (if IsLevelized c then _ else _) eqn:E0 in H; [|done].
  destruct (resolveChainPreset s c) as [p|] eqn:Ep; [|done]. injection H as H.
  destruct (IsLevelized c) eqn:El.
  - pose proof (scanLevels_spec c p id (Chain_Levels c) 0 0) as Hs. rewrite H in Hs.
    destruct Hs as (_ & _ & _ & (j & a & E3 & E4 & [E5 E6] & _ & _ & E8 & E9) & _).
    rewrite E8 in Ho. apply bool_decide_eq_true in Ho as [lv Hlv].
    apply ValidateChainTopology_ok in Ht.
    assert (Forall (fun lv => length (ChainLevel_Nodes lv) = 1%nat) (Chain_Levels c)) as H1.
    { eapply Forall_impl; [exact Ht|]. intros lv' [_ Hl]. by apply Hl. }
    destruct (flatten_singletons _ a H1) as [L1 _]. destruct (flatten_singletons _ (S a) H1) as [L2 L3].
    pose proof (lookup_lt_Some _ _ _ Hlv) as Hlt.
    assert (j = a) as -> by lia. rewrite Hlv in L3. simpl in L3.
    apply (Forall_lookup_1 _ _ _ _ H1) in Hlv as Hl.
    destruct (ChainLevel_Nodes lv) as [|n [|]] eqn:En; [done| |done].
    exists n. rewrite E9, Hlv, En. split; [done|].
    rewrite Hsync. unfold AllNodes. rewrite El. simpl. by rewrite E3.
  - pose proof (scanFlat_spec c p id (Chain_Nodes c) 0) as Hs. rewrite H in Hs.
    destruct Hs as (_ & _ & (j & E3 & _ & _ & E8 & E9) & _).
    rewrite E8 in Ho. apply bool_decide_eq_true in Ho as [n Hn]. exists n.
    rewrite E9, E3, Hn. done.
Qed.

(** The forward target exists.  In a chain with a valid topology whose
    hops can be rendered, the outbound that the routes of a forwarding node
    name is one that the node's configuration declares, unless the build
    reports a warning (which fails the deploy). *)
Theorem forward_target_declared `{HopBuilder} s id c r :
  chainRoleIn s id c = Some (Some r) ->
  ValidateChainTopology c = None -> synced c ->
  role_HasOutbound r = true -> hops_warnings (buildRoleHops s r) = 0%nat ->
  ResolveServerName s (role_Preset r) <> "" ->
  (forall n, n ∈ hopTargets r -> buildHop r n = true) ->
  chainInterNodeOutboundTag s r ∈
    map extractTag (hops_outbounds (buildRoleHops s r)) ++ hops_endpoints (buildRoleHops s r).
Proof.
  intros Hr Ht Hsync Ho Hw Hsn Hb.
  pose proof (role_targets _ _ _ _ Hr Ht Ho) as Hne.
  pose proof (agree_chain _ _ _ _ (chainRoleIn_agrees _ _ _ _ Hr)) as Hc.
  assert (hopTargets r = role_NextNodes r) as Htg.
  { unfold hopTargets. by destruct (role_NextNodes r). }
  assert (hopServerName s r = ResolveServerName s (role_Preset r)) as Hsn'.
  { unfold hopServerName. cbv zeta. by rewrite bool_decide_eq_false_2. }
  unfold buildRoleHops in *. rewrite Ho in *. simpl negb in *. cbv iota zeta in *. rewrite Htg in *.
  destruct (decide (Chain_Transport c = TransportHysteria2)) as [Hy|Hy].
  { exfalso. destruct (role_NextNodes r) as [|n ns]; [done|]. simpl in Hw.
    rewrite Hc, bool_decide_eq_true_2 in Hw by done.
    assert (forall l acc, (0 < hops_warnings acc)%nat ->
      let '(mkHopsOut _ _ _ w) := foldl (addHop s r (1 <? S (length ns))%nat) acc l in (0 < w)%nat) as Hp.
    { induction l as [|m l IHl]; intros [o e me w0] Hacc; simpl; [done|]. apply IHl.
      rewrite Hc, bool_decide_eq_true_2 by done. simpl in *. lia. }
    specialize (Hp ns (mkHopsOut [] [] [] 1) ltac:(simpl; lia)). simpl in Hw, Hp.
    destruct (foldl _ _ ns) as [o e me w0]. simpl in *.
    destruct (1 <? length me)%nat; [destruct (buildStrategyGroupOutbound _ _ _)|]; simpl in Hw; lia. }
  rewrite (addHop_all s r) in * by (try rewrite Hc; try done; rewrite <- ?Htg; done).
  rewrite Hc in *. unfold chainInterNodeOutboundTag. rewrite Hc. cbv zeta.
  destruct (decide (Chain_Transport c = TransportAWG)) as [Ha|Ha].
  - destruct (role_awg_next _ _ _ _ Hr Ht Hsync Ha Ho) as (next & Hn1 & Hn2).
    rewrite (bool_decide_eq_true_2 (_ = TransportAWG)) in * by done.
    rewrite Hn1, Ho, Hn2 in *. simpl. by left.
  - rewrite (bool_decide_eq_false_2 (_ = TransportAWG)) in * by done.
    cbv beta iota zeta in *. rewrite !app_nil_l, length_map in *. destruct (role_NextNodes r) as [|n1 [|n2 ns]]; [done| |].
    + simpl. unfold transportOutTag. rewrite Hsn'. by left.
    + cbn [length Nat.ltb Nat.leb] in *.
      destruct (buildStrategyGroupOutbound _ _ _) as [g|] eqn:Eg; [|simpl in Hw; lia].
      cbn [hops_outbounds hops_endpoints]. rewrite app_nil_r, map_app, elem_of_app. right. simpl.
      apply list_elem_of_singleton. clear Hw. unfold buildStrategyGroupOutbound in Eg. simpl in Eg.
      repeat case_bool_decide; simpl in Eg; try done; by injection Eg as <-.
Qed.

(** ** Concrete chains *)

Definition namedNode (id : string) : ChainNode := zeroChainNode <| ChainNode_ID := id |>.

Definition groupChain : Chain :=
  zeroChain <| Chain_Name := "g" |> <| Chain_Transport := TransportXHTTP |>
    <| Chain_Nodes := [namedNode "e"; namedNode "m1"; namedNode "m2"; namedNode "x"] |>
    <| Chain_Levels := [mkChainLevel "l0" "" [namedNode "e"];
                        mkChainLevel "l1" "" [namedNode "m1"; namedNode "m2"];
                        mkChainLevel "l2" "" [namedNode "x"]] |>.

Definition flatChain : Chain :=
  zeroChain <| Chain_Name := "f" |> <| Chain_Transport := TransportAWG |> <| Chain_UserProtocol := UserProtocolAWG |>
    <| Chain_Nodes := [namedNode "e"; namedNode "y"; namedNode "z"] |>.

Definition samplePresets : PresetState := runPresets sampleBuiltin [].

(** A concrete renderer: every hop can be rendered. *)
Definition buildAll : HopBuilder := fun _ _ => true.

Lemma resolveChainRoles_agree_witness :
  exists roles, resolveChainRoles samplePresets "e" [groupChain; flatChain] = Some roles /\
    map role_Chain roles = [groupChain; flatChain] /\
    map (fun r => map ChainNode_ID (role_NextNodes r)) roles = [["m1"; "m2"]; ["y"]] /\
    Forall (fun r => roleAgrees samplePresets "e" (role_Chain r) r) roles.
Proof.
  destruct (resolveChainRoles samplePresets "e" [groupChain; flatChain]) as [roles|] eqn:E;
    [|by vm_compute in E].
  exists roles. destruct (resolveChainRoles_agree samplePresets "e" [groupChain; flatChain] roles E) as [H1 H2].
  split_and!; [done| | |exact H2].
  - rewrite H1. by vm_compute.
  - vm_compute in E. injection E as <-. by vm_compute.
Defined.

Lemma forward_target_declared_witness :
  exists r, chainRoleIn samplePresets "e" groupChain = Some (Some r) /\
    chainInterNodeOutboundTag samplePresets r = "ch-g-grp-l1" /\
    let out := @buildRoleHops buildAll samplePresets r in
    chainInterNodeOutboundTag samplePresets r ∈ map extractTag (hops_outbounds out) ++ hops_endpoints out.
Proof.
  destruct (chainRoleIn samplePresets "e" groupChain) as [[r|]|] eqn:E; [|by vm_compute in E|by vm_compute in E].
  exists r. split_and!; [done| |].
  - vm_compute in E. injection E as <-. by vm_compute.
  - apply (@forward_target_declared buildAll samplePresets "e" groupChain r E).
    all: try (by vm_compute); try (vm_compute in E; injection E as <-; by vm_compute).
    all: by intros.
Defined.

(** A node that is an entry by position is not listed among the entry nodes
    when another node carries the explicit role: both get the first port. *)
Definition mixedEntries : Chain :=
  zeroChain <| Chain_Name := "mix" |>
    <| Chain_Nodes := [namedNode "a"; (namedNode "b") <| ChainNode_Role := NodeRoleEntry |>] |>.

Lemma positional_entry_not_listed :
  (exists r, chainRoleIn samplePresets "a" mixedEntries = Some (Some r) /\ role_IsEntry r = true) /\
  map ChainNode_ID (chainEntryNodes mixedEntries) = ["b"] /\
  chainEntryPort mixedEntries "a" = chainEntryPort mixedEntries "b".
Proof.
  split_and!; [|by vm_compute|by vm_compute].
  destruct (chainRoleIn samplePresets "a" mixedEntries) as [[r|]|] eqn:E; [|by vm_compute in E|by vm_compute in E].
  exists r. split; [done|]. vm_compute in E. injection E as <-. by vm_compute.
Qed.

(** A group member is dropped when two node IDs share their first 16 bytes:
    both hops get the same tag. *)
Lemma group_tags_collide :
  transportOutTag "c" "www.example.com" "frankfurt-node-01-a" true =
  transportOutTag "c" "www.example.com" "frankfurt-node-01-b" true.
Proof. by vm_compute. Qed.

(** The flat index after a forwarding node is in range: the routes may read the
    next node of the flat list. *)
Lemma flattenLevels_app l1 l2 : flattenLevels (l1 ++ l2) = flattenLevels l1 ++ flattenLevels l2.
Proof. induction l1 as [|lv l1 IH]; simpl; [done|]. by rewrite IH, app_assoc. Qed.

Lemma role_next_index s id c r :
  chainRoleIn s id c = Some (Some r) -> ValidateChainTopology c = None -> synced c ->
  role_HasOutbound r = true -> is_Some (Chain_Nodes c !! S (role_NodeIndex r)).
Proof.
  unfold chainRoleIn. intros H Ht Hsync Ho.
  destruct (if IsLevelized c then _ else _) eqn:E0 in H; [|done].
  destruct (resolveChainPreset s c) as [p|] eqn:Ep; [|done]. injection H as H.
  destruct (IsLevelized c) eqn:El.
  - pose proof (scanLevels_spec c p id (Chain_Levels c) 0 0) as Hs. rewrite H in Hs.
    destruct Hs as (_ & _ & _ & (j & a & E3 & _ & [_ E6] & _ & _ & E8 & _) & _).
    rewrite E8 in Ho. apply bool_decide_eq_true in Ho as [lv Hlv].
    apply ValidateChainTopology_ok in Ht. apply (Forall_lookup_1 _ _ _ _ Ht) in Hlv as Hn.
    rewrite Hsync. unfold AllNodes. rewrite El. simpl. rewrite E3. simpl.
    apply lookup_lt_is_Some_2. rewrite <- (take_drop (S a) (Chain_Levels c)) at 1.
    rewrite flattenLevels_app, length_app, (drop_S _ lv _ Hlv). simpl. rewrite length_app.
    destruct (ChainLevel_Nodes lv); [by destruct Hn|]. simpl. lia.
  - pose proof (scanFlat_spec c p id (Chain_Nodes c) 0) as Hs. rewrite H in Hs.
    destruct Hs as (_ & _ & (j & E3 & _ & _ & E8 & _) & _).
    rewrite E8 in Ho. apply bool_decide_eq_true in Ho. by rewrite E3.
Qed.

(** The roles of a node come from [chainRoleIn]. *)
Lemma resolveChainRoles_elem s id chains roles r :
  resolveChainRoles s id chains = Some roles -> r ∈ roles ->
  exists c, c ∈ chains /\ chainRoleIn s id c = Some (Some r).
Proof.
  revert roles. induction chains as [|c chains IH]; intros roles; simpl.
  { intros [= <-] ?%elem_of_nil. done. }
  destruct (chainRoleIn s id c) as [[r0|]|] eqn:Ec; [| |done];
    (destruct (resolveChainRoles s id chains) as [rs|]; [|done]); intros [= <-].
  - intros [->|Hr]%elem_of_cons; [exists c; by split; [left|]|].
    destruct (IH rs eq_refl Hr) as (c' & ? & ?). exists c'. by split; [right|].
  - intros Hr. destruct (IH rs eq_refl Hr) as (c' & ? & ?). exists c'. by split; [right|].
Qed.
