(* ===== verification/ManualRules.v ===== *)
(** * ManualRules: the operator's route rules

    internal/chain/routing.go (the expansion of [RouteRule]s into sing-box
    rules and local rule sets) and routingpresets.go (the service catalog).
    The expansion of a rule threads the declared rule sets: a matcher that
    fails halfway leaves the ones it has declared.  The download of the assets
    is not modelled. *)

From S2P Require Import Prelude GoStrings Model.

(** ** The route section of the configuration *)

Record RouteRuleEntry := mkRouteRuleEntry {
  Entry_Inbound : list string;
  Entry_Outbound : string;
  Entry_AuthUser : list string;
  Entry_GeoIP : list string;
  Entry_GeoSite : list string;
  Entry_Domain : list string;
  Entry_DomainSuffix : list string;
  Entry_DomainKeyword : list string;
  Entry_IPCidr : list string;
  Entry_SourceIPCIDR : list string;
  Entry_Protocol : list string;
  Entry_RuleSet : list string;
  Entry_Action : string }.
#[export] Instance eta_RouteRuleEntry : Eta RouteRuleEntry := fun r =>
  mkRouteRuleEntry (Entry_Inbound r) (Entry_Outbound r) (Entry_AuthUser r) (Entry_GeoIP r)
    (Entry_GeoSite r) (Entry_Domain r) (Entry_DomainSuffix r) (Entry_DomainKeyword r)
    (Entry_IPCidr r) (Entry_SourceIPCIDR r) (Entry_Protocol r) (Entry_RuleSet r) (Entry_Action r).

Definition zeroRouteRuleEntry : RouteRuleEntry :=
  mkRouteRuleEntry [] "" [] [] [] [] [] [] [] [] [] [] "".

Record RuleSetEntry := mkRuleSetEntry {
  RuleSet_Tag : string;
  RuleSet_Type : string;
  RuleSet_Format : string;
  RuleSet_URL : string;
  RuleSet_Path : string;
  RuleSet_DownloadDetour : string;
  RuleSet_UpdateInterval : string }.

Record RoutingSection := mkRoutingSection {
  Routing_Rules : list RouteRuleEntry;
  Routing_RuleSet : list RuleSetEntry;
  Routing_Final : string;
  Routing_AutoDetectInterface : bool;
  Routing_DefaultDomainResolver : string }.
#[export] Instance eta_RoutingSection : Eta RoutingSection := fun r =>
  mkRoutingSection (Routing_Rules r) (Routing_RuleSet r) (Routing_Final r)
    (Routing_AutoDetectInterface r) (Routing_DefaultDomainResolver r).

(** ** The service catalog (routingpresets.go) *)

Record RoutingPreset := mkRoutingPreset {
  RoutingPreset_ID : string;
  RoutingPreset_Name : string;
  RoutingPreset_Category : string;
  RoutingPreset_Domains : list string;
  RoutingPreset_Action : string }.

Definition ROUTING_PRESETS : list RoutingPreset :=
  [mkRoutingPreset "telegram" "Telegram" "social" ["t.me"; "telegram.org"; "tdesktop.com"] "";
   mkRoutingPreset "discord" "Discord" "social" ["discord.com"; "discord.gg"; "discordapp.com"] "";
   mkRoutingPreset "youtube" "YouTube" "social" ["youtube.com"; "googlevideo.com"; "ytimg.com"] "";
   mkRoutingPreset "instagram" "Instagram" "social" ["instagram.com"; "cdninstagram.com"] "";
   mkRoutingPreset "facebook" "Facebook" "social" ["facebook.com"; "fbcdn.net"] "";
   mkRoutingPreset "reddit" "Reddit" "social" ["reddit.com"; "redditmedia.com"] "";
   mkRoutingPreset "twitter" "Twitter / X" "social" ["twitter.com"; "x.com"; "twimg.com"] "";
   mkRoutingPreset "tiktok" "TikTok" "social" ["tiktok.com"; "musical.ly"] "";
   mkRoutingPreset "whatsapp" "WhatsApp" "social" ["whatsapp.com"; "whatsapp.net"] "";
   mkRoutingPreset "signal" "Signal" "social" ["signal.org"; "whispersystems.org"] "";
   mkRoutingPreset "threads" "Threads" "social" ["threads.net"; "threads.com"] "";
   mkRoutingPreset "bluesky" "Bluesky" "social" ["bsky.app"; "bsky.social"] "";
   mkRoutingPreset "netflix" "Netflix" "media" ["netflix.com"; "nflxvideo.net"] "";
   mkRoutingPreset "spotify" "Spotify" "media" ["spotify.com"; "scdn.co"] "";
   mkRoutingPreset "soundcloud" "SoundCloud" "media" ["soundcloud.com"; "sndcdn.com"] "";
   mkRoutingPreset "tidal" "Tidal" "media" ["tidal.com"; "tidalhifi.com"] "";
   mkRoutingPreset "deezer" "Deezer" "media" ["deezer.com"; "dzcdn.net"] "";
   mkRoutingPreset "vimeo" "Vimeo" "media" ["vimeo.com"; "vimeocdn.com"] "";
   mkRoutingPreset "twitch" "Twitch" "media" ["twitch.tv"; "ttvnw.net"] "";
   mkRoutingPreset "primevideo" "Prime Video" "media" ["primevideo.com"; "amazonvideo.com"] "";
   mkRoutingPreset "disney" "Disney+" "media" ["disneyplus.com"; "dssott.com"] "";
   mkRoutingPreset "hbo" "HBO Max" "media" ["hbomax.com"; "hbo.com"] "";
   mkRoutingPreset "hulu" "Hulu" "media" ["hulu.com"; "hulustream.com"] "";
   mkRoutingPreset "openai" "OpenAI" "ai" ["openai.com"; "chat.openai.com"] "";
   mkRoutingPreset "anthropic" "Anthropic" "ai" ["anthropic.com"; "claude.ai"] "";
   mkRoutingPreset "gemini" "Gemini" "ai" ["gemini.google.com"] "";
   mkRoutingPreset "copilot" "GitHub Copilot" "ai" ["copilot.github.com"] "";
   mkRoutingPreset "perplexity" "Perplexity" "ai" ["perplexity.ai"] "";
   mkRoutingPreset "github" "GitHub" "developer" ["github.com"; "githubusercontent.com"] "";
   mkRoutingPreset "gitlab" "GitLab" "developer" ["gitlab.com"; "gitlab.net"] "";
   mkRoutingPreset "docker" "Docker" "developer" ["docker.com"; "docker.io"] "";
   mkRoutingPreset "npm" "npm" "developer" ["npmjs.com"; "npmjs.org"] "";
   mkRoutingPreset "jetbrains" "JetBrains" "developer" ["jetbrains.com"; "kotlinlang.org"] "";
   mkRoutingPreset "vercel" "Vercel" "developer" ["vercel.com"; "vercel.app"] "";
   mkRoutingPreset "notion" "Notion" "developer" ["notion.so"; "notion.com"] "";
   mkRoutingPreset "figma" "Figma" "developer" ["figma.com"] "";
   mkRoutingPreset "slack" "Slack" "developer" ["slack.com"; "slackb.com"] "";
   mkRoutingPreset "zoom" "Zoom" "developer" ["zoom.us"; "zoom.com"] "";
   mkRoutingPreset "cloudflare" "Cloudflare" "cloud" ["cloudflare.com"; "cf-quic.com"] "";
   mkRoutingPreset "apple" "Apple" "cloud" ["apple.com"; "icloud.com"] "";
   mkRoutingPreset "microsoft" "Microsoft" "cloud" ["microsoft.com"; "live.com"] "";
   mkRoutingPreset "google" "Google" "cloud" ["google.com"; "gstatic.com"] "";
   mkRoutingPreset "nvidia" "NVIDIA" "cloud" ["nvidia.com"; "geforce.com"] "";
   mkRoutingPreset "steam" "Steam" "gaming" ["steampowered.com"; "steamcommunity.com"] "";
   mkRoutingPreset "epicgames" "Epic Games" "gaming" ["epicgames.com"; "unrealengine.com"] "";
   mkRoutingPreset "blizzard" "Blizzard" "gaming" ["blizzard.com"; "battle.net"] "";
   mkRoutingPreset "ea" "EA" "gaming" ["ea.com"; "origin.com"] "";
   mkRoutingPreset "ads" "Block Ads" "block" [] "reject"].

Definition GetRoutingPresets (category : string) : list RoutingPreset :=
  if category == "" then ROUTING_PRESETS
  else List.filter (fun p => RoutingPreset_Category p == category) ROUTING_PRESETS.

Definition GetRoutingPreset (id : string) : option RoutingPreset :=
  List.find (fun p => RoutingPreset_ID p == id) ROUTING_PRESETS.

Definition GetRoutingPresetDomains (id : string) : list string :=
  match GetRoutingPreset id with Some p => RoutingPreset_Domains p | None => [] end.

(** ** Rule sets *)

Definition NodeRuleSetDir : string := "/etc/sing-box/rules".
Definition ruleSetKindGeoSite : string := "geosite".
Definition ruleSetKindGeoIP : string := "geoip".
Definition ruleSetBaseURL : string := "https://raw.githubusercontent.com/SagerNet/sing-geoip/rule-set".
Definition ruleSetGeoSiteURL : string := "https://raw.githubusercontent.com/SagerNet/sing-geosite/rule-set".

(** [RuleSetTag]. *)
Definition RuleSetTag (kind name : string) : string :=
  if kind == ruleSetKindGeoIP then "geoip-" +:+ ToLower (TrimSpace name) else TrimSpace name.

(** [RuleSetAssetURL]. *)
Definition RuleSetAssetURL (kind name : string) : string :=
  if kind == ruleSetKindGeoIP then ruleSetBaseURL +:+ "/" +:+ RuleSetTag kind name +:+ ".srs"
  else ruleSetGeoSiteURL +:+ "/geosite-" +:+ RuleSetTag kind name +:+ ".srs".

Record RuleSetAsset := mkRuleSetAsset { Asset_Tag : string; Asset_Kind : string; Asset_Name : string }.

(** [strings.FieldsFunc] at newlines, commas and semicolons, then trimmed,
    the empty parts dropped. *)
Definition isValueSep (c : ascii) : bool :=
  Ascii.eqb c newline || Ascii.eqb c ","%char || Ascii.eqb c ";"%char.

Definition trimmedPart (cur : string) (rest : list string) : list string :=
  let v := TrimSpace cur in if v != "" then v :: rest else rest.

Fixpoint splitMatchFrom (cur raw : string) : list string :=
  match raw with
  | EmptyString => trimmedPart cur []
  | String c raw' =>
      if isValueSep c then trimmedPart cur (splitMatchFrom "" raw')
      else splitMatchFrom (cur +:+ String c EmptyString) raw'
  end.

Definition splitMatchValues (raw : string) : list string := splitMatchFrom "" raw.

(** [ruleSetTagValid]. *)
Definition charBetween (lo hi c : ascii) : bool :=
  (nat_of_ascii lo <=? nat_of_ascii c)%nat && (nat_of_ascii c <=? nat_of_ascii hi)%nat.

Definition tagChar (c : ascii) : bool :=
  charBetween "a"%char "z"%char c || charBetween "A"%char "Z"%char c || charBetween "0"%char "9"%char c ||
  Ascii.eqb c "_"%char || Ascii.eqb c "-"%char || Ascii.eqb c "."%char.

Fixpoint allChars (f : ascii -> bool) (s : string) : bool :=
  match s with
  | EmptyString => true
  | String c s' => f c && allChars f s'
  end.

Definition ruleSetTagValid (tag : string) : bool :=
  if (tag == "") || (64 <? String.length tag)%nat then false else allChars tagChar tag.

(** The rule sets and assets declared so far. *)
Record Declared := mkDeclared { decl_RuleSets : list RuleSetEntry; decl_Assets : list RuleSetAsset }.

Definition declaredTags (d : Declared) : list string := map RuleSet_Tag (decl_RuleSets d).

Definition localRuleSet (tag : string) : RuleSetEntry :=
  mkRuleSetEntry tag "local" "binary" "" (NodeRuleSetDir +:+ "/" +:+ tag +:+ ".srs") "" "".

Inductive MatchError :=
| ErrValuesRequired (matchType : string)
| ErrUnknownPreset (id : string)
| ErrPresetNoDomains (id : string)
| ErrInvalidGeoName (name : string)
| ErrUnknownMatchType (matchType : string).

(** The closure [addAsset]; [wantAsset] holds exactly the declared tags. *)
Definition addAsset (kind name : string) (d : Declared) : (MatchError + string) * Declared :=
  let tag := RuleSetTag kind name in
  if negb (ruleSetTagValid tag) then (inl (ErrInvalidGeoName name), d)
  else if bool_decide (tag ∈ declaredTags d) then (inr tag, d)
  else (inr tag, mkDeclared (decl_RuleSets d ++ [localRuleSet tag])
                            (decl_Assets d ++ [mkRuleSetAsset tag kind name])).

(** The loops over the geo names. *)
Fixpoint addAssets (kind : string) (names : list string) (d : Declared)
    : (MatchError + list string) * Declared :=
  match names with
  | [] => (inr [], d)
  | name :: names' =>
      match addAsset kind name d with
      | (inl e, d1) => (inl e, d1)
      | (inr tag, d1) =>
          match addAssets kind names' d1 with
          | (inl e, d2) => (inl e, d2)
          | (inr tags, d2) => (inr (tag :: tags), d2)
          end
      end
  end.

(** What [applyRuleMatcher] fills in: the entry, the rule set tags and the
    action of the rule, which the reject preset overrides. *)
Definition Matched : Type := RouteRuleEntry * list string * string.

(** The cases of [applyRuleMatcher]: plain lists, the service catalog and the
    geo rule sets. *)
Definition simpleMatch (r : RouteRule) (values : list string) (e : RouteRuleEntry) (d : Declared)
    : (MatchError + Matched) * Declared :=
  match values with
  | [] => (inl (ErrValuesRequired (RouteRule_MatchType r)), d)
  | _ => (inr (e, [], RouteRule_Action r), d)
  end.

Definition geoMatch (r : RouteRule) (values : list string) (kind : string) (d : Declared)
    : (MatchError + Matched) * Declared :=
  match values with
  | [] => (inl (ErrValuesRequired (RouteRule_MatchType r)), d)
  | _ => match addAssets kind values d with
         | (inl e, d') => (inl e, d')
         | (inr tags, d') => (inr (zeroRouteRuleEntry, tags, RouteRule_Action r), d')
         end
  end.

Definition presetMatch (r : RouteRule) (values : list string) (d : Declared)
    : (MatchError + Matched) * Declared :=
  let act := RouteRule_Action r in
  match values with
  | [] => (inl (ErrValuesRequired (RouteRule_MatchType r)), d)
  | id :: _ =>
      match GetRoutingPreset id with
      | None => (inl (ErrUnknownPreset id), d)
      | Some p =>
          if RoutingPreset_Action p == "reject" then
            match addAsset ruleSetKindGeoSite "category-ads-all" d with
            | (inl e, d') => (inl e, d')
            | (inr tag, d') =>
                (inr (zeroRouteRuleEntry, [tag], if (act == "") || (act == "route") then "reject" else act), d')
            end
          else
            match RoutingPreset_Domains p with
            | [] => (inl (ErrPresetNoDomains (RoutingPreset_ID p)), d)
            | ds => (inr (zeroRouteRuleEntry <| Entry_DomainSuffix := ds |>, [], act), d)
            end
      end
  end.

(** [applyRuleMatcher]. *)
Definition applyRuleMatcher (r : RouteRule) (d : Declared) : (MatchError + Matched) * Declared :=
  let values := splitMatchValues (RouteRule_MatchValues r) in
  let mt := RouteRule_MatchType r in
  if mt == "domain" then simpleMatch r values (zeroRouteRuleEntry <| Entry_Domain := values |>) d
  else if mt == "domain_suffix" then simpleMatch r values (zeroRouteRuleEntry <| Entry_DomainSuffix := values |>) d
  else if mt == "domain_keyword" then simpleMatch r values (zeroRouteRuleEntry <| Entry_DomainKeyword := values |>) d
  else if mt == "ip_cidr" then simpleMatch r values (zeroRouteRuleEntry <| Entry_IPCidr := values |>) d
  else if mt == "protocol" then simpleMatch r values (zeroRouteRuleEntry <| Entry_Protocol := values |>) d
  else if mt == "preset" then presetMatch r values d
  else if mt == "geosite" then geoMatch r values ruleSetKindGeoSite d
  else if mt == "geoip" then geoMatch r values ruleSetKindGeoIP d
  else (inl (ErrUnknownMatchType mt), d).

(** The action part of the loop. *)
Definition applyAction (r : RouteRule) (action : string) (base : RouteRuleEntry) : RouteRuleEntry :=
  let action := if action == "" then "route" else action in
  let action := if action == "block" then "reject" else action in
  if (action == "direct") || (action == "reject") || (action == "sniff") || (action == "hijack-dns") then
    base <| Entry_Action := action |>
  else
    let tag := TrimSpace (RouteRule_OutboundTag r) in
    base <| Entry_Outbound := if tag == "" then "direct-out" else tag |>.

(** [userIdentities]. *)
Definition nonEmpty (s : string) : list string := if s != "" then [s] else [].

Definition userIdentities (u : User) : list string :=
  nonEmpty (User_VLESSUUID u) ++ nonEmpty (User_TUICUUID u) ++ nonEmpty (User_Hysteria2Password u).

(** [usersByID]: the last user with an ID wins. *)
Definition userByID (users : list User) (id : string) : option User :=
  List.find (fun u => User_ID u == id) (rev users).

(** The loop over [r.UserIDs]: addresses, identities, unknown IDs. *)
Fixpoint scopeUsers (users : list User) (ids : list string) : list string * list string * nat :=
  match ids with
  | [] => ([], [], 0%nat)
  | id :: ids' =>
      let '(cidrs, auth, unknown) := scopeUsers users ids' in
      match userByID users id with
      | None => (cidrs, auth, S unknown)
      | Some u => (nonEmpty (User_AWGAddress u) ++ cidrs, userIdentities u ++ auth, unknown)
      end
  end.

Inductive RuleWarning :=
| WarnMatcher (ruleID : string) (e : MatchError)
| WarnUnknownUsers (ruleID : string) (n : nat)
| WarnNoIdentity (ruleID : string).

Record ManualRouteExpansion := mkManualRouteExpansion {
  Ex_Rules : list RouteRuleEntry;
  Ex_Declared : Declared;
  Ex_Warnings : list RuleWarning }.

(** The rules and warnings of one enabled rule, given its matched base. *)
Definition scopeRule (scope : list string) (users : list User) (r : RouteRule) (base : RouteRuleEntry)
    : list RouteRuleEntry * list RuleWarning :=
  let scoped := base <| Entry_Inbound := scope |> in
  match RouteRule_UserIDs r with
  | [] => ([scoped], [])
  | ids =>
      let '(cidrs, auth, unknown) := scopeUsers users ids in
      let w := if (0 <? unknown)%nat then [WarnUnknownUsers (RouteRule_ID r) unknown] else [] in
      match cidrs, auth with
      | [], [] => ([], w ++ [WarnNoIdentity (RouteRule_ID r)])
      | _, _ =>
          ((match cidrs with [] => [] | _ => [scoped <| Entry_SourceIPCIDR := cidrs |>] end) ++
           (match auth with [] => [] | _ => [scoped <| Entry_AuthUser := auth |>] end), w)
      end
  end.

(** One turn of the loop of [ExpandManualRouteRules]. *)
Definition expandRule (scope : list string) (users : list User) (ex : ManualRouteExpansion) (r : RouteRule)
    : ManualRouteExpansion :=
  if negb (RouteRule_Enabled r) then ex
  else
    match applyRuleMatcher r (Ex_Declared ex) with
    | (inl e, d) =>
        mkManualRouteExpansion (Ex_Rules ex) d (Ex_Warnings ex ++ [WarnMatcher (RouteRule_ID r) e])
    | (inr (entry, tags, action), d) =>
        let base := applyAction r action (entry <| Entry_RuleSet := tags |>) in
        let '(rules, warnings) := scopeRule scope users r base in
        mkManualRouteExpansion (Ex_Rules ex ++ rules) d (Ex_Warnings ex ++ warnings)
    end.

(** [ExpandManualRouteRules]. *)
Definition ExpandManualRouteRules (rules : list RouteRule) (inboundScope : list string) (users : list User)
    : ManualRouteExpansion :=
  foldl (expandRule inboundScope users) (mkManualRouteExpansion [] (mkDeclared [] []) []) rules.

(** [ValidateRouteRule]: the warnings of a dry run. *)
Definition ValidateRouteRule (r : RouteRule) (users : list User) : list RuleWarning :=
  Ex_Warnings (ExpandManualRouteRules [r <| RouteRule_Enabled := true |>] ["scope"] users).

(** ** Declared rule sets *)

(** The rule sets declared so far are sound, and [d2] only adds to [d1]. *)
Record declOK (d : Declared) : Prop := mkDeclOK {
  decl_nodup : NoDup (declaredTags d);
  decl_local : Forall (fun e => e = localRuleSet (RuleSet_Tag e) /\ ruleSetTagValid (RuleSet_Tag e) = true) (decl_RuleSets d);
  decl_assets : map Asset_Tag (decl_Assets d) = declaredTags d;
  decl_tags : Forall (fun a => Asset_Tag a = RuleSetTag (Asset_Kind a) (Asset_Name a)) (decl_Assets d) }.

Definition extends (d1 d2 : Declared) : Prop := forall t, t ∈ declaredTags d1 -> t ∈ declaredTags d2.

#[export] Instance extends_preorder : PreOrder extends.
Proof. split; [by intros d t|intros a b c H1 H2 t Ht; by apply H2, H1]. Qed.

Lemma declOK_empty : declOK (mkDeclared [] []).
Proof. split; by constructor. Qed.

Lemma addAsset_OK kind name d :
  declOK d ->
  let '(res, d') := addAsset kind name d in
  declOK d' /\ extends d d' /\ (forall tag, res = inr tag -> tag ∈ declaredTags d').
Proof.
  intros [H1 H2 H3 H4]. unfold addAsset. cbv zeta.
  destruct (ruleSetTagValid (RuleSetTag kind name)) eqn:Ev; simpl; [|by split_and!].
  case_bool_decide as Ed.
  - split_and!; [done|done|]. by intros ? [= <-].
  - unfold declaredTags in *. split_and!; [split|..]; unfold declaredTags; simpl; rewrite ?map_app; simpl.
    + apply NoDup_app. split_and!; [done| |apply NoDup_singleton].
      by intros x Hx ->%list_elem_of_singleton.
    + apply Forall_app. split; [done|]. by apply Forall_singleton.
    + by rewrite H3.
    + apply Forall_app. split; [done|]. by apply Forall_singleton.
    + intros t Ht. unfold declaredTags. simpl. rewrite map_app. apply elem_of_app. by left.
    + intros tag [= <-]. apply elem_of_app. right. by left.
Qed.

Lemma addAssets_OK kind names : forall d,
  declOK d ->
  let '(res, d') := addAssets kind names d in
  declOK d' /\ extends d d' /\ (forall tags, res = inr tags -> forall t, t ∈ tags -> t ∈ declaredTags d').
Proof.
  induction names as [|name names IH]; intros d Hd; simpl.
  { split_and!; [done|done|]. intros tags [= <-] t Ht. by apply elem_of_nil in Ht. }
  pose proof (addAsset_OK kind name d Hd) as H1. destruct (addAsset kind name d) as [[e|tag] d1];
    destruct H1 as (Hd1 & He1 & Ht1); [by split_and!|].
  specialize (IH d1 Hd1). destruct (addAssets kind names d1) as [[e|tags] d2];
    destruct IH as (Hd2 & He2 & Ht2); (split_and!; [done|by etrans|]); [done|].
  intros ts [= <-] t [->|Ht]%elem_of_cons; [by apply He2, Ht1|by apply (Ht2 tags)].
Qed.

(** The outcome of a matcher does not depend on the rule sets already there. *)
Lemma addAsset_fst kind name d : (addAsset kind name d).1 = (addAsset kind name (mkDeclared [] [])).1.
Proof. unfold addAsset. cbv zeta. destruct (ruleSetTagValid _); simpl; [|done]. by case_bool_decide. Qed.

Lemma addAssets_fst kind names : forall d,
  (addAssets kind names d).1 = (addAssets kind names (mkDeclared [] [])).1.
Proof.
  induction names as [|name names IH]; intros d; simpl; [done|].
  pose proof (addAsset_fst kind name d) as H. destruct (addAsset kind name d) as [r1 d1].
  destruct (addAsset kind name (mkDeclared [] [])) as [r2 d2]. simpl in H. subst r2.
  destruct r1; [done|]. pose proof (IH d1) as H1. rewrite <- (IH d2) in H1.
  destruct (addAssets kind names d1) as [[] ?], (addAssets kind names d2) as [[] ?]; simpl in *; congruence.
Qed.

(** The pure part of the matcher. *)
Definition matchOf (r : RouteRule) : MatchError + Matched := (applyRuleMatcher r (mkDeclared [] [])).1.

(** What a matcher guarantees: its outcome is [res0], the rule sets stay sound
    and include every tag the rule refers to. *)
Definition matchOK (res0 : MatchError + Matched) (d : Declared) (out : (MatchError + Matched) * Declared) : Prop :=
  let '(res, d') := out in
  res = res0 /\ declOK d' /\ extends d d' /\
  (forall e tags a, res = inr (e, tags, a) ->
     (forall t, t ∈ tags -> t ∈ declaredTags d') /\
     Entry_SourceIPCIDR e = [] /\ Entry_AuthUser e = [] /\ Entry_Outbound e = "" /\ Entry_Action e = "").

Section matchers.
Context (r : RouteRule) (values : list string) (d : Declared).
Hypothesis Hd : declOK d.
Let d0 := mkDeclared [] [].

Lemma matchOK_err e : matchOK (inl e) d (inl e, d).
Proof using Hd. by split_and!. Qed.

Lemma matchOK_pure e a :
  Entry_SourceIPCIDR e = [] -> Entry_AuthUser e = [] -> Entry_Outbound e = "" -> Entry_Action e = "" ->
  matchOK (inr (e, [], a)) d (inr (e, [], a), d).
Proof using Hd.
  intros. split_and!; try done. intros e' tags a' [= <- <- <-]. split_and!; try done.
  by intros t ?%elem_of_nil.
Qed.

Lemma simpleMatch_OK e :
  Entry_SourceIPCIDR e = [] -> Entry_AuthUser e = [] -> Entry_Outbound e = "" -> Entry_Action e = "" ->
  matchOK (simpleMatch r values e d0).1 d (simpleMatch r values e d).
Proof using Hd.
  intros. unfold simpleMatch. destruct values; [apply matchOK_err|by apply matchOK_pure].
Qed.

Lemma geoMatch_OK kind : matchOK (geoMatch r values kind d0).1 d (geoMatch r values kind d).
Proof using Hd.
  unfold geoMatch. destruct values as [|v vs]; [apply matchOK_err|].
  pose proof (addAssets_OK kind (v :: vs) d Hd) as H1. pose proof (addAssets_fst kind (v :: vs) d) as H2.
  unfold d0. destruct (addAssets kind (v :: vs) d) as [[e|tags] d1];
    destruct (addAssets kind (v :: vs) (mkDeclared [] [])) as [[e'|tags'] d2]; simpl in H2; try done;
    injection H2 as <-; destruct H1 as (H1 & H3 & H4); split_and!; try done.
  intros e tg a [= <- <- <-]. split_and!; try done. by apply H4.
Qed.

Lemma presetMatch_OK : matchOK (presetMatch r values d0).1 d (presetMatch r values d).
Proof using Hd.
  unfold presetMatch. cbv zeta. destruct values as [|v vs]; [apply matchOK_err|].
  destruct (GetRoutingPreset v) as [p|]; [|apply matchOK_err]. case_bool_decide.
  - pose proof (addAsset_OK ruleSetKindGeoSite "category-ads-all" d Hd) as H1.
    pose proof (addAsset_fst ruleSetKindGeoSite "category-ads-all" d) as H2.
    unfold d0. destruct (addAsset ruleSetKindGeoSite "category-ads-all" d) as [[e|tag] d1];
      destruct (addAsset ruleSetKindGeoSite "category-ads-all" (mkDeclared [] [])) as [[e'|tag'] d2];
      simpl in H2; try done; injection H2 as <-; destruct H1 as (H1 & H3 & H4); split_and!; try done.
    intros e tags a [= <- <- <-]. split_and!; try done. intros t ->%list_elem_of_singleton. by apply H4.
  - destruct (RoutingPreset_Domains p); [apply matchOK_err|by apply matchOK_pure].
Qed.
End matchers.

Lemma applyRuleMatcher_OK r d : declOK d -> matchOK (matchOf r) d (applyRuleMatcher r d).
Proof.
  intros Hd. unfold matchOf, applyRuleMatcher. cbv zeta.
  repeat (case_bool_decide; [first [by apply simpleMatch_OK|by apply geoMatch_OK|by apply presetMatch_OK]|]).
  by apply matchOK_err.
Qed.

(** ** The expansion, rule by rule *)

(** What one rule contributes: entries and warnings. *)
Definition ruleOutcome (scope : list string) (users : list User) (r : RouteRule)
    : list RouteRuleEntry * list RuleWarning :=
  if negb (RouteRule_Enabled r) then ([], [])
  else
    match matchOf r with
    | inl e => ([], [WarnMatcher (RouteRule_ID r) e])
    | inr (entry, tags, action) =>
        scopeRule scope users r (applyAction r action (entry <| Entry_RuleSet := tags |>))
    end.

(** Only the fields the scope sets differ between the entries of a rule. *)
Lemma scopeRule_entries scope users r base e :
  e ∈ (scopeRule scope users r base).1 ->
  Entry_Inbound e = scope /\ Entry_RuleSet e = Entry_RuleSet base /\
  Entry_Outbound e = Entry_Outbound base /\ Entry_Action e = Entry_Action base.
Proof.
  unfold scopeRule. destruct (RouteRule_UserIDs r); [by intros ->%list_elem_of_singleton|].
  destruct (scopeUsers _ _) as [[[|c cs] [|a auth]] u]; simpl; intros He; try by apply elem_of_nil in He.
  all: repeat (apply elem_of_cons in He as [->|He]; [done|]); by apply elem_of_nil in He.
Qed.

Lemma applyAction_ruleset r act b : Entry_RuleSet (applyAction r act b) = Entry_RuleSet b.
Proof. unfold applyAction. cbv zeta. by repeat case_bool_decide. Qed.

Lemma expandRule_step scope users ex r :
  declOK (Ex_Declared ex) ->
  exists d', expandRule scope users ex r =
      mkManualRouteExpansion (Ex_Rules ex ++ (ruleOutcome scope users r).1) d'
        (Ex_Warnings ex ++ (ruleOutcome scope users r).2) /\
    declOK d' /\ extends (Ex_Declared ex) d' /\
    (forall e t, e ∈ (ruleOutcome scope users r).1 -> t ∈ Entry_RuleSet e -> t ∈ declaredTags d').
Proof.
  intros Hd. unfold expandRule, ruleOutcome. destruct ex as [rules d ws]. simpl in *.
  destruct (RouteRule_Enabled r); simpl.
  2:{ exists d. rewrite !app_nil_r. split_and!; try done. by intros e t ?%elem_of_nil. }
  pose proof (applyRuleMatcher_OK r d Hd) as Hm.
  destruct (applyRuleMatcher r d) as [[e|[[entry tags] act]] d']; destruct Hm as (<- & H1 & H2 & H3); exists d'.
  - simpl. rewrite app_nil_r. split_and!; try done. by intros e' t ?%elem_of_nil.
  - destruct (scopeRule _ _ _ _) as [es wn] eqn:Es. simpl. split_and!; try done.
    intros e t He Ht. replace es with (es, wn).1 in He by done. rewrite <- Es in He.
    apply scopeRule_entries in He as (_ & Hr & _). rewrite Hr, applyAction_ruleset in Ht. simpl in Ht.
    by apply (H3 entry tags act).
Qed.

Lemma expand_foldl scope users rules : forall ex,
  declOK (Ex_Declared ex) ->
  let ex' := foldl (expandRule scope users) ex rules in
  Ex_Rules ex' = Ex_Rules ex ++ flat_map (fun r => (ruleOutcome scope users r).1) rules /\
  Ex_Warnings ex' = Ex_Warnings ex ++ flat_map (fun r => (ruleOutcome scope users r).2) rules /\
  declOK (Ex_Declared ex') /\ extends (Ex_Declared ex) (Ex_Declared ex') /\
  ((forall e t, e ∈ Ex_Rules ex -> t ∈ Entry_RuleSet e -> t ∈ declaredTags (Ex_Declared ex)) ->
   forall e t, e ∈ Ex_Rules ex' -> t ∈ Entry_RuleSet e -> t ∈ declaredTags (Ex_Declared ex')).
Proof.
  induction rules as [|r rules IH]; intros ex Hd; simpl.
  { rewrite !app_nil_r. by split_and!. }
  destruct (expandRule_step scope users ex r Hd) as (d' & -> & Hd' & He & Ht).
  set (ex1 := mkManualRouteExpansion _ _ _).
  destruct (IH ex1 Hd') as (H1 & H2 & H3 & H4 & H5). simpl in *.
  split_and!; [by rewrite H1, <- app_assoc|by rewrite H2, <- app_assoc|done|by etrans|].
  intros H. apply H5. intros e t [He1|He1]%elem_of_app; [|by apply Ht].
  intros Ht1. apply He. by eapply H.
Qed.

Lemma expand_spec scope users rules :
  let ex := ExpandManualRouteRules rules scope users in
  Ex_Rules ex = flat_map (fun r => (ruleOutcome scope users r).1) rules /\
  Ex_Warnings ex = flat_map (fun r => (ruleOutcome scope users r).2) rules /\
  declOK (Ex_Declared ex) /\
  (forall e t, e ∈ Ex_Rules ex -> t ∈ Entry_RuleSet e -> t ∈ declaredTags (Ex_Declared ex)).
Proof.
  destruct (expand_foldl scope users rules (mkManualRouteExpansion [] (mkDeclared [] []) []) declOK_empty)
    as (H1 & H2 & H3 & _ & H5).
  cbv zeta. unfold ExpandManualRouteRules. split_and!; [done|done|done|].
  apply H5. by intros e t ?%elem_of_nil.
Qed.

(** Rules expand independently.  The entries generated for a list of
    operator rules are those each rule generates on its own, in the order of
    the list, and so are the warnings: no rule changes the expansion of
    another one. *)
Theorem ExpandManualRouteRules_independent rules scope users :
  Ex_Rules (ExpandManualRouteRules rules scope users) =
    flat_map (fun r => Ex_Rules (ExpandManualRouteRules [r] scope users)) rules /\
  Ex_Warnings (ExpandManualRouteRules rules scope users) =
    flat_map (fun r => Ex_Warnings (ExpandManualRouteRules [r] scope users)) rules.
Proof.
  destruct (expand_spec scope users rules) as (-> & -> & _).
  split; apply flat_map_ext; intros r; destruct (expand_spec scope users [r]) as (H1 & H2 & _);
    rewrite ?H1, ?H2; simpl; by rewrite app_nil_r.
Qed.

(** Rule sets.  Every rule set an expanded rule refers to is declared, each
    tag is declared once and is a valid tag (letters, digits, [_], [-], [.], at
    most 64 bytes), so the file pushed to the node is a direct child of the
    rule set directory; the assets to push are exactly the declared tags. *)
Theorem rule_sets_declared rules scope users :
  let ex := ExpandManualRouteRules rules scope users in
  (forall e t, e ∈ Ex_Rules ex -> t ∈ Entry_RuleSet e -> t ∈ declaredTags (Ex_Declared ex)) /\
  NoDup (declaredTags (Ex_Declared ex)) /\
  Forall (fun rs => ruleSetTagValid (RuleSet_Tag rs) = true /\
            RuleSet_Path rs = NodeRuleSetDir +:+ "/" +:+ RuleSet_Tag rs +:+ ".srs")
    (decl_RuleSets (Ex_Declared ex)) /\
  map Asset_Tag (decl_Assets (Ex_Declared ex)) = declaredTags (Ex_Declared ex).
Proof.
  destruct (expand_spec scope users rules) as (_ & _ & [H1 H2 H3 _] & H5).
  split_and!; [done|done| |done].
  eapply Forall_impl; [exact H2|]. intros rs [E Hv]. split; [done|]. by rewrite E.
Qed.

(** ** Who a rule applies to *)

Lemma nonEmpty_elem s x : x ∈ nonEmpty s -> x = s.
Proof. unfold nonEmpty. case_bool_decide; simpl; [by intros ?%elem_of_nil|by intros ->%list_elem_of_singleton]. Qed.

Lemma userByID_Some users id u : userByID users id = Some u -> u ∈ users /\ User_ID u = id.
Proof.
  intros [Hin Hid]%List.find_some. apply bool_decide_eq_true in Hid.
  split; [|done]. by apply list_elem_of_In, in_rev.
Qed.

Lemma scopeUsers_sound users ids :
  let '(cidrs, auth, _) := scopeUsers users ids in
  (forall a, a ∈ cidrs -> exists u, u ∈ users /\ User_ID u ∈ ids /\ User_AWGAddress u = a) /\
  (forall a, a ∈ auth -> exists u, u ∈ users /\ User_ID u ∈ ids /\ a ∈ userIdentities u).
Proof.
  induction ids as [|id ids IH]; simpl; [by split; intros a ?%elem_of_nil|].
  destruct (scopeUsers users ids) as [[cidrs auth] unknown]. destruct IH as [IH1 IH2].
  assert (forall (P : User -> Prop), (exists u, u ∈ users /\ User_ID u ∈ ids /\ P u) ->
    exists u, u ∈ users /\ User_ID u ∈ id :: ids /\ P u) as Hw.
  { intros P (u & ? & ? & ?). exists u. split_and!; [done|by right|done]. }
  destruct (userByID users id) as [u|] eqn:Eu; [|by split; intros a Ha; apply Hw; auto].
  apply userByID_Some in Eu as [Hu Hid]. split; intros a [Ha|Ha]%elem_of_app; try (apply Hw; by auto).
  - apply nonEmpty_elem in Ha. exists u. split_and!; [done|rewrite Hid; by left|done].
  - exists u. split_and!; [done|rewrite Hid; by left|done].
Qed.

(** The entry applies to the users of the rule, and to nobody else. *)
Definition appliesTo (users : list User) (r : RouteRule) (e : RouteRuleEntry) : Prop :=
  match RouteRule_UserIDs r with
  | [] => Entry_SourceIPCIDR e = [] /\ Entry_AuthUser e = []
  | ids =>
      (Entry_SourceIPCIDR e <> [] \/ Entry_AuthUser e <> []) /\
      (forall a, a ∈ Entry_SourceIPCIDR e -> exists u, u ∈ users /\ User_ID u ∈ ids /\ User_AWGAddress u = a) /\
      (forall a, a ∈ Entry_AuthUser e -> exists u, u ∈ users /\ User_ID u ∈ ids /\ a ∈ userIdentities u)
  end.

Lemma scopeRule_applies scope users r base e :
  Entry_SourceIPCIDR base = [] -> Entry_AuthUser base = [] ->
  e ∈ (scopeRule scope users r base).1 -> appliesTo users r e.
Proof.
  intros Hb1 Hb2. unfold scopeRule, appliesTo.
  destruct (RouteRule_UserIDs r) as [|id ids]; [by intros ->%list_elem_of_singleton|].
  pose proof (scopeUsers_sound users (id :: ids)) as Hs.
  destruct (scopeUsers users (id :: ids)) as [[cidrs auth] u]. destruct Hs as [Hs1 Hs2].
  assert (forall (P : string -> Prop) a, a ∈ [] -> P a) as Hno by by intros P a ?%elem_of_nil.
  destruct cidrs as [|c cs], auth as [|a auth]; simpl; intros He; try by apply elem_of_nil in He.
  all: repeat (apply elem_of_cons in He as [->|He]; [|]); try by apply elem_of_nil in He.
  all: cbn; rewrite ?Hb1, ?Hb2; split_and!; try done; try (by left); try (by right); apply Hno.
Qed.

(** The entry restricts the traffic by some property of the connection. *)
Definition hasMatcher (e : RouteRuleEntry) : Prop :=
  Entry_Domain e <> [] \/ Entry_DomainSuffix e <> [] \/ Entry_DomainKeyword e <> [] \/
  Entry_IPCidr e <> [] \/ Entry_Protocol e <> [] \/ Entry_RuleSet e <> [].

Lemma matchOf_hasMatcher r entry tags act :
  matchOf r = inr (entry, tags, act) -> hasMatcher (entry <| Entry_RuleSet := tags |>).
Proof.
  unfold matchOf, applyRuleMatcher, hasMatcher. cbv zeta.
  set (values := splitMatchValues _).
  assert (forall e, (simpleMatch r values e (mkDeclared [] [])).1 = inr (entry, tags, act) ->
    values <> [] /\ entry = e) as Hs by (unfold simpleMatch; destruct values; [done|by intros e [= <- _ _]]).
  assert (forall k, (geoMatch r values k (mkDeclared [] [])).1 = inr (entry, tags, act) -> tags <> []) as Hg.
  { intros k. unfold geoMatch. destruct values as [|v vs]; [done|]. simpl.
    destruct (addAsset _ _ _) as [[|t] d1]; [done|].
    destruct (addAssets _ _ _) as [[|ts] d2]; [done|]. by intros [= _ <- _]. }
  repeat case_bool_decide; try (by intros [Hv ->]%Hs; cbn; tauto); try (by intros Ht%Hg; cbn; tauto); try done.
  unfold presetMatch. cbv zeta. destruct values as [|v vs]; [done|].
  destruct (GetRoutingPreset v); [|done]. case_bool_decide.
  - destruct (addAsset _ _ _) as [[|t] d1]; [done|]. intros [= <- <- _]. cbn. by do 5 right.
  - destruct (RoutingPreset_Domains _); [done|]. intros [= <- <- _]. cbn. by right; left.
Qed.

Lemma ruleOutcome_entry scope users r e :
  e ∈ (ruleOutcome scope users r).1 ->
  RouteRule_Enabled r = true /\ Entry_Inbound e = scope /\ appliesTo users r e /\ hasMatcher e.
Proof.
  unfold ruleOutcome. destruct (RouteRule_Enabled r); simpl; [|by intros ?%elem_of_nil].
  destruct (matchOf r) as [err|[[entry tags] act]] eqn:Em; [by intros ?%elem_of_nil|].
  pose proof (applyRuleMatcher_OK r _ declOK_empty) as Hm. unfold matchOf in Em.
  destruct (applyRuleMatcher r (mkDeclared [] [])) as [res d'] eqn:Ea. simpl in Em. subst res.
  destruct Hm as (_ & _ & _ & Hm). destruct (Hm _ _ _ eq_refl) as (_ & Hs & Hu & _).
  pose proof (matchOf_hasMatcher r entry tags act) as Hh. unfold matchOf in Hh. rewrite Ea in Hh.
  specialize (Hh eq_refl). set (base := applyAction _ _ _).
  assert (Entry_SourceIPCIDR base = [] /\ Entry_AuthUser base = [] /\ hasMatcher base) as (B1 & B2 & B3).
  { unfold base, applyAction. cbv zeta. repeat case_bool_decide; by split_and!. }
  intros He. split_and!; [done|by apply scopeRule_entries in He as (? & _)|by eapply scopeRule_applies|].
  clear -He B3. unfold scopeRule in He. destruct (RouteRule_UserIDs r).
  - by apply list_elem_of_singleton in He as ->.
  - destruct (scopeUsers _ _) as [[[|c cs] [|a auth]] u]; simpl in He; try by apply elem_of_nil in He.
    all: repeat (apply elem_of_cons in He as [->|He]; [done|]); by apply elem_of_nil in He.
Qed.

(** Whom and what an operator rule applies to.  Every generated entry comes
    from an enabled rule, is scoped to the user-facing inbounds it was given,
    restricts the traffic by some matcher, and when the rule names users it
    matches only addresses or identities of those users: a rule for unknown
    users never becomes a rule for everybody. *)
Theorem manual_rules_scoped rules scope users e :
  e ∈ Ex_Rules (ExpandManualRouteRules rules scope users) ->
  exists r, r ∈ rules /\ RouteRule_Enabled r = true /\ Entry_Inbound e = scope /\
    appliesTo users r e /\ hasMatcher e.
Proof.
  destruct (expand_spec scope users rules) as (-> & _). rewrite list_elem_of_In, in_flat_map.
  intros (r & Hr & He%list_elem_of_In). exists r. split; [by apply list_elem_of_In|].
  by apply ruleOutcome_entry.
Qed.

(** The form check of a rule agrees with the deploy. *)
Lemma ruleOutcome_accepted scope scope' users r :
  RouteRule_Enabled r = true -> (ruleOutcome scope users r).2 = [] -> (ruleOutcome scope' users r).1 <> [].
Proof.
  unfold ruleOutcome. intros ->. simpl. destruct (matchOf r) as [|[[entry tags] act]]; [done|].
  unfold scopeRule. destruct (RouteRule_UserIDs r); [done|].
  destruct (scopeUsers _ _) as [[[|c cs] [|a auth]] u]; simpl; try done.
  intros [_ ?]%app_nil. done.
Qed.

(** Fail-fast validation.  A rule that [ValidateRouteRule] accepts (it
    returns no reason), once enabled, generates at least one traffic rule in
    every deploy, whatever the inbound scope and the other rules. *)
Theorem ValidateRouteRule_sound r users before after scope :
  RouteRule_Enabled r = true -> ValidateRouteRule r users = [] ->
  exists e, e ∈ Ex_Rules (ExpandManualRouteRules (before ++ r :: after) scope users) /\ appliesTo users r e.
Proof.
  intros Hen Hv. unfold ValidateRouteRule in Hv.
  assert (r <| RouteRule_Enabled := true |> = r) as Er by (destruct r; simpl in *; by subst).
  rewrite Er in Hv. destruct (expand_spec ["scope"] users [r]) as (_ & H2 & _). rewrite H2 in Hv.
  simpl in Hv. rewrite app_nil_r in Hv. apply (ruleOutcome_accepted _ scope) in Hv; [|done].
  destruct (ruleOutcome scope users r).1 as [|e es] eqn:Eo; [done|]. exists e.
  assert (e ∈ (ruleOutcome scope users r).1) as He by (rewrite Eo; by left).
  split; [|by apply ruleOutcome_entry in He as (_ & _ & ? & _)].
  destruct (expand_spec scope users (before ++ r :: after)) as (-> & _).
  rewrite list_elem_of_In, in_flat_map. exists r.
  split; [apply in_app_iff; right; by left|by apply list_elem_of_In].
Qed.

Definition sampleRule : RouteRule :=
  zeroRouteRule <| RouteRule_ID := "r1" |> <| RouteRule_Enabled := true |>
    <| RouteRule_MatchType := "geosite" |> <| RouteRule_MatchValues := "telegram, youtube" |>
    <| RouteRule_UserIDs := ["u1"; "ghost"] |>.

Definition sampleUsers : list User :=
  [zeroUser <| User_ID := "u1" |> <| User_AWGAddress := "10.8.0.2/32" |>].

Lemma manual_rules_scoped_witness :
  let ex := ExpandManualRouteRules [sampleRule] ["tun-in"] sampleUsers in
  length (Ex_Rules ex) = 1%nat /\ declaredTags (Ex_Declared ex) = ["telegram"; "youtube"] /\
  exists e, e ∈ Ex_Rules ex /\ Entry_SourceIPCIDR e = ["10.8.0.2/32"] /\
    exists r, r ∈ [sampleRule] /\ RouteRule_Enabled r = true /\ Entry_Inbound e = ["tun-in"] /\
      appliesTo sampleUsers r e /\ hasMatcher e.
Proof.
  intros ex. split; [by vm_compute|]. split; [by vm_compute|].
  destruct (Ex_Rules ex) as [|e es] eqn:E; [by vm_compute in E|]. exists e.
  split; [by left|]. split; [vm_compute in E; by injection E as <- _|].
  apply (manual_rules_scoped [sampleRule] ["tun-in"] sampleUsers e).
  fold ex. rewrite E. by left.
Defined.

Lemma ValidateRouteRule_sound_witness :
  let r := sampleRule <| RouteRule_UserIDs := ["u1"] |> in
  ValidateRouteRule r sampleUsers = [] /\
  exists e, e ∈ Ex_Rules (ExpandManualRouteRules ([sampleRule] ++ r :: []) [] sampleUsers) /\
    appliesTo sampleUsers r e.
Proof.
  intros r. split; [by vm_compute|].
  apply (ValidateRouteRule_sound r sampleUsers [sampleRule] [] []); by vm_compute.
Defined.

(** A geosite category named like a geoip tag is taken for the geoip rule set:
    one tag, and the asset of whichever rule came first. *)
Lemma geo_tags_conflated :
  RuleSetTag ruleSetKindGeoSite "geoip-ru" = RuleSetTag ruleSetKindGeoIP "ru" /\
  RuleSetAssetURL ruleSetKindGeoSite "geoip-ru" <> RuleSetAssetURL ruleSetKindGeoIP "ru".
Proof. by vm_compute. Qed.
