(* ===== verification/Shell.v ===== *)
(** * Shell: text that reaches a remote shell

    internal/ssh/quote.go ([QuotePOSIX]) and the unit name check of
    internal/chain/applier_push.go.  How the remote shell reads a quoted word
    is the interface [ShellReader]: the rules of POSIX section 2.2 for single
    quotes, and for a single quote between double quotes. *)

From S2P Require Import Prelude GoStrings ManualRules.

Definition squote : ascii := "'"%char.
Definition dquote : ascii := Ascii.ascii_of_nat 34.

(** [QuotePOSIX]; [None] is its error. *)
Definition hasControl (s : string) : bool :=
  contains_byte (Ascii.ascii_of_nat 0) s || contains_byte newline s || contains_byte (Ascii.ascii_of_nat 13) s.

(** The five bytes that replace a single quote. *)
Definition quotedQuote : string :=
  String squote (String dquote (String squote (String dquote (String squote EmptyString)))).

Definition QuotePOSIX (s : string) : option string :=
  if s == "" then None
  else if hasControl s then None
  else Some (String squote EmptyString +:+ ReplaceByte squote quotedQuote s +:+ String squote EmptyString).

(** [safeSystemdUnit]. *)
Definition unitChar (c : ascii) : bool :=
  charBetween "a"%char "z"%char c || charBetween "A"%char "Z"%char c || charBetween "0"%char "9"%char c ||
  Ascii.eqb c "-"%char || Ascii.eqb c "_"%char || Ascii.eqb c "."%char || Ascii.eqb c "@"%char ||
  Ascii.eqb c ":"%char.

Definition safeSystemdUnit (s : string) : bool :=
  if (s == "") || (256 <? String.length s)%nat then false else allChars unitChar s.

(** ** The interface to the shell *)

(** [readWord w] is the word the shell makes of the text [w], when [w] is one
    word made of quoted parts. *)
Class ShellReader := {
  readWord : string -> option string;
  read_end : readWord EmptyString = Some EmptyString;
  read_single : forall s w, contains_byte squote s = false ->
    readWord (String squote EmptyString +:+ s +:+ String squote EmptyString +:+ w) =
      option_map (fun r => s +:+ r) (readWord w);
  read_double_quoted_quote : forall w,
    readWord (String dquote (String squote (String dquote w))) = option_map (String squote) (readWord w) }.

(** The part of [s] before its first single quote, and the rest after it. *)
Lemma split_quote s :
  (contains_byte squote s = false) \/
  exists a b, s = a +:+ String squote b /\ contains_byte squote a = false /\ (String.length b < String.length s)%nat.
Proof.
  induction s as [|c s IH]; simpl; [by left|]. destruct (Ascii.eqb c squote) eqn:E.
  - apply Ascii.eqb_eq in E as ->. right. exists EmptyString, s. split_and!; [done|done|lia].
  - destruct IH as [IH|(a & b & -> & Ha & Hb)]; [by left|right]. exists (String c a), b.
    split_and!; [done|simpl; by rewrite E|simpl; lia].
Qed.

Lemma ReplaceByte_app c t a b : ReplaceByte c t (a +:+ b) = ReplaceByte c t a +:+ ReplaceByte c t b.
Proof. induction a as [|d a IH]; simpl; [done|]. by rewrite IH, string_app_assoc. Qed.

Lemma ReplaceByte_none c t s : contains_byte c s = false -> ReplaceByte c t s = s.
Proof.
  induction s as [|d s IH]; simpl; [done|]. destruct (Ascii.eqb d c); [done|]. intros H. simpl. by rewrite IH.
Qed.

Section reader.
Context `{ShellReader}.

Lemma read_quoted n : forall s, (String.length s < n)%nat ->
  readWord (String squote EmptyString +:+ ReplaceByte squote quotedQuote s +:+ String squote EmptyString) = Some s.
Proof.
  induction n as [|n IH]; intros s Hn; [lia|].
  destruct (split_quote s) as [Hs|(a & b & -> & Ha & Hb)].
  - rewrite ReplaceByte_none by done.
    pose proof (read_single s EmptyString Hs) as Hr. rewrite read_end in Hr. simpl in Hr.
    simpl. rewrite Hr. f_equal. clear. induction s; simpl; congruence.
  - rewrite ReplaceByte_app, (ReplaceByte_none _ _ a) by done. simpl (ReplaceByte _ _ (String _ _)).
    change (ReplaceByte squote quotedQuote (String squote b))
      with (quotedQuote +:+ ReplaceByte squote quotedQuote b).
    pose proof (read_single a (String dquote (String squote (String dquote
      (String squote EmptyString +:+ ReplaceByte squote quotedQuote b +:+ String squote EmptyString)))) Ha) as Hr.
    rewrite read_double_quoted_quote, (IH b) in Hr by lia. simpl in Hr.
    rewrite <- Hr. f_equal. simpl. f_equal. by rewrite <- !string_app_assoc.
Qed.
End reader.

(** Quoting.  Whatever text the program quotes, the remote shell reads back
    exactly that text as one word: no operator value is split or interpreted.
    Only empty text and text with a control character is refused. *)
Theorem QuotePOSIX_roundtrip `{ShellReader} s :
  match QuotePOSIX s with
  | Some q => s <> "" /\ hasControl s = false /\ readWord q = Some s
  | None => s = "" \/ hasControl s = true
  end.
Proof.
  unfold QuotePOSIX. case_bool_decide as Es; [by left|]. destruct (hasControl s); [by right|].
  split_and!; [done..|]. apply (read_quoted (S (String.length s))). lia.
Qed.

(** A concrete reader of words made of single-quoted parts and of single quotes
    between double quotes. *)
Inductive QuoteMode := Outside | InSingle | InDouble.

Fixpoint readFrom (m : QuoteMode) (w : string) : option string :=
  match w, m with
  | EmptyString, Outside => Some EmptyString
  | EmptyString, _ => None
  | String c w', Outside =>
      if Ascii.eqb c squote then readFrom InSingle w'
      else if Ascii.eqb c dquote then readFrom InDouble w' else None
  | String c w', InSingle =>
      if Ascii.eqb c squote then readFrom Outside w' else option_map (String c) (readFrom InSingle w')
  | String c w', InDouble =>
      if Ascii.eqb c dquote then readFrom Outside w'
      else if Ascii.eqb c squote then option_map (String c) (readFrom InDouble w') else None
  end.

Lemma readFrom_single s w : contains_byte squote s = false ->
  readFrom Outside (String squote EmptyString +:+ s +:+ String squote EmptyString +:+ w) =
    option_map (fun r => s +:+ r) (readFrom Outside w).
Proof.
  intros Hs. change (readFrom InSingle (s +:+ String squote w) = option_map (fun r => s +:+ r) (readFrom Outside w)).
  induction s as [|c s IH]; simpl in *.
  - by destruct (readFrom Outside w).
  - destruct (Ascii.eqb c squote); [done|]. rewrite IH by done. by destruct (readFrom Outside w).
Qed.

Definition quoteReader : ShellReader :=
  Build_ShellReader (readFrom Outside) eq_refl readFrom_single (fun w => eq_refl).

Definition hostile : string := "a'; rm -rf /; 'b".

Lemma QuotePOSIX_roundtrip_witness :
  exists q, QuotePOSIX hostile = Some q /\ @readWord quoteReader q = Some hostile.
Proof.
  pose proof (@QuotePOSIX_roundtrip quoteReader hostile) as H.
  destruct (QuotePOSIX hostile) as [q|]; [exists q; tauto|by destruct H].
Defined.
