(* ===== verification/MergedRoute.v ===== *)
(** * MergedRoute: the route section of a node

    internal/chain/merged_config.go ([buildMergedRoute],
    [manualRuleInboundScope] and the merge in [buildMergedNodeConfig]) and
    awg_tun_overlay.go.  [None] in [buildMergedRoute] is the panic of the
    slice index [role.Chain.Nodes[role.NodeIndex+1]]. *)

From S2P Require Import Prelude GoStrings Model ChainModel Lifecycle Presets Caddy Roles ManualRules.

Definition tunInboundTag : string := "tun-in".

(** [usersForChain]. *)
Definition usersForChain (usersByChain : gmap string (list User)) (chainName : string) : list User :=
  default [] (usersByChain !! chainName).

(** [nodeIsAtOrBefore]. *)
Definition nodeIsAtOrBefore (role : chainRole) (exitID : string) : bool :=
  let i := nodeIndexFrom 0 exitID (Chain_Nodes (role_Chain role)) in
  if i =? -1 then false else Z.of_nat (role_NodeIndex role) <? i.

(** [userAuthIdentity]. *)
Definition userAuthIdentity (u : User) (proto : UserProtocol) : string :=
  if proto == UserProtocolTUIC then User_TUICUUID u
  else if proto == UserProtocolVLESSReality then
    (if User_VLESSUUID u == "" then "" else User_Name u)
  else User_Name u.

(** The rule shapes of the route section. *)
Definition ruleByIP (inTag ip out : string) : RouteRuleEntry :=
  ((zeroRouteRuleEntry <| Entry_Inbound := [inTag] |>) <| Entry_SourceIPCIDR := [ip] |>)
    <| Entry_Outbound := out |>.
Definition ruleByAuth (inTag auth out : string) : RouteRuleEntry :=
  ((zeroRouteRuleEntry <| Entry_Inbound := [inTag] |>) <| Entry_AuthUser := [auth] |>)
    <| Entry_Outbound := out |>.
Definition ruleByInbound (inTags : list string) (out : string) : RouteRuleEntry :=
  (zeroRouteRuleEntry <| Entry_Inbound := inTags |>) <| Entry_Outbound := out |>.

(** The inbound a role's per-client rules are keyed on. *)
Definition clientInTag (role : chainRole) : option string :=
  if role_IsEntry role then
    Some (if Chain_UserProtocol (role_Chain role) == UserProtocolAWG then tunInboundTag
          else chainUserInboundTag (role_Chain role) (ChainNode_ID (role_Node role)))
  else if role_IsTransit role then Some (transportInTag (role_Chain role))
  else None.

(** The rule of one pinned user. *)
Definition pinRule (s : PresetState) (role : chainRole) (inTag nextID : string) (u : User)
    : list RouteRuleEntry :=
  let c := role_Chain role in
  match User_ChainExit u !! Chain_Name c with
  | None => []
  | Some exitID =>
      if exitID == "" then []
      else if Chain_UserProtocol c == UserProtocolAWG then
        if User_AWGAddress u == "" then []
        else if exitID == ChainNode_ID (role_Node role) then [ruleByIP inTag (User_AWGAddress u) "direct-out"]
        else if role_HasOutbound role && nodeIsAtOrBefore role exitID then
          [ruleByIP inTag (User_AWGAddress u) (chainInterNodeOutboundTag s role)]
        else []
      else
        let authID := userAuthIdentity u (Chain_UserProtocol c) in
        if authID == "" then []
        else if exitID == ChainNode_ID (role_Node role) then [ruleByAuth inTag authID "direct-out"]
        else if role_HasOutbound role && (exitID == nextID) then
          [ruleByAuth inTag authID (chainInterNodeOutboundTag s role)]
        else []
  end.

(** The per-client rules of one role. *)
Definition clientRules (s : PresetState) (usersByChain : gmap string (list User)) (role : chainRole)
    : option (list RouteRuleEntry) :=
  match usersForChain usersByChain (Chain_Name (role_Chain role)), clientInTag role with
  | [], _ | _, None => Some []
  | users, Some inTag =>
      let nextID := if role_HasOutbound role
                    then option_map ChainNode_ID (Chain_Nodes (role_Chain role) !! S (role_NodeIndex role))
                    else Some "" in
      match nextID with
      | None => None
      | Some nextID => Some (flat_map (pinRule s role inTag nextID) users)
      end
  end.

Fixpoint allClientRules (s : PresetState) (usersByChain : gmap string (list User)) (roles : list chainRole)
    : option (list RouteRuleEntry) :=
  match roles with
  | [] => Some []
  | r :: roles' =>
      match clientRules s usersByChain r, allClientRules s usersByChain roles' with
      | Some l, Some l' => Some (l ++ l')
      | _, _ => None
      end
  end.

(** The generic rule of one role. *)
Definition genericRule (s : PresetState) (role : chainRole) : list RouteRuleEntry :=
  let c := role_Chain role in
  if role_IsEntry role && (Chain_UserProtocol c == UserProtocolAWG) then []
  else
    let inTags :=
      (if role_IsEntry role then [chainUserInboundTag c (ChainNode_ID (role_Node role))] else []) ++
      (if role_IsTransit role then [transportInTag c] else []) in
    match inTags with
    | [] => []
    | _ => [ruleByInbound inTags (if role_HasOutbound role then chainInterNodeOutboundTag s role else "direct-out")]
    end.

(** The index-based tag of an inbound without a tag. *)
Definition saTag (i : nat) (proto : string) : string := "sa-" +:+ itoa (Z.of_nat i) +:+ "-" +:+ proto.

Fixpoint standaloneRules (i : nat) (ibs : list NodeInbound) : list RouteRuleEntry :=
  match ibs with
  | [] => []
  | ib :: ibs' =>
      let obTag := if NodeInbound_OutboundTag ib == "" then "direct-out" else NodeInbound_OutboundTag ib in
      ruleByInbound [saTag i (NodeInbound_Protocol ib)] obTag :: standaloneRules (S i) ibs'
  end.

(** [buildMergedRoute]. *)
Definition buildMergedRoute (s : PresetState) (roles : list chainRole) (nodeInfo : NodeInfo)
    (usersByChain : gmap string (list User)) (manualRules : list RouteRuleEntry) : option RoutingSection :=
  match allClientRules s usersByChain roles with
  | None => None
  | Some client =>
      Some (mkRoutingSection
        (manualRules ++ client ++ flat_map (genericRule s) roles ++
         standaloneRules 0 (NodeInfo_Inbounds nodeInfo)) [] "direct-out" true "dns-direct")
  end.

(** [manualRuleInboundScope]. *)
Definition addTag (tags : list string) (t : string) : list string :=
  if (t != "") && negb (bool_decide (t ∈ tags)) then tags ++ [t] else tags.

(** The tag of a standalone inbound in the configuration. *)
Definition inboundTag (i : nat) (ib : NodeInbound) : string :=
  if NodeInbound_Tag ib == "" then saTag i (NodeInbound_Protocol ib) else NodeInbound_Tag ib.

Fixpoint standaloneTags (nodeChains : list Chain) (nodeID : string) (i : nat) (ibs : list NodeInbound)
    : list string :=
  match ibs with
  | [] => []
  | ib :: ibs' =>
      if IsChainSourcedInbound ib || IsChainEntryInbound nodeChains nodeID ib
      then standaloneTags nodeChains nodeID (S i) ibs'
      else inboundTag i ib :: standaloneTags nodeChains nodeID (S i) ibs'
  end.

Definition entryTags (roles : list chainRole) : list string :=
  flat_map (fun r =>
    if role_IsEntry r && (Chain_UserProtocol (role_Chain r) != UserProtocolAWG)
    then [chainUserInboundTag (role_Chain r) (ChainNode_ID (role_Node r))] else []) roles.

Definition manualRuleInboundScope (roles : list chainRole) (nodeInfo : NodeInfo) (nodeChains : list Chain)
    (hasOverlay : bool) : list string :=
  foldl addTag []
    ((if hasOverlay then [tunInboundTag] else []) ++ entryTags roles ++
     standaloneTags nodeChains (NodeInfo_ID nodeInfo) 0 (NodeInfo_Inbounds nodeInfo)).

(** ** The TUN overlay (awg_tun_overlay.go) *)

Definition kernelAWG3EnabledFor (nodeInfo : NodeInfo) : bool := NodeInfo_KernelAWG3Supported nodeInfo.

(** [exitInterfacesForNode]. *)
Definition exitInterfacesForNode (node : option ChainNode) : list string :=
  match node with
  | None => []
  | Some n => flat_map (fun l => nonEmpty (AWGExitLink_InterfaceName l)) (ChainNode_ExitAWGLinks n)
  end.

(** [tunIncludeInterfaces] and [tunIncludeInterfacesForNode]. *)
Definition tunIncludeInterfaces (node : option ChainNode) : list string :=
  "awg0" :: exitInterfacesForNode node.

Definition ownAWGInbound (nodeInfo : NodeInfo) (nodeChains : list Chain) (ib : NodeInbound) : bool :=
  negb (IsChainSourcedInbound ib || IsChainEntryInbound nodeChains (NodeInfo_ID nodeInfo) ib) &&
  negb ((NodeInbound_Protocol ib == "awg") && IsAWG3Family (NodeInbound_EffectiveAWGVersion ib) &&
        negb (kernelAWG3EnabledFor nodeInfo)) &&
  (NodeInbound_Protocol ib == "awg") && (NodeInbound_AWGServerAddress ib != "").

Definition tunIncludeInterfacesForNode (node : option ChainNode) (nodeInfo : NodeInfo)
    (nodeChains : list Chain) : list string :=
  tunIncludeInterfaces node ++
  (if existsb (ownAWGInbound nodeInfo nodeChains) (NodeInfo_Inbounds nodeInfo) then ["awg1"] else []).

(** [balancerTagForNode]. *)
Definition balancerTagForNode (node : option ChainNode) : string :=
  match node with
  | None => ""
  | Some n => if (length (exitInterfacesForNode node) <? 2)%nat then ""
              else ChainNode_ID n +:+ "-balancer"
  end.

(** [awgForwardOutboundForRoles]. *)
Fixpoint awgForwardOutboundForRoles (s : PresetState) (roles : list chainRole) : string :=
  match roles with
  | [] => ""
  | r :: roles' =>
      if negb (role_IsEntry r) || (Chain_UserProtocol (role_Chain r) != UserProtocolAWG)
      then awgForwardOutboundForRoles s roles'
      else
        match ChainNode_ExitTargets (role_Node r) with
        | _ :: _ => ""
        | [] => if negb (role_HasOutbound r) then "" else chainInterNodeOutboundTag s r
        end
  end.

(** [awgTUNOverlayNeeded]. *)
Definition awgTUNOverlayNeeded (roles : list chainRole) (nodeInfo : NodeInfo) : bool :=
  existsb (fun r =>
    (role_IsEntry r && (Chain_UserProtocol (role_Chain r) == UserProtocolAWG) &&
     (negb (bool_decide (is_Some (chainEntryAWG3Inbound nodeInfo (role_Chain r) (role_Node r)))) ||
      kernelAWG3EnabledFor nodeInfo)) ||
    match ChainNode_ExitTargets (role_Node r) with [] => false | _ => true end) roles ||
  existsb (fun ib =>
    (NodeInbound_Protocol ib == "awg") &&
    (negb (IsAWG3Family (NodeInbound_EffectiveAWGVersion ib)) || kernelAWG3EnabledFor nodeInfo))
    (NodeInfo_Inbounds nodeInfo).

(** [awgOverlayNode]. *)
Definition awgOverlayNode (roles : list chainRole) : option ChainNode :=
  match List.find (fun r => match ChainNode_ExitTargets (role_Node r) with [] => false | _ => true end) roles with
  | Some r => Some (role_Node r)
  | None =>
      option_map role_Node
        (List.find (fun r => role_IsEntry r && (Chain_UserProtocol (role_Chain r) == UserProtocolAWG)) roles)
  end.

(** [exitOutboundTag]. *)
Definition exitOutboundTag (iface : string) : string :=
  let prefix := "awg-exit-" in
  if (String.length prefix <? String.length iface)%nat && HasPrefix iface prefix
  then drop_string (String.length prefix) iface +:+ "-direct"
  else iface +:+ "-direct".

(** [AWGTUNOverlayParams] and the TUN inbound. *)
Record AWGTUNOverlayParams := mkAWGTUNOverlayParams {
  tp_IncludeInterfaces : list string;
  tp_ExitInterfaces : list string;
  tp_BalancerTag : string;
  tp_FinalOutbound : string;
  tp_ForwardOutbound : string;
  tp_AutoRedirect : option bool }.

Record TUNInbound := mkTUNInbound {
  TUN_Tag : string;
  TUN_InterfaceName : string;
  TUN_Address : list string;
  TUN_MTU : Z;
  TUN_Stack : string;
  TUN_AutoRoute : bool;
  TUN_AutoRedirect : bool;
  TUN_IncludeInterface : list string;
  TUN_StrictRoute : bool }.

Definition sniffRule : RouteRuleEntry := zeroRouteRuleEntry <| Entry_Action := "sniff" |>.
Definition hijackDNSRule : RouteRuleEntry :=
  (zeroRouteRuleEntry <| Entry_Protocol := ["dns"] |>) <| Entry_Action := "hijack-dns" |>.

(** [BuildAWGTUNOverlay]. *)
Definition BuildAWGTUNOverlay (p : AWGTUNOverlayParams) : TUNInbound * list Outbound * list RouteRuleEntry :=
  let include := match tp_IncludeInterfaces p with [] => ["awg0"] | l => l end in
  let tun := mkTUNInbound tunInboundTag "sing-box-tun" ["172.16.250.1/30"] 1200 "mixed" true
               (default false (tp_AutoRedirect p)) include false in
  let exitTags := map exitOutboundTag (tp_ExitInterfaces p) in
  let exits := map (fun i => DirectOutbound (exitOutboundTag i) i) (tp_ExitInterfaces p) in
  let '(balancer, routeOut) :=
    if (tp_BalancerTag p != "") && (1 <? length exitTags)%nat
    then ([FallbackOutbound (tp_BalancerTag p) exitTags "30s"], tp_BalancerTag p)
    else match exitTags with [t] => ([], t) | _ => ([], "direct") end in
  let routeOut := if tp_ForwardOutbound p != "" then tp_ForwardOutbound p else routeOut in
  (tun, DirectOutbound "direct" "" :: exits ++ balancer,
   [sniffRule; hijackDNSRule; ruleByInbound [tunInboundTag] routeOut]).

(** ** The merge in [buildMergedNodeConfig] *)

(** The overlay of a node; [None] when it needs none. *)
Definition nodeOverlay (s : PresetState) (autoRedirect : option bool) (roles : list chainRole)
    (nodeInfo : NodeInfo) (nodeChains : list Chain) : option (TUNInbound * list Outbound * list RouteRuleEntry) :=
  if awgTUNOverlayNeeded roles nodeInfo then
    let node := awgOverlayNode roles in
    Some (BuildAWGTUNOverlay (mkAWGTUNOverlayParams
      (tunIncludeInterfacesForNode node nodeInfo nodeChains) (exitInterfacesForNode node)
      (balancerTagForNode node) "direct" (awgForwardOutboundForRoles s roles) autoRedirect))
  else None.

(** [cfg.Route] before the overlay is merged: [routeDNS] is AB_ROUTE_DNS=1. *)
Definition baseRoute (s : PresetState) (routeDNS : bool) (roles : list chainRole) (nodeInfo : NodeInfo)
    (usersByChain : gmap string (list User)) (ex : ManualRouteExpansion) (hasOverlay : bool)
    : option (option RoutingSection) :=
  let section :=
    if routeDNS && match roles with [] => false | _ => true end then
      match buildMergedRoute s roles nodeInfo usersByChain (Ex_Rules ex) with
      | None => None
      | Some r => Some (Some r)
      end
    else match Ex_Rules ex with
         | [] => Some None
         | rules =>
             match buildMergedRoute s roles nodeInfo usersByChain rules with
             | None => None
             | Some r => Some (Some (r <| Routing_DefaultDomainResolver := "" |>))
             end
         end in
  match section with
  | Some (Some r) =>
      let r := r <| Routing_RuleSet := Routing_RuleSet r ++ decl_RuleSets (Ex_Declared ex) |> in
      Some (Some (match Ex_Rules ex with
                  | [] => r
                  | _ => if hasOverlay then r else r <| Routing_Rules := sniffRule :: Routing_Rules r |>
                  end))
  | other => other
  end.

(** Action rules first, the catch-all of the overlay last. *)
Definition mergeOverlay (route : option RoutingSection) (overlay : list RouteRuleEntry) : option RoutingSection :=
  match overlay with
  | [] => route
  | _ =>
      let r := default (mkRoutingSection [] [] "direct" true "") route in
      let isCatchAll e := match Entry_Inbound e with [] => false | _ => true end in
      Some (r <| Routing_Rules :=
        List.filter (fun e => negb (isCatchAll e)) overlay ++ Routing_Rules r ++ List.filter isCatchAll overlay |>)
  end.

(** The route section of a node; the outer [None] is a panic. *)
Definition nodeRoute (s : PresetState) (routeDNS : bool) (roles : list chainRole) (nodeInfo : NodeInfo)
    (nodeChains : list Chain) (usersByChain : gmap string (list User)) (rules : list RouteRule)
    (allUsers : list User) (overlay : list RouteRuleEntry) : option (option RoutingSection) :=
  let hasOverlay := match overlay with [] => false | _ => true end in
  let ex := match rules with
            | [] => mkManualRouteExpansion [] (mkDeclared [] []) []
            | _ => ExpandManualRouteRules rules (manualRuleInboundScope roles nodeInfo nodeChains hasOverlay) allUsers
            end in
  match baseRoute s routeDNS roles nodeInfo usersByChain ex hasOverlay with
  | None => None
  | Some base => Some (mergeOverlay base overlay)
  end.

(** ** The route section always exists *)

(** The chains of a node as the store and the deploy keep them. *)
Definition deployable (c : Chain) : Prop := ValidateChainTopology c = None /\ synced c.

Lemma clientRules_total s usersByChain id c r :
  chainRoleIn s id c = Some (Some r) -> deployable c -> is_Some (clientRules s usersByChain r).
Proof.
  intros Hr [Ht Hs]. unfold clientRules.
  destruct (usersForChain _ _); [by eexists|]. destruct (clientInTag r); [|by eexists].
  destruct (role_HasOutbound r) eqn:Ho; [|by eexists].
  rewrite (agree_chain _ _ _ _ (chainRoleIn_agrees _ _ _ _ Hr)).
  destruct (role_next_index _ _ _ _ Hr Ht Hs Ho) as [n ->]. by eexists.
Qed.

Lemma allClientRules_total s usersByChain roles :
  (forall r, r ∈ roles -> is_Some (clientRules s usersByChain r)) -> is_Some (allClientRules s usersByChain roles).
Proof.
  induction roles as [|r roles IH]; intros H; simpl; [by eexists|].
  destruct (H r) as [l ->]; [by left|]. destruct IH as [l' ->]; [|by eexists].
  intros r' Hr'. apply H. by right.
Qed.

(** C26: no panic.  For chains with a valid topology whose flat list is in step
    with the levels, building the route section of any node, with any users,
    operator rules and overlay, never indexes past the node list. *)
Theorem nodeRoute_total s id chains roles routeDNS nodeInfo usersByChain rules allUsers overlay :
  resolveChainRoles s id chains = Some roles -> Forall deployable chains ->
  is_Some (nodeRoute s routeDNS roles nodeInfo chains usersByChain rules allUsers overlay).
Proof.
  intros Hr Hd.
  assert (is_Some (allClientRules s usersByChain roles)) as [client Hc].
  { apply allClientRules_total. intros r Hin.
    destruct (resolveChainRoles_elem _ _ _ _ _ Hr Hin) as (c & Hc & Hcr).
    eapply clientRules_total; [done|]. by apply (proj1 (Forall_forall _ _) Hd). }
  assert (forall m, is_Some (buildMergedRoute s roles nodeInfo usersByChain m)) as Hm.
  { intros m. unfold buildMergedRoute. rewrite Hc. by eexists. }
  unfold nodeRoute. cbv zeta. set (ex := match rules with [] => _ | _ => _ end).
  destruct (Hm (Ex_Rules ex)) as [sec Hsec]. unfold baseRoute. cbv zeta.
  destruct (routeDNS && _).
  - rewrite Hsec. by eexists.
  - destruct (Ex_Rules ex) as [|e es]; [by eexists|]. rewrite Hsec. by eexists.
Qed.

(** Without the step between levels and flat list the index is out of range. *)
Lemma unsynced_chain_panics :
  let u := zeroUser <| User_ChainExit := {[ "g" := "x" ]} |> in
  exists roles, resolveChainRoles samplePresets "e" [groupChain <| Chain_Nodes := [] |>] = Some roles /\
    nodeRoute samplePresets true roles zeroNodeInfo [groupChain <| Chain_Nodes := [] |>]
      {[ "g" := [u] ]} [] [] [] = None.
Proof.
  intros u. destruct (resolveChainRoles samplePresets "e" [groupChain <| Chain_Nodes := [] |>]) as [roles|] eqn:E;
    [|by vm_compute in E].
  exists roles. split; [done|]. vm_compute in E. injection E as <-. by vm_compute.
Qed.

Lemma nodeRoute_total_witness :
  exists roles, resolveChainRoles samplePresets "y" [groupChain; flatChain] = Some roles /\
    length roles = 1%nat /\
    is_Some (nodeRoute samplePresets true roles zeroNodeInfo [groupChain; flatChain] ∅ [sampleRule] sampleUsers []).
Proof.
  destruct (resolveChainRoles samplePresets "y" [groupChain; flatChain]) as [roles|] eqn:E; [|by vm_compute in E].
  exists roles. split_and!; [done|vm_compute in E; by injection E as <-|].
  apply (nodeRoute_total samplePresets "y" [groupChain; flatChain] roles); [done|].
  repeat (apply Forall_cons; split; [split; by vm_compute|]). by apply Forall_nil.
Defined.

(** ** The scope of the operator rules *)

Lemma addTag_elem l : forall acc t, t ∈ foldl addTag acc l <-> t ∈ acc \/ (t ∈ l /\ t <> "").
Proof.
  induction l as [|x l IH]; intros acc t; simpl; [rewrite elem_of_nil; tauto|].
  rewrite IH, elem_of_cons. unfold addTag. case_bool_decide as E1; simpl.
  - split; [tauto|]. intros [?|[[?|?] ?]]; [by left|congruence|tauto].
  - case_bool_decide as E2; simpl.
    + split; [tauto|]. intros [?|[[->|?] ?]]; tauto.
    + rewrite elem_of_app, list_elem_of_singleton. split; [|tauto].
      intros [[?| ->]|?]; tauto.
Qed.

Lemma addTag_nodup l : forall acc, NoDup acc -> NoDup (foldl addTag acc l).
Proof.
  induction l as [|x l IH]; intros acc Hnd; simpl; [done|]. apply IH. unfold addTag.
  case_bool_decide; simpl; [done|]. case_bool_decide; simpl; [done|].
  apply NoDup_app. split_and!; [done| |apply NoDup_singleton]. by intros t Ht ->%list_elem_of_singleton.
Qed.

Lemma standaloneTags_elem nodeChains id t ibs : forall i,
  t ∈ standaloneTags nodeChains id i ibs <->
  exists k ib, ibs !! k = Some ib /\ IsChainSourcedInbound ib = false /\
    IsChainEntryInbound nodeChains id ib = false /\ t = inboundTag (i + k) ib.
Proof.
  induction ibs as [|ib ibs IH]; intros i; simpl.
  { rewrite elem_of_nil. split; [done|]. by intros (k & ib & ? & _). }
  assert ((exists k ib0, (ib :: ibs) !! k = Some ib0 /\ IsChainSourcedInbound ib0 = false /\
      IsChainEntryInbound nodeChains id ib0 = false /\ t = inboundTag (i + k) ib0) <->
    (IsChainSourcedInbound ib = false /\ IsChainEntryInbound nodeChains id ib = false /\ t = inboundTag i ib) \/
    exists k ib0, ibs !! k = Some ib0 /\ IsChainSourcedInbound ib0 = false /\
      IsChainEntryInbound nodeChains id ib0 = false /\ t = inboundTag (S i + k) ib0) as ->.
  { split.
    - intros ([|k] & ib0 & Hk & H1 & H2 & ->).
      + injection Hk as <-. left. by rewrite Nat.add_0_r.
      + right. exists k, ib0. split_and!; [done|done|done|f_equal; lia].
    - intros [(H1 & H2 & ->)|(k & ib0 & Hk & H1 & H2 & ->)].
      + exists 0%nat, ib. by rewrite Nat.add_0_r.
      + exists (S k), ib0. split_and!; [done|done|done|f_equal; lia]. }
  destruct (IsChainSourcedInbound ib); simpl; [rewrite IH; split; [by right|by intros [(? & _)|?]]|].
  destruct (IsChainEntryInbound nodeChains id ib); simpl.
  - rewrite IH. split; [by right|]. by intros [(_ & ? & _)|?].
  - rewrite elem_of_cons, IH. split; intros [?|?]; [left; by split_and!|by right|left; tauto|by right].
Qed.

(** Operator rules never touch transit traffic.  The inbound scope of the
    operator rules lists each tag once and holds exactly the user-facing
    inbounds of the node: the TUN inbound when there is an overlay, the user
    inbound of every chain it is a non-AWG entry of, and its own standalone
    inbounds under the tag they have in the configuration. *)
Theorem manual_scope_user_facing roles nodeInfo nodeChains hasOverlay :
  NoDup (manualRuleInboundScope roles nodeInfo nodeChains hasOverlay) /\
  forall t, t ∈ manualRuleInboundScope roles nodeInfo nodeChains hasOverlay <->
    t <> "" /\
    ((hasOverlay = true /\ t = tunInboundTag) \/
     (exists r, r ∈ roles /\ role_IsEntry r = true /\ Chain_UserProtocol (role_Chain r) <> UserProtocolAWG /\
        t = chainUserInboundTag (role_Chain r) (ChainNode_ID (role_Node r))) \/
     (exists i ib, NodeInfo_Inbounds nodeInfo !! i = Some ib /\ IsChainSourcedInbound ib = false /\
        IsChainEntryInbound nodeChains (NodeInfo_ID nodeInfo) ib = false /\ t = inboundTag i ib)).
Proof.
  split; [apply addTag_nodup, NoDup_nil_2|]. intros t. unfold manualRuleInboundScope.
  rewrite addTag_elem, elem_of_nil, !elem_of_app, standaloneTags_elem. simpl.
  assert (t ∈ (if hasOverlay then [tunInboundTag] else []) <-> hasOverlay = true /\ t = tunInboundTag) as ->.
  { destruct hasOverlay; [rewrite list_elem_of_singleton|rewrite elem_of_nil]; [|by split; [|intros [? _]]].
    split; [by split|by intros [_ ?]]. }
  assert (t ∈ entryTags roles <-> exists r, r ∈ roles /\ role_IsEntry r = true /\
    Chain_UserProtocol (role_Chain r) <> UserProtocolAWG /\
    t = chainUserInboundTag (role_Chain r) (ChainNode_ID (role_Node r))) as ->.
  { unfold entryTags. rewrite list_elem_of_In, in_flat_map. split.
    - intros (r & Hr & Ht). exists r. rewrite list_elem_of_In. destruct (role_IsEntry r); simpl in Ht; [|done].
      case_bool_decide; simpl in Ht; [done|]. by destruct Ht as [<-|].
    - intros (r & Hr & He & Hp & ->). exists r. rewrite <- list_elem_of_In. split; [done|].
      rewrite He, bool_decide_eq_false_2 by done. by left. }
  split; [intros [?|[? ?]]; tauto|tauto].
Qed.

(** ** Deviations *)

(** The structural rule of a standalone inbound names the index-based tag even
    when the inbound has a tag of its own: its outbound is never used. *)
Lemma standalone_rule_misses_tag :
  let ib := (zeroNodeInbound <| NodeInbound_Tag := "mine" |>) <| NodeInbound_OutboundTag := "proxy" |> in
  inboundTag 0 ib = "mine" /\
  forall e, e ∈ standaloneRules 0 [ib] -> "mine" ∉ Entry_Inbound e.
Proof.
  intros ib. split; [done|]. intros e [->|?%elem_of_nil]%elem_of_cons; [|done].
  by intros [?|?%elem_of_nil]%elem_of_cons.
Qed.

(** On a grouped level the flat index after a node is its sibling: a node sends
    a user pinned to its sibling to the next level, past the pinned exit. *)
Lemma group_pin_misrouted :
  let u := (zeroUser <| User_AWGAddress := "10.8.0.2/32" |>) <| User_ChainExit := {[ "g" := "m2" ]} |> in
  let c := groupChain <| Chain_UserProtocol := UserProtocolAWG |> in
  exists r, chainRoleIn samplePresets "m1" c = Some (Some r) /\
    map ChainNode_ID (role_NextNodes r) = ["x"] /\
    pinRule samplePresets r (transportInTag c) "m2" u =
      [ruleByIP (transportInTag c) "10.8.0.2/32" (chainInterNodeOutboundTag samplePresets r)].
Proof.
  intros u c. destruct (chainRoleIn samplePresets "m1" c) as [[r|]|] eqn:E; [|by vm_compute in E|by vm_compute in E].
  exists r. split; [done|]. vm_compute in E. injection E as <-. by vm_compute.
Qed.

(** The identity an operator rule matches a VLESS user by is not the one the
    user's inbound authenticates. *)
Lemma manual_auth_identity_mismatch :
  let u := (zeroUser <| User_Name := "alice" |>) <| User_VLESSUUID := "uuid-1" |> in
  userAuthIdentity u UserProtocolVLESSReality = "alice" /\ userIdentities u = ["uuid-1"].
Proof. by vm_compute. Qed.
