(* ===== verification/AwgPath.v ===== *)
(** * AwgPath: where the traffic of an AWG user leaves a chain

    The route sections of the nodes of a linear chain, put together: a
    connection of an AWG user enters at the first node through the TUN overlay
    and is forwarded hop by hop (its inner address travels with it), until a
    node sends it to its direct outbound.  How sing-box matches a rule is the
    interface [RouteMatcher]: the documented meaning of the three matchers the
    generated rules use. *)

From S2P Require Import Prelude GoStrings Model ChainModel Lifecycle Presets Caddy Roles ManualRules MergedRoute.

(** ** The interface to sing-box's rule matching *)

(** A connection: the tag of its inbound, the host prefix of its source address
    and the user it authenticated as. *)
Record Conn := mkConn {
  Conn_Inbound : string;
  Conn_Source : string;
  Conn_AuthUser : option string }.

(** The rule uses no other matcher than inbound, source address and user. *)
Definition plainRule (e : RouteRuleEntry) : bool :=
  match Entry_GeoIP e, Entry_GeoSite e, Entry_Domain e, Entry_DomainSuffix e, Entry_DomainKeyword e,
        Entry_IPCidr e, Entry_Protocol e, Entry_RuleSet e with
  | [], [], [], [], [], [], [], [] => true
  | _, _, _, _, _, _, _, _ => false
  end.

(** All the fields given must match, each by one of its values. *)
Definition plainMatch (k : Conn) (e : RouteRuleEntry) : bool :=
  (match Entry_Inbound e with [] => true | l => bool_decide (Conn_Inbound k ∈ l) end) &&
  (match Entry_SourceIPCIDR e with [] => true | l => bool_decide (Conn_Source k ∈ l) end) &&
  (match Entry_AuthUser e with
   | [] => true
   | l => match Conn_AuthUser k with Some u => bool_decide (u ∈ l) | None => false end
   end).

Class RouteMatcher := {
  routeMatches : Conn -> RouteRuleEntry -> bool;
  routeMatches_plain : forall k e, plainRule e = true -> routeMatches k e = plainMatch k e }.

(** The first rule with an outbound that matches decides; rules with an action
    ([sniff], [hijack-dns]) do not route a data connection. *)
Definition routeHit `{RouteMatcher} (k : Conn) (e : RouteRuleEntry) : bool :=
  (Entry_Outbound e != "") && routeMatches k e.

Definition routeTo `{RouteMatcher} (k : Conn) (r : RoutingSection) : string :=
  match List.find (routeHit k) (Routing_Rules r) with
  | Some e => Entry_Outbound e
  | None => Routing_Final r
  end.

(** ** The path of a connection along a chain *)

(** What the route sections depend on besides the chains: AB_ROUTE_DNS=1 (off by
    default), the setting of the overlay, the operator rules of a node and the
    users they name. *)
Record RouteSettings := mkRouteSettings {
  rs_routeDNS : bool;
  rs_autoRedirect : option bool;
  rs_rules : string -> list RouteRule;
  rs_allUsers : list User }.

(** The route section of a node, from its chains; [None] when the roles or the
    section cannot be built, or there is no section. *)
Definition sectionOf (s : PresetState) (S : RouteSettings) (id : string) (chains : list Chain) (info : NodeInfo)
    (usersByChain : gmap string (list User)) : option RoutingSection :=
  match resolveChainRoles s id chains with
  | None => None
  | Some roles =>
      let overlay := match nodeOverlay s (rs_autoRedirect S) roles info chains with Some (_, _, r) => r | None => [] end in
      match nodeRoute s (rs_routeDNS S) roles info chains usersByChain (rs_rules S id) (rs_allUsers S) overlay with
      | Some (Some r) => Some r
      | _ => None
      end
  end.

(** The entry is an AWG 3 endpoint of sing-box, not a kernel interface. *)
Definition userspaceEntry (nodeInfo : NodeInfo) (c : Chain) (entry : ChainNode) : bool :=
  bool_decide (is_Some (chainEntryAWG3Inbound nodeInfo c entry)) && negb (kernelAWG3EnabledFor nodeInfo).

(** The inbound a connection of the chain arrives on at the [i]-th node. *)
Definition arrivalTag (info : string -> NodeInfo) (c : Chain) (i : nat) : string :=
  match i with
  | O => match Chain_Nodes c !! O with
         | Some n => if userspaceEntry (info (ChainNode_ID n)) c n then chainUserInboundTag c (ChainNode_ID n) else tunInboundTag
         | None => tunInboundTag
         end
  | S _ => transportInTag c
  end.

Section path.
Context `{RouteMatcher} (s : PresetState) (S : RouteSettings) (chains : list Chain) (usersByChain : gmap string (list User)).
Context (info : string -> NodeInfo) (c : Chain).

(** Follow a connection from the [i]-th node: the index of the node where it
    leaves through the direct outbound. *)
Fixpoint egress (fuel : nat) (source : string) (i : nat) : option nat :=
  match fuel with
  | O => None
  | Datatypes.S f =>
      match Chain_Nodes c !! i with
      | None => None
      | Some n =>
          match sectionOf s S (ChainNode_ID n) chains (info (ChainNode_ID n)) usersByChain with
          | None => None
          | Some r =>
              let out := routeTo (mkConn (arrivalTag info c i) source None) r in
              if out == "direct-out" then Some i
              else match chainRoleIn s (ChainNode_ID n) c with
                   | Some (Some role) =>
                       if out == chainInterNodeOutboundTag s role then egress f source (Datatypes.S i) else None
                   | _ => None
                   end
          end
      end
  end.
End path.

(** ** Linear chains *)

(** A chain of single nodes with positional roles, entered over AWG. *)
Record linear (c : Chain) : Prop := mkLinear {
  lin_awg : Chain_UserProtocol c = UserProtocolAWG;
  lin_synced : synced c;
  lin_roles : Forall (fun n => ChainNode_Role n = "") (Chain_Nodes c);
  lin_single : Forall (fun lv => length (ChainLevel_Nodes lv) = 1%nat) (Chain_Levels c);
  lin_nodup : NoDup (map ChainNode_ID (Chain_Nodes c)) }.

(** The role of the [i]-th node of a linear chain. *)
Record linearRole (c : Chain) (i : nat) (n : ChainNode) (r : chainRole) : Prop := mkLinearRole {
  lr_chain : role_Chain r = c;
  lr_index : role_NodeIndex r = i;
  lr_node : role_Node r = n;
  lr_entry : role_IsEntry r = (i =? 0)%nat;
  lr_transit : role_IsTransit r = negb (i =? 0)%nat;
  lr_out : role_HasOutbound r = bool_decide (is_Some (Chain_Nodes c !! S i)) }.

Lemma NodeByID_elem c id n : synced c -> NodeByID c id = Some n -> n ∈ Chain_Nodes c /\ ChainNode_ID n = id.
Proof.
  intros ->. unfold NodeByID, AllNodes.
  assert (forall l, findNode id l = Some n -> n ∈ l /\ ChainNode_ID n = id) as Hf.
  { intros l [Hin Hid]%List.find_some. apply bool_decide_eq_true in Hid.
    split; [by apply list_elem_of_In|done]. }
  destruct (IsLevelized c); simpl; [|apply Hf].
  induction (Chain_Levels c) as [|lv lvs IH]; simpl; [done|].
  destruct (findNode id (ChainLevel_Nodes lv)) eqn:E.
  - intros [= ->]. apply Hf in E as [? ?]. split; [apply elem_of_app; by left|done].
  - intros Hn. apply IH in Hn as [? ?]. split; [apply elem_of_app; by right|done].
Qed.

Lemma NodeByID_is_Some c n : synced c -> n ∈ Chain_Nodes c -> is_Some (NodeByID c (ChainNode_ID n)).
Proof.
  intros ->. unfold NodeByID, AllNodes.
  assert (forall l, n ∈ l -> is_Some (findNode (ChainNode_ID n) l)) as Hf.
  { intros l Hin. destruct (findNode (ChainNode_ID n) l) eqn:E; [by eexists|].
    apply list_elem_of_In in Hin. apply (List.find_none _ _ E) in Hin.
    by apply bool_decide_eq_false in Hin. }
  destruct (IsLevelized c); simpl; [|apply Hf].
  induction (Chain_Levels c) as [|lv lvs IH]; simpl; [by intros ?%elem_of_nil|].
  intros [Hin|Hin]%elem_of_app.
  - destruct (Hf _ Hin) as [m ->]. by eexists.
  - destruct (findNode _ _); [by eexists|by apply IH].
Qed.

Lemma NoDup_map_lookup {A B} (f : A -> B) l i j x y :
  NoDup (map f l) -> l !! i = Some x -> l !! j = Some y -> f x = f y -> i = j.
Proof.
  intros Hnd Hi Hj E. eapply NoDup_lookup; [exact Hnd| |].
  - change (map f) with (fmap f : list A -> list B). by rewrite list_lookup_fmap, Hi.
  - change (map f) with (fmap f : list A -> list B). rewrite list_lookup_fmap, Hj. simpl. by rewrite E.
Qed.

Lemma linear_role s c i n :
  linear c -> is_Some (resolveChainPreset s c) -> Chain_Nodes c !! i = Some n ->
  exists r, chainRoleIn s (ChainNode_ID n) c = Some (Some r) /\ linearRole c i n r.
Proof.
  intros [Hawg Hsync Hroles Hsing Hnd] [p Hp] Hi.
  assert (n ∈ Chain_Nodes c) as Hin by by eapply list_elem_of_lookup_2.
  destruct (chainRoleIn s (ChainNode_ID n) c) as [[r|]|] eqn:Er.
  2:{ apply chainRoleIn_None in Er. destruct (NodeByID_is_Some c n Hsync Hin). congruence. }
  2:{ unfold chainRoleIn in Er. rewrite Hp in Er. by destruct (if IsLevelized c then _ else _). }
  exists r. split; [done|]. pose proof (chainRoleIn_agrees _ _ _ _ Er) as Ha.
  destruct (NodeByID_elem c _ _ Hsync (agree_node _ _ _ _ Ha)) as [_ Hid].
  pose proof (agree_index _ _ _ _ Ha) as Hidx. rewrite <- Hsync in Hidx.
  assert (role_NodeIndex r = i) as Ei by by eapply (NoDup_map_lookup ChainNode_ID).
  rewrite Ei, Hi in Hidx. injection Hidx as En.
  unfold chainRoleIn in Er. rewrite Hp in Er.
  destruct (if IsLevelized c then _ else _) in Er; [|done]. injection Er as Er.
  split; [by destruct Ha|done|done| | |].
  all: destruct (IsLevelized c) eqn:El.
  all: first [pose proof (scanLevels_spec c p (ChainNode_ID n) (Chain_Levels c) 0 0) as Hs; rewrite Er in Hs;
    destruct Hs as (_ & _ & _ & (j & a & E3 & _ & [E5 E6] & E7 & _ & E8 & _) & E10 & E11)
    | pose proof (scanFlat_spec c p (ChainNode_ID n) (Chain_Nodes c) 0) as Hs; rewrite Er in Hs;
    destruct Hs as (_ & _ & (j & E3 & _ & _ & E8 & _) & _ & _ & E10 & E11)].
  all: try (destruct (flatten_singletons _ a Hsing) as [L1 _];
    destruct (flatten_singletons _ (S a) Hsing) as [L2 L3]; assert (a = i) as -> by lia).
  all: try (assert (j = i) as -> by lia).
  all: try (apply (Forall_lookup_1 _ _ _ _ Hroles) in Hi as Hr; simpl in Hr; rewrite <- En, Hr in * ).
  - rewrite E10, E7. by destruct i.
  - rewrite E10, Ei. by destruct i.
  - rewrite E11, E7. by destruct i.
  - rewrite E11, Ei. by destruct i.
  - rewrite E8. apply bool_decide_ext. rewrite Hsync. unfold AllNodes. rewrite El. simpl. rewrite L3.
    destruct (Chain_Levels c !! S i) as [lv|] eqn:Elv; simpl; [|done].
    apply (Forall_lookup_1 _ _ _ _ Hsing) in Elv. destruct (ChainLevel_Nodes lv); [done|]. by split; eexists.
  - done.
Qed.

(** ** Lemmas *)

Lemma resolveChainRoles_total s id chains :
  (forall c, c ∈ chains -> is_Some (resolveChainPreset s c)) -> is_Some (resolveChainRoles s id chains).
Proof.
  induction chains as [|c chains IH]; intros Hp; simpl; [by eexists|].
  destruct IH as [rs ->]; [intros c' Hc'; apply Hp; by right|].
  unfold chainRoleIn. destruct (Hp c) as [p ->]; [by left|].
  destruct (if IsLevelized c then _ else _); [|by eexists].
  destruct (if IsLevelized c then _ else _); by eexists.
Qed.

Lemma resolveChainRoles_in s id chains roles c r :
  resolveChainRoles s id chains = Some roles -> c ∈ chains -> chainRoleIn s id c = Some (Some r) -> r ∈ roles.
Proof.
  revert roles. induction chains as [|c0 chains IH]; intros roles; simpl; [by intros _ ?%elem_of_nil|].
  intros Hr [->|Hc]%elem_of_cons Hcr.
  - rewrite Hcr in Hr. destruct (resolveChainRoles s id chains); [|done]. injection Hr as <-. by left.
  - destruct (chainRoleIn s id c0) as [[r0|]|]; [| |done];
      (destruct (resolveChainRoles s id chains) as [rs|]; [|done]); injection Hr as <-;
      [right|]; by eapply IH.
Qed.

Lemma allClientRules_elem s usersByChain roles client e :
  allClientRules s usersByChain roles = Some client ->
  e ∈ client <-> exists r l, r ∈ roles /\ clientRules s usersByChain r = Some l /\ e ∈ l.
Proof.
  revert client. induction roles as [|r roles IH]; intros client; simpl.
  { intros [= <-]. split; [by intros ?%elem_of_nil|]. by intros (r & l & ?%elem_of_nil & _). }
  destruct (clientRules s usersByChain r) as [l|] eqn:E; [|done].
  destruct (allClientRules s usersByChain roles) as [l'|]; [|done]. intros [= <-].
  rewrite elem_of_app, (IH l' eq_refl). split.
  - intros [He|(r' & l0 & ? & ? & ?)]; [exists r, l; by split; [left|]|]. exists r', l0. by split; [right|].
  - intros (r' & l0 & [->|Hr]%elem_of_cons & Hl & He).
    + left. congruence.
    + right. by exists r', l0.
Qed.

Lemma clientRules_elem s usersByChain r l e :
  clientRules s usersByChain r = Some l -> e ∈ l ->
  exists tag next u, clientInTag r = Some tag /\
    u ∈ usersForChain usersByChain (Chain_Name (role_Chain r)) /\ e ∈ pinRule s r tag next u.
Proof.
  unfold clientRules. destruct (usersForChain _ _) as [|u0 us] eqn:Eu; [by intros [= <-] ?%elem_of_nil|].
  destruct (clientInTag r) as [tag|]; [|by intros [= <-] ?%elem_of_nil].
  destruct (if role_HasOutbound r then _ else _) as [next|]; [|done]. rewrite <- Eu.
  intros [= <-]. rewrite list_elem_of_In, in_flat_map. intros (u & Hu & He).
  exists tag, next, u. by rewrite !list_elem_of_In.
Qed.

Lemma clientRules_pin s usersByChain r l tag u :
  clientRules s usersByChain r = Some l -> clientInTag r = Some tag ->
  u ∈ usersForChain usersByChain (Chain_Name (role_Chain r)) ->
  exists next, forall e, e ∈ pinRule s r tag next u -> e ∈ l.
Proof.
  unfold clientRules. intros Hl Ht Hu. destruct (usersForChain _ _) as [|u0 us] eqn:Eu; [by apply elem_of_nil in Hu|].
  rewrite Ht in Hl. destruct (if role_HasOutbound r then _ else _) as [next|]; [|done]. rewrite <- Eu in *.
  injection Hl as <-. exists next. intros e He. apply list_elem_of_In, in_flat_map. exists u.
  by rewrite <- !list_elem_of_In.
Qed.

Section hits.
Context `{RouteMatcher}.

(** Only a rule on the address of the connection can be hit by an AWG peer. *)
Lemma pinRule_hit s r tag next u t a e :
  e ∈ pinRule s r tag next u -> routeHit (mkConn t a None) e = true ->
  User_AWGAddress u = a /\ pinRule s r tag next u = [e].
Proof.
  unfold pinRule. cbv zeta. intros He Hh.
  assert (forall ip o, routeHit (mkConn t a None) (ruleByIP tag ip o) = true -> ip = a) as Hip.
  { intros ip o. unfold routeHit. rewrite routeMatches_plain by done.
    unfold plainMatch. simpl. rewrite !andb_true_iff, bool_decide_eq_true. intros (_ & [_ Ha] & _).
    apply bool_decide_eq_true, list_elem_of_singleton in Ha. by symmetry. }
  assert (forall au o, routeHit (mkConn t a None) (ruleByAuth tag au o) = true -> False) as Hau.
  { intros au o. unfold routeHit. rewrite routeMatches_plain by done.
    unfold plainMatch. simpl. by rewrite !andb_false_r. }
  repeat (case_step; try by apply elem_of_nil in He); apply list_elem_of_singleton in He as ->;
    try (by apply Hip in Hh); by apply Hau in Hh.
Qed.

Lemma find_unique (P : RouteRuleEntry -> bool) pre l post o :
  (forall e, e ∈ pre -> P e = false) ->
  (exists e, e ∈ l /\ P e = true) -> (forall e, e ∈ l -> P e = true -> Entry_Outbound e = o) ->
  exists e, List.find P (pre ++ l ++ post) = Some e /\ Entry_Outbound e = o.
Proof.
  intros Hpre (e0 & He0 & HP0) Hall. induction pre as [|e pre IH]; simpl.
  - clear Hpre. induction l as [|e l IH]; [by apply elem_of_nil in He0|]. simpl.
    destruct (P e) eqn:Ee; [exists e; split; [done|apply Hall; [by left|done]]|].
    apply elem_of_cons in He0 as [->|He0]; [congruence|].
    apply IH; [done|]. intros e' He'. apply Hall. by right.
  - rewrite (Hpre e) by by left. apply IH. intros e' He'. apply Hpre. by right.
Qed.

(** The rules the operator's rules of a node are expanded to, for some scope. *)
Definition operatorRule (S : RouteSettings) (id : string) (e : RouteRuleEntry) : Prop :=
  exists scope, e ∈ Ex_Rules (ExpandManualRouteRules (rs_rules S id) scope (rs_allUsers S)).

(** The rules of a node: actions and operator rules, client rules, the rest. *)
Lemma sectionOf_rules s S id chains info usersByChain : rs_routeDNS S = true ->
  (forall c, c ∈ chains -> is_Some (resolveChainPreset s c)) -> Forall deployable chains ->
  (exists c r, c ∈ chains /\ chainRoleIn s id c = Some (Some r)) ->
  exists roles client sec pre post,
    resolveChainRoles s id chains = Some roles /\ allClientRules s usersByChain roles = Some client /\
    sectionOf s S id chains info usersByChain = Some sec /\
    Routing_Rules sec = pre ++ client ++ post /\
    (forall k e, e ∈ pre -> routeHit k e = true -> operatorRule S id e).
Proof.
  intros Hdns Hp Hd (c & r & Hc & Hcr).
  destruct (resolveChainRoles_total s id chains Hp) as [roles Hr].
  assert (is_Some (allClientRules s usersByChain roles)) as [client Hcl].
  { apply allClientRules_total. intros r' Hin.
    destruct (resolveChainRoles_elem _ _ _ _ _ Hr Hin) as (c' & Hc' & Hcr').
    eapply clientRules_total; [done|]. by apply (proj1 (Forall_forall _ _) Hd). }
  pose proof (resolveChainRoles_in _ _ _ _ _ _ Hr Hc Hcr) as Hin.
  unfold sectionOf. rewrite Hr. cbv zeta. unfold nodeRoute. cbv zeta.
  set (overlay := match nodeOverlay s (rs_autoRedirect S) roles info chains with Some (_, _, r) => r | None => [] end).
  set (ex := match rs_rules S id with [] => _ | _ => _ end).
  assert (forall e, e ∈ Ex_Rules ex -> operatorRule S id e) as Hex.
  { unfold ex, operatorRule. intros e He. destruct (rs_rules S id); [by apply elem_of_nil in He|]. by eexists. }
  unfold baseRoute, buildMergedRoute. rewrite Hcl, Hdns.
  destruct roles as [|r0 roles']; [by apply elem_of_nil in Hin|]. set (roles := r0 :: roles') in *. cbn [andb]. cbv zeta.
  assert (overlay = [] \/ exists o, overlay = [sniffRule; hijackDNSRule; ruleByInbound [tunInboundTag] o]) as Ho.
  { unfold overlay, nodeOverlay. destruct (awgTUNOverlayNeeded roles info); [right|by left]. cbv zeta.
    destruct (BuildAWGTUNOverlay _) as [[tun outs] rules] eqn:Eo. unfold BuildAWGTUNOverlay in Eo. cbv zeta in Eo.
    destruct (if _ && _ then _ else _). injection Eo as _ _ <-. by eexists. }
  assert (forall k e (acts : list RouteRuleEntry), Forall (fun a => Entry_Outbound a = "") acts -> e ∈ acts ++ Ex_Rules ex -> routeHit k e = true ->
            operatorRule S id e) as Hpre.
  { intros k e acts Ha [He|He]%elem_of_app Hh; [|by apply Hex]. apply (proj1 (Forall_forall _ _) Ha) in He.
    unfold routeHit in Hh. by rewrite He in Hh. }
  destruct Ho as [->|[o ->]]; cbn [mergeOverlay default].
  - destruct (Ex_Rules ex) as [|m ms] eqn:Em.
    + exists roles, client. eexists. exists []. eexists. split_and!; [done..|]. by intros k e ?%elem_of_nil.
    + exists roles, client. eexists. exists ([sniffRule] ++ m :: ms). eexists.
      split_and!; [done|done|done|simpl; by rewrite <- app_assoc|]. intros k e. apply Hpre. by repeat constructor.
  - exists roles, client. eexists. exists ([sniffRule; hijackDNSRule] ++ Ex_Rules ex). eexists.
    split_and!; [done|done|done| |intros k e; apply Hpre; by repeat constructor].
    destruct (Ex_Rules ex); simpl; by rewrite <- ?app_assoc.
Qed.
End hits.

(** A forward tag is never the direct outbound. *)
Lemma forward_tag_not_direct s r : chainInterNodeOutboundTag s r <> "direct-out" /\ chainInterNodeOutboundTag s r <> "".
Proof. unfold chainInterNodeOutboundTag, levelGroupTag, awgOutTag. cbv zeta. by repeat case_step. Qed.

Lemma nodeIndexFrom_nodup ns : forall k e n,
  NoDup (map ChainNode_ID ns) -> ns !! e = Some n -> nodeIndexFrom k (ChainNode_ID n) ns = k + Z.of_nat e.
Proof.
  induction ns as [|m ns IH]; intros k e n Hnd He; [done|]. simpl in *.
  apply NoDup_cons in Hnd as [Hm Hnd]. destruct e as [|e]; simpl in He.
  - injection He as ->. rewrite bool_decide_eq_true_2 by done. lia.
  - rewrite bool_decide_eq_false_2; [rewrite (IH (k + 1) e n); [lia|done|done]|].
    intros E. apply Hm. rewrite E. apply list_elem_of_In, in_map, list_elem_of_In.
    by eapply list_elem_of_lookup_2.
Qed.

(** ** A pinned user *)

(** The address belongs to this user and this chain only, among the chains of
    the deploy. *)
Definition ownsAddress (chains : list Chain) (usersByChain : gmap string (list User)) (c : Chain) (u : User) : Prop :=
  forall c' u', c' ∈ chains -> u' ∈ usersForChain usersByChain (Chain_Name c') ->
    User_AWGAddress u' = User_AWGAddress u -> c' = c /\ u' = u.

(** The user's exit is the [e]-th node of the chain. *)
Record pinnedTo (c : Chain) (u : User) (e : nat) : Prop := mkPinnedTo {
  pin_node : exists n, Chain_Nodes c !! e = Some n /\ ChainNode_ID n <> "" /\
               User_ChainExit u !! Chain_Name c = Some (ChainNode_ID n);
  pin_addr : User_AWGAddress u <> "" }.

Section pinned.
Context `{RouteMatcher} (s : PresetState) (S : RouteSettings) (chains : list Chain) (usersByChain : gmap string (list User)).
Context (info : string -> NodeInfo) (c : Chain) (u : User) (e : nat).
Hypothesis route_dns : rs_routeDNS S = true.
Hypothesis no_operator_rule : forall i n x, Chain_Nodes c !! i = Some n -> operatorRule S (ChainNode_ID n) x ->
  routeHit (mkConn (arrivalTag info c i) (User_AWGAddress u) None) x = false.
Hypothesis kernel_entry : forall n, Chain_Nodes c !! O = Some n -> userspaceEntry (info (ChainNode_ID n)) c n = false.
Hypothesis presets_ok : forall c, c ∈ chains -> is_Some (resolveChainPreset s c).
Hypothesis chains_ok : Forall deployable chains.
Hypothesis c_in : c ∈ chains.
Hypothesis c_linear : linear c.
Hypothesis u_in : u ∈ usersForChain usersByChain (Chain_Name c).
Hypothesis u_owns : ownsAddress chains usersByChain c u.
Hypothesis u_pinned : pinnedTo c u e.

(** The pin rule of a node up to the exit. *)
Lemma pin_at i n r next :
  Chain_Nodes c !! i = Some n -> linearRole c i n r -> (i <= e)%nat ->
  pinRule s r (arrivalTag info c i) next u =
    [ruleByIP (arrivalTag info c i) (User_AWGAddress u)
       (if (i =? e)%nat then "direct-out" else chainInterNodeOutboundTag s r)].
Proof using c_linear u_pinned.
  intros Hi [L1 L2 L3 L4 L5 L6] Hle. destruct u_pinned as [(ne & Hne & Hid & Hx) Ha].
  unfold pinRule. rewrite L1, Hx, L3. cbv zeta.
  rewrite (bool_decide_eq_false_2 (_ = "")) by done.
  rewrite (bool_decide_eq_true_2 (_ = UserProtocolAWG)) by by destruct c_linear.
  rewrite (bool_decide_eq_false_2 (User_AWGAddress u = "")) by done.
  destruct (decide (ChainNode_ID ne = ChainNode_ID n)) as [E|E];
    [rewrite bool_decide_eq_true_2 by done|rewrite (bool_decide_eq_false_2 (ChainNode_ID ne = _)) by done].
  - assert (i = e) as ->. { symmetry. apply (NoDup_map_lookup ChainNode_ID (Chain_Nodes c) e i ne n); [by destruct c_linear|done..]. }
    by rewrite Nat.eqb_refl.
  - assert (i <> e) as Hie by (intros ->; congruence).
    rewrite L6, bool_decide_eq_true_2 by (apply lookup_lt_is_Some_2; apply lookup_lt_Some in Hne; lia).
    unfold nodeIsAtOrBefore. rewrite L1, L2, (nodeIndexFrom_nodup _ 0 e ne) by (done || by destruct c_linear).
    rewrite (proj2 (Z.eqb_neq _ _)) by lia. rewrite (proj2 (Z.ltb_lt _ _)) by lia. simpl.
    by rewrite (proj2 (Nat.eqb_neq _ _)).
Qed.

Lemma pinned_step i n r :
  Chain_Nodes c !! i = Some n -> linearRole c i n r -> chainRoleIn s (ChainNode_ID n) c = Some (Some r) ->
  (i <= e)%nat ->
  exists sec, sectionOf s S (ChainNode_ID n) chains (info (ChainNode_ID n)) usersByChain = Some sec /\
    routeTo (mkConn (arrivalTag info c i) (User_AWGAddress u) None) sec =
      if (i =? e)%nat then "direct-out" else chainInterNodeOutboundTag s r.
Proof using All.
  intros Hi Hlr Hr Hle.
  destruct (sectionOf_rules s S (ChainNode_ID n) chains (info (ChainNode_ID n)) usersByChain route_dns presets_ok chains_ok)
    as (roles & client & sec & pre & post & Hroles & Hcl & Hsec & Hrules & Hpre); [by exists c, r|].
  exists sec. split; [done|]. set (out := if (i =? e)%nat then _ else _).
  pose proof (resolveChainRoles_in _ _ _ _ _ _ Hroles c_in Hr) as Hrin.
  assert (clientInTag r = Some (arrivalTag info c i)) as Htag.
  { unfold clientInTag. destruct Hlr as [-> _ _ -> -> _]. rewrite bool_decide_eq_true_2 by by destruct c_linear.
    destruct i; [|done]. cbn. by rewrite Hi, (kernel_entry n Hi). }
  assert (exists e0, List.find (routeHit (mkConn (arrivalTag info c i) (User_AWGAddress u) None)) (Routing_Rules sec) =
    Some e0 /\ Entry_Outbound e0 = out) as (e0 & He0 & Ho).
  { rewrite Hrules. apply find_unique; [| |].
    - intros x Hx. destruct (routeHit _ x) eqn:Eh; [|done]. rewrite <- Eh. apply (no_operator_rule i n); [done|by eapply Hpre].
    - destruct (allClientRules_elem s usersByChain roles client
        (ruleByIP (arrivalTag info c i) (User_AWGAddress u) out) Hcl) as [_ Hel].
      eexists. split; [apply Hel|].
      + destruct (clientRules_total s usersByChain _ _ _ Hr) as [l Hl].
        { by apply (proj1 (Forall_forall _ _) chains_ok). }
        exists r, l. split_and!; [done|done|].
        destruct (clientRules_pin s usersByChain r l (arrivalTag info c i) u Hl Htag) as [next Hn].
        { by destruct Hlr as [-> _ _ _ _ _]. }
        apply Hn. rewrite (pin_at i n r next) by done. by left.
      + unfold routeHit. rewrite routeMatches_plain by done. unfold plainMatch. simpl.
        rewrite (bool_decide_eq_false_2 (out = "")).
        2:{ unfold out. destruct (i =? e)%nat; [done|]. apply forward_tag_not_direct. }
        by rewrite !bool_decide_eq_true_2 by by left.
    - intros e1 He1 Hh. apply (allClientRules_elem _ _ _ _ _ Hcl) in He1 as (r' & l & Hr' & Hl & He1).
      destruct (resolveChainRoles_elem _ _ _ _ _ Hroles Hr') as (c' & Hc' & Hcr').
      pose proof (agree_chain _ _ _ _ (chainRoleIn_agrees _ _ _ _ Hcr')) as Ech.
      destruct (clientRules_elem _ _ _ _ _ Hl He1) as (tag & next & u' & Ht & Hu' & Hp).
      destruct (pinRule_hit _ _ _ _ _ _ _ _ Hp Hh) as [Ha Hone]. rewrite Ech in Hu'.
      destruct (u_owns c' u' Hc' Hu' Ha) as [-> ->]. assert (r' = r) as -> by congruence.
      rewrite Htag in Ht. injection Ht as <-. rewrite (pin_at i n r next) in Hone by done.
      by injection Hone as <-. }
  unfold routeTo. by rewrite He0.
Qed.

Lemma pinned_egress_from k : forall i fuel,
  (i + k = e)%nat -> (k < fuel)%nat ->
  egress s S chains usersByChain info c fuel (User_AWGAddress u) i = Some e.
Proof using All.
  assert (exists ne, Chain_Nodes c !! e = Some ne) as (ne & Hne)
    by (destruct u_pinned as [(ne & Hne & _) _]; by exists ne).
  induction k as [|k IH]; intros i [|fuel] Hik Hf; try lia; cbn [egress].
  all: assert (is_Some (Chain_Nodes c !! i)) as [n Hi]
    by (apply lookup_lt_is_Some_2; apply lookup_lt_Some in Hne; lia).
  all: destruct (linear_role s c i n c_linear (presets_ok c c_in) Hi) as (r & Hr & Hlr).
  all: destruct (pinned_step i n r Hi Hlr Hr) as (sec & Hsec & Hto); [lia|]; rewrite Hi, Hsec, Hto; cbv zeta.
  - rewrite (proj2 (Nat.eqb_eq _ _)) by lia. rewrite bool_decide_eq_true_2 by done. f_equal. lia.
  - rewrite (proj2 (Nat.eqb_neq _ _)) by lia.
    rewrite bool_decide_eq_false_2 by apply forward_tag_not_direct.
    rewrite Hr, bool_decide_eq_true_2 by done. apply IH; lia.
Qed.
End pinned.

(** C13: a pinned AWG user leaves at the pinned node.  The route sections are
    generated (AB_ROUTE_DNS=1), the entry is a kernel interface, and no operator
    rule matches the connection.  Then in a linear chain entered
    over AWG, deployed among any other chains, the connection of a user pinned
    to the [e]-th node, whose tunnel address no other user has, is forwarded by
    every node before it and leaves through the direct outbound of the pinned
    node: the first-match order of the generated rules never diverts it. *)
Theorem awg_pin_egress `{RouteMatcher} s S chains usersByChain info c u e :
  rs_routeDNS S = true ->
  (forall n, Chain_Nodes c !! O = Some n -> userspaceEntry (info (ChainNode_ID n)) c n = false) ->
  (forall i n x, Chain_Nodes c !! i = Some n -> operatorRule S (ChainNode_ID n) x ->
     routeHit (mkConn (arrivalTag info c i) (User_AWGAddress u) None) x = false) ->
  (forall c', c' ∈ chains -> is_Some (resolveChainPreset s c')) -> Forall deployable chains ->
  c ∈ chains -> linear c -> u ∈ usersForChain usersByChain (Chain_Name c) ->
  ownsAddress chains usersByChain c u -> pinnedTo c u e ->
  egress s S chains usersByChain info c (length (Chain_Nodes c)) (User_AWGAddress u) 0 = Some e.
Proof.
  intros Hd Hk Ho H1 H2 H3 H4 H5 H6 H7. apply (pinned_egress_from _ _ _ _ _ _ _ e Hd Ho Hk H1 H2 H3 H4 H5 H6 H7 e); [done|].
  destruct H7 as [(n & Hn & _) _]. by apply lookup_lt_Some in Hn.
Qed.

(** A concrete matcher, and a user pinned to the middle of a three-node chain. *)
Definition plainMatcher : RouteMatcher := Build_RouteMatcher plainMatch (fun _ _ _ => eq_refl).

Definition pinnedUser : User :=
  zeroUser <| User_ID := "u1" |> <| User_AWGAddress := "10.8.0.2/32" |> <| User_ChainExit := {[ "f" := "y" ]} |>.

Definition otherUser : User :=
  zeroUser <| User_ID := "u2" |> <| User_AWGAddress := "10.8.0.3/32" |> <| User_ChainExit := {[ "f" := "e" ]} |>.

Definition sampleUsersByChain : gmap string (list User) := {[ "f" := [otherUser; pinnedUser] ]}.

Definition routed (dns : bool) : RouteSettings := mkRouteSettings dns None (fun _ => []) [].

Lemma awg_pin_egress_witness :
  @egress plainMatcher samplePresets (routed true) [groupChain; flatChain] sampleUsersByChain (fun _ => zeroNodeInfo)
    flatChain 3 "10.8.0.2/32" 0 = Some 1%nat.
Proof.
  apply (@awg_pin_egress plainMatcher samplePresets (routed true) [groupChain; flatChain] sampleUsersByChain
    (fun _ => zeroNodeInfo) flatChain pinnedUser 1); [reflexivity|by intros n [= <-]|by intros i n x _ (scope & ?%elem_of_nil)|..].
  - intros c [->|[->|?%elem_of_nil]%elem_of_cons]%elem_of_cons; [by vm_compute; eexists|by vm_compute; eexists|done].
  - repeat (apply Forall_cons; split; [split; by vm_compute|]). by apply Forall_nil.
  - right. by left.
  - split; [done|done|repeat constructor|constructor|].
    apply NoDup_ListNoDup. vm_compute. repeat (constructor; [by intros Hf; repeat destruct Hf as [Hf|Hf]|]). constructor.
  - right. by left.
  - intros c' u' [->|[->|?%elem_of_nil]%elem_of_cons]%elem_of_cons; [|clear|done].
    + by intros ?%elem_of_nil.
    + by intros [->|[->|?%elem_of_nil]%elem_of_cons]%elem_of_cons.
  - split; [|done]. exists (namedNode "y"). by split_and!.
Defined.

(** ** Where the path is another *)

(** A chain whose entry is an AWG 3 endpoint of sing-box: no rule names the tag its
    connections arrive on (the client rules name the TUN inbound, the rule of the
    role is left out for AWG entries), so they all leave at the entry and never
    reach the chain, pinned or not. *)
Lemma userspace_entry_skips_chain :
  let ib := zeroNodeInbound <| NodeInbound_Protocol := "awg" |> <| NodeInbound_Source := "chain:f" |> <| NodeInbound_AWGVersion := "3" |> in
  let info := fun _ => zeroNodeInfo <| NodeInfo_Inbounds := [ib] |> in
  userspaceEntry (info "e") flatChain (namedNode "e") = true /\
  @egress plainMatcher samplePresets (routed true) [flatChain] sampleUsersByChain info flatChain 3 "10.8.0.2/32" 0 = Some 0%nat /\
  @egress plainMatcher samplePresets (routed true) [flatChain] sampleUsersByChain info flatChain 3 "10.8.0.9/32" 0 = Some 0%nat.
Proof. by vm_compute. Qed.

(** Without AB_ROUTE_DNS=1 a node has no client rules: a user pinned to the entry
    itself is forwarded, and the next node has no route section at all. *)
Lemma pins_need_route_dns :
  let u := pinnedUser <| User_ChainExit := {[ "f" := "e" ]} |> in
  option_map (@routeTo plainMatcher (mkConn tunInboundTag (User_AWGAddress u) None))
    (sectionOf samplePresets (routed false) "e" [flatChain] zeroNodeInfo {[ "f" := [u] ]}) = Some (awgOutTag "f" "y") /\
  sectionOf samplePresets (routed false) "y" [flatChain] zeroNodeInfo {[ "f" := [u] ]} = None.
Proof. by vm_compute. Qed.
