(* ===== verification/MergedConfig.v ===== *)
(** * MergedConfig: ports and outbounds of a node

    internal/chain/merged_config.go: [detectPortConflicts] and the assembly of
    the outbounds in [buildMergedNodeConfig] ([addIfMissing]), with
    [injectAWGOutboundDirects] of awg_outbound.go and [needsBlock]. *)

From S2P Require Import Prelude GoStrings Model ChainModel Lifecycle Presets Caddy Roles ManualRules MergedRoute AwgPath.

(** ** Port conflicts *)

Record PortClaim := mkPortClaim { claim_port : Z; claim_claimant : string; claim_role : string }.

Inductive PortError :=
| CaddyConflict (port : Z) (chain role : string)
| PortConflict (claims : list PortClaim).

(** The port of a role. *)
Definition rolePort (nodeInfo : NodeInfo) (r : chainRole) : Z :=
  let port :=
    if role_IsEntry r && (ChainNode_InboundRef (role_Node r) != "") then
      match inboundByProfileID nodeInfo (ChainNode_InboundRef (role_Node r)) with
      | Some ib => if 0 <? NodeInbound_Port ib then NodeInbound_Port ib else ChainNode_Port (role_Node r)
      | None => ChainNode_Port (role_Node r)
      end
    else ChainNode_Port (role_Node r) in
  if port =? 0 then
    (if role_IsEntry r then chainEntryPort (role_Chain r) (ChainNode_ID (role_Node r)) else defaultTransportPort)
  else port.

Definition roleClaim (nodeInfo : NodeInfo) (r : chainRole) : PortClaim :=
  mkPortClaim (rolePort nodeInfo r) (Chain_Name (role_Chain r))
    (if role_IsEntry r then "user-in" else "transport-in").

(** The loop over the roles: the claims, or the conflict with caddy. *)
Fixpoint roleClaims (caddyMode : bool) (nodeInfo : NodeInfo) (roles : list chainRole)
    : PortError + list PortClaim :=
  match roles with
  | [] => inr []
  | r :: roles' =>
      let cl := roleClaim nodeInfo r in
      if caddyMode && caddyOwned (claim_port cl) then
        inl (CaddyConflict (claim_port cl) (claim_claimant cl) (claim_role cl))
      else
        match roleClaims caddyMode nodeInfo roles' with
        | inl e => inl e
        | inr cls => inr (cl :: cls)
        end
  end.

(** The effective port of a standalone inbound. *)
Definition standalonePort (caddyPorts : option (list Z)) (i : nat) (ib : NodeInbound) : Z :=
  if NodeInbound_Protocol ib == "mtproxy" then
    let port := mtproxyInboundPort (NodeInbound_Port ib) in
    if bool_decide (is_Some caddyPorts) then CaddyEvictPort port else port
  else
    match caddyPorts with
    | Some ports => default (NodeInbound_Port ib) (ports !! i)
    | None => NodeInbound_Port ib
    end.

Fixpoint standaloneClaims (nodeChains : list Chain) (nodeID : string) (caddyPorts : option (list Z)) (i : nat)
    (ibs : list NodeInbound) : list PortClaim :=
  match ibs with
  | [] => []
  | ib :: ibs' =>
      if IsChainSourcedInbound ib || IsChainEntryInbound nodeChains nodeID ib
      then standaloneClaims nodeChains nodeID caddyPorts (S i) ibs'
      else mkPortClaim (standalonePort caddyPorts i ib) "standalone" (NodeInbound_Protocol ib)
             :: standaloneClaims nodeChains nodeID caddyPorts (S i) ibs'
  end.

(** The remapped ports in caddy mode. *)
Definition caddyPortsOf (nodeInfo : NodeInfo) : option (list Z) :=
  if CaddyMode nodeInfo then RemapInboundPorts (NodeInfo_Inbounds nodeInfo) else None.

(** A claim whose port another claim has too. *)
Definition contested (claims : list PortClaim) (cl : PortClaim) : bool :=
  (1 <? length (List.filter (fun c => (claim_port c =? claim_port cl)%Z) claims))%nat.

(** [detectPortConflicts]: the reported usage and the error.  The Go code
    reports one contested port, whichever the map iteration meets first; the
    error here carries every contested claim. *)
Definition detectPortConflicts (nodeInfo : NodeInfo) (nodeChains : list Chain) (roles : list chainRole)
    : list PortClaim * option PortError :=
  match roleClaims (CaddyMode nodeInfo) nodeInfo roles with
  | inl e => ([], Some e)
  | inr cls =>
      let claims := cls ++ standaloneClaims nodeChains (NodeInfo_ID nodeInfo) (caddyPortsOf nodeInfo) 0
                            (NodeInfo_Inbounds nodeInfo) in
      match List.filter (contested claims) claims with
      | [] => (claims, None)
      | l => (claims, Some (PortConflict l))
      end
  end.

(** ** Outbounds *)

(** [addIfMissing] and the loops that keep the first outbound of a tag. *)
Definition addIfMissing (outs : list Outbound) (ob : Outbound) : list Outbound :=
  if bool_decide (extractTag ob ∈ map extractTag outs) then outs else outs ++ [ob].

(** [injectAWGOutboundDirects]. *)
Fixpoint awgOutboundDirects (i : nat) (obs : list AWGOutbound) : list Outbound :=
  match obs with
  | [] => []
  | ob :: obs' =>
      if negb (AWGOutbound_Enabled ob) || (AWGOutbound_Endpoint ob == "") then awgOutboundDirects (S i) obs'
      else
        let tag := if AWGOutbound_Tag ob == "" then "awgo-" +:+ itoa (Z.of_nat i + 1) else AWGOutbound_Tag ob in
        DirectOutbound tag (IfaceName ob) :: awgOutboundDirects (S i) obs'
  end.

(** [needsBlock]: a preset of the roles blocks a geosite category. *)
Definition needsBlock (roles : list chainRole) : bool :=
  existsb (fun r => match BlockGeoSite (ConnectionPreset_Routing (role_Preset r)) with [] => false | _ => true end) roles.

(** The outbounds of the configuration, in order. *)
Definition mergedOutbounds `{HopBuilder} (s : PresetState) (roles : list chainRole)
    (overlay : list Outbound) (nodeInfo : NodeInfo) : list Outbound :=
  foldl addIfMissing []
    (flat_map (fun r => hops_outbounds (buildRoleHops s r)) roles ++ overlay ++
     [DirectOutbound "direct-out" ""] ++ awgOutboundDirects 0 (NodeInfo_AWGOutbounds nodeInfo) ++
     (if needsBlock roles then [BlockOutbound "block"] else [])).

(** The endpoints contributed by the hops, and the number of build errors. *)
Definition mergedEndpoints `{HopBuilder} (s : PresetState) (roles : list chainRole) : list string :=
  flat_map (fun r => hops_endpoints (buildRoleHops s r)) roles.

Definition mergedErrors `{HopBuilder} (s : PresetState) (roles : list chainRole) : nat :=
  foldr (fun r n => (hops_warnings (buildRoleHops s r) + n)%nat) 0%nat roles.

(** ** Port conflicts: the check is exact *)

(** All claims of a node, roles first. *)
Definition allClaims (nodeInfo : NodeInfo) (nodeChains : list Chain) (roles : list chainRole) : list PortClaim :=
  map (roleClaim nodeInfo) roles ++
  standaloneClaims nodeChains (NodeInfo_ID nodeInfo) (caddyPortsOf nodeInfo) 0 (NodeInfo_Inbounds nodeInfo).

Lemma roleClaims_spec caddyMode nodeInfo roles :
  match roleClaims caddyMode nodeInfo roles with
  | inr cls => cls = map (roleClaim nodeInfo) roles /\
      (caddyMode = true -> forall r, r ∈ roles -> caddyOwned (rolePort nodeInfo r) = false)
  | inl _ => caddyMode = true /\ exists r, r ∈ roles /\ caddyOwned (rolePort nodeInfo r) = true
  end.
Proof.
  induction roles as [|r roles IH]; simpl; [by split; [|intros _ r ?%elem_of_nil]|].
  destruct caddyMode, (caddyOwned (rolePort nodeInfo r)) eqn:Eo; simpl.
  1: split; [done|]; exists r; by split; [left|].
  all: destruct (roleClaims _ nodeInfo roles).
  - destruct IH as (Hc & r' & Hr' & Ho). split; [done|]. exists r'. by split; [right|].
  - destruct IH as [-> H]. split; [done|]. intros _ r' [->|Hr']%elem_of_cons; [done|by apply H].
  - by destruct IH.
  - destruct IH as [-> H]. by split.
  - by destruct IH.
  - destruct IH as [-> H]. by split.
Qed.

(** A list of integers has a duplicate iff some element occurs twice. *)
Lemma count_nodup (l : list PortClaim) :
  NoDup (map claim_port l) <->
  forall c, c ∈ l -> (length (List.filter (fun d => (claim_port d =? claim_port c)%Z) l) <= 1)%nat.
Proof.
  induction l as [|x l IH]; [split; [by intros _ c ?%elem_of_nil|intros _; apply NoDup_nil_2]|].
  cbn [map List.filter]. rewrite NoDup_cons, IH. split.
  - intros [Hx Hl] c Hc.
    assert (forall d, d ∈ l -> (claim_port d =? claim_port x) = false) as Hne.
    { intros d Hd. apply Z.eqb_neq. intros E. apply Hx. rewrite <- E. apply list_elem_of_In, in_map.
      by apply list_elem_of_In. }
    apply elem_of_cons in Hc as [->|Hc].
    + rewrite Z.eqb_refl. simpl.
      assert (List.filter (fun d => (claim_port d =? claim_port x)%Z) l = []) as ->; [|done].
      clear -Hne. induction l as [|d l IHl]; simpl; [done|]. rewrite (Hne d) by by left.
      apply IHl. intros d' Hd'. apply Hne. by right.
    + destruct (claim_port x =? claim_port c) eqn:E; [|by apply Hl].
      specialize (Hne c Hc). rewrite Z.eqb_sym in Hne. congruence.
  - intros H. split.
    + intros (d & Ed & Hd)%list_elem_of_In%in_map_iff. specialize (H x ltac:(by left)).
      rewrite Z.eqb_refl in H. simpl in H.
      assert (In d (List.filter (fun d => (claim_port d =? claim_port x)%Z) l)) as Hf
        by (apply filter_In; split; [done|by apply Z.eqb_eq]).
      destruct (List.filter _ l); [done|]. simpl in H. lia.
    + intros c Hc. specialize (H c ltac:(by right)). destruct (claim_port x =? claim_port c); simpl in H; lia.
Qed.

(** Port conflicts.  The check accepts a node exactly when no two claims
    have the same port and, behind caddy, no chain listener sits on a port
    caddy owns; what it reports then is every claim, in order. *)
Theorem port_conflicts_exact nodeInfo nodeChains roles :
  let claims := allClaims nodeInfo nodeChains roles in
  (snd (detectPortConflicts nodeInfo nodeChains roles) = None <->
     NoDup (map claim_port claims) /\
     (CaddyMode nodeInfo = true -> forall r, r ∈ roles -> caddyOwned (rolePort nodeInfo r) = false)) /\
  (snd (detectPortConflicts nodeInfo nodeChains roles) = None ->
     fst (detectPortConflicts nodeInfo nodeChains roles) = claims).
Proof.
  unfold detectPortConflicts. pose proof (roleClaims_spec (CaddyMode nodeInfo) nodeInfo roles) as Hs.
  destruct (roleClaims _ nodeInfo roles) as [err|cls].
  { destruct Hs as (Hc & r & Hr & Ho). split; [|done]. split; [done|].
    intros [_ H]. rewrite (H Hc r Hr) in Ho. done. }
  destruct Hs as [-> Hs]. fold (allClaims nodeInfo nodeChains roles). cbv zeta.
  set (claims := allClaims nodeInfo nodeChains roles).
  assert (List.filter (contested claims) claims = [] <-> NoDup (map claim_port claims)) as Hf.
  { rewrite count_nodup. unfold contested. split.
    - intros H c Hc. destruct (1 <? length (List.filter (fun d => (claim_port d =? claim_port c)%Z) claims))%nat eqn:E.
      + assert (In c []) as Hin; [|done]. rewrite <- H. apply filter_In. by rewrite <- list_elem_of_In.
      + by apply Nat.ltb_ge in E.
    - intros H. destruct (List.filter _ claims) as [|c l] eqn:E; [done|].
      assert (In c (c :: l)) as Hin by by left. rewrite <- E in Hin.
      apply filter_In in Hin as [Hin Hlt]. apply Nat.ltb_lt in Hlt.
      specialize (H c ltac:(by apply list_elem_of_In)). lia. }
  destruct (List.filter (contested claims) claims) as [|c l]; simpl.
  - split; [|done]. split; [|done]. intros _. split; [by apply Hf|done].
  - split; [|done]. split; [done|]. intros [Hnd _]. by apply Hf in Hnd.
Qed.

(** The check claims the node's stored port for an entry, while the listener of
    a non-AWG entry binds [chainEntryPort]: a standalone inbound on that port
    is not detected. *)
Lemma entry_listener_not_claimed :
  let n := (namedNode "e") <| ChainNode_Port := 443 |> in
  let c := (zeroChain <| Chain_Name := "f" |>) <| Chain_Nodes := [n] |> in
  let info := zeroNodeInfo <| NodeInfo_Inbounds :=
    [(zeroNodeInbound <| NodeInbound_Protocol := "vless-reality" |>) <| NodeInbound_Port := 8443 |>] |> in
  exists r, chainRoleIn samplePresets "e" c = Some (Some r) /\ role_IsEntry r = true /\
    chainEntryPort c "e" = 8443 /\ snd (detectPortConflicts info [c] [r]) = None.
Proof.
  intros n c info. destruct (chainRoleIn samplePresets "e" c) as [[r|]|] eqn:E; [|by vm_compute in E|by vm_compute in E].
  exists r. split; [done|]. vm_compute in E. injection E as <-. by vm_compute.
Qed.

(** ** Outbounds: no dangling reference *)

Lemma addIfMissing_tags l : forall acc t,
  t ∈ map extractTag (foldl addIfMissing acc l) <-> t ∈ map extractTag acc \/ t ∈ map extractTag l.
Proof.
  induction l as [|x l IH]; intros acc t; simpl; [rewrite elem_of_nil; tauto|].
  rewrite IH, elem_of_cons. unfold addIfMissing. case_bool_decide as E.
  - split; [tauto|]. intros [?|[->|?]]; tauto.
  - rewrite map_app, elem_of_app. simpl. rewrite list_elem_of_singleton. tauto.
Qed.

Lemma addIfMissing_nodup l : forall acc,
  NoDup (map extractTag acc) -> NoDup (map extractTag (foldl addIfMissing acc l)).
Proof.
  induction l as [|x l IH]; intros acc Hnd; simpl; [done|]. apply IH. unfold addIfMissing.
  case_bool_decide; [done|]. rewrite map_app. apply NoDup_app.
  split_and!; [done| |apply NoDup_singleton]. by intros t Ht ->%list_elem_of_singleton.
Qed.

Section dangling.
Context `{HopBuilder} (s : PresetState) (id : string) (chains : list Chain) (roles : list chainRole).
Context (nodeInfo : NodeInfo) (usersByChain : gmap string (list User)).
Hypothesis roles_ok : resolveChainRoles s id chains = Some roles.
Hypothesis chains_ok : Forall deployable chains.
Hypothesis names_ok : forall r, r ∈ roles -> ResolveServerName s (role_Preset r) <> "".
Hypothesis hops_ok : forall r n, r ∈ roles -> n ∈ hopTargets r -> buildHop r n = true.
Hypothesis no_errors : mergedErrors s roles = 0%nat.

(** The tag is an outbound or an endpoint of the configuration. *)
Definition declared (overlay : list Outbound) (t : string) : Prop :=
  t ∈ map extractTag (mergedOutbounds s roles overlay nodeInfo) \/ t ∈ mergedEndpoints s roles.

Lemma role_no_warnings r : r ∈ roles -> hops_warnings (buildRoleHops s r) = 0%nat.
Proof using no_errors.
  revert no_errors. unfold mergedErrors. clear. induction roles as [|r0 rs IH]; intros Hn; [by intros ?%elem_of_nil|].
  simpl in Hn. intros [->|Hr]%elem_of_cons; [lia|]. apply IH; [lia|done].
Qed.

Lemma forward_declared overlay r : r ∈ roles -> role_HasOutbound r = true -> declared overlay (chainInterNodeOutboundTag s r).
Proof using roles_ok chains_ok names_ok hops_ok no_errors.
  intros Hr Ho. destruct (resolveChainRoles_elem _ _ _ _ _ roles_ok Hr) as (c & Hc & Hcr).
  destruct (proj1 (Forall_forall _ _) chains_ok c Hc) as [Ht Hs].
  pose proof (forward_target_declared s id c r Hcr Ht Hs Ho (role_no_warnings r Hr) (names_ok r Hr)
    (fun n => hops_ok r n Hr)) as Hf.
  apply elem_of_app in Hf as [Hf|Hf]; [left|right].
  - unfold mergedOutbounds. apply addIfMissing_tags. right. rewrite map_app. apply elem_of_app. left.
    apply list_elem_of_In, in_map_iff. apply list_elem_of_In, in_map_iff in Hf as (o & <- & Ho').
    exists o. split; [done|]. apply in_flat_map. exists r. by rewrite <- list_elem_of_In.
  - unfold mergedEndpoints. apply list_elem_of_In, in_flat_map. exists r. by rewrite <- !list_elem_of_In.
Qed.

Lemma direct_out_declared overlay : declared overlay "direct-out".
Proof.
  left. apply addIfMissing_tags. right. rewrite !map_app, !elem_of_app. right. right. left. by left.
Qed.

Lemma overlay_declared overlay t : t ∈ map extractTag overlay -> declared overlay t.
Proof. intros Ht. left. apply addIfMissing_tags. right. rewrite !map_app, !elem_of_app. tauto. Qed.

Lemma pinRule_declared overlay r tag next u e :
  r ∈ roles -> e ∈ pinRule s r tag next u -> declared overlay (Entry_Outbound e).
Proof using roles_ok chains_ok names_ok hops_ok no_errors.
  intros Hr. unfold pinRule. cbv zeta. destruct (role_HasOutbound r) eqn:Ho; simpl;
    repeat case_step; intros He; try (by apply elem_of_nil in He); apply list_elem_of_singleton in He as ->; simpl;
    first [apply direct_out_declared|by apply forward_declared].
Qed.

Lemma genericRule_declared overlay r e :
  r ∈ roles -> e ∈ genericRule s r -> declared overlay (Entry_Outbound e).
Proof using roles_ok chains_ok names_ok hops_ok no_errors.
  intros Hr. unfold genericRule. cbv zeta.
  destruct (role_IsEntry r && _); [by intros ?%elem_of_nil|].
  destruct (_ ++ _); [by intros ?%elem_of_nil|]. intros ->%list_elem_of_singleton. simpl.
  destruct (role_HasOutbound r) eqn:Ho; [by apply forward_declared|apply direct_out_declared].
Qed.

Lemma overlay_catchall_declared autoRedirect tun outs rules e :
  nodeOverlay s autoRedirect roles nodeInfo chains = Some (tun, outs, rules) ->
  e ∈ rules -> Entry_Outbound e = "" \/ declared outs (Entry_Outbound e).
Proof using roles_ok chains_ok names_ok hops_ok no_errors.
  unfold nodeOverlay. destruct (awgTUNOverlayNeeded roles nodeInfo); [|done]. cbv zeta.
  set (p := mkAWGTUNOverlayParams _ _ _ _ _ _). unfold BuildAWGTUNOverlay. cbv zeta.
  destruct (if _ && _ then _ else _) as [balancer routeOut] eqn:Eb. intros [= _ <- <-].
  intros [->|[->|[->|?%elem_of_nil]%elem_of_cons]%elem_of_cons]%elem_of_cons; [by left|by left| |done].
  right. cbn [Entry_Outbound ruleByInbound update]. simpl Entry_Outbound.
  destruct (decide (tp_ForwardOutbound p = "")) as [Ef|Ef];
    [rewrite (bool_decide_eq_true_2 (tp_ForwardOutbound p = "")) by done
    |rewrite (bool_decide_eq_false_2 (tp_ForwardOutbound p = "")) by done]; cbn [negb].
  - apply overlay_declared. simpl. rewrite elem_of_cons, map_app, elem_of_app.
    destruct (_ && _); [injection Eb as <- <-; right; right; by left|].
    destruct (map exitOutboundTag (tp_ExitInterfaces p)) as [|t [|]] eqn:Et; injection Eb as <- <-; try by left.
    right. left. rewrite map_map. change (t ∈ map exitOutboundTag (tp_ExitInterfaces p)). rewrite Et. by left.
  - clear Eb. unfold p in *. simpl in *. revert Ef.
    assert (forall l, (forall r, r ∈ l -> r ∈ roles) -> awgForwardOutboundForRoles s l <> "" ->
      declared (DirectOutbound "direct" "" :: map (fun i => DirectOutbound (exitOutboundTag i) i)
        (exitInterfacesForNode (awgOverlayNode roles)) ++ balancer) (awgForwardOutboundForRoles s l)) as Hl.
    { induction l as [|r l IH]; intros Hin; simpl; [done|].
      destruct (negb (role_IsEntry r) || _); [apply IH; intros r' ?; apply Hin; by right|].
      destruct (ChainNode_ExitTargets (role_Node r)); [|done].
      destruct (role_HasOutbound r) eqn:Ho; simpl; [|done].
      intros _. apply forward_declared; [apply Hin; by left|done]. }
    by apply Hl.
Qed.
End dangling.

Lemma standaloneRules_out ibs : forall i e,
  e ∈ standaloneRules i ibs ->
  Entry_Outbound e = "direct-out" \/ exists ib, ib ∈ ibs /\ Entry_Outbound e = NodeInbound_OutboundTag ib.
Proof.
  induction ibs as [|ib ibs IH]; intros i e; simpl; [by intros ?%elem_of_nil|].
  intros [->|He]%elem_of_cons.
  - simpl. case_bool_decide; [by left|]. right. exists ib. by split; [left|].
  - destruct (IH _ _ He) as [?|(ib' & ? & ?)]; [by left|right; exists ib'; by split; [right|]].
Qed.

(** The overlay of a node, empty when it needs none. *)
Definition overlayOf (s : PresetState) (autoRedirect : option bool) (roles : list chainRole)
    (nodeInfo : NodeInfo) (chains : list Chain) : list Outbound * list RouteRuleEntry :=
  match nodeOverlay s autoRedirect roles nodeInfo chains with
  | Some (_, outs, rules) => (outs, rules)
  | None => ([], [])
  end.



(** Without AB_ROUTE_DNS a node with the overlay gets a route section that has
    only the overlay's rules and the final outbound [direct]: the traffic of a
    chain the node forwards for leaves at this node. *)
Lemma overlay_drops_cascade :
  let info := zeroNodeInfo <| NodeInfo_Inbounds := [zeroNodeInbound <| NodeInbound_Protocol := "awg" |>] |> in
  exists r, chainRoleIn samplePresets "m1" groupChain = Some (Some r) /\
    role_IsTransit r = true /\ role_HasOutbound r = true /\
    exists route,
      nodeRoute samplePresets false [r] info [groupChain] ∅ [] []
        (overlayOf samplePresets None [r] info [groupChain]).2 = Some (Some route) /\
      Routing_Final route = "direct" /\
      (forall e, e ∈ Routing_Rules route -> transportInTag groupChain ∉ Entry_Inbound e).
Proof.
  intros info. destruct (chainRoleIn samplePresets "m1" groupChain) as [[r|]|] eqn:E; [|by vm_compute in E|by vm_compute in E].
  exists r. split; [done|]. vm_compute in E. injection E as <-. split; [done|]. split; [done|].
  eexists. split; [by vm_compute|]. split; [done|]. simpl.
  intros e [->|[->|[->|?%elem_of_nil]%elem_of_cons]%elem_of_cons]%elem_of_cons; [| | |done]; vm_compute.
  - by intros ?%elem_of_nil.
  - by intros ?%elem_of_nil.
  - by intros ?%list_elem_of_singleton.
Qed.
