(* ===== verification/Push.v ===== *)
(** * Push: the deploy of a configuration on a node

    internal/chain/applier_push.go ([pushConfigLocked], [createBackup],
    [performRollback], [probeServiceUp]).  The remote host is the state
    [Remote]; what each remote command does to it, and whether the program
    learns of it, is the oracle [Faults], one value per deploy.  The checks of
    sing-box are the parameters of [NodeEnv].  The two write paths (direct
    upload, or upload to a temporary file and a copy with sudo) have the same
    outcomes.  [withHostLock] serialises the deploys of a node: one deploy is
    one atomic step. *)

From S2P Require Import Prelude.

(** ** The remote host *)

Record Remote := mkRemote {
  rm_config : option string;   (* /etc/sing-box/config.json *)
  rm_backup : option string;   (* the backup file of this deploy *)
  rm_running : option string }. (* the configuration of the active service *)
#[export] Instance eta_Remote : Eta Remote := fun r => mkRemote (rm_config r) (rm_backup r) (rm_running r).

(** [json.Unmarshal] accepts, [sing-box check] accepts, the service stays
    active. *)
Class NodeEnv := {
  jsonValid : string -> bool;
  checkOK : string -> bool;
  staysUp : string -> bool }.

(** The backup command: not run; the copy made but its path not received;
    received.  Under [set -e] the path is printed after the copy. *)
Inductive BackupOutcome := BackupNotRun | BackupNoPath | BackupDone.

(** A restart: not run; run, the reply lost; run, and a failing start is
    reported or not ([systemctl restart] of a simple unit does not). *)
Inductive RestartOutcome := RestartNotRun | RestartLost | RestartRun (reportsFailure : bool).

(** The rollback command: not run; run, the reply lost; run.  [restored] is
    whether its copy of the backup works. *)
Inductive RollbackOutcome := RollbackNotRun | RollbackLost (restored : bool) | RollbackRun (restored : bool).

Record Faults := mkFaults {
  f_backup : BackupOutcome;
  f_ruleSets : bool;               (* pushing the rule sets fails *)
  f_write : option (option string); (* the write fails, and what it leaves *)
  f_check : bool;                  (* the check command cannot be run *)
  f_restart : RestartOutcome;
  f_probe : list bool;             (* whether the reply of each probe arrives *)
  f_rollback : RollbackOutcome }.

(** ** The commands *)

(** Starting the service with the configuration on disk. *)
Definition restartService `{NodeEnv} (r : Remote) : Remote :=
  r <| rm_running := match rm_config r with
                     | Some c => if staysUp c then Some c else None
                     | None => None
                     end |>.

(** [createBackup]: the returned path is nonempty in the last case only. *)
Definition createBackup (f : Faults) (r : Remote) : bool * Remote :=
  match f_backup f with
  | BackupNotRun => (false, r)
  | BackupNoPath => (false, r <| rm_backup := rm_config r |>)
  | BackupDone => (true, r <| rm_backup := rm_config r |>)
  end.

(** [performRollback]: [test -f bak && cp bak file; systemctl restart; sleep 2;
    systemctl is-active || true]; its exit status is always 0, so only a lost
    connection is an error. *)
Definition rollbackEffect `{NodeEnv} (restored : bool) (r : Remote) : Remote :=
  restartService
    (match rm_backup r with
     | Some b => if restored then r <| rm_config := Some b |> else r
     | None => r
     end).

Definition performRollback `{NodeEnv} (f : Faults) (r : Remote) : bool * Remote :=
  match f_rollback f with
  | RollbackNotRun => (false, r)
  | RollbackLost restored => (false, rollbackEffect restored r)
  | RollbackRun restored => (true, rollbackEffect restored r)
  end.

(** [probeServiceUp]: three attempts, each may get no reply. *)
Definition probeServiceUp (f : Faults) (r : Remote) : bool :=
  match rm_running r with
  | None => false
  | Some _ => existsb (fun arrives => arrives) (take 3 (f_probe f))
  end.

(** The restart step: whether the program sees an error. *)
Definition restartStep `{NodeEnv} (f : Faults) (r : Remote) : bool * Remote :=
  match f_restart f with
  | RestartNotRun => (true, r)
  | RestartLost => (true, restartService r)
  | RestartRun reports =>
      let r' := restartService r in
      (reports && match rm_running r' with None => true | Some _ => false end, r')
  end.

Inductive PushResult :=
| Success
| InvalidJSON
| RuleSetsFailed
| WriteFailed
| DeployFailed
| RollbackFailed.

(** The failure exit of the check, restart and probe steps. *)
Definition failDeploy `{NodeEnv} (f : Faults) (hasPath : bool) (r : Remote) : PushResult * Remote :=
  if hasPath then
    let '(ok, r') := performRollback f r in
    if ok then (DeployFailed, r') else (RollbackFailed, r')
  else (DeployFailed, r).

(** [pushConfigLocked]. *)
Definition pushConfigLocked `{NodeEnv} (f : Faults) (cfg : string) (r : Remote) : PushResult * Remote :=
  if negb (jsonValid cfg) then (InvalidJSON, r)
  else
    let '(hasPath, r) := createBackup f r in
    if f_ruleSets f then (RuleSetsFailed, r)
    else
      match f_write f with
      | Some leftover =>
          (WriteFailed, match leftover with Some s => r <| rm_config := Some s |> | None => r end)
      | None =>
          let r := r <| rm_config := Some cfg |> in
          if f_check f || negb (checkOK cfg) then failDeploy f hasPath r
          else
            let '(err, r) := restartStep f r in
            if err then failDeploy f hasPath r
            else if probeServiceUp f r then (Success, r)
            else failDeploy f hasPath r
      end.

(** ** Properties *)

Section push.
Context `{NodeEnv}.

(** What a deploy does to a node that has a configuration. *)
Lemma push_cases f cfg old r res r' :
  rm_config r = Some old -> pushConfigLocked f cfg r = (res, r') ->
  (res = InvalidJSON /\ jsonValid cfg = false /\ r' = r) \/
  (res = RuleSetsFailed /\ rm_config r' = Some old /\ rm_running r' = rm_running r) \/
  (res = WriteFailed /\ rm_running r' = rm_running r /\
     exists leftover, f_write f = Some leftover /\ rm_config r' = Some (default old leftover)) \/
  (res = Success /\ rm_config r' = Some cfg /\ rm_running r' = Some cfg /\ checkOK cfg = true) \/
  (exists r1, rm_config r1 = Some cfg /\ (f_backup f = BackupDone -> rm_backup r1 = Some old) /\
     (rm_running r1 = rm_running r \/ rm_running r1 = rm_running (restartService r1)) /\
     failDeploy f (match f_backup f with BackupDone => true | _ => false end) r1 = (res, r')).
Proof.
  intros Hold. unfold pushConfigLocked. destruct (jsonValid cfg) eqn:Ej; simpl; [|intros [= <- <-]; tauto].
  set (hasPath := match f_backup f with BackupDone => true | _ => false end).
  assert (exists rb, createBackup f r = (hasPath, rb) /\ rm_config rb = Some old /\ rm_running rb = rm_running r /\
            (f_backup f = BackupDone -> rm_backup rb = Some old)) as (rb & -> & Hcb & Hrb & Hbb).
  { unfold createBackup, hasPath. destruct (f_backup f); eexists; split_and!; (reflexivity || done). }
  destruct (f_ruleSets f); [intros [= <- <-]; right; left; by split_and!|].
  destruct (f_write f) as [lo|].
  { intros [= <- <-]. right; right; left. split; [done|]. split; [by destruct lo|]. exists lo. split; [done|]. by destruct lo. }
  set (r1 := rb <| rm_config := Some cfg |>).
  destruct (f_check f || negb (checkOK cfg)) eqn:Ec; [intros Hf; do 4 right; exists r1; split_and!; by auto|].
  apply orb_false_iff in Ec as [_ Ec%negb_false_iff].
  destruct (restartStep f r1) as [err r2] eqn:Er.
  assert (rm_config r2 = Some cfg /\ (f_backup f = BackupDone -> rm_backup r2 = Some old) /\
          (rm_running r2 = rm_running r \/ rm_running r2 = rm_running (restartService r2))) as (Hc2 & Hb2 & Hr2).
  { unfold restartStep in Er. destruct (f_restart f); injection Er as _ <-; split_and!; by auto. }
  destruct err; [intros Hf; do 4 right; by exists r2|].
  destruct (probeServiceUp f r2) eqn:Ep; [|intros Hf; do 4 right; by exists r2].
  intros [= <- <-]. do 3 right. left. split_and!; [done|done| |done].
  unfold restartStep in Er. destruct (f_restart f) as [| |rep]; [done|done|]. injection Er as _ <-.
  unfold probeServiceUp in Ep. simpl in *. by destruct (staysUp cfg).
Qed.
End push.

(** What the failed deploy of [cfg] over [old] leaves, by how its backup and its
    rollback went. *)
Definition leftAfterFailure `{NodeEnv} (f : Faults) (old cfg : string) (rollbackSeen : bool) (r r' : Remote) : Prop :=
  let serves c := rm_config r' = Some c /\ rm_running r' = if staysUp c then Some c else None in
  match f_backup f, f_rollback f with
  | BackupDone, RollbackRun restored => rollbackSeen = true /\ serves (if restored then old else cfg)
  | BackupDone, RollbackLost restored => rollbackSeen = false /\ serves (if restored then old else cfg)
  | BackupDone, RollbackNotRun => rollbackSeen = false /\ rm_config r' = Some cfg /\
      (rm_running r' = rm_running r \/ rm_running r' = if staysUp cfg then Some cfg else None)
  | _, _ => rollbackSeen = true /\ rm_config r' = Some cfg /\
      (rm_running r' = rm_running r \/ rm_running r' = if staysUp cfg then Some cfg else None)
  end.

(** C3: every outcome of a deploy on a node that has a configuration.  Success:
    the new one, checked by sing-box, is on disk and running.  Invalid JSON:
    nothing happened.  A failing push of the rule sets: file and service are as
    they were.  A failing write: the service runs on, and the file is the old one
    or what the write left, for it is not rolled back.  A failed deploy: when the
    backup was made and the copy of the rollback works, the old file is back and
    the service was restarted with it; when that copy fails, which the report
    does not tell, or no backup was made, the new file stays.  A failed rollback
    is reported only when its command was not run or its reply was lost. *)
Theorem push_success_or_rollback `{NodeEnv} f cfg old r res r' :
  rm_config r = Some old -> pushConfigLocked f cfg r = (res, r') ->
  match res with
  | Success => rm_config r' = Some cfg /\ rm_running r' = Some cfg /\ checkOK cfg = true
  | InvalidJSON => jsonValid cfg = false /\ r' = r
  | RuleSetsFailed => rm_config r' = Some old /\ rm_running r' = rm_running r
  | WriteFailed => rm_running r' = rm_running r /\
      exists leftover, f_write f = Some leftover /\ rm_config r' = Some (default old leftover)
  | DeployFailed => leftAfterFailure f old cfg true r r'
  | RollbackFailed => leftAfterFailure f old cfg false r r'
  end.
Proof.
  intros Hold Hp.
  destruct (push_cases f cfg old r res r' Hold Hp) as
    [(-> & ? & ->)|[(-> & ? & ?)|[(-> & ? & ?)|[(-> & ? & ? & ?)|(r1 & Hc & Hb & Hr & Hf)]]]]; [done..|].
  assert (rm_running (restartService r1) = if staysUp cfg then Some cfg else None) as Hs
    by (unfold restartService; cbn; by rewrite Hc).
  rewrite Hs in Hr. unfold failDeploy, performRollback, leftAfterFailure, rollbackEffect in *.
  destruct (f_backup f); [injection Hf as <- <-; done..|]. rewrite (Hb eq_refl) in Hf.
  destruct (f_rollback f) as [|[]|[]]; injection Hf as <- <-; split_and!; try done; by rewrite <- Hs.
Qed.

(** A node whose service accepts every nonempty configuration but "bad". *)
Definition sampleEnv : NodeEnv := Build_NodeEnv (fun _ => true) (fun c => negb (bool_decide (c = "bad")))
  (fun c => negb (bool_decide (c = "crash"))).

Definition noFaults : Faults := mkFaults BackupDone false None false (RestartRun false) [true; true; true] (RollbackRun true).

Lemma push_success_or_rollback_witness :
  let r := mkRemote (Some "old") None (Some "old") in
  exists r', @pushConfigLocked sampleEnv noFaults "crash" r = (DeployFailed, r') /\
    rm_config r' = Some "old" /\ rm_running r' = Some "old".
Proof.
  intros r. destruct (@pushConfigLocked sampleEnv noFaults "crash" r) as [res r'] eqn:E.
  pose proof (@push_success_or_rollback sampleEnv noFaults "crash" "old" r res r' eq_refl E) as Hp.
  assert (res = DeployFailed) as -> by (vm_compute in E; by injection E).
  exists r'. by destruct Hp as [_ Hp].
Defined.

(** On a first deploy [createBackup] still returns a path: a configuration that
    fails the check stays on disk, the service is restarted with it, and the
    report says it was rolled back. *)
Lemma first_deploy_not_rolled_back :
  @pushConfigLocked sampleEnv noFaults "bad" (mkRemote None None None) =
    (DeployFailed, mkRemote (Some "bad") None (Some "bad")).
Proof. by vm_compute. Qed.

(** The rollback command ends in [|| true]: a copy that fails is not seen. *)
Lemma failed_restore_not_reported :
  @pushConfigLocked sampleEnv (mkFaults BackupDone false None false (RestartRun false) [] (RollbackRun false))
      "crash" (mkRemote (Some "old") None (Some "old")) =
    (DeployFailed, mkRemote (Some "crash") (Some "old") None).
Proof. by vm_compute. Qed.

(** A write that fails halfway is not rolled back. *)
Lemma partial_write_left :
  @pushConfigLocked sampleEnv (mkFaults BackupDone false (Some (Some "half")) false (RestartRun false) [] (RollbackRun true))
      "new" (mkRemote (Some "old") None (Some "old")) =
    (WriteFailed, mkRemote (Some "half") (Some "old") (Some "old")).
Proof. by vm_compute. Qed.
