(* ===== verification/Keygen.v ===== *)
(** * Keygen: the keys of a chain

    internal/chain/applier_build.go, the part of [ApplyChain] before the chain
    is saved: the defaults, the entry credentials, and the pass over the nodes
    that gives every node its port, transit keys, inner tunnel addresses and
    exit links ([ensureAWGExitLinks]).  The pass mutates nodes in place, and a
    node's step also writes the exit nodes it targets; the model keeps the flat
    list of nodes as the store and writes by index.  The values of crypto/rand
    are the sequences [KeyGens]; a counter numbers the draws. *)

From S2P Require Import Prelude GoStrings Model ChainModel Alloc Roles.

(** [hopParams], the part that is stored; the keys of one draw. *)
Record HopKeys := mkHopKeys {
  hk_PrivateKey : string;
  hk_ShortID : string;
  hk_UUID : string }.

(** Draw [d] of each generator; [None] is its error. *)
Record KeyGens := mkKeyGens {
  kg_pair : nat -> option (string * string);
  kg_hop : nat -> option HopKeys;
  kg_tuic : nat -> option (string * string) }.

Inductive KeygenErr :=
| HopParamsFailed (id : string)
| KeypairFailed (id : string)
| ExitTargetMissing (target : string)
| ExitTargetRole (target role : string).

Record KState := mkKState {
  ks_nodes : list ChainNode;
  ks_draw : nat;
  ks_err : option KeygenErr }.
#[export] Instance eta_KState : Eta KState := fun s => mkKState (ks_nodes s) (ks_draw s) (ks_err s).

(** The next statement, unless the callback has returned with an error. *)
Definition andThen (f g : KState -> KState) (s : KState) : KState :=
  let s1 := f s in
  match ks_err s1 with Some _ => s1 | None => g s1 end.

(** A statement that rewrites the node behind a pointer. *)
Definition onNode (i : nat) (f : ChainNode -> nat -> ChainNode * nat * option KeygenErr) (s : KState) : KState :=
  match ks_nodes s !! i with
  | None => s
  | Some n => let '(n', d, e) := f n (ks_draw s) in mkKState (<[i := n']> (ks_nodes s)) d e
  end.

(** [transitAddresses], [exitAddresses], [exitLinkByTarget]. *)
Definition transitAddresses (ns : list ChainNode) : list string :=
  List.filter (fun a => a != "") (map ChainNode_TransitAWGAddress ns).

Definition exitAddresses (ns : list ChainNode) : list string :=
  List.filter (fun a => a != "") (flat_map (fun n => map AWGExitLink_Address (ChainNode_ExitAWGLinks n)) ns).

Definition linkTo (targetID : string) (ls : list AWGExitLink) : option AWGExitLink :=
  List.find (fun l => AWGExitLink_TargetID l == targetID) ls.

Definition exitLinkByTarget (n : ChainNode) (targetID : string) : option AWGExitLink :=
  linkTo targetID (ChainNode_ExitAWGLinks n).

(** Writing through the pointer [exitLinkByTarget] returns. *)
Fixpoint updLink (targetID : string) (f : AWGExitLink -> AWGExitLink) (ls : list AWGExitLink) : list AWGExitLink :=
  match ls with
  | [] => []
  | l :: ls' => if AWGExitLink_TargetID l == targetID then f l :: ls' else l :: updLink targetID f ls'
  end.

Section pass.
Context (G : KeyGens).

(** ** The transit part of the callback *)

Definition portStep (n : ChainNode) (d : nat) : ChainNode * nat * option KeygenErr :=
  (if ChainNode_Port n == 0 then n <| ChainNode_Port := defaultTransportPort |> else n, d, None).

Definition hopStep (n : ChainNode) (d : nat) : ChainNode * nat * option KeygenErr :=
  if (ChainNode_TransitPrivKey n == "") || (ChainNode_TransitShortID n == "") || (ChainNode_TransitUUID n == "") then
    match kg_hop G d with
    | None => (n, S d, Some (HopParamsFailed (ChainNode_ID n)))
    | Some p =>
        let n := if ChainNode_TransitPrivKey n == "" then n <| ChainNode_TransitPrivKey := hk_PrivateKey p |> else n in
        let n := if ChainNode_TransitShortID n == "" then n <| ChainNode_TransitShortID := hk_ShortID p |> else n in
        let n := if ChainNode_TransitUUID n == "" then n <| ChainNode_TransitUUID := hk_UUID p |> else n in
        (n, S d, None)
    end
  else (n, d, None).

(** [priv, pub, err := GenerateWireGuardKeypair()], stored by [set]. *)
Definition drawPair (set : string -> string -> ChainNode) (n : ChainNode) (d : nat)
    : ChainNode * nat * option KeygenErr :=
  match kg_pair G d with
  | None => (n, S d, Some (KeypairFailed (ChainNode_ID n)))
  | Some (priv, pub) => (set priv pub, S d, None)
  end.

Definition awgServerStep (i : nat) (n : ChainNode) (d : nat) : ChainNode * nat * option KeygenErr :=
  if (0 <? i)%nat && (ChainNode_TransitAWGServerPriv n == "") then
    drawPair (fun priv pub => n <| ChainNode_TransitAWGServerPriv := priv |> <| ChainNode_TransitAWGServerPub := pub |>) n d
  else (n, d, None).

Definition awgClientStep (hasNext : bool) (n : ChainNode) (d : nat) : ChainNode * nat * option KeygenErr :=
  if hasNext && (ChainNode_TransitAWGClientPriv n == "") then
    drawPair (fun priv pub => n <| ChainNode_TransitAWGClientPriv := priv |> <| ChainNode_TransitAWGClientPub := pub |>) n d
  else (n, d, None).

Definition awgAddressStep (hasNext : bool) (taken : list string) (n : ChainNode) (d : nat)
    : ChainNode * nat * option KeygenErr :=
  (if hasNext && (ChainNode_TransitAWGAddress n == "")
   then n <| ChainNode_TransitAWGAddress := allocateAWGTransitIP taken |> else n, d, None).

Definition awgClientPortStep (hasNext : bool) (i : nat) (n : ChainNode) (d : nat)
    : ChainNode * nat * option KeygenErr :=
  (if hasNext && (ChainNode_TransitAWGClientPort n == 0)
   then n <| ChainNode_TransitAWGClientPort := 51820 + Z.of_nat i + 1 |> else n, d, None).

(** [if chain.Transport == model.TransportAWG]. *)
Definition awgTransport (total i : nat) : KState -> KState :=
  let hasNext := (S i <? total)%nat in
  andThen (onNode i (awgServerStep i))
  (andThen (onNode i (awgClientStep hasNext))
  (andThen (fun s => onNode i (awgAddressStep hasNext (transitAddresses (ks_nodes s))) s)
           (onNode i (awgClientPortStep hasNext i)))).

(** ** [ensureAWGExitLinks] *)

Definition exitKeysStep (n : ChainNode) (d : nat) : ChainNode * nat * option KeygenErr :=
  if (ChainNode_ExitAWGServerPriv n == "") || (ChainNode_ExitAWGServerPub n == "") then
    drawPair (fun priv pub => n <| ChainNode_ExitAWGServerPriv := priv |> <| ChainNode_ExitAWGServerPub := pub |>) n d
  else (n, d, None).

Definition exitPortStep (idx : nat) (n : ChainNode) (d : nat) : ChainNode * nat * option KeygenErr :=
  (if ChainNode_ExitAWGListenPort n == 0
   then n <| ChainNode_ExitAWGListenPort := 52000 + Z.of_nat idx |> else n, d, None).

Definition ensureLink (tid : string) (n : ChainNode) (d : nat) : ChainNode * nat * option KeygenErr :=
  (match exitLinkByTarget n tid with
   | Some _ => n
   | None => n <| ChainNode_ExitAWGLinks :=
               ChainNode_ExitAWGLinks n ++ [zeroAWGExitLink <| AWGExitLink_TargetID := tid |>] |>
   end, d, None).

Definition onLink (tid : string) (f : AWGExitLink -> AWGExitLink) (n : ChainNode) : ChainNode :=
  n <| ChainNode_ExitAWGLinks := updLink tid f (ChainNode_ExitAWGLinks n) |>.

Definition linkIface (idx : nat) (l : AWGExitLink) : AWGExitLink :=
  if AWGExitLink_InterfaceName l == ""
  then l <| AWGExitLink_InterfaceName := "awg-exit-n" +:+ itoa (Z.of_nat idx + 1) |> else l.

Definition linkAddress (taken : list string) (l : AWGExitLink) : AWGExitLink :=
  if AWGExitLink_Address l == "" then l <| AWGExitLink_Address := allocateAWGExitIP taken |> else l.

Definition linkPort (idx : nat) (l : AWGExitLink) : AWGExitLink :=
  if AWGExitLink_ClientPort l == 0 then l <| AWGExitLink_ClientPort := 51900 + Z.of_nat idx + 1 |> else l.

Definition linkKeysStep (tid : string) (n : ChainNode) (d : nat) : ChainNode * nat * option KeygenErr :=
  match exitLinkByTarget n tid with
  | None => (n, d, None)
  | Some l =>
      if (AWGExitLink_ClientPriv l == "") || (AWGExitLink_ClientPub l == "") then
        drawPair (fun priv pub =>
          onLink tid (fun l => l <| AWGExitLink_ClientPriv := priv |> <| AWGExitLink_ClientPub := pub |>) n) n d
      else (n, d, None)
  end.

(** [taken] after the address of the link is allocated. *)
Definition takenAfter (tid : string) (taken : list string) (n : ChainNode) : list string :=
  match exitLinkByTarget n tid with
  | Some l => if AWGExitLink_Address l == "" then taken ++ [allocateAWGExitIP taken] else taken
  | None => taken
  end.

(** The statements of one iteration, before and from the address on. *)
Definition exitKeys (i j idx : nat) (tid : string) : KState -> KState :=
  andThen (onNode j exitKeysStep)
  (andThen (onNode j (exitPortStep idx))
  (andThen (onNode i (ensureLink tid))
  (andThen (onNode i (fun n d => (onLink tid (linkIface idx) n, d, None)))
           (onNode i (linkKeysStep tid))))).

Definition exitAddress (i idx : nat) (tid : string) (taken : list string) : KState -> KState :=
  andThen (onNode i (fun n d => (onLink tid (linkAddress taken) n, d, None)))
          (onNode i (fun n d => (onLink tid (linkPort idx) n, d, None))).

Fixpoint exitLoop (i idx : nat) (tids : list string) (taken : list string) (s : KState) : KState :=
  match tids with
  | [] => s
  | tid :: tids' =>
      match list_find (fun n => ChainNode_ID n = tid) (ks_nodes s) with
      | None => s <| ks_err := Some (ExitTargetMissing tid) |>
      | Some (j, target) =>
          if ChainNode_Role target != NodeRoleExit
          then s <| ks_err := Some (ExitTargetRole tid (ChainNode_Role target)) |>
          else
            let s1 := exitKeys i j idx tid s in
            match ks_err s1, ks_nodes s1 !! i with
            | None, Some n => exitLoop i (S idx) tids' (takenAfter tid taken n) (exitAddress i idx tid taken s1)
            | _, _ => s1
            end
      end
  end.

Definition ensureAWGExitLinks (i : nat) (s : KState) : KState :=
  match ks_nodes s !! i with
  | None => s
  | Some n =>
      match ChainNode_ExitTargets n with
      | [] => s
      | tids => exitLoop i 0 tids (exitAddresses (ks_nodes s)) s
      end
  end.

(** ** The pass *)

Definition nodeStep (awg : bool) (total i : nat) : KState -> KState :=
  andThen (onNode i portStep)
  (andThen (onNode i hopStep)
  (andThen (if awg then awgTransport total i else fun s => s)
           (ensureAWGExitLinks i))).

(** The callback of [EachNode] over the flat indices from [i]. *)
Fixpoint nodeSteps (awg : bool) (total i k : nat) (s : KState) : KState :=
  match k with
  | O => s
  | S k' => andThen (nodeStep awg total i) (nodeSteps awg total (S i) k') s
  end.

Definition keygenNodes (awg : bool) (ns : list ChainNode) (d : nat) : KState :=
  nodeSteps awg (length ns) 0 (length ns) (mkKState ns d None).

Definition keygen (c : Chain) (d : nat) : Chain * nat * option KeygenErr :=
  let s := keygenNodes (Chain_Transport c == TransportAWG) (AllNodes c) d in
  (SetAllNodes c (ks_nodes s), ks_draw s, ks_err s).
End pass.

(** ** Before the pass *)

(** The defaults of [ApplyChain]. *)
Definition applyDefaults (c : Chain) : Chain :=
  let c := if Chain_Transport c == "" then c <| Chain_Transport := TransportXHTTP |> else c in
  if Chain_UserProtocol c == "" then c <| Chain_UserProtocol := UserProtocolAWG |> else c.

(** The entry credentials: without a client key a sample client pair is drawn
    first and returned to the caller.  An error of a pair is ignored, one of
    the TUIC generator ends [ApplyChain]. *)
Definition entryCreds (G : KeyGens) (awgClientPubKey : string) (c : Chain) (d : nat) : option Chain * nat :=
  if Chain_UserProtocol c == UserProtocolAWG then
    let d := if awgClientPubKey == "" then S d else d in
    if Chain_AWGEntryServerPriv c == "" then
      match kg_pair G d with
      | Some (priv, pub) =>
          (Some (c <| Chain_AWGEntryServerPriv := priv |> <| Chain_AWGEntryServerPub := pub |>), S d)
      | None => (Some c, S d)
      end
    else (Some c, d)
  else if Chain_UserProtocol c == UserProtocolTUIC then
    if (Chain_TUICEntryUserUUID c == "") || (Chain_TUICEntryUserPassword c == "") then
      match kg_tuic G d with
      | None => (None, S d)
      | Some (uuid, password) =>
          let c := if Chain_TUICEntryUserUUID c == "" then c <| Chain_TUICEntryUserUUID := uuid |> else c in
          let c := if Chain_TUICEntryUserPassword c == "" then c <| Chain_TUICEntryUserPassword := password |> else c in
          (Some c, S d)
      end
    else (Some c, d)
  else (Some c, d).

(** The chain [ApplyChain] hands to [SaveChain]; [None] is an error. *)
Definition prepareKeys (G : KeyGens) (awgClientPubKey : string) (c : Chain) (d : nat) : option Chain * nat :=
  match entryCreds G awgClientPubKey c d with
  | (None, d) => (None, d)
  | (Some c, d) =>
      match keygen G c d with
      | (c, d, None) => (Some c, d)
      | (_, d, Some _) => (None, d)
      end
  end.

