(* ===== verification/KeygenSpec.v ===== *)
(** * KeygenSpec: the key pass completes a chain and then leaves it alone

    The order [nodeGrows]: what a node may become.  Every statement of the pass
    moves a node up this order and, without an error, establishes its part of
    [nodeDone]; facts that the order keeps ([lasting]) survive the statements
    that follow.  A chain whose nodes are done is a fixed point of the pass. *)

From S2P Require Import Prelude GoStrings Model ChainModel Alloc Roles Keygen.

(** ** What the pass may change *)

(** A field that is only ever filled in. *)
Definition keepS (a b : string) : Prop := a = "" \/ b = a.
Definition keepZ (a b : Z) : Prop := a = 0 \/ b = a.

(** A key pair replaced only as a whole, when a half is missing. *)
Definition keepPair (p q : string * string) : Prop := fst p = "" \/ snd p = "" \/ q = p.

(** A key pair replaced only when its private key is missing. *)
Definition keepByPriv (p q : string * string) : Prop := fst p = "" \/ q = p.

Record linkGrows (l l' : AWGExitLink) : Prop := mkLinkGrows {
  lg_target : AWGExitLink_TargetID l' = AWGExitLink_TargetID l;
  lg_iface : keepS (AWGExitLink_InterfaceName l) (AWGExitLink_InterfaceName l');
  lg_keys : keepPair (AWGExitLink_ClientPriv l, AWGExitLink_ClientPub l)
                     (AWGExitLink_ClientPriv l', AWGExitLink_ClientPub l');
  lg_address : keepS (AWGExitLink_Address l) (AWGExitLink_Address l');
  lg_port : keepZ (AWGExitLink_ClientPort l) (AWGExitLink_ClientPort l') }.

(** Links are completed in place and added at the end. *)
Definition linksGrow (ls ls' : list AWGExitLink) : Prop :=
  exists base ext, ls' = base ++ ext /\ Forall2 linkGrows ls base.

(** The fields the pass never writes. *)
Definition nodeIdentity (n : ChainNode) :=
  (ChainNode_ID n, ChainNode_Addr n, ChainNode_User n, ChainNode_KeyPath n, ChainNode_Role n,
   ChainNode_ExitTargets n, ChainNode_InboundRef n, ChainNode_Inbounds n).

Record nodeGrows (n n' : ChainNode) : Prop := mkNodeGrows {
  ng_identity : nodeIdentity n' = nodeIdentity n;
  ng_port : keepZ (ChainNode_Port n) (ChainNode_Port n');
  ng_priv : keepS (ChainNode_TransitPrivKey n) (ChainNode_TransitPrivKey n');
  ng_short : keepS (ChainNode_TransitShortID n) (ChainNode_TransitShortID n');
  ng_uuid : keepS (ChainNode_TransitUUID n) (ChainNode_TransitUUID n');
  ng_server : keepByPriv (ChainNode_TransitAWGServerPriv n, ChainNode_TransitAWGServerPub n)
                         (ChainNode_TransitAWGServerPriv n', ChainNode_TransitAWGServerPub n');
  ng_client : keepByPriv (ChainNode_TransitAWGClientPriv n, ChainNode_TransitAWGClientPub n)
                         (ChainNode_TransitAWGClientPriv n', ChainNode_TransitAWGClientPub n');
  ng_address : keepS (ChainNode_TransitAWGAddress n) (ChainNode_TransitAWGAddress n');
  ng_clientPort : keepZ (ChainNode_TransitAWGClientPort n) (ChainNode_TransitAWGClientPort n');
  ng_links : linksGrow (ChainNode_ExitAWGLinks n) (ChainNode_ExitAWGLinks n');
  ng_exit : keepPair (ChainNode_ExitAWGServerPriv n, ChainNode_ExitAWGServerPub n)
                     (ChainNode_ExitAWGServerPriv n', ChainNode_ExitAWGServerPub n');
  ng_exitPort : keepZ (ChainNode_ExitAWGListenPort n) (ChainNode_ExitAWGListenPort n') }.

Lemma keepS_refl a : keepS a a. Proof. by right. Qed.
Lemma keepZ_refl a : keepZ a a. Proof. by right. Qed.
Lemma keepPair_refl p : keepPair p p. Proof. by right; right. Qed.
Lemma keepByPriv_refl p : keepByPriv p p. Proof. by right. Qed.
Lemma keepS_trans a b c : keepS a b -> keepS b c -> keepS a c.
Proof. unfold keepS. intros [->| ->]; [by left|]. done. Qed.
Lemma keepZ_trans a b c : keepZ a b -> keepZ b c -> keepZ a c.
Proof. unfold keepZ. intros [->| ->]; [by left|]. done. Qed.
Lemma keepPair_trans p q r : keepPair p q -> keepPair q r -> keepPair p r.
Proof. unfold keepPair. intros [H|[H| ->]]; [by left|by right; left|]. done. Qed.
Lemma keepByPriv_trans p q r : keepByPriv p q -> keepByPriv q r -> keepByPriv p r.
Proof. unfold keepByPriv. intros [H| ->]; [by left|]. done. Qed.
Create HintDb grows.
Create HintDb growsT.
#[export] Hint Resolve keepS_refl keepZ_refl keepPair_refl keepByPriv_refl : grows.
#[export] Hint Resolve keepS_trans keepZ_trans keepPair_trans keepByPriv_trans : growsT.

Lemma linkGrows_refl l : linkGrows l l.
Proof. split; auto with grows. Qed.

#[export] Instance linkGrows_preorder : PreOrder linkGrows.
Proof.
  split; [exact linkGrows_refl|]. intros a b c [] []. split; eauto with growsT. congruence.
Qed.

#[export] Instance linksGrow_preorder : PreOrder linksGrow.
Proof.
  split.
  - intros ls. exists ls, []. split; [by rewrite app_nil_r|reflexivity].
  - intros a b c (b1 & e1 & -> & H1) (b2 & e2 & -> & H2).
    apply Forall2_app_inv_l in H2 as (k1 & k2 & Hk1 & Hk2 & ->).
    exists k1, (k2 ++ e2). split; [by rewrite app_assoc|by etrans].
Qed.

#[export] Instance nodeGrows_preorder : PreOrder nodeGrows.
Proof.
  split; [intros n; split; auto with grows; reflexivity|].
  intros a b c [] []. split; eauto with growsT; [congruence|by etrans].
Qed.

(** The relation on the flat list. *)
Abbreviation grow := (Forall2 nodeGrows).

Lemma grow_insert ns i n n' : ns !! i = Some n -> nodeGrows n n' -> grow ns (<[i := n']> ns).
Proof.
  intros Hi Hg. rewrite <- (list_insert_id ns i n Hi) at 1. apply Forall2_insert; [reflexivity|done].
Qed.

(** ** Exit links *)

Lemma linkTo_updLink tid f ls :
  (forall l, AWGExitLink_TargetID (f l) = AWGExitLink_TargetID l) ->
  linkTo tid (updLink tid f ls) = option_map f (linkTo tid ls).
Proof.
  intros Hf. unfold linkTo. induction ls as [|l ls IH]; simpl; [done|]. case_bool_decide as E; simpl.
  - rewrite Hf. by rewrite bool_decide_eq_true_2.
  - by rewrite bool_decide_eq_false_2.
Qed.

Lemma updLink_id tid f ls l : linkTo tid ls = Some l -> f l = l -> updLink tid f ls = ls.
Proof.
  unfold linkTo. induction ls as [|k ls IH]; simpl; [done|]. case_bool_decide.
  - intros [= ->] ->. done.
  - intros H1 H2. by rewrite IH.
Qed.

Lemma updLink_grows tid f ls : (forall l, linkGrows l (f l)) -> linksGrow ls (updLink tid f ls).
Proof.
  intros Hf. exists (updLink tid f ls), []. split; [by rewrite app_nil_r|].
  induction ls as [|l ls IH]; simpl; [constructor|]. case_bool_decide; constructor; [done|reflexivity|reflexivity|done].
Qed.

Lemma linkTo_app tid a b : linkTo tid (a ++ b) = match linkTo tid a with Some l => Some l | None => linkTo tid b end.
Proof. unfold linkTo. induction a as [|l a IH]; simpl; [done|]. by case_bool_decide. Qed.

Lemma linkTo_grows tid ls ls' l :
  linksGrow ls ls' -> linkTo tid ls = Some l -> exists l', linkTo tid ls' = Some l' /\ linkGrows l l'.
Proof.
  intros (base & ext & -> & H) Hl. rewrite linkTo_app. revert Hl. unfold linkTo.
  induction H as [|k k' ks ks' Hk H IH]; simpl; [done|].
  rewrite (lg_target _ _ Hk). case_bool_decide; [intros [= <-]; by exists k'|exact IH].
Qed.

Lemma linkGrows_iface idx l : linkGrows l (linkIface idx l).
Proof. unfold linkIface. case_bool_decide; [|reflexivity]. split; auto with grows. by left. Qed.
Lemma linkGrows_addr taken l : linkGrows l (linkAddress taken l).
Proof. unfold linkAddress. case_bool_decide; [|reflexivity]. split; auto with grows. by left. Qed.
Lemma linkGrows_portStep idx l : linkGrows l (linkPort idx l).
Proof. unfold linkPort. case_bool_decide; [|reflexivity]. split; auto with grows. by left. Qed.

Lemma onLink_grows tid f n : (forall l, linkGrows l (f l)) -> nodeGrows n (onLink tid f n).
Proof. intros Hf. unfold onLink. split; auto with grows. simpl. by apply updLink_grows. Qed.

(** ** Statements that only complete, and what they establish *)

(** A fact about the nodes that completing them keeps. *)
Definition lasting (Q : list ChainNode -> Prop) : Prop := forall ns ns', grow ns ns' -> Q ns -> Q ns'.

(** From nodes with [P], [f] only completes the nodes, and without an error it
    establishes [Q]. *)
Definition establishes (P : list ChainNode -> Prop) (f : KState -> KState) (Q : list ChainNode -> Prop) : Prop :=
  forall s, ks_err s = None -> P (ks_nodes s) ->
    grow (ks_nodes s) (ks_nodes (f s)) /\ (ks_err (f s) = None -> Q (ks_nodes (f s))).

Definition anyNodes (ns : list ChainNode) : Prop := True.

Lemma establishes_andThen P f g Q1 Q2 :
  lasting P -> establishes P f Q1 -> lasting Q1 -> establishes (fun ns => P ns /\ Q1 ns) g Q2 ->
  establishes P (andThen f g) (fun ns => Q1 ns /\ Q2 ns).
Proof.
  intros HP Hf HQ Hg s Hs Hpre. destruct (Hf s Hs Hpre) as [Hgr H1]. unfold andThen.
  destruct (ks_err (f s)) eqn:E; [split; [done|by rewrite E]|].
  destruct (Hg (f s) E (conj (HP _ _ Hgr Hpre) (H1 eq_refl))) as [Hgr2 H2]. split; [by etrans|].
  intros He. split; [exact (HQ _ _ Hgr2 (H1 eq_refl))|by apply H2].
Qed.

Lemma establishes_weaken (P P' Q Q' : list ChainNode -> Prop) f :
  establishes P f Q -> (forall ns, P' ns -> P ns) -> (forall ns, Q ns -> Q' ns) -> establishes P' f Q'.
Proof. intros Hf HP HQ s Hs Hpre. destruct (Hf s Hs (HP _ Hpre)). split; auto. Qed.

Lemma establishes_pre P f Q : establishes anyNodes f Q -> establishes P f Q.
Proof. intros Hf s Hs _. by apply Hf. Qed.

Lemma establishes_skip : establishes anyNodes (fun s => s) anyNodes.
Proof. intros s _. by split. Qed.

(** The node at an index has a property. *)
Definition at_node (i : nat) (R : ChainNode -> Prop) (ns : list ChainNode) : Prop :=
  forall n, ns !! i = Some n -> R n.

Definition nodeLasting (R : ChainNode -> Prop) : Prop := forall n n', nodeGrows n n' -> R n -> R n'.

Lemma at_node_lasting i R : nodeLasting R -> lasting (at_node i R).
Proof.
  intros HR ns ns' Hg H n' Hn'. destruct (Forall2_lookup_r _ _ _ _ _ Hg Hn') as (n & Hn & Hgr).
  exact (HR _ _ Hgr (H n Hn)).
Qed.

Lemma lasting_and Q1 Q2 : lasting Q1 -> lasting Q2 -> lasting (fun ns => Q1 ns /\ Q2 ns).
Proof. intros H1 H2 ns ns' Hg []. split; [by eapply H1|by eapply H2]. Qed.

(** A statement on one node, from nodes with [P]. *)
Definition fillsFrom (P : ChainNode -> Prop) (f : ChainNode -> nat -> ChainNode * nat * option KeygenErr)
    (R : ChainNode -> Prop) : Prop :=
  forall n d, P n -> match f n d with (n', _, e) => nodeGrows n n' /\ (e = None -> R n') end.

Definition fills (f : ChainNode -> nat -> ChainNode * nat * option KeygenErr) (R : ChainNode -> Prop) : Prop :=
  forall n d, match f n d with (n', _, e) => nodeGrows n n' /\ (e = None -> R n') end.

Lemma onNode_establishes_from i P f R : fillsFrom P f R -> establishes (at_node i P) (onNode i f) (at_node i R).
Proof.
  intros Hf s Hs Hpre. unfold onNode. destruct (ks_nodes s !! i) as [n|] eqn:En.
  - specialize (Hf n (ks_draw s) (Hpre n En)). destruct (f n (ks_draw s)) as [[n' d] e].
    destruct Hf as [Hg HR]. simpl. split; [by eapply grow_insert|]. intros He m.
    rewrite list_lookup_insert_eq by (by eapply lookup_lt_Some). intros [= <-]. auto.
  - split; [reflexivity|]. intros _ n Hn. congruence.
Qed.

Lemma onNode_establishes i f R P : fills f R -> establishes P (onNode i f) (at_node i R).
Proof.
  intros Hf. apply (establishes_weaken (at_node i (fun _ => True)) _ (at_node i R) _); [|done|done].
  apply onNode_establishes_from. intros n d _. apply Hf.
Qed.

(** The generators never return an empty key. *)
Definition goodGens (G : KeyGens) : Prop :=
  (forall d priv pub, kg_pair G d = Some (priv, pub) -> priv <> "" /\ pub <> "") /\
  (forall d p, kg_hop G d = Some p -> hk_PrivateKey p <> "" /\ hk_ShortID p <> "" /\ hk_UUID p <> "").

Section steps.
Context (G : KeyGens) (HG : goodGens G).

Ltac grows_node := split; eauto with grows; try reflexivity; unfold keepS, keepZ, keepByPriv; simpl; tauto.

Lemma drawPair_fills set (R : ChainNode -> Prop) n d :
  (forall priv pub, priv <> "" -> pub <> "" -> nodeGrows n (set priv pub) /\ R (set priv pub)) ->
  match drawPair G set n d with (n', _, e) => nodeGrows n n' /\ (e = None -> R n') end.
Proof.
  intros H. unfold drawPair. destruct (kg_pair G d) as [[priv pub]|] eqn:E; [|by split].
  destruct (proj1 HG _ _ _ E) as [H1 H2]. destruct (H priv pub H1 H2). by split.
Qed.

Lemma port_fills : fills portStep (fun n => ChainNode_Port n <> 0).
Proof.
  intros n d. unfold portStep. case_bool_decide as E; simpl; [|by split].
  split; [grows_node|done].
Qed.

Definition hopDone (n : ChainNode) : Prop :=
  ChainNode_TransitPrivKey n <> "" /\ ChainNode_TransitShortID n <> "" /\ ChainNode_TransitUUID n <> "".

Lemma hop_fills : fills (hopStep G) hopDone.
Proof.
  intros n d. unfold hopStep, hopDone.
  destruct (_ || _) eqn:E.
  - destruct (kg_hop G d) as [p|] eqn:Ep; [|by split].
    destruct (proj2 HG _ _ Ep) as (H1 & H2 & H3). clear E.
    repeat (case_bool_decide; simpl in * ); split; auto; grows_node.
  - rewrite !orb_false_iff, !bool_decide_eq_false in E. split; [reflexivity|tauto].
Qed.

Definition serverDone (i : nat) (n : ChainNode) : Prop := (0 < i)%nat -> ChainNode_TransitAWGServerPriv n <> "".
Lemma server_fills i : fills (awgServerStep G i) (serverDone i).
Proof.
  intros n d. unfold awgServerStep, serverDone.
  destruct (Nat.ltb_spec 0 i); simpl; [|split; [reflexivity|lia]].
  case_bool_decide; [|by split]. apply (drawPair_fills _ (serverDone i)).
  intros priv pub H1 H2. split; [grows_node|by intros _].
Qed.

Definition clientDone (hasNext : bool) (n : ChainNode) : Prop :=
  hasNext = true -> ChainNode_TransitAWGClientPriv n <> "".
Lemma client_fills hasNext : fills (awgClientStep G hasNext) (clientDone hasNext).
Proof.
  intros n d. unfold awgClientStep, clientDone.
  destruct hasNext; simpl; [|by split].
  case_bool_decide; [|by split]. apply (drawPair_fills _ (clientDone true)).
  intros priv pub H1 H2. split; [grows_node|by intros _].
Qed.

Definition clientPortDone (hasNext : bool) (n : ChainNode) : Prop :=
  hasNext = true -> ChainNode_TransitAWGClientPort n <> 0.
Lemma clientPort_fills hasNext i : fills (awgClientPortStep hasNext i) (clientPortDone hasNext).
Proof.
  intros n d. unfold awgClientPortStep, clientPortDone. destruct hasNext; simpl; [|by split].
  case_bool_decide; [|by split]. split; [grows_node|simpl; lia].
Qed.

Definition exitServerDone (n : ChainNode) : Prop :=
  ChainNode_ExitAWGServerPriv n <> "" /\ ChainNode_ExitAWGServerPub n <> "".
Lemma exitKeys_fills : fills (exitKeysStep G) exitServerDone.
Proof.
  intros n d. unfold exitKeysStep, exitServerDone. destruct (_ || _) eqn:E.
  - apply (drawPair_fills _ exitServerDone). intros priv pub H1 H2. split; [|done]. split; auto with grows; try reflexivity.
    simpl. unfold keepPair. simpl. rewrite orb_true_iff, !bool_decide_eq_true in E. tauto.
  - rewrite orb_false_iff, !bool_decide_eq_false in E. by split.
Qed.

Lemma exitPort_fills idx : fills (exitPortStep idx) (fun n => ChainNode_ExitAWGListenPort n <> 0).
Proof.
  intros n d. unfold exitPortStep. case_bool_decide; [|by split]. split; [grows_node|simpl; lia].
Qed.
End steps.

(** ** Address pools *)

(** No address is left for new nodes or links. *)
Definition exhausted (prefix : string) (taken : list string) : Prop := allocateAWGHostIP prefix taken = "".
#[export] Instance exhausted_dec prefix taken : Decision (exhausted prefix taken).
Proof. unfold exhausted. apply _. Defined.

Lemma exhausted_iff prefix taken :
  plainPrefix prefix ->
  exhausted prefix taken <-> (forall h, 2 <= h <= 254 -> bareIP prefix h ∈ map awgIPKey taken).
Proof.
  intros Hp. unfold exhausted. destruct (allocateAWGHostIP_spec prefix taken Hp) as [[(h & Hh & Hip & Hk & _) Hfree]|[He Hall]].
  - split; [|intros Hall].
    + rewrite Hip. intros H0. by apply hostIP_nonempty in H0.
    + exfalso. apply Hfree. rewrite Hk. by apply Hall.
  - done.
Qed.

Lemma bareIP_nonempty prefix h : bareIP prefix h <> "".
Proof. intros H. apply (hostIP_nonempty prefix h). unfold bareIP, hostIP in *. destruct prefix; [done|done]. Qed.

(** Only the nonempty addresses count. *)
Lemma exhausted_mono prefix t t' :
  plainPrefix prefix -> (forall a, a ∈ t -> a = "" \/ a ∈ t') -> exhausted prefix t -> exhausted prefix t'.
Proof.
  intros Hp Hsub. rewrite !exhausted_iff by done. intros H h Hh.
  specialize (H h Hh). rewrite list_elem_of_fmap in H. destruct H as (a & Ha & Hin).
  apply list_elem_of_fmap. exists a. split; [done|]. destruct (Hsub a Hin) as [->|]; [|done].
  by destruct (bareIP_nonempty prefix h).
Qed.

Lemma elem_transit a ns :
  a ∈ transitAddresses ns <-> a <> "" /\ exists n, n ∈ ns /\ ChainNode_TransitAWGAddress n = a.
Proof.
  unfold transitAddresses. rewrite list_elem_of_In, filter_In, in_map_iff, negb_true_iff, bool_decide_eq_false.
  setoid_rewrite list_elem_of_In. firstorder.
Qed.

Lemma elem_exit a ns :
  a ∈ exitAddresses ns <->
  a <> "" /\ exists n l, n ∈ ns /\ l ∈ ChainNode_ExitAWGLinks n /\ AWGExitLink_Address l = a.
Proof.
  unfold exitAddresses. rewrite list_elem_of_In, filter_In, in_flat_map, negb_true_iff, bool_decide_eq_false.
  setoid_rewrite in_map_iff. setoid_rewrite list_elem_of_In. firstorder.
Qed.

Lemma transit_grow ns ns' a : grow ns ns' -> a ∈ transitAddresses ns -> a ∈ transitAddresses ns'.
Proof.
  rewrite !elem_transit. intros Hg (Ha & n & (i & Hi)%list_elem_of_lookup & <-).
  destruct (Forall2_lookup_l _ _ _ _ _ Hg Hi) as (n' & Hi' & Hn). split; [done|].
  exists n'. split; [by eapply list_elem_of_lookup_2|]. by destruct (ng_address _ _ Hn) as [?| ->].
Qed.

Lemma links_grow_elem ls ls' l :
  linksGrow ls ls' -> l ∈ ls -> exists l', l' ∈ ls' /\ linkGrows l l'.
Proof.
  intros (base & ext & -> & H) (i & Hi)%list_elem_of_lookup.
  destruct (Forall2_lookup_l _ _ _ _ _ H Hi) as (l' & Hi' & Hl). exists l'. split; [|done].
  apply elem_of_app. left. by eapply list_elem_of_lookup_2.
Qed.

Lemma exit_grow ns ns' a : grow ns ns' -> a ∈ exitAddresses ns -> a ∈ exitAddresses ns'.
Proof.
  rewrite !elem_exit. intros Hg (Ha & n & l & (i & Hi)%list_elem_of_lookup & Hl & <-).
  destruct (Forall2_lookup_l _ _ _ _ _ Hg Hi) as (n' & Hi' & Hn).
  destruct (links_grow_elem _ _ _ (ng_links _ _ Hn) Hl) as (l' & Hl' & Hll). split; [done|].
  exists n', l'. split; [by eapply list_elem_of_lookup_2|]. split; [done|].
  by destruct (lg_address _ _ Hll) as [?| ->].
Qed.

(** ** Completed nodes *)

(** An address was allocated, or the pool is empty. *)
Definition addressDone (hasNext : bool) (i : nat) (ns : list ChainNode) : Prop :=
  hasNext = true -> at_node i (fun n => ChainNode_TransitAWGAddress n <> "") ns \/
                    exhausted "10.9.0" (transitAddresses ns).

Definition linkDone (l : AWGExitLink) : Prop :=
  AWGExitLink_InterfaceName l <> "" /\ AWGExitLink_ClientPriv l <> "" /\ AWGExitLink_ClientPub l <> "" /\
  AWGExitLink_ClientPort l <> 0.

(** The exit target [tid] of the node at [i]: an exit node with its own keys,
    and a complete link to it. *)
Definition exitDone (i : nat) (tid : string) (ns : list ChainNode) : Prop :=
  (exists j target, list_find (fun n => ChainNode_ID n = tid) ns = Some (j, target) /\
     ChainNode_Role target = NodeRoleExit /\ exitServerDone target /\ ChainNode_ExitAWGListenPort target <> 0) /\
  (exists n l, ns !! i = Some n /\ exitLinkByTarget n tid = Some l /\ linkDone l /\
     (AWGExitLink_Address l <> "" \/ exhausted "10.10.0" (exitAddresses ns))).

Definition exitsDone (i : nat) (ns : list ChainNode) : Prop :=
  forall n tid, ns !! i = Some n -> tid ∈ ChainNode_ExitTargets n -> exitDone i tid ns.

Lemma keepS_ne a b : keepS a b -> a <> "" -> b <> "".
Proof. intros [?| ->]; done. Qed.
Lemma keepZ_ne a b : keepZ a b -> a <> 0 -> b <> 0.
Proof. intros [?| ->]; done. Qed.
Lemma keepByPriv_ne p q : keepByPriv p q -> fst p <> "" -> fst q <> "".
Proof. intros [?| ->]; done. Qed.
Lemma keepPair_ne p q : keepPair p q -> fst p <> "" -> snd p <> "" -> fst q <> "" /\ snd q <> "".
Proof. intros [?|[?| ->]]; done. Qed.
#[export] Hint Resolve keepS_ne keepZ_ne : grows.

Lemma portDone_lasting : nodeLasting (fun n => ChainNode_Port n <> 0).
Proof. intros n n' []; eauto with grows. Qed.
Lemma hopDone_lasting : nodeLasting hopDone.
Proof. intros n n' [] (? & ? & ?). split_and!; eauto with grows. Qed.
Lemma serverDone_lasting i : nodeLasting (serverDone i).
Proof. intros n n' [] H Hi. exact (keepByPriv_ne _ _ ng_server0 (H Hi)). Qed.
Lemma clientDone_lasting b : nodeLasting (clientDone b).
Proof. intros n n' [] H Hi. exact (keepByPriv_ne _ _ ng_client0 (H Hi)). Qed.
Lemma clientPortDone_lasting b : nodeLasting (clientPortDone b).
Proof. intros n n' [] H Hi. specialize (H Hi). eauto with grows. Qed.
Lemma exitServerDone_lasting : nodeLasting exitServerDone.
Proof. intros n n' [] []. by apply (keepPair_ne _ _ ng_exit0). Qed.
Lemma exitPortDone_lasting : nodeLasting (fun n => ChainNode_ExitAWGListenPort n <> 0).
Proof. intros n n' []; eauto with grows. Qed.

Lemma linkDone_lasting l l' : linkGrows l l' -> linkDone l -> linkDone l'.
Proof.
  intros [] (? & H1 & H2 & ?). destruct (keepPair_ne _ _ lg_keys0 H1 H2). split_and!; eauto with grows.
Qed.

Lemma grows_ID n n' : nodeGrows n n' -> ChainNode_ID n' = ChainNode_ID n.
Proof. intros []. unfold nodeIdentity in *. congruence. Qed.
Lemma grows_Role n n' : nodeGrows n n' -> ChainNode_Role n' = ChainNode_Role n.
Proof. intros []. unfold nodeIdentity in *. congruence. Qed.
Lemma grows_ExitTargets n n' : nodeGrows n n' -> ChainNode_ExitTargets n' = ChainNode_ExitTargets n.
Proof. intros []. unfold nodeIdentity in *. congruence. Qed.

Lemma find_grow ns ns' tid j target :
  grow ns ns' -> list_find (fun n => ChainNode_ID n = tid) ns = Some (j, target) ->
  exists target', list_find (fun n => ChainNode_ID n = tid) ns' = Some (j, target') /\ nodeGrows target target'.
Proof.
  intros Hg. rewrite list_find_Some. intros (Hj & Hid & Hbefore).
  destruct (Forall2_lookup_l _ _ _ _ _ Hg Hj) as (t' & Hj' & Ht). exists t'. split; [|done].
  apply list_find_Some. split_and!; [done|by rewrite (grows_ID _ _ Ht)|].
  intros k m Hk Hlt. destruct (Forall2_lookup_r _ _ _ _ _ Hg Hk) as (m0 & Hk0 & Hm).
  rewrite (grows_ID _ _ Hm). by eapply Hbefore.
Qed.

Lemma exhausted_transit_lasting : lasting (fun ns => exhausted "10.9.0" (transitAddresses ns)).
Proof. intros ns ns' Hg. apply exhausted_mono; [done|]. intros a Ha. right. by eapply transit_grow. Qed.
Lemma exhausted_exit_lasting : lasting (fun ns => exhausted "10.10.0" (exitAddresses ns)).
Proof. intros ns ns' Hg. apply exhausted_mono; [done|]. intros a Ha. right. by eapply exit_grow. Qed.

Lemma addressDone_lasting b i : lasting (addressDone b i).
Proof.
  intros ns ns' Hg H Hb. destruct (H Hb) as [H1|H1].
  - left. refine (at_node_lasting i _ _ _ _ Hg H1). intros n n' []; eauto with grows.
  - right. by eapply exhausted_transit_lasting.
Qed.

Lemma exitDone_lasting i tid : lasting (exitDone i tid).
Proof.
  intros ns ns' Hg [(j & t & Hf & Hr & Hs & Hp) (n & l & Hi & Hl & Hd & Ha)]. split.
  - destruct (find_grow _ _ _ _ _ Hg Hf) as (t' & Hf' & Ht). exists j, t'. split_and!; [done| | |].
    + by rewrite (grows_Role _ _ Ht).
    + by eapply exitServerDone_lasting.
    + by eapply exitPortDone_lasting.
  - destruct (Forall2_lookup_l _ _ _ _ _ Hg Hi) as (n' & Hi' & Hn).
    destruct (linkTo_grows _ _ _ _ (ng_links _ _ Hn) Hl) as (l' & Hl' & Hll).
    exists n', l'. split_and!; [done|done|by eapply linkDone_lasting|].
    destruct Ha as [Ha|Ha]; [left|right].
    + destruct Hll. eauto with grows.
    + by eapply exhausted_exit_lasting.
Qed.

Lemma exitsDone_lasting i : lasting (exitsDone i).
Proof.
  intros ns ns' Hg H n' tid Hi' Ht. destruct (Forall2_lookup_r _ _ _ _ _ Hg Hi') as (n & Hi & Hn).
  rewrite (grows_ExitTargets _ _ Hn) in Ht. exact (exitDone_lasting i tid _ _ Hg (H n tid Hi Ht)).
Qed.

(** ** The pass completes every node *)

Section complete.
Context (G : KeyGens) (HG : goodGens G).

Lemma lasting_any : lasting anyNodes.
Proof. done. Qed.

Lemma address_establishes hasNext i P :
  establishes P (fun s => onNode i (awgAddressStep hasNext (transitAddresses (ks_nodes s))) s) (addressDone hasNext i).
Proof.
  intros s Hs _. unfold onNode, awgAddressStep, addressDone.
  destruct (ks_nodes s !! i) as [n|] eqn:En; [|split; [reflexivity|]; intros _ _; left; intros m Hm; congruence].
  assert (forall m, at_node i (fun n => ChainNode_TransitAWGAddress n <> "") (<[i := m]> (ks_nodes s)) <->
                    ChainNode_TransitAWGAddress m <> "") as Hat.
  { intros m. unfold at_node. rewrite list_lookup_insert_eq by (by eapply lookup_lt_Some). naive_solver. }
  destruct hasNext; simpl; [|split; [by eapply grow_insert|done]].
  case_bool_decide as Ea; simpl.
  - set (n' := n <| ChainNode_TransitAWGAddress := _ |>).
    assert (nodeGrows n n') as Hn by (split; eauto with grows; try reflexivity; by left).
    pose proof (grow_insert _ _ _ _ En Hn) as Hg. split; [done|]. intros _ _.
    destruct (decide (exhausted "10.9.0" (transitAddresses (ks_nodes s)))) as [He|He].
    + right. by eapply exhausted_transit_lasting.
    + left. by apply Hat.
  - split; [by eapply grow_insert|]. intros _ _. left. by apply Hat.
Qed.

Definition awgDone (total i : nat) (ns : list ChainNode) : Prop :=
  let hasNext := (S i <? total)%nat in
  at_node i (serverDone i) ns /\ at_node i (clientDone hasNext) ns /\ addressDone hasNext i ns /\
  at_node i (clientPortDone hasNext) ns.

Create HintDb lasting.
#[local] Hint Resolve lasting_any at_node_lasting addressDone_lasting exitsDone_lasting lasting_and
  serverDone_lasting clientDone_lasting clientPortDone_lasting portDone_lasting hopDone_lasting
  exitServerDone_lasting exitPortDone_lasting : lasting.

Lemma awgTransport_establishes total i : establishes anyNodes (awgTransport G total i) (awgDone total i).
Proof.
  unfold awgTransport, awgDone. cbv zeta.
  apply establishes_andThen; [auto with lasting|by apply onNode_establishes, server_fills|auto with lasting|].
  apply establishes_pre.
  apply establishes_andThen; [auto with lasting|by apply onNode_establishes, client_fills|auto with lasting|].
  apply establishes_pre.
  apply establishes_andThen; [auto with lasting|apply address_establishes|auto with lasting|].
  by apply onNode_establishes, clientPort_fills.
Qed.

Lemma awgDone_lasting total i : lasting (awgDone total i).
Proof. unfold awgDone. auto 8 with lasting. Qed.
(** *** One exit target *)

Definition linkIs (tid : string) (P : AWGExitLink -> Prop) (n : ChainNode) : Prop :=
  exists l, exitLinkByTarget n tid = Some l /\ P l.
Definition hasLink (tid : string) : ChainNode -> Prop := linkIs tid (fun _ => True).
Definition linkNamed (l : AWGExitLink) : Prop := AWGExitLink_InterfaceName l <> "".
Definition linkKeyed (l : AWGExitLink) : Prop := AWGExitLink_ClientPriv l <> "" /\ AWGExitLink_ClientPub l <> "".

Lemma linkIs_lasting tid (P : AWGExitLink -> Prop) :
  (forall l l', linkGrows l l' -> P l -> P l') -> nodeLasting (linkIs tid P).
Proof.
  intros HP n n' Hg (l & Hl & H). destruct (linkTo_grows _ _ _ _ (ng_links _ _ Hg) Hl) as (l' & Hl' & Hll).
  exists l'. split; [done|by eapply HP].
Qed.
Lemma hasLink_lasting tid : nodeLasting (hasLink tid).
Proof. by apply linkIs_lasting. Qed.
Lemma linkNamed_lasting tid : nodeLasting (linkIs tid linkNamed).
Proof. apply linkIs_lasting. intros l l' []. unfold linkNamed. eauto with grows. Qed.
Lemma linkKeyed_lasting tid : nodeLasting (linkIs tid linkKeyed).
Proof. apply linkIs_lasting. intros l l' [] [H1 H2]. exact (keepPair_ne _ _ lg_keys0 H1 H2). Qed.
#[local] Hint Resolve hasLink_lasting linkNamed_lasting linkKeyed_lasting : lasting.

Lemma ensureLink_fills tid : fills (ensureLink tid) (hasLink tid).
Proof.
  intros n d. unfold ensureLink. destruct (exitLinkByTarget n tid) as [l|] eqn:El.
  - split; [reflexivity|]. intros _. by exists l.
  - split.
    + split; auto with grows. simpl. exists (ChainNode_ExitAWGLinks n). eexists. split; [done|reflexivity].
    + intros _. exists (zeroAWGExitLink <| AWGExitLink_TargetID := tid |>). split; [|done].
      unfold exitLinkByTarget in *. simpl. rewrite linkTo_app, El. unfold linkTo. simpl.
      by rewrite bool_decide_eq_true_2.
Qed.

Lemma onLink_link tid f n l :
  (forall l, linkGrows l (f l)) -> exitLinkByTarget n tid = Some l -> exitLinkByTarget (onLink tid f n) tid = Some (f l).
Proof.
  intros Hf Hl. unfold exitLinkByTarget, onLink in *. simpl. rewrite linkTo_updLink.
  - by rewrite Hl.
  - intros k. apply Hf.
Qed.

Lemma onLink_fills tid f (P : AWGExitLink -> Prop) :
  (forall l, linkGrows l (f l)) -> (forall l, P (f l)) ->
  fillsFrom (hasLink tid) (fun n d => (onLink tid f n, d, None)) (linkIs tid P).
Proof.
  intros Hf HP n d (l & Hl & _). split; [by apply onLink_grows|]. intros _. exists (f l).
  split; [by apply onLink_link|done].
Qed.

Lemma linkKeys_fills tid : fillsFrom (hasLink tid) (linkKeysStep G tid) (linkIs tid linkKeyed).
Proof.
  intros n d (l & Hl & _). unfold linkKeysStep. rewrite Hl. destruct (_ || _) eqn:E.
  - apply (drawPair_fills G HG _ (linkIs tid linkKeyed)). intros priv pub H1 H2.
    rewrite orb_true_iff, !bool_decide_eq_true in E. split.
    + unfold onLink. split; auto with grows. simpl. exists (updLink tid (fun l => l <| AWGExitLink_ClientPriv := priv |> <| AWGExitLink_ClientPub := pub |>) (ChainNode_ExitAWGLinks n)), [].
      split; [by rewrite app_nil_r|]. unfold exitLinkByTarget, linkTo in Hl. revert Hl.
      induction (ChainNode_ExitAWGLinks n) as [|k ks IH]; simpl; [done|]. case_bool_decide.
      * intros [= ->]. constructor; [|reflexivity]. split; auto with grows. unfold keepPair. simpl. tauto.
      * intros Hl. constructor; [reflexivity|by apply IH].
    + eexists. unfold exitLinkByTarget, onLink. simpl. rewrite linkTo_updLink by done.
      unfold exitLinkByTarget in Hl. rewrite Hl. by split.
  - split; [reflexivity|]. intros _. exists l. rewrite orb_false_iff, !bool_decide_eq_false in E. by split.
Qed.

Definition exitKeysDone (i j : nat) (tid : string) (ns : list ChainNode) : Prop :=
  at_node j exitServerDone ns /\ at_node j (fun n => ChainNode_ExitAWGListenPort n <> 0) ns /\
  at_node i (hasLink tid) ns /\ at_node i (linkIs tid linkNamed) ns /\ at_node i (linkIs tid linkKeyed) ns.

Lemma linkIface_named idx l : linkNamed (linkIface idx l).
Proof. unfold linkNamed, linkIface. by case_bool_decide. Qed.

Lemma exitKeys_establishes i j idx tid : establishes anyNodes (exitKeys G i j idx tid) (exitKeysDone i j tid).
Proof.
  unfold exitKeys, exitKeysDone.
  apply establishes_andThen; [auto with lasting|by apply onNode_establishes, exitKeys_fills|auto with lasting|].
  apply establishes_pre.
  apply establishes_andThen; [auto with lasting|apply onNode_establishes, exitPort_fills|auto with lasting|].
  apply establishes_pre.
  apply establishes_andThen; [auto with lasting|apply onNode_establishes, ensureLink_fills|auto with lasting|].
  eapply (establishes_weaken (at_node i (hasLink tid))); [|by intros ? []|intros ns H; exact H].
  apply establishes_andThen; [auto with lasting| |auto with lasting|].
  - apply onNode_establishes_from, onLink_fills; [apply linkGrows_iface|apply linkIface_named].
  - eapply establishes_weaken; [apply onNode_establishes_from, linkKeys_fills|by intros ? []|done].
Qed.
(** The address and the port of the link. *)
Definition finalLink (idx : nat) (taken : list string) (l : AWGExitLink) : AWGExitLink :=
  linkPort idx (linkAddress taken l).

Lemma exitAddress_run i idx tid taken s n l :
  ks_err s = None -> ks_nodes s !! i = Some n -> exitLinkByTarget n tid = Some l ->
  exists n', exitAddress i idx tid taken s = s <| ks_nodes := <[i := n']> (ks_nodes s) |> /\
    nodeGrows n n' /\ exitLinkByTarget n' tid = Some (finalLink idx taken l).
Proof.
  intros He Hn Hl. unfold exitAddress, andThen, onNode. rewrite Hn. cbn.
  rewrite list_lookup_insert_eq by (by eapply lookup_lt_Some).
  set (n1 := onLink tid (linkAddress taken) n). exists (onLink tid (linkPort idx) n1).
  pose proof (onLink_link tid _ n l (linkGrows_addr taken) Hl) as H1. split_and!.
  - rewrite list_insert_insert_eq. destruct s as [ns d e]. simpl in *. by rewrite He.
  - etrans; apply onLink_grows; [apply linkGrows_addr|apply linkGrows_portStep].
  - unfold finalLink. by apply (onLink_link tid (linkPort idx)); [apply linkGrows_portStep|].
Qed.

Lemma finalLink_done idx taken l : linkNamed l -> linkKeyed l -> linkDone (finalLink idx taken l).
Proof.
  intros H1 [H2 H3]. apply (linkDone_lasting (linkPort idx l)).
  - unfold finalLink, linkPort, linkAddress. repeat (case_bool_decide; simpl); split; eauto with grows; simpl; try (by left).
    all: simpl in *; congruence.
  - unfold linkDone, linkPort, linkNamed in *. case_bool_decide; simpl; split_and!; try done. lia.
Qed.

Lemma finalLink_address idx taken l :
  AWGExitLink_Address (finalLink idx taken l) =
    if AWGExitLink_Address l == "" then allocateAWGExitIP taken else AWGExitLink_Address l.
Proof. unfold finalLink, linkPort, linkAddress. repeat (case_bool_decide; simpl); done. Qed.

(** The addresses of [taken] are those of links, up to empty ones. *)
Definition covered (taken : list string) (ns : list ChainNode) : Prop :=
  forall a, a ∈ taken -> a = "" \/ a ∈ exitAddresses ns.

Lemma link_address_elem ns i n tid l :
  ns !! i = Some n -> exitLinkByTarget n tid = Some l -> AWGExitLink_Address l <> "" ->
  AWGExitLink_Address l ∈ exitAddresses ns.
Proof.
  intros Hn Hl Ha. apply elem_exit. split; [done|]. exists n, l.
  split; [by eapply list_elem_of_lookup_2|]. split; [|done].
  apply List.find_some in Hl as [Hl _]. by apply list_elem_of_In.
Qed.

(** One iteration after its error checks. *)
Lemma exit_iteration i j idx tid taken s n target :
  ks_err s = None -> is_Some (ks_nodes s !! i) ->
  list_find (fun n => ChainNode_ID n = tid) (ks_nodes s) = Some (j, target) ->
  ChainNode_Role target = NodeRoleExit -> covered taken (ks_nodes s) ->
  let s1 := exitKeys G i j idx tid s in
  let s2 := exitAddress i idx tid taken s1 in
  grow (ks_nodes s) (ks_nodes s1) /\
  (ks_err s1 = None -> ks_nodes s1 !! i = Some n ->
     ks_err s2 = None /\ grow (ks_nodes s) (ks_nodes s2) /\ exitDone i tid (ks_nodes s2) /\
     covered (takenAfter tid taken n) (ks_nodes s2)).
Proof.
  intros Hs [n0 Hi] Hf Hr Hcov s1 s2.
  destruct (exitKeys_establishes i j idx tid s Hs I) as [Hg1 Hd]. fold s1 in Hg1, Hd.
  split; [done|]. intros He Hn. destruct (Hd He) as (Hx & Hp & (l & Hl & _)%(fun H => H n Hn) & Hnm & Hk).
  destruct (exitAddress_run i idx tid taken s1 n l He Hn Hl) as (n' & E2 & Hg & Hl'). fold s2 in E2.
  assert (ks_nodes s2 = <[i := n']> (ks_nodes s1)) as En by (by rewrite E2).
  assert (grow (ks_nodes s1) (ks_nodes s2)) as Hg2 by (rewrite En; by eapply grow_insert).
  assert (ks_nodes s2 !! i = Some n') as Hn' by (rewrite En; apply list_lookup_insert_eq; by eapply lookup_lt_Some).
  assert (covered taken (ks_nodes s2)) as Hcov2.
  { intros a Ha. destruct (Hcov a Ha) as [?|?]; [by left|right]. eapply exit_grow; [exact Hg2|]. by eapply exit_grow. }
  destruct (Hnm n Hn) as (l1 & Hl1 & Hnamed). destruct (Hk n Hn) as (l2 & Hl2 & Hkeyed).
  assert (l1 = l /\ l2 = l) as [-> ->] by (split; congruence).
  pose proof (finalLink_address idx taken l) as Haddr.
  split_and!; [by rewrite E2|by etrans| |].
  - destruct (find_grow _ _ _ _ _ Hg1 Hf) as (t1 & Hf1 & Ht1). destruct (find_grow _ _ _ _ _ Hg2 Hf1) as (t2 & Hf2 & Ht2).
    pose proof (proj1 (proj1 (list_find_Some _ _ _ _) Hf1)) as Hj1. split.
    + exists j, t2. split_and!; [done| | |].
      * by rewrite (grows_Role _ _ Ht2), (grows_Role _ _ Ht1).
      * by apply (exitServerDone_lasting _ _ Ht2), Hx.
      * by apply (exitPortDone_lasting _ _ Ht2), Hp.
    + exists n', (finalLink idx taken l). split_and!; [done|done|by apply finalLink_done|].
      destruct (decide (exhausted "10.10.0" taken)) as [Hex|Hex].
      * right. by eapply exhausted_mono.
      * left. rewrite Haddr. by case_bool_decide.
  - intros a. unfold takenAfter. rewrite Hl. case_bool_decide as Ea; [|apply Hcov2].
    intros [?|Hin]%elem_of_app; [by apply Hcov2|]. apply list_elem_of_singleton in Hin as ->.
    destruct (decide (allocateAWGExitIP taken = "")) as [?|Hne]; [by left|right]. rewrite <- Haddr in *.
    by eapply link_address_elem.
Qed.

Lemma exitLoop_ok i : forall tids idx taken s,
  ks_err s = None -> is_Some (ks_nodes s !! i) -> covered taken (ks_nodes s) ->
  grow (ks_nodes s) (ks_nodes (exitLoop G i idx tids taken s)) /\
  (ks_err (exitLoop G i idx tids taken s) = None ->
     forall tid, tid ∈ tids -> exitDone i tid (ks_nodes (exitLoop G i idx tids taken s))).
Proof.
  induction tids as [|tid tids IH]; intros idx taken s Hs Hi Hcov; simpl.
  { split; [reflexivity|]. by intros _ tid ?%not_elem_of_nil. }
  destruct (list_find _ _) as [[j target]|] eqn:Ef; [|by split].
  destruct (bool_decide_reflect (ChainNode_Role target = NodeRoleExit)) as [Hr|Hr]; simpl; [|by split].
  destruct (ks_nodes (exitKeys G i j idx tid s) !! i) as [n|] eqn:En.
  - destruct (exit_iteration i j idx tid taken s n target Hs Hi Ef Hr Hcov) as [Hg1 H2].
    destruct (ks_err (exitKeys G i j idx tid s)) eqn:Ee; [split; [done|congruence]|].
    destruct (H2 eq_refl En) as (He2 & Hg2 & Hd & Hcov2).
    assert (is_Some (ks_nodes (exitAddress i idx tid taken (exitKeys G i j idx tid s)) !! i)) as Hi2.
    { destruct Hi as [m Hm]. destruct (Forall2_lookup_l _ _ _ _ _ Hg2 Hm) as (m' & -> & _). by eexists. }
    destruct (IH (S idx) _ _ He2 Hi2 Hcov2) as [Hg3 Hd3]. split; [by etrans|].
    intros He t [->|Ht]%elem_of_cons; [by eapply exitDone_lasting|by apply Hd3].
  - destruct (exitKeys_establishes i j idx tid s Hs I) as [Hg1 _]. exfalso.
    destruct Hi as [m Hm]. destruct (Forall2_lookup_l _ _ _ _ _ Hg1 Hm) as (m' & Hm' & _). congruence.
Qed.
Lemma covered_exit ns : covered (exitAddresses ns) ns.
Proof. intros a Ha. by right. Qed.

Lemma ensureAWGExitLinks_establishes i : establishes anyNodes (ensureAWGExitLinks G i) (exitsDone i).
Proof.
  intros s Hs _. unfold ensureAWGExitLinks. destruct (ks_nodes s !! i) as [n|] eqn:En.
  - destruct (exitLoop_ok i (ChainNode_ExitTargets n) 0 (exitAddresses (ks_nodes s)) s Hs ltac:(by eexists)
                (covered_exit _)) as [Hg Hd].
    destruct (ChainNode_ExitTargets n) as [|t ts] eqn:Et.
    + split; [reflexivity|]. intros _ m tid Hm. rewrite En in Hm. injection Hm as <-. rewrite Et. by intros ?%not_elem_of_nil.
    + split; [done|]. intros He m tid Hm Htid. apply (Hd He).
      destruct (Forall2_lookup_l _ _ _ _ _ Hg En) as (m' & Hm' & Hgr).
      rewrite Hm in Hm'. injection Hm' as <-. by rewrite (grows_ExitTargets _ _ Hgr), Et in Htid.
  - split; [reflexivity|]. intros _ m tid Hm. congruence.
Qed.

(** A node with all its keys. *)
Definition nodeDone (awg : bool) (total i : nat) (ns : list ChainNode) : Prop :=
  at_node i (fun n => ChainNode_Port n <> 0) ns /\ at_node i hopDone ns /\
  (awg = true -> awgDone total i ns) /\ exitsDone i ns.

Lemma nodeDone_lasting awg total i : lasting (nodeDone awg total i).
Proof.
  unfold nodeDone. repeat apply lasting_and; auto with lasting.
  intros ns ns' Hg H Ha. exact (awgDone_lasting total i _ _ Hg (H Ha)).
Qed.

Lemma nodeStep_establishes awg total i : establishes anyNodes (nodeStep G awg total i) (nodeDone awg total i).
Proof.
  unfold nodeStep, nodeDone.
  apply establishes_andThen; [auto with lasting|by apply onNode_establishes, port_fills|auto with lasting|].
  apply establishes_pre.
  apply establishes_andThen; [auto with lasting|by apply onNode_establishes, hop_fills|auto with lasting|].
  apply establishes_pre.
  apply establishes_andThen; [auto with lasting| | |apply establishes_pre, ensureAWGExitLinks_establishes].
  - destruct awg; [|by eapply establishes_weaken; [apply establishes_skip|..]].
    by eapply establishes_weaken; [apply awgTransport_establishes|..].
  - intros ns ns' Hg H Ha. exact (awgDone_lasting total i _ _ Hg (H Ha)).
Qed.

Lemma nodeSteps_establishes awg total k : forall i,
  establishes anyNodes (nodeSteps G awg total i k)
    (fun ns => forall x, (i <= x < i + k)%nat -> nodeDone awg total x ns).
Proof.
  induction k as [|k IH]; intros i; simpl.
  { intros s Hs _. split; [reflexivity|]. intros _ x Hx. lia. }
  eapply (establishes_weaken anyNodes anyNodes);
    [apply establishes_andThen; [done|apply nodeStep_establishes|apply nodeDone_lasting|apply establishes_pre, IH]|done|].
  intros ns [H1 H2] x Hx. destruct (decide (x = i)) as [->|]; [done|]. apply H2. lia.
Qed.

Lemma keygenNodes_ok awg ns d :
  let s := keygenNodes G awg ns d in
  grow ns (ks_nodes s) /\
  (ks_err s = None -> forall i, (i < length ns)%nat -> nodeDone awg (length ns) i (ks_nodes s)).
Proof.
  destruct (nodeSteps_establishes awg (length ns) (length ns) 0 (mkKState ns d None) eq_refl I) as [Hg Hd].
  split; [exact Hg|]. intros He i Hi. apply (Hd He). lia.
Qed.
End complete.

(** ** A complete chain is left alone *)

Section idle.
Context (G : KeyGens).

Lemma andThen_id f g s : ks_err s = None -> f s = s -> g s = s -> andThen f g s = s.
Proof. intros He Hf Hg. unfold andThen. by rewrite Hf, He. Qed.

Lemma onNode_id i f s :
  ks_err s = None -> (forall n, ks_nodes s !! i = Some n -> f n (ks_draw s) = (n, ks_draw s, None)) -> onNode i f s = s.
Proof.
  intros He Hf. unfold onNode. destruct (ks_nodes s !! i) as [n|] eqn:En; [|done].
  rewrite (Hf n eq_refl), list_insert_id by done. destruct s; simpl in *. by subst.
Qed.

Lemma onLink_id tid f n l : exitLinkByTarget n tid = Some l -> f l = l -> onLink tid f n = n.
Proof. intros Hl Hf. unfold onLink. rewrite (updLink_id _ _ _ _ Hl Hf). by destruct n. Qed.

Lemma awgTransport_id total i s :
  ks_err s = None -> awgDone total i (ks_nodes s) -> awgTransport G total i s = s.
Proof.
  intros He (Hs & Hc & Ha & Hp). unfold awgTransport. repeat apply andThen_id; try done; apply onNode_id; try done; intros n Hn.
  - unfold awgServerStep. destruct (Nat.ltb_spec 0 i) as [Hlt|]; [|done].
    by rewrite bool_decide_eq_false_2 by exact (Hs n Hn Hlt).
  - unfold awgClientStep. destruct (S i <? total)%nat eqn:E; [|done].
    by rewrite bool_decide_eq_false_2 by exact (Hc n Hn eq_refl).
  - unfold awgAddressStep. destruct (S i <? total)%nat eqn:E; [|done]. simpl.
    destruct (Ha eq_refl) as [Ha'|Ha']; [by rewrite bool_decide_eq_false_2 by exact (Ha' n Hn)|].
    case_bool_decide as Ea; [|done]. unfold exhausted in Ha'. unfold allocateAWGTransitIP. rewrite Ha'.
    destruct n. simpl in *. by subst.
  - unfold awgClientPortStep. destruct (S i <? total)%nat eqn:E; [|done]. simpl.
    by rewrite bool_decide_eq_false_2 by exact (Hp n Hn eq_refl).
Qed.
Lemma exitKeys_id i j idx tid s target n l :
  ks_err s = None -> ks_nodes s !! j = Some target -> exitServerDone target -> ChainNode_ExitAWGListenPort target <> 0 ->
  ks_nodes s !! i = Some n -> exitLinkByTarget n tid = Some l -> linkDone l -> exitKeys G i j idx tid s = s.
Proof.
  intros He Hj [Hp Hq] Hlp Hi Hl (Hif & Hk1 & Hk2 & _). unfold exitKeys.
  repeat apply andThen_id; try done; apply onNode_id; try done; intros m Hm;
    (assert (m = target) as -> by congruence) || (assert (m = n) as -> by congruence).
  - unfold exitKeysStep. by rewrite !bool_decide_eq_false_2 by done.
  - unfold exitPortStep. by rewrite bool_decide_eq_false_2 by done.
  - unfold ensureLink. by rewrite Hl.
  - rewrite (onLink_id _ _ _ _ Hl); [done|]. unfold linkIface. by rewrite bool_decide_eq_false_2 by done.
  - unfold linkKeysStep. rewrite Hl. by rewrite !bool_decide_eq_false_2 by done.
Qed.

Lemma exitAddress_id i idx tid taken s n l :
  ks_err s = None -> ks_nodes s !! i = Some n -> exitLinkByTarget n tid = Some l -> linkDone l ->
  AWGExitLink_Address l <> "" \/ exhausted "10.10.0" taken -> exitAddress i idx tid taken s = s.
Proof.
  intros He Hi Hl (_ & _ & _ & Hp) Ha. unfold exitAddress.
  apply andThen_id; try done; apply onNode_id; try done; intros m Hm; assert (m = n) as -> by congruence;
    rewrite (onLink_id _ _ _ _ Hl); try done.
  - unfold linkAddress. case_bool_decide as E; [|done]. destruct Ha as [?|Ha]; [done|].
    unfold allocateAWGExitIP. unfold exhausted in Ha. rewrite Ha. destruct l. simpl in *. by subst.
  - unfold linkPort. by rewrite bool_decide_eq_false_2 by done.
Qed.

Lemma exitLoop_id i s : ks_err s = None -> forall tids idx taken,
  (forall tid, tid ∈ tids -> exitDone i tid (ks_nodes s)) ->
  (forall a, a ∈ exitAddresses (ks_nodes s) -> a ∈ taken) -> exitLoop G i idx tids taken s = s.
Proof.
  intros He. induction tids as [|tid tids IH]; intros idx taken Hd Hsub; simpl; [done|].
  destruct (Hd tid ltac:(left)) as [(j & t & Hf & Hr & Hs & Hlp) (n & l & Hi & Hl & Hld & Ha)].
  rewrite Hf, Hr, bool_decide_eq_true_2 by done. simpl.
  pose proof (proj1 (proj1 (list_find_Some _ _ _ _) Hf)) as Hj.
  rewrite (exitKeys_id i j idx tid s t n l), He, Hi by done.
  rewrite (exitAddress_id i idx tid taken s n l); try done.
  - apply IH; [intros t' Ht'; apply Hd; by right|]. intros a Hin. unfold takenAfter. rewrite Hl.
    case_bool_decide; [apply elem_of_app; left|]; by apply Hsub.
  - destruct Ha as [Ha|Ha]; [by left|right]. eapply exhausted_mono; [done| |exact Ha]. intros a Hin. right. by apply Hsub.
Qed.

Lemma nodeStep_id awg total i s :
  ks_err s = None -> nodeDone awg total i (ks_nodes s) -> nodeStep G awg total i s = s.
Proof.
  intros He (Hp & Hh & Ha & Hx). unfold nodeStep. repeat apply andThen_id; try done.
  - apply onNode_id; [done|]. intros n Hn. unfold portStep. by rewrite bool_decide_eq_false_2 by exact (Hp n Hn).
  - apply onNode_id; [done|]. intros n Hn. destruct (Hh n Hn) as (? & ? & ?). unfold hopStep.
    by rewrite !bool_decide_eq_false_2 by done.
  - destruct awg; [|done]. apply awgTransport_id; auto.
  - unfold ensureAWGExitLinks. destruct (ks_nodes s !! i) as [n|] eqn:En; [|done].
    pose proof (fun tid => Hx n tid En) as Hd. destruct (ChainNode_ExitTargets n); [done|]. by apply exitLoop_id.
Qed.

Lemma nodeSteps_id awg total s : ks_err s = None -> forall k i,
  (forall x, (i <= x < i + k)%nat -> nodeDone awg total x (ks_nodes s)) -> nodeSteps G awg total i k s = s.
Proof.
  intros He. induction k as [|k IH]; intros i Hd; simpl; [done|].
  apply andThen_id; [done|apply nodeStep_id; [done|apply Hd; lia]|apply IH]. intros x Hx. apply Hd. lia.
Qed.
End idle.

(** ** The whole pass *)

Lemma keygen_nodes G c d :
  goodGens G ->
  let '(c', _, e) := keygen G c d in
  let s := keygenNodes G (Chain_Transport c == TransportAWG) (AllNodes c) d in
  AllNodes c' = ks_nodes s /\ e = ks_err s /\ Chain_Transport c' = Chain_Transport c /\
  length (ks_nodes s) = length (AllNodes c).
Proof.
  intros HG. destruct (keygenNodes_ok G HG (Chain_Transport c == TransportAWG) (AllNodes c) d) as [Hg _].
  pose proof (Forall2_length _ _ _ Hg) as Hl. unfold keygen.
  split_and!; [by apply AllNodes_SetAllNodes|done| |done].
  unfold SetAllNodes. by destruct (IsLevelized c).
Qed.

(** The entry credentials are only filled in. *)
Definition entryKept (c c' : Chain) : Prop :=
  keepByPriv (Chain_AWGEntryServerPriv c, Chain_AWGEntryServerPub c)
             (Chain_AWGEntryServerPriv c', Chain_AWGEntryServerPub c') /\
  keepS (Chain_TUICEntryUserUUID c) (Chain_TUICEntryUserUUID c') /\
  keepS (Chain_TUICEntryUserPassword c) (Chain_TUICEntryUserPassword c').

Lemma entryCreds_spec G pk c d c' d' :
  entryCreds G pk c d = (Some c', d') -> entryKept c c' /\ AllNodes c' = AllNodes c.
Proof.
  unfold entryCreds, entryKept, keepByPriv, keepS.
  repeat (case_bool_decide || case_match); simpl in *; intros [= <- <-]; simpl; tauto.
Qed.

Lemma keygen_entry G c d :
  let c' := fst (fst (keygen G c d)) in
  Chain_AWGEntryServerPriv c' = Chain_AWGEntryServerPriv c /\ Chain_AWGEntryServerPub c' = Chain_AWGEntryServerPub c /\
  Chain_TUICEntryUserUUID c' = Chain_TUICEntryUserUUID c /\
  Chain_TUICEntryUserPassword c' = Chain_TUICEntryUserPassword c.
Proof. unfold keygen, SetAllNodes. simpl. by destruct (IsLevelized c). Qed.
