(* ===== verification/KeygenAddresses.v ===== *)
(** * KeygenAddresses: inner tunnel addresses, and the properties of the pass

    A statement of the pass either writes no address or adds one that the
    allocator found free, so the addresses of a chain stay pairwise distinct. *)

From S2P Require Import Prelude GoStrings Model ChainModel Alloc Roles Keygen KeygenSpec.

(** ** Addresses stay distinct *)

Definition nonempty (l : list string) : list string := List.filter (fun a => a != "") l.
Definition nodeTransit (n : ChainNode) : list string := nonempty [ChainNode_TransitAWGAddress n].
Definition nodeExit (n : ChainNode) : list string := nonempty (map AWGExitLink_Address (ChainNode_ExitAWGLinks n)).

Lemma transitAddresses_flat ns : transitAddresses ns = flat_map nodeTransit ns.
Proof.
  unfold transitAddresses, nodeTransit, nonempty. induction ns as [|n ns IH]; simpl; [done|].
  rewrite IH. by destruct (negb _).
Qed.

Lemma exitAddresses_flat ns : exitAddresses ns = flat_map nodeExit ns.
Proof.
  unfold exitAddresses, nodeExit, nonempty. induction ns as [|n ns IH]; simpl; [done|].
  by rewrite List.filter_app, IH.
Qed.

Lemma flat_map_insert_same (f : ChainNode -> list string) ns i n n' :
  ns !! i = Some n -> f n' = f n -> flat_map f (<[i := n']> ns) = flat_map f ns.
Proof.
  revert i. induction ns as [|m ns IH]; intros [|i]; simpl; try done.
  - intros [= ->] ->. done.
  - intros Hi Hf. by rewrite (IH i Hi Hf).
Qed.

Lemma flat_map_insert_add (f : ChainNode -> list string) ns i n n' a :
  ns !! i = Some n -> Permutation (f n') (a :: f n) -> Permutation (flat_map f (<[i := n']> ns)) (a :: flat_map f ns).
Proof.
  revert i. induction ns as [|m ns IH]; intros [|i]; simpl; try done.
  - intros [= ->] ->. done.
  - intros Hi Hf. rewrite (IH i Hi Hf). by rewrite Permutation_middle.
Qed.

Definition distinct (ns : list ChainNode) : Prop := NoDup (transitAddresses ns) /\ NoDup (exitAddresses ns).

(** Statements that write no address. *)
Definition noAddress (f : ChainNode -> nat -> ChainNode * nat * option KeygenErr) : Prop :=
  forall n d, match f n d with (n', _, _) => nodeTransit n' = nodeTransit n /\ nodeExit n' = nodeExit n end.

Definition sameAddresses (s s' : KState) : Prop :=
  transitAddresses (ks_nodes s') = transitAddresses (ks_nodes s) /\
  exitAddresses (ks_nodes s') = exitAddresses (ks_nodes s).

Lemma onNode_same i f s : noAddress f -> sameAddresses s (onNode i f s).
Proof.
  intros Hf. unfold onNode, sameAddresses. rewrite !transitAddresses_flat, !exitAddresses_flat.
  destruct (ks_nodes s !! i) as [n|] eqn:En; [|done].
  specialize (Hf n (ks_draw s)). destruct (f n (ks_draw s)) as [[n' d] e]. destruct Hf as [H1 H2]. simpl.
  by rewrite !(flat_map_insert_same _ _ _ _ _ En).
Qed.

Lemma andThen_same f g s :
  sameAddresses s (f s) -> (forall s', sameAddresses s' (g s')) -> sameAddresses s (andThen f g s).
Proof.
  intros [H1 H2] Hg. unfold andThen. destruct (ks_err (f s)); [done|].
  destruct (Hg (f s)) as [H3 H4]. split; congruence.
Qed.

Lemma map_updLink_address tid f ls :
  (forall l, AWGExitLink_Address (f l) = AWGExitLink_Address l) ->
  map AWGExitLink_Address (updLink tid f ls) = map AWGExitLink_Address ls.
Proof. intros Hf. induction ls as [|l ls IH]; simpl; [done|]. case_bool_decide; simpl; congruence. Qed.

Lemma onLink_noAddress tid f n :
  (forall l, AWGExitLink_Address (f l) = AWGExitLink_Address l) ->
  nodeTransit (onLink tid f n) = nodeTransit n /\ nodeExit (onLink tid f n) = nodeExit n.
Proof. intros Hf. split; [done|]. unfold nodeExit, onLink. simpl. by rewrite map_updLink_address. Qed.

Lemma onLink_ext tid f g n l :
  exitLinkByTarget n tid = Some l -> f l = g l -> onLink tid f n = onLink tid g n.
Proof.
  intros Hl Hfg. unfold onLink.
  enough (updLink tid f (ChainNode_ExitAWGLinks n) = updLink tid g (ChainNode_ExitAWGLinks n)) as -> by done.
  unfold exitLinkByTarget, linkTo in Hl. revert Hl. induction (ChainNode_ExitAWGLinks n) as [|k ks IH]; simpl; [done|].
  case_bool_decide; [|intros Hl; by rewrite IH]. intros [= ->]. by rewrite Hfg.
Qed.

Section distinct.
Context (G : KeyGens).

Lemma drawPair_noAddress set n d :
  (forall priv pub, nodeTransit (set priv pub) = nodeTransit n /\ nodeExit (set priv pub) = nodeExit n) ->
  match drawPair G set n d with (n', _, _) => nodeTransit n' = nodeTransit n /\ nodeExit n' = nodeExit n end.
Proof. intros H. unfold drawPair. by destruct (kg_pair G d) as [[]|]. Qed.

Lemma port_noAddress : noAddress portStep.
Proof. intros n d. unfold portStep. by case_bool_decide. Qed.
Lemma hop_noAddress : noAddress (hopStep G).
Proof. intros n d. unfold hopStep. destruct (_ || _); [|done]. destruct (kg_hop G d); [|done].
  split; by repeat case_bool_decide.
Qed.
Lemma server_noAddress i : noAddress (awgServerStep G i).
Proof. intros n d. unfold awgServerStep. destruct (_ && _); [|done]. by apply drawPair_noAddress. Qed.
Lemma client_noAddress b : noAddress (awgClientStep G b).
Proof. intros n d. unfold awgClientStep. destruct (_ && _); [|done]. by apply drawPair_noAddress. Qed.
Lemma clientPort_noAddress b i : noAddress (awgClientPortStep b i).
Proof. intros n d. unfold awgClientPortStep. by destruct (_ && _). Qed.
Lemma exitKeys_noAddress : noAddress (exitKeysStep G).
Proof. intros n d. unfold exitKeysStep. destruct (_ || _); [|done]. by apply drawPair_noAddress. Qed.
Lemma exitPort_noAddress idx : noAddress (exitPortStep idx).
Proof. intros n d. unfold exitPortStep. by case_bool_decide. Qed.
Lemma ensureLink_noAddress tid : noAddress (ensureLink tid).
Proof.
  intros n d. unfold ensureLink. destruct (exitLinkByTarget n tid); [done|]. split; [done|]. unfold nodeExit, nonempty. simpl.
  rewrite map_app, List.filter_app. simpl. by rewrite app_nil_r.
Qed.
Lemma linkKeys_noAddress tid : noAddress (linkKeysStep G tid).
Proof.
  intros n d. unfold linkKeysStep. destruct (exitLinkByTarget n tid); [|done]. destruct (_ || _); [|done].
  apply drawPair_noAddress. intros. by apply onLink_noAddress.
Qed.

Lemma exitKeys_same i j idx tid s : sameAddresses s (exitKeys G i j idx tid s).
Proof.
  unfold exitKeys. repeat (apply andThen_same; [|intros ?]); apply onNode_same.
  - apply exitKeys_noAddress.
  - apply exitPort_noAddress.
  - apply ensureLink_noAddress.
  - intros n d. apply onLink_noAddress. intros l. unfold linkIface. by case_bool_decide.
  - apply linkKeys_noAddress.
Qed.

Lemma distinct_same s s' : sameAddresses s s' -> distinct (ks_nodes s) -> distinct (ks_nodes s').
Proof. intros [H1 H2] []. unfold distinct. by rewrite H1, H2. Qed.

Lemma fresh_address prefix taken :
  plainPrefix prefix -> allocateAWGHostIP prefix taken <> "" -> allocateAWGHostIP prefix taken ∉ taken.
Proof.
  intros Hp Hne Hin. destruct (allocateAWGHostIP_spec prefix taken Hp) as [[_ Hfree]|[He _]]; [|done].
  apply Hfree. apply list_elem_of_fmap. eauto.
Qed.

Lemma awgAddress_distinct hasNext i s :
  distinct (ks_nodes s) ->
  distinct (ks_nodes (onNode i (awgAddressStep hasNext (transitAddresses (ks_nodes s))) s)).
Proof.
  intros [Ht He]. unfold onNode, awgAddressStep. destruct (ks_nodes s !! i) as [n|] eqn:En; [|done]. simpl.
  destruct hasNext; simpl; [|by rewrite list_insert_id].
  case_bool_decide as Ea; [|by rewrite list_insert_id].
  set (n' := n <| ChainNode_TransitAWGAddress := _ |>).
  unfold distinct. rewrite (exitAddresses_flat (<[i:=n']> _)), (flat_map_insert_same _ _ _ _ n' En) by done.
  rewrite <- exitAddresses_flat. split; [|done]. rewrite transitAddresses_flat.
  destruct (decide (allocateAWGTransitIP (transitAddresses (ks_nodes s)) = "")) as [Hz|Hz].
  - rewrite (flat_map_insert_same _ _ _ _ n' En); [by rewrite <- transitAddresses_flat|].
    unfold n', nodeTransit. simpl. by rewrite Ea, Hz.
  - rewrite (flat_map_insert_add nodeTransit _ _ _ n' (allocateAWGTransitIP (transitAddresses (ks_nodes s))) En).
    + rewrite <- transitAddresses_flat. constructor; [|done]. by apply fresh_address.
    + unfold n', nodeTransit, nonempty. simpl. rewrite Ea. by rewrite bool_decide_eq_false_2.
Qed.

Lemma updLink_address_perm tid a ls l :
  linkTo tid ls = Some l -> AWGExitLink_Address l = "" -> a <> "" ->
  Permutation (nonempty (map AWGExitLink_Address (updLink tid (fun l => l <| AWGExitLink_Address := a |>) ls)))
    (a :: nonempty (map AWGExitLink_Address ls)).
Proof.
  unfold linkTo, nonempty. intros Hl Ha Hne. induction ls as [|k ls IH]; simpl in *; [done|]. revert Hl.
  case_bool_decide as Ek; simpl.
  - intros [= ->]. rewrite Ha. by rewrite (bool_decide_eq_false_2 (a = "")).
  - intros Hl. specialize (IH Hl). destruct (AWGExitLink_Address k != ""); [|done].
    rewrite IH. by rewrite Permutation_swap.
Qed.
(** One link gets its address: the state after it, and what is then taken. *)
Lemma exitAddress_distinct i idx tid taken s n :
  ks_nodes s !! i = Some n ->
  (forall a, a ∈ exitAddresses (ks_nodes s) -> a ∈ taken) -> distinct (ks_nodes s) ->
  let s' := exitAddress i idx tid taken s in
  distinct (ks_nodes s') /\ (forall a, a ∈ exitAddresses (ks_nodes s') -> a ∈ takenAfter tid taken n).
Proof.
  intros Hn Hcov Hd.
  assert (forall s', sameAddresses s' (onNode i (fun n d => (onLink tid (linkPort idx) n, d, None)) s')) as Hport.
  { intros s'. apply onNode_same. intros m d. apply onLink_noAddress. intros l. unfold linkPort. by case_bool_decide. }
  unfold exitAddress, andThen. set (s1 := onNode i _ s).
  assert (distinct (ks_nodes s1) /\ forall a, a ∈ exitAddresses (ks_nodes s1) -> a ∈ takenAfter tid taken n) as [H1 H2].
  2:{ destruct (ks_err s1); [done|]. destruct (Hport s1) as [Ht He]. split; [by apply (distinct_same s1)|by rewrite He]. }
  unfold s1, onNode. rewrite Hn. simpl. unfold takenAfter.
  destruct (exitLinkByTarget n tid) as [l|] eqn:El.
  2:{ unfold onLink. replace (updLink tid _ _) with (ChainNode_ExitAWGLinks n).
      - assert (n <| ChainNode_ExitAWGLinks := ChainNode_ExitAWGLinks n |> = n) as -> by (by destruct n).
        by rewrite list_insert_id.
      - unfold exitLinkByTarget, linkTo in El. revert El. induction (ChainNode_ExitAWGLinks n); simpl; [done|].
        case_bool_decide; [done|]. intros Hl. by rewrite <- IHl. }
  destruct (bool_decide_reflect (AWGExitLink_Address l = "")) as [Ea|Ea].
  2:{ rewrite (onLink_id tid _ n l El); [by rewrite list_insert_id|]. unfold linkAddress. by rewrite bool_decide_eq_false_2. }
  set (a := allocateAWGExitIP taken). set (n' := onLink tid (linkAddress taken) n).
  assert (n' = onLink tid (fun l => l <| AWGExitLink_Address := a |>) n) as En'.
  { apply (onLink_ext _ _ _ _ _ El). unfold linkAddress. by rewrite bool_decide_eq_true_2. }
  destruct Hd as [Ht He]. unfold distinct.
  rewrite transitAddresses_flat, (flat_map_insert_same _ _ _ _ n' Hn), <- transitAddresses_flat by done.
  rewrite exitAddresses_flat. destruct (decide (a = "")) as [Hz|Hz].
  - rewrite (flat_map_insert_same nodeExit _ _ _ n' Hn), <- exitAddresses_flat.
    + split; [done|]. intros x Hx. apply elem_of_app. left. by apply Hcov.
    + unfold n'. rewrite (onLink_id tid _ n l El); [done|]. unfold linkAddress. rewrite bool_decide_eq_true_2 by done.
      fold a. rewrite Hz. destruct l. simpl in *. by subst.
  - assert (Permutation (flat_map nodeExit (<[i:=n']> (ks_nodes s))) (a :: flat_map nodeExit (ks_nodes s))) as Hp.
    { apply (flat_map_insert_add nodeExit _ _ n); [done|]. rewrite En'. unfold nodeExit, onLink. simpl.
      by apply (updLink_address_perm _ _ _ l). }
    rewrite <- (exitAddresses_flat (ks_nodes s)) in Hp. split; [split; [done|]|].
    + rewrite Hp. constructor; [|done]. intros Hin. by apply (fresh_address "10.10.0" taken eq_refl Hz), Hcov.
    + intros x. rewrite Hp. intros [->|Hx]%elem_of_cons; apply elem_of_app; [right; by left|left; by apply Hcov].
Qed.

Lemma exitLoop_distinct i : forall tids idx taken s,
  (forall a, a ∈ exitAddresses (ks_nodes s) -> a ∈ taken) -> distinct (ks_nodes s) ->
  distinct (ks_nodes (exitLoop G i idx tids taken s)).
Proof.
  induction tids as [|tid tids IH]; intros idx taken s Hcov Hd; simpl; [done|].
  destruct (list_find _ _) as [[j target]|]; [|done]. destruct (_ != _); [done|].
  set (s1 := exitKeys G i j idx tid s). pose proof (exitKeys_same i j idx tid s) as Hs. fold s1 in Hs.
  pose proof (distinct_same _ _ Hs Hd) as Hd1. destruct (ks_err s1); [done|].
  destruct (ks_nodes s1 !! i) as [n|] eqn:En; [|done].
  assert (forall a, a ∈ exitAddresses (ks_nodes s1) -> a ∈ taken) as Hcov1 by (destruct Hs as [_ ->]; done).
  destruct (exitAddress_distinct i idx tid taken s1 n En Hcov1 Hd1). by apply IH.
Qed.

(** A function on states that keeps the addresses distinct. *)
Definition keepsDistinct (f : KState -> KState) : Prop := forall s, distinct (ks_nodes s) -> distinct (ks_nodes (f s)).

Lemma keepsDistinct_andThen f g : keepsDistinct f -> keepsDistinct g -> keepsDistinct (andThen f g).
Proof. intros Hf Hg s Hs. unfold andThen. destruct (ks_err (f s)); auto. Qed.

Lemma keepsDistinct_onNode i f : noAddress f -> keepsDistinct (onNode i f).
Proof. intros Hf s. by apply distinct_same, onNode_same. Qed.

Lemma nodeStep_distinct awg total i : keepsDistinct (nodeStep G awg total i).
Proof.
  unfold nodeStep, awgTransport. repeat apply keepsDistinct_andThen.
  - apply keepsDistinct_onNode, port_noAddress.
  - apply keepsDistinct_onNode, hop_noAddress.
  - destruct awg; [|by intros s]. repeat apply keepsDistinct_andThen.
    + apply keepsDistinct_onNode, server_noAddress.
    + apply keepsDistinct_onNode, client_noAddress.
    + intros s. apply awgAddress_distinct.
    + apply keepsDistinct_onNode, clientPort_noAddress.
  - intros s Hs. unfold ensureAWGExitLinks. destruct (ks_nodes s !! i) as [n|]; [|done].
    destruct (ChainNode_ExitTargets n); [done|]. by apply exitLoop_distinct.
Qed.

Lemma nodeSteps_distinct awg total k : forall i, keepsDistinct (nodeSteps G awg total i k).
Proof.
  induction k as [|k IH]; intros i s Hs; simpl; [done|]. by apply keepsDistinct_andThen; [apply nodeStep_distinct|apply IH|].
Qed.
End distinct.

(** ** Properties *)

(** C28: a deploy keeps every key.  Whatever the generators draw, preparing a
    chain for its deploy only fills in what was missing: every node keeps its
    identity, its nonempty transit keys, key pairs, inner addresses, ports and
    exit links, the chain keeps its entry credentials, and inner addresses that
    were pairwise distinct stay so. *)
Theorem prepareKeys_only_completes G pk c d c' d' :
  goodGens G -> prepareKeys G pk c d = (Some c', d') ->
  Forall2 nodeGrows (AllNodes c) (AllNodes c') /\ entryKept c c' /\
  (distinct (AllNodes c) -> distinct (AllNodes c')).
Proof.
  intros HG. unfold prepareKeys. destruct (entryCreds G pk c d) as [[c1|] d1] eqn:Ee; [|done].
  destruct (entryCreds_spec _ _ _ _ _ _ Ee) as [Hk <-].
  pose proof (keygen_nodes G c1 d1 HG) as Hn. pose proof (keygen_entry G c1 d1) as Hk1.
  destruct (keygen G c1 d1) as [[c2 d2] [e|]]; [done|]. intros [= <- _].
  destruct Hn as (Hn & _ & _ & _). split_and!.
  - rewrite Hn. by apply keygenNodes_ok.
  - simpl in Hk1. destruct Hk1 as (Ha & Hb & Hx & Hy). unfold entryKept in *. by rewrite Ha, Hb, Hx, Hy.
  - rewrite Hn. intros Hdist. by apply (nodeSteps_distinct G _ _ _ 0 (mkKState (AllNodes c1) d1 None)).
Qed.

(** The key pass is complete and idempotent.  When the pass over the nodes
    ends without an error, every node has its port, its transit keys, the keys,
    address and port of its AmneziaWG links, and a complete link to each of its
    exit targets (an address may be missing only when the pool is used up);
    running it again, with any generators, draws nothing and changes nothing. *)
Theorem keygen_complete_idempotent G c d c' d' :
  goodGens G -> keygen G c d = (c', d', None) ->
  (forall i, (i < length (AllNodes c'))%nat ->
     nodeDone (Chain_Transport c == TransportAWG) (length (AllNodes c')) i (AllNodes c')) /\
  (forall G2 d2, keygen G2 c' d2 = (c', d2, None)).
Proof.
  intros HG Hk. pose proof (keygen_nodes G c d HG) as Hn. rewrite Hk in Hn.
  destruct Hn as (Hn & He & Ht & Hl).
  destruct (keygenNodes_ok G HG (Chain_Transport c == TransportAWG) (AllNodes c) d) as [_ Hd].
  rewrite <- Hn in Hd, Hl. specialize (Hd (eq_sym He)). rewrite <- Hl in Hd. split; [done|].
  intros G2 d2. unfold keygen, keygenNodes. rewrite Ht.
  rewrite (nodeSteps_id G2 _ _ (mkKState (AllNodes c') d2 None) eq_refl) by (intros x Hx; apply Hd; lia).
  simpl. by rewrite SetAllNodes_self.
Qed.

(** An AmneziaWG chain with a transit node, a balancing entry and two exits. *)
Definition numbered (p : string) (d : nat) : string := p +:+ itoa (Z.of_nat d).

Definition countingGens : KeyGens :=
  mkKeyGens (fun d => Some (numbered "priv" d, numbered "pub" d))
    (fun d => Some (mkHopKeys (numbered "key" d) (numbered "id" d) (numbered "uuid" d)))
    (fun d => Some (numbered "uuid" d, numbered "pw" d)).

Definition sampleNode (id role : string) (targets : list string) : ChainNode :=
  zeroChainNode <| ChainNode_ID := id |> <| ChainNode_Role := role |> <| ChainNode_ExitTargets := targets |>.

Definition balancer : Chain :=
  zeroChain <| Chain_Name := "c" |> <| Chain_Transport := TransportAWG |> <| Chain_UserProtocol := UserProtocolAWG |>
    <| Chain_Nodes := [sampleNode "a" NodeRoleEntry ["b"; "x"]; sampleNode "b" NodeRoleExit [];
                       sampleNode "x" NodeRoleExit []] |>.

Lemma countingGens_good : goodGens countingGens.
Proof.
  split; simpl; [intros d priv pub [= <- <-]|intros d p [= <-]; simpl]; repeat split;
    unfold numbered; intros H; discriminate H.
Qed.

Lemma distinct_balancer : distinct (AllNodes balancer).
Proof. split; constructor. Qed.

Definition preparedBalancer : Chain :=
  match prepareKeys countingGens "" balancer 0 with (Some c, _) => c | (None, _) => balancer end.

Lemma prepareKeys_only_completes_witness :
  let c' := preparedBalancer in
  Forall2 nodeGrows (AllNodes balancer) (AllNodes c') /\ distinct (AllNodes c') /\
  transitAddresses (AllNodes c') = ["10.9.0.2/32"; "10.9.0.3/32"] /\
  exitAddresses (AllNodes c') = ["10.10.0.2/32"; "10.10.0.3/32"].
Proof.
  destruct (prepareKeys countingGens "" balancer 0) as [[c'|] d'] eqn:E; [|vm_compute in E; discriminate E].
  destruct (prepareKeys_only_completes countingGens "" balancer 0 c' d' countingGens_good E) as (H1 & _ & H2).
  unfold preparedBalancer. rewrite E. split; [exact H1|]. split; [exact (H2 distinct_balancer)|].
  vm_compute in E. injection E as <- _. split; vm_compute; reflexivity.
Defined.

Lemma keygen_complete_idempotent_witness :
  exists c' d', keygen countingGens balancer 0 = (c', d', None) /\ keygen countingGens c' 0 = (c', 0%nat, None).
Proof.
  destruct (keygen countingGens balancer 0) as [[c' d'] e] eqn:E.
  assert (e = None) as -> by (vm_compute in E; by injection E).
  exists c', d'. split; [reflexivity|].
  exact (proj2 (keygen_complete_idempotent countingGens balancer 0 c' d' countingGens_good E) countingGens 0%nat).
Defined.

(** The interface name of an exit link is numbered by the position of its
    target: after the first of two targets is removed and another one added, two
    links of the node share the interface and the local port. *)
Lemma exit_interface_collides :
  let c1 := fst (fst (keygen countingGens balancer 0)) in
  let c2 := c1 <| Chain_Nodes := match Chain_Nodes c1 with
                                 | a :: ns => a <| ChainNode_ExitTargets := ["x"; "y"] |> :: ns
                                 | [] => []
                                 end ++ [sampleNode "y" NodeRoleExit []] |> in
  let c3 := fst (fst (keygen countingGens c2 0)) in
  match NodeByID c3 "a" with
  | Some a =>
      option_map (fun l => (AWGExitLink_InterfaceName l, AWGExitLink_ClientPort l)) (exitLinkByTarget a "x") =
        Some ("awg-exit-n2", 51902) /\
      option_map (fun l => (AWGExitLink_InterfaceName l, AWGExitLink_ClientPort l)) (exitLinkByTarget a "y") =
        Some ("awg-exit-n2", 51902)
  | None => False
  end.
Proof. by vm_compute. Qed.
