(* ===== verification/Codec.v ===== *)
(** * Codec: hexadecimal, base64 and the CPS packet strings

    The parts of Go's encoding/hex and encoding/base64 the program uses, on byte
    strings, and internal/chain/awgcps_format.go with its inverse in awg_cps.go:
    the textual form of the decoy packets of AmneziaWG. *)

From S2P Require Import Prelude GoStrings.

(** ** Bytes and digits *)

Definition byteZ (c : ascii) : Z := Z.of_N (Ascii.N_of_ascii c).
Definition Zbyte (z : Z) : ascii := Ascii.ascii_of_N (Z.to_N z).

Definition hexAlphabet : string := "0123456789abcdef".
Definition stdAlphabet : string := "ABCDEFGHIJKLMNOPQRSTUVWXYZabcdefghijklmnopqrstuvwxyz0123456789+/".
Definition urlAlphabet : string := "ABCDEFGHIJKLMNOPQRSTUVWXYZabcdefghijklmnopqrstuvwxyz0123456789-_".

Definition digitChar (alphabet : string) (d : Z) : ascii :=
  match String.get (Z.to_nat d) alphabet with Some c => c | None => "?"%char end.

(** The position of a character in the alphabet. *)
Fixpoint charDigit (alphabet : string) (c : ascii) : option Z :=
  match alphabet with
  | EmptyString => None
  | String a rest => if Ascii.eqb a c then Some 0 else option_map Z.succ (charDigit rest c)
  end.

(** ** Hexadecimal *)

(** [hexNibble]. *)
Definition hexNibble (c : ascii) : option Z :=
  let n := byteZ c in
  if (48 <=? n) && (n <=? 57) then Some (n - 48)
  else if (97 <=? n) && (n <=? 102) then Some (n - 97 + 10)
  else if (65 <=? n) && (n <=? 70) then Some (n - 65 + 10)
  else None.

(** [hex.EncodeToString]. *)
Fixpoint hexEncode (s : string) : string :=
  match s with
  | EmptyString => EmptyString
  | String c s' =>
      String (digitChar hexAlphabet (Z.shiftr (byteZ c) 4))
        (String (digitChar hexAlphabet (Z.land (byteZ c) 15)) (hexEncode s'))
  end.

(** [hex.DecodeString]: an odd length or another character is an error. *)
Fixpoint hexDecode (s : string) : option string :=
  match s with
  | EmptyString => Some EmptyString
  | String hi (String lo s') =>
      match hexNibble hi, hexNibble lo with
      | Some h, Some l => option_map (String (Zbyte (Z.lor (Z.shiftl h 4) l))) (hexDecode s')
      | _, _ => None
      end
  | String _ EmptyString => None
  end.

(** ** Base64 *)

(** Three bytes are four digits of six bits; one or two remaining bytes are two
    or three digits. *)
Fixpoint base64Digits (s : string) : list Z :=
  match s with
  | EmptyString => []
  | String a EmptyString => [byteZ a / 4; byteZ a `mod` 4 * 16]
  | String a (String b EmptyString) =>
      [byteZ a / 4; byteZ a `mod` 4 * 16 + byteZ b / 16; byteZ b `mod` 16 * 4]
  | String a (String b (String c s')) =>
      byteZ a / 4 :: (byteZ a `mod` 4 * 16 + byteZ b / 16) ::
      (byteZ b `mod` 16 * 4 + byteZ c / 64) :: byteZ c `mod` 64 :: base64Digits s'
  end.

Fixpoint digitsBytes (l : list Z) : option string :=
  match l with
  | [] => Some EmptyString
  | [_] => None
  | [d0; d1] => Some (String (Zbyte (d0 * 4 + d1 / 16)) EmptyString)
  | [d0; d1; d2] =>
      Some (String (Zbyte (d0 * 4 + d1 / 16)) (String (Zbyte (d1 `mod` 16 * 16 + d2 / 4)) EmptyString))
  | d0 :: d1 :: d2 :: d3 :: l' =>
      option_map (fun s => String (Zbyte (d0 * 4 + d1 / 16))
        (String (Zbyte (d1 `mod` 16 * 16 + d2 / 4)) (String (Zbyte (d2 `mod` 4 * 64 + d3)) s))) (digitsBytes l')
  end.

(** [RawURLEncoding.EncodeToString]: without padding. *)
Definition rawEncode (alphabet : string) (s : string) : string :=
  String.string_of_list_ascii (map (digitChar alphabet) (base64Digits s)).

(** [StdEncoding.EncodeToString]: with padding. *)
Definition padding (s : string) : string :=
  match Nat.modulo (String.length s) 3 with 1%nat => "==" | 2%nat => "=" | _ => "" end.
Definition paddedEncode (alphabet : string) (s : string) : string := rawEncode alphabet s +:+ padding s.

(** The decoders skip line ends. *)
Definition isLineEnd (c : ascii) : bool := Ascii.eqb c newline || Ascii.eqb c (Ascii.ascii_of_nat 13).

Fixpoint charDigits (alphabet : string) (l : list ascii) : option (list Z) :=
  match l with
  | [] => Some []
  | c :: l' =>
      match charDigit alphabet c, charDigits alphabet l' with
      | Some d, Some ds => Some (d :: ds)
      | _, _ => None
      end
  end.

Definition base64Chars (s : string) : list ascii :=
  List.filter (fun c => negb (isLineEnd c)) (String.list_ascii_of_string s).

Definition decodeChars (alphabet : string) (l : list ascii) : option string :=
  match charDigits alphabet l with Some ds => digitsBytes ds | None => None end.

Definition rawDecode (alphabet : string) (s : string) : option string := decodeChars alphabet (base64Chars s).

(** The padded decoder: a multiple of four characters, at most two of them "="
    and those last. *)
Definition stripPad (l : list ascii) : list ascii :=
  match rev l with
  | "="%char :: "="%char :: r => rev r
  | "="%char :: r => rev r
  | _ => l
  end.

Definition paddedDecode (alphabet : string) (s : string) : option string :=
  let l := base64Chars s in
  if Nat.eqb (Nat.modulo (length l) 4) 0 then decodeChars alphabet (stripPad l) else None.

(** ** CPS packet strings *)

(** [evenHex] and [CPSString]. *)
Definition evenHex (h : string) : string := if Nat.odd (String.length h) then "0" +:+ h else h.

Definition CPSString (packet : string) (repeatCount : Z) : string :=
  let hexStr := evenHex (hexEncode packet) in
  if 0 <? repeatCount then "<r " +:+ itoa repeatCount +:+ "><b 0x" +:+ hexStr +:+ ">"
  else "<b 0x" +:+ hexStr +:+ ">".

(** [CPSMaterialString], [CPSDNSString]. *)
Definition CPSMaterialString (b : string) : string :=
  if b == "" then "" else CPSString b 0.

Definition CPSDNSString (packet : string) : string :=
  if packet == "" then "" else CPSString packet 2.

(** [hexDecodeEven]. *)
Definition hexDecodeEven (h : string) : option string := hexDecode (evenHex h).

(** [cpsStringToBytes]; the nil slice is the empty string. *)
Definition TrimSuffix (s p : string) : string :=
  if HasSuffix s p then take_string (String.length s - String.length p) s else s.

Definition cpsStringToBytes (s : string) : string :=
  let s := TrimSpace s in
  if negb (HasPrefix s "<b ") || negb (HasSuffix s ">") then ""
  else
    let hexBody := TrimSpace (TrimSuffix (TrimPrefix s "<b ") ">") in
    let hexBody := TrimPrefix hexBody "0x" in
    match hexDecodeEven hexBody with Some b => b | None => "" end.

(** [awg3HPKHexToBase64]: [None] is its [false]. *)
Definition awg3HPKHexToBase64 (hexKey : string) : option string :=
  match hexDecode hexKey with
  | Some keyBytes => if Nat.eqb (String.length keyBytes) 32 then Some (paddedEncode stdAlphabet keyBytes) else None
  | None => None
  end.

(** ** Lemmas: bytes *)

Lemma byteZ_range c : 0 <= byteZ c < 256.
Proof. unfold byteZ. pose proof (Ascii.N_ascii_bounded c). lia. Qed.

Lemma Zbyte_byteZ c : Zbyte (byteZ c) = c.
Proof. unfold Zbyte, byteZ. by rewrite N2Z.id, Ascii.ascii_N_embedding. Qed.

Lemma Zbyte_eq z c : z = byteZ c -> Zbyte z = c.
Proof. intros ->. apply Zbyte_byteZ. Qed.

(** A property of all bytes, by evaluation. *)
Lemma forall_byte (P : ascii -> bool) : forallb (fun n => P (Ascii.ascii_of_nat n)) (seq 0 256) = true -> forall c, P c = true.
Proof.
  rewrite forallb_forall. intros H c. rewrite <- (Ascii.ascii_nat_embedding c). apply H, in_seq.
  pose proof (Ascii.nat_ascii_bounded c). lia.
Qed.

(** ** Hexadecimal round trip *)

Definition hexPair (c : ascii) : bool :=
  match hexNibble (digitChar hexAlphabet (Z.shiftr (byteZ c) 4)), hexNibble (digitChar hexAlphabet (Z.land (byteZ c) 15)) with
  | Some h, Some l => bool_decide (Zbyte (Z.lor (Z.shiftl h 4) l) = c)
  | _, _ => false
  end.

Lemma hexPair_all c : hexPair c = true.
Proof. apply forall_byte. by vm_compute. Qed.

Lemma hexDecode_encode s : hexDecode (hexEncode s) = Some s.
Proof.
  induction s as [|c s IH]; [done|]. pose proof (hexPair_all c) as Hc. unfold hexPair in Hc. simpl.
  destruct (hexNibble _) as [h|]; [|done]. destruct (hexNibble _) as [l|]; [|done].
  apply bool_decide_eq_true in Hc. by rewrite IH, Hc.
Qed.

Lemma hexEncode_length s : String.length (hexEncode s) = (2 * String.length s)%nat.
Proof. induction s; simpl; lia. Qed.

Lemma evenHex_encode s : evenHex (hexEncode s) = hexEncode s.
Proof. unfold evenHex. rewrite hexEncode_length, Nat.odd_mul. done. Qed.

(** ** Base64 round trip *)

Lemma base64Digits_range s : forall d, d ∈ base64Digits s -> 0 <= d < 64.
Proof.
  revert s. fix IH 1. intros [|a [|b [|c s]]] d; simpl;
    [intros []%elem_of_nil| | |];
    rewrite ?elem_of_cons, ?elem_of_nil; pose proof (byteZ_range a); try pose proof (byteZ_range b); try pose proof (byteZ_range c).
  all: intros Hd; repeat (destruct Hd as [->|Hd]; [Z.div_mod_to_equations; lia|]).
  1, 2: done. by apply (IH s).
Qed.

Lemma digitsBytes_digits s : digitsBytes (base64Digits s) = Some s.
Proof.
  revert s. fix IH 1. intros [|a [|b [|c s]]]; simpl; [done| | |];
    pose proof (byteZ_range a); try pose proof (byteZ_range b); try pose proof (byteZ_range c).
  - by rewrite (Zbyte_eq _ a) by (Z.div_mod_to_equations; lia).
  - rewrite (Zbyte_eq _ a) by (Z.div_mod_to_equations; lia).
    by rewrite (Zbyte_eq _ b) by (Z.div_mod_to_equations; lia).
  - rewrite (IH s). simpl. rewrite (Zbyte_eq _ a) by (Z.div_mod_to_equations; lia).
    rewrite (Zbyte_eq _ b) by (Z.div_mod_to_equations; lia).
    by rewrite (Zbyte_eq _ c) by (Z.div_mod_to_equations; lia).
Qed.

(** The alphabets: every digit has its own character, not a line end or "=". *)
Definition goodAlphabet (alphabet : string) : bool :=
  forallb (fun d => bool_decide (charDigit alphabet (digitChar alphabet d) = Some d) &&
                    negb (isLineEnd (digitChar alphabet d)) && negb (Ascii.eqb (digitChar alphabet d) "="%char))
    (map Z.of_nat (seq 0 64)).

Lemma good_digit alphabet d :
  goodAlphabet alphabet = true -> 0 <= d < 64 ->
  charDigit alphabet (digitChar alphabet d) = Some d /\ isLineEnd (digitChar alphabet d) = false /\
  digitChar alphabet d <> "="%char.
Proof.
  unfold goodAlphabet. rewrite forallb_forall. intros H Hd.
  specialize (H d). rewrite !andb_true_iff, !negb_true_iff, bool_decide_eq_true in H.
  destruct H as [[H1 H2] H3]; [apply in_map_iff; exists (Z.to_nat d); split; [lia|apply in_seq; lia]|].
  split_and!; [done|done|]. intros E. by rewrite E in H3.
Qed.

Section roundtrip.
Context (alphabet : string) (Hgood : goodAlphabet alphabet = true).

Lemma rawEncode_chars s : base64Chars (rawEncode alphabet s) = map (digitChar alphabet) (base64Digits s).
Proof.
  unfold base64Chars, rawEncode. rewrite String.list_ascii_of_string_of_list_ascii.
  pose proof (base64Digits_range s) as Hr. induction (base64Digits s) as [|d ds IH]; simpl; [done|].
  destruct (good_digit _ d Hgood (Hr d ltac:(left))) as (_ & -> & _). simpl.
  rewrite IH; [done|]. intros x Hx. apply Hr. by right.
Qed.

Lemma charDigits_digitChar ds :
  (forall d, d ∈ ds -> 0 <= d < 64) -> charDigits alphabet (map (digitChar alphabet) ds) = Some ds.
Proof.
  induction ds as [|d ds IH]; simpl; [done|]. intros Hr.
  rewrite (proj1 (good_digit _ d Hgood (Hr d ltac:(left)))), IH; [done|]. intros x Hx. apply Hr. by right.
Qed.

Lemma decodeChars_digits s : decodeChars alphabet (map (digitChar alphabet) (base64Digits s)) = Some s.
Proof.
  unfold decodeChars. rewrite charDigits_digitChar by apply base64Digits_range. apply digitsBytes_digits.
Qed.

Lemma rawDecode_encode s : rawDecode alphabet (rawEncode alphabet s) = Some s.
Proof. unfold rawDecode. rewrite rawEncode_chars. apply decodeChars_digits. Qed.
End roundtrip.

Lemma urlAlphabet_good : goodAlphabet urlAlphabet = true.
Proof. by vm_compute. Qed.
Lemma stdAlphabet_good : goodAlphabet stdAlphabet = true.
Proof. by vm_compute. Qed.

(** ** CPS round trip *)

Lemma hexDigit_plain c : is_space (digitChar hexAlphabet (Z.shiftr (byteZ c) 4)) = false /\
  is_space (digitChar hexAlphabet (Z.land (byteZ c) 15)) = false.
Proof.
  pose proof (forall_byte (fun c => negb (is_space (digitChar hexAlphabet (Z.shiftr (byteZ c) 4))) &&
    negb (is_space (digitChar hexAlphabet (Z.land (byteZ c) 15)))) ltac:(by vm_compute) c) as H.
  by apply andb_true_iff in H as [?%negb_true_iff ?%negb_true_iff].
Qed.

Lemma hexEncode_noSpace s : noSpace (hexEncode s) = true.
Proof.
  induction s as [|c s IH]; simpl; [done|]. destruct (hexDigit_plain c) as [-> ->]. done.
Qed.

Lemma cps_body s : cpsStringToBytes ("<b 0x" +:+ hexEncode s +:+ ">") = s.
Proof.
  unfold cpsStringToBytes.
  assert (TrimSpace ("<b 0x" +:+ hexEncode s +:+ ">") = "<b 0x" +:+ hexEncode s +:+ ">") as ->.
  { by apply (TrimSpace_ends "<"%char ("b 0x" +:+ hexEncode s) ">"%char). }
  assert (HasSuffix ("<b 0x" +:+ hexEncode s +:+ ">") ">" = true) as ->.
  { rewrite (string_app_assoc "<b 0x"). apply HasSuffix_app. }
  change ("<b 0x" +:+ hexEncode s +:+ ">") with ("<b " +:+ ("0x" +:+ hexEncode s +:+ ">")).
  rewrite HasPrefix_app, TrimPrefix_app. simpl negb. cbv iota.
  rewrite (string_app_assoc "0x"). unfold TrimSuffix. rewrite HasSuffix_app, length_append.
  replace (_ + _ - _)%nat with (String.length ("0x" +:+ hexEncode s)) by (simpl; lia). rewrite take_string_app.
  rewrite (noSpace_solid ("0x" +:+ hexEncode s)) by exact (hexEncode_noSpace s).
  rewrite TrimPrefix_app. unfold hexDecodeEven. rewrite evenHex_encode. by rewrite hexDecode_encode.
Qed.

(** The decoy packets survive their textual form.  The server configuration
    and the client's read back from the stored string exactly the bytes that
    were generated. *)
Theorem cps_roundtrip b : cpsStringToBytes (CPSMaterialString b) = b.
Proof.
  unfold CPSMaterialString. case_bool_decide as E; [by subst|]. unfold CPSString. simpl (0 <? 0). cbv iota.
  rewrite evenHex_encode. apply cps_body.
Qed.

(** The DNS form, a repeated packet, is not read back. *)
Lemma cps_dns_not_read : cpsStringToBytes (CPSDNSString "x") = "".
Proof. by vm_compute. Qed.
