(* ===== verification/AwgConf.v ===== *)
(** * AwgConf: the awg-quick configuration files

    internal/chain/awg_server.go renders the kernel interfaces of a node (the
    server awg0, the exit links awg-exit-nX of a balancer, the server of an exit
    node); [splitAWGConf] of awg_peersync.go reads a file back as its interface
    section and its peers.  A rendered file is the list of its lines. *)

From S2P Require Import Prelude GoStrings Model Lifecycle Codec.

(** ** The options *)

(** [config.AmneziaOptions] (singbox/config/types.go). *)
Record AmneziaOptions := mkAmneziaOptions {
  Amnezia_JC : Z;
  Amnezia_JMIN : Z;
  Amnezia_JMAX : Z;
  Amnezia_S1 : Z;
  Amnezia_S2 : Z;
  Amnezia_S3 : Z;
  Amnezia_S4 : Z;
  Amnezia_H1 : string;
  Amnezia_H2 : string;
  Amnezia_H3 : string;
  Amnezia_H4 : string;
  Amnezia_I1 : string;
  Amnezia_I2 : string;
  Amnezia_I3 : string;
  Amnezia_I4 : string;
  Amnezia_I5 : string;
  Amnezia_ITime : Z }.

(** [AWGObfsMaterial] (awg_cps.go); packets are byte strings. *)
Record AWGObfsMaterial := mkAWGObfsMaterial {
  Obfs_I1 : string;
  Obfs_I2 : string;
  Obfs_I3 : string;
  Obfs_I4 : string;
  Obfs_I5 : string;
  Obfs_H1 : string;
  Obfs_H2 : string;
  Obfs_H3 : string;
  Obfs_H4 : string;
  Obfs_MimicryProfile : string;
  Obfs_CPSLevel : Z;
  Obfs_AWG3Mode : bool;
  Obfs_HeaderProtectionKey : string;
  Obfs_ContentPaddingAddition : string;
  Obfs_RekeyAfterTime : string;
  Obfs_RandomTrailers : bool;
  Obfs_DisableCookies : bool }.
#[export] Instance eta_AWGObfsMaterial : Eta AWGObfsMaterial := fun r =>
  mkAWGObfsMaterial (Obfs_I1 r) (Obfs_I2 r) (Obfs_I3 r) (Obfs_I4 r) (Obfs_I5 r) (Obfs_H1 r) (Obfs_H2 r)
    (Obfs_H3 r) (Obfs_H4 r) (Obfs_MimicryProfile r) (Obfs_CPSLevel r) (Obfs_AWG3Mode r)
    (Obfs_HeaderProtectionKey r) (Obfs_ContentPaddingAddition r) (Obfs_RekeyAfterTime r)
    (Obfs_RandomTrailers r) (Obfs_DisableCookies r).

(** The zero value. *)
Definition zeroAWGObfsMaterial : AWGObfsMaterial :=
  mkAWGObfsMaterial "" "" "" "" "" "" "" "" "" "" 0 false "" "" "" false false.

Record AWGServerPeer := mkAWGServerPeer {
  Peer_PublicKey : string;
  Peer_AllowedIPs : string;
  Peer_PresharedKey : string }.
#[export] Instance eta_AWGServerPeer : Eta AWGServerPeer := fun r =>
  mkAWGServerPeer (Peer_PublicKey r) (Peer_AllowedIPs r) (Peer_PresharedKey r).
Definition zeroAWGServerPeer : AWGServerPeer := mkAWGServerPeer "" "" "".

Record AWGServerConfParams := mkAWGServerConfParams {
  Server_PrivateKey : string;
  Server_ListenPort : Z;
  Server_TunnelAddress : string;
  Server_MTU : Z;
  Server_Amnezia : option AmneziaOptions;
  Server_AWGVersion : string;
  Server_AWG3 : option AWGObfsMaterial;
  Server_Peers : list AWGServerPeer;
  Server_TUNInterface : string;
  Server_InterfaceName : string }.

Record ExitClientConfParams := mkExitClientConfParams {
  ExitClient_InterfaceName : string;
  ExitClient_PrivateKey : string;
  ExitClient_Address : string;
  ExitClient_ListenPort : Z;
  ExitClient_MTU : Z;
  ExitClient_ExitPublicKey : string;
  ExitClient_ExitEndpoint : string;
  ExitClient_Amnezia : option AmneziaOptions }.

Record ExitServerConfParams := mkExitServerConfParams {
  ExitServer_PrivateKey : string;
  ExitServer_ListenPort : Z;
  ExitServer_TunnelAddress : string;
  ExitServer_MTU : Z;
  ExitServer_BalancerPublicKey : string;
  ExitServer_BalancerAllowedIPs : string;
  ExitServer_Amnezia : option AmneziaOptions;
  ExitServer_MASQUERADENetwork : string;
  ExitServer_WANInterface : string }.

(** ** Lines *)

Definition orElse (s d : string) : string := if s == "" then d else s.
Definition orElseZ (z d : Z) : Z := if z == 0 then d else z.

(** ["Key = %s\n"] and ["Key = %d\n"]. *)
Definition field (key value : string) : string := key +:+ " = " +:+ value.
Definition fieldZ (key : string) (value : Z) : string := field key (itoa value).
Definition when (b : bool) (ls : list string) : list string := if b then ls else [].

(** [writeAmneziaConfLines]. *)
Definition writeAmneziaConfLines (a : AmneziaOptions) (includeCPS : bool) (version : string) : list string :=
  let version := orElse version AWGVersion2 in
  [fieldZ "Jc" (Amnezia_JC a); fieldZ "Jmin" (Amnezia_JMIN a); fieldZ "Jmax" (Amnezia_JMAX a);
   fieldZ "S1" (Amnezia_S1 a); fieldZ "S2" (Amnezia_S2 a)] ++
  when (AWGVersionAtLeast version AWGVersion2) [fieldZ "S3" (Amnezia_S3 a); fieldZ "S4" (Amnezia_S4 a)] ++
  when (Amnezia_H1 a != "")
    [field "H1" (Amnezia_H1 a); field "H2" (Amnezia_H2 a); field "H3" (Amnezia_H3 a); field "H4" (Amnezia_H4 a)] ++
  when (includeCPS && (Amnezia_I1 a != ""))
    [field "I1" (Amnezia_I1 a); field "I2" (Amnezia_I2 a); field "I3" (Amnezia_I3 a);
     field "I4" (Amnezia_I4 a); field "I5" (Amnezia_I5 a)].

(** [writeAWG3ConfLines]. *)
Definition writeAWG3ConfLines (m : AWGObfsMaterial) : list string :=
  match awg3HPKHexToBase64 (Obfs_HeaderProtectionKey m) with
  | None => []
  | Some hpkB64 =>
      [field "HeaderProtectionKey" hpkB64] ++
      when (Obfs_ContentPaddingAddition m != "") [field "ContentPaddingAddition" (Obfs_ContentPaddingAddition m)] ++
      when (Obfs_RekeyAfterTime m != "") [field "RekeyAfterTime" (Obfs_RekeyAfterTime m)] ++
      when (Obfs_RandomTrailers m) ["RandomTrailers = on"] ++
      when (Obfs_DisableCookies m) ["DisableCookies = on"]
  end.

Definition optAmnezia (a : option AmneziaOptions) (version : string) : list string :=
  match a with Some a => writeAmneziaConfLines a false version | None => [] end.

(** ** The server interface *)

Definition forwardRule (i o : string) : string := "-i " +:+ i +:+ " -o " +:+ o +:+ " -j ACCEPT".

Definition tunHooks (iface tun : string) : list string :=
  [field "PostUp" ("echo 1 > /proc/sys/net/ipv4/ip_forward; " +:+
     "sysctl -w net.ipv4.conf." +:+ iface +:+ ".rp_filter=0 2>/dev/null; " +:+
     "iptables -C FORWARD " +:+ forwardRule iface tun +:+ " 2>/dev/null || iptables -A FORWARD " +:+ forwardRule iface tun +:+ "; " +:+
     "iptables -C FORWARD " +:+ forwardRule tun iface +:+ " 2>/dev/null || iptables -A FORWARD " +:+ forwardRule tun iface);
   field "PostDown" ("iptables -D FORWARD " +:+ forwardRule iface tun +:+ " 2>/dev/null || true; " +:+
     "iptables -D FORWARD " +:+ forwardRule tun iface +:+ " 2>/dev/null || true")].

Definition serverInterface (p : AWGServerConfParams) : list string :=
  let iface := orElse (Server_InterfaceName p) "awg0" in
  [field "Address" (orElse (Server_TunnelAddress p) "10.8.0.1/24")] ++
  when (0 <? Server_ListenPort p) [fieldZ "ListenPort" (Server_ListenPort p)] ++
  [field "PrivateKey" (Server_PrivateKey p); fieldZ "MTU" (orElseZ (Server_MTU p) 1420)] ++
  optAmnezia (Server_Amnezia p) (Server_AWGVersion p) ++
  match Server_AWG3 p with
  | Some m => when (Obfs_HeaderProtectionKey m != "") (writeAWG3ConfLines m)
  | None => []
  end ++
  when (Server_TUNInterface p != "") (tunHooks iface (Server_TUNInterface p)).

Definition peerLines (peer : AWGServerPeer) : list string :=
  if Peer_PublicKey peer == "" then []
  else
    [""; "[Peer]"; field "PublicKey" (Peer_PublicKey peer)] ++
    when (Peer_PresharedKey peer != "") [field "PresharedKey" (Peer_PresharedKey peer)] ++
    [field "AllowedIPs" (orElse (Peer_AllowedIPs peer) "10.8.0.2/32")].

(** [RenderServerAWGConf]. *)
Definition RenderServerAWGConf (p : AWGServerConfParams) : string :=
  unlines (["[Interface]"] ++ serverInterface p ++ flat_map peerLines (Server_Peers p)).

(** ** The exit links *)

(** [fmt]'s %q on ASCII text. *)
Definition quoteChar (c : ascii) : string :=
  let n := byteZ c in
  if n =? 34 then String "\" (String c "")
  else if n =? 92 then String "\" (String c "")
  else if (32 <=? n) && negb (n =? 127) then String c ""
  else if n =? 7 then "\a" else if n =? 8 then "\b" else if n =? 12 then "\f"
  else if n =? 10 then "\n" else if n =? 13 then "\r" else if n =? 9 then "\t" else if n =? 11 then "\v"
  else "\x" +:+ hexEncode (String c "").

Fixpoint quoteBody (s : string) : string :=
  match s with EmptyString => EmptyString | String c s' => quoteChar c +:+ quoteBody s' end.

Definition doubleQuote : string := String (Ascii.ascii_of_nat 34) "".
Definition quoted (s : string) : string := doubleQuote +:+ quoteBody s +:+ doubleQuote.

(** [writeCPSPostUp]: what it appends to the line. *)
Definition writeCPSPostUp (iface : string) (a : AmneziaOptions) : string :=
  if Amnezia_I1 a == "" then ""
  else "; awg set " +:+ iface +:+ " i1 " +:+ quoted (Amnezia_I1 a) +:+ " i2 " +:+ quoted (Amnezia_I2 a) +:+
       " i3 " +:+ quoted (Amnezia_I3 a) +:+ " i4 " +:+ quoted (Amnezia_I4 a) +:+ " i5 " +:+ quoted (Amnezia_I5 a).

(** [fmt.Sscanf(s, "%d", &port)]: the leading decimal digits, with a sign. *)
Definition digitOf (c : ascii) : option Z :=
  let n := byteZ c in if (48 <=? n) && (n <=? 57) then Some (n - 48) else None.

Fixpoint scanDigits (acc : Z) (s : string) : Z :=
  match s with
  | EmptyString => acc
  | String c s' => match digitOf c with Some d => scanDigits (acc * 10 + d) s' | None => acc end
  end.

Definition scanInt (s : string) : Z :=
  match trim_left s with
  | String "-" s' => - scanDigits 0 s'
  | String "+" s' => scanDigits 0 s'
  | s' => scanDigits 0 s'
  end.

(** [splitHostPort] (awg_server.go). *)
Definition splitEndpoint (endpoint : string) : string * Z :=
  match SplitHostPort endpoint with
  | None => (endpoint, 0)
  | Some (host, port) => (host, scanInt port)
  end.

Definition exitInterface (p : ExitClientConfParams) : list string :=
  let iface := orElse (ExitClient_InterfaceName p) "awg-exit-n0" in
  [field "Address" (orElse (ExitClient_Address p) "10.10.0.2/32"); "Table = off"] ++
  when (0 <? ExitClient_ListenPort p) [fieldZ "ListenPort" (ExitClient_ListenPort p)] ++
  [field "PrivateKey" (ExitClient_PrivateKey p); fieldZ "MTU" (orElseZ (ExitClient_MTU p) 1280)] ++
  optAmnezia (ExitClient_Amnezia p) AWGVersion2 ++
  [field "PostUp" ("sysctl -w net.ipv4.conf." +:+ iface +:+ ".rp_filter=0 2>/dev/null" +:+
     match ExitClient_Amnezia p with Some a => writeCPSPostUp iface a | None => "" end)].

Definition exitPeer (p : ExitClientConfParams) : list string :=
  let '(host, port) := splitEndpoint (ExitClient_ExitEndpoint p) in
  [""; "[Peer]"; field "PublicKey" (ExitClient_ExitPublicKey p)] ++
  when (host != "") [field "Endpoint" (host +:+ ":" +:+ itoa port)] ++
  ["AllowedIPs = 0.0.0.0/0, ::/0"; "PersistentKeepalive = 25"].

(** [RenderExitAWGConf]. *)
Definition RenderExitAWGConf (p : ExitClientConfParams) : string :=
  unlines (["[Interface]"] ++ exitInterface p ++ exitPeer p).

(** [strings.FieldsFunc] on comma, space and tab. *)
Definition isNetSep (c : ascii) : bool :=
  Ascii.eqb c ","%char || Ascii.eqb c " "%char || Ascii.eqb c (Ascii.ascii_of_nat 9).
Fixpoint fieldsFunc (cur s : string) : list string :=
  match s with
  | EmptyString => when (cur != "") [cur]
  | String a s' =>
      if isNetSep a then when (cur != "") [cur] ++ fieldsFunc "" s'
      else fieldsFunc (cur +:+ String a "") s'
  end.

Definition masquerade (op net : string) : string :=
  "iptables -t nat " +:+ op +:+ " POSTROUTING -s " +:+ net +:+ " -o $WAN -j MASQUERADE".

Definition wanDetect : string :=
  "$(ip -o route show default 0.0.0.0/0 2>/dev/null | awk '{print $5}' | head -1)".

Definition masqueradeHooks (network wanInterface : string) : list string :=
  let wan := orElse wanInterface wanDetect in
  let nets := List.filter (fun n => n != "") (map TrimSpace (fieldsFunc "" network)) in
  let masqUp := Join "" (map (fun n => masquerade "-C" n +:+ " 2>/dev/null || " +:+ masquerade "-A" n +:+ "; ") nets) in
  let masqDown := Join "" (map (fun n => masquerade "-D" n +:+ " 2>/dev/null || true; ") nets) in
  [field "PostUp" ("echo 1 > /proc/sys/net/ipv4/ip_forward; " +:+
     "sysctl -w net.ipv4.conf.awg0.rp_filter=0 2>/dev/null; " +:+ "WAN=" +:+ wan +:+ "; " +:+ masqUp +:+
     "iptables -C FORWARD -i awg0 -j ACCEPT 2>/dev/null || iptables -A FORWARD -i awg0 -j ACCEPT; " +:+
     "iptables -C FORWARD -o awg0 -j ACCEPT 2>/dev/null || iptables -A FORWARD -o awg0 -j ACCEPT");
   field "PostDown" ("WAN=" +:+ wan +:+ "; " +:+ masqDown +:+
     "iptables -D FORWARD -i awg0 -j ACCEPT 2>/dev/null || true; " +:+
     "iptables -D FORWARD -o awg0 -j ACCEPT 2>/dev/null || true")].

Definition exitServerInterface (p : ExitServerConfParams) : list string :=
  [field "Address" (orElse (ExitServer_TunnelAddress p) "10.11.0.1/24")] ++
  when (0 <? ExitServer_ListenPort p) [fieldZ "ListenPort" (ExitServer_ListenPort p)] ++
  [field "PrivateKey" (ExitServer_PrivateKey p); fieldZ "MTU" (orElseZ (ExitServer_MTU p) 1420)] ++
  optAmnezia (ExitServer_Amnezia p) AWGVersion2 ++
  when (ExitServer_MASQUERADENetwork p != "")
    (masqueradeHooks (ExitServer_MASQUERADENetwork p) (ExitServer_WANInterface p)).

(** [RenderExitServerAWGConf]. *)
Definition RenderExitServerAWGConf (p : ExitServerConfParams) : string :=
  unlines (["[Interface]"] ++ exitServerInterface p ++
    when (ExitServer_BalancerPublicKey p != "")
      [""; "[Peer]"; field "PublicKey" (ExitServer_BalancerPublicKey p);
       field "AllowedIPs" (orElse (ExitServer_BalancerAllowedIPs p) "10.10.0.2/32")]).

(** ** Reading a file: [splitAWGConf] *)

Record SplitState := mkSplitState {
  ss_iface : list string;
  ss_peers : list AWGServerPeer;
  ss_cur : option AWGServerPeer;
  ss_inPeer : bool }.
#[export] Instance eta_SplitState : Eta SplitState := fun r =>
  mkSplitState (ss_iface r) (ss_peers r) (ss_cur r) (ss_inPeer r).

Definition flushPeer (s : SplitState) : SplitState :=
  match ss_cur s with
  | Some p => s <| ss_peers := ss_peers s ++ [p] |> <| ss_cur := None |>
  | None => s
  end.

Definition equals : ascii := "="%char.

Definition splitLine (s : SplitState) (raw : string) : SplitState :=
  let line := TrimSpace raw in
  if line == "" then s
  else if line == "[Interface]" then s <| ss_inPeer := false |>
  else if line == "[Peer]" then
    (flushPeer s) <| ss_cur := Some zeroAWGServerPeer |> <| ss_inPeer := true |>
  else if ss_inPeer s then
    match cut_at equals line, ss_cur s with
    | Some (k, v), Some cur =>
        let k := TrimSpace k in
        if k == "PublicKey" then s <| ss_cur := Some (cur <| Peer_PublicKey := TrimSpace v |>) |>
        else if k == "AllowedIPs" then s <| ss_cur := Some (cur <| Peer_AllowedIPs := TrimSpace v |>) |>
        else s
    | _, _ => s
    end
  else s <| ss_iface := ss_iface s ++ [line] |>.

Definition splitAWGConf (content : string) : string * list AWGServerPeer :=
  let s := flushPeer (fold_left splitLine (Split newline content) (mkSplitState [] [] None false)) in
  (Join (String newline "") (ss_iface s), ss_peers s).

#[global] Arguments splitAWGConf : simpl never.
#[global] Arguments RenderServerAWGConf : simpl never.
#[global] Arguments RenderExitAWGConf : simpl never.

(** ** Lemmas: reading back a rendered file *)

(** The lines the renderers emit in an interface section start with a letter. *)
Definition startsPlain (l : string) : Prop :=
  match l with String c _ => is_space c = false /\ c <> "["%char | EmptyString => False end.

Lemma Forall_when (P : string -> Prop) b ls : (b = true -> Forall P ls) -> Forall P (when b ls).
Proof. destruct b; simpl; auto. Qed.

Create HintDb plainLines.
Ltac plain_lines :=
  repeat first
    [ apply Forall_nil_2 | solve [eauto with plainLines]
    | apply Forall_cons_2; [split; [reflexivity|discriminate]|]
    | apply Forall_app_2 | apply Forall_when; intros _
    | match goal with |- Forall _ (match ?o with _ => _ end) => destruct o end ].

Lemma amnezia_plain a b v : Forall startsPlain (writeAmneziaConfLines a b v).
Proof. unfold writeAmneziaConfLines. plain_lines. Qed.
Lemma awg3_plain m : Forall startsPlain (writeAWG3ConfLines m).
Proof. unfold writeAWG3ConfLines. plain_lines. Qed.
Lemma optAmnezia_plain a v : Forall startsPlain (optAmnezia a v).
Proof. unfold optAmnezia. destruct a; [apply amnezia_plain|constructor]. Qed.
#[export] Hint Resolve awg3_plain optAmnezia_plain : plainLines.

Lemma serverInterface_plain p : Forall startsPlain (serverInterface p).
Proof. unfold serverInterface, tunHooks. cbv zeta. plain_lines. Qed.
Lemma exitInterface_plain p : Forall startsPlain (exitInterface p).
Proof. unfold exitInterface. cbv zeta. plain_lines. Qed.
Lemma exitServerInterface_plain p : Forall startsPlain (exitServerInterface p).
Proof. unfold exitServerInterface, masqueradeHooks. cbv zeta. plain_lines. Qed.

Lemma TrimSpace_head c r : is_space c = false -> exists r', TrimSpace (String c r) = String c r'.
Proof.
  intros Hc. unfold TrimSpace. simpl. destruct (trim_right r) as [|d t]; simpl; rewrite ?Hc; simpl; rewrite ?Hc; eauto.
Qed.

Lemma splitLine_iface s l :
  startsPlain l -> ss_inPeer s = false -> splitLine s l = s <| ss_iface := ss_iface s ++ [TrimSpace l] |>.
Proof.
  destruct l as [|c r]; [done|]. intros [Hc Hb] Hin. unfold splitLine.
  destruct (TrimSpace_head c r Hc) as [r' ->].
  rewrite !bool_decide_eq_false_2 by (intros [= ]; congruence). by rewrite Hin.
Qed.

Lemma fold_iface ls : Forall startsPlain ls -> forall s, ss_inPeer s = false ->
  fold_left splitLine ls s = s <| ss_iface := ss_iface s ++ map TrimSpace ls |>.
Proof.
  induction 1 as [|l ls Hl _ IH]; intros s Hs; simpl; [rewrite app_nil_r; by destruct s|].
  rewrite splitLine_iface by done. rewrite IH by done. destruct s; cbn. by rewrite <- app_assoc.
Qed.

(** A value that survives trimming, on one line. *)
Definition plainValue (v : string) : Prop := solid v /\ v <> "" /\ contains_byte newline v = false.

Lemma plainValue_right v : solid v -> trim_right v = v.
Proof.
  intros H. rewrite <- H. unfold TrimSpace. apply trim_left_right. apply trim_right_idem.
Qed.

Lemma TrimSpace_field c key v : is_space c = false -> plainValue v -> TrimSpace (field (String c key) v) = field (String c key) v.
Proof.
  intros Hc (Hs & Hne & _). unfold field, TrimSpace.
  rewrite (string_app_assoc (String c key)), trim_right_app; rewrite (plainValue_right v Hs); [|done].
  by apply trim_left_id.
Qed.

Lemma cut_field key v : contains_byte equals key = false -> cut_at equals (field key v) = Some (key +:+ " ", String " " v).
Proof.
  intros Hk. unfold field. change (" = " +:+ v) with (" " +:+ String equals (String " " v)).
  rewrite string_app_assoc. apply cut_at_app. by rewrite contains_byte_app, Hk.
Qed.

(** A line of a peer section. *)
Lemma splitLine_peer s cur c key v :
  is_space c = false -> c <> "["%char -> contains_byte equals (String c key) = false -> solid (String c key) ->
  plainValue v -> ss_inPeer s = true -> ss_cur s = Some cur ->
  splitLine s (field (String c key) v) =
    if String c key == "PublicKey" then s <| ss_cur := Some (cur <| Peer_PublicKey := v |>) |>
    else if String c key == "AllowedIPs" then s <| ss_cur := Some (cur <| Peer_AllowedIPs := v |>) |>
    else s.
Proof.
  intros Hc Hb He Hk Hv Hin Hcur. unfold splitLine. rewrite (TrimSpace_field c key v Hc Hv).
  rewrite (cut_field _ _ He), Hin, Hcur. unfold field. simpl String.append.
  rewrite !(bool_decide_eq_false_2 (String c _ = _)) by (intros [= ]; congruence).
  change (String c (key +:+ " ")) with (String c key +:+ String " " "").
  rewrite TrimSpace_trailing, (TrimSpace_leading " "%char v) by done. rewrite Hk.
  destruct Hv as [Hs _]. by rewrite Hs.
Qed.

(** What is read back of a rendered peer: no preshared key. *)
Definition livePeer (dflt : string) (p : AWGServerPeer) : AWGServerPeer :=
  mkAWGServerPeer (Peer_PublicKey p) (orElse (Peer_AllowedIPs p) dflt) "".

Definition renderedPeer (p : AWGServerPeer) : Prop :=
  Peer_PublicKey p <> "" ->
  plainValue (Peer_PublicKey p) /\ plainValue (orElse (Peer_AllowedIPs p) "10.8.0.2/32") /\
  (Peer_PresharedKey p <> "" -> plainValue (Peer_PresharedKey p)).

(** The peers read so far, with the one being read. *)
Definition allPeers (s : SplitState) : list AWGServerPeer := ss_peers (flushPeer s).

Lemma splitLine_empty s : splitLine s "" = s.
Proof. done. Qed.

Lemma splitLine_header s :
  splitLine s "[Peer]" = mkSplitState (ss_iface s) (allPeers s) (Some zeroAWGServerPeer) true.
Proof. destruct s as [i ps [c|] b]; reflexivity. Qed.

Lemma fold_peer s p :
  renderedPeer p ->
  let s' := fold_left splitLine (peerLines p) s in
  ss_iface s' = ss_iface s /\
  allPeers s' = allPeers s ++ (if Peer_PublicKey p == "" then [] else [livePeer "10.8.0.2/32" p]) /\
  (ss_inPeer s = true -> ss_inPeer s' = true).
Proof.
  intros Hp. unfold peerLines. case_bool_decide as Ek; [by rewrite app_nil_r|].
  destruct (Hp Ek) as (Hk & Ha & Hpsk). cbn [fold_left app]. rewrite splitLine_empty, splitLine_header.
  rewrite (splitLine_peer _ zeroAWGServerPeer "P"%char "ublicKey") by done.
  rewrite (bool_decide_eq_true_2 ("PublicKey" = "PublicKey")) by done.
  rewrite fold_left_app. set (s1 := _ <| ss_cur := _ |>).
  assert (fold_left splitLine (when (Peer_PresharedKey p != "") [field "PresharedKey" (Peer_PresharedKey p)]) s1 = s1) as ->.
  { case_bool_decide as Eq; simpl; [done|].
    rewrite (splitLine_peer s1 (zeroAWGServerPeer <| Peer_PublicKey := Peer_PublicKey p |>) "P"%char "resharedKey") by first [done|by apply Hpsk].
    by rewrite !bool_decide_eq_false_2 by discriminate. }
  cbn [fold_left].
  rewrite (splitLine_peer s1 (zeroAWGServerPeer <| Peer_PublicKey := Peer_PublicKey p |>) "A"%char "llowedIPs") by done.
  rewrite (bool_decide_eq_false_2 ("AllowedIPs" = "PublicKey")), (bool_decide_eq_true_2 ("AllowedIPs" = "AllowedIPs")) by done.
  done.
Qed.

Lemma fold_peers ps : Forall renderedPeer ps -> forall s,
  let s' := fold_left splitLine (flat_map peerLines ps) s in
  ss_iface s' = ss_iface s /\
  allPeers s' = allPeers s ++ map (livePeer "10.8.0.2/32") (List.filter (fun p => Peer_PublicKey p != "") ps).
Proof.
  induction 1 as [|p ps Hp _ IH]; intros s; simpl; [by rewrite app_nil_r|].
  rewrite fold_left_app. destruct (fold_peer s p Hp) as (H1 & H2 & _).
  destruct (IH (fold_left splitLine (peerLines p) s)) as [H3 H4]. rewrite H3, H4, H1, H2.
  split; [done|]. rewrite <- app_assoc. case_bool_decide; done.
Qed.

(** A configuration whose values are plain text on one line each. *)
Definition plainConf (p : AWGServerConfParams) : Prop :=
  Forall (fun l => contains_byte newline l = false) (serverInterface p) /\ Forall renderedPeer (Server_Peers p).

Lemma plainValue_newline k v : contains_byte newline k = false -> plainValue v -> contains_byte newline (field k v) = false.
Proof. intros Hk (_ & _ & Hv). unfold field. by rewrite !contains_byte_app, Hk, Hv. Qed.

Lemma peerLines_plain p : renderedPeer p -> Forall (fun l => contains_byte newline l = false) (peerLines p).
Proof.
  intros Hp. unfold peerLines. case_bool_decide as Ek; [constructor|]. destruct (Hp Ek) as (Hk & Ha & Hs).
  do 2 (constructor; [done|]). constructor; [by apply plainValue_newline|]. apply Forall_app_2.
  - case_bool_decide; simpl; repeat constructor. by apply plainValue_newline, Hs.
  - constructor; [by apply plainValue_newline|constructor].
Qed.

Lemma lines_newline iface ps :
  Forall (fun l => contains_byte newline l = false) iface -> Forall renderedPeer ps ->
  Forall (fun l => contains_byte newline l = false) (["[Interface]"] ++ iface ++ flat_map peerLines ps).
Proof.
  intros Hi Hp. apply Forall_cons_2; [done|]. apply Forall_app_2; [done|].
  induction Hp as [|q qs Hq _ IH]; simpl; [constructor|]. apply Forall_app_2; [by apply peerLines_plain|exact IH].
Qed.

Lemma conf_newline p :
  plainConf p ->
  Forall (fun l => contains_byte newline l = false)
    (["[Interface]"] ++ serverInterface p ++ flat_map peerLines (Server_Peers p)).
Proof. intros [Hi Hp]. by apply lines_newline. Qed.

Lemma split_lines iface ps :
  Forall startsPlain iface -> Forall (fun l => contains_byte newline l = false) iface -> Forall renderedPeer ps ->
  splitAWGConf (unlines (["[Interface]"] ++ iface ++ flat_map peerLines ps)) =
    (Join (String newline "") (map TrimSpace iface),
     map (livePeer "10.8.0.2/32") (List.filter (fun q => Peer_PublicKey q != "") ps)).
Proof.
  intros Hs Hi Hp. unfold splitAWGConf. rewrite Split_unlines by by apply lines_newline.
  rewrite !fold_left_app. cbn [fold_left]. rewrite splitLine_empty.
  change (splitLine (mkSplitState [] [] None false) "[Interface]") with (mkSplitState [] [] None false).
  rewrite (fold_iface iface) by done.
  change ((mkSplitState [] [] None false) <| ss_iface := _ |>) with (mkSplitState (map TrimSpace iface) [] None false).
  pose proof (fold_peers _ Hp (mkSplitState (map TrimSpace iface) [] None false)) as Hf. revert Hf.
  generalize (fold_left splitLine (flat_map peerLines ps) (mkSplitState (map TrimSpace iface) [] None false)).
  cbv zeta. intros s' [H1 H2]. cbn in H1, H2. unfold allPeers in H2. rewrite H2, <- H1. f_equal.
  unfold flushPeer. by destruct (ss_cur s').
Qed.

Lemma split_render p :
  plainConf p ->
  splitAWGConf (RenderServerAWGConf p) =
    (Join (String newline "") (map TrimSpace (serverInterface p)),
     map (livePeer "10.8.0.2/32") (List.filter (fun q => Peer_PublicKey q != "") (Server_Peers p))).
Proof. intros [Hi Hp]. apply split_lines; [apply serverInterface_plain|done|done]. Qed.
