(* ===== verification/PeerSync.v ===== *)
(** * PeerSync: peers of a live interface

    internal/chain/awg_peersync.go, and the per-file step of [pushAWGConfs]
    (awg_push.go).  A deploy that only changes the peers of a kernel interface
    does not restart it: the peers are set and removed one by one.  The
    interface on the node is the state [KernelIface]; what awg-quick makes of a
    file is the interface [AwgQuick]. *)

From S2P Require Import Prelude GoStrings Model Codec AwgConf.

(** ** The node *)

Record KernelPeer := mkKernelPeer { kp_psk : string; kp_allowed : string }.

Record KernelIface := mkKernelIface {
  ki_active : bool;                     (* the awg-quick unit *)
  ki_file : option string;              (* its configuration file *)
  ki_section : string;                  (* the interface section it runs with *)
  ki_peers : gmap string KernelPeer }.
#[export] Instance eta_KernelIface : Eta KernelIface := fun r =>
  mkKernelIface (ki_active r) (ki_file r) (ki_section r) (ki_peers r).

(** What the kernel interface has after awg-quick brought a file up. *)
Definition peerEntry (q : AWGServerPeer) : string * KernelPeer :=
  (Peer_PublicKey q, mkKernelPeer (Peer_PresharedKey q) (orElse (Peer_AllowedIPs q) "10.8.0.2/32")).

Definition credentialed (ps : list AWGServerPeer) : list AWGServerPeer :=
  List.filter (fun q => Peer_PublicKey q != "") ps.

Class AwgQuick := {
  upPeers : string -> gmap string KernelPeer;
  upPeers_rendered : forall p, plainConf p -> NoDup (map Peer_PublicKey (credentialed (Server_Peers p))) ->
    upPeers (RenderServerAWGConf p) = list_to_map (map peerEntry (credentialed (Server_Peers p))) }.

(** A command: executed and its result seen, or an error is seen although the
    command may have been executed. *)
Inductive CmdOutcome := CmdOK | CmdFailed (applied : bool).

Definition cmdEffect {A} (o : CmdOutcome) (f : A -> A) (a : A) : A :=
  match o with CmdOK => f a | CmdFailed applied => if applied then f a else a end.

(** ** [syncAWGPeers] *)

Inductive SyncResult := Synced | SyncFailed | SyncPanic.

(** [awg set <iface> peer <key> allowed-ips <list>]: a peer keeps its preshared
    key, a new one has none. *)
Definition setPeer (key allowed : string) (m : gmap string KernelPeer) : gmap string KernelPeer :=
  <[key := mkKernelPeer (match m !! key with Some p => kp_psk p | None => "" end) allowed]> m.

(** The error message takes the first eight bytes of the key. *)
Definition cmdError (key : string) : SyncResult :=
  if (String.length key <? 8)%nat then SyncPanic else SyncFailed.

(** [run n] is the outcome of the [n]th command. *)
Fixpoint setPeers (run : nat -> CmdOutcome) (n : nat) (desired : list AWGServerPeer) (m : gmap string KernelPeer)
    : SyncResult * nat * gmap string KernelPeer :=
  match desired with
  | [] => (Synced, n, m)
  | p :: desired' =>
      if Peer_PublicKey p == "" then setPeers run n desired' m
      else
        let m' := cmdEffect (run n) (setPeer (Peer_PublicKey p) (orElse (Peer_AllowedIPs p) "0.0.0.0/0, ::/0")) m in
        match run n with
        | CmdOK => setPeers run (S n) desired' m'
        | CmdFailed _ => (cmdError (Peer_PublicKey p), S n, m')
        end
  end.

(** The keys of the live map, in the order [range] visits them. *)
Fixpoint removePeers (run : nat -> CmdOutcome) (n : nat) (want : list string) (live : list string)
    (m : gmap string KernelPeer) : SyncResult * nat * gmap string KernelPeer :=
  match live with
  | [] => (Synced, n, m)
  | pub :: live' =>
      if bool_decide (pub ∈ want) then removePeers run n want live' m
      else
        let m' := cmdEffect (run n) (delete pub) m in
        match run n with
        | CmdOK => removePeers run (S n) want live' m'
        | CmdFailed _ => (cmdError pub, S n, m')
        end
  end.

(** [live] is the reply to [awg show <iface> peers]; [None] is its error. *)
Definition syncAWGPeers (run : nat -> CmdOutcome) (live : option (list string)) (desired : list AWGServerPeer)
    (m : gmap string KernelPeer) : SyncResult * gmap string KernelPeer :=
  match live with
  | None => (SyncFailed, m)
  | Some live =>
      let want := map Peer_PublicKey (credentialed desired) in
      match setPeers run 0 desired m with
      | (Synced, n, m1) => let '(r, _, m2) := removePeers run n want live m1 in (r, m2)
      | (r, _, m1) => (r, m1)
      end
  end.

(** ** [tryPeerSync] *)

Record SyncFaults := mkSyncFaults {
  sf_isActive : bool;                 (* the reply to is-active arrives *)
  sf_cat : bool;                      (* the file can be read *)
  sf_show : option (list string);     (* the reply to awg show *)
  sf_run : nat -> CmdOutcome }.

Definition tryPeerSync (f : SyncFaults) (content : string) (k : KernelIface) : SyncResult * KernelIface :=
  if negb (ki_active k && sf_isActive f) then (SyncFailed, k)
  else
    match ki_file k with
    | Some remote =>
        if negb (sf_cat f) then (SyncFailed, k)
        else if fst (splitAWGConf remote) != fst (splitAWGConf content) then (SyncFailed, k)
        else
          let '(r, m) := syncAWGPeers (sf_run f) (sf_show f) (snd (splitAWGConf content)) (ki_peers k) in
          (r, k <| ki_peers := m |>)
    | None => (SyncFailed, k)
    end.

(** The step of [pushAWGConfs] for one file, with the restart its failure leads
    to: the file is written, and the interface restarted unless it was synced.
    [writeOK] and [restartOK] are the outcomes of those commands. *)
Definition pushAWGConf `{AwgQuick} (f : SyncFaults) (writeOK restartOK : bool) (content : string) (k : KernelIface)
    : option KernelIface :=
  let '(r, k1) := tryPeerSync f content k in
  match r with
  | SyncPanic => None
  | _ =>
      if negb writeOK then Some k1
      else
        let k2 := k1 <| ki_file := Some content |> in
        match r with
        | Synced => Some k2
        | _ => if restartOK
               then Some (mkKernelIface true (Some content) (fst (splitAWGConf content)) (upPeers content))
               else Some k2
        end
  end.

(** ** Lemmas *)

Lemma lookup_setPeer key allowed m k :
  setPeer key allowed m !! k =
    if decide (k = key) then Some (mkKernelPeer (match m !! key with Some p => kp_psk p | None => "" end) allowed) else m !! k.
Proof. unfold setPeer. destruct (decide (k = key)) as [->|]; [by rewrite lookup_insert_eq|by rewrite lookup_insert_ne]. Qed.

(** The peer a desired entry stands for, given the live map. *)
Definition syncedPeer (m : gmap string KernelPeer) (q : AWGServerPeer) : KernelPeer :=
  mkKernelPeer (match m !! Peer_PublicKey q with Some p => kp_psk p | None => "" end)
               (orElse (Peer_AllowedIPs q) "0.0.0.0/0, ::/0").

Lemma credentialed_cons p ps :
  credentialed (p :: ps) = if Peer_PublicKey p == "" then credentialed ps else p :: credentialed ps.
Proof. unfold credentialed. simpl. by case_bool_decide. Qed.

Lemma elem_keys k ps :
  k ∈ map Peer_PublicKey (credentialed ps) <-> exists q, q ∈ credentialed ps /\ Peer_PublicKey q = k.
Proof. rewrite list_elem_of_In, in_map_iff. setoid_rewrite list_elem_of_In. firstorder. Qed.

Lemma setPeers_synced run desired : forall n m n' m',
  NoDup (map Peer_PublicKey (credentialed desired)) -> setPeers run n desired m = (Synced, n', m') ->
  (forall q, q ∈ credentialed desired -> m' !! Peer_PublicKey q = Some (syncedPeer m q)) /\
  (forall k, k ∉ map Peer_PublicKey (credentialed desired) -> m' !! k = m !! k).
Proof.
  induction desired as [|p ps IH]; intros n m n' m' Hnd; [simpl; intros [= <- <-]; split; [intros q []%elem_of_nil|done]|].
  rewrite credentialed_cons in Hnd |- *. cbn [setPeers]. case_bool_decide as Ek; [by apply IH|].
  simpl map in Hnd |- *. apply NoDup_cons in Hnd as [Hp Hnd].
  destruct (run n) as [|a]; [|unfold cmdError; by destruct (_ <? _)%nat].
  intros Hs. destruct (IH _ _ _ _ Hnd Hs) as [H1 H2]. simpl in H1, H2. split.
  - intros q [->|Hq]%elem_of_cons.
    + rewrite (H2 _ Hp), lookup_setPeer, decide_True by done. done.
    + rewrite (H1 q Hq). unfold syncedPeer. rewrite lookup_setPeer, decide_False; [done|].
      intros E. apply Hp, elem_keys. eauto.
  - intros k [Hk1 Hk2]%not_elem_of_cons. by rewrite (H2 k Hk2), lookup_setPeer, decide_False.
Qed.

Lemma removePeers_synced run want live : forall n m n' m',
  removePeers run n want live m = (Synced, n', m') ->
  forall k, m' !! k = if decide (k ∈ live /\ k ∉ want) then None else m !! k.
Proof.
  induction live as [|pub live IH]; intros n m n' m'; cbn [removePeers].
  { intros [= <- <-] k. rewrite decide_False; [done|]. by intros [?%not_elem_of_nil _]. }
  case_bool_decide as Ew.
  - intros Hr k. rewrite (IH _ _ _ _ Hr k). apply decide_ext. rewrite elem_of_cons. naive_solver.
  - destruct (run n) as [|a]; [|unfold cmdError; by destruct (_ <? _)%nat]. intros Hr k.
    rewrite (IH _ _ _ _ Hr k). unfold cmdEffect. destruct (decide (k = pub)) as [->|Hne].
    + rewrite (decide_True (P := pub ∈ pub :: live /\ _)) by (split; [left|done]). rewrite lookup_delete_eq. by destruct (decide _).
    + rewrite lookup_delete_ne by done. apply decide_ext. rewrite elem_of_cons. naive_solver.
Qed.

(** The result of a sync that reports success. *)
Lemma syncAWGPeers_synced run live desired m m' :
  NoDup (map Peer_PublicKey (credentialed desired)) -> (forall k, k ∈ live <-> is_Some (m !! k)) ->
  syncAWGPeers run (Some live) desired m = (Synced, m') ->
  m' = list_to_map (map (fun q => (Peer_PublicKey q, syncedPeer m q)) (credentialed desired)).
Proof.
  intros Hnd Hlive. unfold syncAWGPeers. destruct (setPeers run 0 desired m) as [[r n] m1] eqn:Es.
  destruct r; [|done|done]. destruct (setPeers_synced _ _ _ _ _ _ Hnd Es) as [H1 H2].
  destruct (removePeers run n _ live m1) as [[r n'] m2] eqn:Er. intros [= -> <-].
  apply map_eq. intros k. rewrite (removePeers_synced _ _ _ _ _ _ _ Er k).
  destruct (decide (k ∈ map Peer_PublicKey (credentialed desired))) as [Hk|Hk].
  - rewrite decide_False by tauto. pose proof Hk as Hk'. apply elem_keys in Hk' as (q & Hq & <-).
    rewrite (H1 q Hq). symmetry. apply elem_of_list_to_map_1.
    + by rewrite <- list_fmap_compose.
    + apply list_elem_of_fmap. eauto.
  - rewrite not_elem_of_list_to_map_1 by (by rewrite <- list_fmap_compose).
    rewrite (H2 k Hk). destruct (decide _) as [|Hn]; [done|]. destruct (m !! k) eqn:E; [|done].
    exfalso. apply Hn. split; [|done]. apply Hlive. by rewrite E.
Qed.

Definition desiredPeers (p : AWGServerConfParams) : list AWGServerPeer :=
  map (livePeer "10.8.0.2/32") (credentialed (Server_Peers p)).

Lemma livePeer_key q : Peer_PublicKey (livePeer "10.8.0.2/32" q) = Peer_PublicKey q.
Proof. done. Qed.

Lemma credentialed_live ps :
  credentialed (map (livePeer "10.8.0.2/32") (credentialed ps)) = map (livePeer "10.8.0.2/32") (credentialed ps).
Proof.
  induction ps as [|p ps IH]; [done|]. rewrite credentialed_cons. case_bool_decide as E; [done|].
  cbn [map]. rewrite credentialed_cons, livePeer_key, bool_decide_eq_false_2 by done. by rewrite IH.
Qed.

(** [tryPeerSync] of a rendered configuration. *)
Lemma tryPeerSync_synced f p k k' :
  plainConf p -> NoDup (map Peer_PublicKey (credentialed (Server_Peers p))) ->
  (forall live, sf_show f = Some live -> forall key, key ∈ live <-> is_Some (ki_peers k !! key)) ->
  tryPeerSync f (RenderServerAWGConf p) k = (Synced, k') ->
  (exists remote, ki_file k = Some remote /\
     fst (splitAWGConf remote) = fst (splitAWGConf (RenderServerAWGConf p))) /\
  ki_active k = true /\
  k' = k <| ki_peers := list_to_map (map (fun q => (Peer_PublicKey q, syncedPeer (ki_peers k) q)) (desiredPeers p)) |>.
Proof.
  intros Hp Hnd Hshow. unfold tryPeerSync. destruct (ki_active k) eqn:Ea; cbn [andb negb]; [|done].
  destruct (sf_isActive f); cbn [andb negb]; [|done]. destruct (ki_file k) as [remote|]; [|done].
  destruct (sf_cat f); cbn [negb]; [|done]. case_bool_decide as Ei; cbn [negb]; [|done].
  rewrite (split_render p Hp). cbn [snd]. destruct (sf_show f) as [live|]; [|done].
  destruct (syncAWGPeers _ _ _ _) as [r m] eqn:Es. intros [= -> <-].
  apply syncAWGPeers_synced in Es; [|by rewrite credentialed_live, map_map|by apply Hshow].
  split; [exists remote; split; [done|by rewrite Ei, (split_render p Hp)]|]. split; [done|]. rewrite Es.
  change (List.filter _ (Server_Peers p)) with (credentialed (Server_Peers p)). by rewrite credentialed_live.
Qed.

Section sync.
Context `{AwgQuick}.

(** C20: the live sync does what the restart does.  When every user either has
    no preshared key or is live with it, a deploy of a rendered configuration
    whose sync reports success leaves the interface with exactly the peers a
    restart would have, runs the interface section of the new file, and has the
    new file on disk; and a failed sync falls back to the restart. *)
Theorem peer_sync_matches_restart f p k k' :
  plainConf p -> NoDup (map Peer_PublicKey (credentialed (Server_Peers p))) ->
  (forall live, sf_show f = Some live -> forall key, key ∈ live <-> is_Some (ki_peers k !! key)) ->
  (forall file, ki_file k = Some file -> ki_section k = fst (splitAWGConf file)) ->
  Forall (fun q => match ki_peers k !! Peer_PublicKey q with
                   | Some live => kp_psk live = Peer_PresharedKey q
                   | None => Peer_PresharedKey q = ""
                   end) (credentialed (Server_Peers p)) ->
  pushAWGConf f true true (RenderServerAWGConf p) k = Some k' ->
  ki_active k' = true /\ ki_file k' = Some (RenderServerAWGConf p) /\
  ki_section k' = fst (splitAWGConf (RenderServerAWGConf p)) /\
  ki_peers k' = upPeers (RenderServerAWGConf p).
Proof.
  intros Hp Hnd Hshow Hsec Hpsk. unfold pushAWGConf.
  destruct (tryPeerSync f (RenderServerAWGConf p) k) as [r k1] eqn:Et.
  destruct r; simpl; [|by intros [= <-]|done]. intros [= <-].
  destruct (tryPeerSync_synced f p k k1 Hp Hnd Hshow Et) as ((remote & Hf & He) & Ha & ->). simpl.
  split_and!; [done|done|by rewrite (Hsec remote Hf)|].
  rewrite upPeers_rendered by done. f_equal. unfold desiredPeers. rewrite map_map.
  apply map_ext_in. intros q Hq%list_elem_of_In. rewrite Forall_forall in Hpsk. specialize (Hpsk q Hq).
  unfold peerEntry, syncedPeer. simpl. f_equal. f_equal.
  - by destruct (ki_peers k !! Peer_PublicKey q).
  - unfold orElse. simpl. destruct (decide (Peer_AllowedIPs q = "")) as [->|Hn]; [done|]. by rewrite !(bool_decide_eq_false_2 _ Hn).
Qed.
End sync.

(** ** Examples *)

Definition sampleConf (peers : list AWGServerPeer) : AWGServerConfParams :=
  mkAWGServerConfParams "serverkey" 51820 "" 0 None "" None peers "sing-box-tun" "".

Definition alice : AWGServerPeer := mkAWGServerPeer "alicekey=" "10.8.0.2/32" "".
Definition bob : AWGServerPeer := mkAWGServerPeer "bobkey12=" "10.8.0.3/32" "".
Definition carol : AWGServerPeer := mkAWGServerPeer "carolkey=" "10.8.0.4/32" "carolpsk=".

(** A reader of rendered files. *)
Definition readLine (s : list AWGServerPeer * option AWGServerPeer) (line : string) :=
  let '(ps, cur) := s in
  let done := match cur with Some p => ps ++ [p] | None => ps end in
  if line == "[Peer]" then (done, Some zeroAWGServerPeer)
  else match cur, cut_at equals line with
       | Some p, Some (k, v) =>
           let k := TrimSpace k in
           (ps, Some (if k == "PublicKey" then p <| Peer_PublicKey := TrimSpace v |>
                      else if k == "AllowedIPs" then p <| Peer_AllowedIPs := TrimSpace v |>
                      else if k == "PresharedKey" then p <| Peer_PresharedKey := TrimSpace v |>
                      else p))
       | _, _ => s
       end.

Definition readDone (s : list AWGServerPeer * option AWGServerPeer) : list AWGServerPeer :=
  match snd s with Some p => fst s ++ [p] | None => fst s end.

Definition readPeers (content : string) : gmap string KernelPeer :=
  list_to_map (map peerEntry (readDone (fold_left readLine (Split newline content) ([], None)))).

Lemma readLine_field ps p c key v :
  c <> "["%char -> contains_byte equals (String c key) = false -> solid (String c key) -> is_space c = false -> plainValue v ->
  readLine (ps, Some p) (field (String c key) v) =
    (ps, Some (if String c key == "PublicKey" then p <| Peer_PublicKey := v |>
               else if String c key == "AllowedIPs" then p <| Peer_AllowedIPs := v |>
               else if String c key == "PresharedKey" then p <| Peer_PresharedKey := v |> else p)).
Proof.
  intros Hb He Hk Hc [Hv _]. unfold readLine. rewrite (cut_field _ _ He).
  rewrite TrimSpace_trailing, (TrimSpace_leading " "%char v) by done. rewrite Hk, Hv.
  unfold field. simpl String.append. by rewrite (bool_decide_eq_false_2 (String c _ = "[Peer]")) by (intros [= ]; congruence).
Qed.

Definition storedPeer (q : AWGServerPeer) : AWGServerPeer :=
  q <| Peer_AllowedIPs := orElse (Peer_AllowedIPs q) "10.8.0.2/32" |>.

Lemma fold_readPeer s p :
  renderedPeer p ->
  readDone (fold_left readLine (peerLines p) s) =
    readDone s ++ (if Peer_PublicKey p == "" then [] else [storedPeer p]).
Proof.
  intros Hp. unfold peerLines. case_bool_decide as Ek; [by rewrite app_nil_r|].
  destruct (Hp Ek) as (Hk & Ha & Hpsk). cbn [fold_left app].
  assert (readLine (readLine s "") "[Peer]" = (readDone s, Some zeroAWGServerPeer)) as -> by (by destruct s as [ps [q|]]).
  rewrite readLine_field by done. rewrite (bool_decide_eq_true_2 ("PublicKey" = "PublicKey")) by done.
  rewrite fold_left_app. case_bool_decide as Eq; cbn [when negb fold_left].
  - rewrite readLine_field by done. rewrite (bool_decide_eq_false_2 ("AllowedIPs" = "PublicKey")),
      (bool_decide_eq_true_2 ("AllowedIPs" = "AllowedIPs")) by done.
    unfold readDone, storedPeer. cbn [fst snd]. do 2 f_equal. destruct p. cbn in *. by subst.
  - rewrite readLine_field by first [done|by apply Hpsk]. rewrite (bool_decide_eq_false_2 ("PresharedKey" = "PublicKey")),
      (bool_decide_eq_false_2 ("PresharedKey" = "AllowedIPs")), (bool_decide_eq_true_2 ("PresharedKey" = "PresharedKey")) by done.
    rewrite readLine_field by done. rewrite (bool_decide_eq_false_2 ("AllowedIPs" = "PublicKey")),
      (bool_decide_eq_true_2 ("AllowedIPs" = "AllowedIPs")) by done.
    unfold readDone, storedPeer. cbn [fst snd]. do 2 f_equal.
Qed.

Lemma readLine_iface ls ps : Forall startsPlain ls -> fold_left readLine ls (ps, None) = (ps, None).
Proof.
  induction 1 as [|l ls Hl _ IH]; [done|]. cbn [fold_left]. destruct l as [|c r]; [done|]. destruct Hl as [_ Hb].
  unfold readLine at 2. by rewrite bool_decide_eq_false_2 by (intros [= ]; congruence).
Qed.

Lemma readPeers_rendered p :
  plainConf p -> readPeers (RenderServerAWGConf p) = list_to_map (map peerEntry (credentialed (Server_Peers p))).
Proof.
  intros [Hi Hp]. unfold readPeers, RenderServerAWGConf. rewrite Split_unlines by (by apply conf_newline).
  rewrite !fold_left_app. cbn [fold_left].
  change (readLine ([], None) "[Interface]") with (([], None) : list AWGServerPeer * option AWGServerPeer).
  rewrite readLine_iface by apply serverInterface_plain. cbn [fold_left].
  assert (forall s, readDone (fold_left readLine (flat_map peerLines (Server_Peers p)) s) =
                    readDone s ++ map storedPeer (credentialed (Server_Peers p))) as Hf.
  { clear Hi. induction Hp as [|q qs Hq _ IH]; intros s; simpl; [by rewrite app_nil_r|].
    rewrite fold_left_app, IH, (fold_readPeer s q Hq), <- app_assoc. by case_bool_decide. }
  set (s := fold_left _ _ ([], None)). assert (readLine s "" = s) as -> by (by destruct s as [ps [q|]]).
  unfold s. rewrite Hf. simpl. f_equal. rewrite map_map. apply map_ext. intros q. unfold peerEntry, storedPeer, orElse. simpl.
  destruct (decide (Peer_AllowedIPs q = "")) as [->|Hn]; [done|]. by rewrite !(bool_decide_eq_false_2 _ Hn).
Qed.

Definition sampleQuick : AwgQuick := Build_AwgQuick readPeers (fun p Hp _ => readPeers_rendered p Hp).

(** An interface that runs the configuration with alice; the deploy adds bob. *)
Definition liveIface (peers : list AWGServerPeer) : KernelIface :=
  mkKernelIface true (Some (RenderServerAWGConf (sampleConf peers)))
    (fst (splitAWGConf (RenderServerAWGConf (sampleConf peers)))) (list_to_map (map peerEntry peers)).

Definition quietFaults (live : list string) : SyncFaults := mkSyncFaults true true (Some live) (fun _ => CmdOK).

Lemma samplePeer_plain ps :
  Forall (fun q => q = alice \/ q = bob \/ q = carol) ps -> plainConf (sampleConf ps).
Proof.
  intros Hs. split; [repeat constructor|]. eapply Forall_impl; [exact Hs|].
  intros q [-> | [-> | ->]] _; repeat split; done.
Qed.

Lemma peer_sync_matches_restart_witness :
  exists k', @pushAWGConf sampleQuick (quietFaults ["alicekey="]) true true
               (RenderServerAWGConf (sampleConf [alice; bob])) (liveIface [alice]) = Some k' /\
    ki_peers k' = readPeers (RenderServerAWGConf (sampleConf [alice; bob])).
Proof.
  destruct (@pushAWGConf sampleQuick (quietFaults ["alicekey="]) true true
              (RenderServerAWGConf (sampleConf [alice; bob])) (liveIface [alice])) as [k'|] eqn:E;
    [|vm_compute in E; discriminate E].
  exists k'. split; [reflexivity|].
  refine (proj2 (proj2 (proj2 (@peer_sync_matches_restart sampleQuick _ (sampleConf [alice; bob]) _ k' _ _ _ _ _ E)))).
  - apply samplePeer_plain. by repeat (apply Forall_cons; split; [auto|]).
  - apply (bool_decide_unpack _). vm_compute. exact I.
  - intros live [= <-] key. rewrite list_elem_of_singleton. cbn [ki_peers liveIface map list_to_map foldr].
    destruct (decide (key = "alicekey=")) as [->|Hn]; [vm_compute; split; eauto|].
    simpl. rewrite lookup_insert_ne by done. rewrite lookup_empty. split; [done|by intros [? ?]].
  - intros file [= <-]. reflexivity.
  - repeat constructor.
Defined.

(** A user with a preshared key added to a live interface gets a peer without
    it: the handshakes of the user's configuration fail until the interface is
    restarted. *)
Lemma live_peer_without_psk :
  match @pushAWGConf sampleQuick (quietFaults ["alicekey="]) true true
          (RenderServerAWGConf (sampleConf [alice; carol])) (liveIface [alice]) with
  | Some k' =>
      ki_peers k' !! "carolkey=" = Some (mkKernelPeer "" "10.8.0.4/32") /\
      readPeers (RenderServerAWGConf (sampleConf [alice; carol])) !! "carolkey=" =
        Some (mkKernelPeer "carolpsk=" "10.8.0.4/32")
  | None => False
  end.
Proof. vm_compute. done. Qed.

(** The endpoint of an exit link is part of its peer section: a moved exit node
    leaves the compared interface section, and the peers to set, unchanged. *)
Lemma exit_endpoint_not_compared :
  let conf addr := RenderExitAWGConf (mkExitClientConfParams "awg-exit-n1" "priv" "10.10.0.2/32" 51901 0 "exitkey=" addr None) in
  splitAWGConf (conf "1.1.1.1:52000") = splitAWGConf (conf "2.2.2.2:52000") /\
  conf "1.1.1.1:52000" <> conf "2.2.2.2:52000".
Proof. split; [vm_compute; reflexivity|]. apply (bool_decide_unpack _). by vm_compute. Qed.
