(* ===== verification/Traffic.v ===== *)
(** * Traffic: per-user traffic of the AWG peers

    internal/chain/awgtraffic.go.  The kernel counts the bytes of each peer of
    an interface since the interface came up.  The panel polls the counters,
    keeps the last reading of every peer in the metrics record of the node, and
    adds the differences to the user the peer belongs to. *)

From S2P Require Import Prelude GoStrings Model StoreCore Store.

(** ** Reading the counters *)

(** [strconv.ParseInt(s, 10, 64)]. *)
Definition decimalDigit (c : ascii) : option Z :=
  let n := Z.of_N (Ascii.N_of_ascii c) - 48 in if (0 <=? n) && (n <=? 9) then Some n else None.

Fixpoint parseDigits (acc : Z) (s : string) : option Z :=
  match s with
  | "" => Some acc
  | String c s' => match decimalDigit c with Some d => parseDigits (10 * acc + d) s' | None => None end
  end.

Definition parseUnsigned (s : string) : option Z := if s == "" then None else parseDigits 0 s.

Definition parseSigned (s : string) : option Z :=
  match s with
  | String "+" s' => parseUnsigned s'
  | String "-" s' => option_map Z.opp (parseUnsigned s')
  | _ => parseUnsigned s
  end.

Definition ParseInt (s : string) : option Z :=
  match parseSigned s with
  | Some z => if (- 2 ^ 63 <=? z) && (z <? 2 ^ 63) then Some z else None
  | None => None
  end.

(** [ParseAWGTransfer]: lines of three fields; a later line of a peer wins. *)
Definition transferLine (res : gmap string (Z * Z)) (line : string) : gmap string (Z * Z) :=
  match Fields line with
  | [pub; a; b] =>
      match ParseInt a, ParseInt b with
      | Some rx, Some tx => <[pub := (rx, tx)]> res
      | _, _ => res
      end
  | _ => res
  end.

Definition ParseAWGTransfer (out : string) : gmap string (Z * Z) :=
  fold_left transferLine (Split newline (TrimSpace out)) ∅.

(** ** Folding a reading into the users *)

(** The bytes a reading adds: a first reading, and one that went back (the
    interface was restarted), count in full. *)
Definition transferDelta (last : option (Z * Z)) (cur : Z * Z) : Z * Z :=
  match last with
  | None => cur
  | Some l =>
      if (fst cur <? fst l) || (snd cur <? snd l) then cur
      else (wrap64 (fst cur - fst l), wrap64 (snd cur - snd l))
  end.

(** [byPub]: the last user that holds the key; no user has the empty key. *)
Definition byPub (users : list User) (pub : string) : option User :=
  if pub == "" then None else List.find (fun u => User_AWGPublicKey u == pub) (rev users).

(** [int64(float64(bytes) / time.Duration.Seconds())] for the bytes and the
    nanoseconds: the rate shown to the operator, IEEE arithmetic. *)
Definition RateOf := Z -> Z -> Z.

Definition creditUser (rate : RateOf) (now : Time) (d : Z * Z) (u : User) : User :=
  let u := if negb (IsZero (User_AWGTrafficAt u)) && (0 <? now - User_AWGTrafficAt u)
           then u <| User_AWGRxRate := rate (fst d) (now - User_AWGTrafficAt u) |>
                  <| User_AWGTxRate := rate (snd d) (now - User_AWGTrafficAt u) |>
           else u in
  u <| User_AWGRxBytes := wrap64 (User_AWGRxBytes u + fst d) |>
    <| User_AWGTxBytes := wrap64 (User_AWGTxBytes u + snd d) |>
    <| User_AWGTrafficAt := now |>.

Record FoldState := mkFoldState {
  fs_world : World;
  fs_snapshot : gmap string (Z * Z);
  fs_updated : Z }.

(** One turn of the loop over the readings: the snapshot moves on whether or
    not the user could be saved. *)
Definition foldPeer (rate : RateOf) (now : Time) (users : list User) (s : FoldState) (e : string * (Z * Z)) : FoldState :=
  let '(pub, cur) := e in
  let d := transferDelta (fs_snapshot s !! pub) cur in
  let snap := <[pub := cur]> (fs_snapshot s) in
  if (fst d =? 0) && (snd d =? 0) then mkFoldState (fs_world s) snap (fs_updated s)
  else
    match byPub users pub with
    | None => mkFoldState (fs_world s) snap (fs_updated s)
    | Some u =>
        match SaveUser now (creditUser rate now d u) (fs_world s) with
        | (Ok _, w) => mkFoldState w snap (wrap64 (fs_updated s + 1))
        | (Err _, w) => mkFoldState w snap (fs_updated s)
        end
    end.

(** [FoldAWGTraffic]; [order] is the order in which the map is iterated. *)
Definition FoldAWGTraffic (rate : RateOf) (now : Time) (order : list (string * (Z * Z))) (m : NodeMetrics) (w : World)
    : Z * NodeMetrics * World :=
  match ListUsers w with
  | Err _ => (0, m, w)
  | Ok users =>
      let s := fold_left (foldPeer rate now users) order (mkFoldState w (NodeMetrics_AWGPeerTransfer m) 0) in
      (fs_updated s, m <| NodeMetrics_AWGPeerTransfer := fs_snapshot s |>, fs_world s)
  end.

Definition awgUserIfaces : list string := ["awg0"; "awg1"].

(** [CollectAWGTrafficForNode]: [reply] is the output of the command for an
    interface, [iter] the iteration order of a Go map. *)
Definition collectIface (rate : RateOf) (iter : gmap string (Z * Z) -> list (string * (Z * Z))) (now : Time)
    (nodeID : string) (reply : string -> option string) (s : Z * World) (iface : string) : Z * World :=
  let '(updated, w) := s in
  match reply iface with
  | None => s
  | Some out =>
      let current := ParseAWGTransfer out in
      if bool_decide (current = ∅) then s
      else
        let m := match GetMetrics nodeID w with
                 | Ok m => m
                 | Err _ => zeroNodeMetrics <| NodeMetrics_HostID := nodeID |>
                 end in
        let '(n, m', w') := FoldAWGTraffic rate now (iter current) m w in
        (wrap64 (updated + n), snd (SaveMetrics now m' w'))
  end.

Definition CollectAWGTrafficForNode (rate : RateOf) (iter : gmap string (Z * Z) -> list (string * (Z * Z))) (now : Time)
    (nodeID : string) (reply : string -> option string) (w : World) : Z * World :=
  fold_left (collectIface rate iter now nodeID reply) awgUserIfaces (0, w).

(** ** Lemmas: saving a user, the account of a user *)

(** What [SaveUser] does to the list of users and to the rest of the store. *)
Lemma SaveUser_effect now u w sf :
  writable w -> readStore w = inr sf ->
  (exists e, SaveUser now u w = (Err e, w) /\ User_MTProxySecret u <> "") \/
  (exists v w' sf', SaveUser now u w = (Ok v, w') /\ writable w' /\ readStore w' = inr sf' /\
     sf_Users sf' = upsert v (sf_Users sf) /\ sf_Metrics sf' = sf_Metrics sf /\
     (v = u \/ v = u <| User_CreatedAt := now |>)).
Proof.
  intros Hw Hr. unfold SaveUser. set (f := fun sf : storeFile => _).
  assert (readOrNew w = Ok sf) as Ho by (unfold readOrNew; by rewrite Hr).
  set (v := if IsZero (User_CreatedAt u) then u <| User_CreatedAt := now |> else u).
  assert (v = u \/ v = u <| User_CreatedAt := now |>) as Hv by (unfold v; case_match; auto).
  assert (User_MTProxySecret v = User_MTProxySecret u) as Hs by (destruct Hv as [-> | ->]; done).
  destruct (f sf) as [[v' sf1]|e] eqn:Ef.
  - right. destruct (modifyStore_writable (readOrNew w) f w sf v' sf1 Hw Ho Ef) as [w' Hm].
    destruct (modifyStore_Ok _ _ _ _ _ Hm) as (sf2 & sf3 & H1 & H2 & H3 & H4 & H5 & _).
    rewrite Ho in H1. injection H1 as <-. rewrite Ef in H2. injection H2 as <-.
    assert (v' = v /\ sf1 = sf <| sf_Users := upsert v (sf_Users sf) |>) as [-> ->].
    { unfold f in Ef. fold v in Ef. cbv zeta in Ef. by repeat case_match; simplify_eq. }
    exists v, w'. eexists. split_and!; [exact Hm| |exact H3|done|done|done].
    unfold writable. rewrite H4, H5. exact Hw.
  - left. exists e. unfold modifyStore. rewrite Ho, Ef. split; [done|]. intros Hn.
    unfold f in Ef. fold v in Ef. cbv zeta in Ef. rewrite Hs, Hn in Ef. simpl in Ef. discriminate.
Qed.

(** The traffic account of user [id], the only holder of the key [pub]. *)
Record account (id pub : string) (t : Z * Z) (users : list User) : Prop := mkAccount {
  ac_keys : NoDup (keys users);
  ac_user : exists u, find_key id users = Some u /\ User_AWGPublicKey u = pub /\ User_MTProxySecret u = "" /\
              (User_AWGRxBytes u, User_AWGTxBytes u) = t;
  ac_only : forall u, u ∈ users -> User_AWGPublicKey u = pub -> User_ID u = id }.

Lemma byPub_elem users pub u : byPub users pub = Some u -> u ∈ users /\ User_AWGPublicKey u = pub.
Proof.
  unfold byPub. case_bool_decide; [done|]. intros Hf. apply find_some in Hf as [Hin Hk].
  split; [|by case_bool_decide]. apply list_elem_of_In. by apply in_rev.
Qed.

Lemma byPub_account id pub t users :
  account id pub t users -> pub <> "" -> exists u, byPub users pub = Some u /\ find_key id users = Some u.
Proof.
  intros [Hn (u & Hu & Hp & _) Ho] Hne. unfold byPub. rewrite bool_decide_eq_false_2 by done.
  destruct (List.find _ (rev users)) as [v|] eqn:E.
  - exists v. split; [done|]. assert (byPub users pub = Some v) as Hb
      by (unfold byPub; by rewrite bool_decide_eq_false_2).
    apply byPub_elem in Hb as [Hv Hk]. rewrite <- (Ho v Hv Hk). by apply (find_key_elem v).
  - exfalso. apply find_key_Some in Hu as [Hin _]. eapply find_none in E.
    + by rewrite bool_decide_eq_true_2 in E.
    + apply -> in_rev. by apply list_elem_of_In.
Qed.

(** Saving a user that holds another key leaves the account alone. *)
Lemma account_other id pub t users v :
  account id pub t users -> User_AWGPublicKey v <> pub -> User_ID v <> id -> account id pub t (upsert v users).
Proof.
  intros [Hn (u & Hu & Hp) Ho] Hv Hi. split.
  - by apply NoDup_keys_upsert.
  - exists u. split; [|done]. by rewrite find_upsert_ne.
  - intros x Hx Hk. apply elem_of_upsert in Hx as [-> | Hx]; [done|eauto].
Qed.

(** Saving the holder with other totals changes the account to them. *)
Lemma account_own id pub t t' users v :
  account id pub t users -> User_ID v = id -> User_AWGPublicKey v = pub -> User_MTProxySecret v = "" ->
  (User_AWGRxBytes v, User_AWGTxBytes v) = t' -> account id pub t' (upsert v users).
Proof.
  intros [Hn _ Ho] Hi Hp Hs Ht. split.
  - by apply NoDup_keys_upsert.
  - exists v. rewrite <- Hi. split; [exact (find_upsert_eq v users)|done].
  - intros x Hx Hk. apply elem_of_upsert in Hx as [-> | Hx]; [done|eauto].
Qed.

Lemma creditUser_fields rate now d u :
  let v := creditUser rate now d u in
  User_ID v = User_ID u /\ User_AWGPublicKey v = User_AWGPublicKey u /\ User_MTProxySecret v = User_MTProxySecret u /\
  (User_AWGRxBytes v, User_AWGTxBytes v) = (wrap64 (User_AWGRxBytes u + fst d), wrap64 (User_AWGTxBytes u + snd d)).
Proof. unfold creditUser. cbv zeta. by case_match. Qed.

Section fold.
Context (rate : RateOf) (now : Time) (id pub : string).

(** The disk holds the account [t] of the user and the metrics [ms]. *)
Definition holds (t : Z * Z) (ms : list NodeMetrics) (w : World) : Prop :=
  writable w /\ exists sf, readStore w = inr sf /\ account id pub t (sf_Users sf) /\ sf_Metrics sf = ms.

Definition add64 (t d : Z * Z) : Z * Z := (wrap64 (fst t + fst d), wrap64 (snd t + snd d)).

Lemma foldPeer_other users t0 t ms s p cur :
  account id pub t0 users -> p <> pub -> holds t ms (fs_world s) ->
  let s' := foldPeer rate now users s (p, cur) in
  holds t ms (fs_world s') /\ fs_snapshot s' !! pub = fs_snapshot s !! pub.
Proof.
  intros Ha Hp Hh. unfold foldPeer. cbv zeta. set (d := transferDelta _ _).
  assert (<[p:=cur]> (fs_snapshot s) !! pub = fs_snapshot s !! pub) as Hsnap by by rewrite lookup_insert_ne.
  case_match; [by split|]. destruct (byPub users p) as [u|] eqn:Eb; [|by split].
  apply byPub_elem in Eb as [Hu Hk]. destruct (creditUser_fields rate now d u) as (Fi & Fk & _).
  assert (User_ID u <> id) as Hid.
  { intros Hid. destruct Ha as [Hn (v & Hv & Hvp & _) _]. apply find_key_elem in Hu; [|done].
    change (key_of u) with (User_ID u) in Hu. congruence. }
  destruct Hh as [Hw (sf & Hr & Hac & Hm)].
  destruct (SaveUser_effect now (creditUser rate now d u) _ _ Hw Hr) as [(e & -> & _)|(v & w' & sf' & -> & Hw' & Hr' & Hus & Hms & Hv)].
  - split; [|done]. split; [done|]. by exists sf.
  - split; [|done]. split; [done|]. exists sf'. rewrite Hus, Hms. split_and!; [done| |done].
    apply account_other; [done| |].
    + assert (User_AWGPublicKey v = User_AWGPublicKey u) as -> by (by destruct Hv as [-> | ->]). congruence.
    + assert (User_ID v = User_ID u) as -> by (by destruct Hv as [-> | ->]). done.
Qed.

Lemma foldPeer_own users t ms s cur :
  account id pub t users -> pub <> "" -> holds t ms (fs_world s) ->
  let s' := foldPeer rate now users s (pub, cur) in
  let d := transferDelta (fs_snapshot s !! pub) cur in
  holds (if (fst d =? 0) && (snd d =? 0) then t else add64 t d) ms (fs_world s') /\ fs_snapshot s' !! pub = Some cur.
Proof.
  intros Ha Hp Hh. unfold foldPeer. cbv zeta. set (d := transferDelta _ _).
  assert (<[pub:=cur]> (fs_snapshot s) !! pub = Some cur) as Hsnap by by rewrite lookup_insert_eq.
  case_match; [by split|].
  destruct (byPub_account _ _ _ _ Ha Hp) as (u & Hb & Hf). rewrite Hb.
  destruct (creditUser_fields rate now d u) as (Fi & Fk & Fs & Ft).
  destruct (ac_user _ _ _ _ Ha) as (u' & Hf' & Hk & Hs & Ht). rewrite Hf in Hf'. injection Hf' as <-.
  apply find_key_Some in Hf as [_ Hid]. change (key_of u) with (User_ID u) in Hid.
  destruct Hh as [Hw (sf & Hr & Hac & Hm)].
  destruct (SaveUser_effect now (creditUser rate now d u) _ _ Hw Hr)
    as [(e & _ & Hne)|(v & w' & sf' & -> & Hw' & Hr' & Hus & Hms & Hv)]; [congruence|].
  split; [|done]. split; [done|]. exists sf'. rewrite Hus, Hms. split_and!; [done| |done].
  apply (account_own _ _ t); [done| | | |].
  - transitivity (User_ID (creditUser rate now d u)); [by destruct Hv as [-> | ->]|congruence].
  - transitivity (User_AWGPublicKey (creditUser rate now d u)); [by destruct Hv as [-> | ->]|congruence].
  - transitivity (User_MTProxySecret (creditUser rate now d u)); [by destruct Hv as [-> | ->]|congruence].
  - rewrite <- Ht. unfold add64. cbn [fst snd]. rewrite <- Ft. by destruct Hv as [-> | ->].
Qed.

(** A whole reading: the user's own entry counts once, the others not at all. *)
Lemma fold_absent users t0 t ms order s :
  account id pub t0 users -> pub ∉ map fst order -> holds t ms (fs_world s) ->
  let s' := fold_left (foldPeer rate now users) order s in
  holds t ms (fs_world s') /\ fs_snapshot s' !! pub = fs_snapshot s !! pub.
Proof.
  intros Ha. revert s. induction order as [|[p cur] order IH]; intros s Hn Hh; [done|].
  cbn [map fst] in Hn. apply not_elem_of_cons in Hn as [Hp Hn].
  destruct (foldPeer_other users t0 t ms s p cur Ha) as [H1 H2]; [done|done|].
  cbn [fold_left]. destruct (IH _ Hn H1) as [H3 H4]. split; [done|]. by rewrite H4.
Qed.

Lemma fold_present users t ms order s cur :
  account id pub t users -> pub <> "" -> NoDup (map fst order) -> (pub, cur) ∈ order -> holds t ms (fs_world s) ->
  let s' := fold_left (foldPeer rate now users) order s in
  let d := transferDelta (fs_snapshot s !! pub) cur in
  holds (if (fst d =? 0) && (snd d =? 0) then t else add64 t d) ms (fs_world s') /\ fs_snapshot s' !! pub = Some cur.
Proof.
  intros Ha Hp Hnd Hin Hh. apply list_elem_of_split in Hin as (l1 & l2 & ->). cbv zeta.
  rewrite map_app in Hnd. cbn [map fst] in Hnd. apply NoDup_app in Hnd as (_ & Hd & Hnd).
  apply NoDup_cons in Hnd as [Hn2 _].
  assert (pub ∉ map fst l1) as Hn1 by (intros H; apply (Hd _ H); left).
  rewrite fold_left_app. cbn [fold_left].
  destruct (fold_absent users t t ms l1 s Ha Hn1 Hh) as [H1 H2].
  destruct (foldPeer_own users t ms _ cur Ha Hp H1) as [H3 H4]. rewrite H2 in H3.
  destruct (fold_absent users _ _ ms l2 _ Ha Hn2 H3) as [H5 H6]. split; [done|]. by rewrite H6.
Qed.
End fold.

(** ** A poll, and the traffic the kernel carries between polls *)

Definition inInt64 (t : Z * Z) : Prop := - 2 ^ 63 <= fst t < 2 ^ 63 /\ - 2 ^ 63 <= snd t < 2 ^ 63.

Lemma ParseInt_range s z : ParseInt s = Some z -> - 2 ^ 63 <= z < 2 ^ 63.
Proof. unfold ParseInt. destruct (parseSigned s); [|done]. case_match; [|done]. intros [= <-]. lia. Qed.

Lemma ParseAWGTransfer_range out pub cur : ParseAWGTransfer out !! pub = Some cur -> inInt64 cur.
Proof.
  unfold ParseAWGTransfer. generalize (Split newline (TrimSpace out)).
  assert (forall ls res, (forall k v, res !! k = Some v -> inInt64 v) ->
            fold_left transferLine ls res !! pub = Some cur -> inInt64 cur) as H; [|intros ls; by apply H].
  induction ls as [|l ls IH]; intros res Hres; cbn [fold_left]; [by apply Hres|]. apply IH. intros k v.
  unfold transferLine. destruct (Fields l) as [|p [|a [|b [|? ?]]]]; try by apply Hres.
  destruct (ParseInt a) as [rx|] eqn:Ea; [|by apply Hres]. destruct (ParseInt b) as [tx|] eqn:Eb; [|by apply Hres].
  destruct (decide (k = p)) as [->|Hk]; [|rewrite lookup_insert_ne by done; by apply Hres].
  rewrite lookup_insert_eq. intros [= <-]. split; by eapply ParseInt_range.
Qed.

(** The last reading of a peer, as stored in the metrics of a node. *)
Definition lastReading (nodeID pub : string) (ms : list NodeMetrics) : option (Z * Z) :=
  match find_key nodeID ms with Some m => NodeMetrics_AWGPeerTransfer m !! pub | None => None end.

Definition credited (t d : Z * Z) : Z * Z := if (fst d =? 0) && (snd d =? 0) then t else add64 t d.

Section polls.
Context (rate : RateOf) (iter : gmap string (Z * Z) -> list (string * (Z * Z))).
Context (Hiter : forall m, iter m ≡ₚ map_to_list m).
Context (nodeID id pub : string) (Hpub : pub <> "").

Lemma SaveMetrics_effect now m w sf :
  writable w -> readStore w = inr sf ->
  exists w' sf', snd (SaveMetrics now m w) = w' /\ writable w' /\ readStore w' = inr sf' /\
    sf_Users sf' = sf_Users sf /\ sf_Metrics sf' = upsert (m <| NodeMetrics_LastChecked := now |>) (sf_Metrics sf).
Proof.
  intros Hw Hr. unfold SaveMetrics. set (f := fun sf : storeFile => _).
  assert (readOrNew w = Ok sf) as Ho by (unfold readOrNew; by rewrite Hr).
  destruct (modifyStore_writable (readOrNew w) f w sf _ _ Hw Ho eq_refl) as [w' Hm].
  destruct (modifyStore_Ok _ _ _ _ _ Hm) as (sf2 & sf3 & H1 & H2 & H3 & H4 & H5 & _).
  rewrite Ho in H1. injection H1 as <-. injection H2 as <-.
  exists w'. eexists. rewrite Hm. split_and!; [done| |exact H3|done|done]. unfold writable. rewrite H4, H5. exact Hw.
Qed.

Lemma GetMetrics_find w sf :
  readStore w = inr sf ->
  let m := match GetMetrics nodeID w with
           | Ok m => m
           | Err _ => zeroNodeMetrics <| NodeMetrics_HostID := nodeID |>
           end in
  NodeMetrics_HostID m = nodeID /\ NodeMetrics_AWGPeerTransfer m !! pub = lastReading nodeID pub (sf_Metrics sf).
Proof.
  intros Hr. unfold GetMetrics, readAny, lastReading. rewrite Hr.
  destruct (find_key nodeID (sf_Metrics sf)) as [m|] eqn:E; [|done]. split; [|done].
  by apply find_key_Some in E as [_ E].
Qed.

(** One poll of the user's interface. *)
Lemma collectIface_round now reply out iface cur t ms n w :
  holds id pub t ms w -> reply iface = Some out -> ParseAWGTransfer out !! pub = Some cur ->
  exists n' w' ms', collectIface rate iter now nodeID reply (n, w) iface = (n', w') /\
    holds id pub (credited t (transferDelta (lastReading nodeID pub ms) cur)) ms' w' /\
    lastReading nodeID pub ms' = Some cur.
Proof.
  intros [Hw (sf & Hr & Hac & Hms)] Hrep Hcur. unfold collectIface. rewrite Hrep.
  rewrite bool_decide_eq_false_2 by (intros He; rewrite He, lookup_empty in Hcur; done).
  pose proof (GetMetrics_find w sf Hr) as HG. cbv zeta in HG |- *. revert HG. generalize (match GetMetrics nodeID w with
    Ok m => m | Err _ => zeroNodeMetrics <| NodeMetrics_HostID := nodeID |> end). intros m [Hid Hlast].
  unfold FoldAWGTraffic, ListUsers, listStore. rewrite Hr.
  pose proof (fold_present rate now id pub (sf_Users sf) t ms (iter (ParseAWGTransfer out))
    (mkFoldState w (NodeMetrics_AWGPeerTransfer m) 0) cur Hac Hpub) as Hf. cbv zeta in Hf.
  cbn [fs_snapshot fs_world] in Hf. rewrite Hlast, Hms in Hf.
  set (s := fold_left _ _ _) in *. destruct Hf as [[Hw1 (sf1 & Hr1 & Hac1 & Hms1)] Hsnap].
  - rewrite Hiter. apply NoDup_fst_map_to_list.
  - rewrite Hiter. by apply elem_of_map_to_list.
  - split; [done|]. by exists sf.
  - set (m' := m <| NodeMetrics_AWGPeerTransfer := fs_snapshot s |>).
    destruct (SaveMetrics_effect now m' _ _ Hw1 Hr1) as (w' & sf' & Hs & Hw' & Hr' & Hu' & Hm').
    eexists _, w', (sf_Metrics sf'). split_and!.
    + cbv iota beta. by rewrite Hs.
    + split; [done|]. exists sf'. by rewrite Hu'.
    + unfold lastReading. rewrite Hm'. set (mm := m' <| NodeMetrics_LastChecked := now |>).
      assert (key_of mm = nodeID) as <- by exact Hid. by rewrite find_upsert_eq.
Qed.

(** A poll of an interface that does not list the user's peer. *)
Definition unlisted (pub : string) (reply : option string) : Prop :=
  match reply with Some out => ParseAWGTransfer out !! pub = None | None => True end.

Lemma collectIface_unlisted now reply iface t ms n w :
  holds id pub t ms w -> unlisted pub (reply iface) ->
  exists n' w' ms', collectIface rate iter now nodeID reply (n, w) iface = (n', w') /\
    holds id pub t ms' w' /\ lastReading nodeID pub ms' = lastReading nodeID pub ms.
Proof.
  intros Hh Hu. unfold collectIface, unlisted in *. destruct (reply iface) as [out|]; [|by eexists _, _, _].
  case_match; [by eexists _, _, _|]. destruct Hh as [Hw (sf & Hr & Hac & Hms)].
  pose proof (GetMetrics_find w sf Hr) as HG. cbv zeta in HG |- *. revert HG. generalize (match GetMetrics nodeID w with
    Ok m => m | Err _ => zeroNodeMetrics <| NodeMetrics_HostID := nodeID |> end). intros m [Hid Hlast].
  unfold FoldAWGTraffic, ListUsers, listStore. rewrite Hr.
  pose proof (fold_absent rate now id pub (sf_Users sf) t t ms (iter (ParseAWGTransfer out))
    (mkFoldState w (NodeMetrics_AWGPeerTransfer m) 0) Hac) as Hf. cbv zeta in Hf.
  cbn [fs_snapshot fs_world] in Hf. rewrite Hlast, Hms in Hf.
  set (s := fold_left _ _ _) in *. destruct Hf as [[Hw1 (sf1 & Hr1 & Hac1 & Hms1)] Hsnap].
  - rewrite Hiter. intros ([p c] & -> & Hp%elem_of_map_to_list)%list_elem_of_fmap. cbn [fst] in Hu. by rewrite Hu in Hp.
  - split; [done|]. by exists sf.
  - set (m' := m <| NodeMetrics_AWGPeerTransfer := fs_snapshot s |>).
    destruct (SaveMetrics_effect now m' _ _ Hw1 Hr1) as (w' & sf' & Hs & Hw' & Hr' & Hu' & Hm').
    eexists _, w', (sf_Metrics sf'). split_and!.
    + cbv iota beta. by rewrite Hs.
    + split; [done|]. exists sf'. by rewrite Hu'.
    + unfold lastReading at 1. rewrite Hm'. set (mm := m' <| NodeMetrics_LastChecked := now |>).
      assert (key_of mm = nodeID) as Ek by exact Hid. rewrite <- Ek at 1. rewrite find_upsert_eq. rewrite Hms in *. exact Hsnap.
Qed.

(** What the kernel does between two polls that reach it: the interface stays
    up and carries [moved] bytes, or it is restarted after [lost] bytes and
    carries [moved] more.  (A poll that fails only merges two intervals.) *)
Inductive Interval := Kept (moved : Z * Z) | Restarted (lost moved : Z * Z).

Definition counterAfter (c : Z * Z) (iv : Interval) : Z * Z :=
  match iv with Kept m => (fst c + fst m, snd c + snd m) | Restarted _ m => m end.

Definition carried (iv : Interval) : Z * Z :=
  match iv with Kept m => m | Restarted l m => (fst l + fst m, snd l + snd m) end.

Definition nonneg (t : Z * Z) : Prop := 0 <= fst t /\ 0 <= snd t.
Definition intervalOK (iv : Interval) : Prop :=
  match iv with Kept m => nonneg m | Restarted l m => nonneg l /\ nonneg m end.

Record Poll := mkPoll {
  poll_now : Time;
  poll_interval : Interval;
  poll_reply : string -> option string }.

Definition totalCarried (polls : list Poll) : Z * Z :=
  fold_right (fun p t => (fst (carried (poll_interval p)) + fst t, snd (carried (poll_interval p)) + snd t)) (0, 0) polls.

(** The replies show the counters of the kernel: the peer is on one of the user
    interfaces, and the other one, when it answers, does not list it. *)
Fixpoint pollsShow (pub : string) (second : bool) (c : Z * Z) (polls : list Poll) : Prop :=
  match polls with
  | [] => True
  | p :: ps =>
      intervalOK (poll_interval p) /\ unlisted pub (poll_reply p (if second then "awg0" else "awg1")) /\
      (exists out, poll_reply p (if second then "awg1" else "awg0") = Some out /\
         ParseAWGTransfer out !! pub = Some (counterAfter c (poll_interval p))) /\
      pollsShow pub second (counterAfter c (poll_interval p)) ps
  end.

Definition runPolls (polls : list Poll) (w : World) : World :=
  fold_left (fun w p => snd (CollectAWGTrafficForNode rate iter (poll_now p) nodeID (poll_reply p) w)) polls w.

Definition neverRestarted (polls : list Poll) : Prop :=
  Forall (fun p => match poll_interval p with Kept _ => True | Restarted _ _ => False end) polls.

(** The bytes one reading adds never exceed what the kernel carried, and are
    exactly that when the interface stayed up. *)
Lemma transferDelta_bounds last c iv :
  nonneg c -> (match last with Some l => l = c | None => c = (0, 0) end) -> intervalOK iv ->
  inInt64 (counterAfter c iv) ->
  let d := transferDelta last (counterAfter c iv) in
  nonneg d /\ fst d <= fst (carried iv) /\ snd d <= snd (carried iv) /\
  match iv with Kept m => d = m | Restarted _ _ => True end.
Proof.
  destruct c as [rx tx]. unfold nonneg, inInt64. cbn [fst snd]. intros Hc Hl Hi Hr.
  destruct last as [l|]; [subst l|injection Hl as -> ->]; unfold transferDelta; cbv zeta;
    destruct iv as [[a b]|[a b] [a' b']]; unfold intervalOK, nonneg in Hi; cbn [counterAfter carried fst snd] in *.
  - assert (((rx + a <? rx) || (tx + b <? tx)) = false) as -> by lia. cbn [fst snd].
    rewrite !wrap64_id by lia. split_and!; try lia. f_equal; lia.
  - case_match; cbn [fst snd]; [lia|]. rewrite !wrap64_id by lia. lia.
  - split_and!; try lia. f_equal; lia.
  - lia.
Qed.

Lemma credited_bounds t d b :
  nonneg t -> nonneg d -> fst t + fst d < 2 ^ 63 -> snd t + snd d < 2 ^ 63 -> credited t d = b ->
  b = (fst t + fst d, snd t + snd d).
Proof.
  destruct t as [rx tx], d as [a c]. unfold nonneg, credited, add64. cbn [fst snd]. intros ? ? ? ? <-.
  case_match; [f_equal; lia|]. rewrite !wrap64_id by lia. done.
Qed.

Lemma collect_round p (second : bool) t ms w c :
  holds id pub t ms w -> unlisted pub (poll_reply p (if second then "awg0" else "awg1")) ->
  (exists out, poll_reply p (if second then "awg1" else "awg0") = Some out /\ ParseAWGTransfer out !! pub = Some c) ->
  exists ms', holds id pub (credited t (transferDelta (lastReading nodeID pub ms) c)) ms' (runPolls [p] w) /\
    lastReading nodeID pub ms' = Some c.
Proof.
  intros Hh H1 (out & H0 & Hc). unfold runPolls, CollectAWGTrafficForNode, awgUserIfaces. cbn [fold_left]. destruct second.
  - destruct (collectIface_unlisted (poll_now p) (poll_reply p) "awg0" t ms 0 w Hh H1) as (n1 & w1 & ms1 & -> & Hh1 & Hl1).
    destruct (collectIface_round (poll_now p) (poll_reply p) out "awg1" c t ms1 n1 w1 Hh1 H0 Hc) as (n2 & w2 & ms2 & -> & Hh2 & Hl2).
    exists ms2. by rewrite <- Hl1.
  - destruct (collectIface_round (poll_now p) (poll_reply p) out "awg0" c t ms 0 w Hh H0 Hc) as (n1 & w1 & ms1 & -> & Hh1 & Hl1).
    destruct (collectIface_unlisted (poll_now p) (poll_reply p) "awg1" _ ms1 n1 w1 Hh1 H1) as (n2 & w2 & ms2 & -> & Hh2 & Hl2).
    exists ms2. by rewrite Hl2.
Qed.

End polls.

(** ** A node with one user *)

Definition tab : string := String (Ascii.ascii_of_nat 9) "".
Definition transferOut (pub rx tx : string) : string := pub +:+ tab +:+ rx +:+ tab +:+ tx +:+ String newline "".

Definition trafficUser : User := zeroUser <| User_ID := "u1" |> <| User_AWGPublicKey := "pk" |>.
Definition trafficWorld : World :=
  mkWorld (Some (Plain (newStoreFile <| sf_Users := [trafficUser] |>))) None None None [] None.

Definition noRate : RateOf := fun _ _ => 0.

Definition onlyAwg0 (out iface : string) : option string := if iface == "awg0" then Some out else None.

Definition samplePolls : list Poll :=
  [ mkPoll 10 (Kept (100, 200)) (onlyAwg0 (transferOut "pk" "100" "200"));
    mkPoll 20 (Kept (5, 0)) (fun i => if i == "awg0" then Some (transferOut "pk" "105" "200") else Some (transferOut "other" "7" "7"));
    mkPoll 30 (Restarted (1, 1) (50, 60)) (onlyAwg0 (transferOut "pk" "50" "60")) ].


(** The readings of a peer are kept by its key alone: a user whose peer is on
    both interfaces of a node is billed again at every poll,
    although nothing is carried any more. *)
Lemma two_interfaces_overcount :
  let reply (iface : string) := Some (if iface == "awg0" then transferOut "pk" "100" "100" else transferOut "pk" "7" "7") in
  let poll w := snd (CollectAWGTrafficForNode noRate map_to_list 10 "n1" reply w) in
  let rx w := match GetUser "u1" w with Ok u => User_AWGRxBytes u | Err _ => 0 end in
  (rx (poll trafficWorld), rx (poll (poll trafficWorld)), rx (poll (poll (poll trafficWorld)))) = (107, 207, 307).
Proof. vm_compute. reflexivity. Qed.
