(* ===== verification/Migrate.v ===== *)
(** * Migrate: the schema migrations at start-up

    internal/chain/store.go ([migrateOnce], [migrateMtproxyUsers],
    [migrateOrphanNodeInfos]) and migrate_v2.go.  [NewStore] brings the store
    file to the current schema version: legacy MTProxy users become users,
    standalone inbounds get a profile, flat chains get levels, and records of
    deleted hosts are dropped. *)

From S2P Require Import Prelude GoStrings Model ChainModel StoreCore Presets Roles.

(** ** Names of the profiles *)

Definition to_upper_ascii (c : ascii) : ascii :=
  let n := Ascii.nat_of_ascii c in
  if (97 <=? n)%nat && (n <=? 122)%nat then Ascii.ascii_of_nat (n - 32) else c.

(** [strings.ToUpper] on ASCII. *)
Fixpoint ToUpper (s : string) : string :=
  match s with "" => "" | String c s' => String (to_upper_ascii c) (ToUpper s') end.

(** The replacer of [migrationProfileIDBase]. *)
Fixpoint dashed (s : string) : string :=
  match s with
  | "" => ""
  | String c s' =>
      String (if Ascii.eqb c "/" || Ascii.eqb c "_" || Ascii.eqb c " " then "-"%char else c) (dashed s')
  end.

(** [migrationProfileIDBase]. *)
Definition migrationProfileIDBase (protocol : string) (port : Z) : string :=
  let p := dashed (ToLower protocol) in
  if 0 <? port then "prof-" +:+ p +:+ "-" +:+ itoa port else "prof-" +:+ p.

(** [uniqueMigrationProfileID]: the loop over the suffixes, with fuel, and the
    first candidate. *)
Fixpoint uniqueFrom (fuel : nat) (used : gset string) (base : string) (i : Z) : option string :=
  match fuel with
  | O => None
  | S fuel' =>
      let cand := base +:+ "-" +:+ itoa i in
      if bool_decide (cand ∈ used) then uniqueFrom fuel' used base (i + 1) else Some cand
  end.

Definition uniqueMigrationProfileID (used : gset string) (base : string) : option string :=
  if bool_decide (base ∈ used) then uniqueFrom (S (size used)) used base 2 else Some base.

(** ** v0 to v1: MTProxy users *)

Record NameState := mkNameState { ns_names : gset string; ns_ids : gset string }.

(** One turn of the loop of [migrateMtproxyUsers]. *)
Definition migrateMtproxyUser (s : NameState) (m : MtproxyUser) : NameState * User :=
  let id := if bool_decide (MtproxyUser_ID m ∈ ns_ids s) then MtproxyUser_ID m +:+ "_mtp" else MtproxyUser_ID m in
  let name := if bool_decide (MtproxyUser_Name m ∈ ns_names s)
              then MtproxyUser_Name m +:+ " (MTProxy @" +:+ MtproxyUser_NodeID m +:+ ")" else MtproxyUser_Name m in
  let domain := if MtproxyUser_FakeTLSDomain m == "" then "disk.yandex.ru" else MtproxyUser_FakeTLSDomain m in
  (mkNameState ({[name]} ∪ ns_names s) ({[id]} ∪ ns_ids s),
   zeroUser <| User_ID := id |> <| User_Name := name |> <| User_Active := MtproxyUser_Enabled m |>
     <| User_CreatedAt := MtproxyUser_CreatedAt m |> <| User_MTProxySecret := MtproxyUser_SecretHex m |>
     <| User_MTProxyDomain := domain |> <| User_MTProxyOrderIndex := MtproxyUser_OrderIndex m |>
     <| User_MTProxyNodes := [MtproxyUser_NodeID m] |>).

Fixpoint migrateMtproxyLoop (s : NameState) (ms : list MtproxyUser) : list User :=
  match ms with
  | [] => []
  | m :: ms' => let '(s', u) := migrateMtproxyUser s m in u :: migrateMtproxyLoop s' ms'
  end.

(** The store of [migrateMtproxyUsers]; its backup is taken by [migrateStep]. *)
Definition migrateMtproxyUsers (sf : storeFile) : storeFile :=
  match sf_MtproxyUsers sf with
  | [] => sf
  | ms =>
      let s := mkNameState (list_to_set (map User_Name (sf_Users sf))) (list_to_set (map User_ID (sf_Users sf))) in
      sf <| sf_Users := sf_Users sf ++ migrateMtproxyLoop s ms |> <| sf_MtproxyUsers := [] |>
  end.

(** ** v1 to v2, first half: standalone inbounds get a profile *)

Definition migratable (ib : NodeInbound) : bool :=
  (NodeInbound_ProfileID ib == "") && ((NodeInbound_Source ib == "") || (NodeInbound_Source ib == "standalone")).

Definition groupKey (ib : NodeInbound) : string :=
  NodeInbound_Protocol ib +:+ "|" +:+ itoa (NodeInbound_Port ib) +:+ "|" +:+ NodeInbound_Obfuscation ib.

(** The keys in the order of their first inbound, with that inbound. *)
Fixpoint groupOrder (seen : gset string) (ibs : list NodeInbound) : list (string * NodeInbound) :=
  match ibs with
  | [] => []
  | ib :: ibs' =>
      if negb (migratable ib) || bool_decide (groupKey ib ∈ seen) then groupOrder seen ibs'
      else (groupKey ib, ib) :: groupOrder ({[groupKey ib]} ∪ seen) ibs'
  end.

Definition migrationProfile (now : Time) (pid : string) (first : NodeInbound) : InboundProfile :=
  let name := ToUpper (NodeInbound_Protocol first) in
  zeroInboundProfile <| InboundProfile_ID := pid |>
    <| InboundProfile_Name := if 0 <? NodeInbound_Port first then name +:+ " :" +:+ itoa (NodeInbound_Port first) else name |>
    <| InboundProfile_Protocol := NodeInbound_Protocol first |> <| InboundProfile_Port := NodeInbound_Port first |>
    <| InboundProfile_Obfuscation := NodeInbound_Obfuscation first |> <| InboundProfile_CreatedAt := now |>.

(** The profile of every key; [None] would be an endless search for an ID. *)
Fixpoint makeProfiles (now : Time) (used : gset string) (order : list (string * NodeInbound))
    : option (list (string * InboundProfile)) :=
  match order with
  | [] => Some []
  | (key, first) :: order' =>
      match uniqueMigrationProfileID used (migrationProfileIDBase (NodeInbound_Protocol first) (NodeInbound_Port first)) with
      | None => None
      | Some pid =>
          option_map (cons (key, migrationProfile now pid first)) (makeProfiles now ({[pid]} ∪ used) order')
      end
  end.

Definition profileOf (table : list (string * InboundProfile)) (key : string) : option InboundProfile :=
  option_map snd (List.find (fun e => fst e == key) table).

Definition setProfile (table : list (string * InboundProfile)) (ib : NodeInbound) : NodeInbound :=
  if migratable ib then
    match profileOf table (groupKey ib) with
    | Some p => ib <| NodeInbound_ProfileID := InboundProfile_ID p |>
    | None => ib
    end
  else ib.

Definition allInbounds (infos : list NodeInfo) : list NodeInbound := flat_map NodeInfo_Inbounds infos.

(** [migrateStandaloneInboundsToProfiles]. *)
Definition migrateStandaloneInboundsToProfiles (now : Time) (sf : storeFile) : option storeFile :=
  let order := groupOrder ∅ (allInbounds (sf_NodeInfos sf)) in
  match makeProfiles now (list_to_set (map InboundProfile_ID (sf_InboundProfiles sf))) order with
  | None => None
  | Some table =>
      Some (sf <| sf_InboundProfiles := sf_InboundProfiles sf ++ map snd table |>
               <| sf_NodeInfos := map (fun ni => ni <| NodeInfo_Inbounds := map (setProfile table) (NodeInfo_Inbounds ni) |>)
                                      (sf_NodeInfos sf) |>)
  end.

(** ** v1 to v2, second half: chains get an entry profile and levels *)

Inductive NodeKind := EntryNode | TransitNode | ExitNode.
#[export] Instance NodeKind_eq_dec : EqDecision NodeKind.
Proof. solve_decision. Defined.

(** The deploy-truth rule: the first node is an entry unless its role says
    otherwise. *)
Definition nodeKind (i : nat) (n : ChainNode) : NodeKind :=
  if ChainNode_Role n == NodeRoleExit then ExitNode
  else if (ChainNode_Role n == NodeRoleEntry) || ((ChainNode_Role n == "") && (i =? 0)%nat) then EntryNode
  else TransitNode.

(** [entryIdx], [transitIdx] and [exitIdx]. *)
Definition indicesOf (k : NodeKind) (nodes : list ChainNode) : list nat :=
  List.filter (fun i => match nodes !! i with Some n => bool_decide (nodeKind i n = k) | None => false end)
    (seq 0 (length nodes)).

Definition chainProto (c : Chain) : string :=
  if Chain_UserProtocol c == "" then UserProtocolAWG else Chain_UserProtocol c.

Definition entryProfileID (c : Chain) : string := "chain-entry-" +:+ Chain_Name c.

Definition entryProfile (now : Time) (c : Chain) : InboundProfile :=
  zeroInboundProfile <| InboundProfile_ID := entryProfileID c |> <| InboundProfile_Name := Chain_Name c +:+ " entry" |>
    <| InboundProfile_Protocol := chainProto c |> <| InboundProfile_Port := chainUserPort c |>
    <| InboundProfile_Obfuscation := Chain_ObfuscationProfile c |>
    <| InboundProfile_AWGCPSCaptureDomain := Chain_AWGCPSCaptureDomain c |> <| InboundProfile_CreatedAt := now |>.

(** The inbound [materializeChainEntryInbound] appends. *)
Definition entryInbound (c : Chain) (entry : ChainNode) (profileID proto : string) : NodeInbound :=
  let ib := zeroNodeInbound <| NodeInbound_Protocol := proto |> <| NodeInbound_Port := chainEntryPort c (ChainNode_ID entry) |>
              <| NodeInbound_Obfuscation := Chain_ObfuscationProfile c |> <| NodeInbound_Source := "chain:" +:+ Chain_Name c |>
              <| NodeInbound_Tag := profileID |> <| NodeInbound_ProfileID := profileID |> in
  if proto == UserProtocolAWG then
    ib <| NodeInbound_ServerPrivKey := Chain_AWGEntryServerPriv c |> <| NodeInbound_ServerPubKey := Chain_AWGEntryServerPub c |>
       <| NodeInbound_AWGServerAddress := "10.8.0.1/24" |> <| NodeInbound_AWGCPSLevel := Chain_AWGCPSLevel c |>
       <| NodeInbound_AWGCPSMimicry := Chain_AWGCPSMimicry c |> <| NodeInbound_AWGCPSI1 := Chain_AWGCPSI1 c |>
       <| NodeInbound_AWGCPSI2 := Chain_AWGCPSI2 c |> <| NodeInbound_AWGCPSI3 := Chain_AWGCPSI3 c |>
       <| NodeInbound_AWGCPSI4 := Chain_AWGCPSI4 c |> <| NodeInbound_AWGCPSI5 := Chain_AWGCPSI5 c |>
       <| NodeInbound_AWGH1 := Chain_AWGH1 c |> <| NodeInbound_AWGH2 := Chain_AWGH2 c |>
       <| NodeInbound_AWGH3 := Chain_AWGH3 c |> <| NodeInbound_AWGH4 := Chain_AWGH4 c |>
  else if proto == UserProtocolTUIC then ib <| NodeInbound_UUID := Chain_TUICEntryUserUUID c |>
  else ib <| NodeInbound_UUID := ChainNode_TransitUUID entry |>.

(** [materializeChainEntryInbound]. *)
Definition materializeChainEntryInbound (ni : NodeInfo) (c : Chain) (entry : ChainNode) (profileID proto : string) : NodeInfo :=
  if existsb (fun ib => (NodeInbound_Tag ib == profileID) || (NodeInbound_ProfileID ib == profileID)) (NodeInfo_Inbounds ni)
  then ni
  else ni <| NodeInfo_Inbounds := NodeInfo_Inbounds ni ++ [entryInbound c entry profileID proto] |>.

(** One turn of the loop over the entries: the node refers to the profile, and
    its record (a new one from the node's own host fields when there is none)
    gets the inbound. *)
Definition entryStep (profileID proto : string) (s : Chain * list NodeInfo) (i : nat) : Chain * list NodeInfo :=
  let '(c, infos) := s in
  match Chain_Nodes c !! i with
  | None => s
  | Some n0 =>
      let n := n0 <| ChainNode_InboundRef := profileID |> in
      let c := c <| Chain_Nodes := <[i := n]> (Chain_Nodes c) |> in
      let ni := match find_key (ChainNode_ID n) infos with
                | Some ni => ni
                | None => zeroNodeInfo <| NodeInfo_Host := ChainNode_Host n |>
                end in
      (c, upsert (materializeChainEntryInbound ni c n profileID proto) infos)
  end.

Definition nodesAt (nodes : list ChainNode) (idx : list nat) : list ChainNode :=
  omap (fun i => nodes !! i) idx.

(** The groups of indices that become levels, in order. *)
Definition levelGroups (nodes : list ChainNode) : list (list nat) :=
  let some (l : list nat) := match l with [] => [] | _ => [l] end in
  some (indicesOf EntryNode nodes) ++ map (fun i => [i]) (indicesOf TransitNode nodes) ++ some (indicesOf ExitNode nodes).

Definition mkLevels (nodes : list ChainNode) (groups : list (list nat)) : list ChainLevel :=
  imap (fun k idx => mkChainLevel ("l" +:+ itoa (Z.of_nat k)) "" (nodesAt nodes idx)) groups.

(** [migrateChainToLevels], for one chain of the store. *)
Definition migrateChainToLevels (now : Time) (c : Chain) (profiles : list InboundProfile) (infos : list NodeInfo)
    : Chain * list InboundProfile * list NodeInfo :=
  if IsLevelized c || (length (Chain_Nodes c) =? 0)%nat then (c, profiles, infos)
  else
    let profiles := if has_key (entryProfileID c) profiles then profiles else profiles ++ [entryProfile now c] in
    let '(c', infos) := fold_left (entryStep (entryProfileID c) (chainProto c)) (indicesOf EntryNode (Chain_Nodes c)) (c, infos) in
    (c' <| Chain_Levels := mkLevels (Chain_Nodes c') (levelGroups (Chain_Nodes c)) |>, profiles, infos).

Fixpoint migrateChains (now : Time) (cs : list Chain) (profiles : list InboundProfile) (infos : list NodeInfo)
    : list Chain * list InboundProfile * list NodeInfo :=
  match cs with
  | [] => ([], profiles, infos)
  | c :: cs' =>
      let '(c', profiles, infos) := migrateChainToLevels now c profiles infos in
      let '(cs'', profiles, infos) := migrateChains now cs' profiles infos in
      (c' :: cs'', profiles, infos)
  end.

(** [migrateInboundProfiles]. *)
Definition migrateInboundProfiles (now : Time) (sf : storeFile) : option storeFile :=
  match migrateStandaloneInboundsToProfiles now sf with
  | None => None
  | Some sf =>
      let '(cs, profiles, infos) := migrateChains now (sf_Chains sf) (sf_InboundProfiles sf) (sf_NodeInfos sf) in
      Some (sf <| sf_Chains := cs |> <| sf_InboundProfiles := profiles |> <| sf_NodeInfos := infos |>)
  end.

(** ** v2 to v3: records of deleted hosts *)

Definition knownHost (sf : storeFile) (id : string) : bool := has_key id (sf_Hosts sf).

Definition keptInfos (sf : storeFile) : list NodeInfo :=
  List.filter (fun ni => knownHost sf (NodeInfo_ID ni)) (sf_NodeInfos sf).
Definition keptMetrics (sf : storeFile) : list NodeMetrics :=
  List.filter (fun m => knownHost sf (NodeMetrics_HostID m)) (sf_Metrics sf).

(** [droppedInfos == 0 && droppedMetrics == 0]. *)
Definition nothingDropped (sf : storeFile) : bool :=
  ((length (keptInfos sf) =? length (sf_NodeInfos sf)) && (length (keptMetrics sf) =? length (sf_Metrics sf)))%nat.

(** The store of [migrateOrphanNodeInfos], and whether anything was dropped. *)
Definition migrateOrphanNodeInfos (sf : storeFile) : storeFile * bool :=
  if nothingDropped sf then (sf, false)
  else (sf <| sf_NodeInfos := keptInfos sf |> <| sf_Metrics := keptMetrics sf |>, true).

(** ** Start-up *)

(** The one-shot backups: the store file is copied unless the backup is there;
    [bak] is whether the backup can be written. *)
Definition backupPreB (bak : bool) (w : World) : World :=
  match w_prebmigrate w, w_store w with
  | None, Some d => if bak then w <| w_prebmigrate := Some d |> else w
  | _, _ => w
  end.

Definition backupPreOrphan (bak : bool) (w : World) : World :=
  match w_preorphan w, w_store w with
  | None, Some d => if bak then w <| w_preorphan := Some d |> else w
  | _, _ => w
  end.

Definition orphanStep (bak : bool) (s : storeFile * World) : storeFile * World :=
  let '(sf, w) := s in
  let '(sf', dropped) := migrateOrphanNodeInfos sf in
  (sf', if dropped then backupPreOrphan bak w else w).

(** One entry of the table of migrations; [None] would be an endless loop. *)
Definition migrateStep (bak : bool) (now : Time) (i : Z) (s : storeFile * World) : option (storeFile * World) :=
  let '(sf, w) := s in
  let stamp (sf : storeFile) := sf <| sf_SchemaVersion := i + 1 |> in
  if i =? 0 then
    Some (stamp (migrateMtproxyUsers sf), match sf_MtproxyUsers sf with [] => w | _ => backupPreB bak w end)
  else if i =? 1 then option_map (fun sf => (stamp sf, w)) (migrateInboundProfiles now sf)
  else let '(sf, w) := orphanStep bak (sf, w) in Some (stamp sf, w).

Fixpoint migrateFrom (bak : bool) (now : Time) (fuel : nat) (s : storeFile * World) : option (storeFile * World) :=
  match fuel with
  | O => Some s
  | S fuel' =>
      if sf_SchemaVersion (fst s) <? currentSchemaVersion then
        match migrateStep bak now (sf_SchemaVersion (fst s)) s with
        | Some s' => migrateFrom bak now fuel' s'
        | None => None
        end
      else Some s
  end.

(** [migrateOnce] for a file with a version that is not negative. *)
Definition migrateOnce (bak : bool) (now : Time) (w : World) : option World :=
  match readStore w with
  | inl _ => Some w
  | inr sf =>
      match migrateFrom bak now 3 (sf, w) with
      | None => None
      | Some (sf', w') =>
          let w'' := if sf_SchemaVersion sf <? currentSchemaVersion then snd (writeStore sf' w') else w' in
          Some (snd (orphanStep bak (sf', w'')))
      end
  end.

(** ** Lemmas: fresh profile identifiers *)

Lemma candidate_inj base i j : base +:+ "-" +:+ itoa i = base +:+ "-" +:+ itoa j -> i = j.
Proof. intros H. apply append_inj_l in H. injection H as H. by apply itoa_inj in H. Qed.

Lemma uniqueFrom_None fuel used base : forall i,
  uniqueFrom fuel used base i = None -> forall j, (j < fuel)%nat -> base +:+ "-" +:+ itoa (i + Z.of_nat j) ∈ used.
Proof.
  induction fuel as [|fuel IH]; intros i Hn j Hj; [lia|]. cbn [uniqueFrom] in Hn.
  case_bool_decide as Hin; [|done]. destruct j as [|j]; [by rewrite Z.add_0_r|].
  replace (i + Z.of_nat (S j)) with (i + 1 + Z.of_nat j) by lia. apply IH; [done|lia].
Qed.

Lemma uniqueFrom_Some fuel used base i id : uniqueFrom fuel used base i = Some id -> id ∉ used.
Proof.
  revert i. induction fuel as [|fuel IH]; intros i; [done|]. cbn [uniqueFrom].
  case_bool_decide as Hin; [by apply IH|]. by intros [= <-].
Qed.

(** The search ends within its fuel: [size used + 1] different candidates
    cannot all be used. *)
Lemma uniqueMigrationProfileID_fresh used base :
  exists id, uniqueMigrationProfileID used base = Some id /\ id ∉ used.
Proof.
  unfold uniqueMigrationProfileID. case_bool_decide as Hb; [|by exists base].
  destruct (uniqueFrom _ used base 2) as [id|] eqn:E; [exists id; split; [done|by eapply uniqueFrom_Some]|].
  exfalso. set (cand j := base +:+ "-" +:+ itoa (2 + Z.of_nat j)).
  assert (NoDup (map cand (seq 0 (S (size used))))) as Hnd.
  { apply NoDup_fmap_2; [|apply NoDup_seq]. intros j k Hjk. apply candidate_inj in Hjk. lia. }
  assert (list_to_set (map cand (seq 0 (S (size used)))) ⊆ used) as Hsub.
  { intros x Hx. apply elem_of_list_to_set, list_elem_of_fmap in Hx as (j & -> & Hj). apply elem_of_seq in Hj.
    apply (uniqueFrom_None _ _ _ _ E). lia. }
  apply subseteq_size in Hsub. rewrite size_list_to_set, length_map, length_seq in Hsub by done. lia.
Qed.

(** The table of [makeProfiles]: the keys of the order, each with a profile
    like its first inbound, under identifiers that are new and distinct. *)
Definition describes (p : InboundProfile) (ib : NodeInbound) : Prop :=
  InboundProfile_Protocol p = NodeInbound_Protocol ib /\ InboundProfile_Port p = NodeInbound_Port ib /\
  InboundProfile_Obfuscation p = NodeInbound_Obfuscation ib.

Lemma makeProfiles_spec now order : forall used,
  exists table, makeProfiles now used order = Some table /\
    Forall2 (fun e t => fst e = fst t /\ describes (snd t) (snd e)) order table /\
    NoDup (map (fun t => InboundProfile_ID (snd t)) table) /\
    Forall (fun t => InboundProfile_ID (snd t) ∉ used) table.
Proof.
  induction order as [|[key first] order IH]; intros used; [exists []; by repeat constructor|]. cbn [makeProfiles].
  destruct (uniqueMigrationProfileID_fresh used
    (migrationProfileIDBase (NodeInbound_Protocol first) (NodeInbound_Port first))) as (pid & -> & Hfresh).
  destruct (IH ({[pid]} ∪ used)) as (table & -> & H2 & Hnd & Hf). exists ((key, migrationProfile now pid first) :: table).
  split_and!; [done| | |].
  - constructor; [|done]. by split.
  - cbn [map snd]. apply NoDup_cons. split; [|done]. intros Hin. apply list_elem_of_fmap in Hin as (t & Ht & Hin).
    rewrite Forall_forall in Hf. apply (Hf t Hin). cbn in Ht. set_solver.
  - constructor; [done|]. eapply Forall_impl; [exact Hf|]. cbn. set_solver.
Qed.

(** Every migratable inbound has its key in the order. *)
Lemma groupOrder_complete ibs : forall seen ib,
  ib ∈ ibs -> migratable ib = true -> groupKey ib ∈ seen \/ groupKey ib ∈ map fst (groupOrder seen ibs).
Proof.
  induction ibs as [|x ibs IH]; intros seen ib Hin Hm; [by apply elem_of_nil in Hin|]. cbn [groupOrder].
  apply elem_of_cons in Hin as [-> | Hin].
  - rewrite Hm. cbn [negb orb]. case_bool_decide; [by left|]. right. left.
  - destruct (negb (migratable x) || bool_decide (groupKey x ∈ seen)); [by apply IH|].
    destruct (IH ({[groupKey x]} ∪ seen) ib Hin Hm) as [H|H]; [|right; by right].
    apply elem_of_union in H as [H|H]; [|by left]. right. apply elem_of_singleton in H. rewrite H. left.
Qed.

(** The keys of the order are those of their inbounds. *)
Lemma groupOrder_keys ibs : forall seen e, e ∈ groupOrder seen ibs -> fst e = groupKey (snd e).
Proof.
  induction ibs as [|x ibs IH]; intros seen e; cbn [groupOrder]; [by intros ?%elem_of_nil|].
  case_match; [by apply IH|]. intros [-> | He]%elem_of_cons; [done|]. by eapply IH.
Qed.

(** ** Standalone inbounds *)

Definition bar : ascii := "|"%char.

Lemma groupKey_inj a b :
  contains_byte bar (NodeInbound_Protocol a) = false -> contains_byte bar (NodeInbound_Protocol b) = false ->
  groupKey a = groupKey b ->
  NodeInbound_Protocol a = NodeInbound_Protocol b /\ NodeInbound_Port a = NodeInbound_Port b /\
  NodeInbound_Obfuscation a = NodeInbound_Obfuscation b.
Proof.
  intros Ha Hb He. apply (f_equal (cut_at bar)) in He. unfold groupKey in He.
  assert (forall ib, contains_byte bar (NodeInbound_Protocol ib) = false ->
    cut_at bar (NodeInbound_Protocol ib +:+ "|" +:+ itoa (NodeInbound_Port ib) +:+ "|" +:+ NodeInbound_Obfuscation ib) =
    Some (NodeInbound_Protocol ib, itoa (NodeInbound_Port ib) +:+ "|" +:+ NodeInbound_Obfuscation ib)) as Hc
    by (intros ib Hib; by apply cut_at_app).
  rewrite (Hc a Ha), (Hc b Hb) in He. injection He as Hp Hr. split; [done|].
  apply (f_equal (cut_at bar)) in Hr.
  assert (forall ib, cut_at bar (itoa (NodeInbound_Port ib) +:+ "|" +:+ NodeInbound_Obfuscation ib) =
    Some (itoa (NodeInbound_Port ib), NodeInbound_Obfuscation ib)) as Hc2
    by (intros ib; apply cut_at_app; by apply itoa_no).
  rewrite !Hc2 in Hr. injection Hr as Hi Ho. by apply itoa_inj in Hi.
Qed.

Lemma profileOf_some (table : list (string * InboundProfile)) key :
  key ∈ map fst table -> exists p, profileOf table key = Some p /\ (key, p) ∈ table.
Proof.
  unfold profileOf. induction table as [|[k p] table IH]; cbn [map fst List.find]; [by intros ?%elem_of_nil|].
  intros Hin. case_bool_decide as Hk; [subst k; exists p; split; [done|left]|].
  apply elem_of_cons in Hin as [-> | Hin]; [done|]. destruct (IH Hin) as (q & Hq & Hel). exists q. split; [done|by right].
Qed.

(** What the first half of the migration makes of one inbound. *)
Definition profiled (profiles : list InboundProfile) (ib ib' : NodeInbound) : Prop :=
  if migratable ib
  then exists p, p ∈ profiles /\ describes p ib /\ ib' = ib <| NodeInbound_ProfileID := InboundProfile_ID p |>
  else ib' = ib.

Lemma table_keys (order : list (string * NodeInbound)) (table : list (string * InboundProfile)) :
  Forall2 (fun e t => fst e = fst t /\ describes (snd t) (snd e)) order table -> map fst order = map fst table.
Proof. induction 1 as [|e t order table [He _] _ IH]; [done|]. cbn [map]. by rewrite He, IH. Qed.

Lemma table_first (order : list (string * NodeInbound)) (table : list (string * InboundProfile)) k p :
  Forall2 (fun e t => fst e = fst t /\ describes (snd t) (snd e)) order table ->
  (k, p) ∈ table -> exists first, (k, first) ∈ order /\ describes p first.
Proof.
  induction 1 as [|[k1 f1] [k2 p2] order table [He Hd] _ IH]; [by intros ?%elem_of_nil|]. cbn in He. subst k2.
  intros [[= -> ->] | Hin]%elem_of_cons; [exists f1; split; [left|done]|].
  destruct (IH Hin) as (f & Hf & Hdf). exists f. split; [by right|done].
Qed.

Lemma setProfile_profiled now used ibs table profiles :
  makeProfiles now used (groupOrder ∅ ibs) = Some table ->
  Forall (fun ib => contains_byte bar (NodeInbound_Protocol ib) = false) ibs -> map snd table ⊆ profiles ->
  forall ib, ib ∈ ibs -> profiled profiles ib (setProfile table ib).
Proof.
  intros Hm Hbar Hsub ib Hin. unfold profiled, setProfile. destruct (migratable ib) eqn:Em; [|done].
  destruct (makeProfiles_spec now (groupOrder ∅ ibs) used) as (table' & Hm' & Hf2 & _). rewrite Hm in Hm'. injection Hm' as <-.
  destruct (groupOrder_complete ibs ∅ ib Hin Em) as [H|H]; [by apply elem_of_empty in H|].
  rewrite (table_keys _ _ Hf2) in H. destruct (profileOf_some table (groupKey ib) H) as (p & -> & Hel).
  destruct (table_first _ _ _ _ Hf2 Hel) as (first & Hfo & Hd).
  pose proof (groupOrder_keys _ _ _ Hfo) as Hk. cbn in Hk.
  assert (first ∈ ibs) as Hfi.
  { clear -Hfo. revert Hfo. generalize (∅ : gset string). induction ibs as [|x ibs IH]; intros seen; cbn [groupOrder];
      [by intros ?%elem_of_nil|]. case_match; [intros H'; right; by eapply IH|].
    intros [[= _ ->] | H']%elem_of_cons; [left|right; by eapply IH]. }
  rewrite Forall_forall in Hbar. destruct (groupKey_inj ib first) as (H1 & H2 & H3); [by apply Hbar..|done|].
  exists p. split_and!; [|destruct Hd as (D1 & D2 & D3); split_and!; congruence|done].
  apply Hsub, list_elem_of_fmap. by exists (groupKey ib, p).
Qed.

(** C40: The profile migration always finishes.  In a store whose inbounds name
    no protocol with a bar (the separator of the grouping key) and whose profiles
    have distinct identifiers, every standalone inbound with an empty profile
    reference gets one to a profile that exists and has its protocol, port and
    obfuscation, and every other inbound, one with a stale reference too, stays as
    it is.  Nothing else of an inbound or of a node changes, the old profiles stay
    in front of the new ones, identifiers stay distinct, and the rest of the file
    (users, chains, hosts, settings and all other sections) is as it was. *)
Theorem standalone_inbounds_profiled now sf :
  Forall (fun ib => contains_byte bar (NodeInbound_Protocol ib) = false) (allInbounds (sf_NodeInfos sf)) ->
  NoDup (keys (sf_InboundProfiles sf)) ->
  exists sf', migrateStandaloneInboundsToProfiles now sf = Some sf' /\
    sf' = sf <| sf_InboundProfiles := sf_InboundProfiles sf' |> <| sf_NodeInfos := sf_NodeInfos sf' |> /\
    (exists new, sf_InboundProfiles sf' = sf_InboundProfiles sf ++ new) /\ NoDup (keys (sf_InboundProfiles sf')) /\
    Forall2 (fun ni ni' => ni' = ni <| NodeInfo_Inbounds := NodeInfo_Inbounds ni' |> /\
                           Forall2 (profiled (sf_InboundProfiles sf')) (NodeInfo_Inbounds ni) (NodeInfo_Inbounds ni'))
      (sf_NodeInfos sf) (sf_NodeInfos sf').
Proof.
  intros Hbar Hnd. unfold migrateStandaloneInboundsToProfiles. set (ibs := allInbounds _) in *.
  set (used := list_to_set (map InboundProfile_ID (sf_InboundProfiles sf)) : gset string).
  destruct (makeProfiles_spec now (groupOrder ∅ ibs) used) as (table & Hm & Hf2 & Hnew & Hfresh). rewrite Hm.
  eexists. split; [done|]. split; [done|]. split; [by eexists|]. split.
  - unfold keys. cbn. rewrite map_app. apply NoDup_app. split; [done|]. split.
    + intros k Hk Hk'. apply list_elem_of_fmap in Hk' as (p & -> & Hp). apply list_elem_of_fmap in Hp as (t & -> & Ht).
      rewrite Forall_forall in Hfresh. apply (Hfresh t Ht). unfold used. by apply elem_of_list_to_set.
    + by rewrite map_map.
  - cbn. assert (forall ni, ni ∈ sf_NodeInfos sf -> NodeInfo_Inbounds ni ⊆ ibs) as Hsub.
    { intros ni Hni ib Hib. apply list_elem_of_In, in_flat_map. exists ni. by rewrite <- !list_elem_of_In. }
    clearbody ibs. revert Hsub. generalize (sf_NodeInfos sf). induction l as [|ni infos IH]; intros Hsub; [constructor|].
    cbn [map]. constructor.
    + split; [done|]. cbn. assert (NodeInfo_Inbounds ni ⊆ ibs) as Hs by (apply Hsub; left).
      clear IH Hsub. induction (NodeInfo_Inbounds ni) as [|ib l IHl]; [constructor|]. cbn [map]. constructor.
      * eapply setProfile_profiled; [exact Hm|done| |apply Hs; left]. intros p Hp. apply elem_of_app. by right.
      * apply IHl. intros x Hx. apply Hs. by right.
    + apply IH. intros ni' Hni'. apply Hsub. by right.
Qed.

(** ** Chains: the levels *)

Definition withRef (pid : string) (n : ChainNode) : ChainNode := n <| ChainNode_InboundRef := pid |>.

(** The flat list with the reference set on the nodes of some positions. *)
Definition refAt (pid : string) (idx : list nat) (nodes : list ChainNode) : list ChainNode :=
  imap (fun j n => if bool_decide (j ∈ idx) then withRef pid n else n) nodes.

(** The nodes of a kind, in order; [i] is the position of the first. *)
Fixpoint nodesOfKind (k : NodeKind) (i : nat) (nodes : list ChainNode) : list ChainNode :=
  match nodes with
  | [] => []
  | n :: nodes' => if bool_decide (nodeKind i n = k) then n :: nodesOfKind k (S i) nodes' else nodesOfKind k (S i) nodes'
  end.

Lemma nodesAt_from k nodes : forall pre,
  nodesAt (pre ++ nodes)
    (List.filter (fun i => match (pre ++ nodes) !! i with Some n => bool_decide (nodeKind i n = k) | None => false end)
       (seq (length pre) (length nodes))) = nodesOfKind k (length pre) nodes.
Proof.
  induction nodes as [|n nodes IH]; intros pre; [done|]. cbn [length seq List.filter nodesOfKind].
  rewrite list_lookup_middle by done. specialize (IH (pre ++ [n])).
  rewrite <- app_assoc, length_app, Nat.add_1_r in IH. cbn [app] in IH.
  case_match; [|exact IH]. cbn [nodesAt omap list_omap]. rewrite list_lookup_middle by done. f_equal. exact IH.
Qed.

Lemma nodesAt_kind k nodes : nodesAt nodes (indicesOf k nodes) = nodesOfKind k 0 nodes.
Proof. apply (nodesAt_from k nodes []). Qed.

Lemma nodesOfKind_perm nodes : forall i,
  nodesOfKind EntryNode i nodes ++ nodesOfKind TransitNode i nodes ++ nodesOfKind ExitNode i nodes ≡ₚ nodes.
Proof.
  induction nodes as [|n nodes IH]; intros i; [done|]. cbn [nodesOfKind].
  specialize (IH (S i)). destruct (nodeKind i n); repeat case_bool_decide; try congruence; cbn [app].
  - by constructor.
  - rewrite <- Permutation_middle. by constructor.
  - rewrite !app_assoc, <- Permutation_middle, <- app_assoc. by constructor.
Qed.

Lemma refAt_length pid idx nodes : length (refAt pid idx nodes) = length nodes.
Proof. apply length_imap. Qed.

Lemma refAt_kind pid idx nodes i n' :
  refAt pid idx nodes !! i = Some n' ->
  exists n, nodes !! i = Some n /\ ChainNode_ID n' = ChainNode_ID n /\ ChainNode_Role n' = ChainNode_Role n.
Proof.
  unfold refAt. rewrite list_lookup_imap. destruct (nodes !! i) as [n|]; [|done]. cbn. intros [= <-].
  exists n. by case_bool_decide.
Qed.

Lemma indicesOf_refAt pid idx k nodes : indicesOf k (refAt pid idx nodes) = indicesOf k nodes.
Proof.
  unfold indicesOf. rewrite refAt_length. apply filter_ext. intros i.
  destruct (refAt pid idx nodes !! i) as [n'|] eqn:E.
  - apply refAt_kind in E as (n & -> & _ & Hr). unfold nodeKind. by rewrite Hr.
  - apply lookup_ge_None in E. rewrite refAt_length in E. by rewrite (proj2 (lookup_ge_None _ _)).
Qed.

Lemma flatten_mkLevels nodes groups : flattenLevels (mkLevels nodes groups) = nodesAt nodes (concat groups).
Proof.
  unfold mkLevels. generalize 0%nat as k0. intros _.
  assert (forall (f : nat -> nat), flattenLevels (imap (fun k idx => mkChainLevel ("l" +:+ itoa (Z.of_nat (f k))) "" (nodesAt nodes idx)) groups)
    = nodesAt nodes (concat groups)) as H; [|exact (H id)].
  induction groups as [|g groups IH]; intros f; [done|]. cbn [imap flattenLevels concat ChainLevel_Nodes].
  unfold nodesAt. rewrite omap_app. f_equal. apply (IH (f ∘ S)).
Qed.

Lemma concat_singletons (l : list nat) : concat (map (fun i => [i]) l) = l.
Proof. induction l as [|i l IH]; [done|]. cbn. by rewrite IH. Qed.

Lemma concat_levelGroups nodes :
  concat (levelGroups nodes) = indicesOf EntryNode nodes ++ indicesOf TransitNode nodes ++ indicesOf ExitNode nodes.
Proof.
  unfold levelGroups. rewrite !concat_app, concat_singletons. f_equal; [|f_equal]; case_match; cbn; by rewrite ?app_nil_r.
Qed.

(** Entries first, then the transit nodes one by one, then the exits. *)
Lemma flatten_migrated pid idx nodes :
  let nodes' := refAt pid idx nodes in
  flattenLevels (mkLevels nodes' (levelGroups nodes)) =
    nodesOfKind EntryNode 0 nodes' ++ nodesOfKind TransitNode 0 nodes' ++ nodesOfKind ExitNode 0 nodes'.
Proof.
  cbv zeta. rewrite flatten_mkLevels, concat_levelGroups. unfold nodesAt. rewrite !omap_app.
  rewrite <- !(indicesOf_refAt pid idx _ nodes). f_equal; [|f_equal]; apply nodesAt_kind.
Qed.

(** ** Chains: ports and records of the entries *)

Lemma nodeIndexFrom_ids id (a b : list ChainNode) :
  map ChainNode_ID a = map ChainNode_ID b -> forall i, nodeIndexFrom i id a = nodeIndexFrom i id b.
Proof.
  revert b. induction a as [|x a IH]; intros [|y b]; try done. cbn [map]. intros [= Hx Hr] i. cbn [nodeIndexFrom].
  rewrite Hx. by rewrite (IH b Hr).
Qed.

Lemma chainEntryPort_ids c c' id :
  Chain_UserEntryPort c' = Chain_UserEntryPort c ->
  map ChainNode_ID (chainEntryNodes c') = map ChainNode_ID (chainEntryNodes c) -> chainEntryPort c' id = chainEntryPort c id.
Proof.
  intros Hp He. unfold chainEntryPort, chainUserPort, chainEntryIndex. by rewrite Hp, (nodeIndexFrom_ids id _ _ He).
Qed.

(** The flat entries see identifiers and roles only. *)
Lemma chainEntryNodes_ids c nodes :
  Chain_Levels c = [] ->
  map (fun n => (ChainNode_ID n, ChainNode_Role n)) nodes = map (fun n => (ChainNode_ID n, ChainNode_Role n)) (Chain_Nodes c) ->
  map ChainNode_ID (chainEntryNodes (c <| Chain_Nodes := nodes |>)) = map ChainNode_ID (chainEntryNodes c).
Proof.
  intros Hl Hm. unfold chainEntryNodes. cbn. rewrite Hl. revert Hm. generalize (Chain_Nodes c) as ns. intros ns Hm.
  assert (map ChainNode_ID (List.filter (fun n => ChainNode_Role n == NodeRoleEntry) nodes) =
          map ChainNode_ID (List.filter (fun n => ChainNode_Role n == NodeRoleEntry) ns)) as Hf.
  { clear Hl. revert nodes Hm. induction ns as [|n ns IH]; intros [|m nodes] Hm; try done. cbn [map] in Hm.
    injection Hm as Hi Hr Hm. cbn [List.filter]. rewrite Hr. case_match; cbn [map]; [|by apply IH].
    rewrite Hi. f_equal. by apply IH. }
  destruct (List.filter _ nodes), (List.filter _ ns); try done.
  destruct nodes, ns; try done. cbn in Hm |- *. congruence.
Qed.

Lemma refAt_ids pid idx nodes :
  map (fun n => (ChainNode_ID n, ChainNode_Role n)) (refAt pid idx nodes) = map (fun n => (ChainNode_ID n, ChainNode_Role n)) nodes.
Proof.
  apply list_eq. intros i. rewrite !list_lookup_fmap. unfold refAt. rewrite list_lookup_imap.
  destruct (nodes !! i); [|done]. cbn. by case_bool_decide.
Qed.

Lemma entryInbound_refAt c pid idx n proto :
  Chain_Levels c = [] ->
  entryInbound (c <| Chain_Nodes := refAt pid idx (Chain_Nodes c) |>) (withRef pid n) pid proto = entryInbound c n pid proto.
Proof.
  intros Hl. unfold entryInbound.
  assert (chainEntryPort (c <| Chain_Nodes := refAt pid idx (Chain_Nodes c) |>) (ChainNode_ID n) = chainEntryPort c (ChainNode_ID n)) as Hp.
  { apply chainEntryPort_ids; [done|]. apply chainEntryNodes_ids; [done|]. apply refAt_ids. }
  cbn in Hp |- *. by rewrite Hp.
Qed.

Lemma refAt_snoc pid idx i nodes n :
  nodes !! i = Some n -> <[i := withRef pid n]> (refAt pid idx nodes) = refAt pid (idx ++ [i]) nodes.
Proof.
  intros Hi. apply list_eq. intros j. unfold refAt. destruct (decide (j = i)) as [->|Hj].
  - rewrite list_lookup_insert_eq by (rewrite length_imap; by eapply lookup_lt_Some). rewrite list_lookup_imap, Hi. cbn.
    rewrite bool_decide_eq_true_2; [done|]. apply elem_of_app. right. left.
  - rewrite list_lookup_insert_ne by done. rewrite !list_lookup_imap. destruct (nodes !! j); [|done]. cbn. f_equal.
    rewrite (bool_decide_ext (j ∈ idx ++ [i]) (j ∈ idx)); [done|]. rewrite elem_of_app, list_elem_of_singleton. tauto.
Qed.

(** What an entry's record becomes: its inbounds stay, and the entry inbound is
    there. *)
Definition holdsInbound (pid : string) (ib : NodeInbound) : bool := (NodeInbound_Tag ib == pid) || (NodeInbound_ProfileID ib == pid).

Definition grown (ni ni' : NodeInfo) : Prop :=
  exists extra, ni' = ni <| NodeInfo_Inbounds := NodeInfo_Inbounds ni ++ extra |>.

Lemma grown_refl ni : grown ni ni.
Proof. exists []. rewrite app_nil_r. by destruct ni. Qed.

Lemma grown_trans a b c : grown a b -> grown b c -> grown a c.
Proof. intros [x ->] [y ->]. exists (x ++ y). cbn. by rewrite app_assoc. Qed.

Lemma materialize_grown ni c n pid proto :
  grown ni (materializeChainEntryInbound ni c n pid proto) /\
  existsb (holdsInbound pid) (NodeInfo_Inbounds (materializeChainEntryInbound ni c n pid proto)) = true /\
  (existsb (holdsInbound pid) (NodeInfo_Inbounds ni) = false ->
   entryInbound c n pid proto ∈ NodeInfo_Inbounds (materializeChainEntryInbound ni c n pid proto)).
Proof.
  unfold materializeChainEntryInbound. fold (holdsInbound pid). destruct (existsb (holdsInbound pid) _) eqn:E.
  - split; [apply grown_refl|]. done.
  - split; [by eexists|]. cbn. split; [|intros _; apply elem_of_app; right; left].
    rewrite existsb_app. apply orb_true_iff. right. cbn. unfold holdsInbound, entryInbound.
    repeat case_match; cbn; by rewrite bool_decide_eq_true_2.
Qed.

Section entries.
Context (c0 : Chain) (infos0 : list NodeInfo) (pid proto : string).
Context (Hflat : Chain_Levels c0 = []) (Hids : NoDup (map ChainNode_ID (Chain_Nodes c0))).

Definition freshFor (id : string) : Prop :=
  match find_key id infos0 with Some ni => existsb (holdsInbound pid) (NodeInfo_Inbounds ni) = false | None => True end.

(** The state of the loop after the positions [idx]. *)
Record entriesDone (idx : list nat) (c : Chain) (infos : list NodeInfo) : Prop := mkEntriesDone {
  ed_chain : c = c0 <| Chain_Nodes := refAt pid idx (Chain_Nodes c0) |>;
  ed_other : forall id, (forall i n, i ∈ idx -> Chain_Nodes c0 !! i = Some n -> ChainNode_ID n <> id) ->
               find_key id infos = find_key id infos0;
  ed_grown : forall id ni, find_key id infos0 = Some ni -> exists ni', find_key id infos = Some ni' /\ grown ni ni';
  ed_entry : forall i n, i ∈ idx -> Chain_Nodes c0 !! i = Some n ->
               exists ni', find_key (ChainNode_ID n) infos = Some ni' /\
                 existsb (holdsInbound pid) (NodeInfo_Inbounds ni') = true /\
                 (freshFor (ChainNode_ID n) -> entryInbound c0 n pid proto ∈ NodeInfo_Inbounds ni') }.

Lemma entryStep_done idx c infos i n :
  entriesDone idx c infos -> Chain_Nodes c0 !! i = Some n -> i ∉ idx ->
  entriesDone (idx ++ [i]) (fst (entryStep pid proto (c, infos) i)) (snd (entryStep pid proto (c, infos) i)).
Proof.
  intros [-> Ho Hg He] Hi Hni. unfold entryStep.
  assert (Chain_Nodes (c0 <| Chain_Nodes := refAt pid idx (Chain_Nodes c0) |>) = refAt pid idx (Chain_Nodes c0)) as -> by done.
  assert (refAt pid idx (Chain_Nodes c0) !! i = Some n) as ->.
  { unfold refAt. rewrite list_lookup_imap, Hi. cbn. by rewrite bool_decide_eq_false_2. }
  fold (withRef pid n). rewrite (refAt_snoc pid idx i _ _ Hi). cbn [fst snd].
  change (ChainNode_ID (withRef pid n)) with (ChainNode_ID n).
  assert (forall j m, j ∈ idx -> Chain_Nodes c0 !! j = Some m -> ChainNode_ID m <> ChainNode_ID n) as Hdiff.
  { intros j m Hj Hm Heq. assert (j = i) as ->; [|done]. eapply NoDup_lookup; [exact Hids| |]; rewrite list_lookup_fmap.
    - by rewrite Hm. - rewrite Hi. cbn. by rewrite Heq. }
  rewrite (Ho _ Hdiff). set (ni := match find_key (ChainNode_ID n) infos0 with Some ni => ni | None => _ end).
  set (c1 := _ <| Chain_Nodes := _ |>).
  assert (key_of ni = ChainNode_ID n) as Hkey.
  { unfold ni. destruct (find_key (ChainNode_ID n) infos0) eqn:E; [by apply find_key_Some in E as [_ E]|done]. }
  destruct (materialize_grown ni c1 (withRef pid n) pid proto) as (Hgr & Hh & Hfr).
  set (ni' := materializeChainEntryInbound _ _ _ _ _) in *.
  assert (key_of ni' = ChainNode_ID n) as Hkey' by (destruct Hgr as [x ->]; exact Hkey).
  assert (find_key (ChainNode_ID n) (upsert ni' infos) = Some ni') as Hfind by (rewrite <- Hkey'; apply find_upsert_eq).
  assert (forall id, id <> ChainNode_ID n -> find_key id (upsert ni' infos) = find_key id infos) as Hne
    by (intros id Hid; apply find_upsert_ne; congruence).
  split.
  - done.
  - intros id Hid. rewrite Hne; [apply Ho|].
    + intros j m Hj. apply Hid. apply elem_of_app. by left.
    + intros ->. apply (Hid i n); [apply elem_of_app; right; left|done|done].
  - intros id x Hx. destruct (decide (id = ChainNode_ID n)) as [->|Hid]; [|rewrite Hne by done; by apply Hg].
    exists ni'. split; [done|]. replace x with ni; [done|]. unfold ni. by rewrite Hx.
  - intros j m Hj Hm. apply elem_of_app in Hj as [Hj|Hj].
    + rewrite Hne by (by eapply Hdiff). by eapply He.
    + apply list_elem_of_singleton in Hj as ->. rewrite Hi in Hm. injection Hm as <-. exists ni'. split_and!; [done|done|].
      intros Hf. rewrite <- (entryInbound_refAt c0 pid (idx ++ [i]) n proto Hflat). apply Hfr.
      unfold freshFor in Hf. unfold ni. by destruct (find_key (ChainNode_ID n) infos0).
Qed.

Lemma entries_fold idx : forall pre c infos,
  entriesDone pre c infos -> NoDup (pre ++ idx) -> Forall (fun i => is_Some (Chain_Nodes c0 !! i)) idx ->
  entriesDone (pre ++ idx) (fst (fold_left (entryStep pid proto) idx (c, infos))) (snd (fold_left (entryStep pid proto) idx (c, infos))).
Proof.
  induction idx as [|i idx IH]; intros pre c infos Hd Hn Hf; [by rewrite app_nil_r|].
  apply Forall_cons in Hf as [[n Hi] Hf]. cbn [fold_left].
  assert (i ∉ pre) as Hni by (apply NoDup_app in Hn as (_ & H & _); intros Hp; apply (H i Hp); left).
  pose proof (entryStep_done pre c infos i n Hd Hi Hni) as Hs.
  destruct (entryStep pid proto (c, infos) i) as [c1 infos1]. cbn [fst snd] in Hs.
  replace (pre ++ i :: idx) with ((pre ++ [i]) ++ idx) by by rewrite <- app_assoc. apply IH; [done| |done].
  by rewrite <- app_assoc.
Qed.

Lemma entries_start : entriesDone [] c0 infos0.
Proof.
  split.
  - assert (refAt pid [] (Chain_Nodes c0) = Chain_Nodes c0) as ->; [|by destruct c0].
    apply list_eq. intros i. unfold refAt. rewrite list_lookup_imap. by destruct (Chain_Nodes c0 !! i).
  - done.
  - intros id ni Hn. exists ni. split; [done|apply grown_refl].
  - by intros i n ?%elem_of_nil.
Qed.
End entries.

(** ** Chains: the whole migration of a chain *)

Lemma elem_of_indicesOf k nodes i : i ∈ indicesOf k nodes <-> exists n, nodes !! i = Some n /\ nodeKind i n = k.
Proof.
  unfold indicesOf. rewrite list_elem_of_In, filter_In, <- list_elem_of_In, elem_of_seq. split.
  - intros [_ H]. destruct (nodes !! i) as [n|]; [|done]. exists n. split; [done|]. by apply bool_decide_eq_true in H.
  - intros (n & Hn & Hk). rewrite Hn. split; [apply lookup_lt_Some in Hn; lia|]. by apply bool_decide_eq_true.
Qed.

Lemma NoDup_indicesOf k nodes : NoDup (indicesOf k nodes).
Proof. unfold indicesOf. apply NoDup_ListNoDup, List.NoDup_filter. apply List.seq_NoDup. Qed.

Lemma nodesOfKind_ids k a : forall b i,
  map (fun n => (ChainNode_ID n, ChainNode_Role n)) a = map (fun n => (ChainNode_ID n, ChainNode_Role n)) b ->
  map ChainNode_ID (nodesOfKind k i a) = map ChainNode_ID (nodesOfKind k i b).
Proof.
  induction a as [|x a IH]; intros [|y b] i Hm; try done. cbn [map] in Hm. injection Hm as Hi Hr Hm. cbn [nodesOfKind].
  unfold nodeKind. rewrite Hr. case_match; cbn [map]; [rewrite Hi; f_equal|]; by apply IH.
Qed.

Lemma nodesOfKind_later ns : forall i,
  nodesOfKind EntryNode (S i) ns = List.filter (fun n => ChainNode_Role n == NodeRoleEntry) ns.
Proof.
  induction ns as [|n ns IH]; intros i; [done|]. cbn [nodesOfKind List.filter]. rewrite IH. unfold nodeKind.
  rewrite andb_false_r, orb_false_r. destruct (decide (ChainNode_Role n = NodeRoleEntry)) as [Hr|Hr]; [by rewrite Hr|].
  rewrite (bool_decide_eq_false_2 _ Hr). by destruct (ChainNode_Role n == NodeRoleExit).
Qed.

(** A chain whose entry is given by position only, or by roles only. *)
Definition unmixed (c : Chain) : Prop :=
  match Chain_Nodes c with
  | n0 :: rest => ChainNode_Role n0 = "" -> Forall (fun n => ChainNode_Role n <> NodeRoleEntry) rest
  | [] => True
  end.

Lemma entries_by_kind c :
  Chain_Levels c = [] -> unmixed c -> nodesOfKind EntryNode 0 (Chain_Nodes c) <> [] ->
  nodesOfKind EntryNode 0 (Chain_Nodes c) = chainEntryNodes c.
Proof.
  intros Hl Hu Hne. unfold chainEntryNodes, unmixed in *. rewrite Hl. destruct (Chain_Nodes c) as [|n0 rest]; [done|].
  cbn [nodesOfKind List.filter] in *. rewrite nodesOfKind_later in *. unfold nodeKind in *. cbn [Nat.eqb] in *.
  rewrite andb_true_r in *. destruct (decide (ChainNode_Role n0 = NodeRoleEntry)) as [Hr|Hr].
  { rewrite Hr in *. done. }
  destruct (decide (ChainNode_Role n0 = "")) as [He|He].
  - specialize (Hu He). rewrite He in *. cbn in *.
    assert (List.filter (fun n => ChainNode_Role n == NodeRoleEntry) rest = []) as ->; [|done].
    clear Hne. induction Hu as [|n rest Hn _ IH]; [done|]. cbn [List.filter]. by rewrite bool_decide_eq_false_2.
  - rewrite (bool_decide_eq_false_2 _ Hr), (bool_decide_eq_false_2 _ He) in *. cbn [orb] in *.
    assert (bool_decide ((if ChainNode_Role n0 == NodeRoleExit then ExitNode else TransitNode) = EntryNode) = false) as Hk
      by (by destruct (ChainNode_Role n0 == NodeRoleExit)).
    rewrite Hk in *. by destruct (List.filter _ rest).
Qed.

(** The first level of the migrated chain holds the entries the flat chain had. *)
Lemma migrated_entries c pid i n :
  Chain_Levels c = [] -> unmixed c -> Chain_Nodes c !! i = Some n -> nodeKind i n = EntryNode ->
  let nodes' := refAt pid (indicesOf EntryNode (Chain_Nodes c)) (Chain_Nodes c) in
  map ChainNode_ID (chainEntryNodes ((c <| Chain_Nodes := nodes' |>) <| Chain_Levels := mkLevels nodes' (levelGroups (Chain_Nodes c)) |>)) =
  map ChainNode_ID (chainEntryNodes c).
Proof.
  intros Hl Hu Hi Hk nodes'.
  assert (i ∈ indicesOf EntryNode (Chain_Nodes c)) as Hin by (apply elem_of_indicesOf; by exists n).
  assert (chainEntryNodes ((c <| Chain_Nodes := nodes' |>) <| Chain_Levels := mkLevels nodes' (levelGroups (Chain_Nodes c)) |>) =
          nodesAt nodes' (indicesOf EntryNode nodes')) as ->.
  { unfold nodes'. rewrite indicesOf_refAt. unfold chainEntryNodes, mkLevels, levelGroups. cbn.
    destruct (indicesOf EntryNode (Chain_Nodes c)); [by apply elem_of_nil in Hin|done]. }
  rewrite nodesAt_kind. transitivity (map ChainNode_ID (nodesOfKind EntryNode 0 (Chain_Nodes c))).
  - apply nodesOfKind_ids. apply refAt_ids.
  - rewrite (entries_by_kind c Hl Hu); [done|]. rewrite <- nodesAt_kind. intros Hz.
    assert (n ∈ nodesAt (Chain_Nodes c) (indicesOf EntryNode (Chain_Nodes c))) as Hn
      by (unfold nodesAt; apply list_elem_of_omap; by exists i).
    rewrite Hz in Hn. by apply elem_of_nil in Hn.
Qed.

(** The inbound of an entry, made of what the chain and the node hold: the port
    its clients dial, and the credentials they use. *)
Record servesClientsOf (c : Chain) (n : ChainNode) (ib : NodeInbound) : Prop := mkServesClientsOf {
  sc_proto : NodeInbound_Protocol ib = chainProto c;
  sc_port : NodeInbound_Port ib = chainEntryPort c (ChainNode_ID n);
  sc_profile : NodeInbound_ProfileID ib = entryProfileID c /\ NodeInbound_Tag ib = entryProfileID c;
  sc_obfuscation : NodeInbound_Obfuscation ib = Chain_ObfuscationProfile c;
  sc_awg : chainProto c = UserProtocolAWG ->
    NodeInbound_ServerPrivKey ib = Chain_AWGEntryServerPriv c /\ NodeInbound_ServerPubKey ib = Chain_AWGEntryServerPub c /\
    NodeInbound_AWGCPSLevel ib = Chain_AWGCPSLevel c /\ NodeInbound_AWGCPSMimicry ib = Chain_AWGCPSMimicry c /\
    [NodeInbound_AWGCPSI1 ib; NodeInbound_AWGCPSI2 ib; NodeInbound_AWGCPSI3 ib; NodeInbound_AWGCPSI4 ib; NodeInbound_AWGCPSI5 ib] =
    [Chain_AWGCPSI1 c; Chain_AWGCPSI2 c; Chain_AWGCPSI3 c; Chain_AWGCPSI4 c; Chain_AWGCPSI5 c] /\
    [NodeInbound_AWGH1 ib; NodeInbound_AWGH2 ib; NodeInbound_AWGH3 ib; NodeInbound_AWGH4 ib] =
    [Chain_AWGH1 c; Chain_AWGH2 c; Chain_AWGH3 c; Chain_AWGH4 c];
  sc_tuic : chainProto c = UserProtocolTUIC -> NodeInbound_UUID ib = Chain_TUICEntryUserUUID c;
  sc_vless : chainProto c <> UserProtocolAWG -> chainProto c <> UserProtocolTUIC -> NodeInbound_UUID ib = ChainNode_TransitUUID n }.

Lemma entryInbound_serves c n : servesClientsOf c n (entryInbound c n (entryProfileID c) (chainProto c)).
Proof.
  split; unfold entryInbound; destruct (bool_decide_reflect (chainProto c = UserProtocolAWG)) as [E|E];
    destruct (bool_decide_reflect (chainProto c = UserProtocolTUIC)) as [E2|E2]; try done; by intros H; rewrite H in *.
Qed.

(** C32: a flat chain becomes a chain of levels and its clients keep working.
    The levels hold the nodes of the chain, each once: the entries first, every
    transit node on a level of its own, the exits last.  Nothing of a node
    changes but the profile reference of the entries, nothing else of the chain
    changes, no inbound and no profile is lost.  The record of every entry holds the
    inbound of the entry profile: one with the port the entry had, the keys, headers
    and noise of an AWG chain, the user of a TUIC chain, the UUID of the node
    otherwise, unless the record had one.  Every entry also listens on the
    port it had, if the chain gives its entries by position only or by role only
    ([unmixed]); in a chain that mixes the two it may move, see
    [mixed_entry_port_moves]. *)
Theorem chain_migration_keeps now c profiles infos c' profiles' infos' :
  Chain_Levels c = [] -> Chain_Nodes c <> [] -> NoDup (map ChainNode_ID (Chain_Nodes c)) ->
  migrateChainToLevels now c profiles infos = (c', profiles', infos') ->
  c' = c <| Chain_Nodes := refAt (entryProfileID c) (indicesOf EntryNode (Chain_Nodes c)) (Chain_Nodes c) |>
         <| Chain_Levels := Chain_Levels c' |> /\
  IsLevelized c' = true /\
  AllNodes c' = nodesOfKind EntryNode 0 (Chain_Nodes c') ++ nodesOfKind TransitNode 0 (Chain_Nodes c') ++
                nodesOfKind ExitNode 0 (Chain_Nodes c') /\
  AllNodes c' ≡ₚ Chain_Nodes c' /\
  has_key (entryProfileID c) profiles' = true /\ (exists new, profiles' = profiles ++ new) /\
  (forall id ni, find_key id infos = Some ni -> exists ni', find_key id infos' = Some ni' /\ grown ni ni') /\
  (forall i n, Chain_Nodes c !! i = Some n -> nodeKind i n = EntryNode ->
     (unmixed c -> chainEntryPort c' (ChainNode_ID n) = chainEntryPort c (ChainNode_ID n)) /\
     exists ni', find_key (ChainNode_ID n) infos' = Some ni' /\
       existsb (holdsInbound (entryProfileID c)) (NodeInfo_Inbounds ni') = true /\
       (freshFor infos (entryProfileID c) (ChainNode_ID n) ->
        exists ib, ib ∈ NodeInfo_Inbounds ni' /\ servesClientsOf c n ib)).
Proof.
  intros Hl Hne Hids. unfold migrateChainToLevels.
  assert (IsLevelized c || (length (Chain_Nodes c) =? 0)%nat = false) as ->
    by (unfold IsLevelized; rewrite Hl; by destruct (Chain_Nodes c)).
  set (pid := entryProfileID c). set (idx := indicesOf EntryNode (Chain_Nodes c)).
  pose proof (entries_fold c infos pid (chainProto c) Hl Hids idx [] c infos (entries_start c infos pid (chainProto c) Hl Hids)
    (NoDup_indicesOf _ _)) as Hdone. cbn [app] in Hdone.
  destruct (fold_left _ idx (c, infos)) as [c1 infos1]. cbn [fst snd] in Hdone.
  destruct Hdone as [-> _ Hg He].
  { apply Forall_forall. intros i Hi. apply elem_of_indicesOf in Hi as (n & Hn & _). by exists n. }
  set (nodes' := refAt pid idx (Chain_Nodes c)) in *. intros [= <- <- <-]. cbn [Chain_Nodes].
  change (Chain_Nodes (c <| Chain_Nodes := nodes' |>)) with nodes'.
  set (levels := mkLevels nodes' (levelGroups (Chain_Nodes c))). set (c' := (c <| Chain_Nodes := nodes' |>) <| Chain_Levels := levels |>).
  change (Chain_Nodes c') with nodes'.
  assert (flattenLevels levels = nodesOfKind EntryNode 0 nodes' ++ nodesOfKind TransitNode 0 nodes' ++ nodesOfKind ExitNode 0 nodes')
    as Hflat by apply flatten_migrated.
  assert (levels <> []) as Hlv.
  { intros Hz. rewrite Hz in Hflat. pose proof (nodesOfKind_perm nodes' 0) as Hp. rewrite <- Hflat in Hp.
    apply Permutation_length in Hp. unfold nodes' in Hp. rewrite refAt_length in Hp. by destruct (Chain_Nodes c). }
  assert (IsLevelized c' = true) as Hlev.
  { unfold IsLevelized. change (Chain_Levels c') with levels. clear -Hlv. by destruct levels. }
  assert (AllNodes c' = flattenLevels levels) as Hall by (by apply AllNodes_levelized).
  split_and!; [done|done|by rewrite Hall|rewrite Hall, Hflat; apply nodesOfKind_perm| | |exact Hg|].
  - case_match eqn:Ek; [done|]. unfold has_key. rewrite existsb_app. apply orb_true_iff. right. cbn.
    by rewrite bool_decide_eq_true_2.
  - case_match; [exists []; by rewrite app_nil_r|by eexists].
  - intros i n Hi Hk. assert (i ∈ idx) as Hin by (apply elem_of_indicesOf; by exists n). split.
    + intros Hu. apply chainEntryPort_ids; [done|]. by apply (migrated_entries c pid i n).
    + destruct (He i n Hin Hi) as (ni' & H1 & H2 & H3). exists ni'. split; [done|]. split; [done|]. intros Hf. eexists. split; [by apply H3|].
      apply entryInbound_serves.
Qed.

(** ** Start-up *)

Definition noOrphans (sf : storeFile) : Prop := migrateOrphanNodeInfos sf = (sf, false).

Lemma filter_twice {A} (P : A -> bool) l : List.filter P (List.filter P l) = List.filter P l.
Proof. induction l as [|x l IH]; [done|]. cbn. destruct (P x) eqn:E; cbn; [rewrite E; by f_equal|done]. Qed.

Lemma noOrphans_iff sf : noOrphans sf <-> nothingDropped sf = true.
Proof. unfold noOrphans, migrateOrphanNodeInfos. by destruct (nothingDropped sf). Qed.

Lemma orphans_dropped sf : noOrphans (fst (migrateOrphanNodeInfos sf)).
Proof.
  apply noOrphans_iff. unfold migrateOrphanNodeInfos. destruct (nothingDropped sf) eqn:E; [done|]. cbn [fst].
  set (sf1 := (sf <| sf_NodeInfos := _ |>) <| sf_Metrics := _ |>). unfold nothingDropped.
  assert (keptInfos sf1 = keptInfos sf) as -> by exact (filter_twice _ _).
  assert (keptMetrics sf1 = keptMetrics sf) as -> by exact (filter_twice _ _).
  unfold sf1. cbn. by rewrite !Nat.eqb_refl.
Qed.

Lemma noOrphans_stamp sf v r : noOrphans sf -> noOrphans ((sf <| sf_SchemaVersion := v |>) <| sf_Revision := r |>).
Proof. rewrite !noOrphans_iff. done. Qed.

(** Same store file, key file and fault: the backups apart. *)
Definition sameDisk (w w' : World) : Prop :=
  w_store w' = w_store w /\ w_key w' = w_key w /\ w_fault w' = w_fault w.

Lemma sameDisk_orphanStep bak sf w : sameDisk w (snd (orphanStep bak (sf, w))).
Proof.
  unfold orphanStep. destruct (migrateOrphanNodeInfos sf) as [sf' d]. cbn [snd]. destruct d; [|done].
  unfold backupPreOrphan. by repeat case_match.
Qed.

Lemma sameDisk_trans a b c : sameDisk a b -> sameDisk b c -> sameDisk a c.
Proof. unfold sameDisk. intuition congruence. Qed.

Lemma migrateStandalone_total now sf : is_Some (migrateStandaloneInboundsToProfiles now sf).
Proof.
  unfold migrateStandaloneInboundsToProfiles.
  destruct (makeProfiles_spec now (groupOrder ∅ (allInbounds (sf_NodeInfos sf)))
    (list_to_set (map InboundProfile_ID (sf_InboundProfiles sf)))) as (table & -> & _). by eexists.
Qed.

Lemma migrateStep_total bak now i sf w :
  0 <= i < currentSchemaVersion ->
  exists sf' w', migrateStep bak now i (sf, w) = Some (sf', w') /\ sf_SchemaVersion sf' = i + 1 /\ sameDisk w w' /\
    (i = 2 -> noOrphans sf').
Proof.
  unfold currentSchemaVersion. intros Hi. assert (i = 0 \/ i = 1 \/ i = 2) as [-> | [-> | ->]] by lia; cbn [migrateStep Z.eqb].
  - eexists _, _. split; [done|]. split_and!; [done| |lia].
    destruct (sf_MtproxyUsers sf); [done|]. unfold backupPreB. by repeat case_match.
  - unfold migrateInboundProfiles. destruct (migrateStandalone_total now sf) as [sf1 ->].
    destruct (migrateChains now _ _ _) as [[cs ps] infos]. eexists _, _. split; [done|]. split_and!; [done|done|lia].
  - pose proof (sameDisk_orphanStep bak sf w) as Hs. pose proof (orphans_dropped sf) as Hd.
    unfold orphanStep in *. cbn [Z.eqb Pos.eqb]. destruct (migrateOrphanNodeInfos sf) as [sf1 d].
    eexists _, _. split; [done|]. split_and!; [done|exact Hs|]. intros _.
    apply (noOrphans_stamp sf1 (2 + 1) (sf_Revision sf1)) in Hd. by destruct sf1.
Qed.

Lemma migrateFrom_total bak now fuel : forall sf w,
  0 <= sf_SchemaVersion sf -> currentSchemaVersion - sf_SchemaVersion sf <= Z.of_nat fuel ->
  exists sf' w', migrateFrom bak now fuel (sf, w) = Some (sf', w') /\ sameDisk w w' /\
    (if sf_SchemaVersion sf <? currentSchemaVersion
     then sf_SchemaVersion sf' = currentSchemaVersion /\ noOrphans sf' else sf' = sf /\ w' = w).
Proof.
  induction fuel as [|fuel IH]; intros sf w Hv Hf.
  - exists sf, w. split; [done|]. split; [done|]. by replace (sf_SchemaVersion sf <? currentSchemaVersion) with false by lia.
  - cbn [migrateFrom fst]. case_match eqn:Ev; [|by exists sf, w].
    destruct (migrateStep_total bak now (sf_SchemaVersion sf) sf w ltac:(lia)) as (sf1 & w1 & -> & Hv1 & Hs1 & Ho).
    destruct (IH sf1 w1 ltac:(lia) ltac:(lia)) as (sf2 & w2 & -> & Hs2 & Hr). exists sf2, w2. split; [done|].
    split; [by eapply sameDisk_trans|]. case_match; [done|]. destruct Hr as [-> _].
    unfold currentSchemaVersion in *. split; [lia|]. apply Ho. lia.
Qed.


(** ** Concrete stores *)

Definition vlessInbound : NodeInbound := zeroNodeInbound <| NodeInbound_Protocol := "vless" |> <| NodeInbound_Port := 443 |>.
Definition legacyInfo (id : string) (ibs : list NodeInbound) : NodeInfo :=
  zeroNodeInfo <| NodeInfo_Host := zeroHost <| Host_ID := id |> |> <| NodeInfo_Inbounds := ibs |>.

(** Two nodes with the same listener, an older profile that took its name. *)
Definition legacyStore : storeFile :=
  newStoreFile <| sf_SchemaVersion := 1 |>
    <| sf_Hosts := [zeroHost <| Host_ID := "n1" |>] |>
    <| sf_NodeInfos := [legacyInfo "n1" [vlessInbound]; legacyInfo "n2" [vlessInbound; vlessInbound <| NodeInbound_Port := 80 |>]] |>
    <| sf_InboundProfiles := [zeroInboundProfile <| InboundProfile_ID := "prof-vless-443" |>] |>.

Lemma standalone_inbounds_profiled_witness :
  exists sf', migrateStandaloneInboundsToProfiles 0 legacyStore = Some sf' /\
    map InboundProfile_ID (sf_InboundProfiles sf') = ["prof-vless-443"; "prof-vless-443-2"; "prof-vless-80"] /\
    Forall2 (fun ni ni' => ni' = ni <| NodeInfo_Inbounds := NodeInfo_Inbounds ni' |> /\
                           Forall2 (profiled (sf_InboundProfiles sf')) (NodeInfo_Inbounds ni) (NodeInfo_Inbounds ni'))
      (sf_NodeInfos legacyStore) (sf_NodeInfos sf').
Proof.
  destruct (standalone_inbounds_profiled 0 legacyStore) as (sf' & Hm & _ & _ & _ & Hf).
  - repeat constructor.
  - apply (bool_decide_unpack _). vm_compute. exact I.
  - exists sf'. split; [exact Hm|]. split; [|exact Hf].
    revert Hm. vm_compute. by intros [= <-].
Defined.

Definition legacyNode (id role : string) : ChainNode := zeroChainNode <| ChainNode_ID := id |> <| ChainNode_Role := role |>.
Definition legacyChain (nodes : list ChainNode) : Chain := zeroChain <| Chain_Name := "c" |> <| Chain_Nodes := nodes |>.

Definition exitBeforeTransit : Chain := legacyChain [legacyNode "e" ""; legacyNode "x" "exit"; legacyNode "t" ""].

Lemma chain_migration_keeps_witness :
  exists c' ps infos, migrateChainToLevels 0 exitBeforeTransit [] [] = (c', ps, infos) /\
    map ChainNode_ID (AllNodes c') = ["e"; "t"; "x"] /\ AllNodes c' ≡ₚ Chain_Nodes c' /\
    chainEntryPort c' "e" = chainEntryPort exitBeforeTransit "e".
Proof.
  destruct (migrateChainToLevels 0 exitBeforeTransit [] []) as [[c' ps] infos] eqn:E. exists c', ps, infos.
  assert (NoDup (map ChainNode_ID (Chain_Nodes exitBeforeTransit))) as Hnd by (apply (bool_decide_unpack _); vm_compute; exact I).
  assert (unmixed exitBeforeTransit) as Hu by (intros _; repeat constructor; done).
  pose proof (chain_migration_keeps 0 exitBeforeTransit [] [] c' ps infos eq_refl ltac:(discriminate) Hnd E)
    as (_ & _ & _ & Hp & _ & _ & _ & He).
  split; [reflexivity|]. split; [|split; [exact Hp|exact (proj1 (He 0%nat (legacyNode "e" "") eq_refl eq_refl) Hu)]].
  revert E. vm_compute. by intros [= <- _ _].
Defined.


(** A flat chain with both a positional and an explicit entry: before the
    migration both listen on the port of the chain, after it the second moves
    to the next one, while its materialised inbound keeps the old port. *)
Lemma mixed_entry_port_moves :
  let c := legacyChain [legacyNode "a" ""; legacyNode "b" "entry"] in
  let '(c', _, infos) := migrateChainToLevels 0 c [] [] in
  (chainEntryPort c "b", chainEntryPort c' "b") = (8443, 8444) /\
  map NodeInbound_Port (flat_map NodeInfo_Inbounds infos) = [8443; 8443].
Proof. vm_compute. done. Qed.

(** The identifier a legacy MTProxy user falls back to is not checked. *)
Lemma mtproxy_migration_duplicate :
  let user id := zeroUser <| User_ID := id |> in
  let sf := newStoreFile <| sf_Users := [user "m"; user "m_mtp"] |> <| sf_MtproxyUsers := [zeroMtproxyUser <| MtproxyUser_ID := "m" |>] |> in
  map User_ID (sf_Users (migrateMtproxyUsers sf)) = ["m"; "m_mtp"; "m_mtp"].
Proof. vm_compute. done. Qed.

(** At the current version the orphan clean-up works on a copy: the backup is
    taken, and the records stay on disk. *)
Lemma orphan_cleanup_not_persisted :
  let sf := newStoreFile <| sf_NodeInfos := [legacyInfo "gone" []] |> in
  let w := mkWorld (Some (Plain sf)) None None None [] None in
  migrateOnce true 0 w = Some (w <| w_preorphan := Some (Plain sf) |>).
Proof. vm_compute. done. Qed.

(** An exit listed before a transit node: the migrated chain is stored with its
    flat list and its levels in different orders. *)
Lemma migrated_chain_unsynced :
  let '(c', _, _) := migrateChainToLevels 0 exitBeforeTransit [] [] in
  map ChainNode_ID (Chain_Nodes c') = ["e"; "x"; "t"] /\ map ChainNode_ID (AllNodes c') = ["e"; "t"; "x"].
Proof. vm_compute. done. Qed.
