(* ===== verification/AwgMaterial.v ===== *)
(** * AwgMaterial: the obfuscation material of an AWG listener

    internal/chain/awg_cps.go ([GenerateAWGObfsMaterialForVersion],
    [EnsureChainAWGMaterial], [ChainAWGObfsMaterial], [BuildAmneziaSection]) and
    awg_inbound_material.go.  Decoy packets and header ranges are drawn once and
    kept with the chain, the profile or the inbound, because the server and
    every client must use the same ones.  What the random generators and the
    live capture return during one call is the argument [CPSGen]. *)

From S2P Require Import Prelude GoStrings Model Lifecycle Codec AwgConf Presets.

(** ** Generators *)

Record CPSGen := mkCPSGen {
  gen_quicInitial : string;                       (* GenerateQUICInitial *)
  gen_quicShort : nat -> string;                  (* the four short packets *)
  gen_sip : string -> string;                     (* GenerateSIP *)
  gen_dns : string -> Z -> string;                (* GenerateDNS *)
  gen_H : bool -> string -> string * string * string * string;  (* GenAWGParamsForVersion: pro, version *)
  gen_awg3 : string * string * string;            (* GenerateAWG3Material: key, padding, rekey *)
  gen_capture : string -> option (list string) }. (* CaptureQUICSignature: the packets when OK *)

Definition clamp (v lo hi : Z) : Z := if v <? lo then lo else if hi <? v then hi else v.

Definition withH (h : string * string * string * string) (m : AWGObfsMaterial) : AWGObfsMaterial :=
  let '(h1, h2, h3, h4) := h in m <| Obfs_H1 := h1 |> <| Obfs_H2 := h2 |> <| Obfs_H3 := h3 |> <| Obfs_H4 := h4 |>.

Definition withPackets (i1 : string) (rest : option (string * string * string * string)) (m : AWGObfsMaterial) : AWGObfsMaterial :=
  match rest with
  | Some (i2, i3, i4, i5) => m <| Obfs_I1 := i1 |> <| Obfs_I2 := i2 |> <| Obfs_I3 := i3 |> <| Obfs_I4 := i4 |> <| Obfs_I5 := i5 |>
  | None => m <| Obfs_I1 := i1 |>
  end.

(** [GenerateAWGObfsMaterialForVersion]. *)
Definition GenerateAWGObfsMaterialForVersion (g : CPSGen) (level : Z) (mimicry version : string) : AWGObfsMaterial :=
  let m := zeroAWGObfsMaterial <| Obfs_CPSLevel := clamp level 0 3 |> <| Obfs_MimicryProfile := mimicry |> in
  if (level <=? 0) || (mimicry == "none") then m
  else
    let m := withH (gen_H g (3 <=? level) version) m in
    let more (p : string * string * string * string) := if 2 <=? level then Some p else None in
    if mimicry == "quic" then
      withPackets (gen_quicInitial g) (more (gen_quicShort g 0, gen_quicShort g 1, gen_quicShort g 2, gen_quicShort g 3)) m
    else if mimicry == "sip" then
      withPackets (gen_sip g "sip.icloud.com")
        (more (gen_sip g "sip.apple.com", gen_sip g "sip.google.com", gen_sip g "sip.example.com", gen_sip g "sip.ms.com")) m
    else if mimicry == "dns" then
      withPackets (gen_dns g "icloud.com" 1232)
        (more (gen_dns g "www.apple.com" 1232, gen_dns g "dns.google" 4096, gen_dns g "one.one.one.one" 1232,
               gen_dns g "cloudflare.com" 4096)) m
    else withPackets (gen_quicInitial g) None m.

(** [GenerateAWGObfsMaterial]. *)
Definition GenerateAWGObfsMaterial (g : CPSGen) (level : Z) (mimicry : string) : AWGObfsMaterial :=
  GenerateAWGObfsMaterialForVersion g level mimicry AWGVersion2.

(** The CPS level and mimicry a preset asks for; level 0 is none. *)
Definition requested (preset : ConnectionPreset) : Z * string :=
  if 0 <? ConnectionPreset_CPSLevel preset then (ConnectionPreset_CPSLevel preset, ConnectionPreset_AWGMimicry preset)
  else match ConnectionPreset_AWG preset with
       | Some a => if 0 <? AWGPreset_CPSLevel a then (AWGPreset_CPSLevel a, AWGPreset_Mimicry a) else (0, "none")
       | None => (0, "none")
       end.

Definition mimicryQuicLive : string := "quic-live".

(** ** Chains *)

Definition chainPackets (i1 i2 i3 i4 i5 : string) (c : Chain) : Chain :=
  c <| Chain_AWGCPSI1 := i1 |> <| Chain_AWGCPSI2 := i2 |> <| Chain_AWGCPSI3 := i3 |> <| Chain_AWGCPSI4 := i4 |>
    <| Chain_AWGCPSI5 := i5 |>.

Definition chainH (m : AWGObfsMaterial) (c : Chain) : Chain :=
  c <| Chain_AWGH1 := Obfs_H1 m |> <| Chain_AWGH2 := Obfs_H2 m |> <| Chain_AWGH3 := Obfs_H3 m |> <| Chain_AWGH4 := Obfs_H4 m |>.

(** Five packets of a capture that succeeded. *)
Definition captured (g : CPSGen) (domain : string) : option (string * string * string * string * string) :=
  match gen_capture g domain with
  | Some (p1 :: p2 :: p3 :: p4 :: p5 :: _) => Some (p1, p2, p3, p4, p5)
  | _ => None
  end.

(** [cacheValid] of [EnsureChainAWGMaterial]. *)
Definition chainCacheValid (level : Z) (mimicry : string) (c : Chain) : bool :=
  let base := (Chain_AWGCPSI1 c != "") && (Chain_AWGCPSLevel c =? level) in
  if mimicry == mimicryQuicLive then
    if Chain_AWGCPSMimicry c == mimicryQuicLive then base && (Chain_AWGCPSCapturedDomain c == Chain_AWGCPSCaptureDomain c)
    else if Chain_AWGCPSMimicry c == "quic" then base && (Chain_AWGCPSCaptureFailedDomain c == Chain_AWGCPSCaptureDomain c)
    else false
  else base && (Chain_AWGCPSMimicry c == mimicry).

(** The synthesized material of a chain. *)
Definition setMaterial (level : Z) (mimicry : string) (mat : AWGObfsMaterial) (c : Chain) : Chain :=
  chainH mat
    (chainPackets (CPSMaterialString (Obfs_I1 mat)) (CPSMaterialString (Obfs_I2 mat)) (CPSMaterialString (Obfs_I3 mat))
       (CPSMaterialString (Obfs_I4 mat)) (CPSMaterialString (Obfs_I5 mat))
       (c <| Chain_AWGCPSLevel := level |> <| Chain_AWGCPSMimicry := mimicry |>)).

Definition chainSynthesized (g : CPSGen) (level : Z) (mimicry : string) (c : Chain) : Chain :=
  setMaterial level mimicry (GenerateAWGObfsMaterial g level mimicry) c.

(** [EnsureChainAWGMaterial]. *)
Definition EnsureChainAWGMaterial (g : CPSGen) (preset : ConnectionPreset) (c : Chain) : Chain :=
  let '(level, mimicry) := requested preset in
  if level <=? 0 then c
  else if chainCacheValid level mimicry c then c
  else if (mimicry == mimicryQuicLive) && (Chain_AWGCPSCaptureDomain c != "") then
    match captured g (Chain_AWGCPSCaptureDomain c) with
    | Some (p1, p2, p3, p4, p5) =>
        chainH (GenerateAWGObfsMaterial g level "quic")
          (chainPackets p1 p2 p3 p4 p5
             (c <| Chain_AWGCPSLevel := level |> <| Chain_AWGCPSMimicry := mimicry |>
                <| Chain_AWGCPSCapturedDomain := Chain_AWGCPSCaptureDomain c |> <| Chain_AWGCPSCaptureFailedDomain := "" |>))
    | None => chainSynthesized g level "quic" (c <| Chain_AWGCPSCaptureFailedDomain := Chain_AWGCPSCaptureDomain c |>)
    end
  else chainSynthesized g level mimicry c.

(** [ChainAWGObfsMaterial]. *)
Definition ChainAWGObfsMaterial (c : Chain) : option AWGObfsMaterial :=
  if (Chain_AWGCPSLevel c <=? 0) || (Chain_AWGCPSI1 c == "") then None
  else Some (zeroAWGObfsMaterial <| Obfs_CPSLevel := Chain_AWGCPSLevel c |> <| Obfs_MimicryProfile := Chain_AWGCPSMimicry c |>
    <| Obfs_I1 := cpsStringToBytes (Chain_AWGCPSI1 c) |> <| Obfs_I2 := cpsStringToBytes (Chain_AWGCPSI2 c) |>
    <| Obfs_I3 := cpsStringToBytes (Chain_AWGCPSI3 c) |> <| Obfs_I4 := cpsStringToBytes (Chain_AWGCPSI4 c) |>
    <| Obfs_I5 := cpsStringToBytes (Chain_AWGCPSI5 c) |>
    <| Obfs_H1 := Chain_AWGH1 c |> <| Obfs_H2 := Chain_AWGH2 c |> <| Obfs_H3 := Chain_AWGH3 c |> <| Obfs_H4 := Chain_AWGH4 c |>).

(** ** Standalone inbounds *)

(** [ensureInboundAWG3Material]. *)
Definition ensureInboundAWG3Material (g : CPSGen) (ib : NodeInbound) : NodeInbound :=
  if negb (IsAWG3Family (NodeInbound_EffectiveAWGVersion ib)) then ib
  else if NodeInbound_AWG3HeaderProtectionKey ib != "" then ib
  else let '(key, pad, rekey) := gen_awg3 g in
       ib <| NodeInbound_AWG3HeaderProtectionKey := key |> <| NodeInbound_AWG3ContentPaddingAddition := pad |>
          <| NodeInbound_AWG3RekeyAfterTime := rekey |>.

Definition inboundCacheValid (level : Z) (mimicry : string) (ib : NodeInbound) : bool :=
  (NodeInbound_AWGCPSI1 ib != "") && (NodeInbound_AWGH1 ib != "") && (NodeInbound_AWGCPSLevel ib =? level) &&
  (NodeInbound_AWGCPSMimicry ib == mimicry).

(** The CPS fields of [EnsureInboundAWGMaterial]. *)
Definition inboundSynthesized (level : Z) (mimicry : string) (mat : AWGObfsMaterial) (ib : NodeInbound) : NodeInbound :=
  ib <| NodeInbound_AWGCPSLevel := level |> <| NodeInbound_AWGCPSMimicry := mimicry |>
     <| NodeInbound_AWGCPSI1 := CPSMaterialString (Obfs_I1 mat) |> <| NodeInbound_AWGCPSI2 := CPSMaterialString (Obfs_I2 mat) |>
     <| NodeInbound_AWGCPSI3 := CPSMaterialString (Obfs_I3 mat) |> <| NodeInbound_AWGCPSI4 := CPSMaterialString (Obfs_I4 mat) |>
     <| NodeInbound_AWGCPSI5 := CPSMaterialString (Obfs_I5 mat) |>
     <| NodeInbound_AWGH1 := Obfs_H1 mat |> <| NodeInbound_AWGH2 := Obfs_H2 mat |> <| NodeInbound_AWGH3 := Obfs_H3 mat |>
     <| NodeInbound_AWGH4 := Obfs_H4 mat |>.

(** [EnsureInboundAWGMaterial]. *)
Definition EnsureInboundAWGMaterial (g : CPSGen) (preset : ConnectionPreset) (ib : NodeInbound) : NodeInbound :=
  let '(level, mimicry) := requested preset in
  if level <=? 0 then ensureInboundAWG3Material g ib
  else if inboundCacheValid level mimicry ib then ensureInboundAWG3Material g ib
  else
    let mat := GenerateAWGObfsMaterialForVersion g level mimicry (NodeInbound_EffectiveAWGVersion ib) in
    ensureInboundAWG3Material g (inboundSynthesized level mimicry mat ib).

(** [InboundAWGObfsMaterial]. *)
Definition InboundAWGObfsMaterial (ib : NodeInbound) : option AWGObfsMaterial :=
  let version := NodeInbound_EffectiveAWGVersion ib in
  let isV3 := IsAWG3Family version in
  if (NodeInbound_AWGCPSI1 ib == "") && negb isV3 then None
  else
    let m := zeroAWGObfsMaterial <| Obfs_MimicryProfile := NodeInbound_AWGCPSMimicry ib |>
               <| Obfs_CPSLevel := NodeInbound_AWGCPSLevel ib |>
               <| Obfs_H1 := NodeInbound_AWGH1 ib |> <| Obfs_H2 := NodeInbound_AWGH2 ib |>
               <| Obfs_H3 := NodeInbound_AWGH3 ib |> <| Obfs_H4 := NodeInbound_AWGH4 ib |> in
    let m := if NodeInbound_AWGCPSI1 ib != "" then
               m <| Obfs_I1 := cpsStringToBytes (NodeInbound_AWGCPSI1 ib) |> <| Obfs_I2 := cpsStringToBytes (NodeInbound_AWGCPSI2 ib) |>
                 <| Obfs_I3 := cpsStringToBytes (NodeInbound_AWGCPSI3 ib) |> <| Obfs_I4 := cpsStringToBytes (NodeInbound_AWGCPSI4 ib) |>
                 <| Obfs_I5 := cpsStringToBytes (NodeInbound_AWGCPSI5 ib) |>
             else m in
    Some (if isV3 then
            m <| Obfs_AWG3Mode := true |> <| Obfs_HeaderProtectionKey := NodeInbound_AWG3HeaderProtectionKey ib |>
              <| Obfs_ContentPaddingAddition := NodeInbound_AWG3ContentPaddingAddition ib |>
              <| Obfs_RekeyAfterTime := NodeInbound_AWG3RekeyAfterTime ib |> <| Obfs_RandomTrailers := (version == AWGVersion31) |>
          else m).

(** ** Which preset an inbound uses *)

(** [resolveAWGPresetForVersion]. *)
Definition resolveAWGPresetForVersion (s : PresetState) (preset : ConnectionPreset) (version : string) : ConnectionPreset :=
  match ConnectionPreset_AWG preset with
  | None => preset
  | Some _ =>
      if PresetSupportsAWGVersion preset version then preset
      else match GetPreset s (defaultPresetForAWGVersion version) with Some dp => dp | None => preset end
  end.

(** [ResolveStandaloneAWGPreset]; [None] is the panic of the default preset. *)
Definition ResolveStandaloneAWGPreset (s : PresetState) (ib : NodeInbound) : option ConnectionPreset :=
  let version := NodeInbound_EffectiveAWGVersion ib in
  let fallback := match GetPreset s (defaultPresetForAWGVersion version) with
                  | Some p => Some p
                  | None => GetDefaultPreset s
                  end in
  if NodeInbound_Obfuscation ib == "" then fallback
  else match GetPreset s (NodeInbound_Obfuscation ib) with
       | Some p => Some (resolveAWGPresetForVersion s p version)
       | None => fallback
       end.

(** [ResolveChainEntryPreset]. *)
Definition ResolveChainEntryPreset (s : PresetState) (chainPreset : ConnectionPreset) (ib : option NodeInbound) : ConnectionPreset :=
  match ib with
  | None => resolveAWGPresetForVersion s chainPreset ""
  | Some ib =>
      let version := NodeInbound_EffectiveAWGVersion ib in
      if NodeInbound_Obfuscation ib == "" then resolveAWGPresetForVersion s chainPreset version
      else match GetPreset s (NodeInbound_Obfuscation ib) with
           | Some p => resolveAWGPresetForVersion s p version
           | None => resolveAWGPresetForVersion s chainPreset version
           end
  end.

(** ** Profiles *)

Definition profileCPS (i1 i2 i3 i4 i5 : string) (mat : AWGObfsMaterial) (p : InboundProfile) : InboundProfile :=
  p <| InboundProfile_AWGCPSI1 := i1 |> <| InboundProfile_AWGCPSI2 := i2 |> <| InboundProfile_AWGCPSI3 := i3 |>
    <| InboundProfile_AWGCPSI4 := i4 |> <| InboundProfile_AWGCPSI5 := i5 |>
    <| InboundProfile_AWGH1 := Obfs_H1 mat |> <| InboundProfile_AWGH2 := Obfs_H2 mat |>
    <| InboundProfile_AWGH3 := Obfs_H3 mat |> <| InboundProfile_AWGH4 := Obfs_H4 mat |>.

(** The level and mimicry of a profile: its own request beats the preset. *)
Definition profileRequested (preset : ConnectionPreset) (p : InboundProfile) : Z * string :=
  let '(level, mimicry) := requested preset in
  if InboundProfile_AWGCPSMimicry p == "" then (level, mimicry)
  else (if (InboundProfile_AWGCPSMimicry p != "none") && (level =? 0) then 2 else level, InboundProfile_AWGCPSMimicry p).

Definition profileCacheValid (level : Z) (mimicry : string) (p : InboundProfile) : bool :=
  let base := (InboundProfile_AWGCPSI1 p != "") && (InboundProfile_AWGCPSLevel p =? level) in
  if mimicry == mimicryQuicLive then
    let domain := InboundProfile_AWGCPSCaptureDomain p in
    base && (((InboundProfile_AWGCPSCapturedDomain p != "") && (InboundProfile_AWGCPSCapturedDomain p == domain)) ||
             ((InboundProfile_AWGCPSCaptureFailedDomain p != "") && (InboundProfile_AWGCPSCaptureFailedDomain p == domain)))
  else base.

Definition profileAWG3 (g : CPSGen) (p : InboundProfile) : InboundProfile * bool :=
  if IsAWG3Family (InboundProfile_EffectiveAWGVersion p) && (InboundProfile_AWG3HeaderProtectionKey p == "") then
    let '(key, pad, rekey) := gen_awg3 g in
    (p <| InboundProfile_AWG3HeaderProtectionKey := key |> <| InboundProfile_AWG3ContentPaddingAddition := pad |>
       <| InboundProfile_AWG3RekeyAfterTime := rekey |>, true)
  else (p, false).

Definition profileSynthesized (g : CPSGen) (level : Z) (mimicry : string) (p : InboundProfile) : InboundProfile :=
  let mat := GenerateAWGObfsMaterialForVersion g level mimicry (InboundProfile_EffectiveAWGVersion p) in
  let p := p <| InboundProfile_AWGCPSLevel := level |> <| InboundProfile_AWGCPSCapturedDomain := "" |> in
  let p := if mimicry != "quic" then p <| InboundProfile_AWGCPSCaptureFailedDomain := "" |> else p in
  profileCPS (CPSMaterialString (Obfs_I1 mat)) (CPSMaterialString (Obfs_I2 mat)) (CPSMaterialString (Obfs_I3 mat))
    (CPSMaterialString (Obfs_I4 mat)) (CPSMaterialString (Obfs_I5 mat)) mat p.

(** [EnsureProfileAWGMaterial]. *)
Definition EnsureProfileAWGMaterial (g : CPSGen) (preset : ConnectionPreset) (p : InboundProfile) : InboundProfile * bool :=
  let '(p, changed) := profileAWG3 g p in
  if InboundProfile_AWGCPSCaptureDomain p == "" then (p, changed)
  else
    let '(level, mimicry) := profileRequested preset p in
    if level <=? 0 then (p, changed)
    else if profileCacheValid level mimicry p then (p, changed)
    else if mimicry == mimicryQuicLive then
      match captured g (InboundProfile_AWGCPSCaptureDomain p) with
      | Some (p1, p2, p3, p4, p5) =>
          (profileCPS p1 p2 p3 p4 p5 (GenerateAWGObfsMaterialForVersion g level "quic" (InboundProfile_EffectiveAWGVersion p))
             (p <| InboundProfile_AWGCPSLevel := level |>
                <| InboundProfile_AWGCPSCapturedDomain := InboundProfile_AWGCPSCaptureDomain p |>
                <| InboundProfile_AWGCPSCaptureFailedDomain := "" |>), true)
      | None =>
          (profileSynthesized g level "quic"
             (p <| InboundProfile_AWGCPSCaptureFailedDomain := InboundProfile_AWGCPSCaptureDomain p |>), true)
      end
    else (profileSynthesized g level mimicry p, true).

(** [applyProfileAWGMaterial]. *)
Definition applyProfileAWGMaterial (p : InboundProfile) (ib : NodeInbound) : NodeInbound * bool :=
  let ib := ib <| NodeInbound_AWGVersion := InboundProfile_AWGVersion p |> <| NodeInbound_AWG3Mode := InboundProfile_AWG3Mode p |>
               <| NodeInbound_AWG3HeaderProtectionKey := InboundProfile_AWG3HeaderProtectionKey p |>
               <| NodeInbound_AWG3ContentPaddingAddition := InboundProfile_AWG3ContentPaddingAddition p |>
               <| NodeInbound_AWG3RekeyAfterTime := InboundProfile_AWG3RekeyAfterTime p |> in
  if InboundProfile_AWGCPSI1 p == "" then (ib, InboundProfile_AWG3Mode p || IsAWG3Family (InboundProfile_AWGVersion p))
  else (ib <| NodeInbound_AWGCPSLevel := InboundProfile_AWGCPSLevel p |> <| NodeInbound_AWGCPSMimicry := InboundProfile_AWGCPSMimicry p |>
           <| NodeInbound_AWGCPSI1 := InboundProfile_AWGCPSI1 p |> <| NodeInbound_AWGCPSI2 := InboundProfile_AWGCPSI2 p |>
           <| NodeInbound_AWGCPSI3 := InboundProfile_AWGCPSI3 p |> <| NodeInbound_AWGCPSI4 := InboundProfile_AWGCPSI4 p |>
           <| NodeInbound_AWGCPSI5 := InboundProfile_AWGCPSI5 p |> <| NodeInbound_AWGH1 := InboundProfile_AWGH1 p |>
           <| NodeInbound_AWGH2 := InboundProfile_AWGH2 p |> <| NodeInbound_AWGH3 := InboundProfile_AWGH3 p |>
           <| NodeInbound_AWGH4 := InboundProfile_AWGH4 p |>, true).

(** [ApplyProfileMaterialToInbound]. *)
Definition ApplyProfileMaterialToInbound (g : CPSGen) (p : option InboundProfile) (preset : ConnectionPreset) (ib : NodeInbound) : NodeInbound :=
  match p with
  | Some p => let '(ib', backed) := applyProfileAWGMaterial p ib in if backed then ib' else EnsureInboundAWGMaterial g preset ib'
  | None => EnsureInboundAWGMaterial g preset ib
  end.

(** ** The section both sides render *)

(** [resolveI1Packet]; base64 has two alphabets. *)
Definition resolveI1Packet (g : CPSGen) (v : string) : option string :=
  if v == "quic-1200" then Some (gen_quicInitial g)
  else if v == "dns-1232" then Some (gen_dns g "icloud.com" 1232)
  else
    match paddedDecode stdAlphabet v with
    | Some (String _ _ as b) => Some b
    | _ => match paddedDecode urlAlphabet v with
           | Some (String _ _ as b) => Some b
           | _ => None
           end
    end.

Definition degenerateRange (h : Z) : string := itoa h +:+ "-" +:+ itoa h.

(** [BuildAmneziaSection]. *)
Definition BuildAmneziaSection (g : CPSGen) (awg : AWGPreset) (preset : option ConnectionPreset) (material : option AWGObfsMaterial)
    : AmneziaOptions :=
  let '(level, mimicry) := match preset with
                           | None => (0, "none")
                           | Some p =>
                               if 0 <? ConnectionPreset_CPSLevel p then (ConnectionPreset_CPSLevel p, ConnectionPreset_AWGMimicry p)
                               else if 0 <? AWGPreset_CPSLevel awg then (AWGPreset_CPSLevel awg, AWGPreset_Mimicry awg)
                               else (0, "none")
                           end in
  let base := mkAmneziaOptions (AWGPreset_JC awg) (AWGPreset_JMIN awg) (AWGPreset_JMAX awg) 0 0 0 0 "" "" "" "" "" "" "" "" "" 0 in
  if (level <=? 0) || (mimicry == "none") then base
  else
    let '(h1, h2, h3, h4) :=
      match material with
      | Some m => if Obfs_H1 m != "" then (Obfs_H1 m, Obfs_H2 m, Obfs_H3 m, Obfs_H4 m)
                  else (degenerateRange (AWGPreset_H1 awg), degenerateRange (AWGPreset_H2 awg),
                        degenerateRange (AWGPreset_H3 awg), degenerateRange (AWGPreset_H4 awg))
      | None => (degenerateRange (AWGPreset_H1 awg), degenerateRange (AWGPreset_H2 awg),
                 degenerateRange (AWGPreset_H3 awg), degenerateRange (AWGPreset_H4 awg))
      end in
    let mat := match material with Some m => m | None => GenerateAWGObfsMaterial g level mimicry end in
    let i1 := if AWGPreset_I1Packet awg == "" then CPSMaterialString (Obfs_I1 mat)
              else match resolveI1Packet g (AWGPreset_I1Packet awg) with
                   | Some pkt => CPSMaterialString pkt
                   | None => CPSMaterialString (Obfs_I1 mat)
                   end in
    mkAmneziaOptions (AWGPreset_JC awg) (AWGPreset_JMIN awg) (AWGPreset_JMAX awg)
      (AWGPreset_S1 awg) (AWGPreset_S2 awg) (AWGPreset_S3 awg) (AWGPreset_S4 awg) h1 h2 h3 h4
      i1 (CPSMaterialString (Obfs_I2 mat)) (CPSMaterialString (Obfs_I3 mat)) (CPSMaterialString (Obfs_I4 mat))
      (CPSMaterialString (Obfs_I5 mat)) (AWGPreset_ITime awg).

(** ** Lemmas *)

(** Generators that return something: packets and ranges are not empty. *)
Record genOK (g : CPSGen) : Prop := mkGenOK {
  ok_quic : gen_quicInitial g <> "";
  ok_sip : forall d, gen_sip g d <> "";
  ok_dns : forall d n, gen_dns g d n <> "";
  ok_H : forall pro v h1 h2 h3 h4, gen_H g pro v = (h1, h2, h3, h4) -> h1 <> "";
  ok_awg3 : fst (fst (gen_awg3 g)) <> "";
  ok_capture : forall d p1 p2 p3 p4 p5, captured g d = Some (p1, p2, p3, p4, p5) -> p1 <> "" }.

Lemma CPSMaterialString_nonempty b : b <> "" -> CPSMaterialString b <> "".
Proof. unfold CPSMaterialString, CPSString. intros Hb. rewrite (bool_decide_eq_false_2 _ Hb). by case_match. Qed.

Lemma generated_nonempty g level mimicry version :
  genOK g -> 0 < level -> mimicry <> "none" ->
  let m := GenerateAWGObfsMaterialForVersion g level mimicry version in Obfs_I1 m <> "" /\ Obfs_H1 m <> "".
Proof.
  intros Hg Hl Hm. unfold GenerateAWGObfsMaterialForVersion. cbv zeta.
  rewrite (bool_decide_eq_false_2 _ Hm). replace (level <=? 0) with false by lia. cbn [orb].
  destruct (gen_H g (3 <=? level) version) as [[[h1 h2] h3] h4] eqn:EH. apply (ok_H g Hg) in EH.
  unfold withH, withPackets. repeat case_match; cbn; (split; [apply Hg|exact EH]).
Qed.

(** The material of "none" is empty, whatever the generators. *)
Lemma generated_none g g' level version :
  GenerateAWGObfsMaterialForVersion g level "none" version = GenerateAWGObfsMaterialForVersion g' level "none" version.
Proof. unfold GenerateAWGObfsMaterialForVersion. by rewrite !orb_true_r. Qed.

Lemma requested_positive preset level mimicry : requested preset = (level, mimicry) -> 0 <= level.
Proof. unfold requested. repeat case_match; intros [= <- <-]; lia. Qed.

Lemma setMaterial_twice level mimicry mat c :
  setMaterial level mimicry mat (setMaterial level mimicry mat c) = setMaterial level mimicry mat c.
Proof.
  unfold setMaterial. generalize (CPSMaterialString (Obfs_I1 mat)), (CPSMaterialString (Obfs_I2 mat)),
    (CPSMaterialString (Obfs_I3 mat)), (CPSMaterialString (Obfs_I4 mat)), (CPSMaterialString (Obfs_I5 mat)).
  intros. unfold chainH, chainPackets. destruct c. vm_compute. reflexivity.
Qed.

(** The capture domain of a chain that had none captured, or still has it. *)
Definition captureSettled (preset : ConnectionPreset) (c : Chain) : Prop :=
  snd (requested preset) = mimicryQuicLive -> Chain_AWGCPSCaptureDomain c = "" -> Chain_AWGCPSCapturedDomain c = "".

Lemma synthesized_valid g level mimicry c :
  genOK g -> 0 < level -> mimicry <> "none" ->
  let c' := chainSynthesized g level mimicry c in
  Chain_AWGCPSI1 c' <> "" /\ Chain_AWGCPSLevel c' = level /\ Chain_AWGCPSMimicry c' = mimicry.
Proof.
  intros Hg Hl Hm. destruct (generated_nonempty g level mimicry AWGVersion2 Hg Hl Hm) as [HI _].
  split_and!; [|done|done]. cbn. by apply CPSMaterialString_nonempty.
Qed.

(** After a pass the cache of the chain is valid, unless there is nothing to
    cache. *)
Lemma ensure_valid g preset c level mimicry :
  genOK g -> captureSettled preset c -> requested preset = (level, mimicry) -> 0 < level -> mimicry <> "none" ->
  chainCacheValid level mimicry (EnsureChainAWGMaterial g preset c) = true.
Proof.
  intros Hg Hs Hr Hl Hm. unfold EnsureChainAWGMaterial. rewrite Hr. replace (level <=? 0) with false by lia.
  destruct (chainCacheValid level mimicry c) eqn:Ev; [done|].
  destruct (decide (mimicry = mimicryQuicLive)) as [->|Hn].
  - rewrite (bool_decide_eq_true_2 (mimicryQuicLive = mimicryQuicLive)) by done. cbn [andb].
    destruct (decide (Chain_AWGCPSCaptureDomain c = "")) as [Hd|Hd].
    + rewrite (bool_decide_eq_true_2 _ Hd). cbn [negb].
      destruct (synthesized_valid g level mimicryQuicLive c Hg Hl Hm) as (H1 & H2 & H3).
      unfold chainCacheValid. rewrite H2, H3, Z.eqb_refl, (bool_decide_eq_false_2 _ H1).
      rewrite !(bool_decide_eq_true_2 (mimicryQuicLive = mimicryQuicLive)) by done.
      apply bool_decide_eq_true. change (Chain_AWGCPSCapturedDomain c = Chain_AWGCPSCaptureDomain c).
      rewrite Hd. apply Hs; [by rewrite Hr|done].
    + rewrite (bool_decide_eq_false_2 _ Hd). cbn [negb].
      destruct (captured g (Chain_AWGCPSCaptureDomain c)) as [[[[[p1 p2] p3] p4] p5]|] eqn:Ec.
      * apply (ok_capture g Hg) in Ec. unfold chainCacheValid. cbn. rewrite (bool_decide_eq_false_2 _ Ec).
        rewrite Z.eqb_refl, !(bool_decide_eq_true_2 (mimicryQuicLive = mimicryQuicLive)) by done.
        by rewrite bool_decide_eq_true_2.
      * destruct (synthesized_valid g level "quic" (c <| Chain_AWGCPSCaptureFailedDomain := Chain_AWGCPSCaptureDomain c |>) Hg Hl ltac:(done))
          as (H1 & H2 & H3).
        unfold chainCacheValid. rewrite H2, H3, Z.eqb_refl, (bool_decide_eq_false_2 _ H1). change (bool_decide (Chain_AWGCPSCaptureDomain c = Chain_AWGCPSCaptureDomain c) = true).
        by rewrite bool_decide_eq_true_2.
  - rewrite (bool_decide_eq_false_2 _ Hn). cbn [andb].
    destruct (synthesized_valid g level mimicry c Hg Hl Hm) as (H1 & H2 & H3).
    unfold chainCacheValid. rewrite H2, H3, Z.eqb_refl, (bool_decide_eq_false_2 _ H1), (bool_decide_eq_false_2 _ Hn).
    by rewrite bool_decide_eq_true_2.
Qed.

(** A preset literal for the first packet: anything but the two keywords that
    draw a new packet at every rendering. *)
Definition literalI1 (awg : AWGPreset) : Prop := AWGPreset_I1Packet awg <> "quic-1200" /\ AWGPreset_I1Packet awg <> "dns-1232".

Lemma section_material g g' awg p m :
  literalI1 awg -> BuildAmneziaSection g awg p (Some m) = BuildAmneziaSection g' awg p (Some m).
Proof.
  intros [H1 H2]. unfold BuildAmneziaSection. destruct (match p with Some _ => _ | None => _ end) as [level mimicry].
  assert (resolveI1Packet g (AWGPreset_I1Packet awg) = resolveI1Packet g' (AWGPreset_I1Packet awg)) as ->; [|done].
  unfold resolveI1Packet. by rewrite (bool_decide_eq_false_2 _ H1), (bool_decide_eq_false_2 _ H2).
Qed.

(** Obfuscation with another first packet.  That packet is sent before the
    handshake to mislead an observer; the receiver drops it. *)
Definition withI1 (i1 : string) (a : AmneziaOptions) : AmneziaOptions :=
  mkAmneziaOptions (Amnezia_JC a) (Amnezia_JMIN a) (Amnezia_JMAX a) (Amnezia_S1 a) (Amnezia_S2 a) (Amnezia_S3 a) (Amnezia_S4 a)
    (Amnezia_H1 a) (Amnezia_H2 a) (Amnezia_H3 a) (Amnezia_H4 a) i1 (Amnezia_I2 a) (Amnezia_I3 a) (Amnezia_I4 a) (Amnezia_I5 a) (Amnezia_ITime a).

(** Stored material leaves at most the first packet to a draw. *)
Lemma section_upToI1 g g' awg p m :
  exists i1, BuildAmneziaSection g awg p (Some m) = withI1 i1 (BuildAmneziaSection g' awg p (Some m)).
Proof.
  exists (Amnezia_I1 (BuildAmneziaSection g awg p (Some m))). unfold BuildAmneziaSection.
  destruct (match p with Some _ => _ | None => _ end) as [level mimicry]. destruct (_ || _); [done|]. by destruct (_ != "").
Qed.

Lemma section_off g g' awg p m level mimicry :
  ConnectionPreset_AWG p = Some awg -> requested p = (level, mimicry) -> level <= 0 \/ mimicry = "none" ->
  BuildAmneziaSection g awg (Some p) m = BuildAmneziaSection g' awg (Some p) m.
Proof.
  intros Ha Hr Ho. unfold BuildAmneziaSection. unfold requested in Hr. rewrite Ha in Hr. rewrite Hr.
  replace ((level <=? 0) || (mimicry == "none")) with true; [done|]. symmetry. apply orb_true_iff.
  destruct Ho as [Ho|Ho]; [left; lia|right; by apply bool_decide_eq_true].
Qed.

(** The obfuscation of a chain is agreed.  However the generators and the
    capture answer at the first deploy and at a later one, the later deploy
    keeps the stored material, and any two renderings of the obfuscation
    section, on the server at one deploy and in a client configuration after
    the other, are equal.  Excepted are a live capture whose domain was cleared
    and presets whose first packet is one of the random keywords. *)
Theorem chain_material_agreed g1 g2 preset awg c :
  genOK g1 -> captureSettled preset c -> ConnectionPreset_AWG preset = Some awg -> literalI1 awg ->
  let c1 := EnsureChainAWGMaterial g1 preset c in
  EnsureChainAWGMaterial g2 preset c1 = c1 /\
  forall g g', BuildAmneziaSection g awg (Some preset) (ChainAWGObfsMaterial c1) =
               BuildAmneziaSection g' awg (Some preset) (ChainAWGObfsMaterial (EnsureChainAWGMaterial g2 preset c1)).
Proof.
  intros Hg Hs Ha Hlit. cbv zeta. destruct (requested preset) as [level mimicry] eqn:Hr.
  pose proof (requested_positive _ _ _ Hr) as Hpos.
  assert (EnsureChainAWGMaterial g2 preset (EnsureChainAWGMaterial g1 preset c) = EnsureChainAWGMaterial g1 preset c /\
          (0 < level -> mimicry <> "none" ->
           chainCacheValid level mimicry (EnsureChainAWGMaterial g1 preset c) = true)) as [Heq Hvalid].
  { split; [|by apply ensure_valid]. destruct (decide (level = 0)) as [->|Hl]; [unfold EnsureChainAWGMaterial; by rewrite Hr|].
    destruct (decide (mimicry = "none")) as [->|Hm].
    - assert (forall g c, EnsureChainAWGMaterial g preset c =
                if chainCacheValid level "none" c then c else chainSynthesized g level "none" c) as He.
      { intros g c0. unfold EnsureChainAWGMaterial. rewrite Hr. by replace (level <=? 0) with false by lia. }
      rewrite !He. destruct (chainCacheValid level "none" c) eqn:Ev; [by rewrite Ev|]. case_match; [done|].
      unfold chainSynthesized, GenerateAWGObfsMaterial.
      rewrite (generated_none g2 g1 level AWGVersion2). apply setMaterial_twice.
    - pose proof (ensure_valid g1 preset c level mimicry Hg Hs Hr ltac:(lia) Hm) as Hv.
      set (c1 := EnsureChainAWGMaterial g1 preset c) in *. unfold EnsureChainAWGMaterial. rewrite Hr, Hv. by case_match. }
  split; [done|]. intros g g'. rewrite Heq. set (c1 := EnsureChainAWGMaterial g1 preset c) in *.
  destruct (decide (level <= 0 \/ mimicry = "none")) as [Ho|Ho]; [by eapply section_off|].
  specialize (Hvalid ltac:(lia) ltac:(tauto)). unfold ChainAWGObfsMaterial.
  assert ((Chain_AWGCPSLevel c1 <=? 0) || (Chain_AWGCPSI1 c1 == "") = false) as ->; [|by apply section_material].
  assert ((Chain_AWGCPSI1 c1 != "") && (Chain_AWGCPSLevel c1 =? level) = true) as Hb.
  { unfold chainCacheValid in Hvalid. repeat case_match; try done; by apply andb_true_iff in Hvalid as [Hvalid _]. }
  apply andb_true_iff in Hb as [Hb1 Hb2]. apply orb_false_iff. split; [lia|]. by destruct (Chain_AWGCPSI1 c1 == "").
Qed.

(** ** Profiles: one material for all their inbounds *)

(** The fields [EnsureProfileAWGMaterial] reads but never writes. *)
Definition sameRequest (p q : InboundProfile) : Prop :=
  InboundProfile_AWGCPSCaptureDomain q = InboundProfile_AWGCPSCaptureDomain p /\
  InboundProfile_AWGCPSMimicry q = InboundProfile_AWGCPSMimicry p /\
  InboundProfile_EffectiveAWGVersion q = InboundProfile_EffectiveAWGVersion p.

(** The AWG 3 key is settled: there when the version needs one. *)
Definition keyed3 (p : InboundProfile) : Prop :=
  IsAWG3Family (InboundProfile_EffectiveAWGVersion p) && (InboundProfile_AWG3HeaderProtectionKey p == "") = false.

Lemma profileAWG3_spec g p :
  genOK g -> sameRequest p (fst (profileAWG3 g p)) /\ keyed3 (fst (profileAWG3 g p)).
Proof.
  intros Hg. pose proof (ok_awg3 g Hg) as Hk. unfold profileAWG3, keyed3.
  destruct (_ && _) eqn:E; [|done]. destruct (gen_awg3 g) as [[key pad] rekey]. cbn in Hk.
  split; [done|]. cbn. rewrite (bool_decide_eq_false_2 _ Hk). apply andb_false_r.
Qed.

(** What a pass leaves when CPS is wanted: the request and the key as they
    were, and a valid cache. *)
Record settled (level : Z) (mimicry : string) (p q : InboundProfile) : Prop := mkSettled {
  se_request : sameRequest p q;
  se_key : InboundProfile_AWG3HeaderProtectionKey q = InboundProfile_AWG3HeaderProtectionKey p;
  se_i1 : InboundProfile_AWGCPSI1 q <> "";
  se_valid : profileCacheValid level mimicry q = true }.

Lemma cacheValid_fields level mimicry q :
  InboundProfile_AWGCPSI1 q <> "" -> InboundProfile_AWGCPSLevel q = level ->
  (mimicry = mimicryQuicLive -> InboundProfile_AWGCPSCaptureDomain q <> "" /\
     (InboundProfile_AWGCPSCapturedDomain q = InboundProfile_AWGCPSCaptureDomain q \/
      InboundProfile_AWGCPSCaptureFailedDomain q = InboundProfile_AWGCPSCaptureDomain q)) ->
  profileCacheValid level mimicry q = true.
Proof.
  intros H1 H2 H3. unfold profileCacheValid. rewrite (bool_decide_eq_false_2 _ H1), H2, Z.eqb_refl. cbn [negb andb].
  case_bool_decide as Hm; [|done]. destruct (H3 Hm) as [Hd [He|He]]; rewrite He, (bool_decide_eq_false_2 _ Hd);
    rewrite (bool_decide_eq_true_2 (InboundProfile_AWGCPSCaptureDomain q = InboundProfile_AWGCPSCaptureDomain q)) by done; cbn [negb andb orb]; [done|apply orb_true_r].
Qed.

Lemma profileSynthesized_fields g level mimicry p :
  genOK g -> 0 < level -> mimicry <> "none" ->
  let q := profileSynthesized g level mimicry p in
  sameRequest p q /\ InboundProfile_AWG3HeaderProtectionKey q = InboundProfile_AWG3HeaderProtectionKey p /\
  InboundProfile_AWGCPSI1 q <> "" /\ InboundProfile_AWGCPSLevel q = level /\
  (mimicry = "quic" -> InboundProfile_AWGCPSCaptureFailedDomain q = InboundProfile_AWGCPSCaptureFailedDomain p).
Proof.
  intros Hg Hl Hm. cbv zeta.
  destruct (generated_nonempty g level mimicry (InboundProfile_EffectiveAWGVersion p) Hg Hl Hm) as [HI _].
  apply CPSMaterialString_nonempty in HI. unfold profileSynthesized.
  revert HI. generalize (GenerateAWGObfsMaterialForVersion g level mimicry (InboundProfile_EffectiveAWGVersion p)) as mat.
  intros mat. generalize (CPSMaterialString (Obfs_I1 mat)), (CPSMaterialString (Obfs_I2 mat)),
    (CPSMaterialString (Obfs_I3 mat)), (CPSMaterialString (Obfs_I4 mat)), (CPSMaterialString (Obfs_I5 mat)).
  intros i1 i2 i3 i4 i5 HI. destruct (decide (mimicry = "quic")) as [->|Hq].
  - rewrite (bool_decide_eq_true_2 ("quic" = "quic")) by done. done.
  - rewrite (bool_decide_eq_false_2 _ Hq). done.
Qed.

Lemma EnsureProfile_settled g preset p level mimicry :
  genOK g -> InboundProfile_AWGCPSCaptureDomain p <> "" -> profileRequested preset p = (level, mimicry) -> 0 < level ->
  mimicry <> "none" -> settled level mimicry (fst (profileAWG3 g p)) (fst (EnsureProfileAWGMaterial g preset p)).
Proof.
  intros Hg Hd Hr Hl Hm. unfold EnsureProfileAWGMaterial.
  destruct (profileAWG3_spec g p Hg) as [(S1 & S2 & S3) _]. destruct (profileAWG3 g p) as [p0 ch]. cbn [fst] in *.
  rewrite S1, (bool_decide_eq_false_2 _ Hd). assert (profileRequested preset p0 = (level, mimicry)) as ->
    by (unfold profileRequested in *; by rewrite S2).
  replace (level <=? 0) with false by lia. destruct (profileCacheValid level mimicry p0) eqn:Ev.
  { cbn [fst]. split; [done|done| |done]. unfold profileCacheValid in Ev. intros Hi. rewrite Hi in Ev. cbn in Ev. by case_match. }
  assert (InboundProfile_AWGCPSCaptureDomain p0 <> "") as Hd0 by congruence. rewrite <- S1.
  case_bool_decide as Hq.
  - destruct (captured g (InboundProfile_AWGCPSCaptureDomain p0)) as [[[[[p1 p2] p3] p4] p5]|] eqn:Ec; cbn [fst].
    + apply (ok_capture g Hg) in Ec. split; [done|done|done|]. apply cacheValid_fields; [done|done|]. intros _. split; [done|by left].
    + set (pf := p0 <| InboundProfile_AWGCPSCaptureFailedDomain := InboundProfile_AWGCPSCaptureDomain p0 |>).
      destruct (profileSynthesized_fields g level "quic" pf Hg Hl ltac:(done)) as ((F1 & F2 & F3) & F4 & F5 & F6 & F7).
      split; [split_and!; [by rewrite F1|by rewrite F2|by rewrite F3]|by rewrite F4|done|].
      apply cacheValid_fields; [done|done|]. intros _. rewrite F1, F7 by done. split; [done|by right].
  - cbn [fst]. destruct (profileSynthesized_fields g level mimicry p0 Hg Hl Hm) as (F1 & F4 & F5 & F6 & _).
    split; [done|done|done|]. by apply cacheValid_fields.
Qed.

(** The material of a profile is shared and stable.  Once a profile with a
    capture domain went through a pass, a later pass keeps it as it is, however
    generators and capture answer, and every inbound made from it, on any node
    and at any time, carries the same obfuscation material. *)
Theorem profile_material_shared g1 g2 preset p :
  genOK g1 -> InboundProfile_AWGCPSCaptureDomain p <> "" ->
  0 < fst (profileRequested preset p) -> snd (profileRequested preset p) <> "none" ->
  let p1 := fst (EnsureProfileAWGMaterial g1 preset p) in
  EnsureProfileAWGMaterial g2 preset p1 = (p1, false) /\
  forall g g' q q' ib ib',
    InboundAWGObfsMaterial (ApplyProfileMaterialToInbound g (Some p1) q ib) =
    InboundAWGObfsMaterial (ApplyProfileMaterialToInbound g' (Some p1) q' ib').
Proof.
  intros Hg Hd Hl Hm. cbv zeta. destruct (profileRequested preset p) as [level mimicry] eqn:Hr. cbn [fst snd] in *.
  destruct (EnsureProfile_settled g1 preset p level mimicry Hg Hd Hr Hl Hm) as [Hs Hk Hi Hv].
  destruct (profileAWG3_spec g1 p Hg) as [(S1 & S2 & S3) Hkey]. destruct Hs as (R1 & R2 & R3).
  set (p1 := fst (EnsureProfileAWGMaterial g1 preset p)) in *. split.
  - unfold EnsureProfileAWGMaterial. assert (profileAWG3 g2 p1 = (p1, false)) as ->.
    { unfold profileAWG3. unfold keyed3 in Hkey. by rewrite R3, Hk, Hkey. }
    assert (InboundProfile_AWGCPSCaptureDomain p1 <> "") as Hd1 by congruence. rewrite (bool_decide_eq_false_2 _ Hd1).
    assert (profileRequested preset p1 = (level, mimicry)) as -> by (unfold profileRequested in *; by rewrite R2, S2).
    rewrite Hv. by case_match.
  - intros. unfold ApplyProfileMaterialToInbound, applyProfileAWGMaterial. rewrite (bool_decide_eq_false_2 _ Hi).
    by destruct ib, ib'.
Qed.

(** ** Concrete deploys *)

(** A generator whose values show where they were drawn. *)
Definition sampleGen (tag : string) (answers : bool) : CPSGen :=
  mkCPSGen ("quic" +:+ tag) (fun n => "short" +:+ tag) (fun d => d +:+ tag) (fun d _ => d +:+ tag)
    (fun _ _ => ("1-" +:+ tag, "2-" +:+ tag, "3-" +:+ tag, "4-" +:+ tag)) ("key" +:+ tag, "1-20", "90-130")
    (fun d => if answers then Some ["<b 0x01>"; "<b 0x02>"; "<b 0x03>"; "<b 0x04>"; "<b 0x05>"] else None).

Lemma sampleGen_ok tag answers : genOK (sampleGen (String "x" tag) answers).
Proof.
  split; try done.
  - intros d. by destruct d.
  - intros d n. by destruct d.
  - by intros pro v h1 h2 h3 h4 [= <- _ _ _].
  - intros d p1 p2 p3 p4 p5. unfold captured. destruct answers; cbn; [by intros [= <- _ _ _ _]|done].
Qed.

Definition awgPreset (i1 : string) : AWGPreset := mkAWGPreset 4 40 70 15 20 12 12 1 2 3 4 50 3 "quic-live" i1 "2".
Definition presetOf (awg : AWGPreset) : ConnectionPreset :=
  mkConnectionPreset "live" "awg" "" None None None (Some awg) 0 "" (mkPresetRouting [] [] [] []).
Definition samplePreset : AWGPreset := awgPreset "".
Definition livePreset : ConnectionPreset := presetOf samplePreset.

Lemma chain_material_agreed_witness :
  let c := zeroChain <| Chain_AWGCPSCaptureDomain := "example.com" |> in
  let c1 := EnsureChainAWGMaterial (sampleGen "xa" false) livePreset c in
  Chain_AWGCPSMimicry c1 = "quic" /\ Chain_AWGCPSCaptureFailedDomain c1 = "example.com" /\
  EnsureChainAWGMaterial (sampleGen "xb" true) livePreset c1 = c1.
Proof.
  cbv zeta. split; [reflexivity|]. split; [reflexivity|].
  refine (proj1 (chain_material_agreed (sampleGen "xa" false) (sampleGen "xb" true) livePreset samplePreset _ _ _ _ _)).
  - apply sampleGen_ok.
  - discriminate.
  - reflexivity.
  - split; discriminate.
Defined.

Lemma profile_material_shared_witness :
  let p := zeroInboundProfile <| InboundProfile_AWGCPSCaptureDomain := "example.com" |> <| InboundProfile_AWG3Mode := true |> in
  let p1 := fst (EnsureProfileAWGMaterial (sampleGen "xa" true) livePreset p) in
  InboundProfile_AWGCPSI1 p1 = "<b 0x01>" /\ InboundProfile_AWG3HeaderProtectionKey p1 = "keyxa" /\
  EnsureProfileAWGMaterial (sampleGen "xb" false) livePreset p1 = (p1, false).
Proof.
  cbv zeta. split; [reflexivity|]. split; [reflexivity|].
  refine (proj1 (profile_material_shared (sampleGen "xa" true) (sampleGen "xb" false) livePreset _ _ _ _ _)).
  - apply sampleGen_ok.
  - discriminate.
  - reflexivity.
  - discriminate.
Defined.

(** A chain whose capture domain is cleared keeps the captured domain of
    before: its cache never matches again, and every deploy draws new packets. *)
Lemma cleared_domain_regenerates :
  let c := zeroChain <| Chain_AWGCPSCapturedDomain := "example.com" |> in
  let c1 := EnsureChainAWGMaterial (sampleGen "xa" true) livePreset c in
  let c2 := EnsureChainAWGMaterial (sampleGen "xb" true) livePreset c1 in
  Chain_AWGH1 c1 = "1-xa" /\ Chain_AWGH1 c2 = "1-xb".
Proof. vm_compute. done. Qed.

(** A preset with a keyword for its first packet draws that packet at every
    rendering, stored material or not. *)
Lemma i1_keyword_redrawn :
  let awg := awgPreset "quic-1200" in
  let p := presetOf awg in
  let m := ChainAWGObfsMaterial (EnsureChainAWGMaterial (sampleGen "xa" true) p (zeroChain <| Chain_AWGCPSCaptureDomain := "e.com" |>)) in
  Amnezia_I1 (BuildAmneziaSection (sampleGen "xb" true) awg (Some p) m) <>
  Amnezia_I1 (BuildAmneziaSection (sampleGen "xc" true) awg (Some p) m).
Proof. cbv zeta. apply (bool_decide_unpack _). vm_compute. exact I. Qed.

(** A profile of version 3 without a capture domain has no key of its own: the
    deploy draws one for the inbound, and the next application of the profile
    erases it. *)
Lemma awg3_key_erased :
  let p := zeroInboundProfile <| InboundProfile_AWG3Mode := true |> in
  let apply (tag : string) ib := ApplyProfileMaterialToInbound (sampleGen tag true) (Some p) livePreset ib in
  let deployed := EnsureInboundAWGMaterial (sampleGen "xa" true) livePreset (apply "xa" zeroNodeInbound) in
  NodeInbound_AWG3HeaderProtectionKey deployed = "keyxa" /\
  NodeInbound_AWG3HeaderProtectionKey (apply "xb" deployed) = "" /\
  NodeInbound_AWG3HeaderProtectionKey (EnsureInboundAWGMaterial (sampleGen "xc" true) livePreset (apply "xb" deployed)) = "keyxc".
Proof. vm_compute. done. Qed.
