(* ===== verification/ProfileDeploy.v ===== *)
(** * ProfileDeploy: inbound profiles on nodes

    internal/chain/profile_deploy.go.  A profile is deployed on a node by an
    inbound of the node's record that refers to it.  [ApplyProfileToNodes] turns
    the placement of a profile into the one the operator asks for, through
    separate store operations: it validates the additions, then removes,
    updates and adds.  What the generators draw for a node is [ProfileGen]; a
    missing default preset is a panic. *)

From S2P Require Import Prelude GoStrings Model ChainModel Lifecycle StoreCore Store Alloc Presets Codec AwgConf AwgMaterial.

(** ** Data *)

(** [ProfileDeployResult]. *)
Record ProfileDeployResult := mkProfileDeployResult {
  pdr_Added : list string;
  pdr_Removed : list string;
  pdr_Updated : list string;
  pdr_Blocked : list string;
  pdr_UsersLostOn : gmap string Z }.
#[export] Instance eta_ProfileDeployResult : Eta ProfileDeployResult := fun r =>
  mkProfileDeployResult (pdr_Added r) (pdr_Removed r) (pdr_Updated r) (pdr_Blocked r) (pdr_UsersLostOn r).
Definition noChanges : ProfileDeployResult := mkProfileDeployResult [] [] [] [] ∅.

(** [AffectedNodes]. *)
Definition AffectedNodes (r : ProfileDeployResult) : list string := pdr_Added r ++ pdr_Removed r ++ pdr_Updated r.

Inductive DeployErr :=
| DListChains (e : StoreErr)
| DNodeMissing (node : string) (e : StoreErr)
| DPortConflict (node : string) (port : Z) (tag protocol : string)
| DRemoveInbound (node : string) (e : StoreErr)
| DUpdateInbound (node : string) (e : StoreErr)
| DKeypair (node : string) | DReality (node : string) | DTLS (node : string)
| DUnsupported (node protocol : string)
| DSaveInbound (node : string) (e : StoreErr)
| DPanic.

(** The draws for one node: the WireGuard pair, the Reality parameters (UUID,
    private key, short ID, public key), a self-signed certificate for a server
    name, a UUID, and the packets. *)
Record ProfileGen := mkProfileGen {
  pg_pair : option (string * string);
  pg_reality : option (string * string * string * string);
  pg_tls : string -> option (string * string);
  pg_uuid : string;
  pg_cps : CPSGen }.

(** ** The parts of a decision *)

(** [chainReferencingProfileOn]. *)
Fixpoint chainReferencingProfileOn (chains : list Chain) (profileID nodeID : string) : string :=
  match chains with
  | [] => ""
  | c :: chains' =>
      if existsb (fun n => (ChainNode_ID n == nodeID) && (ChainNode_InboundRef n == profileID)) (AllNodes c)
      then Chain_Name c else chainReferencingProfileOn chains' profileID nodeID
  end.

(** [inboundPortConflict]: the inbound that holds the port. *)
Definition effectivePort (ib : NodeInbound) : Z :=
  if (NodeInbound_Protocol ib == "mtproxy") && (NodeInbound_Port ib =? 0) then 443 else NodeInbound_Port ib.

Definition inboundPortConflict (ni : NodeInfo) (port : Z) (profileID : string) : option NodeInbound :=
  if port <=? 0 then None
  else List.find (fun ib => (NodeInbound_ProfileID ib != profileID) && (effectivePort ib =? port)) (NodeInfo_Inbounds ni).

(** [awgSubnetsInUseOnNode]. *)
Definition awgSubnetsInUseOnNode (ni : NodeInfo) : list string :=
  let awg := List.filter (fun ib => NodeInbound_Protocol ib == "awg") (NodeInfo_Inbounds ni) in
  map NodeInbound_AWGServerAddress (List.filter (fun ib => NodeInbound_AWGServerAddress ib != "") awg) ++
  (if existsb (fun ib => NodeInbound_AWGServerAddress ib == "") awg then ["10.8.0.1/24"] else []).

(** [buildProfileInbound]. *)
Definition buildProfileInbound (g : ProfileGen) (s : PresetState) (prof : InboundProfile) (ni : NodeInfo)
    : DeployErr + NodeInbound :=
  let node := NodeInfo_ID ni in
  let protocol := InboundProfile_Protocol prof in
  let ib := zeroNodeInbound <| NodeInbound_Protocol := protocol |> <| NodeInbound_Port := InboundProfile_Port prof |>
              <| NodeInbound_Obfuscation := InboundProfile_Obfuscation prof |> <| NodeInbound_ServerName := InboundProfile_ServerName prof |>
              <| NodeInbound_Source := "standalone" |> <| NodeInbound_Tag := InboundProfile_ID prof |>
              <| NodeInbound_ProfileID := InboundProfile_ID prof |> in
  match GetDefaultPreset s with
  | None => inl DPanic
  | Some default =>
      let preset := if InboundProfile_Obfuscation prof == "" then default
                    else match GetPreset s (InboundProfile_Obfuscation prof) with Some p => p | None => default end in
      if protocol == "awg" then
        match pg_pair g with
        | None => inl (DKeypair node)
        | Some (priv, pub) =>
            inr (ApplyProfileMaterialToInbound (pg_cps g) (Some prof) preset
                   (ib <| NodeInbound_ServerPrivKey := priv |> <| NodeInbound_ServerPubKey := pub |>
                       <| NodeInbound_AWGServerAddress := allocateAWGServerSubnet (awgSubnetsInUseOnNode ni) |>))
        end
      else if protocol == "vless-reality" then
        match pg_reality g with
        | None => inl (DReality node)
        | Some (uuid, priv, sid, pub) =>
            inr (ib <| NodeInbound_UUID := uuid |> <| NodeInbound_ServerPrivKey := priv |> <| NodeInbound_ShortID := sid |>
                    <| NodeInbound_ServerPubKey := pub |>)
        end
      else if (protocol == "naive") || (protocol == "trusttunnel") then
        match pg_tls g (EffectiveDefaultSNI s) with
        | None => inl (DTLS node)
        | Some (cert, key) => inr (ib <| NodeInbound_TLSCertificate := cert |> <| NodeInbound_TLSPrivateKey := key |>)
        end
      else if protocol == "mieru" then
        inr (ib <| NodeInbound_MieruTransport := if InboundProfile_MieruTransport prof == "" then "TCP" else InboundProfile_MieruTransport prof |>)
      else if protocol == "mtproxy" then inr ib
      else if protocol == "tuic" then inr (ib <| NodeInbound_UUID := pg_uuid g |>)
      else inl (DUnsupported node protocol)
  end.

(** One inbound of the profile on a kept node; [None] is the panic. *)
Definition syncInbound (g : CPSGen) (s : PresetState) (prof : InboundProfile) (ib0 : NodeInbound) : option (NodeInbound * bool) :=
  let changed := (NodeInbound_Port ib0 != InboundProfile_Port prof) || (NodeInbound_Obfuscation ib0 != InboundProfile_Obfuscation prof) ||
                 (NodeInbound_MieruTransport ib0 != InboundProfile_MieruTransport prof) ||
                 (NodeInbound_ServerName ib0 != InboundProfile_ServerName prof) in
  let ib := ib0 <| NodeInbound_Port := InboundProfile_Port prof |> <| NodeInbound_Obfuscation := InboundProfile_Obfuscation prof |>
                <| NodeInbound_MieruTransport := InboundProfile_MieruTransport prof |>
                <| NodeInbound_ServerName := InboundProfile_ServerName prof |> in
  if NodeInbound_Protocol ib == UserProtocolAWG then
    match ResolveStandaloneAWGPreset s ib with
    | None => None
    | Some preset =>
        let ib' := ApplyProfileMaterialToInbound g (Some prof) preset ib in
        Some (ib', changed || (NodeInbound_AWGCPSI1 ib' +:+ NodeInbound_AWGH1 ib' != NodeInbound_AWGCPSI1 ib +:+ NodeInbound_AWGH1 ib))
    end
  else Some (ib, changed).

Fixpoint syncInbounds (g : CPSGen) (s : PresetState) (prof : InboundProfile) (ibs : list NodeInbound) : option (list NodeInbound * bool) :=
  match ibs with
  | [] => Some ([], false)
  | ib :: ibs' =>
      let one := if NodeInbound_ProfileID ib != InboundProfile_ID prof then Some (ib, false) else syncInbound g s prof ib in
      match one, syncInbounds g s prof ibs' with
      | Some (ib', c), Some (rest, c') => Some (ib' :: rest, c || c')
      | _, _ => None
      end
  end.

(** ** The loops *)

Definition Loop : Type := ProfileDeployResult -> World -> option DeployErr * ProfileDeployResult * World.

(** [for _, nodeID := range ids], left at the first error. *)
Fixpoint eachNode (f : string -> Loop) (ids : list string) : Loop := fun r w =>
  match ids with
  | [] => (None, r, w)
  | id :: ids' =>
      match f id r w with
      | (None, r', w') => eachNode f ids' r' w'
      | stop => stop
      end
  end.

(** The validation of the additions: the records to add to. *)
Fixpoint preflight (prof : InboundProfile) (current : list string) (w : World) (targets : gmap string NodeInfo) (desired : list string)
    : DeployErr + gmap string NodeInfo :=
  match desired with
  | [] => inr targets
  | id :: desired' =>
      if bool_decide (id ∈ current) then preflight prof current w targets desired'
      else
        let found := match GetNodeInfo id w with
                     | Ok ni => inr ni
                     | Err _ => match GetHost id w with
                                | Ok h => inr (zeroNodeInfo <| NodeInfo_Host := h |>)
                                | Err e => inl (DNodeMissing id e)
                                end
                     end in
        match found with
        | inl e => inl e
        | inr ni =>
            match inboundPortConflict ni (InboundProfile_Port prof) (InboundProfile_ID prof) with
            | Some ib => inl (DPortConflict id (InboundProfile_Port prof) (NodeInbound_Tag ib) (NodeInbound_Protocol ib))
            | None => preflight prof current w (<[id := ni]> targets) desired'
            end
        end
  end.

Definition ofProfile (prof : InboundProfile) (ib : NodeInbound) : bool := NodeInbound_ProfileID ib == InboundProfile_ID prof.

(** The users that lose the inbound: the last inbound of the profile that has any. *)
Definition usersLost (prof : InboundProfile) (id : string) (ni : NodeInfo) (lost : gmap string Z) : gmap string Z :=
  fold_left (fun m ib => match NodeInbound_ForUsers ib with [] => m | us => <[id := Z.of_nat (length us)]> m end)
    (List.filter (ofProfile prof) (NodeInfo_Inbounds ni)) lost.

Definition removeStep (prof : InboundProfile) (chains : list Chain) (desired : list string) (id : string) : Loop := fun r w =>
  if bool_decide (id ∈ desired) then (None, r, w)
  else if chainReferencingProfileOn chains (InboundProfile_ID prof) id != "" then (None, r <| pdr_Blocked := pdr_Blocked r ++ [id] |>, w)
  else
    match GetNodeInfo id w with
    | Err _ => (None, r, w)
    | Ok ni =>
        let r := r <| pdr_UsersLostOn := usersLost prof id ni (pdr_UsersLostOn r) |> in
        if negb (existsb (ofProfile prof) (NodeInfo_Inbounds ni)) then (None, r, w)
        else
          let ni := ni <| NodeInfo_Inbounds := List.filter (fun ib => negb (ofProfile prof ib)) (NodeInfo_Inbounds ni) |> in
          match SaveNodeInfo ni w with
          | (Err e, w') => (Some (DRemoveInbound id e), r, w')
          | (Ok _, w') => (None, r <| pdr_Removed := pdr_Removed r ++ [id] |>, w')
          end
    end.

Definition updateStep (g : string -> ProfileGen) (s : PresetState) (prof : InboundProfile) (desired : list string) (id : string) : Loop :=
  fun r w =>
  if negb (bool_decide (id ∈ desired)) then (None, r, w)
  else
    match GetNodeInfo id w with
    | Err _ => (None, r, w)
    | Ok ni =>
        match syncInbounds (pg_cps (g id)) s prof (NodeInfo_Inbounds ni) with
        | None => (Some DPanic, r, w)
        | Some (ibs, changed) =>
            if negb changed then (None, r, w)
            else
              match SaveNodeInfo (ni <| NodeInfo_Inbounds := ibs |>) w with
              | (Err e, w') => (Some (DUpdateInbound id e), r, w')
              | (Ok _, w') => (None, r <| pdr_Updated := pdr_Updated r ++ [id] |>, w')
              end
        end
    end.

(** The additions; the record is shared when a node is named twice. *)
Fixpoint addLoop (g : string -> ProfileGen) (s : PresetState) (prof : InboundProfile) (current : list string)
    (targets : gmap string NodeInfo) (ids : list string) : Loop := fun r w =>
  match ids with
  | [] => (None, r, w)
  | id :: ids' =>
      if bool_decide (id ∈ current) then addLoop g s prof current targets ids' r w
      else
        match targets !! id with
        | None => (Some DPanic, r, w)
        | Some ni =>
            match buildProfileInbound (g id) s prof ni with
            | inl e => (Some e, r, w)
            | inr ib =>
                let ni := ni <| NodeInfo_Inbounds := NodeInfo_Inbounds ni ++ [ib] |> in
                match SaveNodeInfo ni w with
                | (Err e, w') => (Some (DSaveInbound id e), r, w')
                | (Ok _, w') =>
                    addLoop g s prof current (<[id := ni]> targets) ids' (r <| pdr_Added := pdr_Added r ++ [id] |>) w'
                end
            end
        end
  end.

(** [ApplyProfileToNodes]. *)
Definition ApplyProfileToNodes (g : string -> ProfileGen) (s : PresetState) (prof : InboundProfile) (desired : list string) (w : World)
    : option DeployErr * ProfileDeployResult * World :=
  let current := ProfileNodes (InboundProfile_ID prof) w in
  match ListChains w with
  | Err e => (Some (DListChains e), noChanges, w)
  | Ok chains =>
      match preflight prof current w ∅ desired with
      | inl e => (Some e, noChanges, w)
      | inr targets =>
          match eachNode (removeStep prof chains desired) current noChanges w with
          | (None, r, w1) =>
              match eachNode (updateStep g s prof desired) current r w1 with
              | (None, r, w2) => addLoop g s prof current targets desired r w2
              | stop => stop
              end
          | stop => stop
          end
      end
  end.

(** ** Lemmas: the records behind the store operations *)

(** The disk can be written and holds these chains and node records. *)
Definition infosOn (cs : list Chain) (infos : list NodeInfo) (w : World) : Prop :=
  writable w /\ NoDup (keys infos) /\ exists sf, readStore w = inr sf /\ sf_NodeInfos sf = infos /\ sf_Chains sf = cs.

Lemma SaveNodeInfo_infos cs ni infos w :
  infosOn cs infos w -> exists w', SaveNodeInfo ni w = (Ok tt, w') /\ infosOn cs (upsert ni infos) w'.
Proof.
  intros (Hw & Hnd & sf & Hr & <- & <-). unfold SaveNodeInfo. set (f := fun sf : storeFile => _).
  assert (readOrNew w = Ok sf) as Ho by (unfold readOrNew; by rewrite Hr).
  destruct (modifyStore_writable (readOrNew w) f w sf tt _ Hw Ho eq_refl) as [w' Hm].
  destruct (modifyStore_Ok _ _ _ _ _ Hm) as (sf2 & sf3 & H1 & H2 & H3 & H4 & H5 & _).
  rewrite Ho in H1. injection H1 as <-. injection H2 as <-. exists w'. split; [done|]. split; [|split].
  - unfold writable. rewrite H4, H5. exact Hw.
  - by apply NoDup_keys_upsert.
  - eexists. split; [exact H3|]. done.
Qed.

Lemma GetNodeInfo_infos cs infos w id :
  infosOn cs infos w -> GetNodeInfo id w = match find_key id infos with Some ni => Ok ni | None => Err (ENodeInfoNotFound id) end.
Proof. intros (_ & _ & sf & Hr & <- & _). unfold GetNodeInfo, readAny. by rewrite Hr. Qed.

Lemma ProfileNodes_infos cs infos w pid :
  infosOn cs infos w ->
  forall id, id ∈ ProfileNodes pid w <->
    exists ni, find_key id infos = Some ni /\ existsb (fun ib => NodeInbound_ProfileID ib == pid) (NodeInfo_Inbounds ni) = true.
Proof.
  intros (_ & Hnd & sf & Hr & <- & _) id. unfold ProfileNodes. rewrite Hr. rewrite list_elem_of_fmap. split.
  - intros (ni & -> & Hin). apply list_elem_of_In, filter_In in Hin as [Hin He]. exists ni. split; [|done].
    apply (find_key_elem ni); [done|by apply list_elem_of_In].
  - intros (ni & Hf & He). apply find_key_Some in Hf as [Hin Hk]. exists ni. split; [done|].
    apply list_elem_of_In, filter_In. split; [by apply list_elem_of_In|done].
Qed.

Lemma NoDup_ProfileNodes cs infos w pid : infosOn cs infos w -> NoDup (ProfileNodes pid w).
Proof.
  intros (_ & Hnd & sf & Hr & <- & _). unfold ProfileNodes. rewrite Hr. change (map NodeInfo_ID) with (map (key_of (A := NodeInfo))).
  apply (NoDup_keys_filter _ _ Hnd).
Qed.

(** Saving a record under its own identifier. *)
Lemma find_upsert_info id (ni ni' : NodeInfo) (infos : list NodeInfo) :
  find_key id infos = Some ni -> key_of ni' = id ->
  find_key id (upsert ni' infos) = Some ni' /\ forall j, j <> id -> find_key j (upsert ni' infos) = find_key j infos.
Proof. intros _ <-. split; [apply find_upsert_eq|]. intros j Hj. by apply find_upsert_ne. Qed.

(** A loop of steps that each rewrite at most the record of their node. *)
Lemma eachNode_records cs (f : string -> Loop) (R : string -> option NodeInfo -> option NodeInfo -> Prop) :
  (forall id r w infos r' w', infosOn cs infos w -> f id r w = (None, r', w') ->
     exists infos', infosOn cs infos' w' /\ (forall j, j <> id -> find_key j infos' = find_key j infos) /\
       R id (find_key id infos) (find_key id infos')) ->
  forall ids r w infos r' w', NoDup ids -> infosOn cs infos w -> eachNode f ids r w = (None, r', w') ->
    exists infos', infosOn cs infos' w' /\
      forall j, (j ∈ ids -> R j (find_key j infos) (find_key j infos')) /\ (j ∉ ids -> find_key j infos' = find_key j infos).
Proof.
  intros Hstep. induction ids as [|id ids IH]; intros r w infos r' w' Hnd Hi He; cbn [eachNode] in He.
  - injection He as <- <-. exists infos. split; [done|]. intros j. split; [by intros ?%elem_of_nil|done].
  - apply NoDup_cons in Hnd as [Hn Hnd]. destruct (f id r w) as [[[e|] r1] w1] eqn:Ef; [done|].
    destruct (Hstep _ _ _ _ _ _ Hi Ef) as (infos1 & Hi1 & Hsame & HR).
    destruct (IH _ _ _ _ _ Hnd Hi1 He) as (infos2 & Hi2 & Hj). exists infos2. split; [done|]. intros j. split.
    + intros [-> | Hin]%elem_of_cons; [by rewrite (proj2 (Hj id) Hn)|].
      rewrite <- (Hsame j) by (intros ->; done). by apply Hj.
    + intros [Hne Hnin]%not_elem_of_cons. rewrite (proj2 (Hj j) Hnin). by apply Hsame.
Qed.

(** ** Lemmas: credentials *)

(** What clients of an inbound depend on, besides the shared material. *)
Definition credsOf (ib : NodeInbound) : list string :=
  [NodeInbound_UUID ib; NodeInbound_ServerPrivKey ib; NodeInbound_ServerPubKey ib; NodeInbound_ShortID ib;
   NodeInbound_ObfsPassword ib; NodeInbound_TLSCertificate ib; NodeInbound_TLSPrivateKey ib; NodeInbound_AWGServerAddress ib;
   NodeInbound_Protocol ib; NodeInbound_ProfileID ib; NodeInbound_Tag ib; NodeInbound_Source ib].

Lemma creds_awg3 g ib : credsOf (ensureInboundAWG3Material g ib) = credsOf ib.
Proof. unfold ensureInboundAWG3Material. destruct (gen_awg3 g) as [[k p] r]. by repeat case_match. Qed.

Lemma creds_inbound g preset ib : credsOf (EnsureInboundAWGMaterial g preset ib) = credsOf ib.
Proof.
  unfold EnsureInboundAWGMaterial. destruct (requested preset) as [level mimicry]. case_match; [apply creds_awg3|].
  case_match; [apply creds_awg3|]. by rewrite creds_awg3.
Qed.

Lemma creds_apply g p preset ib : credsOf (ApplyProfileMaterialToInbound g p preset ib) = credsOf ib.
Proof.
  unfold ApplyProfileMaterialToInbound. destruct p as [p|]; [|apply creds_inbound].
  assert (credsOf (fst (applyProfileAWGMaterial p ib)) = credsOf ib) as Ha by (unfold applyProfileAWGMaterial; by case_match).
  destruct (applyProfileAWGMaterial p ib) as [ib' []]; cbn [fst] in Ha; [done|]. by rewrite creds_inbound.
Qed.

Lemma creds_profile prof ib ib' : credsOf ib' = credsOf ib -> ofProfile prof ib' = ofProfile prof ib.
Proof. intros H. injection H. intros. unfold ofProfile. assert (NodeInbound_ProfileID ib' = NodeInbound_ProfileID ib) as -> by done. done. Qed.

Lemma creds_sync g s prof ib ib' c : syncInbound g s prof ib = Some (ib', c) -> credsOf ib' = credsOf ib.
Proof.
  unfold syncInbound. case_match; [|by intros [= <- _]]. destruct (ResolveStandaloneAWGPreset s _) as [preset|]; [|done].
  intros [= <- _]. exact (creds_apply g (Some prof) preset _).
Qed.

(** A record whose inbounds of the profile were synced. *)
Definition syncedInbound (prof : InboundProfile) (ib ib' : NodeInbound) : Prop :=
  if ofProfile prof ib then credsOf ib' = credsOf ib else ib' = ib.

Lemma sync_records g s prof ibs : forall ibs' c,
  syncInbounds g s prof ibs = Some (ibs', c) -> Forall2 (syncedInbound prof) ibs ibs'.
Proof.
  induction ibs as [|ib ibs IH]; intros ibs' c; cbn [syncInbounds]; [intros [= <- _]; constructor|].
  destruct (if NodeInbound_ProfileID ib != _ then _ else _) as [[ib1 c1]|] eqn:E1; [|done].
  destruct (syncInbounds g s prof ibs) as [[rest c2]|] eqn:E2; [|done]. intros [= <- _]. constructor; [|by eapply IH].
  unfold syncedInbound, ofProfile. destruct (NodeInbound_ProfileID ib == InboundProfile_ID prof); cbn [negb] in E1;
    [by eapply creds_sync|by injection E1 as <- _].
Qed.

Lemma synced_refl prof ibs : Forall2 (syncedInbound prof) ibs ibs.
Proof. induction ibs as [|ib ibs IH]; constructor; [|done]. unfold syncedInbound. by case_match. Qed.

Lemma synced_filters prof ibs ibs' :
  Forall2 (syncedInbound prof) ibs ibs' ->
  List.filter (fun ib => negb (ofProfile prof ib)) ibs' = List.filter (fun ib => negb (ofProfile prof ib)) ibs /\
  map credsOf (List.filter (ofProfile prof) ibs') = map credsOf (List.filter (ofProfile prof) ibs) /\
  existsb (ofProfile prof) ibs' = existsb (ofProfile prof) ibs.
Proof.
  induction 1 as [|ib ib' ibs ibs' Hs _ (IH1 & IH2 & IH3)]; [done|]. unfold syncedInbound in Hs.
  destruct (ofProfile prof ib) eqn:E.
  - pose proof (creds_profile prof ib ib' Hs) as Hp. rewrite E in Hp. cbn [List.filter existsb map]. rewrite Hp, E. cbn [negb map orb].
    split_and!; [done|by rewrite Hs, IH2|done].
  - subst ib'. cbn [List.filter existsb map]. rewrite E. cbn [negb orb]. by rewrite IH1, IH3.
Qed.

(** ** Lemmas: the three loops *)

Section loops.
Context (cs : list Chain) (g : string -> ProfileGen) (s : PresetState) (prof : InboundProfile) (desired : list string).

Definition keepsNode (id : string) : bool :=
  bool_decide (id ∈ desired) || (chainReferencingProfileOn cs (InboundProfile_ID prof) id != "").

Definition stripped (ni : NodeInfo) : NodeInfo :=
  ni <| NodeInfo_Inbounds := List.filter (fun ib => negb (ofProfile prof ib)) (NodeInfo_Inbounds ni) |>.

Lemma stripped_absent ni : existsb (ofProfile prof) (NodeInfo_Inbounds ni) = false -> stripped ni = ni.
Proof.
  intros He. unfold stripped. assert (List.filter (fun ib => negb (ofProfile prof ib)) (NodeInfo_Inbounds ni) = NodeInfo_Inbounds ni) as ->;
    [|by destruct ni]. induction (NodeInfo_Inbounds ni) as [|ib ibs IH]; [done|]. cbn [existsb] in He.
  apply orb_false_iff in He as [H1 H2]. cbn [List.filter]. by rewrite H1, IH.
Qed.

Lemma removeStep_record id r w infos r' w' :
  infosOn cs infos w -> removeStep prof cs desired id r w = (None, r', w') ->
  exists infos', infosOn cs infos' w' /\ (forall j, j <> id -> find_key j infos' = find_key j infos) /\
    find_key id infos' = if keepsNode id then find_key id infos else option_map stripped (find_key id infos).
Proof.
  intros Hi. unfold removeStep, keepsNode. case_bool_decide; [intros [= <- <-]; by exists infos|]. cbn [orb].
  destruct (chainReferencingProfileOn cs _ id != ""); [intros [= <- <-]; by exists infos|].
  rewrite (GetNodeInfo_infos _ _ _ _ Hi). destruct (find_key id infos) as [ni|] eqn:Ef; [|intros [= <- <-]; by exists infos].
  destruct (existsb (ofProfile prof) (NodeInfo_Inbounds ni)) eqn:Ee; cbn [negb].
  - fold (stripped ni). destruct (SaveNodeInfo_infos cs (stripped ni) infos w Hi) as (w1 & -> & Hi1). intros [= <- <-].
    exists (upsert (stripped ni) infos). split; [done|]. cbn [option_map].
    pose proof Ef as Hkey. apply find_key_Some in Hkey as [_ Hkey].
    apply (find_upsert_info id ni (stripped ni)) in Ef as [H1 H2]; [by split|exact Hkey].
  - intros [= <- <-]. exists infos. split; [done|]. cbn [option_map]. by rewrite stripped_absent.
Qed.

Definition syncedRecord (o o' : option NodeInfo) : Prop :=
  match o, o' with
  | Some ni, Some ni' => ni' = ni <| NodeInfo_Inbounds := NodeInfo_Inbounds ni' |> /\
                         Forall2 (syncedInbound prof) (NodeInfo_Inbounds ni) (NodeInfo_Inbounds ni')
  | None, None => True
  | _, _ => False
  end.

Lemma syncedRecord_refl o : syncedRecord o o.
Proof. destruct o as [ni|]; [|done]. split; [by destruct ni|apply synced_refl]. Qed.

Lemma updateStep_record id r w infos r' w' :
  infosOn cs infos w -> updateStep g s prof desired id r w = (None, r', w') ->
  exists infos', infosOn cs infos' w' /\ (forall j, j <> id -> find_key j infos' = find_key j infos) /\
    syncedRecord (find_key id infos) (find_key id infos').
Proof.
  intros Hi. unfold updateStep. case_bool_decide; cbn [negb];
    [|intros [= <- <-]; exists infos; split_and!; [done|done|apply syncedRecord_refl]].
  rewrite (GetNodeInfo_infos _ _ _ _ Hi). destruct (find_key id infos) as [ni|] eqn:Ef;
    [|intros [= <- <-]; exists infos; split_and!; [done|done|by rewrite Ef]].
  destruct (syncInbounds (pg_cps (g id)) s prof (NodeInfo_Inbounds ni)) as [[ibs []]|] eqn:Es; [| |done]; cbn [negb].
  - set (ni' := ni <| NodeInfo_Inbounds := ibs |>).
    destruct (SaveNodeInfo_infos cs ni' infos w Hi) as (w1 & -> & Hi1). intros [= <- <-].
    exists (upsert ni' infos). split; [done|]. pose proof Ef as Hkey. apply find_key_Some in Hkey as [_ Hkey].
    destruct (find_upsert_info id ni ni' infos Ef Hkey) as [H1 H2]. split; [exact H2|]. rewrite H1. split; [done|].
    exact (sync_records _ _ _ _ _ _ Es).
  - intros [= <- <-]. exists infos. split_and!; [done|done|]. rewrite Ef. apply (syncedRecord_refl (Some ni)).
Qed.
End loops.

Definition inboundsAt (infos : list NodeInfo) (id : string) : list NodeInbound :=
  match find_key id infos with Some ni => NodeInfo_Inbounds ni | None => [] end.

(** The record a node is added to: its own, or a new one without inbounds. *)
Definition targetFor (infos : list NodeInfo) (id : string) (ni : NodeInfo) : Prop :=
  key_of ni = id /\ NodeInfo_Inbounds ni = inboundsAt infos id.

Section additions.
Context (cs : list Chain) (g : string -> ProfileGen) (s : PresetState) (prof : InboundProfile) (current : list string).

Lemma preflight_targets infos w : infosOn cs infos w ->
  forall desired targets targets', preflight prof current w targets desired = inr targets' ->
  (forall id ni, targets !! id = Some ni -> targetFor infos id ni /\ inboundPortConflict ni (InboundProfile_Port prof) (InboundProfile_ID prof) = None) ->
  (forall id ni, targets' !! id = Some ni -> targetFor infos id ni /\ inboundPortConflict ni (InboundProfile_Port prof) (InboundProfile_ID prof) = None) /\
  forall id, (id ∈ desired /\ id ∉ current) \/ is_Some (targets !! id) -> is_Some (targets' !! id).
Proof.
  intros Hi. induction desired as [|x desired IH]; intros targets targets'; cbn [preflight].
  - intros [= <-] Ht. split; [done|]. intros id [[H%elem_of_nil _]|H]; done.
  - case_bool_decide as Hx.
    + intros Hp Ht. destruct (IH _ _ Hp Ht) as [H1 H2]. split; [done|]. intros id [[[-> | Hin]%elem_of_cons Hn]|H]; [done|by apply H2; left|by apply H2; right].
    + set (found := match GetNodeInfo x w with Ok _ => _ | Err _ => _ end). destruct found as [e|ni] eqn:Ef; [done|].
      assert (targetFor infos x ni) as Hni.
      { unfold found in Ef. rewrite (GetNodeInfo_infos _ _ _ _ Hi) in Ef. unfold targetFor, inboundsAt.
        destruct (find_key x infos) as [m|] eqn:Em; [injection Ef as <-; by apply find_key_Some in Em as [_ Em]|].
        destruct (GetHost x w) as [h|e] eqn:Eh; [|done]. injection Ef as <-. split; [|done].
        unfold GetHost in Eh. destruct (readOrErr (EHostNotFound x) w) as [sf|]; [|done].
        destruct (find_key x (sf_Hosts sf)) as [h'|] eqn:Efk; [|done]. injection Eh as <-. by apply find_key_Some in Efk as [_ Efk]. }
      destruct (inboundPortConflict ni _ _) as [ib|] eqn:Ec; [done|]. intros Hp Ht.
      destruct (IH _ _ Hp) as [H1 H2].
      { intros id m. destruct (decide (id = x)) as [->|Hne]; [rewrite lookup_insert_eq; by intros [= <-]|].
        rewrite lookup_insert_ne by done. apply Ht. }
      split; [done|]. intros id [[[-> | Hin]%elem_of_cons Hn]|H]; apply H2.
      * right. by rewrite lookup_insert_eq.
      * by left.
      * right. destruct (decide (id = x)) as [->|]; [by rewrite lookup_insert_eq|by rewrite lookup_insert_ne].
Qed.

(** An added node has its inbounds and one of the profile. *)
Definition added (ibs ibs' : list NodeInbound) : Prop := exists ib, ofProfile prof ib = true /\ ibs' = ibs ++ [ib].

Lemma build_ofProfile gen ni ib : buildProfileInbound gen s prof ni = inr ib -> ofProfile prof ib = true.
Proof.
  unfold buildProfileInbound. destruct (GetDefaultPreset s); [|done].
  assert (forall b : NodeInbound, NodeInbound_ProfileID b = InboundProfile_ID prof -> ofProfile prof b = true) as Ho
    by (intros b Hb; unfold ofProfile; by rewrite bool_decide_eq_true_2).
  case_match; [destruct (pg_pair gen) as [[? ?]|]; [|done]; intros [= <-]|].
  { match goal with |- ofProfile prof ?ib = true => pose proof (creds_apply (pg_cps gen) (Some prof)) as Hc end.
    match goal with |- ofProfile prof (let '(x, b) := applyProfileAWGMaterial prof ?ib0 in if b then x else EnsureInboundAWGMaterial _ ?q x) = true =>
      specialize (Hc q ib0) end.
    apply (creds_profile prof) in Hc. etransitivity; [exact Hc|]. by apply Ho. }
  case_match; [destruct (pg_reality gen) as [[[[? ?] ?] ?]|]; [|done]; intros [= <-]; by apply Ho|].
  case_match; [destruct (pg_tls gen _) as [[? ?]|]; [|done]; intros [= <-]; by apply Ho|].
  repeat (case_match; [intros [= <-]; by apply Ho|]). done.
Qed.

Lemma addLoop_records ids : forall targets r w infos r' w',
  NoDup ids -> infosOn cs infos w -> addLoop g s prof current targets ids r w = (None, r', w') ->
  (forall id ni, id ∈ ids -> id ∉ current -> targets !! id = Some ni -> targetFor infos id ni) ->
  exists infos', infosOn cs infos' w' /\
    forall j, (j ∈ ids -> j ∉ current -> added (inboundsAt infos j) (inboundsAt infos' j)) /\
              (j ∉ ids \/ j ∈ current -> find_key j infos' = find_key j infos).
Proof.
  induction ids as [|id ids IH]; intros targets r w infos r' w' Hnd Hi; cbn [addLoop].
  - intros [= <- <-] _. exists infos. split; [done|]. intros j. split; [by intros ?%elem_of_nil|done].
  - apply NoDup_cons in Hnd as [Hn Hnd]. case_bool_decide as Hc.
    + intros Ha Ht. destruct (IH _ _ _ _ _ _ Hnd Hi Ha) as (infos' & Hi' & Hj); [intros j ni Hin; apply Ht; by right|].
      exists infos'. split; [done|]. intros j. split.
      * intros [-> | Hin]%elem_of_cons Hnc; [done|by apply Hj].
      * intros [[_ H]%not_elem_of_cons|H]; apply Hj; tauto.
    + destruct (targets !! id) as [ni|] eqn:Et; [|done]. destruct (buildProfileInbound (g id) s prof ni) as [e|ib] eqn:Eb; [done|].
      set (ni' := ni <| NodeInfo_Inbounds := NodeInfo_Inbounds ni ++ [ib] |>).
      destruct (SaveNodeInfo_infos cs ni' infos w Hi) as (w1 & -> & Hi1). intros Ha Ht.
      destruct (Ht id ni ltac:(left) Hc Et) as [Hkey Hib].
      assert (key_of ni' = id) as Hkey' by exact Hkey.
      assert (find_key id (upsert ni' infos) = Some ni') as Hfind by (rewrite <- Hkey'; apply find_upsert_eq).
      assert (forall j, j <> id -> find_key j (upsert ni' infos) = find_key j infos) as Hne.
      { intros j Hj. apply find_upsert_ne. congruence. }
      destruct (IH _ _ _ _ _ _ Hnd Hi1 Ha) as (infos' & Hi' & Hj).
      { intros j m Hin Hnc. rewrite lookup_insert_ne by (intros ->; done). intros Hm.
        destruct (Ht j m ltac:(by right) Hnc Hm) as [H1 H2]. split; [done|]. unfold inboundsAt. rewrite Hne by (intros ->; done). exact H2. }
      exists infos'. split; [done|]. intros j. split.
      * intros [-> | Hin]%elem_of_cons Hnc.
        -- exists ib. split; [by eapply build_ofProfile|]. unfold inboundsAt at 1.
           rewrite (proj2 (Hj id)) by (by left). rewrite Hfind. unfold ni'. cbn. by rewrite Hib.
        -- destruct (proj1 (Hj j) Hin Hnc) as (ib' & H1 & H2). exists ib'. split; [done|]. rewrite H2. unfold inboundsAt.
           by rewrite Hne by (intros ->; done).
      * intros [[Hjn H]%not_elem_of_cons|H].
        -- rewrite (proj2 (Hj j)) by (by left). by apply Hne.
        -- rewrite (proj2 (Hj j)) by (by right). apply Hne. intros ->. done.
Qed.
End additions.

(** ** Lemmas: the refusals *)

Definition refused (cs : list Chain) (prof : InboundProfile) (desired : list string) (id : string) : bool :=
  negb (bool_decide (id ∈ desired)) && (chainReferencingProfileOn cs (InboundProfile_ID prof) id != "").

Lemma remove_blocked cs prof desired ids : forall r w r' w',
  eachNode (removeStep prof cs desired) ids r w = (None, r', w') ->
  pdr_Blocked r' = pdr_Blocked r ++ List.filter (refused cs prof desired) ids.
Proof.
  induction ids as [|id ids IH]; intros r w r' w'; cbn [eachNode]; [intros [= <- _]; by rewrite app_nil_r|].
  destruct (removeStep prof cs desired id r w) as [[[e|] r1] w1] eqn:Es; [done|]. intros He. rewrite (IH _ _ _ _ He).
  cbn [List.filter]. unfold removeStep in Es. unfold refused at 2.
  destruct (bool_decide (id ∈ desired)); cbn [negb andb]; [by injection Es as <- _|].
  destruct (chainReferencingProfileOn cs (InboundProfile_ID prof) id != "");
    [injection Es as <- _; cbn [pdr_Blocked update]; by rewrite <- app_assoc|].
  destruct (GetNodeInfo id w); [|by injection Es as <- _]. destruct (negb _); [by injection Es as <- _|].
  destruct (SaveNodeInfo _ w) as [[] ?]; [by injection Es as <- _|discriminate Es].
Qed.

Lemma update_blocked g s prof desired ids : forall r w r' w',
  eachNode (updateStep g s prof desired) ids r w = (None, r', w') -> pdr_Blocked r' = pdr_Blocked r.
Proof.
  induction ids as [|id ids IH]; intros r w r' w'; cbn [eachNode]; [by intros [= <- _]|].
  destruct (updateStep g s prof desired id r w) as [[[e|] r1] w1] eqn:Es; [done|]. intros He. rewrite (IH _ _ _ _ He).
  unfold updateStep in Es. destruct (negb _); [by injection Es as <- _|]. destruct (GetNodeInfo id w); [|by injection Es as <- _].
  destruct (syncInbounds _ _ _ _) as [[ibs []]|]; [|by injection Es as <- _|done]. cbn [negb] in Es.
  destruct (SaveNodeInfo _ w) as [[] ?]; [by injection Es as <- _|discriminate Es].
Qed.

Lemma add_blocked g s prof current ids : forall targets r w r' w',
  addLoop g s prof current targets ids r w = (None, r', w') -> pdr_Blocked r' = pdr_Blocked r.
Proof.
  induction ids as [|id ids IH]; intros targets r w r' w'; cbn [addLoop]; [by intros [= <- _]|].
  case_bool_decide; [by apply IH|]. destruct (targets !! id) as [ni|]; [|done].
  destruct (buildProfileInbound (g id) s prof ni) as [|ib]; [done|]. destruct (SaveNodeInfo _ w) as [[] ?]; [|done].
  intros Ha. by rewrite (IH _ _ _ _ _ Ha).
Qed.

(** ** The placement *)

Lemma strip_filters prof ibs :
  let kept := List.filter (fun ib => negb (ofProfile prof ib)) ibs in
  List.filter (fun ib => negb (ofProfile prof ib)) kept = kept /\ existsb (ofProfile prof) kept = false.
Proof.
  induction ibs as [|ib ibs [IH1 IH2]]; [done|]. cbn [List.filter]. destruct (ofProfile prof ib) eqn:E; cbn [negb]; [done|].
  cbn [List.filter existsb]. rewrite E. cbn [negb orb]. by rewrite IH1.
Qed.

(** How the inbounds of one node end up. *)
Lemma node_outcome cs g s prof desired w infos r w' :
  infosOn cs infos w -> NoDup desired -> ListChains w = Ok cs ->
  ApplyProfileToNodes g s prof desired w = (None, r, w') ->
  exists infos', infosOn cs infos' w' /\
    pdr_Blocked r = List.filter (refused cs prof desired) (ProfileNodes (InboundProfile_ID prof) w) /\
    forall id,
      let old := inboundsAt infos id in let new := inboundsAt infos' id in
      if existsb (ofProfile prof) old then
        if keepsNode cs prof desired id then Forall2 (syncedInbound prof) old new
        else new = List.filter (fun ib => negb (ofProfile prof ib)) old
      else if bool_decide (id ∈ desired) then
        added prof old new /\
        (0 < InboundProfile_Port prof -> Forall (fun ib => effectivePort ib <> InboundProfile_Port prof) old)
      else new = old.
Proof.
  intros Hi Hnd Hlc. unfold ApplyProfileToNodes. rewrite Hlc. set (current := ProfileNodes (InboundProfile_ID prof) w).
  assert (forall id, id ∈ current <-> existsb (ofProfile prof) (inboundsAt infos id) = true) as Hcur.
  { intros id. unfold current. rewrite (ProfileNodes_infos _ _ _ _ Hi id). unfold inboundsAt. split.
    - intros (ni & -> & He). exact He.
    - destruct (find_key id infos) as [ni|]; [|done]. intros He. by exists ni. }
  destruct (preflight prof current w ∅ desired) as [e|targets] eqn:Ep; [done|].
  destruct (preflight_targets cs prof current infos w Hi _ _ _ Ep) as [Ht Hall]; [by intros id ni; rewrite lookup_empty|].
  destruct (eachNode (removeStep prof cs desired) current noChanges w) as [[[e|] r1] w1] eqn:E1; [done|].
  destruct (eachNode (updateStep g s prof desired) current r1 w1) as [[[e|] r2] w2] eqn:E2; [done|]. intros E3.
  pose proof (NoDup_ProfileNodes _ _ _ (InboundProfile_ID prof) Hi) as Hcnd. fold current in Hcnd.
  destruct (eachNode_records cs _
    (fun id o o' => o' = if keepsNode cs prof desired id then o else option_map (stripped prof) o)
    (fun id r w infos r' w' => removeStep_record cs prof desired id r w infos r' w')
    current _ _ _ _ _ Hcnd Hi E1) as (infos1 & Hi1 & H1).
  destruct (eachNode_records cs _ (fun _ => syncedRecord prof) (fun id r w infos r' w' => updateStep_record cs g s prof desired id r w infos r' w')
    current _ _ _ _ _ Hcnd Hi1 E2) as (infos2 & Hi2 & H2).
  assert (forall id, id ∉ current -> find_key id infos2 = find_key id infos) as Hout
    by (intros id Hn; by rewrite (proj2 (H2 id) Hn), (proj2 (H1 id) Hn)).
  destruct (addLoop_records cs g s prof current desired targets _ _ _ _ _ Hnd Hi2 E3) as (infos3 & Hi3 & H3).
  { intros id ni _ Hnc Hl. destruct (Ht id ni Hl) as [[Hk Hib] _]. split; [done|]. unfold inboundsAt. by rewrite Hout. }
  exists infos3. split; [done|]. split.
  { rewrite (add_blocked _ _ _ _ _ _ _ _ _ _ E3), (update_blocked _ _ _ _ _ _ _ _ _ E2), (remove_blocked _ _ _ _ _ _ _ _ E1). done. }
  intros id. cbv zeta. destruct (existsb (ofProfile prof) (inboundsAt infos id)) eqn:Ee.
  - apply Hcur in Ee. assert (find_key id infos3 = find_key id infos2) as Hl3 by (apply H3; by right).
    pose proof (proj1 (H2 id) Ee) as Hs. pose proof (proj1 (H1 id) Ee) as Hr. cbv beta in Hs, Hr. unfold inboundsAt.
    rewrite Hl3. clear -Hs Hr. destruct (keepsNode cs prof desired id) eqn:Ek.
    + rewrite Hr in Hs. destruct (find_key id infos) as [ni|], (find_key id infos2) as [ni2|]; try done.
      apply Hs.
    + rewrite Hr in Hs. destruct (find_key id infos) as [ni|], (find_key id infos2) as [ni2|]; try done.
      destruct Hs as [_ Hs]. cbn in Hs. destruct (strip_filters prof (NodeInfo_Inbounds ni)) as [_ Hno]. cbv zeta in Hno.
      revert Hs Hno. generalize (List.filter (fun ib => negb (ofProfile prof ib)) (NodeInfo_Inbounds ni)) as l.
      generalize (NodeInfo_Inbounds ni2) as l2. induction 1 as [|x y l l2 Hxy _ IH]; [done|]. cbn [existsb].
      intros [Hx Hl]%orb_false_iff. unfold syncedInbound in Hxy. rewrite Hx in Hxy. subst y. f_equal. by apply IH.
  - assert (id ∉ current) as Hnc by (intros Hc; apply Hcur in Hc; congruence). case_bool_decide as Hd.
    + destruct (proj1 (H3 id) Hd Hnc) as (ib & Hib & Hnew). assert (inboundsAt infos2 id = inboundsAt infos id) as Hsame
        by (unfold inboundsAt; by rewrite Hout). rewrite Hsame in Hnew. split; [by exists ib|]. intros Hp.
      destruct (Hall id) as [ni Hni]; [by left|]. destruct (Ht id ni Hni) as [[_ Hinb] Hconf]. rewrite <- Hinb.
      unfold inboundPortConflict in Hconf. replace (InboundProfile_Port prof <=? 0) with false in Hconf by lia.
      apply Forall_forall. intros x Hx Heq. apply list_elem_of_In in Hx. pose proof (find_none _ _ Hconf x Hx) as Hf.
      cbv beta in Hf. rewrite Heq, Z.eqb_refl, andb_true_r in Hf. apply negb_false_iff in Hf. rewrite <- Hinb in Ee.
      assert (existsb (ofProfile prof) (NodeInfo_Inbounds ni) = true); [|congruence]. apply existsb_exists. by exists x.
    + unfold inboundsAt. rewrite (proj2 (H3 id)) by (by left). by rewrite Hout.
Qed.

(** The placement of a profile.  When applying a profile to a list of nodes
    succeeds, the profile is afterwards on exactly the nodes of the list and on
    those a chain needs it on, which are reported; the inbounds of every other
    profile are untouched on every node; a node that keeps the profile keeps
    all its credentials; and on a new node no other listener has the port. *)
Theorem profile_placement g s prof desired w sf r w' :
  writable w -> readStore w = inr sf -> NoDup (keys (sf_NodeInfos sf)) -> NoDup desired ->
  ApplyProfileToNodes g s prof desired w = (None, r, w') ->
  let pid := InboundProfile_ID prof in
  exists sf', readStore w' = inr sf' /\ sf_Chains sf' = sf_Chains sf /\
    (forall id, id ∈ ProfileNodes pid w' <->
       id ∈ desired \/ (id ∈ ProfileNodes pid w /\ chainReferencingProfileOn (sf_Chains sf) pid id <> "")) /\
    (forall id, id ∈ pdr_Blocked r <->
       id ∈ ProfileNodes pid w /\ id ∉ desired /\ chainReferencingProfileOn (sf_Chains sf) pid id <> "") /\
    forall id,
      let old := inboundsAt (sf_NodeInfos sf) id in let new := inboundsAt (sf_NodeInfos sf') id in
      List.filter (fun ib => negb (ofProfile prof ib)) new = List.filter (fun ib => negb (ofProfile prof ib)) old /\
      (id ∈ ProfileNodes pid w -> id ∈ ProfileNodes pid w' ->
         map credsOf (List.filter (ofProfile prof) new) = map credsOf (List.filter (ofProfile prof) old)) /\
      (id ∈ desired -> id ∉ ProfileNodes pid w -> 0 < InboundProfile_Port prof ->
         Forall (fun ib => effectivePort ib <> InboundProfile_Port prof) (List.filter (fun ib => negb (ofProfile prof ib)) new)).
Proof.
  intros Hw Hr Hnd Hdes Happ. cbv zeta.
  assert (infosOn (sf_Chains sf) (sf_NodeInfos sf) w) as Hi by (split; [done|]; split; [done|]; by exists sf).
  assert (ListChains w = Ok (sf_Chains sf)) as Hlc by (unfold ListChains, listStore; by rewrite Hr).
  destruct (node_outcome _ _ _ _ _ _ _ _ _ Hi Hdes Hlc Happ) as (infos' & Hi' & Hb & Hout).
  pose proof (ProfileNodes_infos _ _ _ (InboundProfile_ID prof) Hi) as HP.
  pose proof (ProfileNodes_infos _ _ _ (InboundProfile_ID prof) Hi') as HP'.
  assert (forall infos w id, (forall id, id ∈ ProfileNodes (InboundProfile_ID prof) w <->
      exists ni, find_key id infos = Some ni /\ existsb (ofProfile prof) (NodeInfo_Inbounds ni) = true) ->
      (id ∈ ProfileNodes (InboundProfile_ID prof) w <-> existsb (ofProfile prof) (inboundsAt infos id) = true)) as Hat.
  { intros infos w0 id H. rewrite H. unfold inboundsAt. split; [intros (ni & -> & He); exact He|].
    destruct (find_key id infos) as [ni|]; [|done]. intros He. by exists ni. }
  pose proof (fun id => Hat _ _ id HP) as Hold. pose proof (fun id => Hat _ _ id HP') as Hnew.
  destruct Hi' as (_ & _ & sf' & Hr' & <- & Hcs'). exists sf'. split; [done|]. split; [done|]. split; [|split].
  - intros id. rewrite Hnew, Hold. specialize (Hout id). cbv zeta in Hout.
    destruct (existsb (ofProfile prof) (inboundsAt (sf_NodeInfos sf) id)) eqn:Ee.
    + unfold keepsNode in Hout. destruct (bool_decide_reflect (id ∈ desired)) as [Hd|Hd]; cbn [orb] in Hout.
      * apply synced_filters in Hout as (_ & _ & ->). tauto.
      * destruct (bool_decide_reflect (chainReferencingProfileOn (sf_Chains sf) (InboundProfile_ID prof) id = "")) as [Hc|Hc]; cbn [negb] in Hout.
        -- rewrite Hout, (proj2 (strip_filters prof _)). split; [done|]. intros [?|[_ ?]]; done.
        -- apply synced_filters in Hout as (_ & _ & ->). tauto.
    + case_bool_decide as Hd.
      * destruct Hout as [(ib & Hib & ->) _]. rewrite existsb_app. cbn [existsb]. rewrite Hib, orb_true_r. tauto.
      * rewrite Hout, Ee. split; [done|]. intros [?|[? _]]; done.
  - intros id. rewrite Hb, list_elem_of_In, filter_In, <- list_elem_of_In. unfold refused.
    rewrite andb_true_iff, !negb_true_iff, !bool_decide_eq_false. tauto.
  - intros id. specialize (Hout id). cbv zeta in Hout.
    destruct (existsb (ofProfile prof) (inboundsAt (sf_NodeInfos sf) id)) eqn:Ee.
    + apply (Hold id) in Ee as Hin. split_and!; [..|by intros _ Hn].
      * destruct (keepsNode _ _ _ _); [by apply synced_filters in Hout as (-> & _)|]. rewrite Hout. apply strip_filters.
      * intros _ Hn. apply (Hnew id) in Hn. destruct (keepsNode _ _ _ _); [by apply synced_filters in Hout as (_ & -> & _)|].
        by rewrite Hout, (proj2 (strip_filters prof _)) in Hn.
    + split_and!.
      * case_bool_decide; [|by rewrite Hout]. destruct Hout as [(ib & Hib & ->) _]. rewrite List.filter_app. cbn. by rewrite Hib, app_nil_r.
      * intros Hn. apply (Hold id) in Hn. congruence.
      * intros Hd _ Hp. rewrite (bool_decide_eq_true_2 _ Hd) in Hout. destruct Hout as [(ib & Hib & ->) Hf].
        rewrite List.filter_app. cbn. rewrite Hib, app_nil_r. apply Forall_forall. intros x Hx. apply list_elem_of_In, filter_In in Hx as [Hx _].
        specialize (Hf Hp). rewrite Forall_forall in Hf. apply Hf. by apply list_elem_of_In.
Qed.

(** ** Concrete placements *)

Definition noGen : ProfileGen := mkProfileGen None None (fun _ => None) "uuid" (sampleGen "x" false).

Definition mieruProfile : InboundProfile :=
  zeroInboundProfile <| InboundProfile_ID := "p" |> <| InboundProfile_Protocol := "mieru" |> <| InboundProfile_Port := 2000 |>.

Definition placedOn (id : string) (ibs : list NodeInbound) : NodeInfo :=
  zeroNodeInfo <| NodeInfo_Host := zeroHost <| Host_ID := id |> |> <| NodeInfo_Inbounds := ibs |>.

Definition profileInbound (p port : _) : NodeInbound :=
  zeroNodeInbound <| NodeInbound_ProfileID := p |> <| NodeInbound_Port := port |> <| NodeInbound_UUID := "u-" +:+ p |>.

(** The profile is on n1, where a chain enters, and on n2; the operator asks
    for n2 and n3. *)
Definition placementStore : storeFile :=
  newStoreFile <| sf_Hosts := [zeroHost <| Host_ID := "n3" |>] |>
    <| sf_Chains := [zeroChain <| Chain_Name := "c" |>
         <| Chain_Nodes := [zeroChainNode <| ChainNode_ID := "n1" |> <| ChainNode_InboundRef := "p" |>] |>] |>
    <| sf_NodeInfos := [placedOn "n1" [profileInbound "p" 2000]; placedOn "n2" [profileInbound "q" 1000; profileInbound "p" 1500]] |>.

Definition placementWorld (sf : storeFile) : World := mkWorld (Some (Plain sf)) None None None [] None.

Lemma profile_placement_witness :
  exists r w' sf', ApplyProfileToNodes (fun _ => noGen) (initState sampleBuiltin) mieruProfile ["n2"; "n3"] (placementWorld placementStore) = (None, r, w') /\
    readStore w' = inr sf' /\ pdr_Blocked r = ["n1"] /\ pdr_Updated r = ["n2"] /\ pdr_Added r = ["n3"] /\
    forall id, id ∈ ProfileNodes "p" w' <->
      id ∈ ["n2"; "n3"] \/ (id ∈ ProfileNodes "p" (placementWorld placementStore) /\
                             chainReferencingProfileOn (sf_Chains placementStore) "p" id <> "").
Proof.
  destruct (ApplyProfileToNodes (fun _ => noGen) (initState sampleBuiltin) mieruProfile ["n2"; "n3"] (placementWorld placementStore))
    as [[e r] w'] eqn:E.
  assert (e = None /\ pdr_Blocked r = ["n1"] /\ pdr_Updated r = ["n2"] /\ pdr_Added r = ["n3"]) as (-> & Hb & Hu & Ha)
    by (revert E; vm_compute; by intros [= <- <- _]).
  assert (NoDup (keys (sf_NodeInfos placementStore))) as Hn by (apply (bool_decide_unpack _); vm_compute; exact I).
  assert (NoDup ["n2"; "n3"]) as Hd by (apply (bool_decide_unpack _); vm_compute; exact I).
  destruct (profile_placement _ _ _ _ (placementWorld placementStore) placementStore r w' (conj eq_refl I) eq_refl Hn Hd E)
    as (sf' & Hr & _ & Hp & _).
  exists r, w', sf'. split; [reflexivity|]. split; [exact Hr|]. split; [exact Hb|]. split; [exact Hu|]. split; [exact Ha|]. exact Hp.
Defined.

(** Switching a deployed profile to version 3 changes neither packets nor
    headers, so the kept node is not saved: its inbound stays on the old
    version, while client configurations are rendered from the profile. *)
Lemma version_switch_not_saved :
  let prof := zeroInboundProfile <| InboundProfile_ID := "p" |> <| InboundProfile_Protocol := "awg" |>
                <| InboundProfile_AWGVersion := "3" |> <| InboundProfile_AWG3HeaderProtectionKey := "k" |> in
  let ib := zeroNodeInbound <| NodeInbound_Protocol := "awg" |> <| NodeInbound_ProfileID := "p" |>
              <| NodeInbound_AWGCPSI1 := "<b 0x01>" |> <| NodeInbound_AWGH1 := "5-9" |> in
  let w := placementWorld (newStoreFile <| sf_NodeInfos := [placedOn "n1" [ib]] |>) in
  let '(e, r, w') := ApplyProfileToNodes (fun _ => noGen) (initState sampleBuiltin) prof ["n1"] w in
  e = None /\ AffectedNodes r = [] /\ w' = w /\
  NodeInbound_EffectiveAWGVersion ib = "2" /\
  NodeInbound_EffectiveAWGVersion (ApplyProfileMaterialToInbound (sampleGen "x" false) (Some prof) zeroConnectionPreset ib) = "3".
Proof. vm_compute. done. Qed.

(** A node named twice gets two inbounds on the same port. *)
Lemma duplicate_node_added_twice :
  let w := placementWorld (newStoreFile <| sf_Hosts := [zeroHost <| Host_ID := "n1" |>] |>) in
  let '(_, _, w') := ApplyProfileToNodes (fun _ => noGen) (initState sampleBuiltin) mieruProfile ["n1"; "n1"] w in
  match readStore w' with
  | inr sf => map NodeInbound_Port (flat_map NodeInfo_Inbounds (sf_NodeInfos sf)) = [2000; 2000]
  | inl _ => False
  end.
Proof. vm_compute. done. Qed.
