(* ===== verification/EntryMaterial.v ===== *)
(** * EntryMaterial: the inbounds of chain entries

    internal/chain/chain_entry_material.go.  The entry nodes of a levelized chain
    refer to an inbound profile; before a deploy every entry node must carry an
    inbound made from it, with the port of the chain and credentials of its own.
    What is there is only topped up. *)

From S2P Require Import Prelude GoStrings Model ChainModel Lifecycle StoreCore Store Presets Roles Codec AwgConf AwgMaterial ProfileDeploy.

(** ** Definitions *)

(** What the generators draw for one node; an absent pair is an error. *)
Record EntryGen := mkEntryGen {
  eg_pair : option (string * string);
  eg_uuid : string;
  eg_cps : CPSGen }.

(** [awgSubnetClaimedOnNode]. *)
Definition awgSubnetClaimedOnNode (ni : NodeInfo) (subnet excludeProfileID : string) : bool :=
  existsb (fun other =>
      negb ((NodeInbound_Protocol other != "awg") || (NodeInbound_ProfileID other == excludeProfileID)) &&
      ((if NodeInbound_AWGServerAddress other == "" then "10.8.0.1/24" else NodeInbound_AWGServerAddress other) == subnet))
    (NodeInfo_Inbounds ni).

Definition chainEntrySubnet : string := "10.8.0.1/24".

(** [ensureMaterializedEntryInbound], the part for an AWG inbound that is there:
    keys, subnet and packets. *)
Definition topUpAWG (g : EntryGen) (ni : NodeInfo) (prof : InboundProfile) (preset : ConnectionPreset) (ib : NodeInbound) : NodeInbound * bool :=
  let '(ib, keyed) :=
    if NodeInbound_ServerPrivKey ib == "" then
      match eg_pair g with
      | Some (priv, pub) => (ib <| NodeInbound_ServerPrivKey := priv |> <| NodeInbound_ServerPubKey := pub |>, true)
      | None => (ib, false)
      end
    else (ib, false) in
  let '(ib, moved) :=
    if (NodeInbound_AWGServerAddress ib != "") && (NodeInbound_AWGServerAddress ib != chainEntrySubnet) &&
       negb (awgSubnetClaimedOnNode ni chainEntrySubnet (InboundProfile_ID prof))
    then (ib <| NodeInbound_AWGServerAddress := chainEntrySubnet |>, true) else (ib, false) in
  let ib' := ApplyProfileMaterialToInbound (eg_cps g) (Some prof) preset ib in
  (ib', keyed || moved || (NodeInbound_AWGCPSI1 ib' != NodeInbound_AWGCPSI1 ib)).

(** The same for an inbound that is there: the port of the chain, and what is missing. *)
Definition topUpInbound (g : EntryGen) (ni : NodeInfo) (c : Chain) (entry : ChainNode) (prof : InboundProfile) (preset : ConnectionPreset)
    (ib : NodeInbound) : NodeInbound * bool :=
  let wantPort := chainEntryPort c (ChainNode_ID entry) in
  let '(ib, moved) := if (0 <? wantPort) && negb (NodeInbound_Port ib =? wantPort)
                      then (ib <| NodeInbound_Port := wantPort |>, true) else (ib, false) in
  if NodeInbound_Protocol ib == UserProtocolAWG then
    let '(ib', changed) := topUpAWG g ni prof preset ib in (ib', moved || changed)
  else if NodeInbound_UUID ib == "" then (ib <| NodeInbound_UUID := eg_uuid g |>, true)
  else (ib, moved).

(** The same, a new inbound. *)
Definition newEntryInbound (g : EntryGen) (c : Chain) (entry : ChainNode) (prof : InboundProfile) (preset : ConnectionPreset) : NodeInbound :=
  let ib := zeroNodeInbound <| NodeInbound_Protocol := InboundProfile_Protocol prof |>
              <| NodeInbound_Port := chainEntryPort c (ChainNode_ID entry) |>
              <| NodeInbound_Obfuscation := InboundProfile_Obfuscation prof |> <| NodeInbound_Source := "chain:" +:+ Chain_Name c |>
              <| NodeInbound_Tag := InboundProfile_ID prof |> <| NodeInbound_ProfileID := InboundProfile_ID prof |> in
  if InboundProfile_Protocol prof == UserProtocolAWG then
    let '(priv, pub) :=
      if Chain_AWGEntryServerPriv c != "" then (Chain_AWGEntryServerPriv c, Chain_AWGEntryServerPub c)
      else match eg_pair g with Some kp => kp | None => ("", "") end in
    ApplyProfileMaterialToInbound (eg_cps g) (Some prof) preset
      (ib <| NodeInbound_ServerPrivKey := priv |> <| NodeInbound_ServerPubKey := pub |>
          <| NodeInbound_AWGServerAddress := chainEntrySubnet |>)
  else if InboundProfile_Protocol prof == UserProtocolTUIC then ib <| NodeInbound_UUID := Chain_TUICEntryUserUUID c |>
  else ib <| NodeInbound_UUID := if ChainNode_TransitUUID entry == "" then eg_uuid g else ChainNode_TransitUUID entry |>.

(** The first inbound of a profile is rewritten. *)
Fixpoint updateFirst (pid : string) (f : NodeInbound -> NodeInbound * bool) (ibs : list NodeInbound) : option (list NodeInbound * bool) :=
  match ibs with
  | [] => None
  | ib :: ibs' =>
      if NodeInbound_ProfileID ib == pid then Some (fst (f ib) :: ibs', snd (f ib))
      else option_map (fun r => (ib :: fst r, snd r)) (updateFirst pid f ibs')
  end.

(** [ensureMaterializedEntryInbound]; [true]: the record must be saved. *)
Definition ensureMaterializedEntryInbound (g : EntryGen) (ni : NodeInfo) (c : Chain) (entry : ChainNode) (prof : InboundProfile)
    (preset : ConnectionPreset) : NodeInfo * bool :=
  match updateFirst (InboundProfile_ID prof) (topUpInbound g ni c entry prof preset) (NodeInfo_Inbounds ni) with
  | Some (ibs, changed) => (ni <| NodeInfo_Inbounds := ibs |>, changed)
  | None => (ni <| NodeInfo_Inbounds := NodeInfo_Inbounds ni ++ [newEntryInbound g c entry prof preset] |>, true)
  end.

Inductive EntryErr :=
| EntryProfile (chain node : string) (e : StoreErr)
| EntrySave (chain node : string) (e : StoreErr).

(** The record of an entry node, or a new one from its host fields. *)
Definition entryRecord (n : ChainNode) (w : World) : NodeInfo :=
  match GetNodeInfo (ChainNode_ID n) w with
  | Ok ni => ni
  | Err _ => zeroNodeInfo <| NodeInfo_Host := zeroHost <| Host_ID := ChainNode_ID n |> <| Host_Addr := ChainNode_Addr n |>
                                              <| Host_User := ChainNode_User n |> <| Host_KeyPath := ChainNode_KeyPath n |> |>
  end.

(** One turn of the loop of [EnsureChainEntryMaterialization]. *)
Definition entryNodeStep (g : string -> EntryGen) (c : Chain) (preset : ConnectionPreset) (n : ChainNode) (w : World) : option EntryErr * World :=
  if ChainNode_InboundRef n == "" then (None, w)
  else match GetInboundProfile (ChainNode_InboundRef n) w with
       | Err e => (Some (EntryProfile (Chain_Name c) (ChainNode_ID n) e), w)
       | Ok prof =>
           let '(ni, changed) := ensureMaterializedEntryInbound (g (ChainNode_ID n)) (entryRecord n w) c n prof preset in
           if changed then
             match SaveNodeInfo ni w with
             | (Ok _, w') => (None, w')
             | (Err e, w') => (Some (EntrySave (Chain_Name c) (ChainNode_ID n) e), w')
             end
           else (None, w)
       end.

Fixpoint entryNodes (g : string -> EntryGen) (c : Chain) (preset : ConnectionPreset) (ns : list ChainNode) (w : World) : option EntryErr * World :=
  match ns with
  | [] => (None, w)
  | n :: ns' =>
      match entryNodeStep g c preset n w with
      | (None, w') => entryNodes g c preset ns' w'
      | stop => stop
      end
  end.

(** [EnsureChainEntryMaterialization]. *)
Definition EnsureChainEntryMaterialization (g : string -> EntryGen) (c : Chain) (preset : ConnectionPreset) (w : World) : option EntryErr * World :=
  match Chain_Levels c with
  | [] => (None, w)
  | level :: _ => entryNodes g c preset (ChainLevel_Nodes level) w
  end.

(** ** Lemmas: one inbound *)

(** [ib'] is [ib] with what an entry needs: the port [want] of the chain, a key
    pair or a UUID, and nothing lost that clients know. *)
Record toppedUp (g : EntryGen) (want : Z) (ib ib' : NodeInbound) : Prop := {
  tu_same : [NodeInbound_ProfileID ib'; NodeInbound_Protocol ib'; NodeInbound_Tag ib'; NodeInbound_Source ib'; NodeInbound_ShortID ib'] =
            [NodeInbound_ProfileID ib; NodeInbound_Protocol ib; NodeInbound_Tag ib; NodeInbound_Source ib; NodeInbound_ShortID ib];
  tu_port : 0 < want -> NodeInbound_Port ib' = want;
  tu_uuid : NodeInbound_UUID ib <> "" -> NodeInbound_UUID ib' = NodeInbound_UUID ib;
  tu_keys : NodeInbound_ServerPrivKey ib <> "" ->
    NodeInbound_ServerPrivKey ib' = NodeInbound_ServerPrivKey ib /\ NodeInbound_ServerPubKey ib' = NodeInbound_ServerPubKey ib;
  tu_keyed : NodeInbound_Protocol ib = UserProtocolAWG -> NodeInbound_ServerPrivKey ib' = "" ->
    forall priv pub, eg_pair g = Some (priv, pub) -> priv = "";
  tu_uuided : NodeInbound_Protocol ib <> UserProtocolAWG -> NodeInbound_UUID ib' = "" -> eg_uuid g = "" }.

(** The material leaves the credentials and the port alone. *)
Lemma apply_port g p preset ib : NodeInbound_Port (ApplyProfileMaterialToInbound g p preset ib) = NodeInbound_Port ib.
Proof.
  unfold ApplyProfileMaterialToInbound, applyProfileAWGMaterial, EnsureInboundAWGMaterial, ensureInboundAWG3Material.
  repeat case_step; repeat match goal with H : (_, _) = (_, _) |- _ => injection H as <- <- end; reflexivity.
Qed.

Lemma topUpAWG_spec g ni prof preset want ib ib' ch :
  NodeInbound_Protocol ib = UserProtocolAWG -> (0 < want -> NodeInbound_Port ib = want) ->
  topUpAWG g ni prof preset ib = (ib', ch) -> toppedUp g want ib ib' /\ (ch = false -> toppedUp g want ib ib).
Proof.
  intros Hp Hw. unfold topUpAWG.
  set (keyed := if NodeInbound_ServerPrivKey ib == "" then _ else _). destruct keyed as [ib2 k] eqn:Ek. subst keyed.
  set (moved := if (_ && _ && _)%bool then _ else _). destruct moved as [ib3 m] eqn:Em. subst moved.
  set (ib4 := ApplyProfileMaterialToInbound (eg_cps g) (Some prof) preset ib3). intros [= <- <-].
  assert (credsOf ib4 = credsOf ib3) as Hc by apply creds_apply.
  assert (NodeInbound_Port ib4 = NodeInbound_Port ib3) as Hport by apply apply_port.
  clearbody ib4. unfold credsOf in Hc. injection Hc as Hc1 Hc2 Hc3 Hc4 _ _ _ _ Hc5 Hc6 Hc7 Hc8.
  assert (exists addr, ib3 = ib2 <| NodeInbound_AWGServerAddress := addr |>) as [addr ->].
  { case_step_in Em; injection Em as <- _; [by eexists|]. exists (NodeInbound_AWGServerAddress ib2). by destruct ib2. }
  cbn in Hc1, Hc2, Hc3, Hc4, Hc5, Hc6, Hc7, Hc8, Hport.
  assert (0 < want -> NodeInbound_Port ib2 = want -> NodeInbound_Port ib4 = want) as Hp4 by (intros _ <-; exact Hport).
  assert (forall b, NodeInbound_Port b = NodeInbound_Port ib -> 0 < want -> NodeInbound_Port b = want) as Hpb
    by (intros b -> Hpos; auto).
  destruct (bool_decide_reflect (NodeInbound_ServerPrivKey ib = "")) as [Hk|Hk].
  - destruct (eg_pair g) as [[priv pub]|] eqn:Eg; injection Ek as <- <-; cbn in Hc1, Hc2, Hc3, Hc4, Hc5, Hc6, Hc7, Hc8, Hp4.
    + split; [|done]. split; try (intros; congruence). auto.
    + split; [|intros _]; (split; try (intros; congruence); auto).
  - injection Ek as <- <-. split; [|intros _]; (split; try (intros; congruence); auto).
Qed.

Lemma topUp_spec g ni c entry prof preset ib ib' ch :
  topUpInbound g ni c entry prof preset ib = (ib', ch) ->
  let want := chainEntryPort c (ChainNode_ID entry) in toppedUp g want ib ib' /\ (ch = false -> toppedUp g want ib ib).
Proof.
  unfold topUpInbound. cbv zeta. set (want := chainEntryPort c (ChainNode_ID entry)).
  set (moved := if (_ && _)%bool then _ else _). destruct moved as [ib1 m] eqn:Em. subst moved.
  assert ((0 < want -> NodeInbound_Port ib1 = want) /\ (m = false -> ib1 = ib) /\
    ib1 = ib <| NodeInbound_Port := NodeInbound_Port ib1 |>) as (Hw & Hm & Hf).
  { destruct ((0 <? want) && negb (NodeInbound_Port ib =? want)) eqn:E; injection Em as <- <-.
    - split_and!; done.
    - split_and!; [|done|by destruct ib]. intros Hpos. apply andb_false_iff in E as [E|E]; bool_to_prop; lia. }
  assert (forall b, toppedUp g want ib1 b -> toppedUp g want ib b) as Hback.
  { intros b H. rewrite Hf in H. destruct H as [H1 H2 H3 H4 H5 H6]. split; assumption. }
  clear Em. destruct (NodeInbound_Protocol ib1 == UserProtocolAWG) eqn:Ep; bool_to_prop.
  - destruct (topUpAWG g ni prof preset ib1) as [ib2 ch2] eqn:Et. intros [= <- <-].
    destruct (topUpAWG_spec _ _ _ _ want _ _ _ Ep Hw Et) as [H1 H2]. split; [by apply Hback|].
    intros [-> Hc]%orb_false_iff. specialize (H2 Hc). by rewrite (Hm eq_refl) in H2.
  - destruct (bool_decide_reflect (NodeInbound_UUID ib1 = "")) as [Hu|Hu]; intros [= <- <-].
    + split; [|done]. apply Hback. split; intros; cbn in *; try congruence; auto.
    + assert (toppedUp g want ib1 ib1) as H by (split; intros; congruence || auto).
      split; [by apply Hback|]. intros ->. by rewrite (Hm eq_refl) in H.
Qed.

(** A new inbound: the credentials of the chain, or drawn ones. *)
Record madeFor (g : EntryGen) (c : Chain) (n : ChainNode) (prof : InboundProfile) (ib : NodeInbound) : Prop := {
  mf_same : NodeInbound_ProfileID ib = InboundProfile_ID prof /\ NodeInbound_Protocol ib = InboundProfile_Protocol prof /\
            NodeInbound_Port ib = chainEntryPort c (ChainNode_ID n);
  mf_chain : InboundProfile_Protocol prof = UserProtocolAWG -> Chain_AWGEntryServerPriv c <> "" ->
    NodeInbound_ServerPrivKey ib = Chain_AWGEntryServerPriv c /\ NodeInbound_ServerPubKey ib = Chain_AWGEntryServerPub c;
  mf_keyed : InboundProfile_Protocol prof = UserProtocolAWG -> NodeInbound_ServerPrivKey ib = "" ->
    forall priv pub, eg_pair g = Some (priv, pub) -> priv = "";
  mf_uuid : InboundProfile_Protocol prof <> UserProtocolAWG -> InboundProfile_Protocol prof <> UserProtocolTUIC ->
    (ChainNode_TransitUUID n <> "" -> NodeInbound_UUID ib = ChainNode_TransitUUID n) /\
    (NodeInbound_UUID ib = "" -> eg_uuid g = "") }.

Lemma newEntryInbound_spec g c n prof preset : madeFor g c n prof (newEntryInbound g c n prof preset).
Proof.
  unfold newEntryInbound. case_bool_decide as Ha; [|case_bool_decide as Ht].
  - set (kp := if Chain_AWGEntryServerPriv c != "" then _ else _). destruct kp as [priv pub] eqn:Ek. subst kp.
    match goal with |- madeFor _ _ _ _ (ApplyProfileMaterialToInbound ?x ?y ?z ?b) =>
      pose proof (creds_apply x y z b) as Hc; pose proof (apply_port x y z b) as Hp;
      set (ib := ApplyProfileMaterialToInbound x y z b) in *; clearbody ib end.
    unfold credsOf in Hc. injection Hc as Hc1 Hc2 Hc3 Hc4 _ _ _ _ Hc5 Hc6 Hc7 Hc8.
    cbn in Hc1, Hc2, Hc3, Hc4, Hc5, Hc6, Hc7, Hc8, Hp. split; [split_and!; congruence|..|done].
    + intros _ Hne. rewrite (bool_decide_eq_false_2 _ Hne) in Ek. injection Ek as <- <-. split; congruence.
    + intros _ He p q Hg. rewrite Hg in Ek. case_bool_decide as Hb; cbn [negb] in Ek; injection Ek as <- <-; congruence.
  - split; cbn; try congruence. by split_and!.
  - split; cbn; try congruence; [by split_and!|]. intros _ _. split; intros H; case_bool_decide; congruence.
Qed.

Lemma updateFirst_spec pid f ibs : match updateFirst pid f ibs with
  | Some (ibs', ch) => exists l1 ib l2, ibs = l1 ++ ib :: l2 /\ Forall (fun x => NodeInbound_ProfileID x <> pid) l1 /\
      NodeInbound_ProfileID ib = pid /\ ibs' = l1 ++ fst (f ib) :: l2 /\ ch = snd (f ib)
  | None => Forall (fun x => NodeInbound_ProfileID x <> pid) ibs
  end.
Proof.
  induction ibs as [|ib ibs IH]; cbn [updateFirst]; [constructor|]. case_bool_decide as E.
  - by exists [], ib, ibs.
  - destruct (updateFirst pid f ibs) as [[ibs' ch]|]; cbn; [|by constructor].
    destruct IH as (l1 & x & l2 & -> & Hl & Hx & -> & ->). exists (ib :: l1), x, l2. split_and!; try done. by constructor.
Qed.

(** ** Lemmas: one node *)

(** What the pass does to the inbounds of an entry node. *)
Definition materialized (g : EntryGen) (c : Chain) (n : ChainNode) (prof : InboundProfile) (ibs ibs' : list NodeInbound) : Prop :=
  (exists l1 ib ib' l2, ibs = l1 ++ ib :: l2 /\ ibs' = l1 ++ ib' :: l2 /\
     Forall (fun x => NodeInbound_ProfileID x <> InboundProfile_ID prof) l1 /\ NodeInbound_ProfileID ib = InboundProfile_ID prof /\
     toppedUp g (chainEntryPort c (ChainNode_ID n)) ib ib') \/
  (Forall (fun x => NodeInbound_ProfileID x <> InboundProfile_ID prof) ibs /\
   exists ib', ibs' = ibs ++ [ib'] /\ madeFor g c n prof ib').

Lemma ensure_materialized g ni c n prof preset ni' ch :
  ensureMaterializedEntryInbound g ni c n prof preset = (ni', ch) ->
  NodeInfo_Host ni' = NodeInfo_Host ni /\
  materialized g c n prof (NodeInfo_Inbounds ni) (NodeInfo_Inbounds ni') /\
  (ch = false -> materialized g c n prof (NodeInfo_Inbounds ni) (NodeInfo_Inbounds ni)).
Proof.
  unfold ensureMaterializedEntryInbound.
  pose proof (updateFirst_spec (InboundProfile_ID prof) (topUpInbound g ni c n prof preset) (NodeInfo_Inbounds ni)) as U.
  destruct (updateFirst _ _ _) as [[ibs ch']|].
  - destruct U as (l1 & ib & l2 & E & Hl & Hid & -> & ->). intros [= <- <-].
    destruct (topUpInbound g ni c n prof preset ib) as [ib' ch1] eqn:Et. cbn [fst snd].
    destruct (topUp_spec _ _ _ _ _ _ _ _ _ Et) as [H1 H2]. split; [done|]. split.
    + left. exists l1, ib, ib', l2. by rewrite E.
    + intros Hch. left. exists l1, ib, ib, l2. rewrite E. split_and!; try done. by apply H2.
  - intros [= <- <-]. split; [done|]. split; [|done]. right. split; [done|].
    eexists. split; [reflexivity|]. apply newEntryInbound_spec.
Qed.

(** ** Lemmas: the loop *)

(** The disk can be written and holds [sf] with these node records. *)
Definition storeIs (sf : storeFile) (infos : list NodeInfo) (w : World) : Prop :=
  writable w /\ NoDup (keys infos) /\
  exists rev, readStore w = inr (sf <| sf_NodeInfos := infos |> <| sf_Revision := rev |>).

Lemma SaveNodeInfo_storeIs sf ni infos w :
  storeIs sf infos w -> exists w', SaveNodeInfo ni w = (Ok tt, w') /\ storeIs sf (upsert ni infos) w'.
Proof.
  intros (Hw & Hnd & rev & Hr). unfold SaveNodeInfo. set (f := fun sf : storeFile => _).
  set (sf0 := sf <| sf_NodeInfos := infos |> <| sf_Revision := rev |>) in Hr.
  assert (readOrNew w = Ok sf0) as Ho by (unfold readOrNew; by rewrite Hr).
  destruct (modifyStore_writable (readOrNew w) f w sf0 tt _ Hw Ho eq_refl) as [w' Hm].
  destruct (modifyStore_Ok _ _ _ _ _ Hm) as (sf2 & sf3 & H1 & H2 & H3 & H4 & H5 & _).
  rewrite Ho in H1. injection H1 as <-. injection H2 as <-. exists w'. split; [done|]. split; [|split].
  - unfold writable. rewrite H4, H5. exact Hw.
  - by apply NoDup_keys_upsert.
  - eexists. exact H3.
Qed.

Lemma GetNodeInfo_storeIs sf infos w id : storeIs sf infos w ->
  GetNodeInfo id w = match find_key id infos with Some ni => Ok ni | None => Err (ENodeInfoNotFound id) end.
Proof. intros (_ & _ & rev & Hr). unfold GetNodeInfo, readAny. by rewrite Hr. Qed.

Lemma GetInboundProfile_storeIs sf infos w id : storeIs sf infos w ->
  GetInboundProfile id w = match find_key id (sf_InboundProfiles sf) with Some p => Ok p | None => Err (EProfileNotFound id) end.
Proof. intros (_ & _ & rev & Hr). unfold GetInboundProfile, readOrErr. by rewrite Hr. Qed.

(** What the pass does to the record of a node of the first level. *)
Definition entryDone (g : string -> EntryGen) (c : Chain) (sf : storeFile) (infos infos' : list NodeInfo) (n : ChainNode) : Prop :=
  if ChainNode_InboundRef n == "" then find_key (ChainNode_ID n) infos' = find_key (ChainNode_ID n) infos
  else exists prof, find_key (ChainNode_InboundRef n) (sf_InboundProfiles sf) = Some prof /\
    materialized (g (ChainNode_ID n)) c n prof (inboundsAt infos (ChainNode_ID n)) (inboundsAt infos' (ChainNode_ID n)).

Lemma entryNodeStep_done g c preset n w w' sf infos :
  storeIs sf infos w -> entryNodeStep g c preset n w = (None, w') ->
  exists infos', storeIs sf infos' w' /\ entryDone g c sf infos infos' n /\
    forall id, id <> ChainNode_ID n -> find_key id infos' = find_key id infos.
Proof.
  intros Hi. unfold entryNodeStep, entryDone. case_bool_decide as Hr; [intros [= <-]; by exists infos|].
  rewrite (GetInboundProfile_storeIs sf infos w _ Hi).
  destruct (find_key (ChainNode_InboundRef n) (sf_InboundProfiles sf)) as [prof|]; [|done].
  destruct (ensureMaterializedEntryInbound _ _ c n prof preset) as [ni ch] eqn:Ee.
  destruct (ensure_materialized _ _ _ _ _ _ _ _ Ee) as (Hh & H1 & H2).
  assert (NodeInfo_Inbounds (entryRecord n w) = inboundsAt infos (ChainNode_ID n)) as Hold.
  { unfold entryRecord, inboundsAt. rewrite (GetNodeInfo_storeIs sf infos w _ Hi). by destruct (find_key _ infos). }
  assert (NodeInfo_ID ni = ChainNode_ID n) as Hid.
  { unfold NodeInfo_ID. rewrite Hh. unfold entryRecord. rewrite (GetNodeInfo_storeIs sf infos w _ Hi).
    destruct (find_key (ChainNode_ID n) infos) as [ni0|] eqn:Ef; [|done]. by apply find_key_Some in Ef as [_ ?]. }
  rewrite Hold in H1, H2. destruct ch; [|intros [= <-]; exists infos; split_and!; try done; exists prof; auto].
  destruct (SaveNodeInfo_storeIs sf ni infos w Hi) as (w1 & Hs & Hi'). rewrite Hs. intros [= <-].
  exists (upsert ni infos). split; [done|]. split.
  - exists prof. split; [done|].
    assert (inboundsAt (upsert ni infos) (ChainNode_ID n) = NodeInfo_Inbounds ni) as ->; [|done].
    unfold inboundsAt. rewrite <- Hid. change (NodeInfo_ID ni) with (key_of ni). by rewrite find_upsert_eq.
  - intros id Hne. apply find_upsert_ne. by rewrite <- Hid in Hne.
Qed.

Lemma entryDone_later g c sf infos infos1 infos' n :
  find_key (ChainNode_ID n) infos1 = find_key (ChainNode_ID n) infos ->
  entryDone g c sf infos1 infos' n -> entryDone g c sf infos infos' n.
Proof. intros H. unfold entryDone, inboundsAt. by rewrite H. Qed.

Lemma entryDone_earlier g c sf infos infos1 infos' n :
  find_key (ChainNode_ID n) infos' = find_key (ChainNode_ID n) infos1 ->
  entryDone g c sf infos infos1 n -> entryDone g c sf infos infos' n.
Proof. intros H. unfold entryDone, inboundsAt. by rewrite H. Qed.

Lemma entryNodes_done g c preset ns : forall w w' sf infos,
  NoDup (map ChainNode_ID ns) -> storeIs sf infos w -> entryNodes g c preset ns w = (None, w') ->
  exists infos', storeIs sf infos' w' /\ Forall (entryDone g c sf infos infos') ns /\
    forall id, id ∉ map ChainNode_ID ns -> find_key id infos' = find_key id infos.
Proof.
  induction ns as [|n ns IH]; intros w w' sf infos Hnd Hi; cbn [entryNodes map].
  - intros [= <-]. exists infos. split_and!; try done.
  - cbn [map] in Hnd. apply NoDup_cons in Hnd as [Hn Hnd].
    destruct (entryNodeStep g c preset n w) as [[e|] w1] eqn:E; [done|].
    destruct (entryNodeStep_done _ _ _ _ _ _ _ _ Hi E) as (infos1 & Hi1 & Hd & Hsame).
    intros Hrest. destruct (IH _ _ _ _ Hnd Hi1 Hrest) as (infos2 & Hi2 & Hd2 & Hsame2).
    exists infos2. split; [done|]. split; [constructor|].
    + apply entryDone_earlier with infos1; [by apply Hsame2|done].
    + rewrite Forall_forall in Hd2 |- *. intros x Hx. apply entryDone_later with infos1; [|by apply Hd2].
      apply Hsame. intros E'. apply Hn. rewrite <- E'. by apply list_elem_of_fmap_2.
    + intros id [H1 H2]%not_elem_of_cons. by rewrite Hsame2, Hsame.
Qed.

(** ** Properties *)

Definition ofPid (pid : string) (ib : NodeInbound) : bool := NodeInbound_ProfileID ib == pid.

(** The first inbound of the profile, before and after. *)
Lemma find_split pid l1 ib l2 :
  Forall (fun x => NodeInbound_ProfileID x <> pid) l1 -> NodeInbound_ProfileID ib = pid ->
  List.find (ofPid pid) (l1 ++ ib :: l2) = Some ib.
Proof.
  intros H Hid. induction H as [|x l1 Hx _ IH]; cbn [List.find app]; unfold ofPid at 1.
  - by rewrite (bool_decide_eq_true_2 _ Hid).
  - by rewrite (bool_decide_eq_false_2 _ Hx).
Qed.

Lemma find_absent pid l : Forall (fun x => NodeInbound_ProfileID x <> pid) l -> List.find (ofPid pid) l = None.
Proof. induction 1 as [|x l Hx _ IH]; cbn [List.find]; [done|]. unfold ofPid at 1. by rewrite (bool_decide_eq_false_2 _ Hx). Qed.

(** The entries of a chain before a deploy.  When the pass succeeds, every
    node of the first level that refers to a profile carries an inbound of it
    that listens on the chain's port for that node and has a key pair (AWG) or
    a UUID, provided the generators answer; an inbound that was there keeps its
    keys and its UUID; an entry that replaces the chain's own listener takes
    over its key pair; and every other inbound and every other node stays as it
    was. *)
Theorem entry_materialization g c preset w w' sf level rest :
  writable w -> readStore w = inr sf -> NoDup (keys (sf_NodeInfos sf)) ->
  Chain_Levels c = level :: rest -> NoDup (map ChainNode_ID (ChainLevel_Nodes level)) ->
  EnsureChainEntryMaterialization g c preset w = (None, w') ->
  exists infos' rev, readStore w' = inr (sf <| sf_NodeInfos := infos' |> <| sf_Revision := rev |>) /\
    (forall id, id ∉ map ChainNode_ID (ChainLevel_Nodes level) -> find_key id infos' = find_key id (sf_NodeInfos sf)) /\
    forall n, n ∈ ChainLevel_Nodes level -> ChainNode_InboundRef n <> "" ->
      let pid := ChainNode_InboundRef n in
      let old := inboundsAt (sf_NodeInfos sf) (ChainNode_ID n) in
      let new := inboundsAt infos' (ChainNode_ID n) in
      List.filter (fun ib => negb (ofPid pid ib)) new = List.filter (fun ib => negb (ofPid pid ib)) old /\
      exists ib, List.find (ofPid pid) new = Some ib /\
        (0 < chainEntryPort c (ChainNode_ID n) -> NodeInbound_Port ib = chainEntryPort c (ChainNode_ID n)) /\
        (NodeInbound_Protocol ib = UserProtocolAWG -> NodeInbound_ServerPrivKey ib = "" ->
           forall priv pub, eg_pair (g (ChainNode_ID n)) = Some (priv, pub) -> priv = "") /\
        match List.find (ofPid pid) old with
        | Some ib0 =>
            (NodeInbound_UUID ib0 <> "" -> NodeInbound_UUID ib = NodeInbound_UUID ib0) /\
            (NodeInbound_ServerPrivKey ib0 <> "" -> NodeInbound_ServerPrivKey ib = NodeInbound_ServerPrivKey ib0 /\
                                                    NodeInbound_ServerPubKey ib = NodeInbound_ServerPubKey ib0)
        | None =>
            NodeInbound_Protocol ib = UserProtocolAWG -> Chain_AWGEntryServerPriv c <> "" ->
            NodeInbound_ServerPrivKey ib = Chain_AWGEntryServerPriv c /\ NodeInbound_ServerPubKey ib = Chain_AWGEntryServerPub c
        end.
Proof.
  intros Hw Hr Hnd Hl Hids. unfold EnsureChainEntryMaterialization. rewrite Hl. intros He.
  assert (storeIs sf (sf_NodeInfos sf) w) as Hi.
  { split; [done|]. split; [done|]. exists (sf_Revision sf). rewrite Hr. f_equal. clear. by destruct sf. }
  destruct (entryNodes_done _ _ _ _ _ _ _ _ Hids Hi He) as (infos' & (_ & _ & rev & Hr') & Hdone & Hothers).
  exists infos', rev. split; [done|]. split; [done|]. intros n Hn Href. cbv zeta.
  rewrite Forall_forall in Hdone. specialize (Hdone n Hn). unfold entryDone in Hdone.
  rewrite (bool_decide_eq_false_2 _ Href) in Hdone. destruct Hdone as (prof & Hprof & M).
  apply find_key_Some in Hprof as [_ Hpid]. change (InboundProfile_ID prof = ChainNode_InboundRef n) in Hpid.
  unfold materialized in M. rewrite Hpid in M.
  set (old := inboundsAt (sf_NodeInfos sf) (ChainNode_ID n)) in *. set (new := inboundsAt infos' (ChainNode_ID n)) in *.
  clearbody old new. destruct M as [(l1 & ib & ib' & l2 & -> & -> & H1 & H2 & T)|[H1 (ib' & -> & T)]].
  - destruct T as [Ts Tp Tu Tk Tkd _]. injection Ts as Tid Tproto _ _ _. split.
    { rewrite !List.filter_app. cbn [List.filter]. 
      assert (ofPid (ChainNode_InboundRef n) ib = true) as -> by (apply bool_decide_eq_true_2; congruence).
      by assert (ofPid (ChainNode_InboundRef n) ib' = true) as -> by (apply bool_decide_eq_true_2; congruence). }
    exists ib'. rewrite !find_split by congruence. split_and!; try done. intros E. apply Tkd. congruence.
  - destruct T as [(Ti & Tproto & Tport) Tc Tk _]. split.
    { rewrite List.filter_app. cbn [List.filter].
      assert (ofPid (ChainNode_InboundRef n) ib' = true) as -> by (apply bool_decide_eq_true_2; congruence). apply app_nil_r. }
    exists ib'. rewrite (find_split (ChainNode_InboundRef n) old ib' []) by congruence.
    rewrite find_absent by done. split_and!; try done.
    + intros E. apply Tk. congruence.
    + intros E. apply Tc. congruence.
Qed.

(** ** Concrete entries *)

Definition entryGen : EntryGen := mkEntryGen (Some ("priv", "pub")) "uuid" (sampleGen "x" true).

Definition entryChain (refs : list (string * string)) : Chain :=
  zeroChain <| Chain_Name := "c" |> <| Chain_Levels := [mkChainLevel "l0" "" (map (fun r =>
    zeroChainNode <| ChainNode_ID := fst r |> <| ChainNode_InboundRef := snd r |>) refs)] |>.

Definition awgProfile (pid : string) (port : Z) : InboundProfile :=
  zeroInboundProfile <| InboundProfile_ID := pid |> <| InboundProfile_Protocol := "awg" |> <| InboundProfile_Port := port |>.

Definition entryStore (infos : list NodeInfo) : storeFile :=
  newStoreFile <| sf_InboundProfiles := [awgProfile "p" 443; awgProfile "q" 444] |> <| sf_NodeInfos := infos |>.

Definition standaloneP : NodeInbound :=
  zeroNodeInbound <| NodeInbound_ProfileID := "p" |> <| NodeInbound_Protocol := "awg" |> <| NodeInbound_ServerPrivKey := "old" |>
    <| NodeInbound_Port := 1 |>.

Lemma entry_materialization_witness :
  exists w', EnsureChainEntryMaterialization (fun _ => entryGen) (entryChain [("a", "p"); ("b", "p")]) livePreset
               (placementWorld (entryStore [placedOn "a" [standaloneP]])) = (None, w') /\
    exists infos' ib, readStore w' = inr ((entryStore [placedOn "a" [standaloneP]]) <| sf_NodeInfos := infos' |> <| sf_Revision := 2 |>) /\
      List.find (ofPid "p") (inboundsAt infos' "a") = Some ib /\ NodeInbound_ServerPrivKey ib = "old".
Proof.
  destruct (EnsureChainEntryMaterialization (fun _ => entryGen) (entryChain [("a", "p"); ("b", "p")]) livePreset
    (placementWorld (entryStore [placedOn "a" [standaloneP]]))) as [e w'] eqn:E.
  assert (e = None) as -> by (revert E; vm_compute; by intros [= <- _]).
  assert (NoDup (keys (sf_NodeInfos (entryStore [placedOn "a" [standaloneP]])))) as Hn by (apply (bool_decide_unpack _); vm_compute; exact I).
  assert (NoDup ["a"; "b"]) as Hd by (apply (bool_decide_unpack _); vm_compute; exact I).
  assert (match readStore w' with inr sf' => sf_Revision sf' | _ => 0 end = 2) as H2
    by (revert E; vm_compute; by intros [= <-]).
  destruct (entry_materialization (fun _ => entryGen) (entryChain [("a", "p"); ("b", "p")]) livePreset
    (placementWorld (entryStore [placedOn "a" [standaloneP]])) w' (entryStore [placedOn "a" [standaloneP]]) _ []
    (conj eq_refl I) eq_refl Hn eq_refl Hd E) as (infos' & rev & Hr & _ & H).
  rewrite Hr in H2. cbn in H2. subst rev. exists w'. split; [reflexivity|].
  destruct (H (zeroChainNode <| ChainNode_ID := "a" |> <| ChainNode_InboundRef := "p" |>)) as (_ & ib & Hf & _ & _ & Hold);
    [left|done|].
  exists infos', ib. split; [exact Hr|]. split; [exact Hf|]. cbn in Hold. by apply Hold.
Defined.

(** A new entry always gets the chain subnet, also when another inbound of the
    node has it: two AWG chains that share an entry node get two interfaces on
    10.8.0.1/24, which the test for existing inbounds avoids. *)
Lemma second_entry_same_subnet :
  let ni := placedOn "a" [standaloneP <| NodeInbound_AWGServerAddress := chainEntrySubnet |>] in
  let c := entryChain [("a", "q")] in
  let '(ni', _) := ensureMaterializedEntryInbound entryGen ni c (zeroChainNode <| ChainNode_ID := "a" |>) (awgProfile "q" 444) livePreset in
  awgSubnetClaimedOnNode ni chainEntrySubnet "q" = true /\
  map NodeInbound_AWGServerAddress (NodeInfo_Inbounds ni') = [chainEntrySubnet; chainEntrySubnet].
Proof. by vm_compute. Qed.

(** The two writers of the port disagree: deploying the chain moves the inbound
    of its second entry to the chain's port, applying the profile moves it back. *)
Lemma entry_port_flips :
  let c := entryChain [("a", "p"); ("b", "p")] in
  let n := zeroChainNode <| ChainNode_ID := "b" |> <| ChainNode_InboundRef := "p" |> in
  let prof := awgProfile "p" (chainEntryPort c "a") in
  let '(ib, moved) := topUpInbound entryGen (placedOn "b" [standaloneP]) c n prof livePreset standaloneP in
  NodeInbound_Port ib = chainEntryPort c "b" /\
  option_map (fun r => NodeInbound_Port (fst r)) (syncInbound (eg_cps entryGen) (initState sampleBuiltin) prof ib) = Some (chainEntryPort c "a") /\
  chainEntryPort c "a" <> chainEntryPort c "b".
Proof. by vm_compute. Qed.
