(* ===== verification/Clone.v ===== *)
(** * Clone: duplicating a node onto a new server

    internal/chain/clone.go.  A clone has the configuration of its source and
    credentials of its own: it gets a host and a record, joins the chains of the
    source, and the chains are applied again.  What the generators draw is an
    argument; the applier is the interface [ChainApplier], as for a relocation. *)

From S2P Require Import Prelude GoStrings Model ChainModel StoreCore Store StoreSpec StoreRefine Alloc AutoRelocate.

(** ** Definitions *)

(** What the generators draw for one inbound; [None] is their error. *)
Record InboundDraws := mkInboundDraws {
  id_uuid : string;
  id_tag : option string;
  id_reality : option (string * string);
  id_shortID : string;
  id_obfs : string;
  id_wg : option (string * string);
  id_cert : option (string * string) }.

(** What they draw for one chain node. *)
Record NodeDraws := mkNodeDraws {
  nd_reality : option (string * string);
  nd_shortID : string;
  nd_uuid : string;
  nd_server : option (string * string);
  nd_client : option (string * string);
  nd_exit : option (string * string);
  nd_inbounds : nat -> InboundDraws }.

(** [regenInboundIdentity]. *)
Definition regenInboundIdentity (d : InboundDraws) (ib : NodeInbound) : NodeInbound :=
  let ib := ib <| NodeInbound_UUID := id_uuid d |> in
  let ib := match id_tag d with Some t => ib <| NodeInbound_Tag := t |> | None => ib end in
  let ib := match id_reality d with
            | Some (priv, pub) => ib <| NodeInbound_ServerPrivKey := priv |> <| NodeInbound_ServerPubKey := pub |>
            | None => ib
            end in
  let ib := ib <| NodeInbound_ShortID := id_shortID d |> <| NodeInbound_ObfsPassword := id_obfs d |> in
  let ib := match id_wg d with
            | Some (priv, pub) => ib <| NodeInbound_AWGClientPriv := priv |> <| NodeInbound_AWGClientPub := pub |>
            | None => ib
            end in
  if (NodeInbound_TLSCertificate ib != "") || (NodeInbound_TLSPrivateKey ib != "") then
    match id_cert d with
    | Some (cert, key) => ib <| NodeInbound_TLSCertificate := cert |> <| NodeInbound_TLSPrivateKey := key |>
    | None => ib
    end
  else ib.

(** The configuration [cloneInbounds] copies. *)
Definition copiedInbound (ib : NodeInbound) : NodeInbound :=
  zeroNodeInbound <| NodeInbound_Protocol := NodeInbound_Protocol ib |> <| NodeInbound_Port := NodeInbound_Port ib |>
    <| NodeInbound_Obfuscation := NodeInbound_Obfuscation ib |> <| NodeInbound_ForUsers := NodeInbound_ForUsers ib |>
    <| NodeInbound_OutboundTag := NodeInbound_OutboundTag ib |> <| NodeInbound_Source := NodeInbound_Source ib |>.

(** [cloneInbounds]; [taken] is the callee's copy of the slice. *)
Fixpoint cloneInbounds (d : nat -> InboundDraws) (taken : list string) (src : list NodeInbound) : list NodeInbound :=
  match src with
  | [] => []
  | ib :: src' =>
      let c := copiedInbound ib in
      let '(c, taken) :=
        if NodeInbound_Protocol ib == "awg" then
          let subnet := allocateAWGServerSubnet taken in (c <| NodeInbound_AWGServerAddress := subnet |>, taken ++ [subnet])
        else (c, taken) in
      regenInboundIdentity (d O) c :: cloneInbounds (fun i => d (S i)) taken src'
  end.

(** [transitIPsTaken]. *)
Definition transitIPsTaken (c : Chain) : list string :=
  List.filter (fun a => a != "") (map ChainNode_TransitAWGAddress (Chain_Nodes c)).

Definition orElse (pr : option (string * string)) (priv pub : string) : string * string :=
  match pr with Some kp => kp | None => (priv, pub) end.

(** [regenChainNodeIdentity]. *)
Definition regenChainNodeIdentity (d : NodeDraws) (c : Chain) (cn : ChainNode) : ChainNode :=
  let cn := match nd_reality d with
            | Some (priv, _) => cn <| ChainNode_TransitPrivKey := priv |> <| ChainNode_TransitShortID := nd_shortID d |>
            | None => cn
            end in
  let cn := cn <| ChainNode_TransitUUID := nd_uuid d |> in
  let srv := orElse (nd_server d) (ChainNode_TransitAWGServerPriv cn) (ChainNode_TransitAWGServerPub cn) in
  let cn := cn <| ChainNode_TransitAWGServerPriv := fst srv |> <| ChainNode_TransitAWGServerPub := snd srv |> in
  let cli := orElse (nd_client d) (ChainNode_TransitAWGClientPriv cn) (ChainNode_TransitAWGClientPub cn) in
  let cn := cn <| ChainNode_TransitAWGClientPriv := fst cli |> <| ChainNode_TransitAWGClientPub := snd cli |> in
  let cn := cn <| ChainNode_TransitAWGAddress := allocateAWGTransitIP (transitIPsTaken c) |> in
  if ChainNode_Role cn == NodeRoleExit then
    let ex := orElse (nd_exit d) (ChainNode_ExitAWGServerPriv cn) (ChainNode_ExitAWGServerPub cn) in
    cn <| ChainNode_ExitAWGServerPriv := fst ex |> <| ChainNode_ExitAWGServerPub := snd ex |>
  else cn.

(** [cloneChainNode]; its errors are those of the generators, which are never returned. *)
Definition cloneChainNode (d : NodeDraws) (srcCN : ChainNode) (c : Chain) (newHost : Host) (taken : list string) : ChainNode :=
  regenChainNodeIdentity d c
    (zeroChainNode <| ChainNode_Port := ChainNode_Port srcCN |> <| ChainNode_Role := ChainNode_Role srcCN |>
       <| ChainNode_ExitTargets := ChainNode_ExitTargets srcCN |>
       <| ChainNode_Inbounds := cloneInbounds (nd_inbounds d) taken (ChainNode_Inbounds srcCN) |>
       <| ChainNode_ID := Host_ID newHost |> <| ChainNode_Addr := Host_Addr newHost |>
       <| ChainNode_User := Host_User newHost |> <| ChainNode_KeyPath := Host_KeyPath newHost |>).

(** [collectAWGServerSubnets]. *)
Definition collectAWGServerSubnets (w : World) : list string :=
  match ListNodeInfos w with
  | Ok infos =>
      List.filter (fun a => a != "")
        (map NodeInbound_AWGServerAddress
           (List.filter (fun ib => NodeInbound_Protocol ib == "awg") (List.concat (map NodeInfo_Inbounds infos))))
  | Err _ => []
  end.

(** [findChainNode]. *)
Definition findChainNode (c : Chain) (id : string) : option ChainNode := findNode id (Chain_Nodes c).

Inductive CloneErr :=
| CloneArguments
| CloneSameID
| CloneExists (id : string)
| CloneSource (e : StoreErr)
| CloneSave (e : StoreErr).

(** The loop over the chains of the source; the draws of each chain by name. *)
Fixpoint joinChains (d : string -> NodeDraws) (sourceID : string) (newHost : Host) (taken : list string) (cs : list Chain) (w : World)
    : (CloneErr + list Chain) * World :=
  match cs with
  | [] => (inr [], w)
  | c :: cs' =>
      match findChainNode c sourceID with
      | None =>
          match joinChains d sourceID newHost taken cs' w with
          | (inr rest, w') => (inr (c :: rest), w')
          | stop => stop
          end
      | Some srcCN =>
          let cn := cloneChainNode (d (Chain_Name c)) srcCN c newHost taken in
          match SaveChain (c <| Chain_Nodes := Chain_Nodes c ++ [cn] |>) w with
          | (Err e, w1) => (inl (CloneSave e), w1)
          | (Ok c', w1) =>
              match joinChains d sourceID newHost taken cs' w1 with
              | (inr rest, w2) => (inr (c' :: rest), w2)
              | stop => stop
              end
          end
      end
  end.

(** The record of the clone. *)
Definition cloneInfo (d : nat -> InboundDraws) (src : NodeInfo) (newHost : Host) (taken : list string) : NodeInfo :=
  zeroNodeInfo <| NodeInfo_Host := newHost |> <| NodeInfo_Country := NodeInfo_Country src |>
    <| NodeInfo_Bandwidth := NodeInfo_Bandwidth src |> <| NodeInfo_Source := "cloned" |>
    <| NodeInfo_AutoApply := NodeInfo_AutoApply src |> <| NodeInfo_UseSudo := NodeInfo_UseSudo src |>
    <| NodeInfo_Inbounds := cloneInbounds d taken (NodeInfo_Inbounds src) |>.

(** [CloneNode] up to the deployment: host, record and chains. *)
Definition cloneRecords (d : nat -> InboundDraws) (dn : string -> NodeDraws) (sourceID newID newAddr newUser newKeyPath : string) (w : World)
    : (CloneErr + list Chain) * World :=
  if (sourceID == "") || (newID == "") || (newAddr == "") then (inl CloneArguments, w)
  else if newID == sourceID then (inl CloneSameID, w)
  else match GetHost newID w with
       | Ok _ => (inl (CloneExists newID), w)
       | Err _ =>
           match GetNodeInfo sourceID w with
           | Err e => (inl (CloneSource e), w)
           | Ok src =>
               let taken := collectAWGServerSubnets w in
               let newHost := zeroHost <| Host_ID := newID |> <| Host_Addr := newAddr |>
                                <| Host_User := if newUser == "" then Host_User (NodeInfo_Host src) else newUser |>
                                <| Host_KeyPath := if newKeyPath == "" then Host_KeyPath (NodeInfo_Host src) else newKeyPath |> in
               match SaveHost newHost w with
               | (Err e, w1) => (inl (CloneSave e), w1)
               | (Ok _, w1) =>
                   match SaveNodeInfo (cloneInfo d src newHost taken) w1 with
                   | (Err e, w2) => (inl (CloneSave e), w2)
                   | (Ok _, w2) =>
                       let affected := match GetChainsForNode sourceID w2 with Ok cs => cs | Err _ => [] end in
                       joinChains dn sourceID newHost taken affected w2
                   end
               end
           end
       end.

Record CloneReport := mkCloneReport {
  CloneReport_SourceID : string;
  CloneReport_NewID : string;
  CloneReport_NewAddr : string;
  CloneReport_Chains : list RelocateChainResult }.

(** [CloneNode]: the chains are applied again as for a relocation. *)
Definition CloneNode `{ChainApplier} (d : nat -> InboundDraws) (dn : string -> NodeDraws)
    (sourceID newID newAddr newUser newKeyPath awgClientPubKey : string) (w : World) : (CloneErr + CloneReport) * World :=
  let newID := TrimSpace newID in
  let newAddr := TrimSpace newAddr in
  match cloneRecords d dn sourceID newID newAddr newUser newKeyPath w with
  | (inl e, w1) => (inl e, w1)
  | (inr affected, w1) =>
      let '(chains, w2) := reapply awgClientPubKey affected w1 in
      (inr (mkCloneReport sourceID newID newAddr chains), w2)
  end.

(** ** Lemmas: inbounds *)

Definition isAWG (ib : NodeInbound) : bool := NodeInbound_Protocol ib == "awg".
Definition awgSubnets (ibs : list NodeInbound) : list string := map NodeInbound_AWGServerAddress (List.filter isAWG ibs).

Lemma regen_config d ib : copiedInbound (regenInboundIdentity d ib) = copiedInbound ib.
Proof.
  unfold regenInboundIdentity. destruct (id_tag d), (id_reality d) as [[]|], (id_wg d) as [[]|], (id_cert d) as [[]|];
    cbv zeta; by case_step.
Qed.

Lemma regen_address d ib : NodeInbound_AWGServerAddress (regenInboundIdentity d ib) = NodeInbound_AWGServerAddress ib.
Proof.
  unfold regenInboundIdentity. destruct (id_tag d), (id_reality d) as [[]|], (id_wg d) as [[]|], (id_cert d) as [[]|];
    cbv zeta; by case_step.
Qed.

Lemma regen_uuid d ib : NodeInbound_UUID (regenInboundIdentity d ib) = id_uuid d.
Proof.
  unfold regenInboundIdentity. destruct (id_tag d), (id_reality d) as [[]|], (id_wg d) as [[]|], (id_cert d) as [[]|];
    cbv zeta; by case_step.
Qed.

Lemma copied_protocol ib ib' : copiedInbound ib' = copiedInbound ib -> isAWG ib' = isAWG ib.
Proof. intros H. apply (f_equal NodeInbound_Protocol) in H. unfold isAWG. by cbn in H; rewrite H. Qed.

(** A cloned inbound has the configuration of its source. *)
Lemma cloneInbounds_config src : forall d taken, map copiedInbound (cloneInbounds d taken src) = map copiedInbound src.
Proof.
  induction src as [|ib src IH]; intros d taken; cbn [cloneInbounds map]; [done|].
  case_bool_decide; cbn [map]; by rewrite regen_config, IH.
Qed.

Lemma cloneInbounds_uuid src : forall d taken,
  map NodeInbound_UUID (cloneInbounds d taken src) = map (fun i => id_uuid (d i)) (seq 0 (length src)).
Proof.
  induction src as [|ib src IH]; intros d taken; cbn [cloneInbounds map seq length]; [done|].
  case_bool_decide; cbn [map]; rewrite regen_uuid, IH, <- seq_shift, map_map; done.
Qed.

(** The subnets of a clone are new and pairwise different. *)
Lemma cloneInbounds_subnets src : forall d taken,
  (length taken + length (List.filter isAWG src) <= 250)%nat ->
  NoDup (map awgServerPrefix (awgSubnets (cloneInbounds d taken src))) /\
  forall a, a ∈ awgSubnets (cloneInbounds d taken src) -> awgServerPrefix a ∉ map awgServerPrefix taken.
Proof.
  induction src as [|ib src IH]; intros d taken Hlen; cbn [cloneInbounds List.filter] in *.
  { split; [apply NoDup_nil_2|]. by intros a ?%not_elem_of_nil. }
  change (NodeInbound_Protocol ib == "awg") with (isAWG ib). destruct (isAWG ib) eqn:Ea; cbn [length] in Hlen; cbv beta iota zeta.
  - destruct (allocateAWGServerSubnet_free taken ltac:(lia)) as [Hfree _].
    set (subnet := allocateAWGServerSubnet taken) in *. unfold awgSubnets. cbn [List.filter].
    assert (forall x, isAWG (regenInboundIdentity (d O) ((copiedInbound ib) <| NodeInbound_AWGServerAddress := x |>)) = true) as Hr.
    { intros x. rewrite <- Ea. apply copied_protocol. by rewrite regen_config. }
    rewrite Hr. cbn [map]. rewrite regen_address. cbn [NodeInbound_AWGServerAddress update].
    destruct (IH (fun i => d (S i)) (taken ++ [subnet])) as [Hnd Hall]; [rewrite length_app; cbn; lia|].
    fold (awgSubnets (cloneInbounds (fun i => d (S i)) (taken ++ [subnet]) src)). split.
    + apply NoDup_cons. split; [|done]. intros Hin. apply list_elem_of_In, in_map_iff in Hin as (a & Hk & Hin).
      apply list_elem_of_In in Hin. apply (Hall a Hin). rewrite map_app. apply elem_of_app. right.
      cbn. rewrite Hk. by left.
    + intros a [->|Hin]%elem_of_cons; [exact Hfree|]. intros Hk. apply (Hall a Hin). rewrite map_app. apply elem_of_app. by left.
  - unfold awgSubnets. cbn [List.filter].
    assert (isAWG (regenInboundIdentity (d O) (copiedInbound ib)) = false) as Hr.
    { rewrite <- Ea. apply copied_protocol. by rewrite regen_config. }
    rewrite Hr. by apply IH.
Qed.

(** ** Lemmas: chains *)

Definition joined (dn : string -> NodeDraws) (sourceID : string) (newHost : Host) (taken : list string) (c : Chain) : Chain :=
  match findChainNode c sourceID with
  | Some srcCN => syncChain (c <| Chain_Nodes := Chain_Nodes c ++ [cloneChainNode (dn (Chain_Name c)) srcCN c newHost taken] |>)
  | None => c
  end.

Lemma joined_name dn sourceID newHost taken c : Chain_Name (joined dn sourceID newHost taken c) = Chain_Name c.
Proof. unfold joined. destruct (findChainNode c sourceID); [|done]. by rewrite syncChain_name. Qed.

Lemma joinChains_Ok dn sourceID newHost taken cs : forall w sf cs' w',
  base w = Some sf -> NoDup (keys cs) -> (forall c, c ∈ cs -> find_key (Chain_Name c) (sf_Chains sf) = Some c) ->
  joinChains dn sourceID newHost taken cs w = (inr cs', w') ->
  exists sf', base w' = Some sf' /\ sf_Hosts sf' = sf_Hosts sf /\ sf_NodeInfos sf' = sf_NodeInfos sf /\
    forall k, find_key k (sf_Chains sf') =
      match find_key k cs with Some c => Some (joined dn sourceID newHost taken c) | None => find_key k (sf_Chains sf) end.
Proof.
  induction cs as [|c cs IH]; intros w sf cs' w' Hb Hnd Hin H; cbn [joinChains] in H.
  { injection H as <- <-. by exists sf. }
  change (keys (c :: cs)) with (key_of c :: keys cs) in Hnd. apply NoDup_cons in Hnd as [Hc Hnd].
  assert (forall k, find_key k (c :: cs) = if key_of c == k then Some c else find_key k cs) as Hfk.
  { intros k. unfold find_key. cbn [List.find]. by case_bool_decide. }
  destruct (findChainNode c sourceID) as [srcCN|] eqn:Ef.
  - destruct (SaveChain _ w) as [[c1|e] w1] eqn:E; [|done].
    destruct (SaveChain_Ok _ _ _ _ E) as (Hc1 & sf0 & Hb0 & Hb1). assert (sf0 = sf) as -> by congruence.
    destruct (joinChains _ _ _ _ cs w1) as [[e|rest] w2] eqn:E2; [done|]. injection H as <- <-.
    assert (key_of c1 = key_of c) as Hkey by (rewrite Hc1; unfold key_of, keyed_Chain; by rewrite syncChain_name).
    assert (forall k, k <> key_of c -> find_key k (upsert c1 (sf_Chains sf)) = find_key k (sf_Chains sf)) as Hne
      by (intros k Hk; apply find_upsert_ne; congruence).
    destruct ((fun A => IH w1 _ rest w2 Hb1 Hnd A E2)) as (sf' & Hb2 & Hh & Hi & Hk).
    { intros x Hx. change (find_key (Chain_Name x) (upsert c1 (sf_Chains sf)) = Some x). rewrite Hne; [by apply Hin; right|]. intros Heq. apply Hc. rewrite <- Heq.
      apply list_elem_of_In, in_map_iff. exists x. split; [done|]. by apply list_elem_of_In. }
    exists sf'. split_and!; [done..|]. intros k. rewrite Hk, Hfk. case_bool_decide as Ek.
    + subst k. rewrite (proj2 (find_key_None (key_of c) cs) Hc). change (find_key (key_of c) (upsert c1 (sf_Chains sf)) = Some (joined dn sourceID newHost taken c)).
      assert (joined dn sourceID newHost taken c = c1) as -> by (unfold joined; by rewrite Ef). rewrite <- Hkey. apply find_upsert_eq.
    + destruct (find_key k cs); [done|]. apply Hne. congruence.
  - destruct (joinChains _ _ _ _ cs w) as [[e|rest] w2] eqn:E2; [done|]. injection H as <- <-.
    destruct ((fun A => IH w _ rest w2 Hb Hnd A E2)) as (sf' & Hb2 & Hh & Hi & Hk); [intros x Hx; apply Hin; by right|].
    exists sf'. split_and!; [done..|]. intros k. rewrite Hk, Hfk. case_bool_decide as Ek; [|done].
    subst k. rewrite (proj2 (find_key_None (key_of c) cs) Hc). unfold joined. rewrite Ef.
    change (key_of c) with (Chain_Name c). apply Hin. by left.
Qed.

(** ** Properties *)

(** The clone in a chain has the place of its source and nothing else of it. *)
Record clonedNode (src cn : ChainNode) (newHost : Host) (c : Chain) : Prop := {
  cl_host : [ChainNode_ID cn; ChainNode_Addr cn; ChainNode_User cn; ChainNode_KeyPath cn] =
            [Host_ID newHost; Host_Addr newHost; Host_User newHost; Host_KeyPath newHost];
  cl_place : ChainNode_Port cn = ChainNode_Port src /\ ChainNode_Role cn = ChainNode_Role src /\
             ChainNode_ExitTargets cn = ChainNode_ExitTargets src;
  cl_links : ChainNode_ExitAWGLinks cn = [];
  cl_inbounds : map copiedInbound (ChainNode_Inbounds cn) = map copiedInbound (ChainNode_Inbounds src);
  cl_address : (length (Chain_Nodes c) < 253)%nat ->
    ChainNode_TransitAWGAddress cn <> "" /\
    forall n, n ∈ Chain_Nodes c -> ChainNode_TransitAWGAddress n <> "" ->
      awgIPKey (ChainNode_TransitAWGAddress n) <> awgIPKey (ChainNode_TransitAWGAddress cn) }.

Lemma regenNode_keeps d c cn : let r := regenChainNodeIdentity d c cn in
  [ChainNode_ID r; ChainNode_Addr r; ChainNode_User r; ChainNode_KeyPath r] =
    [ChainNode_ID cn; ChainNode_Addr cn; ChainNode_User cn; ChainNode_KeyPath cn] /\
  ChainNode_Port r = ChainNode_Port cn /\ ChainNode_Role r = ChainNode_Role cn /\ ChainNode_ExitTargets r = ChainNode_ExitTargets cn /\
  ChainNode_ExitAWGLinks r = ChainNode_ExitAWGLinks cn /\ ChainNode_Inbounds r = ChainNode_Inbounds cn /\
  ChainNode_TransitAWGAddress r = allocateAWGTransitIP (transitIPsTaken c).
Proof. unfold regenChainNodeIdentity. destruct (nd_reality d) as [[]|]; cbv zeta; case_step; done. Qed.

Lemma transitIP_free c :
  (length (Chain_Nodes c) < 253)%nat ->
  allocateAWGTransitIP (transitIPsTaken c) <> "" /\
  forall n, n ∈ Chain_Nodes c -> ChainNode_TransitAWGAddress n <> "" ->
    awgIPKey (ChainNode_TransitAWGAddress n) <> awgIPKey (allocateAWGTransitIP (transitIPsTaken c)).
Proof.
  intros Hlen. destruct (allocateAWGHostIP_free "10.9.0" (transitIPsTaken c)) as [(h & _ & E & _) Hfree]; [done| |].
  { unfold transitIPsTaken. eapply Nat.le_lt_trans; [apply List.filter_length_le|]. by rewrite length_map. }
  change (allocateAWGHostIP "10.9.0") with allocateAWGTransitIP in *. split.
  - rewrite E. apply hostIP_nonempty.
  - intros n Hn Hne Hk. apply Hfree. apply list_elem_of_In, in_map_iff. exists (ChainNode_TransitAWGAddress n).
    split; [exact Hk|]. unfold transitIPsTaken. apply filter_In. split.
    + apply in_map_iff. exists n. split; [done|]. by apply list_elem_of_In.
    + by rewrite (bool_decide_eq_false_2 _ Hne).
Qed.

Lemma cloneChainNode_cloned d src c newHost taken : clonedNode src (cloneChainNode d src c newHost taken) newHost c.
Proof.
  unfold cloneChainNode.
  match goal with |- clonedNode _ (regenChainNodeIdentity _ _ ?cn) _ _ =>
    destruct (regenNode_keeps d c cn) as (H1 & H2 & H3 & H4 & H5 & H6 & H7) end.
  split; [exact H1|by split_and!|exact H5| |].
  - rewrite H6. exact (cloneInbounds_config _ _ _).
  - rewrite H7. apply transitIP_free.
Qed.

Lemma findNode_has id ns : existsb (fun n => ChainNode_ID n == id) ns = true -> exists n, findNode id ns = Some n.
Proof.
  intros H. destruct (findNode id ns) as [n|] eqn:E; [by exists n|]. apply existsb_exists in H as (n & Hin & Hn).
  by rewrite (List.find_none _ _ E n Hin) in Hn.
Qed.

Lemma AllNodes_sync_append c l :
  AllNodes (syncChain (c <| Chain_Nodes := l |>)) = if IsLevelized c then flattenLevels (Chain_Levels c) else l.
Proof.
  unfold syncChain, AllNodes. change (IsLevelized (c <| Chain_Nodes := l |>)) with (IsLevelized c).
  destruct (IsLevelized c) eqn:E; unfold IsLevelized in *; cbn; by rewrite E.
Qed.

(** A chain after the loop. *)
Lemma joined_nodes dn sourceID newHost taken c :
  chainSynced c ->
  if chainHasNode sourceID c && negb (IsLevelized c)
  then exists s cn, s ∈ AllNodes c /\ ChainNode_ID s = sourceID /\
         AllNodes (joined dn sourceID newHost taken c) = AllNodes c ++ [cn] /\ clonedNode s cn newHost c
  else AllNodes (joined dn sourceID newHost taken c) = AllNodes c.
Proof.
  unfold chainSynced. intros Hs. unfold joined, findChainNode. rewrite Hs.
  destruct (IsLevelized c) eqn:El; cbn [negb].
  - rewrite andb_false_r. destruct (findNode sourceID (AllNodes c)); [|done].
    rewrite AllNodes_sync_append, El. unfold AllNodes. by rewrite El.
  - rewrite andb_true_r. destruct (chainHasNode sourceID c) eqn:Eh.
    + destruct (findNode_has _ _ Eh) as [s Ef]. destruct (findNode_Some _ _ _ Ef) as [Hin Hid]. rewrite Ef.
      exists s. eexists. split; [done|]. split; [done|]. split; [|apply cloneChainNode_cloned].
      by rewrite AllNodes_sync_append, El.
    + destruct (findNode sourceID (AllNodes c)) as [s|] eqn:Ef; [exfalso|done].
      destruct (findNode_Some _ _ _ Ef) as [Hin Hid]. assert (chainHasNode sourceID c = true); [|congruence].
      apply existsb_exists. exists s. split; [by apply list_elem_of_In|]. by apply bool_decide_eq_true.
Qed.

(** The records of a clone.  When cloning succeeds up to the deployment, the
    new host exists with the given address; its record has the inbounds of the
    source, one for one, with their configuration and freshly drawn UUIDs, and
    nothing deployed; its AWG inbounds have server subnets that differ from
    each other and from all those in use; every other host and record is as
    before; and each flat chain with the source has one more node, in the place
    of the source and with an inner address of its own.  A levelized chain, and
    a chain without the source, keep their nodes. *)
Theorem clone_records d dn sourceID newID newAddr newUser newKeyPath w sf cs w' :
  base w = Some sf -> WF sf ->
  cloneRecords d dn sourceID newID newAddr newUser newKeyPath w = (inr cs, w') ->
  exists src newHost ci,
    GetNodeInfo sourceID w = Ok src /\ [Host_ID newHost; Host_Addr newHost] = [newID; newAddr] /\
    GetHost newID w' = Ok newHost /\ GetNodeInfo newID w' = Ok ci /\
    NodeInfo_Host ci = newHost /\ NodeInfo_LastDeployedHash ci = "" /\
    map copiedInbound (NodeInfo_Inbounds ci) = map copiedInbound (NodeInfo_Inbounds src) /\
    map NodeInbound_UUID (NodeInfo_Inbounds ci) = map (fun i => id_uuid (d i)) (seq 0 (length (NodeInfo_Inbounds src))) /\
    (let taken := collectAWGServerSubnets w in
     (length taken + length (List.filter isAWG (NodeInfo_Inbounds src)) <= 250)%nat ->
     NoDup (map awgServerPrefix (awgSubnets (NodeInfo_Inbounds ci))) /\
     forall a, a ∈ awgSubnets (NodeInfo_Inbounds ci) -> awgServerPrefix a ∉ map awgServerPrefix taken) /\
    (forall id, id <> newID -> (forall h, GetHost id w' = Ok h <-> GetHost id w = Ok h) /\
                              (forall i, GetNodeInfo id w' = Ok i <-> GetNodeInfo id w = Ok i)) /\
    forall name c, GetChain name w = Ok c ->
      exists c', GetChain name w' = Ok c' /\
        if chainHasNode sourceID c && negb (IsLevelized c)
        then exists s cn, s ∈ AllNodes c /\ ChainNode_ID s = sourceID /\ AllNodes c' = AllNodes c ++ [cn] /\ clonedNode s cn newHost c
        else AllNodes c' = AllNodes c.
Proof.
  intros Hb Hwf. unfold cloneRecords. destruct (_ || _ || _) eqn:Ea; [done|]. destruct (newID == sourceID); [done|].
  destruct (GetHost newID w); [done|]. destruct (GetNodeInfo sourceID w) as [src|] eqn:Es; [|done]. cbv zeta.
  set (taken := collectAWGServerSubnets w).
  match goal with |- context [SaveHost ?h w] => set (newHost := h) end.
  assert (key_of newHost = newID) as Hkh by done. assert (Host_Addr newHost = newAddr) as Haddr by done. clearbody newHost.
  destruct (SaveHost newHost w) as [[u|] w1] eqn:E1; [|done].
  destruct (SaveHost_Ok _ _ _ _ E1) as (sf0 & Hb0 & Hb1). assert (sf0 = sf) as -> by congruence.
  set (ci := cloneInfo d src newHost taken). assert (key_of ci = newID) as Hki by exact Hkh.
  destruct (SaveNodeInfo ci w1) as [[u2|] w2] eqn:E2; [|done].
  destruct (SaveNodeInfo_Ok _ _ _ _ E2) as (sf1 & Hb1' & Hb2). rewrite Hb1 in Hb1'. injection Hb1' as <-.
  rewrite (GetChainsForNode_base _ _ _ Hb2). cbn [sf_Chains update]. intros Hj.
  set (P := chainHasNode sourceID) in *.
  change (joinChains dn sourceID newHost taken (List.filter P (sf_Chains sf)) w2 = (inr cs, w')) in Hj.
  destruct (fun A => joinChains_Ok dn sourceID newHost taken (List.filter P (sf_Chains sf)) w2 _ cs w' Hb2 (NoDup_keys_filter _ _ (wf_chains _ Hwf)) A Hj)
    as (sf3 & Hb3 & Hh3 & Hi3 & Hk3).
  { intros c Hc. apply list_elem_of_In, filter_In in Hc as [Hc _]. apply (find_key_elem c); [apply Hwf|by apply list_elem_of_In]. }
  change (sf_Hosts sf3 = upsert newHost (sf_Hosts sf)) in Hh3. change (sf_NodeInfos sf3 = upsert ci (sf_NodeInfos sf)) in Hi3.
  exists src, newHost, ci. split; [done|]. split; [by rewrite <- Hkh, <- Haddr|].
  split; [apply (GetHost_base _ _ _ _ Hb3); rewrite Hh3, <- Hkh; apply find_upsert_eq|].
  split; [apply (GetNodeInfo_base _ _ _ _ Hb3); rewrite Hi3, <- Hki; apply find_upsert_eq|].
  split; [done|]. split; [done|]. split; [exact (cloneInbounds_config _ _ _)|]. split; [exact (cloneInbounds_uuid _ _ _)|].
  split; [exact (cloneInbounds_subnets _ _ _)|]. split.
  - intros id Hid. split; [intros h; rewrite (GetHost_base _ _ _ _ Hb3), (GetHost_base _ _ _ _ Hb), Hh3
      |intros i; rewrite (GetNodeInfo_base _ _ _ _ Hb3), (GetNodeInfo_base _ _ _ _ Hb), Hi3];
      by rewrite find_upsert_ne by congruence.
  - intros name c Hc. apply (GetChain_base _ _ _ _ Hb) in Hc. specialize (Hk3 name).
    rewrite find_key_filter, Hc in Hk3 by apply (wf_chains _ Hwf).
    pose proof (joined_nodes dn sourceID newHost taken c (wf_synced _ Hwf c (proj1 (find_key_Some _ _ _ Hc)))) as HJ.
    fold P in HJ. destruct (P c) eqn:Ep.
    + eexists. split; [by apply (GetChain_base _ _ _ _ Hb3)|exact HJ].
    + exists c. split; [|done]. apply (GetChain_base _ _ _ _ Hb3). rewrite Hk3. exact Hc.
Qed.

(** ** Concrete clones *)

Definition drawsAt (i : nat) : InboundDraws :=
  mkInboundDraws ("uuid" +:+ pretty i) (Some ("tag" +:+ pretty i)) (Some ("rp", "rq")) "sid" "obfs" (Some ("wp", "wq")) (Some ("cert", "key")).
Definition nodeDraws : NodeDraws := mkNodeDraws (Some ("rp", "rq")) "sid" "uuid" (Some ("sp", "sq")) (Some ("cp", "cq")) None drawsAt.

Definition awgInbound : NodeInbound :=
  zeroNodeInbound <| NodeInbound_Protocol := "awg" |> <| NodeInbound_AWGServerAddress := "10.8.1.1/24" |>
    <| NodeInbound_TLSCertificate := "cert0" |> <| NodeInbound_MieruTransport := "UDP" |>.

(** [sampleFile] of the relocation, with a record for the host "a". *)
Definition cloneFile : storeFile :=
  sampleFile <| sf_NodeInfos := [zeroNodeInfo <| NodeInfo_Host := zeroHost <| Host_ID := "a" |> |> <| NodeInfo_Inbounds := [awgInbound] |>] |>.

Lemma cloneFile_WF : WF cloneFile.
Proof.
  destruct sampleFile_WF as [H1 H2 H3 H4 H5 H6 H7 H8 H9 H10 H11 H12 H13 H14].
  split; assumption.
Qed.

Lemma clone_records_witness :
  exists cs w' ci, cloneRecords drawsAt (fun _ => nodeDraws) "a" "b" "2.2.2.2:22" "" ""
      (mkWorld (Some (Plain cloneFile)) None None None [] None) = (inr cs, w') /\
    GetNodeInfo "b" w' = Ok ci /\ awgSubnets (NodeInfo_Inbounds ci) = ["10.8.2.1/24"] /\
    map copiedInbound (NodeInfo_Inbounds ci) = [copiedInbound awgInbound].
Proof.
  destruct (cloneRecords drawsAt (fun _ => nodeDraws) "a" "b" "2.2.2.2:22" "" ""
    (mkWorld (Some (Plain cloneFile)) None None None [] None)) as [[e|cs] w'] eqn:E; [by vm_compute in E|].
  assert (match GetNodeInfo "b" w' with Ok i => awgSubnets (NodeInfo_Inbounds i) | Err _ => [] end = ["10.8.2.1/24"]) as Hs
    by (revert E; vm_compute; intros [= <- <-]; reflexivity).
  destruct (clone_records drawsAt (fun _ => nodeDraws) "a" "b" "2.2.2.2:22" "" ""
    (mkWorld (Some (Plain cloneFile)) None None None [] None) cloneFile cs w' eq_refl cloneFile_WF E)
    as (src & newHost & ci & Hsrc & _ & _ & Hci & _ & _ & Hcfg & _).
  exists cs, w', ci. split; [reflexivity|]. split; [exact Hci|]. rewrite Hci in Hs. split; [exact Hs|].
  rewrite Hcfg. assert (src = zeroNodeInfo <| NodeInfo_Host := zeroHost <| Host_ID := "a" |> |> <| NodeInfo_Inbounds := [awgInbound] |>) as ->
    by (vm_compute in Hsrc; by injection Hsrc as <-). reflexivity.
Defined.

(** The certificate of a TLS inbound is neither copied nor drawn, and the
    transport of a mieru inbound, which is configuration, is lost. *)
Lemma clone_drops_settings :
  map (fun ib => (NodeInbound_TLSCertificate ib, NodeInbound_MieruTransport ib)) (cloneInbounds drawsAt [] [awgInbound]) = [("", "")].
Proof. by vm_compute. Qed.

(** The record of the clone and its chain node get the same subnets: the slice
    of taken subnets is passed by value, although the comment says shared. *)
Lemma clone_subnets_repeat :
  awgSubnets (NodeInfo_Inbounds (cloneInfo drawsAt (zeroNodeInfo <| NodeInfo_Inbounds := [awgInbound] |>) zeroHost ["10.8.1.1/24"])) =
  awgSubnets (ChainNode_Inbounds (cloneChainNode nodeDraws (zeroChainNode <| ChainNode_Inbounds := [awgInbound] |>) zeroChain zeroHost ["10.8.1.1/24"])).
Proof. by vm_compute. Qed.
