(* ===== verification/AwgPush.v ===== *)
(** * AwgPush: the deploy of kernel interfaces and configuration together

    internal/chain/awg_push.go.  A node that runs AWG in the kernel has one
    awg-quick file and unit per interface besides the sing-box configuration.
    One deploy, under the lock of the node, pushes the files, stops the
    interfaces that must go, pushes the configuration ([Push]), and undoes every
    layer when a later one fails.  An interface is the state [KernelIface] of
    [PeerSync]; what each remote command does, and whether the program learns
    of it, is the oracle of the deploy. *)

From S2P Require Import Prelude GoStrings Model Codec AwgConf PeerSync ManualRules Shell Push.

(** ** The node *)

(** [AWGConfFile]; the interface is the one of the unit. *)
Record AWGConfFile := mkAWGConfFile {
  cf_iface : string;
  cf_content : string }.
#[export] Instance AWGConfFile_eq_dec : EqDecision AWGConfFile.
Proof. solve_decision. Defined.

(** [awgServiceName]. *)
Definition awgServiceName (iface : string) : string := "awg-quick@" +:+ iface.

(** The interfaces, the backup files of this deploy ([Some None]: a path was
    returned, but there was no file), and the sing-box side. *)
Record AwgNode := mkAwgNode {
  an_ifaces : gmap string KernelIface;
  an_backups : gmap string (option string);
  an_box : Remote }.
#[export] Instance eta_AwgNode : Eta AwgNode := fun r => mkAwgNode (an_ifaces r) (an_backups r) (an_box r).

(** No file, not running. *)
Definition noIface : KernelIface := mkKernelIface false None "" ∅.

Definition ifaceOf (n : AwgNode) (i : string) : KernelIface := default noIface (an_ifaces n !! i).
Definition setIface (i : string) (k : KernelIface) (n : AwgNode) : AwgNode := n <| an_ifaces := <[i := k]> (an_ifaces n) |>.

(** [awg-quick up] accepts the file. *)
Class AwgUp := comesUp : string -> bool.

(** What happens with the commands for one file. *)
Record FileFaults := mkFileFaults {
  ff_sync : SyncFaults;
  ff_backup : BackupOutcome;
  ff_write : option (option string);
  ff_restart : RestartOutcome;
  ff_probe : list bool;
  ff_rollback : RollbackOutcome }.

(** What happens with the commands that stop an interface, and start it again. *)
Record StopFaults := mkStopFaults {
  st_active : bool;        (* the reply to is-active arrives *)
  st_stop : CmdOutcome;
  st_start : CmdOutcome }.

Record DeployFaults := mkDeployFaults {
  df_prepare : bool;       (* the directory and the forwarding cannot be set up *)
  df_file : string -> FileFaults;
  df_stop : string -> StopFaults;
  df_box : Faults }.

Section deploy.
Context {NE : NodeEnv} {AQ : AwgQuick} {AU : AwgUp}.

(** [systemctl restart] of the unit of an interface. *)
Definition startIface (k : KernelIface) : KernelIface :=
  match ki_file k with
  | Some c => if comesUp c then mkKernelIface true (Some c) (fst (splitAWGConf c)) (upPeers c)
              else mkKernelIface false (Some c) "" ∅
  | None => noIface
  end.

Definition stopIface (k : KernelIface) : KernelIface := mkKernelIface false (ki_file k) "" ∅.

(** [enableAWGService]: restart and probe; [true]: an error. *)
Definition enableAWGService (f : FileFaults) (k : KernelIface) : bool * KernelIface :=
  let up k := ki_active k && existsb (fun arrives => arrives) (take 3 (ff_probe f)) in
  match ff_restart f with
  | RestartNotRun => (true, k)
  | RestartLost => (true, startIface k)
  | RestartRun reports =>
      let k' := startIface k in
      if reports && negb (ki_active k') then (true, k') else (negb (up k'), k')
  end.

(** [createBackup] of an awg-quick file. *)
Definition backupFile (f : FileFaults) (i : string) (n : AwgNode) : bool * AwgNode :=
  let saved := n <| an_backups := <[i := ki_file (ifaceOf n i)]> (an_backups n) |> in
  match ff_backup f with
  | BackupNotRun => (false, n)
  | BackupNoPath => (false, saved)
  | BackupDone => (true, saved)
  end.

(** [performRollback] of one record: its path is empty when the backup was
    not made. *)
Definition rollbackFile (f : FileFaults) (rec : AWGConfFile * bool) (n : AwgNode) : AwgNode :=
  let i := cf_iface (fst rec) in
  if negb (snd rec) || negb (safeSystemdUnit (awgServiceName i)) then n
  else
    let undo restored :=
      let k := ifaceOf n i in
      let k := match an_backups n !! i with
               | Some (Some b) => if (restored : bool) then k <| ki_file := Some b |> else k
               | _ => k
               end in
      setIface i (startIface k) n in
    match ff_rollback f with
    | RollbackNotRun => n
    | RollbackLost restored | RollbackRun restored => undo restored
    end.

(** [rollbackAWGConfs]. *)
Definition rollbackAWGConfs (F : string -> FileFaults) (records : list (AWGConfFile * bool)) (n : AwgNode) : AwgNode :=
  fold_left (fun n rec => rollbackFile (F (cf_iface (fst rec))) rec n) records n.

Inductive FilesResult :=
| FilesPushed (records : list (AWGConfFile * bool)) (needRestart : list AWGConfFile)
| FilesFailed
| FilesPanic.

(** The first loop of [pushAWGConfs]. *)
Fixpoint pushFiles (F : string -> FileFaults) (files : list AWGConfFile) (records : list (AWGConfFile * bool))
    (needRestart : list AWGConfFile) (n : AwgNode) : FilesResult * AwgNode :=
  match files with
  | [] => (FilesPushed records needRestart, n)
  | file :: files' =>
      let i := cf_iface file in
      let f := F i in
      let '(r, k) := tryPeerSync (ff_sync f) (cf_content file) (ifaceOf n i) in
      let n := setIface i k n in
      match r with
      | SyncPanic => (FilesPanic, n)
      | _ =>
          let '(hasPath, n) := backupFile f i n in
          match ff_write f with
          | Some leftover =>
              let n := match leftover with
                       | Some s => setIface i ((ifaceOf n i) <| ki_file := Some s |>) n
                       | None => n
                       end in
              (FilesFailed, rollbackAWGConfs F records n)
          | None =>
              let n := setIface i ((ifaceOf n i) <| ki_file := Some (cf_content file) |>) n in
              pushFiles F files' (records ++ [(file, hasPath)])
                (match r with Synced => needRestart | _ => needRestart ++ [file] end) n
          end
      end
  end.

(** The second loop of [pushAWGConfs]; [true]: an error. *)
Fixpoint restartFiles (F : string -> FileFaults) (files : list AWGConfFile) (n : AwgNode) : bool * AwgNode :=
  match files with
  | [] => (false, n)
  | file :: files' =>
      let i := cf_iface file in
      let '(err, k) := enableAWGService (F i) (ifaceOf n i) in
      let n := setIface i k n in
      if err then (true, n) else restartFiles F files' n
  end.

(** [pushAWGConfs]. *)
Definition pushAWGConfs (prepareFails : bool) (F : string -> FileFaults) (files : list AWGConfFile) (n : AwgNode) : FilesResult * AwgNode :=
  match files with
  | [] => (FilesPushed [] [], n)
  | _ =>
      if prepareFails then (FilesFailed, n)
      else match pushFiles F files [] [] n with
           | (FilesPushed records needRestart, n) =>
               let '(err, n) := restartFiles F needRestart n in
               if err then (FilesFailed, rollbackAWGConfs F records n) else (FilesPushed records needRestart, n)
           | stop => stop
           end
  end.

(** [teardownAWGInterfaces]: the interfaces that were running and are stopped. *)
Fixpoint teardownAWGInterfaces (S : string -> StopFaults) (ifaces : list string) (n : AwgNode) : list string * AwgNode :=
  match ifaces with
  | [] => ([], n)
  | i :: ifaces' =>
      let wasActive := ki_active (ifaceOf n i) && st_active (S i) in
      let n := setIface i (cmdEffect (st_stop (S i)) stopIface (ifaceOf n i)) n in
      let '(rest, n) := teardownAWGInterfaces S ifaces' n in
      (match st_stop (S i) with CmdOK => if wasActive then i :: rest else rest | CmdFailed _ => rest end, n)
  end.

(** [restoreAWGInterfaces]. *)
Definition restoreAWGInterfaces (S : string -> StopFaults) (ifaces : list string) (n : AwgNode) : AwgNode :=
  fold_left (fun n i => setIface i (cmdEffect (st_start (S i)) startIface (ifaceOf n i)) n) ifaces n.

Inductive AwgPushResult := AwgPushFailed | AwgPanic | BoxPushed (r : PushResult).

(** [pushConfigWithAWGTeardown]. *)
Definition pushConfigWithAWGTeardown (D : DeployFaults) (cfg : string) (files : list AWGConfFile) (teardown : list string) (n : AwgNode)
    : AwgPushResult * AwgNode :=
  match files, teardown with
  | [], [] => let '(r, box) := pushConfigLocked (df_box D) cfg (an_box n) in (BoxPushed r, n <| an_box := box |>)
  | _, _ =>
      match pushAWGConfs (df_prepare D) (df_file D) files n with
      | (FilesPanic, n) => (AwgPanic, n)
      | (FilesFailed, n) => (AwgPushFailed, n)
      | (FilesPushed records _, n) =>
          let '(stopped, n) := teardownAWGInterfaces (df_stop D) teardown n in
          let '(r, box) := pushConfigLocked (df_box D) cfg (an_box n) in
          let n := n <| an_box := box |> in
          match r with
          | Success => (BoxPushed r, n)
          | _ => (BoxPushed r, rollbackAWGConfs (df_file D) records (restoreAWGInterfaces (df_stop D) stopped n))
          end
      end
  end.

(** ** Lemmas: one interface *)

Lemma ifaceOf_set i k n j : ifaceOf (setIface i k n) j = if decide (i = j) then k else ifaceOf n j.
Proof.
  unfold ifaceOf, setIface. cbn. destruct (decide (i = j)) as [->|Hne]; [by rewrite lookup_insert_eq|].
  by rewrite lookup_insert_ne.
Qed.

(** The interface awg-quick makes of a file. *)
Definition running (c : string) : KernelIface := mkKernelIface true (Some c) (fst (splitAWGConf c)) (upPeers c).

Lemma startIface_up k c : ki_file k = Some c -> comesUp c = true -> startIface k = running c.
Proof. intros H1 H2. unfold startIface. by rewrite H1, H2. Qed.

Lemma startIface_file k c : ki_file k = Some c -> ki_file (startIface k) = Some c.
Proof. intros H. unfold startIface. rewrite H. by destruct (comesUp c). Qed.

Lemma enable_file f k c err k' : ki_file k = Some c -> enableAWGService f k = (err, k') -> ki_file k' = Some c.
Proof.
  intros H. unfold enableAWGService. destruct (ff_restart f) as [| |rep]; [by intros [= _ <-]|intros [= _ <-]; by apply startIface_file|].
  pose proof (startIface_file k c H) as Hs. destruct (_ && _); by intros [= _ <-].
Qed.

Lemma enable_active f k k' : enableAWGService f k = (false, k') -> ki_active k' = true.
Proof.
  unfold enableAWGService. destruct (ff_restart f) as [| |rep]; [done|done|]. destruct (_ && _); [done|].
  intros [= E <-]. apply negb_false_iff, andb_true_iff in E as [E _]. done.
Qed.

Lemma sync_file f c k r k' : tryPeerSync f c k = (r, k') ->
  ki_file k' = ki_file k /\ ki_active k' = ki_active k /\ (r = Synced -> ki_active k = true).
Proof.
  unfold tryPeerSync. destruct (ki_active k) eqn:Ea; cbn [andb].
  2: { intros [= <- <-]. by rewrite Ea. }
  destruct (sf_isActive f); cbn [negb]; [|intros [= <- <-]; by rewrite Ea].
  destruct (ki_file k) as [remote|] eqn:Ef; [|intros [= <- <-]; by rewrite Ea, Ef].
  destruct (sf_cat f); cbn [negb]; [|intros [= <- <-]; by rewrite Ea, Ef].
  destruct (_ != _); [intros [= <- <-]; by rewrite Ea, Ef|].
  destruct (syncAWGPeers _ _ _ _) as [r0 m]. intros [= <- <-]. cbn. by rewrite Ea, Ef.
Qed.

Definition ifaces (files : list AWGConfFile) : list string := map cf_iface files.

Lemma pushAWGConfs_ready F fs n : pushAWGConfs false F fs n =
  match pushFiles F fs [] [] n with
  | (FilesPushed records needRestart, n) =>
      let '(err, n) := restartFiles F needRestart n in
      if err then (FilesFailed, rollbackAWGConfs F records n) else (FilesPushed records needRestart, n)
  | stop => stop
  end.
Proof. by destruct fs. Qed.

Section symmetric.
Context (D : DeployFaults) (files : list AWGConfFile) (teardown : list string) (old : string -> string) (n0 : AwgNode).

(** The files of the deploy, once pushed: all behind a backup. *)
Definition pushed (records : list (AWGConfFile * bool)) (need : list AWGConfFile) (n : AwgNode) : Prop :=
  (forall f hp, (f, hp) ∈ records -> hp = true /\ an_backups n !! cf_iface f = Some (Some (old (cf_iface f))) /\
     ki_file (ifaceOf n (cf_iface f)) = Some (cf_content f) /\ (f ∈ need \/ ki_active (ifaceOf n (cf_iface f)) = true)) /\
  (forall i, i ∉ ifaces (map fst records) -> ifaceOf n i = ifaceOf n0 i) /\ an_box n = an_box n0 /\
  (forall f, f ∈ need -> (f, true) ∈ records) /\ NoDup (ifaces need).

Hypothesis Hbackup : forall i, ff_backup (df_file D i) = BackupDone.
Hypothesis Hwrite : forall i, ff_write (df_file D i) = None.
Hypothesis Hrollback : forall i, ff_rollback (df_file D i) = RollbackRun true.
Hypothesis Hold : forall i, i ∈ ifaces files -> ifaceOf n0 i = running (old i) /\ comesUp (old i) = true /\
  safeSystemdUnit (awgServiceName i) = true.

Lemma elem_ifaces f l : f ∈ l -> cf_iface f ∈ ifaces l.
Proof. apply list_elem_of_fmap_2. Qed.

Lemma pushFiles_pushed todo : forall records need n res n',
  map fst records ++ todo = files -> NoDup (ifaces files) -> pushed records need n ->
  pushFiles (df_file D) todo records need n = (res, n') ->
  match res with
  | FilesPushed records' need' => map fst records' = files /\ pushed records' need' n'
  | FilesFailed => False
  | FilesPanic => True
  end.
Proof.
  induction todo as [|f todo IH]; intros records need n res n' Hsplit Hnd Hp; cbn [pushFiles].
  { intros [= <- <-]. by rewrite app_nil_r in Hsplit. }
  destruct (tryPeerSync _ _ _) as [r k] eqn:Es. unfold backupFile. rewrite Hbackup, Hwrite.
  destruct (sync_file _ _ _ _ _ Es) as (Hf & Ha & Hs). destruct Hp as (H1 & H2 & H3 & H4 & H5).
  assert (cf_iface f ∉ ifaces (map fst records)) as Hnew.
  { rewrite <- Hsplit in Hnd. unfold ifaces in Hnd. rewrite map_app in Hnd. apply NoDup_app in Hnd as (_ & Hd & _).
    intros Hin. apply (Hd _ Hin). cbn. by left. }
  assert (cf_iface f ∈ ifaces files) as Hin by (apply elem_ifaces; rewrite <- Hsplit; apply elem_of_app; right; by left).
  destruct (Hold _ Hin) as (Hi0 & _ & _). rewrite (H2 _ Hnew), Hi0 in *.
  assert (r = SyncPanic \/ r <> SyncPanic) as [->|Hr] by (destruct r; [by right|by right|by left]); [by intros [= <- <-]|].
  set (n1 := setIface (cf_iface f) k n). set (n2 := n1 <| an_backups := <[cf_iface f := ki_file (ifaceOf n1 (cf_iface f))]> (an_backups n1) |>).
  set (n3 := setIface (cf_iface f) ((ifaceOf n2 (cf_iface f)) <| ki_file := Some (cf_content f) |>) n2).
  set (need' := match r with Synced => need | _ => need ++ [f] end). intros Hrest.
  assert (pushFiles (df_file D) todo (records ++ [(f, true)]) need' n3 = (res, n')) as Hrest' by (destruct r; done).
  clear Hrest. revert Hrest'. apply IH; [by rewrite map_app, <- app_assoc|done|].
  assert (ifaceOf n2 (cf_iface f) = k) as Hk by (change (ifaceOf n1 (cf_iface f) = k); unfold n1; by rewrite ifaceOf_set, decide_True).
  assert (forall j, ifaceOf n3 j = if decide (cf_iface f = j) then k <| ki_file := Some (cf_content f) |> else ifaceOf n j) as Hn3.
  { intros j. unfold n3. rewrite ifaceOf_set, Hk. case_decide; [done|]. change (ifaceOf n1 j = ifaceOf n j). unfold n1.
    by rewrite ifaceOf_set, decide_False. }
  assert (forall j, an_backups n3 !! j = if decide (cf_iface f = j) then Some (Some (old j)) else an_backups n !! j) as Hb3.
  { intros j. change (<[cf_iface f := ki_file (ifaceOf n1 (cf_iface f))]> (an_backups n) !! j = if decide (cf_iface f = j) then Some (Some (old j)) else an_backups n !! j).
    destruct (decide (cf_iface f = j)) as [<-|Hne]; [|by rewrite lookup_insert_ne].
    rewrite lookup_insert_eq. change (ifaceOf n2 (cf_iface f)) with (ifaceOf n1 (cf_iface f)) in Hk. rewrite Hk, Hf. done. }
  split; [|split; [|split; [exact H3|split]]].
  - intros f' hp Hin'. apply elem_of_app in Hin' as [Hin'|Hin'].
    + destruct (H1 _ _ Hin') as (-> & Hb & Hc & Hact).
      assert (cf_iface f <> cf_iface f') as Hne.
      { intros E. apply Hnew. rewrite E. apply (elem_ifaces f'). by apply (list_elem_of_fmap_2 fst _ (f', true)). }
      rewrite Hn3, Hb3, !decide_False by done. split_and!; [done..|]. destruct Hact; [left|by right].
      unfold need'. destruct r; try done; apply elem_of_app; by left.
    + apply list_elem_of_singleton in Hin' as [= -> ->]. rewrite Hn3, Hb3, !decide_True by done. split_and!; [done..|].
      unfold need'. destruct r; [right; cbn; rewrite Ha; by apply Hs|left; apply elem_of_app; right; by left|done].
  - intros i Hi. unfold ifaces in Hi. rewrite !map_app in Hi. apply not_elem_of_app in Hi as [Hi Hi2].
    rewrite Hn3, decide_False; [by apply H2|]. intros <-. apply Hi2. by left.
  - intros f' Hf'. apply elem_of_app. unfold need' in Hf'.
    destruct r; [left; by apply H4| |done]. apply elem_of_app in Hf' as [Hf'| ->%list_elem_of_singleton]; [left; by apply H4|right; by left].
  - assert (NoDup (ifaces (need ++ [f]))) as Hnd'; [|by destruct r].
    unfold ifaces. rewrite map_app. apply NoDup_app. split; [exact H5|]. split; [|apply NoDup_singleton].
    intros i Hi ->%list_elem_of_singleton. apply Hnew. apply list_elem_of_fmap in Hi as (g & -> & Hg).
    apply elem_ifaces. by apply (list_elem_of_fmap_2 fst _ (g, true)), H4.
Qed.

Lemma restartFiles_keeps todo : forall n err n',
  NoDup (ifaces todo) -> (forall f, f ∈ todo -> ki_file (ifaceOf n (cf_iface f)) = Some (cf_content f)) ->
  restartFiles (df_file D) todo n = (err, n') ->
  an_backups n' = an_backups n /\ an_box n' = an_box n /\
  (forall i, i ∉ ifaces todo -> ifaceOf n' i = ifaceOf n i) /\
  (forall f, f ∈ todo -> ki_file (ifaceOf n' (cf_iface f)) = Some (cf_content f) /\
                         (err = false -> ki_active (ifaceOf n' (cf_iface f)) = true)).
Proof.
  induction todo as [|f todo IH]; intros n err n' Hnd Hc; cbn [restartFiles].
  { intros [= <- <-]. split_and!; try done. by intros f ?%not_elem_of_nil. }
  cbn [ifaces map] in Hnd. apply NoDup_cons in Hnd as [Hn Hnd].
  destruct (enableAWGService _ _) as [e k] eqn:Ee. pose proof (enable_file _ _ _ _ _ (Hc f ltac:(by left)) Ee) as Hf.
  set (n1 := setIface (cf_iface f) k n).
  assert (forall g, g ∈ todo -> cf_iface f <> cf_iface g) as Hne by (intros g Hg E; apply Hn; rewrite E; by apply elem_ifaces).
  destruct e.
  - intros [= <- <-]. split_and!; [done..| |].
    + intros i [Hi _]%not_elem_of_cons. unfold n1. by rewrite ifaceOf_set, decide_False.
    + intros g [->|Hg]%elem_of_cons; (split; [|done]); unfold n1; rewrite ifaceOf_set;
        [by rewrite decide_True|rewrite decide_False by (by apply Hne); apply Hc; by right].
  - intros Hr. destruct (IH n1 err n' Hnd) as (Hb & Hbox & Ho & Hd); [|exact Hr|].
    { intros g Hg. unfold n1. rewrite ifaceOf_set, decide_False by (by apply Hne). apply Hc. by right. }
    split_and!; [by rewrite Hb|by rewrite Hbox| |].
    + intros i [Hi Hi2]%not_elem_of_cons. rewrite Ho by done. unfold n1. by rewrite ifaceOf_set, decide_False.
    + intros g [->|Hg]%elem_of_cons; [|by apply Hd]. rewrite Ho by done. unfold n1.
      rewrite ifaceOf_set, decide_True by done. split; [done|]. intros _. by apply enable_active in Ee.
Qed.

(** Undoing the files brings every interface back. *)
Lemma rollback_old records : forall n,
  NoDup (ifaces (map fst records)) ->
  (forall f hp, (f, hp) ∈ records -> hp = true /\ cf_iface f ∈ ifaces files /\ an_backups n !! cf_iface f = Some (Some (old (cf_iface f)))) ->
  an_box (rollbackAWGConfs (df_file D) records n) = an_box n /\
  (forall i, i ∉ ifaces (map fst records) -> ifaceOf (rollbackAWGConfs (df_file D) records n) i = ifaceOf n i) /\
  (forall i, i ∈ ifaces (map fst records) -> ifaceOf (rollbackAWGConfs (df_file D) records n) i = running (old i)).
Proof.
  induction records as [|[f hp] records IH]; intros n Hnd H; unfold rollbackAWGConfs; cbn [fold_left].
  { split_and!; try done. by intros i ?%not_elem_of_nil. }
  cbn [ifaces map fst] in Hnd. apply NoDup_cons in Hnd as [Hn Hnd].
  destruct (H f hp ltac:(by left)) as (-> & Hin & Hb). destruct (Hold _ Hin) as (_ & Hup & Hsafe).
  assert (rollbackFile (df_file D (cf_iface f)) (f, true) n = setIface (cf_iface f) (running (old (cf_iface f))) n) as Hstep.
  { unfold rollbackFile. cbn [fst snd negb orb]. rewrite Hsafe, Hrollback, Hb. cbn [negb].
    f_equal. by apply startIface_up. }
  cbn [fst]. rewrite Hstep. set (n1 := setIface _ _ n). fold (rollbackAWGConfs (df_file D) records n1).
  destruct (IH n1 Hnd) as (H1 & H2 & H3).
  { intros g hp Hg. destruct (H g hp ltac:(by right)) as (? & ? & Hbg). split_and!; try done. }
  split_and!; [exact H1| |].
  - intros i [Hi Hi2]%not_elem_of_cons. rewrite H2 by done. unfold n1. by rewrite ifaceOf_set, decide_False.
  - intros i Hi. destruct (decide (i ∈ ifaces (map fst records))); [by apply H3|].
    rewrite H2 by done. apply elem_of_cons in Hi as [->|?]; [|done]. unfold n1. by rewrite ifaceOf_set, decide_True.
Qed.

Hypothesis Hstop : forall i, i ∈ teardown -> i ∉ ifaces files /\ st_active (df_stop D i) = true /\
  st_stop (df_stop D i) = CmdOK /\ st_start (df_stop D i) = CmdOK /\
  ((ifaceOf n0 i = running (old i) /\ comesUp (old i) = true) \/ stopIface (ifaceOf n0 i) = ifaceOf n0 i).

Lemma teardown_stops l : forall n stopped n',
  NoDup l -> (forall i, i ∈ l -> i ∈ teardown) -> teardownAWGInterfaces (df_stop D) l n = (stopped, n') ->
  an_backups n' = an_backups n /\ an_box n' = an_box n /\ stopped = List.filter (fun i => ki_active (ifaceOf n i)) l /\
  forall i, ifaceOf n' i = if decide (i ∈ l) then stopIface (ifaceOf n i) else ifaceOf n i.
Proof.
  induction l as [|i l IH]; intros n stopped n' Hnd Hl; cbn [teardownAWGInterfaces]; [by intros [= <- <-]|].
  apply NoDup_cons in Hnd as [Hi Hnd]. destruct (Hstop i) as (_ & Hq & Hst & _); [apply Hl; by left|].
  rewrite Hst, Hq, andb_true_r. cbn [cmdEffect]. set (n1 := setIface i _ n).
  destruct (teardownAWGInterfaces _ l n1) as [rest n2] eqn:Et. intros [= <- <-].
  destruct (IH n1 rest n2 Hnd ltac:(intros j Hj; apply Hl; by right) Et) as (H1 & H2 & -> & H4).
  split; [by rewrite H1|]. split; [by rewrite H2|]. split.
  - cbn [List.filter]. assert (forall j, j ∈ l -> ifaceOf n1 j = ifaceOf n j) as He.
    { intros j Hj. unfold n1. rewrite ifaceOf_set, decide_False; [done|]. by intros ->. }
    assert (List.filter (fun j => ki_active (ifaceOf n1 j)) l = List.filter (fun j => ki_active (ifaceOf n j)) l) as ->; [|done].
    clear -He. induction l as [|j l IH]; [done|]. cbn [List.filter]. rewrite (He j) by (by left). rewrite IH; [done|].
    intros k Hk. apply He. by right.
  - intros j. rewrite H4. unfold n1. rewrite ifaceOf_set.
    destruct (decide (i = j)) as [<-|Hne].
    + rewrite (decide_True (P := i ∈ i :: l)) by (by left). by rewrite decide_False.
    + destruct (decide (j ∈ l)); [by rewrite (decide_True (P := j ∈ i :: l)) by (by right)|].
      rewrite (decide_False (P := j ∈ i :: l)); [done|]. apply not_elem_of_cons. by split.
Qed.

Lemma restore_starts l : forall n,
  NoDup l -> (forall i, i ∈ l -> i ∈ teardown) ->
  an_backups (restoreAWGInterfaces (df_stop D) l n) = an_backups n /\ an_box (restoreAWGInterfaces (df_stop D) l n) = an_box n /\
  forall i, ifaceOf (restoreAWGInterfaces (df_stop D) l n) i = if decide (i ∈ l) then startIface (ifaceOf n i) else ifaceOf n i.
Proof.
  induction l as [|i l IH]; intros n Hnd Hl; unfold restoreAWGInterfaces; cbn [fold_left]; [done|].
  apply NoDup_cons in Hnd as [Hi Hnd]. destruct (Hstop i) as (_ & _ & _ & Hst & _); [apply Hl; by left|].
  rewrite Hst. cbn [cmdEffect]. set (n1 := setIface i _ n). fold (restoreAWGInterfaces (df_stop D) l n1).
  destruct (IH n1 Hnd ltac:(intros j Hj; apply Hl; by right)) as (H1 & H2 & H3).
  split; [exact H1|]. split; [exact H2|]. intros j. rewrite H3. unfold n1. rewrite ifaceOf_set.
  destruct (decide (i = j)) as [<-|Hne].
  - rewrite (decide_True (P := i ∈ i :: l)) by (by left). by rewrite decide_False.
  - destruct (decide (j ∈ l)); [by rewrite (decide_True (P := j ∈ i :: l)) by (by right)|].
    rewrite (decide_False (P := j ∈ i :: l)); [done|]. apply not_elem_of_cons. by split.
Qed.

(** Stopping and starting again is the identity on what the node ran. *)
Lemma stop_start i : i ∈ teardown ->
  (if ki_active (ifaceOf n0 i) then startIface (stopIface (ifaceOf n0 i)) else stopIface (ifaceOf n0 i)) = ifaceOf n0 i.
Proof.
  intros Hi. destruct (Hstop i Hi) as (_ & _ & _ & _ & [[-> Hup]|Hs]).
  - exact (startIface_up (stopIface (running (old i))) (old i) eq_refl Hup).
  - assert (ki_active (ifaceOf n0 i) = false) as -> by (by rewrite <- Hs). exact Hs.
Qed.

Lemma pushAWGConfs_cases res n' :
  df_prepare D = false -> NoDup (ifaces files) ->
  pushAWGConfs (df_prepare D) (df_file D) files n0 = (res, n') ->
  match res with
  | FilesPushed records _ => map fst records = files /\ an_box n' = an_box n0 /\
      (forall i, i ∉ ifaces files -> ifaceOf n' i = ifaceOf n0 i) /\
      (forall f hp, (f, hp) ∈ records -> hp = true /\ an_backups n' !! cf_iface f = Some (Some (old (cf_iface f))) /\
         ki_file (ifaceOf n' (cf_iface f)) = Some (cf_content f) /\ ki_active (ifaceOf n' (cf_iface f)) = true)
  | FilesFailed => an_box n' = an_box n0 /\ forall i, ifaceOf n' i = ifaceOf n0 i
  | FilesPanic => True
  end.
Proof.
  intros Hprep Hnd. rewrite Hprep, pushAWGConfs_ready.
  assert (pushed [] [] n0) as H0.
  { split_and!; [by intros f hp ?%not_elem_of_nil|done|done|by intros f ?%not_elem_of_nil|constructor]. }
  destruct (pushFiles (df_file D) files [] [] n0) as [r n1] eqn:Ep.
  pose proof (pushFiles_pushed files [] [] n0 r n1 eq_refl Hnd H0 Ep) as Hp.
  destruct r as [records need| |]; [|done|by intros [= <- _]].
  destruct Hp as (Hrec & H1 & H2 & H3 & H4 & Hndn). destruct (restartFiles (df_file D) need n1) as [err n2] eqn:Er.
  assert (forall f, f ∈ need -> ki_file (ifaceOf n1 (cf_iface f)) = Some (cf_content f)) as Hneed
    by (intros f Hf; by apply (H1 f true), H4).
  destruct (restartFiles_keeps need n1 err n2 Hndn Hneed Er) as (K1 & K2 & K3 & K4).
  assert (forall f hp, (f, hp) ∈ records -> cf_iface f ∈ ifaces files) as Hinf.
  { intros f hp Hf. apply elem_ifaces. rewrite <- Hrec. by apply (list_elem_of_fmap_2 fst _ (f, hp)). }
  destruct err.
  - intros [= <- <-].
    destruct (rollback_old records n2) as (R1 & R2 & R3); [by rewrite Hrec|..].
    { intros f hp Hf. destruct (H1 f hp Hf) as (-> & Hb & _). split; [done|]. split; [by apply (Hinf f true)|]. by rewrite K1. }
    rewrite Hrec in *. split; [by rewrite R1, K2|]. intros i. destruct (decide (i ∈ ifaces files)) as [Hi|Hi].
    + rewrite R3 by done. symmetry. by apply Hold.
    + rewrite R2, K3, H2 by (done || (intros Hin; apply Hi; apply list_elem_of_fmap in Hin as (f & -> & Hf); by apply (Hinf f true), H4)). done.
  - intros [= <- <-]. split; [done|]. split; [by rewrite K2|]. split.
    + intros i Hi. rewrite K3; [apply H2; by rewrite Hrec|].
      intros Hin. apply Hi. apply list_elem_of_fmap in Hin as (f & -> & Hf). by apply (Hinf f true), H4.
    + intros f hp Hf. destruct (H1 f hp Hf) as (-> & Hb & Hc & Ha). split; [done|]. split; [by rewrite K1|].
      destruct (decide (cf_iface f ∈ ifaces need)) as [Hin|Hin].
      * apply list_elem_of_fmap in Hin as (g & Eg & Hg).
        assert (g = f) as ->.
        { apply (NoDup_map_inj cf_iface files); [done|..|done]; rewrite <- Hrec;
            [by apply (list_elem_of_fmap_2 fst _ (g, true)), H4|by apply (list_elem_of_fmap_2 fst _ (f, true))]. }
        destruct (K4 f Hg) as [? ?]. auto.
      * rewrite K3 by done. split; [done|]. destruct Ha as [Ha|Ha]; [|done]. destruct Hin. by apply elem_ifaces.
Qed.

(** Restoring the stopped interfaces and undoing the files, in this order. *)
Lemma undo_everything records n1 stopped n2 :
  NoDup (ifaces files) -> NoDup teardown -> map fst records = files ->
  (forall i, i ∉ ifaces files -> ifaceOf n1 i = ifaceOf n0 i) ->
  (forall f hp, (f, hp) ∈ records -> hp = true /\ an_backups n1 !! cf_iface f = Some (Some (old (cf_iface f)))) ->
  teardownAWGInterfaces (df_stop D) teardown n1 = (stopped, n2) ->
  forall box, let n := rollbackAWGConfs (df_file D) records (restoreAWGInterfaces (df_stop D) stopped (n2 <| an_box := box |>)) in
  an_box n = box /\ forall i, ifaceOf n i = ifaceOf n0 i.
Proof.
  intros Hnd Hndt Hrec Ho Hr Et box. destruct (teardown_stops teardown n1 stopped n2 Hndt ltac:(done) Et) as (T1 & T2 & Hst & T4).
  assert (forall i, i ∈ stopped <-> i ∈ teardown /\ ki_active (ifaceOf n1 i) = true) as Hin
    by (intros i; rewrite Hst, !list_elem_of_In; apply List.filter_In).
  assert (NoDup stopped) as Hnds by (rewrite Hst; apply NoDup_ListNoDup, List.NoDup_filter, NoDup_ListNoDup; done).
  destruct (restore_starts stopped (n2 <| an_box := box |>) Hnds) as (R1 & R2 & R3); [by intros i [? _]%Hin|].
  set (n4 := restoreAWGInterfaces _ _ _) in *.
  destruct (rollback_old records n4) as (U1 & U2 & U3); [by rewrite Hrec|..].
  { intros f hp Hf. destruct (Hr f hp Hf) as [-> Hb]. split; [done|]. split.
    - apply elem_ifaces. rewrite <- Hrec. by apply (list_elem_of_fmap_2 fst _ (f, true)).
    - rewrite R1. change (an_backups n2 !! cf_iface f = Some (Some (old (cf_iface f)))). by rewrite T1. }
  cbv zeta. split; [by rewrite U1, R2|]. rewrite Hrec in *. intros i.
  destruct (decide (i ∈ ifaces files)) as [Hi|Hi]; [rewrite U3 by done; symmetry; by apply Hold|].
  rewrite U2, R3 by done. change (ifaceOf (n2 <| an_box := box |>) i) with (ifaceOf n2 i). rewrite T4, Ho by done.
  destruct (decide (i ∈ teardown)) as [Ht|Ht].
  - pose proof (stop_start i Ht) as Hss. destruct (ki_active (ifaceOf n0 i)) eqn:Ea.
    + rewrite decide_True; [done|]. apply Hin. split; [done|]. by rewrite Ho.
    + rewrite decide_False; [done|]. intros [_ E]%Hin. rewrite Ho, Ea in E by done. done.
  - rewrite decide_False; [done|]. by intros [? _]%Hin.
Qed.
End symmetric.

(** What the symmetric undo needs: the file of every interface of the deploy
    runs and is backed up, and no remote command but those of the sing-box
    side, the restarts and the synchronisation misbehaves. *)
Record Recoverable (D : DeployFaults) (files : list AWGConfFile) (teardown : list string) (old : string -> string) (n : AwgNode) : Prop := {
  rec_prepare : df_prepare D = false;
  rec_backup : forall i, ff_backup (df_file D i) = BackupDone;
  rec_write : forall i, ff_write (df_file D i) = None;
  rec_rollback : forall i, ff_rollback (df_file D i) = RollbackRun true;
  rec_files : forall i, i ∈ ifaces files ->
    ifaceOf n i = running (old i) /\ comesUp (old i) = true /\ safeSystemdUnit (awgServiceName i) = true;
  rec_teardown : forall i, i ∈ teardown -> i ∉ ifaces files /\ st_active (df_stop D i) = true /\
    st_stop (df_stop D i) = CmdOK /\ st_start (df_stop D i) = CmdOK /\
    ((ifaceOf n i = running (old i) /\ comesUp (old i) = true) \/ stopIface (ifaceOf n i) = ifaceOf n i) }.

(** A recoverable deploy. *)
Lemma push_recoverable D cfg files teardown old n0 res n' :
  Recoverable D files teardown old n0 -> NoDup (ifaces files) -> NoDup teardown ->
  pushConfigWithAWGTeardown D cfg files teardown n0 = (res, n') ->
  match res with
  | AwgPanic => True
  | AwgPushFailed => (forall i, ifaceOf n' i = ifaceOf n0 i) /\ an_box n' = an_box n0
  | BoxPushed r =>
      pushConfigLocked (df_box D) cfg (an_box n0) = (r, an_box n') /\
      match r with
      | Success =>
          (forall f, f ∈ files -> ki_file (ifaceOf n' (cf_iface f)) = Some (cf_content f) /\ ki_active (ifaceOf n' (cf_iface f)) = true) /\
          (forall i, i ∈ teardown -> ki_active (ifaceOf n' i) = false) /\
          (forall i, i ∉ ifaces files -> i ∉ teardown -> ifaceOf n' i = ifaceOf n0 i)
      | _ => forall i, ifaceOf n' i = ifaceOf n0 i
      end
  end.
Proof.
  intros [Hp Hb Hw Hr Hf Ht] Hnd Hndt Hpush.
  assert (match pushAWGConfs (df_prepare D) (df_file D) files n0 with
          | (FilesPanic, n) => (AwgPanic, n)
          | (FilesFailed, n) => (AwgPushFailed, n)
          | (FilesPushed records _, n) =>
              let '(stopped, n) := teardownAWGInterfaces (df_stop D) teardown n in
              let '(r, box) := pushConfigLocked (df_box D) cfg (an_box n) in
              let n := n <| an_box := box |> in
              match r with
              | Success => (BoxPushed r, n)
              | _ => (BoxPushed r, rollbackAWGConfs (df_file D) records (restoreAWGInterfaces (df_stop D) stopped n))
              end
          end = (res, n')) as E.
  { rewrite <- Hpush. unfold pushConfigWithAWGTeardown. destruct files, teardown; try done.
    cbn. by destruct (pushConfigLocked _ _ _) as [[] box]. }
  clear Hpush. destruct (pushAWGConfs _ _ _ _) as [fr n1] eqn:Ep.
  pose proof (pushAWGConfs_cases D files old n0 Hb Hw Hr Hf fr n1 Hp Hnd Ep) as Hc.
  destruct fr as [records need| |]; [|by injection E as <- <-; destruct Hc|by injection E as <- _].
  destruct Hc as (Hrec & Hbox & Ho & Hrs). destruct (teardownAWGInterfaces _ _ _) as [stopped n2] eqn:Et.
  destruct (teardown_stops D files teardown old n0 Ht teardown n1 stopped n2 Hndt ltac:(done) Et) as (_ & T2 & _ & T4).
  pose proof (undo_everything D files teardown old n0 Hr Hf Ht records n1 stopped n2 Hnd Hndt Hrec Ho) as Hundo.
  specialize (Hundo (fun f hp Hin => match Hrs f hp Hin with conj A (conj B _) => conj A B end) Et).
  rewrite T2, Hbox in E. destruct (pushConfigLocked _ _ _) as [r box] eqn:Eb. specialize (Hundo box).
  assert (r = Success \/ r <> Success) as [->|Hne] by (destruct r; (by left) || by right).
  - injection E as <- <-. split; [done|]. split; [|split].
    + intros f Hin. rewrite <- Hrec in Hin. apply list_elem_of_fmap in Hin as ([f' hp] & -> & Hin).
      destruct (Hrs _ _ Hin) as (_ & _ & Hc & Ha). cbn [fst].
      change (ifaceOf (n2 <| an_box := box |>) (cf_iface f')) with (ifaceOf n2 (cf_iface f')).
      rewrite T4, decide_False; [done|]. intros Htd. destruct (Ht _ Htd) as [Hno _]. apply Hno, elem_ifaces.
      rewrite <- Hrec. by apply (list_elem_of_fmap_2 fst _ (f', hp)).
    + intros i Hi. change (ki_active (ifaceOf n2 i) = false). by rewrite T4, decide_True.
    + intros i Hi Hi2. change (ifaceOf n2 i = ifaceOf n0 i). rewrite T4, decide_False by done. by apply Ho.
  - destruct Hundo as [U1 U2]. destruct r; [done|..]; injection E as <- <-; (split; [by rewrite U1|exact U2]).
Qed.

(** ** Lemmas: a deploy that succeeds, whatever the commands did *)

Section success.
Context (D : DeployFaults) (n0 : AwgNode).

(** The files pushed so far. *)
Definition placed (records : list (AWGConfFile * bool)) (need : list AWGConfFile) (n : AwgNode) : Prop :=
  (forall f, f ∈ map fst records -> ki_file (ifaceOf n (cf_iface f)) = Some (cf_content f) /\ (f ∈ need \/ ki_active (ifaceOf n (cf_iface f)) = true)) /\
  (forall i, i ∉ ifaces (map fst records) -> ifaceOf n i = ifaceOf n0 i) /\ an_box n = an_box n0 /\
  (forall f, f ∈ need -> f ∈ map fst records) /\ NoDup (ifaces need).

Lemma pushFiles_placed todo : forall records need n records' need' n',
  NoDup (ifaces (map fst records ++ todo)) -> placed records need n ->
  pushFiles (df_file D) todo records need n = (FilesPushed records' need', n') ->
  map fst records' = map fst records ++ todo /\ placed records' need' n'.
Proof.
  induction todo as [|f todo IH]; intros records need n records' need' n' Hnd Hp; cbn [pushFiles].
  { intros [= <- <- <-]. by rewrite app_nil_r. }
  destruct (tryPeerSync _ _ _) as [r k] eqn:Es. destruct (sync_file _ _ _ _ _ Es) as (_ & Ha & Hs).
  assert (r = SyncPanic \/ r <> SyncPanic) as [->|Hr] by (destruct r; [by right|by right|by left]); [done|].
  set (n1 := setIface (cf_iface f) k n). destruct (backupFile _ _ n1) as [hp n2] eqn:Eb.
  assert (an_ifaces n2 = an_ifaces n1 /\ an_box n2 = an_box n1) as [Hi2 Hx2]
    by (unfold backupFile in Eb; destruct (ff_backup _); by injection Eb as _ <-).
  destruct (ff_write _) as [lo|]; [by destruct r|].
  set (n3 := setIface (cf_iface f) ((ifaceOf n2 (cf_iface f)) <| ki_file := Some (cf_content f) |>) n2).
  set (nd := match r with Synced => need | _ => need ++ [f] end). intros Hrest.
  assert (pushFiles (df_file D) todo (records ++ [(f, hp)]) nd n3 = (FilesPushed records' need', n')) as Hrest' by (destruct r; done). clear Hrest.
  assert (forall j, ifaceOf n3 j = if decide (cf_iface f = j) then k <| ki_file := Some (cf_content f) |> else ifaceOf n j) as Hn3.
  { intros j. unfold n3. rewrite ifaceOf_set. assert (forall l, ifaceOf n2 l = ifaceOf n1 l) as H2 by (intros l; unfold ifaceOf; by rewrite Hi2).
    rewrite !H2. unfold n1. rewrite !ifaceOf_set, (decide_True (P := cf_iface f = cf_iface f)) by done. by destruct (decide (cf_iface f = j)). }
  destruct Hp as (H1 & H2 & H3 & H4 & H5).
  assert (cf_iface f ∉ ifaces (map fst records)) as Hnew.
  { unfold ifaces in Hnd. rewrite map_app in Hnd. apply NoDup_app in Hnd as (_ & Hd & _). intros Hin. apply (Hd _ Hin). cbn. by left. }
  apply IH in Hrest' as [E Hp]; [|by rewrite map_app, <- app_assoc|].
  { split; [by rewrite E, map_app, <- app_assoc|exact Hp]. }
  assert (forall g, g ∈ nd -> g ∈ need \/ g = f /\ r <> Synced) as Hnd'.
  { unfold nd. intros g Hg. destruct r; [by left| |done]. apply elem_of_app in Hg as [Hg| ->%list_elem_of_singleton]; [by left|by right]. }
  split; [|split; [|split; [by cbn; rewrite Hx2|split]]].
  - intros g Hg. rewrite map_app in Hg. apply elem_of_app in Hg as [Hg|Hg].
    + assert (cf_iface f <> cf_iface g) as Hne by (intros E; apply Hnew; rewrite E; by apply elem_ifaces).
      rewrite Hn3, decide_False by done. destruct (H1 _ Hg) as [Hf [Hn|Hn]]; (split; [done|]); [left|by right].
      unfold nd. destruct r; [done|apply elem_of_app; by left|done].
    + apply list_elem_of_singleton in Hg as ->. rewrite Hn3, decide_True by done. split; [done|].
      unfold nd. destruct r; [right; cbn; rewrite Ha; by apply Hs|left; apply elem_of_app; right; by left|done].
  - intros i Hi. unfold ifaces in Hi. rewrite !map_app in Hi. apply not_elem_of_app in Hi as [Hi Hi'].
    rewrite Hn3, decide_False; [by apply H2|]. intros <-. apply Hi'. by left.
  - intros g Hg. rewrite map_app. apply elem_of_app. destruct (Hnd' _ Hg) as [Hg'|[-> _]]; [left; by apply H4|right; by left].
  - assert (NoDup (ifaces (need ++ [f]))) as Hall; [|unfold nd; by destruct r].
    unfold ifaces. rewrite map_app. apply NoDup_app. split; [exact H5|]. split; [|apply NoDup_singleton].
    intros i Hi ->%list_elem_of_singleton. apply Hnew. apply list_elem_of_fmap in Hi as (g & -> & Hg). by apply elem_ifaces, H4.
Qed.

Lemma teardown_others l : forall n stopped n', teardownAWGInterfaces (df_stop D) l n = (stopped, n') ->
  an_box n' = an_box n /\ (forall i, i ∉ l -> ifaceOf n' i = ifaceOf n i) /\
  (forall i, ki_active (ifaceOf n i) = false -> ki_active (ifaceOf n' i) = false) /\
  (forall i, i ∈ l -> st_stop (df_stop D i) = CmdOK -> ki_active (ifaceOf n' i) = false).
Proof.
  induction l as [|i l IH]; intros n stopped n'; cbn [teardownAWGInterfaces].
  { intros [= <- <-]. split_and!; try done. by intros i ?%not_elem_of_nil. }
  set (n1 := setIface i _ n). destruct (teardownAWGInterfaces _ l n1) as [rest n2] eqn:Et. intros [= _ <-].
  destruct (IH _ _ _ Et) as (H1 & H2 & H3 & H4).
  assert (forall j, ki_active (ifaceOf n j) = false -> ki_active (ifaceOf n1 j) = false) as Hk.
  { intros j Hj. unfold n1. rewrite ifaceOf_set. case_decide; [subst|done]. destruct (st_stop _) as [|[]]; done. }
  split; [done|]. split; [|split].
  - intros j [Hj Hj']%not_elem_of_cons. rewrite H2 by done. unfold n1. by rewrite ifaceOf_set, decide_False.
  - intros j Hj. by apply H3, Hk.
  - intros j [->|Hj]%elem_of_cons Hs; [|by apply H4]. apply H3. unfold n1. by rewrite ifaceOf_set, decide_True, Hs.
Qed.

Lemma push_Success_exact cfg files teardown n' : NoDup (ifaces files) ->
  pushConfigWithAWGTeardown D cfg files teardown n0 = (BoxPushed Success, n') ->
  pushConfigLocked (df_box D) cfg (an_box n0) = (Success, an_box n') /\
  (forall f, f ∈ files -> cf_iface f ∉ teardown -> ki_file (ifaceOf n' (cf_iface f)) = Some (cf_content f) /\ ki_active (ifaceOf n' (cf_iface f)) = true) /\
  (forall i, i ∈ teardown -> st_stop (df_stop D i) = CmdOK -> ki_active (ifaceOf n' i) = false) /\
  (forall i, i ∉ ifaces files -> i ∉ teardown -> ifaceOf n' i = ifaceOf n0 i).
Proof.
  intros Hnd Hpush. destruct (decide (files = [] /\ teardown = [])) as [[-> ->]|Hne].
  { cbn in Hpush. destruct (pushConfigLocked _ _ _) as [r box]. injection Hpush as -> <-. split_and!; try done;
      [by intros f ?%not_elem_of_nil|by intros i ?%not_elem_of_nil]. }
  assert (match pushAWGConfs (df_prepare D) (df_file D) files n0 with
          | (FilesPushed records _, n) =>
              let '(stopped, n) := teardownAWGInterfaces (df_stop D) teardown n in
              pushConfigLocked (df_box D) cfg (an_box n) = (Success, an_box n') /\ n' = n <| an_box := an_box n' |>
          | _ => False end) as E.
  { unfold pushConfigWithAWGTeardown in Hpush. destruct files, teardown; [by destruct Hne|..];
      (destruct (pushAWGConfs _ _ _ _) as [[records need| |] n1]; [|done|done]; destruct (teardownAWGInterfaces _ _ n1) as [stopped n2];
       destruct (pushConfigLocked _ _ _) as [[] box]; try done; by injection Hpush as <-). }
  clear Hpush. unfold pushAWGConfs in E.
  assert (exists records need n1, pushFiles (df_file D) files [] [] n0 = (FilesPushed records need, n1) /\
    let '(err, n2) := restartFiles (df_file D) need n1 in err = false /\
    let '(stopped, n) := teardownAWGInterfaces (df_stop D) teardown n2 in
    pushConfigLocked (df_box D) cfg (an_box n) = (Success, an_box n') /\ n' = n <| an_box := an_box n' |>) as (records & need & n1 & Ep & Er).
  { destruct files as [|f fs]; [by exists [], [], n0|]. destruct (df_prepare D); [done|].
    destruct (pushFiles _ _ _ _ _) as [[records need| |] n1]; [|done|done]. exists records, need, n1. split; [done|].
    by destruct (restartFiles _ need n1) as [[] n2]. }
  clear E. destruct (pushFiles_placed files [] [] n0 records need n1 Hnd) as [Hrec (P1 & P2 & P3 & P4 & P5)]; [|exact Ep|].
  { split_and!; try done; try apply NoDup_nil_2; by intros f ?%not_elem_of_nil. }
  cbn in Hrec. rewrite Hrec in P1, P2, P4. destruct (restartFiles _ _ _) as [err n2] eqn:Ers. destruct Er as [-> Et].
  destruct (restartFiles_keeps D need n1 false n2 P5 ltac:(intros f Hf; by apply P1, P4) Ers) as (_ & R1 & R2 & R3).
  destruct (teardownAWGInterfaces _ _ _) as [stopped n3] eqn:Etd. destruct Et as [Hbox Hn'].
  destruct (teardown_others teardown n2 stopped n3 Etd) as (T1 & T2 & _ & T4). rewrite Hn' in *. clear Hn'.
  split; [rewrite T1, R1, P3 in Hbox; exact Hbox|]. split; [|split].
  - intros f Hf Ht. change (ifaceOf (n3 <| an_box := an_box n' |>) (cf_iface f)) with (ifaceOf n3 (cf_iface f)). rewrite T2 by done.
    destruct (P1 f Hf) as [Hc Hor]. destruct (decide (f ∈ need)) as [Hn|Hn]; [destruct (R3 f Hn) as [A B]; by auto|].
    destruct Hor as [|Ha]; [done|]. rewrite R2; [done|]. intros Hin. apply list_elem_of_fmap in Hin as (g & Eg & Hg).
    apply Hn. assert (f = g) as ->; [|done]. clear -Hnd Hf Eg Hg P4. specialize (P4 g Hg). clear Hg.
    apply list_elem_of_lookup in Hf as [i Hi]. apply list_elem_of_lookup in P4 as [j Hj].
    assert (i = j) as ->; [|congruence]. eapply (NoDup_lookup (ifaces files)); [done|unfold ifaces; rewrite list_lookup_fmap, Hi; reflexivity|].
    unfold ifaces. rewrite list_lookup_fmap, Hj. cbn. by rewrite Eg.
  - intros i Hi Hs. by apply T4.
  - intros i Hi Ht. change (ifaceOf n3 i = ifaceOf n0 i). rewrite T2, R2, P2; [done|done| |done].
    intros Hin. apply list_elem_of_fmap in Hin as (g & -> & Hg). apply Hi. by apply elem_ifaces, P4.
Qed.
End success.

(** C9: one deploy of interfaces and configuration.  A deploy that succeeds has
    every file in place and its interface up, every interface of the teardown
    whose stop was confirmed down, the others untouched, and the configuration
    pushed, whatever the other commands did.  A failed one is undone under what
    [Recoverable] says: every interface of the deploy ran a file that comes up and
    was backed up, no write of a file and no rollback command failed, and the
    interfaces to stop answered, stopped, and start again.  Then, when a restart, a synchronisation
    or the push of the configuration fails, every interface, stopped ones
    included, is back to what it ran before, and the sing-box side is where its
    own push left it, untouched when that push was not reached. *)
Theorem awg_push_symmetric D cfg files teardown n0 res n' :
  NoDup (ifaces files) -> NoDup teardown ->
  pushConfigWithAWGTeardown D cfg files teardown n0 = (res, n') ->
  (res = BoxPushed Success ->
     pushConfigLocked (df_box D) cfg (an_box n0) = (Success, an_box n') /\
     (forall f, f ∈ files -> cf_iface f ∉ teardown ->
        ki_file (ifaceOf n' (cf_iface f)) = Some (cf_content f) /\ ki_active (ifaceOf n' (cf_iface f)) = true) /\
     (forall i, i ∈ teardown -> st_stop (df_stop D i) = CmdOK -> ki_active (ifaceOf n' i) = false) /\
     (forall i, i ∉ ifaces files -> i ∉ teardown -> ifaceOf n' i = ifaceOf n0 i)) /\
  (forall old, Recoverable D files teardown old n0 -> res <> AwgPanic -> res <> BoxPushed Success ->
     (forall i, ifaceOf n' i = ifaceOf n0 i) /\
     match res with
     | BoxPushed r => pushConfigLocked (df_box D) cfg (an_box n0) = (r, an_box n')
     | _ => an_box n' = an_box n0
     end).
Proof.
  intros Hnd Hndt Hpush. split; [intros ->; by apply push_Success_exact|].
  intros old HR Hnp Hns. pose proof (push_recoverable D cfg files teardown old n0 res n' HR Hnd Hndt Hpush) as H.
  destruct res as [| |r]; [done|done|]. destruct H as [Hb H]. split; [by destruct r|done].
Qed.
End deploy.

(** ** A deploy whose configuration does not start *)

Definition sampleUp : AwgUp := fun _ => true.

Definition cleanFile : FileFaults :=
  mkFileFaults (quietFaults []) BackupDone None (RestartRun false) [true] (RollbackRun true).
Definition cleanDeploy : DeployFaults :=
  mkDeployFaults false (fun _ => cleanFile) (fun _ => mkStopFaults true CmdOK CmdOK) noFaults.

Definition sampleNode : AwgNode :=
  mkAwgNode {[ "awg0" := @running sampleQuick "old"; "awg1" := @running sampleQuick "old" ]} ∅ (mkRemote (Some "old") None (Some "old")).

Lemma awg_push_symmetric_witness :
  exists n', @pushConfigWithAWGTeardown sampleEnv sampleQuick sampleUp cleanDeploy "crash" [mkAWGConfFile "awg0" "new"] ["awg1"] sampleNode
               = (BoxPushed DeployFailed, n') /\
    forall i, ifaceOf n' i = ifaceOf sampleNode i.
Proof.
  destruct (@pushConfigWithAWGTeardown sampleEnv sampleQuick sampleUp cleanDeploy "crash" [mkAWGConfFile "awg0" "new"] ["awg1"] sampleNode)
    as [res n'] eqn:E.
  assert (res = BoxPushed DeployFailed) as -> by (apply (f_equal fst) in E; vm_compute in E; by symmetry).
  exists n'. split; [done|].
  refine (proj1 (proj2 (@awg_push_symmetric sampleEnv sampleQuick sampleUp cleanDeploy "crash" [mkAWGConfFile "awg0" "new"] ["awg1"]
    sampleNode (BoxPushed DeployFailed) n' _ _ E) (fun _ => "old") _ _ _)); try discriminate.
  - apply (bool_decide_unpack _). vm_compute. exact I.
  - apply (bool_decide_unpack _). vm_compute. exact I.
  - constructor; try done.
    + intros i ->%list_elem_of_singleton. by repeat split.
    + intros i ->%list_elem_of_singleton. repeat split; try done; [by intros ?%list_elem_of_singleton|by left].
Defined.

Lemma surjective_outcome {A B} (p : A * B) a : fst p = a -> p = (a, snd p).
Proof. by intros <-; destruct p. Qed.

(** The records of the undo stop before the file whose write fails
    ([records[:len(records)-1]]), so what that write left stays, although it was
    backed up. *)
Lemma failed_write_stays :
  let f := mkFileFaults (quietFaults []) BackupDone (Some (Some "half")) (RestartRun false) [true] (RollbackRun true) in
  let D := mkDeployFaults false (fun _ => f) (fun _ => mkStopFaults true CmdOK CmdOK) noFaults in
  exists n', @pushConfigWithAWGTeardown sampleEnv sampleQuick sampleUp D "good" [mkAWGConfFile "awg0" "new"] [] sampleNode = (AwgPushFailed, n') /\
    ki_file (ifaceOf n' "awg0") = Some "half" /\ an_backups n' !! "awg0" = Some (Some "old").
Proof. eexists. split; [apply surjective_outcome; vm_compute; reflexivity|]. vm_compute; by split. Qed.

(** An interface of a first deploy is not undone: its file stays and it runs,
    next to a configuration that was rolled back. *)
Lemma first_interface_stays :
  let n := mkAwgNode ∅ ∅ (mkRemote (Some "old") None (Some "old")) in
  exists n', @pushConfigWithAWGTeardown sampleEnv sampleQuick sampleUp cleanDeploy "crash" [mkAWGConfFile "awg0" "new"] [] n = (BoxPushed DeployFailed, n') /\
    ki_active (ifaceOf n' "awg0") = true /\ ki_file (ifaceOf n' "awg0") = Some "new".
Proof. eexists. split; [apply surjective_outcome; vm_compute; reflexivity|]. vm_compute; by split. Qed.

(** An interface whose stop is carried out but reported as failed (a timeout,
    a lost connection) is not in the list to restore. *)
Lemma lost_stop_not_restored :
  let D := mkDeployFaults false (fun _ => cleanFile) (fun _ => mkStopFaults true (CmdFailed true) CmdOK) noFaults in
  exists n', @pushConfigWithAWGTeardown sampleEnv sampleQuick sampleUp D "crash" [] ["awg1"] sampleNode = (BoxPushed DeployFailed, n') /\
    ki_active (ifaceOf n' "awg1") = false.
Proof. eexists. split; [apply surjective_outcome; vm_compute; reflexivity|]. vm_compute; reflexivity. Qed.
