(* ===== verification/AwgDeploy.v ===== *)
(** * AwgDeploy: the kernel interfaces of a node

    internal/chain/awg_deploy.go decides which awg-quick files a node runs
    (user entry awg0, second user interface awg1, exit links awg-exit-nX of a
    balancer, server awg0 of an exit node, AWG outbounds) and which interfaces
    must be stopped; applier_build.go gives it the users of each chain and
    inbound, awg_outbound.go the file of an outbound.  [AwgPush] deploys the
    result.  An interface stands for the path and the unit of its file. *)

From S2P Require Import Prelude GoStrings Model ChainModel Lifecycle StoreCore Store Alloc Presets Roles Caddy MergedRoute Codec AwgConf AwgMaterial AwgPush.

(** ** The users of chains and inbounds (applier_build.go) *)

(** Both maps take the users that are active and not expired. *)
Definition served (now : Time) (u : User) : bool := User_Active u && negb (IsExpired now u).

(** [out[key] = append(out[key], users...)]. *)
Definition appendUsers (key : string) (us : list User) (out : gmap string (list User)) : gmap string (list User) :=
  match us with [] => out | _ => <[key := usersForChain out key ++ us]> out end.

Definition chainUsers (now : Time) (all : list User) (c : Chain) : list User :=
  List.filter (fun u => served now u && existsb (fun cn => cn == Chain_Name c) (User_ChainNames u)) all.

(** [usersByChainMap]. *)
Definition usersByChainMap (now : Time) (chains : list Chain) (w : World) : gmap string (list User) :=
  match ListUsers w with
  | Ok all => fold_left (fun out c => appendUsers (Chain_Name c) (chainUsers now all c) out) chains ∅
  | Err _ => ∅
  end.

Definition proxyInbound (ib : NodeInbound) : bool :=
  (NodeInbound_Protocol ib == "naive") || (NodeInbound_Protocol ib == "mieru") || (NodeInbound_Protocol ib == "trusttunnel").

(** One turn of the loop over all users of a proxy inbound; the slice holds
    pointers, so the credentials stay with the user for the next inbounds. *)
Definition proxyUser (g : CredGen) (now : Time) (u : User) (w : World) : User * World :=
  let u' := fst (EnsureUserCreds g u) in
  if User_NaivePassword u' +:+ User_MieruPassword u' != User_NaivePassword u +:+ User_MieruPassword u
  then match SaveUser now u' w with (Ok u', w') => (u', w') | (Err _, w') => (u', w') end
  else (u', w).

(** The users after the loop, those the inbound serves, and the store. *)
Fixpoint proxyUsers (g : string -> CredGen) (now : Time) (all : list User) (w : World) : list User * list User * World :=
  match all with
  | [] => ([], [], w)
  | u :: all' =>
      if negb (served now u) then let '(all', us, w) := proxyUsers g now all' w in (u :: all', us, w)
      else
        let '(u', w) := proxyUser (g (User_ID u)) now u w in
        let '(all', us, w) := proxyUsers g now all' w in (u' :: all', u' :: us, w)
  end.

(** The index by ID keeps the last user of an ID. *)
Definition userByID (all : list User) (id : string) : option User := List.find (fun u => User_ID u == id) (rev all).

Definition inboundUsers (now : Time) (all : list User) (ib : NodeInbound) : list User :=
  List.filter (served now) (omap (userByID all) (NodeInbound_ForUsers ib)).

Fixpoint usersByInboundLoop (g : string -> CredGen) (now : Time) (ibs : list NodeInbound) (all : list User)
    (out : gmap string (list User)) (w : World) : gmap string (list User) * World :=
  match ibs with
  | [] => (out, w)
  | ib :: ibs' =>
      if NodeInbound_Tag ib == "" then usersByInboundLoop g now ibs' all out w
      else if proxyInbound ib then
        let '(all, us, w) := proxyUsers g now all w in
        usersByInboundLoop g now ibs' all (appendUsers (NodeInbound_Tag ib) us out) w
      else usersByInboundLoop g now ibs' all (appendUsers (NodeInbound_Tag ib) (inboundUsers now all ib) out) w
  end.

(** [usersByInboundMap]. *)
Definition usersByInboundMap (g : string -> CredGen) (now : Time) (ibs : list NodeInbound) (w : World)
    : gmap string (list User) * World :=
  match ListUsers w with
  | Ok all => usersByInboundLoop g now ibs all ∅ w
  | Err _ => (∅, w)
  end.

(** ** The files *)

Definition tunInterfaceName : string := "sing-box-tun".

(** The preset used when the connection preset has no AWG part. *)
Definition fallbackAWGPreset : AWGPreset := mkAWGPreset 4 40 70 0 0 0 0 1 2 3 4 0 0 "" "" "".
Definition awgOf (p : ConnectionPreset) : AWGPreset := default fallbackAWGPreset (ConnectionPreset_AWG p).

(** [BuildAWGAmnezia]. *)
Definition BuildAWGAmnezia (g : CPSGen) (awg : AWGPreset) (preset : ConnectionPreset) (material : option AWGObfsMaterial)
    : option AmneziaOptions :=
  let level := if 0 <? ConnectionPreset_CPSLevel preset then ConnectionPreset_CPSLevel preset
               else if 0 <? AWGPreset_CPSLevel awg then AWGPreset_CPSLevel awg else 0 in
  if level <=? 0 then None else Some (BuildAmneziaSection g awg (Some preset) material).

Definition peerUser (u : User) : bool := User_Active u && (User_AWGPublicKey u != "") && (User_AWGAddress u != "").
Definition peerOf (u : User) : AWGServerPeer :=
  mkAWGServerPeer (User_AWGPublicKey u) (User_AWGAddress u) (User_AWGPresharedKey u).
Definition awgPeers (users : list User) : list AWGServerPeer := map peerOf (List.filter peerUser users).

(** [inboundAWG3MaterialForKernel]. *)
Definition inboundAWG3MaterialForKernel (ib : NodeInbound) : option AWGObfsMaterial :=
  if IsAWG3Family (NodeInbound_EffectiveAWGVersion ib) then InboundAWGObfsMaterial ib else None.

(** [renderAWGServerConfFromInbound]: the parameters and the file. *)
Definition inboundConfParams (g : CPSGen) (ib : NodeInbound) (preset : ConnectionPreset) (users : list User) (ifaceName : string)
    : AWGServerConfParams :=
  let awg := awgOf preset in
  let amnezia := if (0 <? AWGPreset_CPSLevel awg) || (0 <? ConnectionPreset_CPSLevel preset)
                 then BuildAWGAmnezia g awg preset (InboundAWGObfsMaterial ib) else None in
  mkAWGServerConfParams (NodeInbound_ServerPrivKey ib) (NodeInbound_Port ib) (orElse (NodeInbound_AWGServerAddress ib) "10.8.0.1/24")
    1420 amnezia (NodeInbound_EffectiveAWGVersion ib) (inboundAWG3MaterialForKernel ib) (awgPeers users) tunInterfaceName ifaceName.

Definition renderAWGServerConfFromInbound (g : CPSGen) (ib : NodeInbound) (preset : ConnectionPreset) (users : list User)
    (ifaceName : string) : AWGConfFile :=
  mkAWGConfFile ifaceName (RenderServerAWGConf (inboundConfParams g ib preset users ifaceName)).

(** [renderChainEntryAWG0Conf]: the parameters and the file. *)
Definition chainEntryConfParams (g : CPSGen) (r : chainRole) (users : list User) : AWGServerConfParams :=
  let c := role_Chain r in
  mkAWGServerConfParams (Chain_AWGEntryServerPriv c) (chainEntryPort c (ChainNode_ID (role_Node r))) "10.8.0.1/24" 1420
    (BuildAWGAmnezia g (awgOf (role_Preset r)) (role_Preset r) (ChainAWGObfsMaterial c)) "" None (awgPeers users)
    tunInterfaceName "".

Definition renderChainEntryAWG0Conf (g : CPSGen) (r : chainRole) (users : list User) : AWGConfFile :=
  mkAWGConfFile "awg0" (RenderServerAWGConf (chainEntryConfParams g r users)).

(** [renderChainEntryAWGConf]. *)
Definition renderChainEntryAWGConf (g : CPSGen) (s : PresetState) (nodeInfo : NodeInfo) (r : chainRole) (users : list User) : AWGConfFile :=
  match (if ChainNode_InboundRef (role_Node r) != "" then inboundByProfileID nodeInfo (ChainNode_InboundRef (role_Node r)) else None) with
  | Some ib => renderAWGServerConfFromInbound g ib (ResolveChainEntryPreset s (role_Preset r) (Some ib)) users "awg0"
  | None => renderChainEntryAWG0Conf g r users
  end.

(** The first loop of [RenderNodeAWGConfs]: the file of the user entry, which
    says whether a chain entry is present. *)
Fixpoint entryConf (g : CPSGen) (s : PresetState) (nodeInfo : NodeInfo) (usersByChain : gmap string (list User)) (roles : list chainRole)
    : option AWGConfFile :=
  match roles with
  | [] => None
  | r :: roles' =>
      if role_IsEntry r && (Chain_UserProtocol (role_Chain r) == UserProtocolAWG) then
        if bool_decide (is_Some (chainEntryAWG3Inbound nodeInfo (role_Chain r) (role_Node r))) && negb (kernelAWG3EnabledFor nodeInfo)
        then None
        else Some (renderChainEntryAWGConf g s nodeInfo r (usersForChain usersByChain (Chain_Name (role_Chain r))))
      else entryConf g s nodeInfo usersByChain roles'
  end.

(** [extractHost]. *)
Definition extractHost (addr : string) : string := match SplitHostPort addr with Some (h, _) => h | None => addr end.

(** [renderBalancerExitConfs]: the parameters of one link and the files. *)
Definition exitClientParams (g : CPSGen) (r : chainRole) (link : AWGExitLink) (exit : ChainNode) : ExitClientConfParams :=
  mkExitClientConfParams (AWGExitLink_InterfaceName link) (AWGExitLink_ClientPriv link) (AWGExitLink_Address link)
    (AWGExitLink_ClientPort link) 0 (ChainNode_ExitAWGServerPub exit)
    (extractHost (ChainNode_Addr exit) +:+ ":" +:+ itoa (ChainNode_ExitAWGListenPort exit))
    (BuildAWGAmnezia g (awgOf (role_Preset r)) (role_Preset r) (ChainAWGObfsMaterial (role_Chain r))).

Definition renderBalancerExitConfs (g : CPSGen) (r : chainRole) : list AWGConfFile :=
  omap (fun link =>
    match NodeByID (role_Chain r) (AWGExitLink_TargetID link) with
    | Some exit => Some (mkAWGConfFile (AWGExitLink_InterfaceName link) (RenderExitAWGConf (exitClientParams g r link exit)))
    | None => None
    end) (ChainNode_ExitAWGLinks (role_Node r)).

(** [balancerLinkTargetingExit]: over the flat list. *)
Definition balancerLinkTargetingExit (c : Chain) (exitID : string) : option AWGExitLink :=
  List.find (fun l => AWGExitLink_TargetID l == exitID) (flat_map ChainNode_ExitAWGLinks (Chain_Nodes c)).

(** [renderExitServerConf]: the parameters and the file. *)
Definition exitServerParams (g : CPSGen) (r : chainRole) (link : AWGExitLink) : ExitServerConfParams :=
  mkExitServerConfParams (ChainNode_ExitAWGServerPriv (role_Node r)) (ChainNode_ExitAWGListenPort (role_Node r)) "10.11.0.1/24" 1420
    (AWGExitLink_ClientPub link) (AWGExitLink_Address link)
    (BuildAWGAmnezia g (awgOf (role_Preset r)) (role_Preset r) (ChainAWGObfsMaterial (role_Chain r))) "10.8.0.0/24,10.10.0.0/24" "".

Definition renderExitServerConf (g : CPSGen) (r : chainRole) : option AWGConfFile :=
  match balancerLinkTargetingExit (role_Chain r) (ChainNode_ID (role_Node r)) with
  | None => None
  | Some link => Some (mkAWGConfFile "awg0" (RenderExitServerAWGConf (exitServerParams g r link)))
  end.

(** The second and the third loop of [RenderNodeAWGConfs]. *)
Definition balancerConfs (g : CPSGen) (roles : list chainRole) : list AWGConfFile :=
  match List.find (fun r => match ChainNode_ExitAWGLinks (role_Node r) with [] => false | _ => true end) roles with
  | Some r => renderBalancerExitConfs g r
  | None => []
  end.

Definition exitConf (g : CPSGen) (roles : list chainRole) : list AWGConfFile :=
  match List.find (fun r => ChainNode_Role (role_Node r) == NodeRoleExit) roles with
  | Some r => option_list (renderExitServerConf g r)
  | None => []
  end.

(** [RenderAWGOutboundConf] (awg_outbound.go). *)
Definition RenderAWGOutboundConf (ob : AWGOutbound) : string :=
  unlines (
    ["[Interface]"; field "PrivateKey" (AWGOutbound_PrivateKey ob); field "Address" (AWGOutbound_Address ob);
     fieldZ "MTU" (orElseZ (AWGOutbound_MTU ob) 1420); "Table = off"] ++
    when (0 <? AWGOutbound_Jc ob)
      ([fieldZ "Jc" (AWGOutbound_Jc ob); fieldZ "Jmin" (AWGOutbound_Jmin ob); fieldZ "Jmax" (AWGOutbound_Jmax ob);
        fieldZ "S1" (AWGOutbound_S1 ob); fieldZ "S2" (AWGOutbound_S2 ob)] ++
       when (AWGVersionAtLeast (AWGOutbound_AWGVersion ob) AWGVersion2) [fieldZ "S3" (AWGOutbound_S3 ob); fieldZ "S4" (AWGOutbound_S4 ob)] ++
       when (AWGOutbound_H1 ob != "")
         [field "H1" (AWGOutbound_H1 ob); field "H2" (AWGOutbound_H2 ob); field "H3" (AWGOutbound_H3 ob); field "H4" (AWGOutbound_H4 ob)] ++
       when (IsAWG3Family (AWGOutbound_AWGVersion ob) && (AWGOutbound_HeaderProtectionKey ob != ""))
         [field "HeaderProtectionKey" (AWGOutbound_HeaderProtectionKey ob)]) ++
    [field "PostUp" ("sysctl -w net.ipv4.conf." +:+ IfaceName ob +:+ ".rp_filter=0 2>/dev/null || true");
     ""; "[Peer]"; field "PublicKey" (AWGOutbound_PublicKey ob)] ++
    when (AWGOutbound_PresharedKey ob != "") [field "PresharedKey" (AWGOutbound_PresharedKey ob)] ++
    [field "AllowedIPs" (AWGOutbound_AllowedIPs ob); field "Endpoint" (AWGOutbound_Endpoint ob);
     fieldZ "PersistentKeepalive" (orElseZ (AWGOutbound_Keepalive ob) 25)]).

(** The loop over the AWG outbounds; [i] is the index. *)
Fixpoint outboundConfs (i : Z) (obs : list AWGOutbound) : list AWGConfFile :=
  match obs with
  | [] => []
  | ob :: obs' =>
      if negb (AWGOutbound_Enabled ob) || (AWGOutbound_PrivateKey ob == "") then outboundConfs (i + 1) obs'
      else
        let ob := if AWGOutbound_ID ob == "" then ob <| AWGOutbound_ID := itoa (i + 1) |> else ob in
        mkAWGConfFile (IfaceName ob) (RenderAWGOutboundConf ob) :: outboundConfs (i + 1) obs'
  end.

(** Whether the loops over the inbounds leave an AWG inbound to the chain. *)
Definition chainOwned (nodeChains : list Chain) (nodeInfo : NodeInfo) (ib : NodeInbound) : bool :=
  IsChainSourcedInbound ib || IsChainEntryInbound nodeChains (NodeInfo_ID nodeInfo) ib.

(** AWG 3 without kernel support: an endpoint of sing-box. *)
Definition userspaceInbound (nodeInfo : NodeInfo) (ib : NodeInbound) : bool :=
  IsAWG3Family (NodeInbound_EffectiveAWGVersion ib) && negb (kernelAWG3EnabledFor nodeInfo).

(** [renderStandaloneAWGConf]. *)
Definition renderStandaloneAWGConf (g : CPSGen) (s : PresetState) (ib : NodeInbound) (tag : string)
    (usersByInbound : gmap string (list User)) (ifaceName : string) : option AWGConfFile :=
  match ResolveStandaloneAWGPreset s ib with
  | None => None
  | Some preset => Some (renderAWGServerConfFromInbound g ib preset (usersForChain usersByInbound tag) ifaceName)
  end.

Definition standaloneTag (i : Z) (ib : NodeInbound) : string :=
  if NodeInbound_Tag ib == "" then "sa-" +:+ itoa i +:+ "-awg" else NodeInbound_Tag ib.

(** The loop over the inbounds: the files, and the tags of the inbounds it
    warns about. *)
Fixpoint standaloneConfs (g : CPSGen) (s : PresetState) (nodeInfo : NodeInfo) (nodeChains : list Chain) (entryPresent : bool)
    (usersByInbound : gmap string (list User)) (i : Z) (ibs : list NodeInbound) : option (list AWGConfFile * list string) :=
  match ibs with
  | [] => Some ([], [])
  | ib :: ibs' =>
      let next := standaloneConfs g s nodeInfo nodeChains entryPresent usersByInbound (i + 1) ibs' in
      if negb (NodeInbound_Protocol ib == "awg") || userspaceInbound nodeInfo ib || chainOwned nodeChains nodeInfo ib then next
      else if entryPresent && (NodeInbound_AWGServerAddress ib == "") then
        match next with Some (fs, ws) => Some (fs, standaloneTag i ib :: ws) | None => None end
      else if entryPresent then
        match renderStandaloneAWGConf g s ib (standaloneTag i ib) usersByInbound "awg1", next with
        | Some f, Some (fs, ws) => Some (f :: fs, ws)
        | _, _ => None
        end
      else
        match renderStandaloneAWGConf g s ib (standaloneTag i ib) usersByInbound "awg0" with
        | Some f => Some ([f], [])
        | None => None
        end
  end.

(** [RenderNodeAWGConfs]; [None] is the panic of the default preset. *)
Definition RenderNodeAWGConfs (g : CPSGen) (s : PresetState) (nodeInfo : NodeInfo) (nodeChains : list Chain)
    (usersByChain usersByInbound : gmap string (list User)) : option (list AWGConfFile * list string) :=
  match resolveChainRoles s (NodeInfo_ID nodeInfo) nodeChains with
  | None => None
  | Some roles =>
      let entry := entryConf g s nodeInfo usersByChain roles in
      match standaloneConfs g s nodeInfo nodeChains (bool_decide (is_Some entry)) usersByInbound 0 (NodeInfo_Inbounds nodeInfo) with
      | None => None
      | Some (standalone, warnings) =>
          Some (option_list entry ++ balancerConfs g roles ++ exitConf g roles ++
                outboundConfs 0 (NodeInfo_AWGOutbounds nodeInfo) ++ standalone, warnings)
      end
  end.

(** ** The interfaces to stop *)

(** [awgIfaceFromService]. *)
Definition awgIfaceFromService (service : string) : string :=
  match cut_last "@"%char service with Some (_, iface) => iface | None => service end.

Definition fileIface (f : AWGConfFile) : string := awgIfaceFromService (awgServiceName (cf_iface f)).

(** [add]: the map [seen] holds what [out] holds. *)
Definition addTeardown (keep : list string) (iface : string) (out : list string) : list string :=
  if (iface == "") || bool_decide (iface ∈ keep) || bool_decide (iface ∈ out) then out else out ++ [iface].

Definition awgEntryRole (roles : list chainRole) : option chainRole :=
  List.find (fun r => role_IsEntry r && (Chain_UserProtocol (role_Chain r) == UserProtocolAWG)) roles.

(** The second part: what the standalone AWG 3 inbounds would have owned. *)
Fixpoint teardownInbounds (nodeInfo : NodeInfo) (nodeChains : list Chain) (keep : list string) (claimed : bool)
    (ibs : list NodeInbound) (out : list string) : list string :=
  match ibs with
  | [] => out
  | ib :: ibs' =>
      teardownInbounds nodeInfo nodeChains keep claimed ibs'
        (if negb (NodeInbound_Protocol ib == "awg") || negb (userspaceInbound nodeInfo ib) || chainOwned nodeChains nodeInfo ib then out
         else addTeardown keep (if claimed && (NodeInbound_AWGServerAddress ib != "") then "awg1" else "awg0") out)
  end.

(** [AWGTeardownInterfaces]. *)
Definition AWGTeardownInterfaces (s : PresetState) (nodeInfo : NodeInfo) (nodeChains : list Chain) (renderedFiles : list AWGConfFile)
    : option (list string) :=
  let keep := map fileIface renderedFiles in
  match resolveChainRoles s (NodeInfo_ID nodeInfo) nodeChains with
  | None => None
  | Some roles =>
      let entry := awgEntryRole roles in
      let hasAWGChainEntry := bool_decide (is_Some entry) in
      let out := match entry with
                 | Some r => if negb (kernelAWG3EnabledFor nodeInfo) &&
                                bool_decide (is_Some (chainEntryAWG3Inbound nodeInfo (role_Chain r) (role_Node r)))
                             then addTeardown keep "awg0" [] else []
                 | None => []
                 end in
      let claimed := bool_decide ("awg0" ∈ keep) || hasAWGChainEntry in
      let out := teardownInbounds nodeInfo nodeChains keep claimed (NodeInfo_Inbounds nodeInfo) out in
      Some (if negb (bool_decide ("awg0" ∈ keep)) && hasAWGChainEntry then addTeardown keep "awg0" out else out)
  end.

(** ** The plan of a deploy (awg_push.go) *)

Record AWGDeployPlan := mkAWGDeployPlan {
  plan_files : list AWGConfFile;
  plan_teardown : list string;
  plan_warnings : list string }.

(** [renderAWGDeployPlan]; the map of the inbounds may save credentials. *)
Definition renderAWGDeployPlan (g : CPSGen) (gc : string -> CredGen) (s : PresetState) (now : Time) (nodeInfo : NodeInfo)
    (nodeChains : list Chain) (w : World) : option (AWGDeployPlan * World) :=
  let '(byInbound, w') := usersByInboundMap gc now (NodeInfo_Inbounds nodeInfo) w in
  match RenderNodeAWGConfs g s nodeInfo nodeChains (usersByChainMap now nodeChains w) byInbound with
  | None => None
  | Some (files, warnings) =>
      match AWGTeardownInterfaces s nodeInfo nodeChains files with
      | None => None
      | Some teardown => Some (mkAWGDeployPlan files teardown warnings, w')
      end
  end.

(** ** Lemmas: the users *)

Lemma usersForChain_append key us out k :
  usersForChain (appendUsers key us out) k = usersForChain out k ++ (if decide (key = k) then us else []).
Proof.
  unfold appendUsers. destruct us as [|u us].
  - by case_decide; rewrite app_nil_r.
  - unfold usersForChain. case_decide as E.
    + subst k. by rewrite lookup_insert_eq.
    + by rewrite lookup_insert_ne, app_nil_r.
Qed.

Lemma usersByChainMap_elem now chains w users name u :
  ListUsers w = Ok users ->
  u ∈ usersForChain (usersByChainMap now chains w) name <->
  u ∈ users /\ served now u = true /\ name ∈ User_ChainNames u /\ name ∈ map Chain_Name chains.
Proof.
  intros Hl. unfold usersByChainMap. rewrite Hl.
  assert (forall cs out, u ∈ usersForChain (fold_left (fun out c => appendUsers (Chain_Name c) (chainUsers now users c) out) cs out) name <->
    u ∈ usersForChain out name \/ (u ∈ users /\ served now u = true /\ name ∈ User_ChainNames u /\ name ∈ map Chain_Name cs)) as H.
  { induction cs as [|c cs IH]; intros out; cbn [fold_left map].
    { rewrite elem_of_nil. tauto. }
    rewrite IH, usersForChain_append, elem_of_app, elem_of_cons.
    assert (u ∈ (if decide (Chain_Name c = name) then chainUsers now users c else []) <->
            name = Chain_Name c /\ u ∈ users /\ served now u = true /\ name ∈ User_ChainNames u) as ->; [|tauto].
    case_decide as E; [|rewrite elem_of_nil; split; [done|by intros [-> _]]].
    unfold chainUsers. rewrite list_elem_of_In, List.filter_In, <- list_elem_of_In, andb_true_iff.
    rewrite existsb_exists. setoid_rewrite bool_decide_eq_true. split.
    - intros (? & ? & cn & Hin & ->). apply list_elem_of_In in Hin. subst name. auto.
    - intros (-> & ? & ? & Hin). split_and!; [done..|]. exists (Chain_Name c). by rewrite <- list_elem_of_In. }
  rewrite H. unfold usersForChain. rewrite lookup_empty. cbn. rewrite elem_of_nil. tauto.
Qed.

Lemma served_spec now u : served now u = true <-> User_Active u = true /\ IsExpired now u = false.
Proof. unfold served. by rewrite andb_true_iff, negb_true_iff. Qed.

Lemma EnsureUserCreds_rest g u : clearCreds (fst (EnsureUserCreds g u)) = clearCreds u.
Proof. apply EnsureUserCreds_keeps. Qed.

(** What the selection of the users reads, and the keys a user has. *)
Record sameAccess (u v : User) : Prop := {
  sa_id : User_ID v = User_ID u;
  sa_served : User_Active v = User_Active u /\ User_ExpiresAt v = User_ExpiresAt u;
  sa_address : User_AWGAddress v = User_AWGAddress u;
  sa_private : User_AWGPrivateKey u <> "" -> User_AWGPrivateKey v = User_AWGPrivateKey u /\ User_AWGPublicKey v = User_AWGPublicKey u;
  sa_psk : User_AWGPresharedKey u <> "" -> User_AWGPresharedKey v = User_AWGPresharedKey u }.

Lemma sameAccess_served now u v : sameAccess u v -> served now v = served now u.
Proof. intros [_ [Ha He] _ _ _]. unfold served, IsExpired. by rewrite Ha, He. Qed.

#[export] Instance sameAccess_refl : Reflexive sameAccess.
Proof. intros u. by split. Qed.

Lemma sameAccess_trans u v x : sameAccess u v -> sameAccess v x -> sameAccess u x.
Proof.
  intros [A1 [A2 A3] A4 A5 A6] [B1 [B2 B3] B4 B5 B6]. split; [congruence|by split; congruence|congruence|intros H|intros H].
  - destruct (A5 H) as [E1 E2]. destruct B5; [congruence|]. split; congruence.
  - specialize (A6 H). rewrite B6; congruence.
Qed.

Lemma sameAccess_creds u v : keepsCreds u v -> sameAccess u v.
Proof.
  intros [K P R]. rewrite Forall_forall in K.
  split; [exact (f_equal User_ID R)|split; [exact (f_equal User_Active R)|exact (f_equal User_ExpiresAt R)]|exact (f_equal User_AWGAddress R)|intros H|intros H].
  - split; [|by apply P]. apply (K User_AWGPrivateKey); [in_creds|done].
  - apply (K User_AWGPresharedKey); [in_creds|done].
Qed.

Lemma SaveUser_access now u w v w' : SaveUser now u w = (Ok v, w') -> sameAccess u v.
Proof.
  intros H. apply modifyStore_Ok in H as (sf & sf' & _ & Hf & _). destruct (IsZero (User_CreatedAt u)); cbn in Hf.
  all: repeat case_match; try done; by injection Hf as <- <-.
Qed.

Lemma proxyUser_access g now u w v w' : proxyUser g now u w = (v, w') -> sameAccess u v.
Proof.
  unfold proxyUser. pose proof (sameAccess_creds _ _ (EnsureUserCreds_keeps g u)) as Hc.
  destruct (_ != _); [|by intros [= <- _]].
  destruct (SaveUser _ _ _) as [[v'|e] w1] eqn:Es; intros [= <- _]; [|done].
  exact (sameAccess_trans _ _ _ Hc (SaveUser_access _ _ _ _ _ Es)).
Qed.

Lemma proxyUsers_access g now all : forall w all' us w', proxyUsers g now all w = (all', us, w') ->
  Forall2 sameAccess all all' /\ forall u, u ∈ us -> u ∈ all' /\ served now u = true.
Proof.
  induction all as [|u all IH]; intros w all' us w'; cbn [proxyUsers].
  { intros [= <- <- _]. split; [constructor|]. by intros u ?%not_elem_of_nil. }
  destruct (served now u) eqn:Es; cbn [negb].
  - destruct (proxyUser _ _ _ _) as [v w1] eqn:Ep. destruct (proxyUsers g now all w1) as [[a s] w2] eqn:Er. intros [= <- <- _].
    destruct (IH _ _ _ _ Er) as [H1 H2]. pose proof (proxyUser_access _ _ _ _ _ _ Ep) as Ha.
    split; [by constructor|]. intros x [->|Hx]%elem_of_cons.
    + split; [by left|]. by rewrite (sameAccess_served _ _ _ Ha).
    + destruct (H2 x Hx). split; [by right|done].
  - destruct (proxyUsers g now all w) as [[a s] w2] eqn:Er. intros [= <- <- _]. destruct (IH _ _ _ _ Er) as [H1 H2].
    split; [by constructor|]. intros x Hx. destruct (H2 x Hx). split; [by right|done].
Qed.

Lemma Forall2_sameAccess users all u : Forall2 sameAccess users all -> u ∈ all -> exists u0, u0 ∈ users /\ sameAccess u0 u.
Proof. intros H [i Hi]%list_elem_of_lookup. destruct (Forall2_lookup_r _ _ _ _ _ H Hi) as (u0 & H0 & ?). exists u0. split; [|done]. by eapply list_elem_of_lookup_2. Qed.

(** A user whom an inbound of the list with the tag admits. *)
Definition inboundAdmits (ibs : list NodeInbound) (tag : string) (id : string) : Prop :=
  exists ib, ib ∈ ibs /\ NodeInbound_Tag ib = tag /\ (proxyInbound ib = true \/ id ∈ NodeInbound_ForUsers ib).

Lemma usersByInboundLoop_elem g now users key u ibs : forall all out w out' w',
  Forall2 sameAccess users all -> usersByInboundLoop g now ibs all out w = (out', w') -> u ∈ usersForChain out' key ->
  u ∈ usersForChain out key \/
  (inboundAdmits ibs key (User_ID u) /\ served now u = true /\ exists u0, u0 ∈ users /\ sameAccess u0 u).
Proof.
  induction ibs as [|ib ibs IH]; intros all out w out' w' Ha; cbn [usersByInboundLoop]; [intros [= <- _]; by left|].
  assert (forall ib', inboundAdmits ibs key (User_ID u) -> inboundAdmits (ib' :: ibs) key (User_ID u)) as Hmore
    by (intros ib' (x & ? & ?); exists x; split; [by right|done]).
  destruct (NodeInbound_Tag ib == "") eqn:Et.
  { intros Hr Hu. destruct (IH _ _ _ _ _ Ha Hr Hu) as [?|(? & ?)]; [by left|right; split; [by apply Hmore|done]]. }
  destruct (proxyInbound ib) eqn:Epr.
  - destruct (proxyUsers g now all w) as [[all1 us] w1] eqn:Ep. destruct (proxyUsers_access _ _ _ _ _ _ _ Ep) as [Ha1 Hus].
    assert (Forall2 sameAccess users all1) as Ha2.
    { clear -Ha Ha1. revert all1 Ha1. induction Ha as [|x y l k Hxy _ IHl]; intros all1 H1; inversion H1; subst; constructor;
        [by eapply sameAccess_trans|by apply IHl]. }
    intros Hr Hu. destruct (IH _ _ _ _ _ Ha2 Hr Hu) as [Hu'|(? & ?)]; [|right; split; [by apply Hmore|done]].
    rewrite usersForChain_append in Hu'. apply elem_of_app in Hu' as [?|Hu']; [by left|right].
    case_decide as E; [|by apply not_elem_of_nil in Hu']. destruct (Hus _ Hu') as [H1 H2].
    split; [exists ib; split; [by left|split; [done|by left]]|]. split; [done|]. by eapply Forall2_sameAccess.
  - intros Hr Hu. destruct (IH _ _ _ _ _ Ha Hr Hu) as [Hu'|(? & ?)]; [|right; split; [by apply Hmore|done]].
    rewrite usersForChain_append in Hu'. apply elem_of_app in Hu' as [?|Hu']; [by left|right].
    case_decide as E; [|by apply not_elem_of_nil in Hu'].
    unfold inboundUsers in Hu'. apply list_elem_of_In, List.filter_In in Hu' as [Hu' Hs].
    apply list_elem_of_In, list_elem_of_omap in Hu' as (id & Hid & Hf).
    apply List.find_some in Hf as [Hin Hi]. apply in_rev, list_elem_of_In in Hin. apply bool_decide_eq_true in Hi.
    split; [exists ib; split; [by left|split; [done|right; by rewrite Hi]]|]. split; [done|]. by eapply Forall2_sameAccess.
Qed.

(** ** Lemmas: the files *)

(** An awg-quick server whose traffic goes to the tunnel of sing-box. *)
Definition userFile (f : AWGConfFile) (users : list User) : Prop :=
  exists p, cf_content f = RenderServerAWGConf p /\ Server_Peers p = awgPeers users /\ Server_TUNInterface p = tunInterfaceName /\
    orElse (Server_InterfaceName p) "awg0" = cf_iface f.

Lemma entryConf_spec g s nodeInfo byChain roles f :
  entryConf g s nodeInfo byChain roles = Some f ->
  exists r, awgEntryRole roles = Some r /\
    (chainEntryAWG3Inbound nodeInfo (role_Chain r) (role_Node r) = None \/ kernelAWG3EnabledFor nodeInfo = true) /\
    cf_iface f = "awg0" /\ userFile f (usersForChain byChain (Chain_Name (role_Chain r))).
Proof.
  induction roles as [|r roles IH]; [done|]. cbn [entryConf]. unfold awgEntryRole. cbn [List.find].
  destruct (role_IsEntry r && _) eqn:Ee; [|exact IH].
  destruct (bool_decide _ && negb _) eqn:E3; [done|]. intros [= <-]. exists r. split; [done|]. split.
  { apply andb_false_iff in E3 as [E3|E3]; [left|right; by destruct (kernelAWG3EnabledFor nodeInfo)].
    apply bool_decide_eq_false in E3. destruct (chainEntryAWG3Inbound _ _ _) eqn:Ex; [destruct E3; eauto|done]. }
  unfold renderChainEntryAWGConf. case_match.
  - split; [done|]. by eexists (inboundConfParams g _ _ _ "awg0").
  - split; [done|]. by eexists (chainEntryConfParams g r _).
Qed.

(** A standalone inbound with a file of its own. *)
Definition standaloneOwner (nodeInfo : NodeInfo) (nodeChains : list Chain) (entryPresent : bool) (f : AWGConfFile) (ib : NodeInbound) : Prop :=
  NodeInbound_Protocol ib = "awg" /\ userspaceInbound nodeInfo ib = false /\ chainOwned nodeChains nodeInfo ib = false /\
  ((entryPresent = false /\ cf_iface f = "awg0") \/ (entryPresent = true /\ NodeInbound_AWGServerAddress ib <> "" /\ cf_iface f = "awg1")).

(** The file of an inbound for the users of its tag. *)
Definition inboundFile (f : AWGConfFile) (ib : NodeInbound) (users : list User) : Prop :=
  exists p, cf_content f = RenderServerAWGConf p /\ Server_PrivateKey p = NodeInbound_ServerPrivKey ib /\
    Server_ListenPort p = NodeInbound_Port ib /\ Server_Peers p = awgPeers users /\ Server_TUNInterface p = tunInterfaceName /\
    Server_InterfaceName p = cf_iface f.

Lemma standaloneConfs_spec g s nodeInfo chains entryPresent byInbound f ibs : forall i fs ws,
  standaloneConfs g s nodeInfo chains entryPresent byInbound i ibs = Some (fs, ws) -> f ∈ fs ->
  exists k ib, ibs !! k = Some ib /\ standaloneOwner nodeInfo chains entryPresent f ib /\
    inboundFile f ib (usersForChain byInbound (standaloneTag (i + Z.of_nat k) ib)).
Proof.
  induction ibs as [|ib ibs IH]; intros i fs ws; cbn [standaloneConfs]; [intros [= <- _]; by intros ?%not_elem_of_nil|].
  assert (forall fs ws, standaloneConfs g s nodeInfo chains entryPresent byInbound (i + 1) ibs = Some (fs, ws) -> f ∈ fs ->
    exists k ib', (ib :: ibs) !! k = Some ib' /\ standaloneOwner nodeInfo chains entryPresent f ib' /\
      inboundFile f ib' (usersForChain byInbound (standaloneTag (i + Z.of_nat k) ib'))) as Hnext.
  { intros fs' ws' H1 H2. destruct (IH _ _ _ H1 H2) as (k & x & Hk & Ho & Hu). exists (S k), x. split; [done|]. split; [done|].
    by replace (i + Z.of_nat (S k)) with (i + 1 + Z.of_nat k) by lia. }
  destruct (_ || _ || _) eqn:Eskip; [apply Hnext|]. apply orb_false_iff in Eskip as [Eskip Hown].
  apply orb_false_iff in Eskip as [Hp Huser]. apply negb_false_iff, bool_decide_eq_true in Hp.
  assert (forall f0 iface, renderStandaloneAWGConf g s ib (standaloneTag i ib) byInbound iface = Some f0 ->
    cf_iface f0 = iface /\ inboundFile f0 ib (usersForChain byInbound (standaloneTag (i + Z.of_nat 0) ib))) as Hrender.
  { intros f0 iface Hf0. rewrite Z.add_0_r. unfold renderStandaloneAWGConf in Hf0. destruct (ResolveStandaloneAWGPreset s ib) as [preset|]; [|done].
    injection Hf0 as <-. split; [done|]. by eexists (inboundConfParams g ib preset _ iface). }
  destruct (entryPresent && _) eqn:Eaddr.
  { destruct (standaloneConfs _ _ _ _ _ _ _ ibs) as [[fs' ws']|] eqn:En; [|done]. intros [= <- _]. by eapply Hnext. }
  destruct entryPresent; cbn [andb] in Eaddr.
  - destruct (renderStandaloneAWGConf _ _ _ _ _ _) as [f0|] eqn:Er; [|done].
    destruct (standaloneConfs _ _ _ _ _ _ _ ibs) as [[fs' ws']|] eqn:En; [|done]. intros [= <- _].
    intros [->|Hf]%elem_of_cons; [|by eapply Hnext]. destruct (Hrender f0 "awg1" Er) as [Hi Hu].
    exists 0%nat, ib. split; [done|]. split; [|done]. split_and!; [done..|]. right. split_and!; [done|by apply bool_decide_eq_false in Eaddr|done].
  - destruct (renderStandaloneAWGConf _ _ _ _ _ _) as [f0|] eqn:Er; [|done]. intros [= <- _]. intros ->%list_elem_of_singleton.
    destruct (Hrender f0 "awg0" Er) as [Hi Hu].
    exists 0%nat, ib. split; [done|]. split; [|done]. split_and!; [done..|]. by left.
Qed.

(** Files that carry no users. *)
Definition linkFile (f : AWGConfFile) : Prop :=
  (exists p, cf_content f = RenderExitAWGConf p) \/ (exists p, cf_content f = RenderExitServerAWGConf p) \/
  (exists ob, cf_content f = RenderAWGOutboundConf ob).

Lemma balancerConfs_link g roles f : f ∈ balancerConfs g roles -> linkFile f.
Proof.
  unfold balancerConfs. destruct (List.find _ roles) as [r|]; [|by intros ?%not_elem_of_nil].
  intros (l & Hl & Hf)%list_elem_of_omap. destruct (NodeByID _ _); [|done]. injection Hf as <-. left. by eexists.
Qed.

Lemma exitConf_link g roles f : f ∈ exitConf g roles -> linkFile f.
Proof.
  unfold exitConf. destruct (List.find _ roles) as [r|]; [|by intros ?%not_elem_of_nil].
  unfold renderExitServerConf. destruct (balancerLinkTargetingExit _ _); cbv [option_list option_rect]; [|by intros ?%not_elem_of_nil].
  intros ->%list_elem_of_singleton. right. left. by eexists.
Qed.

Lemma outboundConfs_link f obs : forall i, f ∈ outboundConfs i obs -> linkFile f.
Proof.
  induction obs as [|ob obs IH]; intros i; cbn [outboundConfs]; [by intros ?%not_elem_of_nil|].
  case_match; [apply IH|]. intros [->|Hf]%elem_of_cons; [right; right; by eexists|by eapply IH].
Qed.

(** The interface of a file is one of the overlay, which the node has. *)
Definition onOverlay (roles : list chainRole) (nodeInfo : NodeInfo) (nodeChains : list Chain) (iface : string) : Prop :=
  awgTUNOverlayNeeded roles nodeInfo = true /\ forall node, iface ∈ tunIncludeInterfacesForNode node nodeInfo nodeChains.

Lemma entry_overlay nodeInfo chains roles r :
  awgEntryRole roles = Some r ->
  (chainEntryAWG3Inbound nodeInfo (role_Chain r) (role_Node r) = None \/ kernelAWG3EnabledFor nodeInfo = true) ->
  onOverlay roles nodeInfo chains "awg0".
Proof.
  intros Hr H3. apply List.find_some in Hr as [Hin Hr]. split; [|intros node; by left].
  unfold awgTUNOverlayNeeded. apply orb_true_iff. left. apply existsb_exists. exists r. split; [done|].
  apply orb_true_iff. left. rewrite Hr. cbn [andb]. apply orb_true_iff.
  destruct H3 as [H3|H3]; [left|by right]. rewrite H3. cbn. reflexivity.
Qed.

Lemma standalone_overlay nodeInfo chains roles entryPresent f ib :
  ib ∈ NodeInfo_Inbounds nodeInfo -> standaloneOwner nodeInfo chains entryPresent f ib -> onOverlay roles nodeInfo chains (cf_iface f).
Proof.
  intros Hin (Hp & Hu & Ho & Hi). split.
  - unfold awgTUNOverlayNeeded. apply orb_true_iff. right. apply existsb_exists. exists ib.
    split; [by apply list_elem_of_In|]. rewrite (bool_decide_eq_true_2 (NodeInbound_Protocol ib = "awg") Hp). cbn [andb].
    unfold userspaceInbound in Hu. by destruct (IsAWG3Family _), (kernelAWG3EnabledFor _).
  - intros node. destruct Hi as [[_ ->]|(_ & Ha & ->)]; [by left|].
    unfold tunIncludeInterfacesForNode. apply elem_of_app. right.
    replace (existsb _ _) with true; [by left|]. symmetry. apply existsb_exists. exists ib.
    split; [by apply list_elem_of_In|]. unfold ownAWGInbound, chainOwned in *. unfold userspaceInbound in Hu.
    rewrite Ho, (bool_decide_eq_true_2 (NodeInbound_Protocol ib = "awg") Hp), (bool_decide_eq_false_2 _ Ha).
    by destruct (IsAWG3Family _), (kernelAWG3EnabledFor _).
Qed.

Lemma RenderNodeAWGConfs_files g s nodeInfo chains byChain byInbound files ws :
  RenderNodeAWGConfs g s nodeInfo chains byChain byInbound = Some (files, ws) ->
  exists roles entryPresent, resolveChainRoles s (NodeInfo_ID nodeInfo) chains = Some roles /\
    (forall f, entryConf g s nodeInfo byChain roles = Some f -> f ∈ files) /\
    forall f, f ∈ files -> linkFile f \/ entryConf g s nodeInfo byChain roles = Some f \/
      exists k ib, NodeInfo_Inbounds nodeInfo !! k = Some ib /\ standaloneOwner nodeInfo chains entryPresent f ib /\
        inboundFile f ib (usersForChain byInbound (standaloneTag (Z.of_nat k) ib)).
Proof.
  unfold RenderNodeAWGConfs. destruct (resolveChainRoles _ _ _) as [roles|]; [|done]. cbv zeta.
  destruct (standaloneConfs _ _ _ _ _ _ _ _) as [[sa ws']|] eqn:Es; [|done]. intros [= <- _].
  eexists roles, _. split; [done|]. split.
  - intros f ->. apply elem_of_app. left. by left.
  - intros f [Hf|[Hf|[Hf|[Hf|Hf]%elem_of_app]%elem_of_app]%elem_of_app]%elem_of_app.
    + right. left. destruct (entryConf _ _ _ _ _) as [f'|]; [|by apply not_elem_of_nil in Hf].
      by apply list_elem_of_singleton in Hf as ->.
    + left. by eapply balancerConfs_link.
    + left. by eapply exitConf_link.
    + left. by eapply outboundConfs_link.
    + right. right. exact (standaloneConfs_spec _ _ _ _ _ _ _ _ _ _ _ Es Hf).
Qed.

Lemma elem_of_awgPeers q us : q ∈ awgPeers us <-> exists u, u ∈ us /\ peerUser u = true /\ q = peerOf u.
Proof.
  unfold awgPeers. rewrite list_elem_of_fmap. setoid_rewrite list_elem_of_In. setoid_rewrite List.filter_In.
  split; intros (u & ? & ?); exists u; tauto.
Qed.

(** No two inbounds have one tag, the tags of inbounds without one included. *)
Definition ownTags (ibs : list NodeInbound) : Prop :=
  forall i j a b, ibs !! i = Some a -> ibs !! j = Some b -> NodeInbound_Tag a <> "" -> NodeInbound_Tag a = standaloneTag (Z.of_nat j) b -> i = j.

Lemma standaloneTag_ne i ib : standaloneTag i ib <> "".
Proof. unfold standaloneTag. by case_bool_decide. Qed.

(** Under its own tag an AWG inbound admits the users assigned to it. *)
Lemma admits_own ibs k ib id : ownTags ibs -> ibs !! k = Some ib -> NodeInbound_Protocol ib = "awg" ->
  inboundAdmits ibs (standaloneTag (Z.of_nat k) ib) id -> id ∈ NodeInbound_ForUsers ib.
Proof.
  intros Ho Hk Hp (a & Ha & Ht & Hadm). apply list_elem_of_lookup in Ha as [i Hi].
  assert (i = k) as -> by (apply (Ho i k a ib Hi Hk); [rewrite Ht; apply standaloneTag_ne|done]).
  rewrite Hk in Hi. injection Hi as <-. destruct Hadm as [Hadm|]; [|done]. unfold proxyInbound in Hadm. by rewrite Hp in Hadm.
Qed.

(** C16: who gets into the kernel interfaces of a node.  Every file of a deploy
    plan is a link (an exit, an exit server or an outbound) or a server whose
    interface the tunnel of sing-box covers.  Each peer of the entry of a chain is a
    stored user of that chain, with his key, address and preshared key; and a
    server of an inbound has the inbound's key and port, and each of its peers is
    a stored user assigned to that inbound (to one with its tag, where two inbounds
    have one tag), at his address and with his keys where he has some (a missing one is
    generated by the deploy).  All of them are active and not expired.
    Conversely the entry file has a peer for each
    such user of the chain with an AWG key and address. *)
Theorem awg_access g gc s now nodeInfo chains w users plan w' :
  ListUsers w = Ok users -> renderAWGDeployPlan g gc s now nodeInfo chains w = Some (plan, w') ->
  exists roles, resolveChainRoles s (NodeInfo_ID nodeInfo) chains = Some roles /\
  (forall f, f ∈ plan_files plan -> linkFile f \/
     (onOverlay roles nodeInfo chains (cf_iface f) /\
      exists p, cf_content f = RenderServerAWGConf p /\ Server_TUNInterface p = tunInterfaceName /\
        ((exists r, awgEntryRole roles = Some r /\ cf_iface f = "awg0" /\
            forall q, q ∈ Server_Peers p -> exists u, u ∈ users /\ (User_Active u = true /\ IsExpired now u = false) /\
              Chain_Name (role_Chain r) ∈ User_ChainNames u /\ q = peerOf u) \/
         (exists k ib, NodeInfo_Inbounds nodeInfo !! k = Some ib /\ NodeInbound_Protocol ib = "awg" /\
            Server_PrivateKey p = NodeInbound_ServerPrivKey ib /\ Server_ListenPort p = NodeInbound_Port ib /\
            forall q, q ∈ Server_Peers p -> exists u v, u ∈ users /\ (User_Active u = true /\ IsExpired now u = false) /\
              sameAccess u v /\ q = peerOf v /\
              inboundAdmits (NodeInfo_Inbounds nodeInfo) (standaloneTag (Z.of_nat k) ib) (User_ID u) /\
              (ownTags (NodeInfo_Inbounds nodeInfo) -> User_ID u ∈ NodeInbound_ForUsers ib))))) /\
  (forall r f, awgEntryRole roles = Some r -> entryConf g s nodeInfo (usersByChainMap now chains w) roles = Some f ->
     f ∈ plan_files plan /\ cf_iface f = "awg0" /\
     exists p, cf_content f = RenderServerAWGConf p /\
       forall u, u ∈ users -> User_Active u = true -> IsExpired now u = false -> Chain_Name (role_Chain r) ∈ User_ChainNames u -> peerUser u = true ->
         peerOf u ∈ Server_Peers p).
Proof.
  intros Hl. unfold renderAWGDeployPlan, usersByInboundMap. rewrite Hl.
  destruct (usersByInboundLoop _ _ _ _ _ _) as [byInbound w1] eqn:Eb.
  destruct (RenderNodeAWGConfs _ _ _ _ _ _) as [[files ws]|] eqn:Er; [|done].
  destruct (AWGTeardownInterfaces _ _ _ _) as [td|]; [|done]. intros [= <- _]. cbn [plan_files].
  destruct (RenderNodeAWGConfs_files _ _ _ _ _ _ _ _ Er) as (roles & ep & Hroles & Hentry & Hfiles).
  exists roles. split; [done|]. split.
  - intros f Hf. destruct (Hfiles f Hf) as [?|[He|(k & ib & Hib & Hown & Hu)]]; [by left|right|right].
    + destruct (entryConf_spec _ _ _ _ _ _ He) as (r & Hr & H3 & Hi & p & Hc & Hp & Ht & _).
      split; [rewrite Hi; by eapply entry_overlay|]. exists p. split; [done|]. split; [done|]. left. exists r. split; [done|]. split; [done|].
      intros q. rewrite Hp, elem_of_awgPeers. intros (u & Hin & _ & ->).
      apply (usersByChainMap_elem now chains w users) in Hin as (? & ? & ? & _); [|done].
      exists u. split; [done|]. split; [by apply served_spec|]. by split.
    + split; [eapply standalone_overlay; [by eapply list_elem_of_lookup_2|done]|]. destruct Hown as (Hpr & _).
      destruct Hu as (p & Hc & Hk & Hport & Hp & Ht & _). exists p. split; [done|]. split; [done|]. right.
      exists k, ib. split_and!; [done..|]. intros q. rewrite Hp, elem_of_awgPeers. intros (v & Hin & _ & ->).
      destruct (usersByInboundLoop_elem gc now users (standaloneTag (Z.of_nat k) ib) v (NodeInfo_Inbounds nodeInfo) users ∅ w byInbound w1)
        as [Hno|(Ha & Hs & u & H0 & Hsame)]; [by apply Forall_Forall2_diag, Forall_true|exact Eb|exact Hin| |].
      * unfold usersForChain in Hno. rewrite lookup_empty in Hno. by apply not_elem_of_nil in Hno.
      * rewrite (sa_id _ _ Hsame) in Ha. exists u, v. split; [done|]. split; [apply served_spec; by rewrite <- (sameAccess_served _ _ _ Hsame)|].
        split_and!; [done..|]. intros Ho. by eapply admits_own.
  - intros r f Hr He. split; [by apply Hentry|]. destruct (entryConf_spec _ _ _ _ _ _ He) as (r' & Hr' & _ & Hi & p & Hc & Hp & _).
    rewrite Hr in Hr'. injection Hr' as <-. split; [done|]. exists p. split; [done|]. intros u Hu Hact Hexp Hn Hpu.
    assert (served now u = true) as Hs by (by apply served_spec).
    rewrite Hp, elem_of_awgPeers. exists u. split_and!; [|done|done].
    apply (usersByChainMap_elem now chains w users); [done|]. split_and!; [done..|].
    apply List.find_some in Hr as [Hin _]. apply list_elem_of_In in Hin.
    destruct (resolveChainRoles_elem _ _ _ _ _ Hroles Hin) as (c & Hcin & Hcr).
    rewrite (agree_chain _ _ _ _ (chainRoleIn_agrees _ _ _ _ Hcr)). by apply list_elem_of_fmap_2.
Qed.

(** ** The interfaces to stop *)

(** What the list of the interfaces to stop holds at each point. *)
Definition stopList (keep out : list string) : Prop :=
  NoDup out /\ forall i, i ∈ out -> (i = "awg0" \/ i = "awg1") /\ i ∉ keep.

Lemma addTeardown_stopList keep i out :
  i = "awg0" \/ i = "awg1" -> stopList keep out ->
  stopList keep (addTeardown keep i out) /\ (forall j, j ∈ out -> j ∈ addTeardown keep i out) /\
  (i ∈ keep \/ i ∈ addTeardown keep i out).
Proof.
  intros Hi H. pose proof H as [Hnd Hout]. unfold addTeardown. rewrite (bool_decide_eq_false_2 (i = "")) by (by destruct Hi as [-> | ->]). cbn [orb].
  destruct (bool_decide (i ∈ keep)) eqn:Ek; [apply bool_decide_eq_true in Ek; by auto|].
  destruct (bool_decide (i ∈ out)) eqn:Eo; [apply bool_decide_eq_true in Eo; by auto|].
  apply bool_decide_eq_false in Ek, Eo. cbn [orb]. split; [split|split].
  - apply NoDup_app. split; [done|]. split; [|apply NoDup_singleton]. by intros j Hj ->%list_elem_of_singleton.
  - intros j [Hj| ->%list_elem_of_singleton]%elem_of_app; [by apply Hout|done].
  - intros j Hj. apply elem_of_app. by left.
  - right. apply elem_of_app. right. by left.
Qed.

(** The interface a standalone AWG 3 inbound would own. *)
Definition formerIface (claimed : bool) (ib : NodeInbound) : string :=
  if claimed && (NodeInbound_AWGServerAddress ib != "") then "awg1" else "awg0".

Definition standaloneEndpoint (nodeInfo : NodeInfo) (nodeChains : list Chain) (ib : NodeInbound) : Prop :=
  NodeInbound_Protocol ib = "awg" /\ userspaceInbound nodeInfo ib = true /\ chainOwned nodeChains nodeInfo ib = false.

Lemma teardownInbounds_stopList nodeInfo chains keep claimed ibs : forall out, stopList keep out ->
  let out' := teardownInbounds nodeInfo chains keep claimed ibs out in
  stopList keep out' /\ (forall j, j ∈ out -> j ∈ out') /\
  forall ib, ib ∈ ibs -> standaloneEndpoint nodeInfo chains ib -> formerIface claimed ib ∈ keep \/ formerIface claimed ib ∈ out'.
Proof.
  induction ibs as [|ib ibs IH]; intros out Hout; cbn [teardownInbounds]; cbv zeta.
  { split; [done|]. split; [done|]. by intros ib ?%not_elem_of_nil. }
  assert (formerIface claimed ib = "awg0" \/ formerIface claimed ib = "awg1") as Hf
    by (unfold formerIface; case_match; [by right|by left]).
  destruct (negb _ || negb _ || _) eqn:Eskip.
  - destruct (IH out Hout) as (H1 & H2 & H3). split; [done|]. split; [done|].
    intros x [->|Hx]%elem_of_cons (Hp & Hu & Ho); [|by apply H3]. exfalso.
    rewrite (bool_decide_eq_true_2 (_ = "awg") Hp), Hu, Ho in Eskip. done.
  - destruct (addTeardown_stopList keep (formerIface claimed ib) out Hf Hout) as (A1 & A2 & A3).
    destruct (IH _ A1) as (H1 & H2 & H3). unfold formerIface in *. split; [done|]. split; [auto|].
    intros x [->|Hx]%elem_of_cons He; [|by apply H3]. destruct A3; [by left|right; by apply H2].
Qed.

Lemma stopList_nil keep : stopList keep [].
Proof. split; [apply NoDup_nil_2|]. by intros i ?%not_elem_of_nil. Qed.

(** C25: no kernel interface is left in the way of a user-space endpoint, and no
    rendered one is stopped.  The interfaces to stop are distinct, they are
    awg0 and awg1 at most, and none of them has a file in the same deploy. The
    interface of an AWG chain entry is rewritten or stopped, and so is the one
    a standalone AWG 3 inbound owned before it became an endpoint of sing-box
    on the same port. *)
Theorem awg_teardown_exact s nodeInfo chains files td :
  AWGTeardownInterfaces s nodeInfo chains files = Some td ->
  exists roles, resolveChainRoles s (NodeInfo_ID nodeInfo) chains = Some roles /\
    NoDup td /\ (forall i, i ∈ td -> (i = "awg0" \/ i = "awg1") /\ i ∉ ifaces files) /\
    (is_Some (awgEntryRole roles) -> "awg0" ∈ map fileIface files \/ "awg0" ∈ td) /\
    (forall ib, ib ∈ NodeInfo_Inbounds nodeInfo -> standaloneEndpoint nodeInfo chains ib ->
       let i := formerIface (bool_decide ("awg0" ∈ map fileIface files) || bool_decide (is_Some (awgEntryRole roles))) ib in
       i ∈ map fileIface files \/ i ∈ td).
Proof.
  unfold AWGTeardownInterfaces. cbv zeta. destruct (resolveChainRoles _ _ _) as [roles|]; [|done].
  set (keep := map fileIface files). set (claimed := bool_decide ("awg0" ∈ keep) || _).
  intros H. exists roles. split; [done|]. revert H.
  set (out0 := match awgEntryRole roles with Some _ => _ | None => [] end).
  assert (stopList keep out0) as H0.
  { unfold out0. destruct (awgEntryRole roles) as [r|]; [|apply stopList_nil].
    case_match; [|apply stopList_nil]. apply addTeardown_stopList; [by left|apply stopList_nil]. }
  destruct (teardownInbounds_stopList nodeInfo chains keep claimed (NodeInfo_Inbounds nodeInfo) out0 H0) as (H1 & H2 & H3).
  set (out1 := teardownInbounds _ _ _ _ _ _) in *.
  destruct (addTeardown_stopList keep "awg0" out1 ltac:(by left) H1) as (A1 & A2 & A3).
  assert (forall i, i = "awg0" \/ i = "awg1" -> i ∉ keep -> i ∉ ifaces files) as Hk.
  { intros i Hi Hn Hin. apply Hn. apply list_elem_of_fmap in Hin as (f & -> & Hf).
    apply list_elem_of_fmap. exists f. split; [|done]. unfold fileIface. by destruct Hi as [-> | ->]. }
  intros [= <-]. destruct (negb _ && _) eqn:Elast.
  - destruct A1 as [B1 B2]. split; [done|]. split; [intros i Hi; destruct (B2 i Hi); auto|]. split; [by intros _|].
    intros ib Hib He. destruct (H3 ib Hib He); [by left|right; by apply A2].
  - destruct H1 as [B1 B2]. split; [done|]. split; [intros i Hi; destruct (B2 i Hi); auto|]. split; [|by apply H3].
    intros He. rewrite (bool_decide_eq_true_2 _ He), andb_true_r in Elast. left. by apply negb_false_iff, bool_decide_eq_true in Elast.
Qed.

(** ** The two ends of an exit link *)

Lemma BuildAWGAmnezia_material g g' awg preset m :
  literalI1 awg -> BuildAWGAmnezia g awg preset (Some m) = BuildAWGAmnezia g' awg preset (Some m).
Proof. intros Hl. unfold BuildAWGAmnezia. cbv zeta. case_match; [done|]. by rewrite (section_material g g'). Qed.

(** The obfuscation two renderings give is the same, the first packet apart. *)
Definition sameButI1 (a b : option AmneziaOptions) : Prop := exists i1, a = option_map (withI1 i1) b.

Lemma BuildAWGAmnezia_sameButI1 g g' awg preset m : sameButI1 (BuildAWGAmnezia g awg preset (Some m)) (BuildAWGAmnezia g' awg preset (Some m)).
Proof.
  unfold sameButI1, BuildAWGAmnezia. cbv zeta. case_match; [by exists ""|].
  destruct (section_upToI1 g g' awg (Some preset) m) as [i1 ->]. by exists i1.
Qed.

Lemma find_only (P : AWGExitLink -> bool) (l : list AWGExitLink) x :
  x ∈ l -> P x = true -> (forall y, y ∈ l -> P y = true -> y = x) -> List.find P l = Some x.
Proof.
  intros Hx Hp Hu. destruct (List.find P l) as [y|] eqn:E.
  - apply List.find_some in E as [Hy Hpy]. f_equal. apply Hu; [by apply list_elem_of_In|done].
  - apply list_elem_of_In in Hx. by rewrite (List.find_none _ _ E _ Hx) in Hp.
Qed.

(** C22: the two ends of a kernel exit tunnel are configured for each other.  A
    balancer and an exit of one chain whose obfuscation material is stored, rendered apart (with generators of their
    own), get files whose keys, addresses, port and obfuscation match, when the link is the only one
    of the chain to that exit: the
    balancer dials the exit at the port the exit listens on, each holds the
    private key of the public key the other expects, the exit admits the
    address the balancer has, and both use the material of the chain.  Their first
    decoy packets are equal too unless the preset draws one at each rendering
    (quic-1200, dns-1232).  The endpoint is the host and the port with a colon
    between them, which names an exit by its name or IPv4 address. *)
Theorem exit_tunnel_agrees g g' s c b e l rb re m :
  chainRoleIn s (ChainNode_ID b) c = Some (Some rb) -> chainRoleIn s (ChainNode_ID e) c = Some (Some re) ->
  NodeByID c (ChainNode_ID b) = Some b -> NodeByID c (ChainNode_ID e) = Some e ->
  b ∈ Chain_Nodes c -> l ∈ ChainNode_ExitAWGLinks b -> AWGExitLink_TargetID l = ChainNode_ID e ->
  (forall b' l', b' ∈ Chain_Nodes c -> l' ∈ ChainNode_ExitAWGLinks b' -> AWGExitLink_TargetID l' = ChainNode_ID e -> l' = l) ->
  ChainAWGObfsMaterial c = Some m ->
  exists pc ps,
    mkAWGConfFile (AWGExitLink_InterfaceName l) (RenderExitAWGConf pc) ∈ renderBalancerExitConfs g rb /\
    renderExitServerConf g' re = Some (mkAWGConfFile "awg0" (RenderExitServerAWGConf ps)) /\
    ExitClient_PrivateKey pc = AWGExitLink_ClientPriv l /\ ExitServer_BalancerPublicKey ps = AWGExitLink_ClientPub l /\
    ExitServer_PrivateKey ps = ChainNode_ExitAWGServerPriv e /\ ExitClient_ExitPublicKey pc = ChainNode_ExitAWGServerPub e /\
    ExitServer_BalancerAllowedIPs ps = ExitClient_Address pc /\ ExitServer_ListenPort ps = ChainNode_ExitAWGListenPort e /\
    ExitClient_ExitEndpoint pc = extractHost (ChainNode_Addr e) +:+ ":" +:+ itoa (ExitServer_ListenPort ps) /\
    sameButI1 (ExitClient_Amnezia pc) (ExitServer_Amnezia ps) /\
    (literalI1 (awgOf (role_Preset rb)) -> ExitClient_Amnezia pc = ExitServer_Amnezia ps).
Proof.
  intros Hrb Hre Hb He Hbin Hl Ht Honly Hm.
  destruct (chainRoleIn_agrees _ _ _ _ Hrb) as [Cb Pb Nb _ _ _ _ _]. destruct (chainRoleIn_agrees _ _ _ _ Hre) as [Ce Pe Ne _ _ _ _ _].
  rewrite Hb in Nb. injection Nb as Nb. rewrite He in Ne. injection Ne as Ne. rewrite Pb in Pe. injection Pe as Pe.
  exists (exitClientParams g rb l e), (exitServerParams g' re l). split.
  { unfold renderBalancerExitConfs. apply list_elem_of_omap. exists l. rewrite <- Nb, Cb, Ht, He. done. }
  split.
  { unfold renderExitServerConf. replace (balancerLinkTargetingExit _ _) with (Some l); [done|]. symmetry.
    unfold balancerLinkTargetingExit. rewrite Ce, <- Ne. apply find_only; [|by apply bool_decide_eq_true|].
    - apply list_elem_of_In, in_flat_map. exists b. by rewrite <- !list_elem_of_In.
    - intros l' Hl' Hp%bool_decide_eq_true. apply list_elem_of_In, in_flat_map in Hl' as (b' & Hb' & Hl').
      apply list_elem_of_In in Hb', Hl'. by apply (Honly b' l'). }
  cbn. rewrite <- Ne, Cb, Ce, Hm, Pe. split_and!; try done; [apply BuildAWGAmnezia_sameButI1|]. apply BuildAWGAmnezia_material.
Qed.

(** ** A node with an AWG entry *)

Definition sampleCreds : CredGen := mkCredGen "vless" "tuic" (Some "tp") "hy" (Some ("priv", "pub")) (Some "psk") (Some "np") (Some "mp") (Some "tt").

Definition sampleMember (id : string) (expires : Time) : User :=
  zeroUser <| User_ID := id |> <| User_Name := id |> <| User_Active := true |> <| User_ExpiresAt := expires |>
    <| User_ChainNames := ["c"] |> <| User_AWGPublicKey := id +:+ "key" |> <| User_AWGAddress := "10.8.0.2/32" |>.

Definition sampleEntry (id role : string) : ChainNode := zeroChainNode <| ChainNode_ID := id |> <| ChainNode_Role := role |>.

Definition sampleAWGChain : Chain :=
  zeroChain <| Chain_Name := "c" |> <| Chain_UserProtocol := UserProtocolAWG |> <| Chain_Nodes := [sampleEntry "n1" NodeRoleEntry; sampleEntry "n2" NodeRoleExit] |>
    <| Chain_AWGCPSLevel := 3 |> <| Chain_AWGCPSI1 := "<b 0x01>" |>.

Definition sampleAWGInbound (tag addr version : string) : NodeInbound :=
  zeroNodeInbound <| NodeInbound_Protocol := "awg" |> <| NodeInbound_Tag := tag |> <| NodeInbound_AWGServerAddress := addr |>
    <| NodeInbound_AWGVersion := version |>.

Definition sampleInfo (ibs : list NodeInbound) : NodeInfo := zeroNodeInfo <| NodeInfo_Host := mkHost "n1" "203.0.113.1:22" "root" "" |> <| NodeInfo_Inbounds := ibs |>.

Definition sampleStore (us : list User) : World := mkWorld (Some (Plain (newStoreFile <| sf_Users := us |>))) None None None [] None.

Lemma awg_access_witness :
  let w := sampleStore [sampleMember "alice" zeroTime; sampleMember "bob" 5] in
  exists plan w', renderAWGDeployPlan (sampleGen "x" true) (fun _ => sampleCreds) samplePresets 10 (sampleInfo []) [sampleAWGChain] w = Some (plan, w') /\
    exists f p, f ∈ plan_files plan /\ cf_iface f = "awg0" /\ cf_content f = RenderServerAWGConf p /\
      peerOf (sampleMember "alice" zeroTime) ∈ Server_Peers p.
Proof.
  cbv zeta. set (w := sampleStore _).
  destruct (renderAWGDeployPlan (sampleGen "x" true) (fun _ => sampleCreds) samplePresets 10 (sampleInfo []) [sampleAWGChain] w) as [[plan w']|] eqn:E;
    [|vm_compute in E; discriminate E].
  exists plan, w'. split; [done|].
  destruct (awg_access (sampleGen "x" true) (fun _ => sampleCreds) samplePresets 10 (sampleInfo []) [sampleAWGChain] w
    [sampleMember "alice" zeroTime; sampleMember "bob" 5] plan w' eq_refl E) as (roles & Hroles & _ & H).
  assert (awgEntryRole roles <> None /\ entryConf (sampleGen "x" true) samplePresets (sampleInfo []) (usersByChainMap 10 [sampleAWGChain] w) roles <> None /\
          option_map (fun r => Chain_Name (role_Chain r)) (awgEntryRole roles) = Some "c") as (Hr & He & Hn).
  { vm_compute in Hroles. injection Hroles as <-. split_and!; [by vm_compute|by vm_compute|reflexivity]. }
  destruct (awgEntryRole roles) as [r|] eqn:Er; [|done].
  destruct (entryConf _ _ _ _ _) as [f|] eqn:Ef; [|done].
  destruct (H r f eq_refl eq_refl) as (H1 & H2 & p & H3 & H4). exists f, p. split_and!; [done..|].
  injection Hn as Hn. apply H4; [by left|reflexivity|reflexivity|rewrite Hn; by left|reflexivity].
Defined.

Lemma awg_teardown_exact_witness :
  exists td, AWGTeardownInterfaces samplePresets (sampleInfo [sampleAWGInbound "v" "10.8.1.1/24" "3"]) [sampleAWGChain]
               [mkAWGConfFile "awg0" "conf"] = Some td /\ "awg1" ∈ td /\ "awg0" ∉ td.
Proof.
  destruct (AWGTeardownInterfaces samplePresets (sampleInfo [sampleAWGInbound "v" "10.8.1.1/24" "3"]) [sampleAWGChain]
    [mkAWGConfFile "awg0" "conf"]) as [td|] eqn:E; [|vm_compute in E; discriminate E].
  exists td. split; [done|].
  destruct (awg_teardown_exact samplePresets (sampleInfo [sampleAWGInbound "v" "10.8.1.1/24" "3"]) [sampleAWGChain] [mkAWGConfFile "awg0" "conf"] td E)
    as (roles & _ & _ & H1 & _ & H2).
  split.
  - destruct (H2 (sampleAWGInbound "v" "10.8.1.1/24" "3")) as [H|H]; [by left|by repeat split| |exact H].
    vm_compute in H. by apply list_elem_of_singleton in H.
  - intros H. apply (proj2 (H1 "awg0" H)). by left.
Defined.

(** A balancer with one exit. *)
Definition exitLink : AWGExitLink := mkAWGExitLink "x" "awg-exit-n0" "linkpriv" "linkpub" "10.10.0.2/32" 0.
Definition balancerNode : ChainNode := (sampleEntry "b" NodeRoleEntry) <| ChainNode_ExitTargets := ["x"] |> <| ChainNode_ExitAWGLinks := [exitLink] |>.
Definition exitNode (addr : string) : ChainNode :=
  (sampleEntry "x" NodeRoleExit) <| ChainNode_Addr := addr |> <| ChainNode_ExitAWGServerPriv := "exitpriv" |>
    <| ChainNode_ExitAWGServerPub := "exitpub" |> <| ChainNode_ExitAWGListenPort := 51820 |>.
Definition exitChain (addr : string) : Chain :=
  sampleAWGChain <| Chain_Nodes := [balancerNode; exitNode addr] |>.

(** The generators of the samples; the preset of the chain has no keyword for I1. *)
Lemma exit_tunnel_agrees_witness :
  exists rb re pc ps,
    chainRoleIn samplePresets "b" (exitChain "203.0.113.9:22") = Some (Some rb) /\
    renderExitServerConf (sampleGen "y" false) re = Some (mkAWGConfFile "awg0" (RenderExitServerAWGConf ps)) /\
    mkAWGConfFile "awg-exit-n0" (RenderExitAWGConf pc) ∈ renderBalancerExitConfs (sampleGen "x" true) rb /\
    ExitClient_ExitEndpoint pc = "203.0.113.9:51820" /\ ExitClient_Amnezia pc = ExitServer_Amnezia ps.
Proof.
  set (c := exitChain "203.0.113.9:22").
  destruct (chainRoleIn samplePresets "b" c) as [[rb|]|] eqn:Eb; [|vm_compute in Eb; discriminate Eb..].
  destruct (chainRoleIn samplePresets "x" c) as [[re|]|] eqn:Ee; [|vm_compute in Ee; discriminate Ee..].
  destruct (ChainAWGObfsMaterial c) as [m|] eqn:Em; [|vm_compute in Em; discriminate Em].
  destruct (exit_tunnel_agrees (sampleGen "x" true) (sampleGen "y" false) samplePresets c balancerNode (exitNode "203.0.113.9:22") exitLink rb re m
    Eb Ee) as (pc & ps & H1 & H2 & _ & _ & _ & _ & _ & Hport & H3 & _ & H4); try done; try (by left).
  - intros b' l' [->|[->|?%not_elem_of_nil]%elem_of_cons]%elem_of_cons; [|by intros ?%not_elem_of_nil|done].
    by intros ->%list_elem_of_singleton.
  - exists rb, re, pc, ps. split_and!; [done..| |].
    + rewrite H3, Hport. vm_compute. reflexivity.
    + apply H4. clear -Eb. vm_compute in Eb. injection Eb as <-. split; vm_compute; discriminate.
Defined.

(** ** Deviations *)

(** A node that is the AWG entry of a chain and an exit of another (or that
    has an exit and a standalone inbound) gets two files for awg0: the second
    overwrites the first. *)
Definition entryAndExit : list Chain :=
  [sampleAWGChain <| Chain_Nodes := [sampleEntry "n1" NodeRoleEntry] |>;
   sampleAWGChain <| Chain_Name := "d" |>
     <| Chain_Nodes := [balancerNode <| ChainNode_ExitAWGLinks := [exitLink <| AWGExitLink_TargetID := "n1" |>] |>; sampleEntry "n1" NodeRoleExit] |>].

Lemma entry_and_exit_share_awg0 :
  option_map (fun r => ifaces (fst r)) (RenderNodeAWGConfs (sampleGen "x" true) samplePresets (sampleInfo []) entryAndExit ∅ ∅) = Some ["awg0"; "awg0"].
Proof. vm_compute. reflexivity. Qed.

(** Beside a chain entry every standalone inbound with a subnet goes to awg1:
    two of them share the interface, without a warning. *)
Lemma two_standalone_share_awg1 :
  option_map (fun r => (ifaces (fst r), snd r))
    (RenderNodeAWGConfs (sampleGen "x" true) samplePresets
       (sampleInfo [sampleAWGInbound "v" "10.8.1.1/24" "2"; sampleAWGInbound "w" "10.8.2.1/24" "2"]) [sampleAWGChain] ∅ ∅)
  = Some (["awg0"; "awg1"; "awg1"], []).
Proof. vm_compute. reflexivity. Qed.

(** Without a chain entry the second standalone inbound is dropped, without a
    warning. *)
Lemma second_standalone_dropped :
  option_map (fun r => (ifaces (fst r), snd r))
    (RenderNodeAWGConfs (sampleGen "x" true) samplePresets
       (sampleInfo [sampleAWGInbound "v" "10.8.1.1/24" "2"; sampleAWGInbound "w" "10.8.2.1/24" "2"]) [] ∅ ∅)
  = Some (["awg0"], []).
Proof. vm_compute. reflexivity. Qed.

(** The endpoint of an exit with an IPv6 address loses its brackets, and its
    port with them. *)
Lemma ipv6_exit_endpoint :
  let endpoint := extractHost "[2001:db8::9]:22" +:+ ":" +:+ itoa 51820 in
  endpoint = "2001:db8::9:51820" /\ splitEndpoint endpoint = (endpoint, 0).
Proof. vm_compute. split; reflexivity. Qed.

(** A user who never expires but has a date is shown as active and gets no
    access. *)
Lemma never_user_dropped :
  let u := (sampleMember "carol" 5) <| User_ExpireStrategy := "never" |> in
  ComputeStatus 10 u = "active" /\ served 10 u = false.
Proof. vm_compute. split; reflexivity. Qed.

(** A TrustTunnel password that is missing is drawn at each render and never
    saved when the other two passwords exist. *)
Lemma trusttunnel_password_not_saved :
  let u := (sampleMember "dan" zeroTime) <| User_NaiveUsername := "dan" |> <| User_NaivePassword := "np" |> <| User_MieruUsername := "dan" |>
             <| User_MieruPassword := "mp" |> in
  let w := sampleStore [u] in
  let r := usersByInboundMap (fun _ => sampleCreds) 10 [zeroNodeInbound <| NodeInbound_Protocol := "trusttunnel" |> <| NodeInbound_Tag := "t" |>] w in
  map User_TrustTunnelPassword (usersForChain (fst r) "t") = ["tt"] /\ snd r = w /\ User_TrustTunnelPassword u = "".
Proof. vm_compute. split_and!; reflexivity. Qed.

(** A proxy inbound serves every active user, whatever its list of users. *)
Lemma proxy_inbound_ignores_users :
  let w := sampleStore [sampleMember "eve" zeroTime] in
  let ib := zeroNodeInbound <| NodeInbound_Protocol := "naive" |> <| NodeInbound_Tag := "t" |> <| NodeInbound_ForUsers := ["alice"] |> in
  map User_ID (usersForChain (fst (usersByInboundMap (fun _ => sampleCreds) 10 [ib] w)) "t") = ["eve"].
Proof. vm_compute. reflexivity. Qed.
