(* ===== verification/Json.v ===== *)
(** * Json: the JSON of a decoded value

    What the program uses of Go's encoding/json on values of type [any]
    (internal/awg/vpnuri/vpnuri.go): [json.Marshal] with its escaping for HTML,
    and [json.Unmarshal].  An object is the list of its members, sorted by key
    when it comes from a map; a number is its text, not the float64 it is
    decoded to.  The limit on the nesting is not modelled.  Bytes from 128 up are
    taken for parts of valid UTF-8 text without line separators and stay as they
    are; the theorems are about ASCII. *)

From stdpp Require Import sorting.
From S2P Require Import Prelude GoStrings Codec.

#[warnings="-register-all"]
Inductive Json :=
| JNull
| JBool (b : bool)
| JNum (text : string)
| JStr (s : string)
| JArr (l : list Json)
| JObj (ms : list (string * Json)).

Definition quote : ascii := Ascii.ascii_of_nat 34.
Definition backslash : ascii := Ascii.ascii_of_nat 92.

(** ** [json.Marshal] *)

Definition esc (c : ascii) : string := String backslash (String c "").
Definition jsonByte (c : ascii) : string :=
  let n := byteZ c in
  if (n =? 34) || (n =? 92) then esc c
  else if n =? 8 then esc "b" else if n =? 12 then esc "f" else if n =? 10 then esc "n" else if n =? 13 then esc "r" else if n =? 9 then esc "t"
  else if (n <? 32) || (n =? 60) || (n =? 62) || (n =? 38) then esc "u" +:+ "00" +:+ hexEncode (String c "")
  else String c "".
Fixpoint jsonBody (s : string) : string := match s with EmptyString => "" | String c s' => jsonByte c +:+ jsonBody s' end.
Definition jsonString (s : string) : string := String quote (jsonBody s +:+ String quote "").

(** The items of an array and the members of an object, after the first bracket. *)
Definition separated (close : ascii) (items : list string) : string :=
  match items with
  | [] => String close ""
  | x :: items' => x +:+ fold_right (fun y acc => String ","%char (y +:+ acc)) (String close "") items'
  end.

Fixpoint marshal (v : Json) : string :=
  match v with
  | JNull => "null"
  | JBool true => "true"
  | JBool false => "false"
  | JNum t => t
  | JStr s => jsonString s
  | JArr l => String "["%char (separated "]"%char (map marshal l))
  | JObj ms => String "{"%char (separated "}"%char (map (fun m => jsonString (fst m) +:+ String ":"%char (marshal (snd m))) ms))
  end.

(** The members of a map, sorted by key. *)
Definition member (k : string) (ms : list (string * Json)) : option Json :=
  option_map snd (List.find (fun m => fst m == k) (reverse ms)).
Definition leKey (a b : string * Json) : Prop := String.leb (fst a) (fst b) = true.
#[export] Instance leKey_dec a b : Decision (leKey a b) := bool_eq_dec _ _.
Definition ofMap (m : gmap string Json) : Json := JObj (merge_sort leKey (map_to_list m)).

(** ** [json.Unmarshal] *)

Fixpoint skipWs (s : string) : string :=
  match s with
  | String c s' => let n := byteZ c in if (n =? 32) || (n =? 9) || (n =? 10) || (n =? 13) then skipWs s' else s
  | EmptyString => ""
  end.

(** Four hexadecimal digits. *)
Definition hex4 (a b c d : ascii) : option Z :=
  match hexNibble a, hexNibble b, hexNibble c, hexNibble d with
  | Some a, Some b, Some c, Some d => Some (((a * 16 + b) * 16 + c) * 16 + d)
  | _, _, _, _ => None
  end.

(** The UTF-8 bytes of a code point. *)
Definition utf8 (z : Z) : string :=
  if z <? 128 then String (Zbyte z) ""
  else if z <? 2048 then String (Zbyte (192 + z / 64)) (String (Zbyte (128 + z `mod` 64)) "")
  else if z <? 65536 then
    String (Zbyte (224 + z / 4096)) (String (Zbyte (128 + z / 64 `mod` 64)) (String (Zbyte (128 + z `mod` 64)) ""))
  else
    String (Zbyte (240 + z / 262144)) (String (Zbyte (128 + z / 4096 `mod` 64))
      (String (Zbyte (128 + z / 64 `mod` 64)) (String (Zbyte (128 + z `mod` 64)) ""))).

Definition high (z : Z) : bool := (55296 <=? z) && (z <? 56320).
Definition low (z : Z) : bool := (56320 <=? z) && (z <? 57344).

(** The character an escape stands for. *)
Definition unescape (c : ascii) : option ascii :=
  let n := byteZ c in
  if (n =? 34) || (n =? 92) || (n =? 47) then Some c
  else if n =? 98 then Some (Zbyte 8) else if n =? 102 then Some (Zbyte 12) else if n =? 110 then Some (Zbyte 10)
  else if n =? 114 then Some (Zbyte 13) else if n =? 116 then Some (Zbyte 9) else None.

Definition before (p : string) (r : option (string * string)) : option (string * string) :=
  match r with Some (s, rest) => Some (p +:+ s, rest) | None => None end.

(** A string after its opening quote, and what follows it. *)
Fixpoint parseStr (s : string) : option (string * string) :=
  match s with
  | EmptyString => None
  | String c s1 =>
      if Ascii.eqb c quote then Some ("", s1)
      else if Ascii.eqb c backslash then
        match s1 with
        | EmptyString => None
        | String e s2 =>
            if Ascii.eqb e "u"%char then
              match s2 with
              | String h1 (String h2 (String h3 (String h4 s3))) =>
                  match hex4 h1 h2 h3 h4 with
                  | None => None
                  | Some z =>
                      match s3 with
                      | String b1 (String b2 (String g1 (String g2 (String g3 (String g4 s4))))) =>
                          if high z && Ascii.eqb b1 backslash && Ascii.eqb b2 "u"%char then
                            match hex4 g1 g2 g3 g4 with
                            | None => None
                            | Some w => if low w then before (utf8 (65536 + (z - 55296) * 1024 + (w - 56320))) (parseStr s4)
                                        else before (utf8 65533) (parseStr s3)
                            end
                          else before (utf8 (if high z || low z then 65533 else z)) (parseStr s3)
                      | _ => before (utf8 (if high z || low z then 65533 else z)) (parseStr s3)
                      end
                  end
              | _ => None
              end
            else match unescape e with Some d => before (String d "") (parseStr s2) | None => None end
        end
      else if byteZ c <? 32 then None
      else before (String c "") (parseStr s1)
  end.

(** A number: its characters, and the grammar they have to follow. *)
Definition digit (c : ascii) : bool := (48 <=? byteZ c) && (byteZ c <=? 57).
Definition numChar (c : ascii) : bool := digit c || existsb (Ascii.eqb c) ["-"; "+"; "."; "e"; "E"]%char.
Fixpoint spanNum (s : string) : string * string :=
  match s with
  | String c s' => if numChar c then let '(a, b) := spanNum s' in (String c a, b) else ("", s)
  | EmptyString => ("", "")
  end.
Fixpoint skipDigits (s : string) : string := match s with String c s' => if digit c then skipDigits s' else s | EmptyString => "" end.
(** At least one digit, then what follows the digits. *)
Definition someDigits (s : string) : option string := match s with String c s' => if digit c then Some (skipDigits s') else None | EmptyString => None end.
Definition exponentOk (s : string) : bool :=
  match s with
  | EmptyString => true
  | String c s' =>
      if Ascii.eqb c "e"%char || Ascii.eqb c "E"%char then
        let s' := match s' with String d s'' => if Ascii.eqb d "+"%char || Ascii.eqb d "-"%char then s'' else s' | EmptyString => s' end in
        bool_decide (someDigits s' = Some "")
      else false
  end.
Definition fractionOk (s : string) : bool :=
  match s with
  | String "."%char s' => match someDigits s' with Some r => exponentOk r | None => false end
  | s => exponentOk s
  end.
Definition validNumber (s : string) : bool :=
  let s := match s with String "-"%char s' => s' | s => s end in
  match s with
  | String "0"%char s' => fractionOk s'
  | s => match someDigits s with Some r => fractionOk r | None => false end
  end.

(** A value and what follows it; the fuel bounds the nesting. *)
Definition literal (text : string) (v : Json) (s : string) : option (Json * string) :=
  if HasPrefix s text then Some (v, drop_string (String.length text) s) else None.

Fixpoint parseValue (fuel : nat) (s : string) : option (Json * string) :=
  match fuel with
  | O => None
  | S f =>
      match skipWs s with
      | EmptyString => None
      | String c r =>
          if Ascii.eqb c "{"%char then
            match skipWs r with
            | String d r' => if Ascii.eqb d "}"%char then Some (JObj [], r')
                             else match parseMembers f (String d r') with Some (ms, r'') => Some (JObj ms, r'') | None => None end
            | EmptyString => None
            end
          else if Ascii.eqb c "["%char then
            match skipWs r with
            | String d r' => if Ascii.eqb d "]"%char then Some (JArr [], r')
                             else match parseItems f (String d r') with Some (l, r'') => Some (JArr l, r'') | None => None end
            | EmptyString => None
            end
          else if Ascii.eqb c quote then match parseStr r with Some (t, r') => Some (JStr t, r') | None => None end
          else if Ascii.eqb c "t"%char then literal "true" (JBool true) (String c r)
          else if Ascii.eqb c "f"%char then literal "false" (JBool false) (String c r)
          else if Ascii.eqb c "n"%char then literal "null" JNull (String c r)
          else let '(t, r') := spanNum (String c r) in if validNumber t then Some (JNum t, r') else None
      end
  end
with parseItems (fuel : nat) (s : string) : option (list Json * string) :=
  match fuel with
  | O => None
  | S f =>
      match parseValue f s with
      | None => None
      | Some (v, r) =>
          match skipWs r with
          | String d r' =>
              if Ascii.eqb d ","%char then match parseItems f r' with Some (l, r'') => Some (v :: l, r'') | None => None end
              else if Ascii.eqb d "]"%char then Some ([v], r') else None
          | EmptyString => None
          end
      end
  end
with parseMembers (fuel : nat) (s : string) : option (list (string * Json) * string) :=
  match fuel with
  | O => None
  | S f =>
      match skipWs s with
      | String q r =>
          if negb (Ascii.eqb q quote) then None
          else
            match parseStr r with
            | None => None
            | Some (k, r) =>
                match skipWs r with
                | String d r => if negb (Ascii.eqb d ":"%char) then None
                  else
                    match parseValue f r with
                    | None => None
                    | Some (v, r) =>
                        match skipWs r with
                        | String d r' =>
                            if Ascii.eqb d ","%char then match parseMembers f r' with Some (ms, r'') => Some ((k, v) :: ms, r'') | None => None end
                            else if Ascii.eqb d "}"%char then Some ([(k, v)], r') else None
                        | EmptyString => None
                        end
                    end
                | EmptyString => None
                end
            end
      | EmptyString => None
      end
  end.

(** [json.Unmarshal]: one value and nothing after it. *)
Definition unmarshal (s : string) : option Json :=
  match parseValue (S (String.length s)) s with
  | Some (v, r) => if skipWs r == "" then Some v else None
  | None => None
  end.

(** ** Lemmas: strings *)

(** Text in ASCII. *)
Fixpoint asciiText (s : string) : bool := match s with EmptyString => true | String c s' => (byteZ c <? 128) && asciiText s' end.

Lemma parseStr_byte c t : (byteZ c <? 128) = true -> parseStr (jsonByte c +:+ t) = before (String c "") (parseStr t).
Proof. 
  intros H. destruct c as [[] [] [] [] [] [] [] []]; try discriminate H; try reflexivity.
  all: destruct t as [|? [|? [|? [|? [|? [|? t]]]]]]; reflexivity.
Qed.

Lemma before_before p q r : before p (before q r) = before (p +:+ q) r.
Proof. destruct r as [[s t]|]; [|done]. cbn. by rewrite string_app_assoc. Qed.

Lemma parseStr_body s t : asciiText s = true -> parseStr (jsonBody s +:+ String quote t) = Some (s, t).
Proof.
  induction s as [|c s IH]; [done|]. intros [Hc Hs]%andb_true_iff. cbn [jsonBody].
  rewrite <- string_app_assoc, parseStr_byte by done. by rewrite IH.
Qed.

(** A string, read from its opening quote. *)
Lemma parseStr_string s t : asciiText s = true -> parseStr (jsonBody s +:+ String quote "" +:+ t) = Some (s, t).
Proof. apply parseStr_body. Qed.

(** ** Lemmas: values *)

(** The value has text in ASCII and numbers that follow the grammar. *)
Definition numText (t : string) : bool := validNumber t && (spanNum t == (t, "")).
Fixpoint wellFormed (v : Json) : bool :=
  match v with
  | JNull | JBool _ => true
  | JNum t => numText t
  | JStr s => asciiText s
  | JArr l => forallb wellFormed l
  | JObj ms => forallb (fun m => asciiText (fst m) && wellFormed (snd m)) ms
  end.

Section json_ind.
Context (P : Json -> Prop).
Hypothesis nul : P JNull.
Hypothesis boo : forall b, P (JBool b).
Hypothesis num : forall t, P (JNum t).
Hypothesis str : forall s, P (JStr s).
Hypothesis arr : forall l, Forall P l -> P (JArr l).
Hypothesis obj : forall ms, Forall (fun m => P (snd m)) ms -> P (JObj ms).

Fixpoint json_ind' (v : Json) : P v :=
  match v with
  | JNull => nul
  | JBool b => boo b
  | JNum t => num t
  | JStr s => str s
  | JArr l => arr l ((fix go l : Forall P l := match l with [] => Forall_nil_2 _ | v :: l' => Forall_cons_2 _ _ _ (json_ind' v) (go l') end) l)
  | JObj ms => obj ms ((fix go ms : Forall (fun m => P (snd m)) ms :=
      match ms with [] => Forall_nil_2 _ | m :: ms' => Forall_cons_2 _ _ _ (json_ind' (snd m)) (go ms') end) ms)
  end.
End json_ind.

(** The fuel a value needs. *)
Fixpoint fuelOf (v : Json) : nat :=
  match v with
  | JArr l => S (list_sum (map (fun v => S (fuelOf v)) l))
  | JObj ms => S (list_sum (map (fun m => S (fuelOf (snd m))) ms))
  | _ => 1
  end.

(** What follows a value: nothing that could belong to a number. *)
Definition stops (t : string) : bool := match t with EmptyString => true | String c _ => negb (numChar c) end.

Lemma spanNum_app a : forall t, spanNum a = (a, "") -> stops t = true -> spanNum (a +:+ t) = (a, t).
Proof.
  induction a as [|c a IH]; intros t Ha Ht.
  - destruct t as [|c t]; [done|]. cbn in Ht. change ("" +:+ String c t) with (String c t). cbn [spanNum]. by destruct (numChar c).
  - change (String c a +:+ t) with (String c (a +:+ t)). cbn [spanNum] in *. destruct (numChar c); [|done].
    destruct (spanNum a) as [x y] eqn:E. injection Ha as -> ->. by rewrite IH.
Qed.

Lemma numText_head t : numText t = true -> exists c r, t = String c r /\ (digit c || Ascii.eqb c "-"%char) = true.
Proof.
  intros [H _]%andb_true_iff. destruct t as [|c r]; [done|]. exists c, r. split; [done|].
  destruct (Ascii.eqb_spec c "-") as [->|Hne]; [done|]. rewrite orb_false_r.
  destruct c as [[] [] [] [] [] [] [] []]; try reflexivity; try discriminate H. by destruct Hne.
Qed.

(** How the text of a value starts. *)
Definition opens (c : ascii) : bool :=
  negb ((byteZ c =? 32) || (byteZ c =? 9) || (byteZ c =? 10) || (byteZ c =? 13)) && negb (Ascii.eqb c "]"%char).
Lemma marshal_head v : wellFormed v = true -> exists c r, marshal v = String c r /\ opens c = true.
Proof.
  destruct v as [|[]|n|s|l|ms]; intros H; cbn [marshal]; try by eexists _, _.
  destruct (numText_head n H) as (c & r & -> & Hc). exists c, r. split; [done|].
  destruct c as [[] [] [] [] [] [] [] []]; try reflexivity; discriminate Hc.
Qed.

Lemma skipWs_opens c r : opens c = true -> skipWs (String c r) = String c r.
Proof. intros [H _]%andb_true_iff. apply negb_true_iff in H. cbn [skipWs]. cbv zeta. by rewrite H. Qed.
Lemma skipWs_marshal v t : wellFormed v = true -> skipWs (marshal v +:+ t) = marshal v +:+ t.
Proof. intros H. destruct (marshal_head v H) as (c & r & -> & Hc). by apply (skipWs_opens c (r +:+ t)). Qed.

Lemma separated_cons close x items :
  separated close (x :: items) = x +:+ match items with [] => String close "" | _ => String ","%char (separated close items) end.
Proof. by destruct items. Qed.

(** What is read back of a value that stands before other text. *)
Definition readsBack (v : Json) : Prop :=
  wellFormed v = true -> forall f t, (fuelOf v <= f)%nat -> stops t = true -> parseValue f (marshal v +:+ t) = Some (v, t).

Lemma parse_items l : Forall readsBack l -> forallb wellFormed l = true -> l <> [] ->
  forall f t, (list_sum (map (fun v => S (fuelOf v)) l) <= f)%nat -> stops t = true ->
  parseItems f (separated "]"%char (map marshal l) +:+ t) = Some (l, t).
Proof.
  induction 1 as [|v l Hv _ IH]; [done|]. intros [Hw Hl]%andb_true_iff _ [|f] t Hf Ht; cbn [map list_sum fold_right] in Hf; [lia|].
  cbn [map]. rewrite separated_cons, <- string_app_assoc. cbn [parseItems].
  destruct l as [|v' l].
  - cbn [map]. by rewrite Hv by (done || lia).
  - change (match map marshal (v' :: l) with [] => _ | _ => ?x end) with x.
    change (String ","%char ?x +:+ ?t) with (String ","%char (x +:+ t)). rewrite Hv by (done || lia).
    rewrite (skipWs_opens ","), Ascii.eqb_refl by done. rewrite IH; [done..| |done]. cbn [map list_sum fold_right] in *. lia.
Qed.

Definition memberText (m : string * Json) : string := jsonString (fst m) +:+ String ":"%char (marshal (snd m)).
Lemma parse_members ms : Forall (fun m => readsBack (snd m)) ms ->
  forallb (fun m => asciiText (fst m) && wellFormed (snd m)) ms = true -> ms <> [] ->
  forall f t, (list_sum (map (fun m => S (fuelOf (snd m))) ms) <= f)%nat -> stops t = true ->
  parseMembers f (separated "}"%char (map memberText ms) +:+ t) = Some (ms, t).
Proof.
  induction 1 as [|[k v] ms Hv _ IH]; [done|]. intros [[Hk Hw]%andb_true_iff Hl]%andb_true_iff _ [|f] t Hf Ht; cbn [map list_sum fold_right fst snd] in *; [lia|].
  rewrite separated_cons. unfold memberText at 1, jsonString at 1. cbn [fst snd]. cbn [String.append]. rewrite <- !string_app_assoc.
  cbn [parseMembers]. rewrite (skipWs_opens quote), Ascii.eqb_refl by done. cbn [negb].
  rewrite parseStr_string by done. cbn [String.append]. rewrite (skipWs_opens ":"), Ascii.eqb_refl by done. cbn [negb].
  destruct ms as [|m' ms].
  - cbn [map]. by rewrite Hv by (done || lia).
  - change (match map memberText (m' :: ms) with [] => _ | _ => ?x end) with x.
    change (String ","%char ?x +:+ ?t) with (String ","%char (x +:+ t)). rewrite Hv by (done || lia).
    rewrite (skipWs_opens ","), Ascii.eqb_refl by done. rewrite IH; [done..| |done]. cbn [map list_sum fold_right] in *. lia.
Qed.

Lemma literal_app text v t : literal text v (text +:+ t) = Some (v, t).
Proof. unfold literal. by rewrite HasPrefix_app, drop_string_app. Qed.

Lemma parse_number n f t : numText n = true -> stops t = true -> parseValue (S f) (n +:+ t) = Some (JNum n, t).
Proof.
  intros H Ht. destruct (numText_head n H) as (c & r & -> & Hc). apply andb_true_iff in H as [Hv Hs%bool_decide_eq_true].
  assert (spanNum (String c r +:+ t) = (String c r, t)) as E by by apply spanNum_app.
  change (String c r +:+ t) with (String c (r +:+ t)) in *.
  destruct c as [[] [] [] [] [] [] [] []]; try discriminate Hc; cbn [parseValue]; rewrite skipWs_opens by done; cbn [Ascii.eqb Bool.eqb];
    (etransitivity; [refine (eq_trans (f_equal (fun p : string * string => let '(t, r') := p in if validNumber t then Some (JNum t, r') else None) E) _); by rewrite Hv|done]).
Qed.

Lemma parse_marshal v : readsBack v.
Proof.
  induction v as [|b|n|s|l Hl|ms Hm] using json_ind'; intros Hw [|f] t Hf Ht; try (cbn [fuelOf] in Hf; lia).
  - exact (literal_app "null" JNull t).
  - destruct b; [exact (literal_app "true" (JBool true) t)|exact (literal_app "false" (JBool false) t)].
  - by apply parse_number.
  - cbn [marshal]. unfold jsonString. cbn [parseValue String.append]. rewrite skipWs_opens by done. cbn [Ascii.eqb Bool.eqb quote].
    rewrite <- string_app_assoc. by rewrite parseStr_string.
  - cbn [marshal fuelOf wellFormed] in *. cbn [parseValue String.append]. rewrite skipWs_opens by done.
    destruct l as [|v l]; [done|]. assert (parseItems f (separated "]"%char (map marshal (v :: l)) +:+ t) = Some (v :: l, t)) as E by (apply parse_items; [done|done|done|lia|done]).
    assert (wellFormed v = true) as Hv by by apply andb_true_iff in Hw as [Hv _].
    destruct (marshal_head v Hv) as (c & r & Ec & Hc).
    assert (exists r', separated "]"%char (map marshal (v :: l)) +:+ t = String c r') as [r' Er].
    { cbn [map]. rewrite separated_cons, Ec. by eexists. }
    rewrite Er in *. rewrite skipWs_opens by done. apply andb_true_iff in Hc as [_ Hc%negb_true_iff].
    cbn [Ascii.eqb Bool.eqb]. rewrite Hc. by rewrite E.
  - cbn [marshal fuelOf wellFormed] in *. cbn [parseValue String.append]. rewrite skipWs_opens by done.
    destruct ms as [|m ms]; [done|].
    assert (parseMembers f (separated "}"%char (map memberText (m :: ms)) +:+ t) = Some (m :: ms, t)) as E by (apply parse_members; [done|done|done|lia|done]).
    assert (exists r', separated "}"%char (map memberText (m :: ms)) +:+ t = String quote r') as [r' Er].
    { cbn [map]. rewrite separated_cons. by eexists. }
    change (map (fun m => jsonString (fst m) +:+ String ":"%char (marshal (snd m))) (m :: ms)) with (map memberText (m :: ms)).
    rewrite Er in *. rewrite skipWs_opens by done. cbn [Ascii.eqb Bool.eqb quote]. by rewrite E.
Qed.

(** The fuel of [unmarshal] is enough. *)
Lemma separated_length close items :
  (match items with [] => 1 | _ => list_sum (map (fun x => S (String.length x)) items) end <= String.length (separated close items))%nat.
Proof.
  induction items as [|x items IH]; [done|]. rewrite separated_cons, length_append. cbn [map list_sum fold_right] in *.
  destruct items as [|y items]; cbn [String.length] in *; [cbn; lia|]. unfold list_sum in *. cbn [map fold_right] in *. lia.
Qed.

Lemma sums_le {A} (f g : A -> nat) l : Forall (fun x => (f x <= g x)%nat) l -> (list_sum (map f l) <= list_sum (map g l))%nat.
Proof. unfold list_sum. induction 1; cbn [map fold_right]; lia. Qed.

Lemma fuel_enough v : wellFormed v = true -> (fuelOf v <= String.length (marshal v))%nat.
Proof.
  induction v as [|b|n|s|l Hl|ms Hm] using json_ind'; intros Hw.
  - cbn; lia.
  - destruct b; cbn; lia.
  - destruct (numText_head n Hw) as (c & r & -> & _). cbn; lia.
  - cbn; lia.
  - cbn [fuelOf marshal String.length]. apply le_n_S. etransitivity; [|apply separated_length]. cbn [wellFormed] in Hw.
    destruct l as [|v l]; [cbn; lia|]. change (match map marshal (v :: l) with [] => _ | _ => ?x end) with x.
    rewrite map_map. apply sums_le. rewrite forallb_forall in Hw. rewrite Forall_forall in *. intros x Hx.
    apply le_n_S, (Hl x Hx). apply Hw. by apply list_elem_of_In.
  - cbn [fuelOf marshal String.length]. apply le_n_S. etransitivity; [|apply separated_length]. cbn [wellFormed] in Hw.
    destruct ms as [|m ms]; [cbn; lia|]. change (match map ?f (m :: ms) with [] => _ | _ => ?x end) with x.
    rewrite map_map. apply sums_le. rewrite forallb_forall in Hw. rewrite Forall_forall in *. intros x Hx.
    apply le_n_S. rewrite length_append. cbn [String.length]. etransitivity; [apply (Hm x Hx)|lia].
    by destruct (proj1 (andb_true_iff _ _) (Hw x (proj1 (list_elem_of_In _ _) Hx))).
Qed.

Lemma unmarshal_marshal v : wellFormed v = true -> unmarshal (marshal v) = Some v.
Proof.
  intros H. unfold unmarshal. assert (marshal v = marshal v +:+ "") as E by by rewrite string_app_nil.
  rewrite E at 2. rewrite parse_marshal; [done|done| |done]. pose proof (fuel_enough v H). lia.
Qed.
