(* ===== verification/BoxInstall.v ===== *)
(** * BoxInstall: sing-box is installed on a node

    internal/backend/singbox/singbox.go ([deployOptsAndClient]), the first remote
    step of every deploy and of a take-over: the directories, the binary and the
    unit, then a minimal configuration over the one of the node, and a restart.
    The scripts before the configuration are one outcome; what the other
    commands do, and whether the program learns of it, is the oracle
    [InstallFaults].  The node's sing-box is the state [Remote] of [Push]. *)

From S2P Require Import Prelude GoStrings Model Codec Json PeerSync Push.

(** Whether a step before the configuration fails, the outcome of its write and
    of the restart, the replies of the probe. *)
Record InstallFaults := mkInstallFaults { in_before : bool; in_write : CmdOutcome; in_restart : RestartOutcome; in_probe : list bool }.

(** The configuration the installer leaves. *)
Definition minimalConfig : Json :=
  JObj [("log", JObj [("level", JStr "info")]); ("inbounds", JArr []); ("outbounds", JArr [JObj [("type", JStr "direct"); ("tag", JStr "direct")]])].
Definition minimalCfg : string := marshal minimalConfig.

Definition overwrite (r : Remote) : Remote := r <| rm_config := Some minimalCfg |>.
Definition boxUp (r : Remote) : bool := bool_decide (is_Some (rm_running r)).

Section install.
Context `{NodeEnv}.

(** [deployOptsAndClient] without the kernel module: an error, whether the unit
    was enabled, and the node.  An error of the upload is ignored without sudo. *)
Definition installBox (f : InstallFaults) (useSudo : bool) (r : Remote) : bool * bool * Remote :=
  if in_before f then (true, false, r)
  else
    let '(failed, r) := match in_write f with CmdOK => (false, overwrite r) | CmdFailed applied => (useSudo, if applied then overwrite r else r) end in
    if failed then (true, false, r)
    else
      let r' := restartService r in
      match in_restart f with
      | RestartNotRun => (true, false, r)
      | RestartLost => (true, true, r')
      | RestartRun reports =>
          if reports && negb (boxUp r') then (true, true, r')
          else (negb (boxUp r' && existsb (fun arrives => arrives) (take 3 (in_probe f))), true, r')
      end.

(** What an installation can leave: a configuration is the old one or the
    minimal one, and the service runs what it ran, or was restarted with the
    configuration on disk. *)
Record installed (f : InstallFaults) (failed : bool) (r r' : Remote) : Prop := {
  is_backup : rm_backup r' = rm_backup r;
  is_config : rm_config r' = Some minimalCfg \/ (in_write f <> CmdOK \/ failed = true) /\ rm_config r' = rm_config r;
  is_running : rm_running r' = rm_running (restartService r') \/ failed = true /\ rm_running r' = rm_running r;
  is_up : failed = false -> is_Some (rm_config r') /\ rm_running r' = rm_config r' }.

Lemma restartService_up r : boxUp (restartService r) = true -> is_Some (rm_config r) /\ rm_running (restartService r) = rm_config r.
Proof.
  unfold boxUp, restartService. intros Hup%bool_decide_eq_true. cbn in *. destruct (rm_config r) as [c|]; [|by destruct Hup].
  destruct (staysUp c); [by split; [exists c|]|by destruct Hup].
Qed.

Lemma installBox_spec f useSudo r failed en r' : installBox f useSudo r = (failed, en, r') -> installed f failed r r'.
Proof.
  unfold installBox. destruct (in_before f); [intros [= <- <- <-]; split; auto; done|].
  set (wr := match in_write f with CmdOK => _ | CmdFailed _ => _ end).
  assert (rm_backup (snd wr) = rm_backup r /\ rm_running (snd wr) = rm_running r /\
          (rm_config (snd wr) = Some minimalCfg \/ in_write f <> CmdOK /\ rm_config (snd wr) = rm_config r)) as (W1 & W2 & W3).
  { unfold wr. destruct (in_write f) as [|[]]; cbn; auto. }
  destruct wr as [wf r1]. cbn [snd] in W1, W2, W3. destruct wf; [intros [= <- <- <-]; split; [done|tauto|tauto|done]|].
  assert (forall b : bool, (b = false -> boxUp (restartService r1) = true) -> installed f b r (restartService r1)) as Hre.
  { intros b Hb. split; [done|change (rm_config (restartService r1)) with (rm_config r1); tauto|by left|].
    intros Hf. exact (restartService_up r1 (Hb Hf)). }
  destruct (in_restart f) as [| |reports].
  - intros [= <- <- <-]. split; [done|tauto|tauto|done].
  - intros [= <- <- <-]. by apply Hre.
  - destruct (reports && _); intros [= <- <- <-]; apply Hre; [done|].
    by intros [Hb _]%negb_false_iff%andb_true_iff.
Qed.
End install.

Definition cleanInstall : InstallFaults := mkInstallFaults false CmdOK (RestartRun true) [true].

(** The deploy that follows saves the minimal configuration as its backup: when
    the new configuration is refused, the node is rolled back to serving
    nobody, although it ran a configuration before. *)
Lemma failed_deploy_leaves_minimal :
  let r := mkRemote (Some "old") None (Some "old") in
  let '(failed, _, r1) := @installBox sampleEnv cleanInstall false r in
  failed = false /\
  @pushConfigLocked sampleEnv noFaults "bad" r1 = (DeployFailed, mkRemote (Some minimalCfg) (Some minimalCfg) (Some minimalCfg)).
Proof. vm_compute. by split. Qed.
