(* ===== verification/DeployChain.v ===== *)
(** * DeployChain: a chain is applied to its nodes

    internal/chain/applier_build.go ([ApplyChain], [ApplyMergedNode]),
    deploystatus.go and awg3_capability.go: the checks before anything is
    touched, the keys, the store, then one node after the other: the merged
    configuration, the connection, the installation, the kernel interfaces and
    the push, and what is recorded.  The servers are a map from addresses to
    nodes of [AwgPush].  The text of a configuration is the interface
    [NodeRenderer] (its parts are [Roles], [MergedRoute] and [MergedConfig]),
    its SHA-256 the interface [ConfigHasher]; what the network does is an oracle. *)

From S2P Require Import Prelude GoStrings Model ChainModel Lifecycle StoreCore Store Alloc Presets Roles Keygen KeygenAddresses Codec AwgConf AwgMaterial ProfileDeploy EntryMaterial Push PeerSync AwgPush AwgDeploy Json BoxInstall.

(** ** The kernel module of a node (awg3_capability.go) *)

(** [awgVersionMajor]. *)
Fixpoint majorFrom (n : Z) (gotDigit : bool) (s : string) : Z :=
  match s with
  | String c s' =>
      match digitOf c with
      | Some d => majorFrom (wrap64 (wrap64 (n * 10) + d)) true s'
      | None => if gotDigit then n else 0
      end
  | EmptyString => if gotDigit then n else 0
  end.
Definition awgVersionMajor (version : string) : Z := majorFrom 0 false version.

(** [awgKernelVersionSupportsHPK], [awgToolsVersionSupportsHPK]. *)
Definition awgKernelVersionSupportsHPK (version : string) : bool := 3 <=? awgVersionMajor version.
Definition awgToolsVersionSupportsHPK (versionLine : string) : bool :=
  let s := TrimSpace (TrimPrefix (TrimSpace versionLine) "amneziawg-tools") in
  3 <=? awgVersionMajor (TrimPrefix s "v").

(** The replies to the three probes; an error is the empty reply. *)
Record ProbeReplies := mkProbeReplies { pr_kallsyms : string; pr_modinfo : string; pr_tools : string }.

(** [detectKernelAWG3]. *)
Definition detectKernelAWG3 (p : ProbeReplies) : bool :=
  if negb (TrimSpace (pr_kallsyms p) == "yes") && negb (awgKernelVersionSupportsHPK (TrimSpace (pr_modinfo p))) then false
  else awgToolsVersionSupportsHPK (TrimSpace (pr_tools p)).

(** [persistKernelAWG3]. *)
Definition persistKernelAWG3 (nodeID : string) (supported : bool) (w : World) : World :=
  match GetNodeInfo nodeID w with
  | Err _ => w
  | Ok info =>
      if Bool.eqb (NodeInfo_KernelAWG3Supported info) supported then w
      else snd (SaveNodeInfo (info <| NodeInfo_KernelAWG3Supported := supported |>) w)
  end.

(** ** Interfaces *)

(** [buildMergedNodeConfig] and the JSON encoding; [None] is an error. *)
Class NodeRenderer := renderNode : World -> NodeInfo -> list Chain -> option string.
(** SHA-256 in hexadecimal. *)
Class ConfigHasher := ConfigHash : string -> string.

(** What the network and a node answer during one deploy. *)
Record NodeOracle := mkNodeOracle {
  no_preflight : Host -> bool;     (* the check before the deploy can connect *)
  no_probe : ProbeReplies;
  no_connect : Host -> bool;       (* the deploy can connect *)
  no_install : InstallFaults;      (* sing-box is installed *)
  no_module : bool;                (* the AWG module is installed *)
  no_forward : bool;               (* forwarding is enabled *)
  no_push : DeployFaults }.

#[export] Instance eta_NodeOracle : Eta NodeOracle := fun r => mkNodeOracle (no_preflight r) (no_probe r) (no_connect r) (no_install r) (no_module r) (no_forward r) (no_push r).

Abbreviation Fleet := (gmap string AwgNode).
Definition emptyServer : AwgNode := mkAwgNode ∅ ∅ (mkRemote None None None).
Definition serverAt (addr : string) (fl : Fleet) : AwgNode := default emptyServer (fl !! addr).

(** [ResolveHostKey]. *)
Definition ResolveHostKey (w : World) (h : Host) : Host :=
  if Host_KeyPath h == "" then
    match GetSettings w with
    | Ok s => if PanelSettings_DefaultSSHKeyID s != "" then h <| Host_KeyPath := PanelSettings_DefaultSSHKeyID s |> else h
    | Err _ => h
    end
  else h.

Definition nodeHost (n : ChainNode) : Host :=
  mkHost (ChainNode_ID n) (ChainNode_Addr n) (ChainNode_User n) (ChainNode_KeyPath n).

Inductive DeployError :=
| BuildConfig
| SSHConnect
| DeploySingBox
| InstallAWGModule
| EnableIPForward
| PushConfig (r : AwgPushResult).

Section apply.
Context {NE : NodeEnv} {AQ : AwgQuick} {AU : AwgUp} {RN : NodeRenderer} {CH : ConfigHasher}.
Context (g : CPSGen) (gc : string -> CredGen) (s : PresetState) (now : Time) (O : string -> NodeOracle).

(** [recordDeploySuccess] (deploystatus.go). *)
Definition recordDeploySuccess (nodeID cfg : string) (w : World) : World :=
  if nodeID == "" then w
  else
    let info := match GetNodeInfo nodeID w with Ok info => info | Err _ => zeroNodeInfo end in
    snd (SaveNodeInfo (((info <| NodeInfo_Host := (NodeInfo_Host info) <| Host_ID := nodeID |> |>)
                          <| NodeInfo_LastDeployedHash := ConfigHash cfg |>) <| NodeInfo_LastDeployedAt := now |>) w).

(** The push and what is recorded; [None] is a panic. *)
Definition pushAndRecord (id addr cfg : string) (plan : AWGDeployPlan) (w : World) (fl : Fleet)
    : option (option DeployError * World * Fleet) :=
  match pushConfigWithAWGTeardown (no_push (O id)) cfg (plan_files plan) (plan_teardown plan) (serverAt addr fl) with
  | (AwgPanic, _) => None
  | (BoxPushed Success, n) => Some (None, recordDeploySuccess id cfg w, <[addr := n]> fl)
  | (r, n) => Some (Some (PushConfig r), w, <[addr := n]> fl)
  end.

(** The chains of a node, with the chain being applied in its place. *)
Fixpoint replaceChain (chain : Chain) (cs : list Chain) : list Chain :=
  match cs with
  | [] => [chain]
  | c :: cs' => if Chain_Name c == Chain_Name chain then chain :: cs' else c :: replaceChain chain cs'
  end.

Definition chainsOfNode (chain : Chain) (nodeID : string) (w : World) : list Chain :=
  replaceChain chain (match GetChainsForNode nodeID w with Ok cs => cs | Err _ => [] end).

(** The installation on the server of a node ([BoxInstall]); [true]: an error. *)
Definition installOn (f : InstallFaults) (useSudo : bool) (n : AwgNode) : bool * AwgNode :=
  let '(failed, _, box) := installBox f useSudo (an_box n) in (failed, n <| an_box := box |>).

(** One turn of the deploy loop of [ApplyChain]. *)
Definition deployNode (chain : Chain) (kernel : bool) (node : ChainNode) (w : World) (fl : Fleet)
    : option (option DeployError * World * Fleet) :=
  let id := ChainNode_ID node in
  let chains := chainsOfNode chain id w in
  let info := (entryRecord node w) <| NodeInfo_KernelAWG3Supported := kernel |> in
  let w1 := snd (usersByInboundMap gc now (NodeInfo_Inbounds info) w) in
  match renderNode w info chains with
  | None => Some (Some BuildConfig, w1, fl)
  | Some cfg =>
      if negb (no_connect (O id) (ResolveHostKey w1 (nodeHost node))) then Some (Some SSHConnect, w1, fl)
      else
        let '(failed, server) := installOn (no_install (O id)) (NodeInfo_UseSudo info) (serverAt (ChainNode_Addr node) fl) in
        let fl := <[ChainNode_Addr node := server]> fl in
        if failed then Some (Some DeploySingBox, w1, fl)
        else
        match renderAWGDeployPlan g gc s now info chains w1 with
        | None => None
        | Some (plan, w2) =>
            let needAWGModule := match plan_files plan with [] => false | _ => true end ||
                                 (Chain_UserProtocol chain == UserProtocolAWG) || (Chain_Transport chain == TransportAWG) in
            if needAWGModule && negb (no_module (O id)) then Some (Some InstallAWGModule, w2, fl)
            else if needAWGModule && negb (no_forward (O id)) then Some (Some EnableIPForward, w2, fl)
            else pushAndRecord id (ChainNode_Addr node) cfg plan w2 fl
        end
  end.

Fixpoint deployNodes (chain : Chain) (kernel : gmap string bool) (nodes : list ChainNode) (w : World) (fl : Fleet)
    : option (list (string * option DeployError) * World * Fleet) :=
  match nodes with
  | [] => Some ([], w, fl)
  | n :: nodes' =>
      match deployNode chain (default false (kernel !! ChainNode_ID n)) n w fl with
      | None => None
      | Some (e, w1, fl1) =>
          match deployNodes chain kernel nodes' w1 fl1 with
          | None => None
          | Some (rs, w2, fl2) => Some ((ChainNode_ID n, e) :: rs, w2, fl2)
          end
      end
  end.

(** The check of the connections; [inl] is the node that cannot be reached. *)
Fixpoint preflightNodes (nodes : list ChainNode) (kernel : gmap string bool) (w : World) : (string + gmap string bool) * World :=
  match nodes with
  | [] => (inr kernel, w)
  | n :: nodes' =>
      let id := ChainNode_ID n in
      if negb (no_preflight (O id) (ResolveHostKey w (nodeHost n))) then (inl id, w)
      else
        let k := detectKernelAWG3 (no_probe (O id)) in
        preflightNodes nodes' (<[id := k]> kernel) (persistKernelAWG3 id k w)
  end.

Inductive ApplyError :=
| NoNodes
| BadTopology (e : TopologyError)
| Preflight (id : string)
| KeysFailed
| SaveChainFailed (e : StoreErr)
| EntryFailed (e : EntryErr)
| NodesFailed.

(** The chain as it was saved and the result of each node. *)
Record ApplyReport := mkApplyReport { rep_chain : Chain; rep_nodes : list (string * option DeployError) }.

Definition failedNode (r : string * option DeployError) : bool := bool_decide (is_Some (snd r)).

(** The preset of the material. *)
Definition applyPreset (c : Chain) : option ConnectionPreset :=
  if Chain_ObfuscationProfile c != "" then
    match GetPreset s (Chain_ObfuscationProfile c) with Some p => Some p | None => GetDefaultPreset s end
  else GetEffectivePreset s c.

(** [ApplyChain]; [None] is a panic. *)
Definition ApplyChain (G : KeyGens) (ge : string -> EntryGen) (chain : Chain) (awgClientPubKey : string) (d : nat) (w : World) (fl : Fleet)
    : option (option ApplyReport * option ApplyError * World * Fleet) :=
  let c := if IsLevelized chain then chain <| Chain_Nodes := AllNodes chain |> else chain in
  match Chain_Nodes c with
  | [] => Some (None, Some NoNodes, w, fl)
  | _ =>
      let c := applyDefaults c in
      match ValidateChainTopology c with
      | Some e => Some (None, Some (BadTopology e), w, fl)
      | None =>
          match preflightNodes (Chain_Nodes c) ∅ w with
          | (inl id, w) => Some (None, Some (Preflight id), w, fl)
          | (inr kernel, w) =>
              match applyPreset c with
              | None => None
              | Some preset =>
                  match prepareKeys G awgClientPubKey (EnsureChainAWGMaterial g preset c) d with
                  | (None, _) => Some (None, Some KeysFailed, w, fl)
                  | (Some c, _) =>
                      match SaveChain c w with
                      | (Err e, w) => Some (None, Some (SaveChainFailed e), w, fl)
                      | (Ok c, w) =>
                          match EnsureChainEntryMaterialization ge c preset w with
                          | (Some e, w) => Some (None, Some (EntryFailed e), w, fl)
                          | (None, w) =>
                              match deployNodes c kernel (Chain_Nodes c) w fl with
                              | None => None
                              | Some (rs, w, fl) =>
                                  Some (Some (mkApplyReport c rs), if existsb failedNode rs then Some NodesFailed else None, w, fl)
                              end
                          end
                      end
                  end
              end
          end
      end
  end.
End apply.

(** ** Lemmas: the store *)

Lemma modifyStore_infos {A} (f : storeFile -> Result (A * storeFile)) cs infos w :
  (forall sf a sf', f sf = Ok (a, sf') -> sf_NodeInfos sf' = sf_NodeInfos sf /\ sf_Chains sf' = sf_Chains sf) ->
  infosOn cs infos w -> infosOn cs infos (snd (modifyStore (readOrNew w) f w)).
Proof.
  intros Hf Hi. pose proof Hi as (Hw & Hnd & sf & Hr & Hn & Hc).
  destruct (modifyStore (readOrNew w) f w) as [[a|e] w'] eqn:E; cbn [snd]; [|by apply modifyStore_Err in E as ->].
  destruct (modifyStore_Ok _ _ _ _ _ E) as (sf0 & sf1 & H1 & H2 & H3 & H4 & H5 & _).
  assert (readOrNew w = Ok sf) as Ho by (unfold readOrNew; by rewrite Hr). rewrite Ho in H1. injection H1 as <-.
  destruct (Hf _ _ _ H2) as [Hn' Hc']. split; [unfold writable; by rewrite H4, H5|]. split; [done|].
  eexists. split; [exact H3|]. cbn. by rewrite Hn', Hc'.
Qed.

Lemma SaveUser_infos now u cs infos w : infosOn cs infos w -> infosOn cs infos (snd (SaveUser now u w)).
Proof.
  apply modifyStore_infos. intros sf a sf'. cbn beta zeta.
  repeat case_match; try done; by intros [= _ <-].
Qed.

Lemma proxyUsers_infos gc now cs infos all : forall w, infosOn cs infos w -> infosOn cs infos (snd (proxyUsers gc now all w)).
Proof.
  induction all as [|u all IH]; intros w Hw; cbn [proxyUsers]; [done|].
  destruct (negb _).
  - specialize (IH w Hw). by destruct (proxyUsers gc now all w) as [[a us] w2].
  - destruct (proxyUser _ _ _ _) as [u' w1] eqn:Ep.
    assert (infosOn cs infos w1) as Hw1.
    { unfold proxyUser in Ep. destruct (_ != _); [|by injection Ep as _ <-].
      pose proof (SaveUser_infos now (fst (EnsureUserCreds (gc (User_ID u)) u)) cs infos w Hw) as Hs.
      destruct (SaveUser _ _ _) as [[v|e] w0]; by injection Ep as _ <-. }
    specialize (IH w1 Hw1). by destruct (proxyUsers gc now all w1) as [[a us] w2].
Qed.

Lemma usersByInboundMap_infos gc now ibs cs infos w : infosOn cs infos w -> infosOn cs infos (snd (usersByInboundMap gc now ibs w)).
Proof.
  intros Hw. unfold usersByInboundMap. destruct (ListUsers w) as [all|]; [|done].
  generalize (∅ : gmap string (list User)). revert all w Hw.
  induction ibs as [|ib ibs IH]; intros all w Hw out; cbn [usersByInboundLoop]; [done|].
  destruct (_ == ""); [by apply IH|]. destruct (proxyInbound ib); [|by apply IH].
  pose proof (proxyUsers_infos gc now cs infos all w Hw) as Hp. destruct (proxyUsers gc now all w) as [[a us] w1]. by apply IH.
Qed.

Lemma renderAWGDeployPlan_infos g gc s now ni chains cs infos w plan w' :
  infosOn cs infos w -> renderAWGDeployPlan g gc s now ni chains w = Some (plan, w') -> infosOn cs infos w'.
Proof.
  intros Hw. unfold renderAWGDeployPlan. pose proof (usersByInboundMap_infos gc now (NodeInfo_Inbounds ni) cs infos w Hw) as Hu.
  destruct (usersByInboundMap _ _ _ _) as [m w1]. repeat case_match; try done. by intros [= _ <-].
Qed.

Lemma SaveNodeInfo_records cs (ni : NodeInfo) infos w :
  infosOn cs infos w ->
  exists infos', infosOn cs infos' (snd (SaveNodeInfo ni w)) /\ find_key (NodeInfo_ID ni) infos' = Some ni /\
    forall id, id <> NodeInfo_ID ni -> find_key id infos' = find_key id infos.
Proof.
  intros Hw. destruct (SaveNodeInfo_infos cs ni infos w Hw) as (w' & -> & Hw'). exists (upsert ni infos).
  split; [exact Hw'|]. split; [exact (find_upsert_eq ni infos)|]. intros id Hid. by apply find_upsert_ne.
Qed.

Lemma persistKernelAWG3_infos id k cs infos w : infosOn cs infos w -> exists infos', infosOn cs infos' (persistKernelAWG3 id k w).
Proof.
  intros Hw. unfold persistKernelAWG3. destruct (GetNodeInfo id w) as [info|]; [|by exists infos].
  case_match; [by exists infos|].
  destruct (SaveNodeInfo_records cs (info <| NodeInfo_KernelAWG3Supported := k |>) infos w Hw) as (infos' & H1 & _). by exists infos'.
Qed.

Lemma SaveChain_infos (c c' : Chain) cs infos w w' :
  infosOn cs infos w -> SaveChain c w = (Ok c', w') -> infosOn (upsert c' cs) infos w'.
Proof.
  intros (Hw & Hnd & sf & Hr & Hn & Hc) E. unfold SaveChain in E.
  destruct (modifyStore_Ok _ _ _ _ _ E) as (sf0 & sf1 & H1 & H2 & H3 & H4 & H5 & _).
  assert (readOrNew w = Ok sf) as Ho by (unfold readOrNew; by rewrite Hr). rewrite Ho in H1. injection H1 as <-.
  split; [unfold writable; by rewrite H4, H5|]. split; [done|]. eexists. split; [exact H3|].
  assert (c' = (if IsLevelized c then c <| Chain_Nodes := AllNodes c |> else c)) as -> by congruence.
  injection H2 as <-. cbn. by rewrite Hn, Hc.
Qed.

Lemma GetChain_infos c cs infos w : infosOn (upsert c cs) infos w -> GetChain (Chain_Name c) w = Ok c.
Proof.
  intros (_ & _ & sf & Hr & _ & Hc). unfold GetChain, readOrErr. rewrite Hr. cbn. rewrite Hc.
  change (Chain_Name c) with (key_of c). by rewrite (find_upsert_eq c cs).
Qed.

Lemma entryNodes_infos ge c preset ns cs : forall infos w w',
  infosOn cs infos w -> entryNodes ge c preset ns w = (None, w') -> exists infos', infosOn cs infos' w'.
Proof.
  induction ns as [|n ns IH]; intros infos w w' Hw; cbn [entryNodes]; [intros [= <-]; by exists infos|].
  destruct (entryNodeStep ge c preset n w) as [[e|] w1] eqn:En; [done|]. unfold entryNodeStep in En.
  destruct (_ == ""); [injection En as <-; by eapply IH|]. destruct (GetInboundProfile _ _) as [prof|]; [|done].
  destruct (ensureMaterializedEntryInbound _ _ _ _ _ _) as [ni changed]. destruct changed; [|injection En as <-; by eapply IH].
  destruct (SaveNodeInfo_records cs ni infos w Hw) as (infos' & H & _).
  destruct (SaveNodeInfo ni w) as [[u|e] w2]; [|done]. injection En as <-. by eapply IH.
Qed.

(** ** Lemmas: one node *)

Section nodes.
Context {NE : NodeEnv} {AQ : AwgQuick} {AU : AwgUp} {RN : NodeRenderer} {CH : ConfigHasher}.
Context (g : CPSGen) (gc : string -> CredGen) (s : PresetState) (now : Time) (O : string -> NodeOracle).

(** The server has the configuration and runs it. *)
Definition runs (cfg : string) (n : AwgNode) : Prop :=
  rm_config (an_box n) = Some cfg /\ rm_running (an_box n) = Some cfg.

Lemma failDeploy_fails f b r r' : failDeploy f b r <> (Success, r').
Proof. unfold failDeploy. destruct b; [|done]. destruct (performRollback f r) as [[] r1]; done. Qed.

Lemma push_Success f cfg r r' : pushConfigLocked f cfg r = (Success, r') -> rm_config r' = Some cfg /\ rm_running r' = Some cfg.
Proof.
  unfold pushConfigLocked. destruct (jsonValid cfg); [cbn [negb]|done]. destruct (createBackup f r) as [hp r1].
  destruct (f_ruleSets f); [done|]. destruct (f_write f); [done|].
  destruct (_ || _); [by intros ?%failDeploy_fails|].
  destruct (restartStep _ _) as [err r2] eqn:Er. destruct err; [by intros ?%failDeploy_fails|].
  destruct (probeServiceUp f r2) eqn:Ep; [|by intros ?%failDeploy_fails]. intros [= <-].
  unfold restartStep in Er. destruct (f_restart f) as [| |rep]; [done|done|]. injection Er as _ <-.
  unfold probeServiceUp in Ep. cbn in *. by destruct (staysUp cfg).
Qed.

Lemma pushTeardown_Success D cfg files td n n' :
  pushConfigWithAWGTeardown D cfg files td n = (BoxPushed Success, n') -> runs cfg n'.
Proof.
  unfold pushConfigWithAWGTeardown, runs.
  assert (forall n0 n1, (let '(r, box) := pushConfigLocked (df_box D) cfg (an_box n0) in (BoxPushed r, n1 <| an_box := box |>)) = (BoxPushed Success, n') ->
    rm_config (an_box n') = Some cfg /\ rm_running (an_box n') = Some cfg) as Hplain.
  { intros n0 n1. destruct (pushConfigLocked _ _ _) as [r box] eqn:E. intros [= -> <-]. by eapply push_Success. }
  destruct files as [|f fs]; [destruct td as [|t ts]|]; [by apply Hplain|..];
    (destruct (pushAWGConfs _ _ _ _) as [fr n1]; destruct fr; [|done|done];
     destruct (teardownAWGInterfaces _ _ _) as [stopped n2];
     specialize (Hplain n2 n2); destruct (pushConfigLocked _ _ _) as [r box]; destruct r; [exact Hplain|done..]).
Qed.

Lemma replaceChain_elem c cs : c ∈ replaceChain c cs.
Proof. induction cs as [|x cs IH]; cbn; [by left|]. case_match; [by left|by right]. Qed.

(** The node runs a configuration rendered for it from a store that holds the
    chains [cs], with the chain [c] among the chains of the node, and the store
    has its hash. *)
Definition deployed (cs : list Chain) (c : Chain) (n : ChainNode) (infos : list NodeInfo) (fl : Fleet) : Prop :=
  exists cfg w0 infos0 k, infosOn cs infos0 w0 /\ c ∈ chainsOfNode c (ChainNode_ID n) w0 /\
    renderNode w0 ((entryRecord n w0) <| NodeInfo_KernelAWG3Supported := k |>) (chainsOfNode c (ChainNode_ID n) w0) = Some cfg /\
    runs cfg (serverAt (ChainNode_Addr n) fl) /\
    (ChainNode_ID n <> "" -> exists ni, find_key (ChainNode_ID n) infos = Some ni /\ NodeInfo_LastDeployedHash ni = ConfigHash cfg).

(** A server on which the installation ran: [installed] of [BoxInstall], and the
    kernel interfaces are as they were. *)
Definition serverInstalled (f : InstallFaults) (failed : bool) (n n' : AwgNode) : Prop :=
  an_ifaces n' = an_ifaces n /\ an_backups n' = an_backups n /\ installed f failed (an_box n) (an_box n').

Lemma installOn_spec f useSudo n failed n' : installOn f useSudo n = (failed, n') -> serverInstalled f failed n n'.
Proof.
  unfold installOn. destruct (installBox f useSudo (an_box n)) as [[b en] box] eqn:E. intros [= <- <-].
  split; [done|]. split; [done|]. by eapply installBox_spec.
Qed.

(** What the result [e] of a deploy says of a server that did not succeed: before
    the installation it is as it was; a failed installation has left it as
    [installed] says; a later error before the push finds it with the installed
    sing-box; and a failed push started from there. *)
Definition failedServer (D : DeployFaults) (f : InstallFaults) (e : DeployError) (n n' : AwgNode) : Prop :=
  match e with
  | BuildConfig | SSHConnect => n' = n
  | DeploySingBox => serverInstalled f true n n'
  | InstallAWGModule | EnableIPForward => serverInstalled f false n n'
  | PushConfig r => r <> BoxPushed Success /\ exists n1 cfg files teardown, serverInstalled f false n n1 /\
      pushConfigWithAWGTeardown D cfg files teardown n1 = (r, n')
  end.

(** What the result of a node says. *)
Definition outcomeOf (cs : list Chain) (c : Chain) (n : ChainNode) (e : option DeployError) (infos : list NodeInfo) (fl0 fl : Fleet) : Prop :=
  match e with
  | None => deployed cs c n infos fl
  | Some e => failedServer (no_push (O (ChainNode_ID n))) (no_install (O (ChainNode_ID n))) e
                (serverAt (ChainNode_Addr n) fl0) (serverAt (ChainNode_Addr n) fl)
  end.

Lemma outcomeOf_later cs c n e infos infos' fl0 fl0' fl fl' :
  outcomeOf cs c n e infos fl0 fl -> find_key (ChainNode_ID n) infos' = find_key (ChainNode_ID n) infos ->
  fl0' !! ChainNode_Addr n = fl0 !! ChainNode_Addr n -> fl' !! ChainNode_Addr n = fl !! ChainNode_Addr n ->
  outcomeOf cs c n e infos' fl0' fl'.
Proof.
  intros H Hi Hf0 Hf. destruct e as [e|]; unfold outcomeOf in *; [by unfold serverAt in *; rewrite Hf, Hf0|].
  destruct H as (cfg & w & infos0 & k & H1 & H2 & H3 & H4 & H5). exists cfg, w, infos0, k.
  split_and!; [done..| |by rewrite Hi]. unfold serverAt in *. by rewrite Hf.
Qed.

(** A step that touches the record and the server of one node only. *)
Definition touchesOnly (n : ChainNode) (infos infos' : list NodeInfo) (fl fl' : Fleet) : Prop :=
  (forall id, id <> ChainNode_ID n -> find_key id infos' = find_key id infos) /\
  (forall a, a <> ChainNode_Addr n -> fl' !! a = fl !! a).

Lemma pushAndRecord_spec c n cfg plan cs infos w fl0 n1 e w' fl' w0 infos0 k :
  let fl := <[ChainNode_Addr n := n1]> fl0 in
  infosOn cs infos w -> infosOn cs infos0 w0 -> serverInstalled (no_install (O (ChainNode_ID n))) false (serverAt (ChainNode_Addr n) fl0) n1 ->
  renderNode w0 ((entryRecord n w0) <| NodeInfo_KernelAWG3Supported := k |>) (chainsOfNode c (ChainNode_ID n) w0) = Some cfg ->
  pushAndRecord now O (ChainNode_ID n) (ChainNode_Addr n) cfg plan w fl = Some (e, w', fl') ->
  exists infos', infosOn cs infos' w' /\ touchesOnly n infos infos' fl0 fl' /\ outcomeOf cs c n e infos' fl0 fl'.
Proof.
  intros fl Hw Hw0 Hinst Hr. unfold pushAndRecord.
  assert (serverAt (ChainNode_Addr n) fl = n1) as -> by (unfold serverAt, fl; by rewrite lookup_insert_eq).
  destruct (pushConfigWithAWGTeardown _ _ _ _ _) as [r n2] eqn:Ep.
  assert (forall a, a <> ChainNode_Addr n -> <[ChainNode_Addr n := n2]> fl !! a = fl0 !! a) as Hfl
    by (intros a Ha; unfold fl; by rewrite !lookup_insert_ne).
  assert (serverAt (ChainNode_Addr n) (<[ChainNode_Addr n := n2]> fl) = n2) as Hat by (unfold serverAt; by rewrite lookup_insert_eq).
  assert (r = BoxPushed Success \/ r <> BoxPushed Success) as [->|Hne] by (destruct r as [| |[]]; (by left) || by right).
  2: { intros H. assert (r <> AwgPanic) as Hnp by (by intros ->).
    assert (e = Some (PushConfig r) /\ w' = w /\ fl' = <[ChainNode_Addr n := n2]> fl) as (-> & -> & ->)
      by (destruct r as [| |[]]; done || by injection H as <- <- <-).
    exists infos. split; [done|]. split; [done|]. cbn [outcomeOf failedServer]. rewrite Hat. split; [done|]. by exists n1, cfg, (plan_files plan), (plan_teardown plan). }
  intros [= <- <- <-]. apply pushTeardown_Success in Ep.
  assert (forall infos', infosOn cs infos' (recordDeploySuccess now (ChainNode_ID n) cfg w) ->
    (ChainNode_ID n <> "" -> exists ni, find_key (ChainNode_ID n) infos' = Some ni /\ NodeInfo_LastDeployedHash ni = ConfigHash cfg) ->
    (forall id, id <> ChainNode_ID n -> find_key id infos' = find_key id infos) ->
    exists infos', infosOn cs infos' (recordDeploySuccess now (ChainNode_ID n) cfg w) /\ touchesOnly n infos infos' fl0 (<[ChainNode_Addr n := n2]> fl) /\
      outcomeOf cs c n None infos' fl0 (<[ChainNode_Addr n := n2]> fl)) as Hdone.
  { intros infos' H1 H2 H3. exists infos'. split; [done|]. split; [done|]. exists cfg, w0, infos0, k.
    split_and!; [done|apply replaceChain_elem|done| |done]. by rewrite Hat. }
  unfold recordDeploySuccess in *. destruct (ChainNode_ID n == "") eqn:Eid.
  { apply bool_decide_eq_true in Eid. apply (Hdone infos); [done|by rewrite Eid|done]. }
  cbv zeta. set (ni := (_ <| NodeInfo_LastDeployedHash := ConfigHash cfg |>) <| NodeInfo_LastDeployedAt := now |>) in *.
  destruct (SaveNodeInfo_records cs ni infos w Hw) as (infos' & H1 & H2 & H3).
  apply (Hdone infos'); [exact H1|intros _; exists ni; split; [exact H2|reflexivity]|exact H3].
Qed.

Lemma deployNode_spec c k n cs infos w fl e w' fl' :
  infosOn cs infos w -> deployNode g gc s now O c k n w fl = Some (e, w', fl') ->
  exists infos', infosOn cs infos' w' /\ touchesOnly n infos infos' fl fl' /\ outcomeOf cs c n e infos' fl fl'.
Proof.
  intros Hw. unfold deployNode. cbv zeta.
  set (info := (entryRecord n w) <| NodeInfo_KernelAWG3Supported := k |>) in *.
  pose proof (usersByInboundMap_infos gc now (NodeInfo_Inbounds info) cs infos w Hw) as Hw1.
  destruct (renderNode w info _) as [cfg|] eqn:Er; [|by intros [= <- <- <-]; exists infos].
  destruct (negb _); [by intros [= <- <- <-]; exists infos|].
  destruct (installOn _ _ _) as [failed n1] eqn:Ei. apply installOn_spec in Ei. set (fl1 := <[ChainNode_Addr n := n1]> fl).
  assert (forall w2 e, infosOn cs infos w2 -> failedServer (no_push (O (ChainNode_ID n))) (no_install (O (ChainNode_ID n))) e (serverAt (ChainNode_Addr n) fl) n1 ->
    exists infos', infosOn cs infos' w2 /\ touchesOnly n infos infos' fl fl1 /\ outcomeOf cs c n (Some e) infos' fl fl1) as Hstop.
  { intros w2 e2 Hw2 He. exists infos. split; [done|]. split; [split; [done|intros a Ha; by apply lookup_insert_ne]|].
    unfold outcomeOf, serverAt at 2, fl1. by rewrite lookup_insert_eq. }
  destruct failed; [intros [= <- <- <-]; by apply Hstop|].
  destruct (renderAWGDeployPlan _ _ _ _ _ _ _) as [[plan w2]|] eqn:Epl; [|done].
  pose proof (renderAWGDeployPlan_infos _ _ _ _ _ _ _ _ _ _ _ Hw1 Epl) as Hw2.
  destruct (_ && negb _); [intros [= <- <- <-]; by apply Hstop|]. destruct (_ && negb _); [intros [= <- <- <-]; by apply Hstop|].
  intros H. exact (pushAndRecord_spec _ _ _ _ _ _ _ _ _ _ _ _ _ _ _ Hw2 Hw Ei Er H).
Qed.

(** ** Lemmas: the loop *)

Lemma deployNodes_spec c kernel cs ns : forall infos w fl rs w' fl',
  infosOn cs infos w -> deployNodes g gc s now O c kernel ns w fl = Some (rs, w', fl') ->
  exists infos', infosOn cs infos' w' /\ rs.*1 = map ChainNode_ID ns /\
    (forall id, id ∉ map ChainNode_ID ns -> find_key id infos' = find_key id infos) /\
    (forall a, a ∉ map ChainNode_Addr ns -> fl' !! a = fl !! a) /\
    (NoDup (map ChainNode_ID ns) -> NoDup (map ChainNode_Addr ns) ->
     Forall2 (fun n r => outcomeOf cs c n (snd r) infos' fl fl') ns rs).
Proof.
  induction ns as [|n ns IH]; intros infos w fl rs w' fl' Hw; cbn [deployNodes].
  { intros [= <- <- <-]. exists infos. split_and!; done. }
  destruct (deployNode _ _ _ _ _ _ _ _ _ _) as [[[e w1] fl1]|] eqn:En; [|done].
  destruct (deployNodes _ _ _ _ _ _ _ ns w1 fl1) as [[[rs1 w2] fl2]|] eqn:Es; [|done]. intros [= <- <- <-].
  destruct (deployNode_spec _ _ _ _ _ _ _ _ _ _ Hw En) as (infos1 & Hw1 & [Ht1 Ht2] & Ho).
  destruct (IH infos1 w1 fl1 rs1 w2 fl2 Hw1 Es) as (infos2 & Hw2 & Hids & Hi & Hf & Hall).
  exists infos2. split; [done|]. cbn [map fmap list_fmap fst]. split; [by rewrite <- Hids|].
  split_and!.
  - intros id [H1 H2]%not_elem_of_cons. by rewrite Hi, Ht1.
  - intros a [H1 H2]%not_elem_of_cons. by rewrite Hf, Ht2.
  - intros [Hn1 Hn2]%NoDup_cons [Ha1 Ha2]%NoDup_cons. constructor; [apply (outcomeOf_later _ _ _ _ infos1 _ fl _ fl1); [done|by apply Hi|done|by apply Hf]|].
    specialize (Hall Hn2 Ha2). apply Forall2_lookup. rewrite Forall2_lookup in Hall.
    intros i. specialize (Hall i). destruct (ns !! i) as [m|] eqn:Em; [|by inversion Hall; constructor].
    inversion Hall as [? r Hout Hm Hr|]; subst. constructor. apply list_elem_of_lookup_2 in Em.
    apply (outcomeOf_later _ _ _ _ infos2 _ fl1 _ fl2); [done..| |done]. symmetry. apply Ht2. intros E. apply Ha1. rewrite <- E. by apply list_elem_of_fmap_2.
Qed.

Lemma preflightNodes_infos cs ns : forall kernel infos w,
  infosOn cs infos w -> exists infos', infosOn cs infos' (snd (preflightNodes O ns kernel w)).
Proof.
  induction ns as [|n ns IH]; intros kernel infos w Hw; cbn [preflightNodes]; [by exists infos|].
  destruct (negb _); [by exists infos|].
  destruct (persistKernelAWG3_infos (ChainNode_ID n) (detectKernelAWG3 (no_probe (O (ChainNode_ID n)))) cs infos w Hw) as [infos1 H1].
  by eapply IH.
Qed.

Lemma existsb_failedNode rs : existsb failedNode rs = false <-> Forall (fun r => snd r = None) rs.
Proof.
  rewrite <- not_true_iff_false, existsb_exists, Forall_forall. split.
  - intros H [id e] Hin. cbn. destruct e as [e|]; [|done]. exfalso. apply H. exists (id, Some e).
    split; [by apply list_elem_of_In|done].
  - intros H ([id e] & Hin & He). apply list_elem_of_In in Hin. specialize (H _ Hin). cbn in H. by subst.
Qed.


End nodes.

(** ** A chain of two nodes, one of which cannot be reached *)

Definition sampleChain : Chain :=
  zeroChain <| Chain_Name := "c" |> <| Chain_Transport := TransportXHTTP |> <| Chain_UserProtocol := UserProtocolVLESSReality |>
    <| Chain_Nodes := [zeroChainNode <| ChainNode_ID := "a" |> <| ChainNode_Addr := "10.0.0.1" |> <| ChainNode_Role := NodeRoleEntry |>;
                       zeroChainNode <| ChainNode_ID := "b" |> <| ChainNode_Addr := "10.0.0.2" |> <| ChainNode_Role := NodeRoleExit |>] |>.

Definition sampleOracle (id : string) : NodeOracle :=
  mkNodeOracle (fun _ => true) (mkProbeReplies "yes" "3.0.1" "amneziawg-tools v3.0") (fun _ => id == "a") cleanInstall true true cleanDeploy.

Definition sampleRenderer : NodeRenderer := fun _ ni chains => Some (NodeInfo_ID ni +:+ Join "," (map Chain_Name chains)).
Definition sampleHasher : ConfigHasher := fun cfg => "h:" +:+ cfg.
Definition sampleWorld : World := mkWorld (Some (Plain newStoreFile)) None None None [] None.
Definition sampleApply :=
  @ApplyChain sampleEnv sampleQuick sampleUp sampleRenderer sampleHasher (sampleGen "a" true) (fun _ => sampleCreds) (initState sampleBuiltin) 5 sampleOracle
    countingGens (fun _ => mkEntryGen None "" (sampleGen "b" true)) sampleChain "" 0 sampleWorld ∅.


(** A node without a record gets one that has its ID and the hash, and neither
    the address nor the user it was just deployed at. *)
Lemma recorded_without_address :
  match sampleApply with
  | Some (_, _, w', _) =>
      match GetNodeInfo "a" w' with
      | Ok ni => (NodeInfo_LastDeployedHash ni, Host_Addr (NodeInfo_Host ni)) = ("h:ac", "")
      | Err _ => False
      end
  | None => False
  end.
Proof. vm_compute. reflexivity. Qed.

(** For a profile name that no preset has, [ApplyChain] draws the material for
    the default preset, while the merged configuration is rendered with the
    preset of the chain's protocol. *)
Lemma apply_preset_diverges :
  let c := zeroChain <| Chain_Transport := TransportXHTTP |> <| Chain_UserProtocol := UserProtocolAWG |> <| Chain_ObfuscationProfile := "gone" |> in
  option_map ConnectionPreset_Name (applyPreset (initState sampleBuiltin) c) <>
  option_map ConnectionPreset_Name (GetEffectivePreset (initState sampleBuiltin) c).
Proof. vm_compute. discriminate. Qed.
