(* ===== verification/DeployNode.v ===== *)
(** * DeployNode: the merged configuration of one node is deployed

    internal/chain/applier_build.go ([ApplyMergedNode], [applyMergedNodeLocked]):
    the chains of the node are resolved against the stored hosts, every inbound
    is completed with what it lacks and saved, then one connection carries the
    probe, the installation, the kernel interfaces and the push.  The same
    parameters as [DeployChain] stand for the configuration's text and the
    network; [InboundGen] are the draws for one inbound. *)

From S2P Require Import Prelude GoStrings Model ChainModel Lifecycle StoreCore Store Presets Roles Codec AwgConf AwgMaterial Alloc ProfileDeploy EntryMaterial Push PeerSync AwgPush AwgDeploy Json BoxInstall DeployChain.

(** ** The inbounds are completed *)

(** A UUID, a Reality key pair with its short ID, a WireGuard pair, a Hysteria2
    password and the packets. *)
Record InboundGen := mkInboundGen {
  ig_uuid : string;
  ig_reality : string * string * string;
  ig_pair : option (string * string);
  ig_obfs : string;
  ig_cps : CPSGen }.

Definition withServerKey (g : InboundGen) (ib : NodeInbound) : NodeInbound :=
  if NodeInbound_ServerPrivKey ib != "" then ib
  else if NodeInbound_Protocol ib == "vless-reality" then
    let '(priv, pub, sid) := ig_reality g in
    ib <| NodeInbound_ServerPrivKey := priv |> <| NodeInbound_ServerPubKey := pub |> <| NodeInbound_ShortID := sid |>
  else if NodeInbound_Protocol ib == "awg" then
    match ig_pair g with
    | Some (priv, pub) => ib <| NodeInbound_ServerPrivKey := priv |> <| NodeInbound_ServerPubKey := pub |>
    | None => ib
    end
  else ib.

(** The body of the loop over [info.Inbounds]; [None] is the panic of the preset. *)
Definition completeInbound (g : InboundGen) (s : PresetState) (ib : NodeInbound) : option NodeInbound :=
  let ib := if NodeInbound_UUID ib == "" then ib <| NodeInbound_UUID := ig_uuid g |> else ib in
  let ib := withServerKey g ib in
  let ib := if (NodeInbound_Protocol ib == "hysteria2") && (NodeInbound_ObfsPassword ib == "")
            then ib <| NodeInbound_ObfsPassword := ig_obfs g |> else ib in
  if NodeInbound_Protocol ib == "awg" then
    match ResolveStandaloneAWGPreset s ib with
    | Some preset => Some (EnsureInboundAWGMaterial (ig_cps g) preset ib)
    | None => None
    end
  else Some ib.

Fixpoint completeInbounds (g : nat -> InboundGen) (s : PresetState) (i : nat) (ibs : list NodeInbound) : option (list NodeInbound) :=
  match ibs with
  | [] => Some []
  | ib :: ibs' =>
      match completeInbound (g i) s ib, completeInbounds g s (S i) ibs' with
      | Some ib', Some rest => Some (ib' :: rest)
      | _, _ => None
      end
  end.

(** ** The deploy *)

Fixpoint resolveChains (cs : list Chain) (w : World) : Result (list Chain) :=
  match cs with
  | [] => Ok []
  | c :: cs' =>
      let! ns := ResolveNodes c w in
      let! rest := resolveChains cs' w in
      Ok (SetAllNodes c ns :: rest)
  end.

(** The kernel module is installed for a standalone AWG inbound or an AWG chain. *)
Definition needsAWGModule (info : NodeInfo) (chains : list Chain) : bool :=
  existsb (fun ib => NodeInbound_Protocol ib == "awg") (NodeInfo_Inbounds info) ||
  existsb (fun c => (Chain_UserProtocol c == UserProtocolAWG) || (Chain_Transport c == TransportAWG)) chains.

Inductive MergedError :=
| NoAddress
| GetChains (e : StoreErr)
| ResolveChain (e : StoreErr)
| NodeDeploy (e : DeployError).

Section merged.
Context {NE : NodeEnv} {AQ : AwgQuick} {AU : AwgUp} {RN : NodeRenderer} {CH : ConfigHasher}.
Context (g : CPSGen) (gc : string -> CredGen) (s : PresetState) (now : Time) (O : NodeOracle).

(** From the opened connection on. *)
Definition deployMerged (info : NodeInfo) (chains : list Chain) (w : World) (n : AwgNode)
    : option (option DeployError * World * AwgNode) :=
  let id := NodeInfo_ID info in
  let w1 := snd (usersByInboundMap gc now (NodeInfo_Inbounds info) w) in
  match renderNode w info chains with
  | None => Some (Some BuildConfig, w1, n)
  | Some cfg =>
      let '(failed, n) := installOn (no_install O) (NodeInfo_UseSudo info) n in
      if failed then Some (Some DeploySingBox, w1, n)
      else if needsAWGModule info chains && negb (no_module O) then Some (Some InstallAWGModule, w1, n)
      else if needsAWGModule info chains && negb (no_forward O) then Some (Some EnableIPForward, w1, n)
      else
        match renderAWGDeployPlan g gc s now info chains w1 with
        | None => None
        | Some (plan, w2) =>
            match pushConfigWithAWGTeardown (no_push O) cfg (plan_files plan) (plan_teardown plan) n with
            | (AwgPanic, _) => None
            | (BoxPushed Success, n') => Some (None, recordDeploySuccess now id cfg w2, n')
            | (r, n') => Some (Some (PushConfig r), w2, n')
            end
        end
  end.

(** [applyMergedNodeLocked]; [None] is a panic. *)
Definition applyMergedNodeLocked (gi : nat -> InboundGen) (info : NodeInfo) (w : World) (n : AwgNode)
    : option (option MergedError * World * AwgNode) :=
  if Host_Addr (NodeInfo_Host info) == "" then Some (Some NoAddress, w, n)
  else
    match GetChainsForNode (NodeInfo_ID info) w with
    | Err e => Some (Some (GetChains e), w, n)
    | Ok chains =>
        match resolveChains chains w with
        | Err e => Some (Some (ResolveChain e), w, n)
        | Ok chains =>
            match completeInbounds gi s 0 (NodeInfo_Inbounds info) with
            | None => None
            | Some ibs =>
                let info := info <| NodeInfo_Inbounds := ibs |> in
                let w := snd (SaveNodeInfo info w) in
                if negb (no_connect O (ResolveHostKey w (NodeInfo_Host info))) then Some (Some (NodeDeploy SSHConnect), w, n)
                else
                  let info := info <| NodeInfo_KernelAWG3Supported := detectKernelAWG3 (no_probe O) |> in
                  let w := snd (SaveNodeInfo info w) in
                  match deployMerged info chains w n with
                  | None => None
                  | Some (e, w, n) => Some (option_map NodeDeploy e, w, n)
                  end
            end
        end
    end.

(** [ApplyMergedNode]. *)
Definition ApplyMergedNode := applyMergedNodeLocked.


(** ** Lemmas: the inbounds *)

(** [ib'] is [ib] with nothing lost that clients know, and what a listener needs
    added from the draws. *)
Record completed (gi : InboundGen) (ib ib' : NodeInbound) : Prop := {
  co_same : [NodeInbound_Tag ib'; NodeInbound_Protocol ib'; NodeInbound_ProfileID ib'; NodeInbound_ServerName ib'; NodeInbound_AWGServerAddress ib'] =
            [NodeInbound_Tag ib; NodeInbound_Protocol ib; NodeInbound_ProfileID ib; NodeInbound_ServerName ib; NodeInbound_AWGServerAddress ib];
  co_port : NodeInbound_Port ib' = NodeInbound_Port ib;
  co_uuid : NodeInbound_UUID ib' = if NodeInbound_UUID ib == "" then ig_uuid gi else NodeInbound_UUID ib;
  co_keys : NodeInbound_ServerPrivKey ib <> "" ->
    (NodeInbound_ServerPrivKey ib', NodeInbound_ServerPubKey ib', NodeInbound_ShortID ib') =
    (NodeInbound_ServerPrivKey ib, NodeInbound_ServerPubKey ib, NodeInbound_ShortID ib);
  co_reality : NodeInbound_ServerPrivKey ib = "" -> NodeInbound_Protocol ib = "vless-reality" ->
    (NodeInbound_ServerPrivKey ib', NodeInbound_ServerPubKey ib', NodeInbound_ShortID ib') = ig_reality gi;
  co_awg : NodeInbound_ServerPrivKey ib = "" -> NodeInbound_Protocol ib = "awg" -> forall kp, ig_pair gi = Some kp ->
    (NodeInbound_ServerPrivKey ib', NodeInbound_ServerPubKey ib') = kp;
  co_obfs : NodeInbound_Protocol ib = "hysteria2" ->
    NodeInbound_ObfsPassword ib' = if NodeInbound_ObfsPassword ib == "" then ig_obfs gi else NodeInbound_ObfsPassword ib }.

Definition listenerFields (ib : NodeInbound) :=
  ([NodeInbound_Tag ib; NodeInbound_Protocol ib; NodeInbound_ProfileID ib; NodeInbound_ServerName ib; NodeInbound_AWGServerAddress ib;
    NodeInbound_UUID ib; NodeInbound_ServerPrivKey ib; NodeInbound_ServerPubKey ib; NodeInbound_ShortID ib; NodeInbound_ObfsPassword ib],
   NodeInbound_Port ib).

Lemma ensure_listener cps preset ib : listenerFields (EnsureInboundAWGMaterial cps preset ib) = listenerFields ib.
Proof.
  unfold EnsureInboundAWGMaterial, ensureInboundAWG3Material.
  repeat case_step; repeat match goal with H : (_, _) = (_, _) |- _ => injection H as <- <- end; reflexivity.
Qed.

Lemma withServerKey_kept gi ib : NodeInbound_ServerPrivKey ib <> "" -> withServerKey gi ib = ib.
Proof. intros H. unfold withServerKey. by rewrite (bool_decide_eq_false_2 (NodeInbound_ServerPrivKey ib = "") H). Qed.

(** Only the key pair and the short ID can differ. *)
Lemma withServerKey_fields gi ib :
  let ib' := withServerKey gi ib in
  ib' = ib <| NodeInbound_ServerPrivKey := NodeInbound_ServerPrivKey ib' |> <| NodeInbound_ServerPubKey := NodeInbound_ServerPubKey ib' |>
           <| NodeInbound_ShortID := NodeInbound_ShortID ib' |>.
Proof. unfold withServerKey. destruct (ig_reality gi) as [[rp rq] rs]. repeat case_match; by destruct ib. Qed.

Lemma completeInbound_spec gi ib ib' : completeInbound gi s ib = Some ib' -> completed gi ib ib'.
Proof.
  unfold completeInbound. set (ib1 := if NodeInbound_UUID ib == "" then _ else ib).
  assert (ib1 = ib <| NodeInbound_UUID := if NodeInbound_UUID ib == "" then ig_uuid gi else NodeInbound_UUID ib |>) as ->
    by (subst ib1; case_match; by destruct ib).
  set (u := if NodeInbound_UUID ib == "" then ig_uuid gi else NodeInbound_UUID ib). set (ib1 := ib <| NodeInbound_UUID := u |>).
  set (ib2 := withServerKey gi ib1). set (ib3 := if (_ && _)%bool then _ else ib2). intros E.
  assert (listenerFields ib' = listenerFields ib3) as Hf.
  { destruct (_ == "awg"); [|by injection E as <-]. destruct (ResolveStandaloneAWGPreset s ib3); [|done].
    injection E as <-. apply ensure_listener. }
  clear E. unfold listenerFields in Hf. injection Hf as F1 F2 F3 F4 F5 F6 F7 F8 F9 F10 F11.
  pose proof (withServerKey_fields gi ib1) as E2. cbv zeta in E2. fold ib2 in E2.
  assert (ib3 = ib2 <| NodeInbound_ObfsPassword := NodeInbound_ObfsPassword ib3 |>) as E3 by (subst ib3; case_match; by destruct ib2).
  rewrite E3, E2 in F1, F2, F3, F4, F5, F6, F7, F8, F9, F11. cbn in F1, F2, F3, F4, F5, F6, F7, F8, F9, F11.
  split; try congruence; [exact F6|..].
  - intros Hk. pose proof (withServerKey_kept gi ib1 Hk) as Hs. fold ib2 in Hs. by rewrite F7, F8, F9, Hs.
  - intros Hk Hp. rewrite F7, F8, F9. subst ib2. unfold withServerKey. destruct (ig_reality gi) as [[rp rq] rs]. cbn. by rewrite Hk, Hp.
  - intros Hk Hp [priv pub] Hg. rewrite F7, F8. subst ib2. unfold withServerKey. cbn. by rewrite Hk, Hp, Hg.
  - intros Hp. rewrite F10. clear E3. clearbody ib2.
    assert (NodeInbound_Protocol ib2 = "hysteria2") as H1 by (rewrite E2; exact Hp).
    assert (NodeInbound_ObfsPassword ib2 = NodeInbound_ObfsPassword ib) as H2 by (rewrite E2; reflexivity).
    subst ib3. rewrite H1, H2. cbn [andb bool_decide]. rewrite (bool_decide_eq_true_2 ("hysteria2" = "hysteria2") eq_refl).
    cbn [andb]. by destruct (NodeInbound_ObfsPassword ib == "").
Qed.

Lemma completeInbounds_spec gi ibs : forall i ibs', completeInbounds gi s i ibs = Some ibs' ->
  Forall2 (fun ib ib' => exists j, completed (gi j) ib ib') ibs ibs'.
Proof.
  induction ibs as [|ib ibs IH]; intros i ibs'; cbn [completeInbounds]; [intros [= <-]; constructor|].
  destruct (completeInbound (gi i) s ib) as [ib1|] eqn:E; [|done].
  destruct (completeInbounds gi s (S i) ibs) as [rest|] eqn:Er; [|done]. intros [= <-].
  constructor; [exists i; by apply completeInbound_spec|by eapply IH].
Qed.

(** ** Lemmas: the deploy *)

Lemma deployMerged_spec info chains cs infos w n e w' n' :
  infosOn cs infos w -> find_key (NodeInfo_ID info) infos = Some info ->
  deployMerged info chains w n = Some (e, w', n') ->
  match e with
  | None => exists cfg infos' ni, renderNode w info chains = Some cfg /\ runs cfg n' /\ infosOn cs infos' w' /\
      find_key (NodeInfo_ID info) infos' = Some ni /\ NodeInfo_Inbounds ni = NodeInfo_Inbounds info /\
      (NodeInfo_ID info <> "" -> NodeInfo_LastDeployedHash ni = ConfigHash cfg)
  | Some e => failedServer (no_push O) (no_install O) e n n' /\ infosOn cs infos w'
  end.
Proof.
  intros Hw Hf. unfold deployMerged. cbv zeta.
  pose proof (usersByInboundMap_infos gc now (NodeInfo_Inbounds info) cs infos w Hw) as Hw1.
  destruct (renderNode w info chains) as [cfg|] eqn:Er; [|by intros [= <- <- <-]].
  destruct (installOn _ _ n) as [failed n0] eqn:Ei. apply installOn_spec in Ei. destruct failed; [by intros [= <- <- <-]|].
  destruct (_ && negb _); [by intros [= <- <- <-]|]. destruct (_ && negb _); [by intros [= <- <- <-]|].
  destruct (renderAWGDeployPlan _ _ _ _ _ _ _) as [[plan w2]|] eqn:Epl; [|done].
  pose proof (renderAWGDeployPlan_infos _ _ _ _ _ _ _ _ _ _ _ Hw1 Epl) as Hw2.
  destruct (pushConfigWithAWGTeardown _ _ _ _ _) as [r n1] eqn:Ep.
  assert (r = BoxPushed Success \/ r <> BoxPushed Success) as [->|Hne] by (destruct r as [| |[]]; (by left) || by right).
  2: { intros H. assert (e = Some (PushConfig r) /\ w' = w2 /\ n' = n1) as (-> & -> & ->) by (destruct r as [| |[]]; done || by injection H as <- <- <-).
    split; [|done]. split; [done|]. by exists n0, cfg, (plan_files plan), (plan_teardown plan). }
  intros [= <- <- <-]. apply pushTeardown_Success in Ep. unfold recordDeploySuccess.
  destruct (bool_decide_reflect (NodeInfo_ID info = "")) as [Hid|Hid].
  { exists cfg, infos, info. split_and!; try done. }
  rewrite (GetNodeInfo_infos cs infos w2 _ Hw2), Hf. set (ni := (_ <| NodeInfo_LastDeployedHash := _ |>) <| NodeInfo_LastDeployedAt := _ |>).
  destruct (SaveNodeInfo_records cs ni infos w2 Hw2) as (infos' & H1 & H2 & _).
  exists cfg, infos', ni. split_and!; done.
Qed.

End merged.

(** ** A node with a half-configured inbound *)

Definition sampleInboundGen (j : nat) : InboundGen := mkInboundGen "uuid" ("rpriv", "rpub", "0a") (Some ("wpriv", "wpub")) "obfs" (sampleGen "n" true).

Definition sampleRecord : NodeInfo :=
  (zeroNodeInfo <| NodeInfo_Inbounds := [zeroNodeInbound <| NodeInbound_Protocol := "vless-reality" |> <| NodeInbound_Port := 443 |> <| NodeInbound_UUID := "kept" |>] |>)
    <| NodeInfo_Host := zeroHost <| Host_ID := "a" |> <| Host_Addr := "10.0.0.1" |> |>.

Abbreviation sampleMerged :=
  (@ApplyMergedNode sampleEnv sampleQuick sampleUp sampleRenderer sampleHasher (sampleGen "a" true) (fun _ => sampleCreds)
    (initState sampleBuiltin) 5 (sampleOracle "a") sampleInboundGen sampleRecord sampleWorld emptyServer).


(** The kernel module is installed for AWG inbounds and AWG chains, not for the
    exit of a balancer: the exit of an XHTTP chain gets the file of its kernel
    interface without the module it needs. *)
Lemma exit_module_not_installed :
  let c := (exitChain "203.0.113.9:22") <| Chain_Transport := TransportXHTTP |> <| Chain_UserProtocol := UserProtocolVLESSReality |> in
  let info := zeroNodeInfo <| NodeInfo_Host := zeroHost <| Host_ID := "x" |> |> in
  needsAWGModule info [c] = false /\
  match @renderAWGDeployPlan (sampleGen "a" true) (fun _ => sampleCreds) samplePresets 5 info [c] sampleWorld with
  | Some (plan, _) => map cf_iface (plan_files plan) = ["awg0"]
  | None => False
  end.
Proof. vm_compute. by split. Qed.

(** A merged deploy whose configuration fails its check on a node that served
    the configuration "old": the report is of a rolled back push, and the node
    serves the minimal configuration of the installation, which has no inbound. *)
Lemma failed_merge_serves_nobody :
  let O := (sampleOracle "a") <| no_push := mkDeployFaults false (df_file cleanDeploy) (df_stop cleanDeploy)
             (mkFaults BackupDone false None true (RestartRun false) [true] (RollbackRun true)) |> in
  let n := emptyServer <| an_box := mkRemote (Some "old") None (Some "old") |> in
  match @ApplyMergedNode sampleEnv sampleQuick sampleUp sampleRenderer sampleHasher (sampleGen "a" true) (fun _ => sampleCreds)
      (initState sampleBuiltin) 5 O sampleInboundGen sampleRecord sampleWorld n with
  | Some (e, _, n') => e = Some (NodeDeploy (PushConfig (BoxPushed DeployFailed))) /\ rm_running (an_box n') = Some minimalCfg
  | None => False
  end.
Proof. vm_compute. by split. Qed.
