(* ===== verification/ClientConf.v ===== *)
(** * ClientConf: the configurations handed to the users

    internal/chain/clientconfig.go ([RenderClientAWGConf], [renderAWGQuickConf],
    [RenderClientConfig]), [chainTUICUsers] of applier_build.go and
    [buildAWGClientConf] of internal/web/users.go: the awg-quick file of one
    user, and the sing-box configuration of a TUIC entry as data before the JSON
    encoding.  A client file is rendered long after the server's, by other code
    and with other random draws; what has to agree is a theorem. *)

From S2P Require Import Prelude GoStrings Model ChainModel Lifecycle StoreCore Store Presets Roles Caddy Codec AwgConf AwgMaterial Push PeerSync AwgPush AwgDeploy.

(** ** The awg-quick file *)

(** The obfuscation lines of a client. *)
Definition clientAmneziaLines (a : AmneziaOptions) (version : string) : list string :=
  [fieldZ "Jc" (Amnezia_JC a); fieldZ "Jmin" (Amnezia_JMIN a); fieldZ "Jmax" (Amnezia_JMAX a);
   fieldZ "S1" (Amnezia_S1 a); fieldZ "S2" (Amnezia_S2 a)] ++
  when (AWGVersionAtLeast version AWGVersion2) [fieldZ "S3" (Amnezia_S3 a); fieldZ "S4" (Amnezia_S4 a)] ++
  [field "H1" (Amnezia_H1 a); field "H2" (Amnezia_H2 a); field "H3" (Amnezia_H3 a); field "H4" (Amnezia_H4 a)] ++
  when ((Amnezia_I1 a != "") && AWGVersionAtLeast version AWGVersion2)
    [field "I1" (Amnezia_I1 a); field "I2" (Amnezia_I2 a); field "I3" (Amnezia_I3 a);
     field "I4" (Amnezia_I4 a); field "I5" (Amnezia_I5 a)].

Definition clientAWG3Lines (material : option AWGObfsMaterial) (version : string) : list string :=
  match material with
  | None => []
  | Some m =>
      when (Obfs_AWG3Mode m && (Obfs_HeaderProtectionKey m != "") && AWGVersionAtLeast version AWGVersion3)
        ([field "HeaderProtectionKey" (Obfs_HeaderProtectionKey m)] ++
         when (Obfs_ContentPaddingAddition m != "") [field "ContentPaddingAddition" (Obfs_ContentPaddingAddition m)] ++
         when (Obfs_RekeyAfterTime m != "") [field "RekeyAfterTime" (Obfs_RekeyAfterTime m)] ++
         when (Obfs_RandomTrailers m) ["RandomTrailers = on"] ++
         when (Obfs_DisableCookies m) ["DisableCookies = on"])
  end.

Definition clientPeerLines (serverPub psk host : string) (port : Z) : list string :=
  [""; "[Peer]"; field "PublicKey" serverPub] ++
  when (psk != "") [field "PresharedKey" psk] ++
  ["AllowedIPs = 0.0.0.0/0, ::/0"; field "Endpoint" (host +:+ ":" +:+ itoa port); "PersistentKeepalive = 25"].

(** [renderAWGQuickConf]. *)
Definition renderAWGQuickConf (g : CPSGen) (host : string) (port : Z) (clientPriv serverPub address : string) (preset : ConnectionPreset)
    (material : option AWGObfsMaterial) (version psk : string) : string :=
  let version := orElse version AWGVersion2 in
  unlines (
    ["[Interface]"; field "Address" (orElse address "10.8.0.2/24");
     field "PrivateKey" (orElse clientPriv "CLIENT_PRIVATE_KEY_HERE"); "MTU = 1420"] ++
    match ConnectionPreset_AWG preset with
    | None => []
    | Some awg =>
        match BuildAWGAmnezia g awg preset material with Some a => clientAmneziaLines a version | None => [] end ++
        clientAWG3Lines material version
    end ++
    clientPeerLines (orElse serverPub "SERVER_PUBLIC_KEY_HERE") psk host port).

(** [ClientConfigParams]; the resolver finds the materialized inbound of an entry. *)
Record ClientConfigParams := mkClientConfigParams {
  cp_Chain : Chain;
  cp_User : option User;
  cp_Resolver : option (string -> string -> option NodeInbound);
  cp_LocalProxyAddr : string;
  cp_EntryHostOverride : string;
  cp_AWGVersion : string }.

Inductive ClientError :=
| NotAWG (protocol : string)
| NoEntry
| NoHost (addr : string)
| TUICPasswordFailed
| Unsupported (protocol : string)
| PresetPanic.

(** The entry a user is pinned to, if it is one. *)
Definition pinnedEntry (c : Chain) (u : option User) (entries : list ChainNode) : option ChainNode :=
  match u with
  | None => None
  | Some u =>
      match User_ChainExit u !! Chain_Name c with
      | Some pinned => if pinned != "" then List.find (fun n => ChainNode_ID n == pinned) entries else None
      | None => None
      end
  end.

(** The entries a client connects to. *)
Definition clientEntries (c : Chain) (u : option User) : list ChainNode :=
  match pinnedEntry c u (chainEntryNodes c) with Some n => [n] | None => chainEntryNodes c end.

(** The entry the client dials: the pinned one or the first. *)
Definition dialedEntry (c : Chain) (u : option User) : option ChainNode :=
  match chainEntryNodes c with
  | [] => None
  | e0 :: _ as entries => Some (default e0 (pinnedEntry c u entries))
  end.

Definition hostBeforeColon (addr : string) : string := match Split ":"%char addr with h :: _ => h | [] => "" end.

(** [RenderClientAWGConf]. *)
Definition RenderClientAWGConf (g : CPSGen) (s : PresetState) (params : ClientConfigParams) : ClientError + string :=
  let c := cp_Chain params in
  if Chain_UserProtocol c != UserProtocolAWG then inl (NotAWG (Chain_UserProtocol c))
  else
    match dialedEntry c (cp_User params) with
    | None => inl NoEntry
    | Some entry =>
        match resolveChainPreset s c with
        | None => inl PresetPanic
        | Some preset =>
            let ib := match cp_Resolver params with
                      | Some resolver => if ChainNode_InboundRef entry != "" then resolver (ChainNode_ID entry) (ChainNode_InboundRef entry) else None
                      | None => None
                      end in
            let version := orElse (cp_AWGVersion params) AWGVersion2 in
            let '(serverPub, port, preset, material, version) :=
              match ib with
              | None => (Chain_AWGEntryServerPub c, chainEntryPort c (ChainNode_ID entry), preset, ChainAWGObfsMaterial c, version)
              | Some ib =>
                  let v := NodeInbound_EffectiveAWGVersion ib in
                  (if NodeInbound_ServerPubKey ib != "" then NodeInbound_ServerPubKey ib else Chain_AWGEntryServerPub c,
                   if 0 <? NodeInbound_Port ib then NodeInbound_Port ib else chainEntryPort c (ChainNode_ID entry),
                   ResolveChainEntryPreset s preset (Some ib), InboundAWGObfsMaterial ib,
                   if (cp_AWGVersion params != "") && AWGVersionAtLeast v (cp_AWGVersion params) then cp_AWGVersion params else v)
              end in
            let host := orElse (cp_EntryHostOverride params) (hostBeforeColon (ChainNode_Addr entry)) in
            let '(clientPriv, address, psk) :=
              match cp_User params with
              | Some u => (User_AWGPrivateKey u, User_AWGAddress u, User_AWGPresharedKey u)
              | None => ("", "", "")
              end in
            inr (renderAWGQuickConf g host port clientPriv serverPub address preset material version psk)
        end
    end.

(** [buildAWGClientConf] (web/users.go): the file for a standalone inbound;
    [None] is the panic of the default preset. *)
Definition buildAWGClientConf (g : CPSGen) (s : PresetState) (ip : string) (port : Z) (clientPriv serverPub hostOverride address : string)
    (ib : option NodeInbound) (psk : string) : option string :=
  let version := match ib with Some ib => NodeInbound_EffectiveAWGVersion ib | None => AWGVersion2 end in
  let material := match ib with Some ib => InboundAWGObfsMaterial ib | None => None end in
  match match ib with Some ib => ResolveStandaloneAWGPreset s ib | None => GetDefaultPreset s end with
  | None => None
  | Some preset =>
      let amn := match ConnectionPreset_AWG preset with Some awg => BuildAWGAmnezia g awg preset material | None => None end in
      Some (unlines (
        ["[Interface]"; field "Address" (orElse address "10.8.0.2/24"); field "PrivateKey" clientPriv; "MTU = 1420"] ++
        match amn with Some a => clientAmneziaLines a version | None => [] end ++
        clientAWG3Lines material version ++
        clientPeerLines serverPub psk (orElse hostOverride ip) port))
  end.

(** ** The sing-box configuration of a TUIC entry *)

(** [chainTUICUsers]: the UUID and password of each user the server admits.
    [gu] and [gp] are the draws for missing ones, by the number of the call. *)
Definition tuicUUID (gu : string) (c : Chain) : string := orElse (Chain_TUICEntryUserUUID c) gu.
Definition tuicPassword (gp : option string) (c : Chain) : option string :=
  if Chain_TUICEntryUserPassword c != "" then Some (Chain_TUICEntryUserPassword c) else gp.

Fixpoint tuicUsersFrom (gu : nat -> string) (gp : nat -> option string) (now : Time) (c : Chain) (i : nat) (users : list User)
    : option (list (string * string)) :=
  match users with
  | [] => Some []
  | u :: users' =>
      if negb (User_Active u) || IsExpired now u then tuicUsersFrom gu gp now c (S i) users'
      else
        let uuid := if User_TUICUUID u == "" then tuicUUID (gu i) c else User_TUICUUID u in
        match (if User_TUICPassword u == "" then tuicPassword (gp i) c else Some (User_TUICPassword u)) with
        | None => None
        | Some pw =>
            match tuicUsersFrom gu gp now c (S i) users' with
            | None => None
            | Some rest => Some ((uuid, pw) :: rest)
            end
        end
  end.

Definition chainTUICUsers (gu : nat -> string) (gp : nat -> option string) (now : Time) (c : Chain) (users : list User)
    : option (list (string * string)) :=
  match tuicUsersFrom gu gp now c 0 users with
  | None => None
  | Some [] =>
      match tuicPassword (gp (length users)) c with
      | None => None
      | Some pw => Some [(tuicUUID (gu (length users)) c, pw)]
      end
  | Some us => Some us
  end.

Record TUICOutbound := mkTUICOutbound {
  tuic_Tag : string;
  tuic_Server : string;
  tuic_ServerPort : Z;
  tuic_UUID : string;
  tuic_Password : string;
  tuic_ServerName : string }.

Inductive ClientOutbound :=
| ClientTUIC (o : TUICOutbound)
| ClientGroup (o : Outbound).

Definition clientTag (o : ClientOutbound) : string :=
  match o with ClientTUIC t => tuic_Tag t | ClientGroup g => extractTag g end.

(** [BuildStrategyOutbound] (singbox/config). *)
Definition BuildStrategyOutbound (strategy : string) (tags : list string) : option Outbound :=
  match tags with
  | [] => None
  | t0 :: _ =>
      if strategy == StrategyURLTest then Some (StrategyOutbound "urltest" "auto-test" tags "" "https://www.gstatic.com/generate_204" "3m" 50)
      else if strategy == StrategySelector then Some (StrategyOutbound "selector" "select" tags t0 "" "" 0)
      else None
  end.

Definition withTag (tag : string) (o : Outbound) : Outbound :=
  match o with
  | FallbackOutbound _ m b => FallbackOutbound tag m b
  | StrategyOutbound ty _ m d u i t => StrategyOutbound ty tag m d u i t
  | HopOutbound _ n => HopOutbound tag n
  | DirectOutbound _ b => DirectOutbound tag b
  | BlockOutbound _ => BlockOutbound tag
  end.

(** The configuration before it is encoded: the local listener, the outbounds,
    the outbound of the only route rule and of the final route, the detours of
    the name servers and the final server. *)
Record ClientConfig := mkClientConfig {
  cc_listen : string * Z;
  cc_outbounds : list ClientOutbound;
  cc_rule : string;
  cc_final : string;
  cc_dns : list (string * string);
  cc_dnsFinal : string }.

(** [splitHostPortSafe], [splitListen]. *)
Fixpoint digitsToPort (acc : Z) (s : string) : option Z :=
  match s with
  | EmptyString => Some acc
  | String c s' => match digitOf c with Some d => digitsToPort (wrap64 (wrap64 (acc * 10) + d)) s' | None => None end
  end.

Definition splitHostPortSafe (addr : string) : string * Z :=
  match cut_last ":"%char addr with
  | None => (addr, 0)
  | Some (host, port) => (host, default 0 (digitsToPort 0 port))
  end.

Definition splitListen (addr : string) : string * Z :=
  let '(host, port) := splitHostPortSafe addr in (orElse host "127.0.0.1", orElseZ port 1080).

Definition presetServerName (p : ConnectionPreset) : string :=
  match ConnectionPreset_Reality p with
  | Some (mkRealityPreset (sn :: _) _ _) => sn
  | _ => DefaultRealitySNI
  end.

(** The credentials of the client; [gu] and [gp] are the draws. *)
Definition clientTUICCreds (gu : string) (gp : option string) (c : Chain) (u : option User) : option (string * string) :=
  let uuid := match u with Some u => if User_TUICUUID u != "" then User_TUICUUID u else Chain_TUICEntryUserUUID c
                         | None => Chain_TUICEntryUserUUID c end in
  let password := match u with Some u => if User_TUICPassword u != "" then User_TUICPassword u else Chain_TUICEntryUserPassword c
                             | None => Chain_TUICEntryUserPassword c end in
  let uuid := if uuid == "" then tuicUUID gu c else uuid in
  if password == "" then match tuicPassword gp c with Some pw => Some (uuid, pw) | None => None end
  else Some (uuid, password).

(** The loop over the entries; [inl] is the address without a host. *)
Fixpoint tuicOutbounds (c : Chain) (override uuid password serverName : string) (many : bool) (entries : list ChainNode)
    : string + list TUICOutbound :=
  match entries with
  | [] => inr []
  | n :: entries' =>
      let host := if override != "" then override else extractHost (ChainNode_Addr n) in
      if host == "" then inl (ChainNode_Addr n)
      else
        match tuicOutbounds c override uuid password serverName many entries' with
        | inl a => inl a
        | inr os =>
            inr (mkTUICOutbound (if many then "tuic-out-" +:+ ChainNode_ID n else "tuic-out") host
                   (chainEntryPort c (ChainNode_ID n)) uuid password serverName :: os)
        end
  end.

(** [RenderClientConfig]. *)
Definition RenderClientConfig (gu : string) (gp : option string) (s : PresetState) (params : ClientConfigParams) : ClientError + ClientConfig :=
  let c := cp_Chain params in
  match Chain_Nodes c with
  | [] => inl NoEntry
  | _ =>
      match chainEntryNodes c with
      | [] => inl NoEntry
      | _ =>
          let entries := clientEntries c (cp_User params) in
          if Chain_UserProtocol c != UserProtocolTUIC then inl (Unsupported (Chain_UserProtocol c))
          else
            match clientTUICCreds gu gp c (cp_User params) with
            | None => inl TUICPasswordFailed
            | Some (uuid, password) =>
                match resolveChainPreset s c with
                | None => inl PresetPanic
                | Some preset =>
                    let many := (1 <? length entries)%nat in
                    match tuicOutbounds c (cp_EntryHostOverride params) uuid password (presetServerName preset) many entries with
                    | inl addr => inl (NoHost addr)
                    | inr os =>
                        let tags := map tuic_Tag os in
                        let group := if many then
                                       match BuildStrategyOutbound (Chain_Strategy c) tags with
                                       | Some o => Some o
                                       | None => BuildStrategyOutbound StrategyURLTest tags
                                       end
                                     else None in
                        let out := if many then "chain-lb" else "tuic-out" in
                        inr (mkClientConfig (splitListen (orElse (cp_LocalProxyAddr params) "127.0.0.1:1080"))
                               (map ClientTUIC os ++ option_list (option_map (fun o => ClientGroup (withTag "chain-lb" o)) group) ++
                                [ClientGroup (DirectOutbound "direct-out" "")])
                               out out [("dns-remote", out); ("dns-direct", "direct-out")] "dns-direct")
                    end
                end
            end
      end
  end.

(** ** Lemmas: the obfuscation *)

Lemma orElse_ne v d : v <> "" -> orElse v d = v.
Proof. intros H. unfold orElse. by rewrite (bool_decide_eq_false_2 _ H). Qed.

(** With headers, the lines of a client are those of a server that writes the
    packets into the file. *)
Lemma clientAmneziaLines_server a version :
  Amnezia_H1 a <> "" ->
  clientAmneziaLines a (orElse version AWGVersion2) =
  writeAmneziaConfLines a (AWGVersionAtLeast (orElse version AWGVersion2) AWGVersion2) version.
Proof.
  intros H. unfold clientAmneziaLines, writeAmneziaConfLines. cbv zeta.
  rewrite (bool_decide_eq_false_2 (Amnezia_H1 a = "") H). by rewrite andb_comm.
Qed.

Lemma InboundAWGObfsMaterial_mode ib m :
  InboundAWGObfsMaterial ib = Some m -> Obfs_AWG3Mode m = IsAWG3Family (NodeInbound_EffectiveAWGVersion ib).
Proof.
  unfold InboundAWGObfsMaterial. cbv zeta. destruct (_ && _); [done|].
  destruct (IsAWG3Family _); intros [= <-]; [done|]. by case_match.
Qed.

Lemma ChainAWGObfsMaterial_mode c m : ChainAWGObfsMaterial c = Some m -> Obfs_AWG3Mode m = false.
Proof. unfold ChainAWGObfsMaterial. case_match; [done|]. by intros [= <-]. Qed.

Lemma clientAWG3Lines_off m version : Obfs_AWG3Mode m = false -> clientAWG3Lines (Some m) version = [].
Proof. intros H. cbn [clientAWG3Lines]. by rewrite H. Qed.

(** The material of the kernel interface says what the client writes. *)
Lemma clientAWG3Lines_kernel ib version :
  clientAWG3Lines (InboundAWGObfsMaterial ib) version = clientAWG3Lines (inboundAWG3MaterialForKernel ib) version.
Proof.
  unfold inboundAWG3MaterialForKernel. destruct (IsAWG3Family _) eqn:Ev; [done|].
  destruct (InboundAWGObfsMaterial ib) as [m|] eqn:Em; [|done]. apply InboundAWGObfsMaterial_mode in Em.
  rewrite Ev in Em. rewrite (clientAWG3Lines_off m _ Em). reflexivity.
Qed.

Lemma inboundConf_amnezia g ib preset users iface :
  Server_Amnezia (inboundConfParams g ib preset users iface) = BuildAWGAmnezia g (awgOf preset) preset (InboundAWGObfsMaterial ib).
Proof.
  unfold inboundConfParams, BuildAWGAmnezia. cbv zeta. cbn [Server_Amnezia].
  destruct (0 <? ConnectionPreset_CPSLevel preset) eqn:E1; [by rewrite orb_true_r|].
  destruct (0 <? AWGPreset_CPSLevel (awgOf preset)) eqn:E2; reflexivity.
Qed.

(** ** The client file of a server's file *)

Definition clientFileOf (p : AWGServerConfParams) (serverPub host : string) (u : User) : list string :=
  ["[Interface]"; field "Address" (User_AWGAddress u); field "PrivateKey" (User_AWGPrivateKey u); "MTU = 1420"] ++
  match Server_Amnezia p with
  | Some a => writeAmneziaConfLines a (AWGVersionAtLeast (orElse (Server_AWGVersion p) AWGVersion2) AWGVersion2) (Server_AWGVersion p)
  | None => []
  end ++
  clientAWG3Lines (Server_AWG3 p) (orElse (Server_AWGVersion p) AWGVersion2) ++
  clientPeerLines serverPub (User_AWGPresharedKey u) host (Server_ListenPort p).

(** What the server and a client share: the preset has an AWG part, the material
    is stored and the headers are set. *)
Record sharedObfuscation (preset : ConnectionPreset) (material : option AWGObfsMaterial) : Prop := {
  so_awg : is_Some (ConnectionPreset_AWG preset);
  so_material : is_Some material;
  so_headers : forall g a, BuildAWGAmnezia g (awgOf preset) preset material = Some a -> Amnezia_H1 a <> "" }.

Lemma quickConf_of_server g host port serverPub preset material version awg3 u p :
  sharedObfuscation preset material ->
  Server_Amnezia p = BuildAWGAmnezia g (awgOf preset) preset material ->
  orElse (Server_AWGVersion p) AWGVersion2 = orElse version AWGVersion2 ->
  Server_AWG3 p = awg3 -> Server_ListenPort p = port ->
  clientAWG3Lines material (orElse version AWGVersion2) = clientAWG3Lines awg3 (orElse version AWGVersion2) ->
  serverPub <> "" -> User_AWGAddress u <> "" -> User_AWGPrivateKey u <> "" ->
  renderAWGQuickConf g host port (User_AWGPrivateKey u) serverPub (User_AWGAddress u) preset material version (User_AWGPresharedKey u) =
  unlines (clientFileOf p serverPub host u).
Proof.
  intros [[awg Ha] [m ->] Hh] Hs Hv H3 Hp Hm Hpub Haddr Hpriv. unfold renderAWGQuickConf, clientFileOf. cbv zeta.
  assert (awgOf preset = awg) as Ho by (unfold awgOf; by rewrite Ha). rewrite Ho in *. rewrite Ha, Hs, Hv, H3, Hp, Hm.
  rewrite (orElse_ne _ _ Hpub), (orElse_ne _ _ Haddr), (orElse_ne _ _ Hpriv).
  destruct (BuildAWGAmnezia g awg preset (Some m)) as [a|] eqn:Eb; [|reflexivity].
  rewrite <- Hv, (clientAmneziaLines_server a (Server_AWGVersion p) (Hh _ _ Eb)). f_equal. by rewrite <- app_assoc.
Qed.

(** A user of an AWG chain, his parameters and the role of the entry he dials;
    [ib] is the materialized inbound of the entry, if it has one. *)
Record entryClient (s : PresetState) (params : ClientConfigParams) (r : chainRole) (ni : NodeInfo) (users : list User) (u : User)
    (ib : option NodeInbound) : Prop := {
  ec_chain : cp_Chain params = role_Chain r;
  ec_user : cp_User params = Some u;
  ec_version : cp_AWGVersion params = "";
  ec_resolver : forall ref, ref <> "" -> exists f, cp_Resolver params = Some f /\ f (ChainNode_ID (role_Node r)) ref = inboundByProfileID ni ref;
  ec_protocol : Chain_UserProtocol (role_Chain r) = UserProtocolAWG;
  ec_dialed : dialedEntry (role_Chain r) (Some u) = Some (role_Node r);
  ec_preset : resolveChainPreset s (role_Chain r) = Some (role_Preset r);
  ec_listed : u ∈ users;
  ec_peer : peerUser u = true;
  ec_private : User_AWGPrivateKey u <> "";
  ec_inbound : ib = if ChainNode_InboundRef (role_Node r) != "" then inboundByProfileID ni (ChainNode_InboundRef (role_Node r)) else None;
  ec_shared : match ib with
              | Some ib => sharedObfuscation (ResolveChainEntryPreset s (role_Preset r) (Some ib)) (InboundAWGObfsMaterial ib) /\
                           0 < NodeInbound_Port ib /\ NodeInbound_ServerPubKey ib <> ""
              | None => sharedObfuscation (role_Preset r) (ChainAWGObfsMaterial (role_Chain r)) /\ Chain_AWGEntryServerPub (role_Chain r) <> ""
              end }.

(** The parameters of the entry's kernel interface, and its keys. *)
Definition entryParams (g : CPSGen) (s : PresetState) (r : chainRole) (users : list User) (ib : option NodeInbound) : AWGServerConfParams :=
  match ib with
  | Some ib => inboundConfParams g ib (ResolveChainEntryPreset s (role_Preset r) (Some ib)) users "awg0"
  | None => chainEntryConfParams g r users
  end.
Definition entryServerPriv (r : chainRole) (ib : option NodeInbound) : string :=
  match ib with Some ib => NodeInbound_ServerPrivKey ib | None => Chain_AWGEntryServerPriv (role_Chain r) end.
Definition entryServerPub (r : chainRole) (ib : option NodeInbound) : string :=
  match ib with Some ib => NodeInbound_ServerPubKey ib | None => Chain_AWGEntryServerPub (role_Chain r) end.
Definition entryHost (params : ClientConfigParams) (r : chainRole) : string :=
  orElse (cp_EntryHostOverride params) (hostBeforeColon (ChainNode_Addr (role_Node r))).

(** The client file of the parameters, with the draws of its own rendering. *)
Lemma client_file_of_entry g g' s params r ni users u ib :
  entryClient s params r ni users u ib ->
  renderChainEntryAWGConf g' s ni r users = mkAWGConfFile "awg0" (RenderServerAWGConf (entryParams g' s r users ib)) /\
  RenderClientAWGConf g s params = inr (unlines (clientFileOf (entryParams g s r users ib) (entryServerPub r ib) (entryHost params r) u)).
Proof.
  intros [Hc Hu Hv Hres Hproto Hn Hpre Hin Hpeer Hpriv Hib Hsh].
  assert (User_AWGAddress u <> "") as Haddr.
  { unfold peerUser in Hpeer. apply andb_prop in Hpeer as [_ H]. by bool_to_prop. }
  unfold RenderClientAWGConf, renderChainEntryAWGConf. rewrite Hc, Hu, Hv, Hproto.
  rewrite Hn, Hpre. rewrite (bool_decide_eq_true_2 (UserProtocolAWG = UserProtocolAWG)) by done. cbn [negb].
  assert (match cp_Resolver params with
          | Some f => if ChainNode_InboundRef (role_Node r) != "" then f (ChainNode_ID (role_Node r)) (ChainNode_InboundRef (role_Node r)) else None
          | None => None
          end = ib) as ->.
  { rewrite Hib. destruct (bool_decide_reflect (ChainNode_InboundRef (role_Node r) = "")) as [Href|Href]; cbn [negb]; [by destruct (cp_Resolver params)|].
    destruct (Hres _ Href) as (f & -> & ->). done. }
  rewrite <- Hib. clear Hib. rewrite (bool_decide_eq_true_2 (@eq string "" "")) by done. cbn [negb andb]. destruct ib as [ib|].
  - destruct Hsh as (Hobf & Hport & Hpub). rewrite (bool_decide_eq_false_2 _ Hpub). cbn [negb].
    replace (0 <? NodeInbound_Port ib) with true by lia. split; [reflexivity|].
    f_equal. eapply quickConf_of_server; try reflexivity; try done.
    + apply inboundConf_amnezia.
    + apply clientAWG3Lines_kernel.
  - destruct Hsh as [Hobf Hpub]. split; [reflexivity|]. f_equal. eapply quickConf_of_server; try reflexivity; try done.
    destruct (ChainAWGObfsMaterial (role_Chain r)) as [m|] eqn:Em; [|done]. apply ChainAWGObfsMaterial_mode in Em. rewrite (clientAWG3Lines_off m _ Em). reflexivity.
Qed.

(** The preset of the entry's obfuscation. *)
Definition entryPreset (s : PresetState) (r : chainRole) (ib : option NodeInbound) : ConnectionPreset :=
  match ib with Some ib => ResolveChainEntryPreset s (role_Preset r) (Some ib) | None => role_Preset r end.

(** Parameters that are equal, the first decoy packet apart. *)
Definition agreeButI1 (q p : AWGServerConfParams) : Prop :=
  exists a, sameButI1 a (Server_Amnezia p) /\
    q = mkAWGServerConfParams (Server_PrivateKey p) (Server_ListenPort p) (Server_TunnelAddress p) (Server_MTU p) a (Server_AWGVersion p)
          (Server_AWG3 p) (Server_Peers p) (Server_TUNInterface p) (Server_InterfaceName p).

(** Two renderings of an entry agree when its material is stored. *)
Lemma entryParams_agree g g' s params r ni users u ib :
  entryClient s params r ni users u ib ->
  agreeButI1 (entryParams g s r users ib) (entryParams g' s r users ib) /\
  (literalI1 (awgOf (entryPreset s r ib)) -> entryParams g s r users ib = entryParams g' s r users ib).
Proof.
  intros [_ _ _ _ _ _ _ _ _ _ _ Hsh]. unfold entryParams, entryPreset, agreeButI1. destruct ib as [ib|].
  - destruct Hsh as [[_ [m Hm] _] _]. set (P := ResolveChainEntryPreset s (role_Preset r) (Some ib)) in *.
    pose proof (inboundConf_amnezia g ib P users "awg0") as E1. pose proof (inboundConf_amnezia g' ib P users "awg0") as E2. rewrite Hm in E1, E2.
    split.
    + exists (Server_Amnezia (inboundConfParams g ib P users "awg0")). split; [|reflexivity]. rewrite E1, E2. apply BuildAWGAmnezia_sameButI1.
    + intros Hl. rewrite (BuildAWGAmnezia_material g g' _ _ _ Hl), <- E2 in E1. unfold inboundConfParams in *. cbn [Server_Amnezia] in E1. by rewrite E1.
  - destruct Hsh as [[_ [m Hm] _] _]. unfold chainEntryConfParams. cbv zeta. cbn. rewrite Hm. split.
    + eexists. split; [|reflexivity]. apply BuildAWGAmnezia_sameButI1.
    + intros Hl. by rewrite (BuildAWGAmnezia_material g g' _ _ _ Hl).
Qed.


(** ** Lemmas: the TUIC configuration *)

Lemma tuicUsersFrom_elem gu gp now c users : forall i us u,
  tuicUsersFrom gu gp now c i users = Some us -> u ∈ users -> User_Active u = true -> IsExpired now u = false ->
  exists j pw, (if User_TUICPassword u == "" then tuicPassword (gp j) c else Some (User_TUICPassword u)) = Some pw /\
    (if User_TUICUUID u == "" then tuicUUID (gu j) c else User_TUICUUID u, pw) ∈ us.
Proof.
  induction users as [|v users IH]; intros i us u Hus Hin Ha He; [by apply not_elem_of_nil in Hin|].
  cbn [tuicUsersFrom] in Hus. apply elem_of_cons in Hin as [<-|Hin].
  - rewrite Ha, He in Hus. cbn [negb orb] in Hus. destruct (if User_TUICPassword u == "" then _ else _) as [pw|] eqn:Epw; [|done].
    destruct (tuicUsersFrom gu gp now c (S i) users); [|done]. injection Hus as <-. exists i, pw. split; [done|by left].
  - destruct (_ || _); [by eapply IH|].
    destruct (if User_TUICPassword v == "" then _ else _) as [pw|]; [|done].
    destruct (tuicUsersFrom gu gp now c (S i) users) as [rest|] eqn:Er; [|done]. injection Hus as <-.
    destruct (IH (S i) rest u Er Hin Ha He) as (j & pw' & H1 & H2). exists j, pw'. split; [done|by right].
Qed.

(** The credentials of a client that has some, or whose chain has, are those the
    server admits. *)
Lemma tuic_creds_admitted gu gp gu' gp' now c users us u :
  chainTUICUsers gu' gp' now c users = Some us -> u ∈ users -> User_Active u = true -> IsExpired now u = false ->
  User_TUICUUID u <> "" \/ Chain_TUICEntryUserUUID c <> "" -> User_TUICPassword u <> "" \/ Chain_TUICEntryUserPassword c <> "" ->
  exists cr, clientTUICCreds gu gp c (Some u) = Some cr /\ cr ∈ us.
Proof.
  intros Hus Hin Ha He Hu Hp. unfold chainTUICUsers in Hus.
  destruct (tuicUsersFrom gu' gp' now c 0 users) as [us'|] eqn:Ef; [|done].
  destruct (tuicUsersFrom_elem _ _ _ _ _ _ _ _ Ef Hin Ha He) as (j & pw & Hpw & Hel).
  assert (us' = us) as -> by (destruct us'; [by apply not_elem_of_nil in Hel|by injection Hus]).
  eexists. split; [|exact Hel]. unfold clientTUICCreds, tuicUUID, tuicPassword, orElse in *. clear Hel Ef Hus.
  revert Hpw Hu Hp. generalize (User_TUICUUID u), (Chain_TUICEntryUserUUID c), (User_TUICPassword u), (Chain_TUICEntryUserPassword c).
  intros [|x1 s1] [|x2 s2] [|x3 s3] [|x4 s4] Hpw Hu Hp; try (by destruct Hu); try (by destruct Hp);
    vm_compute in Hpw; injection Hpw as <-; reflexivity.
Qed.

Lemma tuicOutbounds_spec c override uuid password sn many ns : forall os,
  tuicOutbounds c override uuid password sn many ns = inr os ->
  Forall2 (fun n o => o = mkTUICOutbound (if many then "tuic-out-" +:+ ChainNode_ID n else "tuic-out")
                            (if override != "" then override else extractHost (ChainNode_Addr n))
                            (chainEntryPort c (ChainNode_ID n)) uuid password sn) ns os.
Proof.
  induction ns as [|n ns IH]; intros os; cbn [tuicOutbounds]; [intros [= <-]; constructor|].
  set (host := if override != "" then override else _). destruct (host == ""); [intros [=]|].
  destruct (tuicOutbounds _ _ _ _ _ _ ns) as [|os']; [intros [=]|]. intros [= <-].
  constructor; [done|by apply IH].
Qed.

Lemma BuildStrategyOutbound_spec strategy t0 tags :
  exists ty d url iv tol, match BuildStrategyOutbound strategy (t0 :: tags) with
    | Some o => Some o
    | None => BuildStrategyOutbound StrategyURLTest (t0 :: tags)
    end = Some (StrategyOutbound ty (if strategy == StrategySelector then "select" else "auto-test") (t0 :: tags) d url iv tol).
Proof.
  unfold BuildStrategyOutbound. rewrite (bool_decide_eq_true_2 (StrategyURLTest = StrategyURLTest)) by done.
  destruct (bool_decide_reflect (strategy = StrategyURLTest)) as [->|H1]; [by do 5 eexists|].
  destruct (strategy == StrategySelector); by do 5 eexists.
Qed.

(** The group over the outbounds, if there are several. *)
Definition tuicGroup (c : Chain) (many : bool) (os : list TUICOutbound) : list ClientOutbound :=
  option_list (option_map (fun o => ClientGroup (withTag "chain-lb" o))
    (if many then match BuildStrategyOutbound (Chain_Strategy c) (map tuic_Tag os) with
                  | Some o => Some o
                  | None => BuildStrategyOutbound StrategyURLTest (map tuic_Tag os)
                  end
     else None)).

Lemma tuicGroup_spec c (many : bool) os : os <> [] ->
  (many = true /\ exists ty d url iv tol, tuicGroup c many os = [ClientGroup (StrategyOutbound ty "chain-lb" (map tuic_Tag os) d url iv tol)]) \/
  (many = false /\ tuicGroup c many os = []).
Proof.
  intros Hne. unfold tuicGroup. destruct many; [left; split; [done|]|by right]. destruct os as [|o os]; [done|]. cbn [map].
  destruct (BuildStrategyOutbound_spec (Chain_Strategy c) (tuic_Tag o) (map tuic_Tag os)) as (ty & d & url & iv & tol & ->).
  by exists ty, d, url, iv, tol.
Qed.

(** The tags of the configuration. *)
Lemma tuic_tags (many : bool) ns os :
  Forall2 (fun n o => tuic_Tag o = if many then "tuic-out-" +:+ ChainNode_ID n else "tuic-out") ns os ->
  NoDup (map ChainNode_ID ns) -> (many = false -> (length ns <= 1)%nat) ->
  NoDup (map tuic_Tag os) /\ (forall t, t ∈ map tuic_Tag os -> t <> "chain-lb" /\ t <> "direct-out").
Proof.
  intros H Hnd Hm. assert (map tuic_Tag os = map (fun n => if many then "tuic-out-" +:+ ChainNode_ID n else "tuic-out") ns) as ->
    by (clear Hnd Hm; induction H as [|n o ns os Hno _ IH]; [done|]; change (tuic_Tag o :: map tuic_Tag os = (if many then "tuic-out-" +:+ ChainNode_ID n else "tuic-out") :: map (fun n => if many then "tuic-out-" +:+ ChainNode_ID n else "tuic-out") ns); by rewrite Hno, IH).
  split.
  - destruct many.
    + rewrite <- (map_map ChainNode_ID (fun i => "tuic-out-" +:+ i)). apply NoDup_fmap_2; [|done].
      intros a b Hab. by apply append_inj_l in Hab.
    + destruct ns as [|n [|n2 ns]]; [constructor|apply NoDup_singleton|]. specialize (Hm eq_refl). cbn in Hm. lia.
  - intros t Ht. apply list_elem_of_fmap in Ht as (n & -> & _). by destruct many.
Qed.

(** A user's sing-box configuration for a TUIC entry works with the server.
    Each of its TUIC outbounds has credentials the entry's inbound admits (the
    user's own, or the chain's where the user lacks them) and dials an entry of
    the chain, the pinned one alone if the user is pinned, at the port that entry
    listens on, one outbound per entry; the route, its final rule, the detours of
    the name servers and the members of the group are outbounds that exist, and no
    tag is used twice. *)
Theorem tuic_client_admitted gu gp gu' gp' s now params c u users us cfg :
  cp_Chain params = c -> cp_User params = Some u ->
  RenderClientConfig gu gp s params = inr cfg ->
  chainTUICUsers gu' gp' now c users = Some us -> u ∈ users -> User_Active u = true -> IsExpired now u = false ->
  User_TUICUUID u <> "" \/ Chain_TUICEntryUserUUID c <> "" -> User_TUICPassword u <> "" \/ Chain_TUICEntryUserPassword c <> "" ->
  NoDup (map ChainNode_ID (chainEntryNodes c)) ->
  let entries := clientEntries c (Some u) in
  exists os, (forall o, ClientTUIC o ∈ cc_outbounds cfg <-> o ∈ os) /\
    Forall2 (fun n o => tuic_ServerPort o = chainEntryPort c (ChainNode_ID n) /\ (tuic_UUID o, tuic_Password o) ∈ us /\
                        (cp_EntryHostOverride params = "" -> tuic_Server o = extractHost (ChainNode_Addr n))) entries os /\
    (forall t, t ∈ cc_rule cfg :: cc_final cfg :: map snd (cc_dns cfg) -> t ∈ map clientTag (cc_outbounds cfg)) /\
    (forall ty tag members d url iv tol, ClientGroup (StrategyOutbound ty tag members d url iv tol) ∈ cc_outbounds cfg ->
       members = map tuic_Tag os) /\
    NoDup (map clientTag (cc_outbounds cfg)).
Proof.
  intros Hc Hu Hr Hus Hin Ha He Huu Hpp Hnd entries. unfold RenderClientConfig in Hr. rewrite Hc, Hu in Hr. cbv zeta in Hr.
  destruct (Chain_Nodes c); [done|]. destruct (chainEntryNodes c) as [|e0 es] eqn:Ee; [done|]. rewrite <- Ee in Hnd.
  assert (NoDup (map ChainNode_ID entries) /\ entries <> []) as [Hnd' Hne].
  { subst entries. unfold clientEntries. destruct (pinnedEntry _ _ _); [|by rewrite Ee in *].
    split; [apply NoDup_cons; split; [by apply not_elem_of_nil|constructor]|done]. }
  fold entries in Hr. clearbody entries.
  destruct (Chain_UserProtocol c != UserProtocolTUIC); [done|].
  destruct (tuic_creds_admitted gu gp _ _ _ _ _ _ _ Hus Hin Ha He Huu Hpp) as ([uuid password] & Hcr & Hadm). rewrite Hcr in Hr.
  destruct (resolveChainPreset s c) as [preset|]; [|done]. set (many := (1 <? length entries)%nat) in *.
  destruct (tuicOutbounds _ _ _ _ _ _ entries) as [|os] eqn:Eo; [done|]. apply tuicOutbounds_spec in Eo. exists os.
  assert (os <> []) as Hos by (intros ->; by apply Forall2_nil_inv_r in Eo).
  injection Hr as <-. cbn [cc_outbounds cc_rule cc_final cc_dns]. fold (tuicGroup c many os).
  destruct (tuic_tags many entries os) as [Hnt Hsep]; [by eapply Forall2_impl; [exact Eo|intros n o ->]|done| |].
  { intros Hm. subst many. apply Nat.ltb_ge in Hm. done. }
  set (out := if many then "chain-lb" else "tuic-out").
  assert (map clientTag (map ClientTUIC os ++ tuicGroup c many os ++ [ClientGroup (DirectOutbound "direct-out" "")]) =
          map tuic_Tag os ++ (if many then ["chain-lb"] else []) ++ ["direct-out"]) as Htags.
  { rewrite !map_app, map_map. f_equal. f_equal.
    destruct (tuicGroup_spec c many os Hos) as [[-> (ty & d & url & iv & tol & ->)]|[-> ->]]; done. }
  rewrite Htags. split_and!.
  - intros o. rewrite !elem_of_app. split; [|intros H; left; by apply list_elem_of_fmap_2].
    intros [H|[H|H%list_elem_of_singleton]]; [|exfalso..]; [|
      destruct (tuicGroup_spec c many os Hos) as [[_ (ty & d & url & iv & tol & E)]|[_ E]]; rewrite E in H; [by apply list_elem_of_singleton in H|by apply not_elem_of_nil in H]|done].
    apply list_elem_of_fmap in H as (o' & [= ->] & H). done.
  - eapply Forall2_impl; [exact Eo|]. intros n o ->. cbn. split; [done|]. split; [exact Hadm|]. intros ->. done.
  - assert (out ∈ map tuic_Tag os ++ (if many then ["chain-lb"] else []) ++ ["direct-out"]) as Hout.
    { subst out. rewrite !elem_of_app. destruct many; [right; left; by left|]. left.
      destruct os as [|o os']; [done|]. inversion Eo; subst. by left. }
    intros t Ht. repeat (apply elem_of_cons in Ht as [->|Ht]; [done || (rewrite !elem_of_app; right; right; by left)|]). by apply not_elem_of_nil in Ht.
  - intros ty tag ms d url iv tol. rewrite !elem_of_app. intros [H|[H|H%list_elem_of_singleton]]; [..|done].
    + by apply list_elem_of_fmap in H as (o' & ? & _).
    + destruct (tuicGroup_spec c many os Hos) as [[_ (ty' & d' & url' & iv' & tol' & E)]|[_ E]]; rewrite E in H; [|by apply not_elem_of_nil in H].
      apply list_elem_of_singleton in H. by injection H.
  - apply NoDup_app. split; [done|]. split; [|by destruct many; repeat (apply NoDup_cons; split; [by intros ?%list_elem_of_singleton || by intros ?%not_elem_of_nil|]); constructor].
    intros t Ht H. destruct (Hsep t Ht) as [H1 H2]. destruct many; repeat (apply elem_of_cons in H as [H|H]; [done|]); by apply not_elem_of_nil in H.
Qed.

(** ** A user of a materialized entry *)

Definition liveState : PresetState := runPresets sampleBuiltin [OpLoad [livePreset]].

Definition profileEntry : ChainNode :=
  (sampleEntry "n1" NodeRoleEntry) <| ChainNode_Addr := "203.0.113.1:22" |> <| ChainNode_InboundRef := "p" |>.
Definition profileChain : Chain :=
  zeroChain <| Chain_Name := "c" |> <| Chain_UserProtocol := UserProtocolAWG |> <| Chain_ObfuscationProfile := "live" |>
    <| Chain_Nodes := [profileEntry; sampleEntry "n2" NodeRoleExit] |>.
Definition profileListener : NodeInbound :=
  (sampleAWGInbound "p" "10.8.0.1/24" "2") <| NodeInbound_ProfileID := "p" |> <| NodeInbound_Port := 51820 |>
    <| NodeInbound_ServerPrivKey := "spriv" |> <| NodeInbound_ServerPubKey := "spub" |>
    <| NodeInbound_AWGCPSI1 := "<b 0x01>" |> <| NodeInbound_AWGH1 := "5-9" |>.
Definition sampleClient : User :=
  (sampleMember "alice" zeroTime) <| User_AWGPrivateKey := "apriv" |> <| User_AWGPresharedKey := "psk" |> <| User_TUICUUID := "au" |>.
Definition clientParams (c : Chain) : ClientConfigParams :=
  mkClientConfigParams c (Some sampleClient) (Some (fun _ pid => inboundByProfileID (sampleInfo [profileListener]) pid)) "" "" "".

Abbreviation profileRole := (mkChainRole profileChain 0 profileEntry true false true livePreset (-1) []) (only parsing).

Lemma profile_client :
  entryClient liveState (clientParams profileChain) profileRole (sampleInfo [profileListener]) [sampleClient] sampleClient (Some profileListener).
Proof.
  split; try reflexivity; try discriminate.
  - intros ref _. eexists. split; reflexivity.
  - by left.
  - split; [|split; [reflexivity|discriminate]]. split.
    + by eexists.
    + by eexists.
    + intros g a H. vm_compute in H. injection H as <-. discriminate.
Defined.


Definition tuicChain (strategy : string) : Chain :=
  zeroChain <| Chain_Name := "c" |> <| Chain_UserProtocol := UserProtocolTUIC |> <| Chain_Strategy := strategy |>
    <| Chain_TUICEntryUserPassword := "shared" |>
    <| Chain_Nodes := [(sampleEntry "a" NodeRoleEntry) <| ChainNode_Addr := "203.0.113.1:22" |>;
                       (sampleEntry "b" NodeRoleEntry) <| ChainNode_Addr := "203.0.113.2:22" |>] |>.

Lemma tuic_client_admitted_witness :
  exists cfg us os, RenderClientConfig "gu" None liveState (clientParams (tuicChain "selector")) = inr cfg /\
    chainTUICUsers (fun _ => "gu2") (fun _ => Some "gp") 10 (tuicChain "selector") [sampleClient] = Some us /\
    (forall o, ClientTUIC o ∈ cc_outbounds cfg <-> o ∈ os) /\ map tuic_ServerPort os = [8443; 8444] /\
    NoDup (map clientTag (cc_outbounds cfg)).
Proof.
  destruct (RenderClientConfig "gu" None liveState (clientParams (tuicChain "selector"))) as [e|cfg] eqn:Ec; [vm_compute in Ec; discriminate Ec|].
  destruct (chainTUICUsers (fun _ => "gu2") (fun _ => Some "gp") 10 (tuicChain "selector") [sampleClient]) as [us|] eqn:Eu; [|vm_compute in Eu; discriminate Eu].
  destruct (tuic_client_admitted _ _ _ _ _ _ (clientParams (tuicChain "selector")) (tuicChain "selector") sampleClient _ us cfg eq_refl eq_refl Ec Eu)
    as (os & H1 & H2 & _ & _ & H5).
  - by left.
  - reflexivity.
  - reflexivity.
  - left. discriminate.
  - right. discriminate.
  - apply (bool_decide_unpack _). vm_compute. exact I.
  - exists cfg, us, os. split; [reflexivity|]. split; [reflexivity|]. split; [exact H1|]. split; [|exact H5].
    assert (map tuic_ServerPort os = map (fun n => chainEntryPort (tuicChain "selector") (ChainNode_ID n))
              (clientEntries (tuicChain "selector") (Some sampleClient))) as ->; [|vm_compute; reflexivity].
    clear H1. induction H2 as [|n o ns os [Hp _] _ IH]; [reflexivity|]. cbn [map]. by rewrite Hp, IH.
Defined.

(** A preset without an AWG part: the server falls back to fixed parameters and
    obfuscates, the file of the client has no obfuscation at all. *)
Lemma client_without_obfuscation :
  let preset := mkConnectionPreset "bare" "" "" None None None None 3 "quic" (mkPresetRouting [] [] [] []) in
  let p := chainEntryConfParams (sampleGen "x" true) (mkChainRole sampleAWGChain 0 (sampleEntry "n1" NodeRoleEntry) true false true preset (-1) []) [] in
  is_Some (Server_Amnezia p) /\
  renderAWGQuickConf (sampleGen "y" true) "h" 1 "k" "spub" "10.8.0.2/32" preset (ChainAWGObfsMaterial sampleAWGChain) "" "" =
    unlines (["[Interface]"; "Address = 10.8.0.2/32"; "PrivateKey = k"; "MTU = 1420"] ++ clientPeerLines "spub" "" "h" 1).
Proof. split; [by eexists|]. vm_compute. reflexivity. Qed.

(** Without obfuscation headers a server's file has no header lines; the file of
    the client has four empty ones. *)
Lemma client_empty_headers :
  let a := mkAmneziaOptions 4 40 70 0 0 0 0 "" "" "" "" "" "" "" "" "" 0 in
  writeAmneziaConfLines a true "2" = ["Jc = 4"; "Jmin = 40"; "Jmax = 70"; "S1 = 0"; "S2 = 0"; "S3 = 0"; "S4 = 0"] /\
  clientAmneziaLines a "2" = writeAmneziaConfLines a true "2" ++ ["H1 = "; "H2 = "; "H3 = "; "H4 = "].
Proof. by vm_compute. Qed.

(** The host of an IPv6 address is cut at its first colon. *)
Lemma client_ipv6_endpoint : hostBeforeColon "[2001:db8::1]:22" = "[2001" /\ extractHost "[2001:db8::1]:22" = "2001:db8::1".
Proof. by vm_compute. Qed.

(** The strategy that tries the entries in order becomes the automatic one. *)
Lemma client_failover_is_urltest :
  match RenderClientConfig "gu" None liveState (clientParams (tuicChain StrategyFailover)) with
  | inr cfg => ClientGroup (StrategyOutbound "urltest" "chain-lb" ["tuic-out-a"; "tuic-out-b"] "" "https://www.gstatic.com/generate_204" "3m" 50)
                 ∈ cc_outbounds cfg
  | inl _ => False
  end.
Proof. vm_compute. right. right. by left. Qed.
