(* ===== verification/HopWire.v ===== *)
(** * HopWire: the listeners and the hops of a chain on the wire

    internal/chain/applier_build.go ([clampRealityPrivateKeyB64], [publicKeyB64]
    and the builders of inbounds, outbounds and endpoints) and merged_config.go
    ([ensureHopParams], [buildChainRoleInOut]): what a node listens on and what
    the node before it dials, as data before the JSON encoding.  Curve25519 is
    third-party: its scalar multiplication is the interface [Curve]; random
    draws are arguments. *)

From S2P Require Import Prelude GoStrings Model ChainModel Lifecycle StoreCore Store Presets Roles Caddy ManualRules MergedRoute AwgPath Codec AwgConf AwgMaterial Push PeerSync AwgPush AwgDeploy ClientConf.

(** ** Keys *)

(** [curve25519.ScalarBaseMult] on 32-byte strings. *)
Class Curve := scalarBaseMult : string -> string.

(** The clamping of RFC 7748: byte 0 and byte 31. *)
Fixpoint onByte (f : Z -> Z) (i : nat) (s : string) : string :=
  match s, i with
  | EmptyString, _ => EmptyString
  | String a s', O => String (Zbyte (f (byteZ a))) s'
  | String a s', S i' => String a (onByte f i' s')
  end.
Definition clampBytes (s : string) : string :=
  onByte (fun z => Z.lor (Z.land z 127) 64) 31 (onByte (fun z => Z.land z 248) 0 s).

(** [clampRealityPrivateKeyB64]. *)
Definition clampRealityPrivateKeyB64 (privB64 : string) : option string :=
  match rawDecode urlAlphabet privB64 with
  | None => None
  | Some b => if Nat.eqb (String.length b) 32 then Some (rawEncode urlAlphabet (clampBytes b)) else None
  end.

(** [hopParams]. *)
Record hopParams := mkHopParams {
  hp_UUID : string;
  hp_PrivateKey : string;
  hp_ShortID : string;
  hp_ServerName : string;
  hp_Port : Z }.

(** [publicKeyB64]. *)
Definition publicKeyB64 `{Curve} (h : hopParams) : option string :=
  match clampRealityPrivateKeyB64 (hp_PrivateKey h) with
  | None => None
  | Some clamped =>
      match rawDecode urlAlphabet clamped with
      | None => None
      | Some priv => Some (rawEncode urlAlphabet (scalarBaseMult priv))
      end
  end.

(** [deriveWireGuardPublicFromPrivate]. *)
Definition deriveWireGuardPublicFromPrivate `{Curve} (privB64 : string) : option string :=
  match paddedDecode stdAlphabet privB64 with
  | None => None
  | Some b => if Nat.eqb (String.length b) 32 then Some (paddedEncode stdAlphabet (scalarBaseMult (clampBytes b))) else None
  end.

(** ** The wire *)

Record VLESSUser := mkVLESSUser { vu_Name : string; vu_UUID : string; vu_Flow : string }.

Record InboundReality := mkInboundReality {
  ir_Handshake : string * Z;
  ir_PrivateKey : string;
  ir_ShortID : list string }.

Record InboundTLS := mkInboundTLS {
  it_Enabled : bool;
  it_ServerName : string;
  it_ALPN : list string;
  it_Certificate : string * string;      (* inline *)
  it_CertificatePath : string * string;
  it_Reality : option InboundReality }.

Record TransportOptions := mkTransportOptions {
  to_Type : string;
  to_Host : list string;
  to_Path : string;
  to_Method : string;
  to_Headers : gmap string (list string);
  to_IdleTimeout : string;
  to_PingTimeout : string }.

Record VLESSInbound := mkVLESSInbound {
  vi_Tag : string;
  vi_Listen : string;
  vi_ListenPort : Z;
  vi_Users : list VLESSUser;
  vi_TLS : option InboundTLS;
  vi_Transport : option TransportOptions }.

Record OutboundReality := mkOutboundReality { or_PublicKey : string; or_ShortID : string }.

Record VLESSOutbound := mkVLESSOutbound {
  vo_Tag : string;
  vo_Server : string;
  vo_ServerPort : Z;
  vo_UUID : string;
  vo_Flow : string;
  vo_ServerName : string;
  vo_Fingerprint : string;
  vo_Reality : OutboundReality;
  vo_Transport : option TransportOptions }.

Record AwgPeer := mkAwgPeer {
  ap_PublicKey : string;
  ap_AllowedIPs : list string;
  ap_Address : string;
  ap_Port : Z;
  ap_Keepalive : Z }.

(** [AwgEndpointOptions]; the obfuscation and the fields of version 3. *)
Record AwgEndpoint := mkAwgEndpoint {
  ae_Tag : string;
  ae_Address : list string;
  ae_PrivateKey : string;
  ae_ListenPort : Z;
  ae_Peers : list AwgPeer;
  ae_Amnezia : option AmneziaOptions;
  ae_AWG3 : option (string * string * string * bool * bool) }.

Record TUICInbound := mkTUICInbound {
  ti_Tag : string;
  ti_Listen : string;
  ti_ListenPort : Z;
  ti_Users : list (string * string);
  ti_Congestion : string;
  ti_AuthTimeout : string;
  ti_TLS : InboundTLS }.

(** ** Listeners of a chain *)

Definition realityTLS (p : hopParams) : InboundTLS :=
  mkInboundTLS true (hp_ServerName p) [] ("", "") ("", "")
    (Some (mkInboundReality (hp_ServerName p, 443) (hp_PrivateKey p) [hp_ShortID p])).

(** [buildTransportInbound]. *)
Definition buildTransportInbound (p : hopParams) (tag : string) : VLESSInbound :=
  mkVLESSInbound tag "0.0.0.0" (hp_Port p) [mkVLESSUser tag (hp_UUID p) ""] (Some (realityTLS p)) None.

(** The users of [buildUserInboundMulti] after the shared one. *)
Definition visionFlow : string := "xtls-rprx-vision".
Fixpoint vlessUsers (seen : list string) (users : list User) : list VLESSUser :=
  match users with
  | [] => []
  | u :: users' =>
      if negb (User_Active u) || (User_VLESSUUID u == "") || bool_decide (User_VLESSUUID u ∈ seen) then vlessUsers seen users'
      else mkVLESSUser (User_Name u) (User_VLESSUUID u) visionFlow :: vlessUsers (User_VLESSUUID u :: seen) users'
  end.

Definition noTLS : InboundTLS := mkInboundTLS false "" [] ("", "") ("", "") None.
Definition wsTransport : TransportOptions := mkTransportOptions "ws" [] "/ws" "" ∅ "" "".

(** [buildUserInboundMulti]. *)
Definition buildUserInboundMulti (port : Z) (uuid tag : string) (users : list User) : VLESSInbound :=
  mkVLESSInbound tag "0.0.0.0" port (mkVLESSUser tag uuid visionFlow :: vlessUsers [uuid] users) (Some noTLS) (Some wsTransport).

(** The XHTTP preset of a hop, or the one made up for it. *)
Definition defaultHeaders : gmap string (list string) :=
  {[ "User-Agent" := ["Mozilla/5.0 (Windows NT 10.0; Win64; x64) AppleWebKit/537.36"]; "Content-Type" := ["application/json"];
     "Accept" := ["application/json, text/plain, */*"]; "Accept-Language" := ["en-US,en;q=0.9"] ]}.

(** [safeShortID]. *)
Definition safeShortID (s : string) : string := take_string 4 s.

(** The transport of an XHTTP hop; [headers] are drawn when the preset has none
    ([ApplyXHTTPObfuscation]). *)
Definition xhttpTransport (headers : string -> gmap string (list string)) (p : hopParams) (preset : ConnectionPreset) : TransportOptions :=
  let own := match ConnectionPreset_XHTTP preset with
             | Some x => match XHTTPPreset_Methods x, XHTTPPreset_Paths x with
                         | m :: _, path :: _ => Some (m, path, XHTTPPreset_Headers x, XHTTPPreset_Hosts x)
                         | _, _ => None
                         end
             | None => None
             end in
  let '(method, path, hdrs) :=
    match own with
    | Some (m, path, hs, hosts) =>
        (m, path, if bool_decide (hs = ∅) then headers (match hosts with h :: _ => h | [] => "" end) else hs)
    | None => ("POST", "/api/v1/" +:+ safeShortID (hp_ShortID p), defaultHeaders)
    end in
  mkTransportOptions "http" [hp_ServerName p] path method hdrs "15s" "15s".

(** [buildXHTTPTransportInbound]. *)
Definition buildXHTTPTransportInbound (headers : string -> gmap string (list string)) (p : hopParams) (tag : string) (preset : ConnectionPreset)
    : VLESSInbound :=
  mkVLESSInbound tag "0.0.0.0" (hp_Port p) [mkVLESSUser tag (hp_UUID p) ""] (Some (realityTLS p)) (Some (xhttpTransport headers p preset)).

(** [buildTUICInlineTLS]; [cert] is [GenerateSelfSignedCert]. *)
Definition buildTUICInlineTLS (cert : string -> option (string * string)) (serverName : string) : InboundTLS :=
  mkInboundTLS true serverName ["h3"] (default ("", "") (cert serverName)) ("", "") None.

(** [buildTUICInboundWithUsers]. *)
Definition buildTUICInboundWithUsers (cert : string -> option (string * string)) (port : Z) (users : list (string * string)) (tag : string)
    (preset : ConnectionPreset) : TUICInbound :=
  let tuic := default (mkTUICPreset ["bbr"] "3s") (ConnectionPreset_TUIC preset) in
  mkTUICInbound tag "0.0.0.0" port users
    (match TUICPreset_CongestionControls tuic with cc :: _ => cc | [] => "bbr" end)
    (orElse (TUICPreset_AuthTimeout tuic) "3s") (buildTUICInlineTLS cert (presetServerName preset)).

(** [awgEndpointServerAddress]. *)
Definition awgEndpointServerAddress (awgServerAddress : string) : string :=
  if awgServerAddress == "" then "10.8.0.1/32"
  else
    let host := TrimSpace (match cut_at "/"%char awgServerAddress with Some (h, _) => h | None => awgServerAddress end) in
    if host == "" then "10.8.0.1/32" else host +:+ "/32".

(** [applyAWG3ToEndpoint]. *)
Definition raise12 (a : AmneziaOptions) : AmneziaOptions :=
  mkAmneziaOptions (Amnezia_JC a) (Amnezia_JMIN a) (Amnezia_JMAX a) (Z.max 12 (Amnezia_S1 a)) (Z.max 12 (Amnezia_S2 a))
    (Z.max 12 (Amnezia_S3 a)) (Z.max 12 (Amnezia_S4 a)) (Amnezia_H1 a) (Amnezia_H2 a) (Amnezia_H3 a) (Amnezia_H4 a)
    (Amnezia_I1 a) (Amnezia_I2 a) (Amnezia_I3 a) (Amnezia_I4 a) (Amnezia_I5 a) (Amnezia_ITime a).
Definition zeroAmnezia : AmneziaOptions := mkAmneziaOptions 0 0 0 0 0 0 0 "" "" "" "" "" "" "" "" "" 0.

Definition applyAWG3ToEndpoint (ep : AwgEndpoint) (m : AWGObfsMaterial) : AwgEndpoint :=
  match awg3HPKHexToBase64 (Obfs_HeaderProtectionKey m) with
  | None => ep
  | Some hpk =>
      mkAwgEndpoint (ae_Tag ep) (ae_Address ep) (ae_PrivateKey ep) (ae_ListenPort ep) (ae_Peers ep)
        (Some (raise12 (default zeroAmnezia (ae_Amnezia ep))))
        (Some (hpk, Obfs_ContentPaddingAddition m, Obfs_RekeyAfterTime m, Obfs_RandomTrailers m, Obfs_DisableCookies m))
  end.

(** [buildAWGUserInboundMultiAddr]; [None] is its error. *)
Definition endpointPeers (users : list User) : list AwgPeer :=
  match List.filter peerUser users with
  | [] => [mkAwgPeer "CLIENT_PUBLIC_KEY_HERE" ["10.8.0.2/32"] "" 0 0]
  | us => map (fun u => mkAwgPeer (User_AWGPublicKey u) [User_AWGAddress u] "" 0 0) us
  end.

Definition buildAWGUserInboundMultiAddr `{Curve} (g : CPSGen) (pair : option (string * string)) (port : Z) (tag : string) (preset : ConnectionPreset)
    (serverPrivKeyB64 : string) (users : list User) (material : option AWGObfsMaterial) (serverAddress : string) : option (AwgEndpoint * string) :=
  let awg := awgOf preset in
  match (if serverPrivKeyB64 != "" then option_map (fun pub => (serverPrivKeyB64, pub)) (deriveWireGuardPublicFromPrivate serverPrivKeyB64)
         else pair) with
  | None => None
  | Some (priv, pub) =>
      let ep := mkAwgEndpoint tag [awgEndpointServerAddress serverAddress] priv port (endpointPeers users)
                  (BuildAWGAmnezia g awg preset material) None in
      Some (match material with
            | Some m => if Obfs_AWG3Mode m && (Obfs_HeaderProtectionKey m != "") then applyAWG3ToEndpoint ep m else ep
            | None => ep
            end, pub)
  end.

(** [buildAWGTransportInbound]: the endpoint, plain WireGuard. *)
Definition anyIP : list string := ["0.0.0.0/0"; "::/0"].
Definition buildAWGTransportInbound (node : ChainNode) (prev : option ChainNode) (tag : string) : AwgEndpoint :=
  mkAwgEndpoint tag ["10.9.0.1/24"] (ChainNode_TransitAWGServerPriv node) (orElseZ (ChainNode_Port node) defaultTransportPort)
    [match prev with
     | None => mkAwgPeer "CLIENT_PUBLIC_KEY_HERE" [] "" 0 0
     | Some prev => mkAwgPeer (orElse (ChainNode_TransitAWGClientPub prev) "CLIENT_PUBLIC_KEY_HERE") anyIP
                      (extractHost (ChainNode_Addr prev)) (orElseZ (ChainNode_TransitAWGClientPort prev) 51821) 0
     end] None None.

(** ** What the node before dials *)

(** [buildTransportOutbound], [buildXHTTPTransportOutbound]; [None] is the error. *)
Definition buildTransportOutbound `{Curve} (next : hopParams) (serverAddr tag : string) : option VLESSOutbound :=
  match publicKeyB64 next with
  | None => None
  | Some pub => Some (mkVLESSOutbound tag serverAddr (hp_Port next) (hp_UUID next) "" (hp_ServerName next) "chrome"
                        (mkOutboundReality pub (hp_ShortID next)) None)
  end.

Definition buildXHTTPTransportOutbound `{Curve} (headers : string -> gmap string (list string)) (next : hopParams) (serverAddr tag : string)
    (preset : ConnectionPreset) : option VLESSOutbound :=
  match publicKeyB64 next with
  | None => None
  | Some pub =>
      let fingerprint := match ConnectionPreset_Reality preset with Some (mkRealityPreset _ (f :: _) _) => f | _ => "chrome" end in
      Some (mkVLESSOutbound tag serverAddr (hp_Port next) (hp_UUID next) "" (hp_ServerName next) fingerprint
              (mkOutboundReality pub (hp_ShortID next)) (Some (xhttpTransport headers next preset)))
  end.

(** [buildAWGTransportOutbound]. *)
Definition buildAWGTransportOutbound (thisNode next : ChainNode) (serverAddr tag : string) : AwgEndpoint :=
  mkAwgEndpoint tag [orElse (ChainNode_TransitAWGAddress thisNode) "10.9.0.2/32"] (ChainNode_TransitAWGClientPriv thisNode)
    (ChainNode_TransitAWGClientPort thisNode)
    [mkAwgPeer (ChainNode_TransitAWGServerPub next) anyIP serverAddr (orElseZ (ChainNode_Port next) defaultTransportPort) 25] None None.

(** ** One role of a node *)

(** The draws: the parameters of a hop that has none (UUID, 32 bytes of a key, 8
    bytes of a short ID), the headers, the packets, the TUIC credentials, a
    certificate and a WireGuard pair. *)
Record RoleGen := mkRoleGen {
  rg_uuid : string;
  rg_key : string;
  rg_shortID : string;
  rg_headers : string -> gmap string (list string);
  rg_cps : CPSGen;
  rg_tuicUUID : nat -> string;
  rg_tuicPassword : nat -> option string;
  rg_cert : string -> option (string * string);
  rg_pair : option (string * string) }.

(** [ensureHopParams]. *)
Definition ensureHopParams (g : RoleGen) (s : PresetState) (role : chainRole) : hopParams :=
  let n := role_Node role in
  let sn := ResolveServerName s (role_Preset role) in
  let raw := rawEncode urlAlphabet (rg_key g) in
  mkHopParams (orElse (ChainNode_TransitUUID n) (rg_uuid g))
    (if ChainNode_TransitPrivKey n == "" then default raw (clampRealityPrivateKeyB64 raw)
     else default (ChainNode_TransitPrivKey n) (clampRealityPrivateKeyB64 (ChainNode_TransitPrivKey n)))
    (orElse (ChainNode_TransitShortID n) (hexEncode (rg_shortID g)))
    (if sn == "" then EffectiveDefaultSNI s else sn)
    (if ChainNode_Port n =? 0 then (if role_IsEntry role then defaultUserPort else defaultTransportPort) else ChainNode_Port n).

(** The parameters of the node a hop leads to. *)
Definition nextHopParams (s : PresetState) (role : chainRole) (next : ChainNode) : hopParams :=
  mkHopParams (ChainNode_TransitUUID next) (ChainNode_TransitPrivKey next) (ChainNode_TransitShortID next) (hopServerName s role)
    (orElseZ (ChainNode_Port next) defaultTransportPort).

Inductive WireIn := InVLESS (i : VLESSInbound) | InTUIC (i : TUICInbound).
Inductive WireOut := OutHop (o : VLESSOutbound) | OutGroup (o : Outbound).

Record RoleWire := mkRoleWire {
  rw_inbounds : list WireIn;
  rw_outbounds : list WireOut;
  rw_endpoints : list AwgEndpoint;
  rw_warnings : nat }.

Section role.
Context {CU : Curve} (g : RoleGen) (s : PresetState) (now : Time) (nodeInfo : NodeInfo) (users : list User) (role : chainRole).

(** The listener of the users: inbounds, endpoints, warnings. *)
Definition roleEntry : list WireIn * list AwgEndpoint * nat :=
  let c := role_Chain role in
  let userPort := chainEntryPort c (ChainNode_ID (role_Node role)) in
  let inTag := chainUserInboundTag c (ChainNode_ID (role_Node role)) in
  if Chain_UserProtocol c == UserProtocolAWG then
    match chainEntryAWG3Inbound nodeInfo c (role_Node role) with
    | Some ib =>
        if kernelAWG3EnabledFor nodeInfo then ([], [], 0%nat)
        else
          match buildAWGUserInboundMultiAddr (rg_cps g) (rg_pair g) (if 0 <? NodeInbound_Port ib then NodeInbound_Port ib else userPort) inTag
                  (ResolveChainEntryPreset s (role_Preset role) (Some ib)) (NodeInbound_ServerPrivKey ib) users
                  (InboundAWGObfsMaterial ib) (NodeInbound_AWGServerAddress ib) with
          | Some (ep, _) => ([], [ep], 0%nat)
          | None => ([], [], 1%nat)
          end
    | None => ([], [], 0%nat)
    end
  else if Chain_UserProtocol c == UserProtocolTUIC then
    match chainTUICUsers (rg_tuicUUID g) (rg_tuicPassword g) now c users with
    | None => ([], [], 1%nat)
    | Some us => ([InTUIC (buildTUICInboundWithUsers (rg_cert g) userPort us inTag (role_Preset role))], [], 0%nat)
    end
  else if Chain_UserProtocol c == UserProtocolMTProxy then ([], [], 0%nat)
  else ([InVLESS (buildUserInboundMulti userPort (hp_UUID (ensureHopParams g s role)) inTag users)], [], 0%nat).

(** The listener of the node before. *)
Definition roleTransit : list WireIn * list AwgEndpoint * nat :=
  let c := role_Chain role in
  let tag := transportInTag c in
  let p := ensureHopParams g s role in
  if Chain_Transport c == TransportXHTTP then ([InVLESS (buildXHTTPTransportInbound (rg_headers g) p tag (role_Preset role))], [], 0%nat)
  else if Chain_Transport c == TransportAWG then
    let prev := match role_NodeIndex role with O => None | S i => Chain_Nodes c !! i end in
    ([], [buildAWGTransportInbound (role_Node role) prev tag], 0%nat)
  else if Chain_Transport c == TransportHysteria2 then ([], [], 1%nat)
  else ([InVLESS (buildTransportInbound p tag)], [], 0%nat).

(** The outbound of one target. *)
Definition hopOutbound (group : bool) (next : ChainNode) : option VLESSOutbound :=
  let c := role_Chain role in
  let np := nextHopParams s role next in
  let tag := transportOutTag (Chain_Name c) (hp_ServerName np) (ChainNode_ID next) group in
  if Chain_Transport c == TransportXHTTP then
    buildXHTTPTransportOutbound (rg_headers g) np (extractHost (ChainNode_Addr next)) tag (role_Preset role)
  else buildTransportOutbound np (extractHost (ChainNode_Addr next)) tag.

Definition hopEndpoint (next : ChainNode) : AwgEndpoint :=
  buildAWGTransportOutbound (role_Node role) next (extractHost (ChainNode_Addr next))
    (awgOutTag (Chain_Name (role_Chain role)) (ChainNode_ID next)).

(** The loop over the targets: hops, endpoints, warnings. *)
Fixpoint roleHops (group : bool) (next : list ChainNode) : list VLESSOutbound * list AwgEndpoint * nat :=
  match next with
  | [] => ([], [], 0%nat)
  | n :: next' =>
      let '(hops, eps, w) := roleHops group next' in
      if Chain_Transport (role_Chain role) == TransportHysteria2 then (hops, eps, S w)
      else if Chain_Transport (role_Chain role) == TransportAWG then (hops, hopEndpoint n :: eps, w)
      else match hopOutbound group n with
           | Some o => (o :: hops, eps, w)
           | None => (hops, eps, w)
           end
  end.

Definition roleOut : list WireOut * list AwgEndpoint * nat :=
  if negb (role_HasOutbound role) then ([], [], 0%nat)
  else
    let next := hopTargets role in
    let '(hops, eps, w) := roleHops (1 <? length next)%nat next in
    if (1 <? length hops)%nat then
      match buildStrategyGroupOutbound (effectiveGroupStrategy (LevelStrategy (role_Chain role) (ChainNode_ID (role_Node role))))
              (levelGroupTag (Chain_Name (role_Chain role)) (role_LevelIndex role + 1)) (map vo_Tag hops) with
      | Some grp => (map OutHop hops ++ [OutGroup grp], eps, w)
      | None => (map OutHop hops, eps, S w)
      end
    else (map OutHop hops, eps, w).

(** [buildChainRoleInOut]. *)
Definition buildChainRoleInOut : RoleWire :=
  let '(ins1, eps1, w1) := if role_IsEntry role then roleEntry else ([], [], 0%nat) in
  let '(ins2, eps2, w2) := if role_IsTransit role then roleTransit else ([], [], 0%nat) in
  let '(outs, eps3, w3) := roleOut in
  mkRoleWire (ins1 ++ ins2) outs (eps1 ++ eps2 ++ eps3) (w1 + w2 + w3).
End role.

(** ** Lemmas: the keys *)

Definition stableByte (f : Z -> Z) : Prop := forall a, Zbyte (f (byteZ (Zbyte (f (byteZ a))))) = Zbyte (f (byteZ a)).

Lemma onByte_twice f i s : stableByte f -> onByte f i (onByte f i s) = onByte f i s.
Proof.
  intros Hf. revert i. induction s as [|a s IH]; intros [|i]; cbn; [done|done|by rewrite Hf|by rewrite IH].
Qed.

Lemma onByte_swap f g i j s : i <> j -> onByte f i (onByte g j s) = onByte g j (onByte f i s).
Proof.
  revert i j. induction s as [|a s IH]; intros [|i] [|j] Hne; cbn; try done. f_equal. apply IH. congruence.
Qed.

Lemma onByte_length f i s : String.length (onByte f i s) = String.length s.
Proof. revert i. induction s as [|a s IH]; intros [|i]; cbn; by rewrite ?IH. Qed.

Lemma low_stable : stableByte (fun z => Z.land z 248).
Proof. intros [[] [] [] [] [] [] [] []]; vm_compute; reflexivity. Qed.
Lemma high_stable : stableByte (fun z => Z.lor (Z.land z 127) 64).
Proof. intros [[] [] [] [] [] [] [] []]; vm_compute; reflexivity. Qed.

(** Clamping is idempotent. *)
Lemma clampBytes_twice b : clampBytes (clampBytes b) = clampBytes b.
Proof.
  unfold clampBytes. rewrite (onByte_swap _ _ 0 31) by done. rewrite onByte_twice by apply high_stable.
  by rewrite onByte_twice by apply low_stable.
Qed.

Lemma clampBytes_length b : String.length (clampBytes b) = String.length b.
Proof. unfold clampBytes. by rewrite !onByte_length. Qed.

(** A clamped key, and clamping it again. *)
Lemma clampReality_spec k k' : clampRealityPrivateKeyB64 k = Some k' ->
  exists priv, k' = rawEncode urlAlphabet priv /\ rawDecode urlAlphabet k' = Some priv /\
    clampBytes priv = priv /\ String.length priv = 32%nat /\ clampRealityPrivateKeyB64 k' = Some k'.
Proof.
  unfold clampRealityPrivateKeyB64 at 1. destruct (rawDecode urlAlphabet k) as [b|]; [|done].
  destruct (Nat.eqb_spec (String.length b) 32) as [Hb|]; [|done]. intros [= <-].
  assert (rawDecode urlAlphabet (rawEncode urlAlphabet (clampBytes b)) = Some (clampBytes b)) as Hd
    by (apply rawDecode_encode; reflexivity).
  exists (clampBytes b). split_and!; [done|exact Hd|apply clampBytes_twice|by rewrite clampBytes_length|].
  unfold clampRealityPrivateKeyB64. by rewrite Hd, clampBytes_length, Hb, clampBytes_twice.
Qed.

Lemma publicKeyB64_clamped `{Curve} h k' : clampRealityPrivateKeyB64 (hp_PrivateKey h) = Some k' ->
  exists priv, rawDecode urlAlphabet k' = Some priv /\ publicKeyB64 h = Some (rawEncode urlAlphabet (scalarBaseMult priv)).
Proof.
  intros Hk. destruct (clampReality_spec _ _ Hk) as (priv & _ & Hd & _). exists priv. split; [done|].
  unfold publicKeyB64. by rewrite Hk, Hd.
Qed.

(** ** A hop works *)

(** What the node dials is what the next node listens for. *)
Definition hopWorks `{Curve} (o : VLESSOutbound) (i : VLESSInbound) : Prop :=
  vo_ServerPort o = vi_ListenPort i /\
  map (fun u => (vu_UUID u, vu_Flow u)) (vi_Users i) = [(vo_UUID o, vo_Flow o)] /\
  (exists tls re priv, vi_TLS i = Some tls /\ it_Enabled tls = true /\ it_ServerName tls = vo_ServerName o /\
    it_Reality tls = Some re /\ ir_ShortID re = [or_ShortID (vo_Reality o)] /\
    rawDecode urlAlphabet (ir_PrivateKey re) = Some priv /\ String.length priv = 32%nat /\ clampBytes priv = priv /\
    or_PublicKey (vo_Reality o) = rawEncode urlAlphabet (scalarBaseMult priv)) /\
  match vo_Transport o, vi_Transport i with
  | None, None => True
  | Some a, Some b => (to_Type a, to_Host a, to_Path a, to_Method a) = (to_Type b, to_Host b, to_Path b, to_Method b)
  | _, _ => False
  end.

(** The two ends of a tunnel, [o] on this node and [i] on the next. *)
Definition tunnelWorks (this next : ChainNode) (o i : AwgEndpoint) : Prop :=
  exists po pi, ae_Peers o = [po] /\ ae_Peers i = [pi] /\
    ap_Port po = ae_ListenPort i /\ ap_Port pi = ae_ListenPort o /\
    (ap_PublicKey po, ae_PrivateKey i) = (ChainNode_TransitAWGServerPub next, ChainNode_TransitAWGServerPriv next) /\
    (ap_PublicKey pi, ae_PrivateKey o) = (ChainNode_TransitAWGClientPub this, ChainNode_TransitAWGClientPriv this) /\
    ap_Address po = extractHost (ChainNode_Addr next) /\ ap_Address pi = extractHost (ChainNode_Addr this) /\
    ae_Amnezia o = ae_Amnezia i /\ ae_AWG3 o = ae_AWG3 i.

(** The keys of a node are complete, as the key pass of a deploy leaves them. *)
Definition transitReady (n : ChainNode) : Prop :=
  ChainNode_TransitUUID n <> "" /\ ChainNode_TransitShortID n <> "" /\ ChainNode_Port n <> 0 /\
  is_Some (clampRealityPrivateKeyB64 (ChainNode_TransitPrivKey n)).

Section works.
Context {CU : Curve} (s : PresetState) (c : Chain) (r r' : chainRole).
Hypothesis role_r : chainRoleIn s (ChainNode_ID (role_Node r)) c = Some (Some r).
Hypothesis role_r' : chainRoleIn s (ChainNode_ID (role_Node r')) c = Some (Some r').

Lemma roles_share : role_Chain r = c /\ role_Chain r' = c /\ role_Preset r' = role_Preset r.
Proof using role_r role_r'.
  destruct (chainRoleIn_agrees _ _ _ _ role_r) as [H1 H2 _ _ _ _ _ _], (chainRoleIn_agrees _ _ _ _ role_r') as [H3 H4 _ _ _ _ _ _].
  split_and!; [done|done|congruence].
Qed.

(** The parameters of the two ends. *)
Lemma params_agree g :
  transitReady (role_Node r') ->
  let p := ensureHopParams g s r' in let np := nextHopParams s r (role_Node r') in
  hp_UUID p = hp_UUID np /\ hp_ShortID p = hp_ShortID np /\ hp_ServerName p = hp_ServerName np /\ hp_Port p = hp_Port np /\
  clampRealityPrivateKeyB64 (hp_PrivateKey np) = Some (hp_PrivateKey p).
Proof using role_r role_r'.
  intros (H1 & H2 & H3 & k & Hk). destruct roles_share as (_ & _ & Hpre). cbn.
  rewrite (orElse_ne _ _ H1), (orElse_ne _ _ H2), Hpre, Hk. unfold orElseZ.
  rewrite (bool_decide_eq_false_2 _ H3). replace (ChainNode_Port (role_Node r') =? 0) with false by lia.
  split_and!; try done.
  destruct (bool_decide_reflect (ChainNode_TransitPrivKey (role_Node r') = "")) as [He|He]; [|done].
  rewrite He in Hk. vm_compute in Hk. discriminate Hk.
Qed.

Lemma transport_agree h h' p np preset :
  hp_ShortID p = hp_ShortID np -> hp_ServerName p = hp_ServerName np ->
  let a := xhttpTransport h np preset in let b := xhttpTransport h' p preset in
  (to_Type a, to_Host a, to_Path a, to_Method a) = (to_Type b, to_Host b, to_Path b, to_Method b).
Proof.
  intros H1 H2. unfold xhttpTransport. cbv zeta. rewrite H1, H2.
  destruct (match ConnectionPreset_XHTTP preset with Some _ => _ | None => _ end) as [[[[m path] hs] hosts]|]; done.
Qed.

Lemma hop_parts g g' group :
  Chain_Transport c <> TransportAWG -> Chain_Transport c <> TransportHysteria2 -> transitReady (role_Node r') ->
  exists o i, hopOutbound g s r group (role_Node r') = Some o /\
    roleTransit g' s r' = ([InVLESS i], [], 0%nat) /\ vo_Server o = extractHost (ChainNode_Addr (role_Node r')) /\ hopWorks o i.
Proof using role_r role_r'.
  intros Hawg Hhy Hready. destruct roles_share as (Hc & Hc' & Hpre).
  destruct (params_agree g' Hready) as (H1 & H2 & H3 & H4 & H5).
  set (p := ensureHopParams g' s r') in *. set (np := nextHopParams s r (role_Node r')) in *. cbv zeta in *.
  destruct (publicKeyB64_clamped np _ H5) as (priv & Hpriv & Hpub).
  destruct (clampReality_spec _ _ H5) as (priv' & _ & Hd & Hcl & Hlen & _). rewrite Hpriv in Hd. injection Hd as <-.
  unfold hopOutbound, roleTransit. cbv zeta. rewrite Hc, Hc'. fold p np.
  rewrite (bool_decide_eq_false_2 _ Hawg), (bool_decide_eq_false_2 _ Hhy).
  unfold buildXHTTPTransportOutbound, buildTransportOutbound. rewrite Hpub. clearbody p np.
  assert (forall o i, vo_ServerPort o = hp_Port np -> vo_UUID o = hp_UUID np -> vo_Flow o = "" -> vo_ServerName o = hp_ServerName np ->
    vo_Reality o = mkOutboundReality (rawEncode urlAlphabet (scalarBaseMult priv)) (hp_ShortID np) ->
    vi_ListenPort i = hp_Port p -> vi_Users i = [mkVLESSUser (transportInTag c) (hp_UUID p) ""] -> vi_TLS i = Some (realityTLS p) ->
    match vo_Transport o, vi_Transport i with
    | None, None => True
    | Some a, Some b => (to_Type a, to_Host a, to_Path a, to_Method a) = (to_Type b, to_Host b, to_Path b, to_Method b)
    | _, _ => False
    end -> hopWorks o i) as Hworks.
  { intros o i E1 E2 E3 E4 E5 E6 E7 E8 E9. split; [congruence|]. split; [rewrite E7, E2, E3; cbn; congruence|]. split; [|exact E9].
    exists (realityTLS p), (mkInboundReality (hp_ServerName p, 443) (hp_PrivateKey p) [hp_ShortID p]), priv.
    rewrite E5, E4, E8. split_and!; done || (cbn [it_ServerName realityTLS ir_ShortID or_ShortID]; congruence). }
  destruct (Chain_Transport c == TransportXHTTP).
  - do 2 eexists. split; [reflexivity|]. split; [reflexivity|]. split; [reflexivity|]. apply Hworks; try reflexivity.
    cbn [vo_Transport vi_Transport]. rewrite Hpre. by apply transport_agree.
  - do 2 eexists. split; [reflexivity|]. split; [reflexivity|]. split; [reflexivity|]. by apply Hworks.
Qed.

Lemma tunnel_parts g' :
  Chain_Transport c = TransportAWG -> synced c -> NoDup (map ChainNode_ID (Chain_Nodes c)) ->
  Chain_Nodes c !! S (role_NodeIndex r) = Some (role_Node r') ->
  ChainNode_TransitAWGClientPub (role_Node r) <> "" -> ChainNode_TransitAWGClientPort (role_Node r) <> 0 ->
  exists i, roleTransit g' s r' = ([], [i], 0%nat) /\ tunnelWorks (role_Node r) (role_Node r') (hopEndpoint r (role_Node r')) i.
Proof using role_r role_r'.
  intros Hawg Hsync Hnd Hnext Hpub Hport. destruct roles_share as (_ & Hc' & _).
  pose proof (agree_index _ _ _ _ (chainRoleIn_agrees _ _ _ _ role_r)) as Hi.
  pose proof (agree_index _ _ _ _ (chainRoleIn_agrees _ _ _ _ role_r')) as Hi'. rewrite <- Hsync in Hi, Hi'.
  assert (role_NodeIndex r' = S (role_NodeIndex r)) as Hidx by by eapply (NoDup_map_lookup ChainNode_ID (Chain_Nodes c)).
  unfold roleTransit. cbv zeta. rewrite Hc', Hawg, Hidx, Hi.
  rewrite (bool_decide_eq_false_2 (TransportAWG = TransportXHTTP)), (bool_decide_eq_true_2 (TransportAWG = TransportAWG)) by done.
  eexists. split; [reflexivity|]. do 2 eexists. split; [reflexivity|]. split; [reflexivity|]. cbn.
  rewrite (orElse_ne _ _ Hpub). unfold orElseZ at 3. rewrite (bool_decide_eq_false_2 _ Hport). by split_and!.
Qed.

Lemma roleHops_elem g group next n o :
  Chain_Transport (role_Chain r) <> TransportAWG -> Chain_Transport (role_Chain r) <> TransportHysteria2 ->
  n ∈ next -> hopOutbound g s r group n = Some o -> o ∈ fst (fst (roleHops g s r group next)).
Proof.
  intros H1 H2 Hin Ho. induction next as [|m next IH]; [by apply not_elem_of_nil in Hin|]. cbn [roleHops].
  destruct (roleHops g s r group next) as [[hops eps] w]. cbn [fst] in IH.
  rewrite (bool_decide_eq_false_2 _ H1), (bool_decide_eq_false_2 _ H2).
  apply elem_of_cons in Hin as [<-|Hin]; [rewrite Ho; by left|]. specialize (IH Hin). case_match; [by right|done].
Qed.

Lemma roleHops_endpoint g group next n :
  Chain_Transport (role_Chain r) = TransportAWG -> n ∈ next -> hopEndpoint r n ∈ snd (fst (roleHops g s r group next)).
Proof.
  intros H1 Hin. induction next as [|m next IH]; [by apply not_elem_of_nil in Hin|]. cbn [roleHops].
  destruct (roleHops g s r group next) as [[hops eps] w]. cbn [fst snd] in IH. rewrite H1.
  rewrite (bool_decide_eq_false_2 (TransportAWG = TransportHysteria2)), (bool_decide_eq_true_2 (TransportAWG = TransportAWG)) by done.
  apply elem_of_cons in Hin as [<-|Hin]; [by left|]. right. by apply IH.
Qed.

Lemma roleOut_hops g :
  role_HasOutbound r = true -> let rh := roleHops g s r (1 <? length (hopTargets r))%nat (hopTargets r) in
  snd (fst (roleOut g s r)) = snd (fst rh) /\ forall o, o ∈ fst (fst rh) -> OutHop o ∈ fst (fst (roleOut g s r)).
Proof.
  intros Hout. unfold roleOut. cbv zeta. rewrite Hout. cbn [negb]. destruct (roleHops _ _ _ _ _) as [[hops eps] w]. cbn [fst snd].
  assert (forall o rest, o ∈ hops -> OutHop o ∈ map OutHop hops ++ rest) as Hin
    by (intros o rest Ho; apply elem_of_app; left; by apply (list_elem_of_fmap_2 OutHop)).
  destruct (1 <? length hops)%nat; [destruct (buildStrategyGroupOutbound _ _ _)|]; (split; [done|]); intros v Hv; cbn [fst];
    first [by apply Hin|by apply (list_elem_of_fmap_2 OutHop)].
Qed.

(** The rendering of a role has the parts. *)
Lemma wire_out g now ni users :
  rw_outbounds (buildChainRoleInOut g s now ni users r) = fst (fst (roleOut g s r)) /\
  forall e, e ∈ snd (fst (roleOut g s r)) -> e ∈ rw_endpoints (buildChainRoleInOut g s now ni users r).
Proof.
  unfold buildChainRoleInOut. destruct (if role_IsEntry r then _ else _) as [[i1 e1] w1]. destruct (if role_IsTransit r then _ else _) as [[i2 e2] w2].
  destruct (roleOut g s r) as [[outs e3] w3]. split; [done|]. intros e He. cbn. rewrite !elem_of_app. by right; right.
Qed.

Lemma wire_transit g now ni users : role_IsTransit r' = true ->
  (forall i, i ∈ fst (fst (roleTransit g s r')) -> i ∈ rw_inbounds (buildChainRoleInOut g s now ni users r')) /\
  (forall e, e ∈ snd (fst (roleTransit g s r')) -> e ∈ rw_endpoints (buildChainRoleInOut g s now ni users r')).
Proof.
  intros Ht. unfold buildChainRoleInOut. rewrite Ht. destruct (if role_IsEntry r' then _ else _) as [[i1 e1] w1].
  destruct (roleTransit g s r') as [[i2 e2] w2]. destruct (roleOut g s r') as [[outs e3] w3]. cbn [fst snd rw_inbounds rw_endpoints].
  split; intros x Hx; rewrite !elem_of_app; [by right|right; by left].
Qed.

(** C6: a hop works.  In a chain over XHTTP or Reality, a node and the next one,
    rendered apart with different draws: the node has an outbound for the next,
    the next has a listener for it, and they agree on the port, the user, the
    server name, the short ID and the transport, and the public key the node uses
    is the one of the private key the listener has, which is clamped. *)
Theorem hop_agrees g g' now now' ni ni' users users' :
  Chain_Transport c <> TransportAWG -> Chain_Transport c <> TransportHysteria2 -> transitReady (role_Node r') ->
  role_HasOutbound r = true -> role_Node r' ∈ hopTargets r -> role_IsTransit r' = true ->
  exists o i, OutHop o ∈ rw_outbounds (buildChainRoleInOut g s now ni users r) /\
    InVLESS i ∈ rw_inbounds (buildChainRoleInOut g' s now' ni' users' r') /\
    vo_Server o = extractHost (ChainNode_Addr (role_Node r')) /\ hopWorks o i.
Proof using role_r role_r'.
  intros Hawg Hhy Hready Hout Hnext Htr. destruct roles_share as (Hc & _ & _).
  destruct (hop_parts g g' (1 <? length (hopTargets r))%nat Hawg Hhy Hready) as (o & i & Ho & Hi & Ha & Hw). exists o, i.
  destruct (wire_out g now ni users) as [-> _]. destruct (roleOut_hops g Hout) as [_ Hmem].
  split; [|split; [|done]].
  - apply Hmem. apply (roleHops_elem g _ _ (role_Node r')); [by rewrite Hc|by rewrite Hc|done|exact Ho].
  - apply (proj1 (wire_transit g' now' ni' users' Htr)). rewrite Hi. by left.
Qed.

(** C21: a tunnel works.  In a chain over AmneziaWG, the endpoint that dials and
    the endpoint of the next node agree: the port each one dials is the one the
    other listens on, each has the other's public key, the addresses are those of
    the two servers and neither obfuscates. *)
Theorem tunnel_agrees g g' now now' ni ni' users users' :
  Chain_Transport c = TransportAWG -> synced c -> NoDup (map ChainNode_ID (Chain_Nodes c)) ->
  role_HasOutbound r = true -> role_Node r' ∈ hopTargets r -> role_IsTransit r' = true ->
  Chain_Nodes c !! S (role_NodeIndex r) = Some (role_Node r') ->
  ChainNode_TransitAWGClientPub (role_Node r) <> "" -> ChainNode_TransitAWGClientPort (role_Node r) <> 0 ->
  exists o i, o ∈ rw_endpoints (buildChainRoleInOut g s now ni users r) /\
    i ∈ rw_endpoints (buildChainRoleInOut g' s now' ni' users' r') /\ tunnelWorks (role_Node r) (role_Node r') o i.
Proof using role_r role_r'.
  intros Hawg Hsync Hnd Hout Hnext Htr Hidx Hpub Hport. destruct roles_share as (Hc & _ & _).
  destruct (tunnel_parts g' Hawg Hsync Hnd Hidx Hpub Hport) as (i & Hi & Hw). exists (hopEndpoint r (role_Node r')), i. split; [|split; [|done]].
  - apply (proj2 (wire_out g now ni users)). rewrite (proj1 (roleOut_hops g Hout)). apply roleHops_endpoint; [by rewrite Hc|done].
  - apply (proj2 (wire_transit g' now' ni' users' Htr)). rewrite Hi. by left.
Qed.
End works.

(** ** The users of an entry *)

Lemma vlessUsers_spec users : forall seen,
  NoDup (map vu_UUID (vlessUsers seen users)) /\
  forall id, id ∈ map vu_UUID (vlessUsers seen users) <->
    id ∉ seen /\ id <> "" /\ exists u, u ∈ users /\ User_Active u = true /\ User_VLESSUUID u = id.
Proof.
  induction users as [|u users IH]; intros seen; cbn [vlessUsers].
  { split; [constructor|]. intros id. split; [by intros ?%not_elem_of_nil|]. by intros (_ & _ & u & ?%not_elem_of_nil & _). }
  destruct (negb (User_Active u) || (User_VLESSUUID u == "") || bool_decide (User_VLESSUUID u ∈ seen)) eqn:Eskip.
  - destruct (IH seen) as [IH1 IH2]. split; [done|]. intros id. rewrite IH2. split.
    + intros (H1 & H2 & v & H3 & H4). split_and!; [done..|]. exists v. split; [by right|done].
    + intros (H1 & H2 & v & H3 & H4 & H5). split_and!; [done..|]. apply elem_of_cons in H3 as [->|H3]; [|by exists v]. exfalso.
      rewrite H4, H5, (bool_decide_eq_false_2 _ H1), (bool_decide_eq_false_2 _ H2) in Eskip. done.
  - apply orb_false_iff in Eskip as [[Ea Eu]%orb_false_iff Es]. bool_to_prop.
    destruct (IH (User_VLESSUUID u :: seen)) as [IH1 IH2]. split.
    + cbn [map]. apply NoDup_cons. split; [|done]. rewrite IH2. intros (H & _). apply H. by left.
    + intros id. cbn [map]. rewrite elem_of_cons, IH2. split.
      * intros [->|(H1 & H2 & v & H3 & H4)]; [split_and!; [done..|]; exists u; split; [by left|done]|].
        apply not_elem_of_cons in H1 as [_ H1]. split_and!; [done..|]. exists v. split; [by right|done].
      * intros (H1 & H2 & v & H3 & H4 & H5). destruct (decide (id = User_VLESSUUID u)) as [->|Hne]; [by left|right].
        apply elem_of_cons in H3 as [->|H3]; [congruence|]. split_and!; [by apply not_elem_of_cons|done|by exists v].
Qed.

(** The users of a VLESS entry are exact: the shared UUID first, then every
    active user with a UUID of his own, each UUID once, and nobody else. *)
Theorem vless_users_exact port uuid tag users :
  let us := vi_Users (buildUserInboundMulti port uuid tag users) in
  NoDup (map vu_UUID us) /\ option_map vu_UUID (head us) = Some uuid /\
  forall id, id ∈ map vu_UUID us <->
    id = uuid \/ (id <> "" /\ exists u, u ∈ users /\ User_Active u = true /\ User_VLESSUUID u = id).
Proof.
  cbn [vi_Users buildUserInboundMulti map head option_map vu_UUID]. destruct (vlessUsers_spec users [uuid]) as [H1 H2]. split; [|split; [done|]].
  - apply NoDup_cons. split; [|done]. rewrite H2. intros [H _]. apply H. by left.
  - intros id. rewrite elem_of_cons, H2. split.
    + intros [->|(_ & H)]; [by left|by right].
    + intros [->|H]; [by left|]. destruct (decide (id = uuid)) as [->|Hne]; [by left|right]. split; [|done].
      by intros ?%list_elem_of_singleton.
Qed.

(** ** The tags are those of [buildRoleHops] *)

Definition outTag (o : WireOut) : string := match o with OutHop v => vo_Tag v | OutGroup g => extractTag g end.

(** The hops that can be built: the key of the target decodes. *)
Definition hopBuilds `{Curve} : HopBuilder := fun role next =>
  (Chain_Transport (role_Chain role) == TransportAWG) || bool_decide (is_Some (clampRealityPrivateKeyB64 (ChainNode_TransitPrivKey next))).

Section refine.
Context {CU : Curve} (g : RoleGen) (s : PresetState) (role : chainRole).

Lemma hopOutbound_spec group next :
  match hopOutbound g s role group next with
  | Some o => is_Some (clampRealityPrivateKeyB64 (ChainNode_TransitPrivKey next)) /\
              vo_Tag o = transportOutTag (Chain_Name (role_Chain role)) (hopServerName s role) (ChainNode_ID next) group
  | None => clampRealityPrivateKeyB64 (ChainNode_TransitPrivKey next) = None
  end.
Proof.
  unfold hopOutbound, buildXHTTPTransportOutbound, buildTransportOutbound. cbv zeta.
  destruct (clampRealityPrivateKeyB64 (ChainNode_TransitPrivKey next)) as [k|] eqn:Ek.
  - destruct (publicKeyB64_clamped (nextHopParams s role next) k Ek) as (priv & _ & ->). by destruct (_ == _).
  - assert (publicKeyB64 (nextHopParams s role next) = None) as -> by (unfold publicKeyB64; cbn [hp_PrivateKey nextHopParams]; by rewrite Ek).
    by destruct (_ == _).
Qed.

Lemma roleHops_refines group next : forall outs eps mem w,
  let '(hops, eps', w') := roleHops g s role group next in
  exists houts, map extractTag houts = map vo_Tag hops /\
  foldl (@addHop hopBuilds s role group) (mkHopsOut outs eps mem w) next =
    mkHopsOut (outs ++ houts) (eps ++ map ae_Tag eps') (mem ++ map vo_Tag hops) (w + w').
Proof.
  induction next as [|n next IH]; intros outs eps mem w; cbn [roleHops foldl].
  { exists []. by rewrite !app_nil_r, Nat.add_0_r. }
  destruct (roleHops g s role group next) as [[hops eps'] w'] eqn:Er. unfold addHop at 2. cbv zeta.
  change (@buildHop hopBuilds role n) with
    ((Chain_Transport (role_Chain role) == TransportAWG) || bool_decide (is_Some (clampRealityPrivateKeyB64 (ChainNode_TransitPrivKey n)))).
  destruct (Chain_Transport (role_Chain role) == TransportHysteria2) eqn:Eh.
  { destruct (IH outs eps mem (S w)) as (ho & H1 & H2). exists ho. split; [done|]. rewrite H2. f_equal. lia. }
  destruct (Chain_Transport (role_Chain role) == TransportAWG) eqn:Ea; cbn [orb negb].
  { destruct (IH outs (eps ++ [awgOutTag (Chain_Name (role_Chain role)) (ChainNode_ID n)]) mem w) as (ho & H1 & H2).
    exists ho. split; [done|]. rewrite H2. cbn [map]. by rewrite <- app_assoc. }
  pose proof (hopOutbound_spec group n) as Ho. destruct (hopOutbound g s role group n) as [o|].
  - destruct Ho as [Hs Ht]. rewrite (bool_decide_eq_true_2 _ Hs). cbn [negb].
    destruct (IH (outs ++ [HopOutbound (transportOutTag (Chain_Name (role_Chain role)) (hopServerName s role) (ChainNode_ID n) group) n]) eps
      (mem ++ [transportOutTag (Chain_Name (role_Chain role)) (hopServerName s role) (ChainNode_ID n) group]) w) as (ho & H1 & H2).
    exists (HopOutbound (transportOutTag (Chain_Name (role_Chain role)) (hopServerName s role) (ChainNode_ID n) group) n :: ho).
    cbn [map extractTag]. rewrite H1, H2, Ht, <- !app_assoc. split; reflexivity.
  - rewrite bool_decide_eq_false_2 by (rewrite Ho; by intros [? ?]). cbn [negb]. apply IH.
Qed.

(** The outbounds of a role on the wire have, in order, the tags of the abstract
    hop outbounds from which the route section is proved correct, its endpoints
    their tags, and it warns as often. *)
Lemma roleOut_tags :
  let '(outs, eps, w) := roleOut g s role in
  let h := @buildRoleHops hopBuilds s role in
  map outTag outs = map extractTag (hops_outbounds h) /\ map ae_Tag eps = hops_endpoints h /\ w = hops_warnings h.
Proof.
  unfold roleOut, buildRoleHops. cbv zeta. destruct (negb (role_HasOutbound role)); [done|].
  set (group := (1 <? length (hopTargets role))%nat). pose proof (roleHops_refines group (hopTargets role) [] [] [] 0) as Hr.
  destruct (roleHops g s role group (hopTargets role)) as [[hops eps'] w'] eqn:Er. destruct Hr as (ho & H1 & ->). cbn [app Nat.add].
  rewrite length_map. assert (map outTag (map OutHop hops) = map vo_Tag hops) as Hm by (rewrite map_map; reflexivity).
  destruct (1 <? length hops)%nat; [|cbn [hops_outbounds hops_endpoints hops_warnings]; by rewrite Hm, H1].
  destruct (buildStrategyGroupOutbound _ _ _) as [grp|]; cbn [hops_outbounds hops_endpoints hops_warnings]; [|by rewrite Hm, H1].
  rewrite !map_app, Hm, H1. done.
Qed.
End refine.

(** ** Two nodes *)

(** A curve for the samples: a fixed permutation of the bytes. *)
Definition sampleCurve : Curve := fun b => onByte (fun z => Z.lxor z 85) 3 b.
Definition sampleRoleGen (tag : string) : RoleGen :=
  mkRoleGen ("uuid" +:+ tag) "0123456789abcdef0123456789abcdef" "12345678" (fun _ => ∅) (sampleGen tag true)
    (fun _ => "tu") (fun _ => Some "tp") (fun _ => None) None.

Definition wireNode (id addr : string) : ChainNode :=
  zeroChainNode <| ChainNode_ID := id |> <| ChainNode_Addr := addr |> <| ChainNode_Port := 443 |> <| ChainNode_TransitUUID := "u-" +:+ id |>
    <| ChainNode_TransitShortID := "00ff" |> <| ChainNode_TransitPrivKey := rawEncode urlAlphabet "0123456789abcdef0123456789abcdef" |>
    <| ChainNode_TransitAWGClientPub := "cpub" |> <| ChainNode_TransitAWGClientPort := 51821 |>.
Definition wireChain (transport : string) : Chain :=
  zeroChain <| Chain_Name := "w" |> <| Chain_Transport := transport |> <| Chain_Nodes := [wireNode "a" "203.0.113.1:22"; wireNode "b" "203.0.113.2:22"] |>.
Definition wireRole (transport : string) (i : nat) : chainRole :=
  match Chain_Nodes (wireChain transport) !! i with
  | Some n => match chainRoleIn samplePresets (ChainNode_ID n) (wireChain transport) with Some (Some r) => r | _ => mkChainRole zeroChain 0 zeroChainNode false false false zeroConnectionPreset 0 [] end
  | None => mkChainRole zeroChain 0 zeroChainNode false false false zeroConnectionPreset 0 []
  end.

Lemma hop_agrees_witness :
  exists o i, OutHop o ∈ rw_outbounds (@buildChainRoleInOut sampleCurve (sampleRoleGen "x") samplePresets 5 (sampleInfo []) [] (wireRole TransportXHTTP 0)) /\
    InVLESS i ∈ rw_inbounds (@buildChainRoleInOut sampleCurve (sampleRoleGen "y") samplePresets 9 (sampleInfo []) [] (wireRole TransportXHTTP 1)) /\
    vo_Server o = "203.0.113.2" /\ @hopWorks sampleCurve o i.
Proof.
  refine (@hop_agrees sampleCurve samplePresets (wireChain TransportXHTTP) (wireRole TransportXHTTP 0) (wireRole TransportXHTTP 1) _ _
    (sampleRoleGen "x") (sampleRoleGen "y") 5 9 (sampleInfo []) (sampleInfo []) [] [] _ _ _ _ _ _).
  - vm_compute. reflexivity.
  - vm_compute. reflexivity.
  - discriminate.
  - discriminate.
  - repeat split; try discriminate. eexists. vm_compute. reflexivity.
  - vm_compute. reflexivity.
  - vm_compute. by left.
  - vm_compute. reflexivity.
Defined.

Lemma tunnel_agrees_witness :
  exists o i, o ∈ rw_endpoints (@buildChainRoleInOut sampleCurve (sampleRoleGen "x") samplePresets 5 (sampleInfo []) [] (wireRole TransportAWG 0)) /\
    i ∈ rw_endpoints (@buildChainRoleInOut sampleCurve (sampleRoleGen "y") samplePresets 9 (sampleInfo []) [] (wireRole TransportAWG 1)) /\
    tunnelWorks (role_Node (wireRole TransportAWG 0)) (role_Node (wireRole TransportAWG 1)) o i.
Proof.
  refine (@tunnel_agrees sampleCurve samplePresets (wireChain TransportAWG) (wireRole TransportAWG 0) (wireRole TransportAWG 1) _ _
    (sampleRoleGen "x") (sampleRoleGen "y") 5 9 (sampleInfo []) (sampleInfo []) [] [] _ _ _ _ _ _ _ _ _).
  - vm_compute. reflexivity.
  - vm_compute. reflexivity.
  - reflexivity.
  - reflexivity.
  - apply (bool_decide_unpack _). vm_compute. exact I.
  - vm_compute. reflexivity.
  - vm_compute. by left.
  - vm_compute. reflexivity.
  - vm_compute. reflexivity.
  - discriminate.
  - discriminate.
Defined.

(** The user-space endpoint of version 3 raises small junk sizes, and the file of
    its client keeps the preset's: the two ends differ for such a preset. *)
Lemma endpoint_raises_junk :
  let awg := mkAWGPreset 4 40 70 5 6 7 8 1 2 3 4 50 3 "quic" "" "3" in
  let preset := presetOf awg in
  let m := zeroAWGObfsMaterial <| Obfs_I1 := "x" |> <| Obfs_H1 := "1-2" |> <| Obfs_AWG3Mode := true |>
             <| Obfs_HeaderProtectionKey := "000102030405060708090a0b0c0d0e0f101112131415161718191a1b1c1d1e1f" |> in
  match @buildAWGUserInboundMultiAddr sampleCurve (sampleGen "x" true) (Some ("priv", "pub")) 1 "t" preset "" [] (Some m) "" with
  | Some (ep, _) => option_map Amnezia_S1 (ae_Amnezia ep) = Some 12
  | None => False
  end /\
  option_map Amnezia_S1 (BuildAWGAmnezia (sampleGen "y" true) awg preset (Some m)) = Some 5.
Proof. by vm_compute. Qed.
