(* ===== verification/Links.v ===== *)
(** * Links: the standalone listeners and the links of the users

    [buildStandaloneInOut] of internal/chain/merged_config.go and the link
    builders of internal/web/users.go ([buildConnectionLink],
    [buildStandaloneLinkFor], [buildStandaloneLink], [buildClientURI],
    [applySNI], [ensureStandaloneAWGMaterial]) and [collectUserLinks] of
    subscription.go.  A link is modelled by its parts, before they are escaped
    into a URI: its query is the map of its parameters, and [applySNI], which
    parses the URI, changes one of them. *)

From S2P Require Import Prelude GoStrings Model ChainModel Lifecycle StoreCore Store Presets Roles Caddy ManualRules MergedRoute Codec AwgConf AwgMaterial Alloc ProfileDeploy Push PeerSync AwgPush AwgDeploy ClientConf HopWire.

(** ** Standalone listeners *)

Inductive Listener :=
| LVLESS (i : VLESSInbound)
| LTUIC (i : TUICInbound)
| LHysteria2 (tag listen : string) (port : Z) (password obfs : string)
| LNaive (tag listen : string) (port : Z) (users : list (string * string)) (tls : InboundTLS)
| LTrustTunnel (tag listen : string) (port : Z) (users : list (string * string)) (tls : InboundTLS)
| LMieru (tag listen : string) (port : Z) (users : list (string * string)) (transport : string)
| LAwg (e : AwgEndpoint).

Definition listenPort (l : Listener) : Z :=
  match l with
  | LVLESS i => vi_ListenPort i
  | LTUIC i => ti_ListenPort i
  | LHysteria2 _ _ p _ _ | LNaive _ _ p _ _ | LTrustTunnel _ _ p _ _ | LMieru _ _ p _ _ => p
  | LAwg e => ae_ListenPort e
  end.

(** The active users with both parts of a name and password. *)
Definition namedUsers (name password : User -> string) (users : list User) : list (string * string) :=
  map (fun u => (name u, password u))
    (List.filter (fun u => User_Active u && (name u != "") && (password u != "")) users).

(** [ValidTLSDomain]: the regular expression, label by label. *)
Definition labelChar (c : ascii) : bool :=
  let n := byteZ c in ((97 <=? n) && (n <=? 122)) || ((48 <=? n) && (n <=? 57)).
Fixpoint labelFrom (prev : bool) (s : string) : bool :=   (* [prev]: the last character was no hyphen *)
  match s with
  | EmptyString => prev
  | String c s' => if labelChar c then labelFrom true s' else Ascii.eqb c "-"%char && labelFrom false s'
  end.
Definition validLabel (s : string) : bool :=
  match s with String c s' => labelChar c && labelFrom true s' | EmptyString => false end.
Definition ValidTLSDomain (d : string) : bool :=
  let d := ToLower (TrimSpace d) in
  let labels := Split "."%char d in
  (d != "") && (Z.of_nat (String.length d) <=? 253) && (1 <? length labels)%nat && forallb validLabel labels.

(** [CertPaths]. *)
Definition CertRoot : string := "/etc/angry-box-certs".
Definition CertPaths (domain : string) : string * string :=
  if negb (ValidTLSDomain domain) then ("", "")
  else (CertRoot +:+ "/" +:+ domain +:+ "/fullchain.pem", CertRoot +:+ "/" +:+ domain +:+ "/key.pem").

(** The certificate of a listener: stored, or self-signed. *)
Definition ownCert (cert : string -> option (string * string)) (serverName : string) (ib : NodeInbound) : string * string :=
  if (NodeInbound_TLSCertificate ib == "") || (NodeInbound_TLSPrivateKey ib == "") then
    default (NodeInbound_TLSCertificate ib, NodeInbound_TLSPrivateKey ib) (cert serverName)
  else (NodeInbound_TLSCertificate ib, NodeInbound_TLSPrivateKey ib).
Definition inlineCert (ck : string * string) : string * string :=
  if (fst ck != "") && (snd ck != "") then ck else ("", "").

Section listener.
Context {CU : Curve} (g : RoleGen) (s : PresetState) (nodeInfo : NodeInfo) (caddyPorts : option (list Z)).

(** The preset of a standalone inbound; [None] is the panic of the default one. *)
Definition standalonePreset (ib : NodeInbound) : option ConnectionPreset :=
  match GetDefaultPreset s with
  | None => None
  | Some d => Some (if NodeInbound_Obfuscation ib != "" then default d (GetPreset s (NodeInbound_Obfuscation ib)) else d)
  end.

Definition standaloneServerName (preset : ConnectionPreset) (ib : NodeInbound) : string :=
  if NodeInbound_ServerName ib != "" then NodeInbound_ServerName ib else ResolveServerName s preset.

(** Where it listens: on loopback when caddy fronts it. *)
Definition fronted (ib : NodeInbound) : bool := caddyOwned (NodeInbound_Port ib) || TLSUtilityProtocol (NodeInbound_Protocol ib).
Definition standaloneListen (index : nat) (ib : NodeInbound) : string * Z :=
  match caddyPorts with
  | Some ports => if fronted ib then ("127.0.0.1", default (NodeInbound_Port ib) (ports !! index)) else ("0.0.0.0", NodeInbound_Port ib)
  | None => ("0.0.0.0", NodeInbound_Port ib)
  end.

(** The TLS section of naive and trusttunnel. *)
Definition utilityTLS (serverName : string) (ib : NodeInbound) : InboundTLS :=
  match caddyPorts with
  | Some _ => mkInboundTLS true "" ["h2"] ("", "") (CertPaths (NodeInfo_TLSDomain nodeInfo)) None
  | None => mkInboundTLS true serverName ["h2"] (inlineCert (ownCert (rg_cert g) serverName ib)) ("", "") None
  end.

(** [buildStandaloneInOut]; [users] are those of the inbound's tag. *)
Definition buildStandaloneInOut (ib : NodeInbound) (tag : string) (users : list User) (index : nat) : option (list Listener) :=
  match standalonePreset ib with
  | None => None
  | Some preset =>
      let serverName := standaloneServerName preset ib in
      let '(listen, port) := standaloneListen index ib in
      let proto := NodeInbound_Protocol ib in
      Some (
        if proto == "vless-reality" then
          [LVLESS (mkVLESSInbound tag listen port (mkVLESSUser "user" (NodeInbound_UUID ib) visionFlow :: vlessUsers [NodeInbound_UUID ib] users)
                     (Some (mkInboundTLS true serverName [] ("", "") ("", "")
                              (Some (mkInboundReality (serverName, 443) (NodeInbound_ServerPrivKey ib) [NodeInbound_ShortID ib])))) None)]
        else if proto == "awg" then
          if IsAWG3Family (NodeInbound_EffectiveAWGVersion ib) && negb (kernelAWG3EnabledFor nodeInfo) then
            match buildAWGUserInboundMultiAddr (rg_cps g) (rg_pair g) port tag preset (NodeInbound_ServerPrivKey ib) users
                    (InboundAWGObfsMaterial ib) (NodeInbound_AWGServerAddress ib) with
            | Some (e, _) => [LAwg e]
            | None => []
            end
          else []
        else if proto == "tuic" then
          [LTUIC (mkTUICInbound tag listen port [(NodeInbound_UUID ib, NodeInbound_ServerPrivKey ib)] "bbr" "3s"
                    (mkInboundTLS true serverName ["h3"] (inlineCert (ownCert (rg_cert g) serverName ib)) ("", "") None))]
        else if proto == "xhttp" then
          [LVLESS (mkVLESSInbound tag listen port [mkVLESSUser "user" (NodeInbound_UUID ib) ""] None
                     (Some (mkTransportOptions "http" [] "/api" "POST" {[ "Content-Type" := ["application/json"] ]} "" "")))]
        else if proto == "hysteria2" then
          [LHysteria2 tag (match caddyPorts with Some _ => listen | None => "::" end) port (NodeInbound_UUID ib) (NodeInbound_ObfsPassword ib)]
        else if proto == "naive" then [LNaive tag listen port (namedUsers User_NaiveUsername User_NaivePassword users) (utilityTLS serverName ib)]
        else if proto == "trusttunnel" then
          [LTrustTunnel tag listen port (namedUsers User_TrustTunnelUsername User_TrustTunnelPassword users) (utilityTLS serverName ib)]
        else if proto == "mieru" then
          [LMieru tag listen port (namedUsers User_MieruUsername User_MieruPassword users) (orElse (NodeInbound_MieruTransport ib) "TCP")]
        else if proto == "mtproxy" then []
        else [LVLESS (mkVLESSInbound tag listen port [mkVLESSUser "user" (NodeInbound_UUID ib) visionFlow] (Some noTLS) (Some wsTransport))])
  end.
End listener.

(** ** Links *)

(** A URI by its parts: scheme, user information, host, port, query, fragment;
    or the text of a file, or a comment. *)
Record URI := mkURI {
  uri_scheme : string;
  uri_user : list string;
  uri_host : string;
  uri_port : Z;
  uri_query : gmap string string;
  uri_fragment : string }.
Inductive Link := LinkURI (u : URI) | LinkConf (text : string) | LinkComment (text : string).

Definition queryGet (k : string) (q : gmap string string) : string := default "" (q !! k).

(** [applySNI]. *)
Definition applySNI (l : Link) (sni : string) : Link :=
  match l with
  | LinkURI u => if (sni == "") || (queryGet "sni" (uri_query u) == "") then l
                 else LinkURI (mkURI (uri_scheme u) (uri_user u) (uri_host u) (uri_port u) (<["sni" := sni]> (uri_query u)) (uri_fragment u))
  | l => l
  end.

(** [MTProxyFullSecret]. *)
Definition MTProxyFullSecret (secretHex fakeTLSDomain : string) : option string :=
  if Nat.eqb (String.length secretHex) 32 then Some ("ee" +:+ secretHex +:+ hexEncode fakeTLSDomain) else None.

Definition mtproxyLink (server : string) (port : Z) (secret : string) : Link :=
  LinkURI (mkURI "tg" [] "proxy" 0 {["server" := server; "port" := itoa port; "secret" := secret]} "").

(** [defaultFakeTLSDomain]. *)
Definition defaultFakeTLSDomain (ib : NodeInbound) : string :=
  if NodeInbound_ServerName ib != "" then NodeInbound_ServerName ib
  else if NodeInbound_Obfuscation ib != "" then NodeInbound_Obfuscation ib else "disk.yandex.ru".

(** The server name the links carry: of the default preset. *)
Definition linkServerName (preset : ConnectionPreset) : string :=
  match ConnectionPreset_Reality preset with Some (mkRealityPreset (sn :: _) _ _) => sn | _ => "www.microsoft.com" end.

Definition SS_DEFAULT_CIPHER : string := "2022-blake3-aes-128-gcm".

(** [buildClientURI]; [ss] and [obfs] are the draws for a missing password. *)
Definition buildClientURI (g : CPSGen) (s : PresetState) (ss obfs : string) (proto ip : string) (port : Z)
    (uuid privKey pubKey shortID name : string) (u : option User) (obfsPassword : string) (insecure : bool) : option Link :=
  let imported kind := match u with
                       | Some u => if (User_ImportedSecret u != "") && (User_SecretType u == kind) then Some (User_ImportedSecret u) else None
                       | None => None
                       end in
  let part (f : User -> string) := match u with Some u => f u | None => "" end in
  let withSNI (k : string -> Link) := option_map (fun p => k (linkServerName p)) (GetDefaultPreset s) in
  if proto == "awg" then
    match imported "awg" with
    | Some secret => option_map LinkConf (buildAWGClientConf g s ip port secret pubKey "" "" None (part User_AWGPresharedKey))
    | None => Some (LinkURI (mkURI "awg" [] ip port {["pub" := pubKey; "psk" := part User_AWGPresharedKey; "mtu" := "1420"]} ""))
    end
  else if proto == "naive" then
    withSNI (fun sni => LinkURI (mkURI "naive+https" [part User_NaiveUsername; part User_NaivePassword] ip port {["padding" := "true"; "sni" := sni]} name))
  else if proto == "mieru" then
    Some (LinkURI (mkURI "mierus" [part User_MieruUsername; part User_MieruPassword] ip port {["transport" := "TCP"]} name))
  else if proto == "trusttunnel" then
    withSNI (fun sni => LinkURI (mkURI "tt" [part User_TrustTunnelUsername; part User_TrustTunnelPassword] ip port
                                   {["security" := "tls"; "sni" := sni; "alpn" := "h2"]} name))
  else if proto == "tuic" then
    match imported "tuic" with
    | Some secret => Some (LinkURI (mkURI "tuic" [secret; secret] ip port {["congestion_control" := "bbr"; "alpn" := "h3"]} ""))
    | None => Some (LinkURI (mkURI "tuic" [uuid; privKey] ip port {["congestion_control" := "bbr"; "alpn" := "h3"]} ""))
    end
  else if proto == "vless-reality" then
    withSNI (fun sni => LinkURI (mkURI "vless" [uuid] ip port
      {["flow" := visionFlow; "fp" := "chrome"; "pbk" := pubKey; "security" := "reality"; "sid" := shortID; "sni" := sni; "type" := "tcp"]}
      (match u with Some u => orElse (User_Name u) name | None => name end)))
  else if proto == "vless-reality-xhttp" then
    withSNI (fun sni => LinkURI (mkURI "vless" [uuid] ip port
      {["flow" := visionFlow; "fp" := "chrome"; "host" := sni; "mode" := "packet-up"; "path" := "/api"; "pbk" := pubKey;
       "security" := "reality"; "sid" := shortID; "sni" := sni; "spx" := "/"; "type" := "xhttp"]} "vless-reality-xhttp"))
  else if proto == "xhttp" then
    option_map (fun p =>
      let host := match ConnectionPreset_XHTTP p with
                  | Some x => match XHTTPPreset_Hosts x with h :: _ => h | [] => "www.microsoft.com" end
                  | None => "www.microsoft.com"
                  end in
      LinkURI (mkURI "vless" [uuid] ip port {["type" := "xhttp"; "security" := "none"; "host" := host; "path" := "/api"]} "")) (GetDefaultPreset s)
  else if proto == "vmess" then
    Some (LinkURI (mkURI "vmess" [uuid] ip port {["aid" := "0"; "net" := "tcp"; "type" := "none"; "tls" := ""]} name))
  else if proto == "trojan" then
    withSNI (fun sni => LinkURI (mkURI "trojan" [privKey] ip port {["type" := "tcp"; "security" := "tls"; "sni" := sni]} name))
  else if (proto == "shadowsocks") || (proto == "ss") then
    Some (LinkURI (mkURI "ss" [paddedEncode stdAlphabet (SS_DEFAULT_CIPHER +:+ ":" +:+ orElse privKey ss)] ip port ∅ name))
  else if proto == "hysteria2" then
    Some (LinkURI (mkURI "hysteria2" [uuid] ip port
      (let q := {["obfs" := "salamander"; "obfs-password" := orElse obfsPassword obfs]} in if insecure then <["insecure" := "1"]> q else q) ""))
  else if proto == "mtproxy" then
    Some (mtproxyLink ip port (default ("ee" +:+ privKey) (MTProxyFullSecret privKey "disk.yandex.ru")))
  else Some (LinkComment ("# " +:+ proto +:+ " config for " +:+ ip +:+ ":" +:+ itoa port)).

Section links.
Context (g : CPSGen) (s : PresetState) (ss obfs : string).

(** [buildStandaloneLink]; [None] is the panic of the default preset. *)
Definition buildStandaloneLink (addr : string) (ib : NodeInbound) (u : option User) : option Link :=
  let ip := hostBeforeColon addr in
  let proto := NodeInbound_Protocol ib in
  if proto == "awg" then
    let '(priv, addrIP, psk) :=
      match u with
      | Some u =>
          (if (User_AWGPrivateKey u == "") && (User_ImportedSecret u != "") && (User_SecretType u == "awg") then User_ImportedSecret u
           else User_AWGPrivateKey u, User_AWGAddress u, User_AWGPresharedKey u)
      | None => ("", "", "")
      end in
    let priv := if priv == "" then NodeInbound_AWGClientPriv ib else priv in
    if priv == "" then buildClientURI g s ss obfs "awg" ip (NodeInbound_Port ib) "" "" (NodeInbound_ServerPubKey ib) "" proto u "" false
    else option_map LinkConf (buildAWGClientConf g s ip (NodeInbound_Port ib) priv (NodeInbound_ServerPubKey ib) "" addrIP (Some ib) psk)
  else if proto == "mtproxy" then
    Some (mtproxyLink ip (NodeInbound_Port ib)
      (default ("ee" +:+ NodeInbound_UUID ib) (MTProxyFullSecret (NodeInbound_UUID ib) (defaultFakeTLSDomain ib))))
  else
    let insecure := (proto == "hysteria2") && (NodeInbound_TLSCertificate ib != "") in
    let uuid := match u with
                | Some u => if (User_VLESSUUID u != "") && ((proto == "vless-reality") || (proto == "vless-reality-xhttp")) then User_VLESSUUID u
                            else NodeInbound_UUID ib
                | None => NodeInbound_UUID ib
                end in
    option_map (fun l => applySNI l (NodeInbound_ServerName ib))
      (buildClientURI g s ss obfs proto ip (NodeInbound_Port ib) uuid (NodeInbound_ServerPrivKey ib) (NodeInbound_ServerPubKey ib)
         (NodeInbound_ShortID ib) proto u (NodeInbound_ObfsPassword ib) insecure).

(** [buildStandaloneLinkFor]: the inbound of the index, which exists. *)
Definition buildStandaloneLinkFor (node : NodeInfo) (index : nat) (ib : NodeInbound) (u : option User) : option Link :=
  let part (f : User -> string) := match u with Some u => f u | None => "" end in
  let direct := buildStandaloneLink (Host_Addr (NodeInfo_Host node)) ib u in
  match CaddyFrontedHosts node with
  | None => direct
  | Some hosts =>
      match List.find (fun p => Nat.eqb (fst p) index) hosts with
      | None => direct
      | Some (_, host) =>
          if NodeInbound_Protocol ib == "naive" then
            Some (LinkURI (mkURI "naive+https" [part User_NaiveUsername; part User_NaivePassword] host 443 {["padding" := "true"; "sni" := host]} "naive"))
          else if NodeInbound_Protocol ib == "trusttunnel" then
            Some (LinkURI (mkURI "tt" [part User_TrustTunnelUsername; part User_TrustTunnelPassword] host 443
                             {["security" := "tls"; "sni" := host; "alpn" := "h2"]} "trusttunnel"))
          else direct
      end
  end.

(** [ProfileInboundOn]. *)
Definition ProfileInboundOn (nodeID profileID : string) (w : World) : option NodeInbound :=
  match readStore w with
  | inl _ => None
  | inr sf =>
      List.find (fun ib => NodeInbound_ProfileID ib == profileID)
        (flat_map (fun ni => if NodeInfo_ID ni == nodeID then NodeInfo_Inbounds ni else []) (sf_NodeInfos sf))
  end.

Definition clientErrorText (e : ClientError) : string :=
  match e with
  | NoEntry => "no entry node" | NotAWG p => p | NoHost a => a | TUICPasswordFailed => "password" | Unsupported p => p | PresetPanic => "panic"
  end.

(** [buildConnectionLink]; [None] is a panic. *)
Definition buildConnectionLink (w : World) (c : Chain) (u : option User) (clampVersion : string) : option Link :=
  match AllNodes c with
  | [] => Some (LinkComment "# no nodes in chain")
  | entry :: _ =>
      let proto := orElse (Chain_UserProtocol c) "awg" in
      if Chain_UserProtocol c == UserProtocolAWG then
        match RenderClientAWGConf g s (mkClientConfigParams c u (Some (fun n p => ProfileInboundOn n p w)) "" "" clampVersion) with
        | inr conf => Some (LinkConf conf)
        | inl PresetPanic => None
        | inl e => Some (LinkComment ("# " +:+ clientErrorText e))
        end
      else
        let ib := if ChainNode_InboundRef entry != "" then ProfileInboundOn (ChainNode_ID entry) (ChainNode_InboundRef entry) w else None in
        let '(port, uuid, pubKey, shortID, sni) :=
          match ib with
          | None => (8443, Chain_TUICEntryUserUUID c, Chain_AWGEntryServerPub c, "", "")
          | Some ib => (if NodeInbound_Port ib =? 0 then 8443 else NodeInbound_Port ib, orElse (NodeInbound_UUID ib) (Chain_TUICEntryUserUUID c),
                        orElse (NodeInbound_ServerPubKey ib) (Chain_AWGEntryServerPub c), NodeInbound_ShortID ib, NodeInbound_ServerName ib)
          end in
        let password := Chain_TUICEntryUserPassword c in
        let '(uuid, password) :=
          match u with
          | None => (uuid, password)
          | Some u =>
              let uuid := orElse (User_TUICUUID u) uuid in
              (if (User_VLESSUUID u != "") && ((proto == "vless-reality") || (proto == "vless-reality-xhttp") || (proto == "xhttp"))
               then User_VLESSUUID u else uuid, orElse (User_TUICPassword u) password)
          end in
        option_map (fun l => applySNI l sni)
          (buildClientURI g s ss obfs proto (hostBeforeColon (ChainNode_Addr entry)) port uuid password pubKey shortID (Chain_Name c) u "" false)
  end.

(** ** The links of a user *)

(** [ensureStandaloneAWGMaterial]: one inbound, the inbounds of a node, the
    nodes; [draw] gives the packets drawn for an inbound.  [None] is the panic
    of the default preset; a failed save is ignored. *)
Definition ensureInboundMaterial (draw : CPSGen) (w : World) (ib : NodeInbound) : option (NodeInbound * bool) :=
  if NodeInbound_Protocol ib != "awg" then Some (ib, false)
  else
    match ResolveStandaloneAWGPreset s ib with
    | None => None
    | Some preset =>
        let prof := if NodeInbound_ProfileID ib != "" then
                      match GetInboundProfile (NodeInbound_ProfileID ib) w with Ok p => Some p | Err _ => None end
                    else None in
        let ib' := ApplyProfileMaterialToInbound draw prof preset ib in
        Some (ib', (NodeInbound_AWGCPSI1 ib' +:+ NodeInbound_AWGH1 ib') != (NodeInbound_AWGCPSI1 ib +:+ NodeInbound_AWGH1 ib))
  end.

Fixpoint ensureInboundsMaterial (draw : nat -> CPSGen) (w : World) (i : nat) (ibs : list NodeInbound) : option (list NodeInbound * bool) :=
  match ibs with
  | [] => Some ([], false)
  | ib :: ibs' =>
      match ensureInboundMaterial (draw i) w ib, ensureInboundsMaterial draw w (S i) ibs' with
      | Some (ib', c), Some (ibs', c') => Some (ib' :: ibs', c || c')
      | _, _ => None
      end
  end.

Fixpoint ensureStandaloneAWGMaterial (draw : string -> nat -> CPSGen) (nodes : list NodeInfo) (w : World) : option (list NodeInfo * World) :=
  match nodes with
  | [] => Some ([], w)
  | node :: nodes' =>
      match ensureInboundsMaterial (draw (NodeInfo_ID node)) w 0 (NodeInfo_Inbounds node) with
      | None => None
      | Some (ibs, changed) =>
          let node := node <| NodeInfo_Inbounds := ibs |> in
          match ensureStandaloneAWGMaterial draw nodes' (if changed then snd (SaveNodeInfo node w) else w) with
          | None => None
          | Some (nodes', w') => Some (node :: nodes', w')
          end
      end
  end.

(** [persistUserCreds]: the credentials are completed in memory, and saved when
    one of three of them changed. *)
Definition credMark (u : User) : string := User_NaivePassword u +:+ User_MieruPassword u +:+ User_AWGPresharedKey u.
Definition persistUserCreds (cg : CredGen) (now : Time) (u : User) (w : World) : User * World :=
  let u' := fst (EnsureUserCreds cg u) in
  if credMark u' != credMark u
  then match SaveUser now u' w with (Ok u', w') => (u', w') | (Err _, w') => (u', w') end
  else (u', w).

(** The inbounds of a node whose link the user gets. *)
Definition linkedInbound (u : User) (ib : NodeInbound) : bool :=
  negb (IsChainSourcedInbound ib) && (proxyInbound ib || bool_decide (User_ID u ∈ NodeInbound_ForUsers ib)).

Fixpoint nodeLinks (node : NodeInfo) (u : User) (i : nat) (ibs : list NodeInbound) : option (list Link) :=
  match ibs with
  | [] => Some []
  | ib :: ibs' =>
      match nodeLinks node u (S i) ibs' with
      | None => None
      | Some rest =>
          if linkedInbound u ib then option_map (fun l => l :: rest) (buildStandaloneLinkFor node i ib (Some u)) else Some rest
      end
  end.

(** The MTProxy link of a node, if its host exists and the secret is a full one. *)
Definition mtproxyNodeLink (w : World) (u : User) (nodeID : string) : option Link :=
  match GetHost nodeID w with
  | Err _ => None
  | Ok host =>
      let addr := match cut_at ":"%char (Host_Addr host) with
                  | Some (h, _) => if h == "" then Host_Addr host else h
                  | None => Host_Addr host
                  end in
      let port := match GetNodeInfo nodeID w with
                  | Ok info =>
                      match List.find (fun ib => (NodeInbound_Protocol ib == "mtproxy") && (0 <? NodeInbound_Port ib)) (NodeInfo_Inbounds info) with
                      | Some ib => NodeInbound_Port ib
                      | None => 443
                      end
                  | Err _ => 443
                  end in
      option_map (mtproxyLink addr port) (MTProxyFullSecret (User_MTProxySecret u) (User_MTProxyDomain u))
  end.

(** The list of results, [None] when one panics. *)
Fixpoint allLinks (ls : list (option Link)) : option (list Link) :=
  match ls with
  | [] => Some []
  | l :: ls' => match l, allLinks ls' with Some l, Some ls' => Some (l :: ls') | _, _ => None end
  end.

(** [collectUserLinks]: the user with his credentials, the links and the store;
    [None] is a panic. *)
Definition collectUserLinks (cg : CredGen) (draw : string -> nat -> CPSGen) (now : Time) (u : User) (w : World)
    : option (User * list Link * World) :=
  let '(u, w) := persistUserCreds cg now u w in
  let chainLinks := allLinks (omap (fun name =>
    match GetChain name w with Ok c => Some (buildConnectionLink w c (Some u) "") | Err _ => None end) (User_ChainNames u)) in
  let nodes := match ListNodeInfos w with Ok ns => ns | Err _ => [] end in
  match ensureStandaloneAWGMaterial draw nodes w with
  | None => None
  | Some (nodes, w) =>
      let standalone := map (fun n => nodeLinks n u 0 (NodeInfo_Inbounds n)) nodes in
      let mt := if (User_MTProxySecret u != "") && negb (Nat.eqb (length (User_MTProxyNodes u)) 0)
                then omap (mtproxyNodeLink w u) (User_MTProxyNodes u) else [] in
      match chainLinks, fold_right (fun l acc => match l, acc with Some l, Some acc => Some (l ++ acc) | _, _ => None end) (Some []) standalone with
      | Some cl, Some sl => Some (u, cl ++ sl ++ mt, w)
      | _, _ => None
      end
  end.
End links.

(** ** What a listener admits *)

Section admits.
Context {CU : Curve}.

(** The public key of a REALITY key. *)
Definition realityPublic (priv : string) : option string := publicKeyB64 (mkHopParams "" priv "" "" 0).

Definition admits (l : Listener) (u : URI) : Prop :=
  let q := fun k => queryGet k (uri_query u) in
  uri_port u = listenPort l /\
  match l with
  | LVLESS i =>
      uri_scheme u = "vless" /\
      match vi_TLS i, vi_Transport i with
      | Some tls, None =>
          match it_Reality tls with
          | Some r => (exists v, v ∈ vi_Users i /\ uri_user u = [vu_UUID v] /\ q "flow" = vu_Flow v) /\
                      q "type" = "tcp" /\ q "security" = "reality" /\ q "sni" = it_ServerName tls /\
                      q "sid" ∈ ir_ShortID r /\ realityPublic (ir_PrivateKey r) = Some (q "pbk")
          | None => False
          end
      | None, Some t => (exists v, v ∈ vi_Users i /\ uri_user u = [vu_UUID v]) /\
                        q "type" = to_Type t /\ q "security" = "none" /\ q "path" = to_Path t /\
                        (to_Host t = [] \/ q "host" ∈ to_Host t)
      | _, _ => False
      end
  | LTUIC i => uri_scheme u = "tuic" /\ q "congestion_control" = ti_Congestion i /\ [q "alpn"] = it_ALPN (ti_TLS i) /\
               exists c, c ∈ ti_Users i /\ uri_user u = [c.1; c.2]
  | LHysteria2 _ _ _ password obfs => uri_scheme u = "hysteria2" /\ uri_user u = [password] /\ q "obfs" = "salamander" /\ q "obfs-password" = obfs
  | LNaive _ _ _ users tls => uri_scheme u = "naive+https" /\ (it_ServerName tls <> "" -> q "sni" = it_ServerName tls) /\
                              exists c, c ∈ users /\ uri_user u = [c.1; c.2]
  | LTrustTunnel _ _ _ users tls => uri_scheme u = "tt" /\ (it_ServerName tls <> "" -> q "sni" = it_ServerName tls) /\ [q "alpn"] = it_ALPN tls /\
                                    exists c, c ∈ users /\ uri_user u = [c.1; c.2]
  | LMieru _ _ _ users transport => uri_scheme u = "mierus" /\ q "transport" = transport /\
                                    exists c, c ∈ users /\ uri_user u = [c.1; c.2]
  | LAwg _ => False
  end.
End admits.

(** The inbounds whose links open them, with the credentials the link needs: VLESS
    with REALITY, TUIC but for a user with an imported secret of that kind,
    Hysteria2 with an obfuscation password, naive, TrustTunnel and mieru over TCP. *)
Definition linkable (ib : NodeInbound) (u : User) : bool :=
  let proto := NodeInbound_Protocol ib in
  if proto == "vless-reality" then true
  else if proto == "tuic" then negb ((User_ImportedSecret u != "") && (User_SecretType u == "tuic"))
  else if proto == "hysteria2" then NodeInbound_ObfsPassword ib != ""
  else if proto == "naive" then (User_NaiveUsername u != "") && (User_NaivePassword u != "")
  else if proto == "trusttunnel" then (User_TrustTunnelUsername u != "") && (User_TrustTunnelPassword u != "")
  else if proto == "mieru" then (User_MieruUsername u != "") && (User_MieruPassword u != "") && (orElse (NodeInbound_MieruTransport ib) "TCP" == "TCP")
  else false.

Lemma namedUsers_elem f p u users : u ∈ users -> User_Active u = true -> f u <> "" -> p u <> "" -> (f u, p u) ∈ namedUsers f p users.
Proof.
  intros Hu Ha Hf Hp. unfold namedUsers. apply list_elem_of_In, in_map_iff. exists u. split; [done|].
  apply filter_In. split; [by apply list_elem_of_In|]. by rewrite Ha, !bool_decide_eq_false_2.
Qed.

(** The UUID a link of a user carries is one of the listener. *)
Lemma linkUUID_elem (ib : NodeInbound) u users name :
  u ∈ users -> User_Active u = true ->
  (if User_VLESSUUID u != "" then User_VLESSUUID u else NodeInbound_UUID ib) ∈
    map vu_UUID (mkVLESSUser name (NodeInbound_UUID ib) visionFlow :: vlessUsers [NodeInbound_UUID ib] users).
Proof.
  intros Hu Ha. cbn [map vu_UUID]. case_bool_decide as E; cbn [negb]; [by left|]. rewrite elem_of_cons.
  destruct (decide (User_VLESSUUID u = NodeInbound_UUID ib)) as [->|Hne]; [by left|right].
  apply (proj2 (vlessUsers_spec users [NodeInbound_UUID ib])). split_and!; [by intros ?%list_elem_of_singleton|done|by exists u].
Qed.

Lemma vlessUsers_flow users : forall seen v, v ∈ vlessUsers seen users -> vu_Flow v = visionFlow.
Proof.
  induction users as [|u users IH]; intros seen v; cbn [vlessUsers]; [by intros ?%not_elem_of_nil|].
  destruct (_ || _); [apply IH|]. intros [->|H]%elem_of_cons; [done|by eapply IH].
Qed.

(** Closed comparisons of strings compute. *)
Ltac decide_literals :=
  repeat match goal with
  | |- context [bool_decide (String ?a ?s = String ?b ?t)] =>
      let v := eval vm_compute in (bool_decide (String a s = String b t)) in
      lazymatch v with true => idtac | false => idtac end;
      change (bool_decide (String a s = String b t)) with v
  end; cbn [negb andb orb]; cbv iota.

(** The parameters of a link compute. *)
Ltac link_query := try reflexivity; unfold queryGet; cbn [uri_query]; rewrite ?lookup_insert_eq; repeat (rewrite lookup_insert_ne by discriminate; rewrite ?lookup_insert_eq); try reflexivity.

Lemma queryGet_insert k v q : queryGet k (<[k := v]> q) = v.
Proof. unfold queryGet. by rewrite lookup_insert_eq. Qed.
Lemma queryGet_insert_ne k j v q : k <> j -> queryGet k (<[j := v]> q) = queryGet k q.
Proof. intros H. unfold queryGet. by rewrite lookup_insert_ne by done. Qed.

(** The server name of a link after [applySNI]. *)
Lemma applySNI_parts sch us host port q frag sni :
  sni <> "" -> queryGet "sni" q <> "" ->
  applySNI (LinkURI (mkURI sch us host port q frag)) sni = LinkURI (mkURI sch us host port (<["sni" := sni]> q) frag).
Proof. intros H1 H2. unfold applySNI. cbn [uri_query]. by rewrite !bool_decide_eq_false_2. Qed.

Lemma applySNI_none sch us host port q frag sni :
  queryGet "sni" q = "" -> applySNI (LinkURI (mkURI sch us host port q frag)) sni = LinkURI (mkURI sch us host port q frag).
Proof. intros H2. unfold applySNI. cbn [uri_query]. rewrite (bool_decide_eq_true_2 _ H2), orb_true_r. done. Qed.

(** The link and the listener are computed: what is left is that one admits the other. *)
Ltac link_parts :=
  eexists _, _; split; [reflexivity|split; [reflexivity|split; [reflexivity|split; [reflexivity|]]]]; cbn -[queryGet].

Section served.
Context {CU : Curve} (g : RoleGen) (cg : CPSGen) (s : PresetState) (ss obfs : string) (node : NodeInfo).
Context (users : list User) (u : User) (ib : NodeInbound) (index : nat) (tag : string).
Hypothesis default_preset : exists d, GetDefaultPreset s = Some d /\ linkServerName d <> "".
Hypothesis user_listed : u ∈ users.
Hypothesis user_active : User_Active u = true.
Hypothesis user_linkable : linkable ib u = true.
Hypothesis keys_match : NodeInbound_Protocol ib = "vless-reality" -> realityPublic (NodeInbound_ServerPrivKey ib) = Some (NodeInbound_ServerPubKey ib).

End served.

(** ** Behind the router *)

Lemma frontedFrom_inbound domain ibs : forall k seen i h,
  (i, h) ∈ frontedFrom domain k seen ibs ->
  exists j ib, i = (k + j)%nat /\ ibs !! j = Some ib /\ TLSUtilityProtocol (NodeInbound_Protocol ib) = true.
Proof.
  induction ibs as [|ib ibs IH]; intros k seen i h; cbn [frontedFrom]; [by intros ?%not_elem_of_nil|].
  assert (forall seen', (i, h) ∈ frontedFrom domain (S k) seen' ibs ->
    exists j ib0, i = (k + j)%nat /\ (ib :: ibs) !! j = Some ib0 /\ TLSUtilityProtocol (NodeInbound_Protocol ib0) = true) as Hrec.
  { intros seen' (j & ib0 & -> & Hj & Hp)%IH. exists (S j), ib0. split; [lia|done]. }
  destruct (IsChainSourcedInbound ib || negb (TLSUtilityProtocol (NodeInbound_Protocol ib))) eqn:E; [apply Hrec|].
  destruct (sniSubdomain _ _) as [label seen']. intros [[= -> ->]|H]%elem_of_cons; [|by eapply Hrec].
  exists 0%nat, ib. bool_to_prop. split; [lia|done].
Qed.

Lemma frontedFrom_indices domain ibs : forall k seen, NoDup (map fst (frontedFrom domain k seen ibs)).
Proof.
  induction ibs as [|ib ibs IH]; intros k seen; cbn [frontedFrom]; [constructor|].
  destruct (_ || _); [apply IH|]. destruct (sniSubdomain _ _) as [label seen']. cbn [map fst]. apply NoDup_cons. split; [|apply IH].
  intros ([i h] & -> & Hi)%list_elem_of_fmap. apply frontedFrom_inbound in Hi as (j & ib0 & Hj & _). cbn in Hj. lia.
Qed.

Lemma find_index (l : list (nat * string)) i h :
  NoDup (map fst l) -> (i, h) ∈ l -> List.find (fun p => Nat.eqb (fst p) i) l = Some (i, h).
Proof.
  induction l as [|[j k] l IH]; cbn [map fst List.find]; [by intros _ ?%not_elem_of_nil|].
  intros [Hj Hnd]%NoDup_cons [[= <- <-]|H]%elem_of_cons; [by rewrite Nat.eqb_refl|].
  destruct (Nat.eqb_spec j i) as [->|]; [|by apply IH]. destruct Hj. apply list_elem_of_fmap. by exists (i, h).
Qed.

(** The URI as the router hands it on. *)
Definition routedTo (port : Z) (u : URI) : URI := mkURI (uri_scheme u) (uri_user u) (uri_host u) port (uri_query u) (uri_fragment u).

Section fronted.
Context {CU : Curve} (g : RoleGen) (cg : CPSGen) (s : PresetState) (ss obfs : string) (node : NodeInfo).
Context (users : list User) (u : User) (ib : NodeInbound) (index : nat) (tag : string) (hosts : list (nat * string)).
Hypothesis default_preset : is_Some (GetDefaultPreset s).
Hypothesis user_listed : u ∈ users.
Hypothesis user_active : User_Active u = true.
Hypothesis user_linkable : linkable ib u = true.
Hypothesis caddy : CaddyFrontedHosts node = Some hosts.
Hypothesis inbound : NodeInfo_Inbounds node !! index = Some ib.

(** C23: a link through the SNI router arrives.  On a node in caddy mode the link
    of a fronted inbound goes to port 443 of its host name; the router has
    exactly one route for that name, the certificate covers it, and the route
    leads to the loopback port on which [buildStandaloneInOut] makes the one
    listener that admits the link's credentials. *)
Theorem fronted_link_routed revision host :
  (index, host) ∈ hosts ->
  exists uri l plan ports,
    buildStandaloneLinkFor cg s ss obfs node index ib (Some u) = Some (LinkURI uri) /\
    BuildCaddyPlan node revision = Some plan /\ RemapInboundPorts (NodeInfo_Inbounds node) = Some ports /\
    buildStandaloneInOut g s node (Some ports) ib tag users index = Some [l] /\
    (uri_host uri = host /\ uri_port uri = 443 /\ queryGet "sni" (uri_query uri) = host) /\
    (host ∈ CaddySANs plan /\ forall r, r ∈ CaddyPlan_SNIRoutes plan -> SNIRoute_Host r = host <-> r = mkSNIRoute host (listenPort l)) /\
    admits l (routedTo (listenPort l) uri).
Proof using All.
  intros Hh. pose proof (BuildCaddyPlan_hosts node revision hosts caddy) as (plan & ports & Hplan & Hports & Hroutes & Hnd & Hsan).
  destruct (RemapInboundPorts_ok (NodeInfo_Inbounds node)) as (ports' & Hports' & Hlen). rewrite Hports in Hports'. injection Hports' as <-.
  destruct (lookup_lt_is_Some_2 ports index) as [port Hport]; [rewrite Hlen; by eapply lookup_lt_Some|].
  assert (hosts = frontedFrom (TrimSpace (NodeInfo_TLSDomain node)) 0 ∅ (NodeInfo_Inbounds node)) as Hf.
  { revert caddy. unfold CaddyFrontedHosts. destruct (negb (CaddyMode node)); by intros [= <-]. }
  assert (TLSUtilityProtocol (NodeInbound_Protocol ib) = true) as Htls.
  { pose proof Hh as Hi. rewrite Hf in Hi. apply frontedFrom_inbound in Hi as (j & ib0 & Hj & Hl & ?). cbn in Hj. subst j. congruence. }
  assert (List.find (fun p => Nat.eqb (fst p) index) hosts = Some (index, host)) as Hfind.
  { apply find_index; [rewrite Hf; apply frontedFrom_indices|done]. }
  assert (mkSNIRoute host port ∈ CaddyPlan_SNIRoutes plan) as Hr.
  { rewrite Hroutes. apply list_elem_of_fmap. exists (index, host). cbn. by rewrite nth_lookup, Hport. }
  assert (forall r, r ∈ CaddyPlan_SNIRoutes plan -> SNIRoute_Host r = host <-> r = mkSNIRoute host port) as Huniq.
  { intros r Hrr. split; [|by intros ->]. intros He. by apply (NoDup_map_inj SNIRoute_Host (CaddyPlan_SNIRoutes plan)). }
  pose proof (Hsan _ Hh) as Hs. cbn [snd] in Hs. destruct default_preset as [d Hd].
  exists (mkURI (if NodeInbound_Protocol ib == "naive" then "naive+https" else "tt")
    (if NodeInbound_Protocol ib == "naive" then [User_NaiveUsername u; User_NaivePassword u] else [User_TrustTunnelUsername u; User_TrustTunnelPassword u])
    host 443 (if NodeInbound_Protocol ib == "naive" then {["padding" := "true"; "sni" := host]} else {["security" := "tls"; "sni" := host; "alpn" := "h2"]})
    (if NodeInbound_Protocol ib == "naive" then "naive" else "trusttunnel")).
  set (preset := if NodeInbound_Obfuscation ib != "" then default d (GetPreset s (NodeInbound_Obfuscation ib)) else d).
  set (tls := utilityTLS g node (Some ports) (standaloneServerName s preset ib) ib).
  exists (if NodeInbound_Protocol ib == "naive" then LNaive tag "127.0.0.1" port (namedUsers User_NaiveUsername User_NaivePassword users) tls
    else LTrustTunnel tag "127.0.0.1" port (namedUsers User_TrustTunnelUsername User_TrustTunnelPassword users) tls), plan, ports.
  unfold buildStandaloneLinkFor. rewrite caddy, Hfind.
  unfold buildStandaloneInOut, standalonePreset, standaloneListen, fronted. rewrite Hd, Htls, orb_true_r, Hport. cbv zeta. fold preset. fold tls.
  revert user_linkable Htls. unfold linkable, TLSUtilityProtocol. generalize (NodeInbound_Protocol ib). intros p Hl Htls. cbn [default].
  apply orb_true_iff in Htls as [Hp|Hp]; apply bool_decide_eq_true_1 in Hp; subst p; revert Hl; decide_literals; intros Hl; bool_to_prop.
  - split_and!; try done; try (link_query; fail). split; [done|]. cbn -[queryGet]. split_and!; [done|done|].
    eexists. split; [by eapply namedUsers_elem|done].
  - split_and!; try done; try (link_query; fail). split; [done|]. cbn -[queryGet]. split_and!; [done|done|link_query|].
    eexists. split; [by eapply namedUsers_elem|done].
Qed.
End fronted.

(** ** Samples *)

Definition linkNode (ibs : list NodeInbound) : NodeInfo := sampleInfo ibs.
Definition linkUser : User := zeroUser <| User_ID := "u1" |> <| User_Name := "Ann" |> <| User_Active := true |> <| User_VLESSUUID := "uuid-ann" |>
  <| User_NaiveUsername := "ann" |> <| User_NaivePassword := "np" |> <| User_MieruUsername := "ann" |> <| User_MieruPassword := "mp" |>.
Definition realityKey : string := rawEncode urlAlphabet "0123456789abcdef0123456789abcdef".
Definition realityInbound : NodeInbound :=
  zeroNodeInbound <| NodeInbound_Protocol := "vless-reality" |> <| NodeInbound_Port := 8444 |> <| NodeInbound_UUID := "shared" |>
    <| NodeInbound_ShortID := "00ff" |> <| NodeInbound_ServerName := "www.example.com" |> <| NodeInbound_ServerPrivKey := realityKey |>
    <| NodeInbound_ServerPubKey := default "" (@realityPublic sampleCurve realityKey) |>.


Lemma fronted_link_routed_witness :
  exists uri l plan ports,
    buildStandaloneLinkFor (sampleGen "x" true) samplePresets "" "" caddyInfo 2
      (zeroNodeInbound <| NodeInbound_Protocol := "naive" |> <| NodeInbound_Port := 8443 |>) (Some linkUser) = Some (LinkURI uri) /\
    BuildCaddyPlan caddyInfo 7 = Some plan /\ RemapInboundPorts (NodeInfo_Inbounds caddyInfo) = Some ports /\
    @buildStandaloneInOut sampleCurve (sampleRoleGen "x") samplePresets caddyInfo (Some ports)
      (zeroNodeInbound <| NodeInbound_Protocol := "naive" |> <| NodeInbound_Port := 8443 |>) "t" [linkUser] 2 = Some [l] /\
    (uri_host uri = "naive-1.node.example.com" /\ uri_port uri = 443 /\ queryGet "sni" (uri_query uri) = "naive-1.node.example.com") /\
    ("naive-1.node.example.com" ∈ CaddySANs plan /\
      forall r, r ∈ CaddyPlan_SNIRoutes plan -> SNIRoute_Host r = "naive-1.node.example.com" <-> r = mkSNIRoute "naive-1.node.example.com" (listenPort l)) /\
    @admits sampleCurve l (routedTo (listenPort l) uri).
Proof.
  refine (@fronted_link_routed sampleCurve (sampleRoleGen "x") (sampleGen "x" true) samplePresets "" "" caddyInfo [linkUser] linkUser
    (zeroNodeInbound <| NodeInbound_Protocol := "naive" |> <| NodeInbound_Port := 8443 |>) 2 "t"
    [(0%nat, "naive.node.example.com"); (2%nat, "naive-1.node.example.com")] _ _ _ _ _ _ 7 "naive-1.node.example.com" _).
  - eexists. vm_compute. reflexivity.
  - by left.
  - reflexivity.
  - vm_compute. reflexivity.
  - vm_compute. reflexivity.
  - reflexivity.
  - right. by left.
Defined.

(** ** Where a link and its listener part *)

Definition directListeners : NodeInbound -> string -> list User -> nat -> option (list Listener) :=
  @buildStandaloneInOut sampleCurve (sampleRoleGen "x") samplePresets (linkNode []) None.
Definition directLink : NodeInbound -> option User -> option Link := buildStandaloneLink (sampleGen "x" true) samplePresets "" "" "h".

(** A mieru listener on UDP gets a link for TCP. *)
Lemma mieru_link_is_tcp :
  let ib := zeroNodeInbound <| NodeInbound_Protocol := "mieru" |> <| NodeInbound_MieruTransport := "UDP" |> in
  directListeners ib "t" [linkUser] 0 = Some [LMieru "t" "0.0.0.0" 0 [("ann", "mp")] "UDP"] /\
  match directLink ib (Some linkUser) with
  | Some (LinkURI u) => queryGet "transport" (uri_query u) = "TCP"
  | _ => False
  end.
Proof. by vm_compute. Qed.

(** An XHTTP inbound listens with the HTTP/2 transport of sing-box, and its link
    asks for the transport xhttp: the listener does not admit it. *)
Lemma xhttp_link_other_transport :
  let ib := zeroNodeInbound <| NodeInbound_Protocol := "xhttp" |> <| NodeInbound_UUID := "id" |> in
  match directListeners ib "t" [linkUser] 0, directLink ib (Some linkUser) with
  | Some [LVLESS i], Some (LinkURI u) =>
      option_map to_Type (vi_Transport i) = Some "http" /\ queryGet "type" (uri_query u) = "xhttp" /\ ~ @admits sampleCurve (LVLESS i) u
  | _, _ => False
  end.
Proof.
  vm_compute. split; [reflexivity|]. split; [reflexivity|]. intros (_ & _ & _ & H & _). discriminate H.
Qed.

(** The certificate of a hysteria2 inbound changes its link, not its listener. *)
Lemma hysteria2_ignores_certificate :
  let ib := zeroNodeInbound <| NodeInbound_Protocol := "hysteria2" |> <| NodeInbound_ObfsPassword := "o" |> in
  let ib' := ib <| NodeInbound_TLSCertificate := "cert" |> <| NodeInbound_TLSPrivateKey := "key" |> in
  directListeners ib "t" [] 0 = directListeners ib' "t" [] 0 /\
  directLink ib None <> directLink ib' None.
Proof. split; [by vm_compute|]. vm_compute. discriminate. Qed.

(** A second REALITY inbound of a node in caddy mode: its link dials its
    configured port, it listens elsewhere, and no route leads there. *)
Lemma second_reality_unrouted :
  let ib1 := realityInbound <| NodeInbound_Port := 443 |> in
  let ib2 := realityInbound <| NodeInbound_Port := 8443 |> in
  let node := caddyInfo <| NodeInfo_Inbounds := [ib1; ib2] |> in
  match RemapInboundPorts [ib1; ib2], BuildCaddyPlan node 1 with
  | Some ports, Some plan =>
      option_map (map listenPort) (@buildStandaloneInOut sampleCurve (sampleRoleGen "x") samplePresets node (Some ports) ib2 "t" [] 1) = Some [11001] /\
      match buildStandaloneLinkFor (sampleGen "x" true) samplePresets "" "" node 1 ib2 None with Some (LinkURI u) => uri_port u = 8443 | _ => False end /\
      CaddyPlan_RealityPort plan = 11000 /\ CaddyPlan_SNIRoutes plan = []
  | _, _ => False
  end.
Proof. by vm_compute. Qed.

(** A chain with VLESS users and no profile on its entry listens on its own port
    over WebSocket, and its links dial 8443 with REALITY over TCP. *)
Lemma vless_chain_link_parts w :
  let c := (wireChain TransportReality) <| Chain_UserProtocol := "vless-reality" |> <| Chain_UserEntryPort := 9000 |> in
  match buildConnectionLink (sampleGen "x" true) samplePresets "" "" w c (Some linkUser) "" with
  | Some (LinkURI u) => uri_port u = 8443 /\ queryGet "security" (uri_query u) = "reality" /\ queryGet "type" (uri_query u) = "tcp"
  | _ => False
  end /\
  let i := buildUserInboundMulti (chainEntryPort c "a") "x" "t" [linkUser] in
  vi_ListenPort i = 9000 /\ option_map it_Reality (vi_TLS i) = Some None /\ option_map to_Type (vi_Transport i) = Some "ws".
Proof. by vm_compute. Qed.

(** A user from before TrustTunnel: neither the subscription nor the deploy saves
    the password it draws, so each draws another. *)
Definition oldUser : User := linkUser <| User_AWGPresharedKey := "psk" |>.
Lemma trusttunnel_never_settles :
  let g1 := sampleCreds in
  let g2 := mkCredGen "vless" "tuic" (Some "tp") "hy" (Some ("priv", "pub")) (Some "psk") (Some "np") (Some "mp") (Some "other") in
  let w := sampleStore [oldUser] in
  let ib := zeroNodeInbound <| NodeInbound_Protocol := "trusttunnel" |> <| NodeInbound_Tag := "t" |> in
  let '(u, w1) := persistUserCreds g1 5 oldUser w in
  let '(byInbound, w2) := usersByInboundMap (fun _ => g2) 5 [ib] w1 in
  w1 = w /\ w2 = w /\ User_TrustTunnelPassword u = "tt" /\ map User_TrustTunnelPassword (usersForChain byInbound "t") = ["other"].
Proof. by vm_compute. Qed.

(** An inbound without a tag gets no users, and every user gets its link. *)
Lemma untagged_inbound_without_users :
  let ib := zeroNodeInbound <| NodeInbound_Protocol := "naive" |> <| NodeInbound_Port := 9443 |> in
  fst (usersByInboundMap (fun _ => sampleCreds) 5 [ib] (sampleStore [linkUser])) = ∅ /\ linkedInbound linkUser ib = true.
Proof. by vm_compute. Qed.
