(* ===== verification/ConfFields.v ===== *)
(** * ConfFields: client files read back

    internal/awg/vpnuri/vpnuri.go ([ParseConfFields]), internal/web/sub_singbox.go
    and sub_clash.go, which turn the awg-quick file of a user into a proxy of
    another client, and [ParseAWGOutboundConf] of internal/chain/awg_outbound.go
    with [parseSections] of awgimport.go, which reads an outbound from such a
    file.  A file is split into lines and each line into a key and a value; a
    Go map read with a missing key gives the empty string. *)

From S2P Require Import Prelude GoStrings Model ChainModel Lifecycle StoreCore Store Presets Roles Codec AwgConf AwgMaterial Push PeerSync AwgPush AwgDeploy ClientConf HopWire.

(** ** Numbers *)

(** [strconv.Atoi]: an optional sign, decimal digits, 64 bits. *)
Fixpoint digitsFrom (acc : Z) (s : string) : option Z :=
  match s with
  | EmptyString => Some acc
  | String c s' => match digitOf c with Some d => digitsFrom (acc * 10 + d) s' | None => None end
  end.
Definition decimal (s : string) : option Z :=
  match s with
  | EmptyString => None
  | String c s' =>
      if Ascii.eqb c "-"%char then if s' == "" then None else option_map Z.opp (digitsFrom 0 s')
      else if Ascii.eqb c "+"%char then if s' == "" then None else digitsFrom 0 s'
      else digitsFrom 0 s
  end.
Definition Atoi (s : string) : option Z :=
  match decimal s with
  | Some z => if (- 2 ^ 63 <=? z) && (z <? 2 ^ 63) then Some z else None
  | None => None
  end.

(** Its first result when the error is dropped: out of range, the nearest integer. *)
Definition atoi0 (s : string) : Z :=
  match decimal s with Some z => Z.max (- 2 ^ 63) (Z.min z (2 ^ 63 - 1)) | None => 0 end.

(** [atoiOr]. *)
Definition atoiOr (s : string) (def : Z) : Z := if s == "" then def else default def (Atoi s).

(** ** Lines *)

(** A line of [ParseConfFields]: key and value, if it has one. *)
Definition confLine (raw : string) : option (string * string) :=
  let line := TrimSpace raw in
  if (line == "") || HasPrefix line "#" || HasPrefix line "[" then None
  else
    match cut_at equals line with
    | None => None
    | Some (key, val) => let val := TrimSpace val in if val == "" then None else Some (TrimSpace key, val)
    end.

Definition putLine (m : gmap string string) (raw : string) : gmap string string :=
  match confLine raw with Some (k, v) => <[k := v]> m | None => m end.

(** [ParseConfFields]. *)
Definition ParseConfFields (conf : string) : gmap string string := fold_left putLine (Split newline conf) ∅.

(** The value of a key, empty when it is absent. *)
Definition get (f : gmap string string) (k : string) : string := default "" (f !! k).

(** [IsAWGConf]. *)
Definition IsAWGConf (s : string) : bool := Contains s "[Interface]" && Contains s "[Peer]".

(** ** The sing-box client *)

(** The fields of [AwgEndpointOptions] and its peer that a client uses. *)
Record ClientAwg := mkClientAwg {
  ca_Tag : string;
  ca_PrivateKey : string;
  ca_Address : string;
  ca_MTU : Z;
  ca_PublicKey : string;
  ca_PresharedKey : string;
  ca_Server : string;
  ca_Port : Z;
  ca_Keepalive : Z;
  ca_Numbers : list Z;               (* Jc, Jmin, Jmax, S1 to S4 *)
  ca_Headers : list string;          (* H1 to H4 *)
  ca_Packets : list string;          (* I1 to I5 *)
  ca_HeaderProtectionKey : string }.

(** The endpoint of a file: host and port, [dflt] without a host. *)
Definition endpointOf (dflt ep : string) : string * Z :=
  match cut_last ":"%char ep with
  | Some (String c host, port) => (String c host, default 51820 (Atoi port))
  | _ => (dflt, 51820)
  end.

(** A positive number, or the default. *)
Definition positiveOr (s : string) (def : Z) : Z :=
  match Atoi s with Some n => if 0 <? n then n else def | None => def end.

(** [singboxAWGOutbound]. *)
Definition singboxAWGOutbound (tag conf : string) : option ClientAwg :=
  let f := get (ParseConfFields conf) in
  if (f "PrivateKey" == "") || (f "PublicKey" == "") then None
  else
    let '(host, port) := endpointOf "" (f "Endpoint") in
    if host == "" then None
    else Some (mkClientAwg tag (f "PrivateKey") (orElse (f "Address") "10.8.0.2/32") (positiveOr (f "MTU") 1420)
                 (f "PublicKey") (f "PresharedKey") host port (positiveOr (f "PersistentKeepalive") 25)
                 (map (fun k => atoiOr (f k) 0) ["Jc"; "Jmin"; "Jmax"; "S1"; "S2"; "S3"; "S4"])
                 (map f ["H1"; "H2"; "H3"; "H4"]) (map f ["I1"; "I2"; "I3"; "I4"; "I5"]) (f "HeaderProtectionKey")).

(** ** The Clash client *)

(** [yamlQuote]. *)
Definition needsQuote (c : ascii) : bool :=
  existsb (Ascii.eqb c) [":"; "#"; "{"; "}"; "["; "]"; ","; "&"; "*"; "!"; " "; Ascii.ascii_of_nat 34; "'"]%char.
Fixpoint anyByte (f : ascii -> bool) (s : string) : bool :=
  match s with EmptyString => false | String c s' => f c || anyByte f s' end.
Definition yamlQuote (s : string) : string :=
  if s == "" then doubleQuote +:+ doubleQuote else if anyByte needsQuote s then quoted s else s.

Definition entry (indent key value : string) : string := indent +:+ key +:+ ": " +:+ value.

(** [clashAmneziaOpt], as lines. *)
Definition clashAmneziaOpt (f : string -> string) : list string :=
  let ver := if f "HeaderProtectionKey" != "" then 3 else if (f "S3" == "") && (f "I1" == "") then 1 else 2 in
  [entry "      " "version" (itoa ver)] ++
  flat_map (fun k => when (f k != "") [entry "      " (ToLower k) (f k)]) ["Jc"; "Jmin"; "Jmax"; "S1"; "S2"; "S3"; "S4"] ++
  flat_map (fun k => when (f k != "") [entry "      " (ToLower k) (yamlQuote (f k))]) ["H1"; "H2"; "H3"; "H4"; "I1"; "I2"; "I3"; "I4"; "I5"] ++
  when (f "HeaderProtectionKey" != "") [entry "      " "header-protection-key" (yamlQuote (f "HeaderProtectionKey"))].

(** [clashAWGProxy], as lines; none without keys. *)
Definition clashAWGProxy (name conf : string) : list string :=
  let f := get (ParseConfFields conf) in
  if (f "PrivateKey" == "") || (f "PublicKey" == "") then []
  else
    let '(host, port) := endpointOf "0.0.0.0" (f "Endpoint") in
    let ip := match cut_at "/"%char (f "Address") with Some (String c a, _) => String c a | _ => f "Address" end in
    ["  - name: " +:+ yamlQuote name; "    type: wireguard"; entry "    " "server" (yamlQuote host); entry "    " "port" (itoa port); "    udp: true";
     entry "    " "private-key" (yamlQuote (f "PrivateKey")); entry "    " "public-key" (yamlQuote (f "PublicKey"))] ++
    when (ip != "") [entry "    " "ip" (yamlQuote ip)] ++
    when (f "PresharedKey" != "") [entry "    " "pre-shared-key" (yamlQuote (f "PresharedKey"))] ++
    when (f "MTU" != "") [entry "    " "mtu" (f "MTU")] ++
    when (f "PersistentKeepalive" != "") [entry "    " "persistent-keepalive" (f "PersistentKeepalive")] ++
    "    amnezia-wg-option:" :: clashAmneziaOpt f.

(** ** VLESS links as text *)

(** The parts both renderings take from a link; [None] is a link they skip. *)
Record VlessParts := mkVlessParts { vp_UUID : string; vp_Host : string; vp_Port : Z; vp_Query : gmap string string }.

Definition vlessParts (uri : string) : option VlessParts :=
  let rest := TrimPrefix uri "vless://" in
  let rest := match cut_at "#"%char rest with Some (r, _) => r | None => rest end in
  let '(userhost, query) := match cut_at "?"%char rest with Some p => p | None => (rest, "") end in
  match cut_last "@"%char userhost with
  | None => None
  | Some (uuid, hp) =>
      match cut_at ":"%char hp with
      | None => None
      | Some (host, portStr) =>
          match Atoi portStr with
          | None => None
          | Some port =>
              Some (mkVlessParts uuid host port
                (fold_left (fun q part => match cut_at equals part with Some (k, v) => <[k := v]> q | None => q end) (Split "&"%char query) ∅))
          end
      end
  end.

(** [singboxVLESSOutbound]; without REALITY there is no TLS section. *)
Record ClientVless := mkClientVless {
  cv_Tag : string;
  cv_Server : string;
  cv_Port : Z;
  cv_UUID : string;
  cv_Flow : string;
  cv_TLS : option (string * string * OutboundReality) }.   (* server name, fingerprint, keys *)

Definition singboxVLESSOutbound (tag uri : string) : option ClientVless :=
  match vlessParts uri with
  | None => None
  | Some p =>
      let q := get (vp_Query p) in
      Some (mkClientVless tag (vp_Host p) (vp_Port p) (vp_UUID p) (q "flow")
              (if q "security" == "reality" then Some (q "sni", q "fp", mkOutboundReality (q "pbk") (q "sid")) else None))
  end.

(** [clashVLESSProxy], as lines. *)
Definition clashVLESSProxy (name uri : string) : list string :=
  match vlessParts uri with
  | None => []
  | Some p =>
      let q := get (vp_Query p) in
      let opt k indent key := when (q k != "") [entry indent key (yamlQuote (q k))] in
      ["  - name: " +:+ yamlQuote name; "    type: vless"; entry "    " "server" (yamlQuote (vp_Host p)); entry "    " "port" (itoa (vp_Port p));
       entry "    " "uuid" (yamlQuote (vp_UUID p)); "    udp: true"; entry "    " "network" (yamlQuote (orElse (q "type") "tcp"))] ++
      when (q "security" == "reality")
        (["    tls: true"; "    reality-opts:"] ++ opt "pbk" "      " "public-key" ++ opt "sid" "      " "short-id" ++
         opt "sni" "    " "servername" ++ opt "fp" "    " "client-fingerprint" ++ opt "flow" "    " "flow")
  end.

(** ** Outbounds read from a file *)

(** [parseSections]: the section, the interface fields and those of the last peer. *)
Record Sections := mkSections { sec_name : string; sec_iface : gmap string string; sec_peer : gmap string string }.

Definition sectionLine (s : Sections) (raw : string) : Sections :=
  let line := TrimSpace raw in
  if (line == "") || HasPrefix line "#" then s
  else if HasPrefix line "[" && HasSuffix line "]" then
    let section := TrimSuffix (TrimPrefix line "[") "]" in
    mkSections section (sec_iface s) (if section == "Peer" then ∅ else sec_peer s)
  else
    match cut_at equals line with
    | None => s
    | Some (k, v) =>
        if sec_name s == "Interface" then mkSections (sec_name s) (<[TrimSpace k := TrimSpace v]> (sec_iface s)) (sec_peer s)
        else if sec_name s == "Peer" then mkSections (sec_name s) (sec_iface s) (<[TrimSpace k := TrimSpace v]> (sec_peer s))
        else s
    end.

Definition parseSections (content : string) : gmap string string * gmap string string :=
  let s := fold_left sectionLine (Split newline content) (mkSections "" ∅ ∅) in (sec_iface s, sec_peer s).

(** [ParseAWGOutboundConf], after the link is opened; [None] is its error. *)
Definition outboundOf (iface peer : gmap string string) : AWGOutbound :=
  let i := get iface in let p := get peer in
  mkAWGOutbound "" "" true (i "PrivateKey") (i "Address") (orElseZ (atoi0 (i "MTU")) 1420) (p "PublicKey") (p "PresharedKey") (p "Endpoint")
    (p "AllowedIPs") (atoi0 (p "PersistentKeepalive")) (atoi0 (i "Jc")) (atoi0 (i "Jmin")) (atoi0 (i "Jmax"))
    (atoi0 (i "S1")) (atoi0 (i "S2")) (atoi0 (i "S3")) (atoi0 (i "S4")) (i "H1") (i "H2") (i "H3") (i "H4")
    (i "HeaderProtectionKey") (if i "HeaderProtectionKey" != "" then AWGVersion3 else AWGVersion2).

Definition parseOutbound (raw : string) : option AWGOutbound :=
  if negb (IsAWGConf raw) then None
  else
    let '(iface, peer) := parseSections raw in
    let ob := outboundOf iface peer in
    if (AWGOutbound_PrivateKey ob == "") || (AWGOutbound_PublicKey ob == "") || (AWGOutbound_Endpoint ob == "") then None
    else Some (ob <| AWGOutbound_Address := orElse (AWGOutbound_Address ob) "10.9.0.2/32" |>
                  <| AWGOutbound_AllowedIPs := orElse (AWGOutbound_AllowedIPs ob) "0.0.0.0/0, ::/0" |>).

(** ** Lemmas: numbers *)

Lemma digitOf_char x : (x < 10)%N -> digitOf (pretty_N_char x) = Some (Z.of_N x).
Proof.
  intros Hx. assert (x ∈ [0; 1; 2; 3; 4; 5; 6; 7; 8; 9]%N) as H.
  { rewrite list_elem_of_In. cbn. lia. }
  repeat (apply elem_of_cons in H as [->|H]; [reflexivity|]). by apply not_elem_of_nil in H.
Qed.

Lemma digitsFrom_pretty x : forall s, digitsFrom 0 (pretty_N_go x s) = digitsFrom (Z.of_N x) s.
Proof.
  induction (N.lt_wf_0 x) as [x _ IH]; intros s. destruct (decide (x = 0%N)) as [->|Hx]; [by rewrite pretty_N_go_0|].
  rewrite pretty_N_go_step by lia. rewrite IH by (apply N.div_lt; lia). cbn [digitsFrom].
  rewrite digitOf_char by (apply N.mod_lt; lia). f_equal. rewrite N2Z.inj_div, N2Z.inj_mod by lia. 
  pose proof (Z.div_mod (Z.of_N x) (Z.of_N 10)). lia.
Qed.

Lemma digitsFrom_N x : digitsFrom 0 (pretty (x : N)) = Some (Z.of_N x).
Proof. unfold pretty, pretty_N. case_decide as E; [by subst|]. apply digitsFrom_pretty. Qed.

Lemma digitOf_sign c : digitOf c <> None -> Ascii.eqb c "-"%char = false /\ Ascii.eqb c "+"%char = false.
Proof. intros H. split; apply Ascii.eqb_neq; intros ->; by apply H. Qed.

Lemma decimal_itoa z : decimal (itoa z) = Some z.
Proof.
  assert (forall x, decimal (pretty (x : N)) = Some (Z.of_N x)) as HN.
  { intros x. pose proof (digitsFrom_N x) as H. destruct (pretty x) as [|c s] eqn:E.
    - exfalso. cbn in H. injection H as H. assert (x = 0%N) as -> by lia. discriminate E.
    - cbn [decimal]. destruct (digitOf_sign c) as [-> ->]; [|exact H]. cbn in H. by destruct (digitOf c). }
  destruct z as [|p|p]; [reflexivity|exact (HN (N.pos p))|].
  change (decimal (String "-" (pretty (N.pos p))) = Some (Z.neg p)). cbn [decimal Ascii.eqb].
  change (Ascii.eqb "-" "-") with true. cbv iota. rewrite digitsFrom_N. rewrite bool_decide_eq_false_2; [done|].
  intros E. pose proof (digitsFrom_N (N.pos p)) as H. rewrite E in H. discriminate H.
Qed.

Lemma Atoi_itoa z : - 2 ^ 63 <= z < 2 ^ 63 -> Atoi (itoa z) = Some z.
Proof. intros H. unfold Atoi. rewrite decimal_itoa. by replace ((- 2 ^ 63 <=? z) && (z <? 2 ^ 63)) with true by lia. Qed.
Lemma atoi0_itoa z : - 2 ^ 63 <= z < 2 ^ 63 -> atoi0 (itoa z) = z.
Proof. intros H. unfold atoi0. rewrite decimal_itoa. lia. Qed.

(** ** Lemmas: lines *)

(** A key as the renderers write it. *)
Definition plainKey (k : string) : bool :=
  match k with
  | String c _ => negb (Ascii.eqb c "#"%char) && negb (Ascii.eqb c "["%char) && noSpace k && negb (contains_byte equals k)
  | EmptyString => false
  end.

(** A value that is read back: none, or plain text on one line. *)
Definition readable (v : string) : Prop := v = "" \/ plainValue v.

Lemma plainKey_parts c k : plainKey (String c k) = true ->
  c <> "#"%char /\ c <> "["%char /\ is_space c = false /\ noSpace (String c k) = true /\ contains_byte equals (String c k) = false.
Proof.
  unfold plainKey. rewrite !andb_true_iff, !negb_true_iff. intros [[[H1 H2] H3] H4]. split_and!; try by apply Ascii.eqb_neq.
  - cbn [noSpace] in H3. apply andb_true_iff in H3 as [H3 _]. by apply negb_true_iff.
  - done.
  - done.
Qed.

Lemma TrimSpace_keyed c k v : plainKey (String c k) = true -> readable v ->
  exists w, TrimSpace (field (String c k) v) = String c k +:+ " " +:+ String equals w /\ TrimSpace w = v.
Proof.
  intros (_ & _ & Hc & Hn & He)%plainKey_parts [->|Hv].
  - exists "". split; [|done]. unfold field.
    assert (String c k +:+ " =" = String c ((k +:+ " ") +:+ String equals "")) as E by (cbn; by rewrite <- string_app_assoc).
    change (" = " +:+ "") with (" =" +:+ String " " ""). rewrite string_app_assoc, TrimSpace_trailing by done. rewrite E.
    rewrite (TrimSpace_ends c (k +:+ " ") equals) by done. cbn. by rewrite <- string_app_assoc.
  - exists (String " " v). split; [by rewrite TrimSpace_field|]. rewrite TrimSpace_leading by done. by destruct Hv as [Hs _].
Qed.

Lemma confLine_field k v : plainKey k = true -> readable v -> confLine (field k v) = if v == "" then None else Some (k, v).
Proof.
  destruct k as [|c k]; [done|]. intros Hk Hv. destruct (TrimSpace_keyed c k v Hk Hv) as (w & Ht & Hw).
  destruct (plainKey_parts c k Hk) as (H1 & H2 & H3 & H4 & H5). unfold confLine. rewrite Ht. cbv zeta.
  change (HasPrefix (String c k +:+ " " +:+ String equals w) "#") with (if ascii_dec "#" c then String.prefix "" (k +:+ " " +:+ String equals w) else false).
  change (HasPrefix (String c k +:+ " " +:+ String equals w) "[") with (if ascii_dec "[" c then String.prefix "" (k +:+ " " +:+ String equals w) else false).
  destruct (ascii_dec "#" c); [congruence|]. destruct (ascii_dec "[" c); [congruence|].
  rewrite (bool_decide_eq_false_2 (_ = "")) by done. cbn [orb]. rewrite string_app_assoc.
  rewrite cut_at_app by (rewrite contains_byte_app, H5; reflexivity). rewrite Hw. case_bool_decide; [done|].
  rewrite TrimSpace_trailing by done. do 2 f_equal. by apply noSpace_solid.
Qed.

(** The value a list of lines leaves for a key: the last one. *)
Definition lastValue (k : string) (ls : list string) (dflt : string) : string :=
  fold_left (fun acc l => match confLine l with Some (k', v) => if k' == k then v else acc | None => acc end) ls dflt.

Lemma lastValue_app k a b d : lastValue k (a ++ b) d = lastValue k b (lastValue k a d).
Proof. apply fold_left_app. Qed.

Lemma lastValue_field k k' v ls d : plainKey k' = true -> readable v ->
  lastValue k (field k' v :: ls) d = lastValue k ls (if (k' == k) && (v != "") then v else d).
Proof.
  intros Hk Hv. unfold lastValue. cbn [fold_left]. rewrite confLine_field by done. f_equal.
  destruct (v == ""); cbn [negb]; by rewrite ?andb_false_r, ?andb_true_r.
Qed.

Lemma lastValue_skip k l ls d : confLine l = None -> lastValue k (l :: ls) d = lastValue k ls d.
Proof. intros H. unfold lastValue. cbn [fold_left]. by rewrite H. Qed.

Lemma get_fold k ls : forall m, get (fold_left putLine ls m) k = lastValue k ls (get m k).
Proof.
  induction ls as [|l ls IH]; intros m; cbn [fold_left]; [done|]. rewrite IH. unfold lastValue. cbn [fold_left]. f_equal.
  unfold putLine. destruct (confLine l) as [[k' v]|]; [|done]. unfold get. rewrite lookup_insert. case_decide as E.
  - by rewrite bool_decide_eq_true_2.
  - by rewrite bool_decide_eq_false_2.
Qed.

Lemma get_conf k ls : Forall (fun l => contains_byte newline l = false) ls ->
  get (ParseConfFields (unlines ls)) k = lastValue k ls "".
Proof.
  intros H. unfold ParseConfFields. rewrite Split_unlines by done. rewrite get_fold, lastValue_app. reflexivity.
Qed.

(** ** Lemmas: what a list of lines says *)

Lemma noSpace_itoa z : noSpace (itoa z) = true.
Proof.
  assert (forall s, (forall c, is_space c = true -> contains_byte c s = false) -> noSpace s = true) as H.
  { induction s as [|c s IH]; intros Hs; cbn [noSpace]; [done|]. apply andb_true_iff. split.
    - destruct (is_space c) eqn:E; [|done]. specialize (Hs c E). cbn [contains_byte] in Hs. by rewrite Ascii.eqb_refl in Hs.
    - apply IH. intros d Hd. specialize (Hs d Hd). cbn [contains_byte] in Hs. by apply orb_false_iff in Hs as [_ Hs]. }
  apply H. intros c Hc. apply itoa_no. unfold decimalChars. cbn [contains_byte]. repeat (apply orb_false_iff; split; [|]); try done;
    apply Ascii.eqb_neq; intros <-; discriminate Hc.
Qed.

Lemma itoa_ne z : itoa z <> "".
Proof. intros E. pose proof (decimal_itoa z) as H. by rewrite E in H. Qed.

Lemma readable_noSpace s : noSpace s = true -> readable s.
Proof. intros H. destruct s as [|c s]; [by left|right]. split; [by apply noSpace_solid|]. split; [done|by apply noSpace_newline]. Qed.

Lemma readable_itoa z : readable (itoa z).
Proof. apply readable_noSpace, noSpace_itoa. Qed.

(** The value pairs leave for a key: the last one that is not empty. *)
Fixpoint lastPair (k : string) (ps : list (string * string)) (d : string) : string :=
  match ps with
  | [] => d
  | (k', v) :: ps' => lastPair k ps' (if String.eqb k' k then orElse v d else d)
  end.

Lemma lastPair_app k a : forall b d, lastPair k (a ++ b) d = lastPair k b (lastPair k a d).
Proof. induction a as [|[k' v] a IH]; intros b d; cbn [app lastPair]; [done|apply IH]. Qed.

Lemma lastPair_if k (b : bool) ps d : lastPair k (if b then ps else []) d = if b then lastPair k ps d else d.
Proof. by destruct b. Qed.

(** Lines that say the pairs. *)
Definition reads (ls : list string) (ps : list (string * string)) : Prop :=
  Forall (fun l => contains_byte newline l = false) ls /\ forall k d, lastValue k ls d = lastPair k ps d.

Lemma reads_nil : reads [] [].
Proof. split; [constructor|done]. Qed.

Lemma reads_field k v ls ps : plainKey k = true -> readable v -> reads ls ps -> reads (field k v :: ls) ((k, v) :: ps).
Proof.
  intros Hk Hv [Hn H]. split.
  - constructor; [|done]. assert (contains_byte newline k = false) as Hkn.
    { destruct k as [|c k]; [done|]. destruct (plainKey_parts c k Hk) as (_ & _ & _ & Hs & _). by apply noSpace_newline. }
    unfold field. rewrite !contains_byte_app, Hkn. destruct Hv as [->|(_ & _ & ->)]; done.
  - intros j d. rewrite lastValue_field by done. rewrite H. cbn [lastPair]. f_equal.
    destruct (String.eqb_spec k j) as [->|Hne]; [|by rewrite (bool_decide_eq_false_2 _ Hne)].
    rewrite bool_decide_eq_true_2 by done. unfold orElse. cbn [andb]. by destruct (v == "").
Qed.

Lemma reads_fieldZ k z ls ps : plainKey k = true -> reads ls ps -> reads (fieldZ k z :: ls) ((k, itoa z) :: ps).
Proof. intros Hk. apply reads_field; [done|apply readable_itoa]. Qed.

Lemma reads_skip l ls ps : contains_byte newline l = false -> confLine l = None -> reads ls ps -> reads (l :: ls) ps.
Proof. intros Hl H [Hn Hr]. split; [by constructor|]. intros k d. rewrite lastValue_skip by done. apply Hr. Qed.

Lemma reads_literal l k v ls ps : contains_byte newline l = false -> confLine l = Some (k, v) -> v <> "" -> reads ls ps -> reads (l :: ls) ((k, v) :: ps).
Proof.
  intros Hl H Hv [Hn Hr]. split; [by constructor|]. intros j d. unfold lastValue. cbn [fold_left]. rewrite H. cbn [lastPair]. rewrite <- Hr.
  unfold lastValue. f_equal. destruct (String.eqb_spec k j) as [->|Hne]; [by rewrite bool_decide_eq_true_2, orElse_ne|by rewrite (bool_decide_eq_false_2 _ Hne)].
Qed.

Lemma reads_app a b pa pb : reads a pa -> reads b pb -> reads (a ++ b) (pa ++ pb).
Proof.
  intros [Ha Hpa] [Hb Hpb]. split; [by apply Forall_app_2|]. intros k d. by rewrite lastValue_app, lastPair_app, Hpb, Hpa.
Qed.

Lemma reads_when (b : bool) ls ps : (b = true -> reads ls ps) -> reads (when b ls) (if b then ps else []).
Proof. destruct b; intros H; [by apply H|apply reads_nil]. Qed.

Lemma get_reads ls ps k : reads ls ps -> get (ParseConfFields (unlines ls)) k = lastPair k ps "".
Proof. intros [Hn H]. by rewrite get_conf. Qed.

Create HintDb reads.
#[export] Hint Resolve reads_nil : reads.
Ltac read_lines :=
  repeat first
    [ apply reads_nil | solve [eauto with reads]
    | apply reads_fieldZ; [reflexivity|]
    | apply reads_field; [reflexivity|try (solve [eauto with reads])|]
    | eapply reads_literal; [reflexivity|vm_compute; reflexivity|discriminate|]
    | apply reads_skip; [reflexivity|reflexivity|]
    | apply reads_app | apply reads_when; intros ? ].

(** ** The file of a client, as pairs *)

(** The obfuscation both ends render. *)
Definition amneziaPairs (a : AmneziaOptions) (v2 : bool) : list (string * string) :=
  [("Jc", itoa (Amnezia_JC a)); ("Jmin", itoa (Amnezia_JMIN a)); ("Jmax", itoa (Amnezia_JMAX a));
   ("S1", itoa (Amnezia_S1 a)); ("S2", itoa (Amnezia_S2 a))] ++
  (if v2 then [("S3", itoa (Amnezia_S3 a)); ("S4", itoa (Amnezia_S4 a))] else []) ++
  (if Amnezia_H1 a != "" then [("H1", Amnezia_H1 a); ("H2", Amnezia_H2 a); ("H3", Amnezia_H3 a); ("H4", Amnezia_H4 a)] else []) ++
  (if v2 && (Amnezia_I1 a != "") then
     [("I1", Amnezia_I1 a); ("I2", Amnezia_I2 a); ("I3", Amnezia_I3 a); ("I4", Amnezia_I4 a); ("I5", Amnezia_I5 a)] else []).

Definition amneziaTexts (a : AmneziaOptions) : list string :=
  [Amnezia_H1 a; Amnezia_H2 a; Amnezia_H3 a; Amnezia_H4 a; Amnezia_I1 a; Amnezia_I2 a; Amnezia_I3 a; Amnezia_I4 a; Amnezia_I5 a].

Lemma amnezia_reads a version :
  Forall readable (amneziaTexts a) ->
  reads (writeAmneziaConfLines a (AWGVersionAtLeast (orElse version AWGVersion2) AWGVersion2) version)
    (amneziaPairs a (AWGVersionAtLeast (orElse version AWGVersion2) AWGVersion2)).
Proof.
  unfold amneziaTexts. rewrite !Forall_cons. intros (? & ? & ? & ? & ? & ? & ? & ? & ? & _).
  unfold writeAmneziaConfLines, amneziaPairs. cbv zeta. read_lines; done.
Qed.

(** The fields of version 3 a client file carries. *)
Definition awg3On (o : option AWGObfsMaterial) (version : string) : bool :=
  match o with
  | Some m => Obfs_AWG3Mode m && (Obfs_HeaderProtectionKey m != "") && AWGVersionAtLeast version AWGVersion3
  | None => false
  end.
Definition awg3Pairs (o : option AWGObfsMaterial) (version : string) : list (string * string) :=
  let m := default zeroAWGObfsMaterial o in
  if awg3On o version then
    [("HeaderProtectionKey", Obfs_HeaderProtectionKey m)] ++
    (if Obfs_ContentPaddingAddition m != "" then [("ContentPaddingAddition", Obfs_ContentPaddingAddition m)] else []) ++
    (if Obfs_RekeyAfterTime m != "" then [("RekeyAfterTime", Obfs_RekeyAfterTime m)] else []) ++
    (if Obfs_RandomTrailers m then [("RandomTrailers", "on")] else []) ++
    (if Obfs_DisableCookies m then [("DisableCookies", "on")] else [])
  else [].

Definition awg3Texts (o : option AWGObfsMaterial) : list string :=
  let m := default zeroAWGObfsMaterial o in [Obfs_HeaderProtectionKey m; Obfs_ContentPaddingAddition m; Obfs_RekeyAfterTime m].

Lemma awg3_reads o version : Forall readable (awg3Texts o) -> reads (clientAWG3Lines o version) (awg3Pairs o version).
Proof.
  unfold awg3Texts. rewrite !Forall_cons. intros (? & ? & ? & _). unfold clientAWG3Lines, awg3Pairs, awg3On. cbv zeta.
  destruct o as [m|]; [|apply reads_nil]. cbn [default] in *. read_lines; done.
Qed.

Definition v2 (p : AWGServerConfParams) : bool := AWGVersionAtLeast (orElse (Server_AWGVersion p) AWGVersion2) AWGVersion2.
Definition obfuscates (p : AWGServerConfParams) : bool := bool_decide (is_Some (Server_Amnezia p)).
Definition amneziaOf (p : AWGServerConfParams) : AmneziaOptions := default zeroAmnezia (Server_Amnezia p).

Definition clientPairs (p : AWGServerConfParams) (serverPub host : string) (u : User) : list (string * string) :=
  [("Address", User_AWGAddress u); ("PrivateKey", User_AWGPrivateKey u); ("MTU", "1420")] ++
  (if obfuscates p then amneziaPairs (amneziaOf p) (v2 p) else []) ++
  awg3Pairs (Server_AWG3 p) (orElse (Server_AWGVersion p) AWGVersion2) ++
  [("PublicKey", serverPub)] ++
  (if User_AWGPresharedKey u != "" then [("PresharedKey", User_AWGPresharedKey u)] else []) ++
  [("AllowedIPs", "0.0.0.0/0, ::/0"); ("Endpoint", host +:+ ":" +:+ itoa (Server_ListenPort p)); ("PersistentKeepalive", "25")].

(** The values of a client file are plain text, its numbers fit an [int]. *)
Record plainClient (p : AWGServerConfParams) (serverPub host : string) (u : User) : Prop := {
  pc_address : plainValue (User_AWGAddress u);
  pc_private : plainValue (User_AWGPrivateKey u);
  pc_public : plainValue serverPub;
  pc_psk : readable (User_AWGPresharedKey u);
  pc_host : noSpace host = true /\ host <> "";
  pc_port : 0 <= Server_ListenPort p < 2 ^ 63;
  pc_texts : Forall readable (amneziaTexts (amneziaOf p));
  pc_numbers : Forall (fun z => - 2 ^ 63 <= z < 2 ^ 63)
    [Amnezia_JC (amneziaOf p); Amnezia_JMIN (amneziaOf p); Amnezia_JMAX (amneziaOf p); Amnezia_S1 (amneziaOf p);
     Amnezia_S2 (amneziaOf p); Amnezia_S3 (amneziaOf p); Amnezia_S4 (amneziaOf p)];
  pc_awg3 : Forall readable (awg3Texts (Server_AWG3 p)) }.

Lemma client_reads p serverPub host u :
  plainClient p serverPub host u -> reads (clientFileOf p serverPub host u) (clientPairs p serverPub host u).
Proof.
  intros [H1 H2 H3 H4 [H5 _] _ H7 _ H9]. unfold clientFileOf, clientPairs, clientPeerLines.
  apply reads_skip; [reflexivity|reflexivity|]. apply (reads_app [_; _; _]); [read_lines; by right|]. apply reads_app; [|apply reads_app].
  - unfold obfuscates, v2, amneziaOf in *. destruct (Server_Amnezia p) as [a|]; [|rewrite bool_decide_eq_false_2 by (by intros [? ?]); apply reads_nil].
    rewrite bool_decide_eq_true_2 by done. by apply amnezia_reads.
  - by apply awg3_reads.
  - do 2 (apply reads_skip; [reflexivity|reflexivity|]). apply (reads_app [_] _ [_]); [read_lines; by right|]. read_lines; try done.
    apply readable_noSpace. rewrite !noSpace_app, H5, noSpace_itoa. reflexivity.
Qed.

(** The client of a server: its keys, and the obfuscation of the server. *)
Definition clientOf (tag : string) (p : AWGServerConfParams) (serverPub host : string) (u : User) : ClientAwg :=
  let a := amneziaOf p in
  mkClientAwg tag (User_AWGPrivateKey u) (User_AWGAddress u) 1420 serverPub (User_AWGPresharedKey u) host (Server_ListenPort p) 25
    (if obfuscates p then [Amnezia_JC a; Amnezia_JMIN a; Amnezia_JMAX a; Amnezia_S1 a; Amnezia_S2 a; if v2 p then Amnezia_S3 a else 0; if v2 p then Amnezia_S4 a else 0]
     else [0; 0; 0; 0; 0; 0; 0])
    (if obfuscates p && (Amnezia_H1 a != "") then [Amnezia_H1 a; Amnezia_H2 a; Amnezia_H3 a; Amnezia_H4 a] else [""; ""; ""; ""])
    (if obfuscates p && (v2 p && (Amnezia_I1 a != "")) then [Amnezia_I1 a; Amnezia_I2 a; Amnezia_I3 a; Amnezia_I4 a; Amnezia_I5 a] else [""; ""; ""; ""; ""])
    (if awg3On (Server_AWG3 p) (orElse (Server_AWGVersion p) AWGVersion2) then Obfs_HeaderProtectionKey (default zeroAWGObfsMaterial (Server_AWG3 p)) else "").

Lemma orElse_nil s : orElse s "" = s.
Proof. unfold orElse. by case_bool_decide. Qed.
Lemma if_same {A} (b : bool) (x : A) : (if b then x else x) = x.
Proof. by destruct b. Qed.
Lemma atoiOr_itoa z : - 2 ^ 63 <= z < 2 ^ 63 -> atoiOr (itoa z) 0 = z.
Proof. intros H. unfold atoiOr. by rewrite (bool_decide_eq_false_2 _ (itoa_ne z)), (Atoi_itoa z H). Qed.

Ltac pick_pair :=
  unfold clientPairs, amneziaPairs, awg3Pairs; cbv zeta; rewrite ?lastPair_app, ?lastPair_if;
  cbn [lastPair String.eqb Ascii.eqb Bool.eqb]; rewrite ?lastPair_app, ?lastPair_if;
  cbn [lastPair String.eqb Ascii.eqb Bool.eqb]; rewrite ?if_same, ?orElse_nil; try reflexivity.

Lemma clientPairs_key p serverPub host u :
  let ps := clientPairs p serverPub host u in
  lastPair "PrivateKey" ps "" = User_AWGPrivateKey u /\ lastPair "PublicKey" ps "" = serverPub.
Proof. cbv zeta. split; pick_pair. Qed.

Section client.
Context (p : AWGServerConfParams) (serverPub host : string) (u : User).
Let ps := clientPairs p serverPub host u.

Lemma clientPairs_texts :
  lastPair "Address" ps "" = User_AWGAddress u /\ lastPair "MTU" ps "" = "1420" /\ lastPair "PersistentKeepalive" ps "" = "25" /\
  lastPair "PresharedKey" ps "" = User_AWGPresharedKey u /\ lastPair "Endpoint" ps "" = host +:+ ":" +:+ itoa (Server_ListenPort p).
Proof.
  unfold ps. split_and!; pick_pair. case_bool_decide as E; [by rewrite E|done].
Qed.

Lemma clientPairs_numbers :
  map (fun k => lastPair k ps "") ["Jc"; "Jmin"; "Jmax"; "S1"; "S2"; "S3"; "S4"] =
    let a := amneziaOf p in
    if obfuscates p then
      [itoa (Amnezia_JC a); itoa (Amnezia_JMIN a); itoa (Amnezia_JMAX a); itoa (Amnezia_S1 a); itoa (Amnezia_S2 a);
       if v2 p then itoa (Amnezia_S3 a) else ""; if v2 p then itoa (Amnezia_S4 a) else ""]
    else [""; ""; ""; ""; ""; ""; ""].
Proof. unfold ps. cbn [map]. repeat f_equal. pick_pair. all: destruct (obfuscates p); reflexivity. Qed.

Lemma clientPairs_headers :
  map (fun k => lastPair k ps "") ["H1"; "H2"; "H3"; "H4"] =
    let a := amneziaOf p in
    if obfuscates p && (Amnezia_H1 a != "") then [Amnezia_H1 a; Amnezia_H2 a; Amnezia_H3 a; Amnezia_H4 a] else [""; ""; ""; ""].
Proof. unfold ps. cbn [map]. pick_pair. all: destruct (obfuscates p), (_ != _); reflexivity. Qed.

Lemma clientPairs_packets :
  map (fun k => lastPair k ps "") ["I1"; "I2"; "I3"; "I4"; "I5"] =
    let a := amneziaOf p in
    if obfuscates p && (v2 p && (Amnezia_I1 a != "")) then [Amnezia_I1 a; Amnezia_I2 a; Amnezia_I3 a; Amnezia_I4 a; Amnezia_I5 a] else [""; ""; ""; ""; ""].
Proof. unfold ps. cbn [map]. pick_pair. all: destruct (obfuscates p), (v2 p && _); reflexivity. Qed.

Lemma clientPairs_hpk :
  lastPair "HeaderProtectionKey" ps "" =
    if awg3On (Server_AWG3 p) (orElse (Server_AWGVersion p) AWGVersion2) then Obfs_HeaderProtectionKey (default zeroAWGObfsMaterial (Server_AWG3 p)) else "".
Proof. unfold ps. pick_pair. Qed.

Lemma endpointOf_join dflt port : host <> "" -> - 2 ^ 63 <= port < 2 ^ 63 -> endpointOf dflt (host +:+ ":" +:+ itoa port) = (host, port).
Proof.
  intros Hh Hp. unfold endpointOf. change (":" +:+ itoa port) with (String ":"%char (itoa port)).
  rewrite cut_last_app by (apply itoa_no; reflexivity). destruct host as [|c h]; [done|]. by rewrite Atoi_itoa.
Qed.

(** The endpoint of a client file. *)
Lemma singbox_of_client_file tag :
  plainClient p serverPub host u ->
  singboxAWGOutbound tag (unlines (clientFileOf p serverPub host u)) = Some (clientOf tag p serverPub host u).
Proof using Type.
  intros Hp. pose proof (client_reads p serverPub host u Hp) as Hr. destruct Hp as [[_ [H1 _]] [_ [H2 _]] [_ [H3 _]] _ [_ H5] H6 _ H8 _].
  destruct (clientPairs_key p serverPub host u) as [K1 K2]. destruct clientPairs_texts as (T1 & T2 & T3 & T4 & T5).
  unfold singboxAWGOutbound. cbv zeta. rewrite !(get_reads _ _ _ Hr). cbn [map]. rewrite !(get_reads _ _ _ Hr).
  fold ps in K1, K2 |- *. rewrite K1, K2, T1, T2, T3, T4, T5, clientPairs_hpk, (orElse_ne _ _ H1).
  rewrite (bool_decide_eq_false_2 _ H2), (bool_decide_eq_false_2 _ H3), endpointOf_join by (done || lia).
  rewrite (bool_decide_eq_false_2 _ H5). cbn [orb]. unfold clientOf. cbv zeta. do 2 f_equal.
  - change (map (fun s => atoiOr s 0) (map (fun k => lastPair k ps "") ["Jc"; "Jmin"; "Jmax"; "S1"; "S2"; "S3"; "S4"]) =
      if obfuscates p then [Amnezia_JC (amneziaOf p); Amnezia_JMIN (amneziaOf p); Amnezia_JMAX (amneziaOf p); Amnezia_S1 (amneziaOf p); Amnezia_S2 (amneziaOf p);
        if v2 p then Amnezia_S3 (amneziaOf p) else 0; if v2 p then Amnezia_S4 (amneziaOf p) else 0] else [0; 0; 0; 0; 0; 0; 0]).
    rewrite clientPairs_numbers. cbv zeta. rewrite !Forall_cons in H8. destruct H8 as (N1 & N2 & N3 & N4 & N5 & N6 & N7 & _).
    destruct (obfuscates p); [|reflexivity]. cbn [map]. rewrite !(atoiOr_itoa _ N1), !atoiOr_itoa by done.
    destruct (v2 p); [by rewrite !atoiOr_itoa|reflexivity].
  - apply clientPairs_headers.
  - apply clientPairs_packets.
Qed.
End client.


(** Plain text is decidable. *)
Definition readableb (v : string) : bool := (v == "") || ((TrimSpace v == v) && negb (contains_byte newline v)).
Lemma readableb_readable v : readableb v = true -> readable v.
Proof.
  unfold readableb. rewrite orb_true_iff, andb_true_iff, negb_true_iff. intros [H|[H1 H2]]; [left; by bool_to_prop|].
  destruct (decide (v = "")) as [->|Hne]; [by left|right]. split; [by apply bool_decide_eq_true_1 in H1|done].
Qed.
Lemma forallb_readable ls : forallb readableb ls = true -> Forall readable ls.
Proof. rewrite forallb_forall, Forall_forall. intros H x Hx. apply readableb_readable, H. by apply list_elem_of_In. Qed.


(** ** Where the renderings part *)

(** The header protection key of version 3 is hexadecimal in the client file and
    stays so in the sing-box endpoint of the client; the endpoint and the file of
    the server have it in base64. *)
Lemma singbox_key_in_hex :
  let conf := "[Interface]" +:+ String newline "PrivateKey = k" +:+ String newline "HeaderProtectionKey = 0001" +:+ String newline "[Peer]" +:+
              String newline "PublicKey = p" +:+ String newline "Endpoint = h:1" in
  option_map ca_HeaderProtectionKey (singboxAWGOutbound "t" conf) = Some "0001" /\
  awg3HPKHexToBase64 "0001" <> Some "0001".
Proof. split; [by vm_compute|]. vm_compute. discriminate. Qed.

(** The endpoint of an IPv6 server keeps its brackets. *)
Lemma singbox_keeps_brackets : endpointOf "" "[2001:db8::1]:51820" = ("[2001:db8::1]", 51820).
Proof. by vm_compute. Qed.

(** The values of a VLESS link stay escaped. *)
Lemma vless_stays_escaped :
  option_map (fun p => get (vp_Query p) "spx") (vlessParts "vless://u@h:1?spx=%2F&security=reality") = Some "%2F".
Proof. by vm_compute. Qed.

(** A link over XHTTP gets an outbound without a transport. *)
Lemma singbox_drops_transport :
  singboxVLESSOutbound "t" "vless://u@h:1?type=xhttp&security=none&host=w&path=%2Fapi" = singboxVLESSOutbound "t" "vless://u@h:1?security=none".
Proof. by vm_compute. Qed.
