(* ===== verification/VpnUri.v ===== *)
(** * VpnUri: vpn:// links of client files

    internal/awg/vpnuri/vpnuri.go: a client file goes into a JSON envelope, the
    envelope is compressed behind its length and encoded in base64; [Decode] and
    [ConfFromPayload] take it out again.  The compression of compress/zlib is a
    parameter of which only the round trip is used. *)

From stdpp Require Import sorting.
From S2P Require Import Prelude GoStrings Codec AwgConf ConfFields Json.

(** compress/zlib: a writer that is closed, and a reader that is read to its end. *)
Class Zlib := {
  deflate : string -> string;
  inflate : string -> option string;
  inflate_deflate : forall s, inflate (deflate s) = Some s }.

Definition containerName : string := "amnezia-awg".
Definition protoName : string := "awg".

(** ** [parseConf] *)

(** [confMeta]. *)
Record confMeta := mkConfMeta {
  cm_host : string;
  cm_dns1 : string;
  cm_dns2 : string;
  cm_desc : string;
  cm_port : Z;
  cm_inner : gmap string Json }.
#[export] Instance eta_confMeta : Eta confMeta := fun r =>
  mkConfMeta (cm_host r) (cm_dns1 r) (cm_dns2 r) (cm_desc r) (cm_port r) (cm_inner r).

(** [awgLastConfigKeys]. *)
Definition awgLastConfigKeys : list (string * string) :=
  [("jc", "Jc"); ("jmin", "Jmin"); ("jmax", "Jmax"); ("s1", "S1"); ("s2", "S2"); ("s3", "S3"); ("s4", "S4");
   ("h1", "H1"); ("h2", "H2"); ("h3", "H3"); ("h4", "H4"); ("i1", "I1"); ("i2", "I2"); ("i3", "I3"); ("i4", "I4"); ("i5", "I5");
   ("headerprotectionkey", "HeaderProtectionKey"); ("contentpaddingaddition", "ContentPaddingAddition"); ("rekeyaftertime", "RekeyAfterTime");
   ("rekeytimeout", "RekeyTimeout"); ("rejectaftertime", "RejectAfterTime"); ("keepalivetimeout", "KeepaliveTimeout");
   ("maxhandshakeattempts", "MaxHandshakeAttempts"); ("randomtrailers", "RandomTrailers"); ("disablecookies", "DisableCookies")].

(** [splitHostPort]. *)
Definition splitHostPort (s : string) : string * Z :=
  if HasPrefix s "[" then
    match cut_last "]"%char (drop_string 1 s) with
    | None => (s, 0)
    | Some (host, rest) => if negb (HasPrefix rest ":") then (host, 0) else (host, default 0 (Atoi (drop_string 1 rest)))
    end
  else
    match cut_last ":"%char s with
    | None => (s, 0)
    | Some (host, port) => match Atoi port with Some p => (host, p) | None => (s, 0) end
    end.

Definition putInner (k : string) (v : Json) (meta : confMeta) : confMeta := meta <| cm_inner := <[k := v]> (cm_inner meta) |>.

(** A key and its value in the loop of [parseConf]. *)
Definition metaField (meta : confMeta) (key val : string) : confMeta :=
  let k := ToLower key in
  if k == "endpoint" then
    if cm_host meta == "" then
      let '(host, port) := splitHostPort val in
      let meta := meta <| cm_host := host |> <| cm_port := port |> in
      let meta := if host != "" then putInner "hostName" (JStr host) meta else meta in
      if 0 <? port then putInner "port" (JNum (itoa port)) meta else meta
    else meta
  else if k == "dns" then
    let parts := Split ","%char val in
    let meta := match parts with p :: _ => if cm_dns1 meta == "" then meta <| cm_dns1 := TrimSpace p |> else meta | [] => meta end in
    match parts with _ :: p :: _ => if cm_dns2 meta == "" then meta <| cm_dns2 := TrimSpace p |> else meta | _ => meta end
  else if k == "privatekey" then putInner "client_priv_key" (JStr val) meta
  else if k == "address" then putInner "client_ip" (JStr val) meta
  else if k == "publickey" then putInner "server_pub_key" (JStr val) meta
  else if k == "presharedkey" then putInner "psk_key" (JStr val) meta
  else if k == "mtu" then putInner "mtu" (JStr val) meta
  else if k == "persistentkeepalive" then putInner "persistent_keep_alive" (JStr val) meta
  else if k == "allowedips" then
    match filter (fun ip => ip <> "") (map TrimSpace (Split ","%char val)) with
    | [] => meta
    | ips => putInner "allowed_ips" (JArr (map JStr ips)) meta
    end
  else
    match List.find (fun p => fst p == k) awgLastConfigKeys with
    | Some (_, jsonKey) => putInner jsonKey (JStr val) meta
    | None => meta
    end.

Definition metaLine (meta : confMeta) (raw : string) : confMeta :=
  let line := TrimSpace raw in
  if line == "" then meta
  else if HasPrefix line "#" then
    if cm_desc meta == "" then meta <| cm_desc := TrimSpace (TrimPrefix line "#") |> else meta
  else
    match confLine raw with
    | Some (key, val) => metaField meta key val
    | None => meta
    end.

(** [parseConf]. *)
Definition parseConf (conf : string) : confMeta :=
  fold_left metaLine (Split newline conf) (mkConfMeta "" "" "" "" 0 {["config" := JStr conf]}).

(** ** The envelope *)

Definition putIf (b : bool) (k : string) (v : Json) (m : gmap string Json) : gmap string Json := if b then <[k := v]> m else m.

(** The value of ["awg"] in the container. *)
Definition awgOf (meta : confMeta) : gmap string Json :=
  putIf (0 <? cm_port meta) "port" (JStr (itoa (cm_port meta)))
    (list_to_map [("last_config", JStr (marshal (ofMap (cm_inner meta)))); ("isThirdPartyConfig", JBool true); ("transport_proto", JStr "udp")]).

(** [amneziaEnvelope]. *)
Definition amneziaEnvelope (conf : string) : Json :=
  let meta := parseConf conf in
  let container := ofMap (list_to_map [("container", JStr containerName); (protoName, ofMap (awgOf meta))]) in
  ofMap (putIf (cm_dns2 meta != "") "dns2" (JStr (cm_dns2 meta))
        (putIf (cm_dns1 meta != "") "dns1" (JStr (cm_dns1 meta))
        (putIf (cm_desc meta != "") "description" (JStr (cm_desc meta))
        (putIf (cm_host meta != "") "hostName" (JStr (cm_host meta))
        (list_to_map [("defaultContainer", JStr containerName); ("containers", JArr [container])]))))).

(** ** Links *)

Section vpnuri.
Context `{!Zlib}.

(** [binary.BigEndian.PutUint32]. *)
Definition bigEndian32 (n : Z) : string :=
  String (Zbyte (n / 16777216 `mod` 256)) (String (Zbyte (n / 65536 `mod` 256)) (String (Zbyte (n / 256 `mod` 256)) (String (Zbyte (n `mod` 256)) ""))).

(** [qCompress]. *)
Definition qCompress (data : string) : string := bigEndian32 (Z.of_nat (String.length data)) +:+ deflate data.

(** [EncodeConf]; [None] is its error. *)
Definition EncodeConf (conf : string) : option string :=
  let conf := TrimSpace conf in
  if conf == "" then None
  else if negb (Contains conf "[Interface]") || negb (Contains conf "[Peer]") then None
  else Some ("vpn://" +:+ rawEncode urlAlphabet (qCompress (marshal (amneziaEnvelope conf)))).

(** [Decode]. *)
Definition Decode (uri : string) : option string :=
  let s := TrimPrefix (TrimSpace uri) "vpn://" in
  raw ← match rawDecode urlAlphabet s with Some raw => Some raw | None => paddedDecode urlAlphabet s end;
  if Z.of_nat (String.length raw) <? 4 then None else inflate (drop_string 4 raw).
End vpnuri.

Definition asObject (v : option Json) : option (list (string * Json)) := match v with Some (JObj ms) => Some ms | _ => None end.
Definition asString (v : option Json) : option string := match v with Some (JStr s) => Some s | _ => None end.

(** The ["config"] of an object, when it is a client file. *)
Definition configOf (ms : list (string * Json)) : option string :=
  c ← asString (member "config" ms); if Contains c "[Interface]" then Some (TrimSpace c) else None.

(** [ConfFromPayload]. *)
Definition ConfFromPayload (payload : string) : option string :=
  let trimmed := TrimSpace payload in
  if (trimmed != "") && negb (HasPrefix trimmed "{") && Contains trimmed "[Interface]" && Contains trimmed "[Peer]" then Some trimmed
  else
    env ← asObject (unmarshal payload);
    match member "containers" env with
    | Some (JArr containers) =>
        last ← asObject (list.last containers);
        proto ← match asObject (member "awg" last) with Some p => Some p | None => asObject (member "wireguard" last) end;
        match member "last_config" proto with
        | Some (JStr lc) =>
            match asObject (unmarshal lc) ≫= configOf with
            | Some c => Some c
            | None => if Contains lc "[Interface]" then Some (TrimSpace lc) else None
            end
        | Some (JObj lc) => configOf lc
        | _ => None
        end
    | _ => None
    end.

(** ** Lemmas: text in ASCII *)

Lemma ascii_app a b : asciiText (a +:+ b) = asciiText a && asciiText b.
Proof. induction a as [|c a IH]; [done|]. change (asciiText (String c a +:+ b)) with ((byteZ c <? 128) && asciiText (a +:+ b)). rewrite IH. apply andb_assoc. Qed.

Lemma ascii_trim_left s : asciiText s = true -> asciiText (trim_left s) = true.
Proof. induction s as [|c s IH]; [done|]. intros H. cbn [trim_left]. destruct (is_space c); [|done]. apply andb_true_iff in H as [_ H]. by apply IH. Qed.

Lemma ascii_trim_right s : asciiText s = true -> asciiText (trim_right s) = true.
Proof.
  induction s as [|c s IH]; [done|]. intros [Hc Hs]%andb_true_iff. cbn [trim_right]. specialize (IH Hs).
  destruct (trim_right s) as [|d t].
  - destruct (is_space c); [done|]. cbn [asciiText]. by rewrite Hc.
  - cbn [asciiText] in *. by rewrite Hc.
Qed.

Lemma ascii_TrimSpace s : asciiText s = true -> asciiText (TrimSpace s) = true.
Proof. intros H. by apply ascii_trim_left, ascii_trim_right. Qed.

Lemma ascii_drop n : forall s, asciiText s = true -> asciiText (drop_string n s) = true.
Proof. induction n as [|n IH]; intros [|c s] H; try done. cbn [drop_string]. apply andb_true_iff in H as [_ H]. by apply IH. Qed.

Lemma ascii_cut_at d s a b : asciiText s = true -> cut_at d s = Some (a, b) -> asciiText a = true /\ asciiText b = true.
Proof.
  revert a b. induction s as [|c s IH]; intros a b; [done|]. intros [Hc Hs]%andb_true_iff. cbn [cut_at].
  destruct (Ascii.eqb c d); [by intros [= <- <-]|]. destruct (cut_at d s) as [[p r]|]; [|done]. intros [= <- <-].
  destruct (IH p r Hs eq_refl) as [Hp Hr]. cbn [asciiText]. by rewrite Hc.
Qed.

Lemma ascii_cut_last d s a b : asciiText s = true -> cut_last d s = Some (a, b) -> asciiText a = true /\ asciiText b = true.
Proof.
  revert a b. induction s as [|c s IH]; intros a b; [done|]. intros [Hc Hs]%andb_true_iff. cbn [cut_last].
  destruct (cut_last d s) as [[p r]|].
  - intros [= <- <-]. destruct (IH p r Hs eq_refl) as [Hp Hr]. cbn [asciiText]. by rewrite Hc.
  - destruct (Ascii.eqb c d); [by intros [= <- <-]|done].
Qed.

Lemma ascii_Split d s : asciiText s = true -> Forall (fun l => asciiText l = true) (Split d s).
Proof.
  induction s as [|c s IH]; [by repeat constructor|]. intros [Hc Hs]%andb_true_iff. specialize (IH Hs). cbn [Split].
  destruct (Ascii.eqb c d); [by constructor|]. destruct (Split d s) as [|p ps].
  - constructor; [|done]. cbn [asciiText]. by rewrite Hc.
  - apply Forall_cons in IH as [Hp Hps]. constructor; [|done]. cbn [asciiText]. by rewrite Hc.
Qed.

Lemma ascii_itoa z : asciiText (itoa z) = true.
Proof.
  assert (forall s, (forall c, contains_byte c decimalChars = false -> contains_byte c s = false) -> asciiText s = true) as H.
  { induction s as [|d s IH]; intros Hn; [done|]. cbn [asciiText]. apply andb_true_iff. split.
    - destruct (byteZ d <? 128) eqn:E; [done|]. exfalso. assert (contains_byte d decimalChars = false) as Hd.
      { by destruct d as [[] [] [] [] [] [] [] []]. }
      specialize (Hn d Hd). cbn [contains_byte] in Hn. by rewrite Ascii.eqb_refl in Hn.
    - apply IH. intros c Hc. specialize (Hn c Hc). cbn [contains_byte] in Hn. by apply orb_false_iff in Hn as [_ Hn]. }
  apply H. intros c Hc. by apply itoa_no.
Qed.

(** A positive number is a JSON number. *)
Lemma digit_char x : (x < 10)%N -> digit (pretty_N_char x) = true /\ (x <> 0%N -> Ascii.eqb (pretty_N_char x) "0"%char = false).
Proof.
  intros Hx. assert (x ∈ [0; 1; 2; 3; 4; 5; 6; 7; 8; 9]%N) as H by (rewrite list_elem_of_In; cbn; lia).
  repeat (apply elem_of_cons in H as [->|H]; [by split|]). by apply not_elem_of_nil in H.
Qed.

Lemma digits_span s : skipDigits s = "" -> spanNum s = (s, "").
Proof.
  induction s as [|d s IH]; [done|]. cbn [skipDigits spanNum]. unfold numChar. destruct (digit d); [|done].
  intros H. cbn [orb]. by rewrite IH.
Qed.

Lemma digits_pretty x : forall s, skipDigits s = "" -> skipDigits (pretty_N_go x s) = "".
Proof.
  induction (N.lt_wf_0 x) as [x _ IH]; intros s Hs. destruct (decide (x = 0%N)) as [->|Hx]; [by rewrite pretty_N_go_0|].
  rewrite pretty_N_go_step by lia. apply IH; [apply N.div_lt; lia|]. cbn [skipDigits].
  by destruct (digit_char (x mod 10)) as [-> _]; [apply N.mod_lt; lia|].
Qed.

Lemma pretty_go_head x : (0 < x)%N -> forall s, exists c r, pretty_N_go x s = String c r /\ Ascii.eqb c "0"%char = false.
Proof.
  induction (N.lt_wf_0 x) as [x _ IH]; intros Hx s. rewrite pretty_N_go_step by lia.
  destruct (decide (x / 10 = 0)%N) as [E|E].
  - rewrite E, pretty_N_go_0. eexists _, _. split; [done|]. assert (x < 10)%N as Hlt by (by apply N.div_small_iff).
    rewrite N.mod_small by done. apply digit_char; lia.
  - apply IH; [apply N.div_lt; lia|by apply N.neq_0_lt_0].
Qed.

Lemma numText_digits c r : Ascii.eqb c "0"%char = false -> skipDigits (String c r) = "" -> numText (String c r) = true.
Proof.
  intros H0 H. unfold numText. rewrite digits_span, bool_decide_eq_true_2 by done. rewrite andb_true_r.
  cbn [skipDigits] in H. destruct (digit c) eqn:Ed; [|done].
  assert (validNumber (String c r) = match someDigits (String c r) with Some r => fractionOk r | None => false end) as ->.
  { destruct c as [[] [] [] [] [] [] [] []]; try discriminate Ed; try discriminate H0; reflexivity. }
  cbn [someDigits]. by rewrite Ed, H.
Qed.

Lemma numText_itoa z : 0 < z -> numText (itoa z) = true.
Proof.
  intros Hz. destruct z as [|p|p]; [lia| |lia]. change (itoa (Z.pos p)) with (pretty_N_go (N.pos p) "").
  destruct (pretty_go_head (N.pos p) ltac:(lia) "") as (c & r & E & Hc). pose proof (digits_pretty (N.pos p) "" eq_refl) as Hd.
  rewrite E in *. by apply numText_digits.
Qed.

(** ** Lemmas: objects from maps *)

Definition sortedMembers (m : gmap string Json) : list (string * Json) := merge_sort leKey (map_to_list m).

Lemma sortedMembers_perm m : sortedMembers m ≡ₚ map_to_list m.
Proof. apply merge_sort_Permutation. Qed.

Lemma member_sorted m k v : m !! k = Some v -> member k (sortedMembers m) = Some v.
Proof.
  intros H. apply elem_of_map_to_list in H. unfold member.
  destruct (List.find _ _) as [[k' v']|] eqn:E.
  - apply List.find_some in E as [E Hk%bool_decide_eq_true]. cbn [fst] in Hk. subst k'. cbn. f_equal.
    rewrite <- list_elem_of_In, reverse_Permutation, sortedMembers_perm in E.
    apply elem_of_map_to_list in E, H. congruence.
  - exfalso. eapply List.find_none in E; [|by rewrite <- list_elem_of_In, reverse_Permutation, sortedMembers_perm].
    cbn [fst] in E. by rewrite bool_decide_eq_true_2 in E.
Qed.

Definition plainMember (k : string) (v : Json) : Prop := asciiText k = true /\ wellFormed v = true.

Lemma ofMap_wellFormed m : map_Forall plainMember m -> wellFormed (ofMap m) = true.
Proof.
  intros H. change (forallb (fun m => asciiText (fst m) && wellFormed (snd m)) (sortedMembers m) = true). apply forallb_forall.
  intros [k v] Hin. rewrite <- list_elem_of_In, sortedMembers_perm, elem_of_map_to_list in Hin. destruct (H k v Hin) as [Hk Hv].
  cbn [fst snd]. by rewrite Hk, Hv.
Qed.

Lemma plain_putIf (b : bool) k v m : (b = true -> plainMember k v) -> map_Forall plainMember m -> map_Forall plainMember (putIf b k v m).
Proof. intros Hv Hm. destruct b; [|done]. apply map_Forall_insert_2; [by apply Hv|done]. Qed.

Lemma lookup_putIf (b : bool) k k' v m : k <> k' -> putIf b k v m !! k' = m !! k'.
Proof. intros Hne. destruct b; [|done]. by apply lookup_insert_ne. Qed.

(** ** Lemmas: what [parseConf] collects *)

(** Everything collected is ASCII text, and the file itself stays. *)
Record goodMeta (conf : string) (meta : confMeta) : Prop := {
  gm_texts : Forall (fun s => asciiText s = true) [cm_host meta; cm_dns1 meta; cm_dns2 meta; cm_desc meta];
  gm_inner : map_Forall plainMember (cm_inner meta);
  gm_conf : cm_inner meta !! "config" = Some (JStr conf) }.

Lemma goodMeta_put conf meta k v : k <> "config" -> plainMember k v -> goodMeta conf meta -> goodMeta conf (putInner k v meta).
Proof.
  intros Hk Hv [Ht Hi Hc]. split; [exact Ht|by apply map_Forall_insert_2|].
  change (<[k := v]> (cm_inner meta) !! "config" = Some (JStr conf)). by rewrite lookup_insert_ne.
Qed.

Lemma splitHostPort_ascii s : asciiText s = true -> asciiText (fst (splitHostPort s)) = true.
Proof.
  intros H. unfold splitHostPort. destruct (HasPrefix s "[").
  - destruct (cut_last _ _) as [[host rest]|] eqn:E; [|done]. apply ascii_cut_last in E as [E _]; [|by apply ascii_drop].
    by destruct (negb _).
  - destruct (cut_last _ _) as [[host port]|] eqn:E; [|done]. apply ascii_cut_last in E as [E _]; [|done]. by destruct (Atoi port).
Qed.

Lemma goodMeta_texts conf meta host dns1 dns2 desc port : Forall (fun s => asciiText s = true) [host; dns1; dns2; desc] ->
  goodMeta conf meta -> goodMeta conf (mkConfMeta host dns1 dns2 desc port (cm_inner meta)).
Proof. intros Ht [_ Hi Hc]. by split. Qed.

(** The texts that stay. *)
Ltac take_texts H := destruct H as [Ht _ _]; rewrite !Forall_cons in Ht; rewrite !Forall_cons; split_and!; try done; try by apply Ht.

Lemma goodMeta_endpoint conf meta val : asciiText val = true -> goodMeta conf meta ->
  goodMeta conf (let '(host, port) := splitHostPort val in
      let meta := meta <| cm_host := host |> <| cm_port := port |> in
      let meta := if host != "" then putInner "hostName" (JStr host) meta else meta in
      if 0 <? port then putInner "port" (JNum (itoa port)) meta else meta).
Proof.
  intros Hv Hg. pose proof (splitHostPort_ascii val Hv) as Hh. destruct (splitHostPort val) as [host port]. cbn [fst] in Hh. cbv zeta.
  assert (goodMeta conf (meta <| cm_host := host |> <| cm_port := port |>)) as H1.
  { apply (goodMeta_texts conf meta); [|done]. take_texts Hg. }
  assert (goodMeta conf (if host != "" then putInner "hostName" (JStr host) (meta <| cm_host := host |> <| cm_port := port |>)
                         else meta <| cm_host := host |> <| cm_port := port |>)) as H2.
  { case_match; [|done]. apply goodMeta_put; [done|by split|done]. }
  destruct (0 <? port) eqn:E; [|done]. apply goodMeta_put; [done| |done]. split; [done|]. apply numText_itoa. lia.
Qed.

Lemma goodMeta_dns conf meta val : asciiText val = true -> goodMeta conf meta ->
  goodMeta conf (let parts := Split ","%char val in
    let meta := match parts with p :: _ => if cm_dns1 meta == "" then meta <| cm_dns1 := TrimSpace p |> else meta | [] => meta end in
    match parts with _ :: p :: _ => if cm_dns2 meta == "" then meta <| cm_dns2 := TrimSpace p |> else meta | _ => meta end).
Proof.
  intros Hv Hg. pose proof (ascii_Split ","%char val Hv) as Hs. destruct (Split _ val) as [|p1 ps]; [done|]. cbv zeta.
  apply Forall_cons in Hs as [H1 Hs].
  assert (goodMeta conf (if cm_dns1 meta == "" then meta <| cm_dns1 := TrimSpace p1 |> else meta)) as G1.
  { case_match; [|done]. apply (goodMeta_texts conf meta); [|done]. take_texts Hg. by apply ascii_TrimSpace. }
  revert G1. generalize (if cm_dns1 meta == "" then meta <| cm_dns1 := TrimSpace p1 |> else meta). clear meta Hg. intros meta Hg.
  destruct ps as [|p2 ps]; [done|]. apply Forall_cons in Hs as [H2 _]. case_match; [|done].
  apply (goodMeta_texts conf meta); [|done]. take_texts Hg. by apply ascii_TrimSpace.
Qed.

Lemma goodMeta_ips conf meta val : asciiText val = true -> goodMeta conf meta ->
  goodMeta conf (match filter (fun ip => ip <> "") (map TrimSpace (Split ","%char val)) with
    | [] => meta
    | ips => putInner "allowed_ips" (JArr (map JStr ips)) meta
    end).
Proof.
  intros Hv Hg. assert (Forall (fun ip => asciiText ip = true) (filter (fun ip => ip <> "") (map TrimSpace (Split ","%char val)))) as H.
  { apply Forall_forall. intros ip Hip. apply list_elem_of_filter in Hip as [_ Hip]. apply list_elem_of_fmap in Hip as (s & -> & Hs).
    apply ascii_TrimSpace. pose proof (ascii_Split ","%char val Hv) as Ha. rewrite Forall_forall in Ha. by apply Ha. }
  destruct (filter _ _) as [|ip ips]; [done|]. apply goodMeta_put; [done| |done]. split; [done|].
  change (forallb wellFormed (map JStr (ip :: ips)) = true). rewrite forallb_forall. intros v Hin.
  rewrite <- list_elem_of_In in Hin. apply list_elem_of_fmap in Hin as (s & -> & Hs). rewrite Forall_forall in H. by apply H.
Qed.

Lemma awgLastConfigKeys_plain k p : List.find (fun p => fst p == k) awgLastConfigKeys = Some p -> snd p <> "config" /\ asciiText (snd p) = true.
Proof.
  intros [H _]%List.find_some. rewrite <- list_elem_of_In in H. unfold awgLastConfigKeys in H.
  repeat (apply elem_of_cons in H as [->|H]; [by split|]). by apply not_elem_of_nil in H.
Qed.

Lemma metaField_good conf meta key val : asciiText val = true -> goodMeta conf meta -> goodMeta conf (metaField meta key val).
Proof.
  intros Hv Hg. unfold metaField. cbv zeta. destruct (ToLower key == "endpoint").
  { case_match; [by apply goodMeta_endpoint|done]. }
  destruct (ToLower key == "dns"); [by apply goodMeta_dns|].
  do 6 (case_match; [by apply goodMeta_put|]).
  destruct (ToLower key == "allowedips"); [by apply goodMeta_ips|].
  destruct (List.find _ _) as [[k' jsonKey]|] eqn:E; [|done]. apply awgLastConfigKeys_plain in E as [E1 E2]. by apply goodMeta_put.
Qed.

Lemma confLine_ascii raw key val : asciiText raw = true -> confLine raw = Some (key, val) -> asciiText val = true.
Proof.
  intros H. apply ascii_TrimSpace in H. unfold confLine. cbv zeta. destruct (_ || _ || _); [done|].
  destruct (cut_at _ _) as [[a b]|] eqn:E; [|done]. apply ascii_cut_at in E as [_ E]; [|done].
  case_match; [done|]. intros [= <- <-]. by apply ascii_TrimSpace.
Qed.

Lemma metaLine_good conf meta raw : asciiText raw = true -> goodMeta conf meta -> goodMeta conf (metaLine meta raw).
Proof.
  intros Hr Hg. unfold metaLine. cbv zeta. case_match; [done|]. case_match.
  - case_match; [|done]. apply (goodMeta_texts conf meta); [|done]. take_texts Hg.
    apply ascii_TrimSpace. unfold TrimPrefix. case_match; [apply ascii_drop|]; by apply ascii_TrimSpace.
  - destruct (confLine raw) as [[key val]|] eqn:E; [|done]. apply metaField_good; [|done]. by eapply confLine_ascii.
Qed.

Lemma parseConf_good conf : asciiText conf = true -> goodMeta conf (parseConf conf).
Proof.
  intros H. unfold parseConf.
  assert (goodMeta conf (mkConfMeta "" "" "" "" 0 {["config" := JStr conf]})) as Hg.
  { split; [by repeat constructor| |apply lookup_singleton_eq]. apply map_Forall_singleton. by split. }
  revert Hg. generalize (mkConfMeta "" "" "" "" 0 {["config" := JStr conf]}). apply (ascii_Split newline) in H.
  induction H as [|l ls Hl _ IH]; intros meta Hg; [done|]. cbn [fold_left]. by apply IH, metaLine_good.
Qed.

(** ** Lemmas: the envelope *)

Lemma jsonBody_ascii s : asciiText s = true -> asciiText (jsonBody s) = true.
Proof.
  induction s as [|c s IH]; [done|]. intros [Hc Hs]%andb_true_iff. cbn [jsonBody]. rewrite ascii_app, IH, andb_true_r by done.
  destruct c as [[] [] [] [] [] [] [] []]; try discriminate Hc; reflexivity.
Qed.

Lemma jsonString_ascii s : asciiText s = true -> asciiText (jsonString s) = true.
Proof. intros H. change (asciiText (jsonBody s +:+ String quote "") = true). by rewrite ascii_app, jsonBody_ascii. Qed.

Lemma spanNum_ascii s : spanNum s = (s, "") -> asciiText s = true.
Proof.
  induction s as [|c s IH]; [done|]. cbn [spanNum]. destruct (numChar c) eqn:E; [|done].
  destruct (spanNum s) as [a b]. intros [= -> ->]. cbn [asciiText]. rewrite IH by done.
  destruct c as [[] [] [] [] [] [] [] []]; try discriminate E; reflexivity.
Qed.

Lemma separated_ascii close items : byteZ close <? 128 = true -> Forall (fun x => asciiText x = true) items -> asciiText (separated close items) = true.
Proof.
  intros Hc. induction 1 as [|x items Hx Hi IH].
  - cbn [separated asciiText]. by rewrite Hc.
  - rewrite separated_cons, ascii_app, Hx. destruct items; [cbn [asciiText]; by rewrite Hc|exact IH].
Qed.

Lemma marshal_ascii v : wellFormed v = true -> asciiText (marshal v) = true.
Proof.
  induction v as [|b|n|s|l Hl|ms Hm] using json_ind'; intros Hw; cbn [marshal wellFormed] in *.
  - done.
  - by destruct b.
  - apply andb_true_iff in Hw as [_ Hw%bool_decide_eq_true]. by apply spanNum_ascii.
  - by apply jsonString_ascii.
  - change (asciiText (separated "]" (map marshal l)) = true). apply separated_ascii; [done|]. apply Forall_map.
    rewrite forallb_forall in Hw. rewrite Forall_forall in *. intros x Hx. apply (Hl x Hx), Hw. by apply list_elem_of_In.
  - change (asciiText (separated "}" (map memberText ms)) = true). apply separated_ascii; [done|]. apply Forall_map.
    rewrite forallb_forall in Hw. rewrite Forall_forall in *. intros x Hx. unfold memberText, compose. rewrite ascii_app.
    destruct (proj1 (andb_true_iff _ _) (Hw x (proj1 (list_elem_of_In _ _) Hx))) as [Hk Hv].
    rewrite jsonString_ascii by done. cbn [asciiText andb]. by rewrite (Hm x Hx).
Qed.

Lemma awgOf_plain conf meta : goodMeta conf meta -> map_Forall plainMember (awgOf meta).
Proof.
  intros [_ Hi _]. apply plain_putIf.
  - intros _. split; [done|]. apply ascii_itoa.
  - apply map_Forall_insert_2; [split; [done|]; by apply marshal_ascii, ofMap_wellFormed|].
    apply map_Forall_insert_2; [by split|]. apply map_Forall_insert_2; [by split|]. apply map_Forall_empty.
Qed.

Lemma envelope_wellFormed conf : asciiText conf = true -> wellFormed (amneziaEnvelope conf) = true.
Proof.
  intros H. pose proof (parseConf_good conf H) as Hg. unfold amneziaEnvelope. cbv zeta. apply ofMap_wellFormed.
  pose proof (gm_texts _ _ Hg) as Ht. rewrite !Forall_cons in Ht. destruct Ht as (T1 & T2 & T3 & T4 & _).
  repeat (apply plain_putIf; [intros _; by split|]).
  apply map_Forall_insert_2; [by split|]. apply map_Forall_insert_2; [|apply map_Forall_empty]. split; [done|].
  change (forallb wellFormed [ofMap (list_to_map [("container", JStr containerName); (protoName, ofMap (awgOf (parseConf conf)))])] = true).
  cbn [forallb]. rewrite andb_true_r. apply ofMap_wellFormed. apply map_Forall_insert_2; [by split|].
  apply map_Forall_insert_2; [|apply map_Forall_empty]. split; [done|]. by eapply ofMap_wellFormed, awgOf_plain.
Qed.

(** ** Lemmas: the way back *)

Lemma asObject_ofMap m : asObject (Some (ofMap m)) = Some (sortedMembers m).
Proof. done. Qed.

Lemma configOf_inner conf meta : Contains conf "[Interface]" = true -> goodMeta conf meta ->
  configOf (sortedMembers (cm_inner meta)) = Some (TrimSpace conf).
Proof. intros Hi [_ _ Hc]. unfold configOf. erewrite member_sorted by exact Hc. cbn [asString mbind option_bind]. by rewrite Hi. Qed.

Lemma TrimSpace_brace r : HasPrefix (TrimSpace (String "{"%char r)) "{" = true.
Proof. destruct (TrimSpace_head "{"%char r eq_refl) as [r' ->]. exact (HasPrefix_app "{" r'). Qed.

Lemma ConfFromPayload_envelope conf : asciiText conf = true -> Contains conf "[Interface]" = true ->
  ConfFromPayload (marshal (amneziaEnvelope conf)) = Some (TrimSpace conf).
Proof.
  intros Ha Hi. pose proof (parseConf_good conf Ha) as Hg. unfold ConfFromPayload. cbv zeta.
  assert (HasPrefix (TrimSpace (marshal (amneziaEnvelope conf))) "{" = true) as -> by apply TrimSpace_brace.
  cbn [negb]. rewrite andb_false_r. cbn [andb]. rewrite unmarshal_marshal by by apply envelope_wellFormed.
  unfold amneziaEnvelope. cbv zeta. rewrite asObject_ofMap. cbn [mbind option_bind].
  erewrite member_sorted by (rewrite !lookup_putIf by done; cbn [list_to_map foldr]; rewrite lookup_insert_ne by done; apply lookup_insert_eq).
  cbn [fst snd]. change (list.last [?x]) with (Some x). rewrite asObject_ofMap. cbn [mbind option_bind].
  erewrite member_sorted by (cbn [list_to_map foldr]; rewrite lookup_insert_ne by done; apply lookup_insert_eq).
  cbn [fst snd]. rewrite asObject_ofMap. cbn [mbind option_bind].
  erewrite member_sorted by (unfold awgOf; rewrite lookup_putIf by done; apply lookup_insert_eq).
  cbn [fst snd]. rewrite unmarshal_marshal by by eapply ofMap_wellFormed, gm_inner. rewrite asObject_ofMap. cbn [mbind option_bind].
  by rewrite (configOf_inner conf).
Qed.

(** ** Lemmas: links *)

Lemma urlDigit_plain d : 0 <= d < 64 -> is_space (digitChar urlAlphabet d) = false.
Proof.
  assert (forallb (fun d => negb (is_space (digitChar urlAlphabet d))) (map Z.of_nat (seq 0 64)) = true) as H by by vm_compute.
  rewrite forallb_forall in H. intros Hd. specialize (H d). apply negb_true_iff, H, in_map_iff.
  exists (Z.to_nat d). split; [lia|apply in_seq; lia].
Qed.

Lemma rawEncode_noSpace s : noSpace (rawEncode urlAlphabet s) = true.
Proof.
  unfold rawEncode. pose proof (base64Digits_range s) as H. induction (base64Digits s) as [|d ds IH]; [done|].
  cbn [map String.string_of_list_ascii noSpace]. rewrite urlDigit_plain by (apply H; by left). apply IH. intros d' Hd'. apply H. by right.
Qed.

Section links.
Context `{!Zlib}.

Lemma Decode_Encode data : Decode ("vpn://" +:+ rawEncode urlAlphabet (qCompress data)) = Some data.
Proof.
  unfold Decode. cbv zeta. assert (TrimSpace ("vpn://" +:+ rawEncode urlAlphabet (qCompress data)) = "vpn://" +:+ rawEncode urlAlphabet (qCompress data)) as ->.
  { apply noSpace_solid. exact (rawEncode_noSpace (qCompress data)). }
  rewrite TrimPrefix_app, rawDecode_encode by apply urlAlphabet_good. cbn [mbind option_bind].
  unfold qCompress. rewrite length_append. replace (Z.of_nat _ <? 4) with false by (symmetry; apply Z.ltb_ge; cbn [bigEndian32 String.length]; lia).
  exact (inflate_deflate data).
Qed.

Lemma EncodeConf_file conf : IsAWGConf (TrimSpace conf) = true ->
  EncodeConf conf = Some ("vpn://" +:+ rawEncode urlAlphabet (qCompress (marshal (amneziaEnvelope (TrimSpace conf))))).
Proof.
  unfold IsAWGConf, EncodeConf. cbv zeta. intros [H1 H2]%andb_true_iff. rewrite H1, H2. cbn [negb orb].
  rewrite bool_decide_eq_false_2; [done|]. intros E. by rewrite E in H1.
Qed.

Lemma vpn_link_opens conf : asciiText conf = true -> IsAWGConf (TrimSpace conf) = true ->
  exists uri, EncodeConf conf = Some ("vpn://" +:+ uri) /\ noSpace uri = true /\ (Decode ("vpn://" +:+ uri) ≫= ConfFromPayload) = Some (TrimSpace conf).
Proof.
  intros Ha Hc. eexists. split; [by apply EncodeConf_file|]. split; [apply rawEncode_noSpace|].
  rewrite Decode_Encode. cbn [mbind option_bind]. rewrite ConfFromPayload_envelope; [|by apply ascii_TrimSpace|by apply andb_true_iff in Hc as [-> _]].
  by rewrite TrimSpace_solid.
Qed.

(** C38: a vpn:// link can be opened again: for every file in ASCII that has an
    [Interface] and a [Peer] section, [EncodeConf] makes a link that starts with
    vpn://, and [ConfFromPayload] of what [Decode] finds in the link is the file
    without the white space around it; for any other file there is no link. *)
Theorem vpn_link_roundtrip conf : asciiText conf = true ->
  if IsAWGConf (TrimSpace conf) then
    exists uri, EncodeConf conf = Some uri /\ HasPrefix uri "vpn://" = true /\ (Decode uri ≫= ConfFromPayload) = Some (TrimSpace conf)
  else EncodeConf conf = None.
Proof.
  intros Ha. destruct (IsAWGConf (TrimSpace conf)) eqn:E.
  - destruct (vpn_link_opens conf Ha E) as (uri & H1 & _ & H3). exists ("vpn://" +:+ uri). split_and!; [done|apply HasPrefix_app|done].
  - unfold EncodeConf. cbv zeta. case_match; [done|]. unfold IsAWGConf in E. rewrite <- negb_andb, E. done.
Qed.
End links.

(** A compression that stores the data. *)
Definition storedZlib : Zlib := Build_Zlib (fun s => s) Some (fun s => eq_refl).

Definition sampleLinkConf : string :=
  unlines ["# office"; "[Interface]"; "PrivateKey = k<1>"; "Address = 10.8.0.2/32"; "DNS = 1.1.1.1, 1.0.0.1"; "Jc = 4"; "[Peer]"; "PublicKey = p";
           "AllowedIPs = 0.0.0.0/0, ::/0"; "Endpoint = [2001:db8::1]:51820"].

Lemma vpn_link_roundtrip_witness :
  exists uri, @EncodeConf storedZlib sampleLinkConf = Some uri /\ HasPrefix uri "vpn://" = true /\
    (@Decode storedZlib uri ≫= ConfFromPayload) = Some (TrimSpace sampleLinkConf).
Proof. exact (@vpn_link_roundtrip storedZlib sampleLinkConf eq_refl). Defined.
