(* ===== verification/OutboundConf.v ===== *)
(** * OutboundConf: an AWG outbound is read back as it was written

    [RenderAWGOutboundConf] ([AwgDeploy]) and [ParseAWGOutboundConf] of
    internal/chain/awg_outbound.go: the text of an outbound, alone or in a
    vpn:// link, and the outbound that is read from it. *)

From S2P Require Import Prelude GoStrings Model ChainModel Lifecycle StoreCore Store Presets Roles Codec AwgConf AwgMaterial Push PeerSync AwgPush AwgDeploy ClientConf HopWire ConfFields Json VpnUri.

(** [ParseAWGOutboundConf]; [None] is its error. *)
Definition ParseAWGOutboundConf `{zl : !Zlib} (raw : string) : option AWGOutbound :=
  let raw := TrimSpace raw in
  if HasPrefix raw "vpn://" then
    payload ← Decode raw;
    conf ← ConfFromPayload payload;
    parseOutbound conf
  else parseOutbound raw.

(** ** Lemmas: sections *)

Definition putAll (ps : list (string * string)) (m : gmap string string) : gmap string string :=
  fold_left (fun m p => <[fst p := snd p]> m) ps m.

Fixpoint lastEntry (k : string) (ps : list (string * string)) (d : string) : string :=
  match ps with
  | [] => d
  | (k', v) :: ps' => lastEntry k ps' (if String.eqb k' k then v else d)
  end.

Lemma get_putAll k ps : forall m, get (putAll ps m) k = lastEntry k ps (get m k).
Proof.
  induction ps as [|[k' v] ps IH]; intros m; [done|]. change (get (putAll ps (<[k' := v]> m)) k = lastEntry k ps (if String.eqb k' k then v else get m k)).
  rewrite IH. f_equal. unfold get. rewrite lookup_insert. destruct (String.eqb_spec k' k) as [->|Hne]; case_decide; try done.
Qed.

Lemma lastEntry_app k a : forall b d, lastEntry k (a ++ b) d = lastEntry k b (lastEntry k a d).
Proof. induction a as [|[k' v] a IH]; intros b d; cbn [app lastEntry]; [done|apply IH]. Qed.
Lemma lastEntry_if k (b : bool) ps d : lastEntry k (if b then ps else []) d = if b then lastEntry k ps d else d.
Proof. by destruct b. Qed.

(** Lines of one section and their fields. *)
Definition inSection (n : string) (ls : list string) (ps : list (string * string)) : Prop :=
  Forall (fun l => contains_byte newline l = false) ls /\
  forall s, sec_name s = n -> fold_left sectionLine ls s =
    mkSections n (if n == "Interface" then putAll ps (sec_iface s) else sec_iface s) (if n == "Peer" then putAll ps (sec_peer s) else sec_peer s).

Section section.
Context (n : string).
Hypothesis named : n = "Interface" \/ n = "Peer".

Lemma section_nil : inSection n [] [].
Proof. split; [constructor|]. intros [n' i p] H. cbn in *. subst n'. by destruct (n == "Interface"), (n == "Peer"). Qed.

Lemma sectionLine_field s k v : plainKey k = true -> readable v -> sec_name s = n ->
  sectionLine s (field k v) =
    mkSections n (if n == "Interface" then <[k := v]> (sec_iface s) else sec_iface s) (if n == "Peer" then <[k := v]> (sec_peer s) else sec_peer s).
Proof using named.
  destruct k as [|c k]; [done|]. intros Hk Hv Hs. destruct (TrimSpace_keyed c k v Hk Hv) as (w & Ht & Hw).
  destruct (plainKey_parts c k Hk) as (H1 & H2 & H3 & H4 & H5). unfold sectionLine. rewrite Ht. cbv zeta.
  change (HasPrefix (String c k +:+ " " +:+ String equals w) "#") with (if ascii_dec "#" c then String.prefix "" (k +:+ " " +:+ String equals w) else false).
  change (HasPrefix (String c k +:+ " " +:+ String equals w) "[") with (if ascii_dec "[" c then String.prefix "" (k +:+ " " +:+ String equals w) else false).
  destruct (ascii_dec "#" c); [congruence|]. destruct (ascii_dec "[" c); [congruence|].
  rewrite (bool_decide_eq_false_2 (_ = "")) by done. cbn [orb andb]. rewrite string_app_assoc.
  rewrite cut_at_app by (rewrite contains_byte_app, H5; reflexivity). rewrite Hw, TrimSpace_trailing by done.
  assert (TrimSpace (String c k) = String c k) as -> by by apply noSpace_solid. rewrite Hs. by destruct named as [-> | ->].
Qed.

Lemma section_field k v ls ps : plainKey k = true -> readable v -> inSection n ls ps -> inSection n (field k v :: ls) ((k, v) :: ps).
Proof using named.
  intros Hk Hv [Hn H]. split.
  - constructor; [|done]. assert (contains_byte newline k = false) as Hkn.
    { destruct k as [|c k]; [done|]. destruct (plainKey_parts c k Hk) as (_ & _ & _ & Hs & _). by apply noSpace_newline. }
    unfold field. rewrite !contains_byte_app, Hkn. destruct Hv as [->|(_ & _ & ->)]; done.
  - intros s Hs. cbn [fold_left]. rewrite sectionLine_field by done. rewrite H by done. cbn [sec_iface sec_peer].
    f_equal; [by destruct (n == "Interface")|by destruct (n == "Peer")].
Qed.

Lemma section_fieldZ k z ls ps : plainKey k = true -> inSection n ls ps -> inSection n (fieldZ k z :: ls) ((k, itoa z) :: ps).
Proof using named. intros Hk. apply section_field; [done|apply readable_itoa]. Qed.

Lemma section_app a b pa pb : inSection n a pa -> inSection n b pb -> inSection n (a ++ b) (pa ++ pb).
Proof using Type.
  intros [Ha Hpa] [Hb Hpb]. split; [by apply Forall_app_2|]. intros s Hs. rewrite fold_left_app, (Hpa s Hs), Hpb by done.
  cbn [sec_iface sec_peer]. unfold putAll. rewrite !fold_left_app. f_equal; [by destruct (n == "Interface")|by destruct (n == "Peer")].
Qed.

Lemma section_when (b : bool) ls ps : (b = true -> inSection n ls ps) -> inSection n (when b ls) (if b then ps else []).
Proof using Type. destruct b; intros H; [by apply H|apply section_nil]. Qed.
End section.

Ltac section_lines :=
  repeat first
    [ apply section_nil
    | apply section_fieldZ; [first [by left|by right]|reflexivity|]
    | apply section_field; [first [by left|by right]|reflexivity| |]
    | apply section_app | apply section_when; intros ? ].

(** ** Lemmas: the whole file *)

Lemma Contains_here sub b : Contains (sub +:+ b) sub = true.
Proof.
  assert (String.prefix sub (sub +:+ b) = true) as H by apply HasPrefix_app.
  destruct (sub +:+ b) eqn:E; cbn [Contains]; unfold HasPrefix; by rewrite H.
Qed.
Lemma Contains_later a s sub : Contains s sub = true -> Contains (a +:+ s) sub = true.
Proof. induction a as [|c a IH]; [done|]. intros H. cbn. rewrite IH by done. apply orb_true_r. Qed.

(** ** The file of an outbound, by section *)

Definition ifacePairs (ob : AWGOutbound) : list (string * string) :=
  [("PrivateKey", AWGOutbound_PrivateKey ob); ("Address", AWGOutbound_Address ob); ("MTU", itoa (orElseZ (AWGOutbound_MTU ob) 1420)); ("Table", "off")] ++
  (if 0 <? AWGOutbound_Jc ob then
    [("Jc", itoa (AWGOutbound_Jc ob)); ("Jmin", itoa (AWGOutbound_Jmin ob)); ("Jmax", itoa (AWGOutbound_Jmax ob));
     ("S1", itoa (AWGOutbound_S1 ob)); ("S2", itoa (AWGOutbound_S2 ob))] ++
    (if AWGVersionAtLeast (AWGOutbound_AWGVersion ob) AWGVersion2 then [("S3", itoa (AWGOutbound_S3 ob)); ("S4", itoa (AWGOutbound_S4 ob))] else []) ++
    (if AWGOutbound_H1 ob != "" then
      [("H1", AWGOutbound_H1 ob); ("H2", AWGOutbound_H2 ob); ("H3", AWGOutbound_H3 ob); ("H4", AWGOutbound_H4 ob)] else []) ++
    (if IsAWG3Family (AWGOutbound_AWGVersion ob) && (AWGOutbound_HeaderProtectionKey ob != "") then
      [("HeaderProtectionKey", AWGOutbound_HeaderProtectionKey ob)] else [])
   else []) ++
  [("PostUp", "sysctl -w net.ipv4.conf." +:+ IfaceName ob +:+ ".rp_filter=0 2>/dev/null || true")].

Definition peerPairs (ob : AWGOutbound) : list (string * string) :=
  [("PublicKey", AWGOutbound_PublicKey ob)] ++
  (if AWGOutbound_PresharedKey ob != "" then [("PresharedKey", AWGOutbound_PresharedKey ob)] else []) ++
  [("AllowedIPs", AWGOutbound_AllowedIPs ob); ("Endpoint", AWGOutbound_Endpoint ob);
   ("PersistentKeepalive", itoa (orElseZ (AWGOutbound_Keepalive ob) 25))].

(** The values of an outbound are plain text, its numbers fit an [int]. *)
Record plainOutbound (ob : AWGOutbound) : Prop := {
  po_texts : Forall plainValue [AWGOutbound_PrivateKey ob; AWGOutbound_Address ob; AWGOutbound_PublicKey ob; AWGOutbound_AllowedIPs ob; AWGOutbound_Endpoint ob];
  po_optional : Forall readable [AWGOutbound_PresharedKey ob; AWGOutbound_H1 ob; AWGOutbound_H2 ob; AWGOutbound_H3 ob; AWGOutbound_H4 ob;
                                 AWGOutbound_HeaderProtectionKey ob];
  po_name : contains_byte newline (IfaceName ob) = false;
  po_numbers : Forall (fun z => - 2 ^ 63 <= z < 2 ^ 63)
    [AWGOutbound_MTU ob; AWGOutbound_Keepalive ob; AWGOutbound_Jc ob; AWGOutbound_Jmin ob; AWGOutbound_Jmax ob;
     AWGOutbound_S1 ob; AWGOutbound_S2 ob; AWGOutbound_S3 ob; AWGOutbound_S4 ob] }.

Lemma postUp_plain i : contains_byte newline i = false -> plainValue ("sysctl -w net.ipv4.conf." +:+ i +:+ ".rp_filter=0 2>/dev/null || true").
Proof.
  intros Hi. split; [|split; [done|]].
  - change (".rp_filter=0 2>/dev/null || true") with (".rp_filter=0 2>/dev/null || tru" +:+ String "e" "").
    rewrite (string_app_assoc i). rewrite (string_app_assoc "sysctl -w net.ipv4.conf.").
    apply (TrimSpace_ends "s" ("ysctl -w net.ipv4.conf." +:+ (i +:+ ".rp_filter=0 2>/dev/null || tru")) "e"); reflexivity.
  - by rewrite !contains_byte_app, Hi.
Qed.

(** The lines of the two sections. *)
Lemma outbound_sections ob : plainOutbound ob ->
  exists I P, RenderAWGOutboundConf ob = unlines ("[Interface]" :: I ++ ["[Peer]"] ++ P ++ [fieldZ "PersistentKeepalive" (orElseZ (AWGOutbound_Keepalive ob) 25)]) /\
    (forall s, sec_name s = "Interface" -> fold_left sectionLine I s = mkSections "Interface" (putAll (ifacePairs ob) (sec_iface s)) (sec_peer s)) /\
    Forall (fun l => contains_byte newline l = false) I /\
    inSection "Peer" (P ++ [fieldZ "PersistentKeepalive" (orElseZ (AWGOutbound_Keepalive ob) 25)]) (peerPairs ob).
Proof.
  intros [Ht Ho Hn _]. rewrite !Forall_cons in Ht. rewrite !Forall_cons in Ho. destruct Ht as (T1 & T2 & T3 & T4 & T5 & _). destruct Ho as (O1 & O2 & O3 & O4 & O5 & O6 & _).
  set (J := when (0 <? AWGOutbound_Jc ob)
      ([fieldZ "Jc" (AWGOutbound_Jc ob); fieldZ "Jmin" (AWGOutbound_Jmin ob); fieldZ "Jmax" (AWGOutbound_Jmax ob);
        fieldZ "S1" (AWGOutbound_S1 ob); fieldZ "S2" (AWGOutbound_S2 ob)] ++
       when (AWGVersionAtLeast (AWGOutbound_AWGVersion ob) AWGVersion2) [fieldZ "S3" (AWGOutbound_S3 ob); fieldZ "S4" (AWGOutbound_S4 ob)] ++
       when (AWGOutbound_H1 ob != "")
         [field "H1" (AWGOutbound_H1 ob); field "H2" (AWGOutbound_H2 ob); field "H3" (AWGOutbound_H3 ob); field "H4" (AWGOutbound_H4 ob)] ++
       when (IsAWG3Family (AWGOutbound_AWGVersion ob) && (AWGOutbound_HeaderProtectionKey ob != ""))
         [field "HeaderProtectionKey" (AWGOutbound_HeaderProtectionKey ob)])).
  set (I := [field "PrivateKey" (AWGOutbound_PrivateKey ob); field "Address" (AWGOutbound_Address ob);
             fieldZ "MTU" (orElseZ (AWGOutbound_MTU ob) 1420); field "Table" "off"] ++ J ++
            [field "PostUp" ("sysctl -w net.ipv4.conf." +:+ IfaceName ob +:+ ".rp_filter=0 2>/dev/null || true")]).
  assert (inSection "Interface" I (ifacePairs ob)) as [HI1 HI2].
  { unfold I, J, ifacePairs. section_lines; try done; try (by right). right. by apply postUp_plain. }
  exists (I ++ [""]), ([field "PublicKey" (AWGOutbound_PublicKey ob)] ++ when (AWGOutbound_PresharedKey ob != "") [field "PresharedKey" (AWGOutbound_PresharedKey ob)] ++
    [field "AllowedIPs" (AWGOutbound_AllowedIPs ob); field "Endpoint" (AWGOutbound_Endpoint ob)]).
  split; [|split; [|split]].
  - unfold RenderAWGOutboundConf, I. f_equal. cbn [app]. rewrite <- !app_assoc. reflexivity.
  - intros s Hs. rewrite fold_left_app, HI2 by done. reflexivity.
  - apply Forall_app_2; [done|by constructor].
  - rewrite <- !app_assoc. unfold peerPairs. section_lines; try done; by right.
Qed.

(** What is left of an outbound when it is written and read. *)
Definition normalOutbound (ob : AWGOutbound) : AWGOutbound :=
  let j := 0 <? AWGOutbound_Jc ob in
  let w := AWGVersionAtLeast (AWGOutbound_AWGVersion ob) AWGVersion2 in
  let h := j && (AWGOutbound_H1 ob != "") in
  let k := j && (IsAWG3Family (AWGOutbound_AWGVersion ob) && (AWGOutbound_HeaderProtectionKey ob != "")) in
  let num (b : bool) (z : Z) := if b then z else 0 in
  let txt (b : bool) (s : string) := if b then s else "" in
  mkAWGOutbound "" "" true (AWGOutbound_PrivateKey ob) (AWGOutbound_Address ob) (orElseZ (AWGOutbound_MTU ob) 1420)
    (AWGOutbound_PublicKey ob) (AWGOutbound_PresharedKey ob) (AWGOutbound_Endpoint ob) (AWGOutbound_AllowedIPs ob) (orElseZ (AWGOutbound_Keepalive ob) 25)
    (num j (AWGOutbound_Jc ob)) (num j (AWGOutbound_Jmin ob)) (num j (AWGOutbound_Jmax ob)) (num j (AWGOutbound_S1 ob)) (num j (AWGOutbound_S2 ob))
    (num (j && w) (AWGOutbound_S3 ob)) (num (j && w) (AWGOutbound_S4 ob))
    (txt h (AWGOutbound_H1 ob)) (txt h (AWGOutbound_H2 ob)) (txt h (AWGOutbound_H3 ob)) (txt h (AWGOutbound_H4 ob))
    (txt k (AWGOutbound_HeaderProtectionKey ob)) (if k then AWGVersion3 else AWGVersion2).

(** A key of a section, from its pairs. *)
Lemma section_get ps k : get (putAll ps ∅) k = lastEntry k ps "".
Proof. by rewrite get_putAll. Qed.

Ltac pick_entry :=
  rewrite ?section_get; unfold ifacePairs, peerPairs; rewrite ?lastEntry_app, ?lastEntry_if;
  cbn [lastEntry String.eqb Ascii.eqb Bool.eqb]; rewrite ?lastEntry_app, ?lastEntry_if;
  cbn [lastEntry String.eqb Ascii.eqb Bool.eqb]; rewrite ?if_same.

Lemma orElseZ_range z d : - 2 ^ 63 <= z < 2 ^ 63 -> - 2 ^ 63 <= d < 2 ^ 63 -> - 2 ^ 63 <= orElseZ z d < 2 ^ 63.
Proof. intros H1 H2. unfold orElseZ. by case_bool_decide. Qed.

Lemma atoi0_if (b : bool) z : - 2 ^ 63 <= z < 2 ^ 63 -> atoi0 (if b then itoa z else "") = if b then z else 0.
Proof. intros H. destruct b; [by apply atoi0_itoa|reflexivity]. Qed.

Lemma orElseZ_idem z d : d <> 0 -> orElseZ (orElseZ z d) d = orElseZ z d.
Proof. intros H. unfold orElseZ. destruct (z == 0) eqn:E; [by rewrite bool_decide_eq_false_2|by rewrite E]. Qed.

Lemma outboundOf_pairs ob : plainOutbound ob -> outboundOf (putAll (ifacePairs ob) ∅) (putAll (peerPairs ob) ∅) = normalOutbound ob.
Proof.
  intros [_ _ _ Hn]. rewrite !Forall_cons in Hn. destruct Hn as (N1 & N2 & N3 & N4 & N5 & N6 & N7 & N8 & N9 & _).
  unfold outboundOf, normalOutbound. cbv zeta. f_equal.
  - by pick_entry.
  - by pick_entry.
  - pick_entry. rewrite atoi0_itoa by by apply orElseZ_range. by apply orElseZ_idem.
  - by pick_entry.
  - pick_entry. case_bool_decide as E; [by rewrite E|done].
  - by pick_entry.
  - by pick_entry.
  - pick_entry. by apply atoi0_itoa, orElseZ_range.
  - pick_entry. by apply atoi0_if.
  - pick_entry. by apply atoi0_if.
  - pick_entry. by apply atoi0_if.
  - pick_entry. by apply atoi0_if.
  - pick_entry. by apply atoi0_if.
  - pick_entry. destruct (0 <? AWGOutbound_Jc ob); [by apply (atoi0_if (AWGVersionAtLeast (AWGOutbound_AWGVersion ob) AWGVersion2))|reflexivity].
  - pick_entry. destruct (0 <? AWGOutbound_Jc ob); [by apply (atoi0_if (AWGVersionAtLeast (AWGOutbound_AWGVersion ob) AWGVersion2))|reflexivity].
  - pick_entry. by destruct (0 <? AWGOutbound_Jc ob).
  - pick_entry. by destruct (0 <? AWGOutbound_Jc ob).
  - pick_entry. by destruct (0 <? AWGOutbound_Jc ob).
  - pick_entry. by destruct (0 <? AWGOutbound_Jc ob).
  - pick_entry. by destruct (0 <? AWGOutbound_Jc ob).
  - pick_entry. destruct (0 <? AWGOutbound_Jc ob); [|reflexivity]. cbn [andb].
    destruct (IsAWG3Family _); [|reflexivity]. cbn [andb].
    destruct (bool_decide_reflect (AWGOutbound_HeaderProtectionKey ob = "")) as [E|E]; cbn [negb]; [reflexivity|]. by rewrite bool_decide_eq_false_2.
Qed.

Lemma parseSections_outbound ob I P :
  (forall s, sec_name s = "Interface" -> fold_left sectionLine I s = mkSections "Interface" (putAll (ifacePairs ob) (sec_iface s)) (sec_peer s)) ->
  inSection "Peer" P (peerPairs ob) ->
  fold_left sectionLine ("[Interface]" :: I ++ ["[Peer]"] ++ P) (mkSections "" ∅ ∅) =
    mkSections "Peer" (putAll (ifacePairs ob) ∅) (putAll (peerPairs ob) ∅).
Proof.
  intros HI [_ HP]. cbn [fold_left]. change (sectionLine (mkSections "" ∅ ∅) "[Interface]") with (mkSections "Interface" ∅ ∅).
  rewrite fold_left_app, HI by done. cbn [sec_iface sec_peer app fold_left].
  change (sectionLine (mkSections "Interface" (putAll (ifacePairs ob) ∅) ∅) "[Peer]") with (mkSections "Peer" (putAll (ifacePairs ob) ∅) ∅).
  rewrite HP by done. reflexivity.
Qed.

(** The text of a file after trimming: its last line is not ended. *)
Lemma TrimSpace_unlines c l ls e : is_space c = false -> plainValue e -> TrimSpace (unlines (String c l :: ls ++ [e])) = unlines (String c l :: ls) +:+ e.
Proof.
  intros Hc He. change (String c l :: ls ++ [e]) with ((String c l :: ls) ++ [e]). rewrite unlines_app.
  assert (unlines [e] = e +:+ String newline "") as -> by done. rewrite string_app_assoc, TrimSpace_trailing by done.
  unfold TrimSpace. rewrite trim_right_app; rewrite (plainValue_right e) by apply He; [|by destruct He as (_ & He & _)]. cbn. by rewrite Hc.
Qed.

Lemma Split_unended ls e : Forall (fun l => contains_byte newline l = false) ls -> contains_byte newline e = false ->
  Split newline (unlines ls +:+ e) = ls ++ [e].
Proof.
  intros Hls He. induction Hls as [|l ls Hl _ IH]; [by apply Split_none|].
  change (unlines (l :: ls) +:+ e) with ((l +:+ String newline (unlines ls)) +:+ e). rewrite <- string_app_assoc.
  change (String newline (unlines ls) +:+ e) with (String newline (unlines ls +:+ e)). rewrite Split_app by done. by rewrite IH.
Qed.

Lemma parse_rendered ob : plainOutbound ob -> parseOutbound (TrimSpace (RenderAWGOutboundConf ob)) = Some (normalOutbound ob).
Proof.
  intros Hp. destruct (outbound_sections ob Hp) as (I & P & -> & HI & HIn & HP). set (e := fieldZ "PersistentKeepalive" _) in *.
  assert (plainValue e) as He.
  { split; [|split; [done|]].
    - change e with (field (String "P" "ersistentKeepalive") (itoa (orElseZ (AWGOutbound_Keepalive ob) 25))). apply TrimSpace_field; [done|].
      destruct (readable_itoa (orElseZ (AWGOutbound_Keepalive ob) 25)) as [E|Hv]; [by apply itoa_ne in E|exact Hv].
    - unfold e, fieldZ, field. rewrite !contains_byte_app, (itoa_no newline) by reflexivity. reflexivity. }
  change ("[Interface]" :: I ++ ["[Peer]"] ++ P ++ [e]) with ("[Interface]" :: I ++ ("[Peer]" :: P) ++ [e]).
  rewrite app_assoc, TrimSpace_unlines by done. rewrite app_comm_cons. destruct HP as [HPn HP].
  assert (Forall (fun l => contains_byte newline l = false) (("[Interface]" :: I) ++ "[Peer]" :: P)) as Hlines.
  { apply Forall_app in HPn as [HPn _]. apply Forall_app_2; by constructor. }
  unfold parseOutbound. assert (IsAWGConf (unlines (("[Interface]" :: I) ++ "[Peer]" :: P) +:+ e) = true) as ->.
  { unfold IsAWGConf. rewrite unlines_app, <- string_app_assoc. apply andb_true_iff. split.
    - change (unlines ("[Interface]" :: I)) with ("[Interface]" +:+ String newline (unlines I)). rewrite <- string_app_assoc. apply Contains_here.
    - apply Contains_later. change (unlines ("[Peer]" :: P)) with ("[Peer]" +:+ String newline (unlines P)). rewrite <- string_app_assoc. apply Contains_here. }
  cbn [negb]. unfold parseSections. rewrite Split_unended by (try done; by apply He).
  replace ((("[Interface]" :: I) ++ "[Peer]" :: P) ++ [e]) with ("[Interface]" :: I ++ ["[Peer]"] ++ P ++ [e]) by (cbn [app]; by rewrite <- app_assoc).
  rewrite (parseSections_outbound ob I (P ++ [e]) HI (conj HPn HP)). cbn [sec_iface sec_peer]. rewrite outboundOf_pairs by done.
  destruct Hp as [Ht _ _ _]. rewrite !Forall_cons in Ht. destruct Ht as ((_ & T1 & _) & (_ & T2 & _) & (_ & T3 & _) & (_ & T4 & _) & (_ & T5 & _) & _).
  cbn [AWGOutbound_PrivateKey AWGOutbound_PublicKey AWGOutbound_Endpoint normalOutbound].
  rewrite (bool_decide_eq_false_2 _ T1), (bool_decide_eq_false_2 _ T3), (bool_decide_eq_false_2 _ T5). cbn [orb].
  unfold normalOutbound. cbv zeta. cbn -[orElse itoa IsAWG3Family AWGVersionAtLeast Z.ltb]. by rewrite (orElse_ne _ _ T2), (orElse_ne _ _ T4).
Qed.

(** The rendering forgets nothing else: what is read back is written the same,
    under the same interface name. *)
Lemma render_normal ob :
  AWGVersionAtLeast (AWGOutbound_AWGVersion ob) AWGVersion2 = true ->
  RenderAWGOutboundConf ((normalOutbound ob) <| AWGOutbound_ID := AWGOutbound_ID ob |> <| AWGOutbound_Tag := AWGOutbound_Tag ob |>) =
    RenderAWGOutboundConf ob.
Proof.
  intros Hv. unfold RenderAWGOutboundConf. f_equal.
  assert (IfaceName ((normalOutbound ob) <| AWGOutbound_ID := AWGOutbound_ID ob |> <| AWGOutbound_Tag := AWGOutbound_Tag ob |>) = IfaceName ob) as -> by reflexivity.
  generalize (IfaceName ob). revert Hv. destruct ob as [id tag en pk ad mtu pub psk ep al ka jc jn jx s1 s2 s3 s4 h1 h2 h3 h4 hpk ver].
  cbv beta iota zeta delta [normalOutbound update AWGOutbound_ID AWGOutbound_Tag AWGOutbound_Enabled AWGOutbound_PrivateKey AWGOutbound_Address AWGOutbound_MTU AWGOutbound_PublicKey AWGOutbound_PresharedKey AWGOutbound_Endpoint AWGOutbound_AllowedIPs AWGOutbound_Keepalive AWGOutbound_Jc AWGOutbound_Jmin AWGOutbound_Jmax AWGOutbound_S1 AWGOutbound_S2 AWGOutbound_S3 AWGOutbound_S4 AWGOutbound_H1 AWGOutbound_H2 AWGOutbound_H3 AWGOutbound_H4 AWGOutbound_HeaderProtectionKey AWGOutbound_AWGVersion].
  intros Hv iface. rewrite !orElseZ_idem, Hv by done. cbn [andb].
  destruct (0 <? jc) eqn:Ej; [|reflexivity]. cbn [andb]. rewrite Ej.
  assert (forall b : bool, AWGVersionAtLeast (if b then AWGVersion3 else AWGVersion2) AWGVersion2 = true) as Hb by by intros [].
  assert (forall (b : bool) (x : string), ((if b then x else "") != "") = b && (x != "")) as Ht by by intros [] x.
  rewrite Hb, !Ht, andb_diag. do 5 f_equal. destruct (h1 != ""); destruct (IsAWG3Family ver && (hpk != "")) eqn:Ef; try reflexivity.
  all: apply andb_true_iff in Ef as [_ ->]; reflexivity.
Qed.

(** ** Files and links *)

Lemma Parse_file `{zl : !Zlib} raw : HasPrefix (TrimSpace raw) "vpn://" = false -> ParseAWGOutboundConf raw = parseOutbound (TrimSpace raw).
Proof. intros H. unfold ParseAWGOutboundConf. cbv zeta. by rewrite H. Qed.

Lemma Parse_link `{zl : !Zlib} uri conf : noSpace uri = true -> (Decode ("vpn://" +:+ uri) ≫= ConfFromPayload) = Some conf ->
  ParseAWGOutboundConf ("vpn://" +:+ uri) = parseOutbound conf.
Proof.
  intros Hn H. unfold ParseAWGOutboundConf. cbv zeta. assert (TrimSpace ("vpn://" +:+ uri) = "vpn://" +:+ uri) as -> by by apply noSpace_solid.
  rewrite HasPrefix_app. destruct (Decode _) as [p|]; [|done]. cbn [mbind option_bind] in *. by rewrite H.
Qed.

Lemma parseOutbound_file raw ob : parseOutbound raw = Some ob -> IsAWGConf raw = true.
Proof. unfold parseOutbound. by destruct (IsAWGConf raw). Qed.

Lemma bracket_no_link r : HasPrefix (TrimSpace (String "["%char r)) "vpn://" = false.
Proof. by destruct (TrimSpace_head "["%char r eq_refl) as [r' ->]. Qed.

Lemma rendered_no_link ob : HasPrefix (TrimSpace (RenderAWGOutboundConf ob)) "vpn://" = false.
Proof. exact (bracket_no_link (drop_string 1 (RenderAWGOutboundConf ob))). Qed.

(** An AWG outbound survives its file and its link: [ParseAWGOutboundConf]
    of what [RenderAWGOutboundConf] writes, and of the vpn:// link made from it,
    is the outbound in its normal form (the defaults filled in, without the
    obfuscation that is not in use, without identifier and tag); and from AWG 2 on
    the normal form under the old identifier and tag renders to the same file. *)
Theorem outbound_conf_roundtrip `{zl : !Zlib} ob : plainOutbound ob ->
  ParseAWGOutboundConf (RenderAWGOutboundConf ob) = Some (normalOutbound ob) /\
  (asciiText (RenderAWGOutboundConf ob) = true ->
    exists uri, EncodeConf (RenderAWGOutboundConf ob) = Some uri /\ ParseAWGOutboundConf uri = Some (normalOutbound ob)) /\
  (AWGVersionAtLeast (AWGOutbound_AWGVersion ob) AWGVersion2 = true ->
    RenderAWGOutboundConf ((normalOutbound ob) <| AWGOutbound_ID := AWGOutbound_ID ob |> <| AWGOutbound_Tag := AWGOutbound_Tag ob |>) =
      RenderAWGOutboundConf ob).
Proof.
  intros Hp. pose proof (parse_rendered ob Hp) as H. split_and!.
  - by rewrite Parse_file by apply rendered_no_link.
  - intros Ha. destruct (vpn_link_opens (RenderAWGOutboundConf ob) Ha (parseOutbound_file _ _ H)) as (uri & H1 & H2 & H3).
    exists ("vpn://" +:+ uri). split; [done|]. by rewrite (Parse_link uri _ H2 H3).
  - apply render_normal.
Qed.

Definition sampleOutbound : AWGOutbound :=
  mkAWGOutbound "ob1" "exit" true "priv" "10.9.0.7/32" 0 "pub" "psk" "198.51.100.7:51820" "0.0.0.0/0, ::/0" 0
    4 8 80 15 16 17 18 "11" "12" "13" "14" "0a" AWGVersion3.

Lemma outbound_conf_roundtrip_witness :
  @ParseAWGOutboundConf storedZlib (RenderAWGOutboundConf sampleOutbound) = Some (normalOutbound sampleOutbound) /\
  exists uri, @EncodeConf storedZlib (RenderAWGOutboundConf sampleOutbound) = Some uri /\
    @ParseAWGOutboundConf storedZlib uri = Some (normalOutbound sampleOutbound).
Proof.
  destruct (@outbound_conf_roundtrip storedZlib sampleOutbound) as (H1 & H2 & _).
  - split; [repeat constructor; done|repeat constructor; try done; right; repeat constructor; done|done|repeat constructor; done].
  - split; [exact H1|]. apply H2. vm_compute. reflexivity.
Defined.

(** An outbound of AWG 1.5 comes back as one of AWG 2: both branches without a
    header protection key choose that version, and the next rendering has S3 and S4. *)
Lemma old_outbound_becomes_2 :
  let old := sampleOutbound <| AWGOutbound_AWGVersion := AWGVersion1x |> <| AWGOutbound_HeaderProtectionKey := "" |> in
  option_map AWGOutbound_AWGVersion (parseOutbound (TrimSpace (RenderAWGOutboundConf old))) = Some AWGVersion2 /\
  Contains (RenderAWGOutboundConf old) "S3" = false /\
  option_map (fun ob => Contains (RenderAWGOutboundConf ob) "S3 = 0") (parseOutbound (TrimSpace (RenderAWGOutboundConf old))) = Some true.
Proof. by vm_compute. Qed.
