(* ===== verification/Subscription.v ===== *)
(** * Subscription: what a user fetches

    internal/web/subscription.go ([handleSubscription]), sub_singbox.go and
    sub_clash.go (the documents made of the links) and subpush.go
    ([PushNodeSubscriptions]): the links of a user are the same for the endpoint
    of the panel and for the files a node serves.  A body is a text, or the
    record it is encoded from; the page of a browser is its parameters. *)

From stdpp Require Import sorting.
From S2P Require Import Prelude GoStrings Model ChainModel Lifecycle StoreCore Store Alloc Caddy Presets Roles Codec AwgConf AwgMaterial MergedRoute MergedConfig AwgDeploy DeployNode ClientConf HopWire Links ConfFields Json VpnUri.

(** ** Links as text *)

(** [url.QueryEscape]. *)
Definition unreserved (c : ascii) : bool :=
  let n := byteZ c in
  ((48 <=? n) && (n <=? 57)) || ((65 <=? n) && (n <=? 90)) || ((97 <=? n) && (n <=? 122)) || existsb (Ascii.eqb c) ["-"; "_"; "."; "~"]%char.
Definition upperHex : string := "0123456789ABCDEF".
Definition escapeByte (c : ascii) : string :=
  if unreserved c then String c ""
  else if Ascii.eqb c " "%char then "+"
  else String "%"%char (String (digitChar upperHex (byteZ c / 16)) (String (digitChar upperHex (byteZ c `mod` 16)) "")).
Fixpoint QueryEscape (s : string) : string := match s with EmptyString => "" | String c s' => escapeByte c +:+ QueryEscape s' end.

(** [url.Values.Encode]: by key. *)
Definition leEntry (a b : string * string) : Prop := String.leb (fst a) (fst b) = true.
#[export] Instance leEntry_dec a b : Decision (leEntry a b) := bool_eq_dec _ _.
Definition encodeQuery (q : gmap string string) : string :=
  Join "&" (map (fun p => QueryEscape (fst p) +:+ String equals (QueryEscape (snd p))) (merge_sort leEntry (map_to_list q))).

(** A VLESS link; the one over plain XHTTP is not made by [url.Values]. *)
Definition vlessText (u : URI) : string :=
  let q := fun k => queryGet k (uri_query u) in
  "vless://" +:+ Join ":" (uri_user u) +:+ "@" +:+ uri_host u +:+ ":" +:+ itoa (uri_port u) +:+ "?" +:+
  (if (q "type" == "xhttp") && (q "security" == "none") then "type=xhttp&security=none&host=" +:+ q "host" +:+ "&path=%2Fapi"
   else encodeQuery (uri_query u)) +:+
  (if uri_fragment u == "" then "" else "#" +:+ QueryEscape (uri_fragment u)).

(** ** The documents *)

(** [yamlSafe], on UTF-8 text: a character outside ASCII is one hyphen, given for
    its first byte. *)
Definition yamlChar (c : ascii) : string :=
  let n := byteZ c in
  if ((97 <=? n) && (n <=? 122)) || ((65 <=? n) && (n <=? 90)) || ((48 <=? n) && (n <=? 57)) || (n =? 45) || (n =? 95) then String c ""
  else if (128 <=? n) && (n <? 192) then "" else "-".
Fixpoint yamlText (s : string) : string := match s with EmptyString => "" | String c s' => yamlChar c +:+ yamlText s' end.
Definition yamlSafe (s : string) : string := let s := TrimSpace s in if s == "" then "user" else yamlText s.

(** The outbounds of the sing-box document.  The two builders return a typed
    pointer that is stored in an [any] before it is compared with nil: a link
    they refuse is not skipped but encoded as null. *)
Inductive SubOutbound :=
| SubAwg (a : ClientAwg)
| SubVless (v : ClientVless)
| SubNull
| SubGroup (o : Outbound).

Record SubConfig := mkSubConfig {
  sc_Mixed : string * Z;                     (* the local listener *)
  sc_Outbounds : list SubOutbound;
  sc_Rules : list string;                    (* the outbound of each rule *)
  sc_Final : string;
  sc_DNS : list (string * string);           (* tag and detour of a server *)
  sc_DNSFinal : string }.

(** The loop over the links: tags and outbounds; [i] is the index. *)
Fixpoint singboxLinks (name : string) (i : Z) (links : list string) : list (string * SubOutbound) :=
  match links with
  | [] => []
  | l :: links' =>
      let l := TrimSpace l in
      let tag := name +:+ "-" +:+ itoa (i + 1) in
      let rest := singboxLinks name (i + 1) links' in
      if l == "" then rest
      else if IsAWGConf l then (tag, match singboxAWGOutbound tag l with Some a => SubAwg a | None => SubNull end) :: rest
      else if HasPrefix l "vless://" then (tag, match singboxVLESSOutbound tag l with Some v => SubVless v | None => SubNull end) :: rest
      else rest
  end.

(** [buildUserSingboxJSON]; [None] is its error. *)
Definition buildUserSingboxJSON (u : User) (links : list string) : option SubConfig :=
  let entries := singboxLinks (yamlSafe (User_Name u)) 0 links in
  let tags := map fst entries in
  match tags with
  | [] => None
  | t0 :: rest =>
      let group := match rest with
                   | [] => None
                   | _ => match BuildStrategyOutbound StrategyURLTest tags with
                          | Some o => Some o
                          | None => BuildStrategyOutbound "urltest" tags
                          end
                   end in
      let proxyTag := match group with Some o => extractTag o | None => t0 end in
      Some (mkSubConfig ("127.0.0.1", 2080) (map snd entries ++ option_list (option_map SubGroup group) ++ [SubGroup (DirectOutbound "direct-out" "")])
              [proxyTag] proxyTag [("dns-remote", proxyTag); ("dns-direct", "direct-out")] "dns-direct")
  end.

(** The loop of [buildClashYAML]: names and blocks. *)
Fixpoint clashLinks (name : string) (i : Z) (links : list string) : list (string * list string) :=
  match links with
  | [] => []
  | l :: links' =>
      let l := TrimSpace l in
      let n := name +:+ "-" +:+ itoa (i + 1) in
      let rest := clashLinks name (i + 1) links' in
      let block := if l == "" then []
                   else if IsAWGConf l then clashAWGProxy n l
                   else if HasPrefix l "vless://" then clashVLESSProxy n l
                   else [] in
      match block with [] => rest | _ => (n, block) :: rest end
  end.

(** [buildClashYAML]. *)
Definition buildClashYAML (userName : string) (links : list string) : string :=
  let entries := clashLinks (yamlSafe userName) 0 links in
  match entries with
  | [] => unlines ["proxies: []"; "proxy-groups: []"; "rules:"; "  - MATCH,DIRECT"]
  | _ => unlines (["proxies:"] ++ flat_map snd entries ++ ["proxy-groups:"; "  - name: PROXY"; "    type: select"; "    proxies:"] ++
                  map (fun e => "      - " +:+ fst e) entries ++ ["rules:"; "  - MATCH,PROXY"])
  end.

(** [wantsHTMLSub] and [defaultSubFormatByUA]. *)
Definition wantsHTMLSub (accept ua : string) : bool :=
  if negb (Contains (ToLower accept) "text/html") then false
  else
    let ua := ToLower ua in
    if existsb (Contains ua) ["v2rayng"; "nekoray"; "nekobox"; "shadowrocket"; "sing-box"; "clash"; "hiddify"] then false
    else Contains ua "mozilla".
Definition defaultSubFormatByUA (ua : string) : string :=
  let ua := ToLower ua in
  if existsb (Contains ua) ["v2rayng"; "nekoray"; "nekobox"; "shadowrocket"; "sing-box"] then "base64" else "raw".

(** The body of a reply or a file. *)
Inductive Body :=
| Text (s : string)
| Singbox (c : SubConfig)
| Page (lang name : string) (links vpn : list string).

(** [headerSafe]. *)
Fixpoint headerSafe (s : string) : string :=
  match s with
  | EmptyString => ""
  | String c s' => if (byteZ c =? 13) || (byteZ c =? 10) || (byteZ c =? 0) then headerSafe s' else String c (headerSafe s')
  end.

(** [setSubInfoHeaders]: the title, the traffic, the quota and the expiry, 0 for none. *)
Record SubInfo := mkSubInfo { si_title : string; si_upload : Z; si_download : Z; si_total : Z; si_expire : option Time }.
Definition setSubInfoHeaders (u : User) : SubInfo :=
  let up := User_AWGTxBytes u in
  let down := if (0 <? User_UsedTraffic u) && (wrap64 (up + User_AWGRxBytes u) =? 0) then User_UsedTraffic u else User_AWGRxBytes u in
  mkSubInfo (headerSafe (User_Name u)) up down (User_DataLimit u) (if IsZero (User_ExpiresAt u) then None else Some (User_ExpiresAt u)).

Inductive Reply := NotFound | Served (info : SubInfo) (body : Body).

Section subscription.
Context `{zl : !Zlib} (g : CPSGen) (s : PresetState) (ss obfs : string) (cg : CredGen) (draw : string -> nat -> CPSGen).
(** The text of the links no document is made of. *)
Context (otherText : URI -> string).

Definition linkText (l : Link) : string :=
  match l with
  | LinkConf t | LinkComment t => t
  | LinkURI u => if uri_scheme u == "vless" then vlessText u else otherText u
  end.

(** The texts of [collectUserLinks]; [None] is a panic. *)
Definition userLinks (now : Time) (u : User) (w : World) : option (User * list string * World) :=
  match collectUserLinks g s ss obfs cg draw now u w with
  | Some (u, links, w) => Some (u, map linkText links, w)
  | None => None
  end.

(** [vpnLinksFrom]. *)
Definition vpnLinksFrom (links : list string) : list string :=
  omap (fun l => if IsAWGConf l then EncodeConf l else None) links.

Definition newLines : string := String newline "".

(** The language of the panel. *)
Definition panelLanguage (w : World) : string :=
  match GetSettings w with Ok st => orElse (PanelSettings_Language st) "en" | Err _ => "en" end.

(** The body of a format; [None] is no body. *)
Definition bodyOf (lang : string) (u : User) (links : list string) (format : string) : option Body :=
  if format == "vpn" then let body := Join newLines (vpnLinksFrom links) in if body == "" then None else Some (Text body)
  else if bool_decide (format ∈ ["clash"; "clashmeta"; "mihomo"]) then Some (Text (buildClashYAML (User_Name u) links))
  else if bool_decide (format ∈ ["singbox"; "sing-box"; "sfa"; "sfi"]) then option_map Singbox (buildUserSingboxJSON u links)
  else if format == "html" then Some (Page lang (User_Name u) links (vpnLinksFrom links))
  else if format == "base64" then Some (Text (paddedEncode stdAlphabet (Join newLines links)))
  else Some (Text (Join newLines links)).

(** A save whose error is dropped. *)
Definition saveIgnored (now : Time) (u : User) (w : World) : User * World :=
  match SaveUser now u w with (Ok u', w') => (u', w') | (Err _, w') => (u, w') end.

(** The lifecycle states that get nothing. *)
Definition inactiveStatus (st : string) : bool := bool_decide (st ∈ ["disabled"; "expired"; "limited"]).

(** [handleSubscription]; [fresh] is the outcome of [GenerateSubscriptionToken],
    [None] the panic of a renderer. *)
Definition handleSubscription (fresh : option string) (now : Time) (token query accept ua : string) (w : World) : option (Reply * World) :=
  if token == "" then Some (NotFound, w)
  else
    match GetUserBySubscriptionToken token w with
    | Err _ => Some (NotFound, w)
    | Ok u =>
        if inactiveStatus (ComputeStatus now u) then Some (NotFound, w)
        else
          let '(u, w) := if User_SubscriptionToken u == "" then
                           match fresh with Some t => saveIgnored now (u <| User_SubscriptionToken := t |>) w | None => (u, w) end
                         else (u, w) in
          let '(u, w) := if (User_ExpireStrategy u == "start_on_first_use") && IsZero (User_FirstUseAt u)
                         then saveIgnored now (u <| User_FirstUseAt := now |>) w else (u, w) in
          match userLinks now u w with
          | None => None
          | Some (u, links, w) =>
              if Nat.eqb (length links) 0 then Some (NotFound, w)
              else
                let format := ToLower (TrimSpace query) in
                let format := if format == "" then if wantsHTMLSub accept ua then "html" else defaultSubFormatByUA ua else format in
                Some (match bodyOf (panelLanguage w) u links format with
                      | Some body => Served (setSubInfoHeaders u) body
                      | None => NotFound
                      end, w)
          end
    end.

(** ** The files of a node *)

(** [renderSubFiles]: a Go map; the page renders into memory. *)
Definition renderSubFiles (u : User) (links : list string) (lang : string) : list (string * Body) :=
  let tok := User_SubscriptionToken u in
  let clash := buildClashYAML (User_Name u) links in
  let vpn := vpnLinksFrom links in
  [(tok +:+ ".raw", Text (Join newLines links)); (tok +:+ ".b64", Text (paddedEncode stdAlphabet (Join newLines links)))] ++
  (if clash == "" then [] else [(tok +:+ ".clash.yaml", Text clash)]) ++
  (if Nat.eqb (length vpn) 0 then [] else [(tok +:+ ".vpn", Text (Join newLines vpn))]) ++
  [(tok +:+ ".html", Page lang (User_Name u) links vpn)].

(** The files in the subscription directory of a node. *)
Abbreviation SubDirectory := (gmap string Body) (only parsing).

(** What becomes of a command: carried out, or failed with or without its effect. *)
Inductive Outcome := Carried | Failed (effect : bool).

(** The commands on the node and the order in which Go visits a map.  [pe_stuck]
    are the files that [rm] cannot remove. *)
Record PushEnv := mkPushEnv {
  pe_connect : bool;
  pe_stuck : string -> bool;
  pe_clear : Outcome;
  pe_upload : string -> Outcome;
  pe_order : list (string * Body) -> list (string * Body);
  pe_order_perm : forall l, pe_order l ≡ₚ l }.
Context (e : PushEnv).

(** [ClearSubStatics]: "rm -f dir/*; mkdir -p dir".  The glob skips names that
    begin with a dot, and a file that [rm] cannot remove is not an error, the
    command ends with that of [mkdir]. *)
Definition staysBehind (name : string) : bool := HasPrefix name "." || pe_stuck e name.
Definition ClearSubStatics (d : SubDirectory) : bool * SubDirectory :=
  let cleared := filter (fun f => staysBehind (fst f) = true) d in
  match pe_clear e with
  | Carried => (true, cleared)
  | Failed true => (false, cleared)
  | Failed false => (false, d)
  end.

(** [PushSubStatic]. *)
Definition unsafeName (name : string) : bool := contains_byte "/" name || contains_byte backslash name || HasPrefix name ".".
Definition PushSubStatic (name : string) (content : Body) (d : SubDirectory) : bool * SubDirectory :=
  if unsafeName name then (false, d)
  else
    match pe_upload e name with
    | Carried => (true, <[name := content]> d)
    | Failed true => (false, <[name := content]> d)
    | Failed false => (false, d)
    end.

(** The files of one user: the name that failed, if any. *)
Fixpoint pushFiles (fs : list (string * Body)) (d : SubDirectory) : option string * SubDirectory :=
  match fs with
  | [] => (None, d)
  | (name, content) :: fs' => let '(ok, d) := PushSubStatic name content d in if ok then pushFiles fs' d else (Some name, d)
  end.

(** The loop over the users: the number of users or the name that failed. *)
Fixpoint pushUsers (now : Time) (lang : string) (users : list User) (pushed : Z) (w : World) (d : SubDirectory)
    : option ((Z + string) * World * SubDirectory) :=
  match users with
  | [] => Some (inl pushed, w, d)
  | u :: users' =>
      if (User_SubscriptionToken u == "") || inactiveStatus (ComputeStatus now u) then pushUsers now lang users' pushed w d
      else
        match userLinks now u w with
        | None => None
        | Some (u, links, w) =>
            if Nat.eqb (length links) 0 then pushUsers now lang users' pushed w d
            else
              match pushFiles (pe_order e (renderSubFiles u links lang)) d with
              | (Some name, d) => Some (inr name, w, d)
              | (None, d) => pushUsers now lang users' (pushed + 1) w d
              end
        end
  end.

(** [setUtility] on the sub utility. *)
Definition setUtility (now : Time) (nodeID : string) (version status : string) (rev : Z) (w : World) : World :=
  snd (SetUtilityState nodeID (mkUtilityState UtilitySub true version now rev status) w).

Inductive SubPush := SubNoop | SubNoNode | SubConnectFailed | SubClearFailed | SubUploadFailed (name : string) | SubPushed (users : Z).

(** [PushNodeSubscriptions]. *)
Definition PushNodeSubscriptions (now : Time) (nodeID : string) (w : World) (d : SubDirectory) : option (SubPush * World * SubDirectory) :=
  match GetNodeInfo nodeID w with
  | Err _ => Some (SubNoNode, w, d)
  | Ok info =>
      if negb (UtilityInstalled (Some info) UtilitySub) then Some (SubNoop, w, d)
      else
        match GetHost nodeID w with
        | Err _ => Some (SubNoNode, w, d)
        | Ok _ =>
            if negb (pe_connect e) then Some (SubConnectFailed, setUtility now nodeID "" "error: connect" 0 w, d)
            else
              match ClearSubStatics d with
              | (false, d) => Some (SubClearFailed, setUtility now nodeID "" "error: clear" 0 w, d)
              | (true, d) =>
                  let users := match ListUsers w with Ok us => us | Err _ => [] end in
                  match pushUsers now (panelLanguage w) users 0 w d with
                  | None => None
                  | Some (inr name, w, d) => Some (SubUploadFailed name, setUtility now nodeID "" ("error: " +:+ name) 0 w, d)
                  | Some (inl n, w, d) => Some (SubPushed n, setUtility now nodeID (itoa n +:+ " users") "" (GetRevision w) w, d)
                  end
              end
        end
  end.
End subscription.

(** ** Lemmas: the user a renderer goes on with *)

Definition sameSub (u v : User) : Prop := User_SubscriptionToken v = User_SubscriptionToken u /\ User_Name v = User_Name u.

Lemma sameSub_trans u v x : sameSub u v -> sameSub v x -> sameSub u x.
Proof. unfold sameSub. intuition congruence. Qed.

Lemma SaveUser_sub now u w v w' : SaveUser now u w = (Ok v, w') -> sameSub u v.
Proof.
  intros H. apply modifyStore_Ok in H as (sf & sf' & _ & Hf & _). destruct (IsZero (User_CreatedAt u)); cbn in Hf.
  all: repeat case_match; try done; by injection Hf as <- <-.
Qed.

Lemma persistUserCreds_sub cg now u w v w' : persistUserCreds cg now u w = (v, w') -> sameSub u v.
Proof.
  unfold persistUserCreds. cbv zeta. pose proof (EnsureUserCreds_rest cg u) as Hc.
  assert (sameSub u (fst (EnsureUserCreds cg u))) as Hs by (split; [exact (f_equal User_SubscriptionToken Hc)|exact (f_equal User_Name Hc)]).
  destruct (_ != _); [|by intros [= <- _]].
  destruct (SaveUser _ _ _) as [[v'|e] w1] eqn:Es; intros [= <- _]; [|done].
  by eapply sameSub_trans, SaveUser_sub.
Qed.

Section files.
Context `{zl : !Zlib} (g : CPSGen) (s : PresetState) (ss obfs : string) (cg : CredGen) (draw : string -> nat -> CPSGen) (otherText : URI -> string).
Abbreviation links_of := (userLinks g s ss obfs cg draw otherText).

Lemma userLinks_sub now u w v ls w' : links_of now u w = Some (v, ls, w') -> sameSub u v.
Proof.
  unfold userLinks, collectUserLinks. cbv zeta. destruct (persistUserCreds cg now u w) as [u1 w1] eqn:E.
  apply persistUserCreds_sub in E. repeat case_match; intros ?; simplify_eq; done.
Qed.

(** What a user gets on a node at some point of a push. *)
Definition pushedFile (now : Time) (lang : string) (u : User) (name : string) (content : Body) : Prop :=
  exists w v ls w', links_of now u w = Some (v, ls, w') /\ ls <> [] /\ (name, content) ∈ renderSubFiles v ls lang.

(** A user whose files are pushed. *)
Definition subscribed (now : Time) (u : User) : bool :=
  (User_SubscriptionToken u != "") && negb (inactiveStatus (ComputeStatus now u)).

Context (e : PushEnv).

Lemma PushSubStatic_files name content d ok d' : PushSubStatic e name content d = (ok, d') ->
  (forall n c, d' !! n = Some c -> d !! n = Some c \/ (n = name /\ c = content)) /\
  (forall n, n <> name -> d' !! n = d !! n) /\
  (ok = true -> d' = <[name := content]> d).
Proof.
  unfold PushSubStatic. destruct (unsafeName name); [by intros [= <- <-]; split_and!; [by left| |]|].
  assert (forall n c, <[name := content]> d !! n = Some c -> d !! n = Some c \/ (n = name /\ c = content)) as Hi.
  { intros n c. rewrite lookup_insert_Some. intros [[-> ->]|[_ H]]; [by right|by left]. }
  assert (forall n, n <> name -> <[name := content]> d !! n = d !! n) as Hne by (intros n Hn; by rewrite lookup_insert_ne).
  destruct (pe_upload e name) as [|[]]; intros [= <- <-]; split_and!; try done; intros; by left.
Qed.

Lemma pushFiles_files fs : forall d r d', pushFiles e fs d = (r, d') ->
  (forall n c, d' !! n = Some c -> d !! n = Some c \/ (n, c) ∈ fs) /\
  (forall n, n ∉ fs.*1 -> d' !! n = d !! n) /\
  (r = None -> NoDup (fs.*1) -> forall n c, (n, c) ∈ fs -> d' !! n = Some c).
Proof.
  induction fs as [|[name content] fs IH]; intros d r d'; cbn [pushFiles].
  - intros [= <- <-]. split_and!; [by left|done|]. intros _ _ n c Hc. by apply not_elem_of_nil in Hc.
  - destruct (PushSubStatic e name content d) as [ok d1] eqn:E1. apply PushSubStatic_files in E1 as (H1 & Hn & H2). destruct ok.
    + intros H. destruct (IH _ _ _ H) as (H3 & H4 & H5). split_and!.
      * intros n c Hc. destruct (H3 n c Hc) as [Hd|Hf]; [|right; by right]. apply H1 in Hd as [Hd|[-> ->]]; [by left|right; by left].
      * intros n [Hne Hns]%not_elem_of_cons. rewrite H4 by done. by apply Hn.
      * intros Hr [Hx Hnd]%NoDup_cons n c [[= -> ->]|Hc]%elem_of_cons; [|by apply H5].
        rewrite H4 by done. rewrite H2 by done. by rewrite lookup_insert_eq.
    + intros [= <- <-]. split_and!; [|intros n [Hne _]%not_elem_of_cons; by apply Hn|done].
      intros n c Hc. destruct (H1 n c Hc) as [Hd|[-> ->]]; [by left|right; by left].
Qed.

(** Nobody else has files. *)
Lemma pushUsers_only now lang users : forall n w d r w' d', pushUsers g s ss obfs cg draw otherText e now lang users n w d = Some (r, w', d') ->
  forall name c, d' !! name = Some c -> d !! name = Some c \/ exists u, u ∈ users /\ subscribed now u = true /\ pushedFile now lang u name c.
Proof.
  induction users as [|u users IH]; intros n w d r w' d'; cbn [pushUsers]; [intros [= <- <- <-]; by left|].
  assert (forall name c, (exists v, v ∈ users /\ subscribed now v = true /\ pushedFile now lang v name c) ->
    exists v, v ∈ u :: users /\ subscribed now v = true /\ pushedFile now lang v name c) as Hlater.
  { intros name c (v & H1 & H2). exists v. split; [by right|done]. }
  destruct (_ || _) eqn:Es.
  { intros H name c Hc. destruct (IH _ _ _ _ _ _ H name c Hc); [by left|right; by apply Hlater]. }
  destruct (links_of now u w) as [[[v ls] w1]|] eqn:El; [|done]. destruct (Nat.eqb_spec (length ls) 0) as [E0|E0].
  { intros H name c Hc. destruct (IH _ _ _ _ _ _ H name c Hc); [by left|right; by apply Hlater]. }
  assert (subscribed now u = true) as Hu by (unfold subscribed; rewrite <- negb_orb; by rewrite Es).
  destruct (pushFiles e _ d) as [[bad|] d1] eqn:Ef; apply pushFiles_files in Ef as [Hf _].
  - intros [= <- <- <-] name c Hc. destruct (Hf name c Hc) as [Hd|Hin]; [by left|]. right. exists u. split; [by left|]. split; [done|].
    rewrite pe_order_perm in Hin. exists w, v, ls, w1. split_and!; [done| |done]. by intros ->.
  - intros H name c Hc. destruct (IH _ _ _ _ _ _ H name c Hc) as [Hd|Hl]; [|right; by apply Hlater].
    destruct (Hf name c Hd) as [Hd'|Hin]; [by left|]. right. exists u. split; [by left|]. split; [done|].
    rewrite pe_order_perm in Hin. exists w, v, ls, w1. split_and!; [done| |done]. by intros ->.
Qed.

(** The names of the files of one user: his token and a suffix. *)
Definition subSuffixes : list string := [".raw"; ".b64"; ".clash.yaml"; ".vpn"; ".html"].

Lemma renderSubFiles_suffixes v ls lang : exists sufs, sufs `sublist_of` subSuffixes /\
  (renderSubFiles v ls lang).*1 = map (fun suf => User_SubscriptionToken v +:+ suf) sufs.
Proof.
  unfold renderSubFiles. cbv zeta. destruct (_ == ""), (Nat.eqb _ 0).
  - exists [".raw"; ".b64"; ".html"]. split; [by repeat constructor|done].
  - exists [".raw"; ".b64"; ".vpn"; ".html"]. split; [by repeat constructor|done].
  - exists [".raw"; ".b64"; ".clash.yaml"; ".html"]. split; [by repeat constructor|done].
  - exists subSuffixes. split; [done|done].
Qed.

Lemma renderSubFiles_name v ls lang n c : (n, c) ∈ renderSubFiles v ls lang -> exists suf, suf ∈ subSuffixes /\ n = User_SubscriptionToken v +:+ suf.
Proof.
  intros H. destruct (renderSubFiles_suffixes v ls lang) as (sufs & Hs & Hn).
  assert (n ∈ (renderSubFiles v ls lang).*1) as Hin by (apply list_elem_of_fmap; by exists (n, c)).
  rewrite Hn in Hin. apply list_elem_of_fmap in Hin as (suf & -> & Hsuf). exists suf. split; [|done].
  by eapply elem_of_sublist.
Qed.

Lemma renderSubFiles_NoDup v ls lang : NoDup ((renderSubFiles v ls lang).*1).
Proof.
  destruct (renderSubFiles_suffixes v ls lang) as (sufs & Hs & ->). apply NoDup_fmap_2; [intros a b; apply append_inj_l|].
  eapply sublist_NoDup; [|done]. apply (bool_decide_unpack _). by vm_compute.
Qed.

Lemma suffix_cut t suf : contains_byte "." t = false -> suf ∈ subSuffixes -> option_map fst (cut_at "."%char (t +:+ suf)) = Some t.
Proof.
  intros Ht Hs. unfold subSuffixes in Hs. repeat (apply elem_of_cons in Hs as [->|Hs]; [by rewrite cut_at_app|]). by apply not_elem_of_nil in Hs.
Qed.

Lemma files_disjoint u v ls ls' lang n c c' : contains_byte "." (User_SubscriptionToken u) = false -> contains_byte "." (User_SubscriptionToken v) = false ->
  (n, c) ∈ renderSubFiles u ls lang -> (n, c') ∈ renderSubFiles v ls' lang -> User_SubscriptionToken u = User_SubscriptionToken v.
Proof.
  intros Hu Hv H1 H2. apply renderSubFiles_name in H1 as (a & Ha & ->). apply renderSubFiles_name in H2 as (b & Hb & E).
  pose proof (suffix_cut _ a Hu Ha) as C1. pose proof (suffix_cut _ b Hv Hb) as C2. congruence.
Qed.

(** The users whose files are pushed have tokens of their own, without a dot. *)
Definition plainTokens (now : Time) (users : list User) : Prop :=
  Forall (fun u => contains_byte "." (User_SubscriptionToken u) = false) users /\
  NoDup (map User_SubscriptionToken (List.filter (subscribed now) users)).

Lemma pushUsers_keeps now lang users : forall n w d r w' d' v ls name c,
  pushUsers g s ss obfs cg draw otherText e now lang users n w d = Some (r, w', d') ->
  Forall (fun u => contains_byte "." (User_SubscriptionToken u) = false) users ->
  contains_byte "." (User_SubscriptionToken v) = false -> User_SubscriptionToken v ∉ map User_SubscriptionToken (List.filter (subscribed now) users) ->
  (name, c) ∈ renderSubFiles v ls lang -> d !! name = Some c -> d' !! name = Some c.
Proof.
  induction users as [|u users IH]; intros n w d r w' d' v ls name c; cbn [pushUsers]; [by intros [= <- <- <-]|].
  intros H Hd Hv Hnot Hin Hc. revert H. apply Forall_cons in Hd as [Hu Hd]. cbn [List.filter] in Hnot.
  destruct (_ || _) eqn:Es.
  { assert (subscribed now u = false) as E by (unfold subscribed; rewrite <- negb_orb; by rewrite Es). rewrite E in Hnot. intros H. by eapply IH. }
  assert (subscribed now u = true) as E by (unfold subscribed; rewrite <- negb_orb; by rewrite Es). rewrite E in Hnot.
  cbn [map] in Hnot. apply not_elem_of_cons in Hnot as [Hne Hnot].
  destruct (links_of now u w) as [[[u' ls'] w1]|] eqn:El; [|done]. destruct (Nat.eqb _ 0); [intros H; by eapply IH|].
  apply userLinks_sub in El as [Ht _].
  assert (name ∉ (pe_order e (renderSubFiles u' ls' lang)).*1) as Hfresh.
  { intros Hn. apply list_elem_of_fmap in Hn as ([n' c'] & -> & Hn). rewrite pe_order_perm in Hn. apply Hne. rewrite <- Ht.
    by eapply (files_disjoint v u'); [done|by rewrite Ht| |]. }
  destruct (pushFiles e _ d) as [[bad|] d1] eqn:Ef; apply pushFiles_files in Ef as (_ & Hk & _).
  - intros [= <- <- <-]. by rewrite Hk.
  - intros H. eapply IH; [exact H|done|done|done|done|]. by rewrite Hk.
Qed.

(** Every subscribed user has his files. *)
Lemma pushUsers_all now lang users : forall n w d m w' d', pushUsers g s ss obfs cg draw otherText e now lang users n w d = Some (inl m, w', d') ->
  plainTokens now users -> forall u, u ∈ users -> subscribed now u = true ->
  exists wi v ls wo, links_of now u wi = Some (v, ls, wo) /\ (ls <> [] -> forall name c, (name, c) ∈ renderSubFiles v ls lang -> d' !! name = Some c).
Proof.
  induction users as [|u users IH]; intros n w d m w' d'; cbn [pushUsers]; [by intros _ _ u ?%not_elem_of_nil|].
  intros H [[Hu Hd]%Forall_cons Hnd] x Hx Hs. cbn [List.filter] in Hnd.
  destruct (_ || _) eqn:Es.
  { assert (subscribed now u = false) as E by (unfold subscribed; rewrite <- negb_orb; by rewrite Es). rewrite E in Hnd.
    apply elem_of_cons in Hx as [->|Hx]; [congruence|]. by eapply IH. }
  assert (subscribed now u = true) as E by (unfold subscribed; rewrite <- negb_orb; by rewrite Es). rewrite E in Hnd.
  cbn [map] in Hnd. apply NoDup_cons in Hnd as [Hne Hnd]. revert H.
  destruct (links_of now u w) as [[[u' ls'] w1]|] eqn:El; [|done]. destruct (Nat.eqb_spec (length ls') 0) as [E0|E0].
  { intros H. apply elem_of_cons in Hx as [->|Hx]; [|by eapply IH]. exists w, u', ls', w1. split; [done|]. by destruct ls'. }
  destruct (pushFiles e _ d) as [[bad|] d1] eqn:Ef; [done|]. intros H. apply elem_of_cons in Hx as [->|Hx]; [|by eapply IH].
  exists w, u', ls', w1. split; [done|]. intros _ name c Hin. apply pushFiles_files in Ef as (_ & _ & Hf).
  pose proof (userLinks_sub _ _ _ _ _ _ El) as [Ht _].
  eapply pushUsers_keeps; [exact H|done| |by rewrite Ht|exact Hin|]; [by rewrite Ht|].
  apply Hf; [done| |by rewrite pe_order_perm]. rewrite (fmap_Permutation fst _ _ (pe_order_perm e _)). apply renderSubFiles_NoDup.
Qed.
End files.

(** ** Lemmas: the reply *)

Lemma Join_empty sep l : Forall (fun x => x <> "") l -> (Join sep l == "") = Nat.eqb (length l) 0.
Proof.
  intros H. destruct H as [|x l Hx Hl]; [done|]. cbn [length Nat.eqb]. apply bool_decide_eq_false_2. destruct l as [|y l]; [done|].
  cbn [Join]. destruct x; done.
Qed.

Lemma vpnLinksFrom_ne `{zl : !Zlib} ls : Forall (fun x => x <> "") (vpnLinksFrom ls).
Proof.
  unfold vpnLinksFrom. apply Forall_forall. intros x Hx. apply list_elem_of_omap in Hx as (l & _ & Hx).
  destruct (IsAWGConf l); [|done]. unfold EncodeConf in Hx. cbv zeta in Hx. repeat case_match; try done. by injection Hx as <-.
Qed.

Lemma buildClashYAML_ne name ls : buildClashYAML name ls <> "".
Proof. unfold buildClashYAML. cbv zeta. by destruct (clashLinks _ _ _). Qed.

Lemma GetUserBySubscriptionToken_token token w u : GetUserBySubscriptionToken token w = Ok u -> token <> "" /\ User_SubscriptionToken u = token.
Proof.
  unfold GetUserBySubscriptionToken. destruct (bool_decide_reflect (token = "")) as [E|E]; [done|]. destruct (readAny w) as [sf|]; [|done]. cbn.
  destruct (List.find _ _) as [u'|] eqn:Ef; [|done]. intros [= <-]. apply List.find_some in Ef as [_ Ef%bool_decide_eq_true]. done.
Qed.

(** The file of a name. *)
Definition fileNamed (name : string) (fs : list (string * Body)) : option Body := option_map snd (List.find (fun f => fst f == name) fs).

(** The formats a node serves as files, and the suffixes of the files. *)
Definition staticFormats : list (string * string) :=
  [("raw", ".raw"); ("base64", ".b64"); ("clash", ".clash.yaml"); ("vpn", ".vpn"); ("html", ".html")].

Lemma append_eqb (t a b : string) : ((t +:+ a) == (t +:+ b)) = (a == b).
Proof. apply bool_decide_ext. split; [apply append_inj_l|by intros ->]. Qed.

Section reply.
Context `{zl : !Zlib} (g : CPSGen) (s : PresetState) (ss obfs : string) (cg : CredGen) (draw : string -> nat -> CPSGen) (otherText : URI -> string).
Abbreviation links_of := (userLinks g s ss obfs cg draw otherText).

Lemma fileNamed_body v ls lang format suffix : (format, suffix) ∈ staticFormats ->
  fileNamed (User_SubscriptionToken v +:+ suffix) (renderSubFiles v ls lang) = bodyOf lang v ls format.
Proof.
  intros H. unfold fileNamed, renderSubFiles, bodyOf. cbv zeta. rewrite (Join_empty _ _ (vpnLinksFrom_ne ls)).
  rewrite (bool_decide_eq_false_2 _ (buildClashYAML_ne (User_Name v) ls)).
  unfold staticFormats in H. repeat (apply elem_of_cons in H as [[= -> ->]|H]; [|]); [..|by apply not_elem_of_nil in H].
  all: decide_literals; destruct (Nat.eqb _ 0); cbn [app List.find fst]; rewrite ?append_eqb; decide_literals; reflexivity.
Qed.
End reply.

Section endpoint.
Context `{zl : !Zlib} (g : CPSGen) (s : PresetState) (ss obfs : string) (cg : CredGen) (draw : string -> nat -> CPSGen) (otherText : URI -> string).
Abbreviation links_of := (userLinks g s ss obfs cg draw otherText).
Abbreviation endpoint := (handleSubscription g s ss obfs cg draw otherText).

Lemma active_unstamped now u : ComputeStatus now u = "active" -> (User_ExpireStrategy u == "start_on_first_use") && IsZero (User_FirstUseAt u) = false.
Proof. unfold ComputeStatus. repeat case_match; done. Qed.

(** A node serves what the panel serves: for an active user and each of the
    formats raw, base64, clash, vpn and html, the reply of the endpoint is the
    file that [renderSubFiles] makes from the same links, and it is the page of
    an unknown token exactly if there is no such file.  The page is in the
    language of the panel. *)
Theorem subscription_static_agrees now token u w v ls wo fresh accept ua query format suffix :
  GetUserBySubscriptionToken token w = Ok u -> ComputeStatus now u = "active" ->
  links_of now u w = Some (v, ls, wo) -> ls <> [] ->
  (format, suffix) ∈ staticFormats -> ToLower (TrimSpace query) = format ->
  endpoint fresh now token query accept ua w =
    Some (match fileNamed (token +:+ suffix) (renderSubFiles v ls (panelLanguage wo)) with
          | Some body => Served (setSubInfoHeaders v) body
          | None => NotFound
          end, wo).
Proof.
  intros Hg Ha Hl Hls Hf Hq. destruct (GetUserBySubscriptionToken_token _ _ _ Hg) as [Ht Hu]. unfold handleSubscription.
  rewrite (bool_decide_eq_false_2 _ Ht), Hg, Ha. assert (inactiveStatus "active" = false) as -> by by vm_compute.
  rewrite (bool_decide_eq_false_2 (User_SubscriptionToken u = "")) by by rewrite Hu. rewrite active_unstamped with now u by done.
  rewrite Hl. destruct ls as [|l ls]; [done|]. cbn [length Nat.eqb]. cbv zeta. rewrite Hq.
  destruct (userLinks_sub _ _ _ _ _ _ _ _ _ _ _ _ _ Hl) as [Hv _].
  rewrite <- Hu, <- Hv, (fileNamed_body v (l :: ls) _ format suffix Hf).
  rewrite (bool_decide_eq_false_2 (format = "")); [done|].
  intros ->. unfold staticFormats in Hf. repeat (apply elem_of_cons in Hf as [?|Hf]; [done|]). by apply not_elem_of_nil in Hf.
Qed.

(** C37: a push of the subscriptions revokes and grants: after a successful
    [PushNodeSubscriptions] the directory of the node holds files of subscribed
    users only - of users with a token who are neither disabled nor expired - next to
    those of the old files that "rm -f" did not remove, and if the tokens are
    distinct and have no dot, every subscribed user with a link has all of his
    files.  Where rm removes what the glob names and there are no hidden files,
    nothing else is in the directory. *)
Theorem subscription_push_exact e now nodeID w d n w' d' us :
  PushNodeSubscriptions g s ss obfs cg draw otherText e now nodeID w d = Some (SubPushed n, w', d') -> ListUsers w = Ok us ->
  (forall name c, d' !! name = Some c -> (d !! name = Some c /\ staysBehind e name = true) \/
     exists u, u ∈ us /\ subscribed now u = true /\ pushedFile g s ss obfs cg draw otherText now (panelLanguage w) u name c) /\
  ((forall name, is_Some (d !! name) -> staysBehind e name = false) -> forall name c, d' !! name = Some c ->
     exists u, u ∈ us /\ subscribed now u = true /\ pushedFile g s ss obfs cg draw otherText now (panelLanguage w) u name c) /\
  (plainTokens now us -> forall u, u ∈ us -> subscribed now u = true ->
     exists wi v ls wo, links_of now u wi = Some (v, ls, wo) /\
       (ls <> [] -> forall name c, (name, c) ∈ renderSubFiles v ls (panelLanguage w) -> d' !! name = Some c)).
Proof.
  unfold PushNodeSubscriptions. intros H Hus. revert H. destruct (GetNodeInfo nodeID w); [|done].
  destruct (negb (UtilityInstalled _ _)); [done|]. destruct (GetHost nodeID w); [|done]. destruct (negb (pe_connect e)); [done|].
  unfold ClearSubStatics. destruct (pe_clear e) as [|[]]; [|done..]. rewrite Hus. cbv zeta. set (d0 := filter _ d).
  destruct (pushUsers _ _ _ _ _ _ _ e now (panelLanguage w) us 0 w d0) as [[[[m|bad] w1] d1]|] eqn:Ep; [|done..].
  intros [= <- <- <-].
  assert (forall name c, d1 !! name = Some c -> (d !! name = Some c /\ staysBehind e name = true) \/
    exists u, u ∈ us /\ subscribed now u = true /\ pushedFile g s ss obfs cg draw otherText now (panelLanguage w) u name c) as Hall.
  { intros name c Hc. destruct (pushUsers_only _ _ _ _ _ _ _ _ _ _ _ _ _ _ _ _ _ Ep name c Hc) as [Hd|Hx]; [left|by right].
    by apply map_lookup_filter_Some in Hd. }
  split; [exact Hall|]. split; [|by apply (pushUsers_all _ _ _ _ _ _ _ _ _ _ _ _ _ _ _ _ _ Ep)].
  intros Hn name c Hc. destruct (Hall name c Hc) as [[Hd Hs]|Hx]; [|exact Hx]. rewrite Hn in Hs by (by eexists). done.
Qed.
End endpoint.

(** ** Lemmas: VLESS links read back *)

(** Text that [url.QueryEscape] leaves alone. *)
Definition plainText (t : string) : bool := negb (anyByte (fun c => negb (unreserved c)) t).

Lemma plainText_cons c t : plainText (String c t) = unreserved c && plainText t.
Proof. unfold plainText. cbn [anyByte]. by rewrite negb_orb, negb_involutive. Qed.

Lemma QueryEscape_plain t : plainText t = true -> QueryEscape t = t.
Proof.
  induction t as [|c t IH]; [done|]. rewrite plainText_cons. intros [Hc Ht]%andb_true_iff. cbn [QueryEscape]. unfold escapeByte. rewrite Hc, IH by done. reflexivity.
Qed.

Lemma plainText_no c t : unreserved c = false -> plainText t = true -> contains_byte c t = false.
Proof.
  intros Hc. induction t as [|d t IH]; [done|]. rewrite plainText_cons. intros [Hd Ht]%andb_true_iff. cbn [contains_byte].
  apply orb_false_iff. split; [|by apply IH]. apply Ascii.eqb_neq. intros ->. congruence.
Qed.

Lemma Split_Join c ls : Forall (fun l => contains_byte c l = false) ls -> ls <> [] -> Split c (Join (String c "") ls) = ls.
Proof.
  induction 1 as [|l ls Hl Hls IH]; [done|]. intros _. destruct ls as [|l' ls]; [by apply Split_none|].
  change (Join (String c "") (l :: l' :: ls)) with (l +:+ String c (Join (String c "") (l' :: ls))). rewrite Split_app by done. by rewrite IH.
Qed.

Lemma Join_no c sep ls : contains_byte c sep = false -> Forall (fun l => contains_byte c l = false) ls -> contains_byte c (Join sep ls) = false.
Proof.
  intros Hs. induction 1 as [|l ls Hl Hls IH]; [done|]. destruct ls as [|l' ls]; [done|].
  change (Join sep (l :: l' :: ls)) with (l +:+ sep +:+ Join sep (l' :: ls)). by rewrite !contains_byte_app, Hl, Hs, IH.
Qed.

Lemma puts_of_list (q : gmap string string) ps : ps ≡ₚ map_to_list q -> fold_left (fun m p => <[fst p := snd p]> m) ps ∅ = q.
Proof.
  intros H. rewrite <- fold_left_rev_right. change (fold_right _ ∅ (rev ps)) with (list_to_map (M := gmap string string) (rev ps)).
  assert (rev ps ≡ₚ map_to_list q) as Hr by (rewrite <- H; symmetry; apply Permutation_rev).
  etransitivity; [apply (list_to_map_proper _ (map_to_list q)); [|exact Hr]|apply list_to_map_to_list].
  rewrite (fmap_Permutation fst _ _ Hr). apply NoDup_fst_map_to_list.
Qed.

(** What a link needs to be taken apart again. *)
Record plainLink (u : URI) (uuid : string) : Prop := {
  pl_user : uri_user u = [uuid];
  pl_uuid : plainText uuid = true;
  pl_host : plainText (uri_host u) = true;
  pl_port : - 2 ^ 63 <= uri_port u < 2 ^ 63;
  pl_query : map_Forall (fun k v => plainText k = true /\ plainText v = true) (uri_query u);
  pl_some : uri_query u <> ∅;
  pl_values : (queryGet "type" (uri_query u) == "xhttp") && (queryGet "security" (uri_query u) == "none") = false }.

Definition queryParts (q : gmap string string) : list (string * string) := merge_sort leEntry (map_to_list q).

Lemma queryParts_perm q : queryParts q ≡ₚ map_to_list q.
Proof. apply merge_sort_Permutation. Qed.

Lemma queryParts_plain q : map_Forall (fun k v => plainText k = true /\ plainText v = true) q ->
  Forall (fun p => plainText (fst p) = true /\ plainText (snd p) = true) (queryParts q).
Proof. intros H. rewrite Forall_forall. intros [k v] Hp. rewrite queryParts_perm, elem_of_map_to_list in Hp. by apply (H k v). Qed.

Lemma encodeQuery_plain q : map_Forall (fun k v => plainText k = true /\ plainText v = true) q ->
  encodeQuery q = Join "&" (map (fun p => fst p +:+ String equals (snd p)) (queryParts q)).
Proof.
  intros H. unfold encodeQuery. fold (queryParts q). f_equal. apply queryParts_plain in H. induction H as [|p ps [Hk Hv] _ IH]; [done|].
  cbn [map]. by rewrite IH, !QueryEscape_plain.
Qed.

Lemma parts_no c ps : unreserved c = false -> Ascii.eqb equals c = false -> Forall (fun p => plainText (fst p) = true /\ plainText (snd p) = true) ps ->
  Forall (fun l => contains_byte c l = false) (map (fun p => fst p +:+ String equals (snd p)) ps).
Proof.
  intros Hc He H. apply Forall_map. eapply Forall_impl; [exact H|]. intros [k v] [Hk Hv]. cbn [fst snd] in *. unfold compose. rewrite contains_byte_app. cbn [contains_byte fst snd].
  by rewrite He, !(plainText_no c).
Qed.

Lemma query_read q : map_Forall (fun k v => plainText k = true /\ plainText v = true) q -> q <> ∅ ->
  fold_left (fun q part => match cut_at equals part with Some (k, v) => <[k := v]> q | None => q end) (Split "&"%char (encodeQuery q)) ∅ = q.
Proof.
  intros H Hne. rewrite encodeQuery_plain by done. pose proof (queryParts_plain q H) as Hp.
  change "&" with (String "&"%char ""). rewrite Split_Join; [|by apply parts_no|].
  - etransitivity; [|by apply (puts_of_list q (queryParts q)), queryParts_perm]. generalize (∅ : gmap string string).
    induction Hp as [|[k v] ps [Hk Hv] _ IH]; intros m; [done|]. cbn [map fold_left fst snd].
    rewrite cut_at_app by by apply plainText_no. apply IH.
  - intros E. apply map_eq_nil in E. apply Hne. apply map_to_list_empty_iff. apply Permutation_nil. rewrite <- (queryParts_perm q). by rewrite E.
Qed.

Lemma vlessParts_text u uuid : plainLink u uuid -> vlessParts (vlessText u) = Some (mkVlessParts uuid (uri_host u) (uri_port u) (uri_query u)).
Proof.
  intros [Hu Hid Hh Hp Hq Hne Hv]. unfold vlessParts, vlessText. cbv zeta. rewrite Hv, Hu. cbn [Join]. rewrite TrimPrefix_app.
  set (head := uuid +:+ "@" +:+ uri_host u +:+ ":" +:+ itoa (uri_port u)).
  assert (forall t, uuid +:+ "@" +:+ uri_host u +:+ ":" +:+ itoa (uri_port u) +:+ "?" +:+ t = head +:+ String "?"%char t) as Hhead.
  { intros t. unfold head. rewrite <- !string_app_assoc. reflexivity. }
  rewrite Hhead.
  assert (forall c, unreserved c = false -> Ascii.eqb "@"%char c = false -> Ascii.eqb ":"%char c = false -> contains_byte c decimalChars = false -> contains_byte c head = false) as Hno.
  { intros c H1 H2 H3 H4. unfold head. rewrite !contains_byte_app, (plainText_no c uuid), (plainText_no c (uri_host u)), (itoa_no c) by done. cbn [contains_byte]. by rewrite H2, H3. }
  assert (contains_byte "#" (encodeQuery (uri_query u)) = false) as Hqn.
  { rewrite encodeQuery_plain by done. apply Join_no; [done|]. apply parts_no; [done|done|]. by apply queryParts_plain. }
  assert (forall frag, match cut_at "#"%char (head +:+ String "?"%char (encodeQuery (uri_query u) +:+ (if frag == "" then "" else "#" +:+ QueryEscape frag))) with
            Some (r, _) => r | None => head +:+ String "?"%char (encodeQuery (uri_query u) +:+ (if frag == "" then "" else "#" +:+ QueryEscape frag)) end
          = head +:+ String "?"%char (encodeQuery (uri_query u))) as Hfrag.
  { intros frag. destruct (frag == "").
    - rewrite string_app_nil. rewrite cut_at_None; [done|]. rewrite contains_byte_app, Hno by done. cbn [contains_byte]. by rewrite Hqn.
    - change (String "?"%char (encodeQuery (uri_query u) +:+ ("#" +:+ QueryEscape frag))) with (String "?"%char (encodeQuery (uri_query u)) +:+ String "#"%char (QueryEscape frag)).
      rewrite string_app_assoc, cut_at_app; [done|]. rewrite contains_byte_app, Hno by done. cbn [contains_byte]. by rewrite Hqn. }
  rewrite Hfrag. rewrite cut_at_app by by apply Hno. unfold head at 1.
  change (uuid +:+ "@" +:+ uri_host u +:+ ":" +:+ itoa (uri_port u)) with (uuid +:+ String "@"%char (uri_host u +:+ String ":"%char (itoa (uri_port u)))).
  rewrite cut_last_app.
  - rewrite cut_at_app by by apply plainText_no. rewrite Atoi_itoa by done. by rewrite query_read.
  - rewrite contains_byte_app, (plainText_no "@" (uri_host u)) by done. cbn [contains_byte]. by rewrite (itoa_no "@").
Qed.

(** ** Lemmas: the text of a link as a line *)

Lemma digit_upper d c : 0 <= d < 16 -> unreserved c = false -> Ascii.eqb (digitChar upperHex d) c = false.
Proof.
  intros Hd Hc. apply Ascii.eqb_neq. intros <-.
  assert (forallb (fun d => unreserved (digitChar upperHex d)) (map Z.of_nat (seq 0 16)) = true) as H by by vm_compute.
  rewrite forallb_forall in H. specialize (H d). rewrite H in Hc; [done|]. apply in_map_iff. exists (Z.to_nat d). split; [lia|apply in_seq; lia].
Qed.

Lemma QueryEscape_no c t : unreserved c = false -> c <> "%"%char -> c <> "+"%char -> contains_byte c (QueryEscape t) = false.
Proof.
  intros Hc H1 H2. induction t as [|d t IH]; [done|]. cbn [QueryEscape]. rewrite contains_byte_app, IH, orb_false_r. unfold escapeByte.
  pose proof (byteZ_range d) as Hr. destruct (unreserved d) eqn:E.
  - cbn [contains_byte]. rewrite orb_false_r. apply Ascii.eqb_neq. intros ->. congruence.
  - destruct (Ascii.eqb d " "); cbn [contains_byte]; rewrite ?orb_false_r.
    + apply Ascii.eqb_neq. by intros <-.
    + rewrite !digit_upper; [|apply Z.mod_pos_bound; lia|done|split; [apply Z.div_pos; lia|apply Z.div_lt_upper_bound; lia]|done].
      rewrite !orb_false_r. apply Ascii.eqb_neq. by intros <-.
Qed.

Lemma vlessText_no c u uuid : plainLink u uuid -> unreserved c = false -> contains_byte c "%+@:?&=#/" = false -> contains_byte c decimalChars = false ->
  contains_byte c (vlessText u) = false.
Proof.
  intros [Hu Hid Hh Hp Hq Hne Hv] Hc Hs Hd. unfold vlessText. cbv zeta. rewrite Hv, Hu. cbn [Join].
  cbn [contains_byte] in Hs. rewrite !orb_false_iff in Hs. destruct Hs as (S1 & S2 & S3 & S4 & S5 & S6 & S7 & S8 & S9 & _).
  apply Ascii.eqb_neq in S1 as N1, S2 as N2.
  assert (contains_byte c "vless://" = false) as Hscheme.
  { change "vless://" with ("vless" +:+ "://"). rewrite contains_byte_app, (plainText_no c "vless") by done. cbn [contains_byte]. by rewrite S4, S9. }
  assert (contains_byte c (encodeQuery (uri_query u)) = false) as Hqn.
  { rewrite encodeQuery_plain by done. apply Join_no; [cbn [contains_byte]; by rewrite S6|]. apply parts_no; [done|done|]. by apply queryParts_plain. }
  rewrite !contains_byte_app, Hscheme, (plainText_no c uuid), (plainText_no c (uri_host u)), (itoa_no c), Hqn by done.
  cbn [contains_byte]. rewrite S3, S4, S5. cbn [orb]. destruct (uri_fragment u == ""); [done|].
  rewrite contains_byte_app. cbn [contains_byte]. rewrite S8. cbn [orb]. apply QueryEscape_no; [done|by intros ->|by intros ->].
Qed.

Lemma noSpace_bytes t : (forall c, is_space c = true -> contains_byte c t = false) -> noSpace t = true.
Proof.
  induction t as [|d t IH]; intros H; [done|]. cbn [noSpace]. apply andb_true_iff. split.
  - apply negb_true_iff. destruct (is_space d) eqn:E; [|done]. specialize (H d E). cbn [contains_byte] in H. by rewrite Ascii.eqb_refl in H.
  - apply IH. intros c Hc. specialize (H c Hc). cbn [contains_byte] in H. by apply orb_false_iff in H as [_ H].
Qed.

Lemma vlessText_line u uuid : plainLink u uuid -> TrimSpace (vlessText u) = vlessText u.
Proof.
  intros H. apply noSpace_solid, noSpace_bytes. intros c Hc. apply (vlessText_no c u uuid H);
    destruct c as [[] [] [] [] [] [] [] []]; try discriminate Hc; reflexivity.
Qed.

Lemma Contains_bracket t sub : contains_byte "[" t = false -> Contains t (String "[" sub) = false.
Proof.
  induction t as [|c t IH]; [done|]. cbn [contains_byte]. intros [Hc Ht]%orb_false_iff. cbn [Contains]. rewrite IH by done. rewrite orb_false_r.
  unfold HasPrefix. cbn [String.prefix]. destruct (ascii_dec "[" c) as [<-|]; [by rewrite Ascii.eqb_refl in Hc|done].
Qed.

Lemma vlessText_not_file u uuid : plainLink u uuid -> IsAWGConf (vlessText u) = false.
Proof. intros H. unfold IsAWGConf. rewrite Contains_bracket; [done|]. by apply (vlessText_no _ _ _ H). Qed.

Lemma vlessText_prefix u : HasPrefix (vlessText u) "vless://" = true.
Proof. apply HasPrefix_app. Qed.

(** A VLESS link has its outbound in the document. *)
Lemma singboxLinks_vless u uuid name links : plainLink u uuid -> vlessText u ∈ links -> forall i,
  exists tag v, (tag, SubVless v) ∈ singboxLinks name i links /\ singboxVLESSOutbound tag (vlessText u) = Some v.
Proof.
  intros Hp. induction links as [|l links IH]; intros Hin i; [by apply not_elem_of_nil in Hin|]. cbn [singboxLinks]. cbv zeta.
  apply elem_of_cons in Hin as [<-|Hin].
  - rewrite (vlessText_line u uuid Hp), (vlessText_not_file u uuid Hp), vlessText_prefix. rewrite bool_decide_eq_false_2 by done.
    unfold singboxVLESSOutbound. rewrite (vlessParts_text u uuid Hp). eexists _, _. split; [by left|done].
  - destruct (IH Hin (i + 1)) as (tag & v & H1 & H2). exists tag, v. split; [|done]. repeat case_match; try (by right); done.
Qed.

Lemma singbox_document u links tag o : (tag, o) ∈ singboxLinks (yamlSafe (User_Name u)) 0 links ->
  exists cfg, buildUserSingboxJSON u links = Some cfg /\ o ∈ sc_Outbounds cfg.
Proof.
  intros H. unfold buildUserSingboxJSON. cbv zeta. assert (o ∈ map snd (singboxLinks (yamlSafe (User_Name u)) 0 links)) as Ho by (apply list_elem_of_fmap; by exists (tag, o)).
  destruct (singboxLinks _ _ _) as [|e es]; [by apply not_elem_of_nil in H|]. cbn [map fst]. eexists. split; [reflexivity|]. cbn [sc_Outbounds].
  apply elem_of_app. by left.
Qed.

(** What a VLESS outbound over REALITY needs to pass its listener. *)
Section passes.
Context {CU : Curve}.

Definition passes (host : string) (v : ClientVless) (i : VLESSInbound) : Prop :=
  cv_Server v = host /\ cv_Port v = vi_ListenPort i /\ (exists x, x ∈ vi_Users i /\ cv_UUID v = vu_UUID x /\ cv_Flow v = vu_Flow x) /\
  match cv_TLS v, vi_TLS i with
  | Some (sni, _, r), Some tls =>
      sni = it_ServerName tls /\
      match it_Reality tls with
      | Some ir => or_ShortID r ∈ ir_ShortID ir /\ realityPublic (ir_PrivateKey ir) = Some (or_PublicKey r)
      | None => False
      end
  | _, _ => False
  end.
End passes.

Section singbox.
Context {CU : Curve} (g : RoleGen) (cg : CPSGen) (s : PresetState) (ss obfs : string) (node : NodeInfo) (otherText : URI -> string).
Context (users : list User) (u : User) (ib : NodeInbound) (index : nat) (tag : string).
Hypothesis default_preset : exists d, GetDefaultPreset s = Some d /\ linkServerName d <> "".
Hypothesis user_listed : u ∈ users.
Hypothesis user_active : User_Active u = true.
Hypothesis protocol : NodeInbound_Protocol ib = "vless-reality".
Hypothesis server_name : NodeInbound_ServerName ib <> "".
Hypothesis direct : CaddyFrontedHosts node = None.
Hypothesis keys_match : realityPublic (NodeInbound_ServerPrivKey ib) = Some (NodeInbound_ServerPubKey ib).

(** The values of the link need no escaping. *)
Hypothesis plain_values : Forall (fun t => plainText t = true)
  [User_VLESSUUID u; NodeInbound_UUID ib; NodeInbound_ServerPubKey ib; NodeInbound_ShortID ib; NodeInbound_ServerName ib; hostBeforeColon (Host_Addr (NodeInfo_Host node))].
Hypothesis port_range : - 2 ^ 63 <= NodeInbound_Port ib < 2 ^ 63.

Definition linkUUID : string := if User_VLESSUUID u != "" then User_VLESSUUID u else NodeInbound_UUID ib.

(** The query of the link. *)
Definition realityQuery (sni : string) : gmap string string :=
  <["sni" := NodeInbound_ServerName ib]>
    {["flow" := visionFlow; "fp" := "chrome"; "pbk" := NodeInbound_ServerPubKey ib; "security" := "reality"; "sid" := NodeInbound_ShortID ib;
      "sni" := sni; "type" := "tcp"]}.

Lemma reality_link : exists sni, buildStandaloneLinkFor cg s ss obfs node index ib (Some u) =
  Some (LinkURI (mkURI "vless" [linkUUID] (hostBeforeColon (Host_Addr (NodeInfo_Host node))) (NodeInbound_Port ib) (realityQuery sni)
                   (orElse (User_Name u) "vless-reality"))).
Proof using default_preset protocol server_name direct.
  destruct default_preset as (d & Hd & Hn). exists (linkServerName d). unfold buildStandaloneLinkFor, buildStandaloneLink, buildClientURI. rewrite direct, protocol, Hd.
  cbv zeta. decide_literals. cbn [option_map]. rewrite applySNI_parts; [|done|done]. rewrite andb_true_r. reflexivity.
Qed.

Lemma reality_plainLink sni : plainLink (mkURI "vless" [linkUUID] (hostBeforeColon (Host_Addr (NodeInfo_Host node))) (NodeInbound_Port ib) (realityQuery sni)
                   (orElse (User_Name u) "vless-reality")) linkUUID.
Proof using plain_values port_range.
  rewrite !Forall_cons in plain_values. destruct plain_values as (P1 & P2 & P3 & P4 & P5 & P6 & _). split; cbn [uri_user uri_host uri_port uri_query].
  - done.
  - unfold linkUUID. by case_match.
  - done.
  - done.
  - unfold realityQuery. rewrite <- (insert_delete_eq _ "sni"). apply map_Forall_insert_2; [done|].
    apply map_Forall_lookup_2. intros k v Hk. apply lookup_delete_Some in Hk as [Hne Hk].
    repeat (apply lookup_insert_Some in Hk as [[<- <-]|[? Hk]]; [done|]). by apply lookup_singleton_Some in Hk as [<- <-].
  - apply insert_non_empty.
  - reflexivity.
Qed.

(** The sing-box document of a subscription opens the listener: for a VLESS
    inbound over REALITY on a node without caddy, whatever other links the user
    has, the document made of his links has an outbound that names the node, the
    port, his credentials and flow, the server name, the public key and a short
    identifier of the listener that a deploy pushes. *)
Theorem singbox_vless_admitted links link who :
  buildStandaloneLinkFor cg s ss obfs node index ib (Some u) = Some link -> linkText otherText link ∈ links ->
  exists cfg v i, buildUserSingboxJSON who links = Some cfg /\ SubVless v ∈ sc_Outbounds cfg /\
    buildStandaloneInOut g s node None ib tag users index = Some [LVLESS i] /\
    passes (hostBeforeColon (Host_Addr (NodeInfo_Host node))) v i.
Proof using All.
  destruct reality_link as [sni ->]. intros [= <-] Hin. pose proof (reality_plainLink sni) as Hp.
  destruct (singboxLinks_vless _ _ (yamlSafe (User_Name who)) links Hp Hin 0) as (t & v & Ht & Hv).
  destruct (singbox_document who links t (SubVless v) Ht) as (cfg & Hc & Ho). exists cfg, v.
  destruct default_preset as (d & Hd & _). unfold buildStandaloneInOut, standalonePreset, standaloneListen. rewrite protocol, Hd. cbv zeta. decide_literals.
  eexists. split; [done|]. split; [done|]. split; [reflexivity|].
  unfold singboxVLESSOutbound in Hv. rewrite (vlessParts_text _ _ Hp) in Hv. cbn [vp_Query vp_UUID vp_Host vp_Port uri_query uri_host uri_port] in Hv.
  injection Hv as <-. unfold passes. cbn [cv_Server cv_Port vi_ListenPort vi_Users cv_UUID cv_Flow cv_TLS vi_TLS]. split; [done|]. split; [done|]. split.
  - pose proof (linkUUID_elem ib u users "user" user_listed user_active) as Hx. apply list_elem_of_fmap in Hx as (x & Hx1 & Hx2).
    exists x. split; [done|]. split; [exact Hx1|]. apply elem_of_cons in Hx2 as [->|Hx2]; [done|]. by rewrite (vlessUsers_flow _ _ _ Hx2).
  - change (get (realityQuery sni) "security") with "reality". decide_literals. cbn [it_ServerName it_Reality ir_ShortID ir_PrivateKey or_ShortID or_PublicKey].
    unfold standaloneServerName. rewrite (bool_decide_eq_false_2 _ server_name). split; [done|]. split; [by left|exact keys_match].
Qed.
End singbox.

(** ** Samples *)

Definition subscriber : User := linkUser <| User_SubscriptionToken := "tok" |>.
Definition subscriberInbound : NodeInbound := realityInbound <| NodeInbound_ForUsers := ["u1"] |>.
Definition subscriptionNode : NodeInfo :=
  (linkNode [subscriberInbound]) <| NodeInfo_Utilities := [mkUtilityState UtilitySub true "" 0 0 ""] |>.
Definition subscriptionWorld (us : list User) : World :=
  mkWorld (Some (Plain (newStoreFile <| sf_Users := us |> <| sf_NodeInfos := [subscriptionNode] |> <| sf_Hosts := [NodeInfo_Host subscriptionNode] |>)))
    None None None [] None.

Abbreviation sampleLinks := (@userLinks (sampleGen "x" true) samplePresets "" "" sampleCreds (fun _ _ => sampleGen "x" true) (fun _ => "")).
Abbreviation sampleEndpoint := (@handleSubscription storedZlib (sampleGen "x" true) samplePresets "" "" sampleCreds (fun _ _ => sampleGen "x" true) (fun _ => "")).
Definition goodEnv : PushEnv := mkPushEnv true (fun _ => false) Carried (fun _ => Carried) (fun l => l) (fun l => Permutation_refl l).
Abbreviation samplePush := (@PushNodeSubscriptions storedZlib (sampleGen "x" true) samplePresets "" "" sampleCreds (fun _ _ => sampleGen "x" true) (fun _ => "")).

Lemma sample_links : exists v ls wo, sampleLinks 10 subscriber (subscriptionWorld [subscriber]) = Some (v, ls, wo) /\ ls <> [] /\
  User_Name v = "Ann" /\ panelLanguage wo = "en".
Proof.
  destruct (sampleLinks 10 subscriber (subscriptionWorld [subscriber])) as [[[v ls] wo]|] eqn:E; [|by vm_compute in E].
  assert (match sampleLinks 10 subscriber (subscriptionWorld [subscriber]) with
          | Some (v, ls, wo) => ls <> [] /\ User_Name v = "Ann" /\ panelLanguage wo = "en" | None => False end) as H.
  { vm_compute. split; [discriminate|by split]. }
  rewrite E in H. by exists v, ls, wo.
Qed.

Lemma subscription_static_agrees_witness :
  exists v ls wo, sampleLinks 10 subscriber (subscriptionWorld [subscriber]) = Some (v, ls, wo) /\
    sampleEndpoint None 10 "tok" " Raw" "" "curl" (subscriptionWorld [subscriber]) =
      Some (match fileNamed ("tok" +:+ ".raw") (@renderSubFiles storedZlib v ls (panelLanguage wo)) with
            | Some body => Served (setSubInfoHeaders v) body
            | None => NotFound
            end, wo).
Proof.
  destruct sample_links as (v & ls & wo & H1 & H2 & _). exists v, ls, wo. split; [exact H1|].
  refine (@subscription_static_agrees storedZlib (sampleGen "x" true) samplePresets "" "" sampleCreds (fun _ _ => sampleGen "x" true) (fun _ => "")
    10 "tok" subscriber (subscriptionWorld [subscriber]) v ls wo None "" "curl" " Raw" "raw" ".raw" _ _ H1 H2 _ _).
  - vm_compute. reflexivity.
  - vm_compute. reflexivity.
  - by left.
  - vm_compute. reflexivity.
Defined.

Lemma subscription_push_exact_witness :
  exists w' d', samplePush goodEnv 10 "n1" (subscriptionWorld [subscriber]) {["gone.raw" := Text "old"]} = Some (SubPushed 1, w', d') /\
    (forall name c, d' !! name = Some c -> exists u, u ∈ [subscriber] /\ subscribed 10 u = true /\
       @pushedFile storedZlib (sampleGen "x" true) samplePresets "" "" sampleCreds (fun _ _ => sampleGen "x" true) (fun _ => "") 10 "en" u name c) /\
    exists wi v ls wo, sampleLinks 10 subscriber wi = Some (v, ls, wo) /\
      (ls <> [] -> forall name c, (name, c) ∈ @renderSubFiles storedZlib v ls "en" -> d' !! name = Some c).
Proof.
  destruct (samplePush goodEnv 10 "n1" (subscriptionWorld [subscriber]) {["gone.raw" := Text "old"]}) as [[[r w'] d']|] eqn:E; [|by vm_compute in E].
  assert (match samplePush goodEnv 10 "n1" (subscriptionWorld [subscriber]) {["gone.raw" := Text "old"]} with
          | Some (r, _, _) => r = SubPushed 1 | None => False end) as Hr by (vm_compute; reflexivity).
  rewrite E in Hr. subst r. exists w', d'. split; [reflexivity|].
  destruct (@subscription_push_exact storedZlib (sampleGen "x" true) samplePresets "" "" sampleCreds (fun _ _ => sampleGen "x" true) (fun _ => "")
    goodEnv 10 "n1" (subscriptionWorld [subscriber]) {["gone.raw" := Text "old"]} 1 w' d' [subscriber] E eq_refl) as (_ & H1 & H2).
  split.
  - apply H1. intros name [c Hc]. apply lookup_singleton_Some in Hc as [<- _]. reflexivity.
  - apply H2; [|by left|by vm_compute]. split; [by repeat constructor|]. vm_compute. apply NoDup_singleton.
Defined.

Lemma singbox_vless_admitted_witness :
  exists link cfg v i,
    buildStandaloneLinkFor (sampleGen "x" true) samplePresets "" "" (linkNode [realityInbound]) 0 realityInbound (Some linkUser) = Some link /\
    buildUserSingboxJSON linkUser ["# other"; linkText (fun _ => "") link] = Some cfg /\ SubVless v ∈ sc_Outbounds cfg /\
    @buildStandaloneInOut sampleCurve (sampleRoleGen "x") samplePresets (linkNode [realityInbound]) None realityInbound "t" [linkUser] 0 = Some [LVLESS i] /\
    @passes sampleCurve (hostBeforeColon (Host_Addr (NodeInfo_Host (linkNode [realityInbound])))) v i.
Proof.
  destruct (buildStandaloneLinkFor (sampleGen "x" true) samplePresets "" "" (linkNode [realityInbound]) 0 realityInbound (Some linkUser)) as [link|] eqn:E; [|by vm_compute in E].
  exists link.
  destruct (@singbox_vless_admitted sampleCurve (sampleRoleGen "x") (sampleGen "x" true) samplePresets "" "" (linkNode [realityInbound]) (fun _ => "") [linkUser] linkUser
    realityInbound 0 "t") with (links := ["# other"; linkText (fun _ => "") link]) (link := link) (who := linkUser) as (cfg & v & i & H1 & H2 & H3 & H4).
  - eexists. split; [vm_compute; reflexivity|]. vm_compute. discriminate.
  - by left.
  - reflexivity.
  - reflexivity.
  - vm_compute. discriminate.
  - vm_compute. reflexivity.
  - vm_compute. reflexivity.
  - vm_compute. by repeat constructor.
  - by vm_compute.
  - exact E.
  - right. by left.
  - exists cfg, v, i. split; [reflexivity|]. split; [exact H1|]. split; [exact H2|]. split; [exact H3|exact H4].
Defined.

(** ** Where the code parts from its comments *)

(** The token is never completed: a user that was found has the token asked for. *)
Lemma backfill_unreachable `{zl : !Zlib} g s ss obfs cg draw other fresh fresh' now token query accept ua w :
  handleSubscription g s ss obfs cg draw other fresh now token query accept ua w =
  handleSubscription g s ss obfs cg draw other fresh' now token query accept ua w.
Proof.
  unfold handleSubscription. destruct (token == ""); [done|]. destruct (GetUserBySubscriptionToken token w) as [u|] eqn:E; [|done].
  apply GetUserBySubscriptionToken_token in E as [H1 H2]. rewrite <- H2 in H1. by rewrite (bool_decide_eq_false_2 _ H1).
Qed.

(** A file without a usable endpoint is not left out: the document has null. *)
Lemma singbox_null_outbound :
  let conf := "[Interface]" +:+ newLines +:+ "PrivateKey = k" +:+ newLines +:+ "[Peer]" +:+ newLines +:+ "PublicKey = p" +:+ newLines +:+ "Endpoint = :1" in
  option_map (fun c => (sc_Outbounds c, sc_Final c)) (buildUserSingboxJSON linkUser [conf]) =
    Some ([SubNull; SubGroup (DirectOutbound "direct-out" "")], "Ann-1").
Proof. by vm_compute. Qed.

(** The first use of a user is recorded also when the reply is that there is no such page. *)
Definition newcomer : User := subscriber <| User_ID := "u2" |> <| User_ExpireStrategy := "start_on_first_use" |>.
Lemma stamped_without_links :
  match sampleEndpoint None 10 "tok" "" "" "" (subscriptionWorld [newcomer]) with
  | Some (NotFound, w) => match GetUser "u2" w with Ok u => User_FirstUseAt u = 10 | Err _ => False end
  | _ => False
  end.
Proof. by vm_compute. Qed.

(** The files of a node do not record the first use. *)
Definition heldSubscriber : User := subscriber <| User_ExpireStrategy := "start_on_first_use" |>.
Lemma static_fetch_unstamped :
  match samplePush goodEnv 10 "n1" (subscriptionWorld [heldSubscriber]) ∅ with
  | Some (SubPushed 1, w, d) => is_Some (d !! "tok.raw") /\ match GetUser "u1" w with Ok u => IsZero (User_FirstUseAt u) = true | Err _ => False end
  | _ => False
  end.
Proof. vm_compute. split; [by eexists|done]. Qed.

(** A file that rm cannot remove: the push succeeds, and the file of a revoked
    user is served on. *)
Definition stuckEnv : PushEnv := mkPushEnv true (fun name => name == "gone.raw") Carried (fun _ => Carried) (fun l => l) (fun l => Permutation_refl l).
Lemma revoked_file_stays :
  match samplePush stuckEnv 10 "n1" (subscriptionWorld [subscriber]) {["gone.raw" := Text "old"]} with
  | Some (r, _, d) => r = SubPushed 1 /\ d !! "gone.raw" = Some (Text "old")
  | None => False
  end.
Proof. vm_compute. auto. Qed.

(** A push that failed does not show as stale. *)
Definition lostEnv : PushEnv := mkPushEnv true (fun _ => false) Carried (fun _ => Failed false) (fun l => l) (fun l => Permutation_refl l).
Lemma failed_push_not_stale :
  match samplePush lostEnv 10 "n1" (subscriptionWorld [subscriber]) ∅ with
  | Some (SubUploadFailed _, w, _) => UtilityIsStale "n1" UtilitySub w = false
  | _ => False
  end.
Proof. by vm_compute. Qed.
