(* ===== verification/Pool.v ===== *)
(** * Pool: the pool of SSH connections

    internal/ssh/pool.go.  Deploys borrow connections from a pool that several
    goroutines and a background sweeper share.  The mutex protects the map of
    entries only for the length of each lookup or update; the checks of a
    cached connection, the dial and the closing of connections run outside it.
    A definition below is one such critical section, and [step] interleaves
    them.  An entry is a pointer: [p_heap] holds the entries, the map and the
    goroutines refer to them by index. *)

From S2P Require Import Prelude GoStrings Model.

(** ** Data *)

(** [defaultIdleTTL], in nanoseconds. *)
Definition defaultIdleTTL : Z := 5 * 60 * 10 ^ 9.

(** An [ports.SSHClient] the inner connector returned; a number names the connection. *)
Abbreviation Client := nat (only parsing).

(** [poolEntry]. *)
Record poolEntry := mkPoolEntry {
  poolEntry_client : Client;
  poolEntry_lastUsed : Time;
  poolEntry_knownFingerprint : string;
  poolEntry_resolvedKey : string;
  poolEntry_inUse : bool }.
#[export] Instance eta_poolEntry : Eta poolEntry := fun r =>
  mkPoolEntry (poolEntry_client r) (poolEntry_lastUsed r) (poolEntry_knownFingerprint r)
    (poolEntry_resolvedKey r) (poolEntry_inUse r).

(** The arguments of [Connect], with the key material [keyPath] resolved to. *)
Record Request := mkRequest {
  rq_addr : string;
  rq_user : string;
  rq_keyPath : string;
  rq_resolved : string }.

(** The state the goroutines share: the entries and the map of [Pool], the
    connections closed so far, and those taken out of the map by the sweeper or
    by [Close] and not closed yet.  [p_dialed] records what every connection was
    dialed with and the host key it saw; the program keeps no such record. *)
Record PoolState := mkPoolState {
  p_heap : list poolEntry;
  p_entries : gmap string nat;
  p_closed : gset nat;
  p_pending : list Client;
  p_dialed : gmap nat (Request * string) }.
#[export] Instance eta_PoolState : Eta PoolState := fun r =>
  mkPoolState (p_heap r) (p_entries r) (p_closed r) (p_pending r) (p_dialed r).

(** [NewPool]. *)
Definition NewPool : PoolState := mkPoolState [] ∅ ∅ [] ∅.

Definition bar : ascii := "|"%char.

(** [poolKey]. *)
Definition poolKey (addr user keyPath : string) : string :=
  addr +:+ String bar (user +:+ String bar keyPath).

Definition rq_key (q : Request) : string := poolKey (rq_addr q) (rq_user q) (rq_keyPath q).

(** [isPasswordKey]. *)
Definition isPasswordKey (keyPath : string) : bool :=
  (Z.of_nat (String.length "password:") <? Z.of_nat (String.length keyPath)) && HasPrefix keyPath "password:".

(** The first lines of [Connect]: the key material of a key path. *)
Definition resolveKeyPath (ResolveKey : string -> option string) (keyPath : string) : string :=
  if isPasswordKey keyPath then keyPath
  else match ResolveKey keyPath with Some data => data | None => keyPath end.

Definition mkConnect (ResolveKey : string -> option string) (addr user keyPath : string) : Request :=
  mkRequest addr user keyPath (resolveKeyPath ResolveKey keyPath).

(** What the borrow-time checks ask: the answer of [Ping] ([None]: the client
    is no [Pinger]) and the host key manager, if one is wired. *)
Record Checks := mkChecks {
  ck_ping : option bool;
  ck_hostKey : option (string -> option KnownHost) }.

(** [entryUsable]. *)
Definition entryUsable (e : poolEntry) (addr resolvedKey : string) (ck : Checks) : bool :=
  if match ck_ping ck with Some false => true | _ => false end then false
  else if (resolvedKey != "") && (poolEntry_resolvedKey e != "") && (resolvedKey != poolEntry_resolvedKey e)
  then false
  else match ck_hostKey ck with
       | Some GetKnownHost =>
           if poolEntry_knownFingerprint e != "" then
             match GetKnownHost addr with
             | Some kh =>
                 if KnownHost_Fingerprint kh != "" then
                   KnownHost_Fingerprint kh == poolEntry_knownFingerprint e
                 else true
             | None => true
             end
           else true
       | None => true
       end.

(** ** The critical sections *)

(** [Connect], the lookup. *)
Definition lookupEntry (k : string) (p : PoolState) : option nat := p_entries p !! k.

(** An entry marked in use, or idle, at time [now]. *)
Definition touch (e : nat) (inUse : bool) (now : Time) (p : PoolState) : PoolState :=
  p <| p_heap := alter (fun x => x <| poolEntry_inUse := inUse |> <| poolEntry_lastUsed := now |>) e (p_heap p) |>.

(** [Connect], a verified entry is borrowed. *)
Definition borrow (e : nat) (now : Time) (p : PoolState) : PoolState := touch e true now p.

(** [client.Close()]. *)
Definition closeConn (c : Client) (p : PoolState) : PoolState := p <| p_closed := {[c]} ∪ p_closed p |>.

(** [evict], its critical section. *)
Definition evictDelete (k : string) (e : nat) (p : PoolState) : PoolState :=
  if bool_decide (p_entries p !! k = Some e) then p <| p_entries := delete k (p_entries p) |> else p.

(** The client of an entry. *)
Definition clientOf (e : nat) (p : PoolState) : option Client := poolEntry_client <$> p_heap p !! e.

(** A successful dial: the connector returns a new connection and the observed
    fingerprint ([""] without a host key manager). *)
Definition dialed (q : Request) (c : Client) (fp : string) (p : PoolState) : PoolState :=
  p <| p_dialed := <[c := (q, fp)]> (p_dialed p) |>.

(** [Connect], the new entry. *)
Definition insertEntry (q : Request) (c : Client) (fp : string) (now : Time) (p : PoolState) : PoolState :=
  p <| p_heap := p_heap p ++ [mkPoolEntry c now fp (rq_resolved q) true] |>
    <| p_entries := <[rq_key q := length (p_heap p)]> (p_entries p) |>.

(** [release], its critical section; [false]: the caller closes the client. *)
Definition releaseLocked (k : string) (c : Client) (now : Time) (p : PoolState) : bool * PoolState :=
  match p_entries p !! k with
  | Some e => if bool_decide (clientOf e p = Some c) then (true, touch e false now p) else (false, p)
  | None => (false, p)
  end.

(** [sweepOnce], the test of an entry. *)
Definition expired (now : Time) (p : PoolState) (e : nat) : bool :=
  match p_heap p !! e with
  | Some x => negb (poolEntry_inUse x) && (defaultIdleTTL <? now - poolEntry_lastUsed x)
  | None => false
  end.

Definition clientsOf (es : gmap string nat) (p : PoolState) : list Client :=
  omap (fun e => clientOf e p) (map snd (map_to_list es)).

(** [sweepOnce], its critical section. *)
Definition sweepLocked (now : Time) (p : PoolState) : PoolState :=
  let swept := filter (fun ke => expired now p (snd ke) = true) (p_entries p) in
  let kept := filter (fun ke => expired now p (snd ke) <> true) (p_entries p) in
  p <| p_pending := p_pending p ++ clientsOf swept p |> <| p_entries := kept |>.

(** [Close], its critical section. *)
Definition closeLocked (p : PoolState) : PoolState :=
  p <| p_pending := p_pending p ++ clientsOf (p_entries p) p |> <| p_entries := ∅ |>.

(** The next client of [toClose] (or of the entries [Close] took) is closed. *)
Definition closePending (p : PoolState) : PoolState :=
  match p_pending p with
  | [] => p
  | c :: rest => closeConn c (p <| p_pending := rest |>)
  end.

(** ** Interleaving *)

(** Where a goroutine that uses the pool stands. *)
Inductive PC :=
| Verifying (q : Request) (e : nat)
| Borrowing (q : Request) (e : nat)
| Evicting (q : Request) (e : nat)
| EvictClosing (q : Request) (e : nat)
| Dialing (q : Request)
| Inserting (q : Request) (c : Client) (fp : string)
| Holding (q : Request) (c : Client)
| Orphan (c : Client).

Record Sys := mkSys { s_pool : PoolState; s_threads : gmap nat PC }.

Definition NewSys : Sys := mkSys NewPool ∅.

(** One atomic step of the program: of the goroutine [t], or of the sweeper and
    [Close].  A fresh connection is one the connector never returned before. *)
Inductive step : Sys -> Sys -> Prop :=
| StepHit t q e p th :
    th !! t = None -> lookupEntry (rq_key q) p = Some e ->
    step (mkSys p th) (mkSys p (<[t := Verifying q e]> th))
| StepMiss t q p th :
    th !! t = None -> lookupEntry (rq_key q) p = None ->
    step (mkSys p th) (mkSys p (<[t := Dialing q]> th))
| StepVerify t q e x ck p th :
    th !! t = Some (Verifying q e) -> p_heap p !! e = Some x ->
    step (mkSys p th)
      (mkSys p (<[t := if entryUsable x (rq_addr q) (rq_resolved q) ck then Borrowing q e else Evicting q e]> th))
| StepBorrow t q e c now p th :
    th !! t = Some (Borrowing q e) -> clientOf e p = Some c ->
    step (mkSys p th) (mkSys (borrow e now p) (<[t := Holding q c]> th))
| StepEvict t q e p th :
    th !! t = Some (Evicting q e) ->
    step (mkSys p th) (mkSys (evictDelete (rq_key q) e p) (<[t := EvictClosing q e]> th))
| StepEvictClose t q e c p th :
    th !! t = Some (EvictClosing q e) -> clientOf e p = Some c ->
    step (mkSys p th) (mkSys (closeConn c p) (<[t := Dialing q]> th))
| StepDialFails t q p th :
    th !! t = Some (Dialing q) ->
    step (mkSys p th) (mkSys p (delete t th))
| StepDial t q c fp p th :
    th !! t = Some (Dialing q) -> p_dialed p !! c = None ->
    step (mkSys p th) (mkSys (dialed q c fp p) (<[t := Inserting q c fp]> th))
| StepInsert t q c fp now p th :
    th !! t = Some (Inserting q c fp) ->
    step (mkSys p th) (mkSys (insertEntry q c fp now p) (<[t := Holding q c]> th))
| StepRelease t q c now p th :
    th !! t = Some (Holding q c) ->
    step (mkSys p th)
      (let r := releaseLocked (rq_key q) c now p in
       mkSys (snd r) (if fst r then delete t th else <[t := Orphan c]> th))
| StepOrphan t c p th :
    th !! t = Some (Orphan c) ->
    step (mkSys p th) (mkSys (closeConn c p) (delete t th))
| StepSweep now p th : step (mkSys p th) (mkSys (sweepLocked now p) th)
| StepShutdown p th : step (mkSys p th) (mkSys (closeLocked p) th)
| StepClosePending p th : step (mkSys p th) (mkSys (closePending p) th).

(** The states every interleaving can reach. *)
Definition reachable (s : Sys) : Prop := rtc step NewSys s.

(** ** One operation at a time *)

(** The dial and the insertion, after a miss or an eviction; [dial] is the
    connector's answer ([None]: its error). *)
Definition dialFresh (q : Request) (dial : option (Client * string)) (now : Time) (p : PoolState) : option Client * PoolState :=
  match dial with
  | None => (None, p)
  | Some (c, fp) => (Some c, insertEntry q c fp now (dialed q c fp p))
  end.

(** [Connect]. *)
Definition Connect (q : Request) (ck : Checks) (dial : option (Client * string)) (now : Time) (p : PoolState) : option Client * PoolState :=
  match lookupEntry (rq_key q) p with
  | None => dialFresh q dial now p
  | Some e =>
      match p_heap p !! e with
      | None => (None, p)
      | Some x =>
          if entryUsable x (rq_addr q) (rq_resolved q) ck then (Some (poolEntry_client x), borrow e now p)
          else dialFresh q dial now (closeConn (poolEntry_client x) (evictDelete (rq_key q) e p))
      end
  end.

(** [pooledClient.Close], that is [release]. *)
Definition Release (k : string) (c : Client) (now : Time) (p : PoolState) : PoolState :=
  let r := releaseLocked k c now p in if fst r then snd r else closeConn c (snd r).

(** Every pending connection is closed. *)
Definition closeAll (p : PoolState) : PoolState :=
  fold_left (fun p c => closeConn c p) (p_pending p) (p <| p_pending := [] |>).

(** [sweepOnce] and [Close]. *)
Definition sweepOnce (now : Time) (p : PoolState) : PoolState := closeAll (sweepLocked now p).
Definition Close (p : PoolState) : PoolState := closeAll (closeLocked p).

(** ** The invariant of the pool *)

Definition dialedFor (p : PoolState) (c : Client) : option Request := fst <$> p_dialed p !! c.
Definition inHeap (p : PoolState) (c : Client) : Prop := exists e, clientOf e p = Some c.
Definition inMap (p : PoolState) (c : Client) : Prop :=
  exists k e, p_entries p !! k = Some e /\ clientOf e p = Some c.

(** An entry of the map is open and was dialed for the key it is kept under. *)
Record PInv (p : PoolState) : Prop := {
  pi_inj : forall e e' c, clientOf e p = Some c -> clientOf e' p = Some c -> e = e';
  pi_heap : forall e x, p_heap p !! e = Some x ->
    exists q, p_dialed p !! poolEntry_client x = Some (q, poolEntry_knownFingerprint x) /\
              poolEntry_resolvedKey x = rq_resolved q;
  pi_map : forall k e, p_entries p !! k = Some e ->
    exists c q, clientOf e p = Some c /\ dialedFor p c = Some q /\ rq_key q = k /\
                c ∉ p_closed p /\ c ∉ p_pending p }.

(** The key material a connection was dialed with is the one of the request. *)
Definition sameMaterial (q q' : Request) : Prop :=
  rq_resolved q = "" \/ rq_resolved q' = "" \/ rq_resolved q = rq_resolved q'.

Definition servedBy (p : PoolState) (q : Request) (c : Client) : Prop :=
  exists q', dialedFor p c = Some q' /\ rq_key q' = rq_key q /\ sameMaterial q q'.

(** What a goroutine knows at each point. *)
Definition TInv (p : PoolState) (pc : PC) : Prop :=
  match pc with
  | Verifying q e | Evicting q e => exists c q', clientOf e p = Some c /\ dialedFor p c = Some q' /\ rq_key q' = rq_key q
  | Borrowing q e => exists c, clientOf e p = Some c /\ servedBy p q c
  | EvictClosing q e => (exists c, clientOf e p = Some c) /\ forall k, p_entries p !! k <> Some e
  | Dialing _ => True
  | Inserting q c fp => p_dialed p !! c = Some (q, fp) /\ c ∉ p_closed p /\ c ∉ p_pending p /\ ~ inHeap p c
  | Holding q c => servedBy p q c /\ inHeap p c
  | Orphan c => inHeap p c /\ ~ inMap p c
  end.

Record SInv (s : Sys) : Prop := {
  si_pool : PInv (s_pool s);
  si_pending : forall c, c ∈ p_pending (s_pool s) -> inHeap (s_pool s) c /\ ~ inMap (s_pool s) c;
  si_closed : forall c, c ∈ p_closed (s_pool s) -> is_Some (p_dialed (s_pool s) !! c);
  si_threads : forall t pc, s_threads s !! t = Some pc -> TInv (s_pool s) pc;
  si_fresh : forall t t' q q' c fp fp', s_threads s !! t = Some (Inserting q c fp) ->
    s_threads s !! t' = Some (Inserting q' c fp') -> t = t' }.

(** How one critical section changes the pool; [o] is the connection it puts
    into a new entry. *)
Record ext (o : option Client) (p p' : PoolState) : Prop := {
  ex_client : forall e c, clientOf e p = Some c -> clientOf e p' = Some c;
  ex_client' : forall e c, clientOf e p' = Some c -> clientOf e p = Some c \/ o = Some c;
  ex_fresh : forall c, o = Some c -> ~ inHeap p c;
  ex_dialed : forall c v, p_dialed p !! c = Some v -> p_dialed p' !! c = Some v;
  ex_map : forall k e, p_entries p' !! k = Some e -> p_entries p !! k = Some e \/ clientOf e p = None;
  ex_closed : forall c, c ∈ p_closed p' -> c ∈ p_closed p \/ inHeap p c;
  ex_pending : forall c, c ∈ p_pending p' -> c ∈ p_pending p \/ inHeap p c }.

Lemma ext_inHeap o p p' c : ext o p p' -> inHeap p c -> inHeap p' c.
Proof. intros X [e He]. exists e. by apply (ex_client _ _ _ X). Qed.

Lemma ext_dialedFor o p p' c q : ext o p p' -> dialedFor p c = Some q -> dialedFor p' c = Some q.
Proof.
  intros X. unfold dialedFor. destruct (p_dialed p !! c) as [v|] eqn:E; [|done].
  by rewrite (ex_dialed _ _ _ X c v E).
Qed.

Lemma ext_servedBy o p p' q c : ext o p p' -> servedBy p q c -> servedBy p' q c.
Proof. intros X (q' & D & H). exists q'. split; [by apply (ext_dialedFor o p)|done]. Qed.

(** A connection out of the map stays out: only new entries come in. *)
Lemma ext_not_inMap o p p' c :
  PInv p -> ext o p p' -> inHeap p c -> ~ inMap p c -> ~ inMap p' c.
Proof.
  intros I X [e0 He0] N (k & e & Hk & He). destruct (ex_map _ _ _ X k e Hk) as [Hk'|Hn].
  - destruct (pi_map p I k e Hk') as (c' & q & Hc & _). pose proof (ex_client _ _ _ X e c' Hc) as Hc'.
    assert (c' = c) as -> by congruence. apply N. by exists k, e.
  - destruct (ex_client' _ _ _ X e c He) as [He'|Ho]; [congruence|].
    apply (ex_fresh _ _ _ X c Ho). by exists e0.
Qed.

Lemma TInv_ext o p p' pc :
  PInv p -> ext o p p' -> (forall q c fp, pc = Inserting q c fp -> o <> Some c) -> TInv p pc -> TInv p' pc.
Proof.
  intros I X F. destruct pc as [q e|q e|q e|q e|q|q c fp|q c|c]; simpl.
  - intros (c & q' & Hc & D & K). exists c, q'.
    split_and!; [by apply (ex_client _ _ _ X)|by apply (ext_dialedFor o p)|done].
  - intros (c & Hc & S). exists c. split; [by apply (ex_client _ _ _ X)|by apply (ext_servedBy o p)].
  - intros (c & q' & Hc & D & K). exists c, q'.
    split_and!; [by apply (ex_client _ _ _ X)|by apply (ext_dialedFor o p)|done].
  - intros [[c Hc] N]. split; [exists c; by apply (ex_client _ _ _ X)|].
    intros k Hk. destruct (ex_map _ _ _ X k e Hk) as [Hk'|Hn]; [by apply (N k)|congruence].
  - done.
  - intros (D & C & P & H). split_and!; [by apply (ex_dialed _ _ _ X)|..].
    + intros Hc. by destruct (ex_closed _ _ _ X c Hc).
    + intros Hc. by destruct (ex_pending _ _ _ X c Hc).
    + intros [e He]. destruct (ex_client' _ _ _ X e c He) as [He'|Ho].
      * apply H. by exists e.
      * by apply (F q c fp eq_refl).
  - intros [S H]. split; [by apply (ext_servedBy o p)|by apply (ext_inHeap o p)].
  - intros [H N]. split; [by apply (ext_inHeap o p)|by apply (ext_not_inMap o p)].
Qed.

(** ** Every critical section keeps the invariant *)

Lemma PInv_In p k e : PInv p -> p_entries p !! k = Some e -> exists c, clientOf e p = Some c /\ inMap p c.
Proof.
  intros I Hk. destruct (pi_map p I k e Hk) as (c & _ & Hc & _). exists c. split; [done|]. by exists k, e.
Qed.

Lemma clientOf_touch e0 b now p e : clientOf e (touch e0 b now p) = clientOf e p.
Proof.
  unfold clientOf, touch. cbn. destruct (decide (e = e0)) as [->|Hne].
  - rewrite list_lookup_alter_eq. by destruct (p_heap p !! e0).
  - by rewrite list_lookup_alter_ne.
Qed.

Lemma touch_ext e0 b now p : ext None p (touch e0 b now p).
Proof. split; try done; intros *; rewrite ?clientOf_touch; auto. Qed.

Lemma touch_PInv e0 b now p : PInv p -> PInv (touch e0 b now p).
Proof.
  intros I. split.
  - intros e e' c. rewrite !clientOf_touch. apply (pi_inj p I).
  - intros e x. unfold touch. cbn. intros Hx. destruct (decide (e = e0)) as [->|Hne].
    + rewrite list_lookup_alter_eq in Hx. destruct (p_heap p !! e0) as [y|] eqn:Ey; [|done].
      injection Hx as <-. by apply (pi_heap p I e0 y).
    + rewrite list_lookup_alter_ne in Hx by done. by apply (pi_heap p I e x).
  - intros k e Hk. destruct (pi_map p I k e Hk) as (c & q & Hc & R). exists c, q.
    by rewrite clientOf_touch.
Qed.

Lemma closeConn_ext c p : inHeap p c -> ext None p (closeConn c p).
Proof.
  intros H. split; try done; intros *; auto. cbn. intros [->%elem_of_singleton|Hc]%elem_of_union; auto.
Qed.

Lemma closeConn_PInv c p : PInv p -> ~ inMap p c -> PInv (closeConn c p).
Proof.
  intros I N. split; [apply (pi_inj p I)|apply (pi_heap p I)|].
  intros k e Hk. destruct (pi_map p I k e Hk) as (c' & q & Hc & D & K & C & P). exists c', q.
  split_and!; try done. cbn. intros [->%elem_of_singleton|Hc']%elem_of_union; [|done].
  apply N. by exists k, e.
Qed.

Lemma evictDelete_sub k e p k' e' : p_entries (evictDelete k e p) !! k' = Some e' -> p_entries p !! k' = Some e'.
Proof. unfold evictDelete. case_bool_decide; [|done]. cbn. by intros [_ ?]%lookup_delete_Some. Qed.

Lemma evictDelete_same k e p :
  p_heap (evictDelete k e p) = p_heap p /\ p_dialed (evictDelete k e p) = p_dialed p /\
  p_closed (evictDelete k e p) = p_closed p /\ p_pending (evictDelete k e p) = p_pending p.
Proof. unfold evictDelete. by case_bool_decide. Qed.

Lemma clientOf_evict k e p e' : clientOf e' (evictDelete k e p) = clientOf e' p.
Proof. unfold clientOf. by destruct (evictDelete_same k e p) as [-> _]. Qed.

Lemma evictDelete_ext k e p : ext None p (evictDelete k e p).
Proof.
  destruct (evictDelete_same k e p) as (Hh & Hd & Hc & Hp).
  split; try done; intros *; rewrite ?clientOf_evict, ?Hd, ?Hc, ?Hp; auto.
  intros ?%evictDelete_sub. auto.
Qed.

Lemma evictDelete_PInv k e p : PInv p -> PInv (evictDelete k e p).
Proof.
  intros I. destruct (evictDelete_same k e p) as (Hh & Hd & Hc & Hp). split.
  - intros e1 e2 c. rewrite !clientOf_evict. apply (pi_inj p I).
  - rewrite Hh, Hd. apply (pi_heap p I).
  - intros k' e' Hk%evictDelete_sub. unfold dialedFor. rewrite clientOf_evict, Hd, Hc, Hp. by apply (pi_map p I).
Qed.

(** An entry is in the map under the key it was dialed for only. *)
Lemma evictDelete_gone q e p :
  PInv p -> (exists c q', clientOf e p = Some c /\ dialedFor p c = Some q' /\ rq_key q' = rq_key q) ->
  forall k, p_entries (evictDelete (rq_key q) e p) !! k <> Some e.
Proof.
  intros I (c & q' & Hc & D & K) k Hk. pose proof (evictDelete_sub _ _ _ _ _ Hk) as Hk'.
  destruct (pi_map p I k e Hk') as (c' & q'' & Hc' & D' & K' & _).
  assert (rq_key q = k) as E by (assert (c' = c) as -> by congruence; congruence).
  unfold evictDelete in Hk. rewrite E in Hk. rewrite bool_decide_eq_true_2 in Hk by done.
  cbn in Hk. by rewrite lookup_delete_eq in Hk.
Qed.

Lemma dialed_ext q c fp p : p_dialed p !! c = None -> ext None p (dialed q c fp p).
Proof.
  intros Hn. split; try done; intros *; auto. cbn. intros Hv. rewrite lookup_insert_ne; [done|congruence].
Qed.

Lemma dialed_PInv q c fp p : PInv p -> p_dialed p !! c = None -> PInv (dialed q c fp p).
Proof.
  intros I Hn. pose proof (dialed_ext q c fp p Hn) as X. split; [apply (pi_inj p I)|..].
  - intros e x Hx. destruct (pi_heap p I e x Hx) as (q' & D & R). exists q'.
    split; [by apply (ex_dialed _ _ _ X)|done].
  - intros k e Hk. destruct (pi_map p I k e Hk) as (c' & q' & Hc & D & R). exists c', q'.
    split_and!; try done; try apply R. by apply (ext_dialedFor None p).
Qed.

Lemma clientOf_insert q c fp now p e :
  clientOf e (insertEntry q c fp now p) = if decide (e = length (p_heap p)) then Some c else clientOf e p.
Proof.
  unfold clientOf, insertEntry. cbn. case_decide as D.
  - subst. by rewrite list_lookup_middle.
  - destruct (decide (e < length (p_heap p))%nat) as [Hl|Hl].
    + by rewrite lookup_app_l.
    + rewrite (lookup_ge_None_2 (p_heap p)) by lia. rewrite lookup_ge_None_2; [done|].
      rewrite length_app. cbn. lia.
Qed.

Lemma clientOf_length e c p : clientOf e p = Some c -> (e < length (p_heap p))%nat.
Proof.
  unfold clientOf. destruct (p_heap p !! e) as [x|] eqn:E; [|done]. intros _. by apply lookup_lt_Some in E.
Qed.

Lemma insertEntry_ext q c fp now p : ~ inHeap p c -> ext (Some c) p (insertEntry q c fp now p).
Proof.
  intros N. split; try done; intros *; rewrite ?clientOf_insert; auto.
  - intros He. rewrite decide_False; [done|]. apply clientOf_length in He. lia.
  - case_decide; [intros [= ->]; by right|auto].
  - by intros [= <-].
  - cbn. intros [[? <-]|[? ?]]%lookup_insert_Some; [|auto].
    right. unfold clientOf. by rewrite lookup_ge_None_2.
Qed.

Lemma insertEntry_PInv q c fp now p :
  PInv p -> TInv p (Inserting q c fp) -> PInv (insertEntry q c fp now p).
Proof.
  intros I (D & C & P & N). pose proof (insertEntry_ext q c fp now p N) as X. split.
  - intros e e' c'. rewrite !clientOf_insert. repeat case_decide; subst; try done.
    + intros [= <-] He'. destruct N. by exists e'.
    + intros He [= <-]. destruct N. by exists e.
    + apply (pi_inj p I).
  - intros e x. cbn. intros [Hx|[? Hx]]%lookup_app_Some; [by apply (pi_heap p I e)|].
    apply list_lookup_singleton_Some in Hx as [_ <-]. by exists q.
  - intros k e. cbn. intros [[<- <-]|[Hk He]]%lookup_insert_Some.
    + exists c, q. rewrite clientOf_insert, decide_True by done. unfold dialedFor. cbn. by rewrite D.
    + destruct (pi_map p I k e He) as (c' & q' & Hc & R). exists c', q'.
      split; [by apply (ex_client _ _ _ X)|done].
Qed.

(** [sweepOnce] and [Close] split the map: [es] is taken out, [kept] stays. *)
Definition takeOut (es kept : gmap string nat) (p : PoolState) : PoolState :=
  p <| p_pending := p_pending p ++ clientsOf es p |> <| p_entries := kept |>.

Lemma elem_of_clientsOf es p c : c ∈ clientsOf es p <-> exists k e, es !! k = Some e /\ clientOf e p = Some c.
Proof.
  unfold clientsOf. rewrite list_elem_of_omap. split.
  - intros (e & He & Hc). apply list_elem_of_fmap in He as ([k e'] & -> & Hk).
    apply elem_of_map_to_list in Hk. by exists k, e'.
  - intros (k & e & Hk & Hc). exists e. split; [|done].
    apply list_elem_of_fmap. exists (k, e). split; [done|]. by apply elem_of_map_to_list.
Qed.

Section TakeOut.
Context (es kept : gmap string nat) (p : PoolState).
Context (Hes : es ⊆ p_entries p) (Hkept : kept ⊆ p_entries p) (Hdisj : es ##ₘ kept).

Lemma takeOut_ext : ext None p (takeOut es kept p).
Proof.
  split; try done; intros *; auto; cbn.
  - intros Hk. left. by apply (lookup_weaken _ _ _ _ Hk).
  - intros [?|(k & e & _ & He)%elem_of_clientsOf]%elem_of_app; [auto|]. right. by exists e.
Qed.

Lemma takeOut_gone c : PInv p -> c ∈ clientsOf es p -> ~ inMap (takeOut es kept p) c.
Proof.
  intros I (k & e & Hk & He)%elem_of_clientsOf (k' & e' & Hk' & He').
  change (clientOf e' p = Some c) in He'. change (kept !! k' = Some e') in Hk'.
  assert (e' = e) as -> by (by apply (pi_inj p I e' e c)).
  destruct (pi_map p I k e) as (c1 & q1 & E1 & D1 & K1 & _); [by apply (lookup_weaken _ _ _ _ Hk)|].
  destruct (pi_map p I k' e) as (c2 & q2 & E2 & D2 & K2 & _); [by apply (lookup_weaken _ _ _ _ Hk')|].
  assert (c1 = c) as -> by congruence. assert (c2 = c) as -> by congruence.
  assert (k = k') as -> by congruence. by apply (map_disjoint_spec es kept) with k' e e.
Qed.

Lemma takeOut_PInv : PInv p -> PInv (takeOut es kept p).
Proof.
  intros I. split; [apply (pi_inj p I)|apply (pi_heap p I)|].
  intros k e Hk. destruct (pi_map p I k e) as (c & q & Hc & D & K & C & P).
  { by apply (lookup_weaken _ _ _ _ Hk). }
  exists c, q. split_and!; try done. cbn. intros [?|Hin]%elem_of_app; [done|].
  apply (takeOut_gone c I Hin). by exists k, e.
Qed.

End TakeOut.

Lemma sweepLocked_split now p : exists es kept, es ⊆ p_entries p /\ kept ⊆ p_entries p /\ es ##ₘ kept /\
  sweepLocked now p = takeOut es kept p.
Proof.
  exists (filter (fun ke => expired now p (snd ke) = true) (p_entries p)),
    (filter (fun ke => expired now p (snd ke) <> true) (p_entries p)).
  split_and!; try apply map_filter_subseteq; try done. apply map_disjoint_filter_complement.
Qed.

Lemma closeLocked_split p : exists es kept, es ⊆ p_entries p /\ kept ⊆ p_entries p /\ es ##ₘ kept /\
  closeLocked p = takeOut es kept p.
Proof.
  exists (p_entries p), ∅. split_and!; try done; [apply map_empty_subseteq|apply map_disjoint_empty_r].
Qed.

Lemma PInv_pending p l : PInv p -> (forall c, c ∈ l -> c ∈ p_pending p) -> PInv (p <| p_pending := l |>).
Proof.
  intros I S. split; [apply (pi_inj p I)|apply (pi_heap p I)|].
  intros k e Hk. destruct (pi_map p I k e Hk) as (c & q & Hc & D & K & C & P). exists c, q.
  split_and!; try done. cbn. auto.
Qed.

(** ** Every step keeps the invariant *)

(** A critical section that [ext] describes keeps the facts of the other parts. *)
Lemma SInv_ext o p p' th :
  SInv (mkSys p th) -> ext o p p' -> PInv p' ->
  (forall t q c fp, th !! t = Some (Inserting q c fp) -> o <> Some c) ->
  (forall c, c ∈ p_pending p' -> c ∈ p_pending p \/ ~ inMap p' c) ->
  SInv (mkSys p' th).
Proof.
  intros [I P C T F] X I' O N. cbn in *. split; cbn; [done|..|done].
  - intros c Hc. assert (inHeap p c) as Hh.
    { destruct (ex_pending _ _ _ X c Hc) as [Hp|?]; [by apply P|done]. }
    split; [by apply (ext_inHeap o p)|].
    destruct (N c Hc) as [Hp|?]; [|done]. apply (ext_not_inMap o p); [done..|by apply P].
  - intros c Hc. destruct (ex_closed _ _ _ X c Hc) as [Hc'|[e He]].
    + destruct (C c Hc') as [v Hv]. exists v. by apply (ex_dialed _ _ _ X).
    + unfold clientOf in He. destruct (p_heap p !! e) as [x|] eqn:Ex; [|done].
      injection He as <-. destruct (pi_heap p I e x Ex) as (q & D & _). eexists.
      by apply (ex_dialed _ _ _ X).
  - intros t pc Ht. apply (TInv_ext o p); [done..| |by apply (T t)].
    intros q c fp ->. by apply (O t q c fp).
Qed.

(** A goroutine moves on. *)
Lemma SInv_thread p th t pc :
  SInv (mkSys p th) -> TInv p pc ->
  (forall q c fp, pc = Inserting q c fp -> forall t' q' fp', t' <> t -> th !! t' <> Some (Inserting q' c fp')) ->
  SInv (mkSys p (<[t := pc]> th)).
Proof.
  intros [I P C T F] HT HF. cbn in *. split; cbn; [done..| |].
  - intros t' pc' [[<- <-]|[_ ?]]%lookup_insert_Some; [done|by apply (T t')].
  - intros t1 t2 q1 q2 c f1 f2 [[<- ->]|[N1 H1]]%lookup_insert_Some [[<- E2]|[N2 H2]]%lookup_insert_Some;
      try done.
    + by destruct (HF q1 c f1 eq_refl t2 q2 f2).
    + subst pc. by destruct (HF q2 c f2 eq_refl t1 q1 f1).
    + by apply (F t1 t2 q1 q2 c f1 f2).
Qed.

Lemma SInv_done p th t : SInv (mkSys p th) -> SInv (mkSys p (delete t th)).
Proof.
  intros [I P C T F]. cbn in *. split; cbn; [done..| |].
  - intros t' pc' [_ ?]%lookup_delete_Some. by apply (T t').
  - intros t1 t2 q1 q2 c f1 f2 [_ H1]%lookup_delete_Some [_ H2]%lookup_delete_Some.
    by apply (F t1 t2 q1 q2 c f1 f2).
Qed.

(** The same for critical sections that bring in no connection. *)
Lemma SInv_none p p' th :
  SInv (mkSys p th) -> ext None p p' -> PInv p' ->
  (forall c, c ∈ p_pending p' -> c ∈ p_pending p \/ ~ inMap p' c) -> SInv (mkSys p' th).
Proof. intros S X I N. by apply (SInv_ext None p). Qed.

(** The borrow-time checks: the peer answers, the key material did not change,
    and the stored host key, if known, is the one seen at the dial. *)
Lemma entryUsable_spec x addr resolved ck :
  entryUsable x addr resolved ck = true <->
  ck_ping ck <> Some false /\
  (resolved = "" \/ poolEntry_resolvedKey x = "" \/ resolved = poolEntry_resolvedKey x) /\
  (forall GetKnownHost kh, ck_hostKey ck = Some GetKnownHost -> GetKnownHost addr = Some kh ->
     KnownHost_Fingerprint kh <> "" -> poolEntry_knownFingerprint x <> "" ->
     KnownHost_Fingerprint kh = poolEntry_knownFingerprint x).
Proof.
  unfold entryUsable. destruct ck as [[[]|] hk]; cbn; try (split; [done|by intros [? _]]).
  all: destruct ((resolved != "") && (poolEntry_resolvedKey x != "") && (resolved != poolEntry_resolvedKey x)) eqn:E;
    [split; [done|]; bool_to_prop; intros (_ & [?|[?|?]] & _); contradiction|].
  all: assert (resolved = "" \/ poolEntry_resolvedKey x = "" \/ resolved = poolEntry_resolvedKey x) as M
    by (apply andb_false_iff in E as [[E|E]%andb_false_iff|E]; apply negb_false_iff, bool_decide_eq_true in E; auto).
  all: destruct hk as [G|]; [|split; [|done]; intros _; split_and!; done].
  all: destruct (poolEntry_knownFingerprint x != "") eqn:Ef; bool_to_prop;
    [|split; [|done]; intros _; split_and!; done].
  all: destruct (G addr) as [kh|] eqn:Eg; [|split; [|done]; intros _; split_and!; try done; congruence].
  all: destruct (KnownHost_Fingerprint kh != "") eqn:Ek; bool_to_prop;
    [|split; [|done]; intros _; split_and!; try done; congruence].
  all: rewrite bool_decide_eq_true; split; [intros H; split_and!; try done; congruence|].
  all: by intros (_ & _ & H); apply (H G kh).
Qed.

Lemma verify_TInv p q e x ck :
  PInv p -> p_heap p !! e = Some x -> TInv p (Verifying q e) ->
  TInv p (if entryUsable x (rq_addr q) (rq_resolved q) ck then Borrowing q e else Evicting q e).
Proof.
  intros I Hx H. destruct (entryUsable x _ _ ck) eqn:E; [|exact H].
  destruct H as (c & q' & Hc & D & K). exists c. split; [done|]. exists q'. split_and!; [done..|].
  apply entryUsable_spec in E as (_ & M & _).
  destruct (pi_heap p I e x Hx) as (q'' & D' & R).
  unfold clientOf in Hc. rewrite Hx in Hc. injection Hc as <-.
  unfold dialedFor in D. rewrite D' in D. injection D as ->. rewrite R in M.
  destruct M as [M|[M|M]]; unfold sameMaterial; auto.
Qed.

Lemma release_SInv p th t q c now :
  SInv (mkSys p th) -> th !! t = Some (Holding q c) ->
  SInv (let r := releaseLocked (rq_key q) c now p in
        mkSys (snd r) (if fst r then delete t th else <[t := Orphan c]> th)).
Proof.
  intros S Ht. pose proof (si_threads _ S t _ Ht) as [Sv Hh]. cbn in Sv, Hh. unfold releaseLocked.
  assert (p_entries p !! rq_key q <> None \/ p_entries p !! rq_key q = None) as Hd
    by (destruct (p_entries p !! rq_key q); auto).
  destruct (p_entries p !! rq_key q) as [e|] eqn:Ek; [case_bool_decide as Ec|]; cbn.
  - apply SInv_done, SInv_none with p; [done|apply touch_ext|apply touch_PInv, S|]. auto.
  - apply SInv_thread; [done| |done]. split; [done|]. intros (k' & e' & Hk & He).
    destruct (pi_map p (si_pool _ S) k' e' Hk) as (c' & q' & Hc' & D' & K' & _).
    destruct Sv as (q'' & D'' & K'' & _). assert (c' = c) as -> by congruence.
    assert (k' = rq_key q) as -> by congruence. congruence.
  - apply SInv_thread; [done| |done]. split; [done|]. intros (k' & e' & Hk & He).
    destruct (pi_map p (si_pool _ S) k' e' Hk) as (c' & q' & Hc' & D' & K' & _).
    destruct Sv as (q'' & D'' & K'' & _). assert (c' = c) as -> by congruence.
    assert (k' = rq_key q) as -> by congruence. congruence.
Qed.

Lemma takeOut_SInv p th es kept :
  es ⊆ p_entries p -> kept ⊆ p_entries p -> es ##ₘ kept -> SInv (mkSys p th) -> SInv (mkSys (takeOut es kept p) th).
Proof.
  intros He Hk Hd S. apply SInv_none with p; [done|by apply takeOut_ext|by apply takeOut_PInv, S|].
  intros c. cbn. intros [?|Hc]%elem_of_app; [by left|right]. by apply takeOut_gone; [..|apply S|].
Qed.

Lemma closePending_SInv p th : SInv (mkSys p th) -> SInv (mkSys (closePending p) th).
Proof.
  intros S. unfold closePending. destruct (p_pending p) as [|c l] eqn:E; [done|].
  destruct (si_pending _ S c) as [Hh Hn]; [cbn; rewrite E; left|]. cbn in Hh, Hn.
  assert (SInv (mkSys (p <| p_pending := l |>) th)) as S'.
  { apply SInv_none with p; [done|split; try done; auto| |].
    - intros c'. cbn. rewrite E. intros. left. by right.
    - apply PInv_pending; [apply S|]. rewrite E. by right.
    - intros c' Hc'. left. rewrite E. by right. }
  apply SInv_none with (p <| p_pending := l |>); [done|by apply closeConn_ext|apply closeConn_PInv; [apply S'|done]|].
  auto.
Qed.

Lemma dial_SInv p th t q c fp :
  SInv (mkSys p th) -> th !! t = Some (Dialing q) -> p_dialed p !! c = None ->
  SInv (mkSys (dialed q c fp p) (<[t := Inserting q c fp]> th)).
Proof.
  intros S Ht Hn. destruct S as [I P C T F] eqn:ES. cbn in *.
  assert (~ inHeap p c) as Hh.
  { intros [e He]. unfold clientOf in He. destruct (p_heap p !! e) as [x|] eqn:Ex; [|done].
    injection He as <-. destruct (pi_heap p I e x Ex) as (q' & D & _). congruence. }
  apply SInv_thread.
  - apply SInv_none with p; [done|by apply dialed_ext|by apply dialed_PInv|auto].
  - cbn. rewrite lookup_insert_eq. split_and!; [done|..|done].
    + intros Hc. destruct (C c Hc) as [v Hv]. congruence.
    + intros Hc. by destruct (P c Hc).
  - intros ? ? ? [= <- <- <-] t' q' fp' Hne Ht'. destruct (T t' _ Ht') as (D & _). congruence.
Qed.

Lemma insert_SInv p th t q c fp now :
  SInv (mkSys p th) -> th !! t = Some (Inserting q c fp) ->
  SInv (mkSys (insertEntry q c fp now p) (<[t := Holding q c]> th)).
Proof.
  intros S Ht. pose proof (si_threads _ S t _ Ht) as HT. cbn in HT. pose proof HT as (D & Hc & Hp & Hh).
  assert (PInv (insertEntry q c fp now p)) as I' by (apply (insertEntry_PInv q c fp now p); [apply S|done]).
  assert (SInv (mkSys (insertEntry q c fp now p) (delete t th))) as S1.
  { apply (SInv_ext (Some c) p); [by apply SInv_done|by apply insertEntry_ext|done| |auto].
    intros t' q' c' fp' [Hne Ht']%lookup_delete_Some [= ->].
    by apply Hne, (si_fresh _ S t t' q q' c' fp fp'). }
  rewrite <- insert_delete_eq. apply SInv_thread; [done| |done]. split.
  - exists q. unfold dialedFor. cbn. rewrite D. split_and!; [done..|]. right. by right.
  - exists (length (p_heap p)). by rewrite clientOf_insert, decide_True.
Qed.

Lemma step_SInv s s' : step s s' -> SInv s -> SInv s'.
Proof.
  destruct 1 as [t q e p th Ht Hk|t q p th Ht Hk|t q e x ck p th Ht Hx|t q e c now p th Ht Hc
    |t q e p th Ht|t q e c p th Ht Hc|t q p th Ht|t q c fp p th Ht Hn|t q c fp now p th Ht
    |t q c now p th Ht|t c p th Ht|now p th|p th|p th]; intros S;
    try pose proof (si_threads _ S t _ Ht) as HT.
  - apply SInv_thread; [done| |done]. destruct (pi_map _ (si_pool _ S) _ _ Hk) as (c & q' & ? & ? & ? & _).
    by exists c, q'.
  - by apply SInv_thread.
  - apply SInv_thread; [done|by apply verify_TInv; [apply S|..]|]. by destruct (entryUsable _ _ _ _).
  - apply SInv_thread; [|..|done].
    + apply SInv_none with p; [done|apply touch_ext|apply touch_PInv, S|auto].
    + destruct HT as (c' & Hc' & Sv). assert (c' = c) as -> by (cbn in *; congruence). cbn. split.
      * by apply (ext_servedBy None p); [apply touch_ext|].
      * exists e. by unfold borrow; rewrite clientOf_touch.
  - apply SInv_thread; [|..|done].
    + apply SInv_none with p; [done|apply evictDelete_ext|apply evictDelete_PInv, S|].
      by destruct (evictDelete_same (rq_key q) e p) as (_ & _ & _ & ->); auto.
    + split; [|by apply evictDelete_gone; [apply S|]].
      destruct HT as (c & _ & Hc & _). exists c. by rewrite clientOf_evict.
  - destruct HT as [_ N]. cbn in N. assert (~ inMap p c) as Hn.
    { intros (k & e' & Hk & He'). apply (N k).
      by rewrite <- (pi_inj p (si_pool _ S) e' e c). }
    apply SInv_thread; [|done..].
    apply SInv_none with p; [done|apply closeConn_ext; by exists e|by apply closeConn_PInv; [apply S|]|auto].
  - by apply SInv_done.
  - by apply dial_SInv.
  - by apply insert_SInv.
  - by apply release_SInv.
  - destruct HT as [Hh Hn]. apply SInv_done.
    apply SInv_none with p; [done|by apply closeConn_ext|by apply closeConn_PInv; [apply S|]|auto].
  - destruct (sweepLocked_split now p) as (es & kept & H1 & H2 & H3 & ->). by apply takeOut_SInv.
  - destruct (closeLocked_split p) as (es & kept & H1 & H2 & H3 & ->). by apply takeOut_SInv.
  - by apply closePending_SInv.
Qed.

Lemma SInv_New : SInv NewSys.
Proof.
  split; cbn.
  - split; cbn; try done.
  - by intros ? ?%not_elem_of_nil.
  - by intros ? ?%not_elem_of_empty.
  - by intros t pc ?%lookup_empty_Some.
  - by intros t t' q q' c fp fp' ?%lookup_empty_Some.
Qed.

Lemma steps_SInv s s' : rtc step s s' -> SInv s -> SInv s'.
Proof. induction 1; eauto using step_SInv. Qed.

Lemma reachable_SInv s : reachable s -> SInv s.
Proof. intros R. by apply (steps_SInv NewSys s R), SInv_New. Qed.

(** The key of the pool determines address, user and key path. *)
Lemma poolKey_inj a u k a' u' k' :
  contains_byte bar a = false -> contains_byte bar u = false ->
  contains_byte bar a' = false -> contains_byte bar u' = false ->
  poolKey a u k = poolKey a' u' k' -> a = a' /\ u = u' /\ k = k'.
Proof.
  unfold poolKey. intros Ha Hu Ha' Hu' E.
  pose proof (cut_at_app bar a (u +:+ String bar k) Ha) as C. rewrite E, cut_at_app in C by done.
  injection C as -> E'. pose proof (cut_at_app bar u k Hu) as C. rewrite <- E', cut_at_app in C by done.
  by injection C as -> ->.
Qed.

(** ** Properties *)

(** Whatever goroutines, sweeper and shutdown do in between, the pool never
    hands a connection to another identity: a borrowed connection was dialed for
    the address, user and key path of the borrower, with the key material they
    resolve to now; a connection in the map is open and kept under the key it
    was dialed for; and no connection is kept twice. *)
Theorem pool_identity s :
  reachable s ->
  (forall t q c, s_threads s !! t = Some (Holding q c) ->
     contains_byte bar (rq_addr q) = false -> contains_byte bar (rq_user q) = false ->
     exists q', dialedFor (s_pool s) c = Some q' /\ sameMaterial q q' /\
       (contains_byte bar (rq_addr q') = false -> contains_byte bar (rq_user q') = false ->
        rq_addr q' = rq_addr q /\ rq_user q' = rq_user q /\ rq_keyPath q' = rq_keyPath q)) /\
  (forall k e, p_entries (s_pool s) !! k = Some e ->
     exists c q, clientOf e (s_pool s) = Some c /\ dialedFor (s_pool s) c = Some q /\ rq_key q = k /\
       c ∉ p_closed (s_pool s)) /\
  (forall k k' e e' c, p_entries (s_pool s) !! k = Some e -> p_entries (s_pool s) !! k' = Some e' ->
     clientOf e (s_pool s) = Some c -> clientOf e' (s_pool s) = Some c -> k = k').
Proof.
  intros R%reachable_SInv. pose proof (si_pool _ R) as I. split_and!.
  - intros t q c Ht Ha Hu. destruct (si_threads _ R t _ Ht) as [(q' & D & K & M) _].
    exists q'. split_and!; [done..|]. intros Ha' Hu'. by apply poolKey_inj.
  - intros k e Hk. destruct (pi_map _ I k e Hk) as (c & q & Hc & D & K & C & _). by exists c, q.
  - intros k k' e e' c Hk Hk' Hc Hc'. assert (e' = e) as -> by (by apply (pi_inj _ I e' e c)).
    destruct (pi_map _ I k e Hk) as (c1 & q1 & E1 & D1 & K1 & _).
    destruct (pi_map _ I k' e Hk') as (c2 & q2 & E2 & D2 & K2 & _). congruence.
Qed.

(** ** Goroutines that do not overlap *)

(** Uses of the pool, each run as a whole, by borrowers that wait for a key to
    be released before they connect with it: [b] maps a key to the connection
    borrowed with it. *)
Inductive use : PoolState * gmap string Client -> PoolState * gmap string Client -> Prop :=
| UseConnect q ck dial now p b :
    b !! rq_key q = None ->
    (forall c fp, dial = Some (c, fp) -> p_dialed p !! c = None) ->
    use (p, b)
      (let r := Connect q ck dial now p in
       (snd r, match fst r with Some c => <[rq_key q := c]> b | None => b end))
| UseRelease k c now p b :
    b !! k = Some c -> use (p, b) (Release k c now p, delete k b)
| UseSweep now p b : use (p, b) (sweepOnce now p, b).

(** Between two uses: every connection is closed or in the map, and exactly the
    borrowed ones are marked in use. *)
Record QInv (p : PoolState) (b : gmap string Client) : Prop := {
  qi_pool : PInv p;
  qi_pending : p_pending p = [];
  qi_closed : forall c, c ∈ p_closed p -> is_Some (p_dialed p !! c);
  qi_open : forall c, is_Some (p_dialed p !! c) -> c ∈ p_closed p \/ inMap p c;
  qi_held : forall k c, b !! k = Some c -> exists e x, p_entries p !! k = Some e /\
    p_heap p !! e = Some x /\ poolEntry_client x = c /\ poolEntry_inUse x = true }.

Lemma closeAll_eq p :
  closeAll p = p <| p_pending := [] |> <| p_closed := list_to_set (p_pending p) ∪ p_closed p |>.
Proof.
  destruct p as [h es cl pend d].
  assert (forall l s, fold_left (fun p c => closeConn c p) l (mkPoolState h es s [] d) =
    mkPoolState h es (list_to_set l ∪ s) [] d) as E; [|exact (E pend cl)].
  induction l as [|c l IH]; intros s; cbn [fold_left list_to_set foldr]; [by rewrite (left_id_L ∅ (∪))|].
  change (closeConn c (mkPoolState h es s [] d)) with (mkPoolState h es ({[c]} ∪ s) [] d).
  rewrite IH. f_equal. set_solver.
Qed.

Lemma dialed_inHeap p c : PInv p -> inMap p c -> is_Some (p_dialed p !! c).
Proof.
  intros I (k & e & Hk & He). destruct (pi_map p I k e Hk) as (c' & q & Hc & D & _).
  assert (c' = c) as -> by congruence. unfold dialedFor in D. by destruct (p_dialed p !! c).
Qed.

(** Taking entries out of the map and closing them. *)
Lemma takeOut_QInv p b es kept :
  es ⊆ p_entries p -> kept ⊆ p_entries p -> es ##ₘ kept ->
  (forall k e, p_entries p !! k = Some e -> es !! k = Some e \/ kept !! k = Some e) ->
  (forall k c, b !! k = Some c -> es !! k = None) ->
  QInv p b -> QInv (closeAll (takeOut es kept p)) b.
Proof.
  intros He Hk Hd Hs Hb [I P C O H]. rewrite closeAll_eq. unfold takeOut. cbn. rewrite P. cbn.
  pose proof (takeOut_PInv es kept p He Hk Hd I) as I'.
  pose proof (fun c Hin => takeOut_gone es kept p He Hk Hd c I Hin) as G. split; cbn.
  - split; [apply (pi_inj p I)|apply (pi_heap p I)|].
    intros k e Hke. destruct (pi_map _ I' k e Hke) as (c & q & Hc & D & K & Cl & Pe). exists c, q.
    split_and!; try done; [|set_solver]. cbn. cbn in Pe. rewrite P in Pe. cbn in Pe.
    rewrite elem_of_union, elem_of_list_to_set. cbn in Cl. tauto.
  - done.
  - intros c. rewrite elem_of_union, elem_of_list_to_set. intros [(k & e & Hke & Hce)%elem_of_clientsOf|?]; [|auto].
    apply dialed_inHeap; [done|]. exists k, e. split; [by apply (lookup_weaken _ _ _ _ Hke)|done].
  - intros c Hc. rewrite elem_of_union, elem_of_list_to_set.
    destruct (O c Hc) as [?|(k & e & Hke & Hce)]; [auto|].
    destruct (Hs k e Hke); [|right; by exists k, e].
    left. left. apply elem_of_clientsOf. by exists k, e.
  - intros k c Hkc. destruct (H k c Hkc) as (e & x & Hke & R). exists e, x. split; [|done].
    destruct (Hs k e Hke) as [Hes|?]; [|done]. by rewrite (Hb k c Hkc) in Hes.
Qed.

Lemma sweep_QInv now p b : QInv p b -> QInv (sweepOnce now p) b.
Proof.
  intros Q. unfold sweepOnce, sweepLocked.
  apply takeOut_QInv; try apply map_filter_subseteq; [apply map_disjoint_filter_complement|..|done].
  - intros k e Hk. destruct (expired now p e) eqn:E.
    + left. by apply map_lookup_filter_Some.
    + right. apply map_lookup_filter_Some. cbn. by rewrite E.
  - intros k c Hkc. destruct (qi_held p b Q k c Hkc) as (e & x & Hk & Hx & _ & U).
    apply map_lookup_filter_None. right. intros e' Hk'. rewrite Hk in Hk'. injection Hk' as <-.
    cbn. unfold expired. by rewrite Hx, U.
Qed.

(** Marking an entry: the borrowed ones among the others stay marked. *)
Lemma touch_QInv e0 u now p b b' :
  QInv p b -> (forall k c, b' !! k = Some c -> exists e x, p_entries p !! k = Some e /\
    p_heap p !! e = Some x /\ poolEntry_client x = c /\ (if decide (e = e0) then u = true else poolEntry_inUse x = true)) ->
  QInv (touch e0 u now p) b'.
Proof.
  intros [I P C O H] Hb. split; [by apply touch_PInv|done|done|..].
  - intros c Hc. destruct (O c Hc) as [?|(k & e & Hk & He)]; [by left|right]. exists k, e.
    by rewrite clientOf_touch.
  - intros k c Hk. destruct (Hb k c Hk) as (e & x & He & Hx & Hc & U). case_decide; subst.
    + eexists e0, _. split; [done|]. cbn. rewrite list_lookup_alter_eq, Hx. by cbn.
    + exists e, x. split; [done|]. cbn. by rewrite list_lookup_alter_ne.
Qed.

Lemma release_QInv k c now p b : QInv p b -> b !! k = Some c -> QInv (Release k c now p) (delete k b).
Proof.
  intros Q Hk. destruct (qi_held p b Q k c Hk) as (e & x & He & Hx & Hc & U).
  unfold Release, releaseLocked. rewrite He.
  rewrite bool_decide_eq_true_2 by (unfold clientOf; rewrite Hx; cbn; by f_equal). cbn.
  apply touch_QInv with b; [done|]. intros k' c' [Hne Hk']%lookup_delete_Some.
  destruct (qi_held p b Q k' c' Hk') as (e' & x' & He' & Hx' & Hc' & U'). exists e', x'.
  split_and!; [done..|]. case_decide; [subst e'|done]. destruct Hne.
  destruct (pi_map p (qi_pool p b Q) k e He) as (c1 & q1 & E1 & D1 & K1 & _).
  destruct (pi_map p (qi_pool p b Q) k' e He') as (c2 & q2 & E2 & D2 & K2 & _). congruence.
Qed.

Lemma dialFresh_QInv q dial now p b :
  QInv p b -> p_entries p !! rq_key q = None -> b !! rq_key q = None ->
  (forall c fp, dial = Some (c, fp) -> p_dialed p !! c = None) ->
  let r := dialFresh q dial now p in
  QInv (snd r) (match fst r with Some c => <[rq_key q := c]> b | None => b end).
Proof.
  intros Q Hk Hb Hn. destruct dial as [[c fp]|]; cbn; [|done]. specialize (Hn c fp eq_refl).
  destruct Q as [I P C O H]. set (p1 := dialed q c fp p).
  assert (~ inHeap p1 c) as Hh.
  { intros [e He]. unfold clientOf in He. destruct (p_heap p1 !! e) as [x|] eqn:Ex; [|done].
    injection He as <-. destruct (pi_heap p I e x Ex) as (q' & D & _). congruence. }
  assert (PInv (insertEntry q c fp now p1)) as I1.
  { apply insertEntry_PInv; [by apply dialed_PInv|]. cbn. rewrite lookup_insert_eq, P.
    split_and!; [done| |apply not_elem_of_nil|done]. intros Hc. destruct (C c Hc). congruence. }
  pose proof (insertEntry_ext q c fp now p1 Hh) as X. split; [done|done|..].
  - intros c' Hc'. destruct (C c' Hc') as [v Hv]. exists v. cbn. rewrite lookup_insert_ne; congruence.
  - intros c' [v Hv]. cbn in Hv. apply lookup_insert_Some in Hv as [[<- _]|[Hne Hv]].
    + right. exists (rq_key q), (length (p_heap p)). cbn. rewrite lookup_insert_eq. split; [done|].
      by rewrite clientOf_insert, decide_True.
    + destruct (O c' (ex_intro _ v Hv)) as [?|(k & e & Hke & Hce)]; [by left|right].
      exists k, e. cbn. rewrite lookup_insert_ne by congruence. split; [done|].
      by apply (ex_client _ _ _ X).
  - intros k c' [[<- <-]|[Hne Hkc]]%lookup_insert_Some.
    + exists (length (p_heap p)), (mkPoolEntry c now fp (rq_resolved q) true). cbn.
      rewrite lookup_insert_eq, list_lookup_middle; done.
    + destruct (H k c' Hkc) as (e & x & He & Hx & R). exists e, x. cbn.
      rewrite lookup_insert_ne by done. split; [done|]. split; [|done].
      by apply lookup_app_l_Some.
Qed.

Lemma evict_QInv q e c p b :
  QInv p b -> p_entries p !! rq_key q = Some e -> clientOf e p = Some c -> b !! rq_key q = None ->
  QInv (closeConn c (evictDelete (rq_key q) e p)) b /\
  p_entries (closeConn c (evictDelete (rq_key q) e p)) !! rq_key q = None.
Proof.
  intros Q Hk Hc Hb. pose proof (evictDelete_PInv (rq_key q) e p (qi_pool p b Q)) as I'.
  destruct (pi_map p (qi_pool p b Q) _ e Hk) as (c' & q' & Hc' & D & K & _).
  assert (~ inMap (evictDelete (rq_key q) e p) c) as N.
  { intros (k2 & e2 & Hk2 & He2). rewrite clientOf_evict in He2.
    apply (evictDelete_gone q e p (qi_pool p b Q)) with k2; [by exists c', q'|].
    assert (e2 = e) as <- by (by apply (pi_inj p (qi_pool p b Q) e2 e c)). done. }
  revert I' N. unfold evictDelete. rewrite bool_decide_eq_true_2 by done. intros I' N.
  destruct Q as [I P C O H]. cbn. split; [|by rewrite lookup_delete_eq].
  split; [by apply closeConn_PInv|done|..]; cbn.
  - intros c2 [->%elem_of_singleton|?]%elem_of_union; [|auto].
    apply dialed_inHeap; [done|]. by exists (rq_key q), e.
  - intros c2 Hc2. destruct (O c2 Hc2) as [?|(k2 & e2 & Hk2 & He2)]; [set_solver|].
    destruct (decide (k2 = rq_key q)) as [->|Hne].
    + left. assert (c2 = c) as -> by congruence. set_solver.
    + right. exists k2, e2. cbn. by rewrite lookup_delete_ne.
  - intros k2 c2 Hkc. destruct (H k2 c2 Hkc) as (e2 & x & He2 & R). exists e2, x.
    rewrite lookup_delete_ne; [done|]. congruence.
Qed.

Lemma use_QInv s s' : use s s' -> QInv (fst s) (snd s) -> QInv (fst s') (snd s').
Proof.
  destruct 1 as [q ck dial now p b Hb Hn|k c now p b Hk|now p b]; cbn; intros Q.
  - unfold Connect, lookupEntry. destruct (p_entries p !! rq_key q) as [e|] eqn:Ek; [|by apply dialFresh_QInv].
    destruct (pi_map p (qi_pool p b Q) _ e Ek) as (c & q' & Hc & _). unfold clientOf in Hc.
    destruct (p_heap p !! e) as [x|] eqn:Ex; [|done]. injection Hc as <-.
    destruct (entryUsable x _ _ ck) eqn:U; cbn.
    + apply touch_QInv with b; [done|]. intros k c [[<- <-]|[Hne Hkc]]%lookup_insert_Some.
      * exists e, x. by rewrite decide_True.
      * destruct (qi_held p b Q k c Hkc) as (e' & x' & R1 & R2 & R3 & R4). exists e', x'.
        split_and!; [done..|]. by case_decide.
    + destruct (evict_QInv q e (poolEntry_client x) p b) as [Q' Hk']; [done..| |done|].
      { unfold clientOf. by rewrite Ex. }
      apply dialFresh_QInv; [done..|]. intros c fp Hd. cbn.
      destruct (evictDelete_same (rq_key q) e p) as (_ & -> & _). by apply (Hn c fp).
  - by apply release_QInv.
  - by apply sweep_QInv.
Qed.

Lemma uses_QInv s s' : rtc use s s' -> QInv (fst s) (snd s) -> QInv (fst s') (snd s').
Proof. induction 1; eauto using use_QInv. Qed.

Lemma QInv_New : QInv NewPool ∅.
Proof.
  split; [apply (si_pool _ SInv_New)|done|..].
  - by intros c ?%not_elem_of_empty.
  - intros c [v Hv]. by vm_compute in Hv.
  - by intros k c ?%lookup_empty_Some.
Qed.

Lemma close_closes p b c : QInv p b -> is_Some (p_dialed p !! c) -> c ∈ p_closed (Close p).
Proof.
  intros [I P C O H] Hc. unfold Close. rewrite closeAll_eq. cbn. rewrite P. cbn.
  rewrite elem_of_union, elem_of_list_to_set, elem_of_clientsOf. destruct (O c Hc) as [?|(k & e & R)]; [by right|left].
  by exists k, e.
Qed.

(** As long as no two goroutines use the same identity at the same time,
    the pool works: a borrowed connection stays open until it is given back,
    whatever the sweeper does; every connection that was dialed is either kept
    for reuse or closed, and shutting the pool down closes them all; and a
    cached connection is handed out only if its peer answers, its key material
    is the current one and the known host key, if any, is the one it saw. *)
Theorem pool_sequential p b :
  rtc use (NewPool, ∅) (p, b) ->
  (forall k c, b !! k = Some c -> c ∉ p_closed p) /\
  (forall c, is_Some (p_dialed p !! c) -> c ∈ p_closed p \/ inMap p c) /\
  (forall c, is_Some (p_dialed p !! c) -> c ∈ p_closed (Close p)) /\
  (forall q ck dial now c p', Connect q ck dial now p = (Some c, p') ->
     (exists fp, dial = Some (c, fp)) \/
     exists q' fp, p_dialed p !! c = Some (q', fp) /\ rq_key q' = rq_key q /\ sameMaterial q q' /\
       c ∉ p_closed p /\ ck_ping ck <> Some false /\
       forall GetKnownHost kh, ck_hostKey ck = Some GetKnownHost -> GetKnownHost (rq_addr q) = Some kh ->
         KnownHost_Fingerprint kh <> "" -> fp <> "" -> KnownHost_Fingerprint kh = fp).
Proof.
  intros R%uses_QInv; [|apply QInv_New]. cbn in R. pose proof (qi_pool p b R) as I. split_and!.
  - intros k c Hk. destruct (qi_held p b R k c Hk) as (e & x & He & Hx & Hc & _).
    destruct (pi_map p I k e He) as (c' & q & Hc' & _ & _ & Hn & _).
    unfold clientOf in Hc'. rewrite Hx in Hc'. cbn in Hc'. congruence.
  - apply (qi_open p b R).
  - intros c. by apply close_closes with b.
  - intros q ck dial now c p'. unfold Connect, lookupEntry.
    destruct (p_entries p !! rq_key q) as [e|] eqn:Ek.
    2: { destruct dial as [[c' fp]|]; [|done]. intros [= -> _]. left. by exists fp. }
    destruct (p_heap p !! e) as [x|] eqn:Ex; [|done].
    destruct (entryUsable x _ _ ck) eqn:U.
    2: { destruct dial as [[c' fp]|]; [|done]. intros [= -> _]. left. by exists fp. }
    intros [= <- _]. right. apply entryUsable_spec in U as (Hp & M & F).
    destruct (pi_map p I _ e Ek) as (c' & q' & Hc & D & K & Hn & _).
    destruct (pi_heap p I e x Ex) as (q'' & D' & R').
    unfold clientOf in Hc. rewrite Ex in Hc. injection Hc as <-.
    unfold dialedFor in D. rewrite D' in D. injection D as ->.
    exists q', (poolEntry_knownFingerprint x). rewrite R' in M.
    split_and!; try done; unfold sameMaterial; tauto.
Qed.

(** ** Witnesses and deviations *)

Definition q1 : Request := mkRequest "203.0.113.7:22" "root" "key-1" "PEM-1".
Definition alive : Checks := mkChecks (Some true) None.

Ltac one_step lem := eapply rtc_l; [eapply lem; (vm_compute; reflexivity)|].

Lemma pool_identity_witness :
  exists s, reachable s /\ exists q' : Request, dialedFor (s_pool s) 7 = Some q' /\ rq_addr q' = "203.0.113.7:22".
Proof.
  assert (exists s, reachable s /\ s_threads s !! 1%nat = Some (Holding q1 7) /\ dialedFor (s_pool s) 7 = Some q1)
    as (s & R & T & D).
  { eexists. split.
    - one_step (StepMiss 1 q1). one_step (StepDial 1 q1 7). one_step (StepInsert 1 q1 7 "SHA256:x" 0). apply rtc_refl.
    - split; vm_compute; reflexivity. }
  exists s. split; [exact R|]. destruct (pool_identity s R) as (H & _).
  destruct (H 1%nat q1 7%nat T) as (q' & D' & _ & E); [vm_compute; reflexivity..|].
  exists q'. split; [exact D'|]. rewrite D in D'. injection D' as <-. reflexivity.
Defined.

Lemma pool_sequential_witness :
  exists p b, rtc use (NewPool, ∅) (p, b) /\ 7%nat ∈ p_closed (Close p).
Proof.
  exists (snd (Connect q1 alive (Some (7%nat, "SHA256:x")) 0 NewPool)), (<[rq_key q1 := 7%nat]> ∅).
  assert (rtc use (NewPool, ∅)
    (snd (Connect q1 alive (Some (7%nat, "SHA256:x")) 0 NewPool), <[rq_key q1 := 7%nat]> ∅)) as R.
  { eapply rtc_l; [|apply rtc_refl].
    apply (UseConnect q1 alive (Some (7%nat, "SHA256:x")) 0 NewPool ∅); [reflexivity|].
    intros c fp _. reflexivity. }
  split; [exact R|]. apply (pool_sequential _ _ R). eexists. vm_compute. reflexivity.
Defined.

(** An entry in use is handed out again, and the first release marks it idle:
    five minutes later the sweeper closes the connection the second borrower
    still holds, although its comment says that it only evicts idle entries. *)
Lemma shared_entry_swept :
  exists s, reachable s /\ s_threads s !! 2%nat = Some (Holding q1 7) /\ 7%nat ∈ p_closed (s_pool s).
Proof.
  eexists. split.
  - one_step (StepMiss 1 q1). one_step (StepDial 1 q1 7). one_step (StepInsert 1 q1 7 "SHA256:x" 0).
    one_step (StepHit 2 q1 0).
    eapply rtc_l; [apply (StepVerify 2 q1 0 (mkPoolEntry 7 0 "SHA256:x" "PEM-1" true) alive); vm_compute; reflexivity|].
    eapply rtc_l; [apply (StepBorrow 2 q1 0 7 10); vm_compute; reflexivity|].
    eapply rtc_l; [apply (StepRelease 1 q1 7 20); vm_compute; reflexivity|].
    eapply rtc_l; [apply (StepSweep (6 * 60 * 10 ^ 9))|].
    eapply rtc_l; [apply StepClosePending|]. apply rtc_refl.
  - split; [vm_compute; reflexivity|]. apply (bool_decide_unpack _). vm_compute. exact I.
Qed.

(** Two first connections at once: the entry of the slower one replaces the one
    the faster already gave back, and that connection is neither in the map nor
    held nor ever closed. *)
Lemma overwritten_entry_leaks :
  exists s, reachable s /\ is_Some (p_dialed (s_pool s) !! 7%nat) /\ 7%nat ∉ p_closed (s_pool s) /\
    p_pending (s_pool s) = [] /\ s_threads s = ∅ /\ 7%nat ∉ clientsOf (p_entries (s_pool s)) (s_pool s).
Proof.
  eexists. split.
  - one_step (StepMiss 1 q1). one_step (StepMiss 2 q1).
    one_step (StepDial 1 q1 7). one_step (StepInsert 1 q1 7 "SHA256:x" 0).
    eapply rtc_l; [apply (StepRelease 1 q1 7 5); vm_compute; reflexivity|].
    one_step (StepDial 2 q1 8). one_step (StepInsert 2 q1 8 "SHA256:x" 10).
    eapply rtc_l; [apply (StepRelease 2 q1 8 20); vm_compute; reflexivity|]. apply rtc_refl.
  - split; [eexists; vm_compute; reflexivity|].
    split_and!; try (vm_compute; reflexivity); apply (bool_decide_unpack _); vm_compute; exact I.
Qed.
