(* ===== verification/PanelAuth.v ===== *)
(** * PanelAuth: the login gate of the panel

    internal/web/authlimiter.go and auth.go: the rate limiter for failed logins,
    the Basic Authentication middleware and the address a request is counted
    under; csrf.go: the test of the origin; server.go: the order in which the
    middlewares run, and the interface hook.  The password check (bcrypt) and
    the parsing of IP addresses and URLs (packages net and net/url) are
    arguments. *)

From S2P Require Import Prelude GoStrings.

(** ** The limiter (authlimiter.go) *)

(** [authLimiter]. *)
Record authLimiter := mkAuthLimiter {
  maxFailures : Z;
  window : Z;
  failures : gmap string (list Time) }.
#[export] Instance eta_authLimiter : Eta authLimiter := fun r =>
  mkAuthLimiter (maxFailures r) (window r) (failures r).

(** [newAuthLimiter]. *)
Definition newAuthLimiter (max w : Z) : authLimiter :=
  mkAuthLimiter (if max <? 1 then 1 else max) (if w <=? 0 then 60 * 10 ^ 9 else w) ∅.

(** [defaultAuthLimiter]: ten failures in fifteen minutes. *)
Definition defaultAuthLimiter : authLimiter := newAuthLimiter 10 (15 * 60 * 10 ^ 9).

Definition failuresOf (l : authLimiter) (ip : string) : list Time := default [] (failures l !! ip).

(** The failures later than [cutoff]. *)
Definition after (cutoff : Time) (ts : list Time) : list Time := List.filter (fun t => cutoff <? t) ts.

(** [authLimiter.allow]. *)
Definition allow (ip : string) (now : Time) (l : authLimiter) : bool * authLimiter :=
  let keep := after (now - window l) (failuresOf l ip) in
  (Z.of_nat (length keep) <? maxFailures l,
   l <| failures := match keep with [] => delete ip (failures l) | _ => <[ip := keep]> (failures l) end |>).

(** [authLimiter.recordFailure]. *)
Definition recordFailure (ip : string) (now : Time) (l : authLimiter) : authLimiter :=
  l <| failures := <[ip := after (now - window l) (failuresOf l ip) ++ [now]]> (failures l) |>.

(** [authLimiter.clear]. *)
Definition clear (ip : string) (l : authLimiter) : authLimiter :=
  l <| failures := delete ip (failures l) |>.

(** ** Requests (auth.go) *)

Record HTTPRequest := mkHTTPRequest {
  Method : string;
  Host : string;
  URLHost : string;
  RemoteAddr : string;
  Header : string -> string;
  BasicAuth : option (string * string) }.
#[export] Instance eta_HTTPRequest : Eta HTTPRequest := fun r =>
  mkHTTPRequest (Method r) (Host r) (URLHost r) (RemoteAddr r) (Header r) (BasicAuth r).

(** The fields of the configuration the gate reads. *)
Record AuthConfig := mkAuthConfig {
  AuthEnabled : bool;
  AuthUsername : string;
  AuthPasswordHash : string }.

Inductive AuthResponse := Served | RateLimited | Unauthorized.

#[export] Instance AuthResponse_eq_dec : EqDecision AuthResponse.
Proof. solve_decision. Defined.

(** What the gate takes from bcrypt, package net and package net/url: the
    comparison of a hash with a password, whether a string is an IP address that
    is loopback, and the scheme and host of a URL ([None]: it does not parse). *)
Class AuthLibs := mkAuthLibs {
  CompareHashAndPassword : string -> string -> bool;
  isLoopbackHost : string -> bool;
  urlParse : string -> option (string * string) }.

Definition comma : ascii := ",".

Section Gate.
Context {AL : AuthLibs}.

(** The host of [RemoteAddr]. *)
Definition remoteHost (r : HTTPRequest) : string :=
  match SplitHostPort (RemoteAddr r) with Some (host, _) => host | None => RemoteAddr r end.

(** [clientIP]. *)
Definition clientIP (r : HTTPRequest) : string :=
  let host := remoteHost r in
  if isLoopbackHost host then
    if Header r "X-Forwarded-For" != "" then
      TrimSpace (List.last (Split comma (Header r "X-Forwarded-For")) "")
    else if TrimSpace (Header r "X-Real-IP") != "" then TrimSpace (Header r "X-Real-IP")
    else host
  else host.

(** The credentials are the configured ones. *)
Definition accepts (cfg : AuthConfig) (user pass : string) : bool :=
  (user == AuthUsername cfg) && CompareHashAndPassword (AuthPasswordHash cfg) pass.

(** [BasicAuthMiddleware]: [now] is the clock when the limiter is asked,
    [now'] when a failure is recorded, after the password was checked. *)
Definition BasicAuthMiddleware (cfg : AuthConfig) (r : HTTPRequest) (now now' : Time) (l : authLimiter)
  : AuthResponse * authLimiter :=
  if negb (AuthEnabled cfg) then (Served, l)
  else
    let ip := clientIP r in
    let (ok, l1) := allow ip now l in
    if negb ok then (RateLimited, l1)
    else match BasicAuth r with
         | None => (Unauthorized, l1)
         | Some (user, pass) =>
             if user != AuthUsername cfg then (Unauthorized, recordFailure ip now' l1)
             else if negb (CompareHashAndPassword (AuthPasswordHash cfg) pass)
             then (Unauthorized, recordFailure ip now' l1)
             else (Served, clear ip l1)
         end.

(** ** The origin of a request (csrf.go) *)

(** [isSafeMethod]. *)
Definition isSafeMethod (m : string) : bool := (m == "GET") || (m == "HEAD") || (m == "OPTIONS").

(** [requestOrigin]. *)
Definition requestOrigin (r : HTTPRequest) : string :=
  ToLower (if Host r == "" then URLHost r else Host r).

(** [equalOrigin]. *)
Definition equalOrigin (headerValue panelHost : string) : bool :=
  if (headerValue == "") || (headerValue == "null") then false
  else match urlParse headerValue with
       | None => false
       | Some (scheme, host) =>
           if host == "" then false
           else if (scheme != "") && (scheme != "http") && (scheme != "https") then false
           else ToLower host == panelHost
       end.

(** [sameOrigin]. *)
Definition sameOrigin (r : HTTPRequest) : bool :=
  let sfs := Header r "Sec-Fetch-Site" in
  if sfs != "" then sfs == "same-origin"
  else
    let target := requestOrigin r in
    if target == "" then false
    else if Header r "Origin" != "" then equalOrigin (Header r "Origin") target
    else if Header r "Referer" != "" then equalOrigin (Header r "Referer") target
    else false.

(** [CSRSMiddleware]: the request goes on to the handler. *)
Definition csrfPasses (r : HTTPRequest) : bool := isSafeMethod (Method r) || sameOrigin r.

(** [forwardedByProxy]. *)
Definition forwardedByProxy (r : HTTPRequest) : bool :=
  (Header r "X-Forwarded-For" != "") || (Header r "X-Real-IP" != "") || (Header r "X-Forwarded-Proto" != "").

(** The guard of [handleNDMHook]. *)
Definition ndmHookLocal (r : HTTPRequest) : bool :=
  match SplitHostPort (RemoteAddr r) with
  | None => false
  | Some (host, _) => ((host == "127.0.0.1") || (host == "::1")) && negb (forwardedByProxy r)
  end.

(** The server: the origin is tested first, then the hook has its own guard and
    every page of the panel passes the login gate.  [None]: forbidden. *)
Definition servePage (cfg : AuthConfig) (r : HTTPRequest) (now now' : Time) (l : authLimiter)
  : option AuthResponse * authLimiter :=
  if csrfPasses r then
    let (resp, l') := BasicAuthMiddleware cfg r now now' l in (Some resp, l')
  else (None, l).

Definition serveNDMHook (r : HTTPRequest) : option AuthResponse :=
  if csrfPasses r then if ndmHookLocal r then Some Served else None else None.

(** ** A reference: the log of the logins *)

(** A login that was examined: from where, when it was recorded, and whether
    it succeeded. *)
Record Login := mkLogin { lg_ip : string; lg_time : Time; lg_ok : bool }.

(** The failures of an address since its last success; the log is newest first. *)
Fixpoint failedSince (ip : string) (log : list Login) : list Time :=
  match log with
  | [] => []
  | e :: log' =>
      if lg_ip e == ip then
        if lg_ok e then [] else lg_time e :: failedSince ip log'
      else failedSince ip log'
  end.

(** The rule: an address with [max] failures in the window before [now] waits. *)
Definition lockedOut (max w : Z) (log : list Login) (ip : string) (now : Time) : bool :=
  max <=? Z.of_nat (length (after (now - w) (failedSince ip log))).

(** What a request adds to the log. *)
Definition logLogin (cfg : AuthConfig) (r : HTTPRequest) (resp : AuthResponse) (now' : Time) (log : list Login) : list Login :=
  match resp, BasicAuth r with
  | RateLimited, _ | _, None => log
  | Served, _ => mkLogin (clientIP r) now' true :: log
  | Unauthorized, _ => mkLogin (clientIP r) now' false :: log
  end.

(** Requests one after the other; the clock does not go back. *)
Inductive history (cfg : AuthConfig) (l0 : authLimiter) : Time -> authLimiter -> list Login -> Prop :=
| HistoryStart t : history cfg l0 t l0 []
| HistoryRequest t l log r now now' :
    history cfg l0 t l log -> t <= now -> now <= now' ->
    let res := BasicAuthMiddleware cfg r now now' l in
    history cfg l0 now' (snd res) (logLogin cfg r (fst res) now' log).

(** ** Lemmas *)

Lemma after_app c ts us : after c (ts ++ us) = after c ts ++ after c us.
Proof. apply List.filter_app. Qed.

Lemma after_after c c' ts : c <= c' -> after c' (after c ts) = after c' ts.
Proof.
  intros H. unfold after. induction ts as [|t ts IH]; cbn; [done|].
  destruct (c <? t) eqn:E; cbn; rewrite IH; [done|].
  destruct (c' <? t) eqn:E'; [|done]. bool_to_prop. lia.
Qed.

Lemma after_le c c' ts : c <= c' -> (length (after c' ts) <= length (after c ts))%nat.
Proof.
  intros H. unfold after. induction ts as [|t ts IH]; cbn; [done|].
  destruct (c <? t) eqn:E, (c' <? t) eqn:E'; cbn; bool_to_prop; lia.
Qed.

Lemma after_rev c ts : after c (rev ts) = rev (after c ts).
Proof.
  induction ts as [|t ts IH]; [done|]. cbn [rev]. rewrite after_app, IH. unfold after. cbn.
  destruct (c <? t); cbn; [done|]. by rewrite app_nil_r.
Qed.

Lemma failuresOf_insert l ip ts ip' :
  failuresOf (l <| failures := <[ip := ts]> (failures l) |>) ip' = if ip == ip' then ts else failuresOf l ip'.
Proof.
  unfold failuresOf. cbn. case_bool_decide as E; [subst; by rewrite lookup_insert_eq|].
  by rewrite lookup_insert_ne.
Qed.

Lemma failuresOf_delete l ip ip' :
  failuresOf (l <| failures := delete ip (failures l) |>) ip' = if ip == ip' then [] else failuresOf l ip'.
Proof.
  unfold failuresOf. cbn. case_bool_decide as E; [subst; by rewrite lookup_delete_eq|].
  by rewrite lookup_delete_ne.
Qed.

Lemma failuresOf_allow ip now l ip' :
  failuresOf (snd (allow ip now l)) ip' =
  if ip == ip' then after (now - window l) (failuresOf l ip) else failuresOf l ip'.
Proof.
  unfold allow. cbn. destruct (after (now - window l) (failuresOf l ip)) as [|t ts].
  - apply failuresOf_delete.
  - apply failuresOf_insert.
Qed.

(** The limiter holds what the log says, for every later window. *)
Record agrees (l : authLimiter) (log : list Login) (t : Time) : Prop := {
  ag_failures : forall ip now, t <= now ->
    after (now - window l) (failuresOf l ip) = rev (after (now - window l) (failedSince ip log));
  ag_bound : forall ip now, t <= now ->
    Z.of_nat (length (after (now - window l) (failedSince ip log))) <= maxFailures l }.

Lemma agrees_allow l log t ip now : t <= now -> agrees l log t -> agrees (snd (allow ip now l)) log now.
Proof.
  intros Hn [A B]. split.
  - intros ip' now' Hn'. change (window (snd (allow ip now l))) with (window l). rewrite failuresOf_allow.
    case_bool_decide; [subst ip'; rewrite after_after by lia|]; apply A; lia.
  - intros ip' now' Hn'. change (window (snd (allow ip now l))) with (window l).
    change (maxFailures (snd (allow ip now l))) with (maxFailures l). apply B. lia.
Qed.

Lemma agrees_later l log t t' : t <= t' -> agrees l log t -> agrees l log t'.
Proof. intros H [A B]. split; intros; [apply A|apply B]; lia. Qed.

Lemma agrees_failure l log t ip now :
  t <= now -> agrees l log t -> Z.of_nat (length (after (t - window l) (failedSince ip log))) < maxFailures l ->
  agrees (recordFailure ip now l) (mkLogin ip now false :: log) now.
Proof.
  intros Hn [A B] Hlt. split; intros ip' now' Hn'; cbn [lg_ip lg_ok lg_time failedSince];
    change (window (recordFailure ip now l)) with (window l);
    change (maxFailures (recordFailure ip now l)) with (maxFailures l).
  - unfold recordFailure. rewrite failuresOf_insert. case_bool_decide as E; [subst ip'|apply A; lia].
    rewrite after_app, after_after, A by lia. cbn. destruct (now' - window l <? now); cbn; [done|].
    apply app_nil_r.
  - case_bool_decide as E; [subst ip'|apply B; lia].
    pose proof (after_le (t - window l) (now' - window l) (failedSince ip log) ltac:(lia)) as Hle.
    unfold after in *. cbn [List.filter]. destruct (now' - window l <? now); cbn [length]; lia.
Qed.

Lemma agrees_success l log t ip now :
  t <= now -> 0 <= maxFailures l -> agrees l log t -> agrees (clear ip l) (mkLogin ip now true :: log) now.
Proof.
  intros Hn Hp [A B]. split; intros ip' now' Hn'; cbn [lg_ip lg_ok lg_time failedSince];
    change (window (clear ip l)) with (window l); change (maxFailures (clear ip l)) with (maxFailures l).
  - unfold clear. rewrite failuresOf_delete. case_bool_decide; [done|apply A; lia].
  - case_bool_decide; [done|apply B; lia].
Qed.

(** The answer of [allow] is the rule's. *)
Lemma allow_rule l log t ip now :
  t <= now -> agrees l log t -> fst (allow ip now l) = negb (lockedOut (maxFailures l) (window l) log ip now).
Proof.
  intros Hn [A _]. unfold allow, lockedOut. cbn. rewrite A, length_rev by done.
  by rewrite <- Z.ltb_antisym.
Qed.

(** The answer of the gate in terms of the log. *)
Definition gateAnswer (cfg : AuthConfig) (max w : Z) (log : list Login) (r : HTTPRequest) (now : Time) : AuthResponse :=
  if lockedOut max w log (clientIP r) now then RateLimited
  else match BasicAuth r with
       | Some (user, pass) => if accepts cfg user pass then Served else Unauthorized
       | None => Unauthorized
       end.

Lemma middleware_agrees cfg r now now' l log t :
  AuthEnabled cfg = true -> 1 <= maxFailures l -> agrees l log t -> t <= now -> now <= now' ->
  let res := BasicAuthMiddleware cfg r now now' l in
  fst res = gateAnswer cfg (maxFailures l) (window l) log r now /\
  agrees (snd res) (logLogin cfg r (fst res) now' log) now' /\
  maxFailures (snd res) = maxFailures l /\ window (snd res) = window l.
Proof.
  intros En Hm A H1 H2. unfold BasicAuthMiddleware, gateAnswer, accepts. rewrite En. cbn [negb].
  pose proof (allow_rule l log t (clientIP r) now H1 A) as R.
  pose proof (agrees_allow l log t (clientIP r) now H1 A) as A1.
  destruct (allow (clientIP r) now l) as [ok l1] eqn:E. cbn [fst snd] in R, A1. subst ok.
  assert (maxFailures l1 = maxFailures l /\ window l1 = window l) as [Hmax Hw] by (by injection E as _ <-).
  destruct (lockedOut _ _ log (clientIP r) now) eqn:L; cbn [negb].
  { cbn [fst snd]. split_and!; [done|by apply agrees_later with now|done..]. }
  assert (Z.of_nat (length (after (now - window l1) (failedSince (clientIP r) log))) < maxFailures l1) as Hlt.
  { rewrite Hw, Hmax. unfold lockedOut in L. bool_to_prop. done. }
  destruct (BasicAuth r) as [[user pass]|] eqn:B; cbn [fst snd].
  2: { unfold logLogin. rewrite B. split_and!; [done|by apply agrees_later with now|done..]. }
  case_bool_decide as U; cbn [negb andb fst snd]; [destruct (CompareHashAndPassword _ _); cbn [negb fst snd]|];
    unfold logLogin; rewrite B; (split_and!; [done| |done..]).
  - apply agrees_success with now; [done|lia|done].
  - by apply agrees_failure with now.
  - by apply agrees_failure with now.
Qed.

Lemma newAuthLimiter_params max w : 1 <= maxFailures (newAuthLimiter max w) /\ 0 < window (newAuthLimiter max w).
Proof. unfold newAuthLimiter. cbn. destruct (max <? 1) eqn:?, (w <=? 0) eqn:?; bool_to_prop; lia. Qed.

Lemma history_agrees cfg max w t l log :
  AuthEnabled cfg = true -> history cfg (newAuthLimiter max w) t l log ->
  agrees l log t /\ maxFailures l = maxFailures (newAuthLimiter max w) /\ window l = window (newAuthLimiter max w).
Proof.
  intros En. destruct (newAuthLimiter_params max w) as [Hm _]. induction 1 as [t|t l log r now now' _ [A [M W]] H1 H2 res].
  - split; [|done]. split; intros ip now _; cbn [failedSince].
    + unfold failuresOf. cbn. done.
    + cbn [after List.filter length]. unfold after. cbn [List.filter length]. lia.
  - destruct (middleware_agrees cfg r now now' l log t En ltac:(lia) A H1 H2) as (_ & A' & M' & W').
    unfold res. split; [exact A'|]. split; congruence.
Qed.

(** C34: For requests that come one after the other, the login gate is exactly
    the stated rule: an address is refused when it has [maxFailures] failed
    logins in the window since its last success, whatever the other addresses
    do, and is otherwise answered by its credentials alone; so at most
    [maxFailures] wrong passwords of an address are ever examined in a window. *)
Theorem login_gate_exact cfg max w t l log r now now' :
  AuthEnabled cfg = true -> history cfg (newAuthLimiter max w) t l log -> t <= now -> now <= now' ->
  let l0 := newAuthLimiter max w in
  fst (BasicAuthMiddleware cfg r now now' l) = gateAnswer cfg (maxFailures l0) (window l0) log r now /\
  forall ip, Z.of_nat (length (after (now - window l0) (failedSince ip log))) <= maxFailures l0.
Proof.
  intros En H H1 H2 l0. destruct (history_agrees cfg max w t l log En H) as (A & M & W).
  destruct (newAuthLimiter_params max w) as [Hm _].
  destruct (middleware_agrees cfg r now now' l log t En ltac:(lia) A H1 H2) as (R & _).
  unfold l0. rewrite <- M, <- W. split; [exact R|]. intros ip. by apply (ag_bound l log t A).
Qed.

(** The address of a request that does not come from a proxy on this host does
    not depend on its headers. *)
Lemma clientIP_direct r h :
  isLoopbackHost (remoteHost r) = false -> clientIP (r <| Header := h |>) = clientIP r.
Proof. unfold clientIP. intros H. unfold remoteHost in *. cbn. by rewrite H. Qed.

(** A state-changing request is executed only with the credentials of the
    panel and evidence that a page of the panel sent it. *)
Lemma servePage_guarded cfg r now now' l :
  AuthEnabled cfg = true -> isSafeMethod (Method r) = false ->
  fst (servePage cfg r now now' l) = Some Served ->
  (exists user pass, BasicAuth r = Some (user, pass) /\ accepts cfg user pass = true) /\
  (Header r "Sec-Fetch-Site" = "same-origin" \/
   Header r "Sec-Fetch-Site" = "" /\ requestOrigin r <> "" /\
   exists v scheme host, (v = Header r "Origin" \/ Header r "Origin" = "" /\ v = Header r "Referer") /\
     urlParse v = Some (scheme, host) /\ ToLower host = requestOrigin r).
Proof.
  intros En Hm. unfold servePage, csrfPasses. rewrite Hm. cbn [orb].
  destruct (sameOrigin r) eqn:O; [|done]. unfold BasicAuthMiddleware. rewrite En. cbn [negb].
  destruct (allow (clientIP r) now l) as [[] l1]; cbn [negb]; [|done].
  destruct (BasicAuth r) as [[user pass]|] eqn:B; [|done].
  destruct (user != AuthUsername cfg) eqn:U; [done|].
  destruct (CompareHashAndPassword _ pass) eqn:P; cbn [negb]; [|done]. intros _. split.
  { exists user, pass. split; [done|]. unfold accepts. apply negb_false_iff in U. by rewrite U, P. }
  unfold sameOrigin in O. cbv zeta in O. destruct (Header r "Sec-Fetch-Site" != "") eqn:Hs; bool_to_prop; [by left|].
  right. split; [done|]. destruct (requestOrigin r == "") eqn:Ht; [done|]. bool_to_prop. split; [done|].
  assert (forall v, equalOrigin v (requestOrigin r) = true ->
    exists scheme host, urlParse v = Some (scheme, host) /\ ToLower host = requestOrigin r) as EO.
  { intros v. unfold equalOrigin. destruct (_ || _); [done|]. destruct (urlParse v) as [[sch h]|]; [|done].
    destruct (h == ""); [done|]. destruct (_ && _); [done|]. intros E%bool_decide_eq_true. by exists sch, h. }
  destruct (Header r "Origin" != "") eqn:Ho; bool_to_prop.
  - destruct (EO _ O) as (sch & h & E1 & E2). exists (Header r "Origin"), sch, h. split; [by left|done].
  - destruct (Header r "Referer" != ""); [|done]. destruct (EO _ O) as (sch & h & E1 & E2).
    exists (Header r "Referer"), sch, h. split; [by right|done].
Qed.

(** The hook script of the router posts with wget, which sends none of the
    three headers: the test of the origin refuses it before its own guard. *)
Lemma ndm_hook_rejected r :
  Method r = "POST" -> Header r "Sec-Fetch-Site" = "" -> Header r "Origin" = "" -> Header r "Referer" = "" ->
  serveNDMHook r = None.
Proof.
  intros Hm Hs Ho Hr. unfold serveNDMHook, csrfPasses, sameOrigin. rewrite Hm, Hs, Ho, Hr.
  rewrite (bool_decide_eq_true_2 ("" = "")) by done. cbn [negb]. by destruct (requestOrigin r == "").
Qed.

(** [n] requests of one address ask the limiter before any of them is done. *)
Fixpoint askAll (n : nat) (ip : string) (now : Time) (l : authLimiter) : list bool :=
  match n with
  | O => []
  | S n' => fst (allow ip now l) :: askAll n' ip now (snd (allow ip now l))
  end.

(** Requests in flight at the same time are all examined: the limiter is asked
    before and told after the password check, so a burst of any size passes. *)
Lemma burst_passes n : forall ip now l,
  failuresOf l ip = [] -> 1 <= maxFailures l -> askAll n ip now l = replicate n true.
Proof.
  induction n as [|n IH]; intros ip now l Hf Hm; [done|]. cbn [askAll replicate]. f_equal.
  - unfold allow. cbn [fst]. rewrite Hf. cbn. apply Z.ltb_lt. lia.
  - apply IH; [|exact Hm]. rewrite failuresOf_allow, Hf. by case_bool_decide.
Qed.
End Gate.

(** ** Witness *)

#[local] Instance plainLibs : AuthLibs := mkAuthLibs (fun hash pass => hash == pass) (fun h => h == "127.0.0.1")
  (fun u => if HasPrefix u "http://" then Some ("http", TrimPrefix u "http://") else None).

Definition demoConfig : AuthConfig := mkAuthConfig true "admin" "secret".
Definition demoRequest (pass : string) : HTTPRequest :=
  mkHTTPRequest "POST" "panel" "" "198.51.100.4:5000" (fun _ => "") (Some ("admin", pass)).

(** Two failures lock a limiter of two; the window later the address may try again. *)
Lemma login_gate_exact_witness :
  exists l log, history demoConfig (newAuthLimiter 2 100) 2 l log /\
    fst (BasicAuthMiddleware demoConfig (demoRequest "secret") 3 3 l) = RateLimited /\
    fst (BasicAuthMiddleware demoConfig (demoRequest "secret") 200 200 l) = Served.
Proof.
  assert (exists l log, history demoConfig (newAuthLimiter 2 100) 2 l log /\
    log = [mkLogin "198.51.100.4" 2 false; mkLogin "198.51.100.4" 1 false]) as (l & log & H & ->).
  { eexists _, _. split.
    - eapply (HistoryRequest _ _ 1 _ _ (demoRequest "x") 2 2); [|lia..].
      eapply (HistoryRequest _ _ 0 _ _ (demoRequest "y") 1 1); [|lia..]. apply HistoryStart.
    - vm_compute. reflexivity. }
  exists l, [mkLogin "198.51.100.4" 2 false; mkLogin "198.51.100.4" 1 false].
  split; [exact H|]. split.
  - destruct (login_gate_exact demoConfig 2 100 2 l _ (demoRequest "secret") 3 3 eq_refl H) as [-> _]; [lia..|].
    vm_compute. reflexivity.
  - destruct (login_gate_exact demoConfig 2 100 2 l _ (demoRequest "secret") 200 200 eq_refl H) as [-> _]; [lia..|].
    vm_compute. reflexivity.
Defined.
