(* ===== verification/BackupBlob.v ===== *)
(** * BackupBlob: backups sealed with a passphrase

    internal/chain/backup_crypto.go: the blob of an offsite backup is a header
    with the salt, the parameters of scrypt and the nonce, followed by the data
    sealed with AES-256-GCM under the key that scrypt derives from the
    passphrase.  scrypt and GCM are the interface [BackupCrypto]. *)

From S2P Require Import Prelude GoStrings Codec.

(** ** The interface to the cryptography *)

(** [scryptKey] is scrypt.Key with a key of 32 bytes; it succeeds for the
    parameters its documentation allows.  [gcmSeal] and [gcmOpen] are the AEAD of
    a key, without additional data: what is opened is what was sealed, and GCM
    being deterministic, only the sealed text of a plaintext opens. *)
Class BackupCrypto := {
  scryptKey : string -> string -> Z -> Z -> Z -> option string;
  gcmSeal : string -> string -> string -> string;
  gcmOpen : string -> string -> string -> option string;
  scrypt_defined : forall pass salt N r p,
    1 < N -> Z.land N (N - 1) = 0 -> 1 <= r -> 1 <= p -> r * p < 2 ^ 30 -> 128 * N * r < 2 ^ 63 ->
    is_Some (scryptKey pass salt N r p);
  gcm_open_seal : forall key nonce plain, gcmOpen key nonce (gcmSeal key nonce plain) = Some plain;
  gcm_open_only : forall key nonce ct plain, gcmOpen key nonce ct = Some plain -> ct = gcmSeal key nonce plain }.

(** ** The blob *)

Definition backupBlobMagic : string := "ABBKP1".
Definition backupScryptN : Z := 65536.
Definition backupScryptR : Z := 8.
Definition backupScryptP : Z := 1.
Definition backupScryptNMax : Z := 1048576.
Definition backupScryptRMax : Z := 8.
Definition backupScryptPMax : Z := 1.
Definition backupSaltLen : nat := 16.
Definition backupNonceLen : nat := 12.

(** The errors of the two directions. *)
Inductive BlobErr :=
  | EmptyPassphrase
  | ScryptN | ScryptR | ScryptP
  | NoSalt | NoNonce | DeriveErr
  | ErrBackupBlob | TruncatedBlob | WrongPassphrase.

(** [ValidateScryptParams]. *)
Definition ValidateScryptParams (N r p : Z) : option BlobErr :=
  if (N <? 2) || (backupScryptNMax <? N) || negb (Z.land N (N - 1) =? 0) then Some ScryptN
  else if (r <? 1) || (backupScryptRMax <? r) then Some ScryptR
  else if (p <? 1) || (backupScryptPMax <? p) then Some ScryptP
  else None.

(** [appendUint32BE] and [appendUint16BE]: the bytes of an unsigned integer of
    the width, most significant first. *)
Definition lowByte (v : Z) : ascii := Zbyte (Z.land v 255).
Definition appendUint32BE (out : string) (v : Z) : string :=
  out +:+ String (lowByte (Z.shiftr v 24)) (String (lowByte (Z.shiftr v 16)) (String (lowByte (Z.shiftr v 8)) (String (lowByte v) ""))).
Definition appendUint16BE (out : string) (v : Z) : string :=
  out +:+ String (lowByte (Z.shiftr v 8)) (String (lowByte v) "").

(** [binary.BigEndian.Uint32] and [Uint16], on the bytes they look at. *)
Fixpoint bigEndian (acc : Z) (s : string) : Z :=
  match s with "" => acc | String c s' => bigEndian (acc * 256 + byteZ c) s' end.
Definition Uint (s : string) : Z := bigEndian 0 s.

(** The header before the sealed data. *)
Definition blobHeader (salt nonce : string) (N r p : Z) : string :=
  appendUint16BE (appendUint16BE (appendUint32BE (backupBlobMagic +:+ salt) N) r) p +:+ nonce.

Definition orDefault (v d : Z) : Z := if v <=? 0 then d else v.

Section blob.
Context `{crypto : !BackupCrypto}.

(** [EncryptBackupWithParams]; [salt] and [nonce] are what crypto/rand reads, or
    its errors.  The conversions of the validated parameters to 32 and 16 bits
    keep them. *)
Definition EncryptBackupWithParams (plaintext passphrase : string) (N r p : Z) (salt nonce : option string) : BlobErr + string :=
  if passphrase == "" then inl EmptyPassphrase
  else
    let N := orDefault N backupScryptN in
    let r := orDefault r backupScryptR in
    let p := orDefault p backupScryptP in
    match ValidateScryptParams N r p with
    | Some e => inl e
    | None =>
        match salt with
        | None => inl NoSalt
        | Some salt =>
            match scryptKey passphrase salt N r p with
            | None => inl DeriveErr
            | Some key =>
                match nonce with
                | None => inl NoNonce
                | Some nonce => inr (blobHeader salt nonce (N `mod` 2 ^ 32) (r `mod` 2 ^ 16) (p `mod` 2 ^ 16) +:+ gcmSeal key nonce plaintext)
                end
            end
        end
    end.

(** [EncryptBackup]. *)
Definition EncryptBackup (plaintext passphrase : string) (salt nonce : option string) : BlobErr + string :=
  EncryptBackupWithParams plaintext passphrase backupScryptN backupScryptR backupScryptP salt nonce.

(** [IsBackupBlob]. *)
Definition IsBackupBlob (data : string) : bool :=
  (String.length backupBlobMagic <=? String.length data)%nat &&
  (take_string (String.length backupBlobMagic) data == backupBlobMagic).

(** [DecryptBackup]. *)
Definition DecryptBackup (blob passphrase : string) : BlobErr + string :=
  if negb (IsBackupBlob blob) then inl ErrBackupBlob
  else
    let rest := drop_string (String.length backupBlobMagic) blob in
    if (String.length rest <? backupSaltLen + 8 + backupNonceLen)%nat then inl TruncatedBlob
    else
      let salt := take_string backupSaltLen rest in
      let rest := drop_string backupSaltLen rest in
      let N := Uint (take_string 4 rest) in
      let r := Uint (take_string 2 (drop_string 4 rest)) in
      let p := Uint (take_string 2 (drop_string 6 rest)) in
      let rest := drop_string 8 rest in
      let nonce := take_string backupNonceLen rest in
      let ct := drop_string backupNonceLen rest in
      match ValidateScryptParams N r p with
      | Some e => inl e
      | None =>
          match scryptKey passphrase salt N r p with
          | None => inl DeriveErr
          | Some key =>
              match gcmOpen key nonce ct with
              | None => inl WrongPassphrase
              | Some plain => inr plain
              end
          end
      end.

(** ** Lemmas: the numbers of the header *)

Lemma lowByte_value v : byteZ (lowByte v) = v `mod` 256.
Proof.
  unfold lowByte, byteZ, Zbyte. change 255 with (Z.ones 8). rewrite Z.land_ones by done.
  pose proof (Z.mod_pos_bound v (2 ^ 8) eq_refl) as H. rewrite Ascii.N_ascii_embedding by lia. rewrite Z2N.id by lia. done.
Qed.

Lemma lowByte_byte a z : lowByte (a * 256 + byteZ z) = z.
Proof.
  unfold lowByte, Zbyte. change 255 with (Z.ones 8). rewrite Z.land_ones by done. change (2 ^ 8) with 256.
  pose proof (byteZ_range z). rewrite Z.add_comm, Z.mod_add, Z.mod_small by lia.
  unfold byteZ. rewrite N2Z.id. apply Ascii.ascii_N_embedding.
Qed.

Lemma shift_byte v z : Z.shiftr (v * 256 + byteZ z) 8 = v.
Proof. pose proof (byteZ_range z). rewrite Z.shiftr_div_pow2 by lia. change (2 ^ 8) with 256. rewrite Z.div_add_l, Z.div_small by lia. lia. Qed.

(** Two and four bytes are the bytes of the number they stand for. *)
Lemma Uint16_bytes out s : String.length s = 2%nat -> appendUint16BE out (Uint s) = out +:+ s.
Proof.
  destruct s as [|a [|b [|c s]]]; try done. intros _. unfold appendUint16BE, Uint. cbn [bigEndian].
  by rewrite shift_byte, !lowByte_byte.
Qed.

Lemma Uint32_bytes out s : String.length s = 4%nat -> appendUint32BE out (Uint s) = out +:+ s.
Proof.
  destruct s as [|a [|b [|c [|d [|e s]]]]]; try done. intros _. unfold appendUint32BE, Uint. cbn [bigEndian].
  change 24 with (8 + 16). change 16 with (8 + 8).
  rewrite <- !Z.shiftr_shiftr by lia. by rewrite !shift_byte, !lowByte_byte.
Qed.

Lemma bigEndian_bound s : forall acc, 0 <= acc -> 0 <= bigEndian acc s < (acc + 1) * 256 ^ Z.of_nat (String.length s).
Proof.
  induction s as [|c s IH]; intros acc Ha; cbn [bigEndian String.length]; [change (256 ^ Z.of_nat 0) with 1; lia|].
  pose proof (byteZ_range c). destruct (IH (acc * 256 + byteZ c)) as [H1 H2]; [lia|]. split; [done|].
  rewrite Nat2Z.inj_succ, Z.pow_succ_r by lia. pose proof (Z.pow_pos_nonneg 256 (Z.of_nat (String.length s))). nia.
Qed.

Lemma Uint_bound s n : String.length s = n -> 0 <= Uint s < 256 ^ Z.of_nat n.
Proof. intros <-. pose proof (bigEndian_bound s 0). unfold Uint. lia. Qed.

Lemma div_shift v k : 0 <= k -> Z.shiftr v k = v / 2 ^ k.
Proof. apply Z.shiftr_div_pow2. Qed.

Lemma Uint_append16 v : 0 <= v < 2 ^ 16 -> Uint (appendUint16BE "" v) = v.
Proof.
  intros H. unfold appendUint16BE, Uint. cbn [String.append bigEndian]. rewrite !lowByte_value, div_shift by done.
  change (2 ^ 8) with 256. change (2 ^ 16) with 65536 in H. pose proof (Z.div_mod v 256). rewrite (Z.mod_small (v / 256)) by (split; [apply Z.div_pos|apply Z.div_lt_upper_bound]; lia). lia.
Qed.

Lemma Uint_append32 v : 0 <= v < 2 ^ 32 -> Uint (appendUint32BE "" v) = v.
Proof.
  intros H. unfold appendUint32BE, Uint. cbn [String.append bigEndian]. rewrite !lowByte_value, !div_shift by done.
  change (2 ^ 24) with (256 * (256 * 256)). change (2 ^ 16) with (256 * 256). change (2 ^ 8) with 256. change (2 ^ 32) with 4294967296 in H.
  rewrite <- !Z.div_div by lia. rewrite (Z.mod_small (v / 256 / 256 / 256)) by (rewrite !Z.div_div by lia; split; [apply Z.div_pos|apply Z.div_lt_upper_bound]; lia).
  pose proof (Z.div_mod v 256). pose proof (Z.div_mod (v / 256) 256). pose proof (Z.div_mod (v / 256 / 256) 256). lia.
Qed.

(** ** Lemmas: cutting the header *)

Lemma take_drop_string n : forall s, take_string n s +:+ drop_string n s = s.
Proof. induction n as [|n IH]; intros [|c s]; cbn; try done. by rewrite IH. Qed.

Lemma length_take_string n : forall s, (n <= String.length s)%nat -> String.length (take_string n s) = n.
Proof. induction n as [|n IH]; intros [|c s] H; cbn in *; try done; [lia|]. rewrite IH; lia. Qed.

Lemma length_drop_string n : forall s, String.length (drop_string n s) = (String.length s - n)%nat.
Proof. induction n as [|n IH]; intros [|c s]; cbn; done. Qed.

Lemma take_app_exact n a b : String.length a = n -> take_string n (a +:+ b) = a.
Proof. intros <-. apply take_string_app. Qed.

Lemma drop_app_exact n a b : String.length a = n -> drop_string n (a +:+ b) = b.
Proof. intros <-. apply drop_string_app. Qed.

Lemma appendUint32BE_out out v : appendUint32BE out v = out +:+ appendUint32BE "" v.
Proof. done. Qed.
Lemma appendUint16BE_out out v : appendUint16BE out v = out +:+ appendUint16BE "" v.
Proof. done. Qed.

Lemma drop_drop_string m n s : drop_string m (drop_string n s) = drop_string (n + m) s.
Proof.
  revert s. induction n as [|n IH]; intros s; [done|]. destruct s as [|c s]; [|apply IH]. by destruct m.
Qed.

(** The header as its fields after each other. *)
Lemma blobHeader_fields salt nonce N r p :
  blobHeader salt nonce N r p =
    backupBlobMagic +:+ (salt +:+ (appendUint32BE "" N +:+ (appendUint16BE "" r +:+ (appendUint16BE "" p +:+ nonce)))).
Proof.
  unfold blobHeader. rewrite (appendUint32BE_out (_ +:+ _)), (appendUint16BE_out (_ +:+ _)), (appendUint16BE_out ((_ +:+ _) +:+ _)).
  by rewrite !string_app_assoc.
Qed.

Lemma ValidateScryptParams_None N r p : ValidateScryptParams N r p = None ->
  2 <= N <= 2 ^ 20 /\ Z.land N (N - 1) = 0 /\ 1 <= r <= 8 /\ p = 1.
Proof.
  unfold ValidateScryptParams, backupScryptNMax, backupScryptRMax, backupScryptPMax. intros H. repeat case_match; try done.
  change (2 ^ 20) with 1048576. lia.
Qed.

Lemma valid_key pass salt N r p : ValidateScryptParams N r p = None -> is_Some (scryptKey pass salt N r p).
Proof. intros (H1 & H2 & H3 & ->)%ValidateScryptParams_None. apply scrypt_defined; try lia; nia. Qed.

Lemma IsBackupBlob_magic tail : IsBackupBlob (backupBlobMagic +:+ tail) = true.
Proof.
  unfold IsBackupBlob. rewrite take_string_app, length_append. rewrite bool_decide_eq_true_2 by done. rewrite andb_true_r. apply Nat.leb_le. lia.
Qed.

Lemma IsBackupBlob_header salt nonce N r p ct : IsBackupBlob (blobHeader salt nonce N r p +:+ ct) = true.
Proof. rewrite blobHeader_fields, <- string_app_assoc. apply IsBackupBlob_magic. Qed.

Lemma Decrypt_header salt nonce N r p ct pass :
  String.length salt = backupSaltLen -> String.length nonce = backupNonceLen -> ValidateScryptParams N r p = None ->
  DecryptBackup (blobHeader salt nonce N r p +:+ ct) pass =
    match scryptKey pass salt N r p with
    | None => inl DeriveErr
    | Some key => match gcmOpen key nonce ct with None => inl WrongPassphrase | Some plain => inr plain end
    end.
Proof.
  intros Hs Hn Hv. pose proof (ValidateScryptParams_None N r p Hv) as (HN & _ & Hr & Hp).
  rewrite blobHeader_fields, <- !string_app_assoc. set (tail := salt +:+ _).
  unfold DecryptBackup. cbv zeta. rewrite IsBackupBlob_magic. cbn [negb]. rewrite drop_string_app.
  assert ((String.length tail <? backupSaltLen + 8 + backupNonceLen)%nat = false) as ->.
  { apply Nat.ltb_ge. unfold tail. rewrite !length_append, Hs, Hn.
    change (String.length (appendUint32BE "" N)) with 4%nat. change (String.length (appendUint16BE "" _)) with 2%nat. lia. }
  unfold tail. rewrite (take_app_exact _ _ _ Hs), (drop_app_exact _ _ _ Hs).
  rewrite (take_app_exact 4), Uint_append32 by (done || lia).
  rewrite <- (drop_drop_string 2 4), <- (drop_drop_string 4 4), !(drop_app_exact 4) by done.
  rewrite <- (drop_drop_string 2 2), !(drop_app_exact 2) by done.
  rewrite !(take_app_exact 2), !Uint_append16 by (done || lia).
  rewrite (take_app_exact _ _ _ Hn), (drop_app_exact _ _ _ Hn). by rewrite Hv.
Qed.

Lemma EncryptBackupWithParams_inr plain pass N r p salt nonce blob :
  EncryptBackupWithParams plain pass N r p salt nonce = inr blob ->
  let N := orDefault N backupScryptN in let r := orDefault r backupScryptR in let p := orDefault p backupScryptP in
  ValidateScryptParams N r p = None /\
  exists s n key, salt = Some s /\ nonce = Some n /\ scryptKey pass s N r p = Some key /\ blob = blobHeader s n N r p +:+ gcmSeal key n plain.
Proof.
  unfold EncryptBackupWithParams. cbv zeta. case_match; [done|]. destruct (ValidateScryptParams _ _ _) eqn:Hv; [done|].
  pose proof (ValidateScryptParams_None _ _ _ Hv) as (HN & _ & Hr & Hp). rewrite !Z.mod_small by lia.
  destruct salt as [s|]; [|done]. destruct (scryptKey _ _ _ _ _) as [key|] eqn:Hk; [|done]. destruct nonce as [n|]; [|done].
  intros [= <-]. split; [done|]. by exists s, n, key.
Qed.

Lemma EncryptBackupWithParams_valid plain pass N r p s n : pass <> "" ->
  ValidateScryptParams (orDefault N backupScryptN) (orDefault r backupScryptR) (orDefault p backupScryptP) = None ->
  exists blob, EncryptBackupWithParams plain pass N r p (Some s) (Some n) = inr blob.
Proof.
  intros Hp Hv. unfold EncryptBackupWithParams. cbv zeta. rewrite bool_decide_eq_false_2 by done. rewrite Hv.
  destruct (valid_key pass s _ _ _ Hv) as [key ->]. by eexists.
Qed.

Lemma valid_orDefault N r p : ValidateScryptParams N r p = None ->
  orDefault N backupScryptN = N /\ orDefault r backupScryptR = r /\ orDefault p backupScryptP = p.
Proof. intros (H1 & _ & H2 & ->)%ValidateScryptParams_None. unfold orDefault. repeat case_match; lia. Qed.

(** What decrypts is a header with valid parameters and a sealed text. *)
Lemma Decrypt_inr blob pass plain : DecryptBackup blob pass = inr plain ->
  exists salt nonce N r p key, String.length salt = backupSaltLen /\ String.length nonce = backupNonceLen /\
    ValidateScryptParams N r p = None /\ scryptKey pass salt N r p = Some key /\
    blob = blobHeader salt nonce N r p +:+ gcmSeal key nonce plain.
Proof.
  unfold DecryptBackup. cbv zeta. destruct (IsBackupBlob blob) eqn:Hm; [|done]. cbn [negb].
  set (rest := drop_string _ blob). destruct (_ <? _)%nat eqn:Hl; [done|]. apply Nat.ltb_ge in Hl.
  set (salt := take_string backupSaltLen rest). set (rest1 := drop_string backupSaltLen rest).
  set (rest2 := drop_string 8 rest1). destruct (ValidateScryptParams _ _ _) eqn:Hv; [done|].
  destruct (scryptKey _ _ _ _ _) as [key|] eqn:Hk; [|done]. destruct (gcmOpen _ _ _) eqn:Ho; [|done]. intros [= <-].
  apply gcm_open_only in Ho. unfold backupSaltLen, backupNonceLen in *.
  assert (String.length rest1 = String.length rest - 16)%nat as H1 by apply length_drop_string.
  assert (String.length rest2 = String.length rest1 - 8)%nat as H2 by apply length_drop_string.
  exists salt, (take_string 12 rest2). do 4 eexists.
  split; [apply length_take_string; unfold backupSaltLen; lia|]. split; [apply length_take_string; lia|].
  split; [exact Hv|]. split; [exact Hk|]. rewrite blobHeader_fields.
  rewrite Uint32_bytes, !Uint16_bytes by (rewrite length_take_string; rewrite ?length_drop_string; lia).
  rewrite <- Ho, <- !string_app_assoc, take_drop_string. unfold rest2. rewrite <- (drop_drop_string 2 6), <- (drop_drop_string 2 4).
  rewrite !take_drop_string. unfold salt, rest1. rewrite take_drop_string.
  unfold IsBackupBlob in Hm. apply andb_true_iff in Hm as [_ Hm%bool_decide_eq_true]. unfold rest. rewrite <- Hm at 1. by rewrite take_drop_string.
Qed.

(** C12: The blobs of offsite backups: with a passphrase, encryption succeeds
    exactly for parameters scrypt is allowed to cost, a value that is not
    positive standing for the default; and [DecryptBackup] gives a text exactly
    for the blobs that encryption makes of that text with the same passphrase,
    whatever the parameters, the salt and the nonce were, so that a blob that was
    cut, changed or written by something else is refused. *)
Theorem backup_blob_exact plain pass : pass <> "" ->
  (forall N r p salt nonce,
     (exists blob, EncryptBackupWithParams plain pass N r p (Some salt) (Some nonce) = inr blob) <->
     ValidateScryptParams (orDefault N backupScryptN) (orDefault r backupScryptR) (orDefault p backupScryptP) = None) /\
  (forall blob, DecryptBackup blob pass = inr plain <->
     exists N r p salt nonce, String.length salt = backupSaltLen /\ String.length nonce = backupNonceLen /\
       EncryptBackupWithParams plain pass N r p (Some salt) (Some nonce) = inr blob).
Proof.
  intros Hp. split.
  - intros N r p salt nonce. split.
    + intros [blob H]. exact (proj1 (EncryptBackupWithParams_inr _ _ _ _ _ _ _ _ H)).
    + by apply EncryptBackupWithParams_valid.
  - intros blob. split.
    + intros (salt & nonce & N & r & p & key & Hs & Hn & Hv & Hk & ->)%Decrypt_inr. exists N, r, p, salt, nonce. split; [done|]. split; [done|].
      destruct (valid_orDefault N r p Hv) as (E1 & E2 & E3).
      destruct (EncryptBackupWithParams_valid plain pass N r p salt nonce Hp) as [blob Hb]; [by rewrite E1, E2, E3|].
      rewrite Hb. apply EncryptBackupWithParams_inr in Hb. rewrite E1, E2, E3 in Hb.
      destruct Hb as (_ & s' & n' & key' & [= <-] & [= <-] & Hk' & ->). by rewrite Hk in Hk'; injection Hk' as <-.
    + intros (N & r & p & salt & nonce & Hs & Hn & Hb). apply EncryptBackupWithParams_inr in Hb.
      destruct Hb as (Hv & s' & n' & key & [= <-] & [= <-] & Hk & ->). by rewrite Decrypt_header, Hk, gcm_open_seal.
Qed.
End blob.

(** ** Samples *)

(** A toy cryptography: the key is the passphrase with the salt, and the sealed
    text carries the key and the nonce in front. *)
Definition toySeal (key nonce plain : string) : string := key +:+ nonce +:+ plain.
Definition toyOpen (key nonce ct : string) : option string :=
  if HasPrefix ct (key +:+ nonce) then Some (drop_string (String.length (key +:+ nonce)) ct) else None.

Lemma prefix_split (p : string) : forall s, String.prefix p s = true -> exists r, s = p +:+ r.
Proof.
  induction p as [|c p IH]; intros s H; [by exists s|]. destruct s as [|d s]; [done|]. cbn in H. case_match eqn:E; [|done].
  destruct (IH s H) as [r ->]. subst. by exists r.
Qed.

Lemma toy_open_seal key nonce plain : toyOpen key nonce (toySeal key nonce plain) = Some plain.
Proof. unfold toyOpen, toySeal. by rewrite string_app_assoc, HasPrefix_app, drop_string_app. Qed.

Lemma toy_open_only key nonce ct plain : toyOpen key nonce ct = Some plain -> ct = toySeal key nonce plain.
Proof.
  unfold toyOpen, toySeal. case_match eqn:E; [|done]. intros [= <-]. rewrite string_app_assoc.
  destruct (prefix_split _ _ E) as [r ->]. by rewrite drop_string_app.
Qed.

Lemma toy_defined (pass salt : string) N r p : 1 < N -> Z.land N (N - 1) = 0 -> 1 <= r -> 1 <= p -> r * p < 2 ^ 30 -> 128 * N * r < 2 ^ 63 ->
  is_Some (Some (pass +:+ salt)).
Proof. done. Qed.

Definition toyCrypto : BackupCrypto :=
  Build_BackupCrypto (fun pass salt _ _ _ => Some (pass +:+ salt)) toySeal toyOpen toy_defined toy_open_seal toy_open_only.

Definition sampleSalt : string := "0123456789abcdef".
Definition sampleNonce : string := "abcdefghijkl".

Lemma backup_blob_exact_witness :
  let blob := match @EncryptBackup toyCrypto "data" "secret" (Some sampleSalt) (Some sampleNonce) with inr b => b | inl _ => "" end in
  @DecryptBackup toyCrypto blob "secret" = inr "data" /\ @DecryptBackup toyCrypto blob "other" = inl WrongPassphrase /\
  ~ exists blob', @EncryptBackupWithParams toyCrypto "data" "secret" 1000 8 1 (Some sampleSalt) (Some sampleNonce) = inr blob'.
Proof.
  cbv zeta. split; [|split; [vm_compute; reflexivity|]].
  - apply (@backup_blob_exact toyCrypto "data" "secret" ltac:(discriminate)). exists 65536, 8, 1, sampleSalt, sampleNonce.
    split; [reflexivity|]. split; [reflexivity|]. vm_compute. reflexivity.
  - intros H. apply (@backup_blob_exact toyCrypto "data" "secret" ltac:(discriminate)) in H. vm_compute in H. discriminate H.
Defined.
