(* ===== verification/Backup.v ===== *)
(** * Backup: exporting and importing the panel and its nodes

    internal/chain/backup.go ([ExportStore], [ImportStore], [ExportNode],
    [ImportNode]), backup_offsite.go (the push of a sealed export to another
    machine and the rotation of what lies there), and the handlers of
    internal/web/backups.go and web/server.go that call them.  How the two
    documents are written as JSON text and read back is the interface
    [BackupJson]; the remote machine is described by its outcomes. *)

From stdpp Require Import sorting.
From S2P Require Import Prelude GoStrings Codec Model ChainModel StoreCore Store StoreSpec StoreRefine AwgConf ConfFields Migrate AutoRelocate StoreSecurity BackupBlob.

(** ** Documents *)

Definition BackupFormatStore : string := "angry-box-store".
Definition BackupFormatNode : string := "angry-box-node".

(** [backupEnvelope]. *)
Record backupEnvelope := mkEnvelope { env_Format : string; env_Version : Z; env_ExportedAt : Time }.

(** The document of [ExportStore]. *)
Record storeBackup := mkStoreBackup { sb_env : backupEnvelope; sb_Store : option storeFile }.

(** [NodeChainMembership] and [NodeBackup]. *)
Record NodeChainMembership := mkMembership { Membership_ChainName : string; Membership_Node : ChainNode }.
Record NodeBackup := mkNodeBackup {
  nb_env : backupEnvelope;
  nb_Node : ChainNode;
  nb_NodeInfo : option NodeInfo;
  nb_Chains : list NodeChainMembership }.

(** encoding/json on these documents. *)
Class BackupJson := {
  marshalStore : storeBackup -> string;
  marshalNode : NodeBackup -> string;
  unmarshalEnvelope : string -> option backupEnvelope;
  unmarshalStore : string -> option storeBackup;
  unmarshalNode : string -> option NodeBackup }.

(** The errors of the imports. *)
Inductive ImportErr :=
  | EnvelopeErr | FormatUnknown | WrongFormat (f : string) | DocErr | NoPayload
  | CurrentErr (e : ReadErr) | NotEmpty | Reroute (id old new : string)
  | Unsaved (e : StoreErr)
  | Skipped (id : string) (chains : list string).

Section backup.
Context `{bj : !BackupJson}.

(** [detectBackupFormat]. *)
Definition detectBackupFormat (data : string) : ImportErr + string :=
  match unmarshalEnvelope data with
  | None => inl EnvelopeErr
  | Some env =>
      if (env_Format env == BackupFormatStore) || (env_Format env == BackupFormatNode) then inr (env_Format env) else inl FormatUnknown
  end.

(** ** The whole store *)

(** [ExportStore]. *)
Definition ExportStore (now : Time) (w : World) : ReadErr + string :=
  let export sf := inr (marshalStore (mkStoreBackup (mkEnvelope BackupFormatStore 1 now) (Some sf))) in
  match readStore w with
  | inr sf => export sf
  | inl NotExist => export newStoreFile
  | inl e => inl e
  end.

(** [!force && cur != nil && len(cur.Hosts) > 0]. *)
Definition refuses (force : bool) (cur : ReadErr + storeFile) : bool :=
  negb force && match cur with inr sf => (0 <? length (sf_Hosts sf))%nat | inl _ => false end.

(** [ImportStore]; [None] would be an endless migration. *)
Definition ImportStore (bak : bool) (now : Time) (data : string) (force : bool) (w : World) : option ((ImportErr + unit) * World) :=
  match detectBackupFormat data with
  | inl e => Some (inl e, w)
  | inr format =>
      if format != BackupFormatStore then Some (inl (WrongFormat format), w)
      else
        match unmarshalStore data with
        | None => Some (inl DocErr, w)
        | Some b =>
            match sb_Store b with
            | None => Some (inl NoPayload, w)
            | Some sf =>
                let import :=
                  if refuses force (readStore w) then Some (inl NotEmpty, w)
                  else
                    match writeStore sf w with
                    | (Err e, w) => Some (inl (Unsaved e), w)
                    | (Ok _, w) => option_map (pair (inr tt)) (migrateOnce bak now w)
                    end in
                match readStore w with
                | inl NotExist => import
                | inl e => Some (inl (CurrentErr e), w)
                | inr _ => import
                end
            end
        end
  end.

(** ** One node *)

(** A listing of the chains whose error is ignored. *)
Definition chainsOf (w : World) : list Chain := match ListChains w with Ok cs => cs | Err _ => [] end.

(** [ExportNode]. *)
Definition membershipsIn (id : string) (c : Chain) : list NodeChainMembership :=
  map (mkMembership (Chain_Name c)) (List.filter (fun n => ChainNode_ID n == id) (Chain_Nodes c)).

Definition ExportNode (now : Time) (id : string) (w : World) : Result NodeBackup :=
  let! host := GetHost id w in
  let info := match GetNodeInfo id w with Ok i => Some i | Err _ => None end in
  let node := zeroChainNode <| ChainNode_ID := Host_ID host |> <| ChainNode_Addr := Host_Addr host |>
                <| ChainNode_User := Host_User host |> <| ChainNode_KeyPath := Host_KeyPath host |> in
  Ok (mkNodeBackup (mkEnvelope BackupFormatNode 1 now) node info (flat_map (membershipsIn id) (chainsOf w))).

(** The node takes the place of the first one with its ID, or is appended. *)
Fixpoint mergeNode (n : ChainNode) (nodes : list ChainNode) : list ChainNode :=
  match nodes with
  | [] => [n]
  | x :: nodes' => if ChainNode_ID x == ChainNode_ID n then n :: nodes' else x :: mergeNode n nodes'
  end.

(** [chainByName]: the last of the chains of a name. *)
Definition chainByName (cs : list Chain) : gmap string Chain :=
  fold_left (fun m c => <[Chain_Name c := c]> m) cs ∅.

(** The loop over the memberships; the chains of the table are shared, so that
    what a turn did to one, [SaveChain] included, is seen by the next.  The list
    is of the chains that were skipped. *)
Fixpoint mergeMemberships (byName : gmap string Chain) (ms : list NodeChainMembership) (skipped : list string) (w : World)
    : (StoreErr + list string) * World :=
  match ms with
  | [] => (inr skipped, w)
  | m :: ms' =>
      match byName !! Membership_ChainName m with
      | None => mergeMemberships byName ms' (skipped ++ [Membership_ChainName m]) w
      | Some matched =>
          match SaveChain (matched <| Chain_Nodes := mergeNode (Membership_Node m) (Chain_Nodes matched) |>) w with
          | (Err e, w) => (inl e, w)
          | (Ok saved, w) => mergeMemberships (<[Membership_ChainName m := saved]> byName) ms' skipped w
          end
      end
  end.

(** The store's methods in a sequence that stops at the first error. *)
Definition thenSave (r : Result unit * World) (k : World -> (ImportErr + unit) * World) : (ImportErr + unit) * World :=
  match r with (Err e, w) => (inl (Unsaved e), w) | (Ok _, w) => k w end.

(** [ImportNode]. *)
Definition ImportNode (b : NodeBackup) (force : bool) (w : World) : (ImportErr + unit) * World :=
  if env_Format (nb_env b) != BackupFormatNode then (inl (WrongFormat (env_Format (nb_env b))), w)
  else
    let host := ChainNode_Host (nb_Node b) in
    let restore :=
      thenSave (SaveHost host w) (fun w =>
      thenSave (match nb_NodeInfo b with
                | Some ni => SaveNodeInfo (ni <| NodeInfo_Host := host |>) w
                | None => (Ok tt, w)
                end) (fun w =>
      match mergeMemberships (chainByName (chainsOf w)) (nb_Chains b) [] w with
      | (inl e, w) => (inl (Unsaved e), w)
      | (inr [], w) => (inr tt, w)
      | (inr skipped, w) => (inl (Skipped (Host_ID host) skipped), w)
      end)) in
    match GetHost (ChainNode_ID (nb_Node b)) w with
    | Ok existing =>
        if negb force && (Host_Addr existing != Host_Addr host)
        then (inl (Reroute (Host_ID host) (Host_Addr existing) (Host_Addr host)), w)
        else restore
    | Err _ => restore
    end.
End backup.

(** ** Rotation on the offsite machine *)

Definition DefaultOffsiteBackupRetention : Z := 5.
Definition backupBlobPrefix : string := "angry-box".

(** [strings.TrimRight] of a byte. *)
Fixpoint TrimRightByte (c : ascii) (s : string) : string :=
  match s with
  | "" => ""
  | String d s' => match TrimRightByte c s' with "" => if Ascii.eqb d c then "" else String d "" | t => String d t end
  end.

Definition pathSep : ascii := "/"%char.
Definition blobDir (cfg : OffsiteBackupConfig) : string := TrimRightByte pathSep (OffsiteBackupConfig_RemotePath cfg).

(** The file name of a path and the test on it. *)
Definition baseName (l : string) : string := match cut_last pathSep l with Some (_, base) => base | None => l end.
Definition isBlobName (base : string) : bool := HasPrefix base (backupBlobPrefix +:+ "-") && HasSuffix base ".abbkp".

(** The blobs in a listing. *)
Definition blobPaths (out : string) : list string :=
  List.filter (fun l => negb (l == "") && isBlobName (baseName l)) (map TrimSpace (Split newline (TrimSpace out))).

(** [sort.Strings]. *)
Definition leString (a b : string) : Prop := String.leb a b = true.
#[export] Instance leString_dec a b : Decision (leString a b) := bool_eq_dec _ _.
Definition sortStrings (l : list string) : list string := merge_sort leString l.

Definition retentionOf (cfg : OffsiteBackupConfig) : nat :=
  Z.to_nat (if OffsiteBackupConfig_Retention cfg <=? 0 then DefaultOffsiteBackupRetention else OffsiteBackupConfig_Retention cfg).

(** The paths that are removed, from the listing. *)
Definition expiredBlobs (retention : nat) (paths : list string) : list string :=
  let paths := sortStrings paths in
  if (length paths <=? retention)%nat then [] else take (length paths - retention) paths.

Definition lsCommand (cfg : OffsiteBackupConfig) : string :=
  "ls -1 " +:+ quoted (blobDir cfg) +:+ "/" +:+ backupBlobPrefix +:+ "-*.abbkp 2>/dev/null".
Definition rmCommand (p : string) : string := "rm -f " +:+ quoted p.

(** [rotateOffsiteBlobs]: the commands, and whether the listing succeeded; [run]
    is what the machine prints for a command, or its failure.  Failed removals
    are only logged. *)
Definition rotateOffsiteBlobs (run : string -> option string) (cfg : OffsiteBackupConfig) : bool * list string :=
  match run (lsCommand cfg) with
  | None => (false, [lsCommand cfg])
  | Some out => (true, lsCommand cfg :: map rmCommand (expiredBlobs (retentionOf cfg) (blobPaths out)))
  end.

(** ** The push *)

(** What one push meets: the connection, the upload, the commands, the clock
    and its text in the name of the blob, and the random bytes. *)
Record OffsiteEnv := mkOffsiteEnv {
  pe_connect : bool;
  pe_upload : bool;
  pe_run : string -> option string;
  pe_now : Time;
  pe_stamp : string;
  pe_salt : option string;
  pe_nonce : option string }.

Inductive PushErr := NotConfigured | NoPassphrase | ExportFailed (e : ReadErr) | EncryptFailed (e : BlobErr) | ConnectFailed | UploadFailed.

(** What a push did: its result, the file it uploaded, the commands it ran. *)
Record Pushed := mkPushed {
  pd_result : option PushErr;
  pd_upload : option (string * string);
  pd_commands : list string;
  pd_world : World }.

Section push.
Context `{crypto : !BackupCrypto} `{bj : !BackupJson}.

Definition blobPath (cfg : OffsiteBackupConfig) (stamp : string) : string :=
  blobDir cfg +:+ "/" +:+ (backupBlobPrefix +:+ "-" +:+ stamp +:+ ".abbkp").

(** The settings with the time of the backup; errors are only logged. *)
Definition stampBackup (now : Time) (cfg : OffsiteBackupConfig) (w : World) : World :=
  match GetSettings w with
  | Ok settings => snd (SaveSettings (settings <| PanelSettings_OffsiteBackup := Some (cfg <| OffsiteBackupConfig_LastBackupAt := now |>) |>) w)
  | Err _ => w
  end.

(** [PushOffsiteBackup]. *)
Definition PushOffsiteBackup (env : OffsiteEnv) (cfg : OffsiteBackupConfig) (w : World) : Pushed :=
  let fails e := mkPushed (Some e) None [] w in
  if (OffsiteBackupConfig_Host cfg == "") || (OffsiteBackupConfig_RemotePath cfg == "") then fails NotConfigured
  else if OffsiteBackupConfig_Passphrase cfg == "" then fails NoPassphrase
  else
    match ExportStore (pe_now env) w with
    | inl e => fails (ExportFailed e)
    | inr plain =>
        match EncryptBackupWithParams plain (OffsiteBackupConfig_Passphrase cfg) (orDefault (OffsiteBackupConfig_ScryptN cfg) backupScryptN)
                backupScryptR backupScryptP (pe_salt env) (pe_nonce env) with
        | inl e => fails (EncryptFailed e)
        | inr blob =>
            if negb (pe_connect env) then fails ConnectFailed
            else if negb (pe_upload env) then fails UploadFailed
            else
              mkPushed None (Some (blobPath cfg (pe_stamp env), blob)) (snd (rotateOffsiteBlobs (pe_run env) cfg))
                (stampBackup (pe_now env) cfg w)
        end
    end.

(** [runOffsiteBackup] and [handleBackupNow] before they write the audit log:
    [None] when there is nothing to do. *)
Definition configured (cfg : OffsiteBackupConfig) : bool :=
  (OffsiteBackupConfig_Host cfg != "") && (OffsiteBackupConfig_RemotePath cfg != "") && (OffsiteBackupConfig_Passphrase cfg != "").
Definition storedConfig (w : World) : option OffsiteBackupConfig :=
  match GetSettings w with Ok s => PanelSettings_OffsiteBackup s | Err _ => None end.
Definition runOffsiteBackup (env : OffsiteEnv) (w : World) : option Pushed :=
  match storedConfig w with
  | Some cfg => if OffsiteBackupConfig_Enabled cfg && configured cfg then Some (PushOffsiteBackup env cfg w) else None
  | None => None
  end.
Definition handleBackupNow (env : OffsiteEnv) (w : World) : option Pushed :=
  match storedConfig w with
  | Some cfg => if configured cfg then Some (PushOffsiteBackup env cfg w) else None
  | None => None
  end.

(** ** The import form *)

Inductive ImportReply :=
  | JsonRequired | PassphraseRequired | DecryptFailed (e : BlobErr) | InvalidJson
  | StoreImported | StoreRefused (e : ImportErr)
  | NodeImported | NodeImportedExcept (chains : list string) | NodeRefused (e : ImportErr).

(** [handleImportBackup], after the form is parsed.  The reply to a node import
    that skipped chains is recognised by the words of its error. *)
Definition importDocument (bak : bool) (now : Time) (data : string) (force : bool) (w : World) : option (ImportReply * World) :=
  match detectBackupFormat data with
  | inl _ => Some (InvalidJson, w)
  | inr format =>
      if format == BackupFormatStore then
        option_map (fun r => (match fst r with inl e => StoreRefused e | inr _ => StoreImported end, snd r)) (ImportStore bak now data force w)
      else if format == BackupFormatNode then
        match unmarshalNode data with
        | None => Some (InvalidJson, w)
        | Some b =>
            let r := ImportNode b force w in
            Some (match fst r with inr _ => NodeImported | inl (Skipped _ cs) => NodeImportedExcept cs | inl e => NodeRefused e end, snd r)
        end
      else Some (InvalidJson, w)
  end.

Definition handleImportBackup (bak : bool) (now : Time) (payload passphrase : string) (force : bool) (w : World) : option (ImportReply * World) :=
  if payload == "" then Some (JsonRequired, w)
  else
    let data := if IsBackupBlob payload then payload else TrimSpace payload in
    if IsBackupBlob data then
      let pass := TrimSpace passphrase in
      if pass == "" then Some (PassphraseRequired, w)
      else match DecryptBackup data pass with inl e => Some (DecryptFailed e, w) | inr plain => importDocument bak now plain force w end
    else importDocument bak now data force w.

(** [restoreCmd], for a file that can be read: the exit code and what it printed
    on success. *)
Definition restoreCmd (bak : bool) (now : Time) (data : string) (force : bool) (w : World) : option (Z * string * World) :=
  match detectBackupFormat data with
  | inl _ => Some (1, "", w)
  | inr format =>
      if format == BackupFormatStore then
        option_map (fun r => (match fst r with inl _ => (1, "") | inr _ => (0, "store restored") end, snd r)) (ImportStore bak now data force w)
      else
        match unmarshalNode data with
        | None => Some (1, "", w)
        | Some b => Some (0, "node restored", snd (ImportNode b force w))
        end
  end.
End push.

(** [validOffsitePath]. *)
Definition pathChar (c : ascii) : bool :=
  let n := byteZ c in
  ((97 <=? n) && (n <=? 122)) || ((65 <=? n) && (n <=? 90)) || ((48 <=? n) && (n <=? 57)) ||
  (n =? 47) || (n =? 46) || (n =? 95) || (n =? 45).
Fixpoint allPathChars (s : string) : bool := match s with "" => true | String c s' => pathChar c && allPathChars s' end.
Definition validOffsitePath (p : string) : bool :=
  if (p == "") || negb (HasPrefix p "/") || Contains p ".." then false else allPathChars p.

(** The form of [handleSaveOffsite]. *)
Record OffsiteForm := mkOffsiteForm {
  of_host : string; of_enabled : string; of_user : string; of_key : string; of_path : string; of_passphrase : string;
  of_interval : string; of_retention : string; of_scryptN : string }.

Inductive OffsiteReply := SettingsUnreadable | InvalidPath | BadScrypt (e : BlobErr) | SaveFailed (e : StoreErr) | OffsiteSaved.

(** The configuration the form makes of the stored one, for a form with a host. *)
Definition editOffsite (f : OffsiteForm) (ob : OffsiteBackupConfig) : OffsiteReply + OffsiteBackupConfig :=
  let ob := ob <| OffsiteBackupConfig_Enabled := (of_enabled f == "on") |> <| OffsiteBackupConfig_Host := TrimSpace (of_host f) |>
               <| OffsiteBackupConfig_User := TrimSpace (of_user f) |> <| OffsiteBackupConfig_SSHKeyID := TrimSpace (of_key f) |>
               <| OffsiteBackupConfig_RemotePath := TrimSpace (of_path f) |> in
  if (TrimSpace (of_path f) != "") && negb (validOffsitePath (TrimSpace (of_path f))) then inl InvalidPath
  else
    let ob := let pp := TrimSpace (of_passphrase f) in if pp != "" then ob <| OffsiteBackupConfig_Passphrase := pp |> else ob in
    let ob := let iv := TrimSpace (of_interval f) in if iv != "" then ob <| OffsiteBackupConfig_IntervalMin := atoi0 iv |> else ob in
    let ob := let rv := TrimSpace (of_retention f) in if rv != "" then ob <| OffsiteBackupConfig_Retention := atoi0 rv |> else ob in
    let sv := TrimSpace (of_scryptN f) in
    if sv != "" then
      match ValidateScryptParams (atoi0 sv) backupScryptR backupScryptP with
      | Some e => inl (BadScrypt e)
      | None => inr (ob <| OffsiteBackupConfig_ScryptN := atoi0 sv |>)
      end
    else inr ob.

(** [handleSaveOffsite]. *)
Definition handleSaveOffsite (f : OffsiteForm) (w : World) : OffsiteReply * World :=
  match GetSettings w with
  | Err _ => (SettingsUnreadable, w)
  | Ok settings =>
      let save ob :=
        match SaveSettings (settings <| PanelSettings_OffsiteBackup := ob |>) w with
        | (Err e, w) => (SaveFailed e, w)
        | (Ok _, w) => (OffsiteSaved, w)
        end in
      if TrimSpace (of_host f) == "" then
        save (option_map (fun ob => ob <| OffsiteBackupConfig_Enabled := false |>) (PanelSettings_OffsiteBackup settings))
      else
        match editOffsite f (default zeroOffsiteBackupConfig (PanelSettings_OffsiteBackup settings)) with
        | inl r => (r, w)
        | inr ob => save (Some ob)
        end
  end.

(** ** Lemmas: restoring a store *)

(** The reader gives back the document that was written. *)
Definition storeKept `{bj : !BackupJson} (sb : storeBackup) : Prop :=
  unmarshalEnvelope (marshalStore sb) = Some (sb_env sb) /\ unmarshalStore (marshalStore sb) = Some sb.

Definition exported (now : Time) (sf : storeFile) : storeBackup := mkStoreBackup (mkEnvelope BackupFormatStore 1 now) (Some sf).

(** At the current version the migration leaves the file. *)
Lemma migrateOnce_current bak now w sf : readStore w = inr sf -> currentSchemaVersion <= sf_SchemaVersion sf ->
  exists w', migrateOnce bak now w = Some w' /\ readStore w' = inr sf /\ w_key w' = w_key w.
Proof.
  intros Hr Hv. unfold migrateOnce. rewrite Hr. cbn [migrateFrom fst].
  assert ((sf_SchemaVersion sf <? currentSchemaVersion) = false) as -> by lia. eexists. split; [done|].
  destruct (sameDisk_orphanStep bak sf w) as (Hs & Hk & _). unfold readStore in *. by rewrite Hs, Hk.
Qed.

Section restore.
Context `{crypto : !BackupCrypto} `{bj : !BackupJson}.

Lemma detect_store now sf : storeKept (exported now sf) -> detectBackupFormat (marshalStore (exported now sf)) = inr BackupFormatStore.
Proof. intros [He _]. unfold detectBackupFormat. by rewrite He. Qed.

(** The import of a store the machine has room for. *)
Lemma ImportStore_writes bak now when sf force w :
  storeKept (exported when sf) -> currentSchemaVersion <= sf_SchemaVersion sf -> writable w ->
  is_Some (base w) -> refuses force (readStore w) = false ->
  exists w', ImportStore bak now (marshalStore (exported when sf)) force w = Some (inr tt, w') /\
    readStore w' = inr (bump sf) /\ w_key w' = w_key w.
Proof.
  intros Hk Hv Hw Hr Hf. pose proof Hk as [_ Hs]. unfold ImportStore. rewrite detect_store by done.
  change (BackupFormatStore != BackupFormatStore) with false. cbn iota. rewrite Hs. cbn [exported sb_Store].
  destruct (modifyStore_writable (A := unit) (Ok sf) (fun s => Ok (tt, s)) w sf tt sf Hw eq_refl eq_refl) as [w1 Hm].
  pose proof (modifyStore_Ok _ _ _ _ _ Hm) as (s1 & s2 & [= <-] & [= <-] & Hr1 & Hk1 & _).
  unfold modifyStore in Hm. destruct (writeStore sf w) as [[[]|e] w2]; [|done]. injection Hm as ->.
  destruct (migrateOnce_current bak now w1 (bump sf) Hr1) as (w3 & Hm3 & Hr3 & Hk3); [done|].
  exists w3. rewrite Hm3. split; [|split; [done|by rewrite Hk3]].
  unfold base in Hr. destruct (readStore w) as [[]|cur]; (done || by rewrite Hf || by destruct Hr).
Qed.

Lemma ImportStore_refused bak now when sf force w : storeKept (exported when sf) -> refuses force (readStore w) = true ->
  ImportStore bak now (marshalStore (exported when sf)) force w = Some (inl NotEmpty, w).
Proof.
  intros Hk Hf. pose proof Hk as [_ Hs]. unfold ImportStore. rewrite detect_store by done.
  change (BackupFormatStore != BackupFormatStore) with false. cbn iota. rewrite Hs. cbn [exported sb_Store].
  destruct (readStore w) as [e|cur]; [unfold refuses in Hf; by rewrite andb_false_r in Hf|]. by rewrite Hf.
Qed.

(** The upload of a push is the sealed export. *)
Lemma PushOffsiteBackup_upload env cfg w sf path blob :
  base w = Some sf -> pd_upload (PushOffsiteBackup env cfg w) = Some (path, blob) ->
  exists N salt nonce, pe_salt env = Some salt /\ pe_nonce env = Some nonce /\ OffsiteBackupConfig_Passphrase cfg <> "" /\
    EncryptBackupWithParams (marshalStore (exported (pe_now env) sf)) (OffsiteBackupConfig_Passphrase cfg) N 8 1 (Some salt) (Some nonce) = inr blob.
Proof.
  intros Hb. unfold PushOffsiteBackup. cbv zeta. case_match; [done|]. destruct (OffsiteBackupConfig_Passphrase cfg == "") eqn:Hp; [done|].
  apply bool_decide_eq_false in Hp. destruct (ExportStore (pe_now env) w) as [e|plain] eqn:Hx; [done|].
  destruct (EncryptBackupWithParams _ _ _ _ _ _ _) as [e|b] eqn:He; [done|]. repeat (case_match; [done|]). intros [= _ <-].
  pose proof (EncryptBackupWithParams_inr _ _ _ _ _ _ _ _ He) as (_ & salt & nonce & _ & Hs & Hn & _).
  rewrite Hs, Hn in He. unfold base in Hb. unfold ExportStore in Hx. cbv zeta in Hx.
  assert (plain = marshalStore (exported (pe_now env) sf)) as -> by (destruct (readStore w) as [[]|sf']; try done; injection Hb as <-; by injection Hx as <-).
  eexists _, salt, nonce. eauto.
Qed.

Lemma handleImportBackup_blob bak now plain pass N r p salt nonce blob force w :
  String.length salt = backupSaltLen -> String.length nonce = backupNonceLen -> pass <> "" -> TrimSpace pass = pass ->
  EncryptBackupWithParams plain pass N r p (Some salt) (Some nonce) = inr blob ->
  handleImportBackup bak now blob pass force w = importDocument bak now plain force w.
Proof.
  intros Hs Hn Hp Ht Hb. apply EncryptBackupWithParams_inr in Hb. destruct Hb as (Hv & s' & n' & key & [= <-] & [= <-] & Hk & ->).
  unfold handleImportBackup. cbv zeta. rewrite IsBackupBlob_header. cbn iota. rewrite IsBackupBlob_header, Ht.
  rewrite (bool_decide_eq_false_2 (pass = "")) by done. rewrite Decrypt_header, Hk, gcm_open_seal by done.
  rewrite bool_decide_eq_false_2; [done|]. intros E. pose proof (IsBackupBlob_header salt nonce (orDefault N backupScryptN) (orDefault r backupScryptR) (orDefault p backupScryptP) (gcmSeal key nonce plain)) as Hm.
  by rewrite E in Hm.
Qed.

(** C19: What an offsite push uploads brings the panel back: imported on any
    machine whose store can be written, with the passphrase of the target and
    whatever key the two machines encrypt at rest with, it makes the store the
    pushed one (with the next revision); but over a store that has hosts only
    when that is forced, and then nothing is changed. *)
Theorem offsite_backup_restores env cfg w1 sf path blob bak now force w2 :
  base w1 = Some sf -> pd_upload (PushOffsiteBackup env cfg w1) = Some (path, blob) ->
  (forall salt, pe_salt env = Some salt -> String.length salt = backupSaltLen) ->
  (forall nonce, pe_nonce env = Some nonce -> String.length nonce = backupNonceLen) ->
  TrimSpace (OffsiteBackupConfig_Passphrase cfg) = OffsiteBackupConfig_Passphrase cfg ->
  storeKept (exported (pe_now env) sf) ->
  let import := handleImportBackup bak now blob (OffsiteBackupConfig_Passphrase cfg) force w2 in
  (refuses force (readStore w2) = true -> import = Some (StoreRefused NotEmpty, w2)) /\
  (refuses force (readStore w2) = false -> writable w2 -> is_Some (base w2) -> currentSchemaVersion <= sf_SchemaVersion sf ->
     exists w3, import = Some (StoreImported, w3) /\ readStore w3 = inr (bump sf) /\ w_key w3 = w_key w2).
Proof.
  intros Hb Hu Hs Hn Ht Hk. destruct (PushOffsiteBackup_upload _ _ _ _ _ _ Hb Hu) as (N & salt & nonce & Es & En & Hp & He).
  cbv zeta. rewrite (handleImportBackup_blob bak now _ _ _ _ _ _ _ _ force w2 (Hs _ Es) (Hn _ En) Hp Ht He).
  unfold importDocument. rewrite detect_store by done. split.
  - intros Hf. by rewrite ImportStore_refused.
  - intros Hf Hw Hc Hv. destruct (ImportStore_writes bak now (pe_now env) sf force w2) as (w3 & -> & H3); [done..|]. by exists w3.
Qed.
End restore.

(** ** Lemmas: restoring a node *)

(** A membership in the chain it names, and all of them in turn. *)
Definition restoreIn (c : Chain) (m : NodeChainMembership) : Chain :=
  if Chain_Name c == Membership_ChainName m then syncChain (c <| Chain_Nodes := mergeNode (Membership_Node m) (Chain_Nodes c) |>) else c.

(** What the memberships of a node make of a chain.  A chain without levels gets,
    of each of its memberships in turn, the node: in the place of the one with its
    identifier, else at the end.  A chain with levels gets none of them, its list
    of nodes is the one of its levels. *)
Definition restoreChain (ms : list NodeChainMembership) (c : Chain) : Chain :=
  let mine := map Membership_Node (List.filter (fun m => Chain_Name c == Membership_ChainName m) ms) in
  if IsLevelized c then match mine with [] => c | _ => c <| Chain_Nodes := AllNodes c |> end
  else c <| Chain_Nodes := fold_left (fun nodes n => mergeNode n nodes) mine (Chain_Nodes c) |>.

Definition missingChains (cs : list Chain) (ms : list NodeChainMembership) : list string :=
  List.filter (fun n => negb (has_key n cs)) (map Membership_ChainName ms).

Lemma upsert_map `{Keyed A} (x : A) l : NoDup (keys l) -> has_key (key_of x) l = true ->
  upsert x l = map (fun y => if key_of y == key_of x then x else y) l.
Proof.
  induction l as [|y l IH]; intros Hn Hk; [done|]. cbn [keys map upsert] in *. apply NoDup_cons in Hn as [Hy Hn].
  destruct (key_of y == key_of x) eqn:E.
  - f_equal. apply bool_decide_eq_true in E. rewrite E in Hy. clear -Hy. induction l as [|z l IH]; [done|]. cbn [map keys] in *.
    apply not_elem_of_cons in Hy as [Hz Hy]. rewrite bool_decide_eq_false_2 by congruence. f_equal. by apply IH.
  - f_equal. apply IH; [done|]. unfold has_key in *. cbn [existsb] in Hk. by rewrite E in Hk.
Qed.

Lemma Chain_Name_sync c : Chain_Name (syncChain c) = Chain_Name c.
Proof. unfold syncChain. by case_match. Qed.

Lemma Chain_Name_restore c m : Chain_Name (restoreIn c m) = Chain_Name c.
Proof. unfold restoreIn. case_match; [|done]. by rewrite Chain_Name_sync. Qed.

Lemma restoreChain_step m ms c : restoreChain (m :: ms) c = restoreChain ms (restoreIn c m).
Proof.
  unfold restoreIn. destruct (Chain_Name c == Membership_ChainName m) eqn:E; [|unfold restoreChain; cbn [List.filter]; by rewrite E].
  assert (forall x, IsLevelized (c <| Chain_Nodes := x |>) = IsLevelized c) as HI by done.
  assert (forall x, Chain_Name (c <| Chain_Nodes := x |>) = Chain_Name c) as HN by done.
  assert (forall x y, (c <| Chain_Nodes := x |>) <| Chain_Nodes := y |> = c <| Chain_Nodes := y |>) as HS by (by destruct c).
  unfold syncChain, restoreChain. rewrite HI. cbn [List.filter]. rewrite E. cbn [map]. destruct (IsLevelized c) eqn:El.
  - assert (forall x, AllNodes (c <| Chain_Nodes := x |>) = AllNodes c) as HA by (intros x; unfold AllNodes; by rewrite HI, El).
    rewrite !HA, HS, HI, HN, HA, HS. by destruct (map _ _).
  - by rewrite HI, HN, HS.
Qed.

Lemma keys_restore cs m : keys (map (fun c => restoreIn c m) cs) = keys cs.
Proof. unfold keys. rewrite map_map. apply map_ext. intros c. apply Chain_Name_restore. Qed.

Lemma chainByName_find cs : NoDup (keys cs) -> forall n, chainByName cs !! n = find_key n cs.
Proof.
  intros Hn n. unfold chainByName. assert (forall m : gmap string Chain, (forall c, c ∈ cs -> m !! Chain_Name c = None) ->
    fold_left (fun m c => <[Chain_Name c := c]> m) cs m !! n = match find_key n cs with Some c => Some c | None => m !! n end) as H.
  { induction cs as [|c cs IH]; intros m Hm; [done|]. cbn [fold_left keys map] in *. apply NoDup_cons in Hn as [Hc Hn].
    rewrite IH; [|done|].
    - unfold find_key at 2. cbn [List.find]. fold (find_key n cs). change (key_of c) with (Chain_Name c). destruct (Chain_Name c == n) eqn:E.
      + apply bool_decide_eq_true in E as <-. apply find_key_None in Hc. change (key_of c) with (Chain_Name c) in Hc. rewrite Hc. apply lookup_insert_eq.
      + apply bool_decide_eq_false in E. by rewrite lookup_insert_ne by done.
    - intros d Hd. rewrite lookup_insert_ne; [apply Hm; by right|]. intros Ed. apply Hc. change (key_of c) with (Chain_Name c). rewrite Ed.
      apply list_elem_of_fmap. by exists d. }
  rewrite H by (intros; apply lookup_empty). rewrite lookup_empty. by case_match.
Qed.

(** A store with other chains. *)
Definition withChains (sf : storeFile) (cs : list Chain) (rev : Z) : storeFile := sf <| sf_Chains := cs |> <| sf_Revision := rev |>.

Lemma mergeMemberships_spec ms : forall byName skipped w sf,
  writable w -> base w = Some sf -> NoDup (keys (sf_Chains sf)) -> (forall n, byName !! n = find_key n (sf_Chains sf)) ->
  exists w' rev, mergeMemberships byName ms skipped w = (inr (skipped ++ missingChains (sf_Chains sf) ms), w') /\
    base w' = Some (withChains sf (map (restoreChain ms) (sf_Chains sf)) rev).
Proof.
  induction ms as [|m ms IH]; intros byName skipped w sf Hw Hb Hn Hby; cbn [mergeMemberships].
  - exists w, (sf_Revision sf). cbn [missingChains map List.filter]. rewrite app_nil_r. split; [done|]. rewrite Hb.
    rewrite (map_ext (restoreChain []) id), map_id by (intros c; unfold restoreChain; cbn; case_match; by destruct c). by destruct sf.
  - rewrite Hby. unfold missingChains. cbn [map List.filter]. rewrite has_key_find. fold (missingChains (sf_Chains sf) ms).
    destruct (find_key (Membership_ChainName m) (sf_Chains sf)) as [c|] eqn:Hf; cbn [negb].
    + pose proof (find_key_Some _ _ _ Hf) as [Hc Hname]. change (key_of c) with (Chain_Name c) in Hname.
      set (c1 := c <| Chain_Nodes := _ |>).
      destruct (modifyNew_writable (fun sf => Ok (syncChain c1, sf <| sf_Chains := upsert (syncChain c1) (sf_Chains sf) |>)) w sf _ _ Hw Hb eq_refl)
        as (w1 & Hs & Hb1 & Hw1).
      unfold SaveChain. fold (syncChain c1). rewrite Hs.
      assert (upsert (syncChain c1) (sf_Chains sf) = map (fun c => restoreIn c m) (sf_Chains sf)) as Hup.
      { assert (key_of (syncChain c1) = Membership_ChainName m) as Ek by (change (Chain_Name (syncChain c1) = Membership_ChainName m); by rewrite Chain_Name_sync).
        rewrite upsert_map by (done || rewrite Ek, has_key_find; by rewrite Hf). apply map_ext_in. intros d Hd%list_elem_of_In. rewrite Ek.
        unfold restoreIn. change (key_of d) with (Chain_Name d). case_match eqn:E; [|done]. apply bool_decide_eq_true in E.
        pose proof (find_key_elem d _ Hn Hd) as Hfd. change (key_of d) with (Chain_Name d) in Hfd. rewrite E, Hf in Hfd. by injection Hfd as ->. }
      rewrite Hup in Hb1. set (sf1 := bump _) in Hb1.
      destruct (IH (<[Membership_ChainName m := syncChain c1]> byName) skipped w1 sf1 Hw1 Hb1) as (w2 & rev & Hm & Hb2).
      * change (sf_Chains sf1) with (map (fun c => restoreIn c m) (sf_Chains sf)). by rewrite keys_restore.
      * intros n. change (sf_Chains sf1) with (map (fun c => restoreIn c m) (sf_Chains sf)). rewrite <- Hup.
        assert (key_of (syncChain c1) = Membership_ChainName m) as Ek by (change (Chain_Name (syncChain c1) = Membership_ChainName m); by rewrite Chain_Name_sync).
        destruct (decide (n = Membership_ChainName m)) as [->|Hne].
        -- rewrite lookup_insert_eq, <- Ek. by rewrite find_upsert_eq.
        -- rewrite lookup_insert_ne by done. rewrite find_upsert_ne by (rewrite Ek; done). apply Hby.
      * exists w2, rev. rewrite Hm. change (sf_Chains sf1) with (map (fun c => restoreIn c m) (sf_Chains sf)). split.
        -- f_equal. f_equal. f_equal. unfold missingChains. apply List.filter_ext. intros n.
           f_equal. apply eq_true_iff_eq. by rewrite !has_key_spec, keys_restore.
        -- rewrite Hb2. unfold withChains, sf1. cbn. rewrite map_map.
           by rewrite (map_ext (fun d => restoreChain ms (restoreIn d m)) (restoreChain (m :: ms))) by (intros d; by rewrite restoreChain_step).
    + destruct (IH byName (skipped ++ [Membership_ChainName m]) w sf Hw Hb Hn Hby) as (w2 & rev & Hm & Hb2).
      exists w2, rev. rewrite Hm, <- app_assoc. split; [done|]. rewrite Hb2. unfold withChains.
      rewrite (map_ext_in (restoreChain ms) (restoreChain (m :: ms))); [done|]. intros c Hc%list_elem_of_In.
      rewrite restoreChain_step. unfold restoreIn. rewrite bool_decide_eq_false_2; [done|]. intros E.
      apply find_key_None in Hf. apply Hf. rewrite <- E. apply list_elem_of_fmap. by exists c.
Qed.

(** What the import of a node makes of the store file. *)
Definition restoredInfo (b : NodeBackup) (infos : list NodeInfo) : list NodeInfo :=
  match nb_NodeInfo b with Some ni => upsert (ni <| NodeInfo_Host := ChainNode_Host (nb_Node b) |>) infos | None => infos end.
Definition restoreNode (b : NodeBackup) (sf : storeFile) : storeFile :=
  sf <| sf_Hosts := upsert (ChainNode_Host (nb_Node b)) (sf_Hosts sf) |>
     <| sf_NodeInfos := restoredInfo b (sf_NodeInfos sf) |>
     <| sf_Chains := map (restoreChain (nb_Chains b)) (sf_Chains sf) |>.

(** Whether the store manages the node at another address. *)
Definition managedElsewhere (b : NodeBackup) (sf : storeFile) : option string :=
  match find_key (ChainNode_ID (nb_Node b)) (sf_Hosts sf) with
  | Some h => if Host_Addr h == ChainNode_Addr (nb_Node b) then None else Some (Host_Addr h)
  | None => None
  end.

Lemma chainsOf_base w sf : base w = Some sf -> chainsOf w = sf_Chains sf.
Proof.
  intros Hb. unfold chainsOf, ListChains, listStore. unfold base in Hb. destruct (readStore w) as [[]|]; try done; by injection Hb as <-.
Qed.


(** ** What comes back *)

Lemma mergeNode_in n nodes : n ∈ mergeNode n nodes.
Proof. induction nodes as [|x nodes IH]; cbn; [by left|]. case_match; [by left|by right]. Qed.

(** A chain with levels does not get the node back: its flat list is derived
    from the levels again. *)
Lemma levelled_membership_lost ms c : IsLevelized c = true -> Chain_Nodes c = AllNodes c -> restoreChain ms c = c.
Proof. intros Hl Hn. unfold restoreChain. rewrite Hl. destruct (map _ _); [done|]. rewrite <- Hn. by destruct c. Qed.

(** The last membership of a chain without levels is there. *)
Lemma flat_membership_restored ms c m : IsLevelized c = false -> Membership_ChainName m = Chain_Name c ->
  Membership_Node m ∈ Chain_Nodes (restoreChain (ms ++ [m]) c).
Proof.
  intros Hl Hm. unfold restoreChain. rewrite Hl, List.filter_app, map_app. cbn [List.filter]. rewrite Hm, bool_decide_eq_true_2 by done.
  cbn [map Chain_Nodes]. rewrite fold_left_app. apply mergeNode_in.
Qed.

(** ** Lemmas: rotation *)

Lemma sortStrings_perm l : sortStrings l ≡ₚ l.
Proof. apply merge_sort_Permutation. Qed.

#[export] Instance leString_total : Total leString.
Proof. intros a b. unfold leString. pose proof (String.leb_total a b). destruct (String.leb a b); auto. Qed.

Lemma compare_trans_le a : forall b c, String.leb a b = true -> String.leb b c = true -> String.leb a c = true.
Proof.
  unfold String.leb. induction a as [|x a IH]; intros [|y b] [|z c]; cbn; try done. unfold Ascii.compare.
  destruct (N.compare_spec (Ascii.N_of_ascii x) (Ascii.N_of_ascii y)) as [E1|E1|E1]; try done;
  destruct (N.compare_spec (Ascii.N_of_ascii y) (Ascii.N_of_ascii z)) as [E2|E2|E2]; try done;
  destruct (N.compare_spec (Ascii.N_of_ascii x) (Ascii.N_of_ascii z)) as [E3|E3|E3]; try done; try lia.
  apply IH.
Qed.

#[export] Instance leString_trans : Transitive leString.
Proof. intros a b c. apply compare_trans_le. Qed.

Lemma sortStrings_sorted l : StronglySorted leString (sortStrings l).
Proof. apply (StronglySorted_merge_sort leString). Qed.

Lemma StronglySorted_app_le {A} (R : A -> A -> Prop) l1 l2 x y : StronglySorted R (l1 ++ l2) -> x ∈ l1 -> y ∈ l2 -> R x y.
Proof.
  intros Hs Hx Hy. induction l1 as [|z l1 IH]; [by apply not_elem_of_nil in Hx|]. cbn in Hs. apply StronglySorted_inv in Hs as [Hs Hz].
  apply elem_of_cons in Hx as [->|Hx]; [|by apply IH]. rewrite Forall_forall in Hz. apply Hz. apply elem_of_app. by right.
Qed.

(** What is left after the removals. *)
Definition kept (retention : nat) (paths : list string) : list string :=
  drop (length paths - retention) (sortStrings paths).

Lemma expiredBlobs_take n paths : expiredBlobs n paths = take (length paths - n) (sortStrings paths).
Proof.
  unfold expiredBlobs. cbv zeta. rewrite (Permutation_length (sortStrings_perm paths)). case_match eqn:E; [|done]. apply Nat.leb_le in E.
  by replace (length paths - n)%nat with 0%nat by lia.
Qed.

Lemma expiredBlobs_kept n paths : expiredBlobs n paths ++ kept n paths = sortStrings paths.
Proof. rewrite expiredBlobs_take. apply take_drop. Qed.

(** C29: The rotation keeps the newest backups: for any listing the blobs in it
    are split into those it removes and those it keeps; it keeps as many as the
    retention asks for (all when there are fewer), no removed blob sorts after a
    kept one, nothing but blobs is removed, and the blob with the last name, the
    one that was just pushed, is kept. *)
Theorem rotation_keeps_newest run cfg out new : run (lsCommand cfg) = Some out ->
  NoDup (blobPaths out) -> new ∈ blobPaths out -> (forall p, p ∈ blobPaths out -> leString p new) ->
  exists removed rest, rotateOffsiteBlobs run cfg = (true, lsCommand cfg :: map rmCommand removed) /\
    removed ++ rest ≡ₚ blobPaths out /\ length rest = Nat.min (length (blobPaths out)) (retentionOf cfg) /\
    (forall p q, p ∈ removed -> q ∈ rest -> leString p q) /\
    (forall p, p ∈ removed -> isBlobName (baseName p) = true) /\ new ∈ rest.
Proof.
  intros Hrun Hnd Hnew Hmax. set (n := retentionOf cfg). set (ps := blobPaths out) in *.
  assert (0 < n)%nat as Hn. { unfold n, retentionOf, DefaultOffsiteBackupRetention. case_match; lia. }
  assert (removedOnly : forall p, p ∈ expiredBlobs n ps -> p ∈ ps).
  { intros p Hp. rewrite <- sortStrings_perm, <- (expiredBlobs_kept n ps). apply elem_of_app. by left. }
  assert (forall p q, p ∈ expiredBlobs n ps -> q ∈ kept n ps -> leString p q) as Hle.
  { intros p q. apply StronglySorted_app_le. rewrite expiredBlobs_kept. apply sortStrings_sorted. }
  assert (length (kept n ps) = Nat.min (length ps) n) as Hlen.
  { unfold kept. rewrite length_drop, (Permutation_length (sortStrings_perm ps)). lia. }
  exists (expiredBlobs n ps), (kept n ps). split; [unfold rotateOffsiteBlobs; by rewrite Hrun|]. split; [rewrite expiredBlobs_kept; apply sortStrings_perm|].
  split; [done|]. split; [done|]. split.
  - intros p Hp%removedOnly. unfold ps, blobPaths in Hp. apply list_elem_of_In, filter_In in Hp as [_ Hp]. by apply andb_true_iff in Hp as [_ Hp].
  - assert (new ∈ expiredBlobs n ps ++ kept n ps) as [Hin|Hin]%elem_of_app by (by rewrite expiredBlobs_kept, sortStrings_perm); [|done]. exfalso.
    destruct (kept n ps) as [|q qs] eqn:Ek.
    + destruct ps as [|z zs] eqn:Ep; [by apply not_elem_of_nil in Hnew|]. cbn [length] in Hlen. lia.
    + assert (q = new) as ->.
      { assert (q ∈ ps) as Hq by (rewrite <- sortStrings_perm, <- (expiredBlobs_kept n ps), Ek; apply elem_of_app; right; by left).
        pose proof (Hle new q Hin ltac:(by left)) as H1. pose proof (Hmax q Hq) as H2. unfold leString in *. by apply String.leb_antisym. }
      assert (NoDup (expiredBlobs n ps ++ kept n ps)) as Hd by (rewrite expiredBlobs_kept; by rewrite sortStrings_perm).
      rewrite Ek in Hd. apply NoDup_app in Hd as (_ & Hd & _). apply (Hd new Hin). by left.
Qed.

(** ** Samples *)

Definition backedUpStore : storeFile :=
  newStoreFile <| sf_Hosts := [mkHost "n1" "192.0.2.1:22" "root" "key"] |> <| sf_Revision := 7 |>.
Definition sampleTarget : OffsiteBackupConfig :=
  zeroOffsiteBackupConfig <| OffsiteBackupConfig_Enabled := true |> <| OffsiteBackupConfig_Host := "198.51.100.9:22" |>
    <| OffsiteBackupConfig_RemotePath := "/srv/backups/" |> <| OffsiteBackupConfig_Passphrase := "secret" |>.
Definition sampleOffsiteEnv : OffsiteEnv :=
  mkOffsiteEnv true true (fun _ => Some "") 5 "20260101-000000" (Some sampleSalt) (Some sampleNonce).

(** A reader that knows the document of one store only. *)
Definition sampleJson (sf : storeFile) : BackupJson :=
  Build_BackupJson (fun _ => "{}") (fun _ => "{}") (fun _ => Some (mkEnvelope BackupFormatStore 1 5)) (fun _ => Some (exported 5 sf)) (fun _ => None).

Lemma offsite_backup_restores_witness :
  let w1 := mkWorld (Some (Plain backedUpStore)) None None None [] None in
  let w2 := mkWorld None (Some (mkKeyFile 0 key32)) None None [] None in
  let blob := match pd_upload (@PushOffsiteBackup toyCrypto (sampleJson backedUpStore) sampleOffsiteEnv sampleTarget w1) with Some (_, b) => b | None => "" end in
  exists w3, @handleImportBackup toyCrypto (sampleJson backedUpStore) true 9 blob "secret" false w2 = Some (StoreImported, w3) /\
    readStore w3 = inr (bump backedUpStore).
Proof.
  intros w1 w2 blob.
  destruct (@offsite_backup_restores toyCrypto (sampleJson backedUpStore) sampleOffsiteEnv sampleTarget w1 backedUpStore
    "/srv/backups/angry-box-20260101-000000.abbkp" blob true 9 false w2) as [_ H].
  - reflexivity.
  - vm_compute. reflexivity.
  - by intros salt [= <-].
  - by intros nonce [= <-].
  - reflexivity.
  - by split.
  - destruct H as (w3 & H1 & H2 & _); [reflexivity|by split|by eexists|vm_compute; discriminate|]. exists w3. by split.
Defined.

Definition restoredNode (id addr : string) : ChainNode := zeroChainNode <| ChainNode_ID := id |> <| ChainNode_Addr := addr |>.
Definition sampleNodeBackup : NodeBackup :=
  mkNodeBackup (mkEnvelope BackupFormatNode 1 5) (restoredNode "n1" "192.0.2.7:22") (Some zeroNodeInfo)
    [mkMembership "c1" (restoredNode "n1" "192.0.2.7:22"); mkMembership "gone" (restoredNode "n1" "192.0.2.7:22")].
Definition nodeStore : storeFile :=
  newStoreFile <| sf_Hosts := [mkHost "n1" "192.0.2.1:22" "root" "key"] |>
    <| sf_Chains := [zeroChain <| Chain_Name := "c1" |> <| Chain_Nodes := [restoredNode "e" "192.0.2.2:22"] |>] |>.


Definition sampleListing : string :=
  unlines ["/srv/backups/angry-box-20260103-000000.abbkp"; "/srv/backups/notes.txt"; "/srv/backups/angry-box-20260101-000000.abbkp";
           "/srv/backups/angry-box-20260102-000000.abbkp"].

Lemma rotation_keeps_newest_witness :
  let cfg := sampleTarget <| OffsiteBackupConfig_Retention := 2 |> in
  let new := "/srv/backups/angry-box-20260103-000000.abbkp" in
  exists removed rest, rotateOffsiteBlobs (fun _ => Some sampleListing) cfg = (true, lsCommand cfg :: map rmCommand removed) /\
    removed ++ rest ≡ₚ blobPaths sampleListing /\ length rest = 2%nat /\ new ∈ rest.
Proof.
  intros cfg new.
  destruct (rotation_keeps_newest (fun _ => Some sampleListing) cfg sampleListing new eq_refl) as (removed & rest & H1 & H2 & H3 & _ & _ & H6).
  - apply (bool_decide_unpack _). vm_compute. exact I.
  - apply (bool_decide_unpack _). vm_compute. exact I.
  - intros p Hp. assert (blobPaths sampleListing = [new; "/srv/backups/angry-box-20260101-000000.abbkp"; "/srv/backups/angry-box-20260102-000000.abbkp"]) as E by (vm_compute; reflexivity).
    rewrite E in Hp. repeat (apply elem_of_cons in Hp as [->|Hp]; [reflexivity|]). by apply not_elem_of_nil in Hp.
  - exists removed, rest. split; [exact H1|]. split; [exact H2|]. split; [|exact H6]. rewrite H3. vm_compute. reflexivity.
Defined.

(** ** Divergences *)

(** The restore command reports success for a refused import. *)
Lemma refused_restore_reported :
  let w := mkWorld (Some (Plain nodeStore)) None None None [] None in
  let bj := Build_BackupJson (fun _ => "") (fun _ => "") (fun _ => Some (mkEnvelope BackupFormatNode 1 5)) (fun _ => None) (fun _ => Some sampleNodeBackup) in
  @restoreCmd bj true 9 "{}" false w = Some (0, "node restored", w).
Proof. vm_compute. reflexivity. Qed.

(** A push saves the configuration it started with: what the operator changed
    while it ran is undone. *)
Lemma push_undoes_edit :
  let edited := sampleTarget <| OffsiteBackupConfig_Enabled := false |> <| OffsiteBackupConfig_Passphrase := "new" |> in
  let w := mkWorld (Some (Plain (backedUpStore <| sf_Settings := Some (zeroPanelSettings <| PanelSettings_OffsiteBackup := Some edited |>) |>))) None None None [] None in
  storedConfig (stampBackup 5 sampleTarget w) = Some (sampleTarget <| OffsiteBackupConfig_LastBackupAt := 5 |>).
Proof. vm_compute. reflexivity. Qed.
