(* ===== verification/AwgImport.v ===== *)
(** * AwgImport: reading the AWG server of a machine that is taken over

    internal/chain/awgimport.go and awgimport_foreign.go read the files of a
    running AmneziaWG server, and of foreign installations in containers;
    awg_takeover_users.go makes users of its peers and writes the file the panel
    owns from then on.  What the machine prints for a command is an argument. *)

From S2P Require Import Prelude GoStrings Model ChainModel Lifecycle StoreCore Store StoreSpec StoreRefine Codec Presets Roles AwgConf AwgMaterial Push PeerSync AwgPush AwgDeploy ClientConf HopWire ConfFields Json VpnUri OutboundConf.

(** ** Data *)

(** [AwgServerConfig]. *)
Record AwgServerConfig := mkAwgServerConfig {
  asc_PrivateKey : string; asc_ListenPort : Z; asc_Address : string; asc_DNS : string; asc_PostUp : string; asc_PostDown : string;
  asc_JC : Z; asc_JMIN : Z; asc_JMAX : Z; asc_S1 : Z; asc_S2 : Z; asc_S3 : Z; asc_S4 : Z;
  asc_H1 : string; asc_H2 : string; asc_H3 : string; asc_H4 : string;
  asc_I1 : string; asc_I2 : string; asc_I3 : string; asc_I4 : string; asc_I5 : string }.

(** [AwgExitConfig]. *)
Record AwgExitConfig := mkAwgExitConfig {
  aec_Name : string; aec_InterfaceName : string; aec_PrivateKey : string; aec_PublicKey : string; aec_PresharedKey : string;
  aec_Address : string; aec_Endpoint : string; aec_Amnezia : gmap string string }.
#[export] Instance eta_AwgExitConfig : Eta AwgExitConfig := fun r =>
  mkAwgExitConfig (aec_Name r) (aec_InterfaceName r) (aec_PrivateKey r) (aec_PublicKey r) (aec_PresharedKey r) (aec_Address r) (aec_Endpoint r) (aec_Amnezia r).

(** [AwgPeerEntry]. *)
Record AwgPeerEntry := mkAwgPeerEntry {
  ape_Name : string; ape_Address : string; ape_PublicKey : string; ape_PresharedKey : string; ape_AllowedIPs : string }.
#[export] Instance eta_AwgPeerEntry : Eta AwgPeerEntry := fun r =>
  mkAwgPeerEntry (ape_Name r) (ape_Address r) (ape_PublicKey r) (ape_PresharedKey r) (ape_AllowedIPs r).

(** [ImportResult]; [ir_Imported] is the set of the flags that are true. *)
Record ImportResult := mkImportResult {
  ir_ServerConfig : option AwgServerConfig;
  ir_ExitNodes : list AwgExitConfig;
  ir_Peers : list AwgPeerEntry;
  ir_SingboxConfig : option (list (string * Json));
  ir_Log : list string;
  ir_Imported : gset string;
  ir_DBUpdated : string;
  ir_StopTargets : list string;
  ir_ForeignSources : list string }.
#[export] Instance eta_ImportResult : Eta ImportResult := fun r =>
  mkImportResult (ir_ServerConfig r) (ir_ExitNodes r) (ir_Peers r) (ir_SingboxConfig r) (ir_Log r) (ir_Imported r) (ir_DBUpdated r)
    (ir_StopTargets r) (ir_ForeignSources r).
Definition zeroImportResult : ImportResult := mkImportResult None [] [] None [] ∅ "" [] [].

(** ** The files *)

(** [getDefault]. *)
Definition getDefault (m : gmap string string) (k def : string) : string :=
  match m !! k with Some v => if v != "" then v else def | None => def end.

(** [parseAWGServerConf]. *)
Definition parseAWGServerConf (content : string) : option AwgServerConfig :=
  let iface := fst (parseSections content) in
  match iface !! "ListenPort" with
  | None => None
  | Some _ =>
      let i := get iface in
      let n k d := atoi0 (getDefault iface k d) in
      Some (mkAwgServerConfig (i "PrivateKey") (n "ListenPort" "55555") (i "Address") (i "DNS") (i "PostUp") (i "PostDown")
              (n "Jc" "0") (n "Jmin" "0") (n "Jmax" "0") (n "S1" "0") (n "S2" "0") (n "S3" "0") (n "S4" "0")
              (i "H1") (i "H2") (i "H3") (i "H4") (i "I1") (i "I2") (i "I3") (i "I4") (i "I5"))
  end.

Definition amneziaKeys : list string :=
  ["Jc"; "Jmin"; "Jmax"; "S1"; "S2"; "S3"; "S4"; "H1"; "H2"; "H3"; "H4"; "I1"; "I2"; "I3"; "I4"; "I5"; "Itime"].

(** [parseAWGExitConf]. *)
Definition parseAWGExitConf (content : string) : option AwgExitConfig :=
  let '(iface, peer) := parseSections content in
  let ec := mkAwgExitConfig "" "" (get iface "PrivateKey") (get peer "PublicKey") (get peer "PresharedKey") (get iface "Address") (get peer "Endpoint")
              (list_to_map (omap (fun k => option_map (pair k) (iface !! k)) amneziaKeys)) in
  if (aec_Endpoint ec == "") && (aec_PublicKey ec == "") then None else Some ec.

(** What follows the first [sub] in a text. *)
Fixpoint afterSub (sub s : string) : option string :=
  if HasPrefix s sub then Some (drop_string (String.length sub) s)
  else match s with "" => None | String _ s' => afterSub sub s' end.

Definition noPeer : AwgPeerEntry := mkAwgPeerEntry "" "" "" "" "0.0.0.0/0".

(** The state of the two loops over peers: the entries, the one being read,
    whether a peer section is open and a name waiting for its section. *)
Record PeerScan := mkPeerScan { ps_out : list AwgPeerEntry; ps_cur : AwgPeerEntry; ps_inPeer : bool; ps_pending : string }.
#[export] Instance eta_PeerScan : Eta PeerScan := fun r => mkPeerScan (ps_out r) (ps_cur r) (ps_inPeer r) (ps_pending r).

Definition flushEntry (s : PeerScan) : list AwgPeerEntry :=
  if ps_inPeer s && (ape_PublicKey (ps_cur s) != "") then ps_out s ++ [ps_cur s] else ps_out s.

Definition sectionName (line : string) : option string :=
  if HasPrefix line "[" && HasSuffix line "]" then Some (TrimSuffix (TrimPrefix line "[") "]") else None.

(** [parsePeersList]. *)
Definition peersListLine (s : PeerScan) (raw : string) : PeerScan :=
  let line := TrimSpace raw in
  if line == "" then s
  else
    match afterSub "Name=" line, ps_inPeer s with
    | Some name, true => s <| ps_cur := (ps_cur s) <| ape_Name := TrimSpace name |> |>
    | _, _ =>
        match sectionName line with
        | Some section => mkPeerScan (flushEntry s) noPeer (section == "Peer") ""
        | None =>
            match cut_at equals line with
            | None => s
            | Some (k, v) =>
                let k := TrimSpace k in let v := TrimSpace v in
                let cur := ps_cur s in
                if ps_inPeer s then
                  if k == "PublicKey" then s <| ps_cur := cur <| ape_PublicKey := v |> |>
                  else if k == "AllowedIPs" then s <| ps_cur := cur <| ape_AllowedIPs := v |> |>
                  else if k == "PresharedKey" then s <| ps_cur := cur <| ape_PresharedKey := v |> |>
                  else s
                else if k == "Address" then s <| ps_cur := cur <| ape_Address := v |> |>
                else s
            end
        end
    end.
Definition parsePeersList (content : string) : list AwgPeerEntry :=
  flushEntry (fold_left peersListLine (Split newline content) (mkPeerScan [] noPeer false "")).

(** [parseAllPeers]. *)
Definition privateRange (v : string) : bool := HasPrefix v "10." || HasPrefix v "172." || HasPrefix v "192.168.".

Definition entryField (cur : AwgPeerEntry) (k v : string) : AwgPeerEntry :=
  if k == "PublicKey" then cur <| ape_PublicKey := v |>
  else if k == "AllowedIPs" then
    let cur := cur <| ape_AllowedIPs := v |> in
    if privateRange v then cur <| ape_Address := match cut_at ","%char v with Some (a, _) => a | None => v end |> else cur
  else if k == "PresharedKey" then cur <| ape_PresharedKey := v |>
  else cur.

Definition allPeersLine (s : PeerScan) (raw : string) : PeerScan :=
  let line := TrimSpace raw in
  if line == "" then s
  else if HasPrefix line "#" then
    let name := TrimSpace (TrimPrefix line "#") in
    if (name != "") && negb (HasPrefix name "expires=") then
      if ps_inPeer s && (ape_Name (ps_cur s) == "") then s <| ps_cur := (ps_cur s) <| ape_Name := name |> |>
      else s <| ps_pending := name |>
    else s
  else
    match sectionName line with
    | Some section => mkPeerScan (flushEntry s) (noPeer <| ape_Name := ps_pending s |>) (section == "Peer") ""
    | None =>
        match cut_at equals line with
        | Some (k, v) => if ps_inPeer s then s <| ps_cur := entryField (ps_cur s) (TrimSpace k) (TrimSpace v) |> else s
        | None => s
        end
    end.
Definition parseAllPeers (content : string) : list AwgPeerEntry :=
  flushEntry (fold_left allPeersLine (Split newline content) (mkPeerScan [] noPeer false "")).

#[global] Arguments parseAllPeers : simpl never.
#[global] Arguments parseAWGServerConf : simpl never.

(** ** Placeholders of the inbounds *)

Definition placeholders : list string := ["TODO"; "TODO-fill-from-awg-conf"; "placeholder"; ""].
Definition isPlaceholder (v : string) : bool := bool_decide (v ∈ placeholders).

(** An AWG inbound of [backfillInbounds], and what changed in it. *)
Definition backfillInbound (res : ImportResult) (ib : NodeInbound) : NodeInbound * list string :=
  if NodeInbound_Protocol ib != "awg" then (ib, [])
  else
    let '(ib, c1) :=
      match ir_ServerConfig res with
      | Some sc => if isPlaceholder (NodeInbound_ServerPrivKey ib) && (asc_PrivateKey sc != "")
                   then (ib <| NodeInbound_ServerPrivKey := asc_PrivateKey sc |>, ["inbound:awg:server_priv"]) else (ib, [])
      | None => (ib, [])
      end in
    match List.find (fun ec => (aec_PublicKey ec != "") && isPlaceholder (NodeInbound_AWGClientPub ib)) (ir_ExitNodes res) with
    | Some ec => (ib <| NodeInbound_AWGClientPub := aec_PublicKey ec |>, c1 ++ ["inbound:awg:client_pub"])
    | None => (ib, c1)
    end.

(** [backfillInbounds]. *)
Definition backfillInbounds (info : NodeInfo) (res : ImportResult) : NodeInfo * ImportResult * string :=
  let r := map (backfillInbound res) (NodeInfo_Inbounds info) in
  let info := info <| NodeInfo_Inbounds := map fst r |> in
  match flat_map snd r with
  | [] => (info, res, "no changes needed")
  | changed => (info, res <| ir_Imported := {["db_updated"]} ∪ ir_Imported res |>, Join ", " changed)
  end.

(** ** The machine *)

Definition awgConfDir : string := "/etc/amnezia/amneziawg".
Definition awg0ConfPath : string := awgConfDir +:+ "/awg0.conf".
Definition awgPeersListPath : string := awgConfDir +:+ "/awg0-peers.list".

Definition priv (useSudo : bool) (cmd : string) : string := if useSudo then "sudo " +:+ cmd else cmd.

(** [strings.Replace] once. *)
Fixpoint replaceFirst (sub by_ s : string) : string :=
  if HasPrefix s sub then by_ +:+ drop_string (String.length sub) s
  else match s with "" => "" | String c s' => String c (replaceFirst sub by_ s') end.

(** [dockerAWGDirs]. *)
Definition dockerAWGDirs (name : string) : option (list string) :=
  let named n := (name == n) || HasPrefix name (n +:+ "-") in
  if named "amnezia-wireguard" then Some ["/opt/amnezia/wireguard"]
  else if named "amnezia-awg3" then Some ["/opt/amnezia/awg3"; "/opt/amnezia/awg"]
  else if named "amnezia-awg2" then Some ["/opt/amnezia/awg2"; "/opt/amnezia/awg"]
  else if named "amnezia-awg" then Some ["/opt/amnezia/awg"]
  else None.

(** [adoptForeign]. *)
Definition adoptForeign (res : ImportResult) (confText source stopTarget : string) : ImportResult * bool :=
  match parseAWGServerConf confText with
  | None => (res, false)
  | Some sc =>
      let res := res <| ir_ForeignSources := ir_ForeignSources res ++ [source] |> in
      let res := if stopTarget != "" then res <| ir_StopTargets := ir_StopTargets res ++ [stopTarget] |> else res in
      let res := match ir_ServerConfig res with
                 | None => res <| ir_ServerConfig := Some sc |> <| ir_Imported := {["awg0_conf"]} ∪ ir_Imported res |>
                 | Some _ => res
                 end in
      (match ir_Peers res, parseAllPeers confText with
       | [], (_ :: _) as peers => res <| ir_Peers := peers |> <| ir_Imported := {["peers"]} ∪ ir_Imported res |>
       | _, _ => res
       end, true)
  end.

Section machine.
(** What the machine prints for a command; [None] when it could not be run. *)
Variable run : string -> option string.
Variable useSudo : bool.

Definition output (cmd : string) : option string := run (priv useSudo cmd).
(** An output that is not blank. *)
Definition text (cmd : string) : option string :=
  match output cmd with Some out => if TrimSpace out == "" then None else Some out | None => None end.
Definition logged (res : ImportResult) (l : string) : ImportResult := res <| ir_Log := ir_Log res ++ [l] |>.

Definition toolzaFile (res : ImportResult) (raw : string) : ImportResult :=
  let path := TrimSpace raw in
  if path == "" then res
  else
    match text ("cat " +:+ path) with
    | None => res
    | Some out =>
        match adoptForeign res out "toolza3" "systemd:awg3" with
        | (res, true) => logged res ("toolza3 " +:+ path +:+ " imported")
        | (res, false) => res
        end
    end.

(** The first of the three file names that has a text in a directory of a
    container is tried. *)
Fixpoint dockerFile (res : ImportResult) (name dir : string) (confNames : list string) : ImportResult :=
  match confNames with
  | [] => res
  | confName :: confNames' =>
      let path := dir +:+ "/" +:+ confName in
      match text ("docker exec " +:+ name +:+ " cat " +:+ path +:+ " 2>/dev/null") with
      | None => dockerFile res name dir confNames'
      | Some out =>
          match adoptForeign res out ("docker:" +:+ name) ("docker:" +:+ name) with
          | (res, true) => logged res ("docker " +:+ name +:+ ":" +:+ path +:+ " imported")
          | (res, false) => res
          end
      end
  end.

Definition dockerContainer (res : ImportResult) (raw : string) : ImportResult :=
  let name := TrimSpace raw in
  match dockerAWGDirs name with
  | None => res
  | Some dirs => fold_left (fun res dir => dockerFile res name dir ["awg0.conf"; "wg0.conf"; "awg.conf"]) dirs res
  end.

(** [discoverForeignAWG]. *)
Definition discoverForeignAWG (res : ImportResult) : ImportResult :=
  let res :=
    match output "ls /etc/awg3/*.conf 2>/dev/null" with
    | Some listing => fold_left toolzaFile (Split newline listing) res
    | None => res
    end in
  match text "docker ps --format '{{.Names}}' 2>/dev/null" with
  | Some names => fold_left dockerContainer (Split newline names) res
  | None => res
  end.

(** The exit file of a line of the listing. *)
Definition exitFile (raw : string) : option AwgExitConfig :=
  let line := TrimSpace raw in
  if line == "" then None
  else
    match output ("cat " +:+ line) with
    | None => None
    | Some out =>
        if out == "" then None
        else
          match parseAWGExitConf out with
          | None => None
          | Some ec =>
              let iface := match cut_last "/"%char line with Some (_, f) => f | None => line end in
              let iface := TrimSuffix iface ".conf" in
              Some (ec <| aec_InterfaceName := iface |> <| aec_Name := replaceFirst "awg-exit-" "exit-" iface |>)
          end
    end.

Definition importServer (res : ImportResult) : ImportResult :=
  match text ("cat " +:+ awg0ConfPath) with
  | None => res
  | Some out =>
      match parseAWGServerConf out with
      | None => res
      | Some sc => logged (res <| ir_ServerConfig := Some sc |> <| ir_Imported := {["awg0_conf"]} ∪ ir_Imported res |>)
                     ("awg0.conf parsed (ListenPort=" +:+ itoa (asc_ListenPort sc) +:+ ")")
      end
  end.

Definition importExits (res : ImportResult) : ImportResult :=
  match output ("ls " +:+ awgConfDir +:+ "/awg-exit-*.conf 2>/dev/null") with
  | None => res
  | Some listing =>
      match omap exitFile (Split newline (TrimSpace listing)) with
      | [] => res
      | exits => logged (res <| ir_ExitNodes := exits |> <| ir_Imported := {["exit_nodes"]} ∪ ir_Imported res |>)
                   ("parsed " +:+ itoa (Z.of_nat (length exits)) +:+ " exit-node configs")
      end
  end.

Definition importPeers (res : ImportResult) : ImportResult :=
  let res :=
    match text ("cat " +:+ awgPeersListPath +:+ " 2>/dev/null") with
    | None => res
    | Some out =>
        let peers := parsePeersList out in
        logged (res <| ir_Peers := peers |> <| ir_Imported := {["peers"]} ∪ ir_Imported res |>)
          ("parsed " +:+ itoa (Z.of_nat (length peers)) +:+ " peers")
    end in
  match ir_Peers res, ir_ServerConfig res, output ("cat " +:+ awg0ConfPath) with
  | [], Some _, Some out =>
      match parseAllPeers out with
      | [] => res
      | peers => logged (res <| ir_Peers := peers |> <| ir_Imported := {["peers"]} ∪ ir_Imported res |>)
                   ("parsed " +:+ itoa (Z.of_nat (length peers)) +:+ " peers from awg0.conf")
      end
  | _, _, _ => res
  end.

Definition importSingbox (res : ImportResult) : ImportResult :=
  match text "cat /usr/local/etc/sing-box/config.json 2>/dev/null || cat /etc/sing-box/config.json 2>/dev/null" with
  | None => res
  | Some out =>
      let flag (res : ImportResult) := res <| ir_Imported := {["singbox_config"]} ∪ ir_Imported res |> in
      match unmarshal out with
      | Some (JObj ms) => flag (res <| ir_SingboxConfig := Some ms |>)
      | Some JNull => flag res
      | _ => res
      end
  end.

(** [importAWGConfigsViaClient], with the node record whose placeholders are
    filled. *)
Definition importAWGConfigsViaClient (info : option NodeInfo) : option NodeInfo * ImportResult :=
  let res := importSingbox (discoverForeignAWG (importPeers (importExits (importServer zeroImportResult)))) in
  match info with
  | None => (None, res)
  | Some info => let '(info, res, summary) := backfillInbounds info res in (Some info, res <| ir_DBUpdated := summary |>)
  end.
End machine.

(** [StopImportSources]: the commands. *)
Definition stopCommand (useSudo : bool) (t : string) : option string :=
  match cut_at colon t with
  | Some (kind, name) =>
      if name == "" then None
      else if kind == "docker" then Some (priv useSudo ("docker update --restart=no " +:+ name +:+ " 2>/dev/null; docker stop " +:+ name))
      else if kind == "systemd" then Some (priv useSudo ("systemctl stop " +:+ name +:+ " 2>/dev/null"))
      else None
  | None => None
  end.
Definition StopImportSources (useSudo : bool) (targets : list string) : list string := omap (stopCommand useSudo) targets.

(** ** Users of the peers *)

(** [pubKeyPrefix]. *)
Definition pubKeyPrefix (pub : string) (n : nat) : string :=
  let p := ToLower (TrimSpace pub) in if (String.length p <? n)%nat then p else take_string n p.

Definition takeoverID (nodeID pub : string) : string := "takeover-" +:+ nodeID +:+ "-" +:+ pubKeyPrefix pub 8.

Definition takeoverUser (now : Time) (nodeID chainName : string) (i : Z) (p : AwgPeerEntry) : User :=
  let u := zeroUser <| User_ID := takeoverID nodeID (ape_PublicKey p) |>
             <| User_Name := if ape_Name p == "" then "takeover-" +:+ nodeID +:+ "-" +:+ itoa i else ape_Name p |>
             <| User_Active := true |> <| User_Protocols := ["awg"] |> <| User_AWGPublicKey := ape_PublicKey p |>
             <| User_AWGAddress := ape_AllowedIPs p |> <| User_CreatedAt := now |> in
  if chainName != "" then u <| User_ChainNames := [chainName] |> else u.

(** The loop: the identifiers and the public keys in use, the users made. *)
Fixpoint materializeFrom (now : Time) (nodeID chainName : string) (i : Z) (ids pubs : gset string) (peers : list AwgPeerEntry)
    (w : World) : list string * World :=
  match peers with
  | [] => ([], w)
  | p :: peers' =>
      let id := takeoverID nodeID (ape_PublicKey p) in
      let next := materializeFrom now nodeID chainName (i + 1) in
      if ape_PublicKey p == "" then next ids pubs peers' w
      else if bool_decide (id ∈ ids) then next ids pubs peers' w
      else if bool_decide (ape_PublicKey p ∈ pubs) then next ids pubs peers' w
      else
        match SaveUser now (takeoverUser now nodeID chainName i p) w with
        | (Err _, w) => next ids pubs peers' w
        | (Ok _, w) =>
            let '(created, w) := next ({[id]} ∪ ids) ({[ape_PublicKey p]} ∪ pubs) peers' w in (id :: created, w)
        end
  end.

(** [MaterializeAWGPeersAsUsers]. *)
Definition userIDs (us : list User) : gset string := list_to_set (map User_ID us).
Definition userPubs (us : list User) : gset string :=
  list_to_set (List.filter (fun k => k != "") (map User_AWGPublicKey us)).
Definition MaterializeAWGPeersAsUsers (now : Time) (nodeID : string) (peers : list AwgPeerEntry) (chainName : string) : Op (list string) := fun w =>
  match ListUsers w with
  | Err e => (Err e, w)
  | Ok existing => let '(created, w) := materializeFrom now nodeID chainName 0 (userIDs existing) (userPubs existing) peers w in (Ok created, w)
  end.

(** [DeleteSynthesizedAWGUsers]. *)
Definition DeleteSynthesizedAWGUsers (ids : list string) (w : World) : World :=
  fold_left (fun w id => if id == "" then w else snd (DeleteUser id w)) ids w.

(** [AwgServerConfigToAmnezia]. *)
Definition AwgServerConfigToAmnezia (s : option AwgServerConfig) : option AmneziaOptions :=
  match s with
  | None => None
  | Some s =>
      if asc_JC s =? 0 then None
      else Some (mkAmneziaOptions (asc_JC s) (asc_JMIN s) (asc_JMAX s) (asc_S1 s) (asc_S2 s) (asc_S3 s) (asc_S4 s)
                   (asc_H1 s) (asc_H2 s) (asc_H3 s) (asc_H4 s) (asc_I1 s) (asc_I2 s) (asc_I3 s) (asc_I4 s) (asc_I5 s) 0)
  end.

(** [RenderTakeoverAWGConf]. *)
Definition takeoverPeers (users : list User) : list AWGServerPeer :=
  map (fun u => mkAWGServerPeer (User_AWGPublicKey u) (User_AWGAddress u) (User_AWGPresharedKey u))
    (List.filter (fun u => User_Active u && (User_AWGPublicKey u != "") && (User_AWGAddress u != "")) users).
Definition takeoverParams (server : AwgServerConfig) (users : list User) : AWGServerConfParams :=
  mkAWGServerConfParams (asc_PrivateKey server) (asc_ListenPort server) (orElse (asc_Address server) "10.8.0.1/24") 1420
    (AwgServerConfigToAmnezia (Some server)) "" None (takeoverPeers users) tunInterfaceName "awg0".
Definition RenderTakeoverAWGConf (server : AwgServerConfig) (users : list User) : AWGConfFile :=
  mkAWGConfFile "awg0" (RenderServerAWGConf (takeoverParams server users)).

(** ** Lemmas: reading back the interface of a rendered file *)

(** The obfuscation lines of a server file, which has no packets. *)
Definition serverAmneziaPairs (a : AmneziaOptions) (v2 : bool) : list (string * string) :=
  [("Jc", itoa (Amnezia_JC a)); ("Jmin", itoa (Amnezia_JMIN a)); ("Jmax", itoa (Amnezia_JMAX a));
   ("S1", itoa (Amnezia_S1 a)); ("S2", itoa (Amnezia_S2 a))] ++
  (if v2 then [("S3", itoa (Amnezia_S3 a)); ("S4", itoa (Amnezia_S4 a))] else []) ++
  (if Amnezia_H1 a != "" then [("H1", Amnezia_H1 a); ("H2", Amnezia_H2 a); ("H3", Amnezia_H3 a); ("H4", Amnezia_H4 a)] else []).

Definition hookPairs (ls : list string) : list (string * string) :=
  omap (fun l => match cut_at equals l with Some (k, v) => Some (TrimSpace k, TrimSpace v) | None => None end) ls.

Definition serverPairs (p : AWGServerConfParams) : list (string * string) :=
  [("Address", orElse (Server_TunnelAddress p) "10.8.0.1/24"); ("ListenPort", itoa (Server_ListenPort p)); ("PrivateKey", Server_PrivateKey p);
   ("MTU", itoa (orElseZ (Server_MTU p) 1420))] ++
  (match Server_Amnezia p with Some a => serverAmneziaPairs a (v2 p) | None => [] end) ++
  (if Server_TUNInterface p != "" then hookPairs (tunHooks (orElse (Server_InterfaceName p) "awg0") (Server_TUNInterface p)) else []).

(** A server whose file can be imported: a port, plain text, numbers that fit,
    no material of AWG 3. *)
Record plainServer (p : AWGServerConfParams) : Prop := {
  psv_port : 0 < Server_ListenPort p < 2 ^ 63;
  psv_texts : Forall readable [orElse (Server_TunnelAddress p) "10.8.0.1/24"; Server_PrivateKey p];
  psv_numbers : Forall (fun z => - 2 ^ 63 <= z < 2 ^ 63)
    (match Server_Amnezia p with
     | Some a => [Amnezia_JC a; Amnezia_JMIN a; Amnezia_JMAX a; Amnezia_S1 a; Amnezia_S2 a; Amnezia_S3 a; Amnezia_S4 a] | None => [] end);
  psv_headers : Forall readable (match Server_Amnezia p with Some a => [Amnezia_H1 a; Amnezia_H2 a; Amnezia_H3 a; Amnezia_H4 a] | None => [] end);
  psv_names : contains_byte newline (Server_InterfaceName p) = false /\ contains_byte newline (Server_TUNInterface p) = false;
  psv_awg3 : Server_AWG3 p = None;
  psv_peers : Forall renderedPeer (Server_Peers p) }.

Definition endsPlain (t : string) : Prop := trim_right t = t /\ t <> "".

Lemma endsPlain_prefix a t : endsPlain t -> endsPlain (a +:+ t).
Proof. intros [Ht Hn]. split; [rewrite trim_right_app; by rewrite Ht|]. destruct a; [done|discriminate]. Qed.

Lemma solid_from c a t : is_space c = false -> endsPlain t -> solid (String c a +:+ t).
Proof. intros Hc Ht. unfold solid, TrimSpace. rewrite (proj1 (endsPlain_prefix _ t Ht)). by apply trim_left_id. Qed.

Lemma hookPairs_cons k v ls : solid (String "P" k) -> contains_byte equals (String "P" k) = false -> solid v ->
  hookPairs (field (String "P" k) v :: ls) = (String "P" k, v) :: hookPairs ls.
Proof.
  intros Hk He Hv. unfold hookPairs. cbn [omap list_omap]. rewrite cut_field by done.
  rewrite TrimSpace_trailing, (TrimSpace_leading " "%char v) by done. by rewrite Hk, Hv.
Qed.

Ltac ends_plain := repeat apply endsPlain_prefix; split; [reflexivity|discriminate].

(** The two hooks, as pairs. *)
Definition hookValue (k iface tun : string) : string := lastEntry k (hookPairs (tunHooks iface tun)) "".

Lemma tunHooks_pairs iface tun :
  let up := hookValue "PostUp" iface tun in let down := hookValue "PostDown" iface tun in
  solid up /\ solid down /\ tunHooks iface tun = [field "PostUp" up; field "PostDown" down] /\
  hookPairs (tunHooks iface tun) = [("PostUp", up); ("PostDown", down)].
Proof.
  unfold hookValue, tunHooks.
  set (up := "echo 1 > /proc/sys/net/ipv4/ip_forward; " +:+ _). set (down := "iptables -D FORWARD " +:+ _).
  assert (solid up) as Hup. { unfold up, forwardRule. apply solid_from; [reflexivity|]. ends_plain. }
  assert (solid down) as Hdown. { unfold down, forwardRule. apply solid_from; [reflexivity|]. ends_plain. }
  rewrite !hookPairs_cons by done. change (hookPairs []) with (@nil (string * string)). cbn [lastEntry String.eqb Ascii.eqb Bool.eqb]. done.
Qed.

Lemma tunHooks_section iface tun : contains_byte newline iface = false -> contains_byte newline tun = false ->
  inSection "Interface" (tunHooks iface tun) (hookPairs (tunHooks iface tun)).
Proof.
  intros Hi Ht. assert (Forall (fun l => contains_byte newline l = false) (tunHooks iface tun)) as Hn.
  { unfold tunHooks, forwardRule, field. repeat constructor; rewrite !contains_byte_app, Hi, Ht; reflexivity. }
  destruct (tunHooks_pairs iface tun) as (H1 & H2 & E1 & ->). rewrite E1 in Hn |- *.
  apply Forall_cons in Hn as [N1 [N2 _]%Forall_cons].
  assert (forall k v, solid v -> contains_byte newline (field k v) = false -> readable v) as Hr.
  { intros k v Hv Hn. destruct (bool_decide_reflect (v = "")) as [->|Hne]; [by left|]. right. split; [done|]. split; [done|].
    unfold field in Hn. rewrite !contains_byte_app in Hn. by apply orb_false_iff in Hn as [_ [_ Hn]%orb_false_iff]. }
  section_lines; by eapply Hr.
Qed.

Lemma amnezia_section a version : Forall readable [Amnezia_H1 a; Amnezia_H2 a; Amnezia_H3 a; Amnezia_H4 a] ->
  inSection "Interface" (writeAmneziaConfLines a false version) (serverAmneziaPairs a (AWGVersionAtLeast (orElse version AWGVersion2) AWGVersion2)).
Proof.
  rewrite !Forall_cons. intros (? & ? & ? & ? & _). unfold writeAmneziaConfLines, serverAmneziaPairs. cbv zeta. cbn [andb when].
  rewrite app_nil_r. section_lines; done.
Qed.

Lemma server_section p : plainServer p -> inSection "Interface" (serverInterface p) (serverPairs p).
Proof.
  intros [Hport Ht _ Hh [Hi Htun] Ha _]. rewrite !Forall_cons in Ht. destruct Ht as (T1 & T2 & _).
  unfold serverInterface, serverPairs. cbv zeta. rewrite Ha. replace (0 <? Server_ListenPort p) with true by lia.
  cbn [when app]. set (hooks := when _ _). set (amn := optAmnezia _ _).
  match goal with |- inSection _ (?a :: ?b :: ?c :: ?d :: _) _ => change (inSection "Interface" ([a; b; c; d] ++ amn ++ hooks) (serverPairs p)) end.
  unfold serverPairs. apply section_app; [section_lines; done|]. apply section_app.
  - unfold amn, optAmnezia. destruct (Server_Amnezia p) as [a|]; [|apply section_nil]. by apply amnezia_section.
  - unfold hooks. apply section_when. intros _. apply tunHooks_section; [|done]. unfold orElse. destruct (Server_InterfaceName p == ""); [reflexivity|exact Hi].
Qed.

Lemma peer_iface q s : renderedPeer q -> sec_iface (fold_left sectionLine (peerLines q) s) = sec_iface s.
Proof.
  intros Hq. unfold peerLines. destruct (bool_decide_reflect (Peer_PublicKey q = "")) as [|Hk]; [done|]. destruct (Hq Hk) as (P1 & P2 & P3).
  set (ls := [field "PublicKey" (Peer_PublicKey q)] ++ when (Peer_PresharedKey q != "") [field "PresharedKey" (Peer_PresharedKey q)] ++
    [field "AllowedIPs" (orElse (Peer_AllowedIPs q) "10.8.0.2/32")]).
  assert (exists ps, inSection "Peer" ls ps) as [ps [_ H]].
  { eexists. unfold ls. section_lines; try (by right). right. apply P3. intros E. by rewrite E in H. }
  change (["" ; "[Peer]"; field "PublicKey" (Peer_PublicKey q)] ++ when (Peer_PresharedKey q != "") [field "PresharedKey" (Peer_PresharedKey q)] ++
    [field "AllowedIPs" (orElse (Peer_AllowedIPs q) "10.8.0.2/32")]) with (["" ; "[Peer]"] ++ ls).
  rewrite fold_left_app. cbn [fold_left]. change (sectionLine s "") with s.
  change (sectionLine s "[Peer]") with (mkSections "Peer" (sec_iface s) ∅). rewrite H by done. done.
Qed.

Lemma peers_iface qs : Forall renderedPeer qs -> forall s, sec_iface (fold_left sectionLine (flat_map peerLines qs) s) = sec_iface s.
Proof.
  induction 1 as [|q qs Hq _ IH]; intros s; [done|]. cbn [flat_map]. rewrite fold_left_app, IH. by apply peer_iface.
Qed.

Lemma server_lines_newline p : plainServer p ->
  Forall (fun l => contains_byte newline l = false) (["[Interface]"] ++ serverInterface p ++ flat_map peerLines (Server_Peers p)).
Proof. intros H. apply lines_newline; [apply (server_section p H)|by destruct H]. Qed.

(** The interface section of a rendered file, as a map. *)
Lemma server_iface p : plainServer p -> fst (parseSections (RenderServerAWGConf p)) = putAll (serverPairs p) ∅.
Proof.
  intros Hp. unfold parseSections, RenderServerAWGConf. rewrite Split_unlines by by apply server_lines_newline.
  cbn [fst]. rewrite !fold_left_app. cbn [fold_left].
  change (sectionLine (mkSections "" ∅ ∅) "[Interface]") with (mkSections "Interface" ∅ ∅).
  destruct (server_section p Hp) as [_ H]. rewrite H by done. change (sectionLine ?s "") with s. rewrite peers_iface; [done|by destruct Hp].
Qed.

(** What is read of the interface of a server. *)
Definition importedConfig (p : AWGServerConfParams) : AwgServerConfig :=
  let a := default zeroAmnezia (Server_Amnezia p) in
  let h := Amnezia_H1 a != "" in
  let hook k := if Server_TUNInterface p != "" then hookValue k (orElse (Server_InterfaceName p) "awg0") (Server_TUNInterface p) else "" in
  mkAwgServerConfig (Server_PrivateKey p) (Server_ListenPort p) (orElse (Server_TunnelAddress p) "10.8.0.1/24") "" (hook "PostUp") (hook "PostDown")
    (Amnezia_JC a) (Amnezia_JMIN a) (Amnezia_JMAX a) (Amnezia_S1 a) (Amnezia_S2 a)
    (if v2 p then Amnezia_S3 a else 0) (if v2 p then Amnezia_S4 a else 0)
    (if h then Amnezia_H1 a else "") (if h then Amnezia_H2 a else "") (if h then Amnezia_H3 a else "") (if h then Amnezia_H4 a else "")
    "" "" "" "" "".

Lemma getDefault_get m k d : getDefault m k d = orElse (get m k) d.
Proof.
  unfold getDefault, get, orElse. destruct (m !! k) as [v|]; [|reflexivity].
  change (default "" (Some v)) with v. by destruct (v == "").
Qed.

Lemma atoi0_orElse z d : - 2 ^ 63 <= z < 2 ^ 63 -> atoi0 (orElse (itoa z) d) = z.
Proof. intros H. unfold orElse. rewrite bool_decide_eq_false_2 by apply itoa_ne. by apply atoi0_itoa. Qed.

Lemma lastEntry_hooks k iface tun (b : bool) d : k <> "PostUp" -> k <> "PostDown" ->
  lastEntry k (if b then hookPairs (tunHooks iface tun) else []) d = d.
Proof.
  intros H1 H2. destruct b; [|done]. destruct (tunHooks_pairs iface tun) as (_ & _ & _ & ->). cbn [lastEntry].
  by rewrite !(proj2 (String.eqb_neq _ _)) by (intros E; congruence).
Qed.

(** The value of a key of the interface. *)
Ltac pick_server :=
  unfold serverPairs, serverAmneziaPairs; rewrite ?lastEntry_app, ?lastEntry_hooks by done;
  repeat progress (rewrite ?lastEntry_app, ?lastEntry_if; cbn [lastEntry String.eqb Ascii.eqb Bool.eqb]; rewrite ?if_same).

Lemma server_listenPort p : lastEntry "ListenPort" (serverPairs p) "" = itoa (Server_ListenPort p).
Proof. pick_server. destruct (Server_Amnezia p) as [a|]; pick_server; reflexivity. Qed.

Lemma parse_server p : plainServer p -> parseAWGServerConf (RenderServerAWGConf p) = Some (importedConfig p).
Proof.
  intros Hp. unfold parseAWGServerConf. cbv zeta. rewrite server_iface by done.
  assert (forall k, get (putAll (serverPairs p) ∅) k = lastEntry k (serverPairs p) "") as Hg by (intros k; apply section_get).
  destruct (putAll (serverPairs p) ∅ !! "ListenPort") eqn:El;
    [clear El|exfalso; pose proof (Hg "ListenPort") as Hl; unfold get in Hl; rewrite El, server_listenPort in Hl; by eapply itoa_ne].
  f_equal. rewrite !getDefault_get, !Hg, server_listenPort. destruct Hp as [Hport _ Hn _ _ _ _].
  rewrite atoi0_orElse by lia. unfold importedConfig. cbv zeta.
  unfold importedConfig, serverPairs. destruct (Server_Amnezia p) as [a|].
  - rewrite !Forall_cons in Hn. destruct Hn as (N1 & N2 & N3 & N4 & N5 & N6 & N7 & _). change (default zeroAmnezia (Some a)) with a.
    f_equal; pick_server; try reflexivity; try (by apply atoi0_orElse); destruct (v2 p); by apply atoi0_orElse || reflexivity.
  - f_equal; pick_server; reflexivity.
Qed.

(** ** Lemmas: reading back the peers of a rendered file *)

Definition startsLetter (l : string) : Prop :=
  match l with String c _ => is_space c = false /\ c <> "["%char /\ c <> "#"%char | EmptyString => False end.

Lemma serverInterface_letters p : Server_AWG3 p = None -> Forall startsLetter (serverInterface p).
Proof.
  intros Ha. unfold serverInterface, tunHooks, optAmnezia, writeAmneziaConfLines. cbv zeta. rewrite Ha.
  repeat first
    [ apply Forall_nil_2 | apply Forall_cons_2; [split_and!; [reflexivity|discriminate|discriminate]|]
    | apply Forall_app_2 | apply Forall_when; intros _
    | match goal with |- Forall _ (match ?o with _ => _ end) => destruct o end ].
Qed.

Lemma keyed_prefix c k w d : c <> d -> HasPrefix (String c k +:+ w) (String d "") = false.
Proof. intros H. unfold HasPrefix. cbn. destruct (ascii_dec d c); congruence. Qed.

Lemma allPeersLine_skip s l : startsLetter l -> ps_inPeer s = false -> allPeersLine s l = s.
Proof.
  destruct l as [|c r]; [done|]. intros (Hc & Hb & Hh) Hin. unfold allPeersLine. destruct (TrimSpace_head c r Hc) as [r' ->]. cbv zeta.
  rewrite (bool_decide_eq_false_2 (String c r' = "")) by done.
  change (String c r') with (String c "" +:+ r'). rewrite keyed_prefix by done. unfold sectionName. rewrite (keyed_prefix _ _ _ "["%char) by done.
  cbn [andb]. rewrite Hin. destruct (cut_at equals _) as [[k v]|]; done.
Qed.

Lemma allPeersLine_letters ls : Forall startsLetter ls -> forall s, ps_inPeer s = false -> fold_left allPeersLine ls s = s.
Proof. induction 1 as [|l ls Hl _ IH]; intros s Hs; [done|]. cbn [fold_left]. rewrite allPeersLine_skip by done. by apply IH. Qed.

Lemma allPeersLine_field s k v : plainKey k = true -> plainValue v -> ps_inPeer s = true ->
  allPeersLine s (field k v) = s <| ps_cur := entryField (ps_cur s) k v |>.
Proof.
  destruct k as [|c k]; [done|]. intros Hk Hv Hin. destruct (plainKey_parts c k Hk) as (H1 & H2 & H3 & H4 & H5).
  unfold allPeersLine. rewrite TrimSpace_field by done. cbv zeta. unfold field.
  rewrite (bool_decide_eq_false_2 (_ = "")) by done. rewrite keyed_prefix by done. unfold sectionName. rewrite keyed_prefix by done. cbn [andb].
  change (" = " +:+ v) with (" " +:+ String equals (String " " v)). rewrite string_app_assoc.
  rewrite cut_at_app by (rewrite contains_byte_app, H5; reflexivity). rewrite Hin, TrimSpace_trailing, (TrimSpace_leading " "%char v) by done.
  destruct Hv as (-> & _). by rewrite (noSpace_solid _ H4).
Qed.

(** What is read of a peer. *)
Definition entryOf (q : AWGServerPeer) : AwgPeerEntry :=
  let ips := orElse (Peer_AllowedIPs q) "10.8.0.2/32" in
  mkAwgPeerEntry "" (if privateRange ips then match cut_at ","%char ips with Some (a, _) => a | None => ips end else "")
    (Peer_PublicKey q) (Peer_PresharedKey q) ips.

Lemma entryField_pub cur v : entryField cur "PublicKey" v = cur <| ape_PublicKey := v |>.
Proof. reflexivity. Qed.
Lemma entryField_psk cur v : entryField cur "PresharedKey" v = cur <| ape_PresharedKey := v |>.
Proof. reflexivity. Qed.
Lemma entryField_ips cur v : entryField cur "AllowedIPs" v =
  let cur := cur <| ape_AllowedIPs := v |> in
  if privateRange v then cur <| ape_Address := match cut_at ","%char v with Some (a, _) => a | None => v end |> else cur.
Proof. reflexivity. Qed.

Lemma scan_peer q s : renderedPeer q -> ps_pending s = "" ->
  let s' := fold_left allPeersLine (peerLines q) s in
  flushEntry s' = flushEntry s ++ (if Peer_PublicKey q == "" then [] else [entryOf q]) /\ ps_pending s' = "".
Proof.
  intros Hq Hs. unfold peerLines. destruct (bool_decide_reflect (Peer_PublicKey q = "")) as [|Hk]; [cbn; by rewrite app_nil_r|].
  destruct (Hq Hk) as (P1 & P2 & P3). rewrite fold_left_app. cbn [fold_left].
  change (allPeersLine s "") with s. change (allPeersLine s "[Peer]") with (mkPeerScan (flushEntry s) (noPeer <| ape_Name := ps_pending s |>) true "").
  rewrite Hs, allPeersLine_field, entryField_pub by done. rewrite fold_left_app.
  set (s1 := _ <| ps_cur := _ |>).
  assert (fold_left allPeersLine (when (Peer_PresharedKey q != "") [field "PresharedKey" (Peer_PresharedKey q)]) s1 =
    s1 <| ps_cur := (ps_cur s1) <| ape_PresharedKey := Peer_PresharedKey q |> |>) as ->.
  { destruct (bool_decide_reflect (Peer_PresharedKey q = "")) as [E|E]; cbn [negb when fold_left].
    - by rewrite E.
    - by rewrite allPeersLine_field, entryField_psk by (done || by apply P3). }
  cbn [fold_left]. rewrite allPeersLine_field by done. cbn [ps_cur ps_inPeer ps_out ps_pending]. split; [|done].
  rewrite entryField_ips. cbv zeta. unfold flushEntry at 1, entryOf. cbv zeta.
  destruct (privateRange _); cbn -[orElse]; by rewrite (bool_decide_eq_false_2 _ Hk).
Qed.

Lemma scan_peers qs : Forall renderedPeer qs -> forall s, ps_pending s = "" ->
  flushEntry (fold_left allPeersLine (flat_map peerLines qs) s) =
    flushEntry s ++ map entryOf (List.filter (fun q => Peer_PublicKey q != "") qs).
Proof.
  induction 1 as [|q qs Hq _ IH]; intros s Hs; cbn [flat_map List.filter map]; [by rewrite app_nil_r|].
  rewrite fold_left_app. destruct (scan_peer q s Hq Hs) as [H1 H2]. rewrite IH, H1 by done. rewrite <- app_assoc.
  by destruct (Peer_PublicKey q == "").
Qed.

(** The peers that are in the file. *)
Definition filePeers (p : AWGServerConfParams) : list AWGServerPeer := List.filter (fun q => Peer_PublicKey q != "") (Server_Peers p).

Lemma parse_peers p : plainServer p -> parseAllPeers (RenderServerAWGConf p) = map entryOf (filePeers p).
Proof.
  intros Hp. unfold parseAllPeers, RenderServerAWGConf. rewrite Split_unlines by by apply server_lines_newline.
  rewrite !fold_left_app. cbn [fold_left]. change (allPeersLine (mkPeerScan [] noPeer false "") "[Interface]") with (mkPeerScan [] noPeer false "").
  destruct Hp as [_ _ _ _ _ Ha Hpe]. rewrite (allPeersLine_letters (serverInterface p)) by (by apply serverInterface_letters || done).
  change (allPeersLine ?s "") with s. by rewrite scan_peers.
Qed.

(** ** Lemmas: the users that are made *)

(** The peers a user is made of, with their positions. *)
Fixpoint freshPeers (nodeID : string) (i : Z) (ids pubs : gset string) (peers : list AwgPeerEntry) : list (Z * AwgPeerEntry) :=
  match peers with
  | [] => []
  | p :: peers' =>
      let id := takeoverID nodeID (ape_PublicKey p) in
      if (ape_PublicKey p == "") || bool_decide (id ∈ ids) || bool_decide (ape_PublicKey p ∈ pubs) then freshPeers nodeID (i + 1) ids pubs peers'
      else (i, p) :: freshPeers nodeID (i + 1) ({[id]} ∪ ids) ({[ape_PublicKey p]} ∪ pubs) peers'
  end.

Definition madeUser (now : Time) (nodeID chainName : string) (f : Z * AwgPeerEntry) : User := takeoverUser now nodeID chainName (fst f) (snd f).
Definition madeID (nodeID : string) (f : Z * AwgPeerEntry) : string := takeoverID nodeID (ape_PublicKey (snd f)).

(** A store with other users. *)
Definition withUsers (sf : storeFile) (us : list User) (rev : Z) : storeFile := sf <| sf_Users := us |> <| sf_Revision := rev |>.

Lemma madeUser_id now nodeID chainName f : User_ID (madeUser now nodeID chainName f) = madeID nodeID f.
Proof. unfold madeUser, takeoverUser. by case_match. Qed.

Lemma upsert_absent `{Keyed A} (x : A) l : has_key (key_of x) l = false -> upsert x l = l ++ [x].
Proof.
  induction l as [|y l IH]; [done|]. unfold has_key. cbn [existsb upsert]. intros [Hy Hl]%orb_false_iff. rewrite Hy. cbn [app]. f_equal. by apply IH.
Qed.

Lemma SaveUser_made now nodeID chainName i p w sf : writable w -> base w = Some sf ->
  has_key (takeoverID nodeID (ape_PublicKey p)) (sf_Users sf) = false ->
  exists w' v, SaveUser now (takeoverUser now nodeID chainName i p) w = (Ok v, w') /\ writable w' /\
    base w' = Some (withUsers sf (sf_Users sf ++ [takeoverUser now nodeID chainName i p]) (wrap64 (sf_Revision sf + 1))).
Proof.
  intros Hw Hb Hk. unfold SaveUser. set (u := takeoverUser _ _ _ _ _).
  assert (User_CreatedAt u = now /\ User_MTProxySecret u = "" /\ User_ID u = takeoverID nodeID (ape_PublicKey p)) as (Hc & Hs & Hid) by (unfold u, takeoverUser; by case_match).
  destruct (modifyNew_writable (fun sf => Ok (u, sf <| sf_Users := upsert u (sf_Users sf) |>)) w sf _ _ Hw Hb eq_refl) as (w' & Hm & Hb' & Hw').
  exists w', u. split; [|split; [done|]].
  - rewrite <- Hm. unfold modifyStore. destruct (readOrNew w) as [sf0|]; [|done]. cbv zeta.
    assert ((if IsZero (User_CreatedAt u) then u <| User_CreatedAt := now |> else u) = u) as ->.
    { destruct (IsZero _); [|done]. rewrite <- Hc. by destruct u. }
    by rewrite Hs.
  - rewrite Hb'. rewrite upsert_absent by (change (key_of u) with (User_ID u); by rewrite Hid). done.
Qed.

Lemma materialize_spec now nodeID chainName peers : forall i ids pubs w sf,
  writable w -> base w = Some sf -> (forall u, u ∈ sf_Users sf -> User_ID u ∈ ids) ->
  exists w' rev, materializeFrom now nodeID chainName i ids pubs peers w = (map (madeID nodeID) (freshPeers nodeID i ids pubs peers), w') /\
    writable w' /\ base w' = Some (withUsers sf (sf_Users sf ++ map (madeUser now nodeID chainName) (freshPeers nodeID i ids pubs peers)) rev).
Proof.
  induction peers as [|p peers IH]; intros i ids pubs w sf Hw Hb Hids; cbn [materializeFrom freshPeers]; cbv zeta.
  { exists w, (sf_Revision sf). split; [done|]. split; [done|]. cbn [map]. rewrite app_nil_r, Hb. by destruct sf. }
  destruct (ape_PublicKey p == ""); [by apply IH|]. cbn [orb].
  destruct (bool_decide_reflect (takeoverID nodeID (ape_PublicKey p) ∈ ids)) as [|Hid]; [by apply IH|]. cbn [orb].
  destruct (bool_decide (ape_PublicKey p ∈ pubs)); [by apply IH|].
  assert (has_key (takeoverID nodeID (ape_PublicKey p)) (sf_Users sf) = false) as Hk.
  { apply not_true_iff_false. rewrite has_key_spec. intros (u & E & Hu)%list_elem_of_fmap. apply Hid. rewrite E. by apply Hids. }
  destruct (SaveUser_made now nodeID chainName i p w sf Hw Hb Hk) as (w1 & v & -> & Hw1 & Hb1).
  edestruct (IH (i + 1) ({[takeoverID nodeID (ape_PublicKey p)]} ∪ ids) ({[ape_PublicKey p]} ∪ pubs) w1 _ Hw1 Hb1) as (w2 & rev & -> & Hw2 & Hb2).
  { intros u Hu. cbn in Hu. apply elem_of_app in Hu as [Hu| ->%list_elem_of_singleton]; [apply elem_of_union; right; by apply Hids|].
    apply elem_of_union. left. apply elem_of_singleton. exact (madeUser_id now nodeID chainName (i, p)). }
  exists w2, rev. split; [done|]. split; [done|]. rewrite Hb2. cbn [map withUsers sf_Users]. unfold withUsers. cbn. by rewrite <- app_assoc.
Qed.

(** [MaterializeAWGPeersAsUsers] on a store that can be written. *)
Definition newPeers (nodeID : string) (us : list User) (peers : list AwgPeerEntry) : list (Z * AwgPeerEntry) :=
  freshPeers nodeID 0 (userIDs us) (userPubs us) peers.

Lemma Materialize_writable now nodeID peers chainName w sf : writable w -> base w = Some sf ->
  exists w' rev, MaterializeAWGPeersAsUsers now nodeID peers chainName w = (Ok (map (madeID nodeID) (newPeers nodeID (sf_Users sf) peers)), w') /\
    writable w' /\ base w' = Some (withUsers sf (sf_Users sf ++ map (madeUser now nodeID chainName) (newPeers nodeID (sf_Users sf) peers)) rev).
Proof.
  intros Hw Hb. unfold MaterializeAWGPeersAsUsers, ListUsers, listStore, newPeers.
  assert (forall us, us = sf_Users sf -> exists w' rev,
    (let '(created, w0) := materializeFrom now nodeID chainName 0 (userIDs us) (userPubs us) peers w in (Ok created, w0)) =
      (Ok (map (madeID nodeID) (freshPeers nodeID 0 (userIDs (sf_Users sf)) (userPubs (sf_Users sf)) peers)), w') /\ writable w' /\
    base w' = Some (withUsers sf (sf_Users sf ++ map (madeUser now nodeID chainName) (freshPeers nodeID 0 (userIDs (sf_Users sf)) (userPubs (sf_Users sf)) peers)) rev)) as H.
  { intros us ->. destruct (materialize_spec now nodeID chainName peers 0 (userIDs (sf_Users sf)) (userPubs (sf_Users sf)) w sf Hw Hb) as (w' & rev & -> & Hw' & Hb').
    - intros u Hu. apply elem_of_list_to_set. by apply list_elem_of_fmap_2.
    - by exists w', rev. }
  unfold base in Hb. destruct (readStore w) as [[]|sf'] eqn:E; try done; injection Hb as <-; by apply H.
Qed.

(** ** Taking over a server the panel wrote *)

Lemma freshPeers_length nodeID peers : forall i ids pubs, (length (freshPeers nodeID i ids pubs peers) <= length peers)%nat.
Proof.
  induction peers as [|p peers IH]; intros i ids pubs; cbn [freshPeers]; cbv zeta; [done|].
  destruct (_ || _ || _); cbn [length]; [specialize (IH (i + 1) ids pubs)|specialize (IH (i + 1) ({[takeoverID nodeID (ape_PublicKey p)]} ∪ ids) ({[ape_PublicKey p]} ∪ pubs))]; lia.
Qed.

Lemma freshPeers_all nodeID peers : forall i ids pubs, length (freshPeers nodeID i ids pubs peers) = length peers ->
  map snd (freshPeers nodeID i ids pubs peers) = peers.
Proof.
  induction peers as [|p peers IH]; intros i ids pubs; cbn [freshPeers]; cbv zeta; [done|].
  destruct (_ || _ || _); cbn [length map snd]; intros H; [|f_equal; apply IH; lia].
  pose proof (freshPeers_length nodeID peers (i + 1) ids pubs). lia.
Qed.

(** What is left of a server: its key, port and address; its obfuscation if it
    has junk packets, none otherwise; its peers without preshared keys; the
    panel's own MTU 1420, hooks and interface. *)
Definition noiseKept (p : AWGServerConfParams) : option AmneziaOptions :=
  match Server_Amnezia p with
  | None => None
  | Some a =>
      let header h := if Amnezia_H1 a != "" then h else "" in
      if Amnezia_JC a =? 0 then None
      else Some (mkAmneziaOptions (Amnezia_JC a) (Amnezia_JMIN a) (Amnezia_JMAX a) (Amnezia_S1 a) (Amnezia_S2 a)
                   (if v2 p then Amnezia_S3 a else 0) (if v2 p then Amnezia_S4 a else 0)
                   (header (Amnezia_H1 a)) (header (Amnezia_H2 a)) (header (Amnezia_H3 a)) (header (Amnezia_H4 a)) "" "" "" "" "" 0)
  end.
Definition takenOver (p : AWGServerConfParams) : AWGServerConfParams :=
  mkAWGServerConfParams (Server_PrivateKey p) (Server_ListenPort p) (orElse (Server_TunnelAddress p) "10.8.0.1/24") 1420
    (noiseKept p) "" None
    (map (fun q => mkAWGServerPeer (Peer_PublicKey q) (orElse (Peer_AllowedIPs q) "10.8.0.2/32") "") (filePeers p)) tunInterfaceName "awg0".

Lemma imported_noise p : AwgServerConfigToAmnezia (Some (importedConfig p)) = noiseKept p.
Proof. unfold AwgServerConfigToAmnezia, noiseKept, importedConfig. by destruct (Server_Amnezia p). Qed.

Lemma orElse_idem s d : d <> "" -> orElse (orElse s d) d = orElse s d.
Proof. intros Hd. unfold orElse at 1. rewrite bool_decide_eq_false_2; [done|]. unfold orElse. case_bool_decide; done. Qed.

Lemma madeUser_key now nodeID chainName f : User_AWGPublicKey (madeUser now nodeID chainName f) = ape_PublicKey (snd f).
Proof. unfold madeUser, takeoverUser. by destruct (chainName != ""). Qed.

Lemma madeUser_address now nodeID chainName f : User_AWGAddress (madeUser now nodeID chainName f) = ape_AllowedIPs (snd f).
Proof. unfold madeUser, takeoverUser. by destruct (chainName != ""). Qed.

Lemma madeUser_psk now nodeID chainName f : User_AWGPresharedKey (madeUser now nodeID chainName f) = "".
Proof. unfold madeUser, takeoverUser. by destruct (chainName != ""). Qed.

Lemma madeUser_active now nodeID chainName f : User_Active (madeUser now nodeID chainName f) = true.
Proof. unfold madeUser, takeoverUser. by destruct (chainName != ""). Qed.

Lemma takeoverPeers_made now nodeID chainName p fresh : plainServer p -> map snd fresh = map entryOf (filePeers p) ->
  takeoverPeers (map (madeUser now nodeID chainName) fresh) = Server_Peers (takenOver p).
Proof.
  intros Hp Hs. unfold takenOver. cbn [Server_Peers].
  assert (map (fun e => mkAWGServerPeer (ape_PublicKey e) (ape_AllowedIPs e) "") (map snd fresh) =
    map (fun q => mkAWGServerPeer (Peer_PublicKey q) (orElse (Peer_AllowedIPs q) "10.8.0.2/32") "") (filePeers p)) as <- by (rewrite Hs, map_map; done).
  assert (Forall (fun e => ape_PublicKey e <> "" /\ ape_AllowedIPs e <> "") (map snd fresh)) as Hf.
  { rewrite Hs. apply Forall_map, Forall_forall. intros q Hq. unfold filePeers in Hq. apply list_elem_of_In, filter_In in Hq as [Hq Hk%negb_true_iff%bool_decide_eq_false].
    destruct Hp as [_ _ _ _ _ _ Hpe]. rewrite Forall_forall in Hpe. destruct (Hpe q (proj2 (list_elem_of_In _ _) Hq) Hk) as (_ & (_ & Ha & _) & _). by split. }
  clear Hs. induction fresh as [|f fresh IH]; [done|]. cbn [map] in *. apply Forall_cons in Hf as [[Hk Ha] Hf].
  unfold takeoverPeers in *. cbn [List.filter]. rewrite madeUser_active, madeUser_key, madeUser_address, !bool_decide_eq_false_2 by done.
  cbn [negb andb map]. rewrite madeUser_key, madeUser_address, madeUser_psk, (IH Hf). done.
Qed.

Lemma takeover_conf now nodeID chainName p fresh : plainServer p -> map snd fresh = map entryOf (filePeers p) ->
  cf_content (RenderTakeoverAWGConf (importedConfig p) (map (madeUser now nodeID chainName) fresh)) = RenderServerAWGConf (takenOver p).
Proof.
  intros Hp Hs. unfold RenderTakeoverAWGConf, takeoverParams. cbn [cf_content]. rewrite (takeoverPeers_made _ _ _ p) by done.
  rewrite imported_noise. unfold takenOver at 2. f_equal. cbn [importedConfig asc_Address asc_PrivateKey asc_ListenPort]. f_equal. by apply orElse_idem.
Qed.

(** A server as the panel writes one for its own TUN. *)
Record ownServer (p : AWGServerConfParams) : Prop := {
  os_mtu : orElseZ (Server_MTU p) 1420 = 1420;
  os_version : v2 p = true;
  os_noise : match Server_Amnezia p with Some a => Amnezia_JC a <> 0 | None => True end;
  os_tun : Server_TUNInterface p = tunInterfaceName;
  os_iface : orElse (Server_InterfaceName p) "awg0" = "awg0";
  os_psk : Forall (fun q => Peer_PresharedKey q = "") (Server_Peers p) }.

Lemma peerLines_live q : Peer_PresharedKey q = "" -> Peer_PublicKey q <> "" ->
  peerLines (mkAWGServerPeer (Peer_PublicKey q) (orElse (Peer_AllowedIPs q) "10.8.0.2/32") "") = peerLines q.
Proof. intros Hs Hk. unfold peerLines. cbn [Peer_PublicKey Peer_PresharedKey Peer_AllowedIPs]. by rewrite Hs, orElse_idem. Qed.

Lemma peers_live qs : Forall (fun q => Peer_PresharedKey q = "") qs ->
  flat_map peerLines (map (fun q => mkAWGServerPeer (Peer_PublicKey q) (orElse (Peer_AllowedIPs q) "10.8.0.2/32") "") (List.filter (fun q => Peer_PublicKey q != "") qs)) =
  flat_map peerLines qs.
Proof.
  induction 1 as [|q qs Hq _ IH]; [done|]. cbn [List.filter flat_map]. destruct (bool_decide_reflect (Peer_PublicKey q = "")) as [E|E]; cbn [negb].
  - rewrite IH. unfold peerLines at 2. by rewrite bool_decide_eq_true_2.
  - cbn [map flat_map]. by rewrite peerLines_live, IH.
Qed.

Lemma takenOver_own p : plainServer p -> ownServer p -> RenderServerAWGConf (takenOver p) = RenderServerAWGConf p.
Proof.
  intros Hp [Hm Hv Hj Ht Hi Hs]. unfold RenderServerAWGConf. f_equal. f_equal. f_equal; [|by apply peers_live].
  unfold serverInterface, takenOver. cbn [Server_TunnelAddress Server_ListenPort Server_PrivateKey Server_MTU Server_Amnezia Server_AWGVersion Server_AWG3 Server_TUNInterface Server_InterfaceName].
  rewrite orElse_idem by done. destruct Hp as [_ _ _ _ _ Ha _]. rewrite Ht, Hi, Hm, Ha. do 3 f_equal.
  unfold noiseKept. rewrite Hv. destruct (Server_Amnezia p) as [a|]; [|done]. cbv zeta.
  replace (Amnezia_JC a =? 0) with false by lia. unfold optAmnezia, writeAmneziaConfLines. cbn [Amnezia_JC Amnezia_JMIN Amnezia_JMAX Amnezia_S1 Amnezia_S2 Amnezia_S3 Amnezia_S4 Amnezia_H1 Amnezia_H2 Amnezia_H3 Amnezia_H4 andb when].
  unfold v2 in Hv. rewrite Hv. destruct (bool_decide_reflect (Amnezia_H1 a = "")) as [E|E]; cbn [negb]; [reflexivity|]. by rewrite bool_decide_eq_false_2.
Qed.

(** ** Lemmas: what the import of a machine finds *)

(** The server and the peers that are found stay. *)
Definition keepsFound (f : ImportResult -> ImportResult) : Prop := forall r, ir_ServerConfig r <> None ->
  ir_ServerConfig (f r) = ir_ServerConfig r /\ (ir_Peers r <> [] -> ir_Peers (f r) = ir_Peers r).

Lemma keepsFound_fold {A} (f : ImportResult -> A -> ImportResult) l : (forall a, keepsFound (fun r => f r a)) -> keepsFound (fun r => fold_left f l r).
Proof.
  intros Hf. induction l as [|a l IH]; intros r Hr; [done|]. cbn [fold_left]. destruct (Hf a r Hr) as [H1 H2].
  destruct (IH (f r a)) as [H3 H4]; [by rewrite H1|]. split; [by rewrite H3|]. intros Hp. rewrite H4, H2; [done|done|by rewrite H2].
Qed.

Lemma adoptForeign_keeps conf source target : keepsFound (fun r => fst (adoptForeign r conf source target)).
Proof.
  intros r Hr. unfold adoptForeign. destruct (parseAWGServerConf conf) as [sc|]; [|done].
  destruct r as [[s|] ex ps sj lg im du st fs]; [|done].
  destruct (target != ""); cbn; destruct ps, (parseAllPeers conf); done.
Qed.

Lemma logged_keeps l : keepsFound (fun r => logged r l).
Proof. done. Qed.

Section machine_lemmas.
Context (run : string -> option string) (useSudo : bool).

Lemma adopted_keeps out src tgt msg :
  keepsFound (fun r => match adoptForeign r out src tgt with (r', true) => logged r' msg | (r', false) => r' end).
Proof. intros r Hr. pose proof (adoptForeign_keeps out src tgt r Hr) as H. cbv beta in H |- *. destruct (adoptForeign r out src tgt) as [r' []]; exact H. Qed.

Lemma dockerFile_keeps name dir names : keepsFound (fun r => dockerFile run useSudo r name dir names).
Proof.
  induction names as [|n names IH]; intros r Hr; cbn [dockerFile]; [done|]. cbv zeta.
  destruct (text _ _ _) as [out|]; [by apply adopted_keeps|by apply IH].
Qed.

Lemma discover_keeps : keepsFound (discoverForeignAWG run useSudo).
Proof.
  assert (forall ls, keepsFound (fun r => fold_left (toolzaFile run useSudo) ls r)) as H1.
  { intros ls. apply keepsFound_fold. intros raw r Hr. unfold toolzaFile. destruct (_ == ""); [done|].
    destruct (text _ _ _) as [out|]; [by apply adopted_keeps|done]. }
  assert (forall ls, keepsFound (fun r => fold_left (dockerContainer run useSudo) ls r)) as H2.
  { intros ls. apply keepsFound_fold. intros raw r Hr. unfold dockerContainer. destruct (dockerAWGDirs _) as [dirs|]; [|done].
    apply (keepsFound_fold (fun res dir => dockerFile run useSudo res _ dir _)); [|done]. intros dir. apply dockerFile_keeps. }
  intros r Hr. unfold discoverForeignAWG. cbv zeta.
  set (r1 := match output run useSudo _ with Some _ => _ | None => r end).
  assert (ir_ServerConfig r1 = ir_ServerConfig r /\ (ir_Peers r <> [] -> ir_Peers r1 = ir_Peers r)) as [E1 E2].
  { unfold r1. destruct (output run useSudo _); [by apply H1|done]. }
  destruct (text _ _ _) as [names|]; [|done].
  destruct (H2 (Split newline names) r1) as [E3 E4]; [by rewrite E1|]. split; [by rewrite E3|]. intros Hp. rewrite E4, E2; [done|done|by rewrite E2].
Qed.

Lemma singbox_keeps : keepsFound (importSingbox run useSudo).
Proof. intros r Hr. unfold importSingbox. destruct (text _ _ _); [|done]. by destruct (unmarshal _) as [[]|]. Qed.

Lemma importExits_keeps r : ir_ServerConfig (importExits run useSudo r) = ir_ServerConfig r /\ ir_Peers (importExits run useSudo r) = ir_Peers r.
Proof. unfold importExits. destruct (output _ _ _); [|done]. by destruct (omap _ _). Qed.

(** A machine that runs the server of [p]: its file is the rendered one, and
    there is no list of peers beside it. *)
Record runsServer (p : AWGServerConfParams) : Prop := {
  rs_file : output run useSudo ("cat " +:+ awg0ConfPath) = Some (RenderServerAWGConf p);
  rs_list : text run useSudo ("cat " +:+ awgPeersListPath +:+ " 2>/dev/null") = None }.

Lemma rendered_visible p : (TrimSpace (RenderServerAWGConf p) == "") = false.
Proof.
  apply bool_decide_eq_false_2. unfold RenderServerAWGConf. cbn [app unlines fold_right].
  change ("[Interface]" +:+ ?x) with (String "["%char ("Interface]" +:+ x)).
  match goal with |- TrimSpace (String _ ?x) <> _ => destruct (TrimSpace_head "["%char x eq_refl) as [r' ->] end. done.
Qed.

Lemma import_server p : plainServer p -> runsServer p ->
  let res := snd (importAWGConfigsViaClient run useSudo None) in
  ir_ServerConfig res = Some (importedConfig p) /\ (filePeers p <> [] -> ir_Peers res = map entryOf (filePeers p)).
Proof.
  intros Hp [Hf Hl]. cbn [importAWGConfigsViaClient snd]. cbv zeta.
  set (r1 := importServer run useSudo zeroImportResult).
  assert (ir_ServerConfig r1 = Some (importedConfig p) /\ ir_Peers r1 = []) as [E1 P1].
  { unfold r1, importServer, text. rewrite Hf, rendered_visible, parse_server by done. done. }
  destruct (importExits_keeps r1) as [E2 P2]. set (r2 := importExits run useSudo r1) in *.
  set (r3 := importPeers run useSudo r2).
  assert (ir_ServerConfig r3 = Some (importedConfig p) /\ ir_Peers r3 = map entryOf (filePeers p)) as [E3 P3].
  { unfold r3, importPeers. rewrite Hl. cbv zeta. rewrite P2, P1, E2, E1, Hf, parse_peers by done.
    destruct (map entryOf (filePeers p)) eqn:E; [by rewrite P2, P1, E2, E1|]. cbn. by rewrite E2, E1. }
  destruct (discover_keeps r3) as [E4 P4]; [by rewrite E3|]. set (r4 := discoverForeignAWG run useSudo r3) in *.
  destruct (singbox_keeps r4) as [E5 P5]; [by rewrite E4, E3|]. split; [by rewrite E5, E4, E3|].
  intros Hn. assert (ir_Peers r3 <> []) as Hr3 by (rewrite P3; by destruct (filePeers p)).
  rewrite P5, P4, P3; [done|done|by rewrite P4].
Qed.
End machine_lemmas.

(** ** The whole take-over of a server *)

(** The loop of [Takeover] over the users of the store. *)
Definition synthUsers (ids : list string) (users : list User) : list User := List.filter (fun u => bool_decide (User_ID u ∈ ids)) users.

Lemma freshPeers_ids nodeID peers : forall i ids pubs f, f ∈ freshPeers nodeID i ids pubs peers -> madeID nodeID f ∉ ids.
Proof.
  induction peers as [|p peers IH]; intros i ids pubs f; cbn [freshPeers]; cbv zeta; [by intros ?%not_elem_of_nil|].
  destruct (ape_PublicKey p == ""); cbn [orb]; [by apply IH|].
  destruct (bool_decide_reflect (takeoverID nodeID (ape_PublicKey p) ∈ ids)) as [|Hn]; cbn [orb]; [by apply IH|].
  destruct (bool_decide _); [by apply IH|]. intros [->|Hf]%elem_of_cons; [exact Hn|]. apply IH in Hf. by intros Hi; apply Hf, elem_of_union_r.
Qed.

Lemma synthUsers_made now nodeID chainName us peers :
  synthUsers (map (madeID nodeID) (newPeers nodeID us peers)) (us ++ map (madeUser now nodeID chainName) (newPeers nodeID us peers)) =
  map (madeUser now nodeID chainName) (newPeers nodeID us peers).
Proof.
  unfold synthUsers. set (fresh := newPeers nodeID us peers). rewrite List.filter_app.
  assert (List.filter (fun u => bool_decide (User_ID u ∈ map (madeID nodeID) fresh)) us = []) as ->.
  { assert (Forall (fun u => User_ID u ∈ userIDs us) us) as Hf.
    { apply Forall_forall. intros u Hu. apply elem_of_list_to_set. by apply list_elem_of_fmap_2. }
    revert Hf. generalize us at 2 3. intros l. induction 1 as [|u l Hu _ IH]; [done|]. cbn [List.filter].
    rewrite bool_decide_eq_false_2; [exact IH|]. intros (f & E & Hf)%list_elem_of_fmap. apply freshPeers_ids in Hf. by rewrite E in Hu. }
  cbn [app]. assert (forall l, Forall (fun f => f ∈ fresh) l ->
    List.filter (fun u => bool_decide (User_ID u ∈ map (madeID nodeID) fresh)) (map (madeUser now nodeID chainName) l) = map (madeUser now nodeID chainName) l) as H.
  { induction 1 as [|f l Hl _ IH]; [done|]. cbn [map List.filter]. rewrite bool_decide_eq_true_2; [by rewrite IH|].
    rewrite madeUser_id. by apply list_elem_of_fmap_2. }
  apply H. by apply Forall_forall.
Qed.


(** ** Examples *)

Definition confWith (peers : list AWGServerPeer) : AWGServerConfParams :=
  mkAWGServerConfParams "serverkey=" 51820 "10.8.0.1/24" 1420 (Some (mkAmneziaOptions 4 40 70 20 30 15 16 "1" "2" "3" "4" "" "" "" "" "" 0)) "" None
    peers tunInterfaceName "awg0".
Definition ownConf : AWGServerConfParams := confWith [mkAWGServerPeer "alicekey=" "10.8.0.2/32" ""; mkAWGServerPeer "bobkey12=" "10.8.0.3/32" ""].
Definition awgMachine (cmd : string) : option string :=
  if cmd == "cat /etc/amnezia/amneziawg/awg0.conf" then Some (RenderServerAWGConf ownConf) else None.
Definition takeoverTime : Time := 1700000000.
Definition takeoverStore : storeFile := newStoreFile <| sf_Users := [zeroUser <| User_ID := "u1" |> <| User_AWGPublicKey := "carolkey=" |>] |>.

Lemma ownConf_plain : plainServer ownConf.
Proof.
  split; [cbn; lia|by apply forallb_readable| |by apply forallb_readable|by split|done|].
  - cbn. repeat (constructor; [lia|]). constructor.
  - assert (forall v, readableb v && (v != "") = true -> plainValue v) as Hpv.
    { intros v [H1 H2]%andb_true_iff. destruct (readableb_readable v H1) as [->|H]; [done|exact H]. }
    repeat constructor; by apply Hpv.
Qed.


(** The preshared key of a peer is lost: the user has none, and the file that
    replaces the one on the machine does not ask for it. *)
Lemma psk_not_taken_over :
  let p := confWith [mkAWGServerPeer "alicekey=" "10.8.0.2/32" "psk="] in
  Contains (RenderServerAWGConf p) "PresharedKey = psk=" = true /\
  map ape_PresharedKey (parseAllPeers (RenderServerAWGConf p)) = ["psk="] /\
  Contains (RenderServerAWGConf (takenOver p)) "PresharedKey" = false.
Proof. vm_compute. auto. Qed.

(** A second take-over: every peer is a user already, none is made, and the
    file has no peers. *)
Lemma second_takeover_without_peers :
  let w := mkWorld (Some (Plain takeoverStore)) None None None [] None in
  let peers := map entryOf (filePeers ownConf) in
  let '(first, w1) := MaterializeAWGPeersAsUsers takeoverTime "n1" peers "" w in
  let '(second, w2) := MaterializeAWGPeersAsUsers takeoverTime "n1" peers "" w1 in
  first = Ok ["takeover-n1-alicekey"; "takeover-n1-bobkey12"] /\ second = Ok [] /\
  Contains (RenderServerAWGConf ownConf) "[Peer]" = true /\
  Contains (cf_content (RenderTakeoverAWGConf (importedConfig ownConf) [])) "[Peer]" = false.
Proof. vm_compute. auto. Qed.

(** Two peers whose keys begin with the same eight letters, whatever their case:
    the second gets no user, and is not in the new file. *)
Lemma similar_key_dropped :
  length (newPeers "n1" [] [mkAwgPeerEntry "" "" "AbCdEfGhIj=" "" "10.8.0.2/32"; mkAwgPeerEntry "" "" "abcdefghXY=" "" "10.8.0.3/32"]) = 1%nat.
Proof. reflexivity. Qed.

(** A server without junk packets: its headers are lost. *)
Lemma headers_lost_without_junk s : asc_JC s = 0 -> AwgServerConfigToAmnezia (Some s) = None.
Proof. intros H. unfold AwgServerConfigToAmnezia. by rewrite H. Qed.

(** Every AWG inbound gets the key of the same exit, whatever its interface. *)
Lemma backfill_ignores_interface :
  let exit_ n k := mkAwgExitConfig n n "" k "" "" "" ∅ in
  let res := zeroImportResult <| ir_ExitNodes := [exit_ "exit-a" "keyA"; exit_ "exit-b" "keyB"] |> in
  let ib t := zeroNodeInbound <| NodeInbound_Protocol := "awg" |> <| NodeInbound_Tag := t |> in
  map (fun t => NodeInbound_AWGClientPub (fst (backfillInbound res (ib t)))) ["exit-a"; "exit-b"] = ["keyA"; "keyA"].
Proof. reflexivity. Qed.
