(* ===== verification/JsonDecode.v ===== *)
(** * JsonDecode: JSON decoded into typed values

    What the program uses of Go's [json.Unmarshal] when the target is a struct
    (internal/takeover): the members of an object go to the fields of their
    name, exact or up to case; [null] leaves a value alone and empties a slice; a
    member of the wrong type leaves its field alone and is the error of the whole
    call, which decodes the rest all the same.  A decoder changes a value and says
    whether it met no error. *)

From S2P Require Import Prelude GoStrings Codec Json ConfFields Caddy.

Abbreviation Decoder A := (Json -> A -> A * bool) (only parsing).

Definition dString : Decoder string := fun j old => match j with JStr s => (s, true) | JNull => (old, true) | _ => (old, false) end.
Definition dBool : Decoder bool := fun j old => match j with JBool b => (b, true) | JNull => (old, true) | _ => (old, false) end.
Definition dInt : Decoder Z := fun j old =>
  match j with
  | JNum t => match Atoi t with Some z => (z, true) | None => (old, false) end
  | JNull => (old, true)
  | _ => (old, false)
  end.

(** A [json.RawMessage]: any value, [null] too. *)
Definition dRaw : Decoder (option Json) := fun j _ => (Some j, true).

(** The elements of a slice; those that were there are decoded into. *)
Fixpoint dItems {A} (zero : A) (d : Decoder A) (l : list Json) (old : list A) : list A * bool :=
  match l with
  | [] => ([], true)
  | j :: l' =>
      let '(x, ok) := d j (match old with x :: _ => x | [] => zero end) in
      let '(xs, oks) := dItems zero d l' (match old with _ :: old' => old' | [] => [] end) in (x :: xs, ok && oks)
  end.
Definition dSlice {A} (zero : A) (d : Decoder A) : Decoder (list A) := fun j old =>
  match j with JNull => ([], true) | JArr l => dItems zero d l old | _ => (old, false) end.

(** A pointer to a struct. *)
Definition dPointer {A} (zero : A) (d : Decoder A) : Decoder (option A) := fun j old =>
  match j with JNull => (None, true) | _ => let '(x, ok) := d j (default zero old) in (Some x, ok) end.

(** A field of a struct. *)
Definition dField {R A} (proj : R -> A) `{!Update proj} (d : Decoder A) : Decoder R := fun j r =>
  let '(x, ok) := d j (proj r) in (r <| proj := x |>, ok).

(** A struct: its fields by name. *)
Definition fieldNamed {R} (k : string) (fs : list (string * Decoder R)) : option (Decoder R) :=
  match List.find (fun f => fst f == k) fs with
  | Some f => Some (snd f)
  | None => option_map snd (List.find (fun f => EqualFold (fst f) k) fs)
  end.
Definition dMember {R} (fs : list (string * Decoder R)) (acc : R * bool) (m : string * Json) : R * bool :=
  match fieldNamed (fst m) fs with
  | Some d => let '(r, ok) := d (snd m) (fst acc) in (r, snd acc && ok)
  | None => acc
  end.
Definition dStruct {R} (fs : list (string * Decoder R)) : Decoder R := fun j r =>
  match j with JObj ms => fold_left (dMember fs) ms (r, true) | JNull => (r, true) | _ => (r, false) end.

(** [json.Unmarshal] of a text into a value. *)
Definition unmarshalInto {R} (d : Decoder R) (text : string) (r : R) : R * bool :=
  match unmarshal text with Some j => d j r | None => (r, false) end.

(** [json.Unmarshal] of a raw message whose error is dropped; the absent message
    is no JSON. *)
Definition partialUnmarshal {R} (d : Decoder R) (raw : option Json) (r : R) : R :=
  match raw with Some j => fst (d j r) | None => r end.

(** ** Lemmas *)

Lemma fieldNamed_in {R} k (fs : list (string * Decoder R)) d : fieldNamed k fs = Some d -> exists n, In (n, d) fs.
Proof.
  unfold fieldNamed. destruct (List.find _ fs) as [[n d']|] eqn:E.
  - intros [= <-]. apply List.find_some in E as [E _]. eauto.
  - clear E. destruct (List.find _ fs) as [[n d']|] eqn:E; [|done]. intros [= <-]. apply List.find_some in E as [E _]. eauto.
Qed.

(** What every field keeps, the struct keeps. *)
Lemma dStruct_keeps {R} (P : R -> Prop) (fs : list (string * Decoder R)) :
  (forall n d j r, In (n, d) fs -> P r -> P (fst (d j r))) -> forall j r, P r -> P (fst (dStruct fs j r)).
Proof.
  intros Hf j r Hr. destruct j as [| | | | |ms]; try exact Hr. cbn [dStruct].
  assert (forall acc, P (fst acc) -> P (fst (fold_left (dMember fs) ms acc))) as H; [|by apply H].
  induction ms as [|m ms IH]; intros acc Ha; [done|]. cbn [fold_left]. apply IH. unfold dMember.
  destruct (fieldNamed (fst m) fs) as [d|] eqn:E; [|done]. apply fieldNamed_in in E as [n E].
  pose proof (Hf n d (snd m) (fst acc) E Ha) as H. by destruct (d (snd m) (fst acc)).
Qed.

Lemma dInt_range j z : - 2 ^ 63 <= z < 2 ^ 63 -> - 2 ^ 63 <= fst (dInt j z) < 2 ^ 63.
Proof.
  intros Hz. unfold dInt. destruct j; try exact Hz. unfold Atoi. destruct (decimal text) as [x|]; [|exact Hz].
  destruct ((- 2 ^ 63 <=? x) && (x <? 2 ^ 63)) eqn:E; [|exact Hz]. cbn [fst]. lia.
Qed.

Lemma dInt_itoa z old : - 2 ^ 63 <= z < 2 ^ 63 -> dInt (JNum (itoa z)) old = (z, true).
Proof. intros H. unfold dInt. by rewrite Atoi_itoa. Qed.

Lemma dStruct_obj {R} (fs : list (string * Decoder R)) ms r : dStruct fs (JObj ms) r = fold_left (dMember fs) ms (r, true).
Proof. reflexivity. Qed.
