(* ===== verification/TakeoverConvert.v ===== *)
(** * TakeoverConvert: the configuration of a foreign VPN, read

    internal/takeover/convert.go: the inbounds of a sing-box, Xray or MTProxy
    configuration become inbounds of the node, or sing-box inbounds passed through
    as JSON; and the test of detect.go for a configuration worth taking over.  The
    text of an error of encoding/json is an argument. *)

From S2P Require Import Prelude GoStrings Model Codec AwgConf ConfFields Caddy Json JsonDecode.

(** ** Data *)

(** [DetectedVPNType]. *)
Definition DetectedNone : string := "none".
Definition DetectedAWG : string := "awg".
Definition DetectedSingBox : string := "singbox".
Definition DetectedXray : string := "xray".
Definition DetectedMTProxy : string := "mtproxy".

(** A user of a foreign inbound: each converter decodes the fields it names. *)
Record ForeignUser := mkForeignUser { fu_Name : string; fu_UUID : string; fu_Flow : string; fu_Password : string; fu_Secret : string }.
#[export] Instance eta_ForeignUser : Eta ForeignUser := fun r => mkForeignUser (fu_Name r) (fu_UUID r) (fu_Flow r) (fu_Password r) (fu_Secret r).
Definition zeroForeignUser : ForeignUser := mkForeignUser "" "" "" "" "".

(** A sing-box inbound: the fields the converters read. *)
Record ForeignReality := mkForeignReality { fr_PrivateKey : string; fr_ShortID : list string; fr_ServerNames : list string }.
#[export] Instance eta_ForeignReality : Eta ForeignReality := fun r => mkForeignReality (fr_PrivateKey r) (fr_ShortID r) (fr_ServerNames r).
Definition zeroForeignReality : ForeignReality := mkForeignReality "" [] [].
Record ForeignTLS := mkForeignTLS { ft_ServerName : string; ft_Reality : ForeignReality }.
#[export] Instance eta_ForeignTLS : Eta ForeignTLS := fun r => mkForeignTLS (ft_ServerName r) (ft_Reality r).
Definition zeroForeignTLS : ForeignTLS := mkForeignTLS "" zeroForeignReality.
Record ForeignTransport := mkForeignTransport { fp_Type : string; fp_Path : string; fp_Host : string }.
#[export] Instance eta_ForeignTransport : Eta ForeignTransport := fun r => mkForeignTransport (fp_Type r) (fp_Path r) (fp_Host r).
Definition zeroForeignTransport : ForeignTransport := mkForeignTransport "" "" "".

Record SingBoxInbound := mkSingBoxInbound {
  sb_Type : string; sb_Tag : string; sb_ListenPort : Z; sb_Users : list ForeignUser; sb_TLS : ForeignTLS; sb_Transport : ForeignTransport;
  sb_PrivateKey : string; sb_Peers : list ForeignReality }.
#[export] Instance eta_SingBoxInbound : Eta SingBoxInbound := fun r =>
  mkSingBoxInbound (sb_Type r) (sb_Tag r) (sb_ListenPort r) (sb_Users r) (sb_TLS r) (sb_Transport r) (sb_PrivateKey r) (sb_Peers r).
Definition zeroSingBoxInbound : SingBoxInbound := mkSingBoxInbound "" "" 0 [] zeroForeignTLS zeroForeignTransport "" [].

(** An Xray inbound, and its two nested objects. *)
Record XrayInbound := mkXrayInbound { xi_Port : Z; xi_Protocol : string; xi_Tag : string; xi_Settings : option Json; xi_StreamSettings : option Json }.
#[export] Instance eta_XrayInbound : Eta XrayInbound := fun r => mkXrayInbound (xi_Port r) (xi_Protocol r) (xi_Tag r) (xi_Settings r) (xi_StreamSettings r).
Definition zeroXrayInbound : XrayInbound := mkXrayInbound 0 "" "" None None.
Record XraySettings := mkXraySettings { xs_Clients : list ForeignUser; xs_Users : list ForeignUser; xs_Method : string; xs_Password : string }.
#[export] Instance eta_XraySettings : Eta XraySettings := fun r => mkXraySettings (xs_Clients r) (xs_Users r) (xs_Method r) (xs_Password r).
Definition zeroXraySettings : XraySettings := mkXraySettings [] [] "" "".
Record XrayStream := mkXrayStream {
  xt_Network : string; xt_Security : string; xt_ServerName : string; xt_XHTTP : ForeignTransport; xt_Split : ForeignTransport; xt_Reality : ForeignReality }.
#[export] Instance eta_XrayStream : Eta XrayStream := fun r =>
  mkXrayStream (xt_Network r) (xt_Security r) (xt_ServerName r) (xt_XHTTP r) (xt_Split r) (xt_Reality r).
Definition zeroXrayStream : XrayStream := mkXrayStream "" "" "" zeroForeignTransport zeroForeignTransport zeroForeignReality.

(** The inbounds of a configuration. *)
Definition dRawInbounds : Decoder (list (option Json)) := dStruct [("inbounds", dSlice None dRaw)].

(** ** sing-box *)

Definition head_ (l : list string) : string := match l with s :: _ => s | [] => "" end.

Definition dUsers (fs : list (string * Decoder ForeignUser)) : Decoder SingBoxInbound :=
  dField sb_Users (dSlice zeroForeignUser (dStruct fs)).
Definition dName : string * Decoder ForeignUser := ("name", dField fu_Name dString).
Definition dUUID : string * Decoder ForeignUser := ("uuid", dField fu_UUID dString).
Definition dPassword : string * Decoder ForeignUser := ("password", dField fu_Password dString).

(** [convertSingBoxVLESS]. *)
Definition dVLESS : Decoder SingBoxInbound := dStruct
  [("users", dUsers [dName; dUUID; ("flow", dField fu_Flow dString)]);
   ("tls", dField sb_TLS (dStruct
     [("server_name", dField ft_ServerName dString);
      ("reality", dField ft_Reality (dStruct [("private_key", dField fr_PrivateKey dString); ("short_id", dField fr_ShortID (dSlice "" dString))]))]));
   ("transport", dField sb_Transport (dStruct [("type", dField fp_Type dString)]))].
Definition convertSingBoxVLESS (raw : Json) (port : Z) : option NodeInbound :=
  let ib := partialUnmarshal dVLESS (Some raw) zeroSingBoxInbound in
  match sb_Users ib with
  | [] => None
  | u :: _ =>
      let r := ft_Reality (sb_TLS ib) in
      let transport := fp_Type (sb_Transport ib) in
      let proto := if (fr_PrivateKey r == "") && ((transport == "xhttp") || (transport == "http")) then "xhttp" else "vless-reality" in
      Some (zeroNodeInbound <| NodeInbound_Protocol := proto |> <| NodeInbound_Port := port |> <| NodeInbound_UUID := fu_UUID u |>
        <| NodeInbound_ServerPrivKey := fr_PrivateKey r |> <| NodeInbound_ShortID := head_ (fr_ShortID r) |>
        <| NodeInbound_Obfuscation := ft_ServerName (sb_TLS ib) |> <| NodeInbound_Source := "takeover:singbox" |>)
  end.

Definition takenInbound (proto : string) (port : Z) : NodeInbound :=
  zeroNodeInbound <| NodeInbound_Protocol := proto |> <| NodeInbound_Port := port |> <| NodeInbound_Source := "takeover:singbox" |>.

(** [convertSingBoxTUIC], [convertSingBoxHysteria2], [convertSingBoxWireGuard]. *)
Definition convertSingBoxTUIC (raw : Json) (port : Z) : NodeInbound :=
  let ib := partialUnmarshal (dStruct [("users", dUsers [dUUID; dPassword])]) (Some raw) zeroSingBoxInbound in
  match sb_Users ib with
  | u :: _ => (takenInbound "tuic" port) <| NodeInbound_UUID := fu_UUID u |> <| NodeInbound_ServerPrivKey := fu_Password u |>
  | [] => takenInbound "tuic" port
  end.
Definition convertSingBoxHysteria2 (raw : Json) (port : Z) : NodeInbound :=
  let ib := partialUnmarshal (dStruct [("users", dUsers [dName; dPassword])]) (Some raw) zeroSingBoxInbound in
  match sb_Users ib with
  | u :: _ => (takenInbound "hysteria2" port) <| NodeInbound_UUID := fu_Password u |>
  | [] => takenInbound "hysteria2" port
  end.
Definition convertSingBoxWireGuard (raw : Json) (port : Z) : NodeInbound :=
  let ib := partialUnmarshal (dStruct
    [("private_key", dField sb_PrivateKey dString);
     ("peers", dField sb_Peers (dSlice zeroForeignReality (dStruct [("public_key", dField fr_PrivateKey dString)])))]) (Some raw) zeroSingBoxInbound in
  let ni := (takenInbound "awg" port) <| NodeInbound_ServerPrivKey := sb_PrivateKey ib |> in
  match sb_Peers ib with p :: _ => ni <| NodeInbound_AWGClientPub := fr_PrivateKey p |> | [] => ni end.

Definition fakeDomain : string := "disk.yandex.ru".

(** [decodeMTProxyFullSecret]. *)
Definition decodeMTProxyFullSecret (full : string) : string * string :=
  if negb (HasPrefix full "ee") then (full, fakeDomain)
  else
    let rest := drop_string 2 full in
    if (String.length rest <? 32)%nat then (rest, "")
    else
      let domain := match hexDecode (drop_string 32 rest) with Some b => b | None => "" end in
      (take_string 32 rest, if domain == "" then fakeDomain else domain).

(** [convertSingBoxMTProto]. *)
Definition convertSingBoxMTProto (raw : Json) (port : Z) : NodeInbound :=
  let ib := partialUnmarshal (dStruct [("users", dUsers [dName; ("secret", dField fu_Secret dString)])]) (Some raw) zeroSingBoxInbound in
  match sb_Users ib with
  | u :: _ => let '(secretHex, domain) := decodeMTProxyFullSecret (fu_Secret u) in
              (takenInbound "mtproxy" port) <| NodeInbound_UUID := secretHex |> <| NodeInbound_Obfuscation := domain |>
  | [] => takenInbound "mtproxy" port
  end.

(** What becomes of an inbound: a node inbound, JSON passed through, nothing. *)
Inductive Converted := CInbound (ib : NodeInbound) | CExtra (raw : Json) | CSkipped.

Definition dSingBoxHead : Decoder SingBoxInbound :=
  dStruct [("type", dField sb_Type dString); ("tag", dField sb_Tag dString); ("listen_port", dField sb_ListenPort dInt)].
Definition convertSingBoxInbound (raw : Json) : Converted :=
  match dSingBoxHead raw zeroSingBoxInbound with
  | (_, false) => CSkipped
  | (ib, true) =>
      let port := sb_ListenPort ib in
      let t := sb_Type ib in
      if t == "vless" then match convertSingBoxVLESS raw port with Some ni => CInbound ni | None => CSkipped end
      else if t == "tuic" then CInbound (convertSingBoxTUIC raw port)
      else if t == "hysteria2" then CInbound (convertSingBoxHysteria2 raw port)
      else if (t == "wireguard") || (t == "awg") then CInbound (convertSingBoxWireGuard raw port)
      else if (t == "mtproto") || (t == "mtproxy") then CInbound (convertSingBoxMTProto raw port)
      else if t == "tun" then CSkipped
      else CExtra raw
  end.

(** The two slices. *)
Definition inboundsOf (cs : list Converted) : list NodeInbound := omap (fun c => match c with CInbound ib => Some ib | _ => None end) cs.
Definition extrasOf (cs : list Converted) : list Json := omap (fun c => match c with CExtra raw => Some raw | _ => None end) cs.

Section convert.
(** The text of the error of encoding/json for an input. *)
Variable jsonError : string -> string.

Definition ConvertResult : Type := string + (list NodeInbound * list Json).

(** A raw message of a list: there is one for every element. *)
Definition rawOf (raw : option Json) : Json := default JNull raw.

(** [convertSingBoxConfig]. *)
Definition convertSingBoxConfig (cfgJSON : string) : ConvertResult :=
  if TrimSpace cfgJSON == "" then inl "takeover: empty sing-box config"
  else
    match unmarshalInto dRawInbounds cfgJSON [] with
    | (_, false) => inl ("takeover: parse sing-box config: " +:+ jsonError cfgJSON)
    | (raws, true) =>
        let cs := map (fun raw => convertSingBoxInbound (rawOf raw)) raws in
        match inboundsOf cs, extrasOf cs with
        | [], [] => inl "takeover: sing-box config had no convertible inbounds"
        | ibs, extra => inr (ibs, extra)
        end
    end.

(** ** Xray *)

(** [json.Marshal] of a map with string keys. *)
Definition jmap (ms : list (string * Json)) : Json := ofMap (list_to_map ms).

Definition dClients (fs : list (string * Decoder ForeignUser)) : string * Decoder XraySettings :=
  ("clients", dField xs_Clients (dSlice zeroForeignUser (dStruct fs))).
Definition dEmail : string * Decoder ForeignUser := ("email", dField fu_Name dString).
Definition dID : string * Decoder ForeignUser := ("id", dField fu_UUID dString).
Definition dTransport : Decoder ForeignTransport :=
  dStruct [("path", dField fp_Path dString); ("host", dField fp_Host dString); ("mode", dField fp_Type dString)].
Definition dXrayStream : Decoder XrayStream := dStruct
  [("network", dField xt_Network dString); ("security", dField xt_Security dString); ("serverName", dField xt_ServerName dString);
   ("xhttpSettings", dField xt_XHTTP dTransport); ("splithttpSettings", dField xt_Split dTransport);
   ("realitySettings", dField xt_Reality (dStruct
     [("serverNames", dField fr_ServerNames (dSlice "" dString)); ("privateKey", dField fr_PrivateKey dString);
      ("shortIds", dField fr_ShortID (dSlice "" dString))]))].

(** The part of a converted inbound that all have. *)
Definition listenOn (type tag : string) (port : Z) : list (string * Json) :=
  [("type", JStr type); ("tag", JStr tag); ("listen", JStr "0.0.0.0"); ("listen_port", JNum (itoa port))].

(** [convertXrayVLESS]. *)
Definition vlessUser (c : ForeignUser) : Json :=
  jmap ((if fu_Flow c != "" then [("flow", JStr (TrimSuffix (fu_Flow c) "-udp443"))] else []) ++ [("name", JStr (fu_Name c)); ("uuid", JStr (fu_UUID c))]).
Definition convertXrayVLESS (port : Z) (settings stream : option Json) : Converted :=
  let s := partialUnmarshal (dStruct [dClients [dID; dEmail; ("flow", dField fu_Flow dString)]]) settings zeroXraySettings in
  match xs_Clients s with
  | [] => CSkipped
  | c :: _ =>
      let ss := partialUnmarshal dXrayStream stream zeroXrayStream in
      let network := let n := ToLower (xt_Network ss) in if n == "splithttp" then "xhttp" else n in
      let r := xt_Reality ss in
      if EqualFold (xt_Security ss) "reality" && (fr_PrivateKey r != "") then
        CInbound (zeroNodeInbound <| NodeInbound_Protocol := "vless-reality" |> <| NodeInbound_Port := port |> <| NodeInbound_UUID := fu_UUID c |>
          <| NodeInbound_ServerPrivKey := fr_PrivateKey r |> <| NodeInbound_ShortID := head_ (fr_ShortID r) |>
          <| NodeInbound_Obfuscation := head_ (fr_ServerNames r) |> <| NodeInbound_Source := "takeover:xray" |>)
      else
        let path := if fp_Path (xt_XHTTP ss) == "" then fp_Path (xt_Split ss) else fp_Path (xt_XHTTP ss) in
        let host := if fp_Host (xt_XHTTP ss) == "" then fp_Host (xt_Split ss) else fp_Host (xt_XHTTP ss) in
        CExtra (jmap (listenOn "vless" "vless-in" port ++ [("users", JArr (map vlessUser (xs_Clients s)))] ++
          (if network == "xhttp" then [("transport", jmap [("type", JStr "xhttp"); ("path", JStr path); ("host", JStr host)])]
           else if network == "ws" then [("transport", jmap [("type", JStr "ws")])] else []) ++
          (if EqualFold (xt_Security ss) "tls" then [("tls", jmap [("enabled", JBool true); ("server_name", JStr (xt_ServerName ss))])] else [])))
  end.

(** [convertXrayVMess], [convertXrayTrojan], [convertXrayShadowsocks],
    [convertXrayMTProto]. *)
Definition convertXrayVMess (port : Z) (settings : option Json) : Converted :=
  let s := partialUnmarshal (dStruct [dClients [dID; dEmail]]) settings zeroXraySettings in
  match xs_Clients s with
  | [] => CSkipped
  | cs => CExtra (jmap (listenOn "vmess" "vmess-in" port ++
            [("users", JArr (map (fun c => jmap [("name", JStr (fu_Name c)); ("uuid", JStr (fu_UUID c))]) cs))]))
  end.
Definition convertXrayTrojan (port : Z) (settings stream : option Json) : Converted :=
  let s := partialUnmarshal (dStruct [dClients [dPassword; dEmail]]) settings zeroXraySettings in
  match xs_Clients s with
  | [] => CSkipped
  | cs =>
      let ss := partialUnmarshal (dStruct [("serverName", dField xt_ServerName dString)]) stream zeroXrayStream in
      CExtra (jmap (listenOn "trojan" "trojan-in" port ++
        [("users", JArr (map (fun c => jmap [("name", JStr (fu_Name c)); ("password", JStr (fu_Password c))]) cs));
         ("tls", jmap [("enabled", JBool true); ("server_name", JStr (xt_ServerName ss))])]))
  end.
Definition convertXrayShadowsocks (port : Z) (settings : option Json) : Converted :=
  let s := partialUnmarshal (dStruct [("method", dField xs_Method dString); ("password", dField xs_Password dString)]) settings zeroXraySettings in
  if xs_Method s == "" then CSkipped
  else CExtra (jmap (listenOn "shadowsocks" "ss-in" port ++ [("method", JStr (xs_Method s)); ("password", JStr (xs_Password s))])).

(** The sing-box form of a secret, and the inbound that uses it. *)
Definition fullSecret (secretHex : string) : string := "ee" +:+ secretHex +:+ hexEncode fakeDomain.
Definition mtprotoInbound (port : Z) (name secretHex : string) : Json :=
  jmap (listenOn "mtproto" "mtp-in" port ++ [("users", JArr [jmap [("name", JStr name); ("secret", JStr (fullSecret secretHex))]])]).
Definition convertXrayMTProto (port : Z) (settings : option Json) : Converted :=
  let s := partialUnmarshal (dStruct [("users", dField xs_Users (dSlice zeroForeignUser (dStruct [("secret", dField fu_Secret dString)])))]) settings zeroXraySettings in
  match xs_Users s with
  | [] => CSkipped
  | u :: _ => CExtra (mtprotoInbound port "mtproto" (TrimPrefix (TrimPrefix (fu_Secret u) "dd") "ee"))
  end.

(** [convertXrayConfig]. *)
Definition dXrayInbounds : Decoder (list XrayInbound) := dStruct [("inbounds", dSlice zeroXrayInbound (dStruct
  [("port", dField xi_Port dInt); ("protocol", dField xi_Protocol dString); ("tag", dField xi_Tag dString);
   ("settings", dField xi_Settings dRaw); ("streamSettings", dField xi_StreamSettings dRaw)]))].
Definition convertXrayInbound (xi : XrayInbound) : Converted :=
  let p := ToLower (xi_Protocol xi) in
  let port := xi_Port xi in
  if p == "vless" then convertXrayVLESS port (xi_Settings xi) (xi_StreamSettings xi)
  else if p == "vmess" then convertXrayVMess port (xi_Settings xi)
  else if p == "trojan" then convertXrayTrojan port (xi_Settings xi) (xi_StreamSettings xi)
  else if p == "shadowsocks" then convertXrayShadowsocks port (xi_Settings xi)
  else if p == "mtproto" then convertXrayMTProto port (xi_Settings xi)
  else CSkipped.
Definition convertXrayConfig (cfgJSON : string) : ConvertResult :=
  if TrimSpace cfgJSON == "" then inl "takeover: empty xray config"
  else
    match unmarshalInto dXrayInbounds cfgJSON [] with
    | (_, false) => inl ("takeover: parse xray config: " +:+ jsonError cfgJSON)
    | (xis, true) =>
        let cs := map convertXrayInbound xis in
        match inboundsOf cs, extrasOf cs with
        | [], [] => inl "takeover: xray config had no convertible inbounds"
        | ibs, extra => inr (ibs, extra)
        end
    end.

(** ** MTProxy *)

(** [strings.Trim] of the characters of a set. *)
Fixpoint trimLeftBy (p : ascii -> bool) (s : string) : string :=
  match s with String c s' => if p c then trimLeftBy p s' else s | EmptyString => "" end.
Fixpoint trimRightBy (p : ascii -> bool) (s : string) : string :=
  match s with
  | EmptyString => ""
  | String c s' => match trimRightBy p s' with EmptyString => if p c then "" else String c "" | t => String c t end
  end.
Definition Trim (p : ascii -> bool) (s : string) : string := trimLeftBy p (trimRightBy p s).

(** [isHex]. *)
Fixpoint isHex (s : string) : bool :=
  match s with EmptyString => true | String c s' => bool_decide (is_Some (hexNibble c)) && isHex s' end.

(** The secret of a line, if it is one. *)
Definition secretLine (raw : string) : option string :=
  let line := TrimSpace raw in
  if negb (HasPrefix line "secret") && negb (HasPrefix line "Secret") then None
  else
    match cut_at "="%char line with
    | None => None
    | Some (_, v) =>
        let val := Trim (fun c => Ascii.eqb c quote || Ascii.eqb c "'"%char) (TrimSpace v) in
        let val := TrimPrefix (TrimPrefix val "ee") "dd" in
        if (String.length val =? 32)%nat && isHex val then Some val else None
    end.
Definition firstSome {A B} (f : A -> option B) (l : list A) : option B := match omap f l with x :: _ => Some x | [] => None end.

(** [convertMTProxyConfig]. *)
Definition convertMTProxyConfig (content : string) : ConvertResult :=
  if TrimSpace content == "" then inl "takeover: empty mtproxy config"
  else
    match firstSome secretLine (Split newline content) with
    | None => inl "takeover: mtproxy config has no 32-hex secret (unsupported format — edit manually)"
    | Some secretHex =>
        inr ([zeroNodeInbound <| NodeInbound_Protocol := "mtproxy" |> <| NodeInbound_Port := 443 |> <| NodeInbound_UUID := secretHex |>
                <| NodeInbound_Obfuscation := fakeDomain |> <| NodeInbound_Source := "takeover:mtproxy" |>],
             [mtprotoInbound 443 "mtproxy" secretHex])
    end.

(** [Convert]. *)
Definition Convert (type content : string) : ConvertResult :=
  if type == DetectedSingBox then convertSingBoxConfig content
  else if type == DetectedXray then convertXrayConfig content
  else if type == DetectedMTProxy then convertMTProxyConfig content
  else if type == DetectedAWG then
    inr ([zeroNodeInbound <| NodeInbound_Protocol := "awg" |> <| NodeInbound_Source := "takeover:awg" |>], [])
  else if (type == DetectedNone) || (type == "") then inl "takeover: nothing to convert (no VPN detected)"
  else inl ("takeover: unsupported detected type " +:+ quoted type).

(** [isNothingToConvert]. *)
Definition isNothingToConvert (msg : string) : bool :=
  Contains msg "no convertible inbounds" || Contains msg "nothing to convert" || Contains msg "empty sing-box config".
End convert.

(** ** What is worth taking over *)

(** [singBoxConfigConvertible]. *)
Definition userFacing (raw : option Json) : bool :=
  match dStruct [("type", dField sb_Type dString)] (rawOf raw) zeroSingBoxInbound with
  | (_, false) => false
  | (ib, true) => negb (bool_decide (sb_Type ib ∈ [""; "tun"; "direct"; "block"; "dns"]))
  end.
Definition singBoxConfigConvertible (cfgJSON : string) : bool :=
  if TrimSpace cfgJSON == "" then false
  else
    match unmarshalInto dRawInbounds cfgJSON [] with
    | (_, false) => true
    | (raws, true) => existsb userFacing raws
    end.
