(* ===== verification/TakeoverRender.v ===== *)
(** * TakeoverRender: the sing-box configuration of a taken-over node

    internal/backend/singbox/config.go ([generateStandaloneNode],
    [generateAWGUser]), internal/chain/presets.go ([BuildRoutingSection],
    [BuildDNSWithDetour]) and the renderer of internal/takeover/takeover.go.  An
    inbound is the JSON that encoding/json makes of its struct, with the fields in
    their order and the empty ones left out where the tag says so.  Generated key
    pairs and certificates, and the generator of packets, are arguments, one value
    per inbound. *)

From S2P Require Import Prelude GoStrings Model Codec Presets Roles AwgConf AwgMaterial ManualRules AwgDeploy Caddy HopWire ConfFields Json JsonDecode TakeoverConvert.

(** ** Fields of a struct *)

Definition fStr (k v : string) : list (string * Json) := [(k, JStr v)].
Definition oStr (k v : string) : list (string * Json) := if v == "" then [] else [(k, JStr v)].
Definition oInt (k : string) (z : Z) : list (string * Json) := if z =? 0 then [] else [(k, JNum (itoa z))].
Definition oBool (k : string) (b : bool) : list (string * Json) := if b then [(k, JBool true)] else [].
Definition oList (k : string) (l : list string) : list (string * Json) := match l with [] => [] | _ => [(k, JArr (map JStr l))] end.

(** What the inbounds have in common. *)
Definition listenFields (type tag listen : string) (port : Z) (users : list Json) : list (string * Json) :=
  fStr "type" type ++ fStr "tag" tag ++ oStr "listen" listen ++ oInt "listen_port" port ++ [("users", JArr users)].

(** [InboundTLSOptions] that are enabled. *)
Definition tlsFields (serverName : string) (alpn : list string) (reality : list (string * Json)) (cert key : string) : list (string * Json) :=
  [("tls", JObj ([("enabled", JBool true)] ++ oStr "server_name" serverName ++ oList "alpn" alpn ++ reality ++ oStr "certificate" cert ++ oStr "key" key))].
Definition tlsOff : list (string * Json) := [("tls", JObj [("enabled", JBool false)])].

Definition userUUID (uuid flow : string) : Json := JObj (fStr "name" "user" ++ fStr "uuid" uuid ++ oStr "flow" flow).
Definition userPassword (nameKey name password : string) : Json := JObj (fStr nameKey name ++ fStr "password" password).

(** ** The inbounds *)

Definition boxServerName (preset : ConnectionPreset) : string :=
  match ConnectionPreset_Reality preset with Some (mkRealityPreset (sn :: _) _ _) => sn | _ => "www.microsoft.com" end.

Definition realityObj (serverName privateKey shortID : string) : list (string * Json) :=
  [("reality", JObj [("enabled", JBool true);
     ("handshake", JObj (fStr "server" serverName ++ [("server_port", JNum "443")]));
     ("private_key", JStr privateKey); ("short_id", JArr [JStr shortID])])].

(** The certificate of an inbound, else a new one. *)
Definition certOf (fresh : option (string * string)) (ib : NodeInbound) : string * string :=
  let cert := NodeInbound_TLSCertificate ib in let key := NodeInbound_TLSPrivateKey ib in
  let '(cert, key) := if (cert == "") || (key == "") then default (cert, key) fresh else (cert, key) in
  if (cert != "") && (key != "") then (cert, key) else ("", "").

(** [generateAWGUser]: its endpoint and its TUN. *)
Definition amneziaFields (a : AmneziaOptions) : list (string * Json) :=
  oInt "jc" (Amnezia_JC a) ++ oInt "jmin" (Amnezia_JMIN a) ++ oInt "jmax" (Amnezia_JMAX a) ++ oInt "s1" (Amnezia_S1 a) ++ oInt "s2" (Amnezia_S2 a) ++
  oInt "s3" (Amnezia_S3 a) ++ oInt "s4" (Amnezia_S4 a) ++ oStr "h1" (Amnezia_H1 a) ++ oStr "h2" (Amnezia_H2 a) ++ oStr "h3" (Amnezia_H3 a) ++
  oStr "h4" (Amnezia_H4 a) ++ oStr "i1" (Amnezia_I1 a) ++ oStr "i2" (Amnezia_I2 a) ++ oStr "i3" (Amnezia_I3 a) ++ oStr "i4" (Amnezia_I4 a) ++
  oStr "i5" (Amnezia_I5 a).
Definition awgEndpoint (g : CPSGen) (preset : ConnectionPreset) (priv pub : string) (port : Z) : Json :=
  JObj (fStr "type" "awg" ++ fStr "tag" "wg-ep" ++ fStr "private_key" priv ++ [("address", JArr [JStr "10.8.0.1/32"])] ++ oInt "mtu" 1420 ++
    oInt "listen_port" port ++ match BuildAWGAmnezia g (AwgDeploy.awgOf preset) preset None with Some a => amneziaFields a | None => [] end ++
    [("peers", JArr [JObj (oStr "public_key" pub ++ oList "allowed_ips" ["10.8.0.2/32"])])]).
Definition awgTun : Json := JObj (fStr "type" "tun" ++ fStr "tag" "tun-in" ++ oList "address" ["172.16.250.1/30"] ++ oBool "auto_route" true).

(** What is generated for an inbound: the key pair of the server, the public key
    of the client, the certificate, the packets. *)
Record Fresh := mkFresh { fresh_server : option string; fresh_client : option string; fresh_cert : option (string * string); fresh_cps : CPSGen }.

(** The body of the loop of [generateStandaloneNode]: endpoints and inbounds. *)
Definition standaloneInbound (f : Fresh) (preset : ConnectionPreset) (i : Z) (ib : NodeInbound) : list Json * list Json :=
  let uuid := NodeInbound_UUID ib in
  let port := NodeInbound_Port ib in
  let proto := NodeInbound_Protocol ib in
  let tag := "inbound-" +:+ itoa i +:+ "-" +:+ proto in
  let sni := boxServerName preset in
  let one ms := ([], [JObj ms]) in
  if proto == "awg" then
    let clientPub := if NodeInbound_AWGClientPub ib == "" then default "" (fresh_client f) else NodeInbound_AWGClientPub ib in
    match (if NodeInbound_ServerPrivKey ib != "" then Some (NodeInbound_ServerPrivKey ib) else fresh_server f) with
    | None => ([], [])
    | Some priv => ([awgEndpoint (fresh_cps f) preset priv (if clientPub == "" then "CLIENT_PUBLIC_KEY_HERE" else clientPub) port], [awgTun])
    end
  else if proto == "tuic" then
    let '(cert, key) := certOf (fresh_cert f) ib in
    one (listenFields "tuic" tag "0.0.0.0" port [JObj (fStr "uuid" uuid ++ fStr "password" (NodeInbound_ServerPrivKey ib))] ++
      oStr "congestion_control" "bbr" ++ oStr "auth_timeout" "3s" ++ oBool "zero_rtt_handshake" true ++ oStr "heartbeat" "10s" ++
      tlsFields sni ["h3"] [] cert key)
  else if proto == "vless-reality" then
    one (listenFields "vless" tag "0.0.0.0" port [userUUID uuid visionFlow] ++
      tlsFields sni [] (realityObj sni (NodeInbound_ServerPrivKey ib) (NodeInbound_ShortID ib)) "" "")
  else if proto == "xhttp" then
    one (listenFields "vless" tag "0.0.0.0" port [userUUID uuid ""] ++ tlsOff ++
      [("transport", JObj (fStr "type" "http" ++ oStr "path" "/api" ++ oStr "method" "POST" ++
         [("headers", JObj [("Content-Type", JArr [JStr "application/json"])])]))])
  else if proto == "naive" then
    let '(cert, key) := certOf (fresh_cert f) ib in
    one (listenFields "naive" tag "0.0.0.0" port [userPassword "username" "user" uuid] ++ oStr "network" "tcp" ++ tlsFields sni ["h2"] [] cert key)
  else if proto == "mieru" then
    one (listenFields "mieru" tag "0.0.0.0" port [userPassword "name" "user" uuid] ++
      oStr "transport" (if NodeInbound_MieruTransport ib == "" then "TCP" else NodeInbound_MieruTransport ib))
  else if proto == "trusttunnel" then
    let '(cert, key) := certOf (fresh_cert f) ib in
    one (listenFields "trusttunnel" tag "0.0.0.0" port [userPassword "name" "user" uuid] ++ oStr "network" "tcp" ++ tlsFields sni ["h2"] [] cert key)
  else if proto == "hysteria2" then
    let cert := NodeInbound_TLSCertificate ib in let key := NodeInbound_TLSPrivateKey ib in
    one (listenFields "hysteria2" tag "::" port [JObj (fStr "password" (NodeInbound_ServerPrivKey ib))] ++ oInt "up_mbps" 1000 ++ oInt "down_mbps" 1000 ++
      [("obfs", JObj (fStr "type" "salamander" ++ fStr "password" (NodeInbound_ObfsPassword ib)))] ++
      if (cert != "") && (key != "") then tlsFields sni [] [] cert key else [])
  else
    one (listenFields "vless" tag "0.0.0.0" port [userUUID uuid visionFlow] ++ tlsOff ++
      [("transport", JObj (fStr "type" "ws" ++ oStr "path" "/ws"))]).

(** ** The configuration *)

Record DNSConfig := mkDNSConfig { dns_Servers : list (string * string * string * string); dns_Rules : list (list string * string); dns_Final : string }.

(** [BuildRoutingSection]; the rule sets come from a map, in any order. *)
Definition setRule (tag out : string) : RouteRuleEntry := zeroRouteRuleEntry <| Entry_RuleSet := [tag] |> <| Entry_Outbound := out |>.
Definition geoipTag (g : string) : string := "geoip-" +:+ g.
Definition remoteRuleSet (r : PresetRouting) (tag : string) : RuleSetEntry :=
  let url := if bool_decide (tag ∈ map geoipTag (DirectGeoIP r)) then ruleSetBaseURL +:+ "/" +:+ tag +:+ ".srs"
             else ruleSetGeoSiteURL +:+ "/geosite-" +:+ tag +:+ ".srs" in
  mkRuleSetEntry tag "remote" "binary" url "" "direct-out" "24h".
Definition ruleTags (r : PresetRouting) : gset string :=
  list_to_set (map geoipTag (DirectGeoIP r) ++ DirectGeoSite r ++ BlockGeoSite r).
Definition BuildRoutingSection (preset : ConnectionPreset) (out : string) : RoutingSection :=
  let r := ConnectionPreset_Routing preset in
  mkRoutingSection
    (map (fun g => setRule (geoipTag g) "direct-out") (DirectGeoIP r) ++ map (fun t => setRule t "direct-out") (DirectGeoSite r) ++
     (match DirectDomains r with [] => [] | ds => [zeroRouteRuleEntry <| Entry_DomainSuffix := ds |> <| Entry_Outbound := "direct-out" |>] end) ++
     map (fun t => setRule t "block") (BlockGeoSite r))
    (map (remoteRuleSet r) (elements (ruleTags r))) out true "dns-direct".

(** [BuildDNSWithDetour]. *)
Definition BuildDNSWithDetour (out : string) (directDomains : list string) : DNSConfig :=
  mkDNSConfig [("dns-chain", "tls", "1.1.1.1", out); ("dns-direct", "udp", "8.8.8.8", "direct-out")]
    (match directDomains with [] => [] | ds => [(ds, "dns-direct")] end) "dns-chain".

(** A configuration before it is encoded.  Its route and DNS sections are [None]
    when absent. *)
Record SingBoxConfig := mkSingBoxConfig {
  sc_Endpoints : list Json; sc_Inbounds : list Json; sc_Outbounds : list Json; sc_Route : option RoutingSection; sc_DNS : option DNSConfig }.
#[export] Instance eta_SingBoxConfig : Eta SingBoxConfig := fun r =>
  mkSingBoxConfig (sc_Endpoints r) (sc_Inbounds r) (sc_Outbounds r) (sc_Route r) (sc_DNS r).

Definition directOut (tag : string) : Json := JObj [("type", JStr "direct"); ("tag", JStr tag)].

Fixpoint standaloneInbounds (fresh : Z -> Fresh) (preset : ConnectionPreset) (i : Z) (ibs : list NodeInbound) : list Json * list Json :=
  match ibs with
  | [] => ([], [])
  | ib :: ibs' =>
      let '(eps, ins) := standaloneInbound (fresh i) preset i ib in
      let '(eps', ins') := standaloneInbounds fresh preset (i + 1) ibs' in (eps ++ eps', ins ++ ins')
  end.

(** [generateStandaloneNode]. *)
Definition generateStandaloneNode (fresh : Z -> Fresh) (preset : ConnectionPreset) (ibs : list NodeInbound) : SingBoxConfig :=
  let '(eps, ins) := standaloneInbounds fresh preset 0 ibs in
  mkSingBoxConfig eps ins [directOut "direct-out"] (Some (BuildRoutingSection preset "direct-out"))
    (Some (BuildDNSWithDetour "direct-out" (DirectDomains (ConnectionPreset_Routing preset)))).

(** [renderTakeoverConfig]: the extra inbounds are appended to what is read back
    of the configuration, which has no field for the DNS section. *)
Definition renderTakeoverConfig (fresh : Z -> Fresh) (preset : ConnectionPreset) (ibs : list NodeInbound) (extra : list Json) : SingBoxConfig :=
  let c := generateStandaloneNode fresh preset ibs in
  match extra with
  | [] => c
  | _ => c <| sc_Inbounds := sc_Inbounds c ++ extra |> <| sc_DNS := None |>
  end.

(** ** Lemmas: rendered inbounds read back *)

Lemma convert_port raw ib : convertSingBoxInbound raw = CInbound ib -> - 2 ^ 63 <= NodeInbound_Port ib < 2 ^ 63.
Proof.
  unfold convertSingBoxInbound. destruct (dSingBoxHead raw zeroSingBoxInbound) as [h ok] eqn:E.
  assert (- 2 ^ 63 <= sb_ListenPort h < 2 ^ 63) as H.
  { change h with (fst (h, ok)). rewrite <- E. unfold dSingBoxHead. apply dStruct_keeps; [|done].
    intros n d j r Hin Hr. cbn [In] in Hin. destruct_or! Hin; try done; injection Hin as <- <-; unfold dField.
    - by destruct (dString _ _).
    - by destruct (dString _ _).
    - pose proof (dInt_range j (sb_ListenPort r) Hr). by destruct (dInt _ _). }
  destruct ok; [|done]. cbv zeta. generalize dependent (sb_ListenPort h). intros port Hport.
  repeat (destruct (_ == _); cbn [orb]); try done;
    try (intros [= <-]; unfold convertSingBoxTUIC, convertSingBoxHysteria2, convertSingBoxWireGuard, convertSingBoxMTProto; cbv zeta;
         repeat case_match; exact Hport).
  unfold convertSingBoxVLESS. cbv zeta. destruct (sb_Users _); [done|]. intros [= <-]. exact Hport.
Qed.

(** Reading back a rendered inbound. *)
Definition tuicInbound (port : Z) (uuid password : string) : NodeInbound :=
  (takenInbound "tuic" port) <| NodeInbound_UUID := uuid |> <| NodeInbound_ServerPrivKey := password |>.
Definition takenReality (port : Z) (uuid key shortID sni : string) : NodeInbound :=
  (takenInbound "vless-reality" port) <| NodeInbound_UUID := uuid |> <| NodeInbound_ServerPrivKey := key |> <| NodeInbound_ShortID := shortID |>
    <| NodeInbound_Obfuscation := sni |>.

(** The head of a rendered inbound. *)
Lemma dMember_none {R} (fs : list (string * Decoder R)) ms acc : Forall (fun m => fieldNamed (fst m) fs = None) ms -> fold_left (dMember fs) ms acc = acc.
Proof. induction 1 as [|m ms Hm _ IH]; [done|]. cbn [fold_left]. unfold dMember at 2. by rewrite Hm. Qed.

Lemma head_read type tag listen port users rest : - 2 ^ 63 <= port < 2 ^ 63 -> listen <> "" ->
  Forall (fun m => forallb (fun k => negb (EqualFold k (fst m))) ["type"; "tag"; "listen_port"] = true) rest ->
  dSingBoxHead (JObj (listenFields type tag listen port users ++ rest)) zeroSingBoxInbound =
    (zeroSingBoxInbound <| sb_Type := type |> <| sb_Tag := tag |> <| sb_ListenPort := port |>, true).
Proof.
  intros Hp Hl Hr. unfold dSingBoxHead. rewrite dStruct_obj, fold_left_app. rewrite dMember_none.
  - unfold listenFields, oStr, oInt. rewrite (bool_decide_eq_false_2 _ Hl).
    pose proof (dInt_itoa port 0 Hp) as Hd. revert Hd. generalize dInt. intros D Hd.
    destruct (Z.eqb_spec port 0) as [->|Hn]; [vm_compute; reflexivity|].
    revert Hd. generalize (itoa port). intros t Hd. vm_compute. rewrite Hd. reflexivity.
  - eapply Forall_impl; [exact Hr|]. intros m Hm. cbn [forallb] in Hm. rewrite !andb_true_iff, !negb_true_iff in Hm. destruct Hm as (H1 & H2 & H3 & _).
    assert (forall k, EqualFold k (fst m) = false -> (k == fst m) = false) as He.
    { intros k Hk. apply bool_decide_eq_false_2. intros E. unfold EqualFold in Hk. by rewrite E, bool_decide_eq_true_2 in Hk. }
    unfold fieldNamed. cbn [List.find fst]. by rewrite (He _ H1), (He _ H2), (He _ H3), H1, H2, H3.
Qed.

(** Converting an inbound whose head is known. *)
Lemma convert_head raw sb : dSingBoxHead raw zeroSingBoxInbound = (sb, true) ->
  (sb_Type sb = "tuic" -> convertSingBoxInbound raw = CInbound (convertSingBoxTUIC raw (sb_ListenPort sb))) /\
  (sb_Type sb = "vless" -> convertSingBoxInbound raw = match convertSingBoxVLESS raw (sb_ListenPort sb) with Some ni => CInbound ni | None => CSkipped end).
Proof. intros H. unfold convertSingBoxInbound. rewrite H. cbv zeta. by split; intros ->. Qed.

Lemma tuic_again f preset i port uuid password : - 2 ^ 63 <= port < 2 ^ 63 ->
  exists j, standaloneInbound f preset i (tuicInbound port uuid password) = ([], [j]) /\ convertSingBoxInbound j = CInbound (tuicInbound port uuid password).
Proof.
  intros Hp. unfold standaloneInbound. cbv zeta. change (NodeInbound_Protocol (tuicInbound port uuid password)) with "tuic".
  change ("tuic" == "awg") with false. change ("tuic" == "tuic") with true. cbn iota.
  destruct (certOf (fresh_cert f) _) as [cert key]. eexists. split; [reflexivity|].
  change (NodeInbound_Port (tuicInbound port uuid password)) with port.
  generalize (boxServerName preset) ("inbound-" +:+ itoa i +:+ "-" +:+ "tuic"). intros sni tag.
  match goal with |- context [JObj (listenFields ?a ?b ?c ?d ?e ++ ?rest)] => pose proof (head_read a b c d e rest Hp ltac:(done)) as H end.
  specialize (H ltac:(repeat constructor)). apply convert_head in H as [H _]. rewrite H by done. f_equal. cbn [sb_ListenPort].
  unfold convertSingBoxTUIC, tuicInbound, tlsFields. match goal with |- context [("tls", ?x)] => generalize x end. intros tls.
  unfold listenFields, oInt. destruct (port =? 0); [|generalize (itoa port); intros t]; vm_compute; reflexivity.
Qed.

Lemma reality_again f preset i port uuid key shortID sni : - 2 ^ 63 <= port < 2 ^ 63 ->
  exists j, standaloneInbound f preset i (takenReality port uuid key shortID sni) = ([], [j]) /\
    convertSingBoxInbound j = CInbound (takenReality port uuid key shortID (boxServerName preset)).
Proof.
  intros Hp. unfold standaloneInbound. cbv zeta. change (NodeInbound_Protocol (takenReality port uuid key shortID sni)) with "vless-reality".
  change ("vless-reality" == "awg") with false. change ("vless-reality" == "tuic") with false. change ("vless-reality" == "vless-reality") with true.
  cbn iota. eexists. split; [reflexivity|]. change (NodeInbound_Port (takenReality port uuid key shortID sni)) with port.
  generalize ("inbound-" +:+ itoa i +:+ "-" +:+ "vless-reality"). intros tag.
  match goal with |- context [JObj (listenFields ?a ?b ?c ?d ?e ++ ?rest)] => pose proof (head_read a b c d e rest Hp ltac:(done)) as H end.
  specialize (H ltac:(repeat constructor)). apply convert_head in H as [_ H]. rewrite H by done. cbn [sb_ListenPort].
  clear H. generalize (boxServerName preset). intros sn.
  unfold tlsFields, listenFields, oInt, oStr. destruct (bool_decide_reflect (sn = "")) as [->|_];
    (destruct (port =? 0); [|generalize (itoa port); intros t]); destruct key; vm_compute; reflexivity.
Qed.

(** The inbounds that survive a take-over. *)
Definition keptProtocols : list string := ["tuic"; "vless-reality"].

Lemma converted_forms raw ib : convertSingBoxInbound raw = CInbound ib ->
  (NodeInbound_Protocol ib = "tuic" -> exists uuid password, ib = tuicInbound (NodeInbound_Port ib) uuid password) /\
  (NodeInbound_Protocol ib = "vless-reality" -> exists uuid key shortID sni, ib = takenReality (NodeInbound_Port ib) uuid key shortID sni).
Proof.
  unfold convertSingBoxInbound. destruct (dSingBoxHead raw zeroSingBoxInbound) as [h ok]. destruct ok; [|done]. cbv zeta.
  generalize (sb_ListenPort h). intros port. unfold convertSingBoxVLESS, convertSingBoxTUIC, convertSingBoxHysteria2, convertSingBoxWireGuard, convertSingBoxMTProto. cbv zeta.
  repeat match goal with |- context [partialUnmarshal ?d ?r ?z] => generalize (partialUnmarshal d r z); intros ? end.
  destruct (sb_Type h == "vless").
  { destruct (sb_Users _) as [|u us]; [done|]. intros [= <-]. destruct (_ && _); (split; [done|]); intros H; [discriminate H|].
    clear. exists (fu_UUID u), (fr_PrivateKey (ft_Reality (sb_TLS s))), (head_ (fr_ShortID (ft_Reality (sb_TLS s)))), (ft_ServerName (sb_TLS s)). reflexivity. }
  destruct (sb_Type h == "tuic").
  { destruct (sb_Users _) as [|u us]; intros [= <-]; (split; [|done]); intros _; [by exists "", ""|by exists (fu_UUID u), (fu_Password u)]. }
  repeat (destruct (_ == _); cbn [orb]); try done; repeat case_match; intros [= <-]; clear; split; intros H; discriminate H.
Qed.

(** A take-over that is taken over again keeps its TUIC and REALITY inbounds.
    For any JSON of a sing-box inbound that is converted to an inbound of the node
    with the protocol tuic or vless-reality: the node is rendered with one inbound
    for it, and no endpoint, whatever the preset and the generated certificate;
    converting that inbound gives the same protocol, port, identifier, password or
    private key and short identifier.  The server name of a REALITY inbound is the
    one of the preset. *)
Theorem takeover_render_stable f preset i raw ib : convertSingBoxInbound raw = CInbound ib -> NodeInbound_Protocol ib ∈ keptProtocols ->
  exists j, standaloneInbound f preset i ib = ([], [j]) /\
    convertSingBoxInbound j =
      CInbound (if NodeInbound_Protocol ib == "vless-reality" then ib <| NodeInbound_Obfuscation := boxServerName preset |> else ib).
Proof.
  intros Hc Hk. pose proof (convert_port raw ib Hc) as Hp. destruct (converted_forms raw ib Hc) as [Ht Hv].
  apply elem_of_cons in Hk as [Hk|Hk%list_elem_of_singleton]; rewrite Hk.
  - destruct (Ht Hk) as (uuid & password & E). change ("tuic" == "vless-reality") with false. rewrite E. by apply tuic_again.
  - destruct (Hv Hk) as (uuid & key & sid & sni & E). change ("vless-reality" == "vless-reality") with true. rewrite E. by apply reality_again.
Qed.

(** ** Examples *)

Definition noFresh : Fresh :=
  mkFresh None None None (mkCPSGen "" (fun _ => "") (fun _ => "") (fun _ _ => "") (fun _ _ => ("", "", "", "")) ("", "", "") (fun _ => None)).

(** A preset with a server name and blocked sites, as the built-in ones. *)
Definition ruPreset : ConnectionPreset :=
  mkConnectionPreset "ru" "vless" "" (Some (mkRealityPreset ["www.example.com"] [] 8)) None None None 0 ""
    (mkPresetRouting ["ru"] ["geosite-vk"] [] ["geosite-category-ads-all"]).

(** A foreign inbound. *)
Definition foreignInbound (type : string) (port : string) (users : list (list (string * Json))) (rest : list (string * Json)) : Json :=
  JObj ([("type", JStr type); ("tag", JStr "in"); ("listen_port", JNum port); ("users", JArr (map JObj users))] ++ rest).
Definition vlessForeign : Json :=
  foreignInbound "vless" "8443" [[("name", JStr "a"); ("uuid", JStr "uuid-a")]; [("name", JStr "b"); ("uuid", JStr "uuid-b")]]
    [("tls", JObj [("server_name", JStr "www.foreign.org"); ("reality", JObj [("private_key", JStr "key"); ("short_id", JArr [JStr "ab"])])])].

Lemma takeover_render_stable_witness :
  let ib := takenReality 8443 "uuid-a" "key" "ab" "www.foreign.org" in
  convertSingBoxInbound vlessForeign = CInbound ib /\ NodeInbound_Protocol ib ∈ keptProtocols /\
  exists j, standaloneInbound noFresh ruPreset 0 ib = ([], [j]) /\
    convertSingBoxInbound j =
      CInbound (if NodeInbound_Protocol ib == "vless-reality" then ib <| NodeInbound_Obfuscation := boxServerName ruPreset |> else ib).
Proof.
  intros ib. assert (convertSingBoxInbound vlessForeign = CInbound ib) as Hc by (vm_compute; reflexivity).
  assert (NodeInbound_Protocol ib ∈ keptProtocols) as Hk by (apply elem_of_cons; right; by apply list_elem_of_singleton).
  split; [exact Hc|]. split; [exact Hk|]. exact (takeover_render_stable noFresh ruPreset 0 vlessForeign ib Hc Hk).
Defined.

(** The users after the first, and the server name the clients use, are not in
    the new configuration. *)
Lemma first_user_only :
  match convertSingBoxInbound vlessForeign with
  | CInbound ib => Contains (marshal (JArr (snd (standaloneInbound noFresh ruPreset 0 ib)))) "uuid-a" = true /\
                   Contains (marshal (JArr (snd (standaloneInbound noFresh ruPreset 0 ib)))) "uuid-b" = false /\
                   Contains (marshal (JArr (snd (standaloneInbound noFresh ruPreset 0 ib)))) "www.foreign.org" = false
  | _ => False
  end.
Proof. vm_compute. auto. Qed.

(** The password of a Hysteria2 inbound: the converter keeps it in a field the
    renderer does not read, and the new inbound has none. *)
Lemma hysteria2_password_lost :
  match convertSingBoxInbound (foreignInbound "hysteria2" "443" [[("password", JStr "secret")]] []) with
  | CInbound ib => map (fun j => sb_Users (partialUnmarshal (dStruct [("users", dUsers [dPassword])]) (Some j) zeroSingBoxInbound))
                     (snd (standaloneInbound noFresh ruPreset 0 ib)) = [[zeroForeignUser]] /\
                   Contains (marshal (JArr (snd (standaloneInbound noFresh ruPreset 0 ib)))) "tls" = false
  | _ => False
  end.
Proof. vm_compute. auto. Qed.

(** An MTProxy server: the inbound of the node, which the renderer takes for a
    VLESS inbound, and the one passed through listen on the same port. *)
Lemma mtproxy_port_twice :
  match convertMTProxyConfig ("secret = " +:+ "0123456789abcdef0123456789abcdef") with
  | inr (ibs, extra) =>
      map (fun j => (sb_Type (fst (dSingBoxHead j zeroSingBoxInbound)), sb_ListenPort (fst (dSingBoxHead j zeroSingBoxInbound))))
        (sc_Inbounds (renderTakeoverConfig (fun _ => noFresh) ruPreset ibs extra)) = [("vless", 443); ("mtproto", 443)]
  | inl _ => False
  end.
Proof. vm_compute. reflexivity. Qed.

(** The rules of a preset that blocks sites send them to an outbound the
    configuration does not have. *)
Lemma block_not_declared fresh preset ibs extra t : t ∈ BlockGeoSite (ConnectionPreset_Routing preset) ->
  let c := renderTakeoverConfig fresh preset ibs extra in
  sc_Outbounds c = [directOut "direct-out"] /\ exists r, sc_Route c = Some r /\ setRule t "block" ∈ Routing_Rules r.
Proof.
  intros Ht c. assert (sc_Outbounds c = [directOut "direct-out"] /\ sc_Route c = Some (BuildRoutingSection preset "direct-out")) as [-> ->].
  { unfold c, renderTakeoverConfig, generateStandaloneNode. destruct (standaloneInbounds _ _ _ _) as [eps ins]. by destruct extra. }
  split; [done|]. eexists. split; [reflexivity|]. unfold BuildRoutingSection. cbn [Routing_Rules]. rewrite !elem_of_app. do 3 right.
  by apply (list_elem_of_fmap_2 (fun t => setRule t "block")).
Qed.

(** With inbounds passed through, the DNS section is dropped, and the route still
    names one of its servers. *)
Lemma dns_dropped_with_extra fresh preset ibs j extra :
  let c := renderTakeoverConfig fresh preset ibs (j :: extra) in
  sc_DNS c = None /\ option_map Routing_DefaultDomainResolver (sc_Route c) = Some "dns-direct".
Proof. unfold renderTakeoverConfig, generateStandaloneNode. by destruct (standaloneInbounds _ _ _ _). Qed.

(** The URL of the rule set of a site has its prefix twice. *)
Lemma geosite_prefix_twice :
  map RuleSet_URL (Routing_RuleSet (BuildRoutingSection (mkConnectionPreset "" "" "" None None None None 0 "" (mkPresetRouting [] ["geosite-vk"] [] [])) "x")) =
    [ruleSetGeoSiteURL +:+ "/geosite-geosite-vk.srs"].
Proof. vm_compute. reflexivity. Qed.

(** An AWG endpoint is not among the inbounds, and is not seen. *)
Lemma endpoint_not_converted :
  convertSingBoxConfig (fun _ => "") (marshal (JObj [("endpoints", JArr [JObj [("type", JStr "awg"); ("private_key", JStr "k")]]); ("inbounds", JArr [])])) =
    inl "takeover: sing-box config had no convertible inbounds".
Proof. vm_compute. reflexivity. Qed.
