(* ===== verification/TakeoverDetect.v ===== *)
(** * TakeoverDetect: the VPN that runs on a node

    internal/takeover/detect.go.  What the node answers to a command is an
    argument: the output, the exit code and whether the command could be run. *)

From S2P Require Import Prelude GoStrings Model Codec ConfFields Caddy Json PeerSync Push BoxInstall JsonDecode TakeoverConvert.

(** ** Data *)

Record PanelInfo := mkPanelInfo { panel_Kind : string; panel_DBPath : string; panel_Service : string; panel_Active : bool }.

Record Detection := mkDetection {
  det_Type : string; det_ServiceName : string; det_IsActive : bool; det_IsEnabled : bool; det_ConfigPath : string; det_ConfigContent : string;
  det_Other : list string; det_Note : string; det_Panel : option PanelInfo }.
#[export] Instance eta_Detection : Eta Detection := fun r =>
  mkDetection (det_Type r) (det_ServiceName r) (det_IsActive r) (det_IsEnabled r) (det_ConfigPath r) (det_ConfigContent r) (det_Other r) (det_Note r) (det_Panel r).
Definition noDetection : Detection := mkDetection DetectedNone "" false false "" "" [] "" None.

Definition panelDBPath : string := "/etc/x-ui/x-ui.db".
Definition panelKindMarker : string := "/etc/x-ui/install-source".
Definition panelUnit : string := "x-ui".

Definition candidateServices : list (string * string) :=
  [("sing-box", DetectedSingBox); ("xray", DetectedXray); ("x-ui", DetectedXray); ("mtproxymax", DetectedMTProxy); ("mtg", DetectedMTProxy);
   ("telemt", DetectedMTProxy); ("awg-quick@awg0", DetectedAWG)].
Definition candidateConfigPaths : list (string * string) :=
  [("/etc/sing-box/config.json", DetectedSingBox); ("/usr/local/etc/sing-box/config.json", DetectedSingBox);
   ("/usr/local/etc/xray/config.json", DetectedXray); ("/usr/local/x-ui/bin/config.json", DetectedXray); ("/etc/xray/config.json", DetectedXray);
   ("/etc/mtg/mtg.conf", DetectedMTProxy); ("/etc/amnezia/amneziawg/awg0.conf", DetectedAWG)].

Record cfgHit := mkCfgHit { ch_kind : string; ch_path : string; ch_content : string }.
Record svcHit := mkSvcHit { sh_kind : string; sh_unit : string; sh_active : bool; sh_enabled : bool }.

(** [configForKind]. *)
Definition configForKind (hits : list cfgHit) (kind : string) : option cfgHit := List.find (fun h => ch_kind h == kind) hits.

(** [defaultUnitFor]. *)
Definition defaultUnitFor (kind : string) : string :=
  if kind == DetectedSingBox then "sing-box"
  else if kind == DetectedXray then "xray"
  else if kind == DetectedMTProxy then "mtg"
  else if kind == DetectedAWG then "awg-quick@awg0" else "".

(** ** The probes *)

Record Answer := mkAnswer { an_out : string; an_exit : Z; an_err : bool }.

Section probes.
Variable remote : string -> Answer.
Variable useSudo : bool.

Definition ask (cmd : string) : Answer := remote (if useSudo then "sudo " +:+ cmd else cmd).

Definition probeService (c : string * string) : option svcHit :=
  let active := TrimSpace (an_out (ask ("systemctl is-active " +:+ fst c +:+ " 2>/dev/null"))) == "active" in
  let enabled := TrimSpace (an_out (ask ("systemctl is-enabled " +:+ fst c +:+ " 2>/dev/null"))) == "enabled" in
  if active || enabled then Some (mkSvcHit (snd c) (fst c) active enabled) else None.

Definition probeConfig (c : string * string) : option cfgHit :=
  let a := ask ("cat " +:+ fst c +:+ " 2>/dev/null") in
  if (an_exit a =? 0) && (TrimSpace (an_out a) != "") then Some (mkCfgHit (snd c) (fst c) (an_out a)) else None.

Definition amneziaContainer (name : string) : bool :=
  HasPrefix name "amnezia-awg" || (name == "amnezia-wireguard") || HasPrefix name "amnezia-wireguard-".
Definition probeDocker : list cfgHit :=
  let a := ask "docker ps --format '{{.Names}}' 2>/dev/null" in
  if an_err a then []
  else match List.find amneziaContainer (map TrimSpace (Split newline (an_out a))) with
       | Some name => [mkCfgHit DetectedAWG ("docker:" +:+ name) "amnezia-docker"]
       | None => []
       end.

Definition probePanel : option PanelInfo :=
  let a := ask ("test -f " +:+ panelDBPath +:+ " && echo FOUND") in
  if (an_exit a =? 0) && Contains (an_out a) "FOUND" then
    let m := ask ("test -f " +:+ panelKindMarker +:+ " && echo LUCX") in
    let kind := if (an_exit m =? 0) && Contains (an_out m) "LUCX" then "lucx-ui" else "3x-ui" in
    Some (mkPanelInfo kind panelDBPath panelUnit (TrimSpace (an_out (ask ("systemctl is-active " +:+ panelUnit +:+ " 2>/dev/null"))) == "active"))
  else None.

(** ** The choice *)

(** Empty sing-box configurations, and a sing-box service without another, are
    no VPN. *)
Definition keepConfig (c : cfgHit) : bool := negb ((ch_kind c == DetectedSingBox) && negb (singBoxConfigConvertible (ch_content c))).
Definition keepService (cfgs : list cfgHit) (h : svcHit) : bool :=
  negb ((sh_kind h == DetectedSingBox) && negb (bool_decide (is_Some (configForKind cfgs DetectedSingBox)))).

(** A service, with the first configuration of its kind. *)
Definition ofService (cfgs : list cfgHit) (h : svcHit) (active enabled : bool) : Detection :=
  let d := noDetection <| det_Type := sh_kind h |> <| det_ServiceName := sh_unit h |> <| det_IsActive := active |> <| det_IsEnabled := enabled |> in
  match configForKind cfgs (sh_kind h) with
  | Some c => d <| det_ConfigPath := ch_path c |> <| det_ConfigContent := ch_content c |>
  | None => d
  end.
Definition choosePrimary (hits : list svcHit) (cfgs : list cfgHit) : Detection :=
  match List.find sh_active hits with
  | Some h => ofService cfgs h true (sh_enabled h)
  | None =>
      match hits with
      | h :: _ => ofService cfgs h false true
      | [] =>
          match cfgs with
          | c :: _ => noDetection <| det_Type := ch_kind c |> <| det_ConfigPath := ch_path c |> <| det_ConfigContent := ch_content c |>
                        <| det_ServiceName := defaultUnitFor (ch_kind c) |>
          | [] => noDetection
          end
      end
  end.

(** The other VPNs: the first of each kind. *)
Fixpoint others {A} (kind : A -> string) (text : A -> string) (seen : gset string) (l : list A) : list string * gset string :=
  match l with
  | [] => ([], seen)
  | x :: l' =>
      if bool_decide (kind x ∈ seen) then others kind text seen l'
      else let '(ts, seen) := others kind text ({[kind x]} ∪ seen) l' in (text x :: ts, seen)
  end.

Definition scaffoldNote : string :=
  "Only empty/minimal sing-box found (angry-box deploy scaffold). Nothing to take over — add inbounds or capture a foreign VPN (xray/AWG/MTProxy).".
Definition nothingNote : string := "No existing VPN detected. Use Install to deploy sing-box from scratch.".

(** [DetectVPN], once connected. *)
Definition DetectVPN : Detection :=
  let hits0 := omap probeService candidateServices in
  let cfgs0 := omap probeConfig candidateConfigPaths ++ probeDocker in
  let cfgs := List.filter keepConfig cfgs0 in
  let hits := List.filter (keepService cfgs) hits0 in
  let skipped := negb (forallb keepConfig cfgs0) || negb (forallb (keepService cfgs) hits0) in
  let d := choosePrimary hits cfgs in
  let '(o1, seen) := others sh_kind (fun h => sh_kind h +:+ " (" +:+ sh_unit h +:+ ")") {[det_Type d]} hits in
  let '(o2, seen) := others ch_kind (fun c => ch_kind c +:+ " config at " +:+ ch_path c) seen cfgs in
  let o3 := if skipped && negb (bool_decide (DetectedSingBox ∈ seen)) then ["singbox (empty/minimal config — skipped)"] else [] in
  d <| det_Other := o1 ++ o2 ++ o3 |>
    <| det_Note := if det_Type d == DetectedNone then (if skipped then scaffoldNote else nothingNote) else "" |>
    <| det_Panel := probePanel |>.
End probes.

(** ** Examples *)

(** A node with the panel's sing-box, and with Xray when [xray]. *)
Definition foreignNode (xray : bool) (cmd : string) : Answer :=
  let asked c := cmd == c in
  if asked "systemctl is-active sing-box 2>/dev/null" then mkAnswer "active" 0 false
  else if asked "cat /etc/sing-box/config.json 2>/dev/null" then mkAnswer (marshal minimalConfig) 0 false
  else if xray && asked "systemctl is-active xray 2>/dev/null" then mkAnswer "active" 0 false
  else mkAnswer "" 1 true.

(** The minimal configuration of the installer is not a VPN; Xray beside it is. *)
Example scaffold_skipped :
  map (fun xray => det_Type (DetectVPN (foreignNode xray) false)) [false; true] = [DetectedNone; DetectedXray].
Proof. vm_compute. reflexivity. Qed.

(** A server of the panel's own: the kernel interface it deployed is taken for a
    foreign one. *)
Lemma own_awg_detected :
  let node cmd := if cmd == "systemctl is-active awg-quick@awg0 2>/dev/null" then mkAnswer "active" 0 false else mkAnswer "" 1 true in
  det_Type (DetectVPN node false) = DetectedAWG.
Proof. vm_compute. reflexivity. Qed.
