(* ===== verification/Takeover.v ===== *)
(** * Takeover: a node is taken over from another VPN

    internal/takeover/takeover.go ([Takeover], [rollbackToOldVPN]),
    takeover/awg_takeover.go, chain/takeover_helpers.go and the installation of
    backend/singbox/singbox.go.  A node has the kernel interfaces and the sing-box
    side of [AwgPush], the old VPN, and the file this take-over saved.  What each
    remote command does, and whether the program learns of it, is the oracle
    [TakeFaults].  The text encoding/json makes of a configuration, what the machine
    prints while its AWG files are read, and the errors of encoding/json are
    arguments.  Messages and the audit log are not modelled. *)

From S2P Require Import Prelude GoStrings Model ChainModel Lifecycle StoreCore Store StoreSpec StoreRefine Codec Presets Roles AwgConf AwgMaterial ManualRules MergedRoute Push PeerSync AwgPush AwgDeploy BoxInstall DeployChain ClientConf HopWire ConfFields Json JsonDecode AwgImport TakeoverConvert TakeoverRender TakeoverDetect.

(** ** The node *)

(** A VPN that is neither sing-box nor a kernel interface: the configuration it
    runs, and the one on disk. *)
Record OldVPN := mkOldVPN { ov_running : option string; ov_enabled : bool; ov_config : option string }.
#[export] Instance eta_OldVPN : Eta OldVPN := fun r => mkOldVPN (ov_running r) (ov_enabled r) (ov_config r).

Record TakenNode := mkTakenNode { tn_node : AwgNode; tn_boxEnabled : bool; tn_old : OldVPN; tn_saved : option string }.
#[export] Instance eta_TakenNode : Eta TakenNode := fun r => mkTakenNode (tn_node r) (tn_boxEnabled r) (tn_old r) (tn_saved r).

(** Where a unit and a file are. *)
Inductive Place := PBox | PIface (i : string) | POld.
Definition placeOfUnit (unit : string) : Place :=
  if unit == "sing-box" then PBox
  else if HasPrefix unit "awg-quick@" then PIface (TrimPrefix unit "awg-quick@") else POld.
Definition placeOfPath (path : string) : Place :=
  if path == "/etc/sing-box/config.json" then PBox
  else if path == "/etc/amnezia/amneziawg/awg0.conf" then PIface "awg0" else POld.

Definition onBox (f : Remote -> Remote) (n : TakenNode) : TakenNode := n <| tn_node := (tn_node n) <| an_box := f (an_box (tn_node n)) |> |>.
Definition onIface (i : string) (f : KernelIface -> KernelIface) (n : TakenNode) : TakenNode :=
  n <| tn_node := setIface i (f (ifaceOf (tn_node n) i)) (tn_node n) |>.
Definition onOld (f : OldVPN -> OldVPN) (n : TakenNode) : TakenNode := n <| tn_old := f (tn_old n) |>.

Definition fileAt (p : Place) (n : TakenNode) : option string :=
  match p with PBox => rm_config (an_box (tn_node n)) | PIface i => ki_file (ifaceOf (tn_node n) i) | POld => ov_config (tn_old n) end.
Definition writeFile (p : Place) (text : string) (n : TakenNode) : TakenNode :=
  match p with
  | PBox => onBox (fun r => r <| rm_config := Some text |>) n
  | PIface i => onIface i (fun k => k <| ki_file := Some text |>) n
  | POld => onOld (fun o => o <| ov_config := Some text |>) n
  end.
Definition activeAt (p : Place) (n : TakenNode) : bool :=
  match p with
  | PBox => bool_decide (is_Some (rm_running (an_box (tn_node n))))
  | PIface i => ki_active (ifaceOf (tn_node n) i)
  | POld => bool_decide (is_Some (ov_running (tn_old n)))
  end.

(** The old VPN comes up with a configuration, or without one. *)
Class OldUp := oldComesUp : option string -> bool.

(** The text of a configuration. *)
Inductive TakenConfig := CfgInbounds (c : SingBoxConfig) | CfgOverlay (tun : TUNInbound) (outs : list Outbound) (route : RoutingSection).
Class ConfigText := configText : TakenConfig -> string.

(** ** The outcomes *)

(** Two commands joined by [&&]: not run; only the first run; both run, an error
    seen; done. *)
Inductive PairOutcome := PairNotRun | PairFirst | PairLost | PairDone.
Definition pairEffect {A} (o : PairOutcome) (f g : A -> A) (a : A) : bool * A :=
  match o with PairNotRun => (true, a) | PairFirst => (true, f a) | PairLost => (true, g (f a)) | PairDone => (false, g (f a)) end.

Record TakeFaults := mkTakeFaults {
  tf_connect : bool;              (* the node cannot be reached *)
  tf_backup : BackupOutcome;
  tf_install : InstallFaults;
  tf_disable : PairOutcome;
  tf_push : DeployFaults;
  tf_restore : CmdOutcome;
  tf_enable : PairOutcome;
  tf_start : CmdOutcome;          (* of a unit that was not enabled *)
  tf_probe : list bool }.

(** [TakeoverResult]; [tr_Error] is whether an error is returned with it. *)
Record TakeoverResult := mkTakeoverResult { tr_Status : string; tr_Converted : Z; tr_RollbackOccurred : bool; tr_Error : bool }.

Section takeover.
Context {NE : NodeEnv} {AQ : AwgQuick} {AU : AwgUp} {OU : OldUp} {CT : ConfigText} {CH : ConfigHasher}.

(** [systemctl start]: nothing happens to a unit that runs. *)
Definition startOld (o : OldVPN) : OldVPN := o <| ov_running := if oldComesUp (ov_config o) then Some (default "" (ov_config o)) else None |>.
Definition startUnit (p : Place) (n : TakenNode) : TakenNode :=
  if activeAt p n then n
  else match p with PBox => onBox restartService n | PIface i => onIface i startIface n | POld => onOld startOld n end.
Definition stopUnit (p : Place) (n : TakenNode) : TakenNode :=
  match p with PBox => onBox (fun r => r <| rm_running := None |>) n | PIface i => onIface i stopIface n | POld => onOld (fun o => o <| ov_running := None |>) n end.
Definition setEnabled (b : bool) (p : Place) (n : TakenNode) : TakenNode :=
  match p with PBox => n <| tn_boxEnabled := b |> | PIface _ => n | POld => onOld (fun o => o <| ov_enabled := b |>) n end.

(** ** takeover_helpers.go *)

(** [CreateBackup]: whether its path is returned. *)
Definition CreateBackup (o : BackupOutcome) (path : string) (n : TakenNode) : bool * TakenNode :=
  let n' := n <| tn_saved := fileAt (placeOfPath path) n |> in
  match o with BackupNotRun => (false, n) | BackupNoPath => (false, n') | BackupDone => (true, n') end.

(** [DisableService], [EnableService], [RestoreFile]; [true]: an error. *)
Definition DisableService (o : PairOutcome) (unit : string) : TakenNode -> bool * TakenNode :=
  pairEffect o (stopUnit (placeOfUnit unit)) (setEnabled false (placeOfUnit unit)).
Definition EnableService (o : PairOutcome) (unit : string) : TakenNode -> bool * TakenNode :=
  pairEffect o (setEnabled true (placeOfUnit unit)) (startUnit (placeOfUnit unit)).
Definition RestoreFile (o : CmdOutcome) (path : string) (n : TakenNode) : bool * TakenNode :=
  match tn_saved n with
  | None => (true, n)
  | Some text =>
      match o with
      | CmdOK => (false, writeFile (placeOfPath path) text n)
      | CmdFailed applied => (true, if applied then writeFile (placeOfPath path) text n else n)
      end
  end.

(** [ProbeServiceUp]. *)
Definition ProbeServiceUp (replies : list bool) (unit : string) (n : TakenNode) : bool :=
  activeAt (placeOfUnit unit) n && existsb (fun arrives => arrives) (take 3 replies).

(** ** The installation *)

(** [deployOptsAndClient] ([BoxInstall]) on the sing-box side of the node; [true]:
    an error. *)
Definition deployBox (f : InstallFaults) (useSudo : bool) (n : TakenNode) : bool * TakenNode :=
  let '(failed, enabled, box) := installBox f useSudo (an_box (tn_node n)) in
  let n := onBox (fun _ => box) n in
  (failed, if enabled then setEnabled true PBox n else n).

(** ** The way back *)

(** [rollbackToOldVPN]; [true]: an error. *)
Definition rollbackToOldVPN (T : TakeFaults) (unit : string) (state : TakeoverState) (n : TakenNode) : bool * TakenNode :=
  if unit == "" then (true, n)
  else
    let '(failed, n) :=
      if (TakeoverState_OldConfigBackup state != "") && (TakeoverState_OldConfigPath state != "")
      then RestoreFile (tf_restore T) (TakeoverState_OldConfigPath state) n else (false, n) in
    if failed then (true, n)
    else
      let '(failed, n) :=
        if TakeoverState_OldEnabled state then EnableService (tf_enable T) unit n
        else (false, cmdEffect (tf_start T) (startUnit (placeOfUnit unit)) n) in
      if failed then (true, n) else (negb (ProbeServiceUp (tf_probe T) unit n), n).

(** ** The configuration of an AWG server *)

(** [renderAWGTakeoverConfig]; [None]: no server, which is not used. *)
Definition awgOverlay : TakenConfig :=
  let '(tun, outs, rules) := BuildAWGTUNOverlay (mkAWGTUNOverlayParams ["awg0"] [] "" "direct" "" None) in
  CfgOverlay tun outs (mkRoutingSection rules [] "direct" true "").
Definition renderAWGTakeoverConfig (server : option AwgServerConfig) : option TakenConfig :=
  match server with None => None | Some _ => Some awgOverlay end.

(** ** [Takeover] *)

Context (now : Time) (jsonError : string -> string) (machine : TakenNode -> string -> option string) (fresh : Z -> Fresh) (preset : ConnectionPreset).
Context (host : Host) (useSudo : bool) (backupPath : string).

(** [NodeInfoForTakeover]. *)
Definition NodeInfoForTakeover (w : World) : NodeInfo :=
  (match GetNodeInfo (Host_ID host) w with Ok info => info | Err _ => zeroNodeInfo end) <| NodeInfo_Host := host |>.

Definition withTakeover (f : TakeoverState -> TakeoverState) (info : NodeInfo) : NodeInfo :=
  info <| NodeInfo_Takeover := option_map f (NodeInfo_Takeover info) |>.
Definition saved (info : NodeInfo) (w : World) : World := snd (SaveNodeInfo info w).
Definition takeoverStateOf (info : NodeInfo) : TakeoverState := default zeroTakeoverState (NodeInfo_Takeover info).

(** The record after step 1. *)
Definition convertingInfo (det : Detection) (ibs : list NodeInbound) (converted : Z) (w : World) : NodeInfo :=
  (NodeInfoForTakeover w) <| NodeInfo_UseSudo := useSudo |> <| NodeInfo_Inbounds := ibs |>
    <| NodeInfo_Takeover := Some (mkTakeoverState (det_Type det) (det_ServiceName det) (det_ConfigPath det) "" "" (det_IsEnabled det) converted zeroTime
                                    "converting" []) |>.

(** Step 5 of an AWG server: what is pushed, and the record; [None]: an error. *)
Definition takenAwgInbound (sc : AwgServerConfig) (ids : list string) : NodeInbound :=
  zeroNodeInbound <| NodeInbound_Protocol := "awg" |> <| NodeInbound_Port := asc_ListenPort sc |>
    <| NodeInbound_Tag := "takeover-awg-" +:+ Host_ID host |> <| NodeInbound_ServerPrivKey := asc_PrivateKey sc |>
    <| NodeInbound_ForUsers := ids |> <| NodeInbound_AWGServerAddress := asc_Address sc |> <| NodeInbound_Source := "takeover" |>.
Definition prepareAWG (res : ImportResult) (info : NodeInfo) (w : World)
    : option (TakenConfig * list AWGConfFile) * NodeInfo * World :=
  match ir_ServerConfig res with
  | None => (None, info, w)
  | Some sc =>
      let '(info, w) :=
        match ir_Peers res with
        | [] => (info, w)
        | peers =>
            match MaterializeAWGPeersAsUsers now (Host_ID host) peers "" w with
            | (Ok (id :: ids'), w) =>
                let ids := id :: ids' in
                ((withTakeover (fun t => t <| TakeoverState_SynthesizedUserIDs := ids |>) info)
                   <| NodeInfo_Inbounds := NodeInfo_Inbounds info ++ [takenAwgInbound sc ids] |>, w)
            | (_, w) => (info, w)
            end
        end in
      match renderAWGTakeoverConfig (Some sc) with
      | None => (None, info, w)
      | Some cfg =>
          let all := match ListUsers w with Ok us => us | Err _ => [] end in
          (Some (cfg, [RenderTakeoverAWGConf sc (synthUsers (TakeoverState_SynthesizedUserIDs (takeoverStateOf info)) all)]), info, w)
      end
  end.

(** Steps 7 and 8, and the way back; [None] is a panic of the AWG push. *)
Definition finish (T : TakeFaults) (det : Detection) (converted : Z) (cfg : string) (files : list AWGConfFile) (stop : list string) (info : NodeInfo)
    (w : World) (n : TakenNode) : option (TakeoverResult * World * TakenNode * list string) :=
  let '(r, an) := pushConfigWithAWGTeardown (tf_push T) cfg files [] (tn_node n) in
  let n := n <| tn_node := an |> in
  match r with
  | AwgPanic => None
  | BoxPushed Success =>
      let w := recordDeploySuccess now (Host_ID host) cfg w in
      let info := withTakeover (fun t => t <| TakeoverState_Status := "taken" |> <| TakeoverState_ConvertedAt := now |>) info in
      Some (mkTakeoverResult "taken" converted false false, saved info w, n, StopImportSources useSudo stop)
  | _ =>
      let ids := TakeoverState_SynthesizedUserIDs (takeoverStateOf info) in
      let w := DeleteSynthesizedAWGUsers ids w in
      let info := withTakeover (fun t => t <| TakeoverState_SynthesizedUserIDs := [] |>) info in
      let '(failed, n) := rollbackToOldVPN T (det_ServiceName det) (takeoverStateOf info) n in
      let status := if failed then "failed-both" else "rolled-back" in
      Some (mkTakeoverResult status converted true true,
            saved (withTakeover (fun t => t <| TakeoverState_Status := status |>) info) w, n, [])
  end.

Definition gaveUp (status : string) (error : bool) : TakeoverResult := mkTakeoverResult status 0 false error.

(** Steps 5 to 8, after the installation. *)
Definition cutover (T : TakeFaults) (det : Detection) (ibs : list NodeInbound) (extra : list Json) (info : NodeInfo) (w : World) (n : TakenNode)
    : option (TakeoverResult * World * TakenNode * list string) :=
  let converted := Z.of_nat (length ibs + length extra) in
  if det_Type det == DetectedAWG then
    let res := snd (importAWGConfigsViaClient (machine n) useSudo None) in
    match prepareAWG res info w with
    | (None, _, w) => Some (gaveUp "rolled-back" true, w, n, [])
    | (Some (cfg, files), info, w) => finish T det converted (configText cfg) files (ir_StopTargets res) info w n
    end
  else
    let cfg := configText (CfgInbounds (renderTakeoverConfig fresh preset ibs extra)) in
    let '(failed, n) := if det_ServiceName det != "" then DisableService (tf_disable T) (det_ServiceName det) n else (false, n) in
    if failed then Some (mkTakeoverResult "rolled-back" converted false true, w, n, [])
    else finish T det converted cfg [] [] info w n.

(** [Takeover]: the result, the store, the node and the commands that stop the
    sources of the import. *)
Definition Takeover (T : TakeFaults) (det : Detection) (w : World) (n : TakenNode) : option (TakeoverResult * World * TakenNode * list string) :=
  if det_Type det == DetectedNone then Some (gaveUp "nothing" false, w, n, [])
  else
    match Convert jsonError (det_Type det) (det_ConfigContent det) with
    | inl msg => Some (if isNothingToConvert msg then gaveUp "nothing" false else gaveUp "failed" true, w, n, [])
    | inr (ibs, extra) =>
        let info := convertingInfo det ibs (Z.of_nat (length ibs + length extra)) w in
        match SaveNodeInfo info w with
        | (Err _, w) => Some (gaveUp "" true, w, n, [])
        | (Ok _, w) =>
            if tf_connect T then Some (gaveUp "" true, w, n, [])
            else
              let '(hasPath, n) := if det_ConfigPath det != "" then CreateBackup (tf_backup T) (det_ConfigPath det) n else (false, n) in
              let info := if hasPath then withTakeover (fun t => t <| TakeoverState_OldConfigBackup := backupPath |>) info else info in
              let w := if hasPath then saved info w else w in
              let '(failed, n) := deployBox (tf_install T) useSudo n in
              if failed then Some (gaveUp "rolled-back" true, w, n, [])
              else cutover T det ibs extra info w n
        end
    end.
End takeover.

(** ** Lemmas: the sing-box side leaves the old VPN alone *)

Section old_vpn.
Context {NE : NodeEnv} {AQ : AwgQuick} {AU : AwgUp} {OU : OldUp} {CT : ConfigText} {CH : ConfigHasher}.

Lemma deployBox_old f useSudo n : tn_old (snd (deployBox f useSudo n)) = tn_old n /\ tn_saved (snd (deployBox f useSudo n)) = tn_saved n.
Proof.
  unfold deployBox. by destruct (installBox _ _ _) as [[failed []] box].
Qed.

Lemma CreateBackup_old o path n : placeOfPath path = POld ->
  tn_old (snd (CreateBackup o path n)) = tn_old n /\
  (fst (CreateBackup o path n) = true -> tn_saved (snd (CreateBackup o path n)) = ov_config (tn_old n)).
Proof. intros Hp. unfold CreateBackup. rewrite Hp. by destruct o. Qed.

(** The commands of the way back reach the node; the old VPN comes up. *)
Record WayBack (T : TakeFaults) : Prop := {
  wb_restore : tf_restore T = CmdOK;
  wb_enable : tf_enable T = PairDone;
  wb_start : tf_start T = CmdOK;
  wb_probe : existsb (fun arrives => arrives) (take 3 (tf_probe T)) = true }.
Record Returns (T : TakeFaults) (c : string) : Prop := { ret_up : oldComesUp (Some c) = true; ret_way : WayBack T }.

Definition oldOf (c : string) (running enabled : bool) : OldVPN := mkOldVPN (if running then Some c else None) enabled (Some c).

Lemma rollback_returns T unit state n c (r e : bool) : Returns T c -> unit <> "" -> placeOfUnit unit = POld ->
  (TakeoverState_OldConfigPath state <> "" -> TakeoverState_OldConfigBackup state <> "" ->
     placeOfPath (TakeoverState_OldConfigPath state) = POld /\ tn_saved n = Some c) ->
  tn_old n = oldOf c r e -> (e = true -> TakeoverState_OldEnabled state = true) ->
  fst (rollbackToOldVPN T unit state n) = false /\ tn_old (snd (rollbackToOldVPN T unit state n)) = oldOf c true (TakeoverState_OldEnabled state).
Proof.
  intros [Hup [Hres Hen Hst Hpr]] Hu Hpl Hs Ho He. unfold rollbackToOldVPN. rewrite (bool_decide_eq_false_2 _ Hu).
  set (step := if _ && _ then _ else (false, n)).
  assert (fst step = false /\ tn_old (snd step) = oldOf c r e) as [H1 H2].
  { unfold step. destruct (bool_decide_reflect (TakeoverState_OldConfigBackup state = "")) as [|Hb]; [done|].
    destruct (bool_decide_reflect (TakeoverState_OldConfigPath state = "")) as [|Hp]; [done|]. cbn [negb andb].
    destruct (Hs Hp Hb) as [Hpp Hsv]. unfold RestoreFile. rewrite Hsv, Hres, Hpp. cbn. by rewrite Ho. }
  destruct step as [failed n1]. cbn [fst snd] in H1, H2. rewrite H1. unfold EnableService, ProbeServiceUp. rewrite Hen, Hst, Hpl, Hpr. cbn [pairEffect cmdEffect].
  assert (forall m b, tn_old m = oldOf c r b -> tn_old (startUnit POld m) = oldOf c true b /\ activeAt POld (startUnit POld m) = true) as Hstart.
  { intros m b Hm. unfold startUnit, activeAt. rewrite Hm. destruct r; cbn.
    - by rewrite Hm.
    - unfold startOld. rewrite Hm. cbn. by rewrite Hup. }
  destruct (TakeoverState_OldEnabled state) eqn:Een.
  - destruct (Hstart (setEnabled true POld n1) true) as [E1 E2]; [cbn; by rewrite H2|]. rewrite E2. done.
  - assert (e = false) as -> by (destruct e; [by rewrite He|done]). destruct (Hstart n1 false H2) as [E1 E2]. rewrite E2. done.
Qed.

(** A VPN that is neither sing-box nor a kernel interface, as it was detected: it
    runs the configuration on disk. *)
Record ForeignVPN (det : Detection) (n : TakenNode) (c : string) : Prop := {
  fv_type : det_Type det <> DetectedAWG;
  fv_unit : det_ServiceName det <> "" /\ placeOfUnit (det_ServiceName det) = POld;
  fv_path : det_ConfigPath det <> "" -> placeOfPath (det_ConfigPath det) = POld;
  fv_old : tn_old n = oldOf c true (det_IsEnabled det) }.

Context (now : Time) (jsonError : string -> string) (machine : TakenNode -> string -> option string) (fresh : Z -> Fresh) (preset : ConnectionPreset).
Context (host : Host) (useSudo : bool) (backupPath : string).

(** The push of a configuration alone. *)
Lemma push_alone D cfg n : exists r box, pushConfigWithAWGTeardown D cfg [] [] n = (BoxPushed r, n <| an_box := box |>) /\
  (r = Success -> runs cfg (n <| an_box := box |>)).
Proof.
  unfold pushConfigWithAWGTeardown. destruct (pushConfigLocked (df_box D) cfg (an_box n)) as [r box] eqn:E. exists r, box. split; [done|].
  intros ->. by apply push_Success in E.
Qed.

(** The ends of a take-over of a foreign VPN: taken, given up, or stopped halfway. *)
Definition taken (cfg c : string) (res : TakeoverResult) (n' : TakenNode) : Prop :=
  tr_Status res = "taken" /\ runs cfg (tn_node n') /\ tn_old n' = oldOf c false false.
Definition keptOld (n : TakenNode) (res : TakeoverResult) (n' : TakenNode) : Prop :=
  tr_Status res <> "taken" /\ tr_Status res <> "failed-both" /\ tn_old n' = tn_old n.
Definition leftStopped (T : TakeFaults) (c : string) (res : TakeoverResult) (n' : TakenNode) : Prop :=
  tr_Status res = "rolled-back" /\ tr_RollbackOccurred res = false /\ (tf_disable T = PairFirst \/ tf_disable T = PairLost) /\
  exists enabled, tn_old n' = oldOf c false enabled.

Lemma finish_foreign T det converted cfg stop info w n c : Returns T c -> det_ServiceName det <> "" -> placeOfUnit (det_ServiceName det) = POld ->
  (TakeoverState_OldConfigPath (takeoverStateOf info) <> "" -> TakeoverState_OldConfigBackup (takeoverStateOf info) <> "" ->
     placeOfPath (TakeoverState_OldConfigPath (takeoverStateOf info)) = POld /\ tn_saved n = Some c) ->
  tn_old n = oldOf c false false ->
  exists res w' n' stop', finish now host useSudo T det converted cfg [] stop info w n = Some (res, w', n', stop') /\
    (taken cfg c res n' \/
     (tr_Status res = "rolled-back" /\ tn_old n' = oldOf c true (TakeoverState_OldEnabled (takeoverStateOf info)))).
Proof.
  intros HR Hu Hp Hs Ho. unfold finish. destruct (push_alone (tf_push T) cfg (tn_node n)) as (r & box & -> & Hr).
  set (n1 := n <| tn_node := _ |>).
  assert (r = Success \/ r <> Success) as [->|Hne] by (destruct r; (by left) || by right).
  { do 4 eexists. split; [reflexivity|]. left. split; [done|]. split; [by apply Hr|exact Ho]. }
  set (ids := TakeoverState_SynthesizedUserIDs (takeoverStateOf info)). set (info1 := withTakeover (fun t => t <| TakeoverState_SynthesizedUserIDs := [] |>) info).
  destruct (rollback_returns T (det_ServiceName det) (takeoverStateOf info1) n1 c false false HR Hu Hp) as [R1 R2].
  - unfold info1, withTakeover, takeoverStateOf in *. destruct info; cbn in *. destruct NodeInfo_Takeover; exact Hs.
  - exact Ho.
  - done.
  - assert (TakeoverState_OldEnabled (takeoverStateOf info1) = TakeoverState_OldEnabled (takeoverStateOf info)) as E
      by (unfold info1, withTakeover, takeoverStateOf; destruct info; by destruct NodeInfo_Takeover).
    destruct (rollbackToOldVPN T _ (takeoverStateOf info1) n1) as [failed n2] eqn:Erb. cbn [fst snd] in R1, R2. rewrite R1, E in *.
    destruct r; [done|..]; (do 4 eexists; split; [reflexivity|right; by split]).
Qed.

(** The state of the record when the push begins. *)
Lemma converting_state det ibs z w (b : bool) :
  let info := convertingInfo host useSudo det ibs z w in
  let info := if b then withTakeover (fun t => t <| TakeoverState_OldConfigBackup := backupPath |>) info else info in
  takeoverStateOf info = mkTakeoverState (det_Type det) (det_ServiceName det) (det_ConfigPath det) (if b then backupPath else "") "" (det_IsEnabled det) z zeroTime
    "converting" [].
Proof. unfold convertingInfo, takeoverStateOf, withTakeover. by destruct (NodeInfoForTakeover host w), b. Qed.

(** C4: Taking over an Xray or MTProxy server ends with the new configuration or
    with the old server.  For any detection of a VPN other than AWG that runs
    as a unit of its own, any store, and any outcomes of the connection, the
    backup, the installation, the stop and the push, when the old VPN comes up with
    its configuration and the commands of the way back reach the node: the
    take-over returns a result, and either it is "taken", sing-box runs the
    configuration rendered from what was converted, which is on disk, and the old VPN is
    stopped and disabled with its configuration in place; or the old VPN is as it was,
    running and enabled as before, and the result is neither "taken" nor
    "failed-both"; or the command that stops and disables it failed after it had stopped
    it.  When nothing was detected or nothing can be converted, store and node are
    unchanged. *)
Theorem takeover_or_old_vpn T det w n c : Returns T c -> ForeignVPN det n c ->
  exists res w' n' stop,
    Takeover now jsonError machine fresh preset host useSudo backupPath T det w n = Some (res, w', n', stop) /\
    (keptOld n res n' \/ leftStopped T c res n' \/
     exists ibs extra, Convert jsonError (det_Type det) (det_ConfigContent det) = inr (ibs, extra) /\
       taken (configText (CfgInbounds (renderTakeoverConfig fresh preset ibs extra))) c res n') /\
    (tr_Status res = "nothing" \/ tr_Status res = "failed" -> w' = w /\ n' = n).
Proof.
  intros HR [Hty [Hu Hp] Hpa Ho]. unfold Takeover. destruct (bool_decide_reflect (det_Type det = DetectedNone)) as [|_].
  { do 4 eexists. split; [reflexivity|]. split; [by left|done]. }
  destruct (Convert jsonError _ _) as [msg|[ibs extra]] eqn:Ec.
  { do 4 eexists. split; [reflexivity|]. split; [left; by destruct (isNothingToConvert msg)|done]. }
  cbv zeta. set (z := Z.of_nat _). destruct (SaveNodeInfo _ w) as [[[]|e] w1].
  2: { do 4 eexists. split; [reflexivity|]. split; [by left|by intros []]. }
  destruct (tf_connect T). { do 4 eexists. split; [reflexivity|]. split; [by left|by intros []]. }
  set (bk := if det_ConfigPath det != "" then _ else (false, n)).
  assert (tn_old (snd bk) = tn_old n /\ (fst bk = true -> det_ConfigPath det <> "" -> tn_saved (snd bk) = Some c)) as [B1 B2].
  { unfold bk. destruct (bool_decide_reflect (det_ConfigPath det = "")) as [|Hne]; [done|]. cbn [negb].
    destruct (CreateBackup_old (tf_backup T) (det_ConfigPath det) n (Hpa Hne)) as [E1 E2]. split; [done|]. intros Hb _. by rewrite E2, Ho. }
  destruct bk as [hasPath n1]. cbn [fst snd] in B1, B2.
  destruct (deployBox_old (tf_install T) useSudo n1) as [D1 D2]. destruct (deployBox _ _ n1) as [failed n2]. cbn [fst snd] in D1, D2.
  destruct failed. { do 4 eexists. split; [reflexivity|]. split; [left; split_and!; try done; by rewrite D1|by intros []]. }
  pose proof (converting_state det ibs z w hasPath) as Hst. cbv zeta in Hst. set (info := if hasPath then _ else _) in Hst |- *.
  unfold cutover. rewrite (bool_decide_eq_false_2 _ Hty), (bool_decide_eq_false_2 _ Hu). cbn [negb]. unfold DisableService. rewrite Hp.
  assert (tn_old n2 = oldOf c true (det_IsEnabled det)) as Ho2 by (by rewrite D1, B1).
  destruct (tf_disable T) eqn:Ed; cbn [pairEffect].
  - do 4 eexists. split; [reflexivity|]. split; [left; split_and!; try done; by rewrite Ho2|by intros []].
  - do 4 eexists. split; [reflexivity|]. split; [right; left|by intros []]. split_and!; try done; [by left|]. exists (det_IsEnabled det). cbn. by rewrite Ho2.
  - do 4 eexists. split; [reflexivity|]. split; [right; left|by intros []]. split_and!; try done; [by right|]. exists false. cbn. by rewrite Ho2.
  - set (n3 := setEnabled _ _ _).
    destruct (finish_foreign T det (Z.of_nat (length ibs + length extra)) (configText (CfgInbounds (renderTakeoverConfig fresh preset ibs extra))) [] info
      (if hasPath then saved info w1 else w1) n3 c HR Hu Hp) as (res & w' & n' & stop & E & Hr).
    + rewrite Hst. cbn. intros Hcp Hb. split; [by apply Hpa|]. destruct hasPath; [|done]. change (tn_saved n3) with (tn_saved n2). rewrite D2. by apply B2.
    + unfold n3. cbn. by rewrite Ho2.
    + exists res, w', n', stop. split; [exact E|]. destruct Hr as [Ht|[Hs Hold]].
      * split; [right; right; by exists ibs, extra|]. destruct Ht as [-> _]. by intros [].
      * split; [left; split_and!; [by rewrite Hs|by rewrite Hs|]|rewrite Hs; by intros []]. by rewrite Hold, Hst, Ho.
Qed.
End old_vpn.

(** ** Lemmas: the store *)

(** A store that can be written, and its users. *)
Definition storeHolds (w : World) (us : list User) : Prop := writable w /\ exists sf, base w = Some sf /\ sf_Users sf = us.

Lemma saved_holds info w us : storeHolds w us ->
  fst (SaveNodeInfo info w) = Ok tt /\ storeHolds (saved info w) us /\ GetNodeInfo (Host_ID (NodeInfo_Host info)) (saved info w) = Ok info.
Proof.
  intros [Hw (sf & Hb & Hu)]. unfold saved, SaveNodeInfo.
  destruct (modifyStore_writable (readOrNew w) (fun sf => Ok (tt, sf <| sf_NodeInfos := upsert info (sf_NodeInfos sf) |>)) w sf _ _ Hw (proj1 (base_opens _ _ Hb)) eq_refl) as [w' Hm].
  rewrite Hm. cbn [fst snd]. destruct (modifyStore_Ok _ _ _ _ _ Hm) as (s & s' & Ho & Hf & Hr & Hk & Hfa & _).
  rewrite (proj1 (base_opens _ _ Hb)) in Ho. injection Ho as <-. injection Hf as <-. split; [done|]. split; [split|].
  - unfold writable in *. by rewrite Hk, Hfa.
  - eexists. unfold base. rewrite Hr. split; [reflexivity|]. by destruct sf.
  - unfold GetNodeInfo, readAny. rewrite Hr. cbn -[find_key upsert]. change (Host_ID (NodeInfo_Host info)) with (key_of info). by rewrite find_upsert_eq.
Qed.

Lemma recorded_holds `{ConfigHasher} now id cfg w us : storeHolds w us -> storeHolds (recordDeploySuccess now id cfg w) us.
Proof. intros Hh. unfold recordDeploySuccess. destruct (id == ""); [done|]. cbv zeta. by apply saved_holds. Qed.

(** Deleting users that were made. *)
Lemma DeleteUser_holds id w us : storeHolds w us -> storeHolds (snd (DeleteUser id w)) (List.filter (fun u => User_ID u != id) us).
Proof.
  intros [Hw (sf & Hb & Hu)]. unfold DeleteUser.
  assert (has_key id us = false -> List.filter (fun u => User_ID u != id) us = us) as Habs by (intros H; exact (remove_key_absent id us H)).
  destruct (base_opens _ _ Hb) as [_ [Hr|[Hr ->]]]; unfold readAny; rewrite Hr.
  - destruct (has_key id us) eqn:Hk.
    + destruct (modifyStore_writable (Ok sf) (fun sf => if negb (has_key id (sf_Users sf)) then Err (EUserNotFound id)
        else Ok (tt, sf <| sf_Users := remove_key id (sf_Users sf) |>)) w sf tt (sf <| sf_Users := remove_key id (sf_Users sf) |>) Hw eq_refl) as [w' Hm];
        [by rewrite Hu, Hk|]. rewrite Hm. cbn [snd].
      destruct (modifyStore_Ok _ _ _ _ _ Hm) as (s & s' & Ho & Hf & Hr' & Hk' & Hfa & _). injection Ho as <-. rewrite Hu, Hk in Hf. injection Hf as <-.
      split; [unfold writable in *; by rewrite Hk', Hfa|]. eexists. unfold base. rewrite Hr'. split; [reflexivity|]. unfold bump. by rewrite <- Hu.
    + unfold modifyStore. rewrite Hu, Hk. cbn [negb snd]. rewrite Habs by done. split; [done|]. by exists sf.
  - cbn [modifyStore snd]. subst us. split; [done|]. by exists newStoreFile.
Qed.

Lemma filter_filter {A} (f g : A -> bool) l : List.filter f (List.filter g l) = List.filter (fun x => g x && f x) l.
Proof.
  induction l as [|x l IH]; [done|]. cbn [List.filter]. destruct (g x) eqn:Eg; cbn [List.filter andb]; [|done]. destruct (f x); by rewrite IH.
Qed.

Lemma Delete_holds ids : Forall (fun id => id <> "") ids -> forall w us, storeHolds w us ->
  storeHolds (DeleteSynthesizedAWGUsers ids w) (List.filter (fun u => forallb (fun id => User_ID u != id) ids) us).
Proof.
  unfold DeleteSynthesizedAWGUsers. induction 1 as [|id ids Hid _ IH]; intros w us Hh; cbn [fold_left forallb].
  { assert (List.filter (fun _ : User => true) us = us) as ->; [|done]. clear. by induction us as [|u us IH]; [|cbn; rewrite IH]. }
  rewrite (bool_decide_eq_false_2 _ Hid). specialize (IH _ _ (DeleteUser_holds id w us Hh)). by rewrite filter_filter in IH.
Qed.

Lemma Materialize_holds now nodeID peers w us : storeHolds w us ->
  exists w', MaterializeAWGPeersAsUsers now nodeID peers "" w = (Ok (map (madeID nodeID) (newPeers nodeID us peers)), w') /\
    storeHolds w' (us ++ map (madeUser now nodeID "") (newPeers nodeID us peers)).
Proof.
  intros [Hw (sf & Hb & <-)]. destruct (Materialize_writable now nodeID peers "" w sf Hw Hb) as (w' & rev & Hm & Hw' & Hb').
  exists w'. split; [done|]. split; [done|]. eexists. by split; [exact Hb'|].
Qed.

(** The users made are the ones deleted. *)
Lemma made_deleted now nodeID us peers :
  List.filter (fun u => forallb (fun id => User_ID u != id) (map (madeID nodeID) (newPeers nodeID us peers)))
    (us ++ map (madeUser now nodeID "") (newPeers nodeID us peers)) = us.
Proof.
  set (fresh := newPeers nodeID us peers). rewrite List.filter_app.
  assert (List.filter (fun u => forallb (fun id => User_ID u != id) (map (madeID nodeID) fresh)) us = us) as ->.
  { assert (Forall (fun u => User_ID u ∈ userIDs us) us) as Hf by (apply Forall_forall; intros u Hu; apply elem_of_list_to_set; by apply list_elem_of_fmap_2).
    assert (forall l, Forall (fun u => User_ID u ∈ userIDs us) l -> List.filter (fun u => forallb (fun id => User_ID u != id) (map (madeID nodeID) fresh)) l = l) as H; [|by apply H].
    induction 1 as [|u l Hu _ IH]; [done|]. cbn [List.filter].
    assert (forallb (fun id => User_ID u != id) (map (madeID nodeID) fresh) = true) as ->; [|by rewrite IH].
    apply forallb_forall. intros id (f & <- & Hf')%in_map_iff. apply negb_true_iff, bool_decide_eq_false_2. intros E.
    apply list_elem_of_In, freshPeers_ids in Hf'. by rewrite <- E in Hf'. }
  assert (forall l, Forall (fun f => In f fresh) l ->
    List.filter (fun u => forallb (fun id => User_ID u != id) (map (madeID nodeID) fresh)) (map (madeUser now nodeID "") l) = []) as H.
  { induction 1 as [|f l Hf _ IH]; [done|]. cbn [map List.filter]. rewrite madeUser_id.
    assert (forallb (fun id => madeID nodeID f != id) (map (madeID nodeID) fresh) = false) as ->; [|exact IH].
    apply not_true_iff_false. rewrite forallb_forall. intros H. specialize (H (madeID nodeID f) (in_map _ _ _ Hf)).
    by rewrite (bool_decide_eq_true_2 (_ = _) eq_refl) in H. }
  rewrite H; [by rewrite app_nil_r|]. apply Forall_forall. intros f Hf. by apply list_elem_of_In.
Qed.

(** ** Lemmas: an AWG server *)

Section awg_server.
Context {NE : NodeEnv} {AQ : AwgQuick} {AU : AwgUp} {OU : OldUp} {CT : ConfigText} {CH : ConfigHasher}.

(** The push of one file and a configuration. *)
Lemma push_one D cfg f old n0 res n' : Recoverable D [f] [] old n0 -> pushConfigWithAWGTeardown D cfg [f] [] n0 = (res, n') ->
  match res with
  | AwgPanic => True
  | BoxPushed Success => runs cfg n' /\ ki_file (ifaceOf n' (cf_iface f)) = Some (cf_content f) /\ ki_active (ifaceOf n' (cf_iface f)) = true
  | _ => forall i, ifaceOf n' i = ifaceOf n0 i
  end.
Proof.
  intros [Hp Hb Hw Hr Hf Ht] E. assert (NoDup (ifaces [f])) as Hnd by apply NoDup_singleton.
  assert (res = BoxPushed Success -> runs cfg n') as Hruns by (intros ->; by apply pushTeardown_Success in E).
  unfold pushConfigWithAWGTeardown in E. destruct (pushAWGConfs _ _ _ _) as [fr n1] eqn:Ep.
  pose proof (pushAWGConfs_cases D [f] old n0 Hb Hw Hr Hf fr n1 Hp Hnd Ep) as Hc.
  destruct fr as [records need| |]; [|by injection E as <- <-; destruct Hc|by injection E as <- _].
  destruct Hc as (Hrec & Hbox & Ho & Hrs). cbn [teardownAWGInterfaces] in E.
  pose proof (undo_everything D [f] [] old n0 Hr Hf Ht records n1 [] n1 Hnd (NoDup_nil_2) Hrec Ho) as Hundo.
  specialize (Hundo (fun f hp Hin => match Hrs f hp Hin with conj A (conj B _) => conj A B end) eq_refl).
  destruct (pushConfigLocked _ _ _) as [r box]. specialize (Hundo box).
  assert (r = Success \/ r <> Success) as [->|Hne] by (destruct r; (by left) || by right).
  - injection E as <- <-. split; [by apply Hruns|]. destruct records as [|[f' hp] [|]]; try done. injection Hrec as ->.
    destruct (Hrs f hp ltac:(by left)) as (_ & _ & H1 & H2). by split.
  - destruct Hundo as [_ U]. destruct r; [done|..]; injection E as <- <-; exact U.
Qed.

Lemma Recoverable_ifaces D fs old n n' : Recoverable D fs [] old n -> (forall i, ifaceOf n' i = ifaceOf n i) -> Recoverable D fs [] old n'.
Proof. intros [H1 H2 H3 H4 H5 _] He. split; try done; [intros i Hi; rewrite He; by apply H5|by intros i ?%not_elem_of_nil]. Qed.

Lemma deployBox_ifaces f useSudo n i : ifaceOf (tn_node (snd (deployBox f useSudo n))) i = ifaceOf (tn_node n) i.
Proof.
  unfold deployBox. by destruct (installBox _ _ _) as [[failed []] box].
Qed.

(** The way back of an interface that runs its file: nothing changes. *)
Lemma rollback_running T i unit state n text : WayBack T -> unit <> "" -> placeOfUnit unit = PIface i -> ifaceOf (tn_node n) i = running text ->
  (TakeoverState_OldConfigPath state <> "" -> TakeoverState_OldConfigBackup state <> "" ->
     placeOfPath (TakeoverState_OldConfigPath state) = PIface i /\ tn_saved n = Some text) ->
  fst (rollbackToOldVPN T unit state n) = false /\ forall j, ifaceOf (tn_node (snd (rollbackToOldVPN T unit state n))) j = ifaceOf (tn_node n) j.
Proof.
  intros [Hres Hen Hst Hpr] Hu Hpl Hi Hs. unfold rollbackToOldVPN. rewrite (bool_decide_eq_false_2 _ Hu).
  set (step := if _ && _ then _ else (false, n)).
  assert (fst step = false /\ forall j, ifaceOf (tn_node (snd step)) j = ifaceOf (tn_node n) j) as [H1 H2].
  { unfold step. destruct (bool_decide_reflect (TakeoverState_OldConfigBackup state = "")) as [|Hb]; [done|].
    destruct (bool_decide_reflect (TakeoverState_OldConfigPath state = "")) as [|Hp]; [done|]. cbn [negb andb].
    destruct (Hs Hp Hb) as [Hpp Hsv]. unfold RestoreFile. rewrite Hsv, Hres, Hpp. split; [done|]. intros j. cbn [snd writeFile onIface].
    change (ifaceOf (setIface i ((ifaceOf (tn_node n) i) <| ki_file := Some text |>) (tn_node n)) j = ifaceOf (tn_node n) j).
    rewrite ifaceOf_set. case_decide as Ej; [subst j|done]. by rewrite Hi. }
  destruct step as [failed n1]. cbn [fst snd] in H1, H2. rewrite H1. unfold EnableService, ProbeServiceUp. rewrite Hen, Hst, Hpl, Hpr. cbn [pairEffect cmdEffect setEnabled].
  assert (activeAt (PIface i) n1 = true) as Ha by (cbn; by rewrite H2, Hi).
  assert (startUnit (PIface i) n1 = n1) as Hsu by (unfold startUnit; by rewrite Ha).
  destruct (TakeoverState_OldEnabled state); rewrite Hsu, Ha; by split.
Qed.

Context (now : Time) (jsonError : string -> string) (machine : TakenNode -> string -> option string) (fresh : Z -> Fresh) (preset : ConnectionPreset).
Context (host : Host) (useSudo : bool) (backupPath : string).

Lemma prepare_own p res info w us : plainServer p -> filePeers p <> [] -> storeHolds w us -> is_Some (NodeInfo_Takeover info) ->
  ir_ServerConfig res = Some (importedConfig p) -> ir_Peers res = map entryOf (filePeers p) ->
  length (newPeers (Host_ID host) us (map entryOf (filePeers p))) = length (filePeers p) ->
  exists f info' w', let fresh := newPeers (Host_ID host) us (map entryOf (filePeers p)) in let ids := map (madeID (Host_ID host)) fresh in
    prepareAWG now host res info w = (Some (awgOverlay, [f]), info', w') /\ cf_iface f = "awg0" /\ cf_content f = RenderServerAWGConf (takenOver p) /\
    storeHolds w' (us ++ map (madeUser now (Host_ID host) "") fresh) /\ map snd fresh = map entryOf (filePeers p) /\
    info' = (withTakeover (fun t => t <| TakeoverState_SynthesizedUserIDs := ids |>) info)
              <| NodeInfo_Inbounds := NodeInfo_Inbounds info ++ [takenAwgInbound host (importedConfig p) ids] |>.
Proof.
  intros Hp Hn Hh [t Ht] E1 E2 Hlen. set (fr := newPeers _ _ _). set (ids := map (madeID (Host_ID host)) fr).
  assert (map snd fr = map entryOf (filePeers p)) as Hs by (apply freshPeers_all; by rewrite length_map).
  unfold prepareAWG. rewrite E1, E2. destruct (Materialize_holds now (Host_ID host) (map entryOf (filePeers p)) w us Hh) as (w' & Hm & Hh').
  destruct (map entryOf (filePeers p)) as [|e es] eqn:Ee; [by destruct (filePeers p)|]. fold fr in Hm, Hh'. rewrite Hm. fold ids.
  assert (exists id ids', ids = id :: ids') as (id & ids' & Hids).
  { unfold ids. destruct fr as [|x fr']; [|by eexists _, _]. cbn in Hs. by rewrite <- Hs in *. }
  rewrite Hids. change (id :: ids') with ([id] ++ ids'). change ([id] ++ ids') with (id :: ids'). rewrite <- Hids.
  set (info1 := _ <| NodeInfo_Inbounds := _ |>).
  eexists _, info1, w'. split; [reflexivity|]. split; [done|]. split; [|split; [exact Hh'|by split]].
  assert (TakeoverState_SynthesizedUserIDs (takeoverStateOf info1) = ids) as -> by (unfold info1, takeoverStateOf, withTakeover; destruct info; cbn in Ht |- *; by rewrite Ht).
  assert ((match ListUsers w' with Ok us0 => us0 | Err _ => [] end) = us ++ map (madeUser now (Host_ID host) "") fr) as ->.
  { destruct Hh' as [_ (sf & Hb & Hu)]. unfold ListUsers, listStore. rewrite <- Hu. destruct (base_opens _ _ Hb) as [_ [-> |[-> ->]]]; done. }
  unfold ids, fr. rewrite synthUsers_made. apply takeover_conf; [done|]. fold fr. by rewrite Hs.
Qed.
(** The detection of the kernel interface awg0, and a node that runs the server
    of [p] on it: what it prints is its file, as long as the file is there. *)
Record RunsAWG (det : Detection) (n : TakenNode) (p : AWGServerConfParams) : Prop := {
  ra_type : det_Type det = DetectedAWG;
  ra_unit : det_ServiceName det = "awg-quick@awg0";
  ra_path : det_ConfigPath det <> "" -> det_ConfigPath det = "/etc/amnezia/amneziawg/awg0.conf";
  ra_iface : ifaceOf (tn_node n) "awg0" = running (RenderServerAWGConf p);
  ra_machine : forall n', ifaceOf (tn_node n') "awg0" = ifaceOf (tn_node n) "awg0" -> runsServer (machine n') useSudo p }.

(** What holds of the store once a server is taken: its users, and the record. *)
Definition takenStoreOf (p : AWGServerConfParams) (us : list User) (w' : World) : Prop :=
  exists made, storeHolds w' (us ++ made) /\ map User_AWGPublicKey made = map Peer_PublicKey (filePeers p) /\
    exists info, GetNodeInfo (Host_ID host) w' = Ok info /\ takenAwgInbound host (importedConfig p) (map User_ID made) ∈ NodeInfo_Inbounds info.

(** The push of a prepared server, and the way back. *)
Lemma finish_awg T det converted p f stop info w n us ids : WayBack T -> det_ServiceName det = "awg-quick@awg0" ->
  (TakeoverState_OldConfigPath (takeoverStateOf info) <> "" -> TakeoverState_OldConfigBackup (takeoverStateOf info) <> "" ->
     TakeoverState_OldConfigPath (takeoverStateOf info) = "/etc/amnezia/amneziawg/awg0.conf" /\ tn_saved n = Some (RenderServerAWGConf p)) ->
  ifaceOf (tn_node n) "awg0" = running (RenderServerAWGConf p) -> cf_iface f = "awg0" ->
  Recoverable (tf_push T) [f] [] (fun _ => RenderServerAWGConf p) (tn_node n) ->
  TakeoverState_SynthesizedUserIDs (takeoverStateOf info) = ids -> Host_ID (NodeInfo_Host info) = Host_ID host ->
  (forall w0, storeHolds w0 (us ++ map (madeUser now (Host_ID host) "") (newPeers (Host_ID host) us (map entryOf (filePeers p)))) -> storeHolds (DeleteSynthesizedAWGUsers ids w0) us) ->
  storeHolds w (us ++ map (madeUser now (Host_ID host) "") (newPeers (Host_ID host) us (map entryOf (filePeers p)))) ->
  forall res w' n' stop', finish now host useSudo T det converted (configText awgOverlay) [f] stop info w n = Some (res, w', n', stop') ->
  (tr_Status res = "taken" /\ runs (configText awgOverlay) (tn_node n') /\ ki_file (ifaceOf (tn_node n') "awg0") = Some (cf_content f) /\
     ki_active (ifaceOf (tn_node n') "awg0") = true /\
     storeHolds w' (us ++ map (madeUser now (Host_ID host) "") (newPeers (Host_ID host) us (map entryOf (filePeers p)))) /\
     exists info', GetNodeInfo (Host_ID host) w' = Ok info' /\ NodeInfo_Inbounds info' = NodeInfo_Inbounds info) \/
  (tr_Status res = "rolled-back" /\ (forall i, ifaceOf (tn_node n') i = ifaceOf (tn_node n) i) /\ storeHolds w' us).
Proof.
  intros HW Hu Hs Hi Hf Hrec Hids Hid Hdel Hh res w' n' stop'. unfold finish.
  destruct (pushConfigWithAWGTeardown _ _ _ _ _) as [r an] eqn:Ep. pose proof (push_one _ _ _ _ _ _ _ Hrec Ep) as Hr.
  set (n1 := n <| tn_node := an |>). set (infoT := withTakeover (fun t => t <| TakeoverState_Status := "taken" |> <| TakeoverState_ConvertedAt := now |>) info). set (infoR := withTakeover (fun t => t <| TakeoverState_SynthesizedUserIDs := [] |>) info).
  assert ((forall i, ifaceOf an i = ifaceOf (tn_node n) i) ->
    (let '(failed, n2) := rollbackToOldVPN T (det_ServiceName det) (takeoverStateOf infoR) n1 in
      Some (mkTakeoverResult (if failed then "failed-both" else "rolled-back") converted true true,
        saved (withTakeover (fun t => t <| TakeoverState_Status := if failed then "failed-both" else "rolled-back" |>) infoR) (DeleteSynthesizedAWGUsers ids w), n2, [])) = Some (res, w', n', stop') ->
    tr_Status res = "rolled-back" /\ (forall i, ifaceOf (tn_node n') i = ifaceOf (tn_node n) i) /\ storeHolds w' us) as Hback.
  { intros Hsame. destruct (rollback_running T "awg0" (det_ServiceName det) (takeoverStateOf infoR) n1 (RenderServerAWGConf p) HW) as [R1 R2].
    - by rewrite Hu.
    - by rewrite Hu.
    - change (ifaceOf an "awg0" = running (RenderServerAWGConf p)). by rewrite Hsame.
    - intros H1 H2. assert (TakeoverState_OldConfigPath (takeoverStateOf infoR) = TakeoverState_OldConfigPath (takeoverStateOf info) /\
        TakeoverState_OldConfigBackup (takeoverStateOf infoR) = TakeoverState_OldConfigBackup (takeoverStateOf info)) as [P1 P2]
        by (unfold infoR, withTakeover, takeoverStateOf; destruct info; by destruct NodeInfo_Takeover).
      rewrite P1 in *. rewrite P2 in *. destruct (Hs H1 H2) as [-> Hsv]. by split.
    - destruct (rollbackToOldVPN T _ _ n1) as [failed n2]. cbn [fst snd] in R1, R2. rewrite R1. intros [= <- <- <- _].
      split; [done|]. split; [intros i; rewrite R2; apply Hsame|]. apply saved_holds. by apply Hdel. }
  rewrite Hids. destruct r as [| |r]; [intros E; right; by apply Hback|done|].
  assert (r = Success \/ r <> Success) as [->|Hne] by (destruct r; (by left) || by right).
  - intros [= <- <- <- _]. left. destruct Hr as (H1 & H2 & H3). rewrite Hf in H2, H3. pose proof (recorded_holds now (Host_ID host) (configText awgOverlay) w _ Hh) as Hh2.
    destruct (saved_holds infoT _ _ Hh2) as (_ & S2 & S3). do 2 (split; [done|]). split; [exact H2|]. split; [exact H3|]. split; [exact S2|]. exists infoT. split; [|reflexivity].
    change (NodeInfo_Host infoT) with (NodeInfo_Host info) in S3. by rewrite Hid in S3.
  - destruct r; [done|..]; intros E; right; by apply Hback.
Qed.

(** The ends of a take-over of an AWG server. *)
Definition awgEnd (p : AWGServerConfParams) (us : list User) (n : TakenNode) (res : TakeoverResult) (w' : World) (n' : TakenNode) : Prop :=
  (tr_Status res = "taken" /\ runs (configText awgOverlay) (tn_node n') /\
     ki_file (ifaceOf (tn_node n') "awg0") = Some (RenderServerAWGConf (takenOver p)) /\ ki_active (ifaceOf (tn_node n') "awg0") = true /\
     takenStoreOf p us w') \/
  (tr_Status res <> "taken" /\ tr_Status res <> "failed-both" /\ (forall i, ifaceOf (tn_node n') i = ifaceOf (tn_node n) i) /\ storeHolds w' us).

Lemma cutover_awg T det ibs info w n p us : WayBack T -> det_Type det = DetectedAWG -> det_ServiceName det = "awg-quick@awg0" ->
  plainServer p -> filePeers p <> [] -> storeHolds w us ->
  length (newPeers (Host_ID host) us (map entryOf (filePeers p))) = length (filePeers p) ->
  (forall f, cf_iface f = "awg0" -> Recoverable (tf_push T) [f] [] (fun _ => RenderServerAWGConf p) (tn_node n)) ->
  ifaceOf (tn_node n) "awg0" = running (RenderServerAWGConf p) -> runsServer (machine n) useSudo p ->
  is_Some (NodeInfo_Takeover info) -> Host_ID (NodeInfo_Host info) = Host_ID host ->
  (TakeoverState_OldConfigPath (takeoverStateOf info) <> "" -> TakeoverState_OldConfigBackup (takeoverStateOf info) <> "" ->
     TakeoverState_OldConfigPath (takeoverStateOf info) = "/etc/amnezia/amneziawg/awg0.conf" /\ tn_saved n = Some (RenderServerAWGConf p)) ->
  forall res w' n' stop, cutover now machine fresh preset host useSudo T det ibs [] info w n = Some (res, w', n', stop) -> awgEnd p us n res w' n'.
Proof.
  intros HW Hty Hu Hp Hn Hh Hlen Hrec Hi Hma [t Ht] Hid Hs res w' n' stop. unfold cutover. rewrite Hty. change (DetectedAWG == DetectedAWG) with true. cbv iota zeta.
  destruct (import_server (machine n) useSudo p Hp Hma) as [E1 E2]. specialize (E2 Hn).
  set (ir := snd (importAWGConfigsViaClient _ _ _)) in *.
  destruct (prepare_own p ir info w us Hp Hn Hh ltac:(by exists t) E1 E2 Hlen) as (f & info1 & w1 & H). cbv zeta in H.
  destruct H as (-> & Hf & Hc & Hh1 & Hsnd & Ei). set (fr := newPeers _ _ _) in *. set (ids := map (madeID (Host_ID host)) fr) in *.
  assert (takeoverStateOf info1 = (takeoverStateOf info) <| TakeoverState_SynthesizedUserIDs := ids |>) as Est
    by (rewrite Ei; unfold takeoverStateOf, withTakeover; destruct info; cbn in Ht |- *; by rewrite Ht).
  intros E. eapply (finish_awg T det _ p f (ir_StopTargets ir) info1 w1 n us ids HW Hu) in E; try done.
  - destruct E as [(R1 & R2 & R3 & R4 & R5 & info' & R6 & R7)|(R1 & R2 & R3)]; [left|right; split; [by rewrite R1|]; split; [by rewrite R1|done]].
    split; [done|]. split; [done|]. split; [by rewrite R3, Hc|]. split; [done|]. exists (map (madeUser now (Host_ID host) "") fr). split; [exact R5|]. split.
    + rewrite map_map. erewrite map_ext by (intros x; apply madeUser_key). by rewrite <- (map_map snd), Hsnd, map_map.
    + exists info'. split; [exact R6|]. rewrite R7, Ei, map_map. erewrite map_ext by (intros x; apply madeUser_id). apply elem_of_app. right. by apply list_elem_of_singleton.
  - by rewrite Est.
  - by apply Hrec.
  - by rewrite Est.
  - by rewrite Ei.
  - intros w0 Hw0. assert (Forall (fun id => id <> "") ids) as Hne by (apply Forall_map, Forall_forall; done).
    pose proof (Delete_holds ids Hne w0 _ Hw0) as H. unfold ids, fr in H. by rewrite made_deleted in H.
Qed.

End awg_server.

(** ** Examples *)

Definition cleanTake : TakeFaults :=
  mkTakeFaults false BackupDone (mkInstallFaults false CmdOK (RestartRun false) [true]) PairDone cleanDeploy CmdOK PairDone CmdOK [true].
Definition takenHost : Host := mkHost "n1" "192.0.2.1:22" "root" "key".
Definition takenStore : storeFile :=
  newStoreFile <| sf_NodeInfos := [zeroNodeInfo <| NodeInfo_Host := takenHost |>
    <| NodeInfo_Inbounds := [zeroNodeInbound <| NodeInbound_Protocol := "tuic" |> <| NodeInbound_Port := 8443 |>] |>] |>.
Definition takenWorld : World := mkWorld (Some (Plain takenStore)) None None None [] None.

Definition xrayConfig : string :=
  marshal (JObj [("inbounds", JArr [JObj [("port", JNum "443"); ("protocol", JStr "vmess");
    ("settings", JObj [("clients", JArr [JObj [("id", JStr "uuid-a"); ("email", JStr "a")]])])]])]).
Definition xrayDetection : Detection :=
  noDetection <| det_Type := DetectedXray |> <| det_ServiceName := "xray" |> <| det_IsActive := true |> <| det_IsEnabled := true |>
    <| det_ConfigPath := "/usr/local/etc/xray/config.json" |> <| det_ConfigContent := xrayConfig |>.
Definition bareNode : AwgNode := mkAwgNode ∅ ∅ (mkRemote None None None).
Definition xrayNode : TakenNode := mkTakenNode bareNode false (oldOf xrayConfig true true) None.

(** A take-over on a node whose service takes every configuration but "crash";
    [cfg] is the text of the new configuration. *)
Definition sampleTakeover (cfg : string) : TakeFaults -> Detection -> World -> TakenNode -> option (TakeoverResult * World * TakenNode * list string) :=
  @Takeover sampleEnv sampleQuick sampleUp (fun _ => true) (fun _ => cfg) (fun c => "hash of " +:+ c) 7 (fun _ => "") (fun _ _ => None)
    (fun _ => noFresh) ruPreset takenHost false "backup".

Lemma takeover_or_old_vpn_witness :
  exists res w' n' stop, sampleTakeover "crash" cleanTake xrayDetection takenWorld xrayNode = Some (res, w', n', stop) /\
    tr_Status res = "rolled-back" /\ tn_old n' = tn_old xrayNode.
Proof.
  destruct (@takeover_or_old_vpn sampleEnv sampleQuick sampleUp (fun _ => true) (fun _ => "crash") (fun c => "hash of " +:+ c) 7 (fun _ => "") (fun _ _ => None)
    (fun _ => noFresh) ruPreset takenHost false "backup" cleanTake xrayDetection takenWorld xrayNode xrayConfig) as (res & w' & n' & stop & E & H & _).
  - by repeat split.
  - by split.
  - assert (option_map (fun r => tr_Status (fst (fst (fst r)))) (Some (res, w', n', stop)) = Some "rolled-back") as Hs by (rewrite <- E; vm_compute; reflexivity).
    injection Hs as Hs. exists res, w', n', stop. split; [exact E|]. split; [exact Hs|].
    destruct H as [(_ & _ & Hold)|[(_ & _ & [Hd|Hd] & _)|(ibs & extra & _ & [Ht _])]]; [exact Hold|discriminate Hd|discriminate Hd|by rewrite Hs in Ht].
Defined.

(** What is seen of an end: the status, what sing-box and the old VPN run, and
    whether they are enabled. *)
Definition seen (r : option (TakeoverResult * World * TakenNode * list string)) : option (string * option string * bool * OldVPN) :=
  option_map (fun r => let '(res, _, n, _) := r in (tr_Status res, rm_running (an_box (tn_node n)), tn_boxEnabled n, tn_old n)) r.
Definition recordOf (r : option (TakeoverResult * World * TakenNode * list string)) : option NodeInfo :=
  match r with Some (_, w, _, _) => match GetNodeInfo "n1" w with Ok info => Some info | Err _ => None end | None => None end.

(** The command that stops and disables the old VPN stops it and then fails: the
    result says "rolled-back", and nothing starts it again. *)
Lemma stopped_old_vpn_not_restarted :
  seen (sampleTakeover "new" (mkTakeFaults false BackupDone (tf_install cleanTake) PairFirst cleanDeploy CmdOK PairDone CmdOK [true])
    xrayDetection takenWorld xrayNode) = Some ("rolled-back", Some minimalCfg, true, mkOldVPN None true (Some xrayConfig)).
Proof. vm_compute. reflexivity. Qed.

(** A sing-box server that is taken over. *)
Definition boxConfig : string := marshal (JObj [("inbounds", JArr [vlessForeign])]).
Definition boxDetection : Detection :=
  noDetection <| det_Type := DetectedSingBox |> <| det_ServiceName := "sing-box" |> <| det_IsActive := true |> <| det_IsEnabled := true |>
    <| det_ConfigPath := "/etc/sing-box/config.json" |> <| det_ConfigContent := boxConfig |>.
Definition boxNode : TakenNode := mkTakenNode (mkAwgNode ∅ ∅ (mkRemote (Some boxConfig) None (Some boxConfig))) true (mkOldVPN None false None) None.

(** The installation replaces its configuration before anything is converted; when
    the service then does not come up, the result says "rolled-back" and the
    configuration is not restored. *)
Lemma singbox_lost_by_installation :
  let T := mkTakeFaults false BackupDone (mkInstallFaults false CmdOK (RestartRun false) []) PairDone cleanDeploy CmdOK PairDone CmdOK [true] in
  match sampleTakeover "new" T boxDetection takenWorld boxNode with
  | Some (res, _, n, _) => tr_Status res = "rolled-back" /\ an_box (tn_node n) = mkRemote (Some minimalCfg) None (Some minimalCfg)
  | None => False
  end.
Proof. vm_compute. auto. Qed.

(** After a push that fails, its own rollback has started the empty configuration;
    the old one is copied back, and starting a unit that runs does nothing: the
    result says that the old VPN is restored and active. *)
Lemma singbox_rolled_back_empty :
  match sampleTakeover "crash" cleanTake boxDetection takenWorld boxNode with
  | Some (res, _, n, _) => tr_Status res = "rolled-back" /\ rm_config (an_box (tn_node n)) = Some boxConfig /\ rm_running (an_box (tn_node n)) = Some minimalCfg
  | None => False
  end.
Proof. vm_compute. auto. Qed.

(** A sing-box server that was taken over does not start at boot. *)
Lemma singbox_taken_disabled :
  seen (sampleTakeover "new" cleanTake boxDetection takenWorld boxNode) = Some ("taken", Some "new", false, tn_old boxNode).
Proof. vm_compute. reflexivity. Qed.

(** Neither the new configuration nor the old VPN comes up: the result still says
    that a rollback occurred, which the page of the panel reads as "old VPN was
    restored". *)
Lemma failed_both_says_restored :
  let T := mkTakeFaults false BackupDone (tf_install cleanTake) PairDone cleanDeploy CmdOK PairDone CmdOK [] in
  match sampleTakeover "crash" T xrayDetection takenWorld xrayNode with
  | Some (res, _, _, _) => tr_Status res = "failed-both" /\ tr_RollbackOccurred res = true
  | None => False
  end.
Proof. vm_compute. auto. Qed.

(** The hash of the deploy is recorded, then the record is saved as it was read
    before. *)
Lemma deploy_hash_lost :
  option_map (fun info => (NodeInfo_LastDeployedHash info, NodeInfo_LastDeployedAt info == 7))
    (recordOf (sampleTakeover "new" cleanTake xrayDetection takenWorld xrayNode)) = Some ("", false).
Proof. vm_compute. reflexivity. Qed.

(** A node that cannot be reached, or an installation that fails: the record has
    lost its inbounds. *)
Lemma inbounds_replaced_by_failure :
  let T := mkTakeFaults true BackupDone (tf_install cleanTake) PairDone cleanDeploy CmdOK PairDone CmdOK [true] in
  map NodeInbound_Protocol (match GetNodeInfo "n1" takenWorld with Ok info => NodeInfo_Inbounds info | Err _ => [] end) = ["tuic"] /\
  option_map (fun info => map NodeInbound_Protocol (NodeInfo_Inbounds info)) (recordOf (sampleTakeover "new" T xrayDetection takenWorld xrayNode)) = Some [] /\
  option_map (fun info => option_map TakeoverState_Status (NodeInfo_Takeover info)) (recordOf (sampleTakeover "new" T xrayDetection takenWorld xrayNode)) =
    Some (Some "converting").
Proof. vm_compute. auto. Qed.

(** A panel's own server, taken over. *)
Definition awgFileMachine (n : TakenNode) (cmd : string) : option string :=
  if cmd == "cat /etc/amnezia/amneziawg/awg0.conf" then ki_file (ifaceOf (tn_node n) "awg0") else None.
Definition awgDetection : Detection :=
  noDetection <| det_Type := DetectedAWG |> <| det_ServiceName := "awg-quick@awg0" |> <| det_IsActive := true |> <| det_IsEnabled := true |>
    <| det_ConfigPath := "/etc/amnezia/amneziawg/awg0.conf" |> <| det_ConfigContent := RenderServerAWGConf ownConf |>.
Definition awgNode : TakenNode :=
  mkTakenNode (mkAwgNode {[ "awg0" := @running sampleQuick (RenderServerAWGConf ownConf) ]} ∅ (mkRemote None None None)) false (mkOldVPN None false None) None.
Definition awgTakeover (cfg : string) : World -> option (TakeoverResult * World * TakenNode * list string) := fun w =>
  @Takeover sampleEnv sampleQuick sampleUp (fun _ => true) (fun _ => cfg) (fun c => "hash of " +:+ c) 7 (fun _ => "") awgFileMachine
    (fun _ => noFresh) ruPreset takenHost false "backup" cleanTake awgDetection w awgNode.

Lemma awgNode_awg0 : ifaceOf (tn_node awgNode) "awg0" = @running sampleQuick (RenderServerAWGConf ownConf).
Proof. unfold ifaceOf, awgNode. cbn [tn_node an_ifaces]. by rewrite lookup_singleton_eq. Qed.

Lemma awgNode_runs : @RunsAWG sampleQuick awgFileMachine false awgDetection awgNode ownConf.
Proof.
  split; [reflexivity|reflexivity|intros _; reflexivity|apply awgNode_awg0|].
  intros n' Hn'. rewrite awgNode_awg0 in Hn'. split.
  - unfold output, priv, awgFileMachine. rewrite Hn'. reflexivity.
  - reflexivity.
Qed.

Lemma awgNode_recoverable f : cf_iface f = "awg0" -> @Recoverable sampleQuick sampleUp (tf_push cleanTake) [f] [] (fun _ => RenderServerAWGConf ownConf) (tn_node awgNode).
Proof.
  intros Hf. split; [reflexivity|reflexivity|reflexivity|reflexivity| |by intros i ?%not_elem_of_nil].
  intros i ->%list_elem_of_singleton. rewrite Hf, awgNode_awg0. repeat split.
Qed.

