(* ===== verification/PanelImport.v ===== *)
(** * PanelImport: the users, inbounds and rules of a 3x-ui panel

    internal/takeover/panel_db.go and panel_import.go convert the rows of a
    panel's database into users, inbounds and route rules; web/panelimport.go puts
    them into the store and stops the panel.  The database itself is read by a
    library (panel_db_sqlite.go): its rows are an argument. *)

From S2P Require Import Prelude GoStrings Model Lifecycle StoreCore Store StoreSpec StoreRefine Alloc Codec AwgDeploy Json Subscription JsonDecode TakeoverConvert.

(** ** The database *)

(** [PanelInbound], [PanelClientTraffic], [PanelDB]. *)
Record PanelInbound := mkPanelInbound {
  pi_ID : Z; pi_Remark : string; pi_Port : Z; pi_Protocol : string; pi_Enable : bool; pi_Settings : string; pi_StreamSettings : string }.
Record PanelClientTraffic := mkPanelClientTraffic {
  pt_Email : string; pt_Up : Z; pt_Down : Z; pt_Total : Z; pt_ExpiryTime : Z; pt_LastSubFetch : Z }.
Definition zeroTraffic : PanelClientTraffic := mkPanelClientTraffic "" 0 0 0 0 0.
Record PanelDB := mkPanelDB { db_Inbounds : list PanelInbound; db_Traffics : gmap string PanelClientTraffic; db_RoutingJSON : string }.

(** [panelClient], [panelSettings], [panelStream]. *)
Record panelClient := mkPanelClient {
  pc_ID : string; pc_Email : string; pc_Enable : bool; pc_ExpiryTime : Z; pc_TotalGB : Z; pc_TgID : Z; pc_SubID : string; pc_Flow : string; pc_Secret : string }.
#[export] Instance eta_panelClient : Eta panelClient := fun r =>
  mkPanelClient (pc_ID r) (pc_Email r) (pc_Enable r) (pc_ExpiryTime r) (pc_TotalGB r) (pc_TgID r) (pc_SubID r) (pc_Flow r) (pc_Secret r).
Definition zeroPanelClient : panelClient := mkPanelClient "" "" false 0 0 0 "" "" "".
Record panelSettings := mkPanelSettings { pset_Clients : list panelClient; pset_FakeTLSDomain : string }.
#[export] Instance eta_panelSettings : Eta panelSettings := fun r => mkPanelSettings (pset_Clients r) (pset_FakeTLSDomain r).
Record panelKey := mkPanelKey { pk_PublicKey : string }.
#[export] Instance eta_panelKey : Eta panelKey := fun r => mkPanelKey (pk_PublicKey r).
Record panelReality := mkPanelReality {
  pr_PrivateKey : string; pr_ShortIDs : list string; pr_ServerName : list string; pr_Target : string; pr_Settings : option panelKey }.
#[export] Instance eta_panelReality : Eta panelReality := fun r =>
  mkPanelReality (pr_PrivateKey r) (pr_ShortIDs r) (pr_ServerName r) (pr_Target r) (pr_Settings r).
Record panelStream := mkPanelStream { pst_Network : string; pst_Security : string; pst_Reality : option panelReality }.
#[export] Instance eta_panelStream : Eta panelStream := fun r => mkPanelStream (pst_Network r) (pst_Security r) (pst_Reality r).

(** [parsePanelClients]: an error anywhere gives no clients at all. *)
Definition dPanelClient : Decoder panelClient := dStruct
  [("id", dField pc_ID dString); ("email", dField pc_Email dString); ("enable", dField pc_Enable dBool); ("expiryTime", dField pc_ExpiryTime dInt);
   ("totalGB", dField pc_TotalGB dInt); ("tgId", dField pc_TgID dInt); ("subId", dField pc_SubID dString); ("flow", dField pc_Flow dString);
   ("secret", dField pc_Secret dString)].
Definition dPanelSettings : Decoder panelSettings := dStruct
  [("clients", dField pset_Clients (dSlice zeroPanelClient dPanelClient)); ("fakeTlsDomain", dField pset_FakeTLSDomain dString)].
Definition parsePanelClients (settingsJSON : string) : list panelClient :=
  match unmarshalInto dPanelSettings settingsJSON (mkPanelSettings [] "") with (s, true) => pset_Clients s | (_, false) => [] end.

(** [parsePanelStream]. *)
Definition dPanelReality : Decoder panelReality := dStruct
  [("privateKey", dField pr_PrivateKey dString); ("shortIds", dField pr_ShortIDs (dSlice "" dString)); ("serverNames", dField pr_ServerName (dSlice "" dString));
   ("target", dField pr_Target dString);
   ("settings", dField pr_Settings (dPointer (mkPanelKey "") (dStruct [("publicKey", dField pk_PublicKey dString)])))].
Definition dPanelStream : Decoder panelStream := dStruct
  [("network", dField pst_Network dString); ("security", dField pst_Security dString);
   ("realitySettings", dField pst_Reality (dPointer (mkPanelReality "" [] [] "" None) dPanelReality))].
Definition parsePanelStream (streamJSON : string) : option panelStream :=
  match unmarshalInto dPanelStream streamJSON (mkPanelStream "" "" None) with (s, true) => Some s | (_, false) => None end.

(** [parseMTProtoSecret]: the secret and the domain. *)
Definition parseMTProtoSecret (full : string) : option (string * string) :=
  let full := TrimSpace full in
  if negb (HasPrefix full "ee") || (String.length full <? 34)%nat then None
  else Some (take_string 32 (drop_string 2 full), default "" (hexDecode (drop_string 34 full))).

(** ** The users *)

(** [acc]: one user, from all the rows that are his. *)
Record PanelAcc := mkPanelAcc { ac_u : User; ac_hasVLESS : bool; ac_trafficDone : bool }.

(** The lines of the report, one constructor per format. *)
Inductive PanelNote :=
| NoteTelegram (name : string) (tg : Z)
| NoteNoIdentity (remark : string)
| NoteReality (remark : string) (port : Z)
| NoteNotReality (remark network : string)
| NoteSidecar (remark protocol : string) (port : Z) (clients : nat)
| NoteBadSecret (email : string)
| NoteSecretNoIdentity
| NoteMTProto (remark : string) (port : Z) (imported : nat)
| NoteProtocol (remark protocol : string)
| NoteTemplate
| NoteOutbound (tag : string)
| NoteRules (n : nat).

(** The state of the conversion: the map from keys to users, the users in the
    order they were made, the inbounds and the report. *)
Record PanelState := mkPanelState {
  im_keys : gmap string nat; im_accs : list PanelAcc; im_inbounds : list NodeInbound; im_report : list PanelNote }.
#[export] Instance eta_PanelState : Eta PanelState := fun r => mkPanelState (im_keys r) (im_accs r) (im_inbounds r) (im_report r).
Definition noted (n : PanelNote) (st : PanelState) : PanelState := st <| im_report := im_report st ++ [n] |>.
Definition onAcc (a : nat) (f : PanelAcc -> PanelAcc) (st : PanelState) : PanelState := st <| im_accs := alter f a (im_accs st) |>.
Definition withInbound (ib : NodeInbound) (st : PanelState) : PanelState := st <| im_inbounds := im_inbounds st ++ [ib] |>.

(** [time.UnixMilli]. *)
Definition UnixMilli (ms : Z) : Time := ms * 10 ^ 6.

Definition tgKey (c : panelClient) : string := if 0 <? pc_TgID c then "tg:" +:+ itoa (pc_TgID c) else "".
Definition emailKey `{CF : !UnicodeCase} (c : panelClient) : string := let email := lowerText (TrimSpace (pc_Email c)) in if email == "" then "" else "email:" +:+ email.

Definition panelUser (now : Time) (c : panelClient) : User :=
  let name := TrimSpace (pc_Email c) in
  let u := zeroUser <| User_Name := if name == "" then "tg-" +:+ itoa (pc_TgID c) else name |> <| User_Active := pc_Enable c |> <| User_CreatedAt := now |> in
  let u := if 0 <? pc_ExpiryTime c then u <| User_ExpiresAt := UnixMilli (pc_ExpiryTime c) |> <| User_ExpireStrategy := "fixed_date" |>
           else u <| User_ExpireStrategy := "never" |> in
  u <| User_DataLimit := pc_TotalGB c |>.

Definition addKey (k : string) (a : nat) (keys : gmap string nat) : gmap string nat := if k == "" then keys else <[k := a]> keys.
Definition lookupKey (k : string) (keys : gmap string nat) : option nat := if k == "" then None else keys !! k.

Section convert.
Context `{CF : !UnicodeCase}.
Variable now : Time.

(** [findUser]: the position of the user, [None] without an identity. *)
Definition findUser (c : panelClient) (st : PanelState) : option nat * PanelState :=
  match lookupKey (tgKey c) (im_keys st) with
  | Some a => (Some a, st)
  | None =>
      match lookupKey (emailKey c) (im_keys st) with
      | Some a => (Some a, st <| im_keys := addKey (tgKey c) a (im_keys st) |>)
      | None =>
          if (tgKey c == "") && (emailKey c == "") then (None, st)
          else
            let u := panelUser now c in
            let st := if pc_TgID c =? 0 then st else noted (NoteTelegram (User_Name u) (pc_TgID c)) st in
            let a := length (im_accs st) in
            (Some a, st <| im_accs := im_accs st ++ [mkPanelAcc u false false] |>
                        <| im_keys := addKey (emailKey c) a (addKey (tgKey c) a (im_keys st)) |>)
      end
  end.

(** [applyTraffic]. *)
Definition applyTraffic (ct : PanelClientTraffic) (x : PanelAcc) : PanelAcc :=
  if ac_trafficDone x || (pt_Email ct == "") then x
  else
    let used := wrap64 (pt_Up ct + pt_Down ct) in
    let u := ac_u x in
    let u := u <| User_UsedTraffic := wrap64 (User_UsedTraffic u + used) |> <| User_LifetimeUsedTraffic := wrap64 (User_LifetimeUsedTraffic u + used) |> in
    let fu := UnixMilli (pt_LastSubFetch ct) in
    let u := if (0 <? pt_LastSubFetch ct) && (IsZero (User_FirstUseAt u) || (fu <? User_FirstUseAt u)) then u <| User_FirstUseAt := fu |> else u in
    mkPanelAcc u (ac_hasVLESS x) true.

(** ** The inbounds *)

(** [sanitizeTagSuffix], on UTF-8 text: a character outside ASCII is one hyphen,
    given for its first byte. *)
Definition isHyphen (c : ascii) : bool := Ascii.eqb c "-"%char.
Definition slugged (s fallback : string) : string := let out := Trim isHyphen (yamlText s) in if out == "" then fallback else out.
Definition sanitizeTagSuffix (s : string) : string := slugged s "inbound".

Variable traffics : gmap string PanelClientTraffic.
Definition rowOf (c : panelClient) : PanelClientTraffic := default zeroTraffic (traffics !! pc_Email c).

(** A client of a REALITY inbound. *)
Definition setPanelVLESS (id : string) (x : PanelAcc) : PanelAcc :=
  if ac_hasVLESS x then x else mkPanelAcc ((ac_u x) <| User_VLESSUUID := id |>) true (ac_trafficDone x).
Definition hasVLESSAt (a : nat) (st : PanelState) : bool := match im_accs st !! a with Some x => ac_hasVLESS x | None => false end.
Definition vlessClient (remark : string) (s : NodeInbound * PanelState) (c : panelClient) : NodeInbound * PanelState :=
  let '(ib, st) := s in
  if negb (pc_Enable c) || (pc_ID c == "") then (ib, st)
  else
    match findUser c st with
    | (None, st) => (ib, noted (NoteNoIdentity remark) st)
    | (Some a, st) =>
        (if negb (hasVLESSAt a st) && (NodeInbound_UUID ib == "") then ib <| NodeInbound_UUID := pc_ID c |> else ib,
         onAcc a (fun x => applyTraffic (rowOf c) (setPanelVLESS (pc_ID c) x)) st)
    end.

(** A client of a Naive, Mieru or TrustTunnel inbound. *)
Definition sidecarClient (st : PanelState) (c : panelClient) : PanelState :=
  match findUser c st with (None, st) => st | (Some a, st) => onAcc a (applyTraffic (rowOf c)) st end.

(** A client of an MTProto inbound; the number of secrets taken. *)
Definition setMTProxy (nodeID secret domain : string) (x : PanelAcc) : PanelAcc :=
  let u := (ac_u x) <| User_MTProxySecret := secret |> in
  let u := if domain != "" then u <| User_MTProxyDomain := domain |> else u in
  mkPanelAcc (u <| User_MTProxyNodes := User_MTProxyNodes u ++ [nodeID] |>) (ac_hasVLESS x) (ac_trafficDone x).
Definition mtprotoClient (nodeID : string) (s : nat * PanelState) (c : panelClient) : nat * PanelState :=
  let '(imported, st) := s in
  match parseMTProtoSecret (pc_Secret c) with
  | None => (imported, noted (NoteBadSecret (pc_Email c)) st)
  | Some (secret, domain) =>
      match findUser c st with
      | (None, st) => (imported, noted NoteSecretNoIdentity st)
      | (Some a, st) => (S imported, onAcc a (fun x => applyTraffic (rowOf c) (setMTProxy nodeID secret domain x)) st)
      end
  end.

(** The REALITY settings of a stream that has them. *)
Definition realityOf (stream : option panelStream) : option panelReality :=
  match stream with Some s => if pst_Security s == "reality" then pst_Reality s else None | None => None end.
Definition sidecar (protocol : string) : bool := (protocol == "naive") || (protocol == "mieru") || (protocol == "trusttunnel").

Definition standaloneOf (protocol : string) (port : Z) (tag : string) : NodeInbound :=
  zeroNodeInbound <| NodeInbound_Protocol := protocol |> <| NodeInbound_Port := port |> <| NodeInbound_Source := "standalone" |> <| NodeInbound_Tag := tag |>.

(** The body of the loop over the inbounds. *)
Definition importInbound (nodeID : string) (st : PanelState) (pi : PanelInbound) : PanelState :=
  let clients := parsePanelClients (pi_Settings pi) in
  let stream := parsePanelStream (pi_StreamSettings pi) in
  let remark := TrimSpace (pi_Remark pi) in
  let tag := "pi-" +:+ sanitizeTagSuffix (if remark == "" then itoa (pi_ID pi) else remark) in
  let proto := pi_Protocol pi in
  if proto == "vless" then
    match realityOf stream with
    | Some r =>
        let ib := (standaloneOf "vless-reality" (pi_Port pi) tag) <| NodeInbound_ServerPrivKey := pr_PrivateKey r |>
                    <| NodeInbound_ShortID := match pr_ShortIDs r with s :: _ => s | [] => "" end |> in
        let '(ib, st) := fold_left (vlessClient remark) clients (ib, st) in
        noted (NoteReality remark (pi_Port pi)) (withInbound ib st)
    | None => noted (NoteNotReality remark (match stream with Some s => pst_Network s | None => "" end)) st
    end
  else if sidecar proto then
    let st := fold_left sidecarClient clients st in
    noted (NoteSidecar remark proto (pi_Port pi) (length clients)) (withInbound (standaloneOf proto (pi_Port pi) tag) st)
  else if proto == "mtproto" then
    let '(imported, st) := fold_left (mtprotoClient nodeID) clients (0%nat, withInbound (standaloneOf "mtproxy" (pi_Port pi) tag) st) in
    noted (NoteMTProto remark (pi_Port pi) imported) st
  else noted (NoteProtocol remark proto) st.
End convert.

(** ** The rules *)

(** [splitDomainEntries], [splitIPEntries]. *)
Definition domainEntry (raw : string) : option string + option string :=
  let e := TrimSpace raw in
  if HasPrefix e "geosite:" then inr (Some (TrimPrefix e "geosite:"))
  else if HasPrefix e "regexp:" then inl None
  else if HasPrefix e "domain:" then inl (Some (TrimPrefix e "domain:"))
  else if HasPrefix e "full:" then inl (Some (TrimPrefix e "full:"))
  else if HasPrefix e "keyword:" then inl (Some (TrimPrefix e "keyword:"))
  else inl (Some e).
Definition splitDomainEntries (entries : list string) : list string * list string :=
  (omap (fun e => match domainEntry e with inl d => d | inr _ => None end) entries,
   omap (fun e => match domainEntry e with inr g => g | inl _ => None end) entries).
Definition splitIPEntries (entries : list string) : list string * list string :=
  let es := map TrimSpace entries in
  (List.filter (fun e => negb (HasPrefix e "geoip:")) es, map (fun e => TrimPrefix e "geoip:") (List.filter (fun e => HasPrefix e "geoip:") es)).

Record xrayRoutingRule := mkXrayRoutingRule { xr_Type : string; xr_OutboundTag : string; xr_Domain : list string; xr_IP : list string }.
#[export] Instance eta_xrayRoutingRule : Eta xrayRoutingRule := fun r => mkXrayRoutingRule (xr_Type r) (xr_OutboundTag r) (xr_Domain r) (xr_IP r).
Record xrayRouting := mkXrayRouting { xg_Rules : list xrayRoutingRule }.
#[export] Instance eta_xrayRouting : Eta xrayRouting := fun r => mkXrayRouting (xg_Rules r).
Record xrayTemplate := mkXrayTemplate { xt_Routing : xrayRouting }.
#[export] Instance eta_xrayTemplate : Eta xrayTemplate := fun r => mkXrayTemplate (xt_Routing r).
Definition dXrayTemplate : Decoder xrayTemplate := dStruct
  [("routing", dField xt_Routing (dStruct [("rules", dField xg_Rules (dSlice (mkXrayRoutingRule "" "" [] []) (dStruct
     [("type", dField xr_Type dString); ("outboundTag", dField xr_OutboundTag dString); ("domain", dField xr_Domain (dSlice "" dString));
      ("ip", dField xr_IP (dSlice "" dString))])))]))].

Definition ruleAction (tag : string) : option string :=
  if tag == "direct" then Some "direct" else if (tag == "block") || (tag == "reject") then Some "reject" else None.

(** One rule of the template: rules with priorities from [prio], ten apart. *)
Definition panelRule (now : Time) (nodeID matchType values action : string) (prio : Z) : RouteRule :=
  mkRouteRule "" nodeID prio matchType values action "" [] "imported from panel" true now.
Definition addRule (now : Time) (nodeID action : string) (s : list RouteRule * Z) (m : string * string) : list RouteRule * Z :=
  let '(rules, prio) := s in
  if snd m == "" then s else (rules ++ [panelRule now nodeID (fst m) (snd m) action prio], prio + 10).
Definition templateRule (now : Time) (nodeID : string) (s : list RouteRule * Z * list PanelNote) (r : xrayRoutingRule) : list RouteRule * Z * list PanelNote :=
  let '(rules, prio, notes) := s in
  if xr_Type r != "field" then s
  else
    match ruleAction (xr_OutboundTag r) with
    | None => (rules, prio, notes ++ [NoteOutbound (xr_OutboundTag r)])
    | Some action =>
        let '(domains, geosites) := splitDomainEntries (xr_Domain r) in
        let '(ips, geoips) := splitIPEntries (xr_IP r) in
        let join := Join newLines in
        let '(rules, prio) := fold_left (addRule now nodeID action)
          [("domain", join domains); ("geosite", join geosites); ("ip_cidr", join ips); ("geoip", join geoips)] (rules, prio) in
        (rules, prio, notes)
    end.

(** [convertPanelRouting]: the rules, and what it reports. *)
Definition convertPanelRouting (now : Time) (nodeID templateJSON : string) : list RouteRule * list PanelNote :=
  if TrimSpace templateJSON == "" then ([], [])
  else
    match unmarshalInto dXrayTemplate templateJSON (mkXrayTemplate (mkXrayRouting [])) with
    | (_, false) => ([], [NoteTemplate])
    | (tmpl, true) =>
        let '(rules, _, notes) := fold_left (templateRule now nodeID) (xg_Rules (xt_Routing tmpl)) ([], 10, []) in
        (rules, match rules with [] => notes | _ => notes ++ [NoteRules (length rules)] end)
    end.

(** ** The conversion *)

(** [PanelImportResult]. *)
Record PanelImportResult := mkPanelImportResult {
  pir_NodeInbounds : list NodeInbound; pir_Users : list User; pir_RouteRules : list RouteRule; pir_Report : list PanelNote }.

Definition importInbounds `{CF : !UnicodeCase} (now : Time) (nodeID : string) (db : PanelDB) : PanelState :=
  fold_left (importInbound now (db_Traffics db) nodeID) (db_Inbounds db) (mkPanelState ∅ [] [] []).

(** [ConvertPanelImport]; [order] is the order in which Go ranges over the map of
    the users. *)
Definition ConvertPanelImport `{CF : !UnicodeCase} (now : Time) (order : list User -> list User) (nodeID : string) (db : PanelDB) : PanelImportResult :=
  let st := importInbounds now nodeID db in
  let '(rules, notes) := convertPanelRouting now nodeID (db_RoutingJSON db) in
  mkPanelImportResult (im_inbounds st) (order (map ac_u (im_accs st))) rules (im_report st ++ notes).

(** ** The handlers *)

(** [panelInboundExists], [panelUserID]. *)
Definition panelInboundExists (info : NodeInfo) (ib : NodeInbound) : bool :=
  existsb (fun ex => (NodeInbound_Tag ex != "") && (NodeInbound_Tag ex == NodeInbound_Tag ib)) (NodeInfo_Inbounds info).
Definition panelUserID (name : string) : string := "pu-" +:+ slugged name "panel-user".

Definition addPanelInbound (s : NodeInfo * nat) (ib : NodeInbound) : NodeInfo * nat :=
  let '(info, added) := s in
  if panelInboundExists info ib then s else (info <| NodeInfo_Inbounds := NodeInfo_Inbounds info ++ [ib] |>, S added).

(** A user of the import; the random values drawn for him, and whether he is
    saved. *)
Definition savePanelUser (now : Time) (s : World * nat) (gu : (CredGen * option string) * User) : World * nat :=
  let '(w, saved) := s in
  let '((g, token), u) := gu in
  let u := if User_ID u == "" then u <| User_ID := panelUserID (User_Name u) |> else u in
  let u := fst (EnsureUserCreds g u) in
  let u := if User_SubscriptionToken u == "" then match token with Some t => u <| User_SubscriptionToken := t |> | None => u end else u in
  let u := u <| User_Status := ComputeStatus now u |> in
  match SaveUser now u w with (Ok _, w) => (w, S saved) | (Err _, w) => (w, saved) end.
Definition savePanelRule (now : Time) (s : World * nat) (gr : string * RouteRule) : World * nat :=
  let '(w, saved) := s in match SaveRouteRule (fst gr) now (snd gr) w with (Ok _, w) => (w, S saved) | (Err _, w) => (w, saved) end.

Inductive PanelReply := PanelNoNode | PanelNotRead | PanelNotSaved | PanelDone (inbounds users rules : nat) (report : list PanelNote).

Definition PanelUnit : string := "x-ui".
(** The command of [stopPanelService]. *)
Definition stopPanelCommand (useSudo : bool) : string :=
  let cmd := "systemctl stop " +:+ PanelUnit +:+ " 2>/dev/null; systemctl disable " +:+ PanelUnit +:+ " 2>/dev/null; echo DONE" in
  if useSudo then "sudo bash -c '" +:+ cmd +:+ "'" else cmd.

(** [handlePanelImport]: the reply, the commands and the store.  [db] is [None]
    when the node cannot be reached or its database not be read; [gens] and [ids] are
    the random values drawn for the users and the rules, in order. *)
Definition handlePanelImport `{CF : !UnicodeCase} (now : Time) (order : list User -> list User) (gens : list (CredGen * option string)) (ids : list string) (id : string)
    (db : option PanelDB) (w : World) : PanelReply * list string * World :=
  match GetNodeInfo id w with
  | Err _ => (PanelNoNode, [], w)
  | Ok info =>
      match db with
      | None => (PanelNotRead, [], w)
      | Some db =>
          let imp := ConvertPanelImport now order id db in
          let '(info, added) := fold_left addPanelInbound (pir_NodeInbounds imp) (info, 0%nat) in
          match SaveNodeInfo info w with
          | (Err _, w) => (PanelNotSaved, [], w)
          | (Ok _, w) =>
              let '(w, users) := fold_left (savePanelUser now) (zip gens (pir_Users imp)) (w, 0%nat) in
              let '(w, rules) := fold_left (savePanelRule now) (zip ids (pir_RouteRules imp)) (w, 0%nat) in
              (PanelDone added users rules (pir_Report imp), [stopPanelCommand (NodeInfo_UseSudo info)], w)
          end
      end
  end.

(** ** Specification: whose rows are whose *)

(** The key that decides whose row a client is. *)
Definition identity `{CF : !UnicodeCase} (c : panelClient) : string := if tgKey c == "" then emailKey c else tgKey c.

(** The clients of an inbound that are imported. *)
Definition isReality (pi : PanelInbound) : bool := (pi_Protocol pi == "vless") && bool_decide (is_Some (realityOf (parsePanelStream (pi_StreamSettings pi)))).
Definition isMTProto (pi : PanelInbound) : bool := pi_Protocol pi == "mtproto".
Definition takenClients (pi : PanelInbound) : list panelClient :=
  let clients := parsePanelClients (pi_Settings pi) in
  if isReality pi then List.filter (fun c => pc_Enable c && (pc_ID c != "")) clients
  else if sidecar (pi_Protocol pi) then clients
  else if isMTProto pi then List.filter (fun c => bool_decide (is_Some (parseMTProtoSecret (pc_Secret c)))) clients
  else [].

(** The rows of the user at [a], in the order of the database: those whose key
    leads to him. *)
Definition PanelRow : Type := PanelInbound * panelClient.
Definition hisRows `{CF : !UnicodeCase} (keys : gmap string nat) (a : nat) (P : list PanelRow) : list PanelRow :=
  List.filter (fun r => (identity (snd r) != "") && bool_decide (keys !! identity (snd r) = Some a)) P.

(** The identifiers of his REALITY rows, the secrets of his MTProto rows with
    their domains, and the counters that count: those of his first row that has
    any. *)
Definition idsOf (rows : list PanelRow) : list string := omap (fun r => if isReality (fst r) then Some (pc_ID (snd r)) else None) rows.
Definition secretsOf (rows : list PanelRow) : list (string * string) :=
  omap (fun r => if isMTProto (fst r) then parseMTProtoSecret (pc_Secret (snd r)) else None) rows.
Definition countedOf (traffics : gmap string PanelClientTraffic) (rows : list PanelRow) : option PanelClientTraffic :=
  List.find (fun t => pt_Email t != "") (map (fun r => rowOf traffics (snd r)) rows).

(** The user that these rows describe: name, terms and limit of the first one, the
    first VLESS identifier, the last secret and domain, the node once per secret,
    and the counters of one row, in 64 bits. *)
Definition withCreds (id secret domain : string) (nodes : list string) (u : User) : User :=
  u <| User_VLESSUUID := id |> <| User_MTProxySecret := secret |> <| User_MTProxyDomain := domain |> <| User_MTProxyNodes := nodes |>.
Definition givenCreds (nodeID : string) (ids : list string) (secrets : list (string * string)) (u : User) : User :=
  withCreds (default "" (head ids)) (default "" (last (map fst secrets)))
    (default "" (last (List.filter (fun d => d != "") (map snd secrets)))) (map (fun _ => nodeID) secrets) u.
Definition counted (t : option PanelClientTraffic) (u : User) : User :=
  match t with
  | None => u
  | Some t => u <| User_UsedTraffic := wrap64 (pt_Up t + pt_Down t) |> <| User_LifetimeUsedTraffic := wrap64 (pt_Up t + pt_Down t) |>
                <| User_FirstUseAt := if 0 <? pt_LastSubFetch t then UnixMilli (pt_LastSubFetch t) else zeroTime |>
  end.
Definition describedUser (now : Time) (traffics : gmap string PanelClientTraffic) (nodeID : string) (first : panelClient) (rows : list PanelRow) : User :=
  counted (countedOf traffics rows) (givenCreds nodeID (idsOf rows) (secretsOf rows) (panelUser now first)).

(** ** Lemmas: the map from keys to users *)

Section rows.
Context `{CF : !UnicodeCase}.
Context (now : Time) (traffics : gmap string PanelClientTraffic) (nodeID : string).

Definition keysValid (st : PanelState) : Prop := forall k a, im_keys st !! k = Some a -> is_Some (im_accs st !! a).

Lemma lookupKey_some k keys a : lookupKey k keys = Some a -> k <> "" /\ keys !! k = Some a.
Proof. unfold lookupKey. destruct (bool_decide_reflect (k = "")); [done|]. by intros. Qed.
Lemma lookupKey_none k keys : lookupKey k keys = None -> k = "" \/ keys !! k = None.
Proof. unfold lookupKey. destruct (bool_decide_reflect (k = "")); auto. Qed.

Lemma addKey_mono k a keys : k = "" \/ keys !! k = None -> keys ⊆ addKey k a keys.
Proof. unfold addKey. destruct (bool_decide_reflect (k = "")) as [|Hk]; [done|]. intros [?|H]; [done|]. by apply insert_subseteq. Qed.
Lemma addKey_lookup k a keys : k <> "" -> addKey k a keys !! k = Some a.
Proof. intros H. unfold addKey. rewrite bool_decide_eq_false_2 by done. by rewrite lookup_insert_eq. Qed.
Lemma addKey_cases k a keys k' b : addKey k a keys !! k' = Some b -> b = a \/ keys !! k' = Some b.
Proof.
  unfold addKey. destruct (k == ""); [by right|]. destruct (decide (k = k')) as [->|Hne]; [rewrite lookup_insert_eq|rewrite lookup_insert_ne by done; by right].
  intros [= <-]. by left.
Qed.

Lemma tg_email c c' : tgKey c <> "" -> tgKey c <> emailKey c'.
Proof. unfold tgKey, emailKey. destruct (0 <? pc_TgID c); [|done]. intros _. destruct (_ == ""); done. Qed.

(** The user that is found: he is there, the key of the client leads to him, and no
    key changes. *)
Lemma findUser_spec c st a st' : keysValid st -> findUser now c st = (Some a, st') ->
  im_keys st ⊆ im_keys st' /\ im_keys st' !! identity c = Some a /\ keysValid st' /\
  (im_accs st' = im_accs st \/ im_accs st' = im_accs st ++ [mkPanelAcc (panelUser now c) false false] /\ a = length (im_accs st)).
Proof.
  intros Hv. unfold findUser, identity.
  destruct (lookupKey (tgKey c) (im_keys st)) as [b|] eqn:Et.
  { intros [= -> <-]. apply lookupKey_some in Et as [Hne Et]. rewrite bool_decide_eq_false_2 by done. split; [done|]. split; [done|]. split; [done|by left]. }
  apply lookupKey_none in Et. destruct (lookupKey (emailKey c) (im_keys st)) as [b|] eqn:Ee.
  { intros [= -> <-]. apply lookupKey_some in Ee as [Hne Ee]. cbn [im_keys im_accs]. split; [by apply addKey_mono|]. split.
    - destruct (bool_decide_reflect (tgKey c = "")) as [->|Hn]; [by unfold addKey|by apply addKey_lookup].
    - split; [|by left]. intros k b' [->|H]%addKey_cases; [by eapply Hv|by eapply Hv]. }
  apply lookupKey_none in Ee. destruct ((tgKey c == "") && (emailKey c == "")) eqn:En; [done|].
  set (st1 := if pc_TgID c =? 0 then st else _). assert (im_keys st1 = im_keys st /\ im_accs st1 = im_accs st) as [-> ->] by (unfold st1; by destruct (pc_TgID c =? 0)).
  intros [= <- <-]. set (keys1 := addKey (tgKey c) _ _). unfold keysValid.
  match goal with |- context [im_accs ?s] => change (im_accs s) with (im_accs st ++ [mkPanelAcc (panelUser now c) false false]);
    change (im_keys s) with (addKey (emailKey c) (length (im_accs st)) keys1) end.
  assert (emailKey c = "" \/ keys1 !! emailKey c = None) as He.
  { destruct Ee as [->|Ee]; [by left|right]. unfold keys1, addKey. destruct (bool_decide_reflect (tgKey c = "")) as [|Hn]; [done|].
    rewrite lookup_insert_ne; [done|]. by apply tg_email. }
  split; [transitivity keys1; by apply addKey_mono|]. split; [|split; [|by right]].
  - destruct (bool_decide_reflect (tgKey c = "")) as [Hn|Hn].
    + apply addKey_lookup. intros Hm. by rewrite Hm in En.
    + cbv iota. unfold addKey at 1. destruct (bool_decide_reflect (emailKey c = "")); cbv iota; [by apply addKey_lookup|].
      rewrite lookup_insert_ne by (intros E; by apply (tg_email c c Hn)). by apply addKey_lookup.
  - intros k b [->|[->|H]%addKey_cases]%addKey_cases.
    1,2: rewrite lookup_app_r by done; by rewrite Nat.sub_diag.
    destruct (Hv k b H) as [x Hx]. exists x. by apply lookup_app_l_Some.
Qed.

Lemma findUser_none c st st' : findUser now c st = (None, st') -> identity c = "" /\ st' = st.
Proof.
  unfold findUser, identity. destruct (lookupKey (tgKey c) _); [done|]. destruct (lookupKey (emailKey c) _); [done|].
  destruct (bool_decide_reflect (tgKey c = "")) as [Ht|]; [|done]. destruct (bool_decide_reflect (emailKey c = "")) as [He|]; [|done]. by intros [= <-].
Qed.

(** *** The invariant of the conversion *)

(** The user of the rows [rows]. *)
Record accOf (first : panelClient) (rows : list PanelRow) (x : PanelAcc) : Prop := {
  ao_user : ac_u x = describedUser now traffics nodeID first rows;
  ao_vless : ac_hasVLESS x = match idsOf rows with [] => false | _ => true end;
  ao_traffic : ac_trafficDone x = match countedOf traffics rows with None => false | Some _ => true end }.
Record tracks (P : list PanelRow) (st : PanelState) : Prop := {
  tr_keys : keysValid st;
  tr_known : forall r, r ∈ P -> identity (snd r) <> "" -> is_Some (im_keys st !! identity (snd r));
  tr_from : forall a x, im_accs st !! a = Some x -> exists r rest, hisRows (im_keys st) a P = r :: rest /\ accOf (snd r) (r :: rest) x }.

(** What a row does to its user. *)
Definition takes (pi : PanelInbound) (c : panelClient) (f : PanelAcc -> PanelAcc) : Prop := forall first rows x,
  accOf first rows x -> accOf first (rows ++ [(pi, c)]) (f x).

Lemma wrap64_zero z : wrap64 (0 + wrap64 z) = wrap64 z.
Proof. rewrite Z.add_0_l. apply wrap64_id. unfold wrap64. pose proof (Z.mod_pos_bound (z + 2 ^ 63) (2 ^ 64)). lia. Qed.

Lemma countedOf_snoc pi c rows : countedOf traffics (rows ++ [(pi, c)]) =
  match countedOf traffics rows with
  | Some t => Some t
  | None => if pt_Email (rowOf traffics c) == "" then None else Some (rowOf traffics c)
  end.
Proof.
  unfold countedOf. rewrite map_app. cbn [map snd]. induction (map _ rows) as [|t ts IH]; cbn [app List.find].
  - by destruct (_ == "").
  - by destruct (_ != "").
Qed.

(** The counters of a row. *)
Lemma applyTraffic_counted first ids secrets o ct x : let u := givenCreds nodeID ids secrets (panelUser now first) in
  ac_u x = counted o u -> ac_trafficDone x = match o with None => false | Some _ => true end ->
  let o' := match o with Some t => Some t | None => if pt_Email ct == "" then None else Some ct end in
  ac_u (applyTraffic ct x) = counted o' u /\ ac_hasVLESS (applyTraffic ct x) = ac_hasVLESS x /\
  ac_trafficDone (applyTraffic ct x) = match o' with None => false | Some _ => true end.
Proof.
  intros u Hu Hd. unfold applyTraffic. rewrite Hd, Hu. destruct o as [t|]; [by cbn|]. cbn [orb].
  destruct (pt_Email ct == ""); [by cbn|]. cbn [counted].
  assert (User_UsedTraffic u = 0 /\ User_LifetimeUsedTraffic u = 0 /\ User_FirstUseAt u = zeroTime) as (-> & -> & E)
    by (unfold u, panelUser; by destruct (0 <? pc_ExpiryTime first)).
  rewrite !wrap64_zero. split; [|split; destruct (_ && _); done].
  cbn [User_FirstUseAt]. change (User_FirstUseAt (u <| User_UsedTraffic := _ |> <| User_LifetimeUsedTraffic := _ |>)) with (User_FirstUseAt u).
  rewrite E. change (IsZero zeroTime) with true. rewrite andb_true_r. destruct (0 <? pt_LastSubFetch ct); [done|].
  revert E. clearbody u. destruct u. cbn. by intros ->.
Qed.

Lemma withCreds_vless o i i' s d n u : (counted o (withCreds i s d n u)) <| User_VLESSUUID := i' |> = counted o (withCreds i' s d n u).
Proof. destruct u, o; reflexivity. Qed.
Lemma withCreds_nodes o i s d n u : User_MTProxyNodes (counted o (withCreds i s d n u)) = n.
Proof. by destruct o. Qed.
Lemma nodes_secret u s : User_MTProxyNodes (u <| User_MTProxySecret := s |>) = User_MTProxyNodes u.
Proof. done. Qed.
Lemma nodes_domain u s : User_MTProxyNodes (u <| User_MTProxyDomain := s |>) = User_MTProxyNodes u.
Proof. done. Qed.
Lemma withCreds_secret o i s d n u s' d' n' :
  (counted o (withCreds i s d n u)) <| User_MTProxySecret := s' |> <| User_MTProxyDomain := d' |> <| User_MTProxyNodes := n' |> = counted o (withCreds i s' d' n' u).
Proof. destruct u, o; reflexivity. Qed.
Lemma withCreds_secret_only o i s d n u s' n' :
  (counted o (withCreds i s d n u)) <| User_MTProxySecret := s' |> <| User_MTProxyNodes := n' |> = counted o (withCreds i s' d n' u).
Proof. destruct u, o; reflexivity. Qed.

(** A row that gives [g]. *)
Lemma takes_with pi c g : (forall first rows x, accOf first rows x ->
    let rows' := rows ++ [(pi, c)] in
    ac_u (g x) = counted (countedOf traffics rows) (givenCreds nodeID (idsOf rows') (secretsOf rows') (panelUser now first)) /\
    ac_hasVLESS (g x) = match idsOf rows' with [] => false | _ => true end /\ ac_trafficDone (g x) = ac_trafficDone x) ->
  takes pi c (fun x => applyTraffic (rowOf traffics c) (g x)).
Proof.
  intros Hg first rows x Hx. destruct (Hg first rows x Hx) as (G1 & G2 & G3). destruct Hx as [_ _ Ht].
  destruct (applyTraffic_counted first _ _ _ (rowOf traffics c) (g x) G1 ltac:(by rewrite G3)) as (T1 & T2 & T3).
  rewrite <- countedOf_snoc with (pi := pi) in T1, T3. split; [exact T1|by rewrite T2|exact T3].
Qed.

Lemma idsOf_snoc pi c rows : idsOf (rows ++ [(pi, c)]) = idsOf rows ++ (if isReality pi then [pc_ID c] else []).
Proof. unfold idsOf. rewrite omap_app. cbn. by destruct (isReality pi). Qed.
Lemma secretsOf_snoc pi c rows : secretsOf (rows ++ [(pi, c)]) =
  secretsOf rows ++ (if isMTProto pi then match parseMTProtoSecret (pc_Secret c) with Some s => [s] | None => [] end else []).
Proof. unfold secretsOf. rewrite omap_app. cbn. destruct (isMTProto pi); [|done]. by destruct (parseMTProtoSecret _). Qed.

Lemma reality_not_mtproto pi : isReality pi = true -> isMTProto pi = false.
Proof. unfold isReality, isMTProto. intros [H%bool_decide_eq_true _]%andb_true_iff. by rewrite H. Qed.
Lemma sidecar_other pi : sidecar (pi_Protocol pi) = true -> isReality pi = false /\ isMTProto pi = false.
Proof.
  unfold sidecar, isReality, isMTProto. intros Hs. destruct (bool_decide_reflect (pi_Protocol pi = "vless")) as [E|]; [by rewrite E in Hs|].
  destruct (bool_decide_reflect (pi_Protocol pi = "mtproto")) as [E|]; [by rewrite E in Hs|done].
Qed.

Lemma vless_takes pi c : isReality pi = true -> takes pi c (fun x => applyTraffic (rowOf traffics c) (setPanelVLESS (pc_ID c) x)).
Proof.
  intros Hpi. apply takes_with. intros first rows x [Hu Hv Ht]. cbv zeta. rewrite idsOf_snoc, secretsOf_snoc, Hpi, (reality_not_mtproto pi Hpi), app_nil_r.
  unfold describedUser in Hu. unfold setPanelVLESS. rewrite Hv. destruct (idsOf rows) as [|i ids]; [|by split_and!].
  split_and!; [|done|done]. cbn [ac_u]. rewrite Hu. unfold givenCreds. by rewrite withCreds_vless.
Qed.

Lemma mtproxy_takes pi c secret domain : isMTProto pi = true -> parseMTProtoSecret (pc_Secret c) = Some (secret, domain) ->
  takes pi c (fun x => applyTraffic (rowOf traffics c) (setMTProxy nodeID secret domain x)).
Proof.
  intros Hpi Hs. apply takes_with. intros first rows x [Hu Hv Ht]. cbv zeta. rewrite idsOf_snoc, secretsOf_snoc, Hpi, Hs.
  assert (isReality pi = false) as -> by (destruct (isReality pi) eqn:E; [by rewrite (reality_not_mtproto pi E) in Hpi|done]).
  rewrite app_nil_r. unfold setMTProxy. cbn [ac_u ac_hasVLESS ac_trafficDone]. split_and!; [|done|done].
  rewrite Hu. unfold describedUser, givenCreds. rewrite !map_app, List.filter_app. cbn [map fst snd List.filter]. rewrite last_snoc.
  set (o := countedOf _ _). set (u := panelUser _ _).
  destruct (domain != ""); rewrite ?last_snoc, ?app_nil_r.
  - by rewrite nodes_domain, nodes_secret, withCreds_nodes, withCreds_secret.
  - by rewrite nodes_secret, withCreds_nodes, withCreds_secret_only.
Qed.

Lemma sidecar_takes pi c : sidecar (pi_Protocol pi) = true -> takes pi c (applyTraffic (rowOf traffics c)).
Proof.
  intros [H1 H2]%sidecar_other. apply (takes_with pi c (fun x => x)). intros first rows x [Hu Hv Ht]. cbv zeta.
  rewrite idsOf_snoc, secretsOf_snoc, H1, H2, !app_nil_r. by split_and!.
Qed.

(** *** One client *)

Lemma findUser_identity c st a st' : findUser now c st = (Some a, st') -> identity c <> "".
Proof.
  unfold findUser, identity, lookupKey. destruct (bool_decide_reflect (tgKey c = "")) as [->|]; [|done].
  destruct (bool_decide_reflect (emailKey c = "")) as [->|]; [|done]. done.
Qed.

(** No key leads to the user that is made next. *)
Lemma hisRows_new st P : keysValid st -> hisRows (im_keys st) (length (im_accs st)) P = [].
Proof.
  intros Hv. unfold hisRows. induction P as [|r P IH]; [done|]. cbn [List.filter]. rewrite IH.
  rewrite (bool_decide_eq_false_2 (_ = Some (length _))); [by rewrite andb_false_r|].
  intros E. destruct (Hv _ _ E) as [x Hx]. apply lookup_lt_Some in Hx. lia.
Qed.

Lemma onAcc_lookup a f st b : im_accs (onAcc a f st) !! b = (if decide (a = b) then f else id) <$> im_accs st !! b.
Proof.
  change (im_accs (onAcc a f st)) with (alter f a (im_accs st)). destruct (decide (a = b)) as [->|Hne]; [apply list_lookup_alter_eq|].
  rewrite list_lookup_alter_ne by done. by destruct (_ !! _).
Qed.

Lemma tracks_same P st st' : im_keys st' = im_keys st -> im_accs st' = im_accs st -> tracks P st -> tracks P st'.
Proof. intros E1 E2 [H1 H2 H3]. split; unfold keysValid in *; rewrite ?E1, ?E2; assumption. Qed.

Lemma hisRows_app keys a P Q : hisRows keys a (P ++ Q) = hisRows keys a P ++ hisRows keys a Q.
Proof. apply List.filter_app. Qed.

Lemma hisRows_mono keys keys' a P : keys ⊆ keys' -> (forall r, r ∈ P -> identity (snd r) <> "" -> is_Some (keys !! identity (snd r))) ->
  hisRows keys' a P = hisRows keys a P.
Proof.
  intros Hk HP. unfold hisRows. apply filter_ext_in. intros r Hr%list_elem_of_In. destruct (bool_decide_reflect (identity (snd r) = "")) as [|Hi]; [done|].
  cbn [negb andb]. destruct (HP r Hr Hi) as [b Hb]. rewrite Hb. by rewrite (lookup_weaken _ _ _ _ Hb Hk).
Qed.

Lemma tracks_skip P st pi c : identity c = "" -> tracks P st -> tracks (P ++ [(pi, c)]) st.
Proof.
  intros Hi [H1 H2 H3]. split; [done| |].
  - intros r [H| ->%list_elem_of_singleton]%elem_of_app Hne; [by apply H2|done].
  - intros a x Hx. rewrite hisRows_app. unfold hisRows at 2. cbn [List.filter snd]. rewrite bool_decide_eq_true_2 by done. cbn [negb andb].
    rewrite app_nil_r. by apply H3.
Qed.

Lemma panelUser_described c : accOf c [] (mkPanelAcc (panelUser now c) false false).
Proof. split; [|done|done]. unfold describedUser, panelUser. cbn. by destruct (0 <? pc_ExpiryTime c). Qed.

Lemma tracks_take P st pi c a st' f : tracks P st -> findUser now c st = (Some a, st') -> takes pi c f -> tracks (P ++ [(pi, c)]) (onAcc a f st').
Proof.
  intros [H1 H2 H3] Hf Ht. destruct (findUser_spec c st a st' H1 Hf) as (F1 & F2 & F3 & F4).
  assert (identity c <> "") as Hi by by eapply findUser_identity.
  assert (forall b, hisRows (im_keys st') b (P ++ [(pi, c)]) = hisRows (im_keys st) b P ++ (if decide (a = b) then [(pi, c)] else [])) as Hrows.
  { intros b. rewrite hisRows_app, (hisRows_mono (im_keys st)) by done. f_equal. unfold hisRows. cbn [List.filter snd].
    rewrite bool_decide_eq_false_2 by done. rewrite F2. cbn [negb andb]. destruct (decide (a = b)) as [->|Hne]; [by rewrite bool_decide_eq_true_2|].
    rewrite bool_decide_eq_false_2; [done|congruence]. }
  change (im_keys (onAcc a f st')) with (im_keys st'). split.
  - intros k b Hb. rewrite onAcc_lookup. destruct (F3 k b Hb) as [x ->]. by eexists.
  - intros r [H| ->%list_elem_of_singleton]%elem_of_app Hne; [|by eexists]. destruct (H2 r H Hne) as [b Hb]. exists b. by eapply lookup_weaken.
  - intros b x. rewrite onAcc_lookup. intros (y & Hy & ->)%fmap_Some. change (im_keys (onAcc a f st')) with (im_keys st'). rewrite Hrows.
    assert ((exists r rest, hisRows (im_keys st) b P = r :: rest /\ accOf (snd r) (r :: rest) y) \/
            (a = b /\ hisRows (im_keys st) b P = [] /\ accOf c [] y)) as [(r & rest & -> & Hacc)|(-> & -> & Hacc)].
    { destruct F4 as [E|[E ->]]; rewrite E in Hy; [left; by apply H3|]. apply lookup_snoc_Some in Hy as [[_ Hy]|[-> <-]]; [left; by apply H3|].
      right. split; [done|]. split; [|apply panelUser_described]. by apply hisRows_new. }
    + exists r. destruct (decide (a = b)) as [->|]; [|rewrite app_nil_r; by exists rest]. exists (rest ++ [(pi, c)]). split; [done|].
      by apply (Ht (snd r) (r :: rest)).
    + rewrite !decide_True by done. exists (pi, c), []. split; [done|]. by apply (Ht c []).
Qed.

(** *** All clients, all inbounds *)

Definition rowsOf (pi : PanelInbound) (cs : list panelClient) : list PanelRow := map (pair pi) cs.

Lemma vless_tracks pi remark cs : isReality pi = true -> forall P ib st, tracks P st ->
  tracks (P ++ rowsOf pi (List.filter (fun c => pc_Enable c && (pc_ID c != "")) cs)) (snd (fold_left (vlessClient now traffics remark) cs (ib, st))).
Proof.
  intros Hpi. induction cs as [|c cs IH]; intros P ib st HP; [by rewrite app_nil_r|]. cbn [fold_left List.filter]. unfold vlessClient at 2.
  destruct (pc_Enable c); cbn [negb orb andb]; [|by apply IH].
  destruct (bool_decide_reflect (pc_ID c = "")) as [|Hid]; cbn [negb]; [by apply IH|].
  cbn [rowsOf map]. rewrite (cons_middle _ P), (app_assoc P).
  destruct (findUser now c st) as [[a|] st'] eqn:Hf; apply IH.
  - eapply tracks_take; [exact HP|exact Hf|by apply vless_takes].
  - apply findUser_none in Hf as [Hi ->]. apply (tracks_same _ st); [done|done|]. by apply tracks_skip.
Qed.

Lemma sidecar_tracks pi cs : sidecar (pi_Protocol pi) = true -> forall P st, tracks P st ->
  tracks (P ++ rowsOf pi cs) (fold_left (sidecarClient now traffics) cs st).
Proof.
  intros Hpi. induction cs as [|c cs IH]; intros P st HP; [by rewrite app_nil_r|]. cbn [fold_left rowsOf map]. unfold sidecarClient at 2.
  rewrite (cons_middle _ P), (app_assoc P). destruct (findUser now c st) as [[a|] st'] eqn:Hf; apply IH.
  - eapply tracks_take; [exact HP|exact Hf|by apply sidecar_takes].
  - apply findUser_none in Hf as [Hi ->]. by apply tracks_skip.
Qed.

Lemma mtproto_tracks pi cs : isMTProto pi = true -> forall P n st, tracks P st ->
  tracks (P ++ rowsOf pi (List.filter (fun c => bool_decide (is_Some (parseMTProtoSecret (pc_Secret c)))) cs))
    (snd (fold_left (mtprotoClient now traffics nodeID) cs (n, st))).
Proof.
  intros Hpi. induction cs as [|c cs IH]; intros P n st HP; [by rewrite app_nil_r|]. cbn [fold_left List.filter]. unfold mtprotoClient at 2.
  destruct (parseMTProtoSecret (pc_Secret c)) as [[secret domain]|] eqn:Es.
  2: { rewrite bool_decide_eq_false_2 by (by intros [? ?]). apply IH. by apply (tracks_same _ st). }
  rewrite bool_decide_eq_true_2 by (by eexists). cbn [rowsOf map]. rewrite (cons_middle _ P), (app_assoc P).
  destruct (findUser now c st) as [[a|] st'] eqn:Hf; apply IH.
  - eapply tracks_take; [exact HP|exact Hf|by apply mtproxy_takes].
  - apply findUser_none in Hf as [Hi ->]. apply (tracks_same _ st); [done|done|]. by apply tracks_skip.
Qed.

Lemma inbound_tracks pi P st : tracks P st -> tracks (P ++ rowsOf pi (takenClients pi)) (importInbound now traffics nodeID st pi).
Proof.
  intros HP. unfold importInbound, takenClients. cbv zeta. destruct (isReality pi) eqn:Hr.
  - pose proof Hr as H. unfold isReality in H. apply andb_true_iff in H as [-> [r ->]%bool_decide_eq_true]. cbv iota.
    match goal with |- context [fold_left ?f ?cs (?ib, st)] => pose proof (vless_tracks pi (TrimSpace (pi_Remark pi)) cs Hr P ib st HP) as H; destruct (fold_left f cs (ib, st)) as [ib' st'] end.
    by apply (tracks_same _ st').
  - assert (tracks (P ++ rowsOf pi []) st) as H0 by (by rewrite app_nil_r).
    destruct (bool_decide_reflect (pi_Protocol pi = "vless")) as [Ev|Ev].
    { unfold isReality in Hr. rewrite Ev in *. change ("vless" == "vless") with true in Hr. cbn [andb] in Hr. apply bool_decide_eq_false in Hr.
      destruct (realityOf _); [by destruct Hr|]. unfold isMTProto. rewrite Ev. by apply (tracks_same _ st). }
    destruct (sidecar (pi_Protocol pi)) eqn:Hs.
    { eapply tracks_same; [| |by apply (sidecar_tracks pi (parsePanelClients (pi_Settings pi)) Hs P st HP)]; reflexivity. }
    destruct (isMTProto pi) eqn:Hm; pose proof Hm as Em; unfold isMTProto in Em; rewrite Em; [|by apply (tracks_same _ st)].
    match goal with |- context [fold_left ?f ?cs (?n, ?s)] => pose proof (mtproto_tracks pi cs Hm P n s) as H; destruct (fold_left f cs (n, s)) as [n' st'] end.
    eapply (tracks_same _ st'); [done|done|]. apply H. by apply (tracks_same _ st).
Qed.

Lemma inbounds_track pis P st : tracks P st ->
  tracks (P ++ flat_map (fun pi => rowsOf pi (takenClients pi)) pis) (fold_left (importInbound now traffics nodeID) pis st).
Proof.
  revert P st. induction pis as [|pi pis IH]; intros P st HP; [by rewrite app_nil_r|]. cbn [fold_left flat_map]. rewrite app_assoc.
  apply IH. by apply inbound_tracks.
Qed.
End rows.


(** ** Examples *)

#[local] Existing Instance asciiCase.

(** A client of a panel, and an inbound with clients. *)
Definition clientJson (id email : string) (tg : string) (rest : list (string * Json)) : Json :=
  JObj ([("id", JStr id); ("email", JStr email); ("enable", JBool true); ("tgId", JNum tg)] ++ rest).
Definition settingsOf (cs : list Json) : string := marshal (JObj [("clients", JArr cs)]).
Definition realityStream : string :=
  marshal (JObj [("network", JStr "tcp"); ("security", JStr "reality");
    ("realitySettings", JObj [("privateKey", JStr "key"); ("shortIds", JArr [JStr "ab"]); ("serverNames", JArr [JStr "www.example.org"])])]).
Definition vlessRow (id : Z) (remark : string) (port : Z) (cs : list Json) : PanelInbound :=
  mkPanelInbound id remark port "vless" true (settingsOf cs) realityStream.
Definition trafficOf (rows : list (string * Z)) : gmap string PanelClientTraffic :=
  list_to_map (map (fun r => (fst r, mkPanelClientTraffic (fst r) (snd r) 1 0 0 0)) rows).
Definition importOf (rows : list (string * Z)) (pis : list PanelInbound) : PanelImportResult :=
  ConvertPanelImport 5 (fun l => l) "n1" (mkPanelDB pis (trafficOf rows) "").
Definition summary (r : PanelImportResult) : list (string * string * Z) := map (fun u => (User_Name u, User_VLESSUUID u, User_UsedTraffic u)) (pir_Users r).

Definition samplePanel : PanelDB :=
  mkPanelDB [vlessRow 1 "Main" 443 [clientJson "uuid-a" "ann" "7" []; clientJson "uuid-b" "bob" "0" []];
             mkPanelInbound 2 "proxy" 8443 "naive" true (settingsOf [clientJson "" "Ann" "0" []]) ""] (trafficOf [("ann", 10); ("bob", 20)]) "".


Example sample_summary : summary (ConvertPanelImport 5 (fun l => l) "n1" samplePanel) = [("ann", "uuid-a", 11); ("bob", "uuid-b", 21)].
Proof. vm_compute. reflexivity. Qed.

(** ** Divergences *)

(** A user that is found by his Telegram identifier is not known under the e-mail
    address of the row: a row with that address alone is another user, and the
    traffic of the address counts for both. *)
Lemma merged_user_splits :
  summary (importOf [("ann2", 10)] [vlessRow 1 "a" 443 [clientJson "uuid-a" "ann" "7" []; clientJson "uuid-b" "ann2" "7" []];
                                    vlessRow 2 "b" 444 [clientJson "uuid-c" "ann2" "0" []]]) =
    [("ann", "uuid-a", 11); ("ann2", "uuid-c", 11)].
Proof. vm_compute. reflexivity. Qed.

(** The traffic of a user's second e-mail address is not counted. *)
Lemma second_mail_not_counted :
  summary (importOf [("ann", 10); ("ann2", 20)] [vlessRow 1 "a" 443 [clientJson "uuid-a" "ann" "7" []; clientJson "uuid-b" "ann2" "7" []]]) =
    [("ann", "uuid-a", 11)].
Proof. vm_compute. reflexivity. Qed.

(** A client with another identifier on a second inbound: that identifier is in
    neither the inbound nor the user. *)
Lemma second_uuid_lost :
  let r := importOf [] [vlessRow 1 "a" 443 [clientJson "uuid-a" "ann" "7" []]; vlessRow 2 "b" 444 [clientJson "uuid-b" "ann" "7" []]] in
  map NodeInbound_UUID (pir_NodeInbounds r) = ["uuid-a"; ""] /\ map User_VLESSUUID (pir_Users r) = ["uuid-a"].
Proof. vm_compute. auto. Qed.

(** An inbound of the import has no users assigned: a configuration admits only
    the identifier of its first client. *)
Lemma imported_clients_locked_out :
  let r := ConvertPanelImport 5 (fun l => l) "n1" samplePanel in
  map (fun ib => (NodeInbound_Protocol ib, NodeInbound_UUID ib, inboundUsers 5 (pir_Users r) ib)) (take 1 (pir_NodeInbounds r)) = [("vless-reality", "uuid-a", [])] /\
  map User_VLESSUUID (pir_Users r) = ["uuid-a"; "uuid-b"].
Proof. vm_compute. auto. Qed.

(** The server name of the clients is read and not kept. *)
Lemma server_name_not_imported :
  map (fun ib => (NodeInbound_ServerName ib, NodeInbound_ServerPubKey ib)) (pir_NodeInbounds (importOf [] [vlessRow 1 "a" 443 []])) = [("", "")] /\
  option_map pr_ServerName (realityOf (parsePanelStream realityStream)) = Some ["www.example.org"].
Proof. vm_compute. auto. Qed.

(** One client that cannot be decoded, as one whose Telegram identifier is a
    string: no client of the inbound is imported, and the report does not say so. *)
Lemma bad_client_loses_all :
  let r := importOf [] [vlessRow 1 "a" 443 [clientJson "uuid-a" "ann" "7" []; JObj [("email", JStr "bob"); ("tgId", JStr "")]]] in
  pir_Users r = [] /\ pir_Report r = [NoteReality "a" 443].
Proof. vm_compute. auto. Qed.

(** A row that is switched off in the first inbound switches the user off. *)
Lemma first_row_switches_off :
  let r := importOf [] [mkPanelInbound 1 "p" 8443 "naive" true (settingsOf [JObj [("email", JStr "ann"); ("enable", JBool false)]]) "";
                        vlessRow 2 "b" 444 [clientJson "uuid-a" "ann" "0" []]] in
  map User_Active (pir_Users r) = [false].
Proof. vm_compute. reflexivity. Qed.

(** A rule that only has regular expressions leaves no rule and no note; a
    keyword becomes a domain. *)
Definition templateOf (domain : string) : string :=
  marshal (JObj [("routing", JObj [("rules", JArr [JObj [("type", JStr "field"); ("outboundTag", JStr "block"); ("domain", JArr [JStr domain])]])])]).
Lemma regexp_dropped_silently : convertPanelRouting 5 "n1" (templateOf "regexp:.*ads.*") = ([], []).
Proof. vm_compute. reflexivity. Qed.
Lemma keyword_becomes_domain :
  map (fun r => (RouteRule_MatchType r, RouteRule_MatchValues r, RouteRule_Action r)) (fst (convertPanelRouting 5 "n1" (templateOf "keyword:ads"))) =
    [("domain", "ads", "reject")].
Proof. vm_compute. reflexivity. Qed.

(** A panel whose remarks and names are not Latin. *)
Definition cyrillicPanel : PanelDB :=
  mkPanelDB [vlessRow 1 "Москва" 443 [clientJson "uuid-a" "Анна" "0" []]; vlessRow 2 "Рига" 444 [clientJson "uuid-b" "Борис" "0" []]] ∅ "".
Definition panelGen : CredGen := mkCredGen "v" "t" (Some "tp") "h" (Some ("k", "K")) (Some "psk") (Some "np") (Some "mp") (Some "tt").
Definition panelWorld : World :=
  mkWorld (Some (Plain (newStoreFile <| sf_NodeInfos := [zeroNodeInfo <| NodeInfo_Host := mkHost "n1" "192.0.2.1:22" "root" "key" |>] |>))) None None None [] None.
Definition importInto (token : string) (db : PanelDB) (w : World) : PanelReply * list string * World :=
  handlePanelImport 5 (fun l => l) [(panelGen, Some token); (panelGen, Some token)] [] "n1" (Some db) w.
Definition storedUsers (w : World) : list User := match ListUsers w with Ok us => us | Err _ => [] end.

(** Both inbounds get the same tag and the second is dropped; both users get the
    same identifier and the second replaces the first; the page counts two. *)
Lemma names_collide :
  let '(reply, _, w) := importInto "t1" cyrillicPanel panelWorld in
  match reply with PanelDone added users _ _ => (added, users) = (1%nat, 2%nat) | _ => False end /\
  map (fun u => (User_ID u, User_VLESSUUID u)) (storedUsers w) = [("pu-panel-user", "uuid-b")].
Proof. vm_compute. auto. Qed.

(** A second import of the same panel replaces every user: he has a new
    subscription token. *)
Lemma import_again_replaces :
  let '(_, _, w) := importInto "t1" samplePanel panelWorld in
  let '(_, _, w2) := importInto "t2" samplePanel w in
  map User_SubscriptionToken (storedUsers w) = ["t1"; "t1"] /\ map User_SubscriptionToken (storedUsers w2) = ["t2"; "t2"].
Proof. vm_compute. auto. Qed.
