(* ===== verification/StoreUsers.v ===== *)
(** * StoreUsers: saving and deleting a user of a store that can be written

    What [SaveUser], [DeleteUser], [GetUser] and [ListUsers] (chain/store.go) do
    to a store that can be read and written, for the components that change
    users: the bot and the panel. *)

From S2P Require Import Prelude GoStrings Model ChainModel Lifecycle StoreCore Store StoreSpec StoreRefine.

(** [SaveUser] fills the creation time. *)
Definition stamped (now : Time) (u : User) : User := if IsZero (User_CreatedAt u) then u <| User_CreatedAt := now |> else u.

Lemma stamped_id now u : User_ID (stamped now u) = User_ID u.
Proof. unfold stamped. by destruct (IsZero _). Qed.

(** The store differs in its users only. *)
Definition usersOnly (sf sf' : storeFile) : Prop := sf' = sf <| sf_Users := sf_Users sf' |> <| sf_Revision := sf_Revision sf' |>.

#[export] Instance usersOnly_refl : Reflexive usersOnly.
Proof. intros sf. by destruct sf. Qed.
#[export] Instance usersOnly_trans : Transitive usersOnly.
Proof. intros [] [] [] H1 H2. injection H1 as; injection H2 as. subst. reflexivity. Qed.

Lemma usersOnly_bump us sf : usersOnly sf (bump (sf <| sf_Users := us |>)).
Proof. by destruct sf. Qed.

Lemma SaveUser_writable now u w sf : writable w -> base w = Some sf ->
  (exists w', SaveUser now u w = (Ok (stamped now u), w') /\ writable w' /\ base w' = Some (bump (sf <| sf_Users := upsert (stamped now u) (sf_Users sf) |>))) \/
  (exists n, SaveUser now u w = (Err (EMtproxySecretUsed n), w)).
Proof.
  intros Hw Hb. destruct (base_opens _ _ Hb) as [Ho _]. unfold SaveUser.
  match goal with |- context [modifyStore _ ?f w] => set (f0 := f) end. destruct (f0 sf) as [[v sf']|e] eqn:Ef; [left|right].
  - destruct (modifyNew_writable f0 w sf v sf' Hw Hb Ef) as (w' & E & Hb' & Hw').
    assert (v = stamped now u /\ sf' = sf <| sf_Users := upsert (stamped now u) (sf_Users sf) |>) as [-> ->].
    { revert Ef. unfold f0. cbv zeta. fold (stamped now u). destruct (_ && _); [destruct (mtproxyClash _ _); [done|]|]; by intros [= <- <-]. }
    exists w'. by split_and!.
  - assert (exists n, e = EMtproxySecretUsed n) as [n ->].
    { revert Ef. unfold f0. cbv zeta. destruct (_ && _); [destruct (mtproxyClash _ _) as [n|]; [|done]|done]. intros [= <-]. by exists n. }
    exists n. unfold modifyStore. by rewrite Ho, Ef.
Qed.

Lemma ListUsers_base w sf : base w = Some sf -> ListUsers w = Ok (sf_Users sf).
Proof. intros Hb. unfold ListUsers, listStore. by destruct (base_opens _ _ Hb) as [_ [->|[-> ->]]]. Qed.

Lemma GetUser_base id w sf : base w = Some sf -> GetUser id w = match find_key id (sf_Users sf) with Some u => Ok u | None => Err (EUserNotFound id) end.
Proof. intros Hb. unfold GetUser, readOrErr. by destruct (base_opens _ _ Hb) as [_ [->|[-> ->]]]. Qed.

Lemma DeleteUser_writable id w sf : writable w -> base w = Some sf ->
  (exists w', DeleteUser id w = (Ok tt, w') /\ writable w' /\ base w' = Some (bump (sf <| sf_Users := remove_key id (sf_Users sf) |>))) \/
  (exists e, DeleteUser id w = (Err e, w)).
Proof.
  intros Hw Hb. unfold DeleteUser. match goal with |- context [modifyStore _ ?f w] => set (f0 := f) end.
  destruct (base_opens _ _ Hb) as [_ [Hr|[Hr ->]]]; unfold readAny; rewrite Hr; [|right; by eexists].
  destruct (f0 sf) as [[[] sf']|e] eqn:Ef; [left|right; exists e; unfold modifyStore; by rewrite Ef].
  destruct (modifyNew_writable f0 w sf tt sf' Hw Hb Ef) as (w' & E & Hb' & Hw'). unfold readOrNew in E. rewrite Hr in E. exists w'. split; [done|]. split; [done|].
  revert Ef. unfold f0. destruct (negb _); [done|]. by intros [= <-].
Qed.
