(* ===== verification/Bot.v ===== *)
(** * Bot: the Telegram bot of the fleet

    internal/bot/bot.go: the commands, the binding of Telegram accounts to users
    by one-time codes with its limiter, the reports; notify.go: the hourly tick.
    The Telegram API is a library: a message comes in, and what is sent is a list of
    replies, one constructor per text.  Every message and every tick reads the clock
    once in the model. *)

From S2P Require Import PanelAuth Prelude GoStrings Model Lifecycle StoreCore Store StoreSpec StoreRefine StoreUsers Codec Caddy.

(** ** Messages and replies *)

Record Message := mkMessage { msg_From : option Z; msg_Chat : Z; msg_Text : string }.

Inductive BotReply :=
| Help
| StartHint (from : Z)
| CodeNotFound
| Bound (name : string)
| BotError
| StatusText (u : User)
| NotBound
| UsersSummary (total active onHold expired : nat)
| ConfigNoNodes (token : string)
| ConfigLinks (lines : list string)
| LinkUsage
| LinkNotFound (arg : string)
| LinkIssued (name code : string)
| OnlineNone (total : nat)
| OnlineList (total : nat) (names : list string)
| NodesNone
| NodesList (nodes : list (string * string * string * nat))
| ExpiryWarning (name : string) (at_ : Time)
| ExpiryWarningUser (at_ : Time)
| AuthLockout (ip : string).

(** The random values of one message; [None]: the generator failed. *)
Record Drawn := mkDrawn { dr_code : option string; dr_token : option string }.

(** The bot between two messages: the store, and [bindFails]. *)
Record BotState := mkBotState { bt_store : World; bt_fails : gmap Z (list Time) }.
#[export] Instance eta_BotState : Eta BotState := fun r => mkBotState (bt_store r) (bt_fails r).

Definition oneMinute : Z := 60 * 10 ^ 9.
Definition oneHour : Z := 60 * oneMinute.
Definition bindCodeTTL : Z := 10 * oneMinute.
Definition bindWindow : Z := 15 * oneMinute.
Definition onlineWindow : Z := 6 * oneMinute.

(** The users of the store; an error gives none. *)
Definition botUsers (w : World) : list User := match ListUsers w with Ok us => us | Err _ => [] end.

(** ** The limiter *)

(** [bindAllowed], [bindRecordFail]. *)
Definition bindAllowed (from : Z) (now : Time) (fails : gmap Z (list Time)) : bool * gmap Z (list Time) :=
  let keep := after (now - bindWindow) (default [] (fails !! from)) in ((length keep <? 5)%nat, <[from := keep]> fails).
Definition bindRecordFail (from : Z) (now : Time) (fails : gmap Z (list Time)) : gmap Z (list Time) :=
  <[from := default [] (fails !! from) ++ [now]]> fails.

(** ** The commands *)

(** The code of a user that can be used now. *)
Definition bindable `{CF : !UnicodeCase} (now : Time) (code : string) (u : User) : bool :=
  negb ((User_TelegramBindCode u == "") || negb (equalFold (User_TelegramBindCode u) code)) &&
  negb (IsZero (User_TelegramBindCodeAt u) || (bindCodeTTL <? now - User_TelegramBindCodeAt u)).
Definition boundTo (from : Z) (u : User) : User :=
  u <| User_TelegramID := from |> <| User_TelegramBindCode := "" |> <| User_TelegramBindCodeAt := zeroTime |>.

(** [handleStart]. *)
Definition handleStart `{CF : !UnicodeCase} (now : Time) (from : Z) (code : string) (st : BotState) : BotReply * BotState :=
  if code == "" then (StartHint from, st)
  else
    let '(ok, fails) := bindAllowed from now (bt_fails st) in
    let st := st <| bt_fails := fails |> in
    if negb ok then (CodeNotFound, st)
    else
      match List.find (bindable now code) (botUsers (bt_store st)) with
      | Some u =>
          match SaveUser now (boundTo from u) (bt_store st) with
          | (Ok _, w) => (Bound (User_Name u), st <| bt_store := w |>)
          | (Err _, w) => (BotError, st <| bt_store := w |>)
          end
      | None => (CodeNotFound, st <| bt_fails := bindRecordFail from now (bt_fails st) |>)
      end.

(** [userByTelegram]. *)
Definition userByTelegram (id : Z) (w : World) : option User := if id =? 0 then None else List.find (fun u => User_TelegramID u =? id) (botUsers w).

(** [usersReport]. *)
Definition countStatus (now : Time) (status : string) (us : list User) : nat := length (List.filter (fun u => ComputeStatus now u == status) us).
Definition usersReport (now : Time) (w : World) : BotReply :=
  let us := botUsers w in UsersSummary (length us) (countStatus now "active" us) (countStatus now "on_hold" us) (countStatus now "expired" us).

(** [handleConfig]: the addresses of the nodes that serve subscriptions. *)
Definition configLines (token : string) (w : World) : list string :=
  let infos := match ListNodeInfos w with Ok l => l | Err _ => [] end in
  map (fun info => "https://" +:+ NodeInfo_TLSDomain info +:+ "/sub/" +:+ token)
    (List.filter (fun info => (NodeInfo_TLSDomain info != "") && UtilityInstalled (Some info) UtilitySub) infos).
Definition handleConfig (now : Time) (dr : Drawn) (from : Z) (w : World) : BotReply * World :=
  match userByTelegram from w with
  | None => (NotBound, w)
  | Some u =>
      let '(token, w) :=
        if User_SubscriptionToken u == "" then
          match dr_token dr with Some tok => (tok, snd (SaveUser now (u <| User_SubscriptionToken := tok |>) w)) | None => ("", w) end
        else (User_SubscriptionToken u, w) in
      (match configLines token w with [] => ConfigNoNodes token | lines => ConfigLinks lines end, w)
  end.

(** [handleLink]. *)
Definition linkTarget `{CF : !UnicodeCase} (arg : string) (u : User) : bool := equalFold (User_ID u) arg || equalFold (User_Name u) arg.
Definition issued (now : Time) (code : string) (u : User) : User := u <| User_TelegramBindCode := code |> <| User_TelegramBindCodeAt := now |>.
Definition handleLink `{CF : !UnicodeCase} (now : Time) (dr : Drawn) (arg : string) (w : World) : BotReply * World :=
  let arg := TrimSpace arg in
  if arg == "" then (LinkUsage, w)
  else
    match List.find (linkTarget arg) (botUsers w) with
    | None => (LinkNotFound arg, w)
    | Some u =>
        match dr_code dr with
        | None => (BotError, w)
        | Some code =>
            match SaveUser now (issued now code u) w with (Ok _, w) => (LinkIssued (User_Name u) code, w) | (Err _, w) => (BotError, w) end
        end
    end.

(** [userOnline], [onlineReport], [nodesReport]. *)
Definition userOnline (now : Time) (u : User) : bool := negb (IsZero (User_AWGTrafficAt u)) && (now - User_AWGTrafficAt u <=? onlineWindow).
Definition onlineReport (now : Time) (w : World) : BotReply :=
  let act := List.filter User_Active (botUsers w) in
  match map User_Name (List.filter (userOnline now) act) with [] => OnlineNone (length act) | names => OnlineList (length act) names end.
Definition nodesReport (w : World) : BotReply :=
  match ListNodeInfos w with
  | Err _ | Ok [] => NodesNone
  | Ok infos => NodesList (map (fun i => (Host_ID (NodeInfo_Host i), Host_Addr (NodeInfo_Host i), NodeInfo_TLSDomain i, length (NodeInfo_Inbounds i))) infos)
  end.

Section bot.
Context `{CF : !UnicodeCase}.
Variable cfg : TelegramBotConfig.

(** [isAdmin]. *)
Definition isAdmin (id : Z) : bool := existsb (fun a => a =? id) (TelegramBotConfig_AdminIDs cfg).

(** [handleStatus]. *)
Definition handleStatus (now : Time) (from : Z) (w : World) : BotReply :=
  if isAdmin from then usersReport now w else match userByTelegram from w with None => NotBound | Some u => StatusText u end.

(** The command of a text, and its argument. *)
Definition commandOf (text : string) : option (string * string) :=
  match Fields (TrimSpace text) with [] => None | c :: args => Some (lowerText c, Join " " args) end.

(** [handleMessage]: what is sent, and to which chat. *)
Definition handleMessage (now : Time) (dr : Drawn) (m : Message) (st : BotState) : list (Z * BotReply) * BotState :=
  match msg_From m, commandOf (msg_Text m) with
  | Some from, Some (cmd, arg) =>
      let chat := msg_Chat m in
      let ifAdmin (r : BotReply) := if isAdmin from then [(chat, r)] else [] in
      if cmd == "/start" then let '(r, st) := handleStart now from arg st in ([(chat, r)], st)
      else if cmd == "/status" then ([(chat, handleStatus now from (bt_store st))], st)
      else if cmd == "/config" then let '(r, w) := handleConfig now dr from (bt_store st) in ([(chat, r)], st <| bt_store := w |>)
      else if cmd == "/online" then (ifAdmin (onlineReport now (bt_store st)), st)
      else if cmd == "/nodes" then (ifAdmin (nodesReport (bt_store st)), st)
      else if cmd == "/users" then (ifAdmin (usersReport now (bt_store st)), st)
      else if cmd == "/link" then
        if isAdmin from then let '(r, w) := handleLink now dr arg (bt_store st) in ([(chat, r)], st <| bt_store := w |>) else ([], st)
      else ([(chat, Help)], st)
  | _, _ => ([], st)
  end.

(** ** The hourly tick (notify.go) *)

(** [enforceActivationDeadlines], one user: whether his term ends. *)
Definition deadlinePassed (now : Time) (u : User) : bool :=
  negb ((User_ExpireStrategy u != "start_on_first_use") || negb (IsZero (User_FirstUseAt u))) &&
  negb (IsZero (User_ActivationDeadline u) || (now <? User_ActivationDeadline u)) &&
  negb (negb (IsZero (User_ExpiresAt u)) && negb (User_ExpiresAt u <? now)).
Definition enforceDeadline (now : Time) (u : User) (w : World) : User * World :=
  if deadlinePassed now u then let u := u <| User_ExpiresAt := User_ActivationDeadline u |> in (u, snd (SaveUser now u w)) else (u, w).

(** [warnExpiring], one user. *)
Definition warnWindow : Z := 72 * oneHour.
Definition dueWarning (now : Time) (u : User) : bool :=
  negb ((ComputeStatus now u != "active") || IsZero (User_ExpiresAt u)) &&
  (let left := User_ExpiresAt u - now in negb ((left <=? 0) || (warnWindow <? left))) &&
  negb (negb (IsZero (User_ExpiryNotifiedAt u)) && (User_ExpiresAt u - warnWindow <? User_ExpiryNotifiedAt u)).
Definition warnUser (now : Time) (u : User) (w : World) : list (Z * BotReply) * World :=
  if dueWarning now u then
    ((if TelegramBotConfig_NotifyChatID cfg =? 0 then [] else [(TelegramBotConfig_NotifyChatID cfg, ExpiryWarning (User_Name u) (User_ExpiresAt u))]) ++
     (if User_TelegramID u =? 0 then [] else [(User_TelegramID u, ExpiryWarningUser (User_ExpiresAt u))]),
     snd (SaveUser now (u <| User_ExpiryNotifiedAt := now |>) w))
  else ([], w).

(** [tick]: the users are read once; the second loop sees what the first changed
    in them. *)
Fixpoint enforceActivationDeadlines (now : Time) (us : list User) (w : World) : list User * World :=
  match us with
  | [] => ([], w)
  | u :: us' => let '(u, w) := enforceDeadline now u w in let '(us', w) := enforceActivationDeadlines now us' w in (u :: us', w)
  end.
Fixpoint warnExpiring (now : Time) (us : list User) (w : World) : list (Z * BotReply) * World :=
  match us with
  | [] => ([], w)
  | u :: us' => let '(sent, w) := warnUser now u w in let '(sent', w) := warnExpiring now us' w in (sent ++ sent', w)
  end.
Definition hourlyTick (now : Time) (w : World) : list (Z * BotReply) * World :=
  match ListUsers w with
  | Err _ => ([], w)
  | Ok us => let '(us, w) := enforceActivationDeadlines now us w in warnExpiring now us w
  end.

(** [NotifyAuthLockout]. *)
Definition NotifyAuthLockout (ip : string) : list (Z * BotReply) :=
  if TelegramBotConfig_NotifyChatID cfg =? 0 then [] else [(TelegramBotConfig_NotifyChatID cfg, AuthLockout ip)].
End bot.

(** ** [humanBytes] *)

(** The loop that finds the unit: [fuel] turns at most. *)
Fixpoint unitLoop (fuel : nat) (m div : Z) (exp : nat) : option (Z * nat) :=
  if m <? 1024 then Some (div, exp) else match fuel with O => None | S fuel' => unitLoop fuel' (Z.quot m 1024) (wrap64 (div * 1024)) (S exp) end.
(** The divisor and the letter; [None] would be an index out of the letters. *)
Definition humanUnit (n : Z) : option (Z * ascii) :=
  match unitLoop 64 (Z.quot n 1024) 1024 0 with
  | Some (div, exp) => match String.get exp "KMGTPE" with Some c => Some (div, c) | None => None end
  | None => None
  end.

(** ** Lemmas: the users of the store *)

Lemma botUsers_base w sf : base w = Some sf -> botUsers w = sf_Users sf.
Proof. intros Hb. unfold botUsers. by rewrite (ListUsers_base _ _ Hb). Qed.

(** ** Specification: what a message may do to a user *)

(** [u] has the code, and it was issued at most ten minutes ago. *)
Definition liveCode `{CF : !UnicodeCase} (now : Time) (code : string) (u : User) : Prop :=
  User_TelegramBindCode u <> "" /\ equalFold (User_TelegramBindCode u) code = true /\ User_TelegramBindCodeAt u <> zeroTime /\
  now <= User_TelegramBindCodeAt u + 10 * oneMinute.

Lemma bindable_liveCode `{CF : !UnicodeCase} now code u : bindable now code u = true <-> liveCode now code u.
Proof.
  unfold bindable, liveCode, IsZero, bindCodeTTL. rewrite andb_true_iff, !negb_true_iff, !orb_false_iff, bool_decide_eq_false, negb_false_iff, Z.ltb_ge, Z.eqb_neq.
  intuition lia.
Qed.

Inductive userChange `{CF : !UnicodeCase} (cfg : TelegramBotConfig) (now : Time) (dr : Drawn) (m : Message) (tries : Z -> nat) (u : User) : User -> Prop :=
| UC_same : userChange cfg now dr m tries u u
| UC_bound from code : msg_From m = Some from -> commandOf (msg_Text m) = Some ("/start", code) -> liveCode now code u -> (tries from < 5)%nat ->
    userChange cfg now dr m tries u (stamped now (u <| User_TelegramID := from |> <| User_TelegramBindCode := "" |> <| User_TelegramBindCodeAt := zeroTime |>))
| UC_token from arg tok : msg_From m = Some from -> commandOf (msg_Text m) = Some ("/config", arg) -> from <> 0 -> User_TelegramID u = from ->
    User_SubscriptionToken u = "" -> dr_token dr = Some tok -> userChange cfg now dr m tries u (stamped now (u <| User_SubscriptionToken := tok |>))
| UC_code from arg code : msg_From m = Some from -> commandOf (msg_Text m) = Some ("/link", arg) -> isAdmin cfg from = true ->
    equalFold (User_ID u) (TrimSpace arg) = true \/ equalFold (User_Name u) (TrimSpace arg) = true -> dr_code dr = Some code ->
    userChange cfg now dr m tries u (stamped now (u <| User_TelegramBindCode := code |> <| User_TelegramBindCodeAt := now |>)).

(** The users of two stores, by identifier. *)
Definition usersChange (R : User -> User -> Prop) (us us' : list User) : Prop := forall id,
  match find_key id us, find_key id us' with Some u, Some u' => R u u' | None, None => True | _, _ => False end.

Lemma usersChange_refl (R : User -> User -> Prop) us : (forall u, R u u) -> usersChange R us us.
Proof. intros H id. by destruct (find_key id us). Qed.

Lemma usersChange_upsert (R : User -> User -> Prop) us u v : (forall x, R x x) -> NoDup (keys us) -> u ∈ us -> User_ID v = User_ID u -> R u v -> usersChange R us (upsert v us).
Proof.
  intros HR Hn Hu Ei Hv id. destruct (decide (id = User_ID u)) as [->|Hne].
  - pose proof (find_key_elem u us Hn Hu) as E. change (key_of u) with (User_ID u) in E. rewrite E.
    pose proof (find_upsert_eq v us) as E2. change (key_of v) with (User_ID v) in E2. rewrite Ei in E2. by rewrite E2.
  - rewrite find_upsert_ne by (change (key_of v) with (User_ID v); by rewrite Ei). by destruct (find_key id us).
Qed.

Section message.
Context `{CF : !UnicodeCase} (cfg : TelegramBotConfig) (now : Time) (dr : Drawn) (m : Message) (tries : Z -> nat).

(** The outcome of a message on a store that can be written. *)
Definition wellDone (sf : storeFile) (w' : World) : Prop :=
  writable w' /\ exists sf', base w' = Some sf' /\ NoDup (keys (sf_Users sf')) /\ usersOnly sf sf' /\
    usersChange (userChange cfg now dr m tries) (sf_Users sf) (sf_Users sf').

Lemma wellDone_same w sf : writable w -> base w = Some sf -> NoDup (keys (sf_Users sf)) -> wellDone sf w.
Proof.
  intros Hw Hb Hn. split; [done|]. exists sf. split; [done|]. split; [done|]. split; [by destruct sf|]. apply usersChange_refl. intros u. apply UC_same.
Qed.

Lemma wellDone_save w sf u v : writable w -> base w = Some sf -> NoDup (keys (sf_Users sf)) -> u ∈ sf_Users sf -> User_ID v = User_ID u ->
  userChange cfg now dr m tries u (stamped now v) -> wellDone sf (snd (SaveUser now v w)).
Proof.
  intros Hw Hb Hn Hu Ei Hv. destruct (SaveUser_writable now v w sf Hw Hb) as [(w' & -> & Hw' & Hb')|[e ->]]; [|by apply wellDone_same].
  split; [done|]. eexists. split; [exact Hb'|]. split; [by apply NoDup_keys_upsert|]. split; [by destruct sf|].
  apply (usersChange_upsert _ (sf_Users sf) u); try done; [intros x; apply UC_same|by rewrite stamped_id].
Qed.

Lemma find_in (f : User -> bool) us u : List.find f us = Some u -> u ∈ us /\ f u = true.
Proof. intros [H1 H2]%List.find_some. split; [by apply list_elem_of_In|done]. Qed.

Lemma handleMessage_wellDone st sf : writable (bt_store st) -> base (bt_store st) = Some sf -> NoDup (keys (sf_Users sf)) ->
  (forall from, fst (bindAllowed from now (bt_fails st)) = (tries from <? 5)%nat) ->
  wellDone sf (bt_store (snd (handleMessage cfg now dr m st))).
Proof.
  intros Hw Hb Hn Ht. pose proof (botUsers_base _ _ Hb) as Hu. pose proof (wellDone_same _ _ Hw Hb Hn) as H0.
  unfold handleMessage. destruct (msg_From m) as [from|] eqn:Ef; [|done]. destruct (commandOf (msg_Text m)) as [[cmd arg]|] eqn:Ec; [|done].
  destruct (bool_decide_reflect (cmd = "/start")) as [->|_].
  { unfold handleStart. destruct (arg == ""); [done|]. specialize (Ht from). destruct (bindAllowed from now (bt_fails st)) as [ok fails]. cbn [fst] in Ht. subst ok.
    destruct (tries from <? 5)%nat eqn:El; cbn [negb]; [|done]. apply Nat.ltb_lt in El. cbn [bt_store].
    change (bt_store (st <| bt_fails := fails |>)) with (bt_store st). rewrite Hu.
    destruct (List.find _ _) as [u|] eqn:Eu; [|done]. apply find_in in Eu as [Eu Hbd].
    pose proof (wellDone_save _ sf u (boundTo from u) Hw Hb Hn Eu eq_refl (UC_bound _ _ _ _ _ u from arg Ef Ec (proj1 (bindable_liveCode _ _ _) Hbd) El)) as H.
    by destruct (SaveUser now (boundTo from u) (bt_store st)) as [[] w']. }
  destruct (cmd == "/status"); [done|].
  destruct (bool_decide_reflect (cmd = "/config")) as [->|_].
  { unfold handleConfig, userByTelegram. rewrite Hu. destruct (from =? 0) eqn:E0; [done|]. destruct (List.find _ _) as [u|] eqn:Eu; [|done].
    apply find_in in Eu as [Eu Et]. destruct (bool_decide_reflect (User_SubscriptionToken u = "")) as [Es|]; [|done].
    destruct (dr_token dr) as [tok|] eqn:Ed; [|done]. cbn [snd bt_store].
    change (wellDone sf (snd (SaveUser now (u <| User_SubscriptionToken := tok |>) (bt_store st)))).
    eapply wellDone_save; try done. eapply UC_token; try done; [by apply Z.eqb_neq|by apply Z.eqb_eq]. }
  destruct (cmd == "/online"); [done|]. destruct (cmd == "/nodes"); [done|]. destruct (cmd == "/users"); [done|].
  destruct (bool_decide_reflect (cmd = "/link")) as [->|_]; [|done].
  destruct (isAdmin cfg from) eqn:Ea; [|done]. unfold handleLink. rewrite Hu. destruct (_ == ""); [done|].
  destruct (List.find _ _) as [u|] eqn:Eu; [|done]. apply find_in in Eu as [Eu El]. destruct (dr_code dr) as [code|] eqn:Ed; [|done].
  pose proof (wellDone_save _ sf u (issued now code u) Hw Hb Hn Eu eq_refl (UC_code _ _ _ _ _ u from arg code Ef Ec Ea (proj1 (orb_true_iff _ _) El) Ed)) as H.
  by destruct (SaveUser now (issued now code u) (bt_store st)) as [[] w'].
Qed.
End message.

(** ** Specification: the wrong codes of a sender *)

Definition failsOf (st : BotState) (s : Z) : list Time := default [] (bt_fails st !! s).

(** The wrong codes of a sender in the last fifteen minutes. *)
Definition triesOf (log : Z -> list Time) (now : Time) (s : Z) : nat := length (after (now - 15 * oneMinute) (log s)).

(** The sender of a message with a code that is looked up and that no user has. *)
Definition wrongTry `{CF : !UnicodeCase} (now : Time) (m : Message) (tries : Z -> nat) (st : BotState) : option Z :=
  match msg_From m, commandOf (msg_Text m) with
  | Some from, Some (cmd, code) =>
      if (cmd == "/start") && (code != "") && (tries from <? 5)%nat && bool_decide (Forall (fun u => ~ liveCode now code u) (botUsers (bt_store st)))
      then Some from else None
  | _, _ => None
  end.

(** The bot since it was started: the time, the state, and when each sender
    tried a wrong code.  Between messages others may change the store. *)
Inductive botHistory `{CF : !UnicodeCase} (cfg : TelegramBotConfig) : Time -> BotState -> (Z -> list Time) -> Prop :=
| bh_start t w : botHistory cfg t (mkBotState w ∅) (fun _ => [])
| bh_store t st log w : botHistory cfg t st log -> botHistory cfg t (st <| bt_store := w |>) log
| bh_message t st log now dr m : botHistory cfg t st log -> t <= now ->
    botHistory cfg now (snd (handleMessage cfg now dr m st)) (fun s => if wrongTry now m (triesOf log now) st == Some s then log s ++ [now] else log s).

(** ** Lemmas: the limiter *)

Section limiter.
Context `{CF : !UnicodeCase} (cfg : TelegramBotConfig).

(** The list of failures forgets nothing that is recent. *)
Record agreesB (t : Time) (st : BotState) (log : Z -> list Time) : Prop := {
  ab_same : forall s now, t <= now -> after (now - bindWindow) (failsOf st s) = after (now - bindWindow) (log s);
  ab_bound : forall s now, t <= now -> (triesOf log now s <= 5)%nat }.

Lemma find_bindable now code us : bool_decide (List.find (bindable now code) us = None) = bool_decide (Forall (fun u => ~ liveCode now code u) us).
Proof.
  apply bool_decide_ext. rewrite Forall_forall. split.
  - intros H u Hu Hl. apply bindable_liveCode in Hl. apply list_elem_of_In in Hu. pose proof (List.find_none _ _ H u Hu). congruence.
  - intros H. destruct (List.find _ us) as [u|] eqn:E; [|done]. apply find_in in E as [Hu Hb]. exfalso. apply (H u Hu). by apply bindable_liveCode.
Qed.

(** What a message does to the failures of a sender. *)
Lemma handleMessage_fails now dr m tries st s : (forall from, fst (bindAllowed from now (bt_fails st)) = (tries from <? 5)%nat) ->
  let st' := snd (handleMessage cfg now dr m st) in
  (failsOf st' s = failsOf st s /\ wrongTry now m tries st <> Some s) \/
  (failsOf st' s = after (now - bindWindow) (failsOf st s) /\ wrongTry now m tries st <> Some s) \/
  (failsOf st' s = after (now - bindWindow) (failsOf st s) ++ [now] /\ wrongTry now m tries st = Some s /\
     (length (after (now - bindWindow) (failsOf st s)) < 5)%nat).
Proof.
  intros Ht. unfold handleMessage, wrongTry. destruct (msg_From m) as [from|]; [|by left]. destruct (commandOf (msg_Text m)) as [[cmd arg]|]; [|by left].
  destruct (bool_decide_reflect (cmd = "/start")) as [->|_]; cbn [andb].
  2: { left. split; [|done]. repeat case_match; cbn [snd]; done. }
  unfold handleStart. destruct (arg == ""); cbn [negb andb]; [by left|].
  rewrite <- Ht, <- find_bindable. unfold bindAllowed. fold (failsOf st from). set (keep := after (now - bindWindow) (failsOf st from)). cbn [fst].
  assert (forall w, failsOf (mkBotState w (<[from := keep]> (bt_fails st))) s = if decide (from = s) then keep else failsOf st s) as Hf.
  { intros w. unfold failsOf. cbn [bt_fails]. destruct (decide (from = s)) as [->|Hne]; [by rewrite lookup_insert_eq|by rewrite lookup_insert_ne]. }
  assert (forall st0, failsOf st0 s = (if decide (from = s) then keep else failsOf st s) -> forall o : option Z, o <> Some s ->
    (failsOf st0 s = failsOf st s /\ o <> Some s) \/ (failsOf st0 s = after (now - bindWindow) (failsOf st s) /\ o <> Some s) \/
    (failsOf st0 s = after (now - bindWindow) (failsOf st s) ++ [now] /\ o = Some s /\ (length (after (now - bindWindow) (failsOf st s)) < 5)%nat)) as Hd.
  { intros st0 -> o Ho. destruct (decide (from = s)) as [->|]; [right; by left|by left]. }
  destruct (length keep <? 5)%nat eqn:El; cbn [negb andb]; [|by apply Hd; [apply Hf|]].
  change (bt_store (st <| bt_fails := _ |>)) with (bt_store st).
  destruct (List.find _ _) as [u|]; cbn [bool_decide].
  { destruct (SaveUser now (boundTo from u) (bt_store st)) as [[] w']; apply Hd; try apply Hf; done. }
  change (if bool_decide (@None User = None) then Some from else None) with (Some from). cbn [snd].
  match goal with |- context [failsOf ?x s] => assert (failsOf x s = if decide (from = s) then keep ++ [now] else failsOf st s) as -> end.
  { change (default [] (<[from := default [] (<[from := keep]> (bt_fails st) !! from) ++ [now]]> (<[from := keep]> (bt_fails st)) !! s) =
      if decide (from = s) then keep ++ [now] else failsOf st s).
    destruct (decide (from = s)) as [->|Hne]; [by rewrite !lookup_insert_eq|by rewrite !lookup_insert_ne]. }
  destruct (decide (from = s)) as [->|Hne]; [right; right|left].
  - split; [done|]. split; [done|]. by apply Nat.ltb_lt.
  - split; [done|by intros [=]].
Qed.

Lemma history_agreesB t st log : botHistory cfg t st log -> agreesB t st log.
Proof.
  induction 1 as [t w|t st log w _ IH|t st log now dr m _ IH Hle]; [|by destruct IH|].
  - split; intros s now _; [done|unfold triesOf; cbn; lia].
  - destruct IH as [Ha Hb]. assert (forall from, fst (bindAllowed from now (bt_fails st)) = (triesOf log now from <? 5)%nat) as Ht
      by (intros from; unfold bindAllowed, triesOf; cbn [fst]; fold (failsOf st from); by rewrite Ha).
    pose proof (fun s => handleMessage_fails now dr m (triesOf log now) st s Ht) as Hf. cbv zeta in Hf. set (st' := snd (handleMessage cfg now dr m st)) in *. split.
    + intros s now' Hn. destruct (Hf s) as [[-> Hw]|[[-> Hw]|(-> & Hw & _)]].
      * rewrite bool_decide_eq_false_2 by done. apply Ha. lia.
      * rewrite bool_decide_eq_false_2, after_after by (done || lia). apply Ha. lia.
      * rewrite bool_decide_eq_true_2, !after_app, after_after by (done || lia). f_equal. apply Ha. lia.
    + intros s now' Hn. unfold triesOf. destruct (Hf s) as [[_ Hw]|[[_ Hw]|(_ & Hw & Hl)]]; [rewrite bool_decide_eq_false_2 by done; apply Hb; lia..|].
      rewrite bool_decide_eq_true_2 by done. rewrite after_app, length_app. rewrite (Ha s now) in Hl by done.
      assert (length (after (now' - bindWindow) [now]) <= 1)%nat by (unfold after; cbn; by destruct (_ <? _); cbn; lia).
      pose proof (after_le (now - bindWindow) (now' - bindWindow) (log s) ltac:(lia)). unfold bindWindow in *. lia.
Qed.

Lemma bindAllowed_tries t st log now s : agreesB t st log -> t <= now -> fst (bindAllowed s now (bt_fails st)) = (triesOf log now s <? 5)%nat.
Proof. intros [Ha _] H. unfold bindAllowed, triesOf. cbn [fst]. fold (failsOf st s). by rewrite Ha. Qed.
End limiter.

(** C35: a Telegram account is bound only by a live code, and codes cannot be
    guessed faster than five in fifteen minutes.  In any history of messages, with
    the store changed by others in between: a message changes users of a store that
    can be written only in three ways, and nothing else in it: "/start" with the code of a user,
    issued at most ten minutes ago, from a sender with less than five wrong codes
    in the last fifteen minutes, binds this user to the sender and spends the code;
    "/config" from the account a user is bound to gives him a subscription token he
    lacks; and "/link" from an administrator issues a code to the user he names.
    No sender ever has more than five wrong codes looked up in fifteen minutes,
    and he is refused exactly when he has five. *)
Theorem bot_binding_exact `{CF : !UnicodeCase} cfg t st log now dr m sf :
  botHistory cfg t st log -> t <= now -> writable (bt_store st) -> base (bt_store st) = Some sf -> NoDup (keys (sf_Users sf)) ->
  let st' := snd (handleMessage cfg now dr m st) in
  (writable (bt_store st') /\ exists sf', base (bt_store st') = Some sf' /\ NoDup (keys (sf_Users sf')) /\ usersOnly sf sf' /\
     usersChange (userChange cfg now dr m (triesOf log now)) (sf_Users sf) (sf_Users sf')) /\
  (forall s, (triesOf log now s <= 5)%nat) /\
  (forall from code, msg_From m = Some from -> commandOf (msg_Text m) = Some ("/start", code) -> code <> "" -> triesOf log now from = 5%nat ->
     handleMessage cfg now dr m st = ([(msg_Chat m, CodeNotFound)], st')) .
Proof.
  intros H Hle Hw Hb Hn. pose proof (history_agreesB cfg t st log H) as HA. split; [|split].
  - apply handleMessage_wellDone; try done. intros from. by apply (bindAllowed_tries t).
  - intros s. by apply (ab_bound t st log HA).
  - intros from code Hf Hc Hne H5. unfold handleMessage. rewrite Hf, Hc. change ("/start" == "/start") with true. cbv iota zeta.
    unfold handleStart. rewrite bool_decide_eq_false_2 by done. pose proof (bindAllowed_tries t st log now from HA Hle) as E. rewrite H5 in E.
    destruct (bindAllowed from now (bt_fails st)) as [ok fails]. cbn [fst] in E. by subst ok.
Qed.

(** ** Lemmas: the tick *)

(** A user whose deadline passes has expired from then on. *)
Lemma deadline_expires now now' u : deadlinePassed now u = true -> User_Active u = true -> now <= now' -> User_ActivationDeadline u < now' ->
  ComputeStatus now' (u <| User_ExpiresAt := User_ActivationDeadline u |>) = "expired".
Proof.
  unfold deadlinePassed. intros [[H1 H2]%andb_true_iff _]%andb_true_iff Ha _ Hlt. apply negb_true_iff, orb_false_iff in H1 as [H1 _]. apply negb_true_iff, orb_false_iff in H2 as [H2 _].
  apply negb_false_iff, bool_decide_eq_true in H1. unfold ComputeStatus, IsExpired.
  change (User_Active (u <| User_ExpiresAt := User_ActivationDeadline u |>)) with (User_Active u).
  change (User_ExpireStrategy (u <| User_ExpiresAt := User_ActivationDeadline u |>)) with (User_ExpireStrategy u).
  change (User_ExpiresAt (u <| User_ExpiresAt := User_ActivationDeadline u |>)) with (User_ActivationDeadline u).
  rewrite Ha, H1, H2. cbn [negb]. apply Z.ltb_lt in Hlt as ->. reflexivity.
Qed.

(** A user is warned once of an end: later ticks leave him alone until his end moves. *)
Lemma warned_once now now' u : dueWarning now u = true -> User_ExpiresAt u - warnWindow < now -> IsZero now = false ->
  dueWarning now' (u <| User_ExpiryNotifiedAt := now |>) = false.
Proof.
  intros _ Hlt Hz. unfold dueWarning. apply andb_false_iff. right.
  change (User_ExpiryNotifiedAt (u <| User_ExpiryNotifiedAt := now |>)) with now.
  change (User_ExpiresAt (u <| User_ExpiryNotifiedAt := now |>)) with (User_ExpiresAt u). apply Z.ltb_lt in Hlt as ->. by rewrite Hz.
Qed.

(** ** Lemmas: the unit of a number of bytes *)

Lemma unit_next e : 1024 ^ (Z.of_nat e + 2) = 1024 * 1024 ^ (Z.of_nat e + 1).
Proof. replace (Z.of_nat e + 2) with (Z.succ (Z.of_nat e + 1)) by lia. rewrite Z.pow_succ_r; lia. Qed.

(** Below 2^63 there is no seventh unit. *)
Lemma unit_bound n e : n < 2 ^ 63 -> 1024 ^ (Z.of_nat e + 2) <= n -> (e <= 4)%nat.
Proof.
  intros Hn Hle. destruct (decide (e <= 4)%nat) as [|He]; [done|]. exfalso.
  assert (1024 ^ 7 <= 1024 ^ (Z.of_nat e + 2)) by (apply Z.pow_le_mono_r; lia). change (1024 ^ 7) with (2 ^ 70) in *.
  assert (2 ^ 63 < 2 ^ 70) by (vm_compute; reflexivity). lia.
Qed.

Lemma unitLoop_spec n fuel : 0 <= n < 2 ^ 63 -> forall e, (e <= 5)%nat -> (5 <= fuel + e)%nat -> 1024 ^ (Z.of_nat e + 1) <= n ->
  exists e', unitLoop fuel (n / 1024 ^ (Z.of_nat e + 1)) (1024 ^ (Z.of_nat e + 1)) e = Some (1024 ^ (Z.of_nat e' + 1), e') /\
    (e' <= 5)%nat /\ 1024 ^ (Z.of_nat e' + 1) <= n < 1024 ^ (Z.of_nat e' + 2).
Proof.
  intros Hn. induction fuel as [|fuel IH]; intros e He Hf Hle; pose proof (unit_next e) as Hs; set (d := 1024 ^ (Z.of_nat e + 1)) in *;
    assert (0 < d) as Hp by (apply Z.pow_pos_nonneg; lia); pose proof (Z.mul_succ_div_gt n d Hp) as H1; pose proof (Z.mul_div_le n d Hp) as H2;
    unfold unitLoop; fold unitLoop; destruct (n / d <? 1024) eqn:El.
  1,3: apply Z.ltb_lt in El; exists e; (split; [done|]); (split; [done|]); rewrite Hs; fold d; nia.
  all: apply Z.ltb_ge in El; assert (1024 ^ (Z.of_nat e + 2) <= n) as Hb by (rewrite Hs; nia); pose proof (unit_bound n e (proj2 Hn) Hb) as He'; try lia.
  rewrite Z.quot_div_nonneg, Z.div_div by lia. replace (d * 1024) with (1024 ^ (Z.of_nat (S e) + 1)).
  2: { replace (Z.of_nat (S e) + 1) with (Z.of_nat e + 2) by lia. lia. }
  rewrite wrap64_id; [apply IH; [lia|lia|]|]; replace (Z.of_nat (S e) + 1) with (Z.of_nat e + 2) by lia; [done|]. split; [|lia].
  pose proof (Z.pow_nonneg 1024 (Z.of_nat e + 2)). lia.
Qed.

(** Every [int64] of at least 1024 has a letter, and the divisor is its unit: the
    index never leaves the letters and nothing overflows. *)
Lemma humanUnit_spec n : 1024 <= n < 2 ^ 63 -> exists e c, humanUnit n = Some (1024 ^ (Z.of_nat e + 1), c) /\
  String.get e "KMGTPE" = Some c /\ 1024 ^ (Z.of_nat e + 1) <= n < 1024 ^ (Z.of_nat e + 2).
Proof.
  intros Hn. destruct (unitLoop_spec n 64 ltac:(lia) 0) as (e & E & He & Hb); [lia|lia|cbn; lia|]. unfold humanUnit.
  rewrite Z.quot_div_nonneg by lia. change (unitLoop 64 (n / 1024) 1024 0) with (unitLoop 64 (n / 1024 ^ (Z.of_nat 0 + 1)) (1024 ^ (Z.of_nat 0 + 1)) 0).
  rewrite E. do 6 (destruct e as [|e]; [by do 2 eexists|]). lia.
Qed.

(** ** Examples *)

#[local] Existing Instance asciiCase.

Definition fleetBot : TelegramBotConfig := mkTelegramBotConfig true "token" [1] 9.
Definition botStore (us : list User) : World := mkWorld (Some (Plain (newStoreFile <| sf_Users := us |>))) None None None [] None.
Definition annWithCode : User :=
  zeroUser <| User_ID := "u1" |> <| User_Name := "Ann" |> <| User_CreatedAt := 1 |> <| User_TelegramBindCode := "ab12" |> <| User_TelegramBindCodeAt := oneHour |>.
Definition startCode (code : string) : Message := mkMessage (Some 7) 7 ("/start " +:+ code).
Definition drawn : Drawn := mkDrawn (Some "cd34") (Some "tok").

Lemma bot_binding_exact_witness :
  let st := mkBotState (botStore [annWithCode]) ∅ in let sf := newStoreFile <| sf_Users := [annWithCode] |> in
  let now := oneHour + 5 * oneMinute in let m := startCode "AB12" in let log := fun _ : Z => @nil Time in
  let st' := snd (handleMessage fleetBot now drawn m st) in
  fst (handleMessage fleetBot now drawn m st) = [(7, Bound "Ann")] /\ botUsers (bt_store st') = [boundTo 7 annWithCode] /\
  ((writable (bt_store st') /\ exists sf', base (bt_store st') = Some sf' /\ NoDup (keys (sf_Users sf')) /\ usersOnly sf sf' /\
     usersChange (userChange fleetBot now drawn m (triesOf log now)) (sf_Users sf) (sf_Users sf')) /\
  (forall s, (triesOf log now s <= 5)%nat) /\
  (forall from code, msg_From m = Some from -> commandOf (msg_Text m) = Some ("/start", code) -> code <> "" -> triesOf log now from = 5%nat ->
     handleMessage fleetBot now drawn m st = ([(msg_Chat m, CodeNotFound)], st'))).
Proof.
  intros st sf now m log st'. split; [vm_compute; reflexivity|]. split; [vm_compute; reflexivity|].
  apply (bot_binding_exact fleetBot 0 st log now drawn m sf); [apply bh_start|vm_compute; discriminate|by split|reflexivity|].
  apply NoDup_cons. split; [apply not_elem_of_nil|apply NoDup_nil_2].
Defined.

(** ** Divergences *)

(** The deadline is enforced again at every tick: the user is saved and the audit
    log gets an entry each hour. *)
Lemma deadline_enforced_again now u : deadlinePassed now u = true -> User_ActivationDeadline u < now ->
  deadlinePassed now (u <| User_ExpiresAt := User_ActivationDeadline u |>) = true.
Proof.
  unfold deadlinePassed. intros [[H1 H2]%andb_true_iff _]%andb_true_iff Hlt.
  change (User_ExpireStrategy (u <| User_ExpiresAt := User_ActivationDeadline u |>)) with (User_ExpireStrategy u).
  change (User_FirstUseAt (u <| User_ExpiresAt := User_ActivationDeadline u |>)) with (User_FirstUseAt u).
  change (User_ActivationDeadline (u <| User_ExpiresAt := User_ActivationDeadline u |>)) with (User_ActivationDeadline u).
  change (User_ExpiresAt (u <| User_ExpiresAt := User_ActivationDeadline u |>)) with (User_ActivationDeadline u).
  apply Z.ltb_lt in Hlt. rewrite H1, H2, Hlt. cbn [negb andb]. by rewrite andb_false_r.
Qed.

(** A user with a date in the future does not expire at his deadline. *)
Lemma deadline_waits_for_date :
  deadlinePassed (10 * oneHour) (zeroUser <| User_ExpireStrategy := "start_on_first_use" |> <| User_ActivationDeadline := oneHour |> <| User_ExpiresAt := 20 * oneHour |>) = false.
Proof. vm_compute. reflexivity. Qed.

(** A user who never expires is warned of his date. *)
Lemma never_user_warned :
  let u := zeroUser <| User_Active := true |> <| User_Name := "Ann" |> <| User_ExpireStrategy := "never" |> <| User_ExpiresAt := 20 * oneHour |> in
  fst (warnUser fleetBot (10 * oneHour) u (botStore [u])) = [(9, ExpiryWarning "Ann" (20 * oneHour))] /\ ComputeStatus (30 * oneHour) u = "active".
Proof. vm_compute. auto. Qed.

(** A user who was warned late gets no warning of an end that is moved by a day. *)
Lemma extension_not_warned now :
  dueWarning now (zeroUser <| User_Active := true |> <| User_ExpiresAt := 124 * oneHour |> <| User_ExpiryNotifiedAt := 90 * oneHour |>) = false.
Proof.
  unfold dueWarning. apply andb_false_iff. right. vm_compute. reflexivity.
Qed.

(** The links of a user go to the chat of the message, which can be a group. *)
Definition annBound : User := zeroUser <| User_ID := "u1" |> <| User_Name := "Ann" |> <| User_TelegramID := 7 |> <| User_CreatedAt := 1 |>.
Lemma config_answered_in_group :
  fst (handleMessage fleetBot oneHour drawn (mkMessage (Some 7) (-100) "/config") (mkBotState (botStore [annBound <| User_SubscriptionToken := "secret" |>]) ∅)) =
    [(-100, ConfigNoNodes "secret")].
Proof. vm_compute. reflexivity. Qed.

(** A token that cannot be saved is sent all the same. *)
Lemma unsaved_token_sent :
  let w := (botStore [annBound]) <| w_fault := Some WriteTemp |> in
  let '(r, w') := handleConfig oneHour drawn 7 w in r = ConfigNoNodes "tok" /\ map User_SubscriptionToken (botUsers w') = [""].
Proof. vm_compute. auto. Qed.

(** An account can be bound to two users; the commands only know the first. *)
Lemma second_binding_unreachable :
  let bob := zeroUser <| User_ID := "u2" |> <| User_Name := "Bob" |> <| User_CreatedAt := 1 |> <| User_TelegramBindCode := "ab12" |> <| User_TelegramBindCodeAt := oneHour |> in
  let '(sent, st) := handleMessage fleetBot oneHour drawn (startCode "ab12") (mkBotState (botStore [annBound; bob]) ∅) in
  sent = [(7, Bound "Bob")] /\ option_map User_Name (userByTelegram 7 (bt_store st)) = Some "Ann".
Proof. vm_compute. auto. Qed.
