(* ===== verification/WebForm.v ===== *)
(** * WebForm: what the handlers of the panel read from a form

    The accessors of net/http for a parsed form (internal/web), the dates of
    its date fields, and what a handler schedules (chain/autoapply.go,
    [ScheduleAutoApply]): a deploy of a node, which reads the store at some time
    after it was scheduled. *)

From S2P Require Import Prelude GoStrings Model StoreCore.

(** ** Forms *)

(** [r.Form] after [ParseForm]; a handler gets [None] when that fails. *)
Definition Form : Type := gmap string (list string).

(** [r.Form[key]], [r.FormValue(key)]. *)
Definition FormList (f : Form) (key : string) : list string := default [] (f !! key).
Definition FormValue (f : Form) (key : string) : string := match FormList f key with v :: _ => v | [] => "" end.
Definition FormTrim (f : Form) (key : string) : string := TrimSpace (FormValue f key).
(** A checkbox. *)
Definition FormOn (f : Form) (key : string) : bool := FormValue f key == "on".
(** The values of a key without the blank ones. *)
Definition FormNonBlank (f : Form) (key : string) : list string := List.filter (fun v => v != "") (map TrimSpace (FormList f key)).

(** ** Dates *)

Definition isLeap (y : Z) : bool := (y `mod` 4 =? 0) && (negb (y `mod` 100 =? 0) || (y `mod` 400 =? 0)).
Definition daysIn (y m : Z) : Z :=
  if m =? 2 then (if isLeap y then 29 else 28) else if (m =? 4) || (m =? 6) || (m =? 9) || (m =? 11) then 30 else 31.
(** The days before a year, and before a month of it. *)
Definition daysBeforeYear (y : Z) : Z := let p := y - 1 in 365 * p + p / 4 - p / 100 + p / 400.
Fixpoint daysBeforeMonth (y : Z) (m : nat) : Z := match m with O | S O => 0 | S m' => daysBeforeMonth y m' + daysIn y (Z.of_nat m') end.
Definition dayNumber (y m d : Z) : Z := daysBeforeYear y + daysBeforeMonth y (Z.to_nat m) + d - 1.
(** [time.Date(y, m, d, 0, ...)] in UTC: 1 January of year 1 is the zero time. *)
Definition dateTime (y m d : Z) : Time := zeroTime + dayNumber y m d * (86400 * 10 ^ 9).

(** Exactly [n] digits, and what follows. *)
Fixpoint digitsOf (n : nat) (acc : Z) (s : string) : option (Z * string) :=
  match n, s with
  | O, _ => Some (acc, s)
  | S n', String c s' =>
      let k := Z.of_nat (Ascii.nat_of_ascii c) - 48 in if (0 <=? k) && (k <=? 9) then digitsOf n' (10 * acc + k) s' else None
  | S _, EmptyString => None
  end.
Definition dash (s : string) : option string := match s with String "-" s' => Some s' | _ => None end.

(** [time.Parse("2006-01-02", s)]. *)
Definition ParseDate (s : string) : option Time :=
  match digitsOf 4 0 s with
  | Some (y, s) =>
      match dash s with
      | Some s =>
          match digitsOf 2 0 s with
          | Some (m, s) =>
              if (m <=? 0) || (12 <? m) then None
              else
                match dash s with
                | Some s =>
                    match digitsOf 2 0 s with
                    | Some (d, "") => if (d <? 1) || (daysIn y m <? d) then None else Some (dateTime y m d)
                    | _ => None
                    end
                | None => None
                end
          | None => None
          end
      | None => None
      end
  | None => None
  end.
(** Its first result when the error is dropped. *)
Definition parseDate0 (s : string) : Time := default zeroTime (ParseDate s).

(** ** What is scheduled *)

(** A deploy of a node with its reason, and the store when it was scheduled: the
    deploy reads this store or a later one. *)
Record Scheduled := mkScheduled { sch_node : string; sch_reason : string; sch_store : World }.
Definition ScheduleAutoApply (nodeID reason : string) (w : World) : list Scheduled := if nodeID == "" then [] else [mkScheduled nodeID reason w].

(** ** Lemmas *)

Lemma daysIn_pos y m : 28 <= daysIn y m <= 31.
Proof. unfold daysIn. repeat case_match; lia. Qed.

(** A year has 365 days, or 366. *)
Lemma daysBeforeYear_succ y : daysBeforeYear (y + 1) = daysBeforeYear y + if isLeap y then 366 else 365.
Proof.
  unfold daysBeforeYear, isLeap. cbv zeta. replace (y + 1 - 1) with y by lia.
  assert (exists p, y = p + 1) as [p ->] by (exists (y - 1); lia). replace (p + 1 - 1) with p by lia.
  assert (forall k, 0 < k -> (p + 1) / k = p / k + if (p + 1) `mod` k =? 0 then 1 else 0) as H.
  { intros k Hk. destruct ((p + 1) `mod` k =? 0) eqn:E.
    - apply Z.eqb_eq in E. apply Z.div_exact in E; [|lia]. symmetry. assert (p / k = (p + 1) / k - 1); [|lia].
      symmetry. apply (Z.div_unique p k _ (k - 1)); lia.
    - apply Z.eqb_neq in E. rewrite Z.add_0_r. apply (Z.div_unique p k _ ((p + 1) `mod` k - 1)).
      + left. pose proof (Z.mod_pos_bound (p + 1) k Hk). lia.
      + pose proof (Z.div_mod (p + 1) k). lia. }
  rewrite !H by lia.
  assert (forall a b, 0 < b -> (b | a) -> 0 < a -> (p + 1) `mod` a = 0 -> (p + 1) `mod` b = 0) as Hd.
  { intros a b Hb Hab Ha E. apply Z.mod_divide in E; [|lia]. apply Z.mod_divide; [lia|]. by etransitivity. }
  pose proof (Hd 400 100 ltac:(lia) ltac:(by exists 4) ltac:(lia)) as H1. pose proof (Hd 100 4 ltac:(lia) ltac:(by exists 25) ltac:(lia)) as H2.
  destruct ((p + 1) `mod` 4 =? 0) eqn:E4, ((p + 1) `mod` 100 =? 0) eqn:E100, ((p + 1) `mod` 400 =? 0) eqn:E400; cbn [andb negb orb];
    rewrite ?Z.eqb_eq, ?Z.eqb_neq in *; try lia; exfalso; tauto.
Qed.

(** The day after a day: the next one of its month, or the first of the next. *)
Lemma dayNumber_month y m : 1 <= m -> dayNumber y (m + 1) 1 = dayNumber y m (daysIn y m) + 1.
Proof.
  intros Hm. unfold dayNumber. destruct (Z.to_nat m) as [|k] eqn:E; [lia|]. replace (Z.to_nat (m + 1)) with (S (S k)) by lia.
  assert (Z.of_nat (S k) = m) as Ek by lia. change (daysBeforeMonth y (S (S k))) with (daysBeforeMonth y (S k) + daysIn y (Z.of_nat (S k))). rewrite Ek. lia.
Qed.
Lemma dayNumber_year y : dayNumber (y + 1) 1 1 = dayNumber y 12 31 + 1.
Proof.
  unfold dayNumber. change (daysBeforeMonth (y + 1) (Z.to_nat 1)) with 0. rewrite daysBeforeYear_succ.
  change (Z.to_nat 12) with 12%nat. cbn [daysBeforeMonth]. unfold daysIn.
  generalize (daysBeforeYear y) as b. intros b. destruct (isLeap y); cbv -[Z.add Z.sub]; lia.
Qed.

Lemma digitsOf_bound n s acc v rest : 0 <= acc -> digitsOf n acc s = Some (v, rest) -> acc * 10 ^ Z.of_nat n <= v < (acc + 1) * 10 ^ Z.of_nat n.
Proof.
  revert s acc. induction n as [|n IH]; intros s acc Ha; cbn [digitsOf].
  - intros [= -> _]. cbn. lia.
  - destruct s as [|c s]; [done|]. cbv zeta. destruct (_ && _) eqn:E; [|done]. apply andb_true_iff in E as [H1%Z.leb_le H2%Z.leb_le].
    intros H%IH; [|lia]. rewrite Nat2Z.inj_succ, Z.pow_succ_r by lia. nia.
Qed.

(** A date that is accepted is a real one, at midnight. *)
Lemma ParseDate_date s t : ParseDate s = Some t -> exists y m d, 0 <= y <= 9999 /\ 1 <= m <= 12 /\ 1 <= d <= daysIn y m /\ t = dateTime y m d.
Proof.
  unfold ParseDate. destruct (digitsOf 4 0 s) as [[y s1]|] eqn:Ey; [|done]. destruct (dash s1) as [s2|]; [|done].
  destruct (digitsOf 2 0 s2) as [[m s3]|]; [|done]. destruct (_ || _) eqn:Em; [done|]. apply orb_false_iff in Em as [H1%Z.leb_gt H2%Z.ltb_ge].
  destruct (dash s3) as [s4|]; [|done]. destruct (digitsOf 2 0 s4) as [[d [|]]|]; [|done..].
  destruct (_ || _) eqn:Ed; [done|]. apply orb_false_iff in Ed as [H3%Z.ltb_ge H4%Z.ltb_ge]. intros [= <-].
  apply digitsOf_bound in Ey; [|lia]. cbn in Ey. exists y, m, d. split_and!; try done; lia.
Qed.

Example parse_epoch : ParseDate "1970-01-01" = Some 0.
Proof. vm_compute. reflexivity. Qed.
Example parse_leap : (ParseDate "2024-02-29" != None) && (ParseDate "2023-02-29" == None) && (ParseDate "2024-13-01" == None) && (ParseDate "2024-1-01" == None) = true.
Proof. vm_compute. reflexivity. Qed.
Example parse_zero : ParseDate "0001-01-01" = Some zeroTime.
Proof. vm_compute. reflexivity. Qed.
