(* ===== verification/WebUsers.v ===== *)
(** * WebUsers: the user pages of the panel

    internal/web/users.go: the handlers that create, change, delete users and
    show their configurations, and what they schedule.  A handler is a function of the
    form, the draws of its generators and the store; it returns the reply, the
    store and the scheduled deploys.  The pages themselves are replies: one
    constructor per outcome.  Dates are in UTC. *)

From S2P Require Import Prelude GoStrings Model ChainModel Lifecycle StoreCore Store Alloc StoreSpec StoreRefine StoreUsers Presets Codec AwgMaterial AwgDeploy ConfFields ClientConf Links WebForm.

(** ** Data *)

(** What is drawn for one user: his credentials, an MTProxy secret, and the
    subscription tokens of the attempts ([None]: the generator failed). *)
Record UserDraws := mkUserDraws { ud_creds : CredGen; ud_secret : string; ud_tokens : list (option string) }.

Inductive UserReply :=
| UBadForm
| UOnlyTelemt
| UIdNameRequired
| UNotFound
| USecretUsed
| USaveFailed (e : StoreErr)
| UCreated (u : User) (subURL : string)
| URow (u : User)
| UDeleteFailed (e : StoreErr)
| UDeleted
| UBulk (created : Z) (prefix : string) (err : bool).

(** ** Helpers *)

(** [subURLHost]: the headers count only when the connection is local. *)
Definition subURLHost (host : string) (loopback : bool) (forwardedHost forwardedProto : string) : string :=
  let h := TrimSpace forwardedHost in
  let host := if loopback && (h != "") then h else host in
  let scheme := if loopback && (forwardedProto == "https") then "https" else "http" in
  scheme +:+ "://" +:+ (if host == "" then "localhost:9080" else host).

(** [takenAWGAddresses]. *)
Definition takenAWGAddresses (excludeID : string) (w : World) : Result (list string) :=
  let! users := ListUsers w in
  Ok (List.filter (fun a => a != "") (map User_AWGAddress (List.filter (fun u => User_ID u != excludeID) users))).

(** [userAWGPrefix]: the subnet of the first entry inbound that has one. *)
Definition entryPrefix (w : World) (n : ChainNode) : option string :=
  if ChainNode_InboundRef n == "" then None
  else
    match ProfileInboundOn (ChainNode_ID n) (ChainNode_InboundRef n) w with
    | None => None
    | Some ib =>
        if NodeInbound_AWGServerAddress ib == "" then None
        else match Split dot (awgIPKey (NodeInbound_AWGServerAddress ib)) with
             | [a; b; c; _] => Some (Join "." [a; b; c])
             | _ => None
             end
    end.
Fixpoint firstSome {A B} (f : A -> option B) (l : list A) : option B :=
  match l with [] => None | x :: l' => match f x with Some y => Some y | None => firstSome f l' end end.
Definition chainPrefix (w : World) (name : string) : option string :=
  match GetChain name w with
  | Ok c => match Chain_Levels c with [] => None | level :: _ => firstSome (entryPrefix w) (ChainLevel_Nodes level) end
  | Err _ => None
  end.
Definition userAWGPrefix (names : list string) (w : World) : string := default "10.8.0" (firstSome (chainPrefix w) names).

(** [deriveProtocolsFromChains]. *)
Definition entryProtocol (c : Chain) : string := if Chain_UserProtocol c == "" then "awg" else Chain_UserProtocol c.
Definition addProtocol (w : World) (out : list string) (name : string) : list string :=
  match GetChain name w with
  | Ok c => if bool_decide (entryProtocol c ∈ out) then out else out ++ [entryProtocol c]
  | Err _ => out
  end.
Definition deriveProtocolsFromChains (names : list string) (w : World) : list string := fold_left (addProtocol w) names [].

(** The protocols of the chains, or the ones given, or awg. *)
Definition withProtocols (w : World) (u : User) : User :=
  let derived := deriveProtocolsFromChains (User_ChainNames u) w in
  let u := match derived with [] => u | _ => u <| User_Protocols := derived |> end in
  match User_Protocols u with [] => u <| User_Protocols := ["awg"] |> | _ => u end.

(** The exits the form pins. *)
Definition chainExits (f : Form) (names : list string) : gmap string string :=
  fold_left (fun m cn => let exit := FormTrim f ("exit_" +:+ cn) in if exit == "" then m else <[cn := exit]> m) names ∅.

(** The credentials a user lacks. *)
Definition withAddress (w : World) (u : User) : User :=
  match takenAWGAddresses (User_ID u) w with
  | Ok taken => EnsureUserAWGAddressPrefix u taken (userAWGPrefix (User_ChainNames u) w)
  | Err _ => u
  end.
Fixpoint mintToken (w : World) (tokens : list (option string)) : string :=
  match tokens with
  | Some t :: tokens' => match GetUserBySubscriptionToken t w with Err _ => t | Ok _ => mintToken w tokens' end
  | None :: _ | [] => ""
  end.
Definition withToken (dr : UserDraws) (w : World) (u : User) : User :=
  if User_SubscriptionToken u == "" then u <| User_SubscriptionToken := mintToken w (take 3 (ud_tokens dr)) |> else u.
Definition withCreds (dr : UserDraws) (w : World) (u : User) : User := withAddress w (fst (EnsureUserCreds (ud_creds dr) u)).

(** The fields of the term and the quota. *)
Definition formStrategy (f : Form) : string := let s := FormTrim f "expire_strategy" in if s == "" then "never" else s.
Definition formExpiry (f : Form) : Time :=
  if (formStrategy f == "fixed_date") && (FormTrim f "expires_at" != "") then parseDate0 (FormTrim f "expires_at") else zeroTime.
Definition withQuota (f : Form) (u : User) : User :=
  u <| User_ExpireStrategy := formStrategy f |> <| User_ExpiresAt := formExpiry f |>
    <| User_UsageDuration := atoi0 (FormValue f "usage_duration") |> <| User_DataLimit := atoi0 (FormValue f "data_limit") |>
    <| User_DataLimitResetStrategy := FormTrim f "data_limit_reset_strategy" |>.
(** The deadline of a new user, and of one that is changed. *)
Definition formDeadline (f : Form) (u : User) : User :=
  let s := FormTrim f "activation_deadline" in
  if s == "" then u else match ParseDate s with Some t => u <| User_ActivationDeadline := t |> | None => u end.
Definition resetDeadline (f : Form) (u : User) : User :=
  if FormTrim f "activation_deadline" == "" then u <| User_ActivationDeadline := zeroTime |> else formDeadline f u.

(** [scheduleAutoApplyForUser]. *)
Definition servesUser (u : User) (ib : NodeInbound) : bool := proxyInbound ib || bool_decide (User_ID u ∈ NodeInbound_ForUsers ib).
Definition scheduleAutoApplyForUser (u : User) (reason : string) (w : World) : list Scheduled :=
  mjoin (map (fun name => match GetChain name w with
                          | Ok c => mjoin (map (fun n => ScheduleAutoApply (ChainNode_ID n) (reason +:+ ":" +:+ name) w) (Chain_Nodes c))
                          | Err _ => []
                          end) (User_ChainNames u)) ++
  mjoin (map (fun node => if existsb (servesUser u) (NodeInfo_Inbounds node) then ScheduleAutoApply (NodeInfo_ID node) (reason +:+ ":standalone") w else [])
    (match ListNodeInfos w with Ok ns => ns | Err _ => [] end)) ++
  mjoin (map (fun n => ScheduleAutoApply n (reason +:+ ":mtproxy") w) (User_MTProxyNodes u)).

(** The end of the handlers that save a user. *)
Definition saveUser (now : Time) (u : User) (reason : string) (reply : User -> UserReply) (w : World) : UserReply * World * list Scheduled :=
  match SaveUser now u w with
  | (Ok u, w') => (reply u, w', scheduleAutoApplyForUser u reason w')
  | (Err (EMtproxySecretUsed _), w') => (USecretUsed, w', [])
  | (Err e, w') => (USaveFailed e, w', [])
  end.

(** ** The handlers *)

(** The MTProxy section of the form for a new user. *)
Definition createMTProxy (dr : UserDraws) (f : Form) (u : User) : User :=
  let enabled := FormOn f "mtproxy_enabled" in
  let secret := FormTrim f "mtproxy_secret" in
  if enabled || (secret != "") then
    let domain := FormTrim f "mtproxy_domain" in
    let u := u <| User_MTProxySecret := secret |> <| User_MTProxyDomain := if domain == "" then "disk.yandex.ru" else domain |> in
    let u := match Atoi (FormTrim f "mtproxy_order_index") with Some n => u <| User_MTProxyOrderIndex := n |> | None => u end in
    let u := u <| User_MTProxyNodes := FormList f "mtproxy_nodes" |> in
    if (secret == "") && enabled then u <| User_MTProxySecret := ud_secret dr |> else u
  else u.

(** [handleCreateUser]. *)
Definition handleCreateUser (now : Time) (dr : UserDraws) (host : string) (form : option Form) (w : World) : UserReply * World * list Scheduled :=
  match form with
  | None => (UBadForm, w, [])
  | Some f =>
      let id := FormTrim f "id" in
      let name := FormTrim f "name" in
      let secretType := FormTrim f "secret_type" in
      if (secretType != "") && (secretType != "telemt") then (UOnlyTelemt, w, [])
      else if (id == "") || (name == "") then (UIdNameRequired, w, [])
      else
        let chains := FormList f "chains" in
        let u := zeroUser <| User_ID := id |> <| User_Name := name |> <| User_Telegram := FormTrim f "telegram" |>
                   <| User_Email := FormTrim f "email" |> <| User_Active := true |> <| User_Protocols := FormList f "protocols" |>
                   <| User_ChainNames := chains |> <| User_ImportedSecret := FormTrim f "imported_secret" |>
                   <| User_SecretType := secretType |> <| User_CreatedAt := now |> <| User_ChainExit := chainExits f chains |> in
        let u := createMTProxy dr f (withProtocols w u) in
        let u := formDeadline f (withQuota f u) in
        let u := withToken dr w (withCreds dr w u) in
        let u := u <| User_Status := ComputeStatus now u |> in
        saveUser now u "user create" (fun u => UCreated u (host +:+ "/sub/" +:+ User_SubscriptionToken u)) w
  end.

(** The MTProxy section for a user that is changed: the form decides. *)
Definition updateMTProxy (f : Form) (u : User) : User :=
  let secret := FormTrim f "mtproxy_secret" in
  if FormOn f "mtproxy_enabled" || (secret != "") then
    let domain := FormTrim f "mtproxy_domain" in
    let u := u <| User_MTProxySecret := secret |> <| User_MTProxyDomain := if domain == "" then "disk.yandex.ru" else domain |> in
    let u := match Atoi (FormTrim f "mtproxy_order_index") with
             | Some n => if n =? 0 then u else u <| User_MTProxyOrderIndex := n |>
             | None => u
             end in
    u <| User_MTProxyNodes := FormList f "mtproxy_nodes" |>
  else u <| User_MTProxySecret := "" |> <| User_MTProxyDomain := "" |> <| User_MTProxyOrderIndex := 0 |> <| User_MTProxyNodes := [] |>.

(** The type of an imported secret; [None]: refused. *)
Definition updateSecretType (f : Form) (u : User) : option User :=
  let new := FormTrim f "secret_type" in
  if new == "" then Some (if User_ImportedSecret u == "" then u <| User_SecretType := "" |> else u)
  else if (new != "telemt") && (new != User_SecretType u) then None
  else Some (u <| User_SecretType := new |>).

(** [handleUpdateUser]. *)
Definition handleUpdateUser (now : Time) (dr : UserDraws) (id : string) (form : option Form) (w : World) : UserReply * World * list Scheduled :=
  match form with
  | None => (UBadForm, w, [])
  | Some f =>
      match GetUser id w with
      | Err _ => (UNotFound, w, [])
      | Ok u =>
          let chains := FormList f "chains" in
          let u := u <| User_Name := FormTrim f "name" |> <| User_Telegram := FormTrim f "telegram" |> <| User_Email := FormTrim f "email" |>
                     <| User_Protocols := FormList f "protocols" |> <| User_ChainNames := chains |>
                     <| User_ImportedSecret := FormTrim f "imported_secret" |> in
          match updateSecretType f u with
          | None => (UOnlyTelemt, w, [])
          | Some u =>
              let u := updateMTProxy f (u <| User_Active := FormOn f "active" |>) in
              let u := resetDeadline f (withQuota f (u <| User_ChainExit := chainExits f chains |>)) in
              let u := withToken dr w (withCreds dr w (withProtocols w u)) in
              let u := u <| User_Status := ComputeStatus now u |> in
              saveUser now u "user update" URow w
          end
      end
  end.

(** [handleDeleteUser]: the deploys are scheduled before the user is deleted. *)
Definition handleDeleteUser (id : string) (w : World) : UserReply * World * list Scheduled :=
  let sched := match GetUser id w with Ok u => scheduleAutoApplyForUser u "user delete" w | Err _ => [] end in
  match DeleteUser id w with
  | (Ok _, w') => (UDeleted, w', sched)
  | (Err e, w') => (UDeleteFailed e, w', sched)
  end.

(** ** Many users at once *)

(** ["%02d"]. *)
Definition pad2 (n : Z) : string := if n <? 10 then "0" +:+ itoa n else itoa n.

(** What is drawn for one of them: the suffix, and the rest. *)
Definition BulkDraws : Type := nat -> string * UserDraws.

Definition day : Z := 86400 * 10 ^ 9.

(** The user with the ordinal [i]. *)
Definition bulkUser (now : Time) (dr : string * UserDraws) (prefix : string) (chains : list string) (expiresAt : Time) (limit : Z) (i : nat) (w : World) : User :=
  let ord := pad2 (Z.of_nat i) in
  let u := zeroUser <| User_ID := prefix +:+ "-" +:+ ord +:+ "-" +:+ fst dr |> <| User_Name := prefix +:+ "-" +:+ ord |> <| User_Active := true |>
             <| User_ChainNames := chains |> <| User_ExpiresAt := expiresAt |> <| User_DataLimit := limit |> <| User_CreatedAt := now |> in
  let u := withProtocols w u <| User_ExpireStrategy := if IsZero expiresAt then "never" else "fixed_date" |> in
  let u := withCreds (snd dr) w u in
  let u := match ud_tokens (snd dr) with Some t :: _ => u <| User_SubscriptionToken := t |> | _ => u end in
  u <| User_Status := ComputeStatus now u |>.

(** The loop: the number of users created. *)
Fixpoint bulkLoop (now : Time) (dr : BulkDraws) (prefix : string) (chains : list string) (expiresAt : Time) (limit : Z) (ords : list nat) (w : World)
    : Z * World * list Scheduled :=
  match ords with
  | [] => (0, w, [])
  | i :: ords' =>
      match SaveUser now (bulkUser now (dr i) prefix chains expiresAt limit i w) w with
      | (Err _, w) => bulkLoop now dr prefix chains expiresAt limit ords' w
      | (Ok u, w) =>
          let sched := scheduleAutoApplyForUser u "bulk user create" w in
          let '(n, w, scheds) := bulkLoop now dr prefix chains expiresAt limit ords' w in (n + 1, w, sched ++ scheds)
      end
  end.

(** [handleBulkCreateUsers]. *)
Definition handleBulkCreateUsers (now : Time) (dr : BulkDraws) (form : option Form) (w : World) : UserReply * World * list Scheduled :=
  match form with
  | None => (UBadForm, w, [])
  | Some f =>
      let count := atoi0 (FormTrim f "count") in
      let prefix := FormTrim f "name_prefix" in
      if (count <? 1) || (100 <? count) then (UBulk 0 "" true, w, [])
      else if prefix == "" then (UBulk 0 "" true, w, [])
      else
        let expDays := atoi0 (FormTrim f "expires_days") in
        let expiresAt := if 0 <? expDays then now + expDays * day else zeroTime in
        let limit := wrap64 (atoi0 (FormTrim f "data_limit_gb") * 1024 * 1024 * 1024) in
        let '(created, w, scheds) := bulkLoop now dr prefix (FormNonBlank f "chain_names") expiresAt limit (seq 1 (Z.to_nat count)) w in
        (UBulk created prefix (created =? 0), w, scheds)
  end.

(** ** The configurations of a user *)

(** A row of the page: where, which protocol, the link. *)
Record UserChainConfig := mkUserChainConfig { ucc_name : string; ucc_protocol : string; ucc_link : Link }.

Section config.
Context (g : CPSGen) (s : PresetState) (ss obfs : string).

(** The rows of the chains; [None] is a panic. *)
Fixpoint chainConfigs (w : World) (u : User) (version : string) (names : list string) : option (list UserChainConfig) :=
  match names with
  | [] => Some []
  | name :: names' =>
      match GetChain name w with
      | Err _ => chainConfigs w u version names'
      | Ok c =>
          match buildConnectionLink g s ss obfs w c (Some u) version, chainConfigs w u version names' with
          | Some l, Some rest => Some (mkUserChainConfig name (Chain_UserProtocol c) l :: rest)
          | _, _ => None
          end
      end
  end.

(** The rows of a node. *)
Fixpoint nodeConfigs (node : NodeInfo) (u : User) (i : nat) (ibs : list NodeInbound) : option (list UserChainConfig) :=
  match ibs with
  | [] => Some []
  | ib :: ibs' =>
      match nodeConfigs node u (S i) ibs' with
      | None => None
      | Some rest =>
          if linkedInbound u ib then
            option_map (fun l => mkUserChainConfig ("node: " +:+ NodeInfo_ID node) (NodeInbound_Protocol ib) l :: rest)
              (buildStandaloneLinkFor g s ss obfs node i ib (Some u))
          else Some rest
      end
  end.
Fixpoint nodesConfigs (u : User) (nodes : list NodeInfo) : option (list UserChainConfig) :=
  match nodes with
  | [] => Some []
  | node :: nodes' =>
      match nodeConfigs node u 0 (NodeInfo_Inbounds node), nodesConfigs u nodes' with Some l, Some rest => Some (l ++ rest) | _, _ => None end
  end.

Definition mtproxyConfig (w : World) (u : User) (nodeID : string) : option UserChainConfig :=
  option_map (mkUserChainConfig ("mtproxy: " +:+ nodeID) "mtproxy") (mtproxyNodeLink w u nodeID).

(** [handleUserConfig]: the rows, and the one that stands for none; the user
    page is not found, the outer [None] is a panic. *)
Definition noConfig (w : World) : UserChainConfig :=
  match ListChains w with
  | Ok (_ :: _) => mkUserChainConfig "unassigned" "any" (LinkComment "# Assign chains or node inbounds to this user to generate configs.")
  | _ => mkUserChainConfig "no-chains" "any" (LinkComment "# Create a chain or node inbound first, then assign it to this user.")
  end.
Definition handleUserConfig (cg : CredGen) (draw : string -> nat -> CPSGen) (now : Time) (id version : string) (w : World)
    : option (option (User * list UserChainConfig) * World) :=
  match GetUser id w with
  | Err _ => Some (None, w)
  | Ok u =>
      let '(u, w1) := persistUserCreds cg now u w in
      let nodes := match ListNodeInfos w1 with Ok ns => ns | Err _ => [] end in
      match chainConfigs w1 u (TrimSpace version) (User_ChainNames u), ensureStandaloneAWGMaterial s draw nodes w1 with
      | Some cl, Some (nodes, w2) =>
          match nodesConfigs u nodes with
          | None => None
          | Some sl =>
              let mt := if (User_MTProxySecret u != "") && negb (Nat.eqb (length (User_MTProxyNodes u)) 0)
                        then omap (mtproxyConfig w2 u) (User_MTProxyNodes u) else [] in
              let configs := cl ++ sl ++ mt in
              Some (Some (u, match configs with [] => [noConfig w2] | _ => configs end), w2)
          end
      | _, _ => None
      end
  end.

(** [handleUserQR]. *)
Definition handleUserQR (cg : CredGen) (draw : string -> nat -> CPSGen) (now : Time) (id : string) (w : World) : option (option (User * list Link) * World) :=
  match GetUser id w with
  | Err _ => Some (None, w)
  | Ok u =>
      match collectUserLinks g s ss obfs cg draw now u w with
      | Some (u, links, w) => Some (Some (u, links), w)
      | None => None
      end
  end.
End config.

(** ** Lemmas: addresses *)

(** An allocated address is one that nobody has. *)
Lemma allocate_free prefix taken : allocateAWGPeerIPInSubnet prefix taken = "" \/ awgIPKey (allocateAWGPeerIPInSubnet prefix taken) ∉ map awgIPKey taken.
Proof.
  unfold allocateAWGPeerIPInSubnet. destruct (List.find _ _) as [h|] eqn:E; [right|by left].
  apply List.find_some in E as [_ E]. apply negb_true_iff in E. intros H. apply occupiedBy_spec in H. congruence.
Qed.

Definition addressFree (us : list User) (u : User) : Prop :=
  forall v, v ∈ us -> User_ID v <> User_ID u -> User_AWGAddress v <> "" -> User_AWGAddress u <> "" -> awgIPKey (User_AWGAddress v) <> awgIPKey (User_AWGAddress u).

Lemma elem_of_taken w sf id v : base w = Some sf -> v ∈ sf_Users sf -> User_ID v <> id -> User_AWGAddress v <> "" ->
  exists taken, takenAWGAddresses id w = Ok taken /\ User_AWGAddress v ∈ taken.
Proof.
  intros Hb Hv Hne Ha. unfold takenAWGAddresses. rewrite (ListUsers_base _ _ Hb). eexists. split; [done|].
  apply list_elem_of_In, filter_In. split; [|by rewrite bool_decide_eq_false_2].
  apply list_elem_of_In, list_elem_of_fmap_2, list_elem_of_In, filter_In. split; [by apply list_elem_of_In|by rewrite bool_decide_eq_false_2].
Qed.

Lemma withAddress_free w sf u : base w = Some sf -> User_AWGAddress u = "" \/ addressFree (sf_Users sf) u -> addressFree (sf_Users sf) (withAddress w u).
Proof.
  intros Hb Hu v Hv Hne Hav. unfold withAddress in *.
  assert (forall t p, User_ID (EnsureUserAWGAddressPrefix u t p) = User_ID u) as Hid by (intros; unfold EnsureUserAWGAddressPrefix; by repeat case_match).
  assert (User_ID v <> User_ID u) as Hne' by (intros E; apply Hne; rewrite E; by case_match; rewrite ?Hid).
  destruct (elem_of_taken w sf (User_ID u) v Hb Hv Hne' Hav) as (taken & -> & Ht).
  unfold EnsureUserAWGAddressPrefix. destruct (bool_decide_reflect (User_AWGAddress u = "")) as [E|E]; cbn [negb].
  - destruct (hasProtocol u "awg"); cbn [negb]; [|by rewrite E]. cbv zeta.
    change (User_AWGAddress (u <| User_AWGAddress := ?a |>)) with a.
    set (p := if _ == "" then _ else _). intros Hn Heq. destruct (allocate_free p taken) as [He|He]; [done|].
    apply He. rewrite <- Heq. by apply list_elem_of_fmap_2.
  - intros _. destruct Hu as [|Hu]; [done|]. by apply Hu.
Qed.

(** What a user must not lose when his form is saved. *)
Definition clearFields (u : User) : User :=
  u <| User_Name := "" |> <| User_Telegram := "" |> <| User_Email := "" |> <| User_ExpiresAt := zeroTime |> <| User_Active := false |>
    <| User_Protocols := [] |> <| User_ImportedSecret := "" |> <| User_SecretType := "" |> <| User_ChainNames := [] |> <| User_AWGAddress := "" |>
    <| User_MTProxySecret := "" |> <| User_MTProxyDomain := "" |> <| User_MTProxyOrderIndex := 0 |> <| User_MTProxyNodes := [] |>
    <| User_ChainExit := ∅ |> <| User_CreatedAt := zeroTime |> <| User_SubscriptionToken := "" |> <| User_ExpireStrategy := "" |>
    <| User_UsageDuration := 0 |> <| User_ActivationDeadline := zeroTime |> <| User_DataLimit := 0 |> <| User_DataLimitResetStrategy := "" |>
    <| User_Status := "" |>.
Definition clearForm (u : User) : User := clearFields (clearCreds u).

Record keepsIdentity (u u' : User) : Prop := mkKeepsIdentity {
  ki_creds : Forall (fun f => f u <> "" -> f u' = f u) ([User_AWGAddress; User_SubscriptionToken] ++ credFields);
  ki_pub : User_AWGPrivateKey u <> "" -> User_AWGPublicKey u' = User_AWGPublicKey u;
  ki_created : User_CreatedAt u <> zeroTime -> User_CreatedAt u' = User_CreatedAt u;
  ki_rest : clearForm u' = clearForm u }.

#[export] Instance keepsIdentity_refl : Reflexive keepsIdentity.
Proof. intros u. split; [by apply Forall_true|done..]. Qed.

#[export] Instance keepsIdentity_trans : Transitive keepsIdentity.
Proof.
  intros u v w [H1 P1 C1 R1] [H2 P2 C2 R2]. rewrite Forall_forall in H1, H2. split.
  - apply Forall_forall. intros f Hf Hu. specialize (H1 f Hf Hu). rewrite <- H1. apply H2; [done|congruence].
  - intros Hu. rewrite P2; [by apply P1|]. rewrite (H1 User_AWGPrivateKey); [done| |done]. apply elem_of_app. right. in_creds.
  - intros Hu. rewrite C2; [by apply C1|]. by rewrite C1.
  - by rewrite R2.
Qed.

Ltac identity_step := split; [unfold credFields; repeat constructor; simpl; congruence|simpl; congruence|simpl; congruence|reflexivity].

Lemma creds_identity u v : keepsCreds u v -> keepsIdentity u v.
Proof.
  intros [H P R]. split; [|done| |].
  - apply Forall_app. split; [|done]. repeat constructor; intros _.
    + change (User_AWGAddress v) with (User_AWGAddress (clearCreds v)). by rewrite R.
    + change (User_SubscriptionToken v) with (User_SubscriptionToken (clearCreds v)). by rewrite R.
  - intros _. change (User_CreatedAt v) with (User_CreatedAt (clearCreds v)). by rewrite R.
  - unfold clearForm. by rewrite R.
Qed.

Lemma withProtocols_identity w u : keepsIdentity u (withProtocols w u).
Proof. unfold withProtocols. repeat case_match; identity_step. Qed.
Lemma withQuota_identity f u : keepsIdentity u (withQuota f u).
Proof. identity_step. Qed.
Lemma resetDeadline_identity f u : keepsIdentity u (resetDeadline f u).
Proof. unfold resetDeadline, formDeadline. repeat case_match; identity_step. Qed.
Lemma updateMTProxy_identity f u : keepsIdentity u (updateMTProxy f u).
Proof. unfold updateMTProxy. repeat case_match; identity_step. Qed.
Lemma updateSecretType_identity f u v : updateSecretType f u = Some v -> keepsIdentity u v.
Proof. unfold updateSecretType. repeat case_match; intros [= <-]; identity_step. Qed.
Lemma withAddress_identity w u : keepsIdentity u (withAddress w u).
Proof.
  unfold withAddress, EnsureUserAWGAddressPrefix. case_match; [|done]. destruct (bool_decide_reflect (User_AWGAddress u = "")) as [E|]; cbn [negb]; [|done].
  destruct (hasProtocol u "awg"); cbn [negb]; [|done]. cbv zeta. identity_step.
Qed.
Lemma withCreds_identity dr w u : keepsIdentity u (withCreds dr w u).
Proof. unfold withCreds. etransitivity; [apply creds_identity, EnsureUserCreds_keeps|apply withAddress_identity]. Qed.
Lemma withToken_identity dr w u : keepsIdentity u (withToken dr w u).
Proof. unfold withToken. destruct (bool_decide_reflect (User_SubscriptionToken u = "")); [identity_step|done]. Qed.
Lemma stamped_identity now u : keepsIdentity u (stamped now u).
Proof. unfold stamped. destruct (IsZero (User_CreatedAt u)) eqn:E; [|done]. apply Z.eqb_eq in E. identity_step. Qed.

Lemma identity_id u v : keepsIdentity u v -> User_ID v = User_ID u.
Proof. intros [_ _ _ R]. change (User_ID (clearForm v) = User_ID (clearForm u)). by rewrite R. Qed.
Lemma identity_field f u v : f ∈ [User_AWGAddress; User_SubscriptionToken] ++ credFields -> keepsIdentity u v -> f u <> "" -> f v = f u.
Proof. intros Hf [H _ _ _] Hu. rewrite Forall_forall in H. by apply H. Qed.

(** The user a form makes of a stored one, before it is saved. *)
Definition updatedUser (now : Time) (dr : UserDraws) (f : Form) (w : World) (u : User) : option User :=
  let chains := FormList f "chains" in
  let u := u <| User_Name := FormTrim f "name" |> <| User_Telegram := FormTrim f "telegram" |> <| User_Email := FormTrim f "email" |>
             <| User_Protocols := FormList f "protocols" |> <| User_ChainNames := chains |>
             <| User_ImportedSecret := FormTrim f "imported_secret" |> in
  match updateSecretType f u with
  | None => None
  | Some u =>
      let u := updateMTProxy f (u <| User_Active := FormOn f "active" |>) in
      let u := resetDeadline f (withQuota f (u <| User_ChainExit := chainExits f chains |>)) in
      let u := withToken dr w (withCreds dr w (withProtocols w u)) in
      Some (u <| User_Status := ComputeStatus now u |>)
  end.

Lemma handleUpdateUser_unfold now dr id f w : handleUpdateUser now dr id (Some f) w =
  match GetUser id w with
  | Err _ => (UNotFound, w, [])
  | Ok u => match updatedUser now dr f w u with None => (UOnlyTelemt, w, []) | Some u => saveUser now u "user update" URow w end
  end.
Proof. unfold handleUpdateUser, updatedUser. destruct (GetUser id w); [|done]. cbv zeta. by destruct (updateSecretType f _). Qed.

Lemma updatedUser_identity now dr f w u v : updatedUser now dr f w u = Some v -> keepsIdentity u v.
Proof.
  unfold updatedUser. cbv zeta. destruct (updateSecretType f _) as [u1|] eqn:E; [|done]. apply updateSecretType_identity in E. intros [= <-].
  etransitivity; [|etransitivity; [exact E|]]; [identity_step|]. clear E u. rename u1 into u.
  match goal with |- keepsIdentity u (?v <| User_Status := _ |>) => transitivity v; [|identity_step] end.
  etransitivity; [|apply withToken_identity]. etransitivity; [|apply withCreds_identity]. etransitivity; [|apply withProtocols_identity].
  etransitivity; [|apply resetDeadline_identity]. etransitivity; [|apply withQuota_identity].
  match goal with |- keepsIdentity u (?v <| User_ChainExit := _ |>) => transitivity v; [|identity_step] end.
  etransitivity; [|apply updateMTProxy_identity]. identity_step.
Qed.

(** ** Lemmas: what the form says *)

Definition formView (u : User) :=
  (User_Name u, User_Telegram u, User_Email u, User_ChainNames u, User_Active u, User_ChainExit u, User_ExpiresAt u, User_ExpireStrategy u, User_DataLimit u).

Lemma view_protocols w u : formView (withProtocols w u) = formView u.
Proof. unfold withProtocols. by repeat case_match. Qed.
Lemma view_creds dr w u : formView (withCreds dr w u) = formView u.
Proof.
  unfold withCreds, withAddress, EnsureUserAWGAddressPrefix. destruct (EnsureUserCreds_keeps (ud_creds dr) u) as [_ _ R].
  transitivity (formView (clearCreds (fst (EnsureUserCreds (ud_creds dr) u)))); [by repeat case_match|by rewrite R].
Qed.
Lemma view_token dr w u : formView (withToken dr w u) = formView u.
Proof. unfold withToken. by case_match. Qed.
Lemma view_deadline f u : formView (resetDeadline f u) = formView u.
Proof. unfold resetDeadline, formDeadline. by repeat case_match. Qed.
Lemma view_mtproxy f u : formView (updateMTProxy f u) = formView u.
Proof. unfold updateMTProxy. by repeat case_match. Qed.
Lemma view_secret f u v : updateSecretType f u = Some v -> formView v = formView u.
Proof. unfold updateSecretType. by repeat case_match; intros [= <-]. Qed.
Lemma view_stamped now u : formView (stamped now u) = formView u.
Proof. unfold stamped. by case_match. Qed.

Lemma status_stamped now u : ComputeStatus now (stamped now u) = ComputeStatus now u /\ User_Status (stamped now u) = User_Status u.
Proof. unfold stamped. by case_match. Qed.

Lemma updatedUser_view now dr f w u v : updatedUser now dr f w u = Some v ->
  formView v = (FormTrim f "name", FormTrim f "telegram", FormTrim f "email", FormList f "chains", FormOn f "active", chainExits f (FormList f "chains"),
                formExpiry f, formStrategy f, atoi0 (FormValue f "data_limit")) /\ User_Status v = ComputeStatus now v.
Proof.
  unfold updatedUser. cbv zeta. destruct (updateSecretType f _) as [u1|] eqn:E; [|done]. apply view_secret in E. intros [= <-]. split; [|done].
  match goal with |- formView (?x <| User_Status := ?st |>) = _ => change (formView (x <| User_Status := st |>)) with (formView x) end.
  rewrite view_token, view_creds, view_protocols, view_deadline.
  set (u2 := updateMTProxy f (u1 <| User_Active := FormOn f "active" |>)).
  assert (formView u2 = formView (u1 <| User_Active := FormOn f "active" |>)) as E2 by apply view_mtproxy.
  injection E. injection E2. intros. unfold formView, withQuota. cbn in *. congruence.
Qed.

(** ** Lemmas: the schedule *)

(** The nodes a user is served by. *)
Definition servedOn (u : User) (w : World) (id : string) : Prop :=
  (exists name c n, name ∈ User_ChainNames u /\ GetChain name w = Ok c /\ n ∈ Chain_Nodes c /\ ChainNode_ID n = id) \/
  (exists nodes node ib, ListNodeInfos w = Ok nodes /\ node ∈ nodes /\ NodeInfo_ID node = id /\ ib ∈ NodeInfo_Inbounds node /\
     (proxyInbound ib = true \/ User_ID u ∈ NodeInbound_ForUsers ib)) \/
  id ∈ User_MTProxyNodes u.

Lemma elem_of_ScheduleAutoApply s id r w : s ∈ ScheduleAutoApply id r w <-> id <> "" /\ s = mkScheduled id r w.
Proof. unfold ScheduleAutoApply. destruct (bool_decide_reflect (id = "")); [|rewrite list_elem_of_singleton]; set_solver. Qed.

Lemma elem_of_mjoin_map {A B} (f : A -> list B) l x : x ∈ mjoin (map f l) <-> exists y, y ∈ l /\ x ∈ f y.
Proof.
  rewrite list_elem_of_join. setoid_rewrite list_elem_of_fmap. naive_solver.
Qed.

Lemma schedule_spec u reason w :
  let scheds := scheduleAutoApplyForUser u reason w in
  (forall s, s ∈ scheds -> sch_store s = w) /\ (forall id, id <> "" -> id ∈ map sch_node scheds <-> servedOn u w id).
Proof.
  cbv zeta. unfold scheduleAutoApplyForUser. split.
  - intros s. rewrite !elem_of_app, !elem_of_mjoin_map. intros [(name & _ & H)|[(node & _ & H)|(n & _ & H)]].
    + destruct (GetChain name w); [|by apply not_elem_of_nil in H]. apply elem_of_mjoin_map in H as (n & _ & [_ ->]%elem_of_ScheduleAutoApply). done.
    + destruct (existsb _ _); [|by apply not_elem_of_nil in H]. by apply elem_of_ScheduleAutoApply in H as [_ ->].
    + by apply elem_of_ScheduleAutoApply in H as [_ ->].
  - intros id Hid. rewrite list_elem_of_fmap. split.
    + intros (s & -> & Hs). revert Hs. rewrite !elem_of_app, !elem_of_mjoin_map. intros [(name & Hn & H)|[(node & Hn & H)|(n & Hn & H)]].
      * left. destruct (GetChain name w) as [c|] eqn:Ec; [|by apply not_elem_of_nil in H]. apply elem_of_mjoin_map in H as (n & Hc & [_ ->]%elem_of_ScheduleAutoApply).
        by exists name, c, n.
      * right. left. destruct (existsb _ _) eqn:Ee; [|by apply not_elem_of_nil in H]. apply elem_of_ScheduleAutoApply in H as [_ ->].
        apply existsb_exists in Ee as (ib & Hi%list_elem_of_In & Hs). destruct (ListNodeInfos w) as [nodes|]; [|by apply not_elem_of_nil in Hn].
        exists nodes, node, ib. split_and!; try done. unfold servesUser in Hs. apply orb_true_iff in Hs as [Hs|Hs]; [by left|right; by apply bool_decide_eq_true in Hs].
      * right. right. by apply elem_of_ScheduleAutoApply in H as [_ ->].
    + intros [(name & c & n & Hn & Hc & Hin & <-)|[(nodes & node & ib & Hl & Hn & <- & Hi & Hs)|Hn]].
      * eexists. split; [|rewrite !elem_of_app, !elem_of_mjoin_map; left; exists name; split; [done|]; rewrite Hc; apply elem_of_mjoin_map; exists n; split; [done|];
          apply elem_of_ScheduleAutoApply; by split]. done.
      * eexists. split; [|rewrite !elem_of_app, !elem_of_mjoin_map; right; left; rewrite Hl; exists node; split; [done|]].
        2: { assert (existsb (servesUser u) (NodeInfo_Inbounds node) = true) as ->.
             { apply existsb_exists. exists ib. split; [by apply list_elem_of_In|]. unfold servesUser. apply orb_true_iff. destruct Hs; [by left|right; by apply bool_decide_eq_true]. }
             apply elem_of_ScheduleAutoApply. by split. }
        done.
      * eexists. split; [|rewrite !elem_of_app, !elem_of_mjoin_map; do 2 right; exists id; split; [done|]; apply elem_of_ScheduleAutoApply; by split]. done.
Qed.

(** ** Properties of the handlers *)

Lemma bump_users us sf : sf_Users (bump (sf <| sf_Users := us |>)) = us.
Proof. done. Qed.

Lemma find_saved (v : User) us k : find_key k (upsert v us) = if k == User_ID v then Some v else find_key k us.
Proof.
  destruct (bool_decide_reflect (k = User_ID v)) as [->|Hne].
  - apply (find_upsert_eq v us).
  - by apply find_upsert_ne.
Qed.

(** The outcomes of the end of a handler on a store that can be written. *)
Lemma saveUser_cases now u reason reply w sf : writable w -> base w = Some sf ->
  (exists w', saveUser now u reason reply w = (reply (stamped now u), w', scheduleAutoApplyForUser (stamped now u) reason w') /\ writable w' /\
     base w' = Some (bump (sf <| sf_Users := upsert (stamped now u) (sf_Users sf) |>))) \/
  saveUser now u reason reply w = (USecretUsed, w, []).
Proof.
  intros Hw Hb. unfold saveUser. destruct (SaveUser_writable now u w sf Hw Hb) as [(w' & -> & Hw' & Hb')|[n ->]]; [left|by right].
  by exists w'.
Qed.


(** The user a form makes. *)
Definition createdUser (now : Time) (dr : UserDraws) (f : Form) (w : World) : User :=
  let chains := FormList f "chains" in
  let u := zeroUser <| User_ID := FormTrim f "id" |> <| User_Name := FormTrim f "name" |> <| User_Telegram := FormTrim f "telegram" |>
             <| User_Email := FormTrim f "email" |> <| User_Active := true |> <| User_Protocols := FormList f "protocols" |>
             <| User_ChainNames := chains |> <| User_ImportedSecret := FormTrim f "imported_secret" |>
             <| User_SecretType := FormTrim f "secret_type" |> <| User_CreatedAt := now |> <| User_ChainExit := chainExits f chains |> in
  let u := formDeadline f (withQuota f (createMTProxy dr f (withProtocols w u))) in
  let u := withToken dr w (withCreds dr w u) in
  u <| User_Status := ComputeStatus now u |>.

Definition acceptable (f : Form) : bool :=
  ((FormTrim f "secret_type" == "") || (FormTrim f "secret_type" == "telemt")) && (FormTrim f "id" != "") && (FormTrim f "name" != "").

Lemma handleCreateUser_unfold now dr host f w : handleCreateUser now dr host (Some f) w =
  if acceptable f then saveUser now (createdUser now dr f w) "user create" (fun u => UCreated u (host +:+ "/sub/" +:+ User_SubscriptionToken u)) w
  else (if (FormTrim f "secret_type" == "") || (FormTrim f "secret_type" == "telemt") then UIdNameRequired else UOnlyTelemt, w, []).
Proof.
  unfold handleCreateUser, acceptable. cbv zeta.
  destruct (FormTrim f "secret_type" == "") eqn:E1, (FormTrim f "secret_type" == "telemt") eqn:E2, (FormTrim f "id" == "") eqn:E3, (FormTrim f "name" == "") eqn:E4;
    cbn [negb andb orb]; done.
Qed.

(** The steps that complete a user do not touch these. *)
Definition rowView (u : User) := (User_ID u, User_AWGAddress u).

Lemma row_protocols w u : rowView (withProtocols w u) = rowView u.
Proof. unfold withProtocols. by repeat case_match. Qed.
Lemma row_deadline f u : rowView (formDeadline f u) = rowView u.
Proof. unfold formDeadline. by repeat case_match. Qed.
Lemma row_reset f u : rowView (resetDeadline f u) = rowView u.
Proof. unfold resetDeadline, formDeadline. by repeat case_match. Qed.
Lemma row_create f dr u : rowView (createMTProxy dr f u) = rowView u.
Proof. unfold createMTProxy. by repeat case_match. Qed.
Lemma row_update f u : rowView (updateMTProxy f u) = rowView u.
Proof. unfold updateMTProxy. by repeat case_match. Qed.
Lemma row_secret f u v : updateSecretType f u = Some v -> rowView v = rowView u.
Proof. unfold updateSecretType. by repeat case_match; intros [= <-]. Qed.
Lemma row_token dr w u : rowView (withToken dr w u) = rowView u.
Proof. unfold withToken. by case_match. Qed.
Lemma row_stamped now u : rowView (stamped now u) = rowView u.
Proof. unfold stamped. by case_match. Qed.
Lemma row_ensure g u : rowView (fst (EnsureUserCreds g u)) = rowView u.
Proof. destruct (EnsureUserCreds_keeps g u) as [_ _ R]. change (rowView (clearCreds (fst (EnsureUserCreds g u))) = rowView (clearCreds u)). by rewrite R. Qed.

Lemma row_free us u v : rowView v = rowView u -> addressFree us u -> addressFree us v.
Proof. intros [= E1 E2] H x Hx. rewrite E1, E2. by apply H. Qed.

Lemma withCreds_free dr w sf u : base w = Some sf -> User_AWGAddress u = "" \/ addressFree (sf_Users sf) u -> addressFree (sf_Users sf) (withCreds dr w u).
Proof.
  intros Hb Hu. unfold withCreds. apply withAddress_free; [done|]. destruct Hu as [E|H]; [left|right].
  - pose proof (row_ensure (ud_creds dr) u) as [= _ E']. by rewrite E'.
  - eapply row_free; [apply row_ensure|done].
Qed.

(** A token that was drawn is nobody's. *)
Lemma mintToken_fresh w sf tokens : base w = Some sf -> mintToken w tokens <> "" -> forall v, v ∈ sf_Users sf -> User_SubscriptionToken v <> mintToken w tokens.
Proof.
  intros Hb. induction tokens as [|[t|] tokens IH]; cbn [mintToken]; [done| |done].
  unfold GetUserBySubscriptionToken. destruct (bool_decide_reflect (t = "")) as [->|Ht]; [done|].
  destruct (base_opens _ _ Hb) as [_ [Hr|[Hr ->]]]; unfold readAny; rewrite Hr; [|intros _ v Hv; by apply not_elem_of_nil in Hv].
  destruct (List.find _ _) as [x|] eqn:E; [done|]. intros _ v Hv Hne. apply list_elem_of_In in Hv.
  pose proof (List.find_none _ _ E v Hv) as H. by apply bool_decide_eq_false in H.
Qed.

Lemma createdUser_free now dr f w sf : base w = Some sf -> User_ID (createdUser now dr f w) = FormTrim f "id" /\ addressFree (sf_Users sf) (createdUser now dr f w).
Proof.
  intros Hb. unfold createdUser. cbv zeta. match goal with |- context [withCreds dr w ?x] => set (u := x) end.
  assert (rowView u = (FormTrim f "id", "")) as Hu.
  { unfold u. rewrite row_deadline. match goal with |- rowView (withQuota f ?y) = _ => change (rowView (withQuota f y)) with (rowView y) end.
    by rewrite row_create, row_protocols. }
  assert (rowView (withCreds dr w u) = (FormTrim f "id", User_AWGAddress (withCreds dr w u))) as Hc.
  { unfold rowView. f_equal. rewrite (identity_id _ _ (withCreds_identity dr w u)). by injection Hu. }
  split.
  - pose proof (row_token dr w (withCreds dr w u)) as E. rewrite Hc in E. by injection E.
  - eapply row_free; [|apply (withCreds_free dr w sf u Hb)]; [exact (row_token dr w (withCreds dr w u))|]. left. by injection Hu.
Qed.

Lemma credsComplete_identity u v : keepsIdentity u v -> User_Protocols v = User_Protocols u -> credsComplete u -> credsComplete v.
Proof.
  intros Hk Hp (H1 & H2 & H3 & H4 & H5). assert (forall p, hasProtocol v p = hasProtocol u p) as E by (intros p; unfold hasProtocol; by rewrite Hp).
  assert (forall f, f ∈ credFields -> f u <> "" -> f v <> "") as Hf.
  { intros f Hin Hu. rewrite (identity_field f u v); [done| |done|done]. apply elem_of_app. by right. }
  unfold credsComplete. rewrite !E. split; [intros H; apply Hf; [in_creds|by apply H1]|].
  split; [intros H; destruct (H2 H); split; apply Hf; (done || in_creds)|].
  split; [intros H; apply Hf; [in_creds|by apply H3]|]. split; [intros H; destruct (H4 H); split; apply Hf; (done || in_creds)|].
  destruct H5 as (? & ? & ? & ? & ? & ?). split_and!; apply Hf; (done || in_creds).
Qed.

Lemma createdUser_view now dr f w :
  let v := createdUser now dr f w in
  formView v = (FormTrim f "name", FormTrim f "telegram", FormTrim f "email", FormList f "chains", true, chainExits f (FormList f "chains"),
                formExpiry f, formStrategy f, atoi0 (FormValue f "data_limit")) /\ User_Status v = ComputeStatus now v.
Proof.
  cbv zeta. split; [|done]. unfold createdUser. cbv zeta.
  match goal with |- formView (?x <| User_Status := ?st |>) = _ => change (formView (x <| User_Status := st |>)) with (formView x) end.
  rewrite view_token, view_creds.
  match goal with |- context [createMTProxy dr f (withProtocols w ?x)] => set (u := x); set (u1 := createMTProxy dr f (withProtocols w u)) end.
  assert (formView u1 = formView u) as E. { unfold u1, createMTProxy. transitivity (formView (withProtocols w u)); [by repeat case_match|apply view_protocols]. }
  assert (forall x, formView (formDeadline f x) = formView x) as -> by (intros x; unfold formDeadline; by repeat case_match).
  injection E. intros. unfold formView, withQuota. cbn in *. congruence.
Qed.

Lemma createdUser_complete now dr f w : genWorks (ud_creds dr) -> credsComplete (createdUser now dr f w).
Proof.
  intros Hg. unfold createdUser. cbv zeta. match goal with |- context [withCreds dr w ?x] => set (u := x) end. clearbody u.
  destruct (EnsureUserCreds_stable (ud_creds dr) u Hg) as (_ & _ & Hc & _).
  assert (keepsIdentity (fst (EnsureUserCreds (ud_creds dr) u)) (withToken dr w (withCreds dr w u))) as Hk.
  { unfold withCreds. etransitivity; [apply withAddress_identity|apply withToken_identity]. }
  assert (User_Protocols (withToken dr w (withCreds dr w u)) = User_Protocols (fst (EnsureUserCreds (ud_creds dr) u))) as Hp.
  { unfold withToken, withCreds, withAddress, EnsureUserAWGAddressPrefix. by repeat case_match. }
  exact (credsComplete_identity _ _ Hk Hp Hc).
Qed.

Lemma createdUser_token now dr f w sf : base w = Some sf -> forall x, x ∈ sf_Users sf -> User_SubscriptionToken (createdUser now dr f w) <> "" ->
  User_SubscriptionToken x <> User_SubscriptionToken (createdUser now dr f w).
Proof.
  intros Hb x Hx. unfold createdUser. cbv zeta. match goal with |- context [withCreds dr w ?x] => set (u := x) end.
  change (User_SubscriptionToken (?y <| User_Status := _ |>)) with (User_SubscriptionToken y).
  assert (User_SubscriptionToken (withCreds dr w u) = "") as E.
  { unfold withCreds, withAddress, EnsureUserAWGAddressPrefix. destruct (EnsureUserCreds_keeps (ud_creds dr) u) as [_ _ R].
    transitivity (User_SubscriptionToken (clearCreds (fst (EnsureUserCreds (ud_creds dr) u)))); [by repeat case_match|]. rewrite R.
    unfold u, createMTProxy, withProtocols, formDeadline. by repeat case_match. }
  unfold withToken. rewrite E. rewrite bool_decide_eq_true_2 by done. intros Hne. by apply (mintToken_fresh w sf).
Qed.

(** A user made by the form is complete.  On a
    store that can be written, a form with a name, an identifier and no foreign
    secret is accepted unless its MTProxy secret is in use; the user is
    stored under the identifier (in the place of one that had it, see
    [create_replaces_user]) with the fields of the form, with the
    credentials his protocols need, a tunnel address and a subscription token
    nobody else has, and the status that fits; the other users and the
    rest of the store stay, and the nodes that serve him are scheduled, each
    after he is on disk. *)
Theorem user_create_exact now dr host f w sf :
  writable w -> base w = Some sf -> acceptable f = true -> genWorks (ud_creds dr) ->
  let '(reply, w', scheds) := handleCreateUser now dr host (Some f) w in
  (exists v sf', reply = UCreated v (host +:+ "/sub/" +:+ User_SubscriptionToken v) /\ writable w' /\ base w' = Some sf' /\ usersOnly sf sf' /\
     User_ID v = FormTrim f "id" /\ (forall k, find_key k (sf_Users sf') = if k == FormTrim f "id" then Some v else find_key k (sf_Users sf)) /\
     formView v = (FormTrim f "name", FormTrim f "telegram", FormTrim f "email", FormList f "chains", true, chainExits f (FormList f "chains"),
                   formExpiry f, formStrategy f, atoi0 (FormValue f "data_limit")) /\ User_Status v = ComputeStatus now v /\
     credsComplete v /\ addressFree (sf_Users sf) v /\
     (forall x, x ∈ sf_Users sf -> User_SubscriptionToken v <> "" -> User_SubscriptionToken x <> User_SubscriptionToken v) /\
     (forall s, s ∈ scheds -> sch_store s = w') /\ (forall n, n <> "" -> n ∈ map sch_node scheds <-> servedOn v w' n)) \/
  (reply = USecretUsed /\ w' = w /\ scheds = []).
Proof.
  intros Hw Hb Ha Hg. rewrite handleCreateUser_unfold, Ha.
  destruct (saveUser_cases now (createdUser now dr f w) "user create" (fun u => UCreated u (host +:+ "/sub/" +:+ User_SubscriptionToken u)) w sf Hw Hb)
    as [(w' & -> & Hw' & Hb')| ->]; [left|by right].
  destruct (createdUser_free now dr f w sf Hb) as [Hid Hf]. destruct (createdUser_view now dr f w) as [Hv Hs].
  pose proof (createdUser_complete now dr f w Hg) as Hc. pose proof (createdUser_token now dr f w sf Hb) as Ht.
  set (u := createdUser now dr f w) in *. destruct (status_stamped now u) as [E1 E2]. destruct (schedule_spec (stamped now u) "user create" w') as [Hs1 Hs2].
  exists (stamped now u). eexists. split; [done|]. split; [done|]. split; [exact Hb'|]. split; [apply usersOnly_bump|].
  split; [by rewrite stamped_id|]. split; [intros k; by rewrite bump_users, find_saved, stamped_id, Hid|]. split; [by rewrite view_stamped|].
  split; [by rewrite E1, E2|]. split; [apply (credsComplete_identity u); [apply stamped_identity|unfold stamped; by case_match|done]|].
  split; [eapply row_free; [apply row_stamped|done]|]. split; [|done].
  intros x Hx. assert (User_SubscriptionToken (stamped now u) = User_SubscriptionToken u) as -> by (unfold stamped; by case_match). by apply Ht.
Qed.

(** ** Every sequence of requests *)

Inductive UserRequest :=
| ReqCreate (dr : UserDraws) (host : string) (form : option Form)
| ReqUpdate (dr : UserDraws) (id : string) (form : option Form)
| ReqDelete (id : string)
| ReqBulk (dr : BulkDraws) (form : option Form).

Definition serveUserRequest (now : Time) (q : UserRequest) (w : World) : UserReply * World * list Scheduled :=
  match q with
  | ReqCreate dr host form => handleCreateUser now dr host form w
  | ReqUpdate dr id form => handleUpdateUser now dr id form w
  | ReqDelete id => handleDeleteUser id w
  | ReqBulk dr form => handleBulkCreateUsers now dr form w
  end.
Fixpoint serveAll (qs : list (Time * UserRequest)) (w : World) : World :=
  match qs with [] => w | (now, q) :: qs' => serveAll qs' (serveUserRequest now q w).1.2 end.

(** No two users have one tunnel address. *)
Definition addressesDistinct (us : list User) : Prop := forall u, u ∈ us -> addressFree us u.

(** The store can be written, differs from [sf] in its users only, and their
    addresses are distinct. *)
Definition usersGood (sf : storeFile) (w : World) : Prop :=
  writable w /\ exists sf', base w = Some sf' /\ usersOnly sf sf' /\ NoDup (keys (sf_Users sf')) /\ addressesDistinct (sf_Users sf').

Lemma addressesDistinct_upsert us v : addressesDistinct us -> addressFree us v -> addressesDistinct (upsert v us).
Proof.
  intros Hd Hv u [->|Hu]%elem_of_upsert x [->|Hx]%elem_of_upsert Hne H1 H2; [done| | |by apply (Hd u Hu)].
  - by apply Hv.
  - intros E. by apply (Hv u Hu (not_eq_sym Hne) H2 H1).
Qed.

Lemma usersGood_saved sf sf' w' v : usersOnly sf sf' -> NoDup (keys (sf_Users sf')) -> addressesDistinct (sf_Users sf') -> addressFree (sf_Users sf') v ->
  writable w' -> base w' = Some (bump (sf' <| sf_Users := upsert v (sf_Users sf') |>)) -> usersGood sf w'.
Proof.
  intros Ho Hn Hd Hv Hw Hb. split; [done|]. eexists. split; [exact Hb|]. rewrite bump_users.
  split; [etransitivity; [exact Ho|apply usersOnly_bump]|]. split; [by apply NoDup_keys_upsert|by apply addressesDistinct_upsert].
Qed.

Lemma saveUser_good now v reason reply sf sf' w : usersOnly sf sf' -> NoDup (keys (sf_Users sf')) -> addressesDistinct (sf_Users sf') -> addressFree (sf_Users sf') v ->
  writable w -> base w = Some sf' -> usersGood sf (saveUser now v reason reply w).1.2.
Proof.
  intros Ho Hn Hd Hv Hw Hb. destruct (saveUser_cases now v reason reply w sf' Hw Hb) as [(w' & -> & Hw' & Hb')| ->]; cbn [fst snd].
  - apply (usersGood_saved sf sf' w' (stamped now v)); try done. eapply row_free; [apply row_stamped|done].
  - split; [done|]. by exists sf'.
Qed.

Lemma updatedUser_free now dr f w sf id u v : base w = Some sf -> addressesDistinct (sf_Users sf) -> find_key id (sf_Users sf) = Some u ->
  updatedUser now dr f w u = Some v -> addressFree (sf_Users sf) v.
Proof.
  intros Hb Hd Hu. apply find_key_Some in Hu as [Hu _]. pose proof (Hd u Hu) as Hf. unfold updatedUser. cbv zeta.
  destruct (updateSecretType f _) as [u1|] eqn:E; [|done]. apply row_secret in E. intros [= <-].
  match goal with |- addressFree _ (?x <| User_Status := _ |>) => apply (row_free _ x); [done|] end.
  eapply row_free; [apply row_token|]. apply withCreds_free; [done|]. right. eapply row_free; [|exact Hf].
  rewrite row_protocols, row_reset.
  match goal with |- rowView (withQuota f (?x <| User_ChainExit := _ |>)) = _ => change (rowView x = rowView u) end.
  rewrite row_update. exact E.
Qed.

Lemma bulkUser_free now dr prefix chains e limit i w sf : base w = Some sf -> addressFree (sf_Users sf) (bulkUser now dr prefix chains e limit i w).
Proof.
  intros Hb. unfold bulkUser. cbv zeta. match goal with |- context [withCreds (snd dr) w ?x] => set (u := x) end.
  match goal with |- addressFree _ (?x <| User_Status := _ |>) => apply (row_free _ x); [done|] end.
  apply (row_free _ (withCreds (snd dr) w u)); [by repeat case_match|]. apply withCreds_free; [done|]. left.
  unfold u, withProtocols. by repeat case_match.
Qed.

Lemma bulkLoop_good now dr prefix chains e limit ords sf w : usersGood sf w -> usersGood sf (bulkLoop now dr prefix chains e limit ords w).1.2.
Proof.
  revert w. induction ords as [|i ords IH]; intros w (Hw & sf' & Hb & Ho & Hn & Hd); cbn [bulkLoop]; [split; [done|]; by exists sf'|].
  set (v := bulkUser now (dr i) prefix chains e limit i w). pose proof (bulkUser_free now (dr i) prefix chains e limit i w sf' Hb) as Hf. fold v in Hf.
  destruct (SaveUser_writable now v w sf' Hw Hb) as [(w' & -> & Hw' & Hb')|[n ->]].
  - assert (usersGood sf w') as Hg by (apply (usersGood_saved sf sf' w' (stamped now v)); try done; eapply row_free; [apply row_stamped|done]).
    apply IH in Hg. by destruct (bulkLoop _ _ _ _ _ _ ords w') as [[n w2] s2].
  - apply IH. split; [done|]. by exists sf'.
Qed.

Lemma serve_good now q sf w : usersGood sf w -> usersGood sf (serveUserRequest now q w).1.2.
Proof.
  intros (Hw & sf' & Hb & Ho & Hn & Hd). assert (usersGood sf w) as Hg by (split; [done|]; by exists sf').
  destruct q as [dr host [f|]|dr id [f|]|id|dr [f|]]; cbn [serveUserRequest]; try done.
  - rewrite handleCreateUser_unfold. destruct (acceptable f); [|done]. apply (saveUser_good _ _ _ _ sf sf'); try done. by apply createdUser_free.
  - rewrite handleUpdateUser_unfold, (GetUser_base _ _ _ Hb). destruct (find_key id (sf_Users sf')) as [u|] eqn:Eu; [|done].
    destruct (updatedUser now dr f w u) as [v|] eqn:Ev; [|done]. apply (saveUser_good _ _ _ _ sf sf'); try done. by eapply updatedUser_free.
  - unfold handleDeleteUser. destruct (DeleteUser_writable id w sf' Hw Hb) as [(w' & -> & Hw' & Hb')|[e ->]]; cbn [fst snd]; [|done].
    split; [done|]. eexists. split; [exact Hb'|]. rewrite bump_users. split; [etransitivity; [exact Ho|apply usersOnly_bump]|].
    split; [by apply NoDup_keys_remove_key|]. intros u Hu x Hx. apply list_elem_of_In, filter_In in Hu as [Hu%list_elem_of_In _].
    apply list_elem_of_In, filter_In in Hx as [Hx%list_elem_of_In _]. by apply Hd.
  - unfold handleBulkCreateUsers. cbv zeta. destruct (_ || _); [done|]. destruct (_ == ""); [done|].
    match goal with |- context [bulkLoop ?a ?b ?c ?d ?e ?f ?g ?h] => pose proof (bulkLoop_good a b c d e f g sf h Hg) as H; by destruct (bulkLoop a b c d e f g h) as [[n w'] s'] end.
Qed.

(** C30: tunnel addresses stay distinct.  Whatever sequence of requests creates,
    changes and deletes users, one at a time and in bulk, from a store that can
    be written in which no two users have one tunnel address, no two have one
    afterwards; and nothing but the users of the store changes. *)
Theorem user_addresses_distinct qs w sf :
  writable w -> base w = Some sf -> NoDup (keys (sf_Users sf)) -> addressesDistinct (sf_Users sf) ->
  let w' := serveAll qs w in
  writable w' /\ exists sf', base w' = Some sf' /\ usersOnly sf sf' /\ NoDup (keys (sf_Users sf')) /\ addressesDistinct (sf_Users sf').
Proof.
  intros Hw Hb Hn Hd. cbv zeta. change (usersGood sf (serveAll qs w)). assert (usersGood sf w) as Hg by (split; [done|]; by exists sf).
  clear Hw Hb Hn Hd. revert w Hg. induction qs as [|[now q] qs IH]; intros w Hg; cbn [serveAll]; [done|]. apply IH, serve_good, Hg.
Qed.

(** ** The page and the subscription *)

Section views.
Context (g : CPSGen) (s : PresetState) (ss obfs : string).

Lemma chainConfigs_links w u names : option_map (map ucc_link) (chainConfigs g s ss obfs w u "" names) =
  allLinks (omap (fun name => match GetChain name w with Ok c => Some (buildConnectionLink g s ss obfs w c (Some u) "") | Err _ => None end) names).
Proof.
  induction names as [|name names IH]; [done|]. cbn [chainConfigs omap list_omap]. change (omap ?f names) with (list_omap _ _ f names) in *.
  destruct (GetChain name w) as [c|]; [|exact IH]. cbn [allLinks]. rewrite <- IH.
  destruct (buildConnectionLink g s ss obfs w c (Some u) "") as [l|]; [|done]. by destruct (chainConfigs g s ss obfs w u "" names).
Qed.

Lemma nodeConfigs_links node u ibs : forall i, option_map (map ucc_link) (nodeConfigs g s ss obfs node u i ibs) = nodeLinks g s ss obfs node u i ibs.
Proof.
  induction ibs as [|ib ibs IH]; intros i; [done|]. cbn [nodeConfigs nodeLinks]. rewrite <- IH. destruct (nodeConfigs g s ss obfs node u (S i) ibs) as [rest|]; cbn [option_map]; [|done].
  destruct (linkedInbound u ib); [|done]. by destruct (buildStandaloneLinkFor g s ss obfs node i ib (Some u)).
Qed.

Lemma nodesConfigs_links u nodes : option_map (map ucc_link) (nodesConfigs g s ss obfs u nodes) =
  fold_right (fun l acc => match l, acc with Some l, Some acc => Some (l ++ acc) | _, _ => None end) (Some [])
    (map (fun n => nodeLinks g s ss obfs n u 0 (NodeInfo_Inbounds n)) nodes).
Proof.
  induction nodes as [|node nodes IH]; [done|]. cbn [nodesConfigs map fold_right]. rewrite <- IH, <- nodeConfigs_links.
  destruct (nodeConfigs g s ss obfs node u 0 (NodeInfo_Inbounds node)) as [l|]; [|done]. cbn [option_map].
  destruct (nodesConfigs g s ss obfs u nodes) as [rest|]; [|done]. cbn [option_map]. by rewrite map_app.
Qed.

Lemma mtproxyConfigs_links w u ids : map ucc_link (omap (mtproxyConfig w u) ids) = omap (mtproxyNodeLink w u) ids.
Proof. induction ids as [|id ids IH]; [done|]. cbn. unfold mtproxyConfig at 1. destruct (mtproxyNodeLink w u id); cbn; by rewrite IH. Qed.

(** C0: the page of a user and the subscription show the same links.  For a page
    without a clamped version, the configuration page and the QR page (which
    shows the links of the subscription) find the same user, leave the same
    store, and panic together; and the links of the rows are those links, in
    order, or there is no link and one row that says so. *)
Theorem config_view_is_subscription cg draw now id version w :
  TrimSpace version = "" ->
  match handleUserConfig g s ss obfs cg draw now id version w, handleUserQR g s ss obfs cg draw now id w with
  | Some (Some (u, configs), w1), Some (Some (v, links), w2) => u = v /\ w1 = w2 /\ (map ucc_link configs = links \/ (links = [] /\ configs = [noConfig w1]))
  | Some (None, w1), Some (None, w2) => w1 = w2
  | None, None => True
  | _, _ => False
  end.
Proof.
  intros Hv. unfold handleUserConfig, handleUserQR, collectUserLinks. destruct (GetUser id w) as [u|]; [|done].
  destruct (persistUserCreds cg now u w) as [u' w1]. cbv zeta. rewrite Hv, <- chainConfigs_links.
  set (nodes := match ListNodeInfos w1 with Ok ns => ns | Err _ => [] end).
  destruct (ensureStandaloneAWGMaterial s draw nodes w1) as [[nodes' w2]|]; [|by destruct (chainConfigs g s ss obfs w1 u' "" (User_ChainNames u'))].
  rewrite <- nodesConfigs_links. destruct (chainConfigs g s ss obfs w1 u' "" (User_ChainNames u')) as [cl|]; cbn [option_map]; [|done].
  destruct (nodesConfigs g s ss obfs u' nodes') as [sl|]; cbn [option_map]; [|done].
  set (mt := if _ && _ then omap (mtproxyConfig w2 u') _ else []).
  assert (map ucc_link mt = if (User_MTProxySecret u' != "") && negb (Nat.eqb (length (User_MTProxyNodes u')) 0) then omap (mtproxyNodeLink w2 u') (User_MTProxyNodes u') else []) as <-.
  { unfold mt. destruct (_ && _); [apply mtproxyConfigs_links|done]. }
  rewrite <- !map_app. split; [done|]. split; [done|]. destruct (cl ++ sl ++ mt); [by right|by left].
Qed.
End views.

(** ** Examples *)

Definition formOf (l : list (string * list string)) : Form := list_to_map l.
Definition worksGen : CredGen := mkCredGen "v" "t" (Some "p") "h" (Some ("priv", "pub")) (Some "psk") (Some "n") (Some "m") (Some "tt").
Definition someDraws : UserDraws := mkUserDraws worksGen "5ec7e7" [Some "tok"].

(** Two chains, of the nodes n1 and n2, whose entries have their own subnets. *)
Definition entryOn (subnet : string) : NodeInbound := zeroNodeInbound <| NodeInbound_Protocol := "awg" |> <| NodeInbound_ProfileID := "prof" |> <| NodeInbound_AWGServerAddress := subnet |>.
Definition nodeOn (id subnet : string) : NodeInfo := zeroNodeInfo <| NodeInfo_Host := zeroHost <| Host_ID := id |> |> <| NodeInfo_Inbounds := [entryOn subnet] |>.
Definition chainOn (name node : string) : Chain :=
  let n := zeroChainNode <| ChainNode_ID := node |> <| ChainNode_InboundRef := "prof" |> in
  zeroChain <| Chain_Name := name |> <| Chain_UserProtocol := "awg" |> <| Chain_Nodes := [n] |> <| Chain_Levels := [zeroChainLevel <| ChainLevel_Nodes := [n] |>] |>.
Definition twoChains (us : list User) : storeFile :=
  newStoreFile <| sf_Users := us |> <| sf_Chains := [chainOn "c1" "n1"; chainOn "c2" "n2"] |>
    <| sf_NodeInfos := [nodeOn "n1" "10.8.1.1/24"; nodeOn "n2" "10.8.2.1/24"] |> <| sf_Hosts := [zeroHost <| Host_ID := "n1" |>; zeroHost <| Host_ID := "n2" |>] |>.
Definition diskOf (sf : storeFile) : World := mkWorld (Some (Plain sf)) None None None [] None.
Definition annForm (id : string) (chains : list string) : Form := formOf [("id", [id]); ("name", ["Ann "]); ("chains", chains); ("active", ["on"])].
Definition ann : User :=
  zeroUser <| User_ID := "ann" |> <| User_Name := "Ann" |> <| User_CreatedAt := 1 |> <| User_Active := true |> <| User_Protocols := ["awg"] |> <| User_ChainNames := ["c1"] |>
    <| User_AWGPrivateKey := "key" |> <| User_AWGAddress := "10.8.1.2/32" |> <| User_SubscriptionToken := "old" |>.

Lemma user_create_exact_witness :
  let f := annForm "ann" ["c1"] in let sf := twoChains [] in let w := diskOf sf in let now := 7 in let dr := someDraws in let host := "http://h" in
  User_AWGAddress (createdUser now dr f w) = "10.8.1.2/32" /\
  let '(reply, w', scheds) := handleCreateUser now dr host (Some f) w in
  (exists v sf', reply = UCreated v (host +:+ "/sub/" +:+ User_SubscriptionToken v) /\ writable w' /\ base w' = Some sf' /\ usersOnly sf sf' /\
     User_ID v = FormTrim f "id" /\ (forall k, find_key k (sf_Users sf') = if k == FormTrim f "id" then Some v else find_key k (sf_Users sf)) /\
     formView v = (FormTrim f "name", FormTrim f "telegram", FormTrim f "email", FormList f "chains", true, chainExits f (FormList f "chains"),
                   formExpiry f, formStrategy f, atoi0 (FormValue f "data_limit")) /\ User_Status v = ComputeStatus now v /\
     credsComplete v /\ addressFree (sf_Users sf) v /\
     (forall x, x ∈ sf_Users sf -> User_SubscriptionToken v <> "" -> User_SubscriptionToken x <> User_SubscriptionToken v) /\
     (forall s, s ∈ scheds -> sch_store s = w') /\ (forall n, n <> "" -> n ∈ map sch_node scheds <-> servedOn v w' n)) \/
  (reply = USecretUsed /\ w' = w /\ scheds = []).
Proof.
  intros f sf w now dr host. split; [vm_compute; reflexivity|].
  apply (user_create_exact now dr host f w sf); [by split|reflexivity|vm_compute; reflexivity|].
  unfold genWorks. split_and!; try (vm_compute; discriminate); repeat eexists; vm_compute; discriminate.
Defined.


Lemma user_addresses_distinct_witness :
  let bulk := formOf [("count", ["2"]); ("name_prefix", ["b"]); ("chain_names", ["c1"])] in
  let qs := [(5, ReqCreate someDraws "h" (Some (annForm "bob" ["c1"]))); (6, ReqBulk (fun i => (itoa (Z.of_nat i), someDraws)) (Some bulk));
             (7, ReqUpdate someDraws "bob" (Some (annForm "bob" ["c1"; "c2"]))); (8, ReqDelete "ann")] in
  let sf := twoChains [ann] in let w := diskOf sf in
  let w' := serveAll qs w in
  option_map (fun sf => map User_AWGAddress (sf_Users sf)) (base w') = Some ["10.8.1.3/32"; "10.8.1.4/32"; "10.8.1.5/32"] /\
  (writable w' /\ exists sf', base w' = Some sf' /\ usersOnly sf sf' /\ NoDup (keys (sf_Users sf')) /\ addressesDistinct (sf_Users sf')).
Proof.
  intros bulk qs sf w w'. split; [vm_compute; reflexivity|].
  apply (user_addresses_distinct qs w sf); [by split|reflexivity|apply NoDup_cons; split; [apply not_elem_of_nil|apply NoDup_nil_2]|].
  intros u Hu%list_elem_of_singleton v Hv%list_elem_of_singleton Hne. subst u v. by destruct Hne.
Defined.

(** The user of [annWithProxy] is an MTProxy client of n1. *)
Definition annWithProxy : User := ann <| User_MTProxySecret := "5ec7e7" |> <| User_MTProxyNodes := ["n1"] |>.

(** ** Divergences *)

(** A form with the identifier of a user replaces him: his credentials are gone. *)
Lemma create_replaces_user :
  let '(_, w', _) := handleCreateUser 7 someDraws "h" (Some (annForm "ann" ["c1"])) (diskOf (twoChains [ann])) in
  option_map (fun sf => map User_AWGPrivateKey (sf_Users sf)) (base w') = Some ["priv"].
Proof. vm_compute. reflexivity. Qed.

(** A user who leaves a chain stays on its nodes until they are deployed for
    another reason: only the nodes of his new chains are scheduled. *)
Lemma left_chain_not_redeployed :
  let '(_, _, scheds) := handleUpdateUser 7 someDraws "ann" (Some (annForm "ann" ["c2"])) (diskOf (twoChains [ann])) in map sch_node scheds = ["n2"].
Proof. vm_compute. reflexivity. Qed.

(** So does one who is no MTProxy client any more. *)
Lemma left_mtproxy_not_redeployed :
  let '(_, _, scheds) := handleUpdateUser 7 someDraws "ann" (Some (annForm "ann" [])) (diskOf (twoChains [annWithProxy])) in scheds = [].
Proof. vm_compute. reflexivity. Qed.

Definition usersOf (w : World) : list User := match ListUsers w with Ok us => us | Err _ => [] end.

(** A deploy scheduled by a deletion can still read the deleted user. *)
Lemma deleted_user_can_be_deployed :
  let '(reply, w', scheds) := handleDeleteUser "ann" (diskOf (twoChains [ann])) in
  reply = UDeleted /\ usersOf w' = [] /\ map (fun s => usersOf (sch_store s)) scheds = [[ann]].
Proof. vm_compute. auto. Qed.

(** A user who moves to a chain with another subnet keeps his old address. *)
Lemma address_stays_behind :
  let '(_, w', _) := handleUpdateUser 7 someDraws "ann" (Some (annForm "ann" ["c2"])) (diskOf (twoChains [ann])) in
  option_map (fun sf => map User_AWGAddress (sf_Users sf)) (base w') = Some ["10.8.1.2/32"] /\ userAWGPrefix ["c2"] w' = "10.8.2".
Proof. vm_compute. auto. Qed.

(** MTProxy that is switched on without a secret: a new user gets one, a changed
    one loses his. *)
Lemma enabled_without_secret :
  let f := formOf [("id", ["ann"]); ("name", ["Ann"]); ("mtproxy_enabled", ["on"]); ("mtproxy_nodes", ["n1"])] in let w := diskOf (twoChains [annWithProxy]) in
  User_MTProxySecret (createdUser 7 someDraws f w) = "5ec7e7" /\ option_map User_MTProxySecret (updatedUser 7 someDraws f w annWithProxy) = Some "".
Proof. vm_compute. auto. Qed.
